(* ===== verification/_CoqProject ===== *)
-Q . S2P
Prelude.v
GoStrings.v
GoFloat.v
NMApi.v
HadoopConf.v
Quantity.v
Action.v
Conflict.v
Detection.v
RuleCheck.v
Topology.v
Cgroup.v
NMOperator.v
Qos.v
Adaptive.v
ProjectFile.v
ProjectQuota.v
K8sResource.v
Ginit.v
YarnPort.v
YarnDisks.v
Silence.v
DiskQuota.v
Notify.v
Predict.v
Online.v
CgroupStore.v
Checkers.v
Lighthouse.v
LighthousePlugin.v
Alarm.v
YarnClient.v
QosManager.v
Config.v
HealthConfig.v
NodeStore.v
NetIO.v
OuterMetrics.v
Cpi.v
YarnMetrics.v
Mountpoint.v
NodeManager.v
HealthManager.v
Pmu.v
PerfStore.v
MetricsExport.v
OuterExport.v
Checkpoint.v
QosLife.v
NotifyLife.v
Server.v
ReverseProxy.v
CgroupFiles.v
ProjectIO.v
NMStart.v
