(* ===== verification/Prelude.v ===== *)
(** * Caelus: a verification development

    Caelus runs on every node of a Kubernetes cluster and lets offline (batch)
    jobs use the resources that online services leave idle.  It predicts the
    idle resources, publishes them to the scheduler, isolates the offline jobs
    with cgroups, traffic classes and disk quotas, watches the online services
    with rules, and takes resources back, stops scheduling or evicts jobs when a
    rule detects a conflict.  This library models these parts of the sources
    under src/ as executable definitions and proves the theorems that make them
    correct.

    ** How the parts interact

    The configuration (Config.v, HealthConfig.v) is read, completed and checked
    first; then the agent makes the modules that it enables and starts them
    behind the informers of Kubernetes (Server.v).  The stores collect what the
    node, the cgroups, the applications, Prometheus and the counters of the
    processor report (NodeStore.v, CgroupStore.v, OuterMetrics.v, PerfStore.v over
    Pmu.v); they are published as metrics (MetricsExport.v), together with
    external ones (OuterExport.v).  Online jobs outside of Kubernetes are
    found and given cgroups (Online.v).  The checkers
    (Checkers.v) feed these metrics to the detectors (Detection.v) of their rules
    (RuleCheck.v); an anomaly runs actions whose results are merged (Action.v)
    and handed to the dispatcher (RuleCheck.v), which updates the conflict
    manager (Conflict.v) and switches scheduling.  The kernel's memory
    notifications (Notify.v, NotifyLife.v) kill offline jobs directly.  The health
    manager (HealthManager.v) replaces the rules and the notifiers when their
    file changes.

    The QoS manager (QosLife.v) subtracts the conflicts from the prediction
    (Predict.v, QosManager.v) and gives the rest to the resource managers (Qos.v,
    Adaptive.v, NetIO.v), which choose cores (Topology.v), write cgroup files
    (Cgroup.v, CgroupFiles.v) and set up traffic control.  The node resource
    manager (Silence.v, NodeManager.v), whose scheduling state survives a restart
    (Checkpoint.v), subtracts the conflicts in the same way and publishes the rest through its
    client: the one for Kubernetes (K8sResource.v), which also kills pods, or the
    one for YARN (YarnClient.v), which adapts the resources to the disks and the
    minimum of the cluster (YarnDisks.v) and talks to the node manager (Ginit.v,
    YarnPort.v) over HTTP (NMApi.v).  The other end is the operator
    (NMStart.v, NMOperator.v), which edits the Hadoop files (HadoopConf.v) and
    drives the node manager; YarnMetrics.v watches the node manager.

    Independently, the disk quota manager (DiskQuota.v) limits the volumes of
    pods with XFS project ids (ProjectQuota.v, ProjectFile.v, ProjectIO.v) on the
    devices that Mountpoint.v finds; lighthouse (Lighthouse.v), which reaches the
    container runtime through its proxy (ReverseProxy.v), and its plugin server
    (LighthousePlugin.v) move the containers of offline pods to the cgroups in
    which the rest of caelus looks for them; Cpi.v looks for the tasks that slow
    others down; and the parts send alarms (Alarm.v).

    ** Files

    The base:

    - Prelude.v: machine integers, errors and crashes, times, generic lemmas on
      lists and maps, and [RangeOrder], the order in which Go visits a map.
    - GoStrings.v, GoFloat.v: the functions of strings and strconv on byte
      strings, and IEEE-754 binary64 arithmetic with Go's conversions.
    - Quantity.v: resource.Quantity of the Kubernetes libraries, as an interface
      ([QuantityOps], [QuantityLaws]) with an instance over the integers.
    - NMApi.v: pkg/types/types_yarn.go, the messages between caelus and the
      operator, and the interface [NMServer].

    Health checks, all under pkg/caelus/healthcheck unless named:

    - Action.v: action, the resources and results of actions, their merge, and
      the adjustment of offline resources.
    - Conflict.v: conflict, the conflict manager; its state is the map from
      resources to stored conflicts.
    - Detection.v: pkg/caelus/detection, the ring buffer and the detectors.
    - RuleCheck.v, Checkers.v: rulecheck and dispatcher, the rule engine, the
      checkers of the node, of applications and of containers with the
      correlation analysis.
    - Notify.v, NotifyLife.v: cgroupnotify, the notifications of memory pressure
      and usage, and the notifiers that are made, stopped and replaced while
      their goroutines run, over the kernel's table of descriptors.
    - HealthManager.v: the manager of the checks and the reload of their file.

    Resources and isolation:

    - Topology.v, Cgroup.v, CgroupFiles.v: pkg/caelus/util/cgroup, hyper-threads
      and the choice of cores, the files of the cgroup file system and the lookup
      of its mount point; the state [world] has the files and the package
      variables, and operations are functions of a state monad.
    - Qos.v, Adaptive.v, NetIO.v, QosManager.v, QosLife.v: pkg/caelus/qos,
      isolation by offline class, cpuset, quota and memory limit, the policy that
      chooses between them by measuring, traffic shaping, the round of the manager,
      and its construction, start, loop and events.
    - Predict.v: pkg/caelus/predict, the predictors and the reserve.
    - Silence.v, K8sResource.v: pkg/caelus/resource and pkg/util/times, silent
      periods and the scheduling state against the interface [ScheduleClient],
      the requests of pods, the order in which they are killed.
    - NodeManager.v, Checkpoint.v: the manager of the node's resources with its
      events, and pkg/caelus/checkpoint, the documents that outlive a restart.
    - Ginit.v, YarnPort.v, YarnDisks.v, YarnClient.v, YarnMetrics.v:
      pkg/caelus/resource/yarn and resource_yarn.go.
    - HadoopConf.v, NMOperator.v, NMStart.v: pkg/nm-operator.

    Storage, stores and the rest:

    - Mountpoint.v: pkg/caelus/util/mountpoint, the table of mounts.
    - ProjectFile.v, ProjectIO.v, ProjectQuota.v, DiskQuota.v:
      pkg/caelus/diskquota, the texts of the files, the system calls behind a write,
      the manager of project ids over a model of the kernel, the volumes of
      pods and the rounds over the interface [QuotaManager].
    - CgroupStore.v, NodeStore.v, OuterMetrics.v, Pmu.v, PerfStore.v:
      pkg/caelus/statestore.
    - MetricsExport.v, OuterExport.v: pkg/caelus/metrics.
    - Online.v, Cpi.v, Alarm.v: pkg/caelus/online, cpi and alarm.
    - Config.v, HealthConfig.v: pkg/caelus/types.
    - Lighthouse.v, ReverseProxy.v, LighthousePlugin.v: contrib.
    - Server.v: cmd/caelus, the context, the modules and the server.

    ** Theorems

    - Order independence: merging action results, updating and subtracting
      conflicts give the same result for every order of Go's maps and goroutines
      ([Merge_order_independent], [UpdateConflictList_order_independent]); the
      handlers of the plugin can run in any order ([create_handlers_any_order]);
      samples and mounts are right in every order ([prom_recent_exact],
      [main_mount_correct]).
    - Refinement: the conflict manager implements an abstract map of offsets
      ([CheckAndSubConflictResource_correct]), the ring buffer the last values,
      the search for the main mount a specification over paths
      ([main_mount_correct]); every rate of the node store is that between two
      readings ([rates_between_readings]); every alarm is delivered once
      and in order ([alarms_delivered_in_order]); the runtime sees the request with all patches
      ([runtime_sees_patched_request]) and creates offline containers where
      caelus looks for them ([offline_container_created_for_caelus]); the client
      gets the answer of the runtime ([client_response_exact]); from the start of
      the agent to the file of the kernel, the memory of offline jobs follows the
      prediction ([memory_limit_follows_prediction]).
    - Safety and invariants over histories: rules respect their intervals
      ([checkRule_rate_limited]), project ids stay exclusive
      ([quota_ids_exclusive]), the tracked volumes are those of the pods
      ([tracked_pods_exact]), a disabled node offers nothing
      ([disabled_node_offers_nothing]), the series of a task stay aligned
      ([manager_steps_ok]), traffic control is stable once it is reconciled
      ([reconciled_interface_stable]), a running notifier hears its own signals
      only ([running_notifier_hears_its_own]), a crash leaves the files of project
      ids readable ([crash_keeps_ids_readable]), the started manager never
      dies ([started_manager_never_dies]), every request gets one status
      ([one_status]).
    - The start: a checked configuration starts exactly when what its check leaves
      out works ([agent_starts_iff]), in the order of the uses
      ([modules_start_after_their_uses]); the operator owns its cgroups
      ([started_operator_owns_cgroups]).
    - Types: accepted configurations are well-formed ([initialised_config_wf],
      [health_config_wf]), and what they configure does not panic
      ([generated_rules_never_panic], [checked_config_never_panics]).
    - Termination and progress: conflicts recover ([conflict_recovery_bounded]),
      the contest of cpu policies ends with the better one
      ([adaptive_converges]), the search for an id ends, a job is completed in
      every round ([one_job_per_round]), the handler of a switched connection
      returns after all output ([output_survives_stdin_close]), streams are
      flushed in time ([stream_flushed_in_time]).
    - Functional specifications: detectors, the choice of cores, cpuset
      isolation, the addresses of a traffic class ([managed_ips_exact]), the
      containers and pods that are killed, the suspect of an anomaly
      ([suspect_correct]), the listed statistics ([listed_stats_exact]), the
      capacity sent to YARN, the header that the runtime sees
      ([backend_headers_exact]), the root of the cgroups
      ([root_above_first_cgroup]), the counters of a container ([get_cpi_counts]).
    - Round trips: cpu lists, project files, quota limits, times of the day,
      lines of the mount table, metrics of devices, answers of applications,
      saved documents ([saved_document_restores]).
    - Defects: the theorems whose comment describes a misbehaviour state what the
      code does where this departs from its intent (a failed write spoils the
      later ones, a refused limit is never retried, a stale task ends the
      process, an accepted rule reads a value of another type, and others).

    ** Parameters, bounds and fuel

    Code outside of the repository is a parameter: quantities, govaluate and the
    EWMA library, gopsutil, the VPA's histograms, cadvisor, the timed buffers,
    regular expressions, JSON, docker, netlink, the kernel ([CgroupEnv],
    [QuotaEnv], [NetKernel], [MountEnv] and others), the answers of the API
    server and of other servers, [GoSort] for the unstable sort.  Their laws
    are documented behaviour, and instances show that they can hold.  Integers
    keep their width: [int64], [int32], [uint32] and [uint64] wrap.  Printing a
    number uses [digits_fuel], one step per binary digit, which the round trips
    show to be enough; the search for a project id uses [alloc_fuel], one step
    per id in use and 258 more, and [allocateProjectID_terminates] shows that it
    never runs out; the loops over paths in Mountpoint.v take their fuel as an
    argument, [main_mount_correct] shows that more than the depth of the paths is
    enough, and [relative_subtree_loops] that nothing is for a subtree that is
    not a path.  All other recursion is structural.  Log messages and
    prometheus counters are left out, and so are the texts of most errors.
    Mutexes make each modelled operation atomic; goroutines are modelled as
    sequences of operations, or as steps in any interleaving where they race.

    ** Not modelled

    The flags, routes and signals of the commands, the registration of metrics with
    the registry of Prometheus, thin wrappers around docker, cadvisor, sets and
    retries, the interface that joins the stores, the sockets of lighthouse and
    of the operator, and the mocks of the tests: they are calls of libraries
    for the most part.  The generated code of the configuration of lighthouse is
    left out, but for its defaults. *)

From Stdlib Require Export ZArith Lia ZifyBool.
From stdpp Require Export base numbers strings sorting gmap.
From stdpp Require Export list.

#[global] Open Scope Z_scope.

(** ** Automation *)

Create HintDb caelus discriminated.

(** Case analysis on every boolean comparison of the goal, then arithmetic. *)
Ltac split_bools :=
  repeat match goal with
         | |- context [Z.ltb ?a ?b] => destruct (Z.ltb_spec a b)
         | |- context [Z.leb ?a ?b] => destruct (Z.leb_spec a b)
         | |- context [Z.eqb ?a ?b] => destruct (Z.eqb_spec a b)
         | |- context [Nat.ltb ?a ?b] => destruct (Nat.ltb_spec a b)
         | |- context [Nat.leb ?a ?b] => destruct (Nat.leb_spec a b)
         | |- context [Nat.eqb ?a ?b] => destruct (Nat.eqb_spec a b)
         end.

(** Unfold a [let '(a, b) := e in _] of a hypothesis or the goal. *)
Ltac destruct_lets :=
  repeat match goal with
         | H : context [let '(_, _) := ?e in _] |- _ => destruct e eqn:?
         | |- context [let '(_, _) := ?e in _] => destruct e eqn:?
         end.

(** ** Machine integers

    Go's [int] on the supported platforms is 64 bits wide, so [int] and
    [int64] wrap at the same width. *)

Definition wrap_signed (w z : Z) : Z := (z + 2 ^ (w - 1)) `mod` 2 ^ w - 2 ^ (w - 1).
Definition wrap_unsigned (w z : Z) : Z := z `mod` 2 ^ w.

Definition int64 (z : Z) : Z := wrap_signed 64 z.
Definition int32 (z : Z) : Z := wrap_signed 32 z.
Definition uint64 (z : Z) : Z := wrap_unsigned 64 z.
Definition uint32 (z : Z) : Z := wrap_unsigned 32 z.

Definition in_int64 (z : Z) : Prop := - 2 ^ 63 <= z < 2 ^ 63.
Definition in_int32 (z : Z) : Prop := - 2 ^ 31 <= z < 2 ^ 31.
Definition in_uint32 (z : Z) : Prop := 0 <= z < 2 ^ 32.
Definition in_uint64 (z : Z) : Prop := 0 <= z < 2 ^ 64.

#[global] Instance in_int64_dec z : Decision (in_int64 z).
Proof. unfold in_int64. apply _. Defined.

Lemma int64_id z : in_int64 z -> int64 z = z.
Proof.
  unfold in_int64, int64, wrap_signed. intros H.
  rewrite Z.mod_small; simpl in *; lia.
Qed.

Lemma int64_range z : in_int64 (int64 z).
Proof.
  unfold in_int64, int64, wrap_signed.
  pose proof (Z.mod_pos_bound (z + 2 ^ (64 - 1)) (2 ^ 64) ltac:(lia)). simpl in *. lia.
Qed.

Lemma int64_add_l a b : int64 (int64 a + b) = int64 (a + b).
Proof.
  unfold int64, wrap_signed. f_equal.
  replace ((a + 2 ^ (64 - 1)) `mod` 2 ^ 64 - 2 ^ (64 - 1) + b + 2 ^ (64 - 1)) with ((a + 2 ^ (64 - 1)) `mod` 2 ^ 64 + b) by lia.
  rewrite Z.add_mod_idemp_l by done. f_equal. lia.
Qed.

Lemma int32_id z : in_int32 z -> int32 z = z.
Proof.
  unfold in_int32, int32, wrap_signed. intros H.
  rewrite Z.mod_small; simpl in *; lia.
Qed.

Lemma uint32_id z : in_uint32 z -> uint32 z = z.
Proof. unfold in_uint32, uint32, wrap_unsigned. intros H. apply Z.mod_small. simpl in *. lia. Qed.

Lemma uint64_id z : in_uint64 z -> uint64 z = z.
Proof. unfold in_uint64, uint64, wrap_unsigned. intros H. apply Z.mod_small. simpl in *. lia. Qed.

#[export] Hint Resolve int64_id int32_id uint32_id uint64_id int64_range : caelus.

(** ** Errors and crashes

    A Go function that returns [(T, error)] is a function to [result T]; its
    [error] values are the strings of the source.  A function that can panic or
    reach [klog.Fatalf] (which exits the process) is a function to [outcome T]. *)

Definition error := string.

Inductive result (A : Type) : Type :=
| Ok (a : A)
| Err (e : error).
Arguments Ok {A} a.
Arguments Err {A} e.

#[global] Instance result_ret : MRet result := fun A a => Ok a.
#[global] Instance result_bind : MBind result := fun A B f r =>
  match r with Ok a => f a | Err e => Err e end.

Definition is_ok {A} (r : result A) : bool := match r with Ok _ => true | Err _ => false end.
Definition ok_or {A} (d : A) (r : result A) : A := match r with Ok a => a | Err _ => d end.

Inductive crash : Type :=
| Panic (why : string)
| Fatal (why : string).

Inductive outcome (A : Type) : Type :=
| Ret (a : A)
| Crash (c : crash).
Arguments Ret {A} a.
Arguments Crash {A} c.

#[global] Instance outcome_ret : MRet outcome := fun A a => Ret a.
#[global] Instance outcome_bind : MBind outcome := fun A B f r =>
  match r with Ret a => f a | Crash c => Crash c end.

Lemma outcome_bind_Ret {A B} (m : outcome A) (f : A -> outcome B) b :
  m ≫= f = Ret b -> exists a, m = Ret a /\ f a = Ret b.
Proof. destruct m as [a|]; [|done]. intros H. by exists a. Qed.

(** A computation on a state that can crash, and the use of one on a part of a
    larger state. *)
Definition SC (St A : Type) : Type := St -> outcome (A * St).

#[global] Instance SC_ret {St} : MRet (SC St) := fun A a s => Ret (a, s).
#[global] Instance SC_bind {St} : MBind (SC St) := fun A B f m s =>
  match m s with Ret (a, s') => f a s' | Crash c => Crash c end.

Definition sc_get {St A} (f : St -> A) : SC St A := fun s => Ret (f s, s).
Definition sc_modify {St} (f : St -> St) : SC St unit := fun s => Ret (tt, f s).
Definition sc_crash {St A} (c : crash) : SC St A := fun _ => Crash c.
Definition sc_zoom {St St' A} (get : St -> St') (put : St -> St' -> St) (m : SC St' A) : SC St A := fun s =>
  match m (get s) with Ret (a, s') => Ret (a, put s s') | Crash c => Crash c end.

Lemma sc_bind_Ret {St A B} (m : SC St A) (f : A -> SC St B) s b s' :
  (m ≫= f) s = Ret (b, s') -> exists a s1, m s = Ret (a, s1) /\ f a s1 = Ret (b, s').
Proof. unfold mbind, SC_bind. destruct (m s) as [[a s1]|]; [|done]. intros H. by exists a, s1. Qed.

(** [triple P m R]: from a state with [P], [m] crashes or ends with [R]. *)
Definition triple {St A} (P : St -> Prop) (m : SC St A) (R : A -> St -> Prop) : Prop :=
  forall s, P s -> match m s with Ret (a, s') => R a s' | Crash _ => True end.

Section Triples.
Context {St A B : Type}.
Implicit Types (P : St -> Prop) (m : SC St A).

Lemma triple_ret P (a : A) : triple P (mret a) (fun _ => P).
Proof. by intros s Hs. Qed.

Lemma triple_bind P m (k : A -> SC St B) (R : A -> St -> Prop) (R' : B -> St -> Prop) :
  triple P m R -> (forall a, triple (R a) (k a) R') -> triple P (m ≫= k) R'.
Proof.
  intros Hm Hk s Hs. specialize (Hm s Hs). unfold mbind, SC_bind.
  destruct (m s) as [[a s']|c]; [|done]. by apply Hk.
Qed.

Lemma triple_conseq P P' m (R R' : A -> St -> Prop) :
  (forall s, P s -> P' s) -> (forall a s, R' a s -> R a s) -> triple P' m R' -> triple P m R.
Proof. intros HP HR Hm s Hs. specialize (Hm s (HP s Hs)). destruct (m s) as [[a s']|c]; auto. Qed.

Lemma triple_get P (f : St -> A) : triple P (sc_get f) (fun a s => P s /\ a = f s).
Proof. by intros s Hs. Qed.

Lemma triple_modify P (f : St -> St) : (forall s, P s -> P (f s)) -> triple P (sc_modify f) (fun _ => P).
Proof. intros Hf s Hs. by apply Hf. Qed.

Lemma triple_crash P c (R : A -> St -> Prop) : triple P (sc_crash c) R.
Proof. by intros s Hs. Qed.
End Triples.

Lemma triple_zoom {St St' A} (get : St -> St') (put : St -> St' -> St) (P : St -> Prop) (P' : St -> St' -> Prop) (m : SC St' A) :
  (forall s, P s -> P' s (get s)) -> (forall s s', P s -> P' s s' -> P (put s s')) ->
  (forall s, triple (P' s) m (fun _ => P' s)) -> triple P (sc_zoom get put m) (fun _ => P).
Proof.
  intros Hg Hp Hm s Hs. unfold sc_zoom. specialize (Hm s (get s) (Hg s Hs)).
  destruct (m (get s)) as [[a s']|c]; auto.
Qed.

(** [m] keeps the invariant [I]. *)
Definition keeps {St A} (I : St -> Prop) (m : SC St A) : Prop := triple I m (fun _ => I).

Lemma keeps_bind {St A B} (I : St -> Prop) (m : SC St A) (k : A -> SC St B) :
  keeps I m -> (forall a, keeps I (k a)) -> keeps I (m ≫= k).
Proof. intros Hm Hk. by apply (triple_bind _ _ _ (fun _ => I)). Qed.

Lemma keeps_get {St A} (I : St -> Prop) (f : St -> A) : keeps I (sc_get f).
Proof. by intros s Hs. Qed.

Create HintDb keeps discriminated.
#[export] Hint Resolve triple_ret triple_modify triple_crash keeps_get : keeps.
#[export] Hint Extern 0 (keeps _ (mret _)) => apply triple_ret : keeps.
#[export] Hint Extern 0 (keeps _ (sc_crash _)) => apply triple_crash : keeps.
#[export] Hint Extern 1 (keeps _ (_ ≫= _)) => apply keeps_bind; [|intros ?] : keeps.
#[export] Hint Extern 2 (keeps _ (match ?x with _ => _ end)) => destruct x : keeps.

(** ** Time

    A [time.Time] is the number of nanoseconds since Go's zero time
    [time.Time{}]; a [time.Duration] is a number of nanoseconds. *)

Abbreviation time := Z (only parsing).
Abbreviation duration := Z (only parsing).

Definition nilTime : time := 0.
Definition Nanosecond : duration := 1.
Definition Second : duration := 1000 * 1000 * 1000.
Definition Minute : duration := 60 * Second.
Definition Hour : duration := 60 * Minute.

Definition time_Add (t : time) (d : duration) : time := t + d.
Definition time_After (t u : time) : bool := u <? t.
Definition time_Before (t u : time) : bool := t <? u.
(** [Time.Sub] saturates at the smallest and the largest [Duration]. *)
Definition time_Sub (t u : time) : duration :=
  Z.max (- 2 ^ 63) (Z.min (2 ^ 63 - 1) (t - u)).

(** 1970 is [unix_epoch] after the zero time; [time.Unix(0, nano)] is [time_Unix nano]. *)
Definition unix_epoch : time := 62135596800 * Second.
Definition UnixNano (t : time) : Z := int64 (t - unix_epoch).
Definition Unix (t : time) : Z := (t - unix_epoch) / Second.
Definition time_Unix (nano : Z) : time := nano + unix_epoch.

Lemma UnixNano_Unix k : in_int64 k -> UnixNano (time_Unix k) = k.
Proof. intros Hk. unfold UnixNano, time_Unix. rewrite int64_id; [|by replace (k + unix_epoch - unix_epoch) with k by lia]. lia. Qed.

Lemma time_Sub_exact t u : in_int64 (t - u) -> time_Sub t u = t - u.
Proof. unfold in_int64, time_Sub. simpl. lia. Qed.

(** ** Lists *)

Section ListLemmas.
Context {A B : Type}.

(** Folding commuting steps does not depend on the order of the list. *)
Lemma fold_left_permutation (f : B -> A -> B) (l1 l2 : list A) (b : B) :
  (forall b x y, f (f b x) y = f (f b y) x) ->
  l1 ≡ₚ l2 -> fold_left f l1 b = fold_left f l2 b.
Proof.
  intros Hf Hp. revert b. induction Hp; intros b; simpl; auto.
  - rewrite Hf. done.
  - rewrite IHHp1. apply IHHp2.
Qed.

(** Invariants of [fold_left]. *)
Lemma fold_left_invariant (f : B -> A -> B) (P : B -> Prop) (Q : A -> Prop) l b :
  (forall b x, Q x -> P b -> P (f b x)) -> Forall Q l -> P b -> P (fold_left f l b).
Proof.
  intros Hf HQ. revert b. induction HQ; intros b Hb; simpl; auto.
Qed.

Lemma fold_left_ext (f g : B -> A -> B) l b :
  (forall b x, x ∈ l -> f b x = g b x) -> fold_left f l b = fold_left g l b.
Proof.
  revert b. induction l as [|x l IH]; intros b H; simpl; auto.
  rewrite H by set_solver. apply IH. intros; apply H; set_solver.
Qed.
End ListLemmas.

Lemma filter_app_perm {A} (P : A -> Prop) `{!forall x, Decision (P x)} (l : list A) :
  filter P l ++ filter (fun x => ~ P x) l ≡ₚ l.
Proof.
  induction l as [|x l IH]; [done|].
  rewrite !filter_cons. repeat case_decide; try tauto; simpl.
  - by rewrite IH.
  - rewrite <- Permutation_middle. by rewrite IH.
Qed.

(** Taking one element out of what a filter keeps. *)
Lemma length_filter_remove {A} (f g : A -> bool) (l : list A) k :
  NoDup l -> k ∈ l -> f k = true -> (forall x, g x = true <-> f x = true /\ x <> k) ->
  length (filter (fun x => g x = true) l) = pred (length (filter (fun x => f x = true) l)).
Proof.
  intros Hnd Hk Hf Hg. induction Hnd as [|x l Hx Hnd IH]; [inversion Hk|]. rewrite !filter_cons.
  apply elem_of_cons in Hk as [<-|Hk].
  - rewrite decide_False by (rewrite Hg; tauto). rewrite decide_True by done. simpl. f_equal.
    clear IH. induction l as [|y l IH]; [done|]. rewrite !filter_cons.
    apply not_elem_of_cons in Hx as [Hne Hx]. inversion Hnd; subst. rewrite (IH Hx) by done.
    destruct (decide (f y = true)); [rewrite decide_True by (rewrite Hg; auto)|rewrite decide_False by (rewrite Hg; tauto)]; done.
  - specialize (IH Hk). assert (x <> k) by (intros ->; done).
    destruct (decide (f x = true)) as [Hfx|Hfx].
    + rewrite decide_True by (rewrite Hg; auto). simpl. rewrite IH.
      assert (0 < length (filter (fun x => f x = true) l))%nat; [|lia].
      destruct (filter (fun x => f x = true) l) eqn:E; [|simpl; lia].
      assert (Hin : k ∈ filter (fun x => f x = true) l) by (apply list_elem_of_filter; auto). rewrite E in Hin. inversion Hin.
    + rewrite decide_False by (rewrite Hg; tauto). done.
Qed.

(** The root of the host as a container sees it (pkg/caelus/types). *)
Definition RootFS : string := "/rootfs"%string.

(** ** Ranging over a Go map

    Go visits the entries of a map in an unspecified order.  [RangeOrder] is
    such an order: [range_map site m] lists the entries of [m] in the order the
    [range] statement at [site] visits them ([site] tells apart the statements,
    and the keys of the enclosing ranges).  A theorem over every [RangeOrder]
    holds for every order an execution can choose. *)

Class RangeOrder := {
  range_map : forall {V : Type}, string -> gmap string V -> list (string * V);
  range_map_perm : forall {V : Type} site (m : gmap string V), range_map site m ≡ₚ map_to_list m;
}.

Definition key_order : RangeOrder := {|
  range_map := fun V _ m => map_to_list m;
  range_map_perm := fun V _ m => Permutation_refl _;
|}.

(** The reverse of [key_order], a second order for the witnesses. *)
Definition reverse_order : RangeOrder.
Proof.
  refine {| range_map := fun V _ m => reverse (map_to_list m) |}.
  intros V _ m. apply reverse_Permutation.
Defined.

Section RangeLemmas.
Context {RO : RangeOrder} {V W : Type}.
Implicit Types (m : gmap string V) (acc : gmap string W).

Lemma elem_of_range site m k v : (k, v) ∈ range_map site m <-> m !! k = Some v.
Proof. rewrite range_map_perm. apply elem_of_map_to_list. Qed.

Lemma NoDup_fst_range site m : NoDup (range_map site m).*1.
Proof. rewrite range_map_perm. apply NoDup_fst_map_to_list. Qed.

(** Ranging over [m] while updating only the entry of the current key. *)
Lemma list_to_map_range site m : list_to_map (range_map site m) = m.
Proof.
  rewrite <- (list_to_map_to_list m) at 2. apply list_to_map_proper; [apply NoDup_fst_range|apply range_map_perm].
Qed.

Lemma fold_local_notin (f : string -> V -> option W -> option W) l acc j :
  j ∉ l.*1 ->
  fold_left (fun acc '(k, v) => partial_alter (f k v) k acc) l acc !! j = acc !! j.
Proof.
  revert acc. induction l as [|[k v] l IH]; intros acc Hj; simpl in *; [done|].
  apply not_elem_of_cons in Hj as [Hne Hj].
  rewrite IH by done. by apply lookup_partial_alter_ne.
Qed.

Lemma fold_local_lookup (f : string -> V -> option W -> option W) l acc j :
  NoDup l.*1 ->
  fold_left (fun acc '(k, v) => partial_alter (f k v) k acc) l acc !! j =
  match list_to_map (M := gmap string V) l !! j with
  | Some v => f j v (acc !! j)
  | None => acc !! j
  end.
Proof.
  revert acc. induction l as [|[k v] l IH]; intros acc Hnd; simpl in *.
  { by rewrite lookup_empty. }
  apply NoDup_cons in Hnd as [Hk Hnd].
  destruct (decide (k = j)) as [->|Hne].
  - rewrite fold_local_notin by done. by rewrite lookup_partial_alter_eq, lookup_insert_eq.
  - rewrite IH by done. by rewrite lookup_insert_ne, lookup_partial_alter_ne by done.
Qed.

Lemma range_fold_local (f : string -> V -> option W -> option W) site m acc j :
  fold_left (fun acc '(k, v) => partial_alter (f k v) k acc) (range_map site m) acc !! j =
  match m !! j with
  | Some v => f j v (acc !! j)
  | None => acc !! j
  end.
Proof.
  rewrite fold_local_lookup by apply NoDup_fst_range.
  enough (list_to_map (M := gmap string V) (range_map site m) = m) as -> by done.
  rewrite <- (list_to_map_to_list m) at 2.
  apply list_to_map_proper; [apply NoDup_fst_range|apply range_map_perm].
Qed.
End RangeLemmas.

(** Ranging over a set, as the map of its elements. *)
Lemma elem_of_range_set {RO : RangeOrder} site (X : gset string) s : s ∈ (range_map site (gset_to_gmap tt X)).*1 <-> s ∈ X.
Proof.
  rewrite list_elem_of_fmap. split.
  - intros ([s' u] & -> & Hin%elem_of_range). by apply lookup_gset_to_gmap_Some in Hin as [Hin _].
  - intros Hs. exists (s, tt). split; [done|]. apply elem_of_range. by apply lookup_gset_to_gmap_Some.
Qed.


(** ** Minimum of a list of integers and 0 *)

Definition min0 (l : list Z) : Z := foldr Z.min 0 l.

Lemma min0_perm l1 l2 : l1 ≡ₚ l2 -> min0 l1 = min0 l2.
Proof. induction 1; simpl; lia. Qed.

Lemma min0_nonpos l : min0 l <= 0.
Proof. induction l; simpl; lia. Qed.

Lemma min0_lower l x : x ∈ l -> min0 l <= x.
Proof. induction 1; simpl; lia. Qed.

Lemma min0_attained l : min0 l = 0 \/ min0 l ∈ l.
Proof.
  induction l as [|x l IH]; simpl; [by left|].
  destruct (Z.min_spec x (min0 l)) as [[? ->]|[? ->]].
  - right. left.
  - destruct IH; [left|right; right]; done.
Qed.

Lemma fold_left_min0 {A} (g : A -> Z) l a :
  a <= 0 -> fold_left (fun acc x => Z.min acc (g x)) l a = Z.min a (min0 (map g l)).
Proof.
  revert a. induction l as [|x l IH]; intros a Ha; simpl; [lia|].
  rewrite IH by lia. lia.
Qed.

(** The minimum of [g] over the entries of a map, and 0. *)
Definition map_min0 {V} (g : string -> V -> Z) (m : gmap string V) : Z :=
  min0 (map (uncurry g) (map_to_list m)).

Lemma range_min0 {RO : RangeOrder} {V} (g : string -> V -> Z) site (m : gmap string V) :
  min0 (map (uncurry g) (range_map site m)) = map_min0 g m.
Proof. apply min0_perm. by rewrite range_map_perm. Qed.

Lemma map_min0_nonpos {V} (g : string -> V -> Z) m : map_min0 g m <= 0.
Proof. apply min0_nonpos. Qed.

Lemma map_min0_lower {V} (g : string -> V -> Z) (m : gmap string V) k v :
  m !! k = Some v -> map_min0 g m <= g k v.
Proof.
  intros H. apply min0_lower. apply list_elem_of_fmap. exists (k, v).
  split; [done|]. by apply elem_of_map_to_list.
Qed.

Lemma map_min0_attained {V} (g : string -> V -> Z) (m : gmap string V) :
  map_min0 g m = 0 \/ exists k v, m !! k = Some v /\ map_min0 g m = g k v.
Proof.
  destruct (min0_attained (map (uncurry g) (map_to_list m))) as [H|H]; [by left|right].
  apply list_elem_of_fmap in H as ([k v] & E & Hin). exists k, v.
  split; [by apply elem_of_map_to_list|done].
Qed.

(** The contribution of a key, 0 when it is absent. *)
Definition at_key {V} (g : string -> V -> Z) (m : gmap string V) (k : string) : Z :=
  match m !! k with Some v => g k v | None => 0 end.

(** [map_min0] depends on the contribution of the keys only. *)
Lemma map_min0_ext {V} (g g' : string -> V -> Z) (m m' : gmap string V) :
  (forall k, Z.min 0 (at_key g m k) = Z.min 0 (at_key g' m' k)) -> map_min0 g m = map_min0 g' m'.
Proof.
  intros H.
  assert (Hle : forall (g g' : string -> V -> Z) (m m' : gmap string V),
    (forall k, Z.min 0 (at_key g m k) = Z.min 0 (at_key g' m' k)) -> map_min0 g m <= map_min0 g' m').
  { clear. intros g g' m m' H.
    destruct (map_min0_attained g' m') as [E|(k & v & Hk & E)]; rewrite E; [apply map_min0_nonpos|].
    pose proof (map_min0_nonpos g' m'). pose proof (map_min0_nonpos g m). specialize (H k). unfold at_key in H. rewrite Hk in H.
    destruct (m !! k) eqn:Hm; [|lia].
    pose proof (map_min0_lower g m k _ Hm). lia. }
  apply Z.le_antisymm; apply Hle; intros k; by rewrite H.
Qed.

(** Folding steps that commute on the elements of a duplicate-free list. *)
Lemma fold_left_permutation_on {A B} (f : B -> A -> B) (l1 l2 : list A) b :
  NoDup l1 ->
  (forall b x y, x ∈ l1 -> y ∈ l1 -> x <> y -> f (f b x) y = f (f b y) x) ->
  l1 ≡ₚ l2 -> fold_left f l1 b = fold_left f l2 b.
Proof.
  intros Hnd Hf Hp. revert b Hnd Hf.
  induction Hp as [|x l1 l2 Hp IH|x y l|l1 l2 l3 Hp1 IH1 Hp2 IH2]; intros b Hnd Hf; simpl; auto.
  - apply NoDup_cons in Hnd as [? Hnd]. apply IH; [done|].
    intros; apply Hf; auto using list_elem_of_further.
  - rewrite Hf; [done|left|right; left|].
    apply NoDup_cons in Hnd as [Hn _]. intros ->. apply Hn. left.
  - rewrite IH1 by done. apply IH2; [by rewrite <- Hp1|].
    intros b' x y Hx Hy. apply Hf; by rewrite Hp1.
Qed.

Lemma range_map_singleton {RO : RangeOrder} {V} site k (v : V) :
  range_map site {[k := v]} = [(k, v)].
Proof.
  apply Permutation_singleton_r. rewrite range_map_perm, map_to_list_singleton. done.
Qed.

Lemma range_fold_insert {RO : RangeOrder} {V} site (m : gmap string V) :
  fold_left (fun b '(k, v) => <[k := v]> b) (range_map site m) ∅ = m.
Proof.
  apply map_eq. intros j.
  rewrite (fold_left_ext _ (fun b '(k, v) => partial_alter (fun _ => Some v) k b))
    by (intros b [k v] _; done).
  rewrite (range_fold_local (fun _ v _ => Some v)). destruct (m !! j); by rewrite ?lookup_empty.
Qed.
