(* ===== verification/GoStrings.v ===== *)
(** * Go strings

    The functions of Go's packages [strings] and [strconv] that the sources
    use, over the Standard Library's [string] (a sequence of bytes, as in Go). *)

From S2P Require Import Prelude.
From Stdlib Require Import Ascii String.

#[local] Open Scope string_scope.
#[local] Open Scope Z_scope.

Definition slen (s : string) : Z := Z.of_nat (String.length s).

Definition seqb (a b : string) : bool := String.eqb a b.

(** [strings.HasPrefix]. *)
Definition HasPrefix (s p : string) : bool := String.prefix p s.

Fixpoint drop_string (n : nat) (s : string) : string :=
  match n, s with
  | O, _ => s
  | S n', String _ s' => drop_string n' s'
  | S _, EmptyString => EmptyString
  end.

(** [strings.TrimPrefix]. *)
Definition TrimPrefix (s p : string) : string :=
  if HasPrefix s p then drop_string (String.length p) s else s.

(** [strings.Contains]. *)
Fixpoint Contains (s sub : string) : bool :=
  String.prefix sub s ||
  match s with
  | EmptyString => false
  | String _ s' => Contains s' sub
  end.

(** [strings.Split] for a separator of one byte; never the empty list. *)
Fixpoint Split (s : string) (sep : ascii) : list string :=
  match s with
  | EmptyString => [""]
  | String c s' =>
      if Ascii.eqb c sep then "" :: Split s' sep
      else match Split s' sep with
           | w :: ws => String c w :: ws
           | [] => [String c ""]
           end
  end.

(** [strings.Join]. *)
Fixpoint Join (l : list string) (sep : string) : string :=
  match l with
  | [] => ""
  | [w] => w
  | w :: ws => w ++ sep ++ Join ws sep
  end.

Definition is_space (c : ascii) : bool :=
  let n := nat_of_ascii c in
  (n =? 32)%nat || ((9 <=? n)%nat && (n <=? 13)%nat).

Fixpoint trim_left (s : string) : string :=
  match s with
  | String c s' => if is_space c then trim_left s' else s
  | EmptyString => ""
  end.

Fixpoint rev_string (s acc : string) : string :=
  match s with
  | String c s' => rev_string s' (String c acc)
  | EmptyString => acc
  end.

Fixpoint trim_left_byte (c : ascii) (s : string) : string :=
  match s with
  | String d s' => if Ascii.eqb d c then trim_left_byte c s' else s
  | EmptyString => ""
  end.

(** [strings.Trim] with a cutset of one byte. *)
Definition Trim_byte (c : ascii) (s : string) : string :=
  rev_string (trim_left_byte c (rev_string (trim_left_byte c s) "")) "".

(** [strings.TrimSpace] on ASCII text. *)
Definition TrimSpace (s : string) : string :=
  rev_string (trim_left (rev_string (trim_left s) "")) "".

(** ** Decimal numbers *)

Definition digit_char (d : Z) : ascii := ascii_of_nat (48 + Z.to_nat d).

Definition char_digit (c : ascii) : option Z :=
  let n := nat_of_ascii c in
  if (48 <=? n)%nat && (n <=? 57)%nat then Some (Z.of_nat n - 48) else None.

Fixpoint print_digits (fuel : nat) (n : Z) (acc : string) : string :=
  match fuel with
  | O => acc
  | S f =>
      let acc' := String (digit_char (n `mod` 10)) acc in
      if n `div` 10 =? 0 then acc' else print_digits f (n `div` 10) acc'
  end.

Fixpoint parse_digits (acc : Z) (s : string) : option Z :=
  match s with
  | EmptyString => Some acc
  | String c s' =>
      match char_digit c with
      | Some d => parse_digits (10 * acc + d) s'
      | None => None
      end
  end.

(** Enough digits for every [n]: [n < 2^(log2 n + 1) <= 10^(log2 n + 1)]. *)
Definition digits_fuel (n : Z) : nat := S (Z.to_nat (Z.log2 n)).

Definition print_nonneg (n : Z) : string := print_digits (digits_fuel n) n "".

(** [strconv.Itoa] and the verb [%d]. *)
Definition Itoa (z : Z) : string :=
  if z <? 0 then String "-" (print_nonneg (- z)) else print_nonneg z.

(** The verb [%02d] on a non-negative number. *)
Definition print_02d (z : Z) : string :=
  if z <? 10 then String "0" (print_nonneg z) else print_nonneg z.

Definition parse_nonempty (s : string) : option Z :=
  match s with EmptyString => None | _ => parse_digits 0 s end.

(** [strconv.Atoi]: an optional sign and decimal digits, within [int64]. *)
Definition Atoi (s : string) : option Z :=
  let r := match s with
           | String "-" s' => option_map Z.opp (parse_nonempty s')
           | String "+" s' => parse_nonempty s'
           | _ => parse_nonempty s
           end in
  match r with
  | Some z => if bool_decide (in_int64 z) then Some z else None
  | None => None
  end.

(** [strconv.ParseUint(s, 10, 64)]. *)
Definition ParseUint (s : string) : option Z :=
  match parse_nonempty s with
  | Some z => if z <? 2 ^ 64 then Some z else None
  | None => None
  end.

(** ** Round trips *)

Lemma char_digit_char d : 0 <= d < 10 -> char_digit (digit_char d) = Some d.
Proof.
  intros H. assert (E : d = 0 \/ d = 1 \/ d = 2 \/ d = 3 \/ d = 4 \/ d = 5 \/ d = 6 \/ d = 7 \/ d = 8 \/ d = 9) by lia.
  repeat (destruct E as [-> | E]; [reflexivity|]). by subst.
Qed.

Lemma parse_print_digits fuel n acc :
  0 <= n < 10 ^ Z.of_nat fuel ->
  fuel <> O ->
  parse_digits 0 (print_digits fuel n acc) = parse_digits n acc.
Proof.
  revert n acc. induction fuel as [|f IH]; intros n acc Hn Hf; [done|].
  pose proof (Z.div_mod n 10 ltac:(lia)) as Hdm.
  pose proof (Z.mod_pos_bound n 10 ltac:(lia)) as Hm.
  assert (Hp : 10 ^ Z.of_nat (S f) = 10 * 10 ^ Z.of_nat f)
    by (rewrite Nat2Z.inj_succ, Z.pow_succ_r; lia).
  cbn [print_digits]. destruct (Z.eqb_spec (n `div` 10) 0) as [E|E].
  - cbn [parse_digits]. rewrite char_digit_char by lia. f_equal. lia.
  - rewrite IH; [| |intros ->; simpl in *; lia].
    + cbn [parse_digits]. rewrite char_digit_char by lia. f_equal. lia.
    + split; [lia|]. apply Z.div_lt_upper_bound; lia.
Qed.

Lemma digits_fuel_enough n : 0 <= n -> 0 <= n < 10 ^ Z.of_nat (digits_fuel n).
Proof.
  intros H. split; [done|]. unfold digits_fuel.
  destruct (Z.eq_dec n 0) as [-> | Hn]; [simpl; lia|].
  destruct (Z.log2_spec n ltac:(lia)) as [_ Hl].
  pose proof (Z.log2_nonneg n) as Hnn.
  rewrite Nat2Z.inj_succ, Z2Nat.id by lia.
  eapply Z.lt_le_trans; [exact Hl|]. apply Z.pow_le_mono_l. lia.
Qed.

Lemma parse_print_nonneg n acc :
  0 <= n -> parse_digits 0 (print_digits (digits_fuel n) n acc) = parse_digits n acc.
Proof. intros H. apply parse_print_digits; [by apply digits_fuel_enough|done]. Qed.

Lemma print_digits_cons fuel n acc :
  fuel <> O -> exists c s, print_digits fuel n acc = String c s /\ (exists d, 0 <= d < 10 /\ c = digit_char d).
Proof.
  revert n acc. induction fuel as [|f IH]; intros n acc Hf; [done|].
  pose proof (Z.mod_pos_bound n 10 ltac:(lia)) as Hm.
  cbn [print_digits]. destruct (_ =? 0); [eauto 6|].
  destruct f as [|f]; [cbn [print_digits]; eauto 6|]. by apply IH.
Qed.

Lemma digit_char_not_sign d : 0 <= d < 10 -> digit_char d <> "-"%char /\ digit_char d <> "+"%char.
Proof.
  intros H. assert (E : d = 0 \/ d = 1 \/ d = 2 \/ d = 3 \/ d = 4 \/ d = 5 \/ d = 6 \/ d = 7 \/ d = 8 \/ d = 9) by lia.
  repeat (destruct E as [-> | E]; [done|]). by subst.
Qed.

(** Parsing a printed non-negative number gives it back. *)
Lemma parse_nonempty_print n : 0 <= n -> parse_nonempty (print_nonneg n) = Some n.
Proof.
  intros H. unfold print_nonneg, parse_nonempty.
  destruct (print_digits_cons (digits_fuel n) n "" ltac:(done)) as (c & s & E & _).
  rewrite E, <- E, parse_print_nonneg by done. done.
Qed.

Lemma ParseUint_print n : in_uint64 n -> ParseUint (print_nonneg n) = Some n.
Proof.
  intros [H1 H2]. unfold ParseUint. rewrite parse_nonempty_print by done.
  destruct (Z.ltb_spec n (2 ^ 64)); [done|lia].
Qed.

Lemma Itoa_cons n : 0 <= n ->
  exists d s, 0 <= d < 10 /\ Itoa n = String (digit_char d) s.
Proof.
  intros H. unfold Itoa. destruct (Z.ltb_spec n 0); [lia|]. unfold print_nonneg.
  destruct (print_digits_cons (digits_fuel n) n "" ltac:(done)) as (c & s & E & d & Hd & ->).
  eauto.
Qed.

(** [strconv.Atoi] inverts [strconv.Itoa]. *)
Lemma Atoi_Itoa z : in_int64 z -> Atoi (Itoa z) = Some z.
Proof.
  intros Hz. unfold Atoi.
  destruct (Z.ltb_spec z 0) as [Hn|Hn].
  - unfold Itoa. destruct (Z.ltb_spec z 0); [|lia].
    rewrite parse_nonempty_print by lia. simpl. rewrite Z.opp_involutive.
    by rewrite bool_decide_true.
  - destruct (Itoa_cons z Hn) as (d & s & Hd & E).
    assert (Hp : parse_nonempty (Itoa z) = Some z).
    { unfold Itoa. destruct (Z.ltb_spec z 0); [lia|]. by apply parse_nonempty_print. }
    destruct (digit_char_not_sign d Hd) as [H1 H2].
    rewrite E in *. destruct (digit_char d) as [[] [] [] [] [] [] [] []]; try done;
      rewrite Hp, bool_decide_true by done; done.
Qed.

(** No character of [s] is [c]. *)
Fixpoint string_free (c : ascii) (s : string) : Prop :=
  match s with
  | EmptyString => True
  | String d s' => d <> c /\ string_free c s'
  end.

Lemma string_free_app c a b : string_free c (a +:+ b) <-> string_free c a /\ string_free c b.
Proof. induction a as [|d a IH]; simpl; [tauto|]. rewrite IH. tauto. Qed.

Lemma Split_free c s : string_free c s -> Split s c = [s].
Proof.
  induction s as [|d s IH]; simpl; [done|]. intros [Hd Hs].
  destruct (Ascii.eqb_spec d c); [done|]. by rewrite IH.
Qed.

Lemma Split_app_sep c w s :
  string_free c w -> Split (w ++ String c s) c = w :: Split s c.
Proof.
  induction w as [|d w IH]; simpl; intros Hw.
  - by rewrite Ascii.eqb_refl.
  - destruct Hw as [Hd Hw]. destruct (Ascii.eqb_spec d c); [done|].
    by rewrite IH.
Qed.

(** [Split] inverts [Join] on words without the separator. *)
Lemma Split_Join c l :
  l <> [] -> Forall (string_free c) l -> Split (Join l (String c "")) c = l.
Proof.
  intros Hl HF. induction HF as [|w l Hw HF IH]; [done|].
  destruct l as [|w' l].
  - simpl. by apply Split_free.
  - change (Join (w :: w' :: l) (String c "")) with (w ++ String c (Join (w' :: l) (String c ""))).
    rewrite Split_app_sep by done. by rewrite IH.
Qed.

Lemma print_digits_free c fuel n acc :
  (forall d, 0 <= d < 10 -> digit_char d <> c) ->
  string_free c acc -> string_free c (print_digits fuel n acc).
Proof.
  intros Hc. revert n acc.
  induction fuel as [|f IH]; intros n acc Ha; cbn [print_digits]; [done|].
  pose proof (Z.mod_pos_bound n 10 ltac:(lia)).
  destruct (_ =? 0); [|apply IH]; cbn [string_free]; auto.
Qed.

Lemma Itoa_free c z :
  c <> "-"%char -> (forall d, 0 <= d < 10 -> digit_char d <> c) -> string_free c (Itoa z).
Proof.
  intros H1 H2. unfold Itoa, print_nonneg.
  destruct (z <? 0); cbn [string_free]; [split; [done|]|]; by apply print_digits_free.
Qed.

Lemma digit_char_not c :
  char_digit c = None -> forall d, 0 <= d < 10 -> digit_char d <> c.
Proof. intros H d Hd E. subst. by rewrite char_digit_char in H. Qed.

(** [sets.String]: inserting into the sorted list of its members; [List] is
    that list. *)
Fixpoint set_insert (x : string) (l : list string) : list string :=
  match l with
  | [] => [x]
  | y :: l' =>
      match String.compare x y with
      | Lt => x :: l
      | Eq => l
      | Gt => y :: set_insert x l'
      end
  end.

Definition set_of_list (l : list string) : list string := fold_left (fun s x => set_insert x s) l [].

Lemma elem_of_set_insert x l y : y ∈ set_insert x l <-> y = x \/ y ∈ l.
Proof.
  induction l as [|z l IH]; simpl; [by rewrite elem_of_cons|].
  destruct (String.compare x z) eqn:E; rewrite ?elem_of_cons, ?IH, ?elem_of_cons; try tauto.
  apply String.compare_eq_iff in E. subst. tauto.
Qed.

Lemma elem_of_set_of_list l y : y ∈ set_of_list l <-> y ∈ l.
Proof.
  unfold set_of_list. cut (forall s, y ∈ fold_left (fun s x => set_insert x s) l s <-> y ∈ s \/ y ∈ l).
  { intros H. rewrite H, elem_of_nil. tauto. }
  induction l as [|x l IH]; intros s; simpl; [rewrite elem_of_nil; tauto|].
  rewrite IH, elem_of_set_insert, elem_of_cons. tauto.
Qed.

(** [strings.Index] for a separator of one byte: the text before and after the
    first occurrence, or [None] where Go returns -1. *)
Fixpoint cut_byte (s : string) (sep : ascii) : option (string * string) :=
  match s with
  | EmptyString => None
  | String c s' =>
      if Ascii.eqb c sep then Some ("", s')
      else match cut_byte s' sep with
           | Some (a, b) => Some (String c a, b)
           | None => None
           end
  end.

Lemma cut_byte_cons_free s sep b : string_free sep s -> cut_byte (s +:+ String sep b) sep = Some (s, b).
Proof.
  induction s as [|c s IH]; intros Hs.
  - change ("" +:+ String sep b) with (String sep b). simpl. by rewrite Ascii.eqb_refl.
  - destruct Hs as [Hc Hs]. change (String c s +:+ String sep b) with (String c (s +:+ String sep b)). simpl.
    destruct (Ascii.eqb_spec c sep); [done|]. by rewrite IH.
Qed.

Lemma cut_byte_app s sep a b : cut_byte s sep = Some (a, b) -> s = a ++ String sep b /\ string_free sep a.
Proof.
  revert a b. induction s as [|c s IH]; intros a b; simpl; [done|].
  destruct (Ascii.eqb_spec c sep) as [->|Hne].
  - intros [= <- <-]. done.
  - destruct (cut_byte s sep) as [[a' b']|]; [|done]. intros [= <- <-].
    destruct (IH _ _ eq_refl) as [-> ?]. done.
Qed.

Lemma string_length_app a b : String.length (a +:+ b) = (String.length a + String.length b)%nat.
Proof. induction a as [|c a IH]; simpl; [done|]. by rewrite IH. Qed.

(** [strings.TrimSuffix]. *)
Fixpoint TrimSuffix (s suffix : string) : string :=
  if (s =? suffix)%string then ""
  else match s with EmptyString => "" | String c s' => String c (TrimSuffix s' suffix) end.

Lemma TrimSuffix_app s suffix : TrimSuffix (s +:+ suffix) suffix = s.
Proof.
  induction s as [|c s IH].
  - change ("" +:+ suffix) with suffix. destruct suffix as [|c s]; cbn [TrimSuffix]; [done|]. by rewrite String.eqb_refl.
  - change (String c s +:+ suffix) with (String c (s +:+ suffix)). cbn [TrimSuffix]. destruct (String.eqb_spec (String c (s +:+ suffix)) suffix) as [E|_]; [|by rewrite IH].
    apply (f_equal String.length) in E. cbn [String.length] in E. rewrite string_length_app in E. lia.
Qed.

Lemma string_app_assoc a b c : (a +:+ b) +:+ c = a +:+ (b +:+ c).
Proof. induction a as [|d a IH]; [done|]. exact (f_equal (String d) IH). Qed.

(** Appending every word with a separator after it is joining them. *)
Lemma fold_append_Join sep l acc :
  l <> [] -> fold_left (fun s w => s +:+ w +:+ sep) l acc = acc +:+ Join l sep +:+ sep.
Proof.
  revert acc. induction l as [|w l IH]; intros acc Hl; [done|]. simpl. destruct l as [|w' l]; [by simpl|].
  rewrite IH by done. by rewrite !string_app_assoc.
Qed.

(** ** Texts without spaces *)

Fixpoint no_space (s : string) : bool :=
  match s with EmptyString => true | String c s' => negb (is_space c) && no_space s' end.

Lemma rev_string_no_space s acc : no_space (rev_string s acc) = no_space s && no_space acc.
Proof.
  revert acc. induction s as [|c s IH]; intros acc; simpl; [done|]. rewrite IH. simpl.
  by destruct (is_space c), (no_space s).
Qed.

Lemma trim_left_no_space s : no_space s = true -> trim_left s = s.
Proof. destruct s as [|c s]; simpl; [done|]. by destruct (is_space c). Qed.

Lemma rev_string_app s acc r : rev_string (rev_string s acc) r = rev_string acc (s +:+ r).
Proof.
  revert acc r. induction s as [|c s IH]; intros acc r; [done|]. cbn [rev_string]. by rewrite IH.
Qed.

Lemma string_app_nil_r s : s +:+ "" = s.
Proof. induction s as [|c s IH]; [done|]. exact (f_equal (String c) IH). Qed.

Lemma TrimSpace_no_space s : no_space s = true -> TrimSpace s = s.
Proof.
  intros H. unfold TrimSpace. rewrite (trim_left_no_space s) by done.
  rewrite trim_left_no_space by (rewrite rev_string_no_space, H; done).
  rewrite rev_string_app. apply string_app_nil_r.
Qed.

Lemma digit_char_no_space d : 0 <= d < 10 -> is_space (digit_char d) = false.
Proof.
  intros H. assert (E : d = 0 \/ d = 1 \/ d = 2 \/ d = 3 \/ d = 4 \/ d = 5 \/ d = 6 \/ d = 7 \/ d = 8 \/ d = 9) by lia.
  repeat (destruct E as [-> | E]; [reflexivity|]). by subst.
Qed.

Lemma print_digits_facts fuel n acc :
  no_space acc = true ->
  no_space (print_digits fuel n acc) = true /\
  (String.length (print_digits fuel n acc) <= fuel + String.length acc)%nat.
Proof.
  revert n acc. induction fuel as [|fuel IH]; intros n acc Ha; cbn [print_digits]; [by split; [|lia]|].
  assert (Hc : no_space (String (digit_char (n mod 10)) acc) = true).
  { cbn [no_space]. rewrite digit_char_no_space by (apply Z.mod_pos_bound; lia). done. }
  destruct (n `div` 10 =? 0); [split; [exact Hc|simpl; lia]|].
  destruct (IH (n / 10) _ Hc) as [H1 H2]. split; [done|]. simpl in H2. lia.
Qed.

Lemma Itoa_plain z : 0 <= z < 2 ^ 63 -> TrimSpace (Itoa z) = Itoa z /\ slen (Itoa z) <= 64.
Proof.
  intros Hz. unfold Itoa. destruct (Z.ltb_spec z 0); [lia|]. unfold print_nonneg, slen.
  destruct (print_digits_facts (digits_fuel z) z "" eq_refl) as [H1 H2]. split; [by apply TrimSpace_no_space|].
  assert (Hl : Z.log2 z < 63) by (destruct (Z.eq_dec z 0) as [->|]; [done|apply Z.log2_lt_pow2; lia]).
  pose proof (Z.log2_nonneg z). unfold digits_fuel in *. cbn [String.length] in H2. lia.
Qed.

(** [strings.ReplaceAll] for a non-empty old text. *)
Fixpoint replace_from (fuel : nat) (s old new : string) : string :=
  match fuel, s with
  | S fuel', String c s' =>
      if HasPrefix s old then new +:+ replace_from fuel' (drop_string (String.length old) s) old new
      else String c (replace_from fuel' s' old new)
  | _, _ => s
  end.

Definition ReplaceAll (s old new : string) : string := replace_from (String.length s) s old new.
