(* ===== verification/GoFloat.v ===== *)
(** * Go's [float64]

    IEEE-754 binary64 arithmetic as executable definitions over
    [SpecFloat.spec_float] (round to nearest, ties to even), with the
    conversions between [int64] and [float64] and the functions of package
    [math] that the sources use.  A decimal literal [n/d] of the sources is the
    correctly rounded quotient of the two integers. *)

From Corelib Require Import Floats.SpecFloat.
From Stdlib Require Import Ascii.
From S2P Require Import Prelude GoStrings.

#[local] Open Scope string_scope.
#[local] Open Scope Z_scope.

Abbreviation float64 := spec_float (only parsing).

Definition fprec : Z := 53.
Definition femax : Z := 1024.

Definition fadd (x y : float64) : float64 := SFadd fprec femax x y.
Definition fsub (x y : float64) : float64 := SFsub fprec femax x y.
Definition fmul (x y : float64) : float64 := SFmul fprec femax x y.
Definition fdiv (x y : float64) : float64 := SFdiv fprec femax x y.
Definition fneg (x : float64) : float64 := SFopp x.
Definition fabs (x : float64) : float64 := SFabs x.
Definition fsqrt (x : float64) : float64 := SFsqrt fprec femax x.
Definition flt (x y : float64) : bool := SFltb x y.
Definition fle (x y : float64) : bool := SFleb x y.
Definition fgt (x y : float64) : bool := SFltb y x.
Definition fge (x y : float64) : bool := SFleb y x.
Definition feq (x y : float64) : bool := SFeqb x y.

(** [float64(z)] of an integer. *)
Definition float64_of_Z (z : Z) : float64 := binary_normalize fprec femax z 0 false.

(** A decimal literal of the sources, e.g. [0.2] is [flit 2 10]. *)
Definition flit (n d : Z) : float64 := fdiv (float64_of_Z n) (float64_of_Z d).

Definition fzero : float64 := S754_zero false.
Definition fone : float64 := float64_of_Z 1.

(** Go's [float32]: binary32 arithmetic; the comparisons are those above. *)
Abbreviation float32 := spec_float (only parsing).

Definition f32add (x y : float32) : float32 := SFadd 24 128 x y.
Definition f32sub (x y : float32) : float32 := SFsub 24 128 x y.
Definition f32div (x y : float32) : float32 := SFdiv 24 128 x y.
Definition float32_of_Z (z : Z) : float32 := binary_normalize 24 128 z 0 false.

(** [trunc m e] is the integer part of [m * 2^e]. *)
Definition ftrunc (m : positive) (e : Z) : Z :=
  if 0 <=? e then Z.shiftl (Zpos m) e else Z.shiftr (Zpos m) (- e).

(** The conversion [int64(x)]: truncation towards zero.  Go leaves the result
    of an unrepresentable value to the implementation; amd64's CVTTSD2SQ
    returns the smallest [int64]. *)
Definition int64_of_float64 (x : float64) : Z :=
  match x with
  | S754_zero _ => 0
  | S754_infinity _ | S754_nan => - 2 ^ 63
  | S754_finite s m e =>
      let z := cond_Zopp s (ftrunc m e) in
      if (- 2 ^ 63 <=? z) && (z <? 2 ^ 63) then z else - 2 ^ 63
  end.

(** [math.Round]: to the nearest integer, halves away from zero. *)
Definition math_Round (x : float64) : float64 :=
  match x with
  | S754_finite s m e =>
      if 0 <=? e then x
      else
        match Z.shiftr (Zpos m + 2 ^ (- e - 1)) (- e) with
        | Zpos q => binary_round fprec femax s q 0
        | _ => S754_zero s
        end
  | _ => x
  end.

(** [math.Ceil]. *)
Definition math_Ceil (x : float64) : float64 :=
  match x with
  | S754_finite s m e =>
      if 0 <=? e then x
      else
        match (if s then Z.shiftr (Zpos m) (- e)
               else - Z.shiftr (- Zpos m) (- e)) with
        | Zpos q => binary_round fprec femax s q 0
        | _ => S754_zero s
        end
  | _ => x
  end.

(** [math.Max] on values that are not NaN. *)
Definition math_Max (x y : float64) : float64 :=
  match x, y with
  | S754_nan, _ | _, S754_nan => S754_nan
  | S754_zero sx, S754_zero sy => S754_zero (sx && sy)
  | _, _ => if flt y x then x else y
  end.

Lemma int64_of_float64_range x : in_int64 (int64_of_float64 x).
Proof.
  unfold in_int64, int64_of_float64.
  destruct x as [| | |s m e]; [simpl; lia..|].
  destruct (_ && _) eqn:H; simpl; lia.
Qed.

#[export] Hint Resolve int64_of_float64_range : caelus.

Lemma float64_of_nonneg n : 0 <= n -> flt (float64_of_Z n) fzero = false.
Proof.
  intros Hn. unfold float64_of_Z, binary_normalize. destruct n as [|p|p]; [done| |lia].
  unfold binary_round. destruct (shl_align _ _ _) as [mz ez]. unfold binary_round_aux.
  destruct (shr_fexp _ _ _ _ _) as [m1 e1]. destruct (shr_fexp _ _ _ _ _) as [m2 e2].
  destruct (shr_m m2) as [|q|q]; [done| |done]. by destruct (_ <=? _).
Qed.

Lemma flt_irrefl x : flt x x = false.
Proof.
  destruct x as [[]|[]| |s m e]; try done. unfold flt, SFltb, SFcompare. rewrite Z.compare_refl.
  change (Pcompare m m Eq) with (Pos.compare m m). rewrite Pos.compare_refl. by destruct s.
Qed.

(** ** The order of floating point numbers

    Numbers that are not NaN are ordered as the triples [fkey]. *)

Definition is_num (x : spec_float) : Prop := x <> S754_nan.

Definition fkey (x : spec_float) : Z * Z * Z :=
  match x with
  | S754_nan => (3, 0, 0)
  | S754_infinity s => (if s then -2 else 2, 0, 0)
  | S754_zero _ => (0, 0, 0)
  | S754_finite s m e => if s then (-1, - e, - Zpos m) else (1, e, Zpos m)
  end.

Definition lex3 (a b : Z * Z * Z) : bool :=
  let '(a1, a2, a3) := a in
  let '(b1, b2, b3) := b in
  (a1 <? b1) || ((a1 =? b1) && ((a2 <? b2) || ((a2 =? b2) && (a3 <? b3)))).

Lemma flt_fkey x y : is_num x -> is_num y -> flt x y = lex3 (fkey x) (fkey y).
Proof.
  unfold is_num, flt, SFltb, lex3. intros Hx Hy.
  destruct x as [s1|s1| |s1 m1 e1]; try done; destruct y as [s2|s2| |s2 m2 e2]; try done;
    destruct s1; try destruct s2; try reflexivity; cbn [SFcompare fkey];
    destruct (Z.compare_spec e1 e2); try change (Pcompare m1 m2 Eq) with (Pos.compare m1 m2);
    try destruct (Pos.compare_spec m1 m2); simpl; lia.
Qed.

Lemma feq_fkey x y : is_num x -> is_num y -> feq x y = bool_decide (fkey x = fkey y).
Proof.
  unfold is_num, feq, SFeqb. intros Hx Hy.
  destruct x as [s1|s1| |s1 m1 e1]; try done; destruct y as [s2|s2| |s2 m2 e2]; try done;
    destruct s1; try destruct s2; try reflexivity; cbn [SFcompare fkey];
    destruct (Z.compare_spec e1 e2); try change (Pcompare m1 m2 Eq) with (Pos.compare m1 m2);
    try destruct (Pos.compare_spec m1 m2); simpl; symmetry;
    first [apply bool_decide_eq_true_2; congruence | apply bool_decide_eq_false_2; intros [=]; lia].
Qed.

(** ** Decimal numbers *)

(** A run of digits: its value, its length and what follows. *)
Fixpoint scan_digits (acc : Z) (n : nat) (s : string) : Z * nat * string :=
  match s with
  | EmptyString => (acc, n, "")
  | String c s' =>
      match char_digit c with
      | Some d => scan_digits (acc * 10 + d) (S n) s'
      | None => (acc, n, s)
      end
  end.

(** The nearest float to [m * 10^e]. *)
Definition decimal_float (neg : bool) (m e : Z) : float64 :=
  let v := match m with
           | Zpos p => if 0 <=? e then binary_normalize fprec femax (m * 10 ^ e) 0 false
                       else fdiv (S754_finite false p 0) (S754_finite false (Z.to_pos (10 ^ (- e))) 0)
           | _ => fzero
           end in
  if neg then fneg v else v.

(** [strconv.ParseFloat(s, 64)] on decimal numbers with an optional sign,
    fraction and exponent. *)
Definition ParseFloat (s : string) : option float64 :=
  let '(neg, body) := match s with
                      | String "-" s' => (true, s')
                      | String "+" s' => (false, s')
                      | _ => (false, s)
                      end in
  let '(ip, n1, r1) := scan_digits 0 0 body in
  let '(m, n2, r2) := match r1 with
                      | String "." s' => scan_digits ip 0 s'
                      | _ => (ip, O, r1)
                      end in
  if Nat.eqb (n1 + n2) 0 then None
  else
    match r2 with
    | EmptyString => Some (decimal_float neg m (- Z.of_nat n2))
    | String c s' =>
        if Ascii.eqb c "e"%char || Ascii.eqb c "E"%char then
          match Atoi s' with
          | Some e => Some (decimal_float neg m (e - Z.of_nat n2))
          | None => None
          end
        else None
    end.
