(* ===== verification/NMApi.v ===== *)
(** * The node manager API

    pkg/types/types_yarn.go: what caelus and the node manager operator exchange
    over HTTP.  A message is the value that the JSON body stands for: a field
    tagged [json:"-"] does not travel, a missing field is the zero value of its
    type.  [NMServer] is the server as a client sees it, a state machine that
    answers requests; the client is proved against it, and the operator is an
    instance. *)

From S2P Require Import Prelude GoStrings GoFloat.

#[local] Open Scope string_scope.
#[local] Open Scope Z_scope.
#[local] Open Scope list_scope.

Record NMCapacity := mkNMCapacity {
  Vcores : Z;
  Millcores : Z;
  MemoryMB : Z;
}.

Record ConfigKey := mkConfigKey {
  ck_ConfigFile : string;
  ck_ConfigKeys : list string;
  ck_ConfigAll : bool;
}.

Record ConfigProperty := mkConfigProperty {
  cp_ConfigFile : string;
  cp_ConfigProperty : gmap string string;
  cp_ConfigAdd : bool;
  cp_ConfigDel : bool;
}.

Record NMStatus := mkNMStatus {
  st_Pid : Z;
  st_State : string;
  st_Description : string;
}.

Record ContainerState := mkContainerState {
  cs_UsedMemMB : float32;
  cs_UsedCPU : float32;
  cs_CgPath : string;
  cs_PidList : list Z;
  cs_StartTime : time;
}.

(** The fields of a container that the sources read or write. *)
Record NMContainer := mkNMContainer {
  con_ID : string;
  con_State : string;
  TotalMemoryNeededMB : Z;
  TotalVCoresNeeded : float32;
  UsedMemoryMB : float32;
  UsedVCores : float32;
  IsAM : bool;
  con_AppID : string;
  con_Pid : Z;
  con_StartTime : time;
}.

#[export] Instance NMCapacity_eq_dec : EqDecision NMCapacity.
Proof. solve_decision. Defined.

(** ** Messages *)

Inductive payload :=
| NoBody
| BodyKeys (k : ConfigKey)
| BodyProperty (p : ConfigProperty)
| BodyCapacity (c : NMCapacity)
| BodyCids (cids : list string)
| BodyStatus (s : NMStatus)
| BodyContainers (l : list NMContainer)
| BodyStats (m : gmap string ContainerState)
| BodyPartitions (l : list string)
| BodyText (s : string).

(** What the encoder keeps of a message. *)
Definition json_capacity (c : NMCapacity) : NMCapacity := mkNMCapacity (Vcores c) 0 (MemoryMB c).
Definition json_container (c : NMContainer) : NMContainer :=
  mkNMContainer (con_ID c) (con_State c) (TotalMemoryNeededMB c) (TotalVCoresNeeded c) (UsedMemoryMB c)
    (UsedVCores c) (IsAM c) (con_AppID c) 0 nilTime.

Definition encode (p : payload) : payload :=
  match p with
  | BodyCapacity c => BodyCapacity (json_capacity c)
  | BodyContainers l => BodyContainers (map json_container l)
  | _ => p
  end.

(** Decoding into a struct; an object without the fields of the struct leaves
    the zero value. *)
Definition as_capacity (p : payload) : NMCapacity :=
  match p with BodyCapacity c => json_capacity c | _ => mkNMCapacity 0 0 0 end.
Definition as_property (p : payload) : ConfigProperty :=
  match p with BodyProperty c => c | _ => mkConfigProperty "" ∅ false false end.
Definition as_keys (p : payload) : ConfigKey :=
  match p with BodyKeys k => k | _ => mkConfigKey "" [] false end.
Definition as_cids (p : payload) : list string := match p with BodyCids l => l | _ => [] end.
Definition as_status (p : payload) : NMStatus := match p with BodyStatus s => s | _ => mkNMStatus 0 "" "" end.
Definition as_containers (p : payload) : list NMContainer :=
  match p with BodyContainers l => map json_container l | _ => [] end.
Definition as_stats (p : payload) : gmap string ContainerState := match p with BodyStats m => m | _ => ∅ end.
Definition as_partitions (p : payload) : list string := match p with BodyPartitions l => l | _ => [] end.

(** ** Requests *)

Record http_request := mkRequest {
  rq_method : string;
  rq_url : string;
  rq_body : payload;
}.

(** [Failed] has the errors of the transport or of the decoder. *)
Inductive http_reply :=
| Failed (e : error)
| Reply (StatusCode : Z) (body : payload).

Class NMServer (S : Type) := nm_serve : S -> http_request -> http_reply * S.

Definition nmRequestStart : string := "start".
Definition nmRequestStop : string := "stop".
Definition nmRequestContainers : string := "containers".
Definition nmRequestContainerstats : string := "containerstats".
Definition nmRequestProperty : string := "property".
Definition nmRequestCapacity : string := "capacity".
Definition nmRequestScheduleDisable : string := "scheduleDisable".
Definition nmRequestScheduleEnable : string := "scheduleEnable".
Definition nmRequestCapacityUpdate : string := "capacityUpdate".
Definition nmRequestCapacityForceUpdate : string := "capacityForceUpdate".
Definition nmRequestContainersKill : string := "kill".
Definition nmRequestDiskPartitions : string := "diskPartitions".

Definition actionURL (action : string) : result string :=
  if (action =? nmRequestStart)%string then Ok "/v1/nm/start"
  else if (action =? nmRequestStop)%string then Ok "/v1/nm/stop"
  else if (action =? nmRequestContainers)%string then Ok "/v1/nm/containers"
  else if (action =? nmRequestContainerstats)%string then Ok "/v1/nm/containerstats"
  else if (action =? nmRequestProperty)%string then Ok "/v1/nm/property"
  else if (action =? nmRequestCapacity)%string then Ok "/v1/nm/capacity"
  else if (action =? nmRequestScheduleDisable)%string then Ok "/v1/nm/schedule/disable"
  else if (action =? nmRequestScheduleEnable)%string then Ok "/v1/nm/schedule/enable"
  else if (action =? nmRequestCapacityUpdate)%string then Ok "/v1/nm/capacity/update"
  else if (action =? nmRequestCapacityForceUpdate)%string then Ok "/v1/nm/capacity/update/force"
  else if (action =? nmRequestContainersKill)%string then Ok "/v1/nm/kill"
  else if (action =? nmRequestDiskPartitions)%string then Ok "/v1/nm/diskpartitions"
  else Err ("invalid action: " +:+ action).
