(* ===== verification/HadoopConf.v ===== *)
(** * Hadoop configuration files

    pkg/nm-operator/hadoop/hadoop_conf.go: the XML files of the node manager
    and the capacity stored in them.  A file is the list of properties its XML
    stands for ([None] when it does not parse), with its mode and owner; the
    file system calls that can fail are numbered, and the parameter [ConfEnv]
    says which of them do. *)

From Stdlib Require Import Ascii.
From S2P Require Import Prelude GoStrings GoFloat NMApi.

#[local] Open Scope string_scope.
#[local] Open Scope Z_scope.
#[local] Open Scope list_scope.

(** ** Properties *)

Record PropertyData := mkProperty {
  p_Name : string;
  p_Value : string;
  p_Description : string;
}.

(** [ConfData.Properties]. *)
Definition ConfData : Type := list PropertyData.

Fixpoint Conf_Get (conf : ConfData) (key : string) : string :=
  match conf with
  | [] => ""
  | prop :: conf' => if (p_Name prop =? key)%string then p_Value prop else Conf_Get conf' key
  end.

Definition with_value (prop : PropertyData) (value : string) : PropertyData :=
  mkProperty (p_Name prop) value (p_Description prop).

Definition Conf_Set (conf : ConfData) (key value : string) : ConfData :=
  map (fun prop => if (p_Name prop =? key)%string then with_value prop value else prop) conf.

Definition Conf_SetAdd (conf : ConfData) (key value : string) : ConfData :=
  let find := existsb (fun prop => (p_Name prop =? key)%string) conf in
  let conf' := Conf_Set conf key value in
  if find then conf' else conf' ++ [mkProperty key value ""].

(** ** Files *)

Record fileInfo := mkFileInfo {
  fi_mode : Z;
  fi_uid : Z;
  fi_gid : Z;
}.

Record xml_file := mkXml {
  x_data : option ConfData;
  x_info : fileInfo;
}.

Class ConfEnv := {
  (** The environment variable HADOOP_CONF_DIR. *)
  confDir : string;
  (** The error of the [n]-th file system call of the process. *)
  fs_error : nat -> string -> option error;
}.

(** The files and the package variables. *)
Record hadoop := mkHadoop {
  h_files : gmap string xml_file;
  h_calls : nat;
  h_infos : gmap string fileInfo;
  cacheCapacity : option NMCapacity;
  resourcemanagerAddress : string;
  nodemanagerAddress : string;
  nodemanagerWebAddress : string;
}.

Definition set_h_files (h : hadoop) (fs : gmap string xml_file) : hadoop :=
  mkHadoop fs (h_calls h) (h_infos h) (cacheCapacity h) (resourcemanagerAddress h) (nodemanagerAddress h)
    (nodemanagerWebAddress h).
Definition set_h_calls (h : hadoop) (n : nat) : hadoop :=
  mkHadoop (h_files h) n (h_infos h) (cacheCapacity h) (resourcemanagerAddress h) (nodemanagerAddress h)
    (nodemanagerWebAddress h).
Definition set_h_infos (h : hadoop) (i : gmap string fileInfo) : hadoop :=
  mkHadoop (h_files h) (h_calls h) i (cacheCapacity h) (resourcemanagerAddress h) (nodemanagerAddress h)
    (nodemanagerWebAddress h).
Definition set_cacheCapacity (h : hadoop) (c : NMCapacity) : hadoop :=
  mkHadoop (h_files h) (h_calls h) (h_infos h) (Some c) (resourcemanagerAddress h) (nodemanagerAddress h)
    (nodemanagerWebAddress h).
Definition set_rmAddress (h : hadoop) (a : string) : hadoop :=
  mkHadoop (h_files h) (h_calls h) (h_infos h) (cacheCapacity h) a (nodemanagerAddress h) (nodemanagerWebAddress h).
Definition set_nmAddress (h : hadoop) (a : string) : hadoop :=
  mkHadoop (h_files h) (h_calls h) (h_infos h) (cacheCapacity h) (resourcemanagerAddress h) a (nodemanagerWebAddress h).
Definition set_nmWebAddress (h : hadoop) (a : string) : hadoop :=
  mkHadoop (h_files h) (h_calls h) (h_infos h) (cacheCapacity h) (resourcemanagerAddress h) (nodemanagerAddress h) a.

Definition H (A : Type) : Type := hadoop -> A * hadoop.

#[global] Instance H_ret : MRet H := fun A a h => (a, h).
#[global] Instance H_bind : MBind H := fun A B f m h => let '(a, h') := m h in f a h'.

Definition hget {A} (f : hadoop -> A) : H A := fun h => (f h, h).
Definition hmodify (f : hadoop -> hadoop) : H unit := fun h => (tt, f h).

(** [if err := m; err != nil { return err }], then [k]. *)
Definition h_try (m : H (option error)) (k : H (option error)) : H (option error) :=
  e ← m;
  match e with
  | Some err => mret (Some err)
  | None => k
  end.

Section HadoopConf.
Context {CE : ConfEnv} {RO : RangeOrder}.

Definition fs_call (what : string) : H (option error) := fun h =>
  (fs_error (h_calls h) what, set_h_calls h (S (h_calls h))).

Definition GetXMLFullPath (filename : string) : string := confDir +:+ "/" +:+ filename.

Definition YarnSiteFile : string := "yarn-site.xml".
Definition HadoopLocalDirs : string := "yarn.nodemanager.local-dirs".
Definition minCapacityCores : string := "1".
Definition minCapacityMemoryMB : string := "1024".
Definition memoryKey : string := "yarn.nodemanager.resource.memory-mb".
Definition vcoresKey : string := "yarn.nodemanager.resource.cpu-vcores".

(** [LoadConfDataFromStream] fails on a file that does not parse. *)
Definition LoadConfDataFromFile (filename : string) : H (result ConfData) :=
  e ← fs_call "open";
  f ← hget (fun h => h_files h !! GetXMLFullPath filename);
  mret (match e, f with
        | Some err, _ => Err err
        | None, None => Err "no such file or directory"
        | None, Some x =>
            match x_data x with
            | None => Err "XML syntax error"
            | Some conf => Ok conf
            end
        end).

(** The changes of [getConfData], in the order the ranges visit the map. *)
Definition applyProperties (properties : gmap string string) (change add del : bool) (conf : ConfData) : ConfData :=
  let conf1 := if change then fold_left (fun c '(key, value) => Conf_Set c key value) (range_map "change" properties) conf
               else conf in
  let conf2 := if add then fold_left (fun c '(key, value) => Conf_SetAdd c key value) (range_map "add" properties) conf1
               else conf1 in
  if del then List.filter (fun p => match properties !! p_Name p with Some _ => true | None => false end) conf2
  else conf2.

Definition getConfData (fileName : string) (properties : gmap string string) (change add del : bool) :
    H (result ConfData) :=
  conf ← LoadConfDataFromFile fileName;
  mret (match conf with
        | Err e => Err e
        | Ok c => Ok (applyProperties properties change add del c)
        end).

Definition getFileInfo (fileName : string) : H (result fileInfo) :=
  cached ← hget (fun h => h_infos h !! fileName);
  match cached with
  | Some v => mret (Ok v)
  | None =>
      e ← fs_call "stat";
      f ← hget (fun h => h_files h !! fileName);
      match e, f with
      | Some err, _ => mret (Err err)
      | None, None => mret (Err "no such file or directory")
      | None, Some x =>
          _ ← hmodify (fun h => set_h_infos h (<[fileName := x_info x]> (h_infos h)));
          mret (Ok (x_info x))
      end
  end.

(** The new contents go to a temporary file with the mode and the owner of the
    old one, which then takes its place. *)
Definition writeConfDataToFile (fileName : string) (properties : gmap string string) (change add del : bool) :
    H (option error) :=
  if decide (properties = ∅) then mret None
  else
    conf ← getConfData fileName properties change add del;
    match conf with
    | Err e => mret (Some e)
    | Ok c =>
        info ← getFileInfo (GetXMLFullPath fileName);
        match info with
        | Err e => mret (Some e)
        | Ok f =>
            h_try (fs_call "create") (
            h_try (fs_call "chmod") (
            h_try (fs_call "chown") (
            h_try (fs_call "write") (
            h_try (fs_call "sync") (
            h_try (fs_call "close") (
            h_try (fs_call "rename") (
              _ ← hmodify (fun h => set_h_files h (<[GetXMLFullPath fileName := mkXml (Some c) f]> (h_files h)));
              mret None)))))))
        end
    end.

Definition SetMultipleConfDataToFile (xmlfile : string) (properties : gmap string string) : H (option error) :=
  writeConfDataToFile xmlfile properties true false false.

Definition SetAddDelMultipleConfDataToFile (xmlfile : string) (properties : gmap string string) (add del : bool) :
    H (option error) :=
  writeConfDataToFile xmlfile properties false add del.

Definition GetConfDataFromFile (xmlfile key : string) : H string :=
  conf ← LoadConfDataFromFile xmlfile;
  mret (match conf with
        | Err _ => ""
        | Ok c => Conf_Get c key
        end).

(** ** The capacity *)

Definition hadoop_GetCapacity : H (result NMCapacity) :=
  cache ← hget cacheCapacity;
  match cache with
  | Some c => mret (Ok (mkNMCapacity (Vcores c) 0 (MemoryMB c)))
  | None =>
      conf ← LoadConfDataFromFile YarnSiteFile;
      mret (match conf with
            | Err e => Err e
            | Ok c =>
                let memoryMB := default (-1) (Atoi (Conf_Get c memoryKey)) in
                let vcores := default (-1) (Atoi (Conf_Get c vcoresKey)) in
                Ok (mkNMCapacity vcores 0 memoryMB)
            end)
  end.

(** The properties [SetCapacity] writes: a zero would keep the process from
    starting. *)
Definition capacityProperties (capacity : NMCapacity) : gmap string string :=
  <[vcoresKey := if Vcores capacity =? 0 then minCapacityCores else Itoa (Vcores capacity)]>
  (<[memoryKey := if MemoryMB capacity =? 0 then minCapacityMemoryMB else Itoa (MemoryMB capacity)]> ∅).

Definition hadoop_SetCapacity (capacity : NMCapacity) : H (option error) :=
  _ ← hmodify (fun h =>
        let cached := default (mkNMCapacity 0 0 0) (cacheCapacity h) in
        set_cacheCapacity h (mkNMCapacity (Vcores capacity) (Millcores cached) (MemoryMB capacity)));
  SetMultipleConfDataToFile YarnSiteFile (capacityProperties capacity).

(** ** The configuration *)

Definition GetConfig (fileName : string) (keys : list string) : H (result (gmap string string)) :=
  conf ← LoadConfDataFromFile fileName;
  mret (match conf with
        | Err e => Err e
        | Ok c => Ok (fold_left (fun property key => <[key := Conf_Get c key]> property) keys ∅)
        end).

Definition GetAllConfig (fileName : string) : H (result (gmap string string)) :=
  conf ← LoadConfDataFromFile fileName;
  mret (match conf with
        | Err e => Err e
        | Ok c => Ok (fold_left (fun property prop => <[p_Name prop := p_Value prop]> property) c ∅)
        end).

Definition SetConfig (fileName : string) (properties : gmap string string) : H (option error) :=
  SetMultipleConfDataToFile fileName properties.

Definition SetAddDelConfig (fileName : string) (properties : gmap string string) (add del : bool) : H (option error) :=
  SetAddDelMultipleConfDataToFile fileName properties add del.

(** ** Addresses *)

(** The first line of a text. *)
Fixpoint first_line (s : string) : string :=
  match s with
  | EmptyString => ""
  | String c s' => if Ascii.eqb c (ascii_of_nat 10) then "" else String c (first_line s')
  end.

(** The text before and after the last [sep] in [s]. *)
Fixpoint cut_last (s sep : string) : option (string * string) :=
  match s with
  | EmptyString => None
  | String c s' =>
      match cut_last s' sep with
      | Some (a, b) => Some (String c a, b)
      | None => if HasPrefix s sep then Some ("", drop_string (String.length sep) s) else None
      end
  end.

(** [propertyRegex.FindStringSubmatch]: a dollar and a name in braces, a colon
    and the rest; the leftmost start and the longest groups, which do not cross
    a newline. *)
Fixpoint propertyMatch (s : string) : option (string * string) :=
  match s with
  | EmptyString => None
  | String _ s' =>
      match (if HasPrefix s "${" then cut_last (first_line (drop_string 2 s)) "}:" else None) with
      | Some m => Some m
      | None => propertyMatch s'
      end
  end.

Definition getRealResourceManagerAddress (rmAddr : string) : H string :=
  if negb (Contains rmAddr "${") then mret rmAddr
  else
    match propertyMatch rmAddr with
    | None => mret ""
    | Some (name, port) =>
        host ← GetConfDataFromFile YarnSiteFile name;
        mret (host +:+ ":" +:+ port)
    end.

Definition GetResourceManagerAddress (cacheAddress : bool) : H string :=
  cached ← hget resourcemanagerAddress;
  if cacheAddress && negb (slen cached =? 0) then mret cached
  else
    rmAddr ← GetConfDataFromFile YarnSiteFile "yarn.resourcemanager.webapp.address";
    if negb (slen rmAddr =? 0) then
      a ← getRealResourceManagerAddress rmAddr;
      _ ← hmodify (fun h => set_rmAddress h a);
      mret a
    else
      rm1 ← GetConfDataFromFile YarnSiteFile "yarn.resourcemanager.webapp.address.rm1";
      rm1Addr ← getRealResourceManagerAddress rm1;
      if (rm1Addr =? "")%string then mret ""
      else
        rm2 ← GetConfDataFromFile YarnSiteFile "yarn.resourcemanager.webapp.address.rm2";
        rm2Addr ← getRealResourceManagerAddress rm2;
        if (rm2Addr =? "")%string then mret ""
        else
          let a := rm1Addr +:+ "," +:+ rm2Addr in
          _ ← hmodify (fun h => set_rmAddress h a);
          mret a.

Definition GetNodeManagerAddress (cacheAddress : bool) : H string :=
  cached ← hget nodemanagerAddress;
  if cacheAddress && negb (slen cached =? 0) then mret cached
  else
    a ← GetConfDataFromFile YarnSiteFile "yarn.nodemanager.address";
    _ ← hmodify (fun h => set_nmAddress h a);
    mret a.

Definition GetNodeManagerWebAddress (cacheAddress : bool) : H string :=
  cached ← hget nodemanagerWebAddress;
  if cacheAddress && negb (slen cached =? 0) then mret cached
  else
    a ← GetConfDataFromFile YarnSiteFile "yarn.nodemanager.webapp.address";
    _ ← hmodify (fun h => set_nmWebAddress h a);
    mret a.

Definition GetYarnNodeManagerLocalDirs : H string := GetConfDataFromFile YarnSiteFile HadoopLocalDirs.

End HadoopConf.

(** ** Looking up what was set *)

Definition has_key (conf : ConfData) (key : string) : bool := existsb (fun prop => (p_Name prop =? key)%string) conf.

Lemma Conf_Get_no_key conf key : has_key conf key = false -> Conf_Get conf key = "".
Proof. induction conf as [|p conf IH]; simpl; [done|]. by destruct (p_Name p =? key)%string. Qed.

Lemma has_key_Set conf key value j : has_key (Conf_Set conf key value) j = has_key conf j.
Proof. induction conf as [|p conf IH]; simpl; [done|]. rewrite IH. by destruct (p_Name p =? key)%string. Qed.

Lemma Conf_Get_Set conf key value j :
  Conf_Get (Conf_Set conf key value) j =
    if (j =? key)%string && has_key conf j then value else Conf_Get conf j.
Proof.
  induction conf as [|p conf IH]; simpl; [by rewrite andb_false_r|]. rewrite IH.
  destruct (String.eqb_spec (p_Name p) key) as [E|E]; simpl; destruct (String.eqb_spec (p_Name p) j) as [E'|E']; simpl; try done.
  - subst. by rewrite String.eqb_refl.
  - destruct (String.eqb_spec j key); [congruence|done].
Qed.

Lemma has_key_app conf conf' key : has_key (conf ++ conf') key = has_key conf key || has_key conf' key.
Proof. apply existsb_app. Qed.

Lemma Conf_Get_app conf conf' key :
  Conf_Get (conf ++ conf') key = if has_key conf key then Conf_Get conf key else Conf_Get conf' key.
Proof. induction conf as [|p conf IH]; simpl; [done|]. by destruct (p_Name p =? key)%string. Qed.

Lemma has_key_SetAdd conf key value j : has_key (Conf_SetAdd conf key value) j = (j =? key)%string || has_key conf j.
Proof.
  unfold Conf_SetAdd. fold (has_key conf key).
  destruct (has_key conf key) eqn:E; rewrite ?has_key_app, has_key_Set; simpl; destruct (String.eqb_spec j key) as [->|Hn]; simpl.
  - done.
  - done.
  - rewrite String.eqb_refl. apply orb_true_r.
  - destruct (String.eqb_spec key j); [congruence|]. by rewrite !orb_false_r.
Qed.

Lemma Conf_Get_SetAdd conf key value j :
  Conf_Get (Conf_SetAdd conf key value) j = if (j =? key)%string then value else Conf_Get conf j.
Proof.
  unfold Conf_SetAdd. fold (has_key conf key).
  destruct (has_key conf key) eqn:E.
  - rewrite Conf_Get_Set. destruct (String.eqb_spec j key) as [->|]; [by rewrite E|done].
  - rewrite Conf_Get_app, has_key_Set, Conf_Get_Set. simpl.
    destruct (String.eqb_spec j key) as [->|Hn]; simpl; [by rewrite E, String.eqb_refl|].
    destruct (String.eqb_spec key j); [congruence|]. destruct (has_key conf j) eqn:Ej; [done|].
    by rewrite Conf_Get_no_key.
Qed.

Lemma fold_Set_lookup l conf j :
  NoDup l.*1 ->
  Conf_Get (fold_left (fun c '(key, value) => Conf_Set c key value) l conf) j =
    match (list_to_map l : gmap string string) !! j with
    | Some v => if has_key conf j then v else Conf_Get conf j
    | None => Conf_Get conf j
    end.
Proof.
  revert conf. induction l as [|[k v] l IH]; intros conf Hl; simpl; [done|].
  inversion Hl as [|? ? Hk Hl']; subst. rewrite IH, Conf_Get_Set, has_key_Set by done.
  destruct (String.eqb_spec j k) as [->|Hn]; simpl.
  - rewrite lookup_insert_eq. by rewrite not_elem_of_list_to_map_1.
  - by rewrite lookup_insert_ne.
Qed.

Lemma fold_SetAdd_lookup l conf j :
  NoDup l.*1 ->
  Conf_Get (fold_left (fun c '(key, value) => Conf_SetAdd c key value) l conf) j =
    match (list_to_map l : gmap string string) !! j with Some v => v | None => Conf_Get conf j end.
Proof.
  revert conf. induction l as [|[k v] l IH]; intros conf Hl; simpl; [done|].
  inversion Hl as [|? ? Hk Hl']; subst. rewrite IH, Conf_Get_SetAdd by done.
  destruct (String.eqb_spec j k) as [->|Hn]; simpl.
  - rewrite lookup_insert_eq. by rewrite not_elem_of_list_to_map_1.
  - by rewrite lookup_insert_ne.
Qed.

Lemma Conf_Get_filter (keep : string -> bool) conf j :
  Conf_Get (List.filter (fun p => keep (p_Name p)) conf) j = if keep j then Conf_Get conf j else "".
Proof.
  induction conf as [|p conf IH]; simpl; [by destruct (keep j)|].
  destruct (keep (p_Name p)) eqn:Ek; simpl; rewrite IH; destruct (String.eqb_spec (p_Name p) j) as [<-|]; try done.
  - by rewrite Ek.
  - by rewrite Ek.
Qed.

(** What a file says of [key] after [properties] were written to it. *)
Definition updated_value (conf : ConfData) (properties : gmap string string) (change add del : bool) (key : string) : string :=
  match properties !! key with
  | Some v => if add || (change && has_key conf key) then v else Conf_Get conf key
  | None => if del then "" else Conf_Get conf key
  end.

Lemma applyProperties_Get {RO : RangeOrder} conf properties change add del key :
  Conf_Get (applyProperties properties change add del conf) key = updated_value conf properties change add del key.
Proof.
  unfold applyProperties, updated_value.
  set (conf1 := if change then _ else conf). set (conf2 := if add then _ else conf1).
  assert (H1 : Conf_Get conf1 key =
            match properties !! key with
            | Some v => if change && has_key conf key then v else Conf_Get conf key | None => Conf_Get conf key end).
  { unfold conf1. destruct change; simpl; [|by case_match].
    rewrite fold_Set_lookup by apply NoDup_fst_range. by rewrite list_to_map_range. }
  assert (H2 : Conf_Get conf2 key =
            match properties !! key with
            | Some v => if add then v else Conf_Get conf1 key | None => Conf_Get conf1 key end).
  { unfold conf2. destruct add; simpl; [|by case_match].
    rewrite fold_SetAdd_lookup by apply NoDup_fst_range. by rewrite list_to_map_range. }
  destruct del.
  - rewrite (Conf_Get_filter (fun k => match properties !! k with Some _ => true | None => false end)).
    rewrite H2, H1. by destruct (properties !! key), add.
  - rewrite H2, H1. by destruct (properties !! key), add.
Qed.

Ltac hd := unfold h_try, fs_call, hget, hmodify, mbind, H_bind, mret, H_ret in *; cbn [fst snd] in *.

Section Writing.
Context {CE : ConfEnv} {RO : RangeOrder}.

(** The part of the state that the file operations do not touch. *)
Definition same_vars (h h' : hadoop) : Prop :=
  cacheCapacity h' = cacheCapacity h /\ resourcemanagerAddress h' = resourcemanagerAddress h /\
  nodemanagerAddress h' = nodemanagerAddress h /\ nodemanagerWebAddress h' = nodemanagerWebAddress h.

Definition read_data (h : hadoop) (fileName : string) : option ConfData :=
  x ← h_files h !! GetXMLFullPath fileName; x_data x.

Lemma LoadConf_facts fileName h :
  snd (LoadConfDataFromFile fileName h) = set_h_calls h (S (h_calls h)) /\
  (forall c, fst (LoadConfDataFromFile fileName h) = Ok c <->
     fs_error (h_calls h) "open" = None /\ read_data h fileName = Some c).
Proof.
  unfold LoadConfDataFromFile, read_data. hd. split; [done|]. intros c. cbn [set_h_calls h_files].
  destruct (fs_error _ _); [naive_solver|].
  destruct (h_files h !! _) as [x|]; simpl; [|naive_solver]. destruct (x_data x); naive_solver.
Qed.

Lemma getFileInfo_facts p h r h' :
  getFileInfo p h = (r, h') ->
  same_vars h h' /\ h_files h' = h_files h /\
  (forall i x, r = Ok i -> h_files h !! p = Some x -> i = default (x_info x) (h_infos h !! p)).
Proof.
  unfold getFileInfo. hd. destruct (h_infos h !! p) as [i|].
  - intros [= <- <-]. split_and!; [done..|]. by intros i' x [= <-] _.
  - cbn [set_h_calls h_files]. destruct (fs_error _ _); [intros [= <- <-]; by split_and!|].
    destruct (h_files h !! p) as [x|]; intros [= <- <-]; (split_and!; [done..|]); [|done].
    by intros i x' [= <-] [= <-].
Qed.

Lemma h_try_call what k h e h' :
  h_try (fs_call what) k h = (e, h') ->
  (is_Some e /\ h' = set_h_calls h (S (h_calls h))) \/ k (set_h_calls h (S (h_calls h))) = (e, h').
Proof. hd. destruct (fs_error _ _); [intros [= <- <-]; left; eauto|by right]. Qed.

Lemma writeConf_facts fileName properties change add del h e h' :
  writeConfDataToFile fileName properties change add del h = (e, h') ->
  same_vars h h' /\ (is_Some e -> h_files h' = h_files h) /\
  (properties <> ∅ -> e = None ->
    exists x c, h_files h !! GetXMLFullPath fileName = Some x /\ x_data x = Some c /\
      h_files h' = <[GetXMLFullPath fileName :=
        mkXml (Some (applyProperties properties change add del c))
          (default (x_info x) (h_infos h !! GetXMLFullPath fileName))]> (h_files h)).
Proof.
  unfold writeConfDataToFile. case_decide as Hp; [intros [= <- <-]; split_and!; [done..|]; done|].
  unfold getConfData. unfold mbind, H_bind, mret, H_ret at 1 2 3 4.
  destruct (LoadConf_facts fileName h) as [Hs Hc].
  destruct (LoadConfDataFromFile fileName h) as [r h1]. cbn [fst snd] in *. subst h1.
  destruct r as [c|err]; [|intros [= <- <-]; split_and!; done].
  destruct (proj1 (Hc c) eq_refl) as [_ Hr]. unfold read_data in Hr.
  destruct (h_files h !! _) as [x|] eqn:Ex; [|done]. cbn in Hr.
  destruct (getFileInfo _ _) as [i h2] eqn:Ei. apply getFileInfo_facts in Ei as (Hv & Hf & Hi).
  cbn [set_h_calls h_files h_infos] in *. change (same_vars h h2) in Hv.
  destruct i as [i|err]; [|intros [= <- <-]; split_and!; done].
  specialize (Hi i x eq_refl Ex). subst i.
  intros Hw.
  repeat match type of Hw with
         | h_try _ _ _ = _ => apply h_try_call in Hw as [[He ->]|Hw]; [split_and!; [done..|]; by intros _ ->; inversion He|]
         end.
  cbn in Hw. injection Hw as <- <-. split_and!; [done|by intros [? ?]|].
  intros _ _. exists x, c. cbn. by rewrite Hf.
Qed.

Lemma read_data_write fileName properties change add del h h' :
  writeConfDataToFile fileName properties change add del h = (None, h') -> properties <> ∅ ->
  exists c, read_data h fileName = Some c /\ read_data h' fileName = Some (applyProperties properties change add del c).
Proof.
  intros Hw Hp. apply writeConf_facts in Hw as (_ & _ & Hw).
  destruct (Hw Hp eq_refl) as (x & c & Hx & Hc & Hf). exists c. unfold read_data.
  rewrite Hf, lookup_insert_eq, Hx. by simpl.
Qed.

Lemma GetConfig_facts fileName keys h c key :
  fs_error (h_calls h) "open" = None -> read_data h fileName = Some c ->
  exists m, fst (GetConfig fileName keys h) = Ok m /\ m !! key = if decide (key ∈ keys) then Some (Conf_Get c key) else None.
Proof.
  intros He Hr. unfold GetConfig. hd. destruct (LoadConf_facts fileName h) as [_ Hl].
  destruct (LoadConfDataFromFile fileName h) as [r h1]. cbn [fst] in *. rewrite (proj2 (Hl c) (conj He Hr)).
  eexists. split; [done|].
  enough (forall m : gmap string string, fold_left (fun property k => <[k := Conf_Get c k]> property) keys m !! key =
            if decide (key ∈ keys) then Some (Conf_Get c key) else m !! key) as -> by done.
  clear. induction keys as [|k keys IH]; intros m; simpl; [done|]. rewrite IH.
  destruct (decide (key = k)) as [->|Hn].
  - rewrite lookup_insert_eq. repeat case_decide; set_solver.
  - rewrite lookup_insert_ne by done. repeat case_decide; set_solver.
Qed.


(** What is left of the process after a restart: its files. *)
Definition restarted (h : hadoop) : hadoop := mkHadoop (h_files h) (h_calls h) ∅ None "" "" "".

Definition at_least_one (d z : Z) : Z := if z =? 0 then d else z.

(** A capacity that was set is the capacity that is read: exactly, from the
    cache, while the process lives (even when it could not be written), and
    from the file after a restart if the file already had the two keys and the
    write succeeded, where a zero has become the minimum that lets the node
    manager start. *)
Theorem SetCapacity_GetCapacity capacity h e h' :
  in_int64 (Vcores capacity) -> in_int64 (MemoryMB capacity) ->
  hadoop_SetCapacity capacity h = (e, h') ->
  fst (hadoop_GetCapacity h') = Ok (mkNMCapacity (Vcores capacity) 0 (MemoryMB capacity)) /\
  (forall c, e = None -> read_data h YarnSiteFile = Some c -> has_key c memoryKey = true -> has_key c vcoresKey = true ->
    fs_error (h_calls h') "open" = None ->
    fst (hadoop_GetCapacity (restarted h')) =
      Ok (mkNMCapacity (at_least_one 1 (Vcores capacity)) 0 (at_least_one 1024 (MemoryMB capacity)))).
Proof.
  intros Hv Hm. unfold hadoop_SetCapacity. unfold mbind, H_bind, hmodify.
  set (h1 := set_cacheCapacity h _). intros Hs. split.
  - apply writeConf_facts in Hs as ((Hc & _) & _). unfold hadoop_GetCapacity. hd. by rewrite Hc.
  - intros c -> Hr Hkm Hkv Ho.
    destruct (read_data_write _ _ _ _ _ _ _ Hs) as (c' & Hc' & Hr'); [done|].
    assert (c' = c) as -> by (change (read_data h YarnSiteFile = Some c') in Hc'; congruence).
    unfold hadoop_GetCapacity. hd. cbn [restarted cacheCapacity].
    destruct (LoadConf_facts YarnSiteFile (restarted h')) as [_ Hl].
    destruct (LoadConfDataFromFile YarnSiteFile (restarted h')) as [r h2]. cbn [fst] in *.
    rewrite (proj2 (Hl _) (conj Ho Hr')). do 2 f_equal; rewrite applyProperties_Get; unfold updated_value, capacityProperties.
    + rewrite lookup_insert_eq, Hkv. simpl. unfold at_least_one. destruct (Vcores capacity =? 0); [done|]. by rewrite Atoi_Itoa.
    + rewrite lookup_insert_ne, lookup_insert_eq, Hkm by done. simpl. unfold at_least_one.
      destruct (MemoryMB capacity =? 0); [done|]. by rewrite Atoi_Itoa.
Qed.
End Writing.

(** ** Examples *)

Definition ex_conf_env : ConfEnv := {| confDir := "/etc/hadoop"; fs_error := fun _ _ => None |}.
Definition ex_site : ConfData :=
  [mkProperty memoryKey "4096" ""; mkProperty vcoresKey "8" "cores"; mkProperty "yarn.nodemanager.address" "10.0.0.1:8082" ""].
Definition ex_hadoop : hadoop :=
  mkHadoop {["/etc/hadoop/yarn-site.xml" := mkXml (Some ex_site) (mkFileInfo 420 0 0)]} 0 ∅ None "" "" "".

#[local] Existing Instance ex_conf_env.
#[local] Existing Instance key_order.

Definition ex_write : option error * hadoop :=
  writeConfDataToFile YarnSiteFile {["a" := "1"]} false true false ex_hadoop.


Definition ex_set : option error * hadoop := hadoop_SetCapacity (mkNMCapacity 0 0 2048) ex_hadoop.

Lemma SetCapacity_GetCapacity_witness :
  ex_set.1 = None /\ fst (hadoop_GetCapacity (restarted ex_set.2)) = Ok (mkNMCapacity 1 0 2048).
Proof.
  assert (E : ex_set = (None, ex_set.2)) by (vm_compute; reflexivity).
  split; [exact (f_equal fst E)|].
  assert (Hi : forall z, 0 <= z < 4096 -> in_int64 z) by (unfold in_int64; lia).
  destruct (SetCapacity_GetCapacity (mkNMCapacity 0 0 2048) ex_hadoop None ex_set.2
              (Hi 0 ltac:(lia)) (Hi 2048 ltac:(lia)) E) as [_ Hr].
  exact (Hr ex_site eq_refl eq_refl eq_refl eq_refl eq_refl).
Defined.

Example propertyMatch_example :
  propertyMatch "${yarn.resourcemanager.hostname.rm1}:8080" = Some ("yarn.resourcemanager.hostname.rm1", "8080").
Proof. reflexivity. Qed.
