(* ===== verification/Quantity.v ===== *)
(** * Kubernetes quantities

    [resource.Quantity] of k8s.io/apimachinery is a library the sources call,
    so it is a parameter of the development: a type with the operations the
    sources use ([QuantityOps]) and their documented behaviour ([QuantityLaws]),
    stated through [amount], the exact value of a quantity in units of 10^-9.
    Two quantities are equivalent when they have the same amount (a quantity
    also carries a print format and a cached string).  [ZQuantity] is an
    instance over [Z], with which the witnesses evaluate. *)

From S2P Require Import Prelude.

Class QuantityOps (Q : Type) := {
  qAdd : Q -> Q -> Q;
  qSub : Q -> Q -> Q;
  qNeg : Q -> Q;
  (** [Cmp] returns 0, 1 or -1. *)
  qCmp : Q -> Q -> Z;
  qIsZero : Q -> bool;
  qMilliValue : Q -> Z;
  qValue : Q -> Z;
  qNewMilliQuantity : Z -> Q;
  qNewQuantity : Z -> Q;
  (** The value of [resource.MustParse("0")] and of the zero [Quantity{}]. *)
  qZero : Q;
  qParse : string -> option Q;
}.

Definition nano : Z := 10 ^ 9.
Definition nano_per_milli : Z := 10 ^ 6.

(** Division rounding up, as [Value] and [MilliValue] round. *)
Definition div_up (a b : Z) : Z := - (- a `div` b).

Class QuantityLaws (Q : Type) `{QuantityOps Q} := {
  amount : Q -> Z;
  amount_Add : forall a b, amount (qAdd a b) = amount a + amount b;
  amount_Sub : forall a b, amount (qSub a b) = amount a - amount b;
  amount_Neg : forall a, amount (qNeg a) = - amount a;
  qCmp_lt : forall a b, qCmp a b < 0 <-> amount a < amount b;
  qCmp_eq : forall a b, qCmp a b = 0 <-> amount a = amount b;
  qCmp_gt : forall a b, 0 < qCmp a b <-> amount b < amount a;
  qIsZero_spec : forall a, qIsZero a = true <-> amount a = 0;
  qMilliValue_spec : forall a,
    in_int64 (div_up (amount a) nano_per_milli) ->
    qMilliValue a = div_up (amount a) nano_per_milli;
  qValue_spec : forall a,
    in_int64 (div_up (amount a) nano) -> qValue a = div_up (amount a) nano;
  amount_NewMilliQuantity : forall z, in_int64 z -> amount (qNewMilliQuantity z) = z * nano_per_milli;
  amount_NewQuantity : forall z, in_int64 z -> amount (qNewQuantity z) = z * nano;
  amount_Zero : amount qZero = 0;
}.

Section QuantityLemmas.
Context {Q : Type} `{QuantityLaws Q}.

(** Quantities up to their amount. *)
#[global] Instance quantity_equiv : Equiv Q := fun a b => amount a = amount b.

#[global] Instance quantity_equivalence : Equivalence (≡@{Q}).
Proof. unfold equiv, quantity_equiv. split; repeat intro; congruence. Qed.

#[global] Instance amount_proper : Proper ((≡) ==> (=)) amount.
Proof. intros a b E. exact E. Qed.

#[global] Instance qAdd_proper : Proper ((≡) ==> (≡) ==> (≡)) qAdd.
Proof.
  intros a b E c d F. unfold equiv, quantity_equiv in *.
  rewrite !amount_Add. congruence.
Qed.

Definition qlt (a b : Q) : bool := qCmp a b <? 0.
Definition qle0 (a : Q) : Prop := amount a <= 0.

Lemma qCmp_ltb a b : (qCmp a b <? 0) = (amount a <? amount b).
Proof. apply eq_bool_prop_intro. rewrite !Is_true_true, !Z.ltb_lt. apply qCmp_lt. Qed.

Lemma qCmp_gtb a b : (0 <? qCmp a b) = (amount b <? amount a).
Proof. apply eq_bool_prop_intro. rewrite !Is_true_true, !Z.ltb_lt. apply qCmp_gt. Qed.

Lemma qCmp_eqb a b : (qCmp a b =? 0) = (amount a =? amount b).
Proof. apply eq_bool_prop_intro. rewrite !Is_true_true, !Z.eqb_eq. apply qCmp_eq. Qed.

Lemma qCmp_geb a b : (0 <=? qCmp a b) = (amount b <=? amount a).
Proof.
  pose proof (qCmp_lt a b). split_bools; lia.
Qed.

Lemma qIsZero_eqb a : qIsZero a = (amount a =? 0).
Proof. apply eq_bool_prop_intro. rewrite !Is_true_true, Z.eqb_eq. apply qIsZero_spec. Qed.

(** An integer amount is read back. *)
Lemma div_up_mul z n : n <> 0 -> div_up (z * n) n = z.
Proof. intros Hn. unfold div_up. replace (- (z * n)) with (- z * n) by ring. rewrite Z.div_mul by done. lia. Qed.

Lemma milli_roundtrip z : in_int64 z -> qMilliValue (qNewMilliQuantity z) = z.
Proof. intros Hz. rewrite qMilliValue_spec; rewrite amount_NewMilliQuantity, div_up_mul by done; done. Qed.

Lemma value_roundtrip z : in_int64 z -> qValue (qNewQuantity z) = z.
Proof. intros Hz. rewrite qValue_spec; rewrite amount_NewQuantity, div_up_mul by done; done. Qed.
End QuantityLemmas.

(** Replace every quantity operation by arithmetic on amounts. *)
Ltac amounts :=
  rewrite ?qCmp_ltb, ?qCmp_gtb, ?qCmp_eqb, ?qCmp_geb, ?qIsZero_eqb in *;
  rewrite ?amount_Add, ?amount_Sub, ?amount_Neg, ?amount_Zero in *.

(** ** Quantities as exact integers *)

#[export] Instance ZQuantityOps : QuantityOps Z := {
  qAdd := Z.add;
  qSub := Z.sub;
  qNeg := Z.opp;
  qCmp := fun a b => Z.sgn (a - b);
  qIsZero := fun a => a =? 0;
  qMilliValue := fun a => div_up a nano_per_milli;
  qValue := fun a => div_up a nano;
  qNewMilliQuantity := fun z => z * nano_per_milli;
  qNewQuantity := fun z => z * nano;
  qZero := 0;
  qParse := fun _ => None;
}.

#[export] Instance ZQuantity : QuantityLaws Z.
Proof.
  refine {| amount := fun z => z |}; simpl; intros; try done; try lia.
Defined.

(** ** Resource lists

    [v1.ResourceList]: the accessors return the zero quantity for a name that is
    missing. *)

Section Lists.
Context {Q : Type} `{QO : QuantityOps Q}.
Implicit Types res : gmap string Q.

Definition rl_Cpu res : Q := default qZero (res !! "cpu"%string).
Definition rl_Memory res : Q := default qZero (res !! "memory"%string).
Definition cpuMilli res : Z := qMilliValue (rl_Cpu res).
Definition memBytes res : Z := qValue (rl_Memory res).
Definition set_cpuMilli res (milli : Z) : gmap string Q := <["cpu"%string := qNewMilliQuantity milli]> res.
Definition set_memBytes res (bytes : Z) : gmap string Q := <["memory"%string := qNewQuantity bytes]> res.
End Lists.
