(* ===== verification/Action.v ===== *)
(** * Actions of the health check

    pkg/caelus/healthcheck/action: the resources a rule takes from offline jobs
    or gives back ([ActionResource]), the result of the actions of a round of
    checks ([ActionResult]) with its merge, and the four kinds of action.
    The merge is commutative, associative and idempotent up to the equivalence
    [≡] below, so the result of a round does not depend on the order in which
    the checkers report. *)

From Corelib Require Import Floats.SpecFloat.
From S2P Require Import Prelude GoFloat Quantity.

#[local] Open Scope string_scope.
#[local] Open Scope Z_scope.

Definition FormulaStep : string := "step".
Definition FormulaTotal : string := "total".
Definition FormulaPercent : string := "percent".

Definition allActionFormula : list string := [FormulaStep; FormulaTotal; FormulaPercent].

Inductive ActionType := Adjust | Schedule | Evict | Log.

Record ActionResource (Q : Type) := mkActionResource {
  Name : string;
  Conflicting : bool;
  ConflictQuantity : gmap string Q;
}.
Arguments mkActionResource {Q} _ _ _.
Arguments Name {Q} _.
Arguments Conflicting {Q} _.
Arguments ConflictQuantity {Q} _.

Record ActionResult (Q : Type) := mkActionResult {
  UnscheduleMap : gmap string bool;
  EvictPods : list (string * string);
  AdjustResources : gmap string (ActionResource Q);
  SyncEvent : bool;
  Messages : list string;
}.
Arguments mkActionResult {Q} _ _ _ _ _.
Arguments UnscheduleMap {Q} _.
Arguments EvictPods {Q} _.
Arguments AdjustResources {Q} _.
Arguments SyncEvent {Q} _.
Arguments Messages {Q} _.

(** The key ["namespace/name"] of a pod. *)
Definition pod_key (pod : string * string) : string := pod.1 ++ "/" ++ pod.2.

(** ** Operations *)

Section Operations.
Context {RO : RangeOrder} {Q : Type} `{QO : QuantityOps Q}.

Definition mergeFormula (a b : ActionResource Q) (c : gmap string Q) (k : string) : gmap string Q :=
  match ConflictQuantity a !! k, ConflictQuantity b !! k with
  | Some v1, Some v2 => if qCmp v1 v2 <? 0 then <[k := v1]> c else <[k := v2]> c
  | Some v1, None => <[k := v1]> c
  | None, Some v2 => <[k := v2]> c
  | None, None => c
  end.

Definition MergeByLittle (a b : ActionResource Q) : ActionResource Q :=
  mkActionResource (Name a) (Conflicting a || Conflicting b)
    (fold_left (mergeFormula a b) allActionFormula ∅).

Definition ActionResource_DeepCopy (a : ActionResource Q) : ActionResource Q :=
  mkActionResource (Name a) (Conflicting a)
    (fold_left (fun b '(k, v) => <[k := v]> b)
       (range_map "DeepCopy" (ConflictQuantity a)) ∅).

Definition IsNegative (a : ActionResource Q) : bool :=
  if Conflicting a then true
  else existsb (fun '(_, q) => qCmp q qZero <? 0) (range_map "IsNegative" (ConflictQuantity a)).

Definition ActionResource_Equal (a b : ActionResource Q) : bool :=
  if negb (Name a =? "")%string && negb (Name b =? "")%string && negb (Name a =? Name b)%string
  then false
  else if negb (Bool.eqb (Conflicting a) (Conflicting b)) then false
  else if negb (Nat.eqb (size (ConflictQuantity a)) (size (ConflictQuantity b))) then false
  else forallb (fun '(k, v) =>
                  match ConflictQuantity b !! k with
                  | None => false
                  | Some vv => qCmp v vv =? 0
                  end) (range_map "Equal" (ConflictQuantity a)).

(** Append the elements of [new] whose key is not among the keys of [old]
    or of the elements appended before, as the loops over a [sets.String]. *)
Definition append_new {A} (key : A -> string) (old new : list A) : list A :=
  fst (fold_left (fun '(acc, seen) x =>
                    if bool_decide (key x ∈ seen) then (acc, seen)
                    else ((acc ++ [x])%list, {[key x]} ∪ seen))
         new (old, list_to_set (C := gset string) (map key old))).

Definition mergeUnschedule (m : gmap string bool) (kv : string * bool) : gmap string bool :=
  let '(k, v) := kv in
  if v then <[k := true]> m
  else match m !! k with
       | Some _ => m
       | None => <[k := v]> m
       end.

Definition mergeAdjust (m : gmap string (ActionResource Q)) (kv : string * ActionResource Q) :=
  let '(k, v) := kv in
  match m !! k with
  | None => <[k := v]> m
  | Some v2 => <[k := MergeByLittle v2 v]> m
  end.

Definition Merge (ar other : ActionResult Q) : ActionResult Q :=
  mkActionResult
    (fold_left mergeUnschedule (range_map "Merge.UnscheduleMap" (UnscheduleMap other)) (UnscheduleMap ar))
    (if (length (EvictPods other) =? 0)%nat then EvictPods ar
     else append_new pod_key (EvictPods ar) (EvictPods other))
    (fold_left mergeAdjust (range_map "Merge.AdjustResources" (AdjustResources other)) (AdjustResources ar))
    (SyncEvent ar || SyncEvent other)
    (if (length (Messages other) =? 0)%nat then Messages ar
     else append_new id (Messages ar) (Messages other)).
End Operations.

(** ** Adjusting offline resources *)

(** [float64Round]: two decimals. *)
Definition float64Round (v : float64) : float64 :=
  fdiv (math_Round (fmul v (float64_of_Z 100))) (float64_of_Z 100).

Record adjustResource (Q : Type) := mkAdjustResource {
  adj_resource : string;
  step : Q;
  negativeStep : Q;
  stepPercent : option float64;
  ratio : float64;
  actionResourceHandler : option (bool -> option (ActionResource Q));
}.
Arguments mkAdjustResource {Q} _ _ _ _ _ _.
Arguments adj_resource {Q} _.
Arguments step {Q} _.
Arguments negativeStep {Q} _.
Arguments stepPercent {Q} _.
Arguments ratio {Q} _.
Arguments actionResourceHandler {Q} _.

Record AdjustResourceAction (Q : Type) := mkAdjustResourceAction {
  act_resource : string;
  adjIndex : nat;
  op : string;
  adjResKind : nat;
  adjustResources : list (adjustResource Q);
}.
Arguments mkAdjustResourceAction {Q} _ _ _ _ _.
Arguments act_resource {Q} _.
Arguments adjIndex {Q} _.
Arguments op {Q} _.
Arguments adjResKind {Q} _.
Arguments adjustResources {Q} _.

(** The decoded JSON arguments; [None] in [NewAdjustResourceAction] stands for
    arguments that do not decode. *)
Record adjustActionResourceArg := mkAdjustArg {
  arg_Resource : string;
  arg_Step : string;
  arg_StepPercent : option float64;
}.
Record adjustActionArgs := mkAdjustArgs {
  args_Op : string;
  args_Resources : list adjustActionResourceArg;
}.

Definition opAnd : string := "and".
Definition opLoop : string := "loop".

Section Adjust.
Context {Q : Type} `{QO : QuantityOps Q}.

Definition MustParse (s : string) : outcome Q :=
  match qParse s with
  | Some q => Ret q
  | None => Crash (Panic ("cannot parse " ++ s))
  end.

Definition newAdjustResource (resourceName : string) (adjRes : adjustActionResourceArg) :
    outcome (adjustResource Q) :=
  if negb (arg_Step adjRes =? "")%string && bool_decide (is_Some (arg_StepPercent adjRes))
  then Crash (Fatal "step and step_percent must be set only one for adjust resource action")
  else
    let st := if (arg_Step adjRes =? "")%string then "0" else arg_Step adjRes in
    let adjResName := if (arg_Resource adjRes =? "")%string then resourceName else arg_Resource adjRes in
    s ← MustParse st;
    ns ← MustParse ("-" ++ st);
    Ret (mkAdjustResource adjResName s ns (arg_StepPercent adjRes) fone None).

Fixpoint newAdjustResources (resourceName : string) (l : list adjustActionResourceArg) :
    outcome (list (adjustResource Q)) :=
  match l with
  | [] => Ret []
  | a :: l' =>
      r ← newAdjustResource resourceName a;
      rs ← newAdjustResources resourceName l';
      Ret (r :: rs)
  end.

Definition NewAdjustResourceAction (resourceName : string) (args : option adjustActionArgs) :
    outcome (AdjustResourceAction Q) :=
  match args with
  | None => Crash (Fatal "invalid args for adjust resource action")
  | Some argsData =>
      let o := if (args_Op argsData =? "")%string then opAnd else args_Op argsData in
      rs ← newAdjustResources resourceName (args_Resources argsData);
      Ret (mkAdjustResourceAction resourceName 0 o (length rs) rs)
  end.

Definition set_ratio (a : adjustResource Q) (r : float64) : adjustResource Q :=
  mkAdjustResource (adj_resource a) (step a) (negativeStep a) (stepPercent a) r
    (actionResourceHandler a).

(** The ratio left to offline jobs after one more step. *)
Definition next_ratio (conflicting : bool) (p r : float64) : float64 :=
  if conflicting then float64Round (fmul r (fsub fone p))
  else
    let r' := float64Round (fdiv r (fsub fone p)) in
    if fgt r' fone then fone else r'.

(** The percent quantity of a ratio, in thousandths. *)
Definition percent_milli (r : float64) : Z :=
  int64_of_float64 (fmul (fneg (float64Round (fsub fone r))) (float64_of_Z 1000)).

Definition generateActionResource (adjRes : adjustResource Q) (conflicting : bool) :
    ActionResource Q * adjustResource Q :=
  match (match actionResourceHandler adjRes with
         | Some handler => handler conflicting
         | None => None
         end) with
  | Some selfResource => (selfResource, adjRes)
  | None =>
      if negb (qIsZero (step adjRes)) then
        (mkActionResource (adj_resource adjRes) conflicting
           {[FormulaStep := if conflicting then negativeStep adjRes else step adjRes]},
         adjRes)
      else
        match stepPercent adjRes with
        | Some p =>
            let adjRes' := set_ratio adjRes (next_ratio conflicting p (ratio adjRes)) in
            (mkActionResource (adj_resource adjRes) conflicting
               {[FormulaPercent := qNewMilliQuantity (percent_milli (ratio adjRes'))]},
             adjRes')
        | None => (mkActionResource (adj_resource adjRes) conflicting ∅, adjRes)
        end
  end.

Definition set_adjust (a : AdjustResourceAction Q) (i : nat) (rs : list (adjustResource Q)) :=
  mkAdjustResourceAction (act_resource a) i (op a) (adjResKind a) rs.

(** The [for] loop of the default operator. *)
Fixpoint adjust_all (res : string) (conflicting : bool) (rs : list (adjustResource Q))
    (m : gmap string (ActionResource Q)) :
    gmap string (ActionResource Q) * list (adjustResource Q) :=
  match rs with
  | [] => (m, [])
  | adjRes :: rs' =>
      let '(aRes, adjRes') := generateActionResource adjRes conflicting in
      let '(m', rs'') :=
        adjust_all res conflicting rs' (<[res ++ "_" ++ adj_resource adjRes := aRes]> m) in
      (m', adjRes' :: rs'')
  end.

Definition adjust_DoAction (a : AdjustResourceAction Q) (conflicting : bool) (data : string) :
    outcome (ActionResult Q * AdjustResourceAction Q) :=
  let ac m := mkActionResult ∅ [] m false [data] in
  match adjResKind a with
  | 0%nat => Ret (ac ∅, a)
  | 1%nat =>
      match adjustResources a with
      | adjRes :: rs =>
          let '(aRes, adjRes') := generateActionResource adjRes conflicting in
          Ret (ac {[act_resource a := aRes]}, set_adjust a (adjIndex a) (adjRes' :: rs))
      | [] => Crash (Panic "index out of range")
      end
  | _ =>
      if (op a =? opLoop)%string then
        let index := adjIndex a in
        let next := ((index + 1) mod length (adjustResources a))%nat in
        match adjustResources a !! index with
        | Some adjRes =>
            let '(aRes, adjRes') := generateActionResource adjRes conflicting in
            Ret (ac {[act_resource a ++ "_" ++ adj_resource adjRes := aRes]},
                 set_adjust a next (<[index := adjRes']> (adjustResources a)))
        | None => Crash (Panic "index out of range")
        end
      else
        let '(m, rs) := adjust_all (act_resource a) conflicting (adjustResources a) ∅ in
        Ret (ac m, set_adjust a (adjIndex a) rs)
  end.

Fixpoint InitSelfHandler (rs : list (adjustResource Q)) (resource : string)
    (handler : bool -> option (ActionResource Q)) : list (adjustResource Q) :=
  match rs with
  | [] => []
  | r :: rs' =>
      if (adj_resource r =? resource)%string then
        mkAdjustResource (adj_resource r) (step r) (negativeStep r) (stepPercent r) (ratio r)
          (Some handler) :: rs'
      else r :: InitSelfHandler rs' resource handler
  end.

(** [scheduleAction.DoAction]. *)
Definition schedule_DoAction (name : string) (conflicting : bool) (data : string) : ActionResult Q :=
  mkActionResult {[name := conflicting]} [] ∅ false [data].

(** [evictAction.DoAction] returns no result. *)
Definition evict_DoAction (conflicting : bool) (data : string) : option (ActionResult Q) := None.

(** [logAction.DoAction] returns no result and the alarms it sends. *)
Definition log_DoAction (conflicting : bool) (data : string) : option (ActionResult Q) * list string :=
  (None, if conflicting then [data] else []).
End Adjust.

(** ** The merge is a join up to equivalence *)

Section MergeTheory.
Context {Q : Type} `{QL : QuantityLaws Q}.

#[global] Instance ActionResource_equiv : Equiv (ActionResource Q) := fun a b =>
  Name a = Name b /\ Conflicting a = Conflicting b /\ ConflictQuantity a ≡ ConflictQuantity b.

#[global] Instance ActionResource_equivalence : Equivalence (≡@{ActionResource Q}).
Proof.
  split.
  - intros a. repeat split. reflexivity.
  - intros a b (H1 & H2 & H3). repeat split; by symmetry.
  - intros a b c (H1 & H2 & H3) (H4 & H5 & H6).
    repeat split; try congruence; by etransitivity.
Qed.

(** Messages and pods are compared as sets. *)
#[global] Instance ActionResult_equiv : Equiv (ActionResult Q) := fun a b =>
  UnscheduleMap a = UnscheduleMap b /\
  AdjustResources a ≡ AdjustResources b /\
  SyncEvent a = SyncEvent b /\
  (forall x, x ∈ map pod_key (EvictPods a) <-> x ∈ map pod_key (EvictPods b)) /\
  (forall x, x ∈ map id (Messages a) <-> x ∈ map id (Messages b)).

#[global] Instance ActionResult_equivalence : Equivalence (≡@{ActionResult Q}).
Proof.
  split.
  - intros a. by repeat split.
  - intros a b (H1 & H2 & H3 & H4 & H5). split_and!; try done; intros; by symmetry.
  - intros a b c (H1 & H2 & H3 & H4 & H5) (G1 & G2 & G3 & G4 & G5).
    split_and!; try congruence; try (by etransitivity).
    + intros x. by rewrite H4.
    + intros x. by rewrite H5.
Qed.

(** The smaller of two optional quantities. *)
Definition little (a b : option Q) : option Q :=
  match a, b with
  | Some v1, Some v2 => Some (if qCmp v1 v2 <? 0 then v1 else v2)
  | Some v1, None => Some v1
  | None, o => o
  end.

Lemma little_amount a b :
  option_map amount (little a b) =
  match option_map amount a, option_map amount b with
  | Some x, Some y => Some (Z.min x y)
  | Some x, None => Some x
  | None, o => o
  end.
Proof.
  destruct a as [v1|], b as [v2|]; simpl; try done.
  rewrite qCmp_ltb. split_bools; apply (f_equal Some); lia.
Qed.

Lemma option_equiv_amount (a b : option Q) : a ≡ b <-> option_map amount a = option_map amount b.
Proof.
  split.
  - intros E. destruct E as [x y E|]; [|done]. simpl. f_equal. exact E.
  - destruct a, b; simpl; intros E; try done; constructor.
    injection E. done.
Qed.

(** Goals on optional quantities become goals on optional integers. *)
Ltac little_solve :=
  rewrite ?option_equiv_amount, ?little_amount in *;
  repeat match goal with
         | |- context [option_map amount ?o] => destruct (option_map amount o) eqn:?
         end; simplify_eq; try done; apply (f_equal Some); lia.

#[global] Instance little_proper : Proper ((≡) ==> (≡) ==> (≡)) little.
Proof.
  intros a a' E%option_equiv_amount b b' F%option_equiv_amount.
  rewrite option_equiv_amount, !little_amount. by rewrite E, F.
Qed.

Lemma little_comm a b : little a b ≡ little b a.
Proof. little_solve. Qed.

Lemma little_assoc a b c : little (little a b) c ≡ little a (little b c).
Proof. little_solve. Qed.

Lemma little_idemp a : little a a ≡ a.
Proof. little_solve. Qed.

Lemma mergeFormula_lookup a b c k j :
  mergeFormula a b c k !! j =
  if decide (j = k)
  then match little (ConflictQuantity a !! k) (ConflictQuantity b !! k) with
       | Some v => Some v
       | None => c !! j
       end
  else c !! j.
Proof.
  unfold mergeFormula, little.
  destruct (ConflictQuantity a !! k), (ConflictQuantity b !! k);
    repeat case_match; subst; simplify_map_eq; auto.
Qed.

Lemma MergeByLittle_lookup a b j :
  ConflictQuantity (MergeByLittle a b) !! j =
  if decide (j ∈ allActionFormula)
  then little (ConflictQuantity a !! j) (ConflictQuantity b !! j) else None.
Proof.
  unfold MergeByLittle, allActionFormula. simpl. rewrite !mergeFormula_lookup, lookup_empty.
  destruct (decide (j ∈ _)) as [Hj|Hj]; [|repeat case_decide; subst; try done; destruct Hj; apply list_elem_of_In; simpl; tauto].
  apply list_elem_of_In in Hj. simpl in Hj. destruct Hj as [<-|[<-|[<-|[]]]]; simpl; by case_match.
Qed.

#[global] Instance MergeByLittle_proper : Proper ((≡) ==> (≡) ==> (≡)) (MergeByLittle (Q := Q)).
Proof.
  intros a a' (H1 & H2 & H3) b b' (G1 & G2 & G3). split_and!; [simpl; congruence..|].
  intros j. rewrite !MergeByLittle_lookup. case_decide; [|done].
  by rewrite (H3 j), (G3 j).
Qed.

Lemma MergeByLittle_comm_names a b :
  Name a = Name b -> MergeByLittle a b ≡ MergeByLittle b a.
Proof.
  intros E. split_and!; [done|apply orb_comm|].
  intros j. rewrite !MergeByLittle_lookup. case_decide; [|done]. apply little_comm.
Qed.

Lemma MergeByLittle_assoc a b c :
  MergeByLittle (MergeByLittle a b) c ≡ MergeByLittle a (MergeByLittle b c).
Proof.
  split_and!; [done|simpl; by rewrite orb_assoc|].
  intros j. rewrite !MergeByLittle_lookup. case_decide; [|done]. apply little_assoc.
Qed.

(** Merging twice is merging once; formulas other than the three are dropped. *)
Lemma MergeByLittle_idemp a :
  (forall j, is_Some (ConflictQuantity a !! j) -> j ∈ allActionFormula) -> MergeByLittle a a ≡ a.
Proof.
  intros Ha. split_and!; [done|simpl; by rewrite orb_diag|].
  intros j. rewrite MergeByLittle_lookup. case_decide as Hj; [apply little_idemp|].
  destruct (ConflictQuantity a !! j) eqn:E; [|done]. destruct Hj. apply Ha. eauto.
Qed.

Lemma MergeByLittle_swap a b c :
  MergeByLittle (MergeByLittle a b) c ≡ MergeByLittle (MergeByLittle a c) b.
Proof.
  split_and!; [done|simpl; by destruct (Conflicting a), (Conflicting b), (Conflicting c)|].
  intros j. rewrite !MergeByLittle_lookup. case_decide; [|done].
  by rewrite !little_assoc, (little_comm (ConflictQuantity b !! j)).
Qed.
End MergeTheory.

Section ResultTheory.
Context {Q : Type} `{QL : QuantityLaws Q}.
Implicit Types (a b c ar : ActionResult Q).

Lemma append_new_keys_aux {A} (key : A -> string) new old (seen : gset string) :
  (forall k, k ∈ seen <-> k ∈ map key old) ->
  forall k,
    k ∈ map key (fst (fold_left (fun '(acc, seen) x =>
                    if bool_decide (key x ∈ seen) then (acc, seen)
                    else ((acc ++ [x])%list, {[key x]} ∪ seen)) new (old, seen))) <->
    k ∈ map key old \/ k ∈ map key new.
Proof.
  revert old seen. induction new as [|x new IH]; intros old seen Hs k; simpl.
  { rewrite elem_of_nil. tauto. }
  rewrite elem_of_cons. case_bool_decide as Hx.
  - rewrite IH by done. rewrite Hs in Hx. split; [tauto|]. intros [?|[->|?]]; auto.
  - rewrite IH.
    + rewrite map_app, elem_of_app. simpl. rewrite elem_of_cons, elem_of_nil. tauto.
    + intros k'. rewrite elem_of_union, elem_of_singleton, Hs, map_app, elem_of_app. simpl.
      rewrite elem_of_cons, elem_of_nil. tauto.
Qed.

(** The keys after appending are the keys of both lists. *)
Lemma append_new_keys {A} (key : A -> string) old new k :
  k ∈ map key (append_new key old new) <-> k ∈ map key old \/ k ∈ map key new.
Proof. apply append_new_keys_aux. intros k'. apply elem_of_list_to_set. Qed.

Lemma append_new_guard_keys {A} (key : A -> string) old new k :
  k ∈ map key (if (length new =? 0)%nat then old else append_new key old new) <->
  k ∈ map key old \/ k ∈ map key new.
Proof.
  destruct (Nat.eqb_spec (length new) 0) as [E|E]; [|apply append_new_keys].
  apply nil_length_inv in E. subst. simpl. rewrite elem_of_nil. tauto.
Qed.

Definition join_unschedule (x y : option bool) : option bool :=
  match y with
  | None => x
  | Some v => Some (v || default false x)
  end.

Definition join_adjust (x y : option (ActionResource Q)) : option (ActionResource Q) :=
  match y with
  | None => x
  | Some v => Some (match x with None => v | Some v2 => MergeByLittle v2 v end)
  end.

Lemma mergeUnschedule_alter m k v :
  mergeUnschedule m (k, v) = partial_alter (fun x => join_unschedule x (Some v)) k m.
Proof.
  apply map_eq. intros j. unfold mergeUnschedule, join_unschedule.
  destruct (decide (k = j)) as [->|Hne].
  - rewrite lookup_partial_alter_eq.
    destruct v, (m !! j) as [[]|] eqn:E; simpl; rewrite ?E, ?lookup_insert_eq; done.
  - rewrite lookup_partial_alter_ne by done.
    destruct v, (m !! k); rewrite ?lookup_insert_ne by done; done.
Qed.

Lemma mergeAdjust_alter (m : gmap string (ActionResource Q)) k v :
  mergeAdjust m (k, v) = partial_alter (fun x => join_adjust x (Some v)) k m.
Proof.
  apply map_eq. intros j. unfold mergeAdjust, join_adjust.
  destruct (decide (k = j)) as [->|Hne].
  - rewrite lookup_partial_alter_eq. destruct (m !! j); by rewrite lookup_insert_eq.
  - rewrite lookup_partial_alter_ne by done.
    destruct (m !! k); by rewrite lookup_insert_ne by done.
Qed.

Lemma Merge_UnscheduleMap `{RO : RangeOrder} a b k :
  UnscheduleMap (Merge a b) !! k = join_unschedule (UnscheduleMap a !! k) (UnscheduleMap b !! k).
Proof.
  unfold Merge. simpl.
  rewrite (fold_left_ext _ (fun m '(k, v) => partial_alter (fun x => join_unschedule x (Some v)) k m))
    by (intros m [k' v] _; apply mergeUnschedule_alter).
  rewrite (range_fold_local (fun _ v x => join_unschedule x (Some v))).
  by destruct (UnscheduleMap b !! k).
Qed.

Lemma Merge_AdjustResources `{RO : RangeOrder} a b k :
  AdjustResources (Merge a b) !! k = join_adjust (AdjustResources a !! k) (AdjustResources b !! k).
Proof.
  unfold Merge. simpl.
  rewrite (fold_left_ext _ (fun m '(k, v) => partial_alter (fun x => join_adjust x (Some v)) k m))
    by (intros m [k' v] _; apply mergeAdjust_alter).
  rewrite (range_fold_local (fun _ v x => join_adjust x (Some v))).
  by destruct (AdjustResources b !! k).
Qed.

#[global] Instance join_adjust_proper : Proper ((≡) ==> (≡) ==> (≡)) join_adjust.
Proof.
  intros x x' E y y' F. unfold join_adjust.
  destruct F as [v v' F|]; [|done]. constructor.
  destruct E as [u u' E|]; [by rewrite E, F|done].
Qed.

(** The result of a merge does not depend on the range orders, and equivalent
    arguments give equivalent results. *)
Lemma Merge_orders_proper (RO1 RO2 : RangeOrder) a a' b b' :
  a ≡ a' -> b ≡ b' -> @Merge RO1 Q _ a b ≡ @Merge RO2 Q _ a' b'.
Proof.
  intros (H1 & H2 & H3 & H4 & H5) (G1 & G2 & G3 & G4 & G5). split_and!.
  - apply map_eq. intros k. rewrite !Merge_UnscheduleMap. congruence.
  - intros k. rewrite !Merge_AdjustResources. by rewrite (H2 k), (G2 k).
  - simpl. congruence.
  - intros x. simpl. by rewrite !append_new_guard_keys, H4, G4.
  - intros x. simpl. by rewrite !append_new_guard_keys, H5, G5.
Qed.

#[global] Instance Merge_proper `{RO : RangeOrder} : Proper ((≡) ==> (≡) ==> (≡)) (Merge (Q := Q)).
Proof. intros a a' E b b' F. by apply Merge_orders_proper. Qed.

(** Each key of [AdjustResources] stands for one resource name. *)
Definition names_ok (nm : string -> string) ar : Prop :=
  forall k x, AdjustResources ar !! k = Some x -> Name x = nm k.

Lemma join_adjust_swap x y z :
  (forall u v, y = Some u -> z = Some v -> Name u = Name v) ->
  join_adjust (join_adjust x y) z ≡ join_adjust (join_adjust x z) y.
Proof.
  intros Hn. destruct x as [x|], y as [y|], z as [z|]; simpl; try done; constructor.
  - apply MergeByLittle_swap.
  - apply MergeByLittle_comm_names. auto.
Qed.

Lemma Merge_swap `{RO : RangeOrder} nm a b c :
  names_ok nm b -> names_ok nm c -> Merge (Merge a b) c ≡ Merge (Merge a c) b.
Proof.
  intros Hb Hc. split_and!.
  - apply map_eq. intros k. rewrite !Merge_UnscheduleMap.
    destruct (UnscheduleMap a !! k) as [[]|], (UnscheduleMap b !! k) as [[]|],
      (UnscheduleMap c !! k) as [[]|]; done.
  - intros k. rewrite !Merge_AdjustResources. apply join_adjust_swap.
    intros u v Hu Hv. by rewrite (Hb k u), (Hc k v).
  - simpl. by destruct (SyncEvent a), (SyncEvent b), (SyncEvent c).
  - intros x. simpl. rewrite !append_new_guard_keys. tauto.
  - intros x. simpl. rewrite !append_new_guard_keys. tauto.
Qed.

Lemma fold_Merge_proper (RO1 RO2 : RangeOrder) l a b :
  a ≡ b -> fold_left (@Merge RO1 Q _) l a ≡ fold_left (@Merge RO2 Q _) l b.
Proof.
  revert a b. induction l as [|x l IH]; intros a b E; simpl; [done|].
  apply IH. by apply Merge_orders_proper.
Qed.

Lemma fold_Merge_permutation `{RO : RangeOrder} nm l1 l2 a :
  Forall (names_ok nm) l1 -> l1 ≡ₚ l2 -> fold_left Merge l1 a ≡ fold_left Merge l2 a.
Proof.
  intros HF Hp. revert a HF. induction Hp as [| x l1 l2 Hp IH | x y l | l1 l2 l3 Hp1 IH1 Hp2 IH2];
    intros a HF; simpl; [done| | |].
  - apply IH. by inversion HF.
  - inversion HF as [|? ? Hx HF']; inversion HF' as [|? ? Hy HF'']; subst.
    apply fold_Merge_proper. by eapply Merge_swap.
  - rewrite IH1 by done. apply IH2. by rewrite <- Hp1.
Qed.
End ResultTheory.

(** ** Properties of the merge *)

Section MergeProperties.
Context {Q : Type} `{QL : QuantityLaws Q}.

(** C14: The rule checkers of a round report in any order, and Go visits the
    maps of a result in any order: merging the same results in two orders,
    with two range orders, gives equivalent results (the same unschedule map,
    sync flag and amounts, the same pods and messages as sets), when each key
    stands for one resource name. *)
Theorem Merge_order_independent (RO1 RO2 : RangeOrder) (nm : string -> string)
    (ar : ActionResult Q) (l1 l2 : list (ActionResult Q)) :
  Forall (names_ok nm) l1 -> l1 ≡ₚ l2 ->
  fold_left (@Merge RO1 Q _) l1 ar ≡ fold_left (@Merge RO2 Q _) l2 ar.
Proof.
  intros HF Hp. etransitivity; [by apply (fold_Merge_permutation nm l1 l2)|].
  by apply fold_Merge_proper.
Qed.

(** [MergeByLittle] takes the union of the conflicts and, formula by
    formula, the smaller amount; it is associative, and commutative and
    idempotent on resources of the same name with known formulas. *)
Theorem MergeByLittle_semilattice (a b c : ActionResource Q) :
  (forall k, k ∈ allActionFormula ->
     option_map amount (ConflictQuantity (MergeByLittle a b) !! k) =
     match option_map amount (ConflictQuantity a !! k), option_map amount (ConflictQuantity b !! k) with
     | Some x, Some y => Some (Z.min x y)
     | Some x, None => Some x
     | None, o => o
     end) /\
  MergeByLittle (MergeByLittle a b) c ≡ MergeByLittle a (MergeByLittle b c) /\
  (Name a = Name b -> MergeByLittle a b ≡ MergeByLittle b a) /\
  ((forall j, is_Some (ConflictQuantity a !! j) -> j ∈ allActionFormula) -> MergeByLittle a a ≡ a).
Proof.
  split_and!.
  - intros k Hk. rewrite MergeByLittle_lookup, decide_True by done. apply little_amount.
  - apply MergeByLittle_assoc.
  - apply MergeByLittle_comm_names.
  - apply MergeByLittle_idemp.
Qed.
End MergeProperties.

Definition merge_example1 : ActionResult Z :=
  mkActionResult {["memory" := true]} [("ns", "pod1")]
    {["memory" := mkActionResource "memory" true {[FormulaStep := -5]}]} false ["m1"].
Definition merge_example2 : ActionResult Z :=
  mkActionResult {["memory" := false; "cpu" := false]} [("ns", "pod1"); ("ns", "pod2")]
    {["memory" := mkActionResource "memory" false {[FormulaStep := 7; FormulaPercent := 0]}]} true ["m2"; "m1"].
Definition merge_empty : ActionResult Z := mkActionResult ∅ [] ∅ false [].

Lemma Merge_order_independent_witness :
  fold_left (@Merge key_order Z _) [merge_example1; merge_example2] merge_empty ≡
  fold_left (@Merge reverse_order Z _) [merge_example2; merge_example1] merge_empty.
Proof.
  apply (Merge_order_independent key_order reverse_order (fun k => k)).
  - repeat constructor; intros k x Hx; simpl in Hx;
      apply lookup_singleton_Some in Hx as [<- <-]; reflexivity.
  - apply Permutation_swap.
Defined.

Lemma MergeByLittle_semilattice_witness :
  MergeByLittle (mkActionResource (Q := Z) "cpu" true {[FormulaStep := -5]})
                (mkActionResource "cpu" false {[FormulaStep := 7]}) ≡
  MergeByLittle (mkActionResource "cpu" false {[FormulaStep := 7]})
                (mkActionResource "cpu" true {[FormulaStep := -5]}).
Proof.
  destruct (MergeByLittle_semilattice
              (mkActionResource (Q := Z) "cpu" true {[FormulaStep := -5]})
              (mkActionResource "cpu" false {[FormulaStep := 7]})
              (mkActionResource "cpu" false ∅)) as (_ & _ & Hcomm & _).
  exact (Hcomm eq_refl).
Defined.

(** ** The ratio of a percent step *)

(** The two-decimal values, [cents k] is [k/100]. *)
Definition cents (k : Z) : float64 := flit k 100.

Definition float_eqb (x y : float64) : bool :=
  match x, y with
  | S754_zero s, S754_zero t => Bool.eqb s t
  | S754_infinity s, S754_infinity t => Bool.eqb s t
  | S754_nan, S754_nan => true
  | S754_finite s m e, S754_finite t n f => Bool.eqb s t && Pos.eqb m n && Z.eqb e f
  | _, _ => false
  end.

Lemma float_eqb_eq x y : float_eqb x y = true -> x = y.
Proof.
  destruct x, y; simpl; try done; rewrite ?andb_true_iff; intros.
  - by f_equal; apply Bool.eqb_prop.
  - by f_equal; apply Bool.eqb_prop.
  - destruct H as [[H1 H2] H3]. f_equal; [by apply Bool.eqb_prop|by apply Pos.eqb_eq|by apply Z.eqb_eq].
Qed.

(** The nearest two-decimal index of a ratio. *)
Definition cents_index (r : float64) : Z :=
  int64_of_float64 (math_Round (fmul r (float64_of_Z 100))).

(** One step of percent [p] from [cents k]: a conflict stays on the grid above
    [lo] without growing; a recovery moves strictly up until it reaches 1. *)
Definition percent_step_ok (lo : Z) (p : float64) (k : Z) : bool :=
  let d := next_ratio true p (cents k) in
  let u := next_ratio false p (cents k) in
  let kd := cents_index d in
  let ku := cents_index u in
  float_eqb d (cents kd) && (lo <=? kd) && (kd <=? k) &&
  float_eqb u (cents ku) && (ku <=? 100) && (if k =? 100 then ku =? 100 else k <? ku).

Definition percent_grid_ok (lo : Z) (p : float64) : bool :=
  float_eqb fone (cents 100) &&
  forallb (fun k => percent_step_ok lo p (Z.of_nat k)) (seq (Z.to_nat lo) (Z.to_nat (101 - lo))).

Section Percent.
Context (lo : Z) (p : float64).
Hypothesis Hlo : 0 <= lo <= 100.
Hypothesis Hp : percent_grid_ok lo p = true.

Definition on_grid (r : float64) : Prop := exists k, lo <= k <= 100 /\ r = cents k.

Lemma grid_step k : lo <= k <= 100 -> percent_step_ok lo p k = true.
Proof.
  intros Hk. unfold percent_grid_ok in Hp. apply andb_true_iff in Hp as [_ HF].
  rewrite forallb_forall in HF. specialize (HF (Z.to_nat k)).
  rewrite Z2Nat.id in HF by lia. apply HF. apply in_seq. lia.
Qed.

Lemma fone_cents : fone = cents 100.
Proof. apply float_eqb_eq. unfold percent_grid_ok in Hp. by apply andb_true_iff in Hp as [? _]. Qed.

(** The index after a recovery. *)
Lemma grid_recover k :
  lo <= k <= 100 ->
  exists k', next_ratio false p (cents k) = cents k' /\ k' <= 100 /\
             (k = 100 -> k' = 100) /\ (k < 100 -> k < k').
Proof.
  intros Hk. pose proof (grid_step k Hk) as H. unfold percent_step_ok in H.
  rewrite !andb_true_iff in H. destruct H as [[[[[_ _] _] H4] H5] H6].
  apply float_eqb_eq in H4. eexists. split; [exact H4|].
  destruct (Z.eqb_spec k 100); lia.
Qed.

Lemma grid_conflict k :
  lo <= k <= 100 ->
  exists k', next_ratio true p (cents k) = cents k' /\ lo <= k' <= k.
Proof.
  intros Hk. pose proof (grid_step k Hk) as H. unfold percent_step_ok in H.
  rewrite !andb_true_iff in H. destruct H as [[[[[H1 H2] H3] _] _] _].
  apply float_eqb_eq in H1. eexists. split; [exact H1|]. lia.
Qed.

Lemma grid_next b r : on_grid r -> on_grid (next_ratio b p r).
Proof.
  intros (k & Hk & ->). destruct b.
  - destruct (grid_conflict k Hk) as (k' & -> & H). exists k'. split; [lia|done].
  - destruct (grid_recover k Hk) as (k' & -> & H1 & H2 & H3). exists k'. split; [|done].
    destruct (Z.eq_dec k 100); lia.
Qed.

Lemma grid_flags flags r :
  on_grid r -> on_grid (fold_left (fun r b => next_ratio b p r) flags r).
Proof. revert r. induction flags; simpl; auto using grid_next. Qed.

Lemma grid_recovers n k :
  lo <= k <= 100 -> 100 - k <= Z.of_nat n ->
  Nat.iter n (next_ratio false p) (cents k) = cents 100.
Proof.
  revert k. induction n as [|n IH]; intros k Hk Hn.
  { simpl. f_equal. lia. }
  rewrite Nat.iter_succ_r. destruct (grid_recover k Hk) as (k' & -> & H1 & H2 & H3).
  destruct (Z.eq_dec k 100); apply IH; lia.
Qed.
End Percent.

(** The step percents checked below, with the smallest ratio each can reach. *)
Definition percent_steps : list (Z * Z) := [(10, 5); (5, 10); (2, 20); (1, 50)].

(** With a step of 5, 10, 20 or 50 percent, the ratio left to offline jobs
    after any sequence of conflicting and recovering checks is a two-decimal
    number between the step's lowest ratio (10, 5, 2, 1 percent) and 1, and at
    most 100 recovering checks bring it back to exactly 1. *)
Theorem percent_ratio_recovers (lo j : Z) (flags : list bool) :
  (lo, j) ∈ percent_steps ->
  on_grid lo (fold_left (fun r b => next_ratio b (cents j) r) flags fone) /\
  Nat.iter 100 (next_ratio false (cents j))
    (fold_left (fun r b => next_ratio b (cents j) r) flags fone) = fone.
Proof.
  intros Hin.
  assert (H : 0 <= lo <= 100 /\ percent_grid_ok lo (cents j) = true).
  { apply list_elem_of_In in Hin.
    repeat (destruct Hin as [[= <- <-]|Hin]; [split; [lia|vm_compute; reflexivity]|]). done. }
  destruct H as [Hlo Hp].
  assert (Hg : on_grid lo (fold_left (fun r b => next_ratio b (cents j) r) flags fone)).
  { apply (grid_flags lo (cents j) Hlo Hp). exists 100. split; [lia|]. exact (fone_cents lo _ Hp). }
  split; [exact Hg|]. destruct Hg as (k & Hk & ->).
  rewrite (grid_recovers lo (cents j) Hlo Hp) by lia. symmetry. exact (fone_cents lo _ Hp).
Qed.

Lemma percent_ratio_recovers_witness :
  Nat.iter 100 (next_ratio false (cents 10))
    (fold_left (fun r b => next_ratio b (cents 10) r) [true; true; false; true] fone) = fone.
Proof.
  apply (percent_ratio_recovers 5 10 [true; true; false; true]).
  apply list_elem_of_In. right. left. reflexivity.
Defined.

(** A step of 30 percent is not recovered: after thirteen conflicting checks
    the ratio is 0.01, where rounding to two decimals undoes the division by
    0.7, so no number of recovering checks gives anything back. *)
Theorem percent_step_30_stuck (n : nat) :
  Nat.iter n (next_ratio false (flit 3 10)) (Nat.iter 13 (next_ratio true (flit 3 10)) fone) = cents 1 /\
  percent_milli (cents 1) = -990.
Proof.
  split; [|vm_compute; reflexivity].
  assert (E : Nat.iter 13 (next_ratio true (flit 3 10)) fone = cents 1) by (vm_compute; reflexivity).
  rewrite E. induction n as [|n IH]; [done|]. rewrite Nat.iter_succ, IH. vm_compute. reflexivity.
Qed.
