(* ===== verification/Conflict.v ===== *)
(** * The conflict manager

    pkg/caelus/healthcheck/conflict/conflict.go.  The manager stores, for each
    conflicting resource, the quantity to take from offline jobs by formula
    (step, total, percent; negative while in conflict).  [UpdateConflictList]
    merges the result of a round of health checks into the store;
    [CheckAndSubConflictResource] subtracts the stored conflicts from a
    predicted resource list and limits the stored quantities to the prediction.
    The mutex of the source makes each operation atomic, so an execution is a
    sequence of these operations. *)

From S2P Require Import Prelude GoFloat Quantity Action.

#[local] Open Scope string_scope.
#[local] Open Scope Z_scope.

(** ** Operations *)

Section Operations.
Context {RO : RangeOrder} {Q : Type} `{QO : QuantityOps Q}.

(** The state is the field [conflictingResources] of [manager]. *)
#[local] Abbreviation manager := (gmap string (ActionResource Q)).

Definition NewConflictManager : manager := ∅.

(** Keep [originQ] under [formula] while it is negative. *)
Definition storeFormula (formula : string) (originQ : Q) (cq : gmap string Q) : gmap string Q :=
  if 0 <=? qCmp originQ qZero then delete formula cq else <[formula := originQ]> cq.

(** The body of the loop over the formulas of a resource. *)
Definition updateFormula (st : gmap string Q * bool) (fq : string * Q) : gmap string Q * bool :=
  let '(cq, changed) := st in
  let '(formula, q) := fq in
  let origin := cq !! formula in
  if (formula =? FormulaStep)%string then
    let changed1 := changed || (qCmp q qZero <? 0) in
    let '(originQ, changed2) :=
      match origin with
      | None => (q, changed1)
      | Some oq => (qAdd oq q, changed1 || negb (qIsZero oq))
      end in
    let '(cq', changed3) :=
      match cq !! FormulaTotal with
      | Some originTotalQ =>
          if 0 <? qCmp q qZero then
            let totalQ := qAdd originTotalQ q in
            if 0 <=? qCmp totalQ qZero then (delete FormulaTotal cq, true)
            else (<[FormulaTotal := totalQ]> cq, true)
          else (cq, changed2)
      | None => (cq, changed2)
      end in
    (storeFormula formula originQ cq', changed3)
  else if (formula =? FormulaTotal)%string || (formula =? FormulaPercent)%string then
    match origin with
    | None => (storeFormula formula q cq, true)
    | Some oq =>
        if negb (qCmp oq q =? 0) then (storeFormula formula q cq, true)
        else (storeFormula formula oq cq, changed)
    end
  else (storeFormula formula (default qZero origin) cq, changed).

(** The body of the loop over the resources of the conflict list. *)
Definition updateResource (st : manager * bool) (kv : string * ActionResource Q) : manager * bool :=
  let '(c, changed) := st in
  let '(k, v) := kv in
  match c !! k with
  | None =>
      if IsNegative v then (<[k := ActionResource_DeepCopy v]> c, true) else (c, changed)
  | Some originV =>
      let '(cq, changed') :=
        fold_left updateFormula (range_map ("UpdateConflictList." ++ k) (ConflictQuantity v))
          (ConflictQuantity originV, changed) in
      if Nat.eqb (size cq) 0 then (delete k c, changed')
      else (<[k := mkActionResource (Name originV) (Conflicting v) cq]> c, changed')
  end.

Definition UpdateConflictList (c : manager) (conflictList : gmap string (ActionResource Q)) :
    manager * bool :=
  fold_left updateResource (range_map "UpdateConflictList" conflictList) (c, false).

(** The percentage of a prediction, [int64(float64(pred) * float64(v) / 1000)]. *)
Definition percentOf (originQt v : Q) : Q :=
  qNewMilliQuantity
    (int64_of_float64
       (fdiv (fmul (float64_of_Z (qMilliValue originQt)) (float64_of_Z (qMilliValue v)))
          (float64_of_Z 1000))).

(** The body of the loop over the formulas of a stored resource: the stored
    quantities and the smallest quantity so far. *)
Definition mergeQuantity (originQt : Q) (st : gmap string Q * Q) (fv : string * Q) : gmap string Q * Q :=
  let '(cq, currentQ) := st in
  let '(formula, v) := fv in
  if qIsZero v then (cq, currentQ)
  else if (formula =? FormulaStep)%string || (formula =? FormulaTotal)%string then
    (if qCmp (qAdd v originQt) qZero <? 0 then <[formula := qNeg originQt]> cq else cq,
     if qCmp v currentQ <? 0 then v else currentQ)
  else if (formula =? FormulaPercent)%string then
    let newV := percentOf originQt v in
    (cq, if qCmp newV currentQ <? 0 then newV else currentQ)
  else (cq, currentQ).

(** The name a stored resource subtracts from. *)
Definition resName (k : string) (rq : ActionResource Q) : string :=
  if (Name rq =? "")%string then k else Name rq.

(** The loop state: the store, the merged quantities and the conflicting flags. *)
Definition mergeState : Type := manager * gmap string Q * gmap string bool.

Definition mergeResource (predictList : gmap string Q) (st : mergeState) (kv : string * ActionResource Q) :
    mergeState :=
  let '(c, mergedList, mergedConflict) := st in
  let '(k, rq) := kv in
  let name := resName k rq in
  match predictList !! name with
  | None => st
  | Some originQt =>
      let '(cq, currentQ) :=
        fold_left (mergeQuantity originQt) (range_map ("mergeConflictResource." ++ k) (ConflictQuantity rq))
          (ConflictQuantity rq, qZero) in
      let c' := <[k := mkActionResource (Name rq) (Conflicting rq) cq]> c in
      if qIsZero currentQ then (c', mergedList, mergedConflict)
      else
        match mergedList !! name with
        | None => (c', <[name := currentQ]> mergedList, <[name := Conflicting rq]> mergedConflict)
        | Some value =>
            (c',
             if qCmp currentQ value <? 0 then <[name := currentQ]> mergedList else mergedList,
             if Conflicting rq then <[name := true]> mergedConflict else mergedConflict)
        end
  end.

Definition mergeConflictResource (c : manager) (predictList : gmap string Q) : mergeState :=
  fold_left (mergeResource predictList) (range_map "mergeConflictResource" c) (c, ∅, ∅).

(** The body of the loop over the merged resources. *)
Definition subResource (mergedConflict : gmap string bool)
    (st : gmap string Q * gmap string bool) (nq : string * Q) : gmap string Q * gmap string bool :=
  let '(predictList, conflictedRes) := st in
  let '(name, q) := nq in
  let originQt := qAdd (default qZero (predictList !! name)) q in
  let originQt := if qCmp originQt qZero <? 0 then qZero else originQt in
  (<[name := originQt]> predictList,
   <[name := default false (mergedConflict !! name)]> conflictedRes).

(** The new store, the updated prediction and the conflicted resources. *)
Definition CheckAndSubConflictResource (c : manager) (predictList : gmap string Q) :
    manager * gmap string Q * gmap string bool :=
  let '(c', mergedList, mergedConflict) := mergeConflictResource c predictList in
  let '(predictList', conflictedRes) :=
    fold_left (subResource mergedConflict) (range_map "CheckAndSubConflictResource" mergedList)
      (predictList, ∅) in
  (c', predictList', conflictedRes).
End Operations.

#[global] Arguments updateFormula : simpl never.
#[global] Arguments updateResource : simpl never.
#[global] Arguments mergeQuantity : simpl never.
#[global] Arguments mergeResource : simpl never.
#[global] Arguments subResource : simpl never.

(** ** [UpdateConflictList] resource by resource *)

Section UpdateTheory.
Context {RO : RangeOrder} {Q : Type} `{QL : QuantityLaws Q}.
Implicit Types (c : gmap string (ActionResource Q)) (cq : gmap string Q).

Lemma DeepCopy_id (a : ActionResource Q) : ActionResource_DeepCopy a = a.
Proof. unfold ActionResource_DeepCopy. rewrite range_fold_insert. by destruct a. Qed.

(** The [changed] flag is carried along and never read. *)
Lemma updateFormula_flag cq ch fq :
  updateFormula (cq, ch) fq =
  (fst (updateFormula (cq, false) fq), ch || snd (updateFormula (cq, false) fq)).
Proof.
  destruct fq as [f q]. unfold updateFormula.
  repeat case_match; simplify_eq; simpl; rewrite ?orb_true_r, ?orb_false_r, ?orb_assoc; done.
Qed.

Lemma fold_updateFormula_flag l cq ch :
  fold_left updateFormula l (cq, ch) =
  (fst (fold_left updateFormula l (cq, false)), ch || snd (fold_left updateFormula l (cq, false))).
Proof.
  revert cq ch. induction l as [|x l IH]; intros cq ch; simpl; [by rewrite orb_false_r|].
  rewrite updateFormula_flag, (updateFormula_flag cq false). simpl.
  destruct (updateFormula (cq, false) x) as [cq' b]. simpl.
  rewrite IH, (IH cq' b). simpl. by rewrite orb_assoc.
Qed.

(** The update of the stored resource [o] of key [k] by [v]: the new stored
    resource and whether it reports a change. *)
Definition updateOne (k : string) (v : ActionResource Q) (o : option (ActionResource Q)) :
    option (ActionResource Q) * bool :=
  match o with
  | None => if IsNegative v then (Some v, true) else (None, false)
  | Some originV =>
      let '(cq, ch) :=
        fold_left updateFormula (range_map ("UpdateConflictList." ++ k) (ConflictQuantity v))
          (ConflictQuantity originV, false) in
      (if Nat.eqb (size cq) 0 then None else Some (mkActionResource (Name originV) (Conflicting v) cq), ch)
  end.

Lemma updateResource_one c ch k v :
  updateResource (c, ch) (k, v) =
  (partial_alter (fun o => fst (updateOne k v o)) k c, ch || snd (updateOne k v (c !! k))).
Proof.
  unfold updateResource, updateOne. destruct (c !! k) as [originV|] eqn:E.
  - rewrite fold_updateFormula_flag.
    destruct (fold_left updateFormula _ (_, false)) as [cq b] eqn:F. simpl.
    destruct (Nat.eqb (size cq) 0) eqn:G; simpl; f_equal; apply map_eq; intros j;
      (destruct (decide (k = j)) as [->|?];
       [rewrite ?lookup_delete_eq, ?lookup_insert_eq, lookup_partial_alter_eq, E, F, G
       |rewrite ?lookup_delete_ne, ?lookup_insert_ne, lookup_partial_alter_ne]; done).
  - rewrite DeepCopy_id. destruct (IsNegative v) eqn:G; simpl; rewrite ?orb_true_r, ?orb_false_r;
      f_equal; apply map_eq; intros j;
      (destruct (decide (k = j)) as [->|?];
       [rewrite ?lookup_insert_eq, lookup_partial_alter_eq, E, ?G
       |rewrite ?lookup_insert_ne, lookup_partial_alter_ne]; done).
Qed.

Lemma fold_updateResource l c ch :
  NoDup l.*1 ->
  fold_left updateResource l (c, ch) =
  (fold_left (fun m '(k, v) => partial_alter (fun o => fst (updateOne k v o)) k m) l c,
   ch || existsb (fun '(k, v) => snd (updateOne k v (c !! k))) l).
Proof.
  revert c ch. induction l as [|[k v] l IH]; intros c ch Hnd; simpl; [by rewrite orb_false_r|].
  simpl in Hnd. apply NoDup_cons in Hnd as [Hk Hnd].
  rewrite updateResource_one, IH by done. f_equal. rewrite <- orb_assoc. do 2 f_equal.
  clear IH Hnd. induction l as [|[k' v'] l IH]; simpl; [done|].
  simpl in Hk. apply not_elem_of_cons in Hk as [Hne Hk].
  by rewrite lookup_partial_alter_ne, IH by done.
Qed.

Lemma UpdateConflictList_lookup c cl k :
  fst (UpdateConflictList c cl) !! k =
  match cl !! k with
  | Some v => fst (updateOne k v (c !! k))
  | None => c !! k
  end.
Proof.
  unfold UpdateConflictList. rewrite fold_updateResource by apply NoDup_fst_range. simpl.
  apply (range_fold_local (fun k v o => fst (updateOne k v o))).
Qed.

Lemma UpdateConflictList_changed c cl :
  snd (UpdateConflictList c cl) = true <->
  exists k v, cl !! k = Some v /\ snd (updateOne k v (c !! k)) = true.
Proof.
  unfold UpdateConflictList. rewrite fold_updateResource by apply NoDup_fst_range. simpl.
  rewrite existsb_exists. split.
  - intros ([k v] & Hin & Hc). apply list_elem_of_In, elem_of_range in Hin. eauto.
  - intros (k & v & Hk & Hc). exists (k, v). split; [|done].
    by apply list_elem_of_In, elem_of_range.
Qed.
End UpdateTheory.

Lemma partial_alter_same {V} (m : gmap string V) k : partial_alter (fun old => old) k m = m.
Proof.
  apply map_eq. intros j. destruct (decide (k = j)) as [->|?];
    [by rewrite lookup_partial_alter_eq|by rewrite lookup_partial_alter_ne].
Qed.

(** ** The specification of [CheckAndSubConflictResource] *)

Section Spec.
Context {Q : Type} `{QL : QuantityLaws Q}.
Implicit Types (c : gmap string (ActionResource Q)) (p cq : gmap string Q) (o : Q).

(** What one stored quantity takes from a prediction [o]. *)
Definition formula_conflict o (f : string) (v : Q) : Z :=
  if qIsZero v then 0
  else if (f =? FormulaStep)%string || (f =? FormulaTotal)%string then amount v
  else if (f =? FormulaPercent)%string then amount (percentOf o v) else 0.

(** A resource takes the most any of its formulas takes. *)
Definition resource_conflict o (rq : ActionResource Q) : Z :=
  map_min0 (formula_conflict o) (ConflictQuantity rq).

Definition named_conflict o (n k : string) (rq : ActionResource Q) : Z :=
  if (resName k rq =? n)%string then resource_conflict o rq else 0.

(** The resource name [n] loses the most any resource of that name takes. *)
Definition name_conflict c o (n : string) : Z := map_min0 (named_conflict o n) c.

Definition named_flag o (n : string) (kv : string * ActionResource Q) : bool :=
  (resName kv.1 kv.2 =? n)%string && (resource_conflict o kv.2 <? 0) && Conflicting kv.2.

(** The amounts offline jobs may use, and whether each reduced resource is in
    conflict now. *)
Definition sub_spec c p (n : string) : option Z :=
  match p !! n with
  | None => None
  | Some o =>
      let d := name_conflict c o n in
      Some (if d =? 0 then amount o else Z.max 0 (amount o + d))
  end.

Definition conflicted_spec c p (n : string) : option bool :=
  match p !! n with
  | None => None
  | Some o => if name_conflict c o n =? 0 then None else Some (existsb (named_flag o n) (map_to_list c))
  end.

(** A stored step or total is limited to what is predicted. *)
Definition clampQ o (f : string) (v : Q) : Q :=
  if negb (qIsZero v) && ((f =? FormulaStep)%string || (f =? FormulaTotal)%string) &&
     (qCmp (qAdd v o) qZero <? 0)
  then qNeg o else v.

Definition clamp_resource p (k : string) (rq : ActionResource Q) : ActionResource Q :=
  match p !! resName k rq with
  | None => rq
  | Some o => mkActionResource (Name rq) (Conflicting rq) (map_imap (fun f v => Some (clampQ o f v)) (ConflictQuantity rq))
  end.
End Spec.

Section SpecProofs.
Context {RO : RangeOrder} {Q : Type} `{QL : QuantityLaws Q}.
Implicit Types (c : gmap string (ActionResource Q)) (p cq : gmap string Q) (o : Q).

Lemma mergeQuantity_amount o st f v :
  amount st.2 <= 0 ->
  amount (mergeQuantity o st (f, v)).2 = Z.min (amount st.2) (formula_conflict o f v).
Proof.
  destruct st as [cq cur]. unfold mergeQuantity, formula_conflict. simpl. intros Hc.
  repeat case_match; simplify_eq; simpl in *; amounts; lia.
Qed.

Lemma fold_mergeQuantity_amount o l st :
  amount st.2 <= 0 ->
  amount (fold_left (mergeQuantity o) l st).2 =
  Z.min (amount st.2) (min0 (map (uncurry (formula_conflict o)) l)).
Proof.
  revert st. induction l as [|[f v] l IH]; intros st Hst; simpl; [lia|].
  pose proof (mergeQuantity_amount o st f v Hst). rewrite IH by lia. lia.
Qed.

Lemma mergeQuantity_store o st f v :
  (mergeQuantity o st (f, v)).1 =
  partial_alter (fun old => if negb (qIsZero v) && ((f =? FormulaStep)%string || (f =? FormulaTotal)%string) &&
                              (qCmp (qAdd v o) qZero <? 0) then Some (qNeg o) else old) f st.1.
Proof.
  destruct st as [cq cur]. unfold mergeQuantity. simpl.
  destruct (qIsZero v), ((f =? FormulaStep)%string || (f =? FormulaTotal)%string), (qCmp (qAdd v o) qZero <? 0), (f =? FormulaPercent)%string;
    simpl; try done; symmetry; by apply partial_alter_same.
Qed.

Lemma fold_mergeQuantity_store o l st :
  (fold_left (mergeQuantity o) l st).1 =
  fold_left (fun m '(f, v) =>
    partial_alter (fun old => if negb (qIsZero v) && ((f =? FormulaStep)%string || (f =? FormulaTotal)%string) &&
                              (qCmp (qAdd v o) qZero <? 0) then Some (qNeg o) else old) f m) l st.1.
Proof.
  revert st. induction l as [|[f v] l IH]; intros st; simpl; [done|].
  by rewrite IH, mergeQuantity_store.
Qed.

(** The inner loop of [mergeConflictResource]. *)
Lemma mergeQuantity_loop o site rq :
  let st := fold_left (mergeQuantity o) (range_map site (ConflictQuantity rq)) (ConflictQuantity rq, qZero) in
  st.1 = map_imap (fun f v => Some (clampQ o f v)) (ConflictQuantity rq) /\
  amount st.2 = resource_conflict o rq.
Proof.
  intros st. split.
  - unfold st. rewrite fold_mergeQuantity_store. apply map_eq. intros f.
    rewrite (range_fold_local (fun f v old => if negb (qIsZero v) && ((f =? FormulaStep)%string || (f =? FormulaTotal)%string) &&
                              (qCmp (qAdd v o) qZero <? 0) then Some (qNeg o) else old)), map_lookup_imap.
    destruct (ConflictQuantity rq !! f) as [v|] eqn:E; simpl; rewrite E; [|done].
    simpl. unfold clampQ. by destruct (negb _ && _ && _).
  - unfold st. rewrite fold_mergeQuantity_amount; simpl; amounts; [|lia].
    rewrite range_min0. fold (resource_conflict o rq).
    pose proof (map_min0_nonpos (formula_conflict o) (ConflictQuantity rq)).
    unfold resource_conflict. lia.
Qed.

Lemma map_imap_Some_eq {V W} (g : string -> V -> W) (m : gmap string V) f :
  map_imap (fun k v => Some (g k v)) m !! f = g f <$> m !! f.
Proof. rewrite map_lookup_imap. by destruct (m !! f). Qed.

(** The store after visiting the resources [l]. *)
Lemma fold_mergeResource_store p l c ml mc :
  (fold_left (mergeResource p) l (c, ml, mc)).1.1 =
  fold_left (fun m '(k, rq) => partial_alter (fun old =>
               match p !! resName k rq with
               | None => old
               | Some _ => Some (clamp_resource p k rq)
               end) k m) l c.
Proof.
  revert c ml mc. induction l as [|[k rq] l IH]; intros c ml mc; cbn [fold_left]; [done|].
  unfold mergeResource at 2, clamp_resource at 2.
  destruct (p !! resName k rq) as [o|] eqn:Ho.
  - destruct (mergeQuantity_loop o ("mergeConflictResource." ++ k) rq) as [H1 _].
    destruct (fold_left (mergeQuantity o) _ _) as [cq cur]. simpl in H1. subst cq.
    destruct (qIsZero cur); [apply IH|]. destruct (ml !! resName k rq); apply IH.
  - rewrite IH. by rewrite partial_alter_same.
Qed.

(** The merged amount of a name, over the visited resources. *)
Definition visited_conflict o n (l : list (string * ActionResource Q)) : Z :=
  min0 (map (uncurry (named_conflict o n)) l).

Lemma min0_snoc l x : min0 (l ++ [x]) = Z.min x (min0 l).
Proof. induction l; simpl; lia. Qed.

Lemma visited_conflict_snoc o n l k rq :
  visited_conflict o n (l ++ [(k, rq)]) = Z.min (named_conflict o n k rq) (visited_conflict o n l).
Proof. unfold visited_conflict. rewrite map_app. apply min0_snoc. Qed.

(** The loop invariant of [mergeConflictResource]. *)
Definition merge_inv p (l : list (string * ActionResource Q)) (ml : gmap string Q) (mc : gmap string bool) : Prop :=
  forall n,
    amount <$> ml !! n =
      match p !! n with
      | None => None
      | Some o => if visited_conflict o n l =? 0 then None else Some (visited_conflict o n l)
      end /\
    mc !! n =
      match p !! n with
      | None => None
      | Some o => if visited_conflict o n l =? 0 then None else Some (existsb (named_flag o n) l)
      end.

Lemma visited_flag_zero o n l : visited_conflict o n l = 0 -> existsb (named_flag o n) l = false.
Proof.
  unfold visited_conflict. induction l as [|[k rq] l IH]; simpl; [done|]. intros E.
  pose proof (min0_nonpos (map (uncurry (named_conflict o n)) l)).
  rewrite IH by lia. unfold named_flag, named_conflict in *. simpl.
  destruct (resName k rq =? n)%string; simpl; [|done].
  destruct (Z.ltb_spec (resource_conflict o rq) 0); [lia|done].
Qed.

Lemma merge_inv_skip p l ml mc k rq :
  merge_inv p l ml mc ->
  (forall o, p !! resName k rq = Some o -> resource_conflict o rq = 0) ->
  merge_inv p (l ++ [(k, rq)]) ml mc.
Proof.
  intros Hinv Hz n. destruct (Hinv n) as [H1 H2].
  destruct (p !! n) as [o|] eqn:Ho; [|done].
  rewrite visited_conflict_snoc, existsb_app. simpl.
  assert (E : Z.min (named_conflict o n k rq) (visited_conflict o n l) = visited_conflict o n l /\
              named_flag o n (k, rq) = false).
  { unfold named_conflict, named_flag. simpl.
    pose proof (min0_nonpos (map (uncurry (named_conflict o n)) l)) as Hle.
    fold (visited_conflict o n l) in Hle.
    destruct (String.eqb_spec (resName k rq) n) as [E|E]; simpl; [|split; [lia|done]].
    rewrite Hz by (by rewrite E). split; [lia|done]. }
  destruct E as [-> ->]. by rewrite !orb_false_r.
Qed.

Lemma merge_inv_step p l c ml mc k rq :
  merge_inv p l ml mc ->
  let '(_, ml', mc') := mergeResource p (c, ml, mc) (k, rq) in merge_inv p (l ++ [(k, rq)]) ml' mc'.
Proof.
  intros Hinv. unfold mergeResource.
  destruct (p !! resName k rq) as [o|] eqn:Ho;
    [|apply merge_inv_skip; [done|intros o; by rewrite Ho]].
  destruct (mergeQuantity_loop o ("mergeConflictResource." ++ k) rq) as [_ Hcur].
  destruct (fold_left (mergeQuantity o) _ _) as [cq cur]. simpl in Hcur.
  pose proof (map_min0_nonpos (formula_conflict o) (ConflictQuantity rq)) as Hneg.
  fold (resource_conflict o rq) in Hneg.
  rewrite qIsZero_eqb, Hcur. destruct (Z.eqb_spec (resource_conflict o rq) 0) as [Ez|Ez].
  { apply merge_inv_skip; [done|]. intros o' Ho'. rewrite Ho in Ho'. by simplify_eq. }
  destruct (Hinv (resName k rq)) as [HA HB]. rewrite Ho in HA, HB.
  set (m := resName k rq) in *.
  assert (Hother : forall ml' mc', (forall n, n <> m -> ml' !! n = ml !! n /\ mc' !! n = mc !! n) ->
    amount <$> ml' !! m = Some (Z.min (resource_conflict o rq) (visited_conflict o m l)) ->
    mc' !! m = Some (existsb (named_flag o m) l || Conflicting rq) ->
    merge_inv p (l ++ [(k, rq)]) ml' mc').
  { intros ml' mc' Ho1 Ho2 Ho3 n. destruct (decide (n = m)) as [->|Hne].
    - rewrite Ho, visited_conflict_snoc, existsb_app. unfold named_conflict, named_flag at 2. simpl.
      fold m. rewrite String.eqb_refl, orb_false_r. simpl.
      destruct (Z.ltb_spec (resource_conflict o rq) 0); [|lia]. simpl.
      destruct (Z.eqb_spec (Z.min (resource_conflict o rq) (visited_conflict o m l)) 0); [lia|].
      done.
    - destruct (Ho1 n Hne) as [-> ->]. destruct (Hinv n) as [H1 H2].
      destruct (p !! n) as [o'|] eqn:Hn; [|done].
      rewrite visited_conflict_snoc, existsb_app. unfold named_conflict, named_flag at 2. simpl.
      fold m. destruct (String.eqb_spec m n) as [E|E]; [done|]. simpl. rewrite orb_false_r.
      pose proof (min0_nonpos (map (uncurry (named_conflict o' n)) l)) as Hle.
      fold (visited_conflict o' n l) in Hle. rewrite Z.min_r by done. done. }
  destruct (Z.eqb_spec (visited_conflict o m l) 0) as [E0|E0].
  - destruct (ml !! m); [done|]. apply Hother.
    + intros n Hn. by rewrite !lookup_insert_ne by done.
    + rewrite lookup_insert_eq. simpl. f_equal. lia.
    + rewrite lookup_insert_eq. by rewrite visited_flag_zero.
  - destruct (ml !! m) as [value|] eqn:Hml; [|done]. simpl in HA. injection HA as HA.
    apply Hother.
    + intros n Hn. destruct (_ <? 0), (Conflicting rq); rewrite ?lookup_insert_ne by done; done.
    + rewrite qCmp_ltb, Hcur, HA.
      destruct (Z.ltb_spec (resource_conflict o rq) (visited_conflict o m l)).
      * rewrite lookup_insert_eq. simpl. f_equal. lia.
      * rewrite Hml. simpl. f_equal. lia.
    + destruct (Conflicting rq); [by rewrite lookup_insert_eq, orb_true_r|by rewrite HB, orb_false_r].
Qed.

Lemma fold_merge_inv p l c :
  let '(_, ml, mc) := fold_left (mergeResource p) l (c, ∅, ∅) in merge_inv p l ml mc.
Proof.
  induction l as [|[k rq] l IH] using rev_ind; simpl.
  - intros n. by destruct (p !! n).
  - rewrite fold_left_app. simpl.
    destruct (fold_left (mergeResource p) l (c, ∅, ∅)) as [[c1 ml] mc].
    by apply merge_inv_step.
Qed.

Lemma existsb_perm {A} (f : A -> bool) l1 l2 : l1 ≡ₚ l2 -> existsb f l1 = existsb f l2.
Proof.
  induction 1 as [| |x y l|]; simpl; auto; [congruence|by destruct (f x), (f y)|congruence].
Qed.

Lemma fold_subResource mc l p cr :
  fold_left (subResource mc) l (p, cr) =
  (fold_left (fun m '(n, q) => partial_alter (fun x =>
      Some (let s := qAdd (default qZero x) q in if qCmp s qZero <? 0 then qZero else s)) n m) l p,
   fold_left (fun m '(n, _) => partial_alter (fun _ => Some (default false (mc !! n))) n m) l cr).
Proof.
  revert p cr. induction l as [|[n q] l IH]; intros p cr; cbn [fold_left]; [done|].
  unfold subResource at 2. rewrite IH. f_equal. f_equal. apply map_eq. intros j.
  destruct (decide (n = j)) as [->|?];
    [by rewrite lookup_insert_eq, lookup_partial_alter_eq
    |by rewrite lookup_insert_ne, lookup_partial_alter_ne].
Qed.

Lemma CheckAndSub_refines c p :
  let '(c', p', cr) := CheckAndSubConflictResource c p in
  (forall n, amount <$> p' !! n = sub_spec c p n) /\
  (forall n, cr !! n = conflicted_spec c p n) /\
  (forall k, c' !! k = clamp_resource p k <$> c !! k).
Proof.
  unfold CheckAndSubConflictResource, mergeConflictResource.
  pose proof (fold_merge_inv p (range_map "mergeConflictResource" c) c) as Hinv.
  pose proof (fold_mergeResource_store p (range_map "mergeConflictResource" c) c ∅ ∅) as Hst.
  destruct (fold_left (mergeResource p) _ _) as [[c1 ml] mc]. simpl in Hst.
  rewrite fold_subResource.
  assert (Hv : forall o n, visited_conflict o n (range_map "mergeConflictResource" c) = name_conflict c o n)
    by (intros o n; apply range_min0).
  split_and!.
  - intros n. rewrite (range_fold_local (fun _ q x => Some (let s := qAdd (default qZero x) q in
      if qCmp s qZero <? 0 then qZero else s))).
    destruct (Hinv n) as [H1 _]. unfold sub_spec. destruct (p !! n) as [o|] eqn:Ho.
    + rewrite Hv in H1. destruct (Z.eqb_spec (name_conflict c o n) 0) as [E|E].
      * by destruct (ml !! n).
      * destruct (ml !! n) as [q|]; [|done]. simpl in *. injection H1 as H1. f_equal.
        rewrite qCmp_ltb, amount_Add, amount_Zero, H1. split_bools;
          rewrite ?amount_Add, ?amount_Zero, ?H1; lia.
    + by destruct (ml !! n).
  - intros n. rewrite (range_fold_local (fun n _ _ => Some (default false (mc !! n)))).
    destruct (Hinv n) as [H1 H2]. unfold conflicted_spec. rewrite H2. rewrite lookup_empty.
    destruct (p !! n) as [o|] eqn:Ho; [|by destruct (ml !! n)].
    rewrite Hv in *. destruct (Z.eqb_spec (name_conflict c o n) 0) as [E|E]; [by destruct (ml !! n)|].
    destruct (ml !! n) as [q|]; [|done]. simpl. f_equal. apply existsb_perm, range_map_perm.
  - intros k. subst c1. rewrite (range_fold_local (fun k rq old =>
      match p !! resName k rq with None => old | Some _ => Some (clamp_resource p k rq) end)).
    destruct (c !! k) as [rq|] eqn:Ek; simpl; [|done].
    destruct (p !! resName k rq) eqn:Ho; [done|]. f_equal.
    unfold clamp_resource. by rewrite Ho.
Qed.
End SpecProofs.

(** ** What an unchanged update leaves unchanged *)

Section Unchanged.
Context {RO : RangeOrder} {Q : Type} `{QL : QuantityLaws Q}.
Implicit Types (c : gmap string (ActionResource Q)) (p cq : gmap string Q) (o : Q).

Definition takes o cq (f : string) : Z := Z.min 0 (at_key (formula_conflict o) cq f).

(** Two stored quantity maps that take the same from every prediction. *)
Definition same_takes cq cq' : Prop := forall o f, takes o cq f = takes o cq' f.

Lemma takes_nonneg o f v : (f = FormulaPercent -> amount v = 0) -> 0 <= amount v -> Z.min 0 (formula_conflict o f v) = 0.
Proof.
  intros H1 H2. unfold formula_conflict. rewrite qIsZero_eqb.
  destruct (Z.eqb_spec (amount v) 0); [lia|].
  destruct (_ || _); [lia|]. destruct (String.eqb_spec f FormulaPercent); [tauto|lia].
Qed.

Lemma storeFormula_lookup f q cq j :
  storeFormula f q cq !! j =
  if decide (j = f) then (if 0 <=? amount q then None else Some q) else cq !! j.
Proof.
  unfold storeFormula. rewrite qCmp_geb, amount_Zero.
  destruct (decide (j = f)) as [->|]; split_bools;
    rewrite ?lookup_delete_eq, ?lookup_insert_eq, ?lookup_delete_ne, ?lookup_insert_ne; done.
Qed.

(** Storing [q] under [f] keeps what is taken when [q] takes what was stored. *)
Lemma storeFormula_same f q cq :
  (forall o, takes o cq f = if 0 <=? amount q then 0 else Z.min 0 (formula_conflict o f q)) ->
  same_takes cq (storeFormula f q cq).
Proof.
  intros Hq o j. unfold takes, at_key. rewrite storeFormula_lookup.
  destruct (decide (j = f)) as [->|Hne]; [|done].
  specialize (Hq o). unfold takes, at_key in Hq. rewrite Hq. by destruct (0 <=? amount q).
Qed.

(** A formula whose update reports no change takes what it took before.  The
    stored percent is not positive: it is stored only while negative. *)
Lemma updateFormula_unchanged cq fq :
  (forall v, cq !! FormulaPercent = Some v -> amount v <= 0) ->
  snd (updateFormula (cq, false) fq) = false ->
  same_takes cq (fst (updateFormula (cq, false) fq)).
Proof.
  destruct fq as [f q]. intros Hpos. unfold updateFormula. rewrite orb_false_l.
  destruct (String.eqb_spec f FormulaStep) as [->|Hs].
  - destruct (cq !! FormulaStep) as [oq|] eqn:Eo.
    + destruct (cq !! FormulaTotal) as [tq|] eqn:Et; amounts; simpl.
      all: try destruct (Z.ltb_spec 0 (amount q)); try destruct (0 <=? _); simpl; intros Hc; try done.
      all: apply storeFormula_same; intros o; unfold takes, at_key; rewrite Eo;
        unfold formula_conflict; amounts; simpl; split_bools; lia.
    + destruct (cq !! FormulaTotal) as [tq|] eqn:Et; amounts; simpl.
      all: try destruct (Z.ltb_spec 0 (amount q)); try destruct (0 <=? _); simpl; intros Hc; try done.
      all: apply storeFormula_same; intros o; unfold takes, at_key; rewrite Eo;
        unfold formula_conflict; amounts; simpl; split_bools; lia.
  - destruct (_ || _) eqn:Htp.
    + destruct (cq !! f) as [oq|] eqn:Eo; simpl; [|done].
      destruct (qCmp oq q =? 0); simpl; [|done]. intros _.
      apply storeFormula_same. intros o. unfold takes, at_key. rewrite Eo.
      destruct (Z.leb_spec 0 (amount oq)); [|done]. apply takes_nonneg; [|done].
      intros ->. specialize (Hpos _ Eo). lia.
    + simpl. intros _. apply storeFormula_same. intros o. unfold takes, at_key, formula_conflict.
      apply orb_false_iff in Htp as [Ht Hp]. destruct (String.eqb_spec f FormulaStep); [done|].
      rewrite Ht, Hp. simpl. destruct (cq !! f); simpl; repeat case_match; lia.
Qed.

Definition percent_ok cq : Prop := forall v, cq !! FormulaPercent = Some v -> amount v <= 0.

Lemma updateFormula_percent_ok cq ch fq :
  percent_ok cq -> percent_ok (fst (updateFormula (cq, ch) fq)).
Proof.
  destruct fq as [f q]. intros Hok v. unfold updateFormula.
  assert (Hst : forall q' cq', percent_ok cq' -> percent_ok (storeFormula f q' cq')).
  { intros q' cq' Hok' v'. rewrite storeFormula_lookup. case_decide; [|apply Hok'].
    destruct (Z.leb_spec 0 (amount q')); [done|]. intros [= <-]. lia. }
  repeat case_match; simplify_eq; simpl; apply Hst; try done; intros v'.
  - rewrite lookup_delete_ne by done. apply Hok.
  - rewrite lookup_insert_ne by done. apply Hok.
  - rewrite lookup_delete_ne by done. apply Hok.
  - rewrite lookup_insert_ne by done. apply Hok.
Qed.

Lemma fold_updateFormula_unchanged l cq :
  percent_ok cq -> snd (fold_left updateFormula l (cq, false)) = false ->
  same_takes cq (fst (fold_left updateFormula l (cq, false))).
Proof.
  revert cq. induction l as [|x l IH]; intros cq Hok; simpl; [by intros _ o f|].
  pose proof (updateFormula_percent_ok cq false x Hok) as Hok'.
  pose proof (updateFormula_unchanged cq x Hok) as Hx.
  destruct (updateFormula (cq, false) x) as [cq' b]. simpl in *.
  rewrite fold_updateFormula_flag. simpl. intros [-> Hl]%orb_false_iff.
  intros o f. rewrite Hx by done. by apply IH.
Qed.

(** Every stored percent is at most zero. *)
Definition percents_ok c : Prop := forall k rq, c !! k = Some rq -> percent_ok (ConflictQuantity rq).

Lemma same_takes_conflict o cq cq' :
  same_takes cq cq' -> map_min0 (formula_conflict o) cq = map_min0 (formula_conflict o) cq'.
Proof. intros Hs. apply map_min0_ext. intros f. apply Hs. Qed.

Lemma name_conflict_unchanged c cl o n :
  percents_ok c -> snd (UpdateConflictList c cl) = false ->
  name_conflict (fst (UpdateConflictList c cl)) o n = name_conflict c o n.
Proof.
  intros Hok Hch. apply map_min0_ext. intros k. unfold at_key.
  rewrite UpdateConflictList_lookup. destruct (cl !! k) as [v|] eqn:Ek; [|done].
  assert (Hk : snd (updateOne k v (c !! k)) = false).
  { destruct (snd (updateOne k v (c !! k))) eqn:E; [|done].
    assert (snd (UpdateConflictList c cl) = true) by (apply UpdateConflictList_changed; eauto). congruence. }
  revert Hk. unfold updateOne. destruct (c !! k) as [rq|] eqn:Ec; [|by case_match].
  pose proof (fold_updateFormula_unchanged
    (range_map ("UpdateConflictList." ++ k) (ConflictQuantity v)) (ConflictQuantity rq) (Hok _ _ Ec)) as Hs.
  destruct (fold_left updateFormula _ _) as [cq b]. simpl in *. intros Hb. specialize (Hs Hb).
  assert (E : resource_conflict o rq = map_min0 (formula_conflict o) cq)
    by (by apply same_takes_conflict).
  unfold named_conflict at 2. destruct (Nat.eqb_spec (size cq) 0) as [Hz|Hz].
  - apply map_size_empty_inv in Hz. subst cq.
    change (map_min0 (formula_conflict o) ∅) with 0 in E. rewrite E. by case_match.
  - unfold named_conflict, resName. simpl. unfold resource_conflict at 1. simpl. by rewrite E.
Qed.
End Unchanged.

(** ** The order of an update *)

Section Order.
Context {Q : Type} `{QL : QuantityLaws Q}.
Implicit Types (c : gmap string (ActionResource Q)) (cq : gmap string Q).

Definition keep_negative (q : Q) : option Q := if 0 <=? qCmp q qZero then None else Some q.

(** The new quantity of the updated formula. *)
Definition alterFormula (f : string) (q : Q) (x : option Q) : option Q :=
  keep_negative
    (if (f =? FormulaStep)%string then match x with None => q | Some oq => qAdd oq q end
     else if (f =? FormulaTotal)%string || (f =? FormulaPercent)%string then
       match x with None => q | Some oq => if negb (qCmp oq q =? 0) then q else oq end
     else default qZero x).

(** A positive step also recovers the total. *)
Definition alterTotal (q : Q) (x : option Q) : option Q :=
  match x with
  | Some t => if 0 <? qCmp q qZero then keep_negative (qAdd t q) else Some t
  | None => None
  end.

Definition reportsChange (f : string) (q : Q) (x t : option Q) : bool :=
  if (f =? FormulaStep)%string then
    (qCmp q qZero <? 0) || (match x with None => false | Some oq => negb (qIsZero oq) end)
    || (match t with Some _ => 0 <? qCmp q qZero | None => false end)
  else if (f =? FormulaTotal)%string || (f =? FormulaPercent)%string then
    match x with None => true | Some oq => negb (qCmp oq q =? 0) end
  else false.

Definition totalFirst (f : string) (q : Q) cq : gmap string Q :=
  if (f =? FormulaStep)%string then partial_alter (alterTotal q) FormulaTotal cq else cq.

Lemma storeFormula_alter f q g cq :
  g (cq !! f) = keep_negative q -> storeFormula f q cq = partial_alter g f cq.
Proof.
  intros E. unfold storeFormula. unfold keep_negative in E. apply map_eq. intros j.
  destruct (decide (f = j)) as [->|Hne].
  - rewrite lookup_partial_alter_eq, E. by destruct (0 <=? _); rewrite ?lookup_delete_eq, ?lookup_insert_eq.
  - rewrite lookup_partial_alter_ne by done. by destruct (0 <=? _); rewrite ?lookup_delete_ne, ?lookup_insert_ne.
Qed.

Lemma updateFormula_normal cq ch f q :
  updateFormula (cq, ch) (f, q) =
  (partial_alter (alterFormula f q) f (totalFirst f q cq),
   ch || reportsChange f q (cq !! f) (cq !! FormulaTotal)).
Proof.
  unfold updateFormula, totalFirst, reportsChange.
  destruct (String.eqb_spec f FormulaStep) as [->|Hs].
  - assert (E : exists cq', partial_alter (alterTotal q) FormulaTotal cq = cq' /\ cq' !! FormulaStep = cq !! FormulaStep)
      by (eexists; split; [done|by rewrite lookup_partial_alter_ne]).
    destruct E as (cq' & E & Es).
    assert (Et : match cq !! FormulaTotal with
                 | Some t => if 0 <? qCmp q qZero then
                     if 0 <=? qCmp (qAdd t q) qZero then delete FormulaTotal cq
                     else <[FormulaTotal := qAdd t q]> cq
                   else cq
                 | None => cq
                 end = cq').
    { rewrite <- E. apply map_eq. intros j. destruct (decide (FormulaTotal = j)) as [<-|Hne].
      - rewrite lookup_partial_alter_eq. unfold alterTotal, keep_negative.
        repeat case_match; rewrite ?lookup_delete_eq, ?lookup_insert_eq; congruence.
      - rewrite lookup_partial_alter_ne by done. repeat case_match;
          rewrite ?lookup_delete_ne, ?lookup_insert_ne; done. }
    rewrite E. clear E. destruct (cq !! FormulaStep) as [oq|] eqn:Eo, (cq !! FormulaTotal) as [t|] eqn:Ett;
      try destruct (0 <? qCmp q qZero); try destruct (0 <=? qCmp (qAdd t q) qZero); rewrite Et; simpl;
      (f_equal; [apply storeFormula_alter; rewrite Es; done|]); rewrite ?orb_true_r, ?orb_false_r, ?orb_assoc; done.
  - destruct (_ || _) eqn:Htp.
    + destruct (cq !! f) as [oq|] eqn:Eo; [destruct (qCmp oq q =? 0) eqn:Ec|]; simpl;
        rewrite ?orb_true_r, ?orb_false_r; f_equal; apply storeFormula_alter;
        unfold alterFormula; rewrite Eo, ?Ec; destruct (String.eqb_spec f FormulaStep); try done;
        by rewrite Htp.
    + rewrite orb_false_r. f_equal. apply storeFormula_alter. unfold alterFormula.
      destruct (String.eqb_spec f FormulaStep); [done|]. by rewrite Htp.
Qed.

(** A step and a total of the same update do not commute: the step recovers the
    total, which the update replaces. *)
Definition step_total_free (cq : gmap string Q) : Prop :=
  ~ (is_Some (cq !! FormulaStep) /\ is_Some (cq !! FormulaTotal)).

Lemma totalFirst_lookup_ne f q cq j :
  (f = FormulaStep -> j <> FormulaTotal) -> totalFirst f q cq !! j = cq !! j.
Proof.
  intros Hj. unfold totalFirst. destruct (String.eqb_spec f FormulaStep); [|done].
  apply lookup_partial_alter_ne. symmetry. auto.
Qed.

Lemma totalFirst_alter f q g f' cq :
  (f = FormulaStep -> f' <> FormulaTotal) ->
  totalFirst f q (partial_alter g f' cq) = partial_alter g f' (totalFirst f q cq).
Proof.
  intros Hf. unfold totalFirst. destruct (String.eqb_spec f FormulaStep); [|done].
  apply partial_alter_partial_alter_ne. symmetry. auto.
Qed.

Lemma reportsChange_other f q x t t' :
  (f = FormulaStep -> t = t') -> reportsChange f q x t = reportsChange f q x t'.
Proof. intros Hf. unfold reportsChange. destruct (String.eqb_spec f FormulaStep); [by rewrite Hf|done]. Qed.

Lemma updateFormula_commute st f1 q1 f2 q2 :
  f1 <> f2 ->
  ~ (f1 = FormulaStep /\ f2 = FormulaTotal) -> ~ (f2 = FormulaStep /\ f1 = FormulaTotal) ->
  updateFormula (updateFormula st (f1, q1)) (f2, q2) = updateFormula (updateFormula st (f2, q2)) (f1, q1).
Proof.
  intros Hne H1 H2. destruct st as [cq ch]. rewrite !updateFormula_normal.
  assert (Hf12 : f1 = FormulaStep -> f2 <> FormulaTotal) by tauto.
  assert (Hf21 : f2 = FormulaStep -> f1 <> FormulaTotal) by tauto.
  f_equal.
  - rewrite !totalFirst_alter by done. rewrite partial_alter_partial_alter_ne by done. do 2 f_equal.
    unfold totalFirst. destruct (String.eqb_spec f1 FormulaStep), (String.eqb_spec f2 FormulaStep); congruence.
  - assert (Ht : forall f q g j, f <> j -> (f = FormulaStep -> j <> FormulaTotal) ->
              partial_alter g f (totalFirst f q cq) !! j = cq !! j).
    { intros f q g j Hf Hs. rewrite lookup_partial_alter_ne by done. by apply totalFirst_lookup_ne. }
    rewrite (Ht f1 q1 _ f2), (Ht f2 q2 _ f1) by auto.
    rewrite (reportsChange_other f2 q2 _ _ (cq !! FormulaTotal))
      by (intros ->; apply Ht; [by apply Hf21|congruence]).
    rewrite (reportsChange_other f1 q1 _ (partial_alter _ f2 _ !! _) (cq !! FormulaTotal))
      by (intros ->; apply Ht; [by apply Hf12|congruence]).
    rewrite <- !orb_assoc. f_equal. apply orb_comm.
Qed.

Lemma updateOne_order (RO1 RO2 : RangeOrder) k v x :
  step_total_free (ConflictQuantity v) -> @updateOne RO1 Q _ k v x = @updateOne RO2 Q _ k v x.
Proof.
  intros Hst. unfold updateOne. destruct x as [rq|].
  - rewrite (fold_left_permutation_on updateFormula
      (@range_map RO1 _ ("UpdateConflictList." ++ k) (ConflictQuantity v))
      (@range_map RO2 _ ("UpdateConflictList." ++ k) (ConflictQuantity v))); [done| | |].
    + apply (NoDup_fmap_1 fst), NoDup_fst_range.
    + intros st [f1 q1] [f2 q2] Hx%elem_of_range Hy%elem_of_range Hne.
      apply updateFormula_commute.
      * intros ->. apply Hne. congruence.
      * intros [-> ->]. apply Hst. split; eauto.
      * intros [-> ->]. apply Hst. split; eauto.
    + by rewrite !range_map_perm.
  - assert (E : @IsNegative RO1 Q _ v = @IsNegative RO2 Q _ v)
      by (unfold IsNegative; destruct (Conflicting v); [done|]; apply existsb_perm; by rewrite !range_map_perm).
    by rewrite E.
Qed.

Lemma UpdateConflictList_order (RO1 RO2 : RangeOrder) c cl :
  (forall k v, cl !! k = Some v -> step_total_free (ConflictQuantity v)) ->
  @UpdateConflictList RO1 Q _ c cl = @UpdateConflictList RO2 Q _ c cl.
Proof.
  intros Hst.
  assert (E1 : fst (@UpdateConflictList RO1 Q _ c cl) = fst (@UpdateConflictList RO2 Q _ c cl)).
  { apply map_eq. intros k. rewrite !UpdateConflictList_lookup.
    destruct (cl !! k) as [v|] eqn:Ek; [|done]. by rewrite (updateOne_order RO1 RO2) by eauto. }
  assert (E2 : snd (@UpdateConflictList RO1 Q _ c cl) = snd (@UpdateConflictList RO2 Q _ c cl)).
  { apply eq_bool_prop_intro. rewrite !Is_true_true, !UpdateConflictList_changed.
    split; intros (k & v & Hk & Hc); exists k, v; (split; [done|]).
    - by rewrite <- (updateOne_order RO1 RO2) by eauto.
    - by rewrite (updateOne_order RO1 RO2) by eauto. }
  destruct (@UpdateConflictList RO1 Q _ c cl), (@UpdateConflictList RO2 Q _ c cl). simpl in *. congruence.
Qed.
End Order.

(** ** Recovery by steps *)

Section Recovery.
Context {Q : Type} `{QL : QuantityLaws Q}.
Implicit Types (c : gmap string (ActionResource Q)) (p cq : gmap string Q).

(** The stored amount of a formula, 0 when nothing is stored. *)
Definition amount_of cq (f : string) : Z := from_option amount 0 (cq !! f).
Definition stored c (k f : string) : Z := from_option (fun rq => amount_of (ConflictQuantity rq) f) 0 (c !! k).

(** What a recovering rule reports: a positive step. *)
Definition recovering (name : string) (d : Q) : ActionResource Q :=
  mkActionResource name false {[FormulaStep := d]}.

Lemma keep_negative_amount q : from_option amount 0 (keep_negative q) = Z.min 0 (amount q).
Proof. unfold keep_negative. amounts. split_bools; simpl; lia. Qed.

Lemma alterFormula_step d x :
  from_option amount 0 (alterFormula FormulaStep d x) = Z.min 0 (from_option amount 0 x + amount d).
Proof. unfold alterFormula. simpl. rewrite keep_negative_amount. destruct x; simpl; amounts; lia. Qed.

Lemma alterTotal_amount d x :
  0 < amount d -> from_option amount 0 (alterTotal d x) = Z.min 0 (from_option amount 0 x + amount d).
Proof.
  intros Hd. unfold alterTotal. destruct x as [t|]; simpl; [|lia]. rewrite qCmp_gtb, amount_Zero.
  destruct (Z.ltb_spec 0 (amount d)); [|lia]. rewrite keep_negative_amount. amounts. lia.
Qed.

Lemma recover_formula cq ch d f :
  0 < amount d -> f = FormulaStep \/ f = FormulaTotal ->
  amount_of (fst (updateFormula (cq, ch) (FormulaStep, d))) f = Z.min 0 (amount_of cq f + amount d).
Proof.
  intros Hd Hf. rewrite updateFormula_normal. simpl. unfold amount_of, totalFirst. simpl.
  destruct Hf as [-> | ->].
  - rewrite lookup_partial_alter_eq, lookup_partial_alter_ne by done. apply alterFormula_step.
  - rewrite lookup_partial_alter_ne, lookup_partial_alter_eq by done. by apply alterTotal_amount.
Qed.

Lemma recovering_not_negative {RO : RangeOrder} name d : 0 < amount d -> IsNegative (recovering name d) = false.
Proof.
  intros Hd. unfold IsNegative. simpl. rewrite range_map_singleton. simpl. amounts.
  destruct (Z.ltb_spec (amount d) 0); [lia|done].
Qed.

(** One recovering report adds the step to the stored step and total. *)
Lemma recover_once {RO : RangeOrder} c k name d f :
  0 < amount d -> f = FormulaStep \/ f = FormulaTotal ->
  stored (fst (UpdateConflictList c {[k := recovering name d]})) k f = Z.min 0 (stored c k f + amount d).
Proof.
  intros Hd Hf. unfold stored at 1. rewrite UpdateConflictList_lookup, lookup_singleton_eq.
  unfold updateOne, stored. destruct (c !! k) as [rq|]; [|rewrite recovering_not_negative by done; simpl; lia].
  simpl. rewrite range_map_singleton. simpl.
  pose proof (recover_formula (ConflictQuantity rq) false d f Hd Hf) as E.
  destruct (updateFormula (ConflictQuantity rq, false) (FormulaStep, d)) as [cq b]. simpl in *.
  destruct (Nat.eqb_spec (size cq) 0) as [Hz|Hz]; [|done].
  apply map_size_empty_inv in Hz. subst cq. rewrite <- E. unfold amount_of. by rewrite lookup_empty.
Qed.

Lemma recover_many (ros : list RangeOrder) c k name d f :
  0 < amount d -> f = FormulaStep \/ f = FormulaTotal -> stored c k f <= 0 ->
  stored (fold_left (fun c (RO : RangeOrder) => fst (UpdateConflictList c {[k := recovering name d]})) ros c) k f =
  Z.min 0 (stored c k f + Z.of_nat (length ros) * amount d).
Proof.
  intros Hd Hf. revert c. induction ros as [|RO ros IH]; intros c Hle; simpl; [lia|].
  pose proof (recover_once (RO := RO) c k name d f Hd Hf) as E. rewrite IH by lia. rewrite E. nia.
Qed.
End Recovery.

(** ** Properties *)

Section Properties.
Context {Q : Type} `{QL : QuantityLaws Q}.
Implicit Types (c : gmap string (ActionResource Q)) (p : gmap string Q).

(** C1: [CheckAndSubConflictResource] implements its specification whatever the
    order of the maps: each predicted resource loses the most that any stored
    resource of its name takes by any formula, down to zero; the reduced
    resources are reported with whether they are in conflict; the stored steps
    and totals are limited to the prediction; other resources are untouched.  So
    a non-negative prediction stays between zero and itself. *)
Theorem CheckAndSubConflictResource_correct {RO : RangeOrder} c p :
  let '(c', p', cr) := CheckAndSubConflictResource c p in
  (forall k, c' !! k = clamp_resource p k <$> c !! k) /\
  forall n,
    cr !! n = conflicted_spec c p n /\
    match p !! n with
    | None => p' !! n = None
    | Some o =>
        exists q, p' !! n = Some q /\
          amount q = (if name_conflict c o n =? 0 then amount o
                      else Z.max 0 (amount o + name_conflict c o n)) /\
          (0 <= amount o -> 0 <= amount q <= amount o)
    end.
Proof.
  pose proof (CheckAndSub_refines c p) as Href.
  destruct (CheckAndSubConflictResource c p) as [[c' p'] cr]. destruct Href as (H1 & H2 & H3).
  split; [done|]. intros n. split; [done|]. specialize (H1 n). unfold sub_spec in H1.
  destruct (p !! n) as [o|].
  - destruct (p' !! n) as [q|]; [|done]. injection H1 as E. exists q. split_and!; [done|done|].
    intros Ho. pose proof (map_min0_nonpos (named_conflict o n) c). fold (name_conflict c o n) in *.
    rewrite E. split_bools; lia.
  - by destruct (p' !! n).
Qed.

(** When [UpdateConflictList] reports no change, offline resources need not
    be published again: for every prediction the amounts left to offline jobs
    are those of the store before the update (the stored percents being at most
    zero, as [UpdateConflictList] keeps them). *)
Theorem UpdateConflictList_unchanged (RO RO1 RO2 : RangeOrder) c cl c' p n :
  percents_ok c ->
  @UpdateConflictList RO Q _ c cl = (c', false) ->
  amount <$> (@CheckAndSubConflictResource RO1 Q _ c' p).1.2 !! n =
  amount <$> (@CheckAndSubConflictResource RO2 Q _ c p).1.2 !! n.
Proof.
  intros Hok E. pose proof (@CheckAndSub_refines RO1 Q _ _ c' p) as H1.
  pose proof (@CheckAndSub_refines RO2 Q _ _ c p) as H2.
  destruct (@CheckAndSubConflictResource RO1 Q _ c' p) as [[? p1] ?].
  destruct (@CheckAndSubConflictResource RO2 Q _ c p) as [[? p2] ?].
  simpl. destruct H1 as [-> _], H2 as [-> _]. unfold sub_spec. destruct (p !! n); [|done].
  replace c' with (fst (@UpdateConflictList RO Q _ c cl)) by (by rewrite E).
  by rewrite name_conflict_unchanged by (by rewrite ?E).
Qed.

(** The store and the report of [UpdateConflictList] do not depend on the
    order in which Go visits the conflict list and its formulas, when no
    resource of the list has both a step and a total. *)
Theorem UpdateConflictList_order_independent (RO1 RO2 : RangeOrder) c cl :
  (forall k v, cl !! k = Some v -> step_total_free (ConflictQuantity v)) ->
  @UpdateConflictList RO1 Q _ c cl = @UpdateConflictList RO2 Q _ c cl.
Proof. apply UpdateConflictList_order. Qed.

(** C21: A conflict does not wind up: however many conflicting rounds the store
    has gone through, once the conflicts have been subtracted from a prediction
    [o], [n] recovering reports of a step [d] with [n * d >= o] clear the stored
    step and total of the resource. *)
Theorem conflict_recovery_bounded {RO : RangeOrder} (ros : list RangeOrder) c p k rq o name d f :
  c !! k = Some rq -> p !! resName k rq = Some o -> 0 <= amount o ->
  0 < amount d -> amount o <= Z.of_nat (length ros) * amount d -> ros <> [] ->
  f = FormulaStep \/ f = FormulaTotal ->
  stored (fold_left (fun c (RO : RangeOrder) => fst (UpdateConflictList c {[k := recovering name d]})) ros
            (CheckAndSubConflictResource c p).1.1) k f = 0.
Proof.
  intros Hk Hp Ho Hd Hn Hne Hf. pose proof (CheckAndSub_refines c p) as Href.
  destruct (CheckAndSubConflictResource c p) as [[c' p'] cr]. destruct Href as (_ & _ & H3). simpl.
  assert (Hlow : - amount o <= stored c' k f).
  { unfold stored. rewrite H3, Hk. simpl. unfold clamp_resource. rewrite Hp. simpl.
    unfold amount_of. rewrite map_imap_Some_eq. destruct (ConflictQuantity rq !! f) as [v|]; simpl; [|lia].
    assert (Hb : (f =? FormulaStep)%string || (f =? FormulaTotal)%string = true)
      by (by destruct Hf as [-> | ->]).
    unfold clampQ. rewrite Hb, qIsZero_eqb, qCmp_ltb, amount_Add, amount_Zero.
    destruct (Z.eqb_spec (amount v) 0); simpl; [lia|].
    destruct (Z.ltb_spec (amount v + amount o) 0); [rewrite amount_Neg|]; lia. }
  destruct ros as [|RO1 ros]; [done|]. simpl.
  pose proof (recover_once (RO := RO1) c' k name d f Hd Hf) as E.
  rewrite recover_many by (done || lia). rewrite E. simpl in Hn. nia.
Qed.
End Properties.

(** *** Witnesses *)

Definition example_store : gmap string (ActionResource Z) :=
  {["memory" := mkActionResource "memory" true {[FormulaStep := -8; FormulaPercent := -200 * nano_per_milli]}]}.

Lemma UpdateConflictList_unchanged_witness :
  amount <$> (@CheckAndSubConflictResource key_order Z _
     (fst (@UpdateConflictList key_order Z _ example_store {["cpu" := recovering "cpu" 5]})) {["memory" := 3]}).1.2 !! "memory" =
  amount <$> (@CheckAndSubConflictResource reverse_order Z _ example_store {["memory" := 3]}).1.2 !! "memory".
Proof.
  apply (UpdateConflictList_unchanged key_order key_order reverse_order example_store
           {["cpu" := recovering "cpu" 5]}).
  - intros k rq Hk v Hv. unfold example_store in Hk. apply lookup_singleton_Some in Hk as [<- <-].
    vm_compute in Hv. injection Hv as <-. vm_compute. discriminate.
  - vm_compute. reflexivity.
Defined.

Lemma UpdateConflictList_order_independent_witness :
  @UpdateConflictList key_order Z _ example_store
    {["memory" := mkActionResource "memory" true {[FormulaStep := -4; FormulaPercent := 0]}]} =
  @UpdateConflictList reverse_order Z _ example_store
    {["memory" := mkActionResource "memory" true {[FormulaStep := -4; FormulaPercent := 0]}]}.
Proof.
  apply (UpdateConflictList_order_independent key_order reverse_order example_store).
  intros k v Hk. apply lookup_singleton_Some in Hk as [<- <-]. intros [_ [x Hx]].
  vm_compute in Hx. discriminate.
Defined.

Lemma conflict_recovery_bounded_witness :
  stored (fold_left (fun c (RO : RangeOrder) => fst (UpdateConflictList c {["memory" := recovering "memory" 2]}))
            [key_order; reverse_order]
            (@CheckAndSubConflictResource key_order Z _ example_store {["memory" := 3]}).1.1) "memory" FormulaStep = 0.
Proof.
  apply (@conflict_recovery_bounded Z _ _ key_order [key_order; reverse_order] example_store {["memory" := 3]} "memory"
           (mkActionResource "memory" true {[FormulaStep := -8; FormulaPercent := -200 * nano_per_milli]}) 3
           "memory" 2 FormulaStep); [reflexivity|reflexivity|simpl; lia|simpl; lia|simpl; lia|discriminate|by left].
Defined.

(** A resource is first stored as it is when it is in conflict, with the
    positive steps of the rules that are recovering, although the store is meant
    to hold negative quantities: the next conflicting step is then cancelled
    and nothing is stored for it. *)
Theorem first_conflict_keeps_positive_step :
  let v := mkActionResource (Q := Z) "memory" true {[FormulaStep := 5; FormulaPercent := -200 * nano_per_milli]} in
  let c1 := fst (@UpdateConflictList key_order Z _ NewConflictManager {["memory" := v]}) in
  let c2 := fst (@UpdateConflictList key_order Z _ c1
                   {["memory" := mkActionResource "memory" true {[FormulaStep := -5]}]}) in
  stored c1 "memory" FormulaStep = 5 /\ stored c2 "memory" FormulaStep = 0.
Proof. vm_compute. split; reflexivity. Qed.
