(* ===== verification/Detection.v ===== *)
(** * Anomaly detectors

    pkg/caelus/detection: the ring buffer (ring/ring.go), the EWMA detector, the
    expression detector and their union.  The expression evaluator (govaluate)
    and the moving average (VividCortex/ewma) are libraries the sources call:
    they are parameters of the section.  A detector is one value of the
    inductive type [Detector], whose constructors are the implementations of the
    Go interface. *)

From S2P Require Import Prelude GoStrings GoFloat.

#[local] Open Scope string_scope.
#[local] Open Scope Z_scope.
#[local] Open Scope list_scope.

(** ** Ring buffer *)

Record Ring := mkRing {
  data : list float64;
  capacity : nat;
  tail : nat;
  ready : bool;
}.

Definition NewRing (n : nat) : Ring := mkRing (replicate n fzero) n 0 false.

(** Writing past the end of the slice panics. *)
Definition Ring_Add (ring : Ring) (v : float64) : outcome Ring :=
  let i := tail ring in
  if (i <? length (data ring))%nat then
    let t := S (tail ring) in
    if (t =? capacity ring)%nat
    then Ret (mkRing (<[i := v]> (data ring)) (capacity ring) 0 true)
    else Ret (mkRing (<[i := v]> (data ring)) (capacity ring) t (ready ring))
  else Crash (Panic "index out of range").

Definition Ring_Values (ring : Ring) : list float64 := data ring.

Definition Ring_Peek (ring : Ring) : outcome float64 :=
  let i := match tail ring with
           | O => Z.of_nat (capacity ring) - 1
           | S t => Z.of_nat t
           end in
  if i <? 0 then Crash (Panic "index out of range")
  else match data ring !! Z.to_nat i with
       | Some v => Ret v
       | None => Crash (Panic "index out of range")
       end.

Definition Ring_Mean (ring : Ring) : float64 :=
  fdiv (fold_left fadd (data ring) fzero) (float64_of_Z (Z.of_nat (capacity ring))).

Fixpoint Ring_AddList (ring : Ring) (vs : list float64) : outcome Ring :=
  match vs with
  | [] => Ret ring
  | v :: vs' => r ← Ring_Add ring v; Ring_AddList r vs'
  end.

(** The buffer from the oldest to the latest value. *)
Definition Ring_window (ring : Ring) : list float64 :=
  drop (tail ring) (data ring) ++ take (tail ring) (data ring).

(** *** The ring keeps the last [n] values *)

(** [ring] has been filled with the values [h] since its creation. *)
Record ring_rep (n : nat) (h : list float64) (ring : Ring) : Prop := {
  rep_length : length (data ring) = n;
  rep_capacity : capacity ring = n;
  rep_tail : (tail ring < n)%nat;
  rep_ready : ready ring = (n <=? length h)%nat;
  rep_filled : (length h < n)%nat -> tail ring = length h;
  rep_window : Ring_window ring = drop (length h) (replicate n fzero ++ h);
}.

Lemma ring_rep_new n : (0 < n)%nat -> ring_rep n [] (NewRing n).
Proof.
  intros Hn. split; simpl.
  - apply length_replicate.
  - done.
  - done.
  - symmetry. apply Nat.leb_gt. lia.
  - done.
  - unfold Ring_window. simpl. by rewrite drop_0, take_0.
Qed.

Lemma window_insert (l : list float64) t v :
  (t < length l)%nat ->
  drop (S t) (<[t := v]> l) ++ take (S t) (<[t := v]> l) = drop 1 (drop t l ++ take t l) ++ [v].
Proof.
  intros Ht. rewrite drop_insert_lt by lia.
  rewrite (take_S_r _ _ v) by (by apply list_lookup_insert_eq).
  rewrite take_insert_ge by lia.
  destruct (lookup_lt_is_Some_2 l t Ht) as [x Hx].
  rewrite (drop_S l x t Hx). simpl. rewrite drop_0. by rewrite app_assoc.
Qed.

Lemma Ring_Add_rep n h ring v :
  ring_rep n h ring -> exists ring', Ring_Add ring v = Ret ring' /\ ring_rep n (h ++ [v]) ring'.
Proof.
  intros [Hl Hc Ht Hr Hf Hw]. unfold Ring_Add. rewrite Hl, Hc.
  destruct (Nat.ltb_spec (tail ring) n); [|lia].
  assert (Hwin : drop 1 (Ring_window ring) ++ [v] = drop (length (h ++ [v])) (replicate n fzero ++ h ++ [v])).
  { rewrite Hw, drop_drop, length_app. simpl. rewrite app_assoc.
    rewrite (drop_app_le (replicate n fzero ++ h)); [done|]. rewrite length_app, length_replicate. lia. }
  assert (Hlen : length (h ++ [v]) = S (length h)) by (rewrite length_app; simpl; lia).
  assert (Hfull : (length (Ring_window ring) = n)%nat)
    by (unfold Ring_window; rewrite length_app, length_drop, length_take; lia).
  pose proof (window_insert (data ring) (tail ring) v ltac:(lia)) as Hins.
  destruct (Nat.eqb_spec (S (tail ring)) n) as [E|E]; eexists; (split; [reflexivity|]); split; simpl.
  - by rewrite length_insert.
  - done.
  - lia.
  - symmetry. apply Nat.leb_le. rewrite Hlen. destruct (Nat.lt_ge_cases (length h) n) as [Hh|Hh]; [rewrite <- Hf by done|]; lia.
  - intros Hh. lia.
  - rewrite <- Hwin. unfold Ring_window in *. simpl. rewrite drop_0, take_0, app_nil_r, <- Hins.
    rewrite E, drop_ge, take_ge by (rewrite length_insert; lia). done.
  - by rewrite length_insert.
  - done.
  - lia.
  - rewrite Hr, Hlen. destruct (Nat.leb_spec n (length h)), (Nat.leb_spec n (S (length h))); lia.
  - intros Hh. rewrite Hlen in *. rewrite Hf by lia. done.
  - rewrite <- Hwin. unfold Ring_window in *. simpl. exact Hins.
Qed.

Lemma Ring_AddList_rep n h vs ring :
  ring_rep n h ring -> exists ring', Ring_AddList ring vs = Ret ring' /\ ring_rep n (h ++ vs) ring'.
Proof.
  revert h ring. induction vs as [|v vs IH]; intros h ring Hrep; simpl.
  - exists ring. by rewrite app_nil_r.
  - destruct (Ring_Add_rep n h ring v Hrep) as (r & -> & Hr). simpl.
    destruct (IH (h ++ [v]) r Hr) as (r' & E & Hr'). exists r'. split; [done|].
    by rewrite <- app_assoc in Hr'.
Qed.

Lemma Ring_Peek_rep n h v ring : ring_rep n (h ++ [v]) ring -> Ring_Peek ring = Ret v.
Proof.
  intros [Hl Hc Ht Hr Hf Hw]. unfold Ring_Peek.
  assert (Hlast : last (Ring_window ring) = Some v).
  { rewrite Hw, app_assoc, drop_app_le by (rewrite !length_app, length_replicate; simpl; lia).
    apply last_snoc. }
  unfold Ring_window in Hlast. rewrite Hc. destruct (tail ring) as [|t] eqn:E.
  - rewrite drop_0, take_0, app_nil_r, last_lookup, Hl in Hlast.
    destruct (Z.ltb_spec (Z.of_nat n - 1) 0); [lia|].
    replace (Z.to_nat (Z.of_nat n - 1)) with (pred n) by lia. by rewrite Hlast.
  - destruct (Z.ltb_spec (Z.of_nat t) 0); [lia|]. rewrite Nat2Z.id.
    destruct (lookup_lt_is_Some_2 (data ring) t ltac:(lia)) as [x Hx].
    rewrite (take_S_r _ _ x), app_assoc, last_snoc in Hlast by done. rewrite Hx. congruence.
Qed.

(** ** Detectors *)

Record TimedData := mkTimedData {
  Ts : time;
  Vals : gmap string float64;
}.

Definition MinData : nat := 11.

Section Detectors.
(** govaluate: an expression either fails to evaluate, or has a value, which is
    a boolean ([Some b]) or not ([None]). *)
Context {E : Type} (Evaluate : E -> gmap string float64 -> result (option bool)).
(** VividCortex/ewma. *)
Context {MA : Type} (NewMovingAverage : float64 -> MA) (MA_Add : MA -> float64 -> MA)
  (MA_Value : MA -> float64).

(** *** EWMA *)

Record EwmaDetector := mkEwma {
  ew_data : Ring;
  ew_n : nat;
  ew_ma : MA;
  ew_recentAddTime : time;
  ew_addCount : nat;
  ew_metric : string;
}.

Definition NewEwmaDetector (metric : string) (n : nat) : EwmaDetector :=
  mkEwma (NewRing n) n (NewMovingAverage (float64_of_Z (Z.of_nat n))) nilTime 0 metric.

Definition ewma_add (e : EwmaDetector) (d : TimedData) : outcome EwmaDetector :=
  if negb (time_After (Ts d) (ew_recentAddTime e)) then Ret e
  else
    let v := default fzero (Vals d !! ew_metric e) in
    r ← Ring_Add (ew_data e) v;
    Ret (mkEwma r (ew_n e) (MA_Add (ew_ma e) v) (Ts d)
           (if (ew_addCount e <? MinData)%nat then S (ew_addCount e) else ew_addCount e) (ew_metric e)).

Fixpoint ewma_addList (e : EwmaDetector) (vals : list TimedData) : outcome EwmaDetector :=
  match vals with
  | [] => Ret e
  | d :: vals' => e' ← ewma_add e d; ewma_addList e' vals'
  end.

Definition ewma_AddAll (e : EwmaDetector) (vals : list TimedData) : outcome EwmaDetector :=
  ewma_addList (NewEwmaDetector (ew_metric e) (ew_n e)) vals.

Definition ewma_Mean (e : EwmaDetector) : float64 := MA_Value (ew_ma e).

Definition ewma_StdDev (e : EwmaDetector) : float64 :=
  let mean := ewma_Mean e in
  let sum := fold_left (fun sum v => let d := fabs (fsub v mean) in fadd sum (fmul d d))
               (Ring_Values (ew_data e)) fzero in
  fsqrt (fdiv sum (float64_of_Z (Z.of_nat (length (Ring_Values (ew_data e)))))).

Definition ewma_IsAnomaly (e : EwmaDetector) : outcome (result bool) :=
  if (ew_addCount e <? MinData)%nat then Ret (Err "too few samples")
  else
    p ← Ring_Peek (ew_data e);
    Ret (Ok (fgt (fabs (fsub p (ewma_Mean e))) (fmul (float64_of_Z 3) (ewma_StdDev e)))).

(** *** Expressions *)

Record ExpressionDetector := mkExpression {
  ex_metrics : list string;
  ex_exp : E;
  ex_params : gmap string float64;
  ex_recentAddTime : time;
  ex_warningCount : Z;
  ex_falseCount : Z;
  ex_warningDuration : duration;
  ex_firstContinueWarning : time;
  ex_renew : bool;
}.

(** [NewExpressionDetector] with the option [ExpressionWarningArgs count dur]. *)
Definition NewExpressionDetector (metrics : list string) (exp : E) (args : option (Z * duration)) :
    ExpressionDetector :=
  let '(count, dur) := default (0, 0) args in
  let count' := if (dur =? 0) && (count =? 0) then 1 else count in
  mkExpression metrics exp ∅ nilTime count' 0 dur nilTime false.

Definition ex_set (e : ExpressionDetector) (params : gmap string float64) (recent : time)
    (falseCount : Z) (first : time) : ExpressionDetector :=
  mkExpression (ex_metrics e) (ex_exp e) params recent (ex_warningCount e) falseCount
    (ex_warningDuration e) first (ex_renew e).

Definition expression_detect (e : ExpressionDetector) : ExpressionDetector :=
  match Evaluate (ex_exp e) (ex_params e) with
  | Err _ => e
  | Ok None => e
  | Ok (Some true) =>
      ex_set e (ex_params e) (ex_recentAddTime e)
        (if 0 <? ex_warningCount e then ex_falseCount e + 1 else ex_falseCount e)
        (if negb (ex_warningDuration e =? 0) && (ex_firstContinueWarning e =? nilTime)
         then ex_recentAddTime e else ex_firstContinueWarning e)
  | Ok (Some false) => ex_set e (ex_params e) (ex_recentAddTime e) 0 nilTime
  end.

Definition expression_add (e : ExpressionDetector) (d : TimedData) : ExpressionDetector :=
  if negb (time_After (Ts d) (ex_recentAddTime e)) then e
  else expression_detect (ex_set e (Vals d ∪ ex_params e) (Ts d) (ex_falseCount e) (ex_firstContinueWarning e)).

Definition expression_AddAll (e : ExpressionDetector) (vals : list TimedData) : ExpressionDetector :=
  fold_left expression_add vals (ex_set e (ex_params e) nilTime 0 nilTime).

(** The answer and the detector after it; the reason is a log text. *)
Definition expression_IsAnomaly (e : ExpressionDetector) : bool * ExpressionDetector :=
  let lasting := ex_warningDuration e <=? time_Sub (ex_recentAddTime e) (ex_firstContinueWarning e) in
  let ret :=
    if (0 <? ex_warningCount e) && negb (ex_firstContinueWarning e =? nilTime) then
      (ex_warningCount e <=? ex_falseCount e) || lasting
    else if 0 <? ex_warningCount e then ex_warningCount e <=? ex_falseCount e
    else if negb (ex_firstContinueWarning e =? nilTime) then lasting
    else false in
  (ret, if ex_renew e then ex_set e (ex_params e) (ex_recentAddTime e) 0 nilTime else e).

(** *** The interface and the union *)

Inductive Detector :=
| DEwma (e : EwmaDetector)
| DExpression (e : ExpressionDetector)
| DUnion (metrics : list string) (detectors : list Detector).

Fixpoint Detector_Add (d : Detector) (x : TimedData) : outcome Detector :=
  match d with
  | DEwma e => e' ← ewma_add e x; Ret (DEwma e')
  | DExpression e => Ret (DExpression (expression_add e x))
  | DUnion ms ds =>
      ds' ← (fix go ds := match ds with
                          | [] => Ret []
                          | d :: ds => d' ← Detector_Add d x; ds' ← go ds; Ret (d' :: ds')
                          end) ds;
      Ret (DUnion ms ds')
  end.

Fixpoint Detector_AddAll (d : Detector) (xs : list TimedData) : outcome Detector :=
  match d with
  | DEwma e => e' ← ewma_AddAll e xs; Ret (DEwma e')
  | DExpression e => Ret (DExpression (expression_AddAll e xs))
  | DUnion ms ds =>
      ds' ← (fix go ds := match ds with
                          | [] => Ret []
                          | d :: ds => d' ← Detector_AddAll d xs; ds' ← go ds; Ret (d' :: ds')
                          end) ds;
      Ret (DUnion ms ds')
  end.

(** The union asks its detectors in order and stops at the first that errs or
    is not anomalous. *)
Fixpoint Detector_IsAnomaly (d : Detector) : outcome (result bool * Detector) :=
  match d with
  | DEwma e => r ← ewma_IsAnomaly e; Ret (r, d)
  | DExpression e => let '(b, e') := expression_IsAnomaly e in Ret (Ok b, DExpression e')
  | DUnion ms ds =>
      '(r, ds') ← (fix go ds := match ds with
                    | [] => Ret (Ok true, [])
                    | d :: ds =>
                        '(r, d') ← Detector_IsAnomaly d;
                        match r with
                        | Err e => Ret (Err e, d' :: ds)
                        | Ok false => Ret (Ok false, d' :: ds)
                        | Ok true => '(r', ds') ← go ds; Ret (r', d' :: ds')
                        end
                    end) ds;
      Ret (r, DUnion ms ds')
  end.

Definition Detector_Metrics (d : Detector) : list string :=
  match d with
  | DEwma e => [ew_metric e]
  | DExpression e => ex_metrics e
  | DUnion ms _ => ms
  end.

Definition NewUnionDetector (ds : list Detector) : Detector :=
  DUnion (set_of_list (concat (map Detector_Metrics ds))) ds.

Fixpoint Detector_SampleCount (d : Detector) : Z :=
  match d with
  | DEwma e => Z.of_nat (ew_n e)
  | DExpression e => ex_warningCount e
  | DUnion _ ds => fold_left (fun n d => let nn := Detector_SampleCount d in if n <? nn then nn else n) ds 0
  end.

Fixpoint Detector_SampleDuration (d : Detector) : duration :=
  match d with
  | DEwma _ => 0
  | DExpression e => ex_warningDuration e
  | DUnion _ ds => fold_left (fun n d => let nn := Detector_SampleDuration d in if n <? nn then nn else n) ds 0
  end.
End Detectors.

(** ** What the expression detector detects *)

Section ExpressionSpec.
Context {E : Type} (Evaluate : E -> gmap string float64 -> result (option bool)).

(** The samples a detector takes into account (those later than every sample
    before), each with the verdict of the expression: [None] when it does not
    evaluate to a boolean. *)
Definition verdict (r : result (option bool)) : option bool :=
  match r with Ok o => o | Err _ => None end.

Fixpoint observe (exp : E) (last : time) (params : gmap string float64) (vals : list TimedData) :
    list (time * option bool) :=
  match vals with
  | [] => []
  | d :: vals' =>
      if last <? Ts d then
        let p := Vals d ∪ params in
        (Ts d, verdict (Evaluate exp p)) :: observe exp (Ts d) p vals'
      else observe exp last params vals'
  end.

Definition no_false (l : list (time * option bool)) : Prop := Forall (fun o => o.2 <> Some false) l.
Definition count_true (l : list (time * option bool)) : Z :=
  Z.of_nat (length (filter (fun o => o.2 = Some true) l)).

Definition last_time (l : list (time * option bool)) : time := from_option fst nilTime (last l).

(** The expression held in at least [w] samples since it last failed. *)
Definition held_count (w : Z) (l : list (time * option bool)) : Prop :=
  exists l1 l2, l = l1 ++ l2 /\ no_false l2 /\ w <= count_true l2.

(** The expression has not failed since it held at a sample [D] before the last. *)
Definition held_duration (D : duration) (l : list (time * option bool)) : Prop :=
  exists l1 t l2, l = l1 ++ (t, Some true) :: l2 /\ no_false l2 /\ D <= time_Sub (last_time l) t.

(** The length and the first time of the current run. *)
Definition run_step (st : Z * option time) (o : time * option bool) : Z * option time :=
  match o.2 with
  | None => st
  | Some true => (st.1 + 1, Some (default o.1 st.2))
  | Some false => (0, None)
  end.
Definition run (l : list (time * option bool)) : Z * option time := fold_left run_step l (0, None).

Lemma run_snoc l o : run (l ++ [o]) = run_step (run l) o.
Proof. unfold run. by rewrite fold_left_app. Qed.

Lemma count_true_snoc l o : count_true (l ++ [o]) = count_true l + (if decide (o.2 = Some true) then 1 else 0).
Proof.
  unfold count_true. rewrite filter_app, length_app. simpl. unfold filter at 2. simpl.
  case_decide; simpl; lia.
Qed.

(** The samples since the last failure. *)
Definition current (l : list (time * option bool)) : list (time * option bool) :=
  fold_left (fun acc o => if decide (o.2 = Some false) then [] else acc ++ [o]) l [].

Lemma current_snoc l o :
  current (l ++ [o]) = if decide (o.2 = Some false) then [] else current l ++ [o].
Proof. unfold current. by rewrite fold_left_app. Qed.

(** It is a suffix without failure, and every such suffix is a suffix of it. *)
Lemma current_spec l :
  (exists l1, l = l1 ++ current l) /\ no_false (current l) /\
  forall l1 l2, l = l1 ++ l2 -> no_false l2 -> exists m, current l = m ++ l2.
Proof.
  induction l as [|o l ([l0 E0] & Hn & Hmax)] using rev_ind.
  { split_and!; [by exists []|constructor|]. intros l1 l2 E1 _. symmetry in E1.
    apply app_nil in E1 as [-> ->]. by exists []. }
  rewrite current_snoc. destruct (decide (o.2 = Some false)) as [Ho|Ho].
  - split_and!; [by exists (l ++ [o]); rewrite app_nil_r|constructor|].
    intros l1 l2 E1 Hn2. destruct l2 as [|x l2 _] using rev_ind; [by exists []|].
    rewrite app_assoc in E1. apply app_inj_tail in E1 as [_ ->].
    apply Forall_app in Hn2 as [_ Hn2]. inversion Hn2. done.
  - split_and!.
    + exists l0. by rewrite app_assoc, <- E0.
    + apply Forall_app. split; [done|by repeat constructor].
    + intros l1 l2 E1 Hn2. destruct l2 as [|x l2 _] using rev_ind.
      { exists (current l ++ [o]). by rewrite app_nil_r. }
      rewrite app_assoc in E1. apply app_inj_tail in E1 as [E1 ->].
      apply Forall_app in Hn2 as [Hn2 _]. destruct (Hmax l1 l2 E1 Hn2) as [m ->].
      exists m. by rewrite app_assoc.
Qed.

Definition is_true_obs (o : time * option bool) : Prop := o.2 = Some true.
#[local] Instance is_true_obs_dec o : Decision (is_true_obs o).
Proof. unfold is_true_obs. apply _. Defined.

(** The first sample of a list in which the expression holds. *)
Definition first_true (l : list (time * option bool)) : option time := fst <$> head (filter is_true_obs l).

Lemma run_current l : run l = (count_true (current l), first_true (current l)).
Proof.
  induction l as [|[t v] l IH] using rev_ind; [done|].
  rewrite run_snoc, IH, current_snoc. unfold run_step. simpl.
  case_decide as Hv; [by subst v|]. rewrite count_true_snoc. unfold first_true. rewrite filter_app.
  destruct v as [[]|]; simpl; [|done|].
  - change (filter is_true_obs [(t, Some true)]) with [(t, Some true)].
    by destruct (filter is_true_obs (current l)).
  - change (filter is_true_obs [(t, None)]) with (@nil (time * option bool)).
    by rewrite app_nil_r, Z.add_0_r.
Qed.

Lemma count_true_app l1 l2 : count_true (l1 ++ l2) = count_true l1 + count_true l2.
Proof. unfold count_true. rewrite filter_app, length_app. lia. Qed.

Lemma held_count_run w l : held_count w l <-> w <= (run l).1.
Proof.
  rewrite run_current. simpl. destruct (current_spec l) as ([l0 E0] & Hn & Hmax). split.
  - intros (l1 & l2 & E1 & Hn2 & Hw). destruct (Hmax _ _ E1 Hn2) as [m ->].
    rewrite count_true_app. unfold count_true at 1. lia.
  - intros Hw. exists l0, (current l). done.
Qed.

(** The samples are in increasing order of time. *)
Definition increasing (l : list (time * option bool)) : Prop :=
  forall l1 x l2 y l3, l = l1 ++ x :: l2 ++ y :: l3 -> x.1 <= y.1.

Lemma first_true_split l t :
  first_true l = Some t -> exists l1 l2, l = l1 ++ (t, Some true) :: l2.
Proof.
  unfold first_true. destruct (filter is_true_obs l) as [|[t' v] f] eqn:E0; [done|]. intros [= ->].
  assert (Hin : (t, v) ∈ filter is_true_obs l) by (rewrite E0; left).
  apply list_elem_of_filter in Hin as [Hv Hin]. unfold is_true_obs in Hv. simpl in Hv. subst v.
  by apply list_elem_of_split.
Qed.

(** The first sample that holds is no later than any other. *)
Lemma first_true_le l m1 t m2 :
  increasing l -> l = m1 ++ (t, Some true) :: m2 -> exists t0, first_true l = Some t0 /\ t0 <= t.
Proof.
  intros Hinc E0. unfold first_true. destruct (filter is_true_obs m1) as [|[t0 v0] f] eqn:Ef.
  - exists t. split; [|lia]. rewrite E0, filter_app, Ef. by rewrite filter_cons_True.
  - exists t0. rewrite E0, filter_app, Ef. split; [done|].
    assert (Hin : (t0, v0) ∈ m1).
    { assert (Hin : (t0, v0) ∈ filter is_true_obs m1) by (rewrite Ef; left).
      by apply list_elem_of_filter in Hin as [_ ?]. }
    apply list_elem_of_split in Hin as (k1 & k2 & ->).
    apply (Hinc k1 (t0, v0) k2 (t, Some true) m2). rewrite E0, <- app_assoc. done.
Qed.

Lemma increasing_suffix l1 l2 : increasing (l1 ++ l2) -> increasing l2.
Proof. intros Hinc k1 x k2 y k3 ->. apply (Hinc (l1 ++ k1) x k2 y k3). by rewrite <- app_assoc. Qed.

Lemma time_Sub_mono t u v : u <= v -> time_Sub t v <= time_Sub t u.
Proof. unfold time_Sub. lia. Qed.

Lemma held_duration_run D l :
  increasing l ->
  held_duration D l <-> exists t0, (run l).2 = Some t0 /\ D <= time_Sub (last_time l) t0.
Proof.
  intros Hinc. rewrite run_current. simpl. destruct (current_spec l) as ([l0 E0] & Hn & Hmax).
  assert (Hinc' : increasing (current l)) by (apply (increasing_suffix l0); by rewrite <- E0). split.
  - intros (l1 & t & l2 & E1 & Hn2 & HD).
    destruct (Hmax l1 ((t, Some true) :: l2) E1 ltac:(by constructor)) as [m Em].
    destruct (first_true_le _ _ _ _ Hinc' Em) as (t0 & -> & Hle). exists t0. split; [done|].
    pose proof (time_Sub_mono (last_time l) t0 t Hle). lia.
  - intros (t0 & Hf & HD). destruct (first_true_split _ _ Hf) as (m1 & m2 & Em).
    exists (l0 ++ m1), t0, m2. split_and!; [|rewrite Em in Hn; apply Forall_app in Hn as [_ Hn]; by inversion Hn|done].
    by rewrite <- app_assoc, <- Em.
Qed.

Lemma observe_times exp last params vals o : o ∈ observe exp last params vals -> last < o.1.
Proof.
  revert last params. induction vals as [|d vals IH]; intros last params; simpl; [by intros ?%elem_of_nil|].
  destruct (Z.ltb_spec last (Ts d)); [|apply IH].
  intros [->|Ho]%elem_of_cons; [done|]. apply IH in Ho. lia.
Qed.

Lemma observe_increasing exp last params vals : increasing (observe exp last params vals).
Proof.
  revert last params. induction vals as [|d vals IH]; intros last params; simpl.
  { intros [|? l1] x l2 y l3; done. }
  destruct (Z.ltb_spec last (Ts d)); [|apply IH].
  intros [|x1 l1] x l2 y l3; simpl; intros [= <- E0].
  - assert (Hy : y ∈ observe exp (Ts d) (Vals d ∪ params) vals)
      by (rewrite E0; apply elem_of_app; right; left).
    apply observe_times in Hy. simpl. lia.
  - by eapply IH.
Qed.

(** The state of a detector whose current run is [st]. *)
Record ex_inv (e : ExpressionDetector (E := E)) (st : Z * option time) : Prop := {
  inv_count : ex_falseCount e = if 0 <? ex_warningCount e then st.1 else 0;
  inv_first : ex_firstContinueWarning e = if ex_warningDuration e =? 0 then nilTime else default nilTime st.2;
  inv_time : forall t, st.2 = Some t -> nilTime < t;
  inv_recent : nilTime <= ex_recentAddTime e;
}.

Lemma expression_add_inv e d st :
  ex_inv e st -> ex_recentAddTime e < Ts d ->
  let e' := expression_add Evaluate e d in
  ex_inv e' (run_step st (Ts d, verdict (Evaluate (ex_exp e) (Vals d ∪ ex_params e)))) /\
  ex_recentAddTime e' = Ts d /\ ex_params e' = Vals d ∪ ex_params e /\ ex_exp e' = ex_exp e.
Proof.
  intros [Hc Hf Ht Hr] Hlt. unfold expression_add, time_After.
  destruct (Z.ltb_spec (ex_recentAddTime e) (Ts d)); [|lia]. simpl.
  unfold expression_detect. cbn [ex_set ex_exp ex_params].
  destruct (Evaluate (ex_exp e) (Vals d ∪ ex_params e)) as [[[]|]|err]; simpl;
    (split_and!; [|done..]); split; simpl; try done; try lia.
  - rewrite Hc. by destruct (0 <? _).
  - rewrite Hf. unfold nilTime in *. destruct (Z.eqb_spec (ex_warningDuration e) 0); simpl; [done|].
    destruct st.2 as [t|] eqn:Es; simpl; [|done].
    pose proof (Ht t eq_refl). destruct (Z.eqb_spec t 0); [lia|done].
  - intros t [= <-]. destruct st.2 as [t0|] eqn:Es; simpl; [by apply Ht|lia].
  - by destruct (0 <? _).
  - by destruct (_ =? 0).
Qed.

Lemma expression_add_static e d :
  let e' := expression_add Evaluate e d in
  ex_warningCount e' = ex_warningCount e /\ ex_warningDuration e' = ex_warningDuration e.
Proof.
  unfold expression_add. destruct (negb _); [done|]. unfold expression_detect.
  destruct (Evaluate _ _) as [[[]|]|err]; done.
Qed.

Lemma expression_adds_inv vals e st :
  ex_inv e st ->
  let obs := observe (ex_exp e) (ex_recentAddTime e) (ex_params e) vals in
  let e' := fold_left (expression_add Evaluate) vals e in
  ex_inv e' (fold_left run_step obs st) /\
  ex_recentAddTime e' = from_option fst (ex_recentAddTime e) (last obs) /\
  ex_warningCount e' = ex_warningCount e /\ ex_warningDuration e' = ex_warningDuration e.
Proof.
  revert e st. induction vals as [|d vals IH]; intros e st Hinv; [done|].
  cbn [fold_left observe]. destruct (expression_add_static e d) as [Hw HD].
  destruct (Z.ltb_spec (ex_recentAddTime e) (Ts d)) as [Hlt|Hge].
  - destruct (expression_add_inv e d st Hinv Hlt) as (Hi & Hr & Hp & Hx).
    destruct (IH _ _ Hi) as (H1 & H2 & H3 & H4). rewrite Hr, Hp, Hx in *. split_and!; [done| |congruence..].
    rewrite H2, last_cons. by destruct (last _).
  - assert (E0 : expression_add Evaluate e d = e).
    { unfold expression_add, time_After. destruct (Z.ltb_spec (ex_recentAddTime e) (Ts d)); [lia|done]. }
    rewrite E0. by apply IH.
Qed.
End ExpressionSpec.

(** ** Properties *)

(** C38: The ring buffer of capacity [n] keeps the last [n] values: after adding
    the values [h] to a new ring no access is out of range, the window from the
    oldest to the latest value is the last [n] of [n] zeros followed by [h], the
    ring is ready exactly when [n] values have been added, and [Peek] returns
    the latest one. *)
Theorem ring_keeps_last_values (n : nat) (h : list float64) :
  (0 < n)%nat ->
  exists r, Ring_AddList (NewRing n) h = Ret r /\
    Ring_window r = drop (length h) (replicate n fzero ++ h) /\
    Ring_Values r ≡ₚ drop (length h) (replicate n fzero ++ h) /\
    ready r = (n <=? length h)%nat /\
    (forall h' v, h = h' ++ [v] -> Ring_Peek r = Ret v).
Proof.
  intros Hn. destruct (Ring_AddList_rep n [] h _ (ring_rep_new n Hn)) as (r & E0 & Hr).
  exists r. split; [done|]. simpl in Hr. destruct Hr as [Hl Hc Ht Hrd Hf Hw] eqn:Eh.
  split_and!; [done| |done|].
  - rewrite <- Hw. unfold Ring_Values, Ring_window. rewrite Permutation_app_comm.
    by rewrite take_drop.
  - intros h' v ->. by eapply Ring_Peek_rep.
Qed.

Lemma ring_keeps_last_values_witness :
  exists r, Ring_AddList (NewRing 2) [fone; fzero; fone] = Ret r /\
    Ring_window r = [fzero; fone] /\ Ring_Peek r = Ret fone.
Proof.
  destruct (ring_keeps_last_values 2 [fone; fzero; fone] ltac:(lia)) as (r & H1 & H2 & _ & _ & H5).
  exists r. split_and!; [exact H1|rewrite H2; reflexivity|]. apply (H5 [fone; fzero] fone). reflexivity.
Defined.

(** C15: After [AddAll] the expression detector reports an anomaly exactly when,
    over the samples in increasing order of time, the expression held in at
    least [warningCount] samples since it last failed (with a positive
    [warningCount]), or has not failed since it held [warningDuration] before
    the last sample (with a non-zero [warningDuration]); samples on which the
    expression does not evaluate to a boolean neither count nor reset. *)
Theorem expression_anomaly_spec {E : Type} (Evaluate : E -> gmap string float64 -> result (option bool))
    (e : ExpressionDetector (E := E)) (vals : list TimedData) :
  let obs := observe Evaluate (ex_exp e) nilTime (ex_params e) vals in
  fst (expression_IsAnomaly (expression_AddAll Evaluate e vals)) = true <->
  (0 < ex_warningCount e /\ held_count (ex_warningCount e) obs) \/
  (ex_warningDuration e <> 0 /\ held_duration (ex_warningDuration e) obs).
Proof.
  intros obs. rewrite held_count_run, held_duration_run by apply observe_increasing.
  set (e0 := ex_set e (ex_params e) nilTime 0 nilTime).
  assert (Hi0 : ex_inv e0 (0, None)) by (split; simpl; [by destruct (0 <? _)|by destruct (_ =? 0)|done|done]).
  destruct (expression_adds_inv Evaluate vals e0 _ Hi0) as ([Hc Hf Ht _] & Hr & Hw & HD).
  unfold expression_AddAll. fold e0. cbn [ex_set e0 ex_exp ex_params ex_recentAddTime] in *.
  fold obs in Hc, Hf, Ht, Hr. fold (run obs) in *. fold (last_time obs) in Hr.
  unfold expression_IsAnomaly. simpl. rewrite Hr, Hw, HD in *. simpl in Hc, Hf. rewrite Hc, Hf.
  cbn [ex_warningCount ex_warningDuration e0 ex_set].
  destruct (Z.eqb_spec (ex_warningDuration e) 0) as [ED|ED].
  - rewrite Z.eqb_refl. destruct (Z.ltb_spec 0 (ex_warningCount e)); simpl; [|split; [done|lia || tauto]].
    rewrite Z.leb_le. tauto.
  - destruct (run obs) as [n [t0|]] eqn:Er; simpl in *.
    + pose proof (Ht t0 eq_refl) as Hpos. unfold nilTime in *.
      destruct (Z.eqb_spec t0 0); [lia|]. simpl.
      destruct (Z.ltb_spec 0 (ex_warningCount e)); simpl; rewrite ?orb_true_iff, !Z.leb_le;
        split; intros H0; repeat destruct H0 as [H0|H0]; try tauto; try lia.
      * right. eauto.
      * destruct H0 as (_ & t1 & [= <-] & ?). auto.
      * right. eauto.
      * destruct H0 as (_ & t1 & [= <-] & ?). auto.
    + destruct (Z.ltb_spec 0 (ex_warningCount e)); simpl; rewrite ?Z.leb_le;
        split; intros H0; try done; try tauto;
        destruct H0 as [[? ?]|(_ & t1 & ? & _)]; done || lia.
Qed.

Definition sample_expr : ExpressionDetector (E := unit) :=
  NewExpressionDetector ["load"] tt (Some (2, 0)).

(** ** EWMA samples *)

Section EwmaSpec.
Context {MA : Type} (NewMovingAverage : float64 -> MA) (MA_Add : MA -> float64 -> MA)
  (MA_Value : MA -> float64).
#[local] Abbreviation add := (ewma_add MA_Add).
#[local] Abbreviation addList := (ewma_addList MA_Add).

(** The values of the samples later than every sample before. *)
Fixpoint accepted (metric : string) (last : time) (vals : list TimedData) : list float64 :=
  match vals with
  | [] => []
  | d :: vals' =>
      if last <? Ts d then default fzero (Vals d !! metric) :: accepted metric (Ts d) vals'
      else accepted metric last vals'
  end.

Lemma ewma_addList_spec vals e h :
  ring_rep (ew_n e) h (ew_data e) -> ew_addCount e = Nat.min MinData (length h) ->
  let h' := h ++ accepted (ew_metric e) (ew_recentAddTime e) vals in
  exists e', addList e vals = Ret e' /\
    ring_rep (ew_n e) h' (ew_data e') /\ ew_addCount e' = Nat.min MinData (length h') /\
    ew_ma e' = fold_left MA_Add (accepted (ew_metric e) (ew_recentAddTime e) vals) (ew_ma e) /\
    ew_n e' = ew_n e.
Proof.
  revert e h. induction vals as [|d vals IH]; intros e h Hrep Hcount; simpl.
  { exists e. by rewrite app_nil_r. }
  unfold ewma_add, time_After. destruct (Z.ltb_spec (ew_recentAddTime e) (Ts d)) as [Hlt|Hge]; simpl.
  - destruct (Ring_Add_rep _ _ _ (default fzero (Vals d !! ew_metric e)) Hrep) as (r & -> & Hr). simpl.
    destruct (IH (mkEwma r (ew_n e) (MA_Add (ew_ma e) (default fzero (Vals d !! ew_metric e))) (Ts d)
                    (if (ew_addCount e <? MinData)%nat then S (ew_addCount e) else ew_addCount e) (ew_metric e))
                 (h ++ [default fzero (Vals d !! ew_metric e)])) as (e' & E1 & E2 & E3 & E4 & E5); [done| |].
    + cbn [ew_addCount]. rewrite Hcount, length_app. cbn [length].
      destruct (Nat.ltb_spec (Nat.min MinData (length h)) MinData); lia.
    + exists e'. simpl in *. rewrite <- app_assoc in E2, E3. done.
  - destruct (IH e h Hrep Hcount) as (e' & E1 & E2 & E3). exists e'. done.
Qed.
(** A detector whose ring buffer is in order. *)
Definition ewma_ok (e : EwmaDetector (MA := MA)) : Prop :=
  (0 < ew_n e)%nat /\ exists h, ring_rep (ew_n e) h (ew_data e) /\ ew_addCount e = Nat.min MinData (length h).

Lemma ewma_ok_new metric n : (0 < n)%nat -> ewma_ok (NewEwmaDetector NewMovingAverage metric n).
Proof. intros Hn. split; [done|]. exists []. split; [by apply ring_rep_new|done]. Qed.

Lemma ewma_add_ok e d : ewma_ok e -> exists e', add e d = Ret e' /\ ewma_ok e' /\ ew_metric e' = ew_metric e.
Proof.
  intros (Hn & h & Hrep & Hcount).
  destruct (ewma_addList_spec [d] e h Hrep Hcount) as (e' & E1 & Hrep' & Hcount' & _ & Hn').
  cbn [ewma_addList] in E1. unfold mbind, outcome_bind in E1. destruct (add e d) as [e1|] eqn:E2; [|done].
  injection E1 as ->. exists e'. split; [done|]. split; [split; [congruence|]; rewrite Hn'; eauto|].
  unfold ewma_add, mbind, outcome_bind in E2. repeat case_match; by simplify_eq.
Qed.

Lemma ewma_IsAnomaly_total e : ewma_ok e -> exists r, ewma_IsAnomaly MA_Value e = Ret r.
Proof.
  intros (Hn & h & Hrep & Hcount). unfold ewma_IsAnomaly.
  destruct (Nat.ltb_spec (ew_addCount e) MinData) as [|Hge]; [by eexists|].
  destruct h as [|x l _] using rev_ind; [simpl in Hcount; unfold MinData in *; lia|].
  unfold mbind, outcome_bind. rewrite (Ring_Peek_rep (ew_n e) l x) by done. by eexists.
Qed.
End EwmaSpec.

(** The EWMA detector of [n > 0] samples never panics on [AddAll]; its ring
    and its average then hold exactly the samples in increasing order of time,
    and [IsAnomaly] gives an answer exactly when there are at least 11 of them:
    whether the latest value is more than three standard deviations away from
    the average. *)
Theorem ewma_anomaly_spec {MA : Type} (NewMovingAverage : float64 -> MA) (MA_Add : MA -> float64 -> MA)
    (MA_Value : MA -> float64) (e : EwmaDetector (MA := MA)) (vals : list TimedData) :
  (0 < ew_n e)%nat ->
  let h := accepted (ew_metric e) nilTime vals in
  exists e', ewma_AddAll NewMovingAverage MA_Add e vals = Ret e' /\
    Ring_window (ew_data e') = drop (length h) (replicate (ew_n e) fzero ++ h) /\
    ew_ma e' = fold_left MA_Add h (NewMovingAverage (float64_of_Z (Z.of_nat (ew_n e)))) /\
    ((length h < MinData)%nat -> ewma_IsAnomaly MA_Value e' = Ret (Err "too few samples")) /\
    (forall h' v, (MinData <= length h)%nat -> h = h' ++ [v] ->
       ewma_IsAnomaly MA_Value e' =
       Ret (Ok (fgt (fabs (fsub v (MA_Value (ew_ma e')))) (fmul (float64_of_Z 3) (ewma_StdDev MA_Value e'))))).
Proof.
  intros Hn h. unfold ewma_AddAll.
  destruct (ewma_addList_spec MA_Add vals (NewEwmaDetector NewMovingAverage (ew_metric e) (ew_n e)) []
              (ring_rep_new _ Hn) eq_refl) as (e' & E1 & E2 & E3 & E4 & _).
  cbn [NewEwmaDetector ew_metric ew_recentAddTime ew_ma ew_n app] in *. fold h in E2, E3, E4. exists e'. split_and!; [done|by destruct E2|done| |].
  - intros Hl. unfold ewma_IsAnomaly. rewrite E3. destruct (Nat.ltb_spec (Nat.min MinData (length h)) MinData); [done|].
    lia.
  - intros h' v Hl Eh. unfold ewma_IsAnomaly. rewrite E3.
    destruct (Nat.ltb_spec (Nat.min MinData (length h)) MinData); [lia|].
    rewrite Eh in E2. by rewrite (Ring_Peek_rep _ _ _ _ E2).
Qed.

Lemma ewma_anomaly_spec_witness :
  exists e', ewma_AddAll (fun _ => fzero) (fun _ v => v)
      (NewEwmaDetector (MA := float64) (fun _ => fzero) "load" 2) [mkTimedData 5 {["load" := fone]}] = Ret e' /\
    ewma_IsAnomaly (fun m => m) e' = Ret (Err "too few samples").
Proof.
  destruct (ewma_anomaly_spec (fun _ => fzero) (fun _ v => v) (fun m => m)
     (NewEwmaDetector (MA := float64) (fun _ => fzero) "load" 2) [mkTimedData 5 {["load" := fone]}] ltac:(simpl; lia))
     as (e' & E1 & _ & _ & E4 & _).
  exists e'. split; [exact E1|]. apply E4. vm_compute. lia.
Defined.

Definition says_anomaly (r : result bool) : bool := match r with Ok b => b | Err _ => false end.

(** A union detector is anomalous exactly when each of its detectors, asked
    in order, is; the first one that errs or is not anomalous decides. *)
Theorem union_anomaly_spec {E MA : Type} (MA_Value : MA -> float64) (ms : list string)
    (ds : list (Detector (E := E) (MA := MA))) (answers : list (result bool * Detector)) :
  Forall2 (fun d a => Detector_IsAnomaly MA_Value d = Ret a) ds answers ->
  exists d', Detector_IsAnomaly MA_Value (DUnion ms ds) =
    Ret (match List.find (fun a => negb (says_anomaly a.1)) answers with
         | None => Ok true
         | Some a => a.1
         end, d').
Proof.
  intros HF. simpl.
  match goal with |- context [?g ds ≫= _] => set (go := g) end.
  assert (Hgo : exists ds', go ds = Ret (match List.find (fun a => negb (says_anomaly a.1)) answers with
                                       | None => Ok true | Some a => a.1 end, ds')).
  { induction HF as [|d [r d'] ds answers Hd HF [ds' IH]]; simpl; [eauto|].
    fold go. rewrite Hd. simpl. destruct r as [[]|err].
    - rewrite IH. simpl. eauto.
    - simpl. eauto.
    - simpl. eauto. }
  destruct Hgo as [ds' ->]. simpl. eauto.
Qed.

Lemma union_anomaly_spec_witness :
  exists d', Detector_IsAnomaly (MA := unit) (fun _ => fzero)
     (DUnion [] [DExpression (expression_AddAll (fun _ _ => Ok (Some true)) sample_expr [mkTimedData 5 ∅])]) =
     Ret (Ok false, d').
Proof.
  apply (union_anomaly_spec (MA := unit) (fun _ => fzero) []
           [DExpression (expression_AddAll (fun _ _ => Ok (Some true)) sample_expr [mkTimedData 5 ∅])]
           [(Ok false, DExpression (expression_AddAll (fun _ _ => Ok (Some true)) sample_expr [mkTimedData 5 ∅]))]).
  repeat constructor.
Defined.
