(* ===== verification/RuleCheck.v ===== *)
(** * Rule checkers

    pkg/caelus/healthcheck/rulecheck (common.go, rule_check.go,
    rule_check_node.go, rule_check_app.go) and
    pkg/caelus/healthcheck/dispatcher: a rule checker runs its detectors on the
    metrics of the node or of the online jobs, and its actions with the verdict;
    [checkRule] limits how often an anomaly is handled and when it is recovered.
    The results of the checkers are merged (Action.v) and dispatched to the
    conflict manager (Conflict.v), the resource manager and the QoS manager.

    The statestore is an argument of the operations that read it.  A call of the
    clock is an argument [now].  Alarms are the texts of the log actions. *)

From Stdlib Require Import Ascii.
From S2P Require Import Prelude GoStrings GoFloat Quantity Action Conflict Detection.

#[local] Open Scope string_scope.
#[local] Open Scope Z_scope.
#[local] Open Scope list_scope.

(** ** Rules *)

Inductive RuleAction (Q : Type) :=
| AAdjust (a : AdjustResourceAction Q)
| ASchedule (name : string)
| AEvict
| ALog.
Arguments AAdjust {Q} _.
Arguments ASchedule {Q} _.
Arguments AEvict {Q}.
Arguments ALog {Q}.

Section Rules.
Context {RO : RangeOrder} {Q : Type} `{QO : QuantityOps Q}.
Context {E : Type} (Evaluate : E -> gmap string float64 -> result (option bool)).
Context (NewEvaluableExpression : string -> result E).
Context {MA : Type} (NewMovingAverage : float64 -> MA) (MA_Add : MA -> float64 -> MA)
  (MA_Value : MA -> float64).

#[local] Abbreviation detector := (Detector (E := E) (MA := MA)).

(** [DoAction] of the interface [action.Action]: the result (none for the evict
    and the log action), the action after it and the alarms it sends. *)
Definition DoAction (ac : RuleAction Q) (conflicting : bool) (data : string) :
    outcome (option (ActionResult Q) * RuleAction Q * list string) :=
  match ac with
  | AAdjust a => '(r, a') ← adjust_DoAction a conflicting data; Ret (Some r, AAdjust a', [])
  | ASchedule name => Ret (Some (schedule_DoAction name conflicting data), ac, [])
  | AEvict => Ret (evict_DoAction conflicting "", ac, [])
  | ALog => let '(r, alarms) := log_DoAction conflicting data in Ret (r, ac, alarms)
  end.

Record ruleEntry := mkRuleEntry {
  detects : list detector;
  actions : list (RuleAction Q);
}.

Record ruleCheckEntry := mkRuleCheckEntry {
  rc_name : string;
  rules : list ruleEntry;
  recoverRules : list ruleEntry;
  samples : Z;
  rc_duration : duration;
  checkInterval : duration;
  handleInterval : duration;
  recoverInterval : duration;
  lastCheck : time;
  lastHandle : option time;
  lastRecover : option time;
  lastAbnormal : option time;
}.

(** *** Building the rules from the configuration *)

Record DetectConfig := mkDetectConfig {
  dc_name : string;
  dc_expression : string;
  dc_warningCount : Z;
  dc_warningDuration : duration;
  dc_nr : Z;
  dc_metric : string;
}.

Record ActionConfig := mkActionConfig {
  ac_name : string;
  ac_args : option adjustActionArgs;
}.

Record DetectActionConfig := mkDetectActionConfig {
  da_detects : list DetectConfig;
  da_actions : list ActionConfig;
}.

(** The detector a factory makes, its sample count and its duration.  The
    metric of an EWMA detector defaults to [ruleMetrics[0]]. *)
Definition generateDetectorFactory (ruleMetrics : list string) (d : DetectConfig) :
    outcome (result (detector * Z * duration)) :=
  if (dc_name d =? "")%string then Ret (Err "find nil detect name")
  else if (dc_name d =? "expression")%string then
    match NewEvaluableExpression (dc_expression d) with
    | Err e => Ret (Err e)
    | Ok exp =>
        Ret (Ok (DExpression (NewExpressionDetector ruleMetrics exp
                                (Some (dc_warningCount d, dc_warningDuration d))),
                 dc_warningCount d, dc_warningDuration d))
    end
  else if (dc_name d =? "ewma")%string then
    let nr := if dc_nr d <? Z.of_nat MinData then Z.of_nat MinData else dc_nr d in
    if (dc_metric d =? "")%string then
      match ruleMetrics with
      | m :: _ => Ret (Ok (DEwma (NewEwmaDetector NewMovingAverage m (Z.to_nat nr)), nr, 0))
      | [] => Crash (Panic "index out of range")
      end
    else Ret (Ok (DEwma (NewEwmaDetector NewMovingAverage (dc_metric d) (Z.to_nat nr)), nr, 0))
  else Ret (Err "unknown detect").

Definition generateAction (actor : ActionConfig) (ruleName : string) : outcome (result (RuleAction Q)) :=
  if (ac_name actor =? "")%string || (ac_name actor =? "log")%string then Ret (Ok ALog)
  else if (ac_name actor =? "schedule")%string then Ret (Ok (ASchedule ruleName))
  else if (ac_name actor =? "adjust")%string then
    a ← NewAdjustResourceAction ruleName (ac_args actor); Ret (Ok (AAdjust a))
  else if (ac_name actor =? "evict")%string then Ret (Ok AEvict)
  else Ret (Err "invalid action name").

Definition fatal {A} (r : result A) : outcome A :=
  match r with Ok a => Ret a | Err e => Crash (Fatal e) end.

Fixpoint parseDetects (ruleMetrics : list string) (ds : list DetectConfig)
    (acc : list detector * Z * duration) : outcome (list detector * Z * duration) :=
  match ds with
  | [] => Ret acc
  | d :: ds' =>
      let '(factories, samples, dur) := acc in
      r ← generateDetectorFactory ruleMetrics d;
      '(factory, curSamples, curDuration) ← fatal r;
      parseDetects ruleMetrics ds'
        (factories ++ [factory], if samples <? curSamples then curSamples else samples,
         if dur <? curDuration then curDuration else dur)
  end.

Fixpoint parseActions (ruleName : string) (l : list ActionConfig) : outcome (list (RuleAction Q)) :=
  match l with
  | [] => Ret []
  | actor :: l' =>
      r ← generateAction actor ruleName;
      ac ← fatal r;
      acs ← parseActions ruleName l';
      Ret (ac :: acs)
  end.

(** [None] is the nil pointer. *)
Definition parseDetectorRule (ruleName : string) (ruleMetrics : list string)
    (detectAc : option DetectActionConfig) : outcome (result (list detector * list (RuleAction Q) * Z * duration)) :=
  match detectAc with
  | None => Ret (Err "nil rule action")
  | Some da =>
      '(factories, samples, dur) ← parseDetects ruleMetrics (da_detects da) ([], 0, 0);
      acs ← parseActions ruleName (da_actions da);
      Ret (Ok (factories, acs, samples, dur))
  end.

Definition generateDetectActionEntry (ruleName : string) (metrics : list string)
    (ruleCfg : option DetectActionConfig) : outcome (result (ruleEntry * Z * duration)) :=
  r ← parseDetectorRule ruleName metrics ruleCfg;
  match r with
  | Err e => Ret (Err e)
  | Ok (ds, acs, samples, dur) => Ret (Ok (mkRuleEntry ds acs, samples, dur))
  end.

(** One of the two loops of [generateRules]. *)
Fixpoint generateEntries (ruleName : string) (metrics : list string) (cfgs : list (option DetectActionConfig))
    (acc : list ruleEntry * Z * duration) : outcome (list ruleEntry * Z * duration) :=
  match cfgs with
  | [] => Ret acc
  | cfg :: cfgs' =>
      let '(entries, samples, dur) := acc in
      r ← generateDetectActionEntry ruleName metrics cfg;
      match r with
      | Err _ => generateEntries ruleName metrics cfgs' acc
      | Ok (entry, curSamples, curDuration) =>
          generateEntries ruleName metrics cfgs'
            (entries ++ [entry], if samples <? curSamples then curSamples else samples,
             if dur <? curDuration then curDuration else dur)
      end
  end.

Definition generateRules (ruleName : string) (metrics : list string)
    (rulesCfg recoverCfg : list (option DetectActionConfig)) :
    outcome (list ruleEntry * list ruleEntry * Z * duration) :=
  '(rs, samples, dur) ← generateEntries ruleName metrics rulesCfg ([], 0, 0);
  '(rrs, samples, dur) ← generateEntries ruleName metrics recoverCfg ([], samples, dur);
  Ret (rs, rrs, if samples =? 0 then -1 else samples, dur).

(** *** Checking a rule *)

Definition metricsValuesFunc := list string -> Z -> duration -> outcome (list TimedData).

(** The first detector that errs or is anomalous decides. *)
Fixpoint detect (detectors : list detector) (values : metricsValuesFunc) :
    outcome (result bool * list detector) :=
  match detectors with
  | [] => Ret (Ok false, [])
  | d :: ds =>
      vals ← values (Detector_Metrics d) (Detector_SampleCount d) (Detector_SampleDuration d);
      d1 ← Detector_AddAll Evaluate NewMovingAverage MA_Add d vals;
      '(r, d2) ← Detector_IsAnomaly MA_Value d1;
      match r with
      | Err e => Ret (Err e, d2 :: ds)
      | Ok true => Ret (Ok true, d2 :: ds)
      | Ok false => '(r', ds') ← detect ds values; Ret (r', d2 :: ds')
      end
  end.

(** The verdict of each rule: [None] for a rule whose detectors err, which takes
    no part in the actions. *)
Fixpoint checkRules (rs : list ruleEntry) (values : metricsValuesFunc) :
    outcome (list (option bool) * list ruleEntry) :=
  match rs with
  | [] => Ret ([], [])
  | r :: rs' =>
      '(v, ds) ← detect (detects r) values;
      '(vs, rs'') ← checkRules rs' values;
      Ret ((match v with Ok b => Some b | Err _ => None end) :: vs, mkRuleEntry ds (actions r) :: rs'')
  end.

(** [mergeAction] over the actions of one rule. *)
Fixpoint mergeActions (acRet : ActionResult Q) (acs : list (RuleAction Q)) (flag : bool) (reason : string) :
    outcome (ActionResult Q * list (RuleAction Q) * list string) :=
  match acs with
  | [] => Ret (acRet, [], [])
  | ac :: acs' =>
      '(aRet, ac', al) ← DoAction ac flag reason;
      let acRet' := match aRet with Some r => Merge acRet r | None => acRet end in
      '(acRet'', acs'', al') ← mergeActions acRet' acs' flag reason;
      Ret (acRet'', ac' :: acs'', al ++ al')
  end.

(** [mergeAction]: the actions of the rules, in order, each with the flag of
    its rule; rules without a flag are skipped. *)
Fixpoint mergeAction (acRet : ActionResult Q) (rs : list ruleEntry) (flags : list (option bool)) (reason : string) :
    outcome (ActionResult Q * list ruleEntry * list string) :=
  match rs, flags with
  | r :: rs', Some flag :: flags' =>
      '(acRet', acs, al) ← mergeActions acRet (actions r) flag reason;
      '(acRet'', rs'', al') ← mergeAction acRet' rs' flags' reason;
      Ret (acRet'', mkRuleEntry (detects r) acs :: rs'', al ++ al')
  | r :: rs', None :: flags' =>
      '(acRet'', rs'', al') ← mergeAction acRet rs' flags' reason;
      Ret (acRet'', r :: rs'', al')
  | rs', _ => Ret (acRet, rs', [])
  end.

(** The recover rules that match run their actions as not conflicting. *)
Definition recover_flags (vs : list (option bool)) : list (option bool) :=
  map (fun v => match v with Some true => Some false | _ => None end) vs.

Definition emptyResult : ActionResult Q := mkActionResult ∅ [] ∅ false [].

(** [!t.Add(d).Before(now)] of an optional time. *)
Definition still_waiting (t : option time) (d : duration) (now : time) : bool :=
  match t with
  | Some t => negb (time_Before (time_Add t d) now)
  | None => false
  end.

Definition set_rc (c : ruleCheckEntry) (rs rrs : list ruleEntry) (lh lr la : option time) : ruleCheckEntry :=
  mkRuleCheckEntry (rc_name c) rs rrs (samples c) (rc_duration c) (checkInterval c) (handleInterval c)
    (recoverInterval c) (lastCheck c) lh lr la.

Record checkResult := mkCheckResult {
  cr_result : ActionResult Q;
  cr_anomaly : bool;
  cr_noNeedHandle : bool;
  cr_noNeedRecover : bool;
  cr_alarms : list string;
}.

Definition checkRule (c : ruleCheckEntry) (values : metricsValuesFunc) (now : time) :
    outcome (checkResult * ruleCheckEntry) :=
  '(vs, rs) ← checkRules (rules c) values;
  let anomaly := existsb (fun v => bool_decide (v = Some true)) vs in
  if anomaly then
    if still_waiting (lastHandle c) (handleInterval c) now then
      Ret (mkCheckResult emptyResult true true false [],
           set_rc c rs (recoverRules c) (lastHandle c) (lastRecover c) (Some now))
    else
      '(acRet, rs', al) ← mergeAction emptyResult rs vs (rc_name c +:+ " detect ABNORMAL");
      Ret (mkCheckResult acRet true false false al,
           set_rc c rs' (recoverRules c) (Some now) (lastRecover c) (Some now))
  else
    let lr :=
      match lastAbnormal c, lastRecover c with
      | Some la, None => Some la
      | Some la, Some r => if time_Before r la then Some la else Some r
      | None, r => r
      end in
    if still_waiting lr (recoverInterval c) now then
      Ret (mkCheckResult emptyResult false false true [],
           set_rc c rs (recoverRules c) (lastHandle c) lr (lastAbnormal c))
    else
      '(rvs, rrs) ← checkRules (recoverRules c) values;
      if existsb (fun v => bool_decide (v = Some true)) rvs then
        '(acRet, rrs', al) ← mergeAction emptyResult rrs (recover_flags rvs) (rc_name c +:+ " recover detect ABNORMAL");
        Ret (mkCheckResult acRet false false false al,
             set_rc c rs rrs' (lastHandle c) (Some now) (lastAbnormal c))
      else if (0 <? length (recoverRules c))%nat then
        Ret (mkCheckResult emptyResult false false false [],
             set_rc c rs rrs (lastHandle c) (Some now) (lastAbnormal c))
      else
        '(acRet, rs', al) ← mergeAction emptyResult rs vs (rc_name c +:+ " detect NORMAL");
        Ret (mkCheckResult acRet false false false al,
             set_rc c rs' rrs (lastHandle c) (Some now) (lastAbnormal c)).
End Rules.

(** ** Metrics of the node *)

Definition deviceMetricPrefix : string := "dev_".

(** The device, the metric with its device, and the metric.  Without a second
    ["_"] the slice expression panics. *)
Definition GetDeviceNameFromMetric (metric : string) : outcome (string * string * string) :=
  if negb (HasPrefix metric deviceMetricPrefix) then Ret ("", metric, metric)
  else
    let devMetric := TrimPrefix metric deviceMetricPrefix in
    match cut_byte devMetric "_"%char with
    | Some (dev, originalMetric) => Ret (dev, devMetric, originalMetric)
    | None => Crash (Panic "slice bounds out of range")
    end.

Lemma GetDeviceName_dev dev b :
  string_free "_"%char dev -> GetDeviceNameFromMetric (deviceMetricPrefix +:+ (dev +:+ "_" +:+ b)) = Ret (dev, dev +:+ "_" +:+ b, b).
Proof.
  intros Hd. unfold GetDeviceNameFromMetric.
  assert (Hp : forall s, HasPrefix (deviceMetricPrefix +:+ s) deviceMetricPrefix = true) by (intros [|]; reflexivity).
  assert (Ht : TrimPrefix (deviceMetricPrefix +:+ (dev +:+ "_" +:+ b)) deviceMetricPrefix = dev +:+ "_" +:+ b) by (unfold TrimPrefix; by rewrite Hp).
  rewrite Hp, Ht. cbn [negb]. change ("_" +:+ b) with (String "_" b). by rewrite cut_byte_cons_free.
Qed.

(** A state of the node store: its time, the value of a metric of a device (whose
    reading can panic, see NodeStore.v) and the available memory of a state that has
    its memory. *)
Record NodeState := mkNodeState {
  ns_Timestamp : time;
  ns_GetValue : string -> string -> outcome (result float64);
  ns_MemoryAvailable : float64;
}.

Definition zeroTime : time := nilTime.

Fixpoint metric_params (st : NodeState) (metrics : list string) (params : gmap string float64) :
    outcome (gmap string float64) :=
  match metrics with
  | [] => Ret params
  | metric :: ms =>
      '(device, devMetric, originalMetric) ← GetDeviceNameFromMetric metric;
      m ← ns_GetValue st originalMetric device;
      metric_params st ms (<[devMetric := ok_or fzero m]> params)
  end.

(** The loop of [getNodeMetricsValues] from the state of index [i] on. *)
Fixpoint nodeValuesLoop (metrics : list string) (startTime : time) (sts : list NodeState) : outcome (list TimedData) :=
  match sts with
  | [] => Ret []
  | st :: sts' =>
      let skip := match sts' with
                  | stNext :: _ =>
                      time_After startTime (ns_Timestamp st) && time_After startTime (ns_Timestamp stNext)
                  | [] => false
                  end in
      if skip then nodeValuesLoop metrics startTime sts'
      else
        params ← metric_params st metrics ∅;
        vals ← nodeValuesLoop metrics startTime sts';
        Ret (mkTimedData (ns_Timestamp st) params :: vals)
  end.

Definition getNodeMetricsValues (metrics : list string) (sts : list NodeState) (samples : Z) (dur : duration) :
    outcome (list TimedData) :=
  match last sts with
  | None => Ret []
  | Some lastSt =>
      let i := if (0 <? samples) && (samples <? Z.of_nat (length sts))
               then (length sts - Z.to_nat samples)%nat else 0%nat in
      let startTime := if negb (dur =? 0) then time_Add (ns_Timestamp lastSt) (- dur) else zeroTime in
      nodeValuesLoop metrics startTime (drop i sts)
  end.

(** ** SLO metrics of online jobs *)

Record sloParam := mkSloParam {
  slo_min : float64;
  slo_max : float64;
  slo_ts : time;
}.

(** The loop of [findMaxAndMinSLOSlack]: a job is its SLO and its value. *)
Definition slackStep (st : float64 * float64) (job : float64 * float64) : float64 * float64 :=
  let '(mx, mn) := st in
  let '(slo, value) := job in
  if feq value fzero || feq slo fzero then st
  else
    let slack := fdiv (fsub slo value) slo in
    (if fgt slack mx then slack else mx, if flt slack mn then slack else mn).

Definition findMaxAndMinSLOSlack (jobs : list (float64 * float64)) : float64 * float64 :=
  fold_left slackStep jobs (fzero, fone).

(** Appending to [historySlo] keeps the last 100 entries. *)
Definition appendHistory (historySlo : list sloParam) (p : sloParam) : list sloParam :=
  let h := historySlo ++ [p] in if (100 <? length h)%nat then drop 1 h else h.

(** The loop of [sloMetricFunc]; [i] counts from the start of the slice while
    the next entry is looked up in the whole history. *)
Fixpoint sloLoop (history : list sloParam) (startTime : time) (i : nat) (l : list sloParam) :
    outcome (list TimedData) :=
  match l with
  | [] => Ret []
  | slo :: l' =>
      let entry := mkTimedData (slo_ts slo) {["slo_max" := slo_max slo; "slo_min" := slo_min slo]} in
      let keep := (vals ← sloLoop history startTime (S i) l'; Ret (entry :: vals)) in
      if time_After startTime (slo_ts slo) && negb (S i =? length history)%nat then
        match history !! S i with
        | Some next => if time_After startTime (slo_ts next) then sloLoop history startTime (S i) l' else keep
        | None => Crash (Panic "index out of range")
        end
      else keep
  end.

(** With a duration the source reads the last of the still empty [vals]. *)
Definition sloMetricFunc (history : list sloParam) (samples : Z) (dur : duration) : outcome (list TimedData) :=
  match history with
  | [] => Ret []
  | _ =>
      let index := if (0 <? samples) && (samples <? Z.of_nat (length history))
                   then (length history - Z.to_nat samples)%nat else 0%nat in
      if negb (dur =? 0) then Crash (Panic "index out of range")
      else sloLoop history zeroTime 0 (drop index history)
  end.

(** ** Dispatching the result of a round *)

Section Dispatch.
Context {RO : RangeOrder} {Q : Type} `{QO : QuantityOps Q}.

Definition actionResultAvailable (ac : ActionResult Q) : bool :=
  if (0 <? size (AdjustResources ac))%nat || (0 <? length (EvictPods ac))%nat then true
  else if negb (size (UnscheduleMap ac) =? 0)%nat || SyncEvent ac then true
  else false.

(** What the dispatcher asks of the resource manager and the QoS manager. *)
Inductive command :=
| DisableOfflineSchedule
| EnableOfflineSchedule
| SyncNodeResource (conflictRes : list string) (reason : string)
| UpdateEvent (conflictRes : list string) (reason : string).

(** [unschedule] and the conflict manager; whether the two managers are set. *)
Record dispatcher := mkDispatcher {
  hasResourceManager : bool;
  hasQosManager : bool;
  unschedule : gmap string bool;
  conflictMn : gmap string (ActionResource Q);
}.

Definition HandleActionResult (d : dispatcher) (acRet : ActionResult Q) : list command * dispatcher :=
  let un := fold_left (fun m '(k, v) => <[k := v]> m)
              (range_map "HandleActionResult.UnscheduleMap" (UnscheduleMap acRet)) (unschedule d) in
  let uns := fold_left (fun b '(_, u) => b || u) (range_map "HandleActionResult.unschedule" un) false in
  let sched := if hasResourceManager d
               then [if uns then DisableOfflineSchedule else EnableOfflineSchedule] else [] in
  let '(conflicts, changed) := UpdateConflictList (conflictMn d) (AdjustResources acRet) in
  let conflictRes := fold_left (fun s '(_, ac) => if Conflicting ac then set_insert (Name ac) s else s)
                       (range_map "HandleActionResult.AdjustResources" (AdjustResources acRet)) [] in
  let reason := Join (Messages acRet) ";" in
  let events := if SyncEvent acRet || changed
                then (if hasResourceManager d then [SyncNodeResource conflictRes reason] else []) ++
                     (if hasQosManager d then [UpdateEvent conflictRes reason] else [])
                else [] in
  (sched ++ events, mkDispatcher (hasResourceManager d) (hasQosManager d) un conflicts).

(** A round of [Manager.Run]: the results of the checkers, in the order in
    which they take the lock, are merged and dispatched when there is anything
    to do. *)
Definition manager_round (d : dispatcher) (results : list (ActionResult Q)) : list command * dispatcher :=
  let finalAC := fold_left Merge results (mkActionResult ∅ [] ∅ false []) in
  if actionResultAvailable finalAC then HandleActionResult d finalAC else ([], d).
End Dispatch.

(** ** The node checker *)

Section NodeChecker.
Context {RO : RangeOrder} {Q : Type} `{QO : QuantityOps Q}.
Context {E : Type} (Evaluate : E -> gmap string float64 -> result (option bool)).
Context {MA : Type} (NewMovingAverage : float64 -> MA) (MA_Add : MA -> float64 -> MA)
  (MA_Value : MA -> float64).
(** The node store: the states since a time (at most a number of them), and the
    latest state. *)
Context (GetNodeResourceRangeStats : time -> Z -> result (list NodeState)).
Context (GetNodeResourceRecentState : result NodeState).

#[local] Abbreviation entry := (ruleCheckEntry (Q := Q) (E := E) (MA := MA)).

(** What the memory in use takes beyond the reserved quantity. *)
Definition getMemConflictedQuantity (reservedMemory : Z) (conflicting : bool) : option (ActionResource Q) :=
  if negb conflicting then None
  else
    match GetNodeResourceRecentState with
    | Err _ => None
    | Ok nodeSt =>
        let overUsed := int64 (reservedMemory - int64_of_float64 (ns_MemoryAvailable nodeSt)) in
        if overUsed <=? 0 then None
        else Some (mkActionResource "memory" conflicting {[FormulaTotal := qNewQuantity (int64 (- overUsed))]})
    end.

(** The adjust action of the memory rule asks the handler first. *)
Definition generateSelfDefineHandler (reservedMemory : Z) (acs : list (RuleAction Q)) : list (RuleAction Q) :=
  map (fun ac =>
         match ac with
         | AAdjust a =>
             if (act_resource a =? "memory")%string then
               AAdjust (set_adjust a (adjIndex a)
                          (InitSelfHandler (adjustResources a) "memory" (getMemConflictedQuantity reservedMemory)))
             else ac
         | _ => ac
         end) acs.

(** The start of the metrics a rule needs: its duration and a buffer of at most
    a minute before. *)
Definition rangeStart (dur : duration) (now : time) : time :=
  if dur =? 0 then zeroTime
  else
    let buffer := if 60 * Second <? dur then Minute else dur in
    time_Add (time_Add now (- dur)) (- buffer).

Definition set_lastCheck (c : entry) (now : time) : entry :=
  mkRuleCheckEntry (rc_name c) (rules c) (recoverRules c) (samples c) (rc_duration c) (checkInterval c)
    (handleInterval c) (recoverInterval c) now (lastHandle c) (lastRecover c) (lastAbnormal c).

Definition set_sync (ac : ActionResult Q) : ActionResult Q :=
  mkActionResult (UnscheduleMap ac) (EvictPods ac) (AdjustResources ac) true (Messages ac).

Fixpoint nodeCheckLoop (now : time) (cs : list entry) (acResult : ActionResult Q) :
    outcome (ActionResult Q * list entry) :=
  match cs with
  | [] => Ret (acResult, [])
  | c :: cs' =>
      if negb (time_Before (time_Add (lastCheck c) (checkInterval c)) now) then
        '(r, cs'') ← nodeCheckLoop now cs' acResult; Ret (r, c :: cs'')
      else
        let c := set_lastCheck c now in
        match GetNodeResourceRangeStats (rangeStart (rc_duration c) now) (samples c) with
        | Err _ => '(r, cs'') ← nodeCheckLoop now cs' acResult; Ret (r, c :: cs'')
        | Ok sts =>
            '(cr, c') ← checkRule Evaluate NewMovingAverage MA_Add MA_Value c
                          (fun metrics n d => getNodeMetricsValues metrics sts n d) now;
            let merged := Merge acResult (cr_result cr) in
            let merged := if cr_anomaly cr && negb (cr_noNeedHandle cr) then set_sync merged else merged in
            '(r, cs'') ← nodeCheckLoop now cs' merged; Ret (r, c' :: cs'')
        end
  end.

(** [nodeHealthChecker.Check]. *)
Definition node_Check (now : time) (cs : list entry) : outcome (ActionResult Q * list entry) :=
  nodeCheckLoop now cs emptyResult.
End NodeChecker.

(** ** Rate limits *)

Section RateLimits.
Context {RO : RangeOrder} {Q : Type} `{QO : QuantityOps Q}.
Context {E : Type} (Evaluate : E -> gmap string float64 -> result (option bool)).
Context {MA : Type} (NewMovingAverage : float64 -> MA) (MA_Add : MA -> float64 -> MA)
  (MA_Value : MA -> float64).

#[local] Abbreviation entry := (ruleCheckEntry (Q := Q) (E := E) (MA := MA)).
#[local] Abbreviation check := (checkRule Evaluate NewMovingAverage MA_Add MA_Value).

(** A sequence of checks of one rule: its outputs with their times. *)
Fixpoint runRule (c : entry) (inputs : list (metricsValuesFunc * time)) :
    outcome (list (time * checkResult (Q := Q)) * entry) :=
  match inputs with
  | [] => Ret ([], c)
  | (values, now) :: inputs' =>
      '(r, c1) ← check c values now;
      '(outs, c2) ← runRule c1 inputs';
      Ret ((now, r) :: outs, c2)
  end.

Definition handled (r : checkResult (Q := Q)) : Prop := cr_anomaly r = true /\ cr_noNeedHandle r = false.
Definition recovered (r : checkResult (Q := Q)) : Prop := cr_anomaly r = false /\ cr_noNeedRecover r = false.

Lemma still_waiting_false t d now :
  still_waiting t d now = false -> forall u, t = Some u -> u + d < now.
Proof.
  intros H u ->. simpl in H. unfold time_Before, time_Add in H. destruct (Z.ltb_spec (u + d) now); done.
Qed.

(** What one check does to the recorded times. *)
Record step_times (c c' : entry) (r : checkResult (Q := Q)) (now : time) : Prop := {
  st_intervals : handleInterval c' = handleInterval c /\ recoverInterval c' = recoverInterval c;
  st_handle :
    (handled r /\ lastHandle c' = Some now /\ forall t, lastHandle c = Some t -> t + handleInterval c < now) \/
    (~ handled r /\ lastHandle c' = lastHandle c);
  st_abnormal : lastAbnormal c' = if cr_anomaly r then Some now else lastAbnormal c;
  st_recover :
    (recovered r /\ lastRecover c' = Some now /\
     forall t, lastAbnormal c = Some t \/ lastRecover c = Some t -> t + recoverInterval c < now) \/
    (~ recovered r /\ forall t, lastRecover c = Some t -> exists u, lastRecover c' = Some u /\ t <= u);
}.

Ltac unbind H :=
  let a := fresh "a" in let Ha := fresh "Ha" in
  match type of H with mbind _ _ = _ => apply outcome_bind_Ret in H as (a & Ha & H) end;
  try match type of a with
      | prod (prod _ _) _ => destruct a as [[? ?] ?]
      | prod _ _ => destruct a as [? ?]
      end.

(** The last recovery, or the last anomaly when it is later. *)
Definition recover_base (c : entry) : option time :=
  match lastAbnormal c, lastRecover c with
  | Some la, None => Some la
  | Some la, Some r => if time_Before r la then Some la else Some r
  | None, r => r
  end.

Lemma recover_base_ge (c : entry) t :
  lastAbnormal c = Some t \/ lastRecover c = Some t -> exists u, recover_base c = Some u /\ t <= u.
Proof.
  unfold recover_base, time_Before. intros [-> | ->].
  - destruct (lastRecover c) as [r|]; [destruct (Z.ltb_spec r t)|]; eexists; (split; [done|lia]).
  - destruct (lastAbnormal c) as [la|]; [destruct (Z.ltb_spec t la)|]; eexists; (split; [done|lia]).
Qed.

Lemma step_anomaly (c : entry) rs rrs lh res now nn al :
  (nn = true /\ lh = lastHandle c) \/
  (nn = false /\ lh = Some now /\ still_waiting (lastHandle c) (handleInterval c) now = false) ->
  step_times c (set_rc c rs rrs lh (lastRecover c) (Some now)) (mkCheckResult res true nn false al) now.
Proof.
  intros Hn. split; simpl; unfold handled, recovered; simpl; [done| |done|].
  - destruct Hn as [[-> ->]|(-> & -> & Hw)]; [right|left]; [split; [intros [_ ?]; done|done]|].
    split_and!; [done..|]. by apply still_waiting_false.
  - right. split; [intros [? _]; done|]. intros t ->. eexists. split; [done|lia].
Qed.

Lemma step_normal (c : entry) rs rrs lr res now nr al :
  (nr = true /\ lr = recover_base c) \/
  (nr = false /\ lr = Some now /\ still_waiting (recover_base c) (recoverInterval c) now = false) ->
  step_times c (set_rc c rs rrs (lastHandle c) lr (lastAbnormal c)) (mkCheckResult res false false nr al) now.
Proof.
  intros Hn. split; simpl; unfold handled, recovered; simpl; [done|right; split; [intros [? _]; done|done]|done|].
  destruct Hn as [[-> ->]|(-> & -> & Hw)]; [right|left].
  - split; [intros [_ ?]; done|]. intros t Ht. apply recover_base_ge. by right.
  - split_and!; [done..|]. intros t Ht. destruct (recover_base_ge c t Ht) as (u & Hu & Hle).
    pose proof (still_waiting_false _ _ _ Hw u Hu). lia.
Qed.

Lemma checkRule_times c values now r c' : check c values now = Ret (r, c') -> step_times c c' r now.
Proof.
  unfold checkRule. intros H. unbind H. fold (recover_base c) in H. destruct (existsb _ l) eqn:Han.
  - destruct (still_waiting (lastHandle c) (handleInterval c) now) eqn:Hw.
    + injection H as <- <-. apply step_anomaly. by left.
    + unbind H. injection H as <- <-. apply step_anomaly. by right.
  - destruct (still_waiting (recover_base c) (recoverInterval c) now) eqn:Hw.
    + injection H as <- <-. apply step_normal. by left.
    + clear Han. unbind H. destruct (existsb _ _); [|destruct (_ <? _)%nat]; try unbind H; injection H as <- <-;
        apply step_normal; by right.
Qed.

(** The times of the inputs do not go back. *)
Fixpoint ordered (t : time) (inputs : list (metricsValuesFunc * time)) : Prop :=
  match inputs with
  | [] => True
  | (_, now) :: inputs' => t <= now /\ ordered now inputs'
  end.

(** A later handling or recovery respects the times recorded in the state. *)
Lemma runRule_later inputs c t0 outs c' :
  runRule c inputs = Ret (outs, c') -> ordered t0 inputs ->
  (forall t, lastAbnormal c = Some t -> t <= t0) -> 0 <= handleInterval c -> 0 <= recoverInterval c ->
  forall t r, (t, r) ∈ outs ->
    (handled r -> forall u, lastHandle c = Some u -> u + handleInterval c < t) /\
    (recovered r -> forall u, lastAbnormal c = Some u \/ lastRecover c = Some u -> u + recoverInterval c < t).
Proof.
  revert c t0 outs. induction inputs as [|[values now] inputs IH]; intros c t0 outs H Ho Hla Hh Hr t r Hin; simpl in H.
  { injection H as <- <-. by apply elem_of_nil in Hin. }
  destruct Ho as [Ht0 Ho]. unbind H. unbind H. injection H as <- <-.
  destruct (checkRule_times _ _ _ _ _ Ha) as [[Ehi Eri] Hhandle Habn Hrec].
  apply elem_of_cons in Hin as [[= -> ->]|Hin].
  - split; [destruct Hhandle as [(_ & _ & H)|[? _]]; [done|tauto]|].
    destruct Hrec as [(_ & _ & H)|[? _]]; [done|tauto].
  - assert (Hla1 : forall t, lastAbnormal r0 = Some t -> t <= now).
    { rewrite Habn. destruct (cr_anomaly c0); [by intros ? [= <-]|]. intros u Hu. specialize (Hla u Hu). lia. }
    destruct (IH r0 now l Ha0 Ho Hla1 ltac:(lia) ltac:(lia) t r Hin) as [IH1 IH2]. rewrite Ehi, Eri in *. split.
    + intros Hhr u Hu. destruct Hhandle as [(_ & E0 & H)|[_ E0]].
      * specialize (H u Hu). specialize (IH1 Hhr now E0). lia.
      * apply IH1; congruence.
    + intros Hrr u Hu. destruct Hrec as [(_ & E0 & H)|[_ H]].
      * specialize (H u Hu). specialize (IH2 Hrr now (or_intror E0)). lia.
      * destruct Hu as [Hu|Hu].
        -- destruct (cr_anomaly c0); [|apply IH2; [done|left; congruence]].
           specialize (IH2 Hrr now (or_introl Habn)). specialize (Hla u Hu). lia.
        -- destruct (H u Hu) as (v & Hv & Hle). specialize (IH2 Hrr v (or_intror Hv)). lia.
Qed.

Lemma runRule_pairs inputs c t0 outs c' :
  runRule c inputs = Ret (outs, c') -> ordered t0 inputs ->
  (forall t, lastAbnormal c = Some t -> t <= t0) -> 0 <= handleInterval c -> 0 <= recoverInterval c ->
  forall i j ti ri tj rj, (i < j)%nat -> outs !! i = Some (ti, ri) -> outs !! j = Some (tj, rj) ->
    (handled ri -> handled rj -> ti + handleInterval c < tj) /\
    (cr_anomaly ri = true \/ recovered ri -> recovered rj -> ti + recoverInterval c < tj).
Proof.
  revert c t0 outs. induction inputs as [|[values now] inputs IH]; intros c t0 outs H Ho Hla Hh Hr i j ti ri tj rj Hij Hi Hj;
    simpl in H; [by injection H as <- <-|].
  destruct Ho as [Ht0 Ho]. unbind H. unbind H. injection H as <- <-.
  destruct (checkRule_times _ _ _ _ _ Ha) as [[Ehi Eri] Hhandle Habn Hrec].
  assert (Hla1 : forall t, lastAbnormal r = Some t -> t <= now).
  { rewrite Habn. destruct (cr_anomaly c0); [by intros ? [= <-]|]. intros u Hu. specialize (Hla u Hu). lia. }
  destruct j as [|j]; [lia|]. simpl in Hj. destruct i as [|i]; simpl in Hi.
  - injection Hi as <- <-. apply list_elem_of_lookup_2 in Hj.
    destruct (runRule_later inputs r now l _ Ha0 Ho Hla1 ltac:(lia) ltac:(lia) tj rj Hj) as [L1 L2].
    rewrite Ehi, Eri in *. split.
    + intros H1 H2. apply L1; [done|]. destruct Hhandle as [(_ & E0 & _)|[? _]]; [done|tauto].
    + intros H1 H2. apply L2; [done|]. destruct H1 as [H1|H1]; [left; by rewrite Habn, H1|right].
      destruct Hrec as [(_ & E0 & _)|[? _]]; [done|tauto].
  - rewrite <- Ehi, <- Eri. apply (IH r now l Ha0 Ho Hla1 ltac:(lia) ltac:(lia) i j); [lia|done|done].
Qed.
End RateLimits.

(** ** Rules built from a configuration do not panic *)

Section Totality.
Context {RO : RangeOrder} {Q : Type} `{QO : QuantityOps Q}.
Context {E : Type} (Evaluate : E -> gmap string float64 -> result (option bool)).
Context (NewEvaluableExpression : string -> result E).
Context {MA : Type} (NewMovingAverage : float64 -> MA) (MA_Add : MA -> float64 -> MA)
  (MA_Value : MA -> float64).

#[local] Abbreviation entry := (ruleCheckEntry (Q := Q) (E := E) (MA := MA)).
#[local] Abbreviation rule := (ruleEntry (Q := Q) (E := E) (MA := MA)).
#[local] Abbreviation check := (checkRule Evaluate NewMovingAverage MA_Add MA_Value).

(** The detectors of a configuration: expressions and EWMA detectors of at least
    one sample. *)
Definition wf_detector (d : Detector (E := E) (MA := MA)) : Prop :=
  match d with
  | DEwma e => (0 < ew_n e)%nat
  | DExpression _ => True
  | DUnion _ _ => False
  end.

(** The index of an adjust action is within its resources. *)
Definition wf_adjust (a : AdjustResourceAction Q) : Prop :=
  adjResKind a = length (adjustResources a) /\
  ((2 <= length (adjustResources a))%nat -> (adjIndex a < length (adjustResources a))%nat).

Definition wf_action (ac : RuleAction Q) : Prop :=
  match ac with AAdjust a => wf_adjust a | _ => True end.

Definition wf_rule (r : rule) : Prop := Forall wf_detector (detects r) /\ Forall wf_action (actions r).

Definition wf_entry (c : entry) : Prop := Forall wf_rule (rules c) /\ Forall wf_rule (recoverRules c).

Lemma adjust_all_length res b rs m : length (adjust_all res b rs m).2 = length (A := adjustResource Q) rs.
Proof.
  revert m. induction rs as [|r rs IH]; intros m; simpl; [done|].
  destruct (generateActionResource r b) as [aRes r']. specialize (IH (<[(res +:+ "_" +:+ adj_resource r) := aRes]> m)).
  destruct (adjust_all res b rs _) as [m' rs']. simpl in *. lia.
Qed.

Lemma adjust_DoAction_total a b data :
  wf_adjust a -> exists r a', adjust_DoAction a b data = Ret (r, a') /\ wf_adjust a'.
Proof.
  intros [Hk Hi]. unfold adjust_DoAction. rewrite Hk.
  destruct (adjustResources a) as [|r0 [|r1 rs]] eqn:Hr; simpl length.
  - do 2 eexists. split; [done|]. split; by rewrite Hr.
  - destruct (generateActionResource r0 b) as [aRes r0']. do 2 eexists. split; [done|].
    split; simpl; [by rewrite Hk|lia].
  - simpl in Hi. specialize (Hi ltac:(lia)). destruct (op a =? opLoop)%string.
    + destruct (lookup_lt_is_Some_2 (r0 :: r1 :: rs) (adjIndex a)) as [x Hx]; [simpl; lia|].
      rewrite Hx. destruct (generateActionResource x b) as [aRes x']. do 2 eexists. split; [done|].
      split; unfold set_adjust; cbn [adjResKind adjustResources adjIndex]; rewrite length_insert; [by rewrite Hk|].
      intros _. apply Nat.mod_upper_bound. simpl. lia.
    + destruct (adjust_all _ b (r0 :: r1 :: rs) ∅) as [m rs'] eqn:Ha. do 2 eexists. split; [done|].
      pose proof (adjust_all_length (act_resource a) b (r0 :: r1 :: rs) ∅) as Hl. rewrite Ha in Hl.
      cbn [snd] in Hl. split; unfold set_adjust; cbn [adjResKind adjustResources adjIndex]; rewrite Hl; [by rewrite Hk|].
      intros _. simpl. lia.
Qed.

Lemma DoAction_total ac b data :
  wf_action ac -> exists r ac' al, DoAction ac b data = Ret (r, ac', al) /\ wf_action ac'.
Proof.
  destruct ac as [a|name| |]; simpl; intros Hw; [|eauto 6..].
  destruct (adjust_DoAction_total a b data Hw) as (r & a' & -> & Hw'). simpl. eauto 6.
Qed.

Lemma mergeActions_total acs acRet b reason :
  Forall wf_action acs ->
  exists r acs' al, mergeActions acRet acs b reason = Ret (r, acs', al) /\ Forall wf_action acs'.
Proof.
  intros HF. revert acRet. induction HF as [|ac acs Hw HF IH]; intros acRet; simpl; [eauto 6|].
  destruct (DoAction_total ac b reason Hw) as (r & ac' & al & -> & Hw'). simpl.
  destruct (IH (match r with Some r => Merge acRet r | None => acRet end)) as (r' & acs' & al' & -> & HF'). simpl.
  do 3 eexists. split; [done|]. by constructor.
Qed.

Lemma mergeAction_total rs flags acRet reason :
  Forall wf_rule rs ->
  exists r rs' al, mergeAction acRet rs flags reason = Ret (r, rs', al) /\ Forall wf_rule rs'.
Proof.
  intros HF. revert acRet flags. induction HF as [|r rs [Hd Ha] HF IH]; intros acRet flags; simpl; [eauto 6|].
  destruct flags as [|[flag|] flags]; [do 3 eexists; split; [done|]; by constructor| |].
  - destruct (mergeActions_total (actions r) acRet flag reason Ha) as (r1 & acs & al & -> & Ha'). simpl.
    destruct (IH r1 flags) as (r2 & rs' & al' & -> & HF'). simpl. do 3 eexists. split; [done|]. by repeat constructor.
  - destruct (IH acRet flags) as (r2 & rs' & al' & -> & HF'). simpl. do 3 eexists. split; [done|]. by repeat constructor.
Qed.

Lemma wf_detector_check d vals :
  wf_detector d ->
  exists d1 r d2, Detector_AddAll Evaluate NewMovingAverage MA_Add d vals = Ret d1 /\
    Detector_IsAnomaly MA_Value d1 = Ret (r, d2) /\ wf_detector d2.
Proof.
  destruct d as [e|e|]; simpl; intros Hw; [| |done].
  - unfold ewma_AddAll.
    destruct (ewma_addList_spec MA_Add vals (NewEwmaDetector NewMovingAverage (ew_metric e) (ew_n e)) []
                (ring_rep_new _ Hw) eq_refl) as (e' & -> & Hrep & Hc & _ & Hn).
    destruct (ewma_IsAnomaly_total MA_Value e') as [r Hr]; [split; [by rewrite Hn|]; rewrite Hn; eauto|].
    exists (DEwma e'), r, (DEwma e'). simpl. rewrite Hr. split_and!; [done|done|]. by rewrite Hn.
  - do 3 eexists. split; [done|]. simpl. by destruct (expression_IsAnomaly (expression_AddAll Evaluate e vals)).
Qed.

Lemma detect_total ds values :
  Forall wf_detector ds -> (forall m n d, exists v, values m n d = Ret v) ->
  exists r ds', detect Evaluate NewMovingAverage MA_Add MA_Value ds values = Ret (r, ds') /\ Forall wf_detector ds'.
Proof.
  intros HF Hv. induction HF as [|d ds Hd HF (r' & ds' & E0 & HF')]; simpl; [eauto|].
  destruct (Hv (Detector_Metrics d) (Detector_SampleCount d) (Detector_SampleDuration d)) as [vals ->]. simpl.
  destruct (wf_detector_check d vals Hd) as (d1 & r & d2 & -> & H2 & Hw). simpl. rewrite H2. simpl.
  destruct r as [[]|err]; [..|]; try (do 2 eexists; split; [done|]; by constructor).
  rewrite E0. simpl. do 2 eexists. split; [done|]. by constructor.
Qed.

Lemma checkRules_total rs values :
  Forall wf_rule rs -> (forall m n d, exists v, values m n d = Ret v) ->
  exists vs rs', checkRules Evaluate NewMovingAverage MA_Add MA_Value rs values = Ret (vs, rs') /\ Forall wf_rule rs'.
Proof.
  intros HF Hv. induction HF as [|r rs [Hd Ha] HF (vs & rs' & E0 & HF')]; simpl; [eauto|].
  destruct (detect_total (detects r) values Hd Hv) as (v & ds & -> & Hd'). simpl. rewrite E0. simpl.
  do 2 eexists. split; [done|]. by repeat constructor.
Qed.

Lemma checkRule_total c values now :
  wf_entry c -> (forall m n d, exists v, values m n d = Ret v) ->
  exists r c', check c values now = Ret (r, c') /\ wf_entry c'.
Proof.
  intros [Hr Hrr] Hv. unfold checkRule.
  destruct (checkRules_total (rules c) values Hr Hv) as (vs & rs & -> & Hrs). simpl.
  destruct (existsb _ vs).
  - destruct (still_waiting (lastHandle c)); [do 2 eexists; split; [done|]; by split|].
    destruct (mergeAction_total rs vs emptyResult (rc_name c +:+ " detect ABNORMAL") Hrs) as (r & rs' & al & -> & Hrs').
    simpl. do 2 eexists. split; [done|]. by split.
  - destruct (still_waiting _ _ _); [do 2 eexists; split; [done|]; by split|].
    destruct (checkRules_total (recoverRules c) values Hrr Hv) as (rvs & rrs & -> & Hrrs). simpl.
    destruct (existsb _ rvs); [|destruct (_ <? _)%nat].
    + destruct (mergeAction_total rrs (recover_flags rvs) emptyResult (rc_name c +:+ " recover detect ABNORMAL") Hrrs)
        as (r & rs' & al & -> & Hrs'). simpl. do 2 eexists. split; [done|]. by split.
    + do 2 eexists. split; [done|]. by split.
    + destruct (mergeAction_total rs vs emptyResult (rc_name c +:+ " detect NORMAL") Hrs) as (r & rs' & al & -> & Hrs').
      simpl. do 2 eexists. split; [done|]. by split.
Qed.

Lemma runRule_total inputs c :
  wf_entry c -> (forall values now, (values, now) ∈ inputs -> forall m n d, exists v, values m n d = Ret v) ->
  exists outs c', runRule Evaluate NewMovingAverage MA_Add MA_Value c inputs = Ret (outs, c').
Proof.
  revert c. induction inputs as [|[values now] inputs IH]; intros c Hw Hv; simpl; [eauto|].
  destruct (checkRule_total c values now Hw (Hv values now ltac:(left))) as (r & c1 & -> & Hw1). simpl.
  destruct (IH c1 Hw1) as (outs & c' & ->); [|simpl; eauto].
  intros v n Hin. apply (Hv v n). by right.
Qed.

(** *** The rules of a configuration are well formed *)

Lemma NewAdjustResourceAction_wf name args a : NewAdjustResourceAction (Q := Q) name args = Ret a -> wf_adjust a.
Proof.
  unfold NewAdjustResourceAction. destruct args as [args|]; [|done]. intros H.
  apply outcome_bind_Ret in H as (rs & _ & H). injection H as <-. split; simpl; [done|lia].
Qed.

Lemma generateDetectorFactory_wf ms d det n dur :
  generateDetectorFactory NewEvaluableExpression NewMovingAverage ms d = Ret (Ok (det, n, dur)) -> wf_detector det.
Proof.
  unfold generateDetectorFactory.
  assert (Hn : (0 < Z.to_nat (if dc_nr d <? Z.of_nat MinData then Z.of_nat MinData else dc_nr d)%Z)%nat)
    by (unfold MinData; destruct (Z.ltb_spec (dc_nr d) (Z.of_nat 11)); lia).
  repeat (case_match; try done); intros [= <- _ _]; done.
Qed.

Lemma parseDetects_wf ms ds acc ds' n dur :
  Forall wf_detector acc.1.1 ->
  parseDetects NewEvaluableExpression NewMovingAverage ms ds acc = Ret (ds', n, dur) -> Forall wf_detector ds'.
Proof.
  revert acc. induction ds as [|d ds IH]; intros [[fs s] du] Hacc H; simpl in *; [by injection H as <- _ _|].
  apply outcome_bind_Ret in H as (r & Hr & H). destruct r as [[[f cs] cd]|e]; simpl in H; [|done].
  apply IH in H; [done|]. simpl. apply Forall_app. split; [done|]. repeat constructor.
  by eapply generateDetectorFactory_wf.
Qed.

Lemma parseActions_wf name l acs : parseActions name l = Ret acs -> Forall wf_action acs.
Proof.
  revert acs. induction l as [|a l IH]; intros acs H; simpl in H; [by injection H as <-|].
  apply outcome_bind_Ret in H as (r & Hr & H). destruct r as [ac|e]; simpl in H; [|done].
  apply outcome_bind_Ret in H as (acs' & Hacs & H). injection H as <-. constructor; [|by apply IH].
  unfold generateAction in Hr. repeat (case_match; [by injection Hr as <-|]); try done.
  case_match; [|by case_match; [injection Hr as <-|]].
  apply outcome_bind_Ret in Hr as (ad & Had & Hr). injection Hr as <-. by eapply NewAdjustResourceAction_wf.
Qed.

Lemma generateEntries_wf name ms cfgs acc rs n dur :
  Forall wf_rule acc.1.1 ->
  generateEntries NewEvaluableExpression NewMovingAverage name ms cfgs acc = Ret (rs, n, dur) -> Forall wf_rule rs.
Proof.
  revert acc. induction cfgs as [|cfg cfgs IH]; intros [[es s] du] Hacc H; simpl in *; [by injection H as <- _ _|].
  apply outcome_bind_Ret in H as (r & Hr & H). destruct r as [[[e cs] cd]|err]; [|by apply IH in H].
  apply IH in H; [done|]. simpl. apply Forall_app. split; [done|]. repeat constructor; simpl in *.
  - unfold generateDetectActionEntry, parseDetectorRule in Hr. destruct cfg as [da|]; [|done].
    apply outcome_bind_Ret in Hr as (x & Hx & Hr). apply outcome_bind_Ret in Hx as ([[fs s'] d'] & Hd & Hx).
    apply outcome_bind_Ret in Hx as (acs & Hacs & Hx). injection Hx as <-. injection Hr as <- _ _.
    by eapply parseDetects_wf in Hd.
  - unfold generateDetectActionEntry, parseDetectorRule in Hr. destruct cfg as [da|]; [|done].
    apply outcome_bind_Ret in Hr as (x & Hx & Hr). apply outcome_bind_Ret in Hx as ([[fs s'] d'] & Hd & Hx).
    apply outcome_bind_Ret in Hx as (acs & Hacs & Hx). injection Hx as <-. injection Hr as <- _ _.
    by eapply parseActions_wf.
Qed.

Lemma generateRules_wf name ms rc rrc rs rrs n dur :
  generateRules NewEvaluableExpression NewMovingAverage name ms rc rrc = Ret (rs, rrs, n, dur) ->
  Forall wf_rule rs /\ Forall wf_rule rrs.
Proof.
  unfold generateRules. intros H. apply outcome_bind_Ret in H as ([[r1 s1] d1] & H1 & H).
  apply outcome_bind_Ret in H as ([[r2 s2] d2] & H2 & H). injection H as <- <- _ _.
  split; [by eapply generateEntries_wf in H1|by eapply generateEntries_wf in H2].
Qed.
End Totality.

(** ** Node metrics *)

Section NodeValues.

(** Every metric name parses, and its value can be read from every state. *)
Definition metric_readable (sts : list NodeState) (metric : string) : Prop :=
  exists dev dm om, GetDeviceNameFromMetric metric = Ret (dev, dm, om) /\
    forall st, st ∈ sts -> exists r, ns_GetValue st om dev = Ret r.

Definition metrics_readable (metrics : list string) (sts : list NodeState) : Prop := Forall (metric_readable sts) metrics.

Lemma metrics_readable_sub metrics sts sts' : metrics_readable metrics sts -> sts' ⊆ sts -> metrics_readable metrics sts'.
Proof.
  intros H Hs. eapply Forall_impl; [exact H|]. intros m (dev & dm & om & E & Hr). exists dev, dm, om. split; [done|].
  intros st Hst. apply Hr, Hs, Hst.
Qed.

Lemma metric_params_total st sts metrics params :
  metrics_readable metrics sts -> st ∈ sts -> exists p, metric_params st metrics params = Ret p.
Proof.
  intros HF Hst. revert params. induction HF as [|m ms (dev & dm & om & Hm & Hr) HF IH]; intros params; simpl; [eauto|].
  rewrite Hm. simpl. destruct (Hr st Hst) as [r ->]. apply IH.
Qed.

Fixpoint times_sorted (t : time) (sts : list NodeState) : Prop :=
  match sts with
  | [] => True
  | st :: sts' => t <= ns_Timestamp st /\ times_sorted (ns_Timestamp st) sts'
  end.

(** The times not before [start]. *)
Definition times_from (start : time) (sts : list NodeState) : list time :=
  filter (fun t => start <= t) (map ns_Timestamp sts).

Lemma times_from_all start sts t :
  times_sorted t sts -> start <= t -> times_from start sts = map ns_Timestamp sts.
Proof.
  unfold times_from. revert t. induction sts as [|st sts IH]; intros t Hs Ht; simpl in *; [done|].
  destruct Hs as [H1 H2]. rewrite filter_cons_True by lia. f_equal. eapply IH; [done|lia].
Qed.

(** On sorted states the loop keeps the states not before [start], and the last
    one before it, if any. *)
Record kept_times (start : time) (sts : list NodeState) (ts pre : list time) : Prop := {
  kept_split : ts = pre ++ times_from start sts;
  kept_pre : (length pre <= 1)%nat;
  kept_head : forall st, head sts = Some st -> start <= ns_Timestamp st -> pre = [];
  kept_length : (length ts <= length sts)%nat;
  kept_last : last ts = last (map ns_Timestamp sts);
}.

(** Keeping the first state, when it or the next is not before [start]. *)
Lemma kept_cons start st sts ts pre :
  times_sorted (ns_Timestamp st) sts ->
  kept_times start sts ts pre ->
  (forall st', head sts = Some st' -> start <= ns_Timestamp st \/ start <= ns_Timestamp st') ->
  exists pre', kept_times start (st :: sts) (ns_Timestamp st :: ts) pre'.
Proof.
  intros Hs [E0 Hp Hh Hl Hlast] Hn.
  assert (Hpre : pre = []).
  { destruct sts as [|st' sts]; [simpl in *; destruct ts; [|simpl in *; lia]; by destruct pre|].
    apply (Hh st' eq_refl). destruct (Hn st' eq_refl); [|done]. simpl in Hs. lia. }
  subst pre. simpl in E0.
  assert (HL : last (ns_Timestamp st :: ts) = last (map ns_Timestamp (st :: sts)))
    by (simpl; rewrite !last_cons, Hlast; done).
  destruct (decide (start <= ns_Timestamp st)) as [Hst|Hst].
  - exists []. split; [|done|done|simpl; lia|done]. unfold times_from in *. simpl.
    rewrite filter_cons_True by done. by rewrite E0.
  - exists [ns_Timestamp st]. split; [|simpl; lia| |simpl; lia|done].
    + unfold times_from in *. simpl. rewrite filter_cons_False by done. by rewrite E0.
    + intros st' [= <-] ?. done.
Qed.

Lemma nodeValuesLoop_spec metrics start sts t :
  metrics_readable metrics sts -> times_sorted t sts ->
  exists vals, nodeValuesLoop metrics start sts = Ret vals /\ exists pre, kept_times start sts (map Ts vals) pre.
Proof.
  intros HF. revert t. induction sts as [|st sts IH]; intros t Hs; simpl.
  { exists []. split; [done|]. exists []. split; simpl; done || lia. }
  destruct Hs as [H1 H2]. destruct (IH ltac:(eapply metrics_readable_sub; [done|set_solver]) _ H2) as (vals & Ev & pre & Hk).
  destruct (metric_params_total st (st :: sts) metrics ∅ HF ltac:(left)) as [p Hpar].
  destruct (match sts with | [] => false | _ => _ end) eqn:Hskip.
  - destruct sts as [|stNext sts]; [done|]. apply andb_true_iff in Hskip as [Ha Hb].
    unfold time_After in Ha, Hb. exists vals. split; [done|]. exists pre.
    destruct Hk as [E0 Hp Hh Hl Hlast]. split; [|done| |simpl in *; lia|].
    + unfold times_from in *. simpl. rewrite filter_cons_False by lia. exact E0.
    + intros st' [= <-] ?. lia.
    + rewrite Hlast. simpl. by rewrite !last_cons.
  - rewrite Hpar. simpl. rewrite Ev. simpl. eexists. split; [done|]. simpl.
    eapply kept_cons; [done|done|]. intros st' Hst'. destruct sts as [|stNext sts]; [done|].
    injection Hst' as ->. unfold time_After in Hskip. lia.
Qed.
End NodeValues.

(** ** Properties *)

Section Properties.
Context {RO : RangeOrder} {Q : Type} `{QO : QuantityOps Q}.
Context {E : Type} (Evaluate : E -> gmap string float64 -> result (option bool)).
Context (NewEvaluableExpression : string -> result E).
Context {MA : Type} (NewMovingAverage : float64 -> MA) (MA_Add : MA -> float64 -> MA)
  (MA_Value : MA -> float64).

(** C2: Over any sequence of checks of a rule at times that do not go back, two
    handled anomalies are more than [handleInterval] apart, and a recovery comes
    more than [recoverInterval] after every anomaly (handled or not) and every
    recovery before it. *)
Theorem checkRule_rate_limited (c : ruleCheckEntry (Q := Q) (E := E) (MA := MA)) inputs t0 outs c' :
  runRule Evaluate NewMovingAverage MA_Add MA_Value c inputs = Ret (outs, c') ->
  ordered t0 inputs -> lastAbnormal c = None -> 0 <= handleInterval c -> 0 <= recoverInterval c ->
  forall i j ti ri tj rj, (i < j)%nat -> outs !! i = Some (ti, ri) -> outs !! j = Some (tj, rj) ->
    (handled ri -> handled rj -> ti + handleInterval c < tj) /\
    (cr_anomaly ri = true \/ recovered ri -> recovered rj -> ti + recoverInterval c < tj).
Proof.
  intros H Ho Hl Hh Hr. apply (runRule_pairs Evaluate NewMovingAverage MA_Add MA_Value inputs c t0 outs c' H Ho); [|done..].
  by rewrite Hl.
Qed.

(** A check that is held back by an interval does nothing: its result is
    empty, no alarm is sent and the actions of the rule (their ratios and loop
    positions) are those of before. *)
Theorem checkRule_limited_does_nothing (c : ruleCheckEntry (Q := Q) (E := E) (MA := MA)) values now r c' :
  checkRule Evaluate NewMovingAverage MA_Add MA_Value c values now = Ret (r, c') ->
  cr_noNeedHandle r = true \/ cr_noNeedRecover r = true ->
  cr_result r = emptyResult /\ cr_alarms r = [] /\
  map actions (rules c') = map actions (rules c) /\ recoverRules c' = recoverRules c /\
  lastHandle c' = lastHandle c.
Proof.
  unfold checkRule. intros H Hn. apply outcome_bind_Ret in H as ([vs rs] & Hc & H).
  assert (Hacts : map actions rs = map actions (rules c)).
  { clear H Hn. revert vs rs Hc. induction (rules c) as [|x l IH]; intros vs rs Hc; simpl in Hc; [by injection Hc as <- <-|].
    apply outcome_bind_Ret in Hc as ([v ds] & _ & Hc). apply outcome_bind_Ret in Hc as ([vs' rs'] & Hc' & Hc).
    injection Hc as <- <-. simpl. f_equal. by eapply IH. }
  destruct (existsb _ vs).
  - destruct (still_waiting (lastHandle c) _ _); [by injection H as <- <-|].
    apply outcome_bind_Ret in H as ([[? ?] ?] & _ & H). injection H as <- <-. by destruct Hn.
  - destruct (still_waiting _ (recoverInterval c) _); [by injection H as <- <-|].
    apply outcome_bind_Ret in H as ([? ?] & _ & H).
    destruct (existsb _ _); [|destruct (_ <? _)%nat];
      try apply outcome_bind_Ret in H as ([[? ?] ?] & _ & H); injection H as <- <-; by destruct Hn.
Qed.


(** The dispatcher remembers the latest schedule verdict of every rule and
    disables offline scheduling exactly when one of them asks for it; it hands
    the adjustments to the conflict manager, and notifies the resource and QoS
    managers exactly when the round asks for a sync or the conflicts changed;
    whatever the iteration orders. *)
Theorem HandleActionResult_spec (d : dispatcher (Q := Q)) (acRet : ActionResult Q) :
  let '(cmds, d') := HandleActionResult d acRet in
  let '(conflicts, changed) := UpdateConflictList (conflictMn d) (AdjustResources acRet) in
  unschedule d' = UnscheduleMap acRet ∪ unschedule d /\ conflictMn d' = conflicts /\
  (hasResourceManager d = true ->
     (DisableOfflineSchedule ∈ cmds <-> exists k, (UnscheduleMap acRet ∪ unschedule d) !! k = Some true) /\
     (EnableOfflineSchedule ∈ cmds <-> ~ exists k, (UnscheduleMap acRet ∪ unschedule d) !! k = Some true) /\
     ((exists res reason, SyncNodeResource res reason ∈ cmds) <-> SyncEvent acRet || changed = true)) /\
  (hasQosManager d = true ->
     ((exists res reason, UpdateEvent res reason ∈ cmds) <-> SyncEvent acRet || changed = true)).
Proof.
  unfold HandleActionResult. destruct (UpdateConflictList _ _) as [conflicts changed].
  set (un := fold_left _ _ (unschedule d)).
  assert (Hun : un = UnscheduleMap acRet ∪ unschedule d).
  { apply map_eq. intros k. unfold un.
    rewrite (fold_left_ext _ (fun m '(k, v) => partial_alter (fun _ => Some v) k m)) by (intros m [? ?] _; done).
    rewrite (range_fold_local (fun _ v _ => Some v)), lookup_union.
    by destruct (UnscheduleMap acRet !! k), (unschedule d !! k). }
  set (uns := fold_left _ (range_map "HandleActionResult.unschedule" un) false).
  assert (Huns : uns = true <-> exists k, un !! k = Some true).
  { unfold uns. clear. setoid_rewrite <- (elem_of_range "HandleActionResult.unschedule" un).
    induction (range_map _ un) as [|[k v] l IH] using rev_ind; simpl.
    { split; [done|]. intros [k Hk]. by apply elem_of_nil in Hk. }
    rewrite fold_left_app. simpl. rewrite orb_true_iff, IH. split.
    - intros [[k' Hk']| ->]; [exists k'|exists k]; apply elem_of_app; [by left|right; by left].
    - intros [k' [Hk'|Hk']%elem_of_app]; [left; eauto|right].
      apply elem_of_cons in Hk' as [[= -> ->]|Hk']; [done|by apply elem_of_nil in Hk']. }
  rewrite Hun in Huns. simpl. split_and!; [done|done| |].
  - intros ->. rewrite <- Huns. destruct uns, (SyncEvent acRet || changed), (hasQosManager d); simpl;
      repeat setoid_rewrite elem_of_cons; repeat setoid_rewrite elem_of_nil; naive_solver.
  - intros ->. destruct (hasResourceManager d), uns, (SyncEvent acRet || changed); simpl;
      repeat setoid_rewrite elem_of_cons; repeat setoid_rewrite elem_of_nil; naive_solver.
Qed.
End Properties.

(** On states in increasing order of time the metrics of a rule end with the
    latest state, are at most [samples] many, and are the states of the last
    [duration] among the last [samples], with at most one earlier state (so that
    a run of the full duration is seen). *)
Theorem getNodeMetricsValues_window metrics sts samples dur t st :
  metrics_readable metrics sts -> times_sorted t sts -> last sts = Some st ->
  let i := if (0 <? samples) && (samples <? Z.of_nat (length sts))
           then (length sts - Z.to_nat samples)%nat else 0%nat in
  let start := if dur =? 0 then zeroTime else ns_Timestamp st - dur in
  exists vals pre, getNodeMetricsValues metrics sts samples dur = Ret vals /\
    map Ts vals = pre ++ times_from start (drop i sts) /\ (length pre <= 1)%nat /\
    last (map Ts vals) = Some (ns_Timestamp st) /\
    (0 < samples -> Z.of_nat (length vals) <= samples).
Proof.
  intros HF Hs Hlast i start. unfold getNodeMetricsValues. rewrite Hlast. fold i.
  replace (if negb (dur =? 0) then time_Add (ns_Timestamp st) (- dur) else zeroTime) with start
    by (unfold start, time_Add; destruct (dur =? 0); simpl; lia).
  assert (Hdrop : forall j sts t, times_sorted t sts -> exists t', times_sorted t' (drop j sts)).
  { clear. intros j. induction j as [|j IH]; intros sts t Hs; [rewrite drop_0; eauto|].
    destruct sts as [|x sts]; simpl; [by exists 0|]. destruct Hs as [_ Hs]. eauto. }
  assert (Hne : sts <> []) by (by intros ->). assert (Hln : (0 < length sts)%nat) by (destruct sts; simpl; [done|lia]).
  assert (Hi : (i < length sts)%nat).
  { unfold i. destruct (Z.ltb_spec 0 samples), (Z.ltb_spec samples (Z.of_nat (length sts))); simpl; lia. }
  destruct (Hdrop i sts t Hs) as [t' Hs'].
  destruct (nodeValuesLoop_spec metrics start (drop i sts) t' (metrics_readable_sub _ _ _ HF (subseteq_drop _ _)) Hs') as (vals & Ev & pre & [E0 Hp Hh Hl Hll]).
  exists vals, pre. split_and!; [done|done|done| |].
  - rewrite Hll. change (map ns_Timestamp) with (fmap (M := list) ns_Timestamp).
    rewrite fmap_last, last_lookup, lookup_drop, length_drop.
    rewrite last_lookup in Hlast. replace (i + pred (length sts - i))%nat with (pred (length sts)) by lia.
    by rewrite Hlast.
  - intros Hpos. rewrite length_map in Hl. rewrite length_drop in Hl. unfold i in *.
    destruct (Z.ltb_spec 0 samples), (Z.ltb_spec samples (Z.of_nat (length sts))); simpl in *; lia.
Qed.

(** The SLO rule cannot use a duration: with any history, asking
    [sloMetricFunc] for a duration reads the last element of the still empty
    result and panics. *)
Theorem sloMetricFunc_duration_panics history samples dur :
  history <> [] -> dur <> 0 -> sloMetricFunc history samples dur = Crash (Panic "index out of range").
Proof.
  intros Hh Hd. unfold sloMetricFunc. destruct history; [done|]. destruct (Z.eqb_spec dur 0); done.
Qed.

(** *** Witnesses *)

Definition ex_evaluate (_ : unit) (_ : gmap string float64) : result (option bool) := Ok (Some true).
Definition ex_values : metricsValuesFunc := fun _ _ _ => Ret [mkTimedData 5 ∅].

Definition ex_config : list (option DetectActionConfig) :=
  [Some (mkDetectActionConfig [mkDetectConfig "expression" "load > 1" 1 0 0 ""] [mkActionConfig "schedule" None])].

Definition ex_rules : list (ruleEntry (Q := Z) (E := unit) (MA := float64)) :=
  [mkRuleEntry [DExpression (NewExpressionDetector ["load"] tt (Some (1, 0)))] [ASchedule "cpu"]].

Definition ex_entry : ruleCheckEntry (Q := Z) (E := unit) (MA := float64) :=
  mkRuleCheckEntry "cpu" ex_rules [] 1 0 1 5 60 0 None None None.

Definition ex_run := runRule (RO := key_order) ex_evaluate (fun _ => fzero) (fun _ v => v) (fun m => m) ex_entry
  [(ex_values, 10); (ex_values, 12); (ex_values, 20)].
Definition ex_outs := match ex_run with Ret (outs, _) => outs | Crash _ => [] end.
Definition ex_end := match ex_run with Ret (_, c) => c | Crash _ => ex_entry end.

Lemma checkRule_rate_limited_witness :
  exists ri rj, ex_outs !! 0%nat = Some (10, ri) /\ ex_outs !! 2%nat = Some (20, rj) /\
    handled ri /\ handled rj /\ 10 + handleInterval ex_entry < 20.
Proof.
  eexists _, _. split; [vm_compute; reflexivity|]. split; [vm_compute; reflexivity|].
  split; [split; reflexivity|]. split; [split; reflexivity|].
  refine (proj1 (checkRule_rate_limited (RO := key_order) ex_evaluate (fun _ => fzero) (fun _ v => v) (fun m => m)
           ex_entry [(ex_values, 10); (ex_values, 12); (ex_values, 20)] 0 ex_outs ex_end _ _ _ _ _ 0 2 10 _ 20 _ _ _ _) _ _).
  - vm_compute. reflexivity.
  - simpl. lia.
  - reflexivity.
  - simpl. lia.
  - simpl. lia.
  - lia.
  - vm_compute. reflexivity.
  - vm_compute. reflexivity.
  - split; reflexivity.
  - split; reflexivity.
Defined.

Lemma checkRule_limited_does_nothing_witness :
  exists r c', checkRule (RO := key_order) ex_evaluate (fun _ => fzero) (fun _ v => v) (fun m => m)
      (set_rc ex_entry ex_rules [] (Some 8) None None) ex_values 10 = Ret (r, c') /\ cr_result r = emptyResult.
Proof.
  eexists _, _. split; [vm_compute; reflexivity|].
  refine (proj1 (checkRule_limited_does_nothing (RO := key_order) ex_evaluate (fun _ => fzero) (fun _ v => v) (fun m => m)
    (set_rc ex_entry ex_rules [] (Some 8) None None) ex_values 10 _ _ _ _)).
  - vm_compute. reflexivity.
  - left. reflexivity.
Defined.


Definition ex_node (t : time) : NodeState := mkNodeState t (fun _ _ => Ret (Ok fone)) fzero.

Lemma getNodeMetricsValues_window_witness :
  exists vals pre, getNodeMetricsValues ["cpu_percent"] [ex_node 10; ex_node 20; ex_node 30; ex_node 40] 3 5 = Ret vals /\
    map Ts vals = pre ++ [40] /\ (length pre <= 1)%nat.
Proof.
  destruct (getNodeMetricsValues_window ["cpu_percent"] [ex_node 10; ex_node 20; ex_node 30; ex_node 40] 3 5 0 (ex_node 40))
    as (vals & pre & H1 & H2 & H3 & _).
  - repeat constructor. do 3 eexists. split; [by vm_compute|]. intros st Hst. exists (Ok fone).
    repeat (apply elem_of_cons in Hst as [->|Hst]; [reflexivity|]). inversion Hst.
  - simpl. lia.
  - reflexivity.
  - exists vals, pre. split_and!; [exact H1|exact H2|exact H3].
Defined.

Lemma sloMetricFunc_duration_panics_witness :
  sloMetricFunc [mkSloParam fzero fone 7] 1 60 = Crash (Panic "index out of range").
Proof. apply (sloMetricFunc_duration_panics [mkSloParam fzero fone 7] 1 60); [discriminate|lia]. Defined.
