(* ===== verification/Topology.v ===== *)
(** * CPU topology and core selection

    pkg/caelus/util/cgroup/topology.go: the map of sibling hardware threads, and
    the choice of the cores that offline jobs may use.  The processors reported
    by gopsutil's [cpu.Info] are an argument. *)

From S2P Require Import Prelude GoStrings.

#[local] Open Scope string_scope.
#[local] Open Scope Z_scope.
#[local] Open Scope list_scope.

(** ** Operations *)

(** The fields of [cpu.InfoStat] the sources read. *)
Record InfoStat := mkInfoStat {
  CPU : Z;
  PhysicalID : string;
  CoreID : string;
}.

(** The key of a physical core: the concatenation of its two identifiers. *)
Definition core_key (i : InfoStat) : string := PhysicalID i +:+ CoreID i.

(** The body of the loop: the threads of the cores seen so far and the map of
    siblings. *)
Definition siblingStep (st : gmap string Z * gmap Z Z) (info : InfoStat) : gmap string Z * gmap Z Z :=
  let '(coreIdToThead, threadSiblings) := st in
  match coreIdToThead !! core_key info with
  | None => (<[core_key info := CPU info]> coreIdToThead, threadSiblings)
  | Some tid => (coreIdToThead, <[tid := CPU info]> (<[CPU info := tid]> threadSiblings))
  end.

Definition GenerateTheadSiblings (cpuinfo : list InfoStat) : gmap Z Z :=
  snd (fold_left siblingStep cpuinfo (∅, ∅)).

(** [sort.Ints]. *)
Definition sort_Ints (l : list Z) : list Z := merge_sort Z.le l.

(** The loop over the cores from high to low: [chosen] and the set of chosen
    cores; [total] holds the keys of [ifChosen]. *)
Fixpoint chooseLoop (threadSiblings : gmap Z Z) (total : gset Z) (chosenNum : Z) (cores : list Z)
    (chosen : list Z) (ifChosen : gset Z) : list Z * gset Z :=
  match cores with
  | [] => (chosen, ifChosen)
  | threadId :: cores' =>
      if bool_decide (threadId ∈ ifChosen)
      then chooseLoop threadSiblings total chosenNum cores' chosen ifChosen
      else
        let chosen1 := chosen ++ [threadId] in
        let ifChosen1 := {[threadId]} ∪ ifChosen in
        if Z.of_nat (length chosen1) =? chosenNum then (chosen1, ifChosen1)
        else
          match threadSiblings !! threadId with
          | Some sibling =>
              if bool_decide (sibling ∈ total) && negb (bool_decide (sibling ∈ ifChosen1)) then
                let chosen2 := chosen1 ++ [sibling] in
                let ifChosen2 := {[sibling]} ∪ ifChosen1 in
                if Z.of_nat (length chosen2) =? chosenNum then (chosen2, ifChosen2)
                else chooseLoop threadSiblings total chosenNum cores' chosen2 ifChosen2
              else chooseLoop threadSiblings total chosenNum cores' chosen1 ifChosen1
          | None => chooseLoop threadSiblings total chosenNum cores' chosen1 ifChosen1
          end
  end.

Definition ChooseNumaCores (threadSiblings : gmap Z Z) (totalCores : list Z) (chosenNum : Z) : list Z * list Z :=
  match totalCores with
  | [] => ([], [])
  | _ =>
      if chosenNum =? 0 then ([], totalCores)
      else
        let sorted := sort_Ints totalCores in
        let '(chosen, ifChosen) :=
          chooseLoop threadSiblings (list_to_set sorted) chosenNum (reverse sorted) [] ∅ in
        (chosen, filter (fun c => c ∉ ifChosen) sorted)
  end.

(** ** The map of siblings is symmetric *)

Definition symmetric_siblings (m : gmap Z Z) : Prop :=
  forall p q, m !! p = Some q -> p <> q /\ m !! q = Some p.

(** The processors of a physical core. *)
Definition threads_of (k : string) (l : list InfoStat) : list Z :=
  map CPU (filter (fun i => core_key i = k) l).

Lemma threads_of_snoc k l i :
  threads_of k (l ++ [i]) = threads_of k l ++ if decide (core_key i = k) then [CPU i] else [].
Proof.
  unfold threads_of. rewrite filter_app, map_app. f_equal.
  case_decide; [by rewrite filter_cons_True|by rewrite filter_cons_False].
Qed.

(** The loop invariant: the first thread of each core is recorded, and the
    siblings are the pairs of threads of one core. *)
Record sibling_inv (l : list InfoStat) (cores : gmap string Z) (m : gmap Z Z) : Prop := {
  si_first : forall k, cores !! k = head (threads_of k l);
  si_pairs : forall p q, m !! p = Some q <->
    exists k, threads_of k l = [p; q] \/ threads_of k l = [q; p];
}.

Lemma threads_of_In k l p : p ∈ threads_of k l -> p ∈ map CPU l.
Proof.
  unfold threads_of. intros H. apply list_elem_of_fmap in H as (i & -> & Hi).
  apply list_elem_of_filter in Hi as [_ Hi]. apply list_elem_of_fmap. eauto.
Qed.

Lemma threads_of_key l k k' p :
  NoDup (map CPU l) -> p ∈ threads_of k l -> p ∈ threads_of k' l -> k = k'.
Proof.
  induction l as [|i l IH]; intros Hnd; [by intros ?%elem_of_nil|].
  simpl in Hnd. apply NoDup_cons in Hnd as [Hi Hnd]. unfold threads_of in *. rewrite !filter_cons.
  assert (Hin : forall k, p ∈ map CPU (filter (fun i => core_key i = k) l) -> p ∈ map CPU l)
    by (intros k0; apply threads_of_In).
  repeat case_decide; simpl; rewrite ?elem_of_cons; intros H1 H2.
  - congruence.
  - destruct H1 as [->|H1]; [destruct Hi; by eapply Hin|by apply IH].
  - destruct H2 as [->|H2]; [destruct Hi; by eapply Hin|by apply IH].
  - by apply IH.
Qed.

Lemma siblingStep_inv l i st :
  NoDup (map CPU (l ++ [i])) -> (forall k, length (threads_of k (l ++ [i])) <= 2)%nat ->
  sibling_inv l st.1 st.2 ->
  sibling_inv (l ++ [i]) (siblingStep st i).1 (siblingStep st i).2.
Proof.
  destruct st as [cores m]. intros Hnd Hle [Hf Hp]. simpl in Hf, Hp. unfold siblingStep.
  rewrite map_app in Hnd. simpl in Hnd. apply NoDup_app in Hnd as (Hnd & Hnew & _).
  assert (Hfresh : CPU i ∉ map CPU l) by (intros Hx; apply (Hnew _ Hx); left).
  specialize (Hle (core_key i)) as Hlei. rewrite threads_of_snoc, decide_True in Hlei by done.
  rewrite Hf. destruct (threads_of (core_key i) l) as [|tid [|? ?]] eqn:Et; simpl in Hlei.
  - simpl. split; simpl.
    + intros k. rewrite threads_of_snoc. case_decide as Hk.
      * subst k. by rewrite lookup_insert_eq, Et.
      * rewrite lookup_insert_ne, Hf, app_nil_r by done. done.
    + intros p q. rewrite Hp. split; intros [k Hk]; exists k; rewrite ?threads_of_snoc in *;
        case_decide; subst; rewrite ?Et, ?app_nil_r in *; try done; simpl in *; destruct Hk; done.
  - simpl. assert (Htid : tid ∈ map CPU l) by (apply (threads_of_In (core_key i)); rewrite Et; left).
    assert (Hne : CPU i <> tid) by (by intros E; rewrite E in Hfresh).
    split; simpl.
    + intros k. rewrite threads_of_snoc, Hf. case_decide; [subst; by rewrite Et|by rewrite app_nil_r].
    + intros p q. destruct (decide (p = tid)) as [->|Hpt]; [|destruct (decide (p = CPU i)) as [->|Hpi]].
      * rewrite lookup_insert_eq. split.
        -- intros [= <-]. exists (core_key i). rewrite threads_of_snoc, decide_True, Et by done. by left.
        -- intros [k Hk]. assert (Ek : k = core_key i).
           { rewrite threads_of_snoc in Hk. destruct (decide (core_key i = k)); [done|].
             rewrite app_nil_r in Hk. apply (threads_of_key l _ _ tid Hnd); [|rewrite Et; left].
             destruct Hk as [-> | ->]; [left|right; left]. }
           subst k. rewrite threads_of_snoc, decide_True, Et in Hk by done. simpl in Hk.
           destruct Hk as [[= ->]|[= -> <-]]; [done|congruence].
      * rewrite lookup_insert_ne, lookup_insert_eq by done. split.
        -- intros [= <-]. exists (core_key i). rewrite threads_of_snoc, decide_True, Et by done. by right.
        -- intros [k Hk]. rewrite threads_of_snoc in Hk. case_decide as Ek.
           ++ subst k. rewrite Et in Hk. simpl in Hk. destruct Hk as [[= -> ->]|[= ->]]; [congruence|done].
           ++ rewrite app_nil_r in Hk. destruct Hfresh. apply (threads_of_In k).
              destruct Hk as [-> | ->]; [left|right; left].
      * rewrite !lookup_insert_ne, Hp by done. split; intros [k Hk]; exists k.
        -- rewrite threads_of_snoc. case_decide as Ek; [|by rewrite app_nil_r].
           subst k. rewrite Et in Hk. by destruct Hk.
        -- rewrite threads_of_snoc in Hk. case_decide as Ek; [|by rewrite app_nil_r in Hk].
           subst k. rewrite Et in Hk. simpl in Hk. destruct Hk as [Hk|Hk]; injection Hk; congruence.
  - rewrite length_app in Hlei. simpl in Hlei. lia.
Qed.

Lemma GenerateTheadSiblings_inv l :
  NoDup (map CPU l) -> (forall k, length (threads_of k l) <= 2)%nat ->
  sibling_inv l (fold_left siblingStep l (∅, ∅)).1 (fold_left siblingStep l (∅, ∅)).2.
Proof.
  induction l as [|i l IH] using rev_ind; intros Hnd Hle.
  - split; [done|]. intros p q. split; [done|]. intros [k [?|?]]; done.
  - rewrite fold_left_app. simpl. apply siblingStep_inv; [done|done|]. apply IH.
    + rewrite map_app in Hnd. by apply NoDup_app in Hnd as (? & _).
    + intros k. specialize (Hle k). rewrite threads_of_snoc, length_app in Hle. lia.
Qed.

(** ** The chosen cores *)

Section Choose.
Context (sib : gmap Z Z) (total : gset Z) (n : Z).
Hypothesis sib_symmetric : symmetric_siblings sib.

(** The sibling of every chosen core that is available is chosen too. *)
Definition sib_closed (chosen : list Z) : Prop :=
  forall t s, t ∈ chosen -> sib !! t = Some s -> s ∈ total -> s ∈ chosen.

(** The state before each iteration. *)
Record choose_inv (rest chosen : list Z) : Prop := {
  ch_nodup : NoDup chosen;
  ch_total : forall t, t ∈ chosen -> t ∈ total;
  ch_rest : forall t, t ∈ rest -> t ∈ total;
  ch_cover : forall t, t ∈ total -> t ∈ chosen \/ t ∈ rest;
  ch_count : Z.of_nat (length chosen) < n;
  ch_closed : sib_closed chosen;
}.

(** The chosen cores at the end. *)
Record choose_post (chosen : list Z) : Prop := {
  cp_nodup : NoDup chosen;
  cp_total : forall t, t ∈ chosen -> t ∈ total;
  cp_count : Z.of_nat (length chosen) = n \/
             (Z.of_nat (length chosen) < n /\ forall t, t ∈ total -> t ∈ chosen);
  cp_split : forall t s, t ∈ chosen -> sib !! t = Some s -> s ∈ total -> s ∉ chosen -> last chosen = Some t;
}.

Lemma chosen_snoc (chosen : list Z) t : NoDup chosen -> t ∉ chosen -> NoDup (chosen ++ [t]).
Proof.
  intros H1 H2. apply NoDup_app. split_and!; [done| |apply NoDup_singleton].
  intros x Hx ->%list_elem_of_singleton. done.
Qed.

Lemma elem_of_snoc (x t : Z) l : x ∈ l ++ [t] <-> x ∈ l \/ x = t.
Proof. by rewrite elem_of_app, list_elem_of_singleton. Qed.

Lemma choose_post_break chosen t :
  NoDup (chosen ++ [t]) -> (forall x, x ∈ chosen ++ [t] -> x ∈ total) ->
  Z.of_nat (length (chosen ++ [t])) = n ->
  (forall x s, x ∈ chosen -> sib !! x = Some s -> s ∈ total -> s ∈ chosen ++ [t]) ->
  choose_post (chosen ++ [t]).
Proof.
  intros H1 H2 H3 H4. split; [done|done|by left|].
  intros x s [Hx| ->]%elem_of_snoc Hs Hst Hns; [|apply last_snoc].
  destruct Hns. by eapply H4.
Qed.

(** The invariant after choosing a core whose sibling is not available, or
    after choosing both. *)
Lemma choose_inv_one rest t chosen :
  choose_inv (t :: rest) chosen -> t ∉ chosen -> Z.of_nat (length (chosen ++ [t])) <> n ->
  (forall s, sib !! t = Some s -> s ∈ total -> s ∈ chosen) ->
  choose_inv rest (chosen ++ [t]).
Proof.
  intros [H1 H2 H3 H4 H5 H6] Ht Hn Hs. rewrite length_app in Hn. simpl in Hn. split.
  - by apply chosen_snoc.
  - intros x [Hx| ->]%elem_of_snoc; [auto|apply H3; left].
  - intros x Hx. apply H3. by right.
  - intros x Hx. rewrite elem_of_snoc. destruct (H4 x Hx) as [?|[->|?]%elem_of_cons]; auto.
  - rewrite length_app. simpl. lia.
  - intros x s [Hx| ->]%elem_of_snoc Hxs Hst; apply elem_of_snoc; left; [by eapply H6|by apply Hs].
Qed.

Lemma choose_inv_two rest t s chosen :
  choose_inv (t :: rest) chosen -> t ∉ chosen -> s ∉ chosen -> s <> t -> s ∈ total -> sib !! t = Some s ->
  Z.of_nat (length (chosen ++ [t])) <> n -> Z.of_nat (length ((chosen ++ [t]) ++ [s])) <> n ->
  choose_inv rest ((chosen ++ [t]) ++ [s]).
Proof.
  intros [H1 H2 H3 H4 H5 H6] Ht Hs Hne Hst Hsib Hn1 Hn2. rewrite !length_app in *. simpl in *. split.
  - apply chosen_snoc; [by apply chosen_snoc|]. rewrite elem_of_snoc. intros [?|?]; done.
  - intros x [[Hx| ->]%elem_of_snoc| ->]%elem_of_snoc; [auto|apply H3; left|done].
  - intros x Hx. apply H3. by right.
  - intros x Hx. rewrite !elem_of_snoc. destruct (H4 x Hx) as [?|[->|?]%elem_of_cons]; auto.
  - rewrite !length_app. simpl. lia.
  - intros x y [[Hx| ->]%elem_of_snoc| ->]%elem_of_snoc Hxy Hy; rewrite !elem_of_snoc.
    + left. left. by eapply H6.
    + right. congruence.
    + left. right. destruct (sib_symmetric _ _ Hsib). congruence.
Qed.

Lemma chooseLoop_spec rest chosen sel :
  choose_inv rest chosen -> sel = list_to_set (C := gset Z) chosen ->
  exists chosen', chooseLoop sib total n rest chosen sel = (chosen', list_to_set chosen') /\ choose_post chosen'.
Proof.
  revert chosen sel. induction rest as [|t rest IH]; intros chosen sel Hinv Hsel; simpl.
  { exists chosen. split; [by subst|]. destruct Hinv as [H1 H2 H3 H4 H5 H6]. split; [done|done| |].
    - right. split; [done|]. intros x Hx. destruct (H4 x Hx) as [?|?%elem_of_nil]; done.
    - intros x s Hx Hs Hst Hns. destruct Hns. by eapply H6. }
  assert (Helem : forall x, x ∈ sel <-> x ∈ chosen) by (intros x; subst sel; apply elem_of_list_to_set).
  assert (Hset : forall l x, list_to_set (C := gset Z) (l ++ [x]) = {[x]} ∪ list_to_set l) by set_solver.
  case_bool_decide as Ht; rewrite Helem in Ht.
  - apply IH; [|done]. destruct Hinv as [H1 H2 H3 H4 H5 H6]. split; auto.
    + intros x Hx. apply H3. by right.
    + intros x Hx. destruct (H4 x Hx) as [?|[->|?]%elem_of_cons]; auto.
  - pose proof Hinv as [H1 H2 H3 H4 H5 H6].
    assert (Hnd : NoDup (chosen ++ [t])) by (by apply chosen_snoc).
    assert (Htt : forall x, x ∈ chosen ++ [t] -> x ∈ total)
      by (intros x [?| ->]%elem_of_snoc; [auto|apply H3; left]).
    destruct (Z.eqb_spec (Z.of_nat (length (chosen ++ [t]))) n) as [En|En].
    { exists (chosen ++ [t]). split; [by rewrite Hset, Hsel|]. apply choose_post_break; auto.
      intros x s Hx Hs Hst. apply elem_of_snoc. left. by eapply H6. }
    assert (Hone : (forall s, sib !! t = Some s -> s ∈ total -> s ∈ chosen) ->
      exists chosen', chooseLoop sib total n rest (chosen ++ [t]) ({[t]} ∪ sel) = (chosen', list_to_set chosen') /\ choose_post chosen')
      by (intros Hs; apply IH; [by apply choose_inv_one|by rewrite Hset, Hsel]).
    destruct (sib !! t) as [s|] eqn:Es; [|apply Hone; by intros s' ?].
    destruct (sib_symmetric _ _ Es) as [Hne Hback].
    destruct (bool_decide (s ∈ total) && negb (bool_decide (s ∈ {[t]} ∪ sel))) eqn:Hb.
    + apply andb_true_iff in Hb as [Hst%bool_decide_eq_true Hns%negb_true_iff%bool_decide_eq_false].
      assert (Hsc : s ∉ chosen) by (intros Hx; apply Hns; apply elem_of_union; right; by apply Helem).
      destruct (Z.eqb_spec (Z.of_nat (length ((chosen ++ [t]) ++ [s]))) n) as [En2|En2].
      * exists ((chosen ++ [t]) ++ [s]). split; [by rewrite !Hset, Hsel|]. apply choose_post_break; auto.
        -- apply chosen_snoc; [done|]. rewrite elem_of_snoc. intros [?|?]; congruence.
        -- intros x [?| ->]%elem_of_snoc; auto.
        -- intros x y [Hx| ->]%elem_of_snoc Hxy Hy; rewrite !elem_of_snoc; [left; left; by eapply H6|right; congruence].
      * apply IH; [by apply choose_inv_two|by rewrite !Hset, Hsel].
    + apply Hone. intros s' [= <-] Hst. apply andb_false_iff in Hb as [Hb|Hb].
      * by apply bool_decide_eq_false in Hb.
      * apply negb_false_iff, bool_decide_eq_true, elem_of_union in Hb as [Hb|Hb]; [|by apply Helem].
        apply elem_of_singleton in Hb. congruence.
Qed.
End Choose.

Lemma sort_Ints_perm l : sort_Ints l ≡ₚ l.
Proof. apply merge_sort_Permutation. Qed.

Lemma ChooseNumaCores_post sib l n :
  symmetric_siblings sib -> NoDup l -> l <> [] -> 0 < n ->
  exists chosen, ChooseNumaCores sib l n = (chosen, filter (fun c => c ∉ (list_to_set chosen : gset Z)) (sort_Ints l)) /\
    choose_post sib (list_to_set l) n chosen.
Proof.
  intros Hsym Hnd Hne Hn. unfold ChooseNumaCores.
  destruct (Z.eqb_spec n 0); [lia|].
  assert (Hset : list_to_set (C := gset Z) (sort_Ints l) = list_to_set l)
    by (apply leibniz_equiv, list_to_set_perm, sort_Ints_perm).
  rewrite Hset.
  destruct (chooseLoop_spec sib (list_to_set l) n Hsym (reverse (sort_Ints l)) [] ∅) as (chosen & E & Hp).
  - split; simpl.
    + apply NoDup_nil_2.
    + by intros t ?%elem_of_nil.
    + intros t Ht. apply elem_of_list_to_set. rewrite elem_of_reverse in Ht. by rewrite sort_Ints_perm in Ht.
    + intros t Ht%elem_of_list_to_set. right. apply elem_of_reverse. by rewrite sort_Ints_perm.
    + lia.
    + by intros t s ?%elem_of_nil.
  - done.
  - exists chosen. split; [|done]. rewrite E. by destruct l.
Qed.

Lemma chosen_left_perm (chosen l : list Z) :
  NoDup l -> NoDup chosen -> (forall t, t ∈ chosen -> t ∈ l) ->
  chosen ++ filter (fun c => c ∉ (list_to_set chosen : gset Z)) (sort_Ints l) ≡ₚ l.
Proof.
  intros Hl Hc Hsub. rewrite sort_Ints_perm.
  rewrite <- (filter_app_perm (fun c => c ∈ (list_to_set chosen : gset Z)) l) at 2.
  f_equiv. apply NoDup_Permutation; [done|by apply NoDup_filter|].
  intros t. rewrite list_elem_of_filter, elem_of_list_to_set. naive_solver.
Qed.

Lemma ChooseNumaCores_facts (sib : gmap Z Z) (l : list Z) (n : Z) :
  symmetric_siblings sib -> NoDup l -> 0 <= n ->
  let '(chosen, leftover) := ChooseNumaCores sib l n in
  chosen ++ leftover ≡ₚ l /\
  Z.of_nat (length chosen) = Z.min n (Z.of_nat (length l)) /\
  (forall t s, t ∈ chosen -> sib !! t = Some s -> s ∈ leftover -> last chosen = Some t).
Proof.
  intros Hsym Hnd Hn. destruct (decide (l = [])) as [->|Hne].
  { simpl. split_and!; [done|lia|]. by intros t s ?%elem_of_nil. }
  destruct (decide (n = 0)) as [->|Hn0].
  { unfold ChooseNumaCores. destruct l; [done|]. simpl. split_and!; [done|lia|]. by intros t s ?%elem_of_nil. }
  destruct (ChooseNumaCores_post sib l n Hsym Hnd Hne ltac:(lia)) as (chosen & -> & [H1 H2 H3 H4]).
  assert (Hsub : forall t, t ∈ chosen -> t ∈ l) by (intros t Ht; apply (elem_of_list_to_set (C := gset Z)); by apply H2).
  pose proof (chosen_left_perm chosen l Hnd H1 Hsub) as Hperm. split_and!; [done| |].
  - pose proof (Permutation_length Hperm) as Hlen. rewrite length_app in Hlen.
    destruct H3 as [H3|[H3 Hall]]; [lia|].
    assert (Hge : (length l <= length chosen)%nat).
    { apply NoDup_incl_length; [by apply NoDup_ListNoDup|]. intros t Ht.
      apply list_elem_of_In, Hall, elem_of_list_to_set. by apply list_elem_of_In. }
    lia.
  - intros t s Ht Hs Hleft. apply list_elem_of_filter in Hleft as [Hns Hsl].
    rewrite elem_of_list_to_set in Hns. rewrite sort_Ints_perm in Hsl.
    apply (H4 t s); [done|done|by apply elem_of_list_to_set|done].
Qed.

Lemma ChooseNumaCores_partition (sib : gmap Z Z) (l : list Z) (n : Z) :
  symmetric_siblings sib -> NoDup l -> 0 <= n ->
  let '(chosen, leftover) := ChooseNumaCores sib l n in
  chosen ++ leftover ≡ₚ l /\ Z.of_nat (length chosen) = Z.min n (Z.of_nat (length l)).
Proof.
  intros H1 H2 H3. pose proof (ChooseNumaCores_facts sib l n H1 H2 H3) as H.
  destruct (ChooseNumaCores sib l n). by destruct H as (? & ? & _).
Qed.

(** ** Properties *)

(** C18: The cores chosen for offline jobs and the cores left to online jobs
    partition the available cores; exactly the requested number is chosen, or
    all cores when there are fewer; and at most one physical core is shared
    between the two, since only the last chosen thread can have its sibling
    among the cores left. *)
Theorem ChooseNumaCores_correct (sib : gmap Z Z) (l : list Z) (n : Z) :
  symmetric_siblings sib -> NoDup l -> 0 <= n ->
  let '(chosen, leftover) := ChooseNumaCores sib l n in
  chosen ++ leftover ≡ₚ l /\
  Z.of_nat (length chosen) = Z.min n (Z.of_nat (length l)) /\
  (forall t s, t ∈ chosen -> sib !! t = Some s -> s ∈ leftover -> last chosen = Some t).
Proof. apply ChooseNumaCores_facts. Qed.

(** On a machine with at most two threads per core the map of siblings is
    symmetric: two processors are mapped to each other exactly when they are the
    two threads of one core. *)
Theorem GenerateTheadSiblings_pairs (l : list InfoStat) :
  NoDup (map CPU l) -> (forall k, length (threads_of k l) <= 2)%nat ->
  symmetric_siblings (GenerateTheadSiblings l) /\
  forall p q, GenerateTheadSiblings l !! p = Some q <->
    exists k, threads_of k l = [p; q] \/ threads_of k l = [q; p].
Proof.
  intros Hnd Hle. destruct (GenerateTheadSiblings_inv l Hnd Hle) as [_ Hp]. split; [|exact Hp].
  intros p q Hpq. unfold GenerateTheadSiblings in *. apply Hp in Hpq as [k Hk].
  assert (Hd : NoDup (threads_of k l)).
  { unfold threads_of. clear -Hnd. induction l as [|i l IH]; [constructor|].
    simpl in Hnd. apply NoDup_cons in Hnd as [Hi Hnd]. rewrite filter_cons. case_decide; [|by apply IH].
    simpl. apply NoDup_cons. split; [|by apply IH]. intros Hx. apply Hi. by eapply threads_of_In. }
  split.
  - intros ->. destruct Hk as [Hk|Hk]; rewrite Hk in Hd; apply NoDup_cons in Hd as [Hd _]; apply Hd; left.
  - apply Hp. exists k. tauto.
Qed.

(** A machine with two cores of two threads. *)
Definition ex_cpus : list InfoStat :=
  [mkInfoStat 0 "0" "0"; mkInfoStat 1 "0" "1"; mkInfoStat 2 "0" "0"; mkInfoStat 3 "0" "1"].

Lemma ChooseNumaCores_correct_witness :
  let '(chosen, leftover) := ChooseNumaCores {[0 := 2; 2 := 0; 1 := 3; 3 := 1]} [0; 1; 2; 3] 3 in
  chosen ++ leftover ≡ₚ [0; 1; 2; 3] /\ Z.of_nat (length chosen) = 3.
Proof.
  destruct (ChooseNumaCores {[0 := 2; 2 := 0; 1 := 3; 3 := 1]} [0; 1; 2; 3] 3) as [chosen leftover] eqn:E.
  pose proof (ChooseNumaCores_correct {[0 := 2; 2 := 0; 1 := 3; 3 := 1]} [0; 1; 2; 3] 3) as H. rewrite E in H.
  destruct H as (H1 & H2 & _).
  - intros p q Hpq. repeat (apply lookup_insert_Some in Hpq as [[<- <-]|[_ Hpq]]; [by split|]).
    apply lookup_singleton_Some in Hpq as [<- <-]. by split.
  - apply NoDup_ListNoDup. repeat constructor; simpl; lia.
  - lia.
  - split; [exact H1|exact H2].
Defined.

Lemma GenerateTheadSiblings_pairs_witness : symmetric_siblings (GenerateTheadSiblings ex_cpus).
Proof.
  apply (GenerateTheadSiblings_pairs ex_cpus).
  - apply NoDup_ListNoDup. vm_compute. repeat constructor; simpl; lia.
  - intros k. unfold threads_of, ex_cpus.
    repeat (rewrite filter_cons; case_decide); subst; simpl; try lia; vm_compute in *; congruence.
Defined.

(** The key of a physical core is the concatenation of the socket and the
    core number, without a separator: core 11 of socket 1 and core 1 of socket
    11 get the same key, and their threads are taken for siblings. *)
Theorem core_key_collision :
  let a := mkInfoStat 7 "1" "11" in
  let b := mkInfoStat 90 "11" "1" in
  core_key a = core_key b /\ GenerateTheadSiblings [a; b] !! 7 = Some 90.
Proof. split; reflexivity. Qed.
