(* ===== verification/Cgroup.v ===== *)
(** * Cgroup files

    pkg/caelus/util/cgroup: reading and writing the files of the cgroup file
    system.  The kernel is the parameter [CgroupEnv]: which writes it refuses,
    what a file shows after a write, and the processors of the machine.  The
    state [world] holds the files and the package variables of the sources. *)

From Stdlib Require Import Ascii.
From S2P Require Import Prelude GoStrings GoFloat Topology.

#[local] Open Scope string_scope.
#[local] Open Scope Z_scope.
#[local] Open Scope list_scope.

(** ** The environment and the state *)

(** What [cgroups.GetPids] of runc returns. *)
Inductive pids_result := Pids (pids : list Z) | PidsNotExist | PidsErr (e : error).

Class CgroupEnv := {
  (** The mount point of the cgroup hierarchies ([cachedCgroupRoot]). *)
  env_root : string;
  (** The error of the [n]-th write of a process, to a path with some data. *)
  env_write : nat -> string -> string -> option error;
  (** What a file shows after data has been written to it. *)
  env_readback : string -> string -> string;
  (** gopsutil's [cpu.Info]. *)
  env_cpuinfo : result (list InfoStat);
  (** The entries of a directory, and the directories under a path. *)
  env_readdir : string -> result (list string);
  env_walk : string -> result (list string);
  (** The processes of a cgroup after [n] writes. *)
  env_pids : nat -> string -> pids_result;
}.

Record world := mkWorld {
  files : gmap string string;
  writes : nat;
  threadSiblings : gmap Z Z;
  cpuTotal : Z;
  cpuBTChecked : bool;
  cpuBTSupported : bool;
  cpusetRecovered : bool;
}.

(** Operations on the state. *)
Definition M (A : Type) : Type := world -> A * world.

#[global] Instance M_ret : MRet M := fun A a w => (a, w).
#[global] Instance M_bind : MBind M := fun A B f m w => let '(a, w') := m w in f a w'.

Definition set_files (w : world) (fs : gmap string string) (n : nat) : world :=
  mkWorld fs n (threadSiblings w) (cpuTotal w) (cpuBTChecked w) (cpuBTSupported w) (cpusetRecovered w).
Definition set_siblings (w : world) (s : gmap Z Z) : world :=
  mkWorld (files w) (writes w) s (cpuTotal w) (cpuBTChecked w) (cpuBTSupported w) (cpusetRecovered w).
Definition set_cpuTotal (w : world) (n : Z) : world :=
  mkWorld (files w) (writes w) (threadSiblings w) n (cpuBTChecked w) (cpuBTSupported w) (cpusetRecovered w).
Definition set_bt (w : world) (supported : bool) : world :=
  mkWorld (files w) (writes w) (threadSiblings w) (cpuTotal w) true supported (cpusetRecovered w).
Definition set_recovered (w : world) (b : bool) : world :=
  mkWorld (files w) (writes w) (threadSiblings w) (cpuTotal w) (cpuBTChecked w) (cpuBTSupported w) b.

(** ** Paths *)

Definition path_clean_step (acc : list string) (part : string) : list string :=
  if (part =? "")%string || (part =? ".")%string then acc
  else if (part =? "..")%string then removelast acc
  else acc ++ [part].

(** [path.Join] of absolute paths and names. *)
Definition path_Join (parts : list string) : string :=
  String "/" (Join (fold_left path_clean_step (concat (map (fun p => Split p "/"%char) parts)) []) "/").

Lemma string_free_Split c s : Forall (string_free c) (Split s c).
Proof.
  induction s as [|d s IH]; simpl; [repeat constructor|].
  destruct (Ascii.eqb_spec d c); [by constructor|].
  destruct (Split s c) as [|w ws]; [repeat constructor; done|]. inversion IH. by constructor.
Qed.

(** A part of a cleaned path. *)
Definition clean_part (p : string) : Prop := p <> "" /\ p <> "." /\ p <> ".." /\ string_free "/" p.

Lemma path_clean_step_clean acc p :
  Forall clean_part acc -> string_free "/" p -> Forall clean_part (path_clean_step acc p).
Proof.
  intros Ha Hp. unfold path_clean_step.
  destruct (String.eqb_spec p ""), (String.eqb_spec p "."); simpl; try done.
  destruct (String.eqb_spec p "..").
  - induction Ha as [|x l Hx Hl IH]; simpl; [constructor|]. destruct l; [constructor|]. by constructor.
  - apply Forall_app. split; [done|]. by repeat constructor.
Qed.

Lemma path_clean_clean l acc :
  Forall clean_part acc -> Forall (string_free "/") l -> Forall clean_part (fold_left path_clean_step l acc).
Proof.
  intros Ha Hl. revert acc Ha. induction Hl as [|p l Hp Hl IH]; intros acc Ha; simpl; [done|].
  apply IH. by apply path_clean_step_clean.
Qed.

Lemma path_clean_id ps acc : Forall clean_part ps -> fold_left path_clean_step ps acc = acc ++ ps.
Proof.
  intros Hp. revert acc. induction Hp as [|p ps (H1 & H2 & H3 & _) Hp IH]; intros acc; simpl; [by rewrite app_nil_r|].
  rewrite IH. unfold path_clean_step.
  destruct (String.eqb_spec p ""), (String.eqb_spec p "."), (String.eqb_spec p ".."); try done.
  simpl. by rewrite <- app_assoc.
Qed.

(** Joining a joined path is joining its parts. *)
Lemma path_Join_nested l x : path_Join [path_Join l; x] = path_Join (l ++ [x]).
Proof.
  unfold path_Join at 1 3. rewrite map_app, concat_app, fold_left_app. simpl. rewrite app_nil_r.
  rewrite fold_left_app. do 3 f_equal.
  set (ps := fold_left path_clean_step (concat (map (fun p => Split p "/"%char) l)) []).
  assert (Hps : Forall clean_part ps).
  { apply path_clean_clean; [constructor|]. apply Forall_concat, Forall_fmap, Forall_forall.
    intros p _. apply string_free_Split. }
  unfold path_Join. fold ps. simpl. destruct ps as [|p0 ps0] eqn:Eps; [done|].
  change "/" with (String "/"%char "").
  rewrite Split_Join; [|done|eapply Forall_impl; [exact Hps|]; by intros q (_ & _ & _ & Hq)].
  by rewrite path_clean_id.
Qed.

Section Cgroup.
Context {CE : CgroupEnv}.

(** ** Reading and writing *)

Definition ReadFile (path : string) : M (result string) := fun w =>
  (match files w !! path with Some s => Ok s | None => Err "no such file or directory" end, w).

(** [ioutil.WriteFile]. *)
Definition write_path (path data : string) : M (option error) := fun w =>
  match env_write (writes w) path data with
  | Some e => (Some e, set_files w (files w) (S (writes w)))
  | None => (None, set_files w (<[path := env_readback path data]> (files w)) (S (writes w)))
  end.

Definition WriteFile (data cgroupPath cgroupFile : string) : M (option error) :=
  write_path (path_Join [cgroupPath; cgroupFile]) data.

Definition CpuSetSubsystem : string := "cpuset".
Definition cpusetCpus : string := "cpuset.cpus".
Definition cpusetMems : string := "cpuset.mems".
Definition CPUSubsystem : string := "cpu".
Definition MemorySubsystem : string := "memory".

Definition newline : ascii := ascii_of_nat 10.

(** [strings.Replace(s, "\n", "", -1)]. *)
Fixpoint drop_newlines (s : string) : string :=
  match s with
  | EmptyString => EmptyString
  | String c s' => if Ascii.eqb c newline then drop_newlines s' else String c (drop_newlines s')
  end.

(** ** cpuset.go *)

(** The integers from [a] to [b]. *)
Definition int_range (a b : Z) : list Z := map (fun i => a + Z.of_nat i) (seq 0 (Z.to_nat (b - a + 1))).

(** One entry of a cpu list; a bound that is not a number is 0. *)
Definition parseCpus (v : string) : list string :=
  match cut_byte v "-"%char with
  | None => [v]
  | Some (lo, hi) => map Itoa (int_range (default 0 (Atoi lo)) (default 0 (Atoi hi)))
  end.

Definition GetCpuSet (pathInRoot : string) (needParse : bool) : M (result (list string)) :=
  data ← ReadFile (path_Join [env_root; CpuSetSubsystem; pathInRoot; "cpuset.cpus"]);
  mret (match data with
        | Err e => Err e
        | Ok s =>
            let cpusetStr := drop_newlines s in
            if negb needParse then Ok (if (cpusetStr =? "")%string then [] else [cpusetStr])
            else Ok (concat (map parseCpus (Split cpusetStr ","%char)))
        end).

(** The loop of [EnsureCpuSetCores]: every prefix of the path gets the cores
    and the memory nodes of the root. *)
Fixpoint ensureLoop (totalCores totalMems : string) (done parts : list string) : M (option error) :=
  match parts with
  | [] => mret None
  | part :: parts' =>
      let done' := done ++ [part] in
      let dir := path_Join ([env_root; CpuSetSubsystem] ++ done') in
      e ← WriteFile totalCores dir cpusetCpus;
      match e with
      | Some err => mret (Some err)
      | None =>
          e ← WriteFile totalMems dir cpusetMems;
          match e with
          | Some err => mret (Some err)
          | None => ensureLoop totalCores totalMems done' parts'
          end
      end
  end.

Definition EnsureCpuSetCores (pathInRoot : string) : M (option error) :=
  originCores ← ReadFile (path_Join [env_root; CpuSetSubsystem; pathInRoot; cpusetCpus]);
  match originCores with
  | Err e => mret (Some e)
  | Ok s =>
      if negb (s =? String newline "")%string then mret None
      else
        totalCores ← ReadFile (path_Join [env_root; CpuSetSubsystem; cpusetCpus]);
        match totalCores with
        | Err e => mret (Some e)
        | Ok cores =>
            totalMems ← ReadFile (path_Join [env_root; CpuSetSubsystem; cpusetMems]);
            match totalMems with
            | Err e => mret (Some e)
            | Ok mems => ensureLoop cores mems [] (Split (TrimPrefix pathInRoot "/") "/"%char)
            end
        end
  end.

(** The text written for a list of cores: each with a comma, the last comma
    trimmed. *)
Definition cores_text (cores : list Z) : string :=
  TrimSuffix (fold_left (fun coresStr c => coresStr +:+ Itoa c +:+ ",") cores "") ",".

Definition WriteCpuSetCores (pathInRoot : string) (cores : list Z) : M (option error) :=
  match cores with
  | [] => mret None
  | _ => WriteFile (cores_text cores) (path_Join [env_root; CpuSetSubsystem; pathInRoot]) cpusetCpus
  end.

Definition WriteCpuSetCoresStr (pathInRoot coresStr : string) : M (option error) :=
  if (coresStr =? "")%string then mret None
  else WriteFile coresStr (path_Join [env_root; CpuSetSubsystem; pathInRoot]) cpusetCpus.

(** ** cpu.go *)

Definition SetCPUShares (pathInCgroup : string) (value : Z) : M (option error) :=
  WriteFile (Itoa value) (path_Join [env_root; CPUSubsystem; pathInCgroup]) "cpu.shares".

Definition SetCpuQuota (pathInCgroup : string) (cores : float64) : M (option error) :=
  let dir := path_Join [env_root; CPUSubsystem; pathInCgroup] in
  e ← WriteFile "1000000" dir "cpu.cfs_period_us";
  match e with
  | Some err => mret (Some err)
  | None =>
      let value := int64_of_float64 (fmul cores (float64_of_Z 1000000)) in
      let value := if feq cores (float64_of_Z (-1)) then -1 else value in
      WriteFile (Itoa value) dir "cpu.cfs_quota_us"
  end.

(** ** cpubt.go *)

Definition offlineAttribute : string := "cpu.offline".
Definition offlinePath : string := "/proc/offline/".

Definition CPUOfflineSupported : M bool := fun w =>
  if cpuBTChecked w then (cpuBTSupported w, w)
  else
    let supported := bool_decide (is_Some (files w !! path_Join [env_root; CPUSubsystem; offlineAttribute])) in
    (supported, set_bt w supported).

(** The error of the write is logged and dropped. *)
Definition CPUOfflineSet (pathInSubSystem : string) (enable : bool) : M (option error) :=
  _ ← WriteFile (if enable then "1" else "0") (path_Join [env_root; "cpu,cpuacct"; pathInSubSystem]) offlineAttribute;
  mret None.

(** [filepath.Walk] stops at the first directory whose write fails. *)
Fixpoint childLoop (value : string) (dirs : list string) : M (option error) :=
  match dirs with
  | [] => mret None
  | dir :: dirs' =>
      e ← WriteFile value dir offlineAttribute;
      match e with
      | Some err => mret (Some err)
      | None => childLoop value dirs'
      end
  end.

Definition CPUChildOfflineSet (pathInSubSystem : string) (enable : bool) : M (option error) :=
  match env_walk (path_Join [env_root; "cpu,cpuacct"; pathInSubSystem]) with
  | Err e => mret (Some e)
  | Ok dirs => childLoop (if enable then "1" else "0") dirs
  end.

Definition getCpuTotal : M (result Z) := fun w =>
  if negb (cpuTotal w =? 0) then (Ok (cpuTotal w), w)
  else match env_cpuinfo with
       | Err e => (Err e, w)
       | Ok info => (Ok (Z.of_nat (length info)), set_cpuTotal w (Z.of_nat (length info)))
       end.

Fixpoint limitLoop (value : string) (names : list string) : M unit :=
  match names with
  | [] => mret tt
  | name :: names' => _ ← write_path (path_Join [offlinePath; name]) value; limitLoop value names'
  end.

(** The percentage of the machine left to offline jobs; a division by zero
    panics. *)
Definition offlinePercent (cpuLimitNum total minPercent : Z) : outcome (result Z) :=
  if total <? cpuLimitNum then Ret (Err "cpu limit number too big")
  else if total =? 0 then Crash (Panic "integer divide by zero")
  else
    let percent := int64 (cpuLimitNum * 100) `quot` total in
    Ret (Ok (if percent <? minPercent then minPercent else percent)).

Definition CPUOfflineLimit (cpuLimitNum minPercent : Z) : M (outcome (option error)) :=
  total ← getCpuTotal;
  match total with
  | Err e => mret (Ret (Some e))
  | Ok total =>
      match offlinePercent cpuLimitNum total minPercent with
      | Crash c => mret (Crash c)
      | Ret (Err e) => mret (Ret (Some e))
      | Ret (Ok percent) =>
          match env_readdir offlinePath with
          | Err e => mret (Ret (Some e))
          | Ok names => _ ← limitLoop (Itoa percent +:+ " ") names; mret (Ret None)
          end
      end
  end.

(** ** memory.go *)

Definition unLimitSize : string := "9223372036854771712".

Definition SetMemoryLimit (pathInRoot : string) (value : Z) : M (option error) :=
  WriteFile (Itoa value) (path_Join [env_root; MemorySubsystem; pathInRoot]) "memory.limit_in_bytes".

Definition readMemoryFile (file : string) : M (result string) :=
  data ← ReadFile file;
  mret (match data with Ok s => Ok (drop_newlines s) | Err e => Err e end).

(** The limit, and whether there is one; -1 stands for no limit. *)
Definition GetMemoryLimit (pathInRoot : string) : M (result (Z * bool)) :=
  limitStr ← readMemoryFile (path_Join [env_root; MemorySubsystem; pathInRoot; "memory.limit_in_bytes"]);
  mret (match limitStr with
        | Err e => Err e
        | Ok s =>
            if (s =? unLimitSize)%string then Ok (-1, false)
            else match Atoi s with Some v => Ok (v, true) | None => Err "invalid syntax" end
        end).

Definition GetMemoryUsage (pathInRoot : string) : M (result Z) :=
  data ← readMemoryFile (path_Join [env_root; MemorySubsystem; pathInRoot; "memory.usage_in_bytes"]);
  mret (match data with
        | Err e => Err e
        | Ok s => match Atoi (drop_newlines s) with Some v => Ok v | None => Err "invalid syntax" end
        end).

(** Whether dropping the cache is supported, and the error. *)
Definition MemoryForceEmpty (pathInRoot : string) : M (bool * option error) :=
  e ← WriteFile "0" (path_Join [env_root; MemorySubsystem; pathInRoot]) "memory.force_empty";
  mret (match e with
        | Some err => if Contains err "write error" then (false, None) else (true, Some err)
        | None => (true, None)
        end).

Definition SetMemoryMoveImmigrate (pathInRoot value : string) : M (option error) :=
  WriteFile value (path_Join [env_root; MemorySubsystem; pathInRoot]) "memory.move_charge_at_immigrate".

(** ** cgroup.go *)

Fixpoint writePids (path : string) (pids : list Z) (errs : list error) : M (list error) :=
  match pids with
  | [] => mret errs
  | pid :: pids' =>
      e ← write_path path (Itoa pid);
      writePids path pids' (match e with Some err => errs ++ [err] | None => errs end)
  end.

Fixpoint moveLoop (subsystems : list string) (pids : list Z) (targetPath : string) (errs : list error) :
    M (option error) :=
  match subsystems with
  | [] => mret (match errs with [] => None | _ => Some "write pid err" end)
  | sub :: subs =>
      e ← (if (sub =? MemorySubsystem)%string then SetMemoryMoveImmigrate targetPath "3" else mret None);
      match e with
      | Some err => mret (Some err)
      | None =>
          errs' ← writePids (path_Join [env_root; sub; targetPath; "cgroup.procs"]) pids errs;
          moveLoop subs pids targetPath errs'
      end
  end.

Definition MoveSpecificPids (subsystems : list string) (pids : list Z) (targetPath : string) : M (option error) :=
  match subsystems, pids with
  | [], _ | _, [] => mret None
  | _, _ => moveLoop subsystems pids targetPath []
  end.

Fixpoint movePidsLoop (subsystems : list string) (sourePath targetPath : string) (movedPids : list Z) (errs : list error) :
    M (list Z * option error) :=
  match subsystems with
  | [] => mret (movedPids, match errs with [] => None | _ => Some "write pid err" end)
  | sub :: subs =>
      e ← (if (sub =? MemorySubsystem)%string then SetMemoryMoveImmigrate targetPath "3" else mret None);
      match e with
      | Some err => mret (movedPids, Some err)
      | None =>
          pids ← (fun w => (env_pids (writes w) (path_Join [env_root; sub; sourePath]), w));
          match pids with
          | PidsErr err => movePidsLoop subs sourePath targetPath movedPids (errs ++ [err])
          | PidsNotExist | Pids [] => movePidsLoop subs sourePath targetPath movedPids errs
          | Pids pids =>
              errs' ← writePids (path_Join [env_root; sub; targetPath; "cgroup.procs"]) pids errs;
              movePidsLoop subs sourePath targetPath (movedPids ++ pids) errs'
          end
      end
  end.

(** The moved processes and the error. *)
Definition MovePids (subsystems : list string) (sourePath targetPath : string) : M (list Z * option error) :=
  movePidsLoop subsystems sourePath targetPath [] [].

(** ** blkio.go *)

Definition ReadThrottleFile : string := "blkio.throttle.read_bps_device".
Definition WriteThrottleFile : string := "blkio.throttle.write_bps_device".
Definition weightDevice : string := "blkio.weight_device".
Definition offlineWeight : Z := 10.

Definition getBlockDeviceNumbers (name : string) : M (result string) :=
  dev ← ReadFile (path_Join ["/sys/block"; name; "/dev"]);
  mret (match dev with Ok s => Ok (drop_newlines s) | Err e => Err e end).

(** Unset the limits the lines of a throttle file show. *)
Fixpoint unthrottleLines (cgroupPath file : string) (ls : list string) : M (option error) :=
  match ls with
  | [] => mret None
  | line :: ls' =>
      match Split line " "%char with
      | [dev; _] =>
          e ← WriteFile (dev +:+ " 0") cgroupPath file;
          match e with
          | Some err => mret (Some err)
          | None => unthrottleLines cgroupPath file ls'
          end
      | _ => unthrottleLines cgroupPath file ls'
      end
  end.

Fixpoint unthrottleFiles (cgroupPath : string) (fs : list string) : M (option error) :=
  match fs with
  | [] => mret None
  | file :: fs' =>
      data ← ReadFile (path_Join [cgroupPath; file]);
      match data with
      | Err e => mret (Some e)
      | Ok s =>
          e ← unthrottleLines cgroupPath file (Split s newline);
          match e with
          | Some err => mret (Some err)
          | None => unthrottleFiles cgroupPath fs'
          end
      end
  end.

(** A failed weight is logged; the device goes without it. *)
Fixpoint weightLoop (cgroupPath : string) (deviceNames : list string) : M unit :=
  match deviceNames with
  | [] => mret tt
  | deviceName :: names =>
      deviceNumber ← getBlockDeviceNumbers deviceName;
      match deviceNumber with
      | Err _ => weightLoop cgroupPath names
      | Ok n => _ ← WriteFile (n +:+ " " +:+ Itoa offlineWeight) cgroupPath weightDevice; weightLoop cgroupPath names
      end
  end.

Definition SetBlkioWeight (pathInSubSystem : string) (deviceNames : list string) : M (option error) :=
  let cgroupPath := path_Join [env_root; "blkio"; pathInSubSystem] in
  e ← unthrottleFiles cgroupPath [ReadThrottleFile; WriteThrottleFile];
  match e with
  | Some err => mret (Some err)
  | None => _ ← weightLoop cgroupPath deviceNames; mret None
  end.

(** [GenerateTheadSiblings] stores the map in the package variable. *)
Definition GenerateTheadSiblings_store : M (option error) := fun w =>
  match env_cpuinfo with
  | Err e => (Some e, w)
  | Ok info => (None, set_siblings w (GenerateTheadSiblings info))
  end.
End Cgroup.

(** ** The kernel's list format *)

(** A list of ranges as the kernel prints it, e.g. ["0-3,8"]. *)
Definition range_text (r : Z * Z) : string :=
  if r.1 =? r.2 then Itoa r.1 else Itoa r.1 +:+ "-" +:+ Itoa r.2.
Definition ranges_text (rs : list (Z * Z)) : string := Join (map range_text rs) ",".

Definition wf_range (r : Z * Z) : Prop := 0 <= r.1 <= r.2 /\ r.2 < 2 ^ 63.

Definition ranges_cores (rs : list (Z * Z)) : list Z := concat (map (fun r => int_range r.1 r.2) rs).

Lemma not_digit (c : ascii) : char_digit c = None -> forall d, 0 <= d < 10 -> digit_char d <> c.
Proof. apply digit_char_not. Qed.

Lemma Itoa_nonneg_free c z : 0 <= z -> char_digit c = None -> string_free c (Itoa z).
Proof.
  intros Hz Hc. unfold Itoa. destruct (Z.ltb_spec z 0); [lia|].
  apply print_digits_free; [by apply not_digit|done].
Qed.

Lemma range_text_free c r :
  wf_range r -> char_digit c = None -> c <> "-"%char -> string_free c (range_text r).
Proof.
  intros [[H1 H2] H3] Hc Hd. unfold range_text. destruct (r.1 =? r.2).
  - by apply Itoa_nonneg_free.
  - rewrite !string_free_app. split_and!; [by apply Itoa_nonneg_free|simpl; by split|apply Itoa_nonneg_free; [lia|done]].
Qed.

Lemma cut_byte_free c s : string_free c s -> cut_byte s c = None.
Proof.
  induction s as [|d s IH]; simpl; [done|]. intros [Hd Hs].
  destruct (Ascii.eqb_spec d c); [done|]. by rewrite IH.
Qed.

Lemma cut_byte_first c a b : string_free c a -> cut_byte (a +:+ String c b) c = Some (a, b).
Proof.
  induction a as [|d a IH]; simpl; [by rewrite Ascii.eqb_refl|]. intros [Hd Ha].
  destruct (Ascii.eqb_spec d c); [done|]. by rewrite IH.
Qed.

Lemma int_range_single a : int_range a a = [a].
Proof. unfold int_range. replace (Z.to_nat (a - a + 1)) with 1%nat by lia. simpl. f_equal. lia. Qed.

Lemma singles_cores l : ranges_cores (map (fun c => (c, c)) l) = l.
Proof. unfold ranges_cores. induction l as [|x l IH]; simpl; [done|]. by rewrite int_range_single, IH. Qed.

Lemma parseCpus_range r : wf_range r -> parseCpus (range_text r) = map Itoa (int_range r.1 r.2).
Proof.
  intros [[H1 H2] H3]. unfold range_text, parseCpus.
  assert (Hf : forall z, 0 <= z -> string_free "-" (Itoa z)) by (intros z Hz; by apply Itoa_nonneg_free).
  destruct (Z.eqb_spec r.1 r.2) as [->|Hne].
  - rewrite cut_byte_free by (apply Hf; lia). by rewrite int_range_single.
  - change ("-" +:+ Itoa r.2) with (String "-" (Itoa r.2)).
    rewrite cut_byte_first by (apply Hf; lia). simpl in *.
    rewrite !Atoi_Itoa by (unfold in_int64; simpl in *; lia). done.
Qed.

Lemma Join_free c sep l : string_free c sep -> Forall (string_free c) l -> string_free c (Join l sep).
Proof.
  intros Hs HF. induction HF as [|w l Hw HF IH]; simpl; [done|].
  destruct l as [|w' l]; [done|]. rewrite !string_free_app. done.
Qed.

Lemma drop_newlines_free s : string_free newline s -> drop_newlines (s +:+ String newline "") = s.
Proof.
  induction s as [|c s IH]; simpl; [done|]. intros [Hc Hs].
  destruct (Ascii.eqb_spec c newline); [done|]. by rewrite IH.
Qed.

Lemma cores_text_Join cores : cores <> [] -> cores_text cores = Join (map Itoa cores) ",".
Proof.
  intros Hc. unfold cores_text.
  assert (E : forall acc, fold_left (fun coresStr c => coresStr +:+ Itoa c +:+ ",") cores acc =
                          fold_left (fun s w => s +:+ w +:+ ",") (map Itoa cores) acc).
  { clear Hc. induction cores as [|c cores IH]; intros acc; simpl; [done|]. apply IH. }
  rewrite E, fold_append_Join by by destruct cores. exact (TrimSuffix_app (Join (map Itoa cores) ",") ",").
Qed.

Section CgroupProperties.
Context {CE : CgroupEnv}.

Definition cpuset_path (pathInRoot : string) : string := path_Join [env_root; CpuSetSubsystem; pathInRoot; "cpuset.cpus"].

Lemma GetCpuSet_ranges p rs w :
  rs <> [] -> Forall wf_range rs ->
  files w !! cpuset_path p = Some (ranges_text rs +:+ String newline "") ->
  GetCpuSet p true w = (Ok (map Itoa (ranges_cores rs)), w).
Proof.
  intros Hne HF Hfile. unfold GetCpuSet, ReadFile, mbind, M_bind. unfold cpuset_path in Hfile. rewrite Hfile. simpl.
  assert (Hfree : forall c, char_digit c = None -> c <> "-"%char -> Forall (string_free c) (map range_text rs)).
  { intros c H1 H2. apply Forall_fmap. eapply Forall_impl; [exact HF|]. intros r Hr. by apply range_text_free. }
  rewrite drop_newlines_free by (apply Join_free; [done|by apply Hfree]).
  unfold ranges_text. change "," with (String ","%char ""). rewrite Split_Join.
  - unfold mret, M_ret. do 2 f_equal. unfold ranges_cores. clear -HF.
    induction HF as [|r rs Hr HF IH]; simpl; [done|]. rewrite parseCpus_range by done. rewrite map_app. by rewrite IH.
  - by destruct rs.
  - by apply Hfree.
Qed.

(** ** Properties *)

(** Parsing the cpu list of a cgroup inverts the kernel's printing: a file
    that lists the ranges [a-b] (or [a]) yields exactly the cores of the
    ranges, in order. *)
Theorem GetCpuSet_parses_kernel_list p rs w :
  rs <> [] -> Forall wf_range rs ->
  files w !! cpuset_path p = Some (ranges_text rs +:+ String newline "") ->
  GetCpuSet p true w = (Ok (map Itoa (ranges_cores rs)), w) /\
  map (fun c => default 0 (Atoi c)) (map Itoa (ranges_cores rs)) = ranges_cores rs.
Proof.
  intros Hne HF Hfile. split; [by apply GetCpuSet_ranges|]. rewrite map_map.
  assert (Hin : Forall (fun z => in_int64 z) (ranges_cores rs)).
  { unfold ranges_cores. apply Forall_concat, Forall_fmap. eapply Forall_impl; [exact HF|].
    intros [a b] [[H1 H2] H3]. simpl in *. apply Forall_fmap, Forall_forall. intros i Hi.
    apply elem_of_seq in Hi. unfold in_int64. simpl. lia. }
  induction Hin as [|z l Hz HF' IH]; simpl; [done|]. rewrite Atoi_Itoa by done. simpl. f_equal. exact IH.
Qed.

(** Cores written to a cgroup are read back: when the kernel accepts the
    write and shows the list it was given, [GetCpuSet] returns the written
    cores. *)
Theorem WriteCpuSetCores_GetCpuSet p cores w :
  cores <> [] -> Forall (fun c => 0 <= c < 2 ^ 63) cores ->
  env_write (writes w) (cpuset_path p) (cores_text cores) = None ->
  env_readback (cpuset_path p) (cores_text cores) = cores_text cores +:+ String newline "" ->
  let '(e, w') := WriteCpuSetCores p cores w in
  e = None /\ fst (GetCpuSet p true w') = Ok (map Itoa cores).
Proof.
  intros Hne HF Hw Hrb. unfold WriteCpuSetCores, WriteFile, write_path.
  destruct cores as [|c cores]; [done|]. rewrite path_Join_nested. cbn [app].
  change (path_Join [env_root; CpuSetSubsystem; p; cpusetCpus]) with (cpuset_path p). rewrite Hw. cbv beta iota. split; [done|].
  assert (Ht : cores_text (c :: cores) = ranges_text (map (fun c => (c, c)) (c :: cores))).
  { rewrite cores_text_Join by done. unfold ranges_text. f_equal. rewrite map_map. apply map_ext. intros z.
    unfold range_text. simpl. by rewrite Z.eqb_refl. }
  rewrite (GetCpuSet_ranges p (map (fun c => (c, c)) (c :: cores))).
  - cbn [fst]. do 2 f_equal. apply singles_cores.
  - done.
  - apply Forall_fmap. eapply Forall_impl; [exact HF|]. intros z Hz. unfold wf_range. simpl in *. lia.
  - simpl files. rewrite lookup_insert_eq, Hrb, Ht. done.
Qed.

(** The share of the machine that [CPUOfflineLimit] writes is the requested
    cores in percent, rounded down, but at least the minimum, and never above
    100 percent; a request above the machine is an error. *)
Theorem offlinePercent_bounds cores total minPercent :
  0 <= cores < 2 ^ 56 -> 0 < total < 2 ^ 56 -> 0 <= minPercent <= 100 ->
  match offlinePercent cores total minPercent with
  | Ret (Ok percent) =>
      cores <= total /\ percent = Z.max minPercent (100 * cores / total) /\ minPercent <= percent <= 100
  | Ret (Err _) => total < cores
  | Crash _ => False
  end.
Proof.
  intros Hc Ht Hm. unfold offlinePercent. destruct (Z.ltb_spec total cores); [done|].
  destruct (Z.eqb_spec total 0); [lia|].
  rewrite int64_id by (unfold in_int64; simpl in *; lia).
  rewrite Z.quot_div_nonneg by lia. rewrite (Z.mul_comm cores 100).
  assert (H1 : 0 <= 100 * cores / total <= 100).
  { split; [apply Z.div_pos; lia|]. apply Z.div_le_upper_bound; lia. }
  destruct (Z.ltb_spec (100 * cores / total) minPercent); lia.
Qed.
End CgroupProperties.

Definition ex_env : CgroupEnv := {|
  env_root := "/sys/fs/cgroup";
  env_write := fun _ _ _ => None;
  env_readback := fun _ s => s +:+ String newline "";
  env_cpuinfo := Ok ex_cpus;
  env_readdir := fun _ => Ok ["cpu0"; "cpu1"];
  env_walk := fun _ => Ok [];
  env_pids := fun _ _ => Pids [];
|}.

Definition ex_world : world :=
  mkWorld {["/sys/fs/cgroup/cpuset/cpuset.cpus" := "0-3" +:+ String newline ""]} 0 ∅ 0 false false false.

Lemma GetCpuSet_parses_kernel_list_witness :
  @GetCpuSet ex_env "" true ex_world = (Ok ["0"; "1"; "2"; "3"], ex_world).
Proof.
  refine (proj1 (@GetCpuSet_parses_kernel_list ex_env "" [(0, 3)] ex_world _ _ _)).
  - discriminate.
  - repeat constructor; simpl; lia.
  - vm_compute. reflexivity.
Defined.

Lemma WriteCpuSetCores_GetCpuSet_witness :
  let '(e, w') := @WriteCpuSetCores ex_env "/kubepods/offline" [2; 0] ex_world in
  e = None /\ fst (@GetCpuSet ex_env "/kubepods/offline" true w') = Ok ["2"; "0"].
Proof.
  apply (@WriteCpuSetCores_GetCpuSet ex_env "/kubepods/offline" [2; 0] ex_world).
  - discriminate.
  - repeat constructor; simpl; lia.
  - reflexivity.
  - reflexivity.
Defined.

Lemma offlinePercent_bounds_witness :
  match offlinePercent 3 48 10 with
  | Ret (Ok percent) => 3 <= 48 /\ percent = Z.max 10 (100 * 3 / 48) /\ 10 <= percent <= 100
  | Ret (Err _) => 48 < 3
  | Crash _ => False
  end.
Proof. apply (offlinePercent_bounds 3 48 10); lia. Defined.
