(* ===== verification/NMOperator.v ===== *)
(** * The node manager operator

    pkg/nm-operator/nmoperator/nm_operator.go and pkg/nm-operator/util/util.go:
    the server beside the node manager that caelus calls.  Its state is the
    configuration files, the schedule flag and the commands it has run; the
    processes, the commands' results, cadvisor and the web pages of the node
    manager and the resource manager are the parameter [OpEnv].  The handlers
    make the instance [nmop_server] of [NMServer]. *)

From Stdlib Require Import Ascii.
From S2P Require Import Prelude GoStrings GoFloat NMApi HadoopConf Topology Cgroup.

#[local] Open Scope string_scope.
#[local] Open Scope Z_scope.
#[local] Open Scope list_scope.

(** ** Strings *)

(** [strings.SplitN] with a one byte separator. *)
Fixpoint SplitN (s : string) (sep : ascii) (n : nat) : list string :=
  match n with
  | O => []
  | S O => [s]
  | S n' =>
      match cut_byte s sep with
      | None => [s]
      | Some (a, b) => a :: SplitN b sep n'
      end
  end.

(** The text from the first [sub] on, as [s[strings.Index(s, sub):]]. *)
Fixpoint from_index (s sub : string) : option string :=
  if HasPrefix s sub then Some s
  else match s with
       | EmptyString => None
       | String _ s' => from_index s' sub
       end.

(** The text before the first byte [c]. *)
Definition before_byte (s : string) (c : ascii) : string :=
  match cut_byte s c with Some (a, _) => a | None => s end.

(** [tokens[1]] panics on an id without an underscore. *)
Definition getAppIDFromContainerID (containerID : string) : outcome string :=
  match SplitN containerID "_"%char 5 with
  | _ :: _ :: tokens => Ret (Join (removelast ("application" :: tokens)) "_")
  | _ => Crash (Panic "index out of range")
  end.

Definition getContainerIDFromAmLogDir (klogdir : string) : string :=
  match from_index klogdir "container_" with
  | None => ""
  | Some id => before_byte id "/"%char
  end.

(** ** The environment and the state *)

Record cpu_stat := mkCpuStat {
  CpuTotal : Z;
  StatTime : time;
  WorkingSet : Z;
}.

(** [v2.ContainerInfo] of cadvisor. *)
Record container_info := mkContainerInfo {
  HasCpu : bool;
  HasMemory : bool;
  CreationTime : time;
  Stats : list cpu_stat;
}.

Class OpEnv := {
  (** The output of [id -u] and [id -g]. *)
  op_id : string -> string -> result string;
  (** The error of the [n]-th command. *)
  op_exec : nat -> list string -> option error;
  op_cadvisor : nat -> string -> result (gmap string container_info);
  (** The pages of the node manager and the resource manager at the [n]-th
      request; the flag tells the first attempt from the second. *)
  op_containers : nat -> bool -> string -> http_reply;
  op_amlogs : nat -> bool -> string -> result string;
  op_pids : nat -> string -> result (list Z);
  op_pgid : nat -> Z -> result Z;
  op_alive : nat -> Z -> bool;
  op_file : nat -> string -> result string;
  op_stat : nat -> string -> bool;
  op_mounts : nat -> result (list string);
  op_pidfile : string;
  (** The total size in bytes of the file system at a mount point. *)
  op_totalSize : nat -> string -> result Z;
}.

Inductive signal := SIGTERM | SIGKILL.

Record nmop := mkNMop {
  op_hadoop : hadoop;
  op_scheduleDisabled : bool;
  op_cmds : list (list string * option error);
  op_kills : list (Z * signal);
  op_requests : nat;
}.

Definition set_op_hadoop (o : nmop) (h : hadoop) : nmop :=
  mkNMop h (op_scheduleDisabled o) (op_cmds o) (op_kills o) (op_requests o).
Definition set_op_disabled (o : nmop) (b : bool) : nmop :=
  mkNMop (op_hadoop o) b (op_cmds o) (op_kills o) (op_requests o).
Definition set_op_cmds (o : nmop) (l : list (list string * option error)) : nmop :=
  mkNMop (op_hadoop o) (op_scheduleDisabled o) l (op_kills o) (op_requests o).
Definition set_op_kills (o : nmop) (l : list (Z * signal)) : nmop :=
  mkNMop (op_hadoop o) (op_scheduleDisabled o) (op_cmds o) l (op_requests o).
Definition tick (o : nmop) : nmop :=
  mkNMop (op_hadoop o) (op_scheduleDisabled o) (op_cmds o) (op_kills o) (S (op_requests o)).

Definition O (A : Type) : Type := nmop -> A * nmop.

#[global] Instance O_ret : MRet O := fun A a o => (a, o).
#[global] Instance O_bind : MBind O := fun A B f m o => let '(a, o') := m o in f a o'.

Definition oget {A} (f : nmop -> A) : O A := fun o => (f o, o).
Definition omodify (f : nmop -> nmop) : O unit := fun o => (tt, f o).
Definition in_hadoop {A} (m : H A) : O A := fun o => let '(a, h) := m (op_hadoop o) in (a, set_op_hadoop o h).

Section Operator.
Context {CE : ConfEnv} {RO : RangeOrder} {OE : OpEnv}.
(** The fields of [NMOperator] that do not change. *)
Context (user yarnBin yarnDaemonBin : string) (cadvisorEnabled : bool).

Definition HadoopPath : string := "/hadoop-yarn".
Definition CgroupRoot : string := "/sys/fs/cgroup".
Definition StatusOK : Z := 200.
Definition StatusBadRequest : Z := 400.
Definition StatusInternalServerError : Z := 500.

(** [strings.Trim(s, cutset)]. *)
Fixpoint trim_set_left (cutset : list ascii) (s : string) : string :=
  match s with
  | EmptyString => EmptyString
  | String c s' => if existsb (Ascii.eqb c) cutset then trim_set_left cutset s' else s
  end.
Definition Trim (s : string) (cutset : list ascii) : string :=
  rev_string (trim_set_left cutset (rev_string (trim_set_left cutset s) "")) "".

(** ** util.go *)

(** The result of [id] as a number. *)
Definition id_of (flag : string) : result Z :=
  match op_id flag user with
  | Err e => Err e
  | Ok out => match Atoi (Trim out [newline]) with Some i => Ok i | None => Err "invalid syntax" end
  end.

Definition ExecuteYarnCMD (cmds : list string) : O (option error) :=
  match id_of "-u", id_of "-g" with
  | Err e, _ => mret (Some e)
  | _, Err e => mret (Some e)
  | Ok _, Ok _ => fun o =>
      let e := op_exec (length (op_cmds o)) cmds in
      (e, set_op_cmds o (op_cmds o ++ [(cmds, e)]))
  end.

Definition updateNodeResource (mems cores : string) (cacheAddress : bool) : O (option error) :=
  nmAddress ← in_hadoop (GetNodeManagerAddress cacheAddress);
  ExecuteYarnCMD [yarnBin; "rmadmin"; "-updateNodeResource"; nmAddress; mems; cores].

Definition ExecuteYarnUpdateNodeResource (mems cores : string) : O (option error) :=
  e ← updateNodeResource mems cores true;
  match e with
  | None => mret None
  | Some _ => updateNodeResource mems cores false
  end.

Definition empty_state (cPath : string) : ContainerState := mkContainerState fzero fzero cPath [] nilTime.

(** The cpu consumption between the last two states, in hundredths of a core. *)
Definition used_cpu (info : container_info) : float32 :=
  if HasCpu info then
    match rev (Stats info) with
    | s1 :: s2 :: _ =>
        let total := uint64 (CpuTotal s1 - CpuTotal s2) in
        let interval := time_Sub (StatTime s1) (StatTime s2) in
        f32div (float32_of_Z (int64_of_float64
          (fadd (fdiv (fmul (float64_of_Z total) (float64_of_Z 100)) (float64_of_Z interval)) (flit 1 2))))
          (float32_of_Z 100)
    | _ => fzero
    end
  else fzero.

Definition used_mem (info : container_info) : float32 :=
  if HasMemory info then
    match rev (Stats info) with
    | s1 :: _ => f32div (float32_of_Z (WorkingSet s1)) (float32_of_Z (1024 * 1024))
    | [] => fzero
    end
  else fzero.

Definition zero_info : container_info := mkContainerInfo false false nilTime [].

Definition getConState (n : nat) (cid : string) : ContainerState :=
  let cPath := path_Join [HadoopPath; cid] in
  match op_cadvisor n cPath with
  | Err _ => empty_state cPath
  | Ok infos =>
      if decide (infos = ∅) then empty_state cPath
      else
        let info := default zero_info (infos !! cPath) in
        mkContainerState (used_mem info) (used_cpu info) cPath [] (CreationTime info)
  end.

Definition op_GetContainersStateMap (n : nat) (cids : list string) : gmap string ContainerState :=
  fold_left (fun m cid => <[cid := getConState n cid]> m) cids ∅.

Definition op_GetContainerProcessGroupId (n : nat) (cID : string) : Z :=
  match op_pids n (path_Join [CgroupRoot; "cpu"; HadoopPath; cID]) with
  | Ok (pid :: _) => match op_pgid n pid with Ok gpid => gpid | Err _ => 0 end
  | _ => 0
  end.

Definition GetYarnLocalDirs : H (list string) :=
  localDirsStr ← GetYarnNodeManagerLocalDirs;
  mret (Split localDirsStr ","%char).

(** The device and the mount point of a line of /proc/self/mounts; a line has
    at least two fields. *)
Definition mount_fields (txt : string) : string * string :=
  match Split txt " "%char with
  | dev :: mountPoint :: _ => (dev, mountPoint)
  | dev :: [] => (dev, "")
  | [] => ("", "")
  end.

Definition GetDiskPartitionsName (n : nat) : H (result (list string)) :=
  dirs ← GetYarnLocalDirs;
  mret (match op_mounts n with
        | Err e => Err e
        | Ok lines =>
            Ok (fold_left (fun acc txt =>
                  let '(dev, mountPoint) := mount_fields txt in
                  fold_left (fun acc dir => if HasPrefix dir mountPoint then set_insert (TrimSpace dev) acc else acc) dirs acc)
                lines [])
        end).

Definition OpDiskUnit : Z := 1024 * 1020 * 1024.

(** The mount point of the first line that is a prefix of the directory. *)
Fixpoint findMount (localDir : string) (lines : list string) : string :=
  match lines with
  | [] => ""
  | txt :: lines' =>
      let mountPoint := snd (mount_fields txt) in
      if HasPrefix localDir mountPoint then TrimSpace mountPoint else findMount localDir lines'
  end.

Definition JudgePartitionCapForDataPath (n : nat) (diskMinCapGb : Z) (localDir : string) : H (option error) :=
  match op_mounts n with
  | Err e => mret (Some e)
  | Ok lines =>
      match op_totalSize n (findMount localDir lines) with
      | Err e => mret (Some e)
      | Ok totalSize =>
          if totalSize <? int64 (diskMinCapGb * OpDiskUnit) then
            SetMultipleConfDataToFile YarnSiteFile
              {["yarn.nodemanager.disk-health-checker.min-free-space-per-disk-mb" := "10240000"]}
          else mret None
      end
  end.

(** ** Handlers *)

Definition WriteServiceError (code : Z) (msg : string) : http_reply := Reply code (BodyText msg).
Definition WriteAsJson (p : payload) : http_reply := Reply StatusOK (encode p).
Definition WriteHeader (code : Z) : http_reply := Reply code NoBody.

(** [ReadEntity]: an empty body and a body that is not an object are errors. *)
Definition ReadEntity (p : payload) : option error :=
  match p with
  | NoBody => Some "EOF"
  | BodyText _ => Some "json: cannot unmarshal string"
  | _ => None
  end.

Definition StartNodeManager : O http_reply :=
  e ← ExecuteYarnCMD [yarnDaemonBin; "start"; "nodemanager"];
  mret (match e with
        | Some err => WriteServiceError StatusInternalServerError ("start Nodemanager err: " +:+ err)
        | None => WriteAsJson (BodyText "Nodemanager started")
        end).

Definition StopNodeManager : O http_reply :=
  e ← ExecuteYarnCMD [yarnDaemonBin; "stop"; "nodemanager"];
  mret (match e with
        | Some err => WriteServiceError StatusInternalServerError ("stop Nodemanager err: " +:+ err)
        | None => WriteAsJson (BodyText "Nodemanager stopped")
        end).

Definition stateNMUp : string := "UP".
Definition stateNMDown : string := "DOWN".

Definition nmStatus (n : nat) : NMStatus :=
  let pidfile := if (op_pidfile =? "")%string then "/tmp/yarn--nodemanager.pid" else op_pidfile in
  match op_file n pidfile with
  | Err e => mkNMStatus 0 stateNMDown ("Failed to open pid file " +:+ pidfile +:+ ": " +:+ e)
  | Ok dat =>
      match Atoi (Trim dat [newline; ascii_of_nat 13; ascii_of_nat 9; " "%char]) with
      | None => mkNMStatus 0 stateNMDown ("Failed to get pid from " +:+ dat)
      | Some pid =>
          let dir := "/proc/" +:+ Itoa pid in
          if negb (op_stat n dir) then mkNMStatus pid stateNMDown ("Failed to stat " +:+ dir)
          else
            match op_file n (dir +:+ "/cmdline") with
            | Err e => mkNMStatus pid stateNMDown ("Failed to read " +:+ dir +:+ "/cmdline: " +:+ e)
            | Ok cmdline =>
                if negb (Contains cmdline "NodeManager") then
                  mkNMStatus pid stateNMDown (Itoa pid +:+ " is not Nodemanager pid")
                else mkNMStatus pid stateNMUp ""
            end
      end
  end.

Definition op_GetStatus : O http_reply :=
  n ← oget op_requests;
  mret (WriteAsJson (BodyStatus (nmStatus n))).

Definition op_GetCapacity : O http_reply :=
  c ← in_hadoop hadoop_GetCapacity;
  mret (match c with
        | Err e => WriteServiceError StatusInternalServerError e
        | Ok capacity => WriteAsJson (BodyCapacity capacity)
        end).

(** The error carries the status code of the reply. *)
Definition setCapacity (body : payload) : O (NMCapacity * option (Z * error)) :=
  match ReadEntity body with
  | Some err => mret (mkNMCapacity 0 0 0, Some (StatusBadRequest, err))
  | None =>
      let capacity := as_capacity body in
      e ← in_hadoop (hadoop_SetCapacity capacity);
      mret (capacity, match e with Some err => Some (StatusInternalServerError, err) | None => None end)
  end.

Definition op_SetCapacity (body : payload) : O http_reply :=
  r ← setCapacity body;
  mret (match snd r with
        | Some (code, err) => WriteServiceError code err
        | None => WriteHeader StatusOK
        end).

Definition op_GetProperty (body : payload) : O http_reply :=
  match ReadEntity body with
  | Some err => mret (WriteServiceError StatusBadRequest err)
  | None =>
      let key := as_keys body in
      value ← in_hadoop (if ck_ConfigAll key then GetAllConfig (ck_ConfigFile key)
                         else GetConfig (ck_ConfigFile key) (ck_ConfigKeys key));
      mret (match value with
            | Err err => WriteServiceError StatusInternalServerError err
            | Ok v => WriteAsJson (BodyProperty (mkConfigProperty (ck_ConfigFile key) v false false))
            end)
  end.

Definition op_SetProperty (body : payload) : O http_reply :=
  match ReadEntity body with
  | Some err => mret (WriteServiceError StatusBadRequest err)
  | None =>
      let property := as_property body in
      e ← in_hadoop (if negb (cp_ConfigAdd property) && negb (cp_ConfigDel property)
                     then SetConfig (cp_ConfigFile property) (cp_ConfigProperty property)
                     else SetAddDelConfig (cp_ConfigFile property) (cp_ConfigProperty property)
                            (cp_ConfigAdd property) (cp_ConfigDel property));
      mret (match e with
            | Some err => WriteServiceError StatusInternalServerError err
            | None => WriteHeader StatusOK
            end)
  end.

Definition op_GetContainersState (body : payload) : O http_reply :=
  if negb cadvisorEnabled then mret (WriteServiceError StatusInternalServerError "cadvisor is disabled")
  else
    match ReadEntity body with
    | Some err => mret (WriteServiceError StatusInternalServerError err)
    | None =>
        n ← oget op_requests;
        mret (WriteAsJson (BodyStats (op_GetContainersStateMap n (as_cids body))))
    end.

(** One attempt of [GetContainers]: the containers, or nothing on an error. *)
Definition fetchContainers (cacheAddress : bool) : O (result (list NMContainer)) :=
  addr ← in_hadoop (GetNodeManagerWebAddress cacheAddress);
  n ← oget op_requests;
  mret (match op_containers n cacheAddress ("http://" +:+ addr +:+ "/ws/v1/node/containers") with
        | Failed e => Err e
        | Reply code body => if code =? StatusOK then Ok (as_containers body) else Err ("reponset status not ok: " +:+ Itoa code)
        end).

(** The addresses in turn: whether one answered, and the AM container of the
    first answer that names its logs. *)
Fixpoint askAddresses (n : nat) (cacheAddress : bool) (appID : string) (addrs : list string) (requestOK : bool) :
    bool * option string :=
  match addrs with
  | [] => (requestOK, None)
  | addr :: addrs' =>
      match op_amlogs n cacheAddress ("http://" +:+ addr +:+ "/ws/v1/cluster/apps/" +:+ appID) with
      | Err _ => askAddresses n cacheAddress appID addrs' requestOK
      | Ok amLogs =>
          if negb (slen amLogs =? 0) then (true, Some (getContainerIDFromAmLogDir amLogs))
          else askAddresses n cacheAddress appID addrs' true
      end
  end.

Definition askResourceManager (cacheAddress : bool) (appID : string) : O (bool * option string) :=
  rmAddr ← in_hadoop (GetResourceManagerAddress cacheAddress);
  n ← oget op_requests;
  mret (askAddresses n cacheAddress appID (Split rmAddr ","%char) false).

Definition getAmContainer (appID : string) : O string :=
  r ← askResourceManager true appID;
  match r with
  | (true, am) => mret (default "" am)
  | (false, _) =>
      r' ← askResourceManager false appID;
      mret (default "" (snd r'))
  end.

Fixpoint amContainers (appids : list string) (acc : gmap string string) : O (gmap string string) :=
  match appids with
  | [] => mret acc
  | app :: rest =>
      am ← getAmContainer app;
      amContainers rest (<[app := am]> acc)
  end.

Definition with_app (c : NMContainer) (app : string) : NMContainer :=
  mkNMContainer (con_ID c) (con_State c) (TotalMemoryNeededMB c) (TotalVCoresNeeded c) (UsedMemoryMB c)
    (UsedVCores c) (IsAM c) app (con_Pid c) (con_StartTime c).
Definition with_am (c : NMContainer) : NMContainer :=
  mkNMContainer (con_ID c) (con_State c) (TotalMemoryNeededMB c) (TotalVCoresNeeded c) (UsedMemoryMB c)
    (UsedVCores c) true (con_AppID c) (con_Pid c) (con_StartTime c).

Fixpoint assignApps (l : list NMContainer) : outcome (list NMContainer) :=
  match l with
  | [] => Ret []
  | c :: l' =>
      app ← getAppIDFromContainerID (con_ID c);
      rest ← assignApps l';
      Ret (with_app c app :: rest)
  end.

Definition markAM (apps : gmap string string) (c : NMContainer) : NMContainer :=
  if (con_ID c =? default "" (apps !! con_AppID c))%string then with_am c else c.

(** A panic of a handler ends the connection without a reply. *)
Definition op_GetContainers : O http_reply :=
  r ← fetchContainers true;
  r' ← (match r with Ok l => mret (Ok l) | Err _ => fetchContainers false end);
  match r' with
  | Err e => mret (WriteServiceError StatusInternalServerError e)
  | Ok containers =>
      match assignApps containers with
      | Crash _ => mret (Failed "EOF")
      | Ret l =>
          let empty : gmap string string := fold_left (fun m c => <[con_AppID c := ""]> m) l ∅ in
          apps ← amContainers (range_map "apps" empty).*1 empty;
          mret (WriteAsJson (BodyContainers (map (markAM apps) l)))
      end
  end.

(** The signals one container gets; the containers are killed side by side. *)
Definition killSignals (n : nat) (cid : string) : list (Z * signal) :=
  let gpid := op_GetContainerProcessGroupId n cid in
  if gpid <=? 1 then []
  else (- gpid, SIGTERM) :: (if op_alive n gpid then [(- gpid, SIGKILL)] else []).

Definition KillContainers (body : payload) : O http_reply :=
  match ReadEntity body with
  | Some err => mret (WriteServiceError StatusInternalServerError err)
  | None =>
      n ← oget op_requests;
      _ ← omodify (fun o => set_op_kills o (op_kills o ++ concat (map (killSignals n) (as_cids body))));
      mret (WriteHeader StatusOK)
  end.

Definition ScheduleDisable : O http_reply :=
  e ← ExecuteYarnUpdateNodeResource "0" "0";
  match e with
  | Some err => mret (WriteServiceError StatusInternalServerError err)
  | None =>
      _ ← omodify (fun o => set_op_disabled o true);
      mret (WriteAsJson (BodyText "NM schedule disabled"))
  end.

Definition ScheduleEnable : O http_reply :=
  c ← in_hadoop hadoop_GetCapacity;
  match c with
  | Err e => mret (WriteServiceError StatusInternalServerError ("get capacity err when enable NM schedule: " +:+ e))
  | Ok cap =>
      let memMb := Itoa (MemoryMB cap) in
      let vCores := Itoa (Vcores cap) in
      e ← ExecuteYarnUpdateNodeResource memMb vCores;
      match e with
      | Some err => mret (WriteServiceError StatusInternalServerError ("enable NM schedule err: " +:+ err))
      | None =>
          _ ← omodify (fun o => set_op_disabled o false);
          mret (WriteAsJson (BodyText ("NM schedule enabled with capacity(memMb: " +:+ memMb +:+ ", vCores: " +:+ vCores +:+ ")")))
      end
  end.

Definition updateNodeCapacity (body : payload) (force : bool) : O http_reply :=
  r ← setCapacity body;
  match r with
  | (_, Some (code, err)) => mret (WriteServiceError code err)
  | (capacity, None) =>
      disabled ← oget op_scheduleDisabled;
      if force || negb disabled then
        e ← ExecuteYarnUpdateNodeResource (Itoa (MemoryMB capacity)) (Itoa (Vcores capacity));
        mret (match e with
              | Some err => WriteServiceError StatusInternalServerError err
              | None => WriteHeader StatusOK
              end)
      else mret (WriteHeader StatusOK)
  end.

Definition UpdateCapacity (body : payload) : O http_reply := updateNodeCapacity body false.
Definition ForceUpdateCapacity (body : payload) : O http_reply := updateNodeCapacity body true.

Definition DiskPartitions : O http_reply :=
  n ← oget op_requests;
  r ← in_hadoop (GetDiskPartitionsName n);
  mret (match r with
        | Err e => WriteServiceError StatusInternalServerError ("get disk partitions err: " +:+ e)
        | Ok l => WriteAsJson (BodyPartitions l)
        end).

(** The routes of [RegisterNMOperatorService]. *)
Definition route (r : http_request) : option (O http_reply) :=
  let at_route (method url : string) : bool := (rq_method r =? method)%string && (rq_url r =? "/v1/nm" +:+ url)%string in
  if at_route "GET" "/status" then Some op_GetStatus
  else if at_route "GET" "/capacity" then Some op_GetCapacity
  else if at_route "POST" "/capacity" then Some (op_SetCapacity (rq_body r))
  else if at_route "GET" "/containers" then Some op_GetContainers
  else if at_route "GET" "/containerstats" then Some (op_GetContainersState (rq_body r))
  else if at_route "POST" "/kill" then Some (KillContainers (rq_body r))
  else if at_route "GET" "/property" then Some (op_GetProperty (rq_body r))
  else if at_route "POST" "/property" then Some (op_SetProperty (rq_body r))
  else if at_route "POST" "/start" then Some StartNodeManager
  else if at_route "POST" "/stop" then Some StopNodeManager
  else if at_route "POST" "/schedule/disable" then Some ScheduleDisable
  else if at_route "POST" "/schedule/enable" then Some ScheduleEnable
  else if at_route "POST" "/capacity/update" then Some (UpdateCapacity (rq_body r))
  else if at_route "POST" "/capacity/update/force" then Some (ForceUpdateCapacity (rq_body r))
  else if at_route "GET" "/diskpartitions" then Some DiskPartitions
  else None.

Definition serve (o : nmop) (r : http_request) : http_reply * nmop :=
  let '(reply, o') := match route r with Some h => h o | None => (Reply 404 NoBody, o) end in
  (reply, tick o').

Definition nmop_server : NMServer nmop := serve.
End Operator.

(** ** What the resource manager was told *)

(** The arguments of an accepted [rmadmin -updateNodeResource]. *)
Definition told (cmd : list string * option error) : option (string * string) :=
  match cmd with
  | ([_; admin; update; _; mems; cores], None) =>
      if (admin =? "rmadmin")%string && (update =? "-updateNodeResource")%string then Some (mems, cores) else None
  | _ => None
  end.

(** The resources of the node as the resource manager last heard of them. *)
Definition node_resource (o : nmop) : option (string * string) :=
  fold_left (fun acc cmd => match told cmd with Some r => Some r | None => acc end) (op_cmds o) None.

Ltac od := unfold oget, omodify, mbind, O_bind, mret, O_ret in *; cbn [fst snd] in *.

Section OperatorLemmas.
Context {CE : ConfEnv} {RO : RangeOrder} {OE : OpEnv}.
Context (user yarnBin yarnDaemonBin : string) (cadvisorEnabled : bool).

#[local] Abbreviation exec := (ExecuteYarnCMD user) (only parsing).
#[local] Abbreviation update := (ExecuteYarnUpdateNodeResource user yarnBin) (only parsing).

(** Neither the flag nor the node's resources change. *)
Definition quiet (o o' : nmop) : Prop :=
  op_scheduleDisabled o' = op_scheduleDisabled o /\ node_resource o' = node_resource o.

Lemma quiet_refl o : quiet o o.
Proof. done. Qed.

Lemma quiet_trans o1 o2 o3 : quiet o1 o2 -> quiet o2 o3 -> quiet o1 o3.
Proof. unfold quiet. intuition congruence. Qed.

Lemma in_hadoop_quiet {A} (m : H A) o : quiet o (snd (in_hadoop m o)).
Proof. unfold in_hadoop. by destruct (m (op_hadoop o)). Qed.

Lemma exec_facts cmds o :
  let '(e, o') := exec cmds o in
  op_scheduleDisabled o' = op_scheduleDisabled o /\ op_hadoop o' = op_hadoop o /\
  (node_resource o' = node_resource o \/ e = None) /\
  node_resource o' = match e, told (cmds, None) with None, Some r => Some r | _, _ => node_resource o end.
Proof.
  unfold ExecuteYarnCMD. destruct (id_of user "-u"); [|by split_and!; auto].
  destruct (id_of user "-g"); [|by split_and!; auto].
  unfold node_resource. cbn [set_op_cmds op_cmds op_scheduleDisabled op_hadoop]. rewrite fold_left_app. cbn [fold_left].
  destruct (op_exec (length (op_cmds o)) cmds) as [err|]; [|by destruct (told (cmds, None)); auto].
  assert (told (cmds, Some err) = None) as ->; [|by auto].
  unfold told. repeat (case_match; try done).
Qed.

(** A command to the resource manager takes effect exactly when it succeeds. *)
Lemma update_facts mems cores o :
  let '(e, o') := update mems cores o in
  op_scheduleDisabled o' = op_scheduleDisabled o /\
  cacheCapacity (op_hadoop o') = cacheCapacity (op_hadoop o) /\
  node_resource o' = match e with None => Some (mems, cores) | Some _ => node_resource o end.
Proof.
  assert (Ha : forall b o1 e o2, updateNodeResource user yarnBin mems cores b o1 = (e, o2) ->
    op_scheduleDisabled o2 = op_scheduleDisabled o1 /\ cacheCapacity (op_hadoop o2) = cacheCapacity (op_hadoop o1) /\
    node_resource o2 = match e with None => Some (mems, cores) | Some _ => node_resource o1 end).
  { intros b o1 e o2. unfold updateNodeResource, in_hadoop. od.
    destruct (GetNodeManagerAddress b (op_hadoop o1)) as [a h] eqn:Eh. intros E.
    assert (Hc : cacheCapacity h = cacheCapacity (op_hadoop o1)).
    { revert Eh. unfold GetNodeManagerAddress, GetConfDataFromFile. hd.
      destruct (_ && _); [by intros [= <- <-]|].
      destruct (LoadConf_facts YarnSiteFile (op_hadoop o1)) as [Hs _].
      destruct (LoadConfDataFromFile _ _) as [r h1]. cbn [snd] in Hs. subst. by intros [= <- <-]. }
    pose proof (exec_facts [yarnBin; "rmadmin"; "-updateNodeResource"; a; mems; cores] (set_op_hadoop o1 h)) as Hx.
    rewrite E in Hx. destruct Hx as (H1 & H2 & _ & H4). rewrite H2. split_and!; [done|done|].
    destruct e; by rewrite H4. }
  unfold ExecuteYarnUpdateNodeResource. od.
  destruct (updateNodeResource user yarnBin mems cores true o) as [e1 o1] eqn:E1. apply Ha in E1 as (H1 & H2 & H3).
  destruct e1 as [err|]; [|done].
  destruct (updateNodeResource user yarnBin mems cores false o1) as [e2 o2] eqn:E2. apply Ha in E2 as (H4 & H5 & H6).
  split_and!; [congruence..|]. destruct e2; congruence.
Qed.

Lemma setCapacity_facts body o :
  let '(r, o') := setCapacity body o in
  quiet o o' /\ (snd r = None -> fst r = as_capacity body /\
    exists c, cacheCapacity (op_hadoop o') = Some c /\ Vcores c = Vcores (fst r) /\ MemoryMB c = MemoryMB (fst r)).
Proof.
  unfold setCapacity. destruct (ReadEntity body); [done|]. od. unfold in_hadoop, hadoop_SetCapacity.
  unfold mbind, H_bind, hmodify. set (h1 := set_cacheCapacity _ _).
  destruct (SetMultipleConfDataToFile _ _ h1) as [e h'] eqn:Ew.
  apply writeConf_facts in Ew as ((Hc & _) & _). split; [done|]. destruct e; [done|]. intros _. split; [done|].
  cbn [op_hadoop set_op_hadoop]. rewrite Hc. unfold h1. eexists. split; [reflexivity|done].
Qed.

Lemma exec_short cmds o : length cmds = 3%nat -> quiet o (snd (exec cmds o)).
Proof.
  intros Hl. pose proof (exec_facts cmds o) as Hx. destruct (exec cmds o) as [e o']. destruct Hx as (H1 & _ & _ & H4).
  split; [done|]. cbn [snd]. rewrite H4. destruct cmds as [|? [|? [|? [|? ?]]]]; try done. by destruct e.
Qed.
End OperatorLemmas.

(** ** Handlers that tell the resource manager nothing *)

Definition Quiet {A} (m : O A) : Prop := forall o, quiet o (snd (m o)).

Lemma Quiet_ret {A} (a : A) : Quiet (mret a).
Proof. by intros o. Qed.
Lemma Quiet_bind {A B} (m : O A) (k : A -> O B) : Quiet m -> (forall a, Quiet (k a)) -> Quiet (m ≫= k).
Proof.
  intros Hm Hk o. specialize (Hm o). unfold mbind, O_bind. destruct (m o) as [a o1].
  eapply quiet_trans; [exact Hm|apply Hk].
Qed.
Lemma Quiet_get {A} (f : nmop -> A) : Quiet (oget f).
Proof. by intros o. Qed.
Lemma Quiet_kills (f : nmop -> list (Z * signal)) : Quiet (omodify (fun o => set_op_kills o (f o))).
Proof. by intros o. Qed.
Lemma Quiet_hadoop {A} (m : H A) : Quiet (in_hadoop m).
Proof. intros o. apply in_hadoop_quiet. Qed.

Create HintDb quiet discriminated.
#[export] Hint Resolve Quiet_ret Quiet_get Quiet_kills Quiet_hadoop : quiet.
#[export] Hint Extern 1 (Quiet (_ ≫= _)) => apply Quiet_bind; [|intros ?] : quiet.
#[export] Hint Extern 2 (Quiet (match ?x with _ => _ end)) => destruct x : quiet.

Section Invariant.
Context {CE : ConfEnv} {RO : RangeOrder} {OE : OpEnv}.
Context (user yarnBin yarnDaemonBin : string) (cadvisorEnabled : bool).

#[local] Abbreviation serve' := (serve user yarnBin yarnDaemonBin cadvisorEnabled) (only parsing).

Lemma amContainers_Quiet apps acc : Quiet (amContainers apps acc).
Proof.
  revert acc. induction apps as [|app apps IH]; intros acc; simpl; [auto with quiet|].
  apply Quiet_bind; [|auto]. unfold getAmContainer, askResourceManager. auto 10 with quiet.
Qed.
#[local] Hint Resolve amContainers_Quiet : quiet.

Lemma GetContainers_Quiet : Quiet op_GetContainers.
Proof. unfold op_GetContainers, fetchContainers. auto 12 with quiet. Qed.

Lemma exec_Quiet cmds : length cmds = 3%nat -> Quiet (ExecuteYarnCMD user cmds).
Proof. intros Hl o. by apply exec_short. Qed.
#[local] Hint Resolve GetContainers_Quiet exec_Quiet : quiet.

Lemma setCapacity_Quiet body : Quiet (setCapacity body).
Proof. intros o. pose proof (setCapacity_facts body o) as Hs. by destruct (setCapacity body o), Hs. Qed.
#[local] Hint Resolve setCapacity_Quiet : quiet.

(** The requests that may change what the resource manager knows. *)
Definition resource_urls : list string :=
  ["/v1/nm/schedule/disable"; "/v1/nm/schedule/enable"; "/v1/nm/capacity/update"; "/v1/nm/capacity/update/force"].

Lemma route_Quiet r h : route user yarnBin yarnDaemonBin cadvisorEnabled r = Some h -> rq_url r ∉ resource_urls -> Quiet h.
Proof.
  intros Hr Hu. unfold route in Hr.
  repeat match type of Hr with
         | (if ?b then Some _ else _) = _ => destruct b eqn:?; [injection Hr as <-|]
         end; try discriminate Hr.
  all: try (exfalso; apply Hu; unfold resource_urls;
            match goal with E : _ && (_ =? _)%string = true |- _ => apply andb_prop in E as [_ E%String.eqb_eq] end;
            match goal with E : rq_url _ = _ |- _ => rewrite E end; set_solver).
  - unfold op_GetStatus; auto with quiet.
  - unfold op_GetCapacity; auto with quiet.
  - unfold op_SetCapacity; auto with quiet.
  - auto with quiet.
  - unfold op_GetContainersState; auto with quiet.
  - unfold KillContainers; auto with quiet.
  - unfold op_GetProperty; auto with quiet.
  - unfold op_SetProperty; auto with quiet.
  - unfold StartNodeManager; auto with quiet.
  - unfold StopNodeManager; auto with quiet.
  - unfold DiskPartitions; auto with quiet.
Qed.

(** A disabled node offers nothing. *)
Definition disabled_inv (o : nmop) : Prop :=
  op_scheduleDisabled o = true -> node_resource o = Some ("0", "0").

Lemma quiet_inv o o' : quiet o o' -> disabled_inv o -> disabled_inv o'.
Proof. intros [H1 H2] Ho Hd. rewrite H2. apply Ho. congruence. Qed.

Lemma ScheduleDisable_inv o : disabled_inv o -> disabled_inv (snd (ScheduleDisable user yarnBin o)).
Proof.
  unfold ScheduleDisable. od. pose proof (update_facts user yarnBin "0" "0" o) as Hu.
  destruct (ExecuteYarnUpdateNodeResource _ _ _ _ o) as [[err|] o'], Hu as (H1 & _ & H3); cbn [snd].
  - apply quiet_inv. done.
  - intros _ _. done.
Qed.

Lemma ScheduleEnable_inv o : disabled_inv o -> disabled_inv (snd (ScheduleEnable user yarnBin o)).
Proof.
  unfold ScheduleEnable. od. pose proof (in_hadoop_quiet hadoop_GetCapacity o) as Hq.
  destruct (in_hadoop hadoop_GetCapacity o) as [[cap|e] o1]; cbn [snd] in *; [|by apply quiet_inv].
  pose proof (update_facts user yarnBin (Itoa (MemoryMB cap)) (Itoa (Vcores cap)) o1) as Hu.
  destruct (ExecuteYarnUpdateNodeResource _ _ _ _ o1) as [[err|] o'], Hu as (H1 & _ & H3); cbn [snd].
  - apply quiet_inv. by apply (quiet_trans _ o1).
  - by intros _ Hn.
Qed.

Lemma UpdateCapacity_inv body o : disabled_inv o -> disabled_inv (snd (UpdateCapacity user yarnBin body o)).
Proof.
  unfold UpdateCapacity, updateNodeCapacity. od. pose proof (setCapacity_facts body o) as Hs.
  destruct (setCapacity body o) as [[c e] o1], Hs as [Hq _]. intros Ho.
  destruct e as [[code err]|]; [by apply (quiet_inv o)|].
  destruct (op_scheduleDisabled o1) eqn:Ed; cbn [orb negb]; [by apply (quiet_inv o)|].
  pose proof (update_facts user yarnBin (Itoa (MemoryMB c)) (Itoa (Vcores c)) o1) as Hu.
  destruct (ExecuteYarnUpdateNodeResource _ _ _ _ o1) as [e o'], Hu as (H1 & _ & _); cbn [snd].
  intros Hd. congruence.
Qed.

Lemma serve_inv o r :
  rq_url r <> "/v1/nm/capacity/update/force" -> disabled_inv o -> disabled_inv (snd (serve' o r)).
Proof.
  intros Hf Ho. unfold serve. destruct (route _ _ _ _ r) as [h|] eqn:Er; [|done].
  enough (disabled_inv (snd (h o))) by (destruct (h o); done).
  destruct (decide (rq_url r ∈ resource_urls)) as [Hu|Hu];
    [|eapply quiet_inv; [by apply (route_Quiet r)|done]].
  unfold route in Er.
  repeat match type of Er with
         | (if ?b then Some _ else _) = _ => destruct b eqn:?; [injection Er as <-|]
         end; try discriminate Er;
    match goal with E : _ && (_ =? _)%string = true |- _ => apply andb_prop in E as [_ E%String.eqb_eq] end;
    try (exfalso; revert Hu; match goal with E : rq_url r = _ |- _ => rewrite E end; unfold resource_urls; set_solver);
    auto using ScheduleDisable_inv, ScheduleEnable_inv, UpdateCapacity_inv.
Qed.
End Invariant.

Section OperatorProperties.
Context {CE : ConfEnv} {RO : RangeOrder} {OE : OpEnv}.
Context (user yarnBin yarnDaemonBin : string) (cadvisorEnabled : bool).

(** The operator after a sequence of requests. *)
Definition serve_all (reqs : list http_request) (o : nmop) : nmop :=
  fold_left (fun o r => snd (serve user yarnBin yarnDaemonBin cadvisorEnabled o r)) reqs o.


Lemma ScheduleEnable_publishes o c :
  cacheCapacity (op_hadoop o) = Some c ->
  let '(r, o') := ScheduleEnable user yarnBin o in
  (exists b, r = Reply StatusOK b) ->
  op_scheduleDisabled o' = false /\ node_resource o' = Some (Itoa (MemoryMB c), Itoa (Vcores c)).
Proof.
  intros Hc. unfold ScheduleEnable, in_hadoop, hadoop_GetCapacity. od. hd. rewrite Hc.
  cbn [MemoryMB Vcores]. destruct o as [h d cm ks n]. cbn [op_hadoop set_op_hadoop] in *.
  pose proof (update_facts user yarnBin (Itoa (MemoryMB c)) (Itoa (Vcores c)) (mkNMop h d cm ks n)) as Hu.
  unfold set_op_hadoop. cbn [op_scheduleDisabled op_cmds op_kills op_requests].
  destruct (ExecuteYarnUpdateNodeResource _ _ _ _ _) as [[err|] o'], Hu as (_ & _ & Hn).
  - intros [b Hb]. discriminate Hb.
  - intros _. split; done.
Qed.
End OperatorProperties.

(** ** Application ids *)

Definition underscore : ascii := "_"%char.

Lemma underscore_app x : "_" +:+ x = String underscore x.
Proof. reflexivity. Qed.

(** The fields of a container id, joined. *)
Definition container_id (fields : list string) : string := Join fields "_".

Lemma getAppID_facts a b c d rest :
  Forall (string_free underscore) [a; b; c; d] ->
  getAppIDFromContainerID (container_id [a; b; c; d] +:+ "_" +:+ rest) = Ret ("application_" +:+ c +:+ "_" +:+ d).
Proof.
  rewrite !Forall_cons. intros (Ha & Hb & Hc & Hd & _). unfold getAppIDFromContainerID, container_id.
  cbn [Join]. rewrite !string_app_assoc, !underscore_app. cbn [SplitN].
  rewrite (cut_byte_cons_free a underscore (b +:+ _)) by done.
  rewrite (cut_byte_cons_free b underscore (c +:+ _)) by done.
  rewrite (cut_byte_cons_free c underscore (d +:+ _)) by done.
  by rewrite (cut_byte_cons_free d underscore _).
Qed.

(** The application of a container is found when its id carries the epoch
    of the resource manager, container_e03_1505269670687_0001_01_000001; of an id
    without an epoch, which Hadoop prints while the epoch is 0, the result is
    made of the application number and the attempt, and is no application. *)
Theorem application_id_needs_epoch epoch cluster app attempt con :
  Forall (string_free underscore) ["container"; epoch; cluster; app; attempt] ->
  app <> attempt \/ cluster <> app ->
  getAppIDFromContainerID (container_id ["container"; epoch; cluster; app] +:+ "_" +:+ attempt +:+ "_" +:+ con) =
    Ret ("application_" +:+ cluster +:+ "_" +:+ app) /\
  getAppIDFromContainerID (container_id ["container"; cluster; app; attempt] +:+ "_" +:+ con) =
    Ret ("application_" +:+ app +:+ "_" +:+ attempt) /\
  "application_" +:+ app +:+ "_" +:+ attempt <> "application_" +:+ cluster +:+ "_" +:+ app.
Proof.
  intros Hf Hne. rewrite !Forall_cons in Hf. destruct Hf as (Hk & He & Hc & Ha & Ht & _). split_and!.
  - apply (getAppID_facts "container" epoch cluster app (attempt +:+ "_" +:+ con)). rewrite !Forall_cons. auto.
  - apply (getAppID_facts "container" cluster app attempt con). rewrite !Forall_cons. auto.
  - change ("application_" +:+ app +:+ "_" +:+ attempt) with ("application_" +:+ (app +:+ String underscore attempt)).
    change ("application_" +:+ cluster +:+ "_" +:+ app) with ("application_" +:+ (cluster +:+ String underscore app)).
    intros E. apply (inj (String.append "application_")) in E.
    pose proof (f_equal (fun s => cut_byte s underscore) E) as E'. cbv beta in E'.
    rewrite !cut_byte_cons_free in E' by done. simplify_eq. naive_solver.
Qed.

Lemma application_id_needs_epoch_witness :
  getAppIDFromContainerID "container_e03_1505269670687_0001_01_000001" = Ret "application_1505269670687_0001" /\
  getAppIDFromContainerID "container_1505269670687_0001_01_000001" = Ret "application_0001_01".
Proof.
  destruct (application_id_needs_epoch "e03" "1505269670687" "0001" "01" "000001") as (H1 & H2 & _).
  - repeat constructor; cbn; repeat split; discriminate.
  - left. discriminate.
  - split; [exact H1|exact H2].
Defined.

(** ** Example *)

Definition ex_op_env : OpEnv := {|
  op_id := fun _ _ => Ok "0"; op_exec := fun _ _ => None; op_cadvisor := fun _ _ => Ok ∅;
  op_containers := fun _ _ _ => Failed "no"; op_amlogs := fun _ _ _ => Err "no"; op_pids := fun _ _ => Ok [];
  op_pgid := fun _ _ => Ok 0; op_alive := fun _ _ => false; op_file := fun _ _ => Err "no"; op_stat := fun _ _ => false;
  op_mounts := fun _ => Ok []; op_pidfile := ""; op_totalSize := fun _ _ => Ok 0 |}.

Definition ex_op : nmop := mkNMop ex_hadoop false [] [] 0.

#[local] Existing Instance ex_conf_env.
#[local] Existing Instance ex_op_env.
#[local] Existing Instance key_order.

Definition ex_requests : list http_request :=
  [mkRequest "POST" "/v1/nm/schedule/disable" NoBody;
   mkRequest "POST" "/v1/nm/capacity/update" (BodyCapacity (mkNMCapacity 4 0 2048))].

