(* ===== verification/Qos.v ===== *)
(** * CPU and memory isolation

    pkg/caelus/qos/manager: the CPU managers of offline jobs (by the offline
    scheduling class, by cpuset, by quota) and the memory manager, on top of the
    cgroup files of Cgroup.v. *)

From Stdlib Require Import Ascii.
From S2P Require Import Prelude GoStrings GoFloat Quantity Topology Cgroup.

#[local] Open Scope string_scope.
#[local] Open Scope Z_scope.
#[local] Open Scope list_scope.

Definition CgroupOffline : string := "/kubepods/offline".
Definition CgroupOfflineSystem : string := CgroupOffline +:+ "/system".
Definition minCpuBtPercent : Z := 10.

Record CgroupResourceConfig (Q : Type) := mkCgroupResourceConfig {
  Resources : gmap string Q;
  OfflineCgroups : list string;
  OnlineCgroups : list string;
}.
Arguments mkCgroupResourceConfig {Q} _ _ _.
Arguments Resources {Q} _.
Arguments OfflineCgroups {Q} _.
Arguments OnlineCgroups {Q} _.

(** ** Recorded cgroups *)

(** [cgroupPaths.equal]: the same number of paths, each recorded one among the
    given ones. *)
Definition cgroupPaths_equal (c cgs : list string) : bool :=
  if negb (length cgs =? length c)%nat then false
  else forallb (fun cg => bool_decide (cg ∈ (list_to_set cgs : gset string))) c.

(** ** Helpers *)

Section Qos.
Context {CE : CgroupEnv} {Q : Type} `{QO : QuantityOps Q}.

Definition getOfflineCores (offlineRes : gmap string Q) : Z :=
  match offlineRes !! "cpu" with
  | None => 0
  | Some quantity => qMilliValue quantity `quot` 1000
  end.

(** The text of [fmt.Sprintf("%v", cores)]. *)
Definition print_ints (l : list Z) : string := "[" +:+ Join (map Itoa l) " " +:+ "]".

Fixpoint setCoresForCgroups (cgs : list string) (cores : list Z) (coresStr : string) : M (list error) :=
  match cgs with
  | [] => mret []
  | cgPath :: cgs' =>
      e ← (if negb (coresStr =? "")%string then WriteCpuSetCoresStr cgPath coresStr
           else WriteCpuSetCores cgPath cores);
      match e with
      | None => setCoresForCgroups cgs' cores coresStr
      | Some err =>
          let coresStr' := if (coresStr =? "")%string then print_ints cores else coresStr in
          errs ← setCoresForCgroups cgs' cores coresStr';
          mret (err :: errs)
      end
  end.

Definition recoverCoresForCgroups (cgs : list string) : M (list error) :=
  coresList ← GetCpuSet "" false;
  match coresList with
  | Err e => mret [e]
  | Ok [c] => setCoresForCgroups cgs [] c
  | Ok _ => mret ["invalid cpuset from root cgroup"]
  end.

Fixpoint setSharesForCgroups (cgs : list string) (shares : Z) : M (list error) :=
  match cgs with
  | [] => mret []
  | cg :: cgs' =>
      e ← SetCPUShares cg shares;
      errs ← setSharesForCgroups cgs' shares;
      mret (match e with Some err => err :: errs | None => errs end)
  end.

(** [initCgroup]; [env_mkdir] is the outcome of [EnsureCgroupPath], which lists
    the subsystems and creates the directories. *)
Definition initCgroup (env_mkdir : option error) : M (option error) :=
  match env_mkdir with
  | Some e => mret (Some e)
  | None =>
      e ← EnsureCpuSetCores CgroupOffline;
      match e with
      | Some err => mret (Some err)
      | None => GenerateTheadSiblings_store
      end
  end.

(** ** The list of reserved cpus *)

Fixpoint parseSlices (slices : list string) (cpus : gset Z) : result (gset Z) :=
  match slices with
  | [] => Ok cpus
  | slice :: slices' =>
      if (slen slice =? 1) then
        match Atoi slice with
        | None => Err "parse cpu to integer err"
        | Some core => parseSlices slices' ({[core]} ∪ cpus)
        end
      else
        match Split slice "-"%char with
        | [lo; hi] =>
            match Atoi lo, Atoi hi with
            | Some start, Some stop => parseSlices slices' (list_to_set (int_range start stop) ∪ cpus)
            | _, _ => Err "invalid cpu format"
            end
        | _ => Err "invalid cpu format"
        end
  end.

Definition parseCpList (cpuList : string) : result (gset Z) :=
  if (cpuList =? "")%string then Ok ∅ else parseSlices (Split cpuList ","%char) ∅.

(** ** Isolation by the offline scheduling class *)

Record qosCpuBT := mkCpuBT {
  bt_lastNCores : option Z;
  bt_kubeletStatic : bool;
}.

Definition qosCpuBT_PreInit (env_mkdir : option error) : M (option error) :=
  e ← initCgroup env_mkdir;
  match e with
  | Some err => mret (Some err)
  | None =>
      e ← CPUOfflineSet CgroupOffline true;
      match e with
      | Some err => mret (Some err)
      | None =>
          e ← CPUChildOfflineSet CgroupOffline true;
          match e with
          | Some err => mret (Some err)
          | None => SetCpuQuota CgroupOffline (float64_of_Z (-1))
          end
      end
  end.

(** The recovery of the cpusets of offline cgroups: whether it had no error. *)
Definition recoverStep (kubeletStatic : bool) (cgs : list string) : M bool := fun w =>
  if kubeletStatic || negb (cpusetRecovered w) then
    let '(errs, w') := recoverCoresForCgroups cgs w in
    match errs with
    | [] => (true, w')
    | _ => (false, set_recovered w' true)
    end
  else (true, w).

Definition qosCpuBT_Manage (b : qosCpuBT) (cg : CgroupResourceConfig Q) : M (outcome (option error * qosCpuBT)) :=
  let nCores := getOfflineCores (Resources cg) in
  let keep (n : option Z) : qosCpuBT := mkCpuBT n (bt_kubeletStatic b) in
  if nCores =? 0 then mret (Ret (None, b))
  else if bool_decide (bt_lastNCores b = Some nCores) then mret (Ret (None, b))
  else
    e ← CPUOfflineSet CgroupOffline true;
    match e with
    | Some err => mret (Ret (Some err, keep None))
    | None =>
        r ← CPUOfflineLimit nCores minCpuBtPercent;
        match r with
        | Crash c => mret (Crash c)
        | Ret (Some err) => mret (Ret (Some ("limit cpu usage failed: " +:+ err), keep None))
        | Ret None =>
            noError ← recoverStep (bt_kubeletStatic b) (OfflineCgroups cg);
            mret (Ret (None, keep (if (noError : bool) then Some nCores else None)))
        end
    end.

(** ** Isolation by cpuset *)

Record qosCpuSet := mkCpuSet {
  cs_lastNCores : option Z;
  cs_lastOfflineCgs : list string;
  cs_lastOnlineCgs : list string;
  cs_onlineIsolate : bool;
  cs_reserved : gset Z;
}.

Definition NewQosCpuSet (reservedCpus : string) (enableOnlineIsolate : bool) : outcome qosCpuSet :=
  match parseCpList reservedCpus with
  | Err e => Crash (Fatal ("invalid reserved cpu format: " +:+ e))
  | Ok reserved => Ret (mkCpuSet None [] [] enableOnlineIsolate reserved)
  end.

Definition set_cs (s : qosCpuSet) (n : option Z) (off on : list string) : qosCpuSet :=
  mkCpuSet n off on (cs_onlineIsolate s) (cs_reserved s).

(** [s.reserved.List()] is sorted. *)
Definition reserved_list (s : qosCpuSet) : list Z := sort_Ints (elements (cs_reserved s)).

Definition qosCpuSet_PreInit (env_mkdir : option error) : M (option error) :=
  e ← initCgroup env_mkdir;
  match e with
  | Some err => mret (Some err)
  | None =>
      e ← SetCpuQuota CgroupOffline (float64_of_Z (-1));
      match e with
      | Some err => mret (Some err)
      | None =>
          supported ← CPUOfflineSupported;
          if (supported : bool) then
            e ← CPUOfflineSet CgroupOffline false;
            match e with
            | Some err => mret (Some err)
            | None => CPUChildOfflineSet CgroupOffline false
            end
          else mret None
      end
  end.

(** The total cores without the reserved ones; a core that is not a number is
    core 0. *)
Definition unreserved (reserved : gset Z) (totalCoresStr : list string) : list Z :=
  filter (fun c => c ∉ reserved) (map (fun c => default 0 (Atoi c)) totalCoresStr).

Definition cs_unchanged (s : qosCpuSet) (nCores : Z) (cg : CgroupResourceConfig Q) : bool :=
  bool_decide (cs_lastNCores s = Some nCores) && cgroupPaths_equal (cs_lastOfflineCgs s) (OfflineCgroups cg) &&
  (negb (cs_onlineIsolate s) || cgroupPaths_equal (cs_lastOnlineCgs s) (OnlineCgroups cg)).

Definition qosCpuSet_Manage (s : qosCpuSet) (cg : CgroupResourceConfig Q) : M (option error * qosCpuSet) :=
  let nCores := getOfflineCores (Resources cg) in
  if nCores =? 0 then mret (None, s)
  else if cs_unchanged s nCores cg then mret (None, s)
  else
    totalCoresStr ← GetCpuSet "" true;
    match totalCoresStr with
    | Err e => mret (Some e, set_cs s None (cs_lastOfflineCgs s) (cs_lastOnlineCgs s))
    | Ok strs =>
        let totalCores := unreserved (cs_reserved s) strs in
        '(offlineCores, leftCores) ← (fun w => (ChooseNumaCores (threadSiblings w) totalCores nCores, w));
        match offlineCores with
        | [] => mret (Some "found zero for offline", set_cs s None (cs_lastOfflineCgs s) (cs_lastOnlineCgs s))
        | _ =>
            errs ← setCoresForCgroups (OfflineCgroups cg) offlineCores "";
            let s1 := match errs with
                      | [] => set_cs s (Some nCores) (OfflineCgroups cg) (cs_lastOnlineCgs s)
                      | _ => s
                      end in
            e ← SetCpuQuota CgroupOffline (float64_of_Z (-1));
            let s2 := match e with
                      | Some _ => set_cs s1 None (cs_lastOfflineCgs s1) (cs_lastOnlineCgs s1)
                      | None => s1
                      end in
            if cs_onlineIsolate s then
              let leftCores := leftCores ++ reserved_list s in
              match leftCores with
              | [] => mret (Some "found zero for online", set_cs s2 None (cs_lastOfflineCgs s2) (cs_lastOnlineCgs s2))
              | _ =>
                  errs ← setCoresForCgroups (OnlineCgroups cg) leftCores "";
                  mret (None, match errs with
                              | [] => set_cs s2 (cs_lastNCores s2) (cs_lastOfflineCgs s2) (OnlineCgroups cg)
                              | _ => set_cs s2 None (cs_lastOfflineCgs s2) (cs_lastOnlineCgs s2)
                              end)
              end
            else mret (None, s2)
        end
    end.

(** ** Isolation by quota *)

Record qosCpuQuota := mkCpuQuota {
  qt_lastNCores : option Z;
  qt_lastOfflineCgs : list string;
  qt_shareWeight : option Z;
  qt_kubeletStatic : bool;
}.

Definition qosCpuQuota_PreInit (env_mkdir : option error) : M (option error) :=
  e ← initCgroup env_mkdir;
  match e with
  | Some err => mret (Some err)
  | None =>
      supported ← CPUOfflineSupported;
      if (supported : bool) then
        e ← CPUOfflineSet CgroupOffline false;
        match e with
        | Some err => mret (Some err)
        | None => CPUChildOfflineSet CgroupOffline false
        end
      else mret None
  end.

Definition qosCpuQuota_Manage (q : qosCpuQuota) (cg : CgroupResourceConfig Q) : M (option error * qosCpuQuota) :=
  let nCores := getOfflineCores (Resources cg) in
  let keep (n : option Z) (cgs : list string) : qosCpuQuota :=
    mkCpuQuota n cgs (qt_shareWeight q) (qt_kubeletStatic q) in
  if nCores =? 0 then mret (None, q)
  else if bool_decide (qt_lastNCores q = Some nCores) &&
          (match qt_shareWeight q with None => true | Some _ => cgroupPaths_equal (qt_lastOfflineCgs q) (OfflineCgroups cg) end)
  then mret (None, q)
  else
    e ← SetCpuQuota CgroupOffline (float64_of_Z nCores);
    match e with
    | Some err => mret (Some err, keep None (qt_lastOfflineCgs q))
    | None =>
        errs ← (match qt_shareWeight q with
                | Some weight => setSharesForCgroups (OfflineCgroups cg) weight
                | None => mret []
                end);
        recovered ← recoverStep (qt_kubeletStatic q) (OfflineCgroups cg);
        mret (None, if match errs with [] => (recovered : bool) | _ => false end
                    then keep (Some nCores) (OfflineCgroups cg)
                    else keep None (qt_lastOfflineCgs q))
    end.

(** ** Memory *)

Definition memoryBuffer : Z := 1024 * 1020 * 1024.
Definition minUsage : Z := 100 * 1024 * 1024.

(** [machine.GetMemoryCgroupLimitByUsage]; the reason is a log text. *)
Definition GetMemoryCgroupLimitByUsage (limit usage : Z) : Z :=
  if usage <=? minUsage then limit
  else if int64 (limit - usage) <? memoryBuffer then int64 (usage + memoryBuffer)
  else limit.

(** [usage] is the memory of the offline cgroup in the statestore. *)
Definition qosMemory_Manage (usage : result float64) (cg : CgroupResourceConfig Q) : M (option error) :=
  match Resources cg !! "memory" with
  | None => mret None
  | Some quantity =>
      let limit := qValue quantity in
      let newLimit := match usage with
                      | Err _ => limit
                      | Ok u => GetMemoryCgroupLimitByUsage limit (int64_of_float64 u)
                      end in
      SetMemoryLimit CgroupOffline newLimit
  end.

(** ** The QoS manager *)

(** [checkResourceAvailable]: at least one core and 2048 MB. *)
Definition checkResourceAvailable (res : gmap string Q) : gmap string Q :=
  let minCpu := qNewMilliQuantity 1000 in
  let minMem := qNewQuantity (2048 * (1024 * 1024)) in
  let res := match res !! "cpu" with
             | Some cpu => if qCmp cpu minCpu <? 0 then <["cpu" := minCpu]> res else res
             | None => res
             end in
  match res !! "memory" with
  | Some mem => if qCmp mem minMem <? 0 then <["memory" := minMem]> res else res
  | None => res
  end.
End Qos.

(** ** Which files are written *)

(** Paths that end in different names are different. *)
Lemma path_Join_last l l' x y :
  clean_part x -> clean_part y -> x <> y -> path_Join (l ++ [x]) <> path_Join (l' ++ [y]).
Proof.
  intros Hx Hy Hne E. unfold path_Join in E. rewrite !map_app, !concat_app, !fold_left_app in E.
  assert (Hparts : forall l, Forall clean_part (fold_left path_clean_step (concat (map (fun p => Split p "/"%char) l)) [])).
  { intros l0. apply path_clean_clean; [constructor|]. apply Forall_concat, Forall_fmap, Forall_forall.
    intros p _. apply string_free_Split. }
  assert (Hone : forall z acc, clean_part z -> fold_left path_clean_step (concat (map (fun p => Split p "/"%char) [z])) acc = acc ++ [z]).
  { intros z acc Hz. simpl. rewrite app_nil_r, Split_free by apply Hz. apply path_clean_id. by apply Forall_singleton. }
  rewrite !Hone in E by done. injection E as E.
  apply (f_equal (fun s => Split s "/"%char)) in E. change "/" with (String "/"%char "") in E.
  assert (Hfree : forall l z, clean_part z -> Forall (string_free "/")
            (fold_left path_clean_step (concat (map (fun p => Split p "/"%char) l)) [] ++ [z])).
  { intros l0 z Hz. apply Forall_app. split; [|apply Forall_singleton; apply Hz].
    eapply Forall_impl; [apply Hparts|]. by intros q (_ & _ & _ & Hq). }
  rewrite !Split_Join in E; [|intros Hnil; by apply app_nil in Hnil as [_ ?]|by apply Hfree
                            |intros Hnil; by apply app_nil in Hnil as [_ ?]|by apply Hfree].
  apply app_inj_tail in E as [_ E]. done.
Qed.

Section Theory.
Context {CE : CgroupEnv} {Q : Type} `{QO : QuantityOps Q}.
Hypothesis writes_ok : forall n p d, env_write n p d = None.

(** [w'] is [w] with the files [ps] showing [data]. *)
Record written (w w' : world) (ps : list string) (data : string) : Prop := {
  wr_files : forall p, files w' !! p = if decide (p ∈ ps) then Some (env_readback p data) else files w !! p;
  wr_siblings : threadSiblings w' = threadSiblings w;
}.

Lemma WriteFile_written data dir file w :
  exists w', WriteFile data dir file w = (None, w') /\ written w w' [path_Join [dir; file]] data.
Proof.
  unfold WriteFile, write_path. rewrite writes_ok. eexists. split; [done|]. split; [|done].
  intros p. cbn [files set_files]. destruct (decide (p ∈ [path_Join [dir; file]])) as [Hp|Hp].
  - apply list_elem_of_singleton in Hp as ->. by rewrite lookup_insert_eq.
  - rewrite lookup_insert_ne; [done|]. intros E. apply Hp. rewrite E. left.
Qed.

Lemma WriteCpuSetCores_written cg cores w :
  cores <> [] ->
  exists w', WriteCpuSetCores cg cores w = (None, w') /\ written w w' [cpuset_path cg] (cores_text cores).
Proof.
  intros Hc. unfold WriteCpuSetCores. destruct cores as [|c cores]; [done|].
  destruct (WriteFile_written (cores_text (c :: cores)) (path_Join [env_root; CpuSetSubsystem; cg]) cpusetCpus w)
    as (w' & E & Hw). exists w'. split; [done|]. by rewrite path_Join_nested in Hw.
Qed.

Lemma written_trans w w1 w2 ps qs data :
  written w w1 ps data -> written w1 w2 qs data -> written w w2 (ps ++ qs) data.
Proof.
  intros [H1 H2] [H3 H4]. split; [|congruence]. intros p. rewrite H3, H1.
  assert (Hiff : p ∈ ps ++ qs <-> p ∈ ps \/ p ∈ qs) by apply elem_of_app.
  repeat case_decide; tauto || done.
Qed.

Lemma setCores_written cgs cores w :
  cores <> [] ->
  exists w', setCoresForCgroups cgs cores "" w = ([], w') /\ written w w' (map cpuset_path cgs) (cores_text cores).
Proof.
  intros Hc. revert w. induction cgs as [|cg cgs IH]; intros w; simpl.
  { exists w. split; [done|]. split; [|done]. intros p. case_decide as Hp; [by apply elem_of_nil in Hp|done]. }
  destruct (WriteCpuSetCores_written cg cores w Hc) as (w1 & E1 & Hw1).
  destruct (IH w1) as (w2 & E2 & Hw2). exists w2. unfold mbind, M_bind. rewrite E1, E2. split; [done|].
  by apply (written_trans w w1 w2 [cpuset_path cg]).
Qed.

(** Files of the cpu subsystem are not cpuset files. *)
Lemma SetCpuQuota_written cg cores w :
  exists w', SetCpuQuota cg cores w = (None, w') /\ threadSiblings w' = threadSiblings w /\
    forall p, files w' !! cpuset_path p = files w !! cpuset_path p.
Proof.
  unfold SetCpuQuota, mbind, M_bind.
  destruct (WriteFile_written "1000000" (path_Join [env_root; CPUSubsystem; cg]) "cpu.cfs_period_us" w) as (w1 & -> & [Hf1 Hs1]).
  match goal with |- context [WriteFile ?d ?r ?f w1] => destruct (WriteFile_written d r f w1) as (w2 & -> & [Hf2 Hs2]) end.
  exists w2. split_and!; [done|congruence|]. intros p. rewrite Hf2, Hf1.
  assert (Hne : forall file, clean_part file -> "cpuset.cpus" <> file ->
            cpuset_path p ∉ [path_Join [path_Join [env_root; CPUSubsystem; cg]; file]]).
  { intros file Hc Hfile Hin. apply list_elem_of_singleton in Hin. rewrite path_Join_nested in Hin.
    apply (path_Join_last [env_root; CpuSetSubsystem; p] [env_root; CPUSubsystem; cg] "cpuset.cpus" file); [|done|done|exact Hin].
    by repeat split. }
  rewrite !decide_False by (apply Hne; [by repeat split|done]). done.
Qed.
End Theory.

(** ** Properties *)

Lemma cores_text_parse cores :
  Forall (fun c => in_int64 c) cores -> map (fun c => default 0 (Atoi c)) (map Itoa cores) = cores.
Proof.
  intros HF. rewrite map_map. induction HF as [|z l Hz HF IH]; simpl; [done|].
  rewrite Atoi_Itoa by done. simpl. by rewrite IH.
Qed.

Lemma cgroupPaths_equal_refl cgs : cgroupPaths_equal cgs cgs = true.
Proof.
  unfold cgroupPaths_equal. rewrite Nat.eqb_refl. simpl. apply forallb_forall. intros x Hx.
  apply bool_decide_eq_true, elem_of_list_to_set. by apply list_elem_of_In.
Qed.

Section Isolation.
Context {CE : CgroupEnv} {Q : Type} `{QO : QuantityOps Q}.
Hypothesis writes_ok : forall n p d, env_write n p d = None.

(** What a successful round of cpuset isolation leaves behind. *)
Record isolated (s : qosCpuSet) (cg : CgroupResourceConfig Q) (cores off on : list Z) (w : world) : Prop := {
  iso_partition : off ++ on ≡ₚ filter (fun c => c ∉ cs_reserved s) cores ++ elements (cs_reserved s);
  iso_count : Z.of_nat (length off) =
              Z.min (getOfflineCores (Resources cg)) (Z.of_nat (length (filter (fun c => c ∉ cs_reserved s) cores)));
  iso_disjoint : forall c, c ∈ off -> c ∉ on;
  iso_offline : forall a, a ∈ OfflineCgroups cg ->
    files w !! cpuset_path a = Some (env_readback (cpuset_path a) (cores_text off));
  iso_online : cs_onlineIsolate s = true -> forall b, b ∈ OnlineCgroups cg ->
    files w !! cpuset_path b = Some (env_readback (cpuset_path b) (cores_text on));
}.

(** The cores left, with the reserved ones, are apart from the chosen ones. *)
Lemma chosen_disjoint (reserved : gset Z) cores off leftover :
  NoDup cores -> off ++ leftover ≡ₚ filter (fun c => c ∉ reserved) cores ->
  forall c, c ∈ off -> c ∉ leftover ++ sort_Ints (elements reserved).
Proof.
  intros Hnd Hp c Hc Hin.
  assert (Hnd2 : NoDup (off ++ leftover)) by (rewrite Hp; by apply NoDup_filter).
  apply NoDup_app in Hnd2 as (_ & Hsep & _). apply elem_of_app in Hin as [Hin|Hin]; [by apply (Hsep c)|].
  rewrite sort_Ints_perm in Hin. apply elem_of_elements in Hin.
  assert (Hf : c ∈ filter (fun c => c ∉ reserved) cores) by (rewrite <- Hp; apply elem_of_app; by left).
  by apply list_elem_of_filter in Hf as [? _].
Qed.

Lemma qosCpuSet_Manage_isolated s cg cores w :
  GetCpuSet "" true w = (Ok (map Itoa cores), w) -> Forall (fun c => in_int64 c) cores -> NoDup cores ->
  symmetric_siblings (threadSiblings w) ->
  0 < getOfflineCores (Resources cg) -> cs_unchanged s (getOfflineCores (Resources cg)) cg = false ->
  filter (fun c => c ∉ cs_reserved s) cores <> [] ->
  (forall a b, a ∈ OfflineCgroups cg -> b ∈ OnlineCgroups cg -> cpuset_path a <> cpuset_path b) ->
  exists off on r s' w', qosCpuSet_Manage s cg w = ((r, s'), w') /\
    (r = None -> isolated s cg cores off on w' /\ cs_unchanged s' (getOfflineCores (Resources cg)) cg = true) /\
    (r <> None -> cs_onlineIsolate s = true /\ on = []).
Proof.
  intros Hget Hrange Hnd Hsym Hn Hun Hne Hpaths. unfold qosCpuSet_Manage.
  destruct (Z.eqb_spec (getOfflineCores (Resources cg)) 0); [lia|]. rewrite Hun.
  unfold mbind, M_bind, mret, M_ret. rewrite Hget.
  assert (Eu : unreserved (cs_reserved s) (map Itoa cores) = filter (fun c => c ∉ cs_reserved s) cores)
    by (unfold unreserved; by rewrite cores_text_parse).
  rewrite Eu. set (avail := filter (fun c => c ∉ cs_reserved s) cores) in *.
  pose proof (ChooseNumaCores_partition (threadSiblings w) avail (getOfflineCores (Resources cg)) Hsym
                (NoDup_filter _ _ Hnd) ltac:(lia)) as Hch.
  destruct (ChooseNumaCores (threadSiblings w) avail (getOfflineCores (Resources cg))) as [off leftover].
  destruct Hch as [Hperm Hcount].
  assert (Hoff : off <> []).
  { intros ->. simpl in Hcount. assert (0 < length avail)%nat by (destruct avail; [done|simpl; lia]). lia. }
  destruct off as [|o0 off0] eqn:Eoff; [done|]. rewrite <- Eoff in *.
  destruct (setCores_written writes_ok (OfflineCgroups cg) off w Hoff) as (w1 & -> & [Hf1 Hs1]).
  destruct (SetCpuQuota_written writes_ok CgroupOffline (float64_of_Z (-1)) w1) as (w2 & -> & Hs2 & Hf2).
  pose proof (chosen_disjoint (cs_reserved s) cores off leftover Hnd Hperm) as Hdisj. fold (reserved_list s) in Hdisj.
  set (on := leftover ++ reserved_list s) in *.
  assert (Hpart : off ++ on ≡ₚ avail ++ elements (cs_reserved s)).
  { unfold on, reserved_list. rewrite sort_Ints_perm, app_assoc. by rewrite Hperm. }
  assert (Hoffline : forall a, a ∈ OfflineCgroups cg -> files w2 !! cpuset_path a = Some (env_readback (cpuset_path a) (cores_text off))).
  { intros a Ha. rewrite Hf2, Hf1, decide_True; [done|]. apply list_elem_of_fmap. eauto. }
  exists off, on. destruct (cs_onlineIsolate s) eqn:Hiso.
  - destruct on as [|c0 on0] eqn:Eon; [do 3 eexists; split; [done|]; by split|]. rewrite <- Eon in *.
    destruct (setCores_written writes_ok (OnlineCgroups cg) on w2 ltac:(by rewrite Eon)) as (w3 & -> & [Hf3 Hs3]).
    do 3 eexists. split; [done|]. split; [|done]. intros _. split.
    + split; try done.
      * intros a Ha. rewrite Hf3, decide_False; [by apply Hoffline|].
        intros Hin. apply list_elem_of_fmap in Hin as (b & Eb & Hb). by apply (Hpaths a b).
      * intros _ b Hb. rewrite Hf3, decide_True; [done|]. apply list_elem_of_fmap. eauto.
    + unfold cs_unchanged, set_cs. simpl. rewrite bool_decide_true by done.
      by rewrite !cgroupPaths_equal_refl, orb_true_r.
  - do 3 eexists. split; [done|]. split; [|done]. intros _. split.
    + split; try done. by rewrite Hiso.
    + unfold cs_unchanged, set_cs. simpl. rewrite bool_decide_true, Hiso by done.
      by rewrite cgroupPaths_equal_refl.
Qed.
End Isolation.


(** ** Further lemmas *)

Section Facts.
Context {CE : CgroupEnv}.

(** No cgroup operation other than [recoverStep] touches the recovered flag. *)
Lemma write_path_recovered path data w r w' :
  write_path path data w = (r, w') -> cpusetRecovered w' = cpusetRecovered w.
Proof. unfold write_path. destruct (env_write _ _ _); by intros [= <- <-]. Qed.

Lemma WriteCpuSetCoresStr_recovered cg text w r w' :
  WriteCpuSetCoresStr cg text w = (r, w') -> cpusetRecovered w' = cpusetRecovered w.
Proof.
  unfold WriteCpuSetCoresStr, WriteFile. destruct (text =? "")%string; [by intros [= <- <-]|]. apply write_path_recovered.
Qed.

Lemma WriteCpuSetCores_recovered cg cores w r w' :
  WriteCpuSetCores cg cores w = (r, w') -> cpusetRecovered w' = cpusetRecovered w.
Proof.
  unfold WriteCpuSetCores, WriteFile. destruct cores; [by intros [= <- <-]|]. apply write_path_recovered.
Qed.

Lemma setCores_recovered cgs cores text w errs w' :
  setCoresForCgroups cgs cores text w = (errs, w') -> cpusetRecovered w' = cpusetRecovered w.
Proof.
  revert text w errs w'. induction cgs as [|cg cgs IH]; intros text w errs w'; simpl; [by intros [= <- <-]|].
  unfold mbind, M_bind, mret, M_ret.
  destruct ((if negb (text =? "")%string then WriteCpuSetCoresStr cg text else WriteCpuSetCores cg cores) w)
    as [[e|] w1] eqn:E1.
  - destruct (setCoresForCgroups cgs cores _ w1) as [errs1 w2] eqn:E2. intros [= <- <-].
    rewrite (IH _ _ _ _ E2). destruct (negb _); eauto using WriteCpuSetCoresStr_recovered, WriteCpuSetCores_recovered.
  - intros E2. rewrite (IH _ _ _ _ E2).
    destruct (negb _); eauto using WriteCpuSetCoresStr_recovered, WriteCpuSetCores_recovered.
Qed.

Lemma recoverCores_recovered cgs w errs w' :
  recoverCoresForCgroups cgs w = (errs, w') -> cpusetRecovered w' = cpusetRecovered w.
Proof.
  unfold recoverCoresForCgroups, mbind, M_bind, mret, M_ret, GetCpuSet, ReadFile, mbind, M_bind, mret, M_ret.
  destruct (files w !! _) as [text|]; cbn [negb]; [|by intros [= <- <-]].
  destruct (drop_newlines text =? "")%string; [by intros [= <- <-]|]. apply setCores_recovered.
Qed.

(** Writes that the kernel refuses leave the files alone. *)
Lemma setCores_refused text cgs cores w :
  text <> "" -> (forall n p, env_write n p text <> None) ->
  exists errs w', setCoresForCgroups cgs cores text w = (errs, w') /\
    length errs = length cgs /\ files w' = files w.
Proof.
  intros Ht Hrefuse. revert w. induction cgs as [|cg cgs IH]; intros w; simpl; [by exists [], w|].
  assert (Et : (text =? "")%string = false) by by destruct (String.eqb_spec text "").
  unfold mbind, M_bind, mret, M_ret. rewrite Et. cbn [negb].
  unfold WriteCpuSetCoresStr, WriteFile. rewrite Et. unfold write_path.
  destruct (env_write (writes w) _ text) as [e|] eqn:E; [|by apply Hrefuse in E].
  edestruct IH as (errs & w' & -> & Hlen & Hf). do 2 eexists. split; [done|]. simpl. by rewrite Hlen, Hf.
Qed.
End Facts.

Lemma Itoa_length z : 0 <= z -> slen (Itoa z) = 1 <-> z < 10.
Proof.
  intros Hz. split.
  - intros Hl. destruct (Itoa_cons z Hz) as (d & s & Hd & E). rewrite E in Hl.
    destruct s as [|c s]; [|unfold slen in Hl; simpl in Hl; lia].
    unfold Itoa in E. destruct (Z.ltb_spec z 0); [lia|]. unfold print_nonneg in E.
    pose proof (parse_print_nonneg z "" Hz) as Hp. rewrite E in Hp. cbn [parse_digits] in Hp.
    rewrite char_digit_char in Hp by done. injection Hp as <-. lia.
  - intros Hlt. assert (Hc : z = 0 \/ z = 1 \/ z = 2 \/ z = 3 \/ z = 4 \/ z = 5 \/ z = 6 \/ z = 7 \/ z = 8 \/ z = 9) by lia.
    repeat (destruct Hc as [-> | Hc]; [vm_compute; reflexivity|]). subst. by vm_compute.
Qed.

(** A range of a cpu list as [parseCpList] reads it: a single cpu has one digit. *)
Definition readable_range (r : Z * Z) : bool := negb (r.1 =? r.2) || (r.1 <? 10).

Lemma range_text_pair r : wf_range r -> r.1 <> r.2 ->
  Split (range_text r) "-"%char = [Itoa r.1; Itoa r.2] /\ (slen (range_text r) =? 1) = false.
Proof.
  intros [[H1 H2] H3] Hne. unfold range_text. destruct (Z.eqb_spec r.1 r.2); [done|].
  change ("-" +:+ Itoa r.2) with (String "-" (Itoa r.2)). split.
  - rewrite Split_app_sep by (by apply Itoa_nonneg_free).
    rewrite Split_free; [done|]. apply Itoa_nonneg_free; [lia|done].
  - apply Z.eqb_neq. destruct (Itoa_cons r.1 H1) as (d & s & _ & ->).
    unfold slen. cbn [String.length String.append]. rewrite string_length_app. cbn [String.length]. lia.
Qed.

Lemma parseSlices_ranges rs cpus :
  Forall wf_range rs ->
  parseSlices (map range_text rs) cpus =
  if forallb readable_range rs then Ok (list_to_set (ranges_cores rs) ∪ cpus) else Err "invalid cpu format".
Proof.
  intros HF. revert cpus. induction HF as [|r rs Hr HF IH]; intros cpus; simpl.
  { by rewrite union_empty_l_L. }
  destruct (decide (r.1 = r.2)) as [E|Hne].
  - assert (Et : range_text r = Itoa r.2) by (unfold range_text; by rewrite E, Z.eqb_refl).
    assert (Er : readable_range r = (r.2 <? 10)) by (unfold readable_range; by rewrite E, Z.eqb_refl).
    rewrite Et, Er. destruct Hr as [[H1 H2] H3].
    pose proof (Itoa_length r.2 ltac:(lia)) as Hl. destruct (Z.eqb_spec (slen (Itoa r.2)) 1) as [El|El].
    + rewrite Atoi_Itoa by (unfold in_int64; simpl in *; lia). destruct (Z.ltb_spec r.2 10); [|apply Hl in El; lia].
      simpl. rewrite IH. destruct (forallb readable_range rs); [|done]. unfold ranges_cores. simpl.
      rewrite E, int_range_single, list_to_set_app_L. simpl. f_equal. set_solver.
    + destruct (Z.ltb_spec r.2 10) as [Hlt|Hge]; [by apply Hl in Hlt|]. rewrite Split_free by (apply Itoa_nonneg_free; [lia|done]). done.
  - destruct (range_text_pair r Hr Hne) as [-> ->]. destruct Hr as [[H1 H2] H3].
    rewrite !Atoi_Itoa by (unfold in_int64; simpl in *; lia).
    unfold readable_range at 1. destruct (Z.eqb_spec r.1 r.2); [done|]. simpl. rewrite IH.
    destruct (forallb readable_range rs); [|done]. unfold ranges_cores. simpl.
    rewrite list_to_set_app_L. f_equal. set_solver.
Qed.

(** ** Properties *)

Section Properties.
Context {CE : CgroupEnv} {Q : Type} `{QL : QuantityLaws Q}.

(** C3: A round of cpuset isolation on a machine whose kernel accepts the
    writes: the cores that are not reserved are divided into the requested
    number for offline jobs (or all of them) and the rest, which together with
    the reserved cores is for online jobs; no core is in both; the cpuset files
    of all offline (and, when enabled, online) cgroups list exactly these cores;
    and a further round with the same configuration changes nothing.  The only
    error is that no core is left for online jobs. *)
Theorem cpuset_round_isolates s (cg : CgroupResourceConfig Q) cores w :
  (forall n p d, env_write n p d = None) ->
  GetCpuSet "" true w = (Ok (map Itoa cores), w) -> Forall (fun c => in_int64 c) cores -> NoDup cores ->
  symmetric_siblings (threadSiblings w) ->
  0 < getOfflineCores (Resources cg) -> cs_unchanged s (getOfflineCores (Resources cg)) cg = false ->
  filter (fun c => c ∉ cs_reserved s) cores <> [] ->
  (forall a b, a ∈ OfflineCgroups cg -> b ∈ OnlineCgroups cg -> cpuset_path a <> cpuset_path b) ->
  exists off on r s' w', qosCpuSet_Manage s cg w = ((r, s'), w') /\
    (r = None -> isolated s cg cores off on w' /\ forall w'', qosCpuSet_Manage s' cg w'' = ((None, s'), w'')) /\
    (r <> None -> cs_onlineIsolate s = true /\ on = []).
Proof.
  intros Hw Hget Hrange Hnd Hsym Hn Hun Hne Hpaths.
  destruct (qosCpuSet_Manage_isolated Hw s cg cores w Hget Hrange Hnd Hsym Hn Hun Hne Hpaths)
    as (off & on & r & s' & w' & E & Hok & Herr).
  exists off, on, r, s', w'. split_and!; [done| |done]. intros Hr. destruct (Hok Hr) as [Hiso Hu].
  split; [done|]. intros w''. unfold qosCpuSet_Manage.
  destruct (Z.eqb_spec (getOfflineCores (Resources cg)) 0); [lia|]. by rewrite Hu.
Qed.

(** One refused write breaks the cgroups after it: when the write to the
    first cgroup fails, the later ones are given the text of a Go slice
    ("[0 1 2]") instead of a cpu list, so a kernel that rejects that text
    leaves every file as it was and every cgroup reports an error. *)
Theorem setCores_one_failure_fails_all cg cgs cores e w :
  cores <> [] -> env_write (writes w) (cpuset_path cg) (cores_text cores) = Some e ->
  (forall n p, env_write n p (print_ints cores) <> None) ->
  exists errs w', setCoresForCgroups (cg :: cgs) cores "" w = (errs, w') /\
    length errs = length (cg :: cgs) /\ files w' = files w.
Proof.
  intros Hne Hfail Hrefuse. simpl. unfold mbind, M_bind, mret, M_ret.
  unfold WriteCpuSetCores, WriteFile, write_path. destruct cores as [|c cores]; [done|].
  rewrite path_Join_nested. cbn [app].
  change (path_Join [env_root; CpuSetSubsystem; cg; cpusetCpus]) with (cpuset_path cg). rewrite Hfail.
  edestruct (setCores_refused (print_ints (c :: cores)) cgs (c :: cores)) as (errs & w' & -> & Hlen & Hf); [done|done|].
  do 2 eexists. split; [done|]. simpl. by rewrite Hlen, Hf.
Qed.

(** The recovery of cpusets is repeated while it succeeds and given up
    after a failure: unless the kubelet is static, a failed recovery sets the
    flag that makes every later one a successful no-op, and a recovery without
    errors leaves the flag unset. *)
Theorem recovery_given_up_on_error cgs w r w' :
  recoverStep false cgs w = (r, w') ->
  (r = false -> forall cgs', recoverStep false cgs' w' = (true, w')) /\
  (r = true -> cpusetRecovered w' = cpusetRecovered w).
Proof.
  unfold recoverStep. cbn [orb]. destruct (cpusetRecovered w) eqn:Ew; cbn [negb]; [by intros [= <- <-]|].
  destruct (recoverCoresForCgroups cgs w) as [[|e errs] w1] eqn:E; intros [= <- <-]; (split; [done || intros _|done || intros _]).
  rewrite <- Ew. by eapply recoverCores_recovered.
Qed.

(** Parsing the reserved cpus inverts the printing of a list of ranges
    when every single cpu of it has one digit; a list with a single cpu from 10
    on is rejected. *)
Theorem parseCpList_ranges rs :
  rs <> [] -> Forall wf_range rs ->
  parseCpList (ranges_text rs) =
  if forallb readable_range rs then Ok (list_to_set (ranges_cores rs)) else Err "invalid cpu format".
Proof.
  intros Hne HF. unfold parseCpList.
  assert (Hs : Split (ranges_text rs) ","%char = map range_text rs).
  { unfold ranges_text. change "," with (String ","%char ""). apply Split_Join; [by destruct rs|].
    apply Forall_fmap. eapply Forall_impl; [exact HF|]. intros r Hr. by apply range_text_free. }
  assert (Hn : (ranges_text rs =? "")%string = false).
  { apply String.eqb_neq. intros E. rewrite E in Hs. destruct rs as [|r [|r2 rs]]; [done| |done].
    simpl in Hs. injection Hs as Hr. inversion HF as [|? ? [[H1 H2] H3] _]. subst.
    unfold range_text in Hr. destruct (Itoa_cons r.1 H1) as (d & t & _ & Et). rewrite Et in Hr. by destruct (r.1 =? r.2). }
  rewrite Hn, Hs, parseSlices_ranges by done. destruct (forallb readable_range rs); [|done]. f_equal. set_solver.
Qed.

(** What a round of the memory manager writes. *)
Lemma memory_limit_facts (cg : CgroupResourceConfig Q) (quantity : Q) usage w :
  Resources cg !! "memory" = Some quantity ->
  0 <= qValue quantity < 2 ^ 62 -> 0 <= int64_of_float64 usage < 2 ^ 62 ->
  (forall n p d, env_write n p d = None) ->
  let limit := qValue quantity in
  let used := int64_of_float64 usage in
  let file := path_Join [path_Join [env_root; MemorySubsystem; CgroupOffline]; "memory.limit_in_bytes"] in
  let newLimit := if used <=? minUsage then limit else Z.max limit (used + memoryBuffer) in
  exists w', qosMemory_Manage (Ok usage) cg w = (None, w') /\
    files w' = <[file := env_readback file (Itoa newLimit)]> (files w).
Proof.
  intros Hq Hl Hu Hw. cbv zeta. unfold qosMemory_Manage. rewrite Hq.
  set (limit := qValue quantity) in *. set (used := int64_of_float64 usage) in *.
  assert (E : GetMemoryCgroupLimitByUsage limit used = if used <=? minUsage then limit else Z.max limit (used + memoryBuffer)).
  { unfold GetMemoryCgroupLimitByUsage. destruct (used <=? minUsage); [done|].
    rewrite int64_id by (unfold in_int64, memoryBuffer in *; simpl in *; lia).
    destruct (Z.ltb_spec (limit - used) memoryBuffer); [|lia].
    rewrite int64_id by (unfold in_int64, memoryBuffer in *; simpl in *; lia). lia. }
  rewrite E. unfold SetMemoryLimit, WriteFile, write_path. rewrite Hw. by eexists.
Qed.

(** The memory limit of offline jobs is the requested amount, raised to
    the usage plus the buffer when the usage is above 100 MB and closer to the
    limit than that, so that the limit never falls on the memory in use; it is
    the value of the limit file afterwards. *)
Theorem memory_limit_leaves_buffer (cg : CgroupResourceConfig Q) (quantity : Q) usage w :
  Resources cg !! "memory" = Some quantity ->
  0 <= qValue quantity < 2 ^ 62 -> 0 <= int64_of_float64 usage < 2 ^ 62 ->
  (forall n p d, env_write n p d = None) ->
  let limit := qValue quantity in
  let used := int64_of_float64 usage in
  let file := path_Join [path_Join [env_root; MemorySubsystem; CgroupOffline]; "memory.limit_in_bytes"] in
  let newLimit := if used <=? minUsage then limit else Z.max limit (used + memoryBuffer) in
  exists w', qosMemory_Manage (Ok usage) cg w = (None, w') /\
    files w' = <[file := env_readback file (Itoa newLimit)]> (files w).
Proof. apply memory_limit_facts. Qed.

(** Raising one resource to a minimum. *)
Lemma raise_lookup (res : gmap string Q) (key : string) (least : Q) k :
  match res !! key with Some q => if qCmp q least <? 0 then <[key := least]> res else res | None => res end !! k =
  if (k =? key)%string then (fun q => if amount q <? amount least then least else q) <$> (res !! k) else res !! k.
Proof.
  destruct (String.eqb_spec k key) as [->|Hk].
  - destruct (res !! key) as [q|] eqn:Eq; simpl; [|done]. rewrite qCmp_ltb.
    destruct (amount q <? amount least); [by rewrite lookup_insert_eq|done].
  - destruct (res !! key) as [q|]; [|done]. destruct (_ <? 0); [by rewrite lookup_insert_ne|done].
Qed.

(** The resources handed to the QoS managers have at least one core and
    2048 MB when they name cpu and memory; larger amounts and all other
    resources pass unchanged. *)
Lemma checkResourceAvailable_minimum (res : gmap string Q) k :
  match res !! k, checkResourceAvailable res !! k with
  | None, None => True
  | Some q, Some q' =>
      amount q' = (if (k =? "cpu")%string then Z.max (amount q) nano
                   else if (k =? "memory")%string then Z.max (amount q) (2048 * 1024 * 1024 * nano)
                   else amount q) /\
      (amount q' = amount q -> q' = q)
  | _, _ => False
  end.
Proof.
  assert (Hcpu : amount (qNewMilliQuantity 1000) = nano) by (rewrite amount_NewMilliQuantity; done).
  assert (Hmem : amount (qNewQuantity (2048 * (1024 * 1024))) = 2048 * 1024 * 1024 * nano)
    by (rewrite amount_NewQuantity; done).
  unfold checkResourceAvailable. rewrite !raise_lookup. rewrite Hmem, Hcpu.
  destruct (String.eqb_spec k "cpu") as [->|H1]; [|destruct (String.eqb_spec k "memory") as [->|H2]];
    simpl; destruct (res !! _) as [q|]; simpl; try done.
  - destruct (Z.ltb_spec (amount q) nano); rewrite ?Hcpu; split; try lia; done.
  - destruct (Z.ltb_spec (amount q) (2048 * 1024 * 1024 * nano)); rewrite ?Hmem; split; try lia; done.
Qed.
End Properties.

(** ** Witnesses *)

Definition ex_siblings_world : world :=
  set_siblings ex_world {[0 := 2; 2 := 0; 1 := 3; 3 := 1]}.
Definition ex_resources : CgroupResourceConfig Z :=
  mkCgroupResourceConfig {["cpu" := 2 * nano; "memory" := 4096 * 1024 * 1024 * nano]}
    ["/kubepods/offline/a"; "/kubepods/offline/b"] ["/kubepods/c"].
Definition ex_cpuset : qosCpuSet := mkCpuSet None [] [] true ∅.

Lemma cpuset_round_isolates_witness :
  exists off on s' w',
    @qosCpuSet_Manage ex_env Z _ ex_cpuset ex_resources ex_siblings_world = ((None, s'), w') /\
    @isolated ex_env Z _ ex_cpuset ex_resources [0; 1; 2; 3] off on w'.
Proof.
  destruct (@cpuset_round_isolates ex_env Z _ ex_cpuset ex_resources [0; 1; 2; 3] ex_siblings_world)
    as (off & on & r & s' & w' & E & Hok & _).
  - reflexivity.
  - vm_compute. reflexivity.
  - repeat constructor; unfold in_int64; simpl; lia.
  - apply NoDup_ListNoDup. repeat constructor; simpl; lia.
  - unfold ex_siblings_world, symmetric_siblings. cbn [threadSiblings set_siblings].
    intros p q Hpq. repeat (apply lookup_insert_Some in Hpq as [[<- <-]|[_ Hpq]]; [by split|]).
    apply lookup_singleton_Some in Hpq as [<- <-]. by split.
  - vm_compute. reflexivity.
  - vm_compute. reflexivity.
  - vm_compute. discriminate.
  - intros a b Ha Hb. apply list_elem_of_singleton in Hb as ->. revert a Ha. apply Forall_forall.
    repeat constructor; vm_compute; discriminate.
  - assert (Hr : r = None).
    { change r with (fst (fst ((r, s'), w'))). rewrite <- E. vm_compute. reflexivity. }
    subst r. exists off, on, s', w'. split; [exact E|]. by apply Hok.
Defined.

(** A kernel that refuses the write to a removed cgroup and any text that is not
    a list of cpus. *)
Definition ex_strict_env : CgroupEnv := {|
  env_root := "/sys/fs/cgroup";
  env_write := fun _ p d => if HasPrefix d "[" then Some "invalid argument"
                            else if HasPrefix p "/sys/fs/cgroup/cpuset/gone" then Some "no such file or directory" else None;
  env_readback := fun _ s => s +:+ String newline "";
  env_cpuinfo := Ok ex_cpus;
  env_readdir := fun _ => Ok [];
  env_walk := fun _ => Ok [];
  env_pids := fun _ _ => Pids [];
|}.

Lemma setCores_one_failure_fails_all_witness :
  exists errs w', @setCoresForCgroups ex_strict_env ["gone"; "a"; "b"] [0; 2] "" ex_world = (errs, w') /\
    length errs = 3%nat /\ files w' = files ex_world.
Proof.
  apply (@setCores_one_failure_fails_all ex_strict_env "gone" ["a"; "b"] [0; 2] "no such file or directory").
  - discriminate.
  - reflexivity.
  - intros n p. discriminate.
Defined.

Lemma recovery_given_up_on_error_witness :
  cpusetRecovered (snd (@recoverStep ex_strict_env false ["gone"] ex_world)) = true /\
  fst (@recoverStep ex_strict_env false ["a"] (snd (@recoverStep ex_strict_env false ["gone"] ex_world))) = true.
Proof.
  split; [reflexivity|].
  destruct (@recoverStep ex_strict_env false ["gone"] ex_world) as [r w'] eqn:E.
  destruct (recovery_given_up_on_error ["gone"] ex_world r w' E) as [H _].
  simpl. rewrite H; [reflexivity|]. revert E. vm_compute. congruence.
Defined.

Lemma parseCpList_ranges_witness :
  parseCpList "0-3,8" = Ok (list_to_set [0; 1; 2; 3; 8]) /\ parseCpList "0-3,10" = Err "invalid cpu format".
Proof.
  split; [apply (parseCpList_ranges [(0, 3); (8, 8)])|apply (parseCpList_ranges [(0, 3); (10, 10)])];
    first [discriminate | repeat constructor; simpl; lia].
Defined.

Lemma memory_limit_leaves_buffer_witness :
  exists w', @qosMemory_Manage ex_env Z _ (Ok (float64_of_Z 4000000000)) ex_resources ex_world = (None, w') /\
    files w' !! "/sys/fs/cgroup/memory/kubepods/offline/memory.limit_in_bytes" =
    Some ("5069547520" +:+ String newline "").
Proof.
  destruct (@memory_limit_leaves_buffer ex_env Z _ ex_resources (4096 * 1024 * 1024 * nano) (float64_of_Z 4000000000) ex_world)
    as (w' & E & Hf).
  - reflexivity.
  - vm_compute. by split.
  - vm_compute. by split.
  - reflexivity.
  - exists w'. split; [exact E|]. rewrite Hf. vm_compute. reflexivity.
Defined.
