(* ===== verification/Adaptive.v ===== *)
(** * The adaptive CPU policy

    pkg/caelus/qos/manager/manage_cpu.go, [qosCpuAdaptive]: it tries the
    policies in turn, measures the online jobs under each, and keeps the one
    that wins five rounds in a row.  A tick of its timer is a step of a state
    machine; the samples of the statestore and the random jitter are arguments. *)

From Corelib Require Import Floats.SpecFloat.
From S2P Require Import Prelude GoStrings GoFloat Quantity Topology Cgroup Qos.

#[local] Open Scope string_scope.
#[local] Open Scope Z_scope.
#[local] Open Scope list_scope.

Definition tryDuration : duration := 15 * Minute.
Definition roundDuration : duration := 6 * Hour.
Definition winThreshold : Z := 5.

(** The managers the adaptive policy chooses from. *)
Inductive policy :=
| PolicyBT (b : qosCpuBT)
| PolicySet (s : qosCpuSet).

Section Adaptive.
Context {CE : CgroupEnv} {Q : Type} `{QO : QuantityOps Q}.

(** The outcome of [EnsureCgroupPath]. *)
Variable env_mkdir : option error.

Record qosCpuAdaptive := mkAdaptive {
  factories : list (outcome policy);
  managerMetrics : list float64;
  currTry : nat;
  currentManager : option policy;
  currentWinFactory : nat;
  winCount : Z;
  lastCgResources : option (CgroupResourceConfig Q);
  roundCount : Z;
}.

Definition policy_PreInit (p : policy) : M (option error) :=
  match p with
  | PolicyBT _ => qosCpuBT_PreInit env_mkdir
  | PolicySet _ => qosCpuSet_PreInit env_mkdir
  end.

Definition policy_Manage (p : policy) (cg : CgroupResourceConfig Q) : M (outcome (option error * policy)) :=
  match p with
  | PolicyBT b =>
      r ← qosCpuBT_Manage b cg;
      mret (match r with Crash c => Crash c | Ret (e, b') => Ret (e, PolicyBT b') end)
  | PolicySet s => '(e, s') ← qosCpuSet_Manage s cg; mret (Ret (e, PolicySet s'))
  end.

Definition NewQosCpuAdaptive (kubeletStatic : bool) (reservedCpus : string) (enableOnlineIsolate : bool) :
    qosCpuAdaptive :=
  mkAdaptive [Ret (PolicyBT (mkCpuBT None kubeletStatic));
              match NewQosCpuSet reservedCpus enableOnlineIsolate with
              | Crash c => Crash c
              | Ret s => Ret (PolicySet s)
              end]
    [fzero; fzero] 0 None 0 0 None 0.

Definition set_manager (q : qosCpuAdaptive) (p : policy) : qosCpuAdaptive :=
  mkAdaptive (factories q) (managerMetrics q) (currTry q) (Some p) (currentWinFactory q) (winCount q)
    (lastCgResources q) (roundCount q).

(** [q.factories[i]()]. *)
Definition call_factory (q : qosCpuAdaptive) (i : nat) : outcome policy :=
  match factories q !! i with Some p => p | None => Crash (Panic "index out of range") end.

Definition adaptive_PreInit (q : qosCpuAdaptive) : M (outcome (option error * qosCpuAdaptive)) :=
  match call_factory q 0 with
  | Crash c => mret (Crash c)
  | Ret p =>
      e ← policy_PreInit p;
      mret (Ret (e, mkAdaptive (factories q) (managerMetrics q) 0 (Some p) (currentWinFactory q) (winCount q)
                      (lastCgResources q) (roundCount q)))
  end.

Definition adaptive_Manage (q : qosCpuAdaptive) (cg : CgroupResourceConfig Q) :
    M (outcome (option error * qosCpuAdaptive)) :=
  match currentManager q with
  | None => mret (Crash (Panic "nil pointer dereference"))
  | Some p =>
      r ← policy_Manage p cg;
      mret (match r with
            | Crash c => Crash c
            | Ret (e, p') =>
                Ret (e, mkAdaptive (factories q) (managerMetrics q) (currTry q) (Some p') (currentWinFactory q)
                          (winCount q) (Some cg) (roundCount q))
            end)
  end.

Definition renewManager (q : qosCpuAdaptive) : M (outcome qosCpuAdaptive) :=
  _ ← (fun w => (tt, set_recovered w false));
  match call_factory q (currTry q) with
  | Crash c => mret (Crash c)
  | Ret p =>
      _ ← policy_PreInit p;
      match lastCgResources q with
      | None => mret (Ret (set_manager q p))
      | Some cg =>
          r ← policy_Manage p cg;
          mret (match r with Crash c => Crash c | Ret (_, p') => Ret (set_manager q p') end)
      end
  end.

(** The mean of the samples that have a value. *)
Definition metricSum (vv : list (gmap string float64)) : float64 :=
  let '(cnt, sum) := fold_left (fun '(cnt, sum) v =>
                       match v !! "value" with
                       | None => (cnt, sum)
                       | Some value => (cnt + 1, fadd sum value)
                       end) vv (0, fzero) in
  if 0 <? cnt then fdiv sum (float64_of_Z cnt) else sum.

(** The index of the first smallest metric. *)
Fixpoint minLoop (i : nat) (vs : list float64) (min : float64) (minIdx : nat) : nat :=
  match vs with
  | [] => minIdx
  | v :: vs' => if flt v min then minLoop (S i) vs' v i else minLoop (S i) vs' min minIdx
  end.

Definition minMetric (metrics : list float64) : outcome nat :=
  match metrics with
  | [] => Crash (Panic "index out of range")
  | m0 :: _ => Ret (minLoop 0 metrics m0 0)
  end.

(** What the goroutine does next: wait for the timer, or return. *)
Inductive next := Wait (d : duration) | Return.

Definition renew_and (q : qosCpuAdaptive) (n : next) : M (outcome (qosCpuAdaptive * next)) :=
  r ← renewManager q; mret (match r with Crash c => Crash c | Ret q' => Ret (q', n) end).

(** A tick of the timer with the samples of the statestore by metric name, and
    [Intn], the random numbers drawn below a bound. *)
Definition adaptive_tick (metrics : result (list (list (gmap string float64)))) (Intn : Z -> Z)
    (q : qosCpuAdaptive) : M (outcome (qosCpuAdaptive * next)) :=
  let tryAgain := Wait (tryDuration + Intn (5 * 60) * Second) in
  match metrics with
  | Err _ | Ok [] => mret (Ret (q, tryAgain))
  | Ok (_ :: _ :: _) => mret (Ret (q, Return))
  | Ok [vv] =>
      if negb (currTry q <? length (managerMetrics q))%nat then mret (Crash (Panic "index out of range"))
      else
        let metrics := <[currTry q := metricSum vv]> (managerMetrics q) in
        let currTry' := ((currTry q + 1) mod length (factories q))%nat in
        if (currTry' =? currentWinFactory q)%nat then
          match minMetric metrics with
          | Crash c => mret (Crash c)
          | Ret minIdx =>
              if (currentWinFactory q =? minIdx)%nat then
                let q1 := mkAdaptive (factories q) metrics currTry' (currentManager q) (currentWinFactory q)
                            (winCount q + 1) (lastCgResources q) (roundCount q + 1) in
                renew_and q1 (if winThreshold <=? winCount q1 then Return
                              else Wait (roundDuration + Intn 30 * Minute))
              else
                renew_and (mkAdaptive (factories q) metrics minIdx (currentManager q) minIdx 1 (lastCgResources q)
                             (roundCount q + 1)) (Wait (roundDuration + Intn 30 * Minute))
          end
        else
          renew_and (mkAdaptive (factories q) metrics currTry' (currentManager q) (currentWinFactory q) (winCount q)
                       (lastCgResources q) (roundCount q)) tryAgain
  end.

(** What happens to the manager: a tick of its timer, with the samples of the
    policy that is being tried, or a call of [Manage]. *)
Inductive event :=
| Tick (samples : nat -> result (list (list (gmap string float64)))) (Intn : Z -> Z)
| Isolate (cg : CgroupResourceConfig Q).

(** The goroutine of [Run] and the calls of [Manage], over a sequence of events
    up to the return of the goroutine; the result says whether it has returned. *)
Fixpoint adaptive_run (events : list event) (q : qosCpuAdaptive) : M (outcome (qosCpuAdaptive * bool)) :=
  match events with
  | [] => mret (Ret (q, false))
  | Tick samples Intn :: events' =>
      r ← adaptive_tick (samples (currTry q)) Intn q;
      match r with
      | Crash c => mret (Crash c)
      | Ret (q', Return) => mret (Ret (q', true))
      | Ret (q', Wait _) => adaptive_run events' q'
      end
  | Isolate cg :: events' =>
      r ← adaptive_Manage q cg;
      match r with
      | Crash c => mret (Crash c)
      | Ret (_, q') => adaptive_run events' q'
      end
  end.
End Adaptive.
Arguments mkAdaptive {Q} _ _ _ _ _ _ _ _.
Arguments factories {Q} _.
Arguments managerMetrics {Q} _.
Arguments currTry {Q} _.
Arguments currentManager {Q} _.
Arguments currentWinFactory {Q} _.
Arguments winCount {Q} _.
Arguments lastCgResources {Q} _.
Arguments roundCount {Q} _.

(** ** The contest between two policies *)

Section Contest.
Context {CE : CgroupEnv} {Q : Type} `{QO : QuantityOps Q} (env_mkdir : option error).
Variable metric : nat -> float64.
Variables p0 p1 : policy.
Hypothesis has_cpus : env_cpuinfo <> Ok [].

(** The part of the state that decides: the metrics, the policy being tried, the
    winner so far and its wins. *)
Record contest := mkContest { c_metrics : list float64; c_try : nat; c_win : nat; c_wins : Z }.

Definition contest_of (q : qosCpuAdaptive (Q := Q)) : contest :=
  mkContest (managerMetrics q) (currTry q) (currentWinFactory q) (winCount q).

(** One measured trial of two policies, and whether the contest is over. *)
Definition contest_step (c : contest) : contest * bool :=
  let metrics := <[c_try c := metric (c_try c)]> (c_metrics c) in
  let try' := ((c_try c + 1) mod 2)%nat in
  if (try' =? c_win c)%nat then
    let minIdx := match metrics with [] => 0%nat | m0 :: _ => minLoop 0 metrics m0 0 end in
    if (c_win c =? minIdx)%nat
    then (mkContest metrics try' (c_win c) (c_wins c + 1), winThreshold <=? c_wins c + 1)
    else (mkContest metrics minIdx minIdx 1, false)
  else (mkContest metrics try' (c_win c) (c_wins c), false).

(** Two policies that can be created, measured metrics for each, and a try among them. *)
Definition contest_ok (q : qosCpuAdaptive (Q := Q)) : Prop :=
  factories q = [Ret p0; Ret p1] /\ length (managerMetrics q) = 2%nat /\
  (currTry q < 2)%nat /\ (currentWinFactory q < 2)%nat.

Definition kind (p : policy) : bool := match p with PolicyBT _ => true | PolicySet _ => false end.

(** The current manager was made by the factory of the current try. *)
Definition manages_try (q : qosCpuAdaptive (Q := Q)) : Prop :=
  exists p p', factories q !! currTry q = Some (Ret p) /\ currentManager q = Some p' /\ kind p = kind p'.

Lemma policy_Manage_total p (cg : CgroupResourceConfig Q) w :
  exists e p' w', policy_Manage p cg w = (Ret (e, p'), w') /\ kind p' = kind p.
Proof.
  destruct p as [b|s]; simpl; unfold mbind, M_bind, mret, M_ret.
  2: { destruct (qosCpuSet_Manage s cg w) as [[e s'] w']. by repeat eexists. }
  cut (exists e b' w', qosCpuBT_Manage b cg w = (Ret (e, b'), w')).
  { intros (e & b' & w' & ->). by repeat eexists. }
  unfold qosCpuBT_Manage, mbind, M_bind, mret, M_ret.
  destruct (_ =? 0); [by repeat eexists|]. destruct (bool_decide _); [by repeat eexists|].
  destruct (CPUOfflineSet CgroupOffline true w) as [[e|] w1]; [by repeat eexists|].
  unfold CPUOfflineLimit, mbind, M_bind, mret, M_ret. destruct (getCpuTotal w1) as [[total|e] w2] eqn:Et; [|by repeat eexists].
  assert (Hz : total <> 0).
  { revert Et. unfold getCpuTotal. destruct (Z.eqb_spec (cpuTotal w1) 0) as [E0|]; simpl; [|by intros [= <- _]].
    destruct env_cpuinfo as [info|] eqn:Ei; [|done]. intros [= <- _]. destruct info; [done|]. simpl. lia. }
  unfold offlinePercent. destruct (total <? _); [by repeat eexists|].
  destruct (Z.eqb_spec total 0); [done|]. destruct (env_readdir offlinePath) as [names|]; [|by repeat eexists].
  destruct (limitLoop _ names w2) as [u w3]. destruct (recoverStep _ _ w3) as [ok w4]. by repeat eexists.
Qed.

Lemma renewManager_total q w :
  contest_ok q -> exists q' w', renewManager env_mkdir q w = (Ret q', w') /\ contest_of q' = contest_of q /\
    contest_ok q' /\ manages_try q'.
Proof.
  intros Hok. pose proof Hok as (Hf & Hl & Ht & Hw). unfold renewManager, call_factory, mbind, M_bind, mret, M_ret.
  assert (Hp : exists p, factories q !! currTry q = Some (Ret p)).
  { rewrite Hf. destruct (currTry q) as [|[|n]]; simpl; eauto; lia. }
  destruct Hp as [p Hp]. rewrite Hp. destruct (policy_PreInit env_mkdir p _) as [e w1].
  destruct (lastCgResources q) as [cg|].
  - destruct (policy_Manage_total p cg w1) as (e' & p' & w2 & -> & Hk). do 2 eexists. split; [done|].
    split_and!; [done|done|]. exists p, p'. by split_and!.
  - do 2 eexists. split; [done|]. split_and!; [done|done|]. exists p, p. by split_and!.
Qed.

Lemma renew_and_total q n w :
  contest_ok q -> exists q' w', renew_and env_mkdir q n w = (Ret (q', n), w') /\ contest_of q' = contest_of q /\
    contest_ok q' /\ manages_try q'.
Proof.
  intros Hok. destruct (renewManager_total q w Hok) as (q' & w' & E & H). exists q', w'.
  unfold renew_and, mbind, M_bind, mret, M_ret. by rewrite E.
Qed.

(** The manager is renewed in a state that is known. *)
Ltac renew_case env_mkdir :=
  match goal with |- context [renew_and env_mkdir ?q1 ?n1 ?w] =>
    destruct (renew_and_total q1 n1 w) as (? & ? & -> & ? & ? & ?); [by split_and!; simpl; eauto|]
  end;
  do 3 eexists; split; [done|]; match goal with E : contest_of _ = contest_of _ |- _ => rewrite E end;
  split_and!; try done; unfold contest_of; simpl.

(** A tick with measured samples is a step of the contest. *)
Lemma adaptive_tick_measured vv Intn q w :
  contest_ok q -> metricSum vv = metric (currTry q) ->
  exists q' n w', adaptive_tick env_mkdir (Ok [vv]) Intn q w = (Ret (q', n), w') /\
    contest_step (contest_of q) = (contest_of q', match n with Return => true | Wait _ => false end) /\
    contest_ok q' /\ manages_try q'.
Proof.
  intros Hok Hm. pose proof Hok as (Hf & Hl & Ht & Hw). unfold adaptive_tick, contest_step.
  cbn [contest_of c_try c_metrics c_win c_wins]. rewrite Hm, Hl, Hf. cbn [length].
  destruct (Nat.ltb_spec (currTry q) 2); [|lia]. cbn [negb].
  set (metrics := <[currTry q := metric (currTry q)]> (managerMetrics q)).
  assert (Hlm : length metrics = 2%nat) by (unfold metrics; by rewrite length_insert).
  assert (Hmod : ((currTry q + 1) mod 2 < 2)%nat) by (apply Nat.mod_upper_bound; lia).
  destruct metrics as [|m0 [|m1 [|]]] eqn:Em; try done. unfold minMetric.
  assert (Hmin : (minLoop 0 [m0; m1] m0 0 < 2)%nat).
  { cbn [minLoop]. destruct (flt m0 m0), (flt m1 m0); lia. }
  destruct ((currTry q + 1) mod 2 =? currentWinFactory q)%nat.
  - destruct (currentWinFactory q =? minLoop 0 [m0; m1] m0 0)%nat; renew_case env_mkdir.
    by destruct (winThreshold <=? _).
  - renew_case env_mkdir.
Qed.

(** The samples of a tick: none yet, or one metric, with the value of the policy
    that is being tried. *)
Definition no_data (samples : nat -> result (list (list (gmap string float64)))) : Prop :=
  forall i, match samples i with Err _ | Ok [] => True | _ => False end.
Definition measured (samples : nat -> result (list (list (gmap string float64)))) : Prop :=
  forall i, (i < 2)%nat -> exists vv, samples i = Ok [vv] /\ metricSum vv = metric i.

(** A sequence of events with [n] measured ticks. *)
Inductive event_sequence : nat -> list (event (Q := Q)) -> Prop :=
| events_end : event_sequence 0 []
| events_no_data s Intn n events :
    no_data s -> event_sequence n events -> event_sequence n (Tick s Intn :: events)
| events_measured s Intn n events :
    measured s -> event_sequence n events -> event_sequence (S n) (Tick s Intn :: events)
| events_isolate cg n events : event_sequence n events -> event_sequence n (Isolate cg :: events).

(** The contest after [k] trials. *)
Fixpoint trials (k : nat) (c : contest) : contest * bool :=
  match k with
  | O => (c, false)
  | S k' => let '(c', over) := contest_step c in if over then (c', true) else trials k' c'
  end.

Lemma adaptive_Manage_total q cg w :
  contest_ok q -> manages_try q ->
  exists e q' w', adaptive_Manage q cg w = (Ret (e, q'), w') /\ contest_of q' = contest_of q /\
    contest_ok q' /\ manages_try q'.
Proof.
  intros Hok (p & p' & Hp & Hc & Hk). unfold adaptive_Manage, mbind, M_bind, mret, M_ret. rewrite Hc.
  destruct (policy_Manage_total p' cg w) as (e & p2 & w' & -> & Hk2). do 3 eexists. split; [done|].
  split_and!; [done|done|]. exists p, p2. simpl. split_and!; congruence.
Qed.

Lemma adaptive_run_trials n events q w k :
  event_sequence n events -> (k <= n)%nat -> contest_ok q -> manages_try q -> snd (trials k (contest_of q)) = true ->
  exists q' w', adaptive_run env_mkdir events q w = (Ret (q', true), w') /\
    contest_of q' = fst (trials k (contest_of q)) /\ contest_ok q' /\ manages_try q'.
Proof.
  intros Ht. revert q w k.
  induction Ht as [|s Intn n events Hs Ht IH|s Intn n events Hs Ht IH|cg n events Ht IH]; intros q w k Hk Hok Hman Hover;
    cbn [adaptive_run]; unfold mbind, M_bind, mret, M_ret.
  - by replace k with 0%nat in Hover by lia.
  - specialize (Hs (currTry q)).
    unfold adaptive_tick at 1. destruct (s (currTry q)) as [[|vv l]|e]; try done; by apply IH.
  - destruct k as [|k]; [done|]. destruct (Hs (currTry q)) as (vv & -> & Hm); [apply Hok|].
    destruct (adaptive_tick_measured vv Intn q w Hok Hm) as (q' & nx & w' & -> & Hstep & Hok' & Hman').
    cbn [trials] in *. rewrite Hstep in *. destruct nx as [d|]; [apply IH; try done; lia|].
    by exists q', w'.
  - destruct (adaptive_Manage_total q cg w Hok Hman) as (e & q' & w' & -> & Hc & Hok' & Hman').
    rewrite <- Hc in *. by apply IH.
Qed.

(** Of two policies the one with the smaller metric wins, in ten trials. *)
Lemma trials_ten m0 m1 :
  trials 10 (mkContest [m0; m1] 0 0 0) =
  (let best := if flt (metric 1) (metric 0) then 1%nat else 0%nat in
   mkContest [metric 0; metric 1] best best 5, true).
Proof.
  pose proof (flt_irrefl (metric 0)) as Ei.
  destruct (flt (metric 1) (metric 0)) eqn:E;
    repeat (cbn -[flt]; rewrite ?Ei, ?E); reflexivity.
Qed.
End Contest.

(** ** Properties *)


Definition ex_metric (i : nat) : float64 := match i with O => float64_of_Z 3 | _ => float64_of_Z 2 end.
Definition ex_tick : event (Q := Z) := Tick (fun i => Ok [[{["value" := ex_metric i]}; ∅]]) (fun _ => 0).

