(* ===== verification/ProjectFile.v ===== *)
(** * The files of project quotas

    pkg/caelus/diskquota/manager/projectquota/projectfile.go: the ids of project
    quotas are kept in /etc/projects ([id:path] lines) and /etc/projid
    ([name:id] lines).  The texts of the two files are the arguments and results
    here; the order in which the maps are written is a parameter. *)

From Stdlib Require Import Ascii.
From S2P Require Import Prelude GoStrings Cgroup.

#[local] Open Scope string_scope.
#[local] Open Scope Z_scope.
#[local] Open Scope list_scope.

(** Ranging over a map whose keys are ids, in an order of the run time. *)
Class IdRange := {
  range_ids : forall {V : Type}, gmap Z V -> list (Z * V);
  range_ids_perm : forall {V : Type} (m : gmap Z V), range_ids m ≡ₚ map_to_list m;
}.

Definition id_order : IdRange := {|
  range_ids := fun V m => map_to_list m;
  range_ids_perm := fun V m => Permutation_refl _;
|}.

(** ** Reading *)

Definition carriage_return : string := String (ascii_of_nat 13) "".
Definition MaxScanTokenSize : Z := 64 * 1024.

(** The lines a [bufio.Scanner] returns: without the line ends, and up to the
    first one that does not fit its buffer. *)
Fixpoint scan_pieces (pieces : list string) : list string :=
  match pieces with
  | [] => []
  | [last] => if (last =? "")%string || (MaxScanTokenSize <=? slen last) then [] else [TrimSuffix last carriage_return]
  | piece :: rest =>
      if MaxScanTokenSize <=? slen piece then [] else TrimSuffix piece carriage_return :: scan_pieces rest
  end.

Definition scan_lines (text : string) : list string := scan_pieces (Split text newline).

(** A path as the process sees it, of a path of the file, and back. *)
Definition path_in (InHostNamespace : bool) (p : string) : string :=
  if InHostNamespace then p else path_Join [RootFS; p].
Definition path_out (InHostNamespace : bool) (p : string) : string :=
  if InHostNamespace then p else TrimPrefix p RootFS.

(** [idPathHandleFunc] of a line with two fields. *)
Definition idPathHandleFunc (InHostNamespace : bool) (idPaths : gmap Z (list string)) (f0 f1 : string) : gmap Z (list string) :=
  match Atoi (TrimSpace f0) with
  | None => idPaths
  | Some id =>
      let pathName := path_in InHostNamespace (TrimSpace f1) in
      <[int32 id := match idPaths !! int32 id with Some loaded => loaded ++ [pathName] | None => [pathName] end]> idPaths
  end.

Definition idNameHandleFunc (idNames : gmap Z string) (f0 f1 : string) : gmap Z string :=
  match Atoi (TrimSpace f1) with
  | None => idNames
  | Some id => <[int32 id := TrimSpace f0]> idNames
  end.

(** [dumpProjectsFile]: the handler runs on the lines of two fields. *)
Definition dumpProjectsFile {S : Type} (text : string) (handle : S -> string -> string -> S) (s : S) : S :=
  fold_left (fun s line => match Split line ":"%char with
                           | [f0; f1] => handle s f0 f1
                           | _ => s
                           end) (scan_lines text) s.

Definition DumpProjectIds (InHostNamespace : bool) (projects projid : string) : gmap Z (list string) * gmap Z string :=
  (dumpProjectsFile projects (idPathHandleFunc InHostNamespace) ∅, dumpProjectsFile projid idNameHandleFunc ∅).

(** ** Writing *)

Section Writing.
Context {IR : IdRange}.

Definition newline_text : string := String newline "".

(** The text [UpdateProjects] writes. *)
Definition UpdateProjects (InHostNamespace : bool) (idPaths : gmap Z (list string)) : string :=
  fold_left (fun s '(id, paths) =>
      fold_left (fun s path => s +:+ (Itoa id +:+ ":" +:+ path_out InHostNamespace path) +:+ newline_text) paths s)
    (range_ids idPaths) "".

(** The text [UpdateProjIds] writes. *)
Definition UpdateProjIds (idNames : gmap Z string) : string :=
  fold_left (fun s '(id, name) => s +:+ (name +:+ ":" +:+ Itoa id) +:+ newline_text) (range_ids idNames) "".
End Writing.

(** ** Lines *)

Definition lines_text (ls : list string) : string := fold_left (fun s l => s +:+ l +:+ newline_text) ls "".

(** A line the scanner returns as it was written. *)
Definition plain_line (l : string) : Prop :=
  string_free newline l /\ string_free (ascii_of_nat 13) l /\ slen l < MaxScanTokenSize.

Lemma TrimSuffix_free c s : string_free c s -> TrimSuffix s (String c "") = s.
Proof.
  induction s as [|d s IH]; cbn [TrimSuffix]; [done|]. intros [Hd Hs].
  destruct (String.eqb_spec (String d s) (String c "")) as [[= -> _]|_]; [done|]. by rewrite IH.
Qed.

Lemma Split_lines_text ls :
  Forall (string_free newline) ls -> Split (lines_text ls) newline = ls ++ [""].
Proof.
  intros HF. destruct ls as [|l ls]; [done|].
  unfold lines_text. rewrite fold_append_Join by done.
  change ("" +:+ Join (l :: ls) newline_text +:+ newline_text) with (Join (l :: ls) newline_text +:+ newline_text).
  assert (E : forall k ks, Join (k :: ks) newline_text +:+ newline_text = Join ((k :: ks) ++ [""]) newline_text).
  { intros k ks. revert k. induction ks as [|k' ks IH]; intros k; [done|].
    change (Join (k :: k' :: ks) newline_text) with (k +:+ newline_text +:+ Join (k' :: ks) newline_text).
    rewrite !string_app_assoc, IH. done. }
  rewrite E. apply Split_Join; [done|]. apply Forall_app. split; [done|]. by repeat constructor.
Qed.

Lemma scan_lines_text ls : Forall plain_line ls -> scan_lines (lines_text ls) = ls.
Proof.
  intros HF. unfold scan_lines. rewrite Split_lines_text by (eapply Forall_impl; [exact HF|]; by intros l (? & _)).
  induction HF as [|l ls (H1 & H2 & H3) HF IH]; [done|]. cbn [app scan_pieces].
  destruct (ls ++ [""]) as [|x xs] eqn:E; [by destruct ls|].
  destruct (Z.leb_spec MaxScanTokenSize (slen l)); [lia|].
  unfold carriage_return. rewrite TrimSuffix_free by done. f_equal. exact IH.
Qed.

(** ** Round trips *)

(** Texts that can be a field of a line, and ids that fit an [int32]. *)
Definition field (s : string) : Prop :=
  TrimSpace s = s /\ string_free ":" s /\ string_free newline s /\ string_free (ascii_of_nat 13) s /\ slen s < 65000.
Definition recordable_id (id : Z) : Prop := 0 <= id < 2 ^ 31.
Definition recordable_path (host : bool) (p : string) : Prop :=
  path_in host (path_out host p) = p /\ field (path_out host p).

Lemma recordable_int32 id : recordable_id id -> int32 id = id.
Proof. intros H. apply int32_id. unfold recordable_id, in_int32 in *. simpl in *. lia. Qed.

Lemma Itoa_field id : recordable_id id -> field (Itoa id).
Proof.
  intros H. unfold recordable_id in H. destruct (Itoa_plain id ltac:(lia)) as [H1 H2].
  split_and!; [done|apply Itoa_nonneg_free; [lia|done]..|lia].
Qed.

(** A line of two fields is split into them. *)
Lemma field_line a b : field a -> field b ->
  Split (a +:+ ":" +:+ b) ":"%char = [a; b] /\ (slen a <= 64 \/ slen b <= 64 -> plain_line (a +:+ ":" +:+ b)).
Proof.
  intros (Ha1 & Ha2 & Ha3 & Ha4 & Ha5) (Hb1 & Hb2 & Hb3 & Hb4 & Hb5). change (":" +:+ b) with (String ":"%char b). split.
  - by rewrite Split_app_sep, Split_free.
  - intros Hl. unfold plain_line. rewrite !string_free_app. split_and!; try done.
    unfold slen, MaxScanTokenSize in *. rewrite string_length_app. cbn [String.length]. lia.
Qed.

Section RoundTrip.
Context {IR : IdRange}.

Lemma range_ids_lookup {V} (m : gmap Z V) id v : (id, v) ∈ range_ids m -> m !! id = Some v.
Proof. rewrite range_ids_perm. apply elem_of_map_to_list. Qed.

Lemma range_ids_map {V} (m : gmap Z V) : list_to_map (range_ids m) = m.
Proof.
  rewrite <- (list_to_map_to_list m) at 2. apply list_to_map_proper; [|apply range_ids_perm].
  rewrite range_ids_perm. apply NoDup_fst_map_to_list.
Qed.

Lemma range_ids_NoDup {V} (m : gmap Z V) : NoDup (range_ids m).*1.
Proof. rewrite range_ids_perm. apply NoDup_fst_map_to_list. Qed.

(** Inserting the entries of a list into an empty map, last first or first first. *)
Lemma fold_insert_map {V} (l : list (Z * V)) (m : gmap Z V) :
  NoDup l.*1 -> fold_left (fun m '(k, v) => <[k := v]> m) l m = list_to_map l ∪ m.
Proof.
  revert m. induction l as [|[k v] l IH]; intros m Hnd; simpl; [by rewrite (left_id_L ∅ (∪))|].
  apply NoDup_cons in Hnd as [Hk Hnd]. rewrite IH by done.
  rewrite <- insert_union_l. symmetry. apply insert_union_r, not_elem_of_list_to_map_1, Hk.
Qed.

Lemma fold_left_concat {A B C} (f : C -> B -> C) (g : A -> list B) (l : list A) (c : C) :
  fold_left (fun c a => fold_left f (g a) c) l c = fold_left f (concat (map g l)) c.
Proof. revert c. induction l as [|a l IH]; intros c; simpl; [done|]. by rewrite fold_left_app, IH. Qed.

Lemma fold_left_map {A B C} (f : C -> B -> C) (g : A -> B) (l : list A) (c : C) :
  fold_left f (map g l) c = fold_left (fun c a => f c (g a)) l c.
Proof. revert c. induction l as [|a l IH]; intros c; simpl; [done|]. apply IH. Qed.

(** The lines of an id, and reading them back. *)
Definition path_lines (host : bool) (e : Z * list string) : list string :=
  map (fun p => Itoa e.1 +:+ ":" +:+ path_out host p) e.2.

Definition path_step (host : bool) (s : gmap Z (list string)) (line : string) : gmap Z (list string) :=
  match Split line ":"%char with [f0; f1] => idPathHandleFunc host s f0 f1 | _ => s end.

Lemma path_step_line host m id p :
  recordable_id id -> recordable_path host p ->
  path_step host m (Itoa id +:+ ":" +:+ path_out host p) =
  <[id := match m !! id with Some l => l ++ [p] | None => [p] end]> m.
Proof.
  intros Hid [Hp Hf]. unfold path_step. destruct (field_line _ _ (Itoa_field id Hid) Hf) as [-> _].
  unfold idPathHandleFunc. rewrite (proj1 (Itoa_field id Hid)), (proj1 Hf), Hp.
  rewrite Atoi_Itoa by (unfold recordable_id, in_int64 in *; simpl in *; lia). by rewrite recordable_int32.
Qed.

Lemma path_steps_block host m id paths :
  recordable_id id -> Forall (recordable_path host) paths -> paths <> [] -> m !! id = None ->
  fold_left (path_step host) (path_lines host (id, paths)) m = <[id := paths]> m.
Proof.
  intros Hid HF Hne Hm. destruct paths as [|p paths]; [done|]. inversion HF as [|? ? Hp HF']; subst.
  unfold path_lines. cbn [fst snd map fold_left]. rewrite path_step_line, Hm by done.
  cut (forall done, fold_left (path_step host) (map (fun p => Itoa id +:+ ":" +:+ path_out host p) paths) (<[id := done]> m)
                    = <[id := done ++ paths]> m); [intros H; apply H|].
  clear p Hp HF Hne. induction HF' as [|q paths Hq HF' IH]; intros l; cbn [map fold_left]; [by rewrite app_nil_r|].
  rewrite path_step_line, lookup_insert_eq, insert_insert_eq by done. rewrite IH. by rewrite <- app_assoc.
Qed.

Lemma path_steps_blocks host l m :
  Forall (fun e => recordable_id e.1 /\ Forall (recordable_path host) e.2 /\ e.2 <> []) l ->
  NoDup l.*1 -> (forall id, id ∈ l.*1 -> m !! id = None) ->
  fold_left (path_step host) (concat (map (path_lines host) l)) m = fold_left (fun m '(k, v) => <[k := v]> m) l m.
Proof.
  intros HF. revert m. induction HF as [|[id paths] l (H1 & H2 & H3) HF IH]; intros m Hnd Hm; simpl; [done|].
  apply NoDup_cons in Hnd as [Hk Hnd]. rewrite fold_left_app, path_steps_block by (done || apply Hm; left).
  apply IH; [done|]. intros j Hj. rewrite lookup_insert_ne by (intros ->; done). apply Hm. by right.
Qed.

Lemma UpdateProjects_lines host m :
  UpdateProjects host m = lines_text (concat (map (path_lines host) (range_ids m))).
Proof.
  unfold UpdateProjects, lines_text. rewrite <- fold_left_concat. apply fold_left_ext. intros s [id paths] _.
  unfold path_lines. by rewrite fold_left_map.
Qed.

(** The ids of paths. *)
Lemma projects_file_facts host (idPaths : gmap Z (list string)) :
  map_Forall (fun id paths => recordable_id id /\ Forall (recordable_path host) paths /\ paths <> []) idPaths ->
  (DumpProjectIds host (UpdateProjects host idPaths) "").1 = idPaths.
Proof.
  intros HF. unfold DumpProjectIds. cbn [fst]. unfold dumpProjectsFile. rewrite UpdateProjects_lines.
  assert (Hl : Forall (fun e => recordable_id e.1 /\ Forall (recordable_path host) e.2 /\ e.2 <> []) (range_ids idPaths)).
  { apply Forall_forall. intros [id paths] Hin. apply (HF id paths). by apply range_ids_lookup. }
  rewrite scan_lines_text.
  - fold (path_step host). rewrite path_steps_blocks; [|done|apply range_ids_NoDup|done].
    rewrite fold_insert_map by apply range_ids_NoDup. by rewrite (right_id_L ∅ (∪)), range_ids_map.
  - apply Forall_concat, Forall_fmap. eapply Forall_impl; [exact Hl|]. intros [id paths] (H1 & H2 & _).
    apply Forall_fmap. eapply Forall_impl; [exact H2|]. intros p [_ Hp]. simpl.
    apply field_line; [by apply Itoa_field|done|]. left. apply Itoa_plain. unfold recordable_id in H1. simpl in *. lia.
Qed.

(** The names of ids. *)
Lemma projid_file_facts host (idNames : gmap Z string) :
  map_Forall (fun id name => recordable_id id /\ field name) idNames ->
  (DumpProjectIds host "" (UpdateProjIds idNames)).2 = idNames.
Proof.
  intros HF. unfold DumpProjectIds. cbn [snd]. unfold dumpProjectsFile, UpdateProjIds.
  assert (Hl : Forall (fun e => recordable_id e.1 /\ field e.2) (range_ids idNames)).
  { apply Forall_forall. intros [id name] Hin. apply (HF id name). by apply range_ids_lookup. }
  set (line := fun e : Z * string => e.2 +:+ ":" +:+ Itoa e.1).
  assert (Et : fold_left (fun s '(id, name) => s +:+ (name +:+ ":" +:+ Itoa id) +:+ newline_text) (range_ids idNames) ""
               = lines_text (map line (range_ids idNames))).
  { unfold lines_text. rewrite fold_left_map. apply fold_left_ext. by intros s [id name] _. }
  rewrite Et, scan_lines_text.
  - rewrite fold_left_map. trans (fold_left (fun (m : gmap Z string) '(k, v) => <[k := v]> m) (range_ids idNames) ∅).
    + apply fold_left_ext. intros m [id name] Hin. rewrite Forall_forall in Hl. destruct (Hl _ Hin) as [Hid Hname].
      unfold line. cbn [fst snd] in *. destruct (field_line _ _ Hname (Itoa_field id Hid)) as [-> _].
      unfold idNameHandleFunc. rewrite (proj1 (Itoa_field id Hid)), (proj1 Hname).
      rewrite Atoi_Itoa by (unfold recordable_id, in_int64 in *; simpl in *; lia). by rewrite recordable_int32.
    + rewrite fold_insert_map by apply range_ids_NoDup. by rewrite (right_id_L ∅ (∪)), range_ids_map.
  - apply Forall_fmap. eapply Forall_impl; [exact Hl|]. intros [id name] (H1 & H2).
    apply field_line; [done|by apply Itoa_field|]. right. apply Itoa_plain. unfold recordable_id in H1. simpl in *. lia.
Qed.

(** The recorded project ids survive a restart: reading the files that
    [UpdateProjects] and [UpdateProjIds] write gives back both maps, with the
    paths of each id in their order, whatever the order in which the maps are
    written; paths and names must not have colons, line ends or surrounding
    blanks, and ids are non-negative. *)
Theorem project_files_roundtrip host (idPaths : gmap Z (list string)) (idNames : gmap Z string) :
  map_Forall (fun id paths => recordable_id id /\ Forall (recordable_path host) paths /\ paths <> []) idPaths ->
  map_Forall (fun id name => recordable_id id /\ field name) idNames ->
  DumpProjectIds host (UpdateProjects host idPaths) (UpdateProjIds idNames) = (idPaths, idNames).
Proof.
  intros H1 H2. pose proof (projects_file_facts host idPaths H1) as E1. pose proof (projid_file_facts host idNames H2) as E2.
  unfold DumpProjectIds in *. cbn [fst snd] in *. by rewrite E1, E2.
Qed.
End RoundTrip.

Definition ex_idPaths : gmap Z (list string) := {[1048577 := ["/aa"; "/aa1"]; 1048578 := ["/bb"]]}.
Definition ex_idNames : gmap Z string := {[1048577 := "emptyDir-ns/pod"; 1048578 := "rootFs-1048578"]}.

Lemma project_files_roundtrip_witness :
  DumpProjectIds true (@UpdateProjects id_order true ex_idPaths) (@UpdateProjIds id_order ex_idNames) = (ex_idPaths, ex_idNames).
Proof.
  apply (@project_files_roundtrip id_order true ex_idPaths ex_idNames).
  - intros id paths H. unfold ex_idPaths in H.
    apply lookup_insert_Some in H as [[<- <-]|[_ H]]; [|apply lookup_singleton_Some in H as [<- <-]];
      (split_and!; [by split|repeat constructor; by vm_compute|discriminate]).
  - intros id name H. unfold ex_idNames in H.
    apply lookup_insert_Some in H as [[<- <-]|[_ H]]; [|apply lookup_singleton_Some in H as [<- <-]];
      (split; [by split|repeat split; by vm_compute]).
Defined.
