(* ===== verification/ProjectQuota.v ===== *)
(** * Project quotas

    pkg/caelus/diskquota/manager/projectquota/projectquota.go: which project id
    a directory has, and the limits of the ids.  The kernel (XFS project ids and
    quotas, device nodes, mounts) is the parameter [QuotaEnv] with the state
    [kernel]; the files of ProjectFile.v are part of that state. *)

From Stdlib Require Import Ascii.
From S2P Require Import Prelude GoStrings Cgroup ProjectFile.

#[local] Open Scope string_scope.
#[local] Open Scope Z_scope.
#[local] Open Scope list_scope.

(** ** The kernel *)

(** The result of [mknod]: done, not permitted or not implemented, or another error. *)
Inductive mknod := MknodOk | MknodDenied | MknodFailed (e : error).

Class QuotaEnv := {
  InHostNamespace : bool;
  (** The error of [stat], and the mount point of a path with its options. *)
  env_stat : string -> option error;
  env_FindMount : string -> result (string * string);
  env_mknod : string -> mknod;
  (** The errors of system calls: reading the project id of a directory, and
      of the [n]-th call that sets an id, reads a quota or sets one. *)
  env_getid : string -> option error;
  env_setid : nat -> string -> option error;
  env_getquota : nat -> string -> Z -> option error;
  env_setquota : nat -> string -> Z -> option error;
  (** Blocks and inodes in use by an id on a device. *)
  env_used : string -> Z -> Z * Z;
  (** The error of the [n]-th replacement of a file. *)
  env_rename : nat -> string -> option error;
}.

Record kernel := mkKernel {
  (** The project id of each directory, 0 when it has none. *)
  k_projid : gmap string Z;
  (** The limits of an id on a device, in blocks of 512 bytes and in inodes. *)
  k_limits : gmap (string * Z) (Z * Z);
  projects_file : string;
  projid_file : string;
  k_calls : nat;
}.

(** ** State *)

Definition noQuotaID : Z := 0.
Definition firstQuotaID : Z := 1048577.
Definition maxSearch : Z := 256.
Definition quotaMountOption : string := "prjquota".

Record DiskQuotaSize := mkSize { Quota : Z; Inodes : Z; QuotaUsed : Z; InodesUsed : Z }.

(** [quotaID.IdName]. *)
Definition IdName (q : Z) (pathFlag : string) : string := pathFlag +:+ "-" +:+ Itoa q.

Record backingDev := mkDev { supported : bool; device : string }.

Record projectQuota := mkProjectQuota {
  pathMapBackingDev : gmap string backingDev;
  idNames : gmap Z string;
  idPaths : gmap Z (list string);
  pathIds : gmap string Z;
  nameIds : gmap string Z;
}.

Definition set_devs (p : projectQuota) (d : gmap string backingDev) : projectQuota :=
  mkProjectQuota d (idNames p) (idPaths p) (pathIds p) (nameIds p).
Definition set_names (p : projectQuota) (names : gmap Z string) (ids : gmap string Z) : projectQuota :=
  mkProjectQuota (pathMapBackingDev p) names (idPaths p) (pathIds p) ids.
Definition set_ids (p : projectQuota) (names : gmap Z string) (paths : gmap Z (list string)) (ids : gmap string Z) : projectQuota :=
  mkProjectQuota (pathMapBackingDev p) names paths ids (nameIds p).

(** Operations on the manager and the kernel. *)
Definition PQ (A : Type) : Type := projectQuota * kernel -> A * (projectQuota * kernel).
#[global] Instance PQ_ret : MRet PQ := fun A a s => (a, s).
#[global] Instance PQ_bind : MBind PQ := fun A B f m s => let '(a, s') := m s in f a s'.

Definition getp : PQ projectQuota := fun s => (s.1, s).
Definition putp (p : projectQuota) : PQ unit := fun s => (tt, (p, s.2)).

Section ProjectQuota.
Context {IR : IdRange} {QE : QuotaEnv}.

Definition NewProjectQuota (k : kernel) : projectQuota :=
  let '(idPaths, idNames) := DumpProjectIds InHostNamespace (projects_file k) (projid_file k) in
  let pathIds := fold_left (fun m '(id, paths) => fold_left (fun m p => <[p := id]> m) paths m) (range_ids idPaths) ∅ in
  let nameIds := fold_left (fun m '(id, name) => <[name := id]> m) (range_ids idNames) ∅ in
  mkProjectQuota ∅ idNames idPaths pathIds nameIds.

(** ** System calls *)

Definition bump (k : kernel) (ids : gmap string Z) (limits : gmap (string * Z) (Z * Z)) : kernel :=
  mkKernel ids limits (projects_file k) (projid_file k) (S (k_calls k)).

Definition getProjectID (targetPath : string) : PQ (result Z) := fun s =>
  (match env_getid targetPath with
   | Some e => Err e
   | None => Ok (int32 (default 0 (k_projid s.2 !! targetPath)))
   end, s).

Definition setProjectID (targetPath : string) (projectID : Z) : PQ (option error) := fun '(p, k) =>
  match env_getid targetPath with
  | Some e => (Some e, (p, k))
  | None =>
      match env_setid (k_calls k) targetPath with
      | Some e => (Some e, (p, bump k (k_projid k) (k_limits k)))
      | None => (None, (p, bump k (<[targetPath := uint32 projectID]> (k_projid k)) (k_limits k)))
      end
  end.

(** [Q_XGETPQUOTA] has no entry for an id that was never used. *)
Definition getProjectQuota (dev : string) (projectID : Z) : PQ (result DiskQuotaSize) := fun '(p, k) =>
  (match env_getquota (k_calls k) dev projectID with
   | Some e => Err e
   | None =>
       match k_limits k !! (dev, uint32 projectID) with
       | None => Err "no such file or directory"
       | Some (blocks, inodes) =>
           Ok (mkSize (uint64 (blocks * 512)) inodes (uint64 ((env_used dev projectID).1 * 512)) (env_used dev projectID).2)
       end
   end, (p, k)).

Definition setProjectQuota (dev : string) (projectID : Z) (quota : DiskQuotaSize) : PQ (option error) := fun '(p, k) =>
  match env_setquota (k_calls k) dev projectID with
  | Some e => (Some e, (p, bump k (k_projid k) (k_limits k)))
  | None => (None, (p, bump k (k_projid k) (<[(dev, uint32 projectID) := (Quota quota `div` 512, Inodes quota)]> (k_limits k))))
  end.

(** The files are replaced by renaming a temporary file; errors are logged. *)
Definition write_projects : PQ unit := fun '(p, k) =>
  (tt, (p, match env_rename (k_calls k) "projects" with
           | Some _ => mkKernel (k_projid k) (k_limits k) (projects_file k) (projid_file k) (S (k_calls k))
           | None => mkKernel (k_projid k) (k_limits k) (UpdateProjects InHostNamespace (idPaths p)) (projid_file k) (S (k_calls k))
           end)).
Definition write_projid : PQ unit := fun '(p, k) =>
  (tt, (p, match env_rename (k_calls k) "projid" with
           | Some _ => mkKernel (k_projid k) (k_limits k) (projects_file k) (projid_file k) (S (k_calls k))
           | None => mkKernel (k_projid k) (k_limits k) (projects_file k) (UpdateProjIds (idNames p)) (S (k_calls k))
           end)).

(** ** The device of a path *)

Definition findOrCreateBackingDev (targetPath : string) : PQ (result backingDev) :=
  p ← getp;
  match pathMapBackingDev p !! targetPath with
  | Some dev => mret (Ok dev)
  | None =>
      match env_stat targetPath with
      | Some e => mret (Err e)
      | None =>
          match env_FindMount targetPath with
          | Err e => mret (Err e)
          | Ok (mountPoint, options) =>
              match pathMapBackingDev p !! mountPoint with
              | Some dev => _ ← putp (set_devs p (<[targetPath := dev]> (pathMapBackingDev p))); mret (Ok dev)
              | None =>
                  let backingFsBlockDev := path_Join [mountPoint; "backingFsBlockDev"] in
                  let store (dev : backingDev) : PQ unit :=
                    putp (set_devs p (<[targetPath := dev]> (<[mountPoint := dev]> (pathMapBackingDev p)))) in
                  if negb (Contains options quotaMountOption) then
                    let dev := mkDev false backingFsBlockDev in _ ← store dev; mret (Ok dev)
                  else
                    id ← getProjectID mountPoint;
                    if match id with Err e => Contains e "inappropriate ioctl for device" | Ok _ => false end then
                      let dev := mkDev false backingFsBlockDev in _ ← store dev; mret (Ok dev)
                    else
                      match env_mknod backingFsBlockDev with
                      | MknodOk => let dev := mkDev true backingFsBlockDev in _ ← store dev; mret (Ok dev)
                      | MknodDenied => let dev := mkDev false backingFsBlockDev in _ ← store dev; mret (Ok dev)
                      | MknodFailed e => _ ← store (mkDev false backingFsBlockDev); mret (Err ("failed to mknod " +:+ backingFsBlockDev +:+ ": " +:+ e))
                      end
              end
          end
      end
  end.

Definition NotSupported : error := "not suppported".

Definition findAvailableBackingDev (targetPath : string) : PQ (result backingDev) :=
  dev ← findOrCreateBackingDev targetPath;
  mret (match dev with
        | Err e => Err e
        | Ok dev => if supported dev then Ok dev else Err NotSupported
        end).

(** ** Project ids *)

(** The loop of [allocateProjectID]; [None] when the fuel is used up. *)
Fixpoint allocLoop (fuel : nat) (targetPath : string) (id searched : Z) : PQ (option Z) :=
  match fuel with
  | O => mret None
  | S fuel' =>
      p ← getp;
      match idPaths p !! id with
      | Some _ => allocLoop fuel' targetPath (int32 (id + 1)) searched
      | None =>
          dev ← findOrCreateBackingDev targetPath;
          match dev with
          | Err _ => mret (Some noQuotaID)
          | Ok dev =>
              if negb (supported dev) then mret (Some noQuotaID)
              else
                quota ← getProjectQuota (device dev) id;
                match quota with
                | Err e => mret (Some (if Contains e "no such file or directory" || Contains e "no such process" then id else noQuotaID))
                | Ok q =>
                    if Quota q =? 0 then mret (Some id)
                    else if maxSearch <? searched + 1 then mret (Some noQuotaID)
                    else allocLoop fuel' targetPath (int32 (id + 1)) (searched + 1)
                end
          end
      end
  end.

(** Every id in use is passed over once, and at most [maxSearch] others. *)
Definition alloc_fuel (p : projectQuota) : nat := (size (idPaths p) + 258)%nat.

Definition allocateProjectID (targetPath : string) : PQ Z :=
  p ← getp;
  id ← allocLoop (alloc_fuel p) targetPath firstQuotaID 0;
  mret (default noQuotaID id).

(** The id for a path without one: its id in the kernel, unless it has none or
    the id belongs to another path. *)
Definition newProjectId (targetPath : string) (idFromSys : Z) : PQ (result Z) :=
  p ← getp;
  let needNewId := (idFromSys =? noQuotaID) || bool_decide (is_Some (idPaths p !! idFromSys)) in
  if needNewId then
    newId ← allocateProjectID targetPath;
    if newId =? noQuotaID then mret (Err "allocate new project id failed")
    else
      e ← setProjectID targetPath newId;
      mret (match e with Some err => Err ("set project id failed: " +:+ err) | None => Ok newId end)
  else mret (Ok idFromSys).

Definition saveProjectId (targetPath pathFlag : string) (newId : Z) (persist : bool) : PQ unit :=
  p ← getp;
  _ ← putp (set_ids p (<[newId := IdName newId pathFlag]> (idNames p)) (<[newId := [targetPath]]> (idPaths p))
              (<[targetPath := newId]> (pathIds p)));
  if persist then _ ← write_projects; write_projid else mret tt.

(** The id, and whether it is new. *)
Definition findOrCreateProjectId (targetPath pathFlag : string) (noCreate persist : bool) : PQ (result (Z * bool)) :=
  p ← getp;
  match pathIds p !! targetPath with
  | Some prjid => mret (Ok (prjid, false))
  | None =>
      idFromSys ← getProjectID targetPath;
      match idFromSys with
      | Err e => mret (Err e)
      | Ok idFromSys =>
          if noCreate then mret (Ok (idFromSys, true))
          else
            newId ← newProjectId targetPath idFromSys;
            match newId with
            | Err e => mret (Err e)
            | Ok newId => _ ← saveProjectId targetPath pathFlag newId persist; mret (Ok (newId, true))
            end
      end
  end.

(** Whether the path was bound. *)
Definition bindProjectId (targetPath : string) (projectId : Z) : PQ (result bool) :=
  p ← getp;
  if bool_decide (pathIds p !! targetPath = Some projectId) then mret (Ok false)
  else
    e ← setProjectID targetPath projectId;
    match e with
    | Some err => mret (Err ("set project id failed: " +:+ err))
    | None =>
        p ← getp;
        let paths := match idPaths p !! projectId with Some paths => paths ++ [targetPath] | None => [targetPath] end in
        _ ← putp (set_ids p (idNames p) (<[projectId := paths]> (idPaths p)) (<[targetPath := projectId]> (pathIds p)));
        mret (Ok true)
    end.

Definition findOrCreateSharedProjectId (targetPath pathFlag groupName : string) : PQ (result (Z * bool)) :=
  if (groupName =? "")%string then mret (Err "wrong group name")
  else
    let projName := pathFlag +:+ "-" +:+ groupName in
    p ← getp;
    match nameIds p !! projName with
    | Some prjId =>
        update ← bindProjectId targetPath prjId;
        match update with
        | Err e => mret (Err e)
        | Ok update => _ ← (if (update : bool) then write_projects else mret tt); mret (Ok (prjId, false))
        end
    | None =>
        projId ← findOrCreateProjectId targetPath groupName false false;
        match projId with
        | Err e => mret (Err e)
        | Ok (projId, _) =>
            p ← getp;
            _ ← putp (set_names p (<[projId := projName]> (idNames p)) (<[projName := projId]> (nameIds p)));
            _ ← write_projects;
            _ ← write_projid;
            mret (Ok (projId, true))
        end
    end.

(** ** The interface of the manager *)

Definition GetQuota (targetPath : string) : PQ (result DiskQuotaSize) :=
  dev ← findAvailableBackingDev targetPath;
  match dev with
  | Err e => mret (Err e)
  | Ok dev =>
      id ← findOrCreateProjectId targetPath "" true false;
      match id with
      | Err e => mret (Err e)
      | Ok (prjId, _) => getProjectQuota (device dev) prjId
      end
  end.

(** [size] and [sharedInfo] may be nil; the sum of the limits is a [uint64]. *)
Definition SetQuota (targetPath pathFlag : string) (size : option DiskQuotaSize) (sharedInfo : option string) : PQ (option error) :=
  match size with
  | None => mret None
  | Some size =>
      if uint64 (Quota size + Inodes size) =? 0 then mret None
      else
        dev ← findAvailableBackingDev targetPath;
        match dev with
        | Err e => mret (Some e)
        | Ok dev =>
            id ← (match sharedInfo with
                  | Some podName => findOrCreateSharedProjectId targetPath pathFlag podName
                  | None => findOrCreateProjectId targetPath pathFlag false true
                  end);
            match id with
            | Err e => mret (Some ("find or create project id err: " +:+ e))
            | Ok (prjId, isNewId) => if (isNewId : bool) then setProjectQuota (device dev) prjId size else mret None
            end
        end
  end.

Definition ClearQuota (targetPath : string) : PQ (option error) :=
  dev ← findAvailableBackingDev targetPath;
  match dev with
  | Err e => mret (Some e)
  | Ok dev =>
      id ← findOrCreateProjectId targetPath "" true true;
      match id with
      | Err e => mret (Some e)
      | Ok (prjId, _) =>
          _ ← setProjectQuota (device dev) prjId (mkSize 0 0 0 0);
          p ← getp;
          _ ← putp (mkProjectQuota (delete targetPath (pathMapBackingDev p)) (delete prjId (idNames p))
                      (delete prjId (idPaths p)) (delete targetPath (pathIds p))
                      (match idNames p !! prjId with Some projName => delete projName (nameIds p) | None => nameIds p end));
          _ ← write_projects;
          _ ← write_projid;
          mret None
      end
  end.

(** The paths by the flag their name starts with. *)
Definition GetAllQuotaPath (p : projectQuota) : gmap string (gset string) :=
  fold_left (fun paths '(id, pathGroup) =>
      fold_left (fun paths path =>
          let pathFlag := hd "" (Split (default "" (idNames p !! id)) "-"%char) in
          <[pathFlag := {[path]} ∪ default ∅ (paths !! pathFlag)]> paths) pathGroup paths)
    (range_ids (idPaths p)) ∅.
End ProjectQuota.

(** ** What operations leave alone *)

Section Frames.
Context {IR : IdRange} {QE : QuotaEnv}.

Ltac pq := unfold mbind, PQ_bind, mret, PQ_ret, getp, putp in *; cbn [fst snd] in *.

(** [s'] is [s] with more devices. *)
Definition more_devs (s s' : projectQuota * kernel) : Prop :=
  exists d, s' = (set_devs s.1 d, s.2) /\ pathMapBackingDev s.1 ⊆ d.

Lemma more_devs_refl s : more_devs s s.
Proof. exists (pathMapBackingDev s.1). by destruct s as [[] ?]. Qed.

Lemma more_devs_trans s s1 s2 : more_devs s s1 -> more_devs s1 s2 -> more_devs s s2.
Proof. intros (d & -> & H1) (d2 & -> & H2). exists d2. split; [done|]. by trans d. Qed.

(** Finding the device only adds devices; a device that is found is recorded. *)
Lemma findOrCreateBackingDev_frame t s r s' :
  findOrCreateBackingDev t s = (r, s') ->
  more_devs s s' /\ (forall dev, r = Ok dev -> pathMapBackingDev s'.1 !! t = Some dev).
Proof.
  unfold findOrCreateBackingDev. destruct s as [p k]. pq.
  destruct (pathMapBackingDev p !! t) as [dev|] eqn:Ed.
  { intros [= <- <-]. split; [apply more_devs_refl|]. by intros dev' [= <-]. }
  assert (Herr : forall e, (Err e, (p, k)) = (r, s') ->
            more_devs (p, k) s' /\ (forall dev', r = Ok dev' -> pathMapBackingDev s'.1 !! t = Some dev')).
  { intros e [= <- <-]. split; [apply more_devs_refl|done]. }
  destruct (env_stat t); [apply Herr|]. destruct (env_FindMount t) as [[mp opts]|]; [|apply Herr].
  assert (Hstore : forall m dev r0, pathMapBackingDev p ⊆ m -> (r0 = Ok dev \/ exists e, r0 = Err e) ->
            (r0, (set_devs p (<[t := dev]> m), k)) = (r, s') ->
            more_devs (p, k) s' /\ (forall dev', r = Ok dev' -> pathMapBackingDev s'.1 !! t = Some dev')).
  { intros m dev r' Hsub Hr [= -> <-]. split.
    - eexists. split; [done|]. cbn [fst]. by apply insert_subseteq_r.
    - intros dev' ->. destruct Hr as [[= ->]|[e [=]]]. apply lookup_insert_eq. }
  destruct (pathMapBackingDev p !! mp) as [dev|] eqn:Emp; [apply Hstore; [done|by left]|].
  assert (Hmp : forall dev, pathMapBackingDev p ⊆ <[mp := dev]> (pathMapBackingDev p)) by (intros; by apply insert_subseteq).
  destruct (negb _); [apply Hstore; auto|]. unfold getProjectID. cbn [fst snd].
  destruct (env_getid mp) as [e|]; [destruct (Contains e _); [apply Hstore; auto|]|];
    (destruct (env_mknod _); apply Hstore; eauto).
Qed.

Lemma findAvailableBackingDev_frame t s r s' :
  findAvailableBackingDev t s = (r, s') ->
  more_devs s s' /\
  (forall dev, r = Ok dev -> pathMapBackingDev s'.1 !! t = Some dev /\ supported dev = true).
Proof.
  unfold findAvailableBackingDev. pq. destruct (findOrCreateBackingDev t s) as [r0 s0] eqn:E.
  destruct (findOrCreateBackingDev_frame _ _ _ _ E) as (Hm & Hd). intros [= <- <-].
  split; [done|]. intros dev. destruct r0 as [dev0|]; [|done].
  destruct (supported dev0) eqn:Es; [|done]. intros [= <-]. eauto.
Qed.

(** A known device is found again. *)
Lemma findAvailableBackingDev_known t s dev :
  pathMapBackingDev s.1 !! t = Some dev -> supported dev = true -> findAvailableBackingDev t s = (Ok dev, s).
Proof. intros H1 H2. unfold findAvailableBackingDev, findOrCreateBackingDev. pq. by rewrite H1, H2. Qed.

(** ** Allocation *)

(** The ids in use from [id] on. *)
Definition used_from (p : projectQuota) (id : Z) : gset Z := filter (fun j => id <= j) (dom (idPaths p)).

Lemma used_from_step p id : is_Some (idPaths p !! id) -> (size (used_from p (id + 1)) < size (used_from p id))%nat.
Proof.
  intros Hin. apply subset_size. split.
  - intros j. unfold used_from. rewrite !elem_of_filter. intros [? ?]. split; [lia|done].
  - intros Hsub. assert (id ∈ used_from p id) as Hid by (apply elem_of_filter; split; [lia|by apply elem_of_dom]).
    apply Hsub in Hid. apply elem_of_filter in Hid as [? _]. lia.
Qed.

Lemma used_from_mono p id : (size (used_from p (id + 1)) <= size (used_from p id))%nat.
Proof. apply subseteq_size. intros j. unfold used_from. rewrite !elem_of_filter. intros [? ?]. split; [lia|done]. Qed.

(** An allocated id: none, or one that is not in use. *)
Definition allocated (p : projectQuota) (id : Z) : Prop :=
  in_int32 id /\ (id = noQuotaID \/ idPaths p !! id = None).

Lemma int32_range z : in_int32 (int32 z).
Proof.
  unfold in_int32, int32, wrap_signed.
  pose proof (Z.mod_pos_bound (z + 2 ^ (32 - 1)) (2 ^ 32) ltac:(lia)). simpl in *. lia.
Qed.

Lemma allocLoop_frame fuel t id searched s r s' :
  in_int32 id -> allocLoop fuel t id searched s = (r, s') ->
  more_devs s s' /\ (forall j, r = Some j -> allocated s.1 j).
Proof.
  revert id searched s. induction fuel as [|fuel IH]; intros id searched s Hid; cbn [allocLoop]; pq.
  { intros [= <- <-]. split; [apply more_devs_refl|done]. }
  destruct (idPaths s.1 !! id) as [ps|] eqn:Ei; [by apply IH, int32_range|].
  destruct (findOrCreateBackingDev t s) as [dev s0] eqn:Edev.
  destruct (findOrCreateBackingDev_frame _ _ _ _ Edev) as (Hmd & _). intros E.
  assert (Hret : forall j, allocated s.1 j -> (Some j, s0) = (r, s') ->
            more_devs s s' /\ (forall j, r = Some j -> allocated s.1 j)).
  { intros j Hj [= <- <-]. split; [done|]. by intros ? [= <-]. }
  assert (H0 : allocated s.1 noQuotaID) by (split; [done|by left]).
  assert (H1 : allocated s.1 id) by (split; [done|by right]).
  destruct dev as [dev|]; [|by apply (Hret noQuotaID)]. destruct (negb (supported dev)); [by apply (Hret noQuotaID)|].
  assert (Hs0 : idPaths s0.1 = idPaths s.1) by by destruct Hmd as (d & -> & _).
  destruct (getProjectQuota (device dev) id s0) as [q s1] eqn:Eq.
  assert (s1 = s0) as -> by (unfold getProjectQuota in Eq; destruct s0; by injection Eq). destruct q as [size|e].
  - destruct (Quota size =? 0); [by apply (Hret id)|]. destruct (maxSearch <? _); [by apply (Hret noQuotaID)|].
    destruct (IH _ _ _ (int32_range _) E) as (Hmd' & Hd'). split; [by eapply more_devs_trans|].
    intros j Hj. destruct (Hd' j Hj) as [? ?]. unfold allocated. by rewrite <- Hs0.
  - destruct (_ || _); [by apply (Hret id)|by apply (Hret noQuotaID)].
Qed.

(** The fuel is enough: every step passes an id in use or counts a search. *)
Lemma allocLoop_enough fuel t id searched s :
  (size (used_from s.1 id) + Z.to_nat (257 - searched) < fuel)%nat -> 0 <= searched <= maxSearch ->
  firstQuotaID <= id -> id + Z.of_nat fuel < 2 ^ 31 ->
  fst (allocLoop fuel t id searched s) <> None.
Proof.
  unfold maxSearch, firstQuotaID. revert id searched s.
  induction fuel as [|fuel IH]; intros id searched s Hf Hs Hid Hmax; [lia|]. cbn [allocLoop]. pq.
  assert (Hnext : int32 (id + 1) = id + 1) by (apply int32_id; unfold in_int32; simpl in *; lia).
  destruct (idPaths s.1 !! id) as [ps|] eqn:Ei.
  { rewrite Hnext. apply IH; try lia. pose proof (used_from_step s.1 id ltac:(rewrite Ei; eauto)). lia. }
  destruct (findOrCreateBackingDev t s) as [dev s0] eqn:Edev.
  destruct (findOrCreateBackingDev_frame _ _ _ _ Edev) as ((d & -> & _) & _).
  destruct dev as [dev|]; [|done]. destruct (negb (supported dev)); [done|].
  unfold getProjectQuota. cbn [fst snd].
  set (q := match env_getquota _ _ _ with Some e => _ | None => _ end). destruct q as [size|e]; [|done].
  destruct (Quota size =? 0); [done|]. destruct (Z.ltb_spec maxSearch (searched + 1)) as [|Hle]; [done|].
  rewrite Hnext. unfold maxSearch in Hle. apply IH; try lia.
  cbn [fst]. change (used_from (set_devs s.1 d) (id + 1)) with (used_from s.1 (id + 1)). pose proof (used_from_mono s.1 id). lia.
Qed.

Lemma allocateProjectID_frame t s r s' :
  allocateProjectID t s = (r, s') -> more_devs s s' /\ allocated s.1 r.
Proof.
  unfold allocateProjectID. pq. destruct (allocLoop _ t firstQuotaID 0 s) as [r0 s0] eqn:E.
  apply allocLoop_frame in E as (Hm & Hd); [|done].
  intros [= <- <-]. split; [done|]. destruct r0 as [j|]; [by apply Hd|]. split; [done|by left].
Qed.

(** ** The invariant *)

(** Every managed path has an id of its own, and the directory has that id. *)
Record managed_wf (s : projectQuota * kernel) : Prop := {
  wf_path : forall t id, pathIds s.1 !! t = Some id -> idPaths s.1 !! id = Some [t];
  wf_id : forall id ts, idPaths s.1 !! id = Some ts -> exists t, ts = [t] /\ pathIds s.1 !! t = Some id;
  wf_range : forall t id, pathIds s.1 !! t = Some id -> in_int32 id /\ id <> noQuotaID;
  wf_kernel : forall t id, pathIds s.1 !! t = Some id -> int32 (default 0 (k_projid s.2 !! t)) = id;
}.

(** The parts of the state the invariant depends on. *)
Lemma managed_wf_frame s s' :
  pathIds s'.1 = pathIds s.1 -> idPaths s'.1 = idPaths s.1 -> k_projid s'.2 = k_projid s.2 ->
  managed_wf s -> managed_wf s'.
Proof. intros E1 E2 E3 [H1 H2 H3 H4]. split; rewrite ?E1, ?E2, ?E3; done. Qed.

Lemma write_files_frame s : exists k', (_ ← write_projects; write_projid) s = (tt, (s.1, k')) /\
  k_projid k' = k_projid s.2 /\ k_limits k' = k_limits s.2.
Proof.
  destruct s as [p k]. pq. unfold write_projects, write_projid.
  destruct (env_rename (k_calls k) "projects"), (env_rename _ "projid"); by eexists.
Qed.

Lemma int32_uint32 id : in_int32 id -> int32 (uint32 id) = id.
Proof.
  unfold in_int32, int32, uint32, wrap_signed, wrap_unsigned. simpl. intros H.
  Z.div_mod_to_equations. lia.
Qed.

Lemma uint32_inj a b : in_int32 a -> in_int32 b -> uint32 a = uint32 b -> a = b.
Proof. intros Ha Hb E. by rewrite <- (int32_uint32 a), <- (int32_uint32 b), E. Qed.

(** Adding a path with an id that is not in use. *)
Lemma managed_wf_add s t id p k :
  managed_wf s -> pathIds s.1 !! t = None -> idPaths s.1 !! id = None -> in_int32 id -> id <> noQuotaID ->
  pathIds p = <[t := id]> (pathIds s.1) -> idPaths p = <[id := [t]]> (idPaths s.1) ->
  int32 (default 0 (k_projid k !! t)) = id -> (forall u, u <> t -> k_projid k !! u = k_projid s.2 !! u) ->
  managed_wf (p, k).
Proof.
  intros [H1 H2 H3 H4] Ht Hid Hr Hz Ep Ei Hk Hko. split; cbn [fst snd]; rewrite ?Ep, ?Ei.
  - intros u j. rewrite !lookup_insert_Some. intros [[-> ->]|[Hne Hu]]; [by left|].
    right. split; [|by apply H1]. intros ->. apply H1 in Hu. congruence.
  - intros j ts. rewrite lookup_insert_Some. intros [[-> <-]|[Hne Hj]].
    + exists t. by rewrite lookup_insert_eq.
    + destruct (H2 j ts Hj) as (u & -> & Hu). exists u. split; [done|].
      rewrite lookup_insert_ne; [done|]. intros ->. congruence.
  - intros u j. rewrite lookup_insert_Some. intros [[-> ->]|[_ Hu]]; [done|by apply (H3 u)].
  - intros u j. rewrite lookup_insert_Some. intros [[-> ->]|[Hne Hu]]; [done|]. rewrite Hko by done. by apply H4.
Qed.

(** [s'] differs from [s] only in devices, files and the count of calls. *)
Record same_ids (s s' : projectQuota * kernel) : Prop := {
  same_pathIds : pathIds s'.1 = pathIds s.1;
  same_idPaths : idPaths s'.1 = idPaths s.1;
  same_projid : k_projid s'.2 = k_projid s.2;
  same_limits : k_limits s'.2 = k_limits s.2;
  same_devs : pathMapBackingDev s.1 ⊆ pathMapBackingDev s'.1;
}.

Lemma more_devs_same s s' : more_devs s s' -> same_ids s s'.
Proof. by intros (d & -> & H). Qed.

Lemma same_ids_refl s : same_ids s s.
Proof. by split. Qed.

Lemma same_ids_trans s s1 s2 : same_ids s s1 -> same_ids s1 s2 -> same_ids s s2.
Proof. intros [] []. split; try congruence. etrans; eassumption. Qed.

Lemma same_ids_wf s s' : same_ids s s' -> managed_wf s -> managed_wf s'.
Proof. intros [H1 H2 H3 _ _]. by apply managed_wf_frame. Qed.

(** [s'] is [s] with [t] given the new id [id]. *)
Record new_path (t : string) (id : Z) (s s' : projectQuota * kernel) : Prop := {
  np_fresh : pathIds s.1 !! t = None /\ idPaths s.1 !! id = None;
  np_range : in_int32 id /\ id <> noQuotaID;
  np_pathIds : pathIds s'.1 = <[t := id]> (pathIds s.1);
  np_idPaths : idPaths s'.1 = <[id := [t]]> (idPaths s.1);
  np_kernel : int32 (default 0 (k_projid s'.2 !! t)) = id;
  np_others : forall u, u <> t -> k_projid s'.2 !! u = k_projid s.2 !! u;
  np_limits : k_limits s'.2 = k_limits s.2;
  np_devs : pathMapBackingDev s.1 ⊆ pathMapBackingDev s'.1;
}.

Lemma new_path_wf t id s s' : new_path t id s s' -> managed_wf s -> managed_wf s'.
Proof.
  intros [[H1 H2] [H3 H4] H5 H6 H7 H8 _ _] Hwf. destruct s' as [p k]. by apply (managed_wf_add s t id).
Qed.

Lemma saveProjectId_frame t flag id persist s :
  exists k', saveProjectId t flag id persist s =
    (tt, (set_ids s.1 (<[id := IdName id flag]> (idNames s.1)) (<[id := [t]]> (idPaths s.1)) (<[t := id]> (pathIds s.1)), k')) /\
    k_projid k' = k_projid s.2 /\ k_limits k' = k_limits s.2.
Proof.
  unfold saveProjectId. destruct s as [p k]. pq. set (p2 := set_ids _ _ _ _).
  destruct persist; [|by eexists]. destruct (write_files_frame (p2, k)) as (k' & Ek & ? & ?). by exists k'.
Qed.

(** A chosen id is not in use, and is the id of the directory. *)
Lemma newProjectId_spec t s r s' :
  env_getid t = None ->
  newProjectId t (int32 (default 0 (k_projid s.2 !! t))) s = (r, s') ->
  match r with
  | Err _ => same_ids s s'
  | Ok id => in_int32 id /\ id <> noQuotaID /\ idPaths s.1 !! id = None /\
      pathIds s'.1 = pathIds s.1 /\ idPaths s'.1 = idPaths s.1 /\ pathMapBackingDev s.1 ⊆ pathMapBackingDev s'.1 /\
      k_limits s'.2 = k_limits s.2 /\
      int32 (default 0 (k_projid s'.2 !! t)) = id /\ (forall u, u <> t -> k_projid s'.2 !! u = k_projid s.2 !! u)
  end.
Proof.
  intros Eg. unfold newProjectId. set (sys := int32 _). pq.
  destruct ((sys =? noQuotaID) || bool_decide (is_Some (idPaths s.1 !! sys))) eqn:En.
  - destruct (allocateProjectID t s) as [j s2] eqn:Ej.
    destruct (allocateProjectID_frame _ _ _ _ Ej) as [Hm [Hr Hfree]]. apply more_devs_same in Hm.
    destruct (Z.eqb_spec j noQuotaID); [by intros [= <- <-]|]. destruct Hfree as [|Hfree]; [done|].
    destruct Hm as [M1 M2 M3 M4 M5]. destruct s2 as [p2 k2]. unfold setProjectID. rewrite Eg. cbn [fst snd] in *.
    destruct (env_setid (k_calls k2) t) as [e|]; intros [= <- <-]; [by split|].
    cbn [fst snd k_projid k_limits bump]. split_and!; try done.
    + rewrite lookup_insert_eq. simpl. by apply int32_uint32.
    + intros u Hu. rewrite lookup_insert_ne by done. by rewrite M3.
  - intros [= <- <-]. apply orb_false_iff in En as [E1 E2].
    apply Z.eqb_neq in E1. apply bool_decide_eq_false in E2. rewrite <- eq_None_not_Some in E2.
    split_and!; try done. apply int32_range.
Qed.

(** The id of a path: known, found in the kernel, or new. *)
Lemma findOrCreateProjectId_spec t flag noCreate persist s r s' :
  findOrCreateProjectId t flag noCreate persist s = (r, s') ->
  (exists id, pathIds s.1 !! t = Some id /\ r = Ok (id, false) /\ s' = s) \/
  (pathIds s.1 !! t = None /\ same_ids s s' /\
     ((exists e, r = Err e) \/ (noCreate = true /\ exists id, r = Ok (id, true)))) \/
  (noCreate = false /\ exists id, r = Ok (id, true) /\ new_path t id s s').
Proof.
  unfold findOrCreateProjectId. pq. destruct (pathIds s.1 !! t) as [id|] eqn:Et.
  { intros [= <- <-]. left. by exists id. }
  intros E. right. unfold getProjectID in E. cbn [fst snd] in E.
  destruct (env_getid t) as [e|] eqn:Eg; [injection E as <- <-; left; split_and!; [done|apply same_ids_refl|eauto]|].
  destruct noCreate; [injection E as <- <-; left; split_and!; [done|apply same_ids_refl|eauto]|].
  destruct (newProjectId t _ s) as [newId s1] eqn:Enew. apply newProjectId_spec in Enew; [|done].
  destruct newId as [id|e]; [|injection E as <- <-; left; split_and!; [done|done|eauto]].
  destruct Enew as (H1 & H2 & H3 & H4 & H5 & H6 & H7 & H8 & H9).
  destruct (saveProjectId_frame t flag id persist s1) as (k' & Ek & Hk1 & Hk2). rewrite Ek in E.
  injection E as <- <-. right. split; [done|]. exists id. split; [done|].
  split; cbn [fst snd set_ids pathIds idPaths pathMapBackingDev]; rewrite ?Hk1, ?Hk2, ?H4, ?H5; try done.
Qed.

Lemma setProjectQuota_frame dev id q s r s' :
  setProjectQuota dev id q s = (r, s') ->
  s'.1 = s.1 /\ k_projid s'.2 = k_projid s.2 /\
  k_limits s'.2 = match r with
                  | None => <[(dev, uint32 id) := (Quota q `div` 512, Inodes q)]> (k_limits s.2)
                  | Some _ => k_limits s.2
                  end.
Proof. unfold setProjectQuota. destruct s as [p k]. destruct (env_setquota _ _ _); by intros [= <- <-]. Qed.

Lemma getProjectQuota_state dev id s : snd (getProjectQuota dev id s) = s.
Proof. by destruct s. Qed.

(** ** The operations preserve the invariant *)

Lemma GetQuota_same t s r s' : GetQuota t s = (r, s') -> same_ids s s'.
Proof.
  unfold GetQuota. pq. destruct (findAvailableBackingDev t s) as [dev s1] eqn:Ed.
  destruct (findAvailableBackingDev_frame _ _ _ _ Ed) as [Hm _]. apply more_devs_same in Hm.
  destruct dev as [dev|]; [|by intros [= <- <-]].
  destruct (findOrCreateProjectId t "" true false s1) as [id s2] eqn:Ei.
  apply findOrCreateProjectId_spec in Ei.
  assert (Hs2 : same_ids s1 s2) by (destruct Ei as [(?&?&?&->)|[(?&?&?)|(?&?)]]; [apply same_ids_refl|done|done]).
  assert (H : same_ids s s2) by by eapply same_ids_trans.
  destruct id as [[id isNew]|]; [|by intros [= <- <-]]. intros E.
  pose proof (getProjectQuota_state (device dev) id s2) as Hq. rewrite E in Hq. cbn [snd] in Hq. by subst.
Qed.

Lemma SetQuota_wf t flag size s r s' :
  SetQuota t flag size None s = (r, s') -> managed_wf s -> managed_wf s'.
Proof.
  unfold SetQuota. intros E Hwf. destruct size as [size|]; [|by injection E as <- <-].
  destruct (_ =? 0); [by injection E as <- <-|]. pq.
  destruct (findAvailableBackingDev t s) as [dev s1] eqn:Ed.
  destruct (findAvailableBackingDev_frame _ _ _ _ Ed) as [Hm _].
  assert (H1 : managed_wf s1) by (eapply same_ids_wf; [by apply more_devs_same|done]).
  destruct dev as [dev|]; [|by injection E as <- <-].
  destruct (findOrCreateProjectId t flag false true s1) as [id s2] eqn:Ei. apply findOrCreateProjectId_spec in Ei.
  assert (H2 : managed_wf s2).
  { destruct Ei as [(?&?&?&->)|[(?&?&?)|(?&?&?&?)]]; [done|by eapply same_ids_wf|by eapply new_path_wf]. }
  destruct id as [[id []]|]; [|by injection E as <- <-..].
  apply setProjectQuota_frame in E as (E1 & E2 & _). eapply managed_wf_frame; [..|exact H2]; congruence.
Qed.

Lemma ClearQuota_wf t s r s' :
  is_Some (pathIds s.1 !! t) -> ClearQuota t s = (r, s') -> managed_wf s -> managed_wf s'.
Proof.
  intros [id0 Ht]. unfold ClearQuota. pq. destruct (findAvailableBackingDev t s) as [dev s1] eqn:Ed.
  destruct (findAvailableBackingDev_frame _ _ _ _ Ed) as [Hm _]. apply more_devs_same in Hm. intros E Hwf.
  assert (H1 : managed_wf s1) by by eapply same_ids_wf.
  destruct dev as [dev|]; [|by injection E as <- <-].
  rewrite <- (same_pathIds _ _ Hm) in Ht. unfold findOrCreateProjectId in E. pq. rewrite Ht in E.
  destruct (setProjectQuota (device dev) id0 _ s1) as [e s2] eqn:Es. apply setProjectQuota_frame in Es as (E1 & E2 & _).
  match type of E with context [write_projects (?p0, s2.2)] => set (p1 := p0) in E end.
  destruct (write_files_frame (p1, s2.2)) as (k' & Ek & Hk & _). pq.
  destruct (write_projects (p1, s2.2)) as [u1 s3]. rewrite Ek in E. injection E as <- <-.
  destruct H1 as [W1 W2 W3 W4]. subst p1. split; cbn [fst snd pathIds idPaths]; rewrite ?E1, ?Hk, ?E2.
  - intros u j. rewrite lookup_delete_Some. intros [Hne Hu]. rewrite lookup_delete_ne; [by apply W1|].
    intros <-. apply W1 in Hu. apply W1 in Ht. congruence.
  - intros j ts. rewrite lookup_delete_Some. intros [Hne Hj]. destruct (W2 j ts Hj) as (u & -> & Hu).
    exists u. split; [done|]. rewrite lookup_delete_ne; [done|]. intros <-. congruence.
  - intros u j. rewrite lookup_delete_Some. intros [_ Hu]. by apply (W3 u).
  - intros u j. rewrite lookup_delete_Some. intros [_ Hu]. by apply W4.
Qed.

(** The operations of the disk quota manager without shared quotas; a quota is
    cleared for paths the manager knows. *)
Inductive quota_step : projectQuota * kernel -> projectQuota * kernel -> Prop :=
| step_get t r s s' : GetQuota t s = (r, s') -> quota_step s s'
| step_set t flag size r s s' : SetQuota t flag size None s = (r, s') -> quota_step s s'
| step_clear t r s s' : is_Some (pathIds s.1 !! t) -> ClearQuota t s = (r, s') -> quota_step s s'.

Lemma quota_step_wf s s' : quota_step s s' -> managed_wf s -> managed_wf s'.
Proof.
  intros [t r s0 s1 E|t flag size r s0 s1 E|t r s0 s1 Ht E] Hwf;
    [by eapply same_ids_wf, Hwf; eapply GetQuota_same|by eapply SetQuota_wf|by eapply ClearQuota_wf].
Qed.

(** ** Properties *)


(** The search for an id ends: with fewer than 2^30 ids in use, the loop
    of [allocateProjectID] stops before its bound, and what it returns is 0 or
    an id that no path uses. *)
Theorem allocateProjectID_terminates t s :
  Z.of_nat (size (idPaths s.1)) < 2 ^ 30 ->
  (exists id s', allocLoop (alloc_fuel s.1) t firstQuotaID 0 s = (Some id, s') /\ allocateProjectID t s = (id, s')) /\
  (fst (allocateProjectID t s) = noQuotaID \/ idPaths s.1 !! fst (allocateProjectID t s) = None).
Proof.
  intros Hsize. split.
  - pose proof (allocLoop_enough (alloc_fuel s.1) t firstQuotaID 0 s) as Hf.
    assert (Hle : (size (used_from s.1 firstQuotaID) <= size (idPaths s.1))%nat).
    { rewrite <- size_dom. apply subseteq_size. intros j. unfold used_from. rewrite elem_of_filter. tauto. }
    destruct (allocLoop (alloc_fuel s.1) t firstQuotaID 0 s) as [[id|] s'] eqn:E.
    + exists id, s'. split; [done|]. unfold allocateProjectID. pq. by rewrite E.
    + exfalso. apply Hf; [..|done]; unfold alloc_fuel, firstQuotaID, maxSearch in *; simpl in *; lia.
  - destruct (allocateProjectID t s) as [r s'] eqn:E. by apply allocateProjectID_frame in E as [_ [_ H]].
Qed.

(** On a kernel without errors and without limits for unused ids, the first
    unused id is allocated. *)
Lemma allocLoop_free fuel t id s dev :
  (forall n d i, env_getquota n d i = None) ->
  pathMapBackingDev s.1 !! t = Some dev -> supported dev = true ->
  (forall j, idPaths s.1 !! j = None -> k_limits s.2 !! (device dev, uint32 j) = None) ->
  (size (used_from s.1 id) < fuel)%nat -> firstQuotaID <= id -> id + Z.of_nat fuel < 2 ^ 31 ->
  exists j, allocLoop fuel t id 0 s = (Some j, s) /\ firstQuotaID <= j.
Proof.
  intros Hq Hdev Hsup Hfree. unfold firstQuotaID. revert id.
  induction fuel as [|fuel IH]; intros id Hf Hid Hmax; [lia|]. cbn [allocLoop]. pq.
  destruct (idPaths s.1 !! id) as [ps|] eqn:Ei.
  { rewrite int32_id by (unfold in_int32; simpl in *; lia). apply IH; try lia.
    pose proof (used_from_step s.1 id ltac:(rewrite Ei; eauto)). lia. }
  unfold findOrCreateBackingDev. pq. rewrite Hdev, Hsup. cbn [negb].
  unfold getProjectQuota. destruct s as [p k]. cbn [fst snd] in *. rewrite Hq, (Hfree id Ei). by exists id.
Qed.

Lemma allocateProjectID_free t s dev :
  (forall n d i, env_getquota n d i = None) ->
  pathMapBackingDev s.1 !! t = Some dev -> supported dev = true ->
  (forall j, idPaths s.1 !! j = None -> k_limits s.2 !! (device dev, uint32 j) = None) ->
  Z.of_nat (size (idPaths s.1)) < 2 ^ 30 ->
  exists j, allocateProjectID t s = (j, s) /\ firstQuotaID <= j.
Proof.
  intros Hq Hdev Hsup Hfree Hsize.
  assert (Hle : (size (used_from s.1 firstQuotaID) <= size (idPaths s.1))%nat).
  { rewrite <- size_dom. apply subseteq_size. intros j. unfold used_from. rewrite elem_of_filter. tauto. }
  destruct (allocLoop_free (alloc_fuel s.1) t firstQuotaID s dev) as (j & E & Hj); try done;
    try (unfold alloc_fuel, firstQuotaID in *; simpl in *; lia).
  exists j. unfold allocateProjectID. pq. by rewrite E.
Qed.

(** A kernel without errors. *)
Record no_errors : Prop := {
  ok_getid : forall p, env_getid p = None;
  ok_setid : forall n p, env_setid n p = None;
  ok_getquota : forall n d i, env_getquota n d i = None;
  ok_setquota : forall n d i, env_setquota n d i = None;
}.

Lemma newProjectId_ok t s dev sys :
  no_errors -> pathMapBackingDev s.1 !! t = Some dev -> supported dev = true ->
  (forall j, idPaths s.1 !! j = None -> k_limits s.2 !! (device dev, uint32 j) = None) ->
  Z.of_nat (size (idPaths s.1)) < 2 ^ 30 ->
  exists id s', newProjectId t sys s = (Ok id, s').
Proof.
  intros [O1 O2 O3 O4] Hdev Hsup Hfree Hsize. unfold newProjectId. pq. destruct (_ || _); [|eauto].
  destruct (allocateProjectID_free t s dev) as (j & -> & Hj); try done.
  destruct (Z.eqb_spec j noQuotaID) as [->|]; [done|]. unfold setProjectID. destruct s. rewrite O1, O2. eauto.
Qed.

(** The new id of a path on such a kernel. *)
Lemma findOrCreateProjectId_ok t flag s dev :
  no_errors -> pathMapBackingDev s.1 !! t = Some dev -> supported dev = true ->
  (forall j, idPaths s.1 !! j = None -> k_limits s.2 !! (device dev, uint32 j) = None) ->
  Z.of_nat (size (idPaths s.1)) < 2 ^ 30 -> pathIds s.1 !! t = None ->
  exists id s', findOrCreateProjectId t flag false true s = (Ok (id, true), s') /\ new_path t id s s'.
Proof.
  intros Hok Hdev Hsup Hfree Hsize Ht.
  destruct (findOrCreateProjectId t flag false true s) as [r s'] eqn:E.
  pose proof (findOrCreateProjectId_spec _ _ _ _ _ _ _ E) as [(?&?&_)|[(_ & _ & [[e ->]|[? _]])|(_ & id & -> & Hnp)]];
    [congruence| |done|by exists id, s'].
  exfalso. unfold findOrCreateProjectId in E. pq. rewrite Ht in E. unfold getProjectID in E. rewrite (ok_getid Hok) in E.
  destruct (newProjectId_ok t s dev (int32 (default 0 (k_projid s.2 !! t))) Hok Hdev Hsup Hfree Hsize) as (id & s1 & En).
  rewrite En in E. destruct (saveProjectId t flag id true s1). done.
Qed.

(** C37: A limit that is set is read back: on a kernel without errors, setting a
    quota for a directory that is not managed yet succeeds; reading it returns
    the limit, rounded down to blocks of 512 bytes, and the inodes; and the
    limits of all other managed directories are unchanged. *)
Theorem SetQuota_GetQuota t flag size s s1 dev :
  no_errors -> managed_wf s -> pathIds s.1 !! t = None ->
  findAvailableBackingDev t s = (Ok dev, s1) ->
  (forall j, idPaths s.1 !! j = None -> k_limits s.2 !! (device dev, uint32 j) = None) ->
  Z.of_nat (base.size (idPaths s.1)) < 2 ^ 30 ->
  in_uint64 (Quota size) -> in_uint64 (Inodes size) -> in_uint64 (Quota size + Inodes size) -> Quota size + Inodes size <> 0 ->
  exists s' q, SetQuota t flag (Some size) None s = (None, s') /\ GetQuota t s' = (Ok q, s') /\
    Quota q = 512 * (Quota size / 512) /\ Inodes q = Inodes size /\
    forall u j d, pathIds s.1 !! u = Some j -> k_limits s'.2 !! (d, uint32 j) = k_limits s.2 !! (d, uint32 j).
Proof.
  intros Hok Hwf Ht Ed Hfree Hsize Hq Hi Hsum Hne.
  destruct (findAvailableBackingDev_frame _ _ _ _ Ed) as [Hm Hdev]. destruct (Hdev dev eq_refl) as [Hd1 Hd2].
  apply more_devs_same in Hm as [M1 M2 M3 M4 M5]. rewrite <- M1 in Ht. rewrite <- M2 in Hsize, Hfree. rewrite <- M4 in Hfree.
  destruct (findOrCreateProjectId_ok t flag s1 dev Hok Hd1 Hd2 Hfree Hsize Ht) as (id & s2 & Ei & [[N1 N1'] [N2 N2'] N3 N4 N5 N6 N7 N8]).
  destruct (setProjectQuota (device dev) id size s2) as [e s3] eqn:Es.
  assert (e = None) as -> by (unfold setProjectQuota in Es; destruct s2; rewrite (ok_setquota Hok) in Es; congruence).
  apply setProjectQuota_frame in Es as E3. destruct E3 as (E1 & E2 & E3).
  exists s3. eexists. split_and!.
  - unfold SetQuota. rewrite uint64_id by done. destruct (Z.eqb_spec (Quota size + Inodes size) 0); [done|]. pq.
    by rewrite Ed, Ei, Es.
  - unfold GetQuota. pq. rewrite (findAvailableBackingDev_known t s3 dev); [|rewrite E1; by apply (lookup_weaken _ _ _ _ Hd1)|done].
    unfold findOrCreateProjectId. pq. rewrite E1, N3, lookup_insert_eq. unfold getProjectQuota. destruct s3 as [p3 k3].
    cbn [fst snd] in *. rewrite (ok_getquota Hok), E3, lookup_insert_eq. done.
  - cbn [Quota]. rewrite uint64_id; [lia|]. unfold in_uint64 in *. Z.div_mod_to_equations. lia.
  - done.
  - intros u j d Hu. rewrite E3, lookup_insert_ne; [congruence|]. intros [= _ Ej]. rewrite <- M1 in Hu.
    apply uint32_inj in Ej; [|done|]; [|by apply (wf_range s Hwf u); rewrite <- M1].
    subst j. rewrite M1 in Hu. apply (wf_path s Hwf) in Hu. rewrite <- M2 in Hu. congruence.
Qed.

(** A failed limit is never retried: when [SetQuota] gives a directory an
    id but the kernel refuses the limit, the error is returned once; every later
    [SetQuota] of the directory succeeds without doing anything, and no limit
    has been set. *)
Theorem SetQuota_failure_is_final t flag size s e s1 id :
  pathIds s.1 !! t = None ->
  SetQuota t flag (Some size) None s = (Some e, s1) -> pathIds s1.1 !! t = Some id ->
  k_limits s1.2 = k_limits s.2 /\
  forall flag' size', SetQuota t flag' size' None s1 = (None, s1).
Proof.
  intros Ht E Hid. unfold SetQuota in E. destruct (_ =? 0); [done|]. pq.
  destruct (findAvailableBackingDev t s) as [dev s0] eqn:Ed.
  destruct (findAvailableBackingDev_frame _ _ _ _ Ed) as [Hm Hdev]. apply more_devs_same in Hm as [M1 M2 M3 M4 M5].
  destruct dev as [dev|]; [|injection E as _ <-; congruence]. destruct (Hdev dev eq_refl) as [Hd1 Hd2].
  destruct (findOrCreateProjectId t flag false true s0) as [r s2] eqn:Ei. apply findOrCreateProjectId_spec in Ei.
  destruct Ei as [(?&?&_)|[(_ & [F1 _ _ _ _] & [[e' ->]|[? _]])|(_ & j & -> & [_ _ N3 _ _ _ N7 N8])]];
    [congruence|injection E as _ <-; congruence|done|].
  apply setProjectQuota_frame in E as (E1 & E2 & E3). split; [congruence|]. intros flag' size'. unfold SetQuota.
  destruct size' as [size'|]; [|done]. destruct (_ =? 0); [done|]. pq.
  rewrite (findAvailableBackingDev_known t s1 dev); [|rewrite E1; by apply (lookup_weaken _ _ _ _ Hd1)|done].
  unfold findOrCreateProjectId. pq. by rewrite Hid.
Qed.

Lemma ClearQuota_known t id dev s :
  no_errors -> pathIds s.1 !! t = Some id -> pathMapBackingDev s.1 !! t = Some dev -> supported dev = true ->
  exists s', ClearQuota t s = (None, s') /\
    pathIds s'.1 = delete t (pathIds s.1) /\ idPaths s'.1 = delete id (idPaths s.1) /\
    pathMapBackingDev s'.1 = delete t (pathMapBackingDev s.1) /\
    k_projid s'.2 = k_projid s.2 /\ k_limits s'.2 = <[(device dev, uint32 id) := (0, 0)]> (k_limits s.2).
Proof.
  intros Hok Ht Hd Hs. unfold ClearQuota. pq. rewrite (findAvailableBackingDev_known t s dev Hd Hs).
  unfold findOrCreateProjectId. pq. rewrite Ht.
  destruct (setProjectQuota (device dev) id _ s) as [e s2] eqn:Es.
  assert (e = None) as -> by (unfold setProjectQuota in Es; destruct s; rewrite (ok_setquota Hok) in Es; congruence).
  apply setProjectQuota_frame in Es as (E1 & E2 & E3). rewrite E1.
  match goal with |- context [write_projects (?p0, s2.2)] => set (p1 := p0) end.
  destruct (write_files_frame (p1, s2.2)) as (k' & Ek & Hk1 & Hk2). pq.
  destruct (write_projects (p1, s2.2)) as [u1 s3]. rewrite Ek. eexists. split; [done|]. subst p1.
  cbn [fst snd pathIds idPaths pathMapBackingDev]. split_and!; try done; [congruence|]. rewrite Hk2, E3. done.
Qed.

(** Clearing one directory of a shared quota frees the id for others: the
    id is dropped although another directory [u] keeps it, and the next
    directory that gets a quota is given the same id, so that it shares its
    limit with [u]. *)
Theorem clear_shared_id_reused t u v flag size dev s :
  no_errors -> pathIds s.1 !! t = Some firstQuotaID -> pathIds s.1 !! u = Some firstQuotaID -> pathIds s.1 !! v = None ->
  u <> t -> u <> v -> v <> t -> pathMapBackingDev s.1 !! t = Some dev -> pathMapBackingDev s.1 !! v = Some dev ->
  supported dev = true -> k_projid s.2 !! v = None -> uint64 (Quota size + Inodes size) <> 0 ->
  exists s1 s2, ClearQuota t s = (None, s1) /\ SetQuota v flag (Some size) None s1 = (None, s2) /\
    pathIds s2.1 !! u = Some firstQuotaID /\ pathIds s2.1 !! v = Some firstQuotaID.
Proof.
  intros Hok Ht Hu Hv Hut Huv Hvt Hdt Hdv Hs Hkv Hsize.
  destruct (ClearQuota_known t firstQuotaID dev s Hok Ht Hdt Hs) as (s1 & Ec & P1 & P2 & P3 & P4 & P5).
  exists s1. assert (Hdv1 : pathMapBackingDev s1.1 !! v = Some dev) by by rewrite P3, lookup_delete_ne.
  assert (Ei : newProjectId v (int32 (default 0 (k_projid s1.2 !! v))) s1 =
               (Ok firstQuotaID, (s1.1, bump s1.2 (<[v := uint32 firstQuotaID]> (k_projid s1.2)) (k_limits s1.2)))).
  { rewrite P4, Hkv. unfold newProjectId. pq. cbn [default]. change (int32 0 =? noQuotaID) with true. cbn [orb].
    unfold allocateProjectID. pq. replace (alloc_fuel s1.1) with (S (base.size (idPaths s1.1) + 257)) by (unfold alloc_fuel; lia).
    cbn [allocLoop]. pq. rewrite P2, lookup_delete_eq. unfold findOrCreateBackingDev. pq. rewrite Hdv1, Hs. cbn [negb].
    unfold getProjectQuota. destruct s1 as [p1 k1]. cbn [fst snd] in *. rewrite (ok_getquota Hok), P5, lookup_insert_eq.
    change (Quota _ =? 0) with true. unfold default, id. change (firstQuotaID =? noQuotaID) with false. cbn [negb].
    unfold setProjectID. rewrite (ok_getid Hok), (ok_setid Hok), P4, P5. done. }
  destruct (saveProjectId_frame v flag firstQuotaID true
              (s1.1, bump s1.2 (<[v := uint32 firstQuotaID]> (k_projid s1.2)) (k_limits s1.2))) as (k' & Ek & _ & _).
  match type of Ek with _ = (tt, ?s2') => set (s2 := s2') in * end.
  destruct (setProjectQuota (device dev) firstQuotaID size s2) as [e s3] eqn:Eq.
  assert (e = None) as -> by (unfold setProjectQuota, s2 in Eq; rewrite (ok_setquota Hok) in Eq; congruence).
  exists s3. apply setProjectQuota_frame in Eq as E3. destruct E3 as (E3 & _). split_and!; [done| |rewrite E3..].
  - unfold SetQuota. destruct (Z.eqb_spec (uint64 (Quota size + Inodes size)) 0); [done|]. pq.
    rewrite (findAvailableBackingDev_known v s1 dev Hdv1 Hs). unfold findOrCreateProjectId. pq.
    rewrite P1, lookup_delete_ne, Hv by done. unfold getProjectID. rewrite (ok_getid Hok). rewrite Ei, Ek. exact Eq.
  - unfold s2. cbn [fst set_ids pathIds]. by rewrite lookup_insert_ne, P1, lookup_delete_ne.
  - unfold s2. cbn [fst set_ids pathIds]. apply lookup_insert_eq.
Qed.
End Frames.

(** ** Witnesses *)

Definition ex_quota_env (setquota : nat -> string -> Z -> option error) : QuotaEnv := {|
  InHostNamespace := true;
  env_stat := fun _ => None;
  env_FindMount := fun _ => Ok ("/data", "rw,prjquota");
  env_mknod := fun _ => MknodOk;
  env_getid := fun _ => None;
  env_setid := fun _ _ => None;
  env_getquota := fun _ _ _ => None;
  env_setquota := setquota;
  env_used := fun _ _ => (0, 0);
  env_rename := fun _ _ => None;
|}.
Definition good_env : QuotaEnv := ex_quota_env (fun _ _ _ => None).
Definition full_env : QuotaEnv := ex_quota_env (fun _ _ _ => Some "no space left on device").

Definition empty_state : projectQuota * kernel := (mkProjectQuota ∅ ∅ ∅ ∅ ∅, mkKernel ∅ ∅ "" "" 0).
Definition ex_size : DiskQuotaSize := mkSize 10000000 1000 0 0.

Lemma good_env_no_errors : @no_errors good_env.
Proof. by split. Qed.

Lemma empty_state_wf : managed_wf empty_state.
Proof. split; done. Qed.


Lemma allocateProjectID_terminates_witness :
  exists id s', @allocLoop good_env (alloc_fuel empty_state.1) "/data/a" firstQuotaID 0 empty_state = (Some id, s') /\
    @allocateProjectID good_env "/data/a" empty_state = (id, s').
Proof. apply (@allocateProjectID_terminates good_env "/data/a" empty_state). reflexivity. Defined.

Lemma SetQuota_GetQuota_witness :
  exists s' q, @SetQuota id_order good_env "/data/a" "rootFs" (Some ex_size) None empty_state = (None, s') /\
    @GetQuota id_order good_env "/data/a" s' = (Ok q, s') /\ Quota q = 9999872 /\ Inodes q = 1000.
Proof.
  destruct (@SetQuota_GetQuota id_order good_env "/data/a" "rootFs" ex_size empty_state
              (snd (@findAvailableBackingDev good_env "/data/a" empty_state)) (mkDev true "/data/backingFsBlockDev"))
    as (s' & q & E1 & E2 & Hq & Hi & _).
  - exact good_env_no_errors.
  - exact empty_state_wf.
  - reflexivity.
  - vm_compute. reflexivity.
  - reflexivity.
  - reflexivity.
  - by split.
  - by split.
  - by split.
  - discriminate.
  - exists s', q. split_and!; [exact E1|exact E2|exact Hq|exact Hi].
Defined.

Lemma SetQuota_failure_is_final_witness :
  let s1 := snd (@SetQuota id_order full_env "/data/a" "rootFs" (Some ex_size) None empty_state) in
  @SetQuota id_order full_env "/data/a" "rootFs" (Some ex_size) None s1 = (None, s1) /\ k_limits s1.2 = ∅.
Proof.
  intros s1.
  destruct (@SetQuota_failure_is_final id_order full_env "/data/a" "rootFs" ex_size empty_state "no space left on device" s1
              1048577) as [H1 H2].
  - reflexivity.
  - vm_compute. reflexivity.
  - vm_compute. reflexivity.
  - split; [apply H2|exact H1].
Defined.

(** Two directories of a pod that share a quota, and a third directory. *)
Definition ex_shared_state : projectQuota * kernel :=
  snd (@GetQuota id_order good_env "/data/c"
    (snd (@SetQuota id_order good_env "/data/b" "emptyDir" (Some ex_size) (Some "ns/pod")
      (snd (@SetQuota id_order good_env "/data/a" "emptyDir" (Some ex_size) (Some "ns/pod") empty_state))))).

Lemma clear_shared_id_reused_witness :
  exists s1 s2, @ClearQuota id_order good_env "/data/a" ex_shared_state = (None, s1) /\
    @SetQuota id_order good_env "/data/c" "rootFs" (Some ex_size) None s1 = (None, s2) /\
    pathIds s2.1 !! "/data/b" = Some firstQuotaID /\ pathIds s2.1 !! "/data/c" = Some firstQuotaID.
Proof.
  apply (@clear_shared_id_reused id_order good_env "/data/a" "/data/b" "/data/c" "rootFs" ex_size
           (mkDev true "/data/backingFsBlockDev") ex_shared_state);
    first [exact good_env_no_errors | discriminate | vm_compute; reflexivity | vm_compute; discriminate].
Defined.
