(* ===== verification/K8sResource.v ===== *)
(** * Offline jobs on Kubernetes

    pkg/caelus/resource: the pods of the node (util/appclass), their requests
    (k8s/types.go), the order in which they are killed (k8s/pod_sort.go) and the
    client that publishes the resources of offline jobs on the node and evicts
    pods (resource_k8s.go).  The API server's answers, the recorded states and
    the sort of the standard library are parameters. *)

From S2P Require Import Prelude GoStrings GoFloat Quantity Cgroup Qos.

#[local] Open Scope string_scope.
#[local] Open Scope Z_scope.
#[local] Open Scope list_scope.

(** ** Sorting

    [sort.Sort] permutes its argument; when the order is a strict weak one no
    later element comes before an earlier one.  It is not stable. *)

Record strict_weak {A : Type} (less : A -> A -> bool) : Prop := {
  sw_irrefl : forall x, less x x = false;
  sw_trans : forall x y z, less x y = true -> less y z = true -> less x z = true;
  sw_incomparable : forall x y z, less x y = false -> less y z = false -> less x z = false;
}.

(** The same on the elements that satisfy [P]. *)
Record strict_weak_on {A : Type} (P : A -> Prop) (less : A -> A -> bool) : Prop := {
  swo_irrefl : forall x, P x -> less x x = false;
  swo_trans : forall x y z, P x -> P y -> P z -> less x y = true -> less y z = true -> less x z = true;
  swo_incomparable : forall x y z, P x -> P y -> P z -> less x y = false -> less y z = false -> less x z = false;
}.

Class GoSort := {
  go_sort : forall {A : Type}, (A -> A -> bool) -> list A -> list A;
  go_sort_perm : forall {A : Type} (less : A -> A -> bool) l, go_sort less l ≡ₚ l;
  go_sort_sorted_on : forall {A : Type} (P : A -> Prop) (less : A -> A -> bool) l,
    Forall P l -> strict_weak_on P less -> StronglySorted (fun a b => less b a = false) (go_sort less l);
}.

Lemma go_sort_sorted {GS : GoSort} {A : Type} (less : A -> A -> bool) l :
  strict_weak less -> StronglySorted (fun a b => less b a = false) (go_sort less l).
Proof.
  intros [H1 H2 H3]. apply (go_sort_sorted_on (fun _ => True)); [by apply Forall_true|]. split; eauto.
Qed.

(** ** Pods *)

Inductive PodPhase := PodPending | PodRunning | PodSucceeded | PodFailed | PodUnknown.
Inductive PodQOSClass := PodQOSGuaranteed | PodQOSBurstable | PodQOSBestEffort | PodQOSNone.

Record Pod (Q : Type) := mkPod {
  Namespace : string;
  Name : string;
  UID : string;
  Annotations : gmap string string;
  Priority : option Z;
  StartTime : option time;
  Phase : PodPhase;
  QOSClass : PodQOSClass;
  ContainerIDs : list string;
  (** The requested resources of each container. *)
  Requests : list (gmap string Q);
}.
Arguments mkPod {Q} _ _ _ _ _ _ _ _ _ _.
Arguments Namespace {Q} _.
Arguments Name {Q} _.
Arguments UID {Q} _.
Arguments Annotations {Q} _.
Arguments Priority {Q} _.
Arguments StartTime {Q} _.
Arguments Phase {Q} _.
Arguments QOSClass {Q} _.
Arguments ContainerIDs {Q} _.
Arguments Requests {Q} _.

Definition AnnotationOfflineKey : string := "mixer.kubernetes.io/app-class".
Definition AnnotationOfflineValue : string := "greedy".
(** A map of annotations without entries is nil when it comes from the server. *)
Definition GetAppClass {Q} (pod : Pod Q) : string :=
  if (Namespace pod =? "kube-system")%string then "system"
  else if decide (Annotations pod = ∅) then "unknown"
  else match Annotations pod !! AnnotationOfflineKey with
       | Some value => if (value =? AnnotationOfflineValue)%string then "offline" else "online"
       | None => "online"
       end.

Definition CgroupKubePods : string := "/kubepods".
Definition ExternalResourcePrefix : string := "mixer.kubernetes.io/ext-".
Definition CPUUnit : Z := 1000.

Section Pods.
Context {RO : RangeOrder} {GS : GoSort} {Q : Type} `{QO : QuantityOps Q}.
Implicit Types (p : Pod Q).

Definition IsOffline p : bool :=
  match Annotations p !! AnnotationOfflineKey with
  | Some value => (value =? AnnotationOfflineValue)%string
  | None => false
  end.

Definition PodCgroupDirs p : list string :=
  let cgroupPrefix := if IsOffline p then CgroupOffline else CgroupKubePods in
  let dirs (prefix : string) : list string :=
    let podDir := path_Join [prefix; "pod" +:+ UID p] in
    concat (map (fun cid0 =>
                   let cid := TrimPrefix (TrimPrefix cid0 "docker://") "containerd://" in
                   if (slen cid =? 0) then [] else [path_Join [podDir; cid]]) (ContainerIDs p)) in
  match QOSClass p with
  | PodQOSBestEffort => dirs (path_Join [cgroupPrefix; "besteffort"])
  | PodQOSBurstable => dirs (path_Join [cgroupPrefix; "burstable"])
  | PodQOSGuaranteed => dirs cgroupPrefix
  | PodQOSNone => []
  end.

Definition GetPodKey p : string := Namespace p +:+ "-" +:+ Name p.

(** ** Requests *)

Definition ResourceList : Type := gmap string Q.

Definition zero_requests : ResourceList :=
  {["cpu" := qNewMilliQuantity 0; "memory" := qNewQuantity 0]}.

(** [IsExtendedResourceName] of the Kubernetes helpers. *)
Context (IsExtendedResourceName : string -> bool).

Definition addRequest (requestList : ResourceList) (r : string * Q) : ResourceList :=
  let '(rName, rQuanty) := r in
  if IsExtendedResourceName rName then
    let rNameNoPrefix := TrimPrefix rName ExternalResourcePrefix in
    match requestList !! rNameNoPrefix with
    | None => requestList
    | Some vv =>
        <[rNameNoPrefix := qAdd vv (if (rNameNoPrefix =? "cpu")%string then qNewMilliQuantity (qValue rQuanty) else rQuanty)]>
          requestList
    end
  else requestList.

Definition GetPodResourceRequest p : ResourceList :=
  fold_left (fun requestList reqs => fold_left addRequest (range_map "requests" reqs) requestList) (Requests p) zero_requests.

(** [NodeInfo] has one field, the requested resources. *)
Definition AddPod (n : ResourceList) p : ResourceList :=
  fold_left (fun n '(rName, rQuanty) => <[rName := qAdd (default qZero (n !! rName)) rQuanty]> n)
    (range_map "add" (GetPodResourceRequest p)) n.

Definition NewNodeInfo (pods : list (Pod Q)) : ResourceList := fold_left AddPod pods zero_requests.

(** The first resource with more requests than [rl] has. *)
Fixpoint moreLoop (l : list (string * Q)) (rl : ResourceList) : bool * string :=
  match l with
  | [] => (false, "")
  | (k, v) :: l' =>
      match rl !! k with
      | Some vl => if 0 <? qCmp v vl then (true, k) else moreLoop l' rl
      | None => moreLoop l' rl
      end
  end.

Definition More (n rl : ResourceList) : bool * string := moreLoop (range_map "more" n) rl.

Definition Less (n rl : ResourceList) : bool :=
  forallb (fun '(k, v) => match rl !! k with Some vl => negb (0 <=? qCmp v vl) | None => true end) (range_map "less" n).

Definition ReduceRequestedResource (n resQuan : ResourceList) : ResourceList :=
  fold_left (fun n '(r, q) => match n !! r with None => n | Some req => <[r := qSub req q]> n end) (range_map "reduce" resQuan) n.

(** ** The order of pods *)

Definition DefaultPriority : Z := 0.
Definition getPodPriority p : Z := default DefaultPriority (Priority p).

Definition SortByPriority (p1 p2 : Pod Q) : Z :=
  let priority1 := getPodPriority p1 in
  let priority2 := getPodPriority p2 in
  if priority1 =? priority2 then 0 else if priority2 <? priority1 then 1 else -1.

Definition SortByResource (usageMap : gmap string Z) (p1 p2 : Pod Q) : Z :=
  match usageMap !! GetPodKey p1, usageMap !! GetPodKey p2 with
  | None, None => 0
  | None, _ => -1
  | _, None => 1
  | Some r1, Some r2 => int64 (r2 - r1)
  end.

Definition SortByStartTime (p1 p2 : Pod Q) : Z :=
  match StartTime p1, StartTime p2 with
  | None, None => 0
  | None, _ => 1
  | _, None => -1
  | Some t1, Some t2 => if t1 <? t2 then 1 else if t1 =? t2 then 0 else -1
  end.

(** [multiSorter.Less]: the first comparison that decides, and the last one. *)
Fixpoint multiLess (cmp : list (Pod Q -> Pod Q -> Z)) (p1 p2 : Pod Q) : bool :=
  match cmp with
  | [] => false
  | [last] => last p1 p2 <? 0
  | c :: cmp' =>
      let cmpResult := c p1 p2 in
      if cmpResult <? 0 then true else if 0 <? cmpResult then false else multiLess cmp' p1 p2
  end.

(** [OrderedBy(...).Sort]. *)
Definition OrderedBy_Sort (cmp : list (Pod Q -> Pod Q -> Z)) (pods : list (Pod Q)) : list (Pod Q) :=
  go_sort (multiLess cmp) pods.
End Pods.

(** ** The client *)

Section Client.
Context {RO : RangeOrder} {GS : GoSort} {Q : Type} `{QO : QuantityOps Q}.
Context (IsExtendedResourceName : string -> bool).

Record Node := mkNode {
  NodeName : string;
  Capacity : gmap string Q;
  Allocatable : gmap string Q;
}.

Record NodeResourceConfig := mkNodeResourceConfig {
  DisableKillIfNormal : bool;
  OnlyKillIfIncompressibleRes : bool;
}.

Record k8sClient := mkK8sClient {
  k_config : NodeResourceConfig;
  k_node : Node;
  k_lastNode : option Node;
  k_nodeInfo : option (gmap string Q);
  extResScheduleDisabled : bool;
  (** The last stored checkpoint: the time in seconds and the state. *)
  k_checkpoint : option (Z * bool);
}.

Definition set_node (k : k8sClient) (n : Node) (info : gmap string Q) : k8sClient :=
  mkK8sClient (k_config k) n (k_lastNode k) (Some info) (extResScheduleDisabled k) (k_checkpoint k).
Definition set_last (k : k8sClient) (n : Node) : k8sClient :=
  mkK8sClient (k_config k) (k_node k) (Some n) (k_nodeInfo k) (extResScheduleDisabled k) (k_checkpoint k).
Definition set_schedule (k : k8sClient) (disabled : bool) (now : Z) : k8sClient :=
  mkK8sClient (k_config k) (k_node k) (k_lastNode k) (k_nodeInfo k) disabled (Some (now, disabled)).

Definition newK8sClient (config : NodeResourceConfig) (name : string) : k8sClient :=
  mkK8sClient config (mkNode name ∅ ∅) None None false None.

(** Scheduling of offline jobs; [now] is the time in seconds. *)
Definition k8s_DisableOfflineSchedule (k : k8sClient) (now : Z) : k8sClient :=
  if extResScheduleDisabled k then k else set_schedule k true now.
Definition k8s_EnableOfflineSchedule (k : k8sClient) (now : Z) : k8sClient :=
  if negb (extResScheduleDisabled k) then k else set_schedule k false now.
Definition k8s_OfflineScheduleDisabled (k : k8sClient) : bool := extResScheduleDisabled k.

(** All running or pending pods, and the offline ones of them. *)
Definition getPodList (store : list (Pod Q)) : list (Pod Q) * list (Pod Q) :=
  let allPods := filter (fun p => match Phase p with PodRunning | PodPending => true | _ => false end = true) store in
  (allPods, filter (fun p => IsOffline p = true) allPods).

(** The recent state of a cgroup: cores and bytes in use. *)
Context (cgStat : string -> result (float64 * float64)).

Definition getPodUsage (p : Pod Q) : gmap string Q :=
  let '(cpu, mem) :=
    fold_left (fun '(cpu, mem) cgPath =>
        match cgStat cgPath with
        | Err _ => (cpu, mem)
        | Ok (CpuUsage, MemoryTotalUsage) =>
            (qAdd cpu (qNewMilliQuantity (int64_of_float64 (fmul CpuUsage (float64_of_Z CPUUnit)))),
             qAdd mem (qNewQuantity (int64_of_float64 MemoryTotalUsage)))
        end) (PodCgroupDirs p) (qNewMilliQuantity 0, qNewQuantity 0) in
  {["cpu" := cpu; "memory" := mem]}.

(** The usage of [rName] by pod. *)
Definition podUsages (rName : string) (pods : list (Pod Q)) : gmap string Z :=
  fold_left (fun usageMap p =>
      if slen rName =? 0 then usageMap
      else match getPodUsage p !! rName with
           | None => usageMap
           | Some q => <[GetPodKey p := qMilliValue q]> usageMap
           end) pods ∅.

(** The pod to kill and the resources it releases. *)
Definition chooseOfflinePod (store : list (Pod Q)) (rName : string) : option (Pod Q) * gmap string Q :=
  let offlinePods := (getPodList store).2 in
  match OrderedBy_Sort [SortByPriority; SortByResource (podUsages rName offlinePods); SortByStartTime] offlinePods with
  | [] => (None, ∅)
  | killPod :: _ => (Some killPod, GetPodResourceRequest IsExtendedResourceName killPod)
  end.

Definition reduceReleaseRequestResource (store : list (Pod Q)) (info : gmap string Q) (rs : string) :
    option (Pod Q) * gmap string Q :=
  let '(chosenPod, releasedRes) := chooseOfflinePod store rs in
  (chosenPod, ReduceRequestedResource info releasedRes).

(** [types.AllResCompressible]: only cpu is compressible. *)
Definition AllResCompressible (res : list string) : bool := forallb (fun r => (r =? "cpu")%string) res.

(** The pod to kill, if one has to be, and the requests that remain. *)
Definition choosePodToKill (cfg : NodeResourceConfig) (store : list (Pod Q)) (info offlineList : gmap string Q)
    (conflictingResources : list string) : option (Pod Q) * gmap string Q :=
  let '(over, rs) := More info offlineList in
  let skip := match conflictingResources with
              | [] => DisableKillIfNormal cfg
              | _ => OnlyKillIfIncompressibleRes cfg && AllResCompressible conflictingResources
              end in
  if skip then (None, info)
  else if over then reduceReleaseRequestResource store info rs
  else match conflictingResources with
       | r :: _ => reduceReleaseRequestResource store info r
       | [] => (None, info)
       end.

Definition updateNodeResources (node : Node) (res : gmap string Q) : Node :=
  fold_left (fun n '(k, v) =>
      let resName := ExternalResourcePrefix +:+ k in
      let vv := if (k =? "cpu")%string then qNewQuantity (qMilliValue v) else v in
      mkNode (NodeName n) (<[resName := vv]> (Capacity n)) (<[resName := vv]> (Allocatable n)))
    (range_map "update" res) node.

(** [Semantic.DeepEqual] of resource lists: the same names with equal amounts. *)
Definition equal_lists (a b : gmap string Q) : bool :=
  bool_decide (dom a = dom b) &&
  forallb (fun '(k, v) => match b !! k with Some v' => qCmp v v' =? 0 | None => false end) (map_to_list a).

(** The calls of the API server. *)
Inductive api_call :=
| UpdateStatus (n : Node)
| Evict (p : Pod Q).

(** The attempts to update the status; the answer to an attempt is whether it
    failed. *)
Fixpoint updateLoop (attempts : nat) (fails : nat -> bool) (i : nat) (n : Node) : list api_call :=
  match attempts with
  | O => []
  | S a => UpdateStatus n :: (if fails i then updateLoop a fails (S i) n else [])
  end.

(** The error of the loop is a variable of the loop's body, so the error that
    is returned is always nil. *)
Definition syncOfflineResource (k : k8sClient) (offlineList : gmap string Q) (fails : nat -> bool) :
    option error * k8sClient * list api_call :=
  let updatedNode := updateNodeResources (k_node k) offlineList in
  if match k_lastNode k with Some last => equal_lists (Capacity last) (Capacity updatedNode) | None => false end
  then (None, k, [])
  else (None, set_last k updatedNode, updateLoop 3 fails 0 updatedNode).

(** Disabled scheduling: the published cpu is what is already requested. *)
Definition limitSchedule (disabled : bool) (info offlineList : gmap string Q) : gmap string Q :=
  if disabled then
    if Less info offlineList then <["cpu" := default qZero (info !! "cpu")]> offlineList else offlineList
  else offlineList.

(** [informer] is the node in the informer's store; [store] the pods. *)
Definition AdaptAndUpdateOfflineResource (k : k8sClient) (informer : result (option Node)) (store : list (Pod Q))
    (offlineList : gmap string Q) (conflictingResources : list string) (fails : nat -> bool) :
    option error * k8sClient * list api_call :=
  match informer with
  | Err e => (Some e, k, [])
  | Ok None => (Some "node not found", k, [])
  | Ok (Some node) =>
      let info0 := NewNodeInfo IsExtendedResourceName (getPodList store).1 in
      let '(chosenPod, info) := choosePodToKill (k_config k) store info0 offlineList conflictingResources in
      let k1 := set_node k node info in
      let published := limitSchedule (extResScheduleDisabled k1) info offlineList in
      let '(err, k2, calls) := syncOfflineResource k1 published fails in
      match err with
      | Some e => (Some e, k2, calls)
      | None => (None, k2, calls ++ match chosenPod with Some p => [Evict p] | None => [] end)
      end
  end.

Definition k8s_KillOfflineJob (store : list (Pod Q)) (conflictingResource : string) : list api_call :=
  match chooseOfflinePod store conflictingResource with
  | (None, _) => []
  | (Some chosenPod, _) => [Evict chosenPod]
  end.

(** The names of the offline jobs. *)
Definition GetOfflineJobs (store : list (Pod Q)) : list (string * string) :=
  map (fun p => (Name p, Namespace p)) (getPodList store).2.
End Client.

(** ** Comparisons *)

(** A comparison that orders its arguments. *)
Record cmp_order {A : Type} (c : A -> A -> Z) : Prop := {
  co_anti : forall x y, c x y < 0 <-> 0 < c y x;
  co_trans : forall x y z, c x y <= 0 -> c y z <= 0 -> c x z <= 0;
}.

Lemma cmp_order_refl {A} (c : A -> A -> Z) x : cmp_order c -> c x x = 0.
Proof. intros [Ha _]. pose proof (Ha x x). lia. Qed.

Section Comparisons.
Context {Q : Type}.
Implicit Types (c : Pod Q -> Pod Q -> Z).

Lemma multiLess_cons c cmp p1 p2 :
  multiLess (c :: cmp) p1 p2 = (c p1 p2 <? 0) || ((c p1 p2 =? 0) && multiLess cmp p1 p2).
Proof.
  destruct cmp as [|c' cmp]; cbn [multiLess].
  - by rewrite andb_false_r, orb_false_r.
  - destruct (Z.ltb_spec (c p1 p2) 0), (Z.eqb_spec (c p1 p2) 0), (Z.ltb_spec 0 (c p1 p2)); simpl; try done; lia.
Qed.

Lemma multiLess_strict_weak (cmp : list (Pod Q -> Pod Q -> Z)) :
  Forall cmp_order cmp -> strict_weak (multiLess cmp).
Proof.
  induction 1 as [|c cmp Hc HF [I1 I2 I3]]; [by split|]. pose proof (fun x => cmp_order_refl c x Hc) as Hr.
  assert (Hlt : forall x y z, c x y <= 0 -> c y z <= 0 -> c x z = 0 -> c x y = 0 /\ c y z = 0).
  { destruct Hc as [Ha Ht]. intros x y z H1 H2 H3.
    assert (c z x <= 0) as H4 by (destruct (Z_le_gt_dec (c z x) 0) as [|Hgt]; [done|]; apply Z.gt_lt, Ha in Hgt; lia).
    pose proof (Ht y z x H2 H4) as H5. pose proof (Ht z x y H4 H1) as H6.
    split; [destruct (Z_lt_le_dec (c x y) 0) as [Hl|]; [apply Ha in Hl|]; lia|].
    destruct (Z_lt_le_dec (c y z) 0) as [Hl|]; [apply Ha in Hl|]; lia. }
  destruct Hc as [Ha Ht]. split.
  - intros x. rewrite multiLess_cons, Hr, I1. done.
  - intros x y z. rewrite !multiLess_cons, !orb_true_iff, !andb_true_iff, !Z.ltb_lt, !Z.eqb_eq. intros H1 H2.
    assert (H3 : c x y <= 0) by (destruct H1 as [?|[? _]]; lia).
    assert (H4 : c y z <= 0) by (destruct H2 as [?|[? _]]; lia).
    pose proof (Ht x y z H3 H4) as H5. destruct (decide (c x z = 0)) as [E|]; [|left; lia].
    destruct (Hlt x y z H3 H4 E). destruct H1 as [?|[_ H1]]; [lia|]. destruct H2 as [?|[_ H2]]; [lia|]. right. eauto.
  - intros x y z. rewrite !multiLess_cons, !orb_false_iff, !andb_false_iff, !Z.ltb_ge, !Z.eqb_neq. intros [H1 H1'] [H2 H2'].
    assert (Hge : forall a b, 0 <= c a b <-> c b a <= 0) by (intros a b; pose proof (Ha a b); lia).
    apply Hge in H1 as H3. apply Hge in H2 as H4. pose proof (Ht z y x H4 H3) as H5. split; [by apply Hge|].
    destruct (decide (c x z = 0)) as [E|]; [|by left]. right.
    assert (E' : c z x = 0) by (pose proof (Ha z x); pose proof (Ha x z); lia).
    destruct (Hlt z y x H4 H3 E') as [E1 E2].
    assert (c x y = 0 /\ c y z = 0) as [E3 E4] by (pose proof (Ha x y); pose proof (Ha y z);
      pose proof (Ha y x); pose proof (Ha z y); lia).
    destruct H1' as [?|H1']; [done|]. destruct H2' as [?|H2']; [done|]. eauto.
Qed.

Lemma SortByPriority_order : cmp_order (SortByPriority (Q := Q)).
Proof. unfold SortByPriority. split; [intros x y|intros x y z]; split_bools; lia. Qed.

Lemma SortByStartTime_order : cmp_order (SortByStartTime (Q := Q)).
Proof.
  unfold SortByStartTime. split.
  - intros x y. destruct (StartTime x), (StartTime y); split_bools; lia.
  - intros x y z. destruct (StartTime x), (StartTime y), (StartTime z); split_bools; lia.
Qed.

Lemma SortByResource_order (usage : gmap string Z) :
  map_Forall (fun _ v => 0 <= v < 2 ^ 62) usage -> cmp_order (SortByResource (Q := Q) usage).
Proof.
  intros HF. unfold SortByResource.
  assert (Hd : forall (p q : Pod Q) a b, usage !! GetPodKey p = Some a -> usage !! GetPodKey q = Some b -> int64 (b - a) = b - a).
  { intros p q a b Ha Hb. apply HF in Ha. apply HF in Hb. apply int64_id. unfold in_int64. simpl in *. lia. }
  split.
  - intros x y. destruct (usage !! GetPodKey x) eqn:Ex, (usage !! GetPodKey y) eqn:Ey; rewrite ?(Hd x y), ?(Hd y x) by done; lia.
  - intros x y z. destruct (usage !! GetPodKey x) eqn:Ex, (usage !! GetPodKey y) eqn:Ey, (usage !! GetPodKey z) eqn:Ez;
      rewrite ?(Hd x y), ?(Hd y z), ?(Hd x z) by done; lia.
Qed.
End Comparisons.

(** ** Requests *)

Lemma forallb_false {A} (f : A -> bool) l : forallb f l = false -> exists x, x ∈ l /\ f x = false.
Proof.
  induction l as [|x l IH]; simpl; [done|]. destruct (f x) eqn:Ex; simpl.
  - intros (y & Hy & Ey)%IH. exists y. split; [by right|done].
  - intros _. exists x. split; [left|done].
Qed.

Section Requests.
Context {RO : RangeOrder} {GS : GoSort} {Q : Type} `{QL : QuantityLaws Q}.
Context (IsExtendedResourceName : string -> bool).

(** Folds that only insert or change entries keep the names. *)
Lemma fold_keeps {A} (f : gmap string Q -> A -> gmap string Q) (l : list A) (m : gmap string Q) r :
  (forall m x, is_Some (m !! r) -> is_Some (f m x !! r)) -> is_Some (m !! r) -> is_Some (fold_left f l m !! r).
Proof. intros Hf. revert m. induction l as [|x l IH]; intros m Hm; simpl; eauto. Qed.

Lemma insert_keeps (m : gmap string Q) k v r : is_Some (m !! r) -> is_Some (<[k := v]> m !! r).
Proof. intros Hsome. destruct (decide (k = r)) as [->|]; [rewrite lookup_insert_eq; eauto|by rewrite lookup_insert_ne]. Qed.

Lemma NewNodeInfo_cpu pods : is_Some (NewNodeInfo IsExtendedResourceName pods !! "cpu").
Proof.
  unfold NewNodeInfo. apply fold_keeps; [|by eexists]. intros m p Hm. unfold AddPod. apply fold_keeps; [|done].
  intros m' [k v] Hm'. by apply insert_keeps.
Qed.

Lemma Reduce_keeps (info res : gmap string Q) r : is_Some (info !! r) -> is_Some (ReduceRequestedResource info res !! r).
Proof.
  intros Hsome. unfold ReduceRequestedResource. apply fold_keeps; [|done]. intros m [k v] Hm.
  case_match; [by apply insert_keeps|done].
Qed.

Lemma choosePodToKill_keeps cgStat cfg store (info l : gmap string Q) conflicts r :
  is_Some (info !! r) -> is_Some ((choosePodToKill IsExtendedResourceName cgStat cfg store info l conflicts).2 !! r).
Proof.
  intros Hsome. unfold choosePodToKill, reduceReleaseRequestResource.
  destruct (More info l) as [over rs]. destruct (match conflicts with [] => _ | _ => _ end); [done|].
  destruct over; [|destruct conflicts; [done|]];
    destruct (chooseOfflinePod IsExtendedResourceName cgStat store _) as [p res]; by apply Reduce_keeps.
Qed.

Lemma Less_false (info l : gmap string Q) :
  Less info l = false -> exists r v vl, info !! r = Some v /\ l !! r = Some vl /\ amount vl <= amount v.
Proof.
  unfold Less. intros Hf. apply forallb_false in Hf as ([k v] & Hin & Hc). apply elem_of_range in Hin. cbv beta iota in Hc.
  revert Hc. case_match eqn:El; [|done]. intros Hc. eexists k, v, _. split_and!; [done|done|].
  apply negb_false_iff in Hc. amounts. lia.
Qed.
End Requests.

(** ** Properties *)

Section Properties.
Context {RO : RangeOrder} {GS : GoSort} {Q : Type} `{QL : QuantityLaws Q}.
Context (IsExtendedResourceName : string -> bool) (cgStat : string -> result (float64 * float64)).

(** [p] uses more than [q]; a pod without a usage comes first. *)
Definition uses_more (usage : gmap string Z) (p q : Pod Q) : Prop :=
  match usage !! GetPodKey p, usage !! GetPodKey q with
  | Some a, Some b => b < a
  | None, Some _ => True
  | _, _ => False
  end.

(** [p] started after [q]; a pod that has not started counts as the earliest. *)
Definition started_later (p q : Pod Q) : Prop :=
  match StartTime p, StartTime q with
  | Some a, Some b => b < a
  | Some _, None => True
  | _, _ => False
  end.

(** [p] is killed before [q]. *)
Definition killed_before (usage : gmap string Z) (p q : Pod Q) : Prop :=
  getPodPriority p < getPodPriority q \/
  (getPodPriority p = getPodPriority q /\
   (uses_more usage p q \/ (~ uses_more usage p q /\ ~ uses_more usage q p /\ started_later p q))).

Lemma multiLess_killed_before usage (p q : Pod Q) :
  map_Forall (fun _ v => 0 <= v < 2 ^ 62) usage ->
  multiLess [SortByPriority; SortByResource usage; SortByStartTime] p q = true <-> killed_before usage p q.
Proof.
  intros HF. rewrite !multiLess_cons. cbn [multiLess].
  rewrite andb_false_r, orb_false_r, !orb_true_iff, !andb_true_iff, !orb_true_iff, !andb_true_iff, !Z.ltb_lt, !Z.eqb_eq.
  assert (H1 : SortByPriority p q < 0 <-> getPodPriority p < getPodPriority q) by (unfold SortByPriority; split_bools; lia).
  assert (H2 : SortByPriority p q = 0 <-> getPodPriority p = getPodPriority q) by (unfold SortByPriority; split_bools; lia).
  assert (H3 : SortByStartTime p q < 0 <-> started_later p q).
  { unfold SortByStartTime, started_later. destruct (StartTime p), (StartTime q); split_bools; intuition lia. }
  assert (H4 : (SortByResource usage p q < 0 <-> uses_more usage p q) /\
               (SortByResource usage p q = 0 <-> ~ uses_more usage p q /\ ~ uses_more usage q p)).
  { unfold SortByResource, uses_more.
    destruct (usage !! GetPodKey p) as [a|] eqn:Ep, (usage !! GetPodKey q) as [b|] eqn:Eq; try (intuition lia).
    apply HF in Ep. apply HF in Eq. rewrite int64_id by (unfold in_int64; simpl in *; lia). intuition lia. }
  unfold killed_before. rewrite H1, H2, H3, (proj1 H4), (proj2 H4). tauto.
Qed.

(** C19: The pod that is killed is an offline pod that runs or is pending, and no
    other such pod is to be killed before it: pods of low priority first, among
    them the ones that use most of the conflicting resource, and then the ones
    started last.  There is no pod to kill only when there is no such pod. *)
Theorem chooseOfflinePod_correct store rName :
  let offline := (getPodList store).2 in
  map_Forall (fun _ v => 0 <= v < 2 ^ 62) (podUsages cgStat rName offline) ->
  match (chooseOfflinePod IsExtendedResourceName cgStat store rName).1 with
  | None => offline = []
  | Some p => p ∈ offline /\ forall q, q ∈ offline -> ~ killed_before (podUsages cgStat rName offline) q p
  end.
Proof.
  intros offline HF. unfold chooseOfflinePod, OrderedBy_Sort. fold offline.
  set (less := multiLess _).
  pose proof (go_sort_perm less offline) as Hp.
  assert (Hw : strict_weak less).
  { apply multiLess_strict_weak. apply Forall_cons_2; [apply SortByPriority_order|].
    apply Forall_cons_2; [by apply SortByResource_order|]. apply Forall_singleton, SortByStartTime_order. }
  pose proof (go_sort_sorted less offline Hw) as Hs.
  destruct (go_sort less offline) as [|p l]; cbn [fst]; [by apply Permutation_nil in Hp|].
  split; [rewrite <- Hp; left|]. intros q Hq Hk. apply multiLess_killed_before in Hk; try done.
  rewrite <- Hp in Hq. apply elem_of_cons in Hq as [->|Hq].
  - fold less in Hk. by rewrite (sw_irrefl _ Hw) in Hk.
  - apply StronglySorted_inv in Hs as [_ Hs]. rewrite Forall_forall in Hs. apply Hs in Hq. fold less in Hk. congruence.
Qed.

(** While scheduling of offline jobs is disabled, the published resources
    leave no room for another job: for cpu or memory, what is published is at
    most what the running jobs (after the one to be killed) request already. *)
Theorem disabled_schedule_leaves_no_room cfg store (offlineList : gmap string Q) conflicts :
  let info := (choosePodToKill IsExtendedResourceName cgStat cfg store
                 (NewNodeInfo IsExtendedResourceName (getPodList store).1) offlineList conflicts).2 in
  exists r v vl, info !! r = Some v /\ limitSchedule true info offlineList !! r = Some vl /\ amount vl <= amount v.
Proof.
  intros info. unfold limitSchedule. destruct (Less info offlineList) eqn:El; [|by apply Less_false].
  destruct (choosePodToKill_keeps IsExtendedResourceName cgStat cfg store _ offlineList conflicts "cpu"
              (NewNodeInfo_cpu IsExtendedResourceName (getPodList store).1)) as [v Hv]. fold info in Hv.
  exists "cpu", v, v. rewrite lookup_insert_eq, Hv. done.
Qed.

Lemma equal_lists_refl (l : gmap string Q) : equal_lists l l = true.
Proof.
  unfold equal_lists. rewrite bool_decide_true by done. simpl. apply forallb_forall. intros [k v] Hin.
  apply list_elem_of_In, elem_of_map_to_list in Hin. rewrite Hin. by rewrite qCmp_eqb, Z.eqb_refl.
Qed.

(** A failed update of the node is taken for a success: when the API server
    refuses all three attempts, no error is returned, the node counts as
    updated, and publishing the same resources again does nothing. *)
Theorem failed_update_not_retried (k : k8sClient) (offlineList : gmap string Q) fails fails' :
  (forall i, fails i = true) ->
  match k_lastNode k with Some last => equal_lists (Capacity last) (Capacity (updateNodeResources (k_node k) offlineList)) | None => false end = false ->
  exists k' n, syncOfflineResource k offlineList fails = (None, k', [UpdateStatus n; UpdateStatus n; UpdateStatus n]) /\
    syncOfflineResource k' offlineList fails' = (None, k', []).
Proof.
  intros Hf Hne. unfold syncOfflineResource. rewrite Hne. cbn [updateLoop]. rewrite !Hf.
  do 2 eexists. split; [done|]. cbn [k_lastNode set_last k_node]. by rewrite equal_lists_refl.
Qed.
End Properties.

(** ** Witnesses *)

(** Insertion sort. *)
Fixpoint insert_by {A} (less : A -> A -> bool) (x : A) (l : list A) : list A :=
  match l with
  | [] => [x]
  | y :: l' => if less y x then y :: insert_by less x l' else x :: l
  end.

Lemma insert_by_perm {A} (less : A -> A -> bool) x l : insert_by less x l ≡ₚ x :: l.
Proof. induction l as [|y l IH]; simpl; [done|]. destruct (less y x); [|done]. rewrite IH. apply Permutation_swap. Qed.

Lemma insert_by_sorted {A} (P : A -> Prop) (less : A -> A -> bool) x l :
  strict_weak_on P less -> P x -> Forall P l -> StronglySorted (fun a b => less b a = false) l ->
  StronglySorted (fun a b => less b a = false) (insert_by less x l).
Proof.
  intros [H1 H2 H3] Hx HP. induction 1 as [|y l Hl IH HF]; simpl; [by repeat constructor|].
  apply Forall_cons in HP as [Hy HP].
  destruct (less y x) eqn:E.
  - constructor; [by apply IH|]. rewrite insert_by_perm. constructor; [|done].
    destruct (less x y) eqn:E'; [|done]. by rewrite <- (H1 x), (H2 x y x).
  - constructor; [by constructor|]. constructor; [done|]. rewrite Forall_forall in HF, HP |- *.
    intros z Hz. apply (H3 z y x); auto.
Qed.

Definition insertion_sort : GoSort.
Proof.
  assert (Hp : forall A (less : A -> A -> bool) l, foldr (insert_by less) [] l ≡ₚ l).
  { intros A less l. induction l as [|x l IH]; simpl; [done|]. by rewrite insert_by_perm, IH. }
  refine {| go_sort := fun A less l => foldr (insert_by less) [] l; go_sort_perm := Hp |}.
  intros A P less l HP Hw. induction HP as [|x l Hx HP IH]; simpl; [constructor|].
  apply (insert_by_sorted P); auto. by rewrite Hp.
Defined.

Definition ex_pod (name : string) (prio : Z) : Pod Z :=
  mkPod "ns" name name {[AnnotationOfflineKey := AnnotationOfflineValue]} (Some prio) (Some 10) PodRunning
    PodQOSBestEffort ["docker://" +:+ name] [{["mixer.kubernetes.io/ext-cpu" := 500 * nano]}].
Definition ex_pods : list (Pod Z) := [ex_pod "a" 1; ex_pod "b" 0; ex_pod "c" 0].
Definition ex_stat (cg : string) : result (float64 * float64) :=
  Ok (if (cg =? "/kubepods/offline/besteffort/podc/c")%string then float64_of_Z 2 else float64_of_Z 1, float64_of_Z 0).

Lemma chooseOfflinePod_correct_witness :
  (@chooseOfflinePod key_order insertion_sort Z _ (fun _ => true) ex_stat ex_pods "cpu").1 = Some (ex_pod "c" 0) /\
  ~ killed_before (@podUsages Z _ ex_stat "cpu" ex_pods) (ex_pod "b" 0) (ex_pod "c" 0).
Proof.
  assert (E : (@chooseOfflinePod key_order insertion_sort Z _ (fun _ => true) ex_stat ex_pods "cpu").1 = Some (ex_pod "c" 0))
    by (vm_compute; reflexivity).
  split; [exact E|].
  pose proof (@chooseOfflinePod_correct key_order insertion_sort Z _ (fun _ => true) ex_stat ex_pods "cpu") as H.
  cbv zeta in H. rewrite E in H. apply H.
  - intros k v Hk. change ((getPodList ex_pods).2) with ex_pods in Hk. unfold podUsages, ex_pods in Hk. simpl in Hk.
    repeat (apply lookup_insert_Some in Hk as [[_ <-]|[_ Hk]]; [vm_compute; by split|]). done.
  - vm_compute. right. left.
Defined.

Definition ex_client : k8sClient := newK8sClient (Q := Z) (mkNodeResourceConfig false false) "node".

Lemma failed_update_not_retried_witness :
  exists k' n, @syncOfflineResource key_order Z _ ex_client {["cpu" := 4 * nano]} (fun _ => true) =
      (None, k', [UpdateStatus n; UpdateStatus n; UpdateStatus n]) /\
    @syncOfflineResource key_order Z _ k' {["cpu" := 4 * nano]} (fun _ => false) = (None, k', []).
Proof.
  apply (@failed_update_not_retried key_order Z _ _ ex_client {["cpu" := 4 * nano]} (fun _ => true) (fun _ => false)).
  - reflexivity.
  - reflexivity.
Defined.
