(* ===== verification/Ginit.v ===== *)
(** * The client of the node manager

    pkg/caelus/resource/yarn: ginit.go, container_sort.go, and the pod lookup of
    utils.go.  The client is proved against any [NMServer]; its state [gstate]
    has the server, the variables of the package and the updates that wait in
    their goroutines.  The pods, the processes of a cgroup and their groups are
    the parameter [YarnEnv]. *)

From S2P Require Import Prelude GoStrings GoFloat NMApi Quantity Cgroup Qos K8sResource.

#[local] Open Scope string_scope.
#[local] Open Scope Z_scope.
#[local] Open Scope list_scope.

Definition MemUnit : Z := 1024 * 1024.
Definition DiskUnit : Z := 1024 * 1020 * 1024.
Definition CgroupYarn : string := "hadoop-yarn".
Definition YarnSite : string := "yarn-site.xml".

(** ** The order of containers (container_sort.go) *)

(** Application masters come last; [tie] orders containers of the same kind. *)
Definition by_am (tie : NMContainer -> NMContainer -> bool) (a b : NMContainer) : bool :=
  if IsAM a then (if negb (IsAM b) then false else tie a b)
  else if IsAM b then true else tie a b.

Definition byAmAndTime : NMContainer -> NMContainer -> bool :=
  by_am (fun a b => time_After (con_StartTime a) (con_StartTime b)).

Definition byAmAndCPU : NMContainer -> NMContainer -> bool :=
  by_am (fun a b => if feq (UsedVCores a) (UsedVCores b) then time_After (con_StartTime a) (con_StartTime b)
                    else fgt (UsedVCores a) (UsedVCores b)).

Definition byAmAndMemory : NMContainer -> NMContainer -> bool :=
  by_am (fun a b => if feq (UsedMemoryMB a) (UsedMemoryMB b) then time_After (con_StartTime a) (con_StartTime b)
                    else fgt (UsedMemoryMB a) (UsedMemoryMB b)).

(** ** The environment and the state *)

Class YarnEnv (Q : Type) := {
  (** The pods of the node. *)
  y_pods : list (Pod Q);
  (** The processes of a cgroup, and the group of a process. *)
  y_pids : string -> result (list Z);
  y_pgid : Z -> result Z;
  y_root : string;
  y_nodeIP : string;
}.

Record GInitConfig := mkGInitConfig {
  PortAutoDetect : bool;
  EnableYarnQOS : bool;
  disableKillIfNormal : bool;
  onlyKillIfIncompressibleRes : bool;
}.

Record gstate (S : Type) := mkG {
  g_server : S;
  (** The requests sent so far. *)
  g_sent : list http_request;
  (** The goroutines that [UpdateNodeCapacity] started: action and capacity. *)
  g_updates : list (string * NMCapacity);
  minCapacity : option NMCapacity;
  Properties : option (gmap string string);
  metricsPortChan : option (list Z);
  defaultPort : gmap string Z;
  (** The ports of the checkpoint file. *)
  g_checkpoint : option (gmap string Z);
  DiskSpaceLimited : bool;
}.
Arguments mkG {S} _ _ _ _ _ _ _ _ _.
Arguments g_server {S} _.
Arguments g_sent {S} _.
Arguments g_updates {S} _.
Arguments minCapacity {S} _.
Arguments Properties {S} _.
Arguments metricsPortChan {S} _.
Arguments defaultPort {S} _.
Arguments g_checkpoint {S} _.
Arguments DiskSpaceLimited {S} _.

Section State.
Context {S : Type}.
Implicit Types (g : gstate S).

Definition set_server g (s : S) (r : http_request) : gstate S :=
  mkG s (g_sent g ++ [r]) (g_updates g) (minCapacity g) (Properties g) (metricsPortChan g) (defaultPort g)
    (g_checkpoint g) (DiskSpaceLimited g).
Definition set_updates g (l : list (string * NMCapacity)) : gstate S :=
  mkG (g_server g) (g_sent g) l (minCapacity g) (Properties g) (metricsPortChan g) (defaultPort g)
    (g_checkpoint g) (DiskSpaceLimited g).
Definition set_minCapacity g (c : NMCapacity) : gstate S :=
  mkG (g_server g) (g_sent g) (g_updates g) (Some c) (Properties g) (metricsPortChan g) (defaultPort g)
    (g_checkpoint g) (DiskSpaceLimited g).
Definition set_Properties g (p : gmap string string) : gstate S :=
  mkG (g_server g) (g_sent g) (g_updates g) (minCapacity g) (Some p) (metricsPortChan g) (defaultPort g)
    (g_checkpoint g) (DiskSpaceLimited g).
Definition set_chan g (c : list Z) : gstate S :=
  mkG (g_server g) (g_sent g) (g_updates g) (minCapacity g) (Properties g) (Some c) (defaultPort g)
    (g_checkpoint g) (DiskSpaceLimited g).
Definition set_defaultPort g (p : gmap string Z) : gstate S :=
  mkG (g_server g) (g_sent g) (g_updates g) (minCapacity g) (Properties g) (metricsPortChan g) p
    (g_checkpoint g) (DiskSpaceLimited g).
Definition set_checkpoint g (p : gmap string Z) : gstate S :=
  mkG (g_server g) (g_sent g) (g_updates g) (minCapacity g) (Properties g) (metricsPortChan g) (defaultPort g)
    (Some p) (DiskSpaceLimited g).
Definition set_limited g : gstate S :=
  mkG (g_server g) (g_sent g) (g_updates g) (minCapacity g) (Properties g) (metricsPortChan g) (defaultPort g)
    (g_checkpoint g) true.
End State.

(** State, and crashes of the process. *)
Abbreviation G S := (SC (gstate S)) (only parsing).

Definition runningStats (s : string) : bool := (s =? "RUNNING")%string.
Definition initingStats (s : string) : bool :=
  (s =? "NEW")%string || (s =? "LOCALIZING")%string || (s =? "LOCALIZED")%string.

Record commonResource := mkCommon {
  vcores : float32;
  memoryMB : float32;
}.

Definition zero_common : commonResource := mkCommon fzero fzero.

(** [Response.Status]. *)
Definition status_line (code : Z) : string :=
  Itoa code +:+
  (if code =? 200 then " OK"
   else if code =? 400 then " Bad Request"
   else if code =? 404 then " Not Found"
   else if code =? 500 then " Internal Server Error" else "").

Section Requests.
Context {S : Type} {NS : NMServer S}.

Definition request (r : http_request) : G S http_reply := fun g =>
  let '(reply, s') := nm_serve (g_server g) r in Ret (reply, set_server g s' r).

Definition sendRequest (action method : string) (sendBody : payload) : G S (result payload) :=
  match actionURL action with
  | Err e => mret (Err e)
  | Ok url =>
      if (method =? "GET")%string || (method =? "POST")%string then
        reply ← request (mkRequest method url (encode sendBody));
        mret (match reply with
              | Failed e => Err ("request action " +:+ action +:+ " failed: " +:+ e)
              | Reply code body =>
                  if negb (code =? 200) then Err ("request action " +:+ action +:+ " failed " +:+ Itoa code +:+ ": " +:+ status_line code)
                  else Ok body
              end)
      else mret (Err "unsupported method")
  end.

Definition as_error {A} (r : result A) : option error := match r with Ok _ => None | Err e => Some e end.

End Requests.

(** ** ginit.go *)

Module GInit.
Section Client.
Context {S : Type} {NS : NMServer S} {RO : RangeOrder} {GS : GoSort}.
Context {Q : Type} `{QO : QuantityOps Q} {YE : YarnEnv Q}.
Context (cfg : GInitConfig).

Definition GetStatus : G S (result bool) :=
  reply ← request (mkRequest "GET" "/v1/nm/status" NoBody);
  mret (match reply with
        | Failed e => Err ("get staus failed: " +:+ e)
        | Reply code body =>
            if negb (code =? 200) then Err ("get status failed " +:+ Itoa code)
            else Ok (negb (st_State (as_status body) =? "DOWN")%string)
        end).

Definition GetProperty (fileName : string) (keys : list string) (allKeys : bool) : G S (result (gmap string string)) :=
  r ← sendRequest nmRequestProperty "GET" (BodyKeys (mkConfigKey fileName keys allKeys));
  mret (body ← r; Ok (cp_ConfigProperty (as_property body))).

Definition SetProperty (fileName : string) (properties : gmap string string) (addNewKeys delNonExistedKeys : bool) :
    G S (option error) :=
  r ← sendRequest nmRequestProperty "POST"
        (BodyProperty (mkConfigProperty fileName properties addNewKeys delNonExistedKeys));
  mret (as_error r).

Definition StopNodemanager : G S (option error) :=
  r ← sendRequest nmRequestStop "POST" NoBody;
  mret (as_error r).

Definition GetCapacity : G S (result NMCapacity) :=
  r ← sendRequest nmRequestCapacity "GET" NoBody;
  mret (body ← r;
        let c := as_capacity body in
        Ok (mkNMCapacity (Vcores c) (int64 (Vcores c * CPUUnit)) (MemoryMB c))).

Definition SetCapacity (capacity : NMCapacity) : G S (option error) :=
  SetProperty YarnSite
    (<["yarn.nodemanager.resource.memory-mb" := Itoa (MemoryMB capacity)]>
     {["yarn.nodemanager.resource.cpu-vcores" := Itoa (Vcores capacity)]}) false false.

Definition minAllocationKey : string := "yarn.scheduler.minimum-allocation-mb".

(** A value that is not a number ends the process. *)
Definition GetMinCapacity : G S NMCapacity :=
  cached ← sc_get minCapacity;
  match cached with
  | Some c => mret c
  | None =>
      values ← GetProperty YarnSite [minAllocationKey] false;
      match values with
      | Err _ => mret (mkNMCapacity 0 0 1024)
      | Ok m =>
          let v := default "" (m !! minAllocationKey) in
          let keep (memMB : Z) : G S NMCapacity :=
            let c := mkNMCapacity 0 0 (if 1024 <? memMB then memMB else 1024) in
            _ ← sc_modify (fun g => set_minCapacity g c);
            mret c in
          if negb (v =? "")%string then
            match Atoi v with
            | None => sc_crash (Fatal "invalid yarn.scheduler.minimum-allocation-mb")
            | Some memMB => keep memMB
            end
          else keep 1024
      end
  end.

Definition getNMContainers : G S (result (list NMContainer)) :=
  r ← sendRequest nmRequestContainers "GET" NoBody;
  mret (body ← r; Ok (as_containers body)).

Definition getNMContainersState (cids : list string) : G S (result (gmap string ContainerState)) :=
  r ← sendRequest nmRequestContainerstats "GET" (BodyCids cids);
  mret (body ← r; Ok (as_stats body)).

Definition requestKillNMContainers (cids : list string) : G S (option error) :=
  r ← sendRequest nmRequestContainersKill "POST" (BodyCids cids);
  mret (as_error r).

(** The names of the jobs. *)
Definition GetAllocatedJobs : G S (result (list string)) :=
  conList ← getNMContainers;
  mret (l ← conList;
        Ok (map con_ID (List.filter (fun con => runningStats (con_State con) || initingStats (con_State con)) l))).

Definition DisableSchedule : G S (option error) :=
  r ← sendRequest nmRequestScheduleDisable "POST" NoBody;
  mret (as_error r).

Definition EnableSchedule : G S (option error) :=
  r ← sendRequest nmRequestScheduleEnable "POST" NoBody;
  mret (as_error r).

(** The request is left to a goroutine. *)
Definition UpdateNodeCapacity (capacity : NMCapacity) (force : bool) : G S (option error) :=
  let action := if force then nmRequestCapacityForceUpdate else nmRequestCapacityUpdate in
  _ ← sc_modify (fun g => set_updates g (g_updates g ++ [(action, capacity)]));
  mret None.

(** The goroutine: a second attempt follows a failure. *)
Definition runUpdate (u : string * NMCapacity) : G S unit :=
  r ← sendRequest u.1 "POST" (BodyCapacity u.2);
  match r with
  | Ok _ => mret tt
  | Err _ => r' ← sendRequest u.1 "POST" (BodyCapacity u.2); mret tt
  end.

(** *** Killing containers *)

Definition getOfflinePod : result (option (Pod Q)) :=
  match List.filter IsOffline y_pods with
  | [] => Ok None
  | [pod] => Ok (Some pod)
  | _ => Err "too many offline pods, should just 1"
  end.

Definition getYarnCgroupPath : string :=
  match getOfflinePod with
  | Ok (Some pod) => match PodCgroupDirs pod with [dir] => dir | _ => "" end
  | _ => ""
  end.

Definition getContainerProcessGroupId (parentCgPath conID : string) : Z :=
  if (slen parentCgPath =? 0) || (slen conID =? 0) then 0
  else
    match y_pids (path_Join [y_root; "cpu"; parentCgPath; CgroupYarn; conID]) with
    | Ok (pid :: _) => match y_pgid pid with Ok gpid => gpid | Err _ => 0 end
    | _ => 0
    end.

Definition with_state (c : NMContainer) (st : ContainerState) : NMContainer :=
  mkNMContainer (con_ID c) (con_State c) (TotalMemoryNeededMB c) (TotalVCoresNeeded c) (cs_UsedMemMB st)
    (cs_UsedCPU st) (IsAM c) (con_AppID c) (con_Pid c) (cs_StartTime st).
Definition with_pid (c : NMContainer) (pid : Z) : NMContainer :=
  mkNMContainer (con_ID c) (con_State c) (TotalMemoryNeededMB c) (TotalVCoresNeeded c) (UsedMemoryMB c)
    (UsedVCores c) (IsAM c) (con_AppID c) pid (con_StartTime c).

Definition add_needed (r : commonResource) (c : NMContainer) : commonResource :=
  mkCommon (f32add (vcores r) (TotalVCoresNeeded c)) (f32add (memoryMB r) (float32_of_Z (TotalMemoryNeededMB c))).
Definition add_used (r : commonResource) (c : NMContainer) : commonResource :=
  mkCommon (f32add (vcores r) (UsedVCores c)) (f32add (memoryMB r) (UsedMemoryMB c)).
Definition sub_needed (r : commonResource) (c : NMContainer) : commonResource :=
  mkCommon (f32sub (vcores r) (TotalVCoresNeeded c)) (f32sub (memoryMB r) (float32_of_Z (TotalMemoryNeededMB c))).
Definition sub_used (r : commonResource) (c : NMContainer) : commonResource :=
  mkCommon (f32sub (vcores r) (UsedVCores c)) (f32sub (memoryMB r) (UsedMemoryMB c)).

(** The allocated and the used resources, and the running containers with
    their newest states. *)
Definition getContainerResource (containers : list NMContainer) (contsState : gmap string ContainerState) :
    commonResource * commonResource * list NMContainer :=
  let step '(allocated, running) c :=
    if runningStats (con_State c) then
      let c' := match contsState !! con_ID c with Some st => with_state c st | None => c end in
      (add_needed allocated c', running ++ [c'])
    else if initingStats (con_State c) then (add_needed allocated c, running)
    else (allocated, running) in
  let '(allocatedRes, runningContainers) := fold_left step containers (zero_common, []) in
  (allocatedRes, fold_left add_used runningContainers zero_common, runningContainers).

(** The resources are within the expected capacity; without one they are. *)
Definition fits (expect : option NMCapacity) (allocatedRes usedRes : commonResource) : bool :=
  match expect with
  | None => true
  | Some e =>
      fle (memoryMB allocatedRes) (float32_of_Z (MemoryMB e)) && fle (vcores allocatedRes) (float32_of_Z (Vcores e)) &&
      fle (memoryMB usedRes) (float32_of_Z (MemoryMB e)) && fle (vcores usedRes) (float32_of_Z (Vcores e))
  end.

Fixpoint pickLoop (expect : option NMCapacity) (conflictingResource yarnPath : string) (running picked : list NMContainer)
    (allocatedRes usedRes : commonResource) : list NMContainer :=
  match running with
  | [] => picked
  | con :: running' =>
      if fits expect allocatedRes usedRes &&
         ((conflictingResource =? "")%string || negb (Nat.eqb (length picked) 0)) then picked
      else
        let gpid := getContainerProcessGroupId yarnPath (con_ID con) in
        if gpid <=? 1 then pickLoop expect conflictingResource yarnPath running' picked allocatedRes usedRes
        else
          let con' := with_pid con gpid in
          pickLoop expect conflictingResource yarnPath running' (picked ++ [con'])
            (sub_needed allocatedRes con') (sub_used usedRes con')
  end.

(** One request per picked container, each with all the ids so far. *)
Fixpoint killLoop (cids : list string) (picked : list NMContainer) : G S unit :=
  match picked with
  | [] => mret tt
  | con :: picked' =>
      let cids' := cids ++ [con_ID con] in
      _ ← requestKillNMContainers cids';
      killLoop cids' picked'
  end.

Definition sortContainers (conflictingResource : string) (l : list NMContainer) : list NMContainer :=
  if (conflictingResource =? "memory")%string then go_sort byAmAndMemory l
  else if (conflictingResource =? "cpu")%string then go_sort byAmAndCPU l
  else go_sort byAmAndTime l.

Definition pickContainers (containers : list NMContainer) (contsState : gmap string ContainerState)
    (expect : option NMCapacity) (conflictingResource : string) : list NMContainer :=
  let '(allocatedRes, usedRes, runningContainers) := getContainerResource containers contsState in
  pickLoop expect conflictingResource getYarnCgroupPath (sortContainers conflictingResource runningContainers) []
    allocatedRes usedRes.

Definition killContainersWithStats (containers : list NMContainer) (contsState : gmap string ContainerState)
    (expect : option NMCapacity) (conflictingResource : string) : G S (option error) :=
  _ ← killLoop [] (pickContainers containers contsState expect conflictingResource);
  mret None.

Definition killContainers (expect : option NMCapacity) (conflictingResource : string) : G S (option error) :=
  r ← getNMContainers;
  match r with
  | Err e => mret (Some e)
  | Ok containers =>
      st ← getNMContainersState (map con_ID containers);
      killContainersWithStats containers (ok_or ∅ st) expect conflictingResource
  end.

Definition KillContainer (conflictingResource : string) : G S unit :=
  _ ← killContainers None conflictingResource;
  mret tt.

Definition EnsureCapacity (expect : NMCapacity) (conflictingResources : list string)
    (decreaseCap scheduleDisabled : bool) : G S unit :=
  let nodeCap := mkNMCapacity (if scheduleDisabled then 0 else Vcores expect) (Millcores expect) (MemoryMB expect) in
  _ ← UpdateNodeCapacity nodeCap false;
  if Nat.eqb (length conflictingResources) 0 && disableKillIfNormal cfg then mret tt
  else if negb (Nat.eqb (length conflictingResources) 0) && onlyKillIfIncompressibleRes cfg &&
          AllResCompressible conflictingResources then mret tt
  else if negb (Nat.eqb (length conflictingResources) 0) || decreaseCap then
    _ ← killContainers (Some expect) (default "" (head conflictingResources));
    mret tt
  else mret tt.

Definition GetDiskPartitions : G S (result (list string)) :=
  r ← sendRequest nmRequestDiskPartitions "GET" NoBody;
  mret (body ← r; Ok (as_partitions body)).

End Client.
End GInit.

(** ** The choice of containers *)

Section Choice.
Context {GS : GoSort} {Q : Type} `{QO : QuantityOps Q} {YE : YarnEnv Q}.

Definition numeric (c : NMContainer) : Prop := is_num (UsedMemoryMB c) /\ is_num (UsedVCores c).

Lemma by_am_strict_weak P tie : strict_weak_on P tie -> strict_weak_on P (by_am tie).
Proof.
  intros [H1 H2 H3]. unfold by_am. split.
  - intros x Hx. destruct (IsAM x); simpl; auto.
  - intros x y z Hx Hy Hz. destruct (IsAM x), (IsAM y), (IsAM z); simpl; try done; eauto.
  - intros x y z Hx Hy Hz. destruct (IsAM x), (IsAM y), (IsAM z); simpl; try done; eauto.
Qed.

(** Ordering by a number, and by the time among equal numbers. *)
Lemma by_usage_strict_weak (f : NMContainer -> float32) (P : NMContainer -> Prop) :
  (forall c, P c -> is_num (f c)) ->
  strict_weak_on P (fun a b => if feq (f a) (f b) then time_After (con_StartTime a) (con_StartTime b)
                               else fgt (f a) (f b)).
Proof.
  intros Hf.
  assert (Hk : forall k1 k2 : Z * Z * Z, bool_decide (k1 = k2) = negb (lex3 k1 k2) && negb (lex3 k2 k1)).
  { intros [[x1 x2] x3] [[y1 y2] y3]. unfold lex3. case_bool_decide; simplify_eq; [lia|].
    destruct (decide (x1 = y1)), (decide (x2 = y2)), (decide (x3 = y3)); subst; try done; lia. }
  assert (Hs : forall a b, P a -> P b ->
    (if feq (f a) (f b) then time_After (con_StartTime a) (con_StartTime b) else fgt (f a) (f b)) =
    (if negb (lex3 (fkey (f a)) (fkey (f b))) && negb (lex3 (fkey (f b)) (fkey (f a)))
     then con_StartTime b <? con_StartTime a else lex3 (fkey (f b)) (fkey (f a)))).
  { intros a b Ha Hb. rewrite feq_fkey, Hk by auto. unfold fgt. fold (flt (f b) (f a)). by rewrite flt_fkey by auto. }
  split.
  - intros x Hx. rewrite Hs by done. unfold lex3. destruct (fkey (f x)) as [[x1 x2] x3]. repeat case_match; lia.
  - intros x y z Hx Hy Hz. rewrite !Hs by done. unfold lex3.
    destruct (fkey (f x)) as [[x1 x2] x3], (fkey (f y)) as [[y1 y2] y3], (fkey (f z)) as [[z1 z2] z3].
    repeat case_match; lia.
  - intros x y z Hx Hy Hz. rewrite !Hs by done. unfold lex3.
    destruct (fkey (f x)) as [[x1 x2] x3], (fkey (f y)) as [[y1 y2] y3], (fkey (f z)) as [[z1 z2] z3].
    repeat case_match; lia.
Qed.

Lemma StronglySorted_weaken {A} (R R' : A -> A -> Prop) l :
  (forall a b, R a b -> R' a b) -> StronglySorted R l -> StronglySorted R' l.
Proof. intros HR. induction 1; constructor; auto. eapply Forall_impl; eauto. Qed.

Lemma sortContainers_sorted cr l :
  Forall numeric l ->
  StronglySorted (fun a b => IsAM a = true -> IsAM b = true) (GInit.sortContainers cr l) /\ GInit.sortContainers cr l ≡ₚ l.
Proof.
  intros Hl.
  assert (Hs : forall tie, strict_weak_on numeric tie ->
    StronglySorted (fun a b => IsAM a = true -> IsAM b = true) (go_sort (by_am tie) l)).
  { intros tie Ht. eapply StronglySorted_weaken; [|apply (go_sort_sorted_on numeric); [done|by apply by_am_strict_weak]].
    intros a b. unfold by_am. by destruct (IsAM a), (IsAM b). }
  unfold GInit.sortContainers. repeat case_match; (split; [|apply go_sort_perm]).
  - apply Hs, by_usage_strict_weak. by intros c [? _].
  - apply Hs, by_usage_strict_weak. by intros c [_ ?].
  - apply Hs. unfold time_After. split; intros; lia.
Qed.

(** The container with its process group, if it has one that can be killed. *)
Definition killable (yarnPath : string) (c : NMContainer) : option NMContainer :=
  let gpid := GInit.getContainerProcessGroupId yarnPath (con_ID c) in
  if gpid <=? 1 then None else Some (GInit.with_pid c gpid).

Lemma killable_IsAM yarnPath c c' : killable yarnPath c = Some c' -> IsAM c' = IsAM c.
Proof. unfold killable. case_match; naive_solver. Qed.

Lemma killable_sorted yarnPath l :
  StronglySorted (fun a b => IsAM a = true -> IsAM b = true) l ->
  StronglySorted (fun a b => IsAM a = true -> IsAM b = true) (omap (killable yarnPath) l).
Proof.
  induction 1 as [|a l Hl IH HF]; cbn [omap list_omap]; [constructor|].
  destruct (killable yarnPath a) as [a'|] eqn:Ea; [|done]. constructor; [done|].
  rewrite Forall_forall in HF |- *. intros b' (b & Hb & Hk)%list_elem_of_omap Ha.
  rewrite (killable_IsAM _ _ _ Hk). rewrite (killable_IsAM _ _ _ Ea) in Ha. by apply HF.
Qed.

(** Nothing more has to be killed when [picked] is. *)
Definition killed_enough (expect : option NMCapacity) (cr : string) (a u : commonResource) (picked : list NMContainer) : bool :=
  GInit.fits expect (fold_left GInit.sub_needed picked a) (fold_left GInit.sub_used picked u) &&
  ((cr =? "")%string || negb (Nat.eqb (length picked) 0)).

Lemma pickLoop_facts expect cr yarnPath running picked a0 u0 :
  (forall p c q, picked = p ++ c :: q -> killed_enough expect cr a0 u0 p = false) ->
  let result := GInit.pickLoop expect cr yarnPath running picked
    (fold_left GInit.sub_needed picked a0) (fold_left GInit.sub_used picked u0) in
  exists rest, picked ++ omap (killable yarnPath) running = result ++ rest /\
    (rest = [] \/ killed_enough expect cr a0 u0 result = true) /\
    (forall p c q, result = p ++ c :: q -> killed_enough expect cr a0 u0 p = false).
Proof.
  revert picked. induction running as [|con running IH]; intros picked Hp; cbn [GInit.pickLoop omap list_omap].
  { exists []. split_and!; auto. }
  fold (killed_enough expect cr a0 u0 picked).
  destruct (killed_enough expect cr a0 u0 picked) eqn:E; [eexists; split_and!; eauto|].
  unfold killable at 1. set (gpid := GInit.getContainerProcessGroupId _ _).
  destruct (gpid <=? 1); [by apply IH|]. cbv zeta.
  specialize (IH (picked ++ [GInit.with_pid con gpid])). rewrite !fold_left_app in IH. cbn [fold_left] in IH.
  rewrite <- app_assoc in IH. apply IH.
  intros p c q Hq. destruct q as [|c' q _] using rev_ind.
  - apply app_inj_tail in Hq as [<- _]. done.
  - rewrite app_comm_cons, app_assoc in Hq. apply app_inj_tail in Hq as [Hq _]. by eapply Hp.
Qed.

Definition numeric_state (st : ContainerState) : Prop := is_num (cs_UsedMemMB st) /\ is_num (cs_UsedCPU st).

Lemma running_numeric containers contsState :
  Forall numeric containers -> map_Forall (fun _ => numeric_state) contsState ->
  Forall numeric (GInit.getContainerResource containers contsState).2.
Proof.
  intros Hc Hs. unfold GInit.getContainerResource.
  match goal with |- context [fold_left ?f containers ?b] => set (step := f); set (init := b) end.
  assert (Hn : Forall numeric (fold_left step containers init).2).
  { apply (fold_left_invariant step (fun r => Forall numeric r.2) numeric); [|done|by constructor].
    intros [a r] c Hnc Hr. unfold step. destruct (runningStats _); [|by destruct (initingStats _)]. cbn [snd] in *.
    apply Forall_app. split; [done|]. constructor; [|constructor].
    destruct (contsState !! con_ID c) as [st|] eqn:Est; [|done]. exact (Hs _ _ Est). }
  by destruct (fold_left step containers init).
Qed.

End Choice.

(** ** Examples *)

Definition ex_yarn_env : YarnEnv Z := {|
  y_pods := [ex_pod "nm" 0];
  y_pids := fun _ => Ok [42];
  y_pgid := fun _ => Ok 42;
  y_root := "/sys/fs/cgroup";
  y_nodeIP := "10.0.0.1" |}.

Definition ex_container (id : string) (am : bool) (mem : Z) : NMContainer :=
  mkNMContainer id "RUNNING" mem fone (float32_of_Z mem) fone am "application_1_1" 0 100.
Definition ex_containers : list NMContainer := [ex_container "am" true 512; ex_container "a" false 1024; ex_container "b" false 2048].

(** A server that only looks at the path. *)
Definition ex_server (f : string -> http_reply) : NMServer unit := fun s r => (f (rq_url r), s).
Definition ex_g : gstate unit := mkG tt [] [] None None None ∅ None false.

Definition ex_picked : list NMContainer :=
  @GInit.pickContainers insertion_sort Z ex_yarn_env ex_containers ∅ (Some (mkNMCapacity 4 0 2000)) "memory".

