(* ===== verification/YarnPort.v ===== *)
(** * The ports of the node manager

    pkg/caelus/util/ports/ports.go, pkg/caelus/resource/yarn/port.go and
    [StartNodemanager] of ginit.go: free ports for the three addresses of the
    node manager, and starting it.  Which ports the system lets a process listen
    on is the parameter [unused]. *)

From S2P Require Import Prelude GoStrings GoFloat NMApi Quantity K8sResource Ginit.

#[local] Open Scope string_scope.
#[local] Open Scope Z_scope.
#[local] Open Scope list_scope.

Definition yarnNodeManagerAddress : string := "yarn.nodemanager.address".
Definition yarnNodeManagerLocalizerAddress : string := "yarn.nodemanager.localizer.address".
Definition yarnNodeManagerWebappAddress : string := "yarn.nodemanager.webapp.address".

Definition portNames : list string :=
  [yarnNodeManagerAddress; yarnNodeManagerLocalizerAddress; yarnNodeManagerWebappAddress].
Definition initialPorts : gmap string Z :=
  <[yarnNodeManagerAddress := 10002]> (<[yarnNodeManagerLocalizerAddress := 18040]>
    {[yarnNodeManagerWebappAddress := 10001]}).
Definition metricsPortKey : string := yarnNodeManagerWebappAddress.

Section Ports.
(** A process can listen on the port ([Unused] of ports.go). *)
Context (unused : Z -> bool).

(** The loop of [FindUnusedPort] from port [i] on. *)
Fixpoint findLoop (fuel : nat) (i : Z) (blackList : list Z) : result Z :=
  match fuel with
  | O => Err "can't find an unused port"
  | S fuel' =>
      if bool_decide (i ∈ blackList) then findLoop fuel' (i + 1) blackList
      else if unused i then Ok i
      else findLoop fuel' (i + 1) blackList
  end.

Definition FindUnusedPort (start : Z) (blackList : list Z) : result Z :=
  findLoop (Z.to_nat (30000 - start)) start blackList.

(** The port of one address, and where the next search starts. *)
Definition choosePort (startPort : Z) (usedPorts : list Z) (port : Z) : result (Z * Z) :=
  if bool_decide (port ∈ usedPorts) || negb (unused port) then
    match FindUnusedPort startPort usedPorts with
    | Err e => Err e
    | Ok p => Ok (p, p + 1)
    end
  else Ok (port, startPort).

Context {S : Type} {NS : NMServer S} {RO : RangeOrder} {Q : Type} `{QO : QuantityOps Q} {YE : YarnEnv Q}.
Context (cfg : GInitConfig).

(** A value sent to the metrics module, when it watches. *)
Definition sendPort (port : Z) : G S unit :=
  sc_modify (fun g => match metricsPortChan g with Some c => set_chan g (c ++ [port]) | None => g end).

Definition WatchForMetricsPort : G S unit :=
  sc_modify (fun g => match metricsPortChan g with Some _ => g | None => set_chan g [] end).

Definition GetNMWebappPort : G S (result (option Z)) :=
  m ← GInit.GetProperty YarnSite [yarnNodeManagerWebappAddress] false;
  mret (match m with
        | Err e => Err e
        | Ok m =>
            match m !! yarnNodeManagerWebappAddress with
            | Some value =>
                match Atoi (TrimPrefix value (y_nodeIP +:+ ":")) with
                | Some port => Ok (Some port)
                | None => Ok None
                end
            | None => Err ("key(" +:+ yarnNodeManagerWebappAddress +:+ ") not found")
            end
        end).

Definition sendMetricsPort : G S unit :=
  chan ← sc_get metricsPortChan;
  match chan with
  | None => mret tt
  | Some _ =>
      r ← GetNMWebappPort;
      match r with
      | Ok (Some port) => sendPort port
      | _ => mret tt
      end
  end.

Definition restorePortsCheckpoint : G S unit :=
  sc_modify (fun g =>
    match g_checkpoint g with
    | None => g
    | Some ports =>
        set_defaultPort g (fold_left (fun d name =>
          match ports !! name with Some v => if 0 <? v then <[name := v]> d else d | None => d end) portNames (defaultPort g))
    end).

Definition storePorts : G S unit := sc_modify (fun g => set_checkpoint g (defaultPort g)).

(** The property of one address, unless it has the value already. *)
Definition setPort (k : string) (port : Z) : G S (option error) :=
  let value := y_nodeIP +:+ ":" +:+ Itoa port in
  _ ← (if (k =? metricsPortKey)%string then sendPort port else mret tt);
  m ← GInit.GetProperty YarnSite [k] false;
  let write (addNewKeys : bool) : G S (option error) :=
    e ← GInit.SetProperty YarnSite {[k := value]} addNewKeys false;
    match e with
    | Some err => mret (Some ("set port property " +:+ k +:+ " to " +:+ value +:+ ": " +:+ err))
    | None =>
        _ ← sc_modify (fun g => set_defaultPort g (<[k := port]> (defaultPort g)));
        mret None
    end in
  match m with
  | Err _ => write false
  | Ok m =>
      let old := default "" (m !! k) in
      if (old =? value)%string then mret None
      else write (old =? "")%string
  end.

(** The loop of [ensurePort]; the ports it has chosen, or its error. *)
Fixpoint portLoop (names : list string) (startPort : Z) (usedPorts : list Z) : G S (result (list Z)) :=
  match names with
  | [] => mret (Ok [])
  | k :: names' =>
      port ← sc_get (fun g => default 0 (defaultPort g !! k));
      match choosePort startPort usedPorts port with
      | Err e => mret (Err ("ensure port of " +:+ k +:+ ": " +:+ e))
      | Ok (p, start') =>
          e ← setPort k p;
          match e with
          | Some err => mret (Err err)
          | None =>
              r ← portLoop names' start' (p :: usedPorts);
              mret (ps ← r; Ok (p :: ps))
          end
      end
  end.

Definition ensurePort : G S (option error) :=
  _ ← restorePortsCheckpoint;
  r ← portLoop portNames 8082 [];
  match r with
  | Err e => mret (Some e)
  | Ok _ =>
      _ ← storePorts;
      mret None
  end.

Definition qosProperties : gmap string string :=
  <["yarn.nodemanager.resource.percentage-physical-cpu-limit" := "100"]>
    {["yarn.nodemanager.resource.memory.enabled" := "false"]}.

Definition minFreeSpaceKey : string := "yarn.nodemanager.disk-health-checker.min-free-space-per-disk-mb".

(** Assigning to a nil map panics. *)
Definition limitDisk : G S unit :=
  limited ← sc_get DiskSpaceLimited;
  if (limited : bool) then
    props ← sc_get Properties;
    match props with
    | None => sc_crash (Panic "assignment to entry in nil map")
    | Some p => sc_modify (fun g => set_Properties g (<[minFreeSpaceKey := "10240000"]> p))
    end
  else mret tt.

Definition disableQos : G S unit :=
  if negb (EnableYarnQOS cfg) then
    props ← sc_get (fun g => default ∅ (Properties g));
    if decide (props = ∅) then sc_modify (fun g => set_Properties g qosProperties)
    else sc_modify (fun g => set_Properties g
           (fold_left (fun p '(k, v) => <[k := v]> p) (range_map "qos" qosProperties) props))
  else mret tt.

Definition StartNodemanager : G S (option error) :=
  e ← (if PortAutoDetect cfg then ensurePort else _ ← sendMetricsPort; mret None);
  match e with
  | Some err => mret (Some ("ensure nm port: " +:+ err))
  | None =>
      _ ← limitDisk;
      _ ← disableQos;
      props ← sc_get (fun g => default ∅ (Properties g));
      e ← (if decide (props = ∅) then mret None else GInit.SetProperty YarnSite props true false);
      match e with
      | Some err => mret (Some err)
      | None =>
          r ← sendRequest nmRequestStart "POST" NoBody;
          mret (as_error r)
      end
  end.
End Ports.

(** ** The ports are free and different *)

Section PortProperties.
Context (unused : Z -> bool).

Lemma findLoop_facts fuel i bl p :
  findLoop unused fuel i bl = Ok p ->
  i <= p < i + Z.of_nat fuel /\ p ∉ bl /\ unused p = true /\ (forall j, i <= j < p -> j ∈ bl \/ unused j = false).
Proof.
  revert i. induction fuel as [|fuel IH]; intros i; cbn [findLoop]; [done|].
  assert (Hrec : findLoop unused fuel (i + 1) bl = Ok p -> i ∈ bl \/ unused i = false ->
    i <= p < i + Z.of_nat (S fuel) /\ p ∉ bl /\ unused p = true /\ (forall j, i <= j < p -> j ∈ bl \/ unused j = false)).
  { intros Hf Hi. destruct (IH _ Hf) as (Hb & Hn & Hu & Hm). split_and!; [lia..|done|done|].
    intros j Hj. destruct (decide (j = i)) as [->|]; [done|]. apply Hm. lia. }
  case_bool_decide as Hb; [by auto|]. destruct (unused i) eqn:Eu; [|by auto].
  intros [= <-]. split_and!; [lia..|done|done|]. lia.
Qed.

Lemma findLoop_error fuel i bl e : findLoop unused fuel i bl = Err e ->
  forall j, i <= j < i + Z.of_nat fuel -> j ∈ bl \/ unused j = false.
Proof.
  revert i. induction fuel as [|fuel IH]; intros i; cbn [findLoop]; [lia|].
  case_bool_decide as Hb; [|destruct (unused i) eqn:Eu; [done|]]; intros Hf j Hj;
    (destruct (decide (j = i)) as [->|]; [by auto|apply (IH (i + 1)); [done|lia]]).
Qed.

Lemma choosePort_facts start used port p start' :
  choosePort unused start used port = Ok (p, start') ->
  p ∉ used /\ unused p = true /\ (p = port \/ start <= p < 30000) /\ start <= start'.
Proof.
  unfold choosePort. case_bool_decide as Hb; [|destruct (unused port) eqn:Eu]; cbn [orb negb].
  - unfold FindUnusedPort. destruct (findLoop _ _ _ _) as [q|] eqn:Ef; [|done]. intros [= <- <-].
    destruct (findLoop_facts _ _ _ _ Ef) as (Hr & Hn & Hu & _). split_and!; [done|done|right; lia|lia].
  - intros [= <- <-]. split_and!; auto. lia.
  - unfold FindUnusedPort. destruct (findLoop _ _ _ _) as [q|] eqn:Ef; [|done]. intros [= <- <-].
    destruct (findLoop_facts _ _ _ _ Ef) as (Hr & Hn & Hu & _). split_and!; [done|done|right; lia|lia].
Qed.

Context {S : Type} {NS : NMServer S} {Q : Type} `{QO : QuantityOps Q} {YE : YarnEnv Q}.

(** The ports given to the node manager.  When the loop over its addresses
    ends without an error, it has chosen one port per address; the ports are
    pairwise different and none of the ports already used, and a process can
    listen on each.  When the search for a port fails, every port from its start
    up to 29999 is taken. *)
Theorem node_manager_ports_distinct names start used (g g' : gstate S) :
  (forall ports, portLoop unused names start used g = Ret (Ok ports, g') ->
    length ports = length names /\ NoDup ports /\ Forall (fun p => p ∉ used /\ unused p = true) ports) /\
  (forall e, FindUnusedPort unused start used = Err e ->
    forall p, start <= p < 30000 -> p ∈ used \/ unused p = false).
Proof.
  split.
  - revert start used g. induction names as [|k names IH]; intros start used g ports; cbn [portLoop].
    { unfold mret, SC_ret. intros [= <- <-]. split_and!; [done|apply NoDup_nil_2|constructor]. }
    unfold mbind, SC_bind, sc_get.
    destruct (choosePort _ _ _ _) as [[p start']|e] eqn:Ec; [|done].
    destruct (setPort k p g) as [[[err|] g1]|c]; [done| |done].
    destruct (portLoop unused names start' (p :: used) g1) as [[[ps|e] g2]|c] eqn:El; [|done|done].
    unfold mret, SC_ret. cbn. intros [= <- <-].
    destruct (choosePort_facts _ _ _ _ _ Ec) as (Hn & Hu & _).
    destruct (IH _ _ _ _ El) as (Hl & Hd & HF). split_and!.
    + cbn. lia.
    + constructor; [|done]. intros Hin. rewrite Forall_forall in HF. destruct (HF p Hin) as [Hp _]. set_solver.
    + constructor; [done|]. eapply Forall_impl; [exact HF|]. intros q [Hq ?]. set_solver.
  - unfold FindUnusedPort. intros e Hf p Hp. apply (findLoop_error _ _ _ _ Hf). lia.
Qed.
End PortProperties.

(** ** Example *)

Definition ex_port_reply (url : string) : http_reply := Reply 200 NoBody.
Definition ex_port_g : gstate unit := mkG tt [] [] None None None initialPorts None false.
Definition ex_unused (p : Z) : bool := 8083 <? p.
Definition ex_ports : outcome (result (list Z) * gstate unit) :=
  @portLoop ex_unused unit (ex_server ex_port_reply) Z ex_yarn_env ["a"; "b"] 8082 [] ex_port_g.

Lemma node_manager_ports_distinct_witness :
  match ex_ports with Ret (Ok ports, _) => ports = [8084; 8085] /\ NoDup ports | _ => False end.
Proof.
  assert (E : match ex_ports with Ret (Ok ports, _) => ports = [8084; 8085] | _ => False end) by (vm_compute; reflexivity).
  destruct ex_ports as [[[ports|e] g']|c] eqn:Ee; [|exact E|exact E].
  split; [exact E|].
  destruct (@node_manager_ports_distinct ex_unused unit (ex_server ex_port_reply) Z ex_yarn_env ["a"; "b"] 8082 [] ex_port_g g')
    as [Hn _].
  exact (proj1 (proj2 (Hn ports Ee))).
Defined.
