(* ===== verification/YarnDisks.v ===== *)
(** * The disks of the node manager

    pkg/caelus/resource/yarn/disks.go and the partition sizes of
    pkg/types/type.go: the cores that the disk space allows, and closing the
    schedule when the disks are full.  The file systems and the mount table are
    the parameter [DiskEnv]. *)

From Stdlib Require Import Ascii Floats.SpecFloat.
From S2P Require Import Prelude GoStrings GoFloat NMApi Quantity Cgroup Qos K8sResource Ginit.

#[local] Open Scope string_scope.
#[local] Open Scope Z_scope.
#[local] Open Scope list_scope.

(** ** Partitions (pkg/types/type.go) *)

Record Statfs := mkStatfs {
  Blocks : Z;
  Bfree : Z;
  Bsize : Z;
}.

Record DiskPartitionStats := mkStats {
  TotalSize : Z;
  UsedSize : Z;
  FreeSize : Z;
}.

Class DiskEnv := {
  d_statfs : string -> result Statfs;
  (** The lines of /proc/self/mounts. *)
  d_mounts : result (list string);
  InHostNamespace : bool;
}.

Definition GetDiskPartitionStats {DE : DiskEnv} (partitionName : string) : result DiskPartitionStats :=
  stat ← d_statfs partitionName;
  let total := int64 (int64 (Blocks stat) * Bsize stat) in
  let free := int64 (int64 (Bfree stat) * Bsize stat) in
  Ok (mkStats total (int64 (total - free)) free).

Record PartitionInfo := mkPartition {
  MountPoint : string;
  pi_TotalSize : Z;
}.

Record YarnDisksConfig := mkDisksConfig {
  RatioToCore : option Z;
  DisableScheduler : bool;
  DiskCapConservativeValue : Z;
  DiskNumConservativeValue : Z;
}.

(** ** Mount points *)

(** Reading lines until one of the device: its mount point, and the lines not
    read yet.  A line has at least two fields. *)
Fixpoint scanFor (diskPartition : string) (lines : list string) : option string * list string :=
  match lines with
  | [] => (None, [])
  | txt :: lines' =>
      match Split txt " "%char with
      | dev :: mountPoint :: _ =>
          if (TrimSpace dev =? diskPartition)%string then (Some mountPoint, lines') else scanFor diskPartition lines'
      | _ => scanFor diskPartition lines'
      end
  end.

(** One scanner serves all partitions. *)
Fixpoint mountLoop (diskPartitions lines : list string) : list string :=
  match diskPartitions with
  | [] => []
  | dp :: rest =>
      let '(found, lines') := scanFor dp lines in
      match found with
      | Some mp => mp :: mountLoop rest lines'
      | None => mountLoop rest lines'
      end
  end.

Definition getMountPoints {DE : DiskEnv} (diskPartitions : list string) : result (list string) :=
  lines ← d_mounts;
  Ok (mountLoop diskPartitions lines).

(** A mount table that cannot be read ends the process. *)
Definition getPartitionsInfos {DE : DiskEnv} (diskPartitions : list string) : outcome (list PartitionInfo) :=
  if Nat.eqb (length diskPartitions) 0 then Ret []
  else
    match getMountPoints diskPartitions with
    | Err _ => Crash (Fatal "get mount point failed")
    | Ok partitions =>
        Ret (omap (fun p => match GetDiskPartitionStats p with
                            | Err _ => None
                            | Ok st => Some (mkPartition p (TotalSize st))
                            end) partitions)
    end.

(** ** The manager *)

(** [DiskManager] and the package variable [diskSpaceCores]. *)
Record DiskManager (Q : Type) := mkDiskManager {
  availablePartitions : list PartitionInfo;
  firstCheck : bool;
  diskSpaceCores : option Q;
}.
Arguments mkDiskManager {Q} _ _ _.
Arguments availablePartitions {Q} _.
Arguments firstCheck {Q} _.
Arguments diskSpaceCores {Q} _.

Record dstate (S Q : Type) := mkD {
  d_g : gstate S;
  d_disk : DiskManager Q;
}.
Arguments mkD {S Q} _ _.
Arguments d_g {S Q} _.
Arguments d_disk {S Q} _.

Section Disks.
Context {S : Type} {NS : NMServer S} {Q : Type} `{QO : QuantityOps Q}.
Context (cfg : YarnDisksConfig).

#[local] Abbreviation D := (SC (dstate S Q)) (only parsing).

Definition in_ginit {A} (m : G S A) : D A := sc_zoom d_g (fun d g => mkD g (d_disk d)) m.
Definition set_partitions (d : dstate S Q) (l : list PartitionInfo) : dstate S Q :=
  mkD (d_g d) (mkDiskManager l (firstCheck (d_disk d)) (diskSpaceCores (d_disk d))).
Definition set_firstCheck (d : dstate S Q) (b : bool) : dstate S Q :=
  mkD (d_g d) (mkDiskManager (availablePartitions (d_disk d)) b (diskSpaceCores (d_disk d))).
Definition set_spaceCores (d : dstate S Q) (q : Q) : dstate S Q :=
  mkD (d_g d) (mkDiskManager (availablePartitions (d_disk d)) (firstCheck (d_disk d)) (Some q)).

Definition fillAvailablePartitions {DE : DiskEnv} : D unit :=
  diskPartitions ← in_ginit GInit.GetDiskPartitions;
  match diskPartitions with
  | Err e =>
      if Contains e "404 Not Found" then
        let mountPoint := if InHostNamespace then "/data" else path_Join ["/rootfs"; "/data"] in
        match GetDiskPartitionStats mountPoint with
        | Err _ => mret tt
        | Ok stats =>
            _ ← sc_modify (fun d => set_partitions d [mkPartition mountPoint (TotalSize stats)]);
            if TotalSize stats <=? 50 * DiskUnit then in_ginit (sc_modify set_limited) else mret tt
        end
      else mret tt
  | Ok l =>
      match getPartitionsInfos l with
      | Crash c => sc_crash c
      | Ret infos => sc_modify (fun d => set_partitions d infos)
      end
  end.

(** The manager starts without partitions. *)
Definition NewDiskManager {DE : DiskEnv} (g : gstate S) (cores : option Q) : outcome (unit * dstate S Q) :=
  fillAvailablePartitions (mkD g (mkDiskManager [] false cores)).

(** Filled once more when the node manager had not started yet. *)
Definition ensurePartitions {DE : DiskEnv} : D (list PartitionInfo) :=
  parts ← sc_get (fun d => availablePartitions (d_disk d));
  if Nat.eqb (length parts) 0 then
    _ ← fillAvailablePartitions;
    sc_get (fun d => availablePartitions (d_disk d))
  else mret parts.

Definition coresOf (ratio totalSize : Z) : Z :=
  int64_of_float64 (fadd (fdiv (float64_of_Z totalSize) (float64_of_Z (int64 (ratio * DiskUnit)))) (flit 1 2)).

(** Called when [RatioToCore] is set. *)
Definition DiskSpaceToCores {DE : DiskEnv} (ratio : Z) : D (result Q) :=
  cached ← sc_get (fun d => diskSpaceCores (d_disk d));
  match cached with
  | Some q => mret (Ok q)
  | None =>
      parts ← ensurePartitions;
      if Nat.eqb (length parts) 0 then mret (Err "not found available partitions")
      else
        let totalSize := fold_left (fun total p => int64 (total + pi_TotalSize p)) parts 0 in
        let q := qNewMilliQuantity (int64 (coresOf ratio totalSize * CPUUnit)) in
        _ ← sc_modify (fun d => set_spaceCores d q);
        mret (Ok q)
  end.

Definition minFreeKey : string := "yarn.nodemanager.disk-health-checker.min-free-space-per-disk-mb".
Definition maxUsedKey : string := "yarn.nodemanager.disk-health-checker.max-disk-utilization-per-disk-percentage".
Definition minHealthyKey : string := "yarn.nodemanager.disk-health-checker.min-healthy-disks".

(** The share of a disk in use, with the reserve. *)
Definition utilization (pStat : DiskPartitionStats) : float64 :=
  fdiv (float64_of_Z (int64 (UsedSize pStat + int64 (DiskCapConservativeValue cfg * DiskUnit)))) (float64_of_Z (TotalSize pStat)).

(** The percentage is divided as an integer. *)
Definition diskHealthy (minFreeMb maxUsedPer : Z) (pStat : DiskPartitionStats) : bool :=
  negb ((int64 (FreeSize pStat - int64 (DiskCapConservativeValue cfg * DiskUnit)) <=? int64 (minFreeMb * MemUnit)) ||
        fge (utilization pStat) (float64_of_Z (Z.quot maxUsedPer 100))).

Definition healthyDisks {DE : DiskEnv} (minFreeMb maxUsedPer : Z) (parts : list PartitionInfo) : Z :=
  Z.of_nat (length (List.filter (fun p => match GetDiskPartitionStats (MountPoint p) with
                                          | Err _ => false
                                          | Ok pStat => diskHealthy minFreeMb maxUsedPer pStat
                                          end) parts)).

Definition disksFull (healthyDiskNum numParts : Z) (minHealthyPer : float64) : bool :=
  (healthyDiskNum =? 0) ||
  ((1 <? numParts) &&
   fle (fdiv (float64_of_Z (int64 (healthyDiskNum - DiskNumConservativeValue cfg))) (float64_of_Z numParts)) minHealthyPer).

(** [scheduleDisabled] is a variable of the call, and false. *)
Definition checkDiskSpace {DE : DiskEnv} : D unit :=
  let scheduleDisabled := false in
  values ← in_ginit (GInit.GetProperty YarnSite [minFreeKey; maxUsedKey; minHealthyKey] false);
  match values with
  | Err _ => mret tt
  | Ok m =>
      match Atoi (default "" (m !! minFreeKey)), Atoi (default "" (m !! maxUsedKey)),
            ParseFloat (default "" (m !! minHealthyKey)) with
      | Some minFreeMb, Some maxUsedPer, Some minHealthyPer =>
          parts ← ensurePartitions;
          if Nat.eqb (length parts) 0 then mret tt
          else
            let healthyDiskNum := healthyDisks minFreeMb maxUsedPer parts in
            if disksFull healthyDiskNum (Z.of_nat (length parts)) minHealthyPer then
              if negb scheduleDisabled then
                _ ← in_ginit GInit.DisableSchedule;
                mret tt
              else mret tt
            else
              first ← sc_get (fun d => firstCheck (d_disk d));
              if first || scheduleDisabled then
                e ← in_ginit GInit.EnableSchedule;
                match e with
                | Some _ => mret tt
                | None => sc_modify (fun d => set_firstCheck d false)
                end
              else mret tt
      | _, _, _ => mret tt
      end
  end.
End Disks.

(** ** One scanner for all partitions *)

Definition line_device (txt : string) : option string :=
  match Split txt " "%char with dev :: _ :: _ => Some (TrimSpace dev) | _ => None end.

(** The devices of the mount table, in its order. *)
Definition devices (lines : list string) : list string := omap line_device lines.

Lemma scanFor_facts dp lines :
  match scanFor dp lines with
  | (Some _, rest) => exists pre, devices lines = pre ++ dp :: devices rest /\ dp ∉ pre
  | (None, rest) => rest = [] /\ dp ∉ devices lines
  end.
Proof.
  induction lines as [|txt lines IH]; cbn [scanFor]; [split; [done|apply not_elem_of_nil]|].
  unfold devices. cbn [omap list_omap]. fold (devices lines). unfold line_device at 1 3.
  destruct (Split txt " "%char) as [|dev [|mp fields]]; [done..|].
  destruct (String.eqb_spec (TrimSpace dev) dp) as [->|Hn].
  - exists []. split; [done|apply not_elem_of_nil].
  - destruct (scanFor dp lines) as [[mp'|] rest].
    + destruct IH as (pre & He & Hp). exists (TrimSpace dev :: pre). split; [by rewrite He|]. set_solver.
    + destruct IH as [-> Hd]. split; [done|]. set_solver.
Qed.

Lemma mountLoop_length ds lines : (length (mountLoop ds lines) <= length ds)%nat.
Proof.
  revert lines. induction ds as [|dp ds IH]; intros lines; simpl; [done|].
  destruct (scanFor dp lines) as [[mp|] rest]; simpl; specialize (IH rest); lia.
Qed.

Lemma sublist_first (x : string) l pre l' : x ∉ pre -> (x :: l) `sublist_of` (pre ++ x :: l') -> l `sublist_of` l'.
Proof.
  induction pre as [|y pre IH]; intros Hx Hs; cbn [app] in Hs.
  - inversion Hs; subst; [done|]. etransitivity; [by apply sublist_cons|done].
  - apply not_elem_of_cons in Hx as [Hxy Hx]. inversion Hs; subst; [done|]. by apply IH.
Qed.

(** The mount points of the partitions are all found exactly when the
    partitions are listed in the order in which the mount table lists their
    devices: since one scanner serves all partitions, a partition that stands
    before one already found is lost, and so are all partitions after one that
    is not mounted. *)
Theorem mount_points_in_order ds lines :
  length (mountLoop ds lines) = length ds <-> ds `sublist_of` devices lines.
Proof.
  revert lines. induction ds as [|dp ds IH]; intros lines; cbn [mountLoop].
  { split; [intros _; apply sublist_nil_l|done]. }
  pose proof (scanFor_facts dp lines) as Hs. pose proof (mountLoop_length ds (scanFor dp lines).2) as Hl.
  destruct (scanFor dp lines) as [[mp|] rest]; cbn [length snd] in *.
  - destruct Hs as (pre & He & Hp). rewrite He. split.
    + intros E. apply sublist_inserts_l, sublist_skip, IH. lia.
    + intros Hsub. apply sublist_first in Hsub; [|done]. apply IH in Hsub. lia.
  - destruct Hs as [_ Hd]. split; [lia|]. intros (k1 & k2 & He & _)%sublist_cons_l. exfalso. apply Hd.
    rewrite He. set_solver.
Qed.

(** ** Closing the schedule *)

Section DiskProperties.
Context {S : Type} {NS : NMServer S} {Q : Type} `{QO : QuantityOps Q}.
Context (cfg : YarnDisksConfig).

Definition enableURL : string := "/v1/nm/schedule/enable".
Definition disableURL : string := "/v1/nm/schedule/disable".

(** The client has never asked to open the schedule. *)
Definition never_enabled (g : gstate S) : Prop := Forall (fun r => rq_url r <> enableURL) (g_sent g).

Lemma sendRequest_keeps action method body :
  action <> nmRequestScheduleEnable -> keeps never_enabled (sendRequest action method body).
Proof.
  intros Ha. unfold sendRequest. destruct (actionURL action) as [url|e] eqn:Eu; [|auto with keeps].
  destruct (_ || _); [|auto with keeps]. apply keeps_bind; [|intros ?; apply triple_ret].
  assert (url <> enableURL) as Hu.
  { unfold actionURL in Eu. unfold enableURL. intros ->.
    repeat match type of Eu with
           | (if (?a =? ?b)%string then _ else _) = _ => destruct (String.eqb_spec a b); [try discriminate Eu; done|]
           end. discriminate Eu. }
  intros g Hg. unfold request. destruct (nm_serve _ _) as [reply s']. unfold never_enabled. cbn [set_server g_sent].
  apply Forall_app. split; [done|]. by constructor.
Qed.

Definition disk_inv (d : dstate S Q) : Prop := never_enabled (d_g d) /\ firstCheck (d_disk d) = false.

Lemma in_ginit_keeps {A} (m : G S A) : keeps never_enabled m -> keeps disk_inv (in_ginit m).
Proof.
  intros Hm. apply (triple_zoom _ _ _ (fun d g => never_enabled g)); [by intros d [? _]|by intros d g [_ ?] ?|done].
Qed.

Lemma fill_keeps {DE : DiskEnv} : keeps disk_inv fillAvailablePartitions.
Proof.
  unfold fillAvailablePartitions. apply keeps_bind.
  - apply in_ginit_keeps. unfold GInit.GetDiskPartitions. apply keeps_bind; [by apply sendRequest_keeps|].
    intros ?. apply triple_ret.
  - intros [l|e]; [case_match; [by apply triple_modify|apply triple_crash]|].
    destruct (Contains _ _); [|apply triple_ret]. cbv zeta.
    destruct (GetDiskPartitionStats _) as [st|]; [|apply triple_ret].
    apply keeps_bind; [by apply triple_modify|]. intros _. destruct (_ <=? _); [|apply triple_ret].
    apply in_ginit_keeps. by apply triple_modify.
Qed.

Lemma checkDiskSpace_keeps {DE : DiskEnv} : keeps disk_inv (checkDiskSpace cfg).
Proof.
  unfold checkDiskSpace. apply keeps_bind.
  { apply in_ginit_keeps. unfold GInit.GetProperty. apply keeps_bind; [by apply sendRequest_keeps|].
    intros ?. apply triple_ret. }
  intros [m|e]; [|apply triple_ret]. do 3 (case_match; [|apply triple_ret]).
  apply keeps_bind.
  { unfold ensurePartitions. apply keeps_bind; [apply keeps_get|]. intros parts. case_match; [|apply triple_ret].
    apply keeps_bind; [apply fill_keeps|]. intros _. apply keeps_get. }
  intros parts. case_match; [apply triple_ret|]. case_match.
  - apply keeps_bind; [|intros ?; apply triple_ret]. apply in_ginit_keeps. unfold GInit.DisableSchedule.
    apply keeps_bind; [by apply sendRequest_keeps|]. intros ?. apply triple_ret.
  - eapply triple_bind; [apply triple_get|]. intros first d [Hd ->]. destruct Hd as [Hn Hf]. rewrite Hf. by split.
Qed.

(** The disk manager and its checks over time, in changing environments. *)
Fixpoint run_checks (es : list DiskEnv) : SC (dstate S Q) unit :=
  match es with
  | [] => mret tt
  | e :: es' => _ ← @checkDiskSpace S NS Q cfg e; run_checks es'
  end.

(** The disk manager closes the schedule when the disks are full and never
    opens it again: however often it checks and whatever the disks and the node
    manager answer, no request to enable the schedule is sent, because
    [firstCheck] is never set and [scheduleDisabled] is a variable of one
    check. *)
Theorem full_disks_close_schedule_for_good (e0 : DiskEnv) es g d u :
  g_sent g = [] -> (_ ← @fillAvailablePartitions S NS Q e0; run_checks es) (mkD g (mkDiskManager [] false None)) = Ret (u, d) ->
  Forall (fun r => rq_url r <> enableURL) (g_sent (d_g d)) /\ firstCheck (d_disk d) = false.
Proof.
  intros Hg Hr.
  assert (Hk : keeps disk_inv (_ ← @fillAvailablePartitions S NS Q e0; run_checks es)).
  { apply keeps_bind; [apply fill_keeps|]. intros _. clear Hr. induction es as [|e es IH]; cbn [run_checks]; [apply triple_ret|].
    apply keeps_bind; [apply checkDiskSpace_keeps|]. by intros _. }
  specialize (Hk (mkD g (mkDiskManager [] false None))). rewrite Hr in Hk. apply Hk.
  split; [unfold never_enabled; cbn; by rewrite Hg|done].
Qed.

(** A utilization limit below 100 percent is taken for 0: with such a limit
    a check of disks whose utilization is a number not below 0 closes the
    schedule, however empty the disks are. *)
Theorem utilization_limit_is_dropped {DE : DiskEnv} (d : dstate S Q) m g1 minFreeMb maxUsedPer minHealthyPer :
  GInit.GetProperty YarnSite [minFreeKey; maxUsedKey; minHealthyKey] false (d_g d) = Ret (Ok m, g1) ->
  Atoi (default "" (m !! minFreeKey)) = Some minFreeMb ->
  Atoi (default "" (m !! maxUsedKey)) = Some maxUsedPer -> 0 <= maxUsedPer < 100 ->
  ParseFloat (default "" (m !! minHealthyKey)) = Some minHealthyPer ->
  availablePartitions (d_disk d) <> [] ->
  Forall (fun p => forall st, GetDiskPartitionStats (MountPoint p) = Ok st -> fle fzero (utilization cfg st) = true)
    (availablePartitions (d_disk d)) ->
  exists d', checkDiskSpace cfg d = Ret (tt, d') /\
    g_sent (d_g d') = g_sent g1 ++ [mkRequest "POST" disableURL NoBody].
Proof.
  intros Hg Hf Hm Hp Hh Hne Hu.
  assert (Hz : forall l, Forall (fun p => forall st, GetDiskPartitionStats (MountPoint p) = Ok st ->
              fle fzero (utilization cfg st) = true) l -> healthyDisks cfg minFreeMb maxUsedPer l = 0).
  { induction 1 as [|p l Hpu HF IH]; [done|]. unfold healthyDisks in *. cbn [List.filter].
    destruct (GetDiskPartitionStats (MountPoint p)) as [st|e]; [|done].
    assert (diskHealthy cfg minFreeMb maxUsedPer st = false) as ->; [|exact IH]. unfold diskHealthy.
    assert (Z.quot maxUsedPer 100 = 0) as -> by (apply Z.quot_small; lia).
    change (float64_of_Z 0) with fzero. unfold fge, fle in *. rewrite Hpu by done. by rewrite orb_true_r. }
  destruct d as [g [parts fc cores]]. cbn [d_g d_disk availablePartitions] in Hne, Hu, Hg.
  unfold checkDiskSpace, in_ginit, sc_zoom, ensurePartitions, sc_get, mbind, SC_bind, mret, SC_ret.
  cbn [d_g d_disk availablePartitions]. rewrite Hg, Hf, Hm, Hh.
  destruct parts as [|p parts]; [done|]. cbn [length Nat.eqb d_g d_disk availablePartitions]. rewrite Hz by done.
  unfold disksFull. cbn [Z.eqb orb negb].
  unfold GInit.DisableSchedule, sendRequest, mbind, SC_bind, mret, SC_ret.
  change (actionURL nmRequestScheduleDisable) with (Ok disableURL). cbn [String.eqb Ascii.eqb Bool.eqb orb].
  unfold request. cbn [d_g encode]. destruct (nm_serve _ _) as [reply s'].
  eexists. split; [reflexivity|]. done.
Qed.
End DiskProperties.

(** ** Examples *)

Definition ex_disk_reply (url : string) : http_reply :=
  if (url =? "/v1/nm/property")%string then
    Reply 200 (BodyProperty (mkConfigProperty YarnSite
      (<[minFreeKey := "0"]> (<[maxUsedKey := "90"]> {[minHealthyKey := "0.25"]})) false false))
  else if (url =? "/v1/nm/diskpartitions")%string then Reply 200 (BodyPartitions ["/dev/sdb"])
  else Reply 200 NoBody.

Definition ex_disk_env : DiskEnv := {|
  d_statfs := fun _ => Ok (mkStatfs (2 ^ 30) (2 ^ 30 - 1) 4096);
  d_mounts := Ok ["/dev/sda / ext4 rw 0 0"; "/dev/sdb /data ext4 rw 0 0"];
  InHostNamespace := true |}.

Definition ex_disks : YarnDisksConfig := mkDisksConfig None true 5 0.
Definition ex_d : dstate unit Z := mkD ex_g (mkDiskManager [mkPartition "/data" (2 ^ 42)] false None).

Lemma utilization_limit_is_dropped_witness :
  exists d', @checkDiskSpace unit (ex_server ex_disk_reply) Z ex_disks ex_disk_env ex_d = Ret (tt, d').
Proof.
  destruct (@utilization_limit_is_dropped unit (ex_server ex_disk_reply) Z ex_disks ex_disk_env ex_d
              (<[minFreeKey := "0"]> (<[maxUsedKey := "90"]> {[minHealthyKey := "0.25"]}))
              (set_server ex_g tt (mkRequest "GET" "/v1/nm/property" (BodyKeys (mkConfigKey YarnSite [minFreeKey; maxUsedKey; minHealthyKey] false))))
              0 90 (flit 1 4)) as (d' & Hd & _).
  - reflexivity.
  - reflexivity.
  - reflexivity.
  - split; [discriminate|reflexivity].
  - vm_compute. reflexivity.
  - discriminate.
  - repeat constructor. intros st Hst. vm_compute in Hst. injection Hst as <-. vm_compute. reflexivity.
  - exists d'. exact Hd.
Defined.

Definition ex_run : outcome (unit * dstate unit Z) :=
  (_ ← @fillAvailablePartitions unit (ex_server ex_disk_reply) Z ex_disk_env;
   @run_checks unit (ex_server ex_disk_reply) Z ex_disks [ex_disk_env; ex_disk_env]) (mkD ex_g (mkDiskManager [] false None)).

Lemma full_disks_close_schedule_for_good_witness :
  match ex_run with
  | Ret (_, d) => length (g_sent (d_g d)) = 5%nat /\ Forall (fun r => rq_url r <> enableURL) (g_sent (d_g d))
  | Crash _ => False
  end.
Proof.
  assert (E : match ex_run with Ret (_, d) => length (g_sent (d_g d)) = 5%nat | Crash _ => False end) by (vm_compute; reflexivity).
  destruct ex_run as [[u d]|c] eqn:Er; [|exact E]. split; [exact E|].
  exact (proj1 (@full_disks_close_schedule_for_good unit (ex_server ex_disk_reply) Z ex_disks ex_disk_env
                  [ex_disk_env; ex_disk_env] ex_g d u eq_refl Er)).
Defined.
