(* ===== verification/Silence.v ===== *)
(** * Silent periods

    pkg/util/times/times.go ([SecondsInDay]) and pkg/caelus/resource/resource.go:
    in configured periods of the day offline jobs get no cpu, and scheduling is
    disabled some time ahead.  The manager works against the interface
    [ScheduleClient] of its clients, which the Kubernetes client implements. *)

From Stdlib Require Import Ascii.
From S2P Require Import Prelude GoStrings GoFloat Quantity Cgroup Action Conflict K8sResource.

#[local] Open Scope string_scope.
#[local] Open Scope Z_scope.
#[local] Open Scope list_scope.

(** ** Times of the day *)

Definition quote : ascii := ascii_of_nat 34.

(** [SecondsInDay.MarshalJSON]: a JSON string [hh:mm:ss]. *)
Definition MarshalJSON (s : Z) : string :=
  String quote "" +:+ print_02d (s `div` 3600) +:+ ":" +:+ print_02d ((s `mod` 3600) `div` 60) +:+ ":" +:+
  print_02d ((s `mod` 3600) `mod` 60) +:+ String quote "".

(** [strings.Trim] of quotation marks. *)
Fixpoint trim_quotes_left (s : string) : string :=
  match s with
  | String c s' => if Ascii.eqb c quote then trim_quotes_left s' else s
  | EmptyString => ""
  end.
Definition trim_quotes (s : string) : string :=
  rev_string (trim_quotes_left (rev_string (trim_quotes_left s) "")) "".

(** [strconv.ParseUint(s, 10, 32)]. *)
Definition ParseUint32 (s : string) : option Z :=
  match parse_nonempty s with
  | Some n => if n <? 2 ^ 32 then Some n else None
  | None => None
  end.

(** Hours, minutes and the seconds that may be missing. *)
Fixpoint partsLoop (n : nat) (parts : list string) (seconds : Z) : result Z :=
  match n with
  | O => Ok seconds
  | S n' =>
      match parts with
      | part :: parts' =>
          match ParseUint32 part with
          | Some t => partsLoop n' parts' (uint32 (seconds * 60 + t))
          | None => Err "expect format 02:12 or 02:12:00"
          end
      | [] => partsLoop n' [] (uint32 (seconds * 60))
      end
  end.

Definition UnmarshalJSON (d : string) : result Z :=
  let str := trim_quotes d in
  let parts := Split str ":"%char in
  if (length parts <=? 1)%nat || (3 <? length parts)%nat then Err "expect format 02:12 or 02:12:00"
  else partsLoop 3 parts 0.

(** The clock in the local time zone, at a fixed offset from UTC. *)
Definition Hour_of (zone : duration) (t : time) : Z := ((t + zone) `div` Second) `mod` 86400 `div` 3600.
Definition Minute_of (zone : duration) (t : time) : Z := ((t + zone) `div` Second) `mod` 86400 `mod` 3600 `div` 60.
Definition Second_of (zone : duration) (t : time) : Z := ((t + zone) `div` Second) `mod` 86400 `mod` 60.

Definition IsTimeInSecondsDay (zone : duration) (timestamp : time) (ss : Z * Z) : bool :=
  let seconds := uint32 (Second_of zone timestamp + Minute_of zone timestamp * 60 + Hour_of zone timestamp * 3600) in
  (ss.1 <=? seconds) && (seconds <=? ss.2).

(** ** The manager *)

(** What the manager expects of its client: the operations of [clientInterface]
    on the scheduling state. *)
Class ScheduleClient (C : Type) := {
  disableSchedule : time -> C -> C;
  enableSchedule : time -> C -> C;
  scheduleDisabled : C -> bool;
  disable_disables : forall now c, scheduleDisabled (disableSchedule now c) = true;
  enable_enables : forall now c, scheduleDisabled (enableSchedule now c) = false;
}.

#[export] Instance k8s_ScheduleClient {Q : Type} : ScheduleClient (k8sClient (Q := Q)).
Proof.
  refine {| disableSchedule := fun now k => k8s_DisableOfflineSchedule k (now `div` Second);
            enableSchedule := fun now k => k8s_EnableOfflineSchedule k (now `div` Second);
            scheduleDisabled := k8s_OfflineScheduleDisabled |};
    intros now k; unfold k8s_OfflineScheduleDisabled, k8s_DisableOfflineSchedule, k8s_EnableOfflineSchedule;
    by destruct (extResScheduleDisabled k) eqn:E.
Defined.

Section Manager.
Context {C : Type} `{SC : ScheduleClient C} (zone : duration).

Record offlineOnK8sManager := mkManager {
  client : C;
  scheduleSilence : bool;
  aheadOfUnschedulePeriod : duration;
  silencePeriods : list (Z * Z);
  (** The package variable [util.SilenceMode]. *)
  SilenceMode : bool;
}.

Definition NewOfflineOnK8sManager (c : C) (ahead : duration) (periods : list (Z * Z)) : offlineOnK8sManager :=
  mkManager c false ahead periods false.

Definition in_periods (m : offlineOnK8sManager) (t : time) : bool :=
  existsb (IsTimeInSecondsDay zone t) (silencePeriods m).

Definition checkSilence (m : offlineOnK8sManager) (now : time) : offlineOnK8sManager :=
  if (length (silencePeriods m) =? 0)%nat then m
  else
    let unScheduleTime := time_Add now (aheadOfUnschedulePeriod m) in
    let scheduleSilence' := in_periods m unScheduleTime in
    let m1 := if negb (scheduleSilence m) && scheduleSilence'
              then mkManager (disableSchedule now (client m)) true (aheadOfUnschedulePeriod m) (silencePeriods m) (SilenceMode m)
              else m in
    let resourceSilence := in_periods m now in
    if Bool.eqb (SilenceMode m1) resourceSilence then m1
    else if resourceSilence
         then mkManager (client m1) (scheduleSilence m1) (aheadOfUnschedulePeriod m) (silencePeriods m) true
         else mkManager (enableSchedule now (client m1)) false (aheadOfUnschedulePeriod m) (silencePeriods m) false.

Definition DisableOfflineSchedule (m : offlineOnK8sManager) (now : time) : offlineOnK8sManager :=
  if scheduleSilence m then m
  else mkManager (disableSchedule now (client m)) (scheduleSilence m) (aheadOfUnschedulePeriod m) (silencePeriods m) (SilenceMode m).

Definition EnableOfflineSchedule (m : offlineOnK8sManager) (now : time) : offlineOnK8sManager :=
  if scheduleSilence m then m
  else mkManager (enableSchedule now (client m)) (scheduleSilence m) (aheadOfUnschedulePeriod m) (silencePeriods m) (SilenceMode m).

Definition OfflineScheduleDisabled (m : offlineOnK8sManager) : bool := scheduleDisabled (client m).

(** What happens to the manager, in time: its periodic check, and the calls of
    the health checks. *)
Inductive manager_event := CheckSilence | DisableCall | EnableCall.

Definition manager_handle (m : offlineOnK8sManager) (e : manager_event * time) : offlineOnK8sManager :=
  match e with
  | (CheckSilence, now) => checkSilence m now
  | (DisableCall, now) => DisableOfflineSchedule m now
  | (EnableCall, now) => EnableOfflineSchedule m now
  end.

Definition manager_run (m : offlineOnK8sManager) (es : list (manager_event * time)) : offlineOnK8sManager :=
  fold_left manager_handle es m.
End Manager.

(** ** A round of the manager

    [sync]: the prediction without the conflicts, and without cpu in silence
    mode, is published; the remaining arguments are those of the client. *)
Section Sync.
Context {RO : RangeOrder} {GS : GoSort} {Q : Type} `{QO : QuantityOps Q}.
Context (IsExtendedResourceName : string -> bool) (cgStat : string -> result (float64 * float64)).

Definition silenceResources (silence : bool) (resList : gmap string Q) (conflictingResources : list string) :
    gmap string Q * list string :=
  if silence then (<["cpu" := qZero]> resList, ["cpu"]) else (resList, conflictingResources).

Definition sync (m : offlineOnK8sManager (C := k8sClient (Q := Q))) (conflict : gmap string (ActionResource Q))
    (predicted : option (gmap string Q)) (conflictingResources : list string)
    (informer : result (option Node)) (store : list (Pod Q)) (fails : nat -> bool) :
    gmap string (ActionResource Q) * k8sClient * list api_call :=
  match predicted with
  | None => (conflict, client m, [])
  | Some resList =>
      let '(conflict', resList', _) := CheckAndSubConflictResource conflict resList in
      let '(resList'', conflicting) := silenceResources (SilenceMode m) resList' conflictingResources in
      let '(_, k', calls) :=
        AdaptAndUpdateOfflineResource IsExtendedResourceName cgStat (client m) informer store resList'' conflicting fails in
      (conflict', k', calls)
  end.
End Sync.

(** ** Times of the day, printed and parsed *)

Lemma parse_print_02d z : 0 <= z -> parse_nonempty (print_02d z) = Some z.
Proof.
  intros Hz. unfold print_02d. destruct (z <? 10); [|by apply parse_nonempty_print].
  pose proof (parse_nonempty_print z Hz) as E. unfold parse_nonempty in *. cbn [parse_digits].
  change (char_digit "0") with (Some 0). cbv iota. change (10 * 0 + 0) with 0. by destruct (print_nonneg z).
Qed.

Lemma print_02d_free c z : 0 <= z -> char_digit c = None -> string_free c (print_02d z).
Proof.
  intros Hz Hc. assert (Hf : string_free c (print_nonneg z)).
  { unfold print_nonneg. apply print_digits_free; [by apply digit_char_not|done]. }
  unfold print_02d. destruct (z <? 10); [|done]. split; [|done]. intros <-. done.
Qed.

Lemma trim_quotes_left_free s : string_free quote s -> trim_quotes_left s = s.
Proof. destruct s as [|c s]; simpl; [done|]. intros [Hc _]. by destruct (Ascii.eqb_spec c quote). Qed.

Lemma rev_string_free c s acc : string_free c s -> string_free c acc -> string_free c (rev_string s acc).
Proof. revert acc. induction s as [|d s IH]; intros acc; simpl; [done|]. intros [Hd Hs] Ha. by apply IH. Qed.

Lemma rev_string_concat a b acc : rev_string (a +:+ b) acc = rev_string b (rev_string a acc).
Proof. revert acc. induction a as [|c a IH]; intros acc; [done|]. apply IH. Qed.

Lemma trim_quotes_quoted s : string_free quote s -> trim_quotes (String quote (s +:+ String quote "")) = s.
Proof.
  intros Hs. unfold trim_quotes. cbn [trim_quotes_left]. rewrite Ascii.eqb_refl.
  assert (Hr : string_free quote (rev_string s "")) by by apply rev_string_free.
  assert (E : trim_quotes_left (rev_string (trim_quotes_left (s +:+ String quote "")) "") = rev_string s "").
  { destruct s as [|c s]; [done|]. change (String c s +:+ String quote "") with (String c (s +:+ String quote "")).
    cbn [trim_quotes_left]. destruct (Ascii.eqb_spec c quote) as [->|_]; [by destruct Hs|].
    change (String c (s +:+ String quote "")) with (String c s +:+ String quote "").
    rewrite rev_string_concat. cbn [rev_string trim_quotes_left]. rewrite Ascii.eqb_refl.
    by apply trim_quotes_left_free. }
  rewrite E. rewrite rev_string_app. apply string_app_nil_r.
Qed.

(** Every time of the day in a configuration is read back as it was
    written: parsing the printed form of a [SecondsInDay] returns it. *)
Theorem SecondsInDay_roundtrip s : in_uint32 s -> UnmarshalJSON (MarshalJSON s) = Ok s.
Proof.
  intros Hs. unfold in_uint32 in Hs. set (h := s `div` 3600). set (m := s `mod` 3600 `div` 60). set (x := s `mod` 3600 `mod` 60).
  assert (Hh : 0 <= h < 2 ^ 21) by (unfold h; Z.div_mod_to_equations; simpl in *; lia).
  assert (Hm : 0 <= m < 60) by (unfold m; Z.div_mod_to_equations; lia).
  assert (Hx : 0 <= x < 60) by (unfold x; Z.div_mod_to_equations; lia).
  assert (Es : (h * 60 + m) * 60 + x = s) by (unfold h, m, x; Z.div_mod_to_equations; lia).
  assert (Et : trim_quotes (MarshalJSON s) = Join [print_02d h; print_02d m; print_02d x] (String ":"%char "")).
  { unfold MarshalJSON. fold h m x.
    assert (Hf : string_free quote (print_02d h +:+ ":" +:+ print_02d m +:+ ":" +:+ print_02d x)).
    { assert (Hq : forall z, 0 <= z -> string_free quote (print_02d z)) by (intros; by apply print_02d_free).
      rewrite !string_free_app. split_and!; try (apply Hq; lia); done. }
    etrans; [|exact (trim_quotes_quoted _ Hf)]. f_equal.
    match goal with |- String quote "" +:+ ?y = _ => change (String quote "" +:+ y) with (String quote y) end.
    by rewrite !string_app_assoc. }
  unfold UnmarshalJSON. rewrite Et, Split_Join; [|done|repeat constructor; (apply print_02d_free; [lia|done])].
  cbn [length Nat.leb Nat.ltb orb partsLoop]. unfold ParseUint32. rewrite !parse_print_02d by lia.
  destruct (Z.ltb_spec h (2 ^ 32)), (Z.ltb_spec m (2 ^ 32)), (Z.ltb_spec x (2 ^ 32)); try (simpl in *; lia).
  rewrite (uint32_id (0 * 60 + h)), (uint32_id ((0 * 60 + h) * 60 + m)), (uint32_id (((0 * 60 + h) * 60 + m) * 60 + x))
    by (unfold in_uint32; simpl in *; lia). f_equal. lia.
Qed.

Lemma SecondsInDay_roundtrip_witness : UnmarshalJSON (MarshalJSON 5025) = Ok 5025.
Proof. apply (SecondsInDay_roundtrip 5025). by split. Defined.

(** ** The manager *)

Section ManagerProperties.
Context {C : Type} `{SC : ScheduleClient C} (zone : duration).
Implicit Types (m : offlineOnK8sManager (C := C)).

Lemma manager_run_app m es es' : manager_run zone m (es ++ es') = manager_run zone (manager_run zone m es) es'.
Proof. apply fold_left_app. Qed.

(** While the manager keeps scheduling silent, it is disabled. *)
Definition silence_inv m : Prop := scheduleSilence m = true -> scheduleDisabled (client m) = true.

Lemma checkSilence_inv m now : silence_inv m -> silence_inv (checkSilence zone m now).
Proof.
  intros H. unfold checkSilence, silence_inv in *. destruct (_ =? 0)%nat; [done|].
  destruct (negb (scheduleSilence m) && _) eqn:E1; cbn [SilenceMode client scheduleSilence];
    destruct (Bool.eqb _ _); try (destruct (in_periods zone m now)); cbn [client scheduleSilence]; auto using disable_disables; done.
Qed.

Lemma manager_handle_inv m e : silence_inv m -> silence_inv (manager_handle zone m e).
Proof.
  intros H. destruct e as [[] now]; simpl; [by apply checkSilence_inv| |].
  - unfold DisableOfflineSchedule. destruct (scheduleSilence m) eqn:E; [done|]. by unfold silence_inv; cbn [scheduleSilence].
  - unfold EnableOfflineSchedule. destruct (scheduleSilence m) eqn:E; [done|]. by unfold silence_inv; cbn [scheduleSilence].
Qed.

Lemma manager_run_inv m es : silence_inv m -> silence_inv (manager_run zone m es).
Proof. revert m. induction es as [|e es IH]; intros m H; simpl; [done|]. by apply IH, manager_handle_inv. Qed.

Lemma manager_run_periods m es :
  silencePeriods (manager_run zone m es) = silencePeriods m /\
  aheadOfUnschedulePeriod (manager_run zone m es) = aheadOfUnschedulePeriod m.
Proof.
  revert m. induction es as [|[e now] es IH]; intros m; [done|]. destruct (IH (manager_handle zone m (e, now))) as [H1 H2].
  change (manager_run zone m ((e, now) :: es)) with (manager_run zone (manager_handle zone m (e, now)) es).
  rewrite H1, H2. destruct e; cbn [manager_handle].
  - unfold checkSilence. destruct (_ =? 0)%nat; [done|]. destruct (_ && _); cbn; by repeat case_match.
  - unfold DisableOfflineSchedule. by destruct (scheduleSilence m).
  - unfold EnableOfflineSchedule. by destruct (scheduleSilence m).
Qed.

(** Calls do nothing while scheduling is kept silent. *)
Lemma silent_calls m es :
  scheduleSilence m = true -> Forall (fun e => e.1 <> CheckSilence) es -> manager_run zone m es = m.
Proof.
  intros Hs HF. induction HF as [|[e now] es He HF IH]; simpl; [done|].
  destruct e; [done| |]; unfold DisableOfflineSchedule, EnableOfflineSchedule; rewrite Hs; exact IH.
Qed.

(** The manager enters silent periods in time: after any history of checks
    and of calls of the health checks, a check makes the resources silent
    exactly when the time is in a period; and when a period starts within the
    time ahead (and no period has just ended), scheduling is disabled from then
    on, whatever the health checks ask for, until the next check. *)
Theorem silence_disables_schedule c ahead periods es now calls :
  periods <> [] ->
  let m := manager_run zone (NewOfflineOnK8sManager c ahead periods) es in
  let m' := checkSilence zone m now in
  SilenceMode m' = in_periods zone m now /\
  (in_periods zone m (time_Add now ahead) = true -> (SilenceMode m = true -> in_periods zone m now = true) ->
   Forall (fun e => e.1 <> CheckSilence) calls ->
   OfflineScheduleDisabled (manager_run zone m' calls) = true).
Proof.
  intros Hp m m'. destruct (manager_run_periods (NewOfflineOnK8sManager c ahead periods) es) as [Hper Hah]. fold m in Hper, Hah.
  assert (Hne : (length (silencePeriods m) =? 0)%nat = false) by (rewrite Hper; by destruct periods).
  assert (Hinv : silence_inv m) by by apply manager_run_inv.
  split.
  - unfold m', checkSilence. rewrite Hne. destruct (negb (scheduleSilence m) && _); cbn [SilenceMode];
      destruct (SilenceMode m) eqn:Em, (in_periods zone m now); cbn [Bool.eqb SilenceMode]; done.
  - intros Ha Hend HF.
    assert (Hs : scheduleSilence m' = true).
    { unfold m', checkSilence. rewrite Hne, Hah. cbn [aheadOfUnschedulePeriod NewOfflineOnK8sManager]. rewrite Ha, andb_true_r.
      destruct (scheduleSilence m) eqn:E; cbn [negb SilenceMode scheduleSilence];
        destruct (SilenceMode m); try (rewrite Hend by done); try (destruct (in_periods zone m now)); done. }
    rewrite silent_calls by done. unfold OfflineScheduleDisabled. by apply checkSilence_inv.
Qed.

(** A period that no check falls into stops scheduling for good: once a
    check has disabled scheduling ahead of a period, as long as no later check
    falls into a period nothing enables it again, and enabling it is ignored. *)
Theorem missed_period_blocks_scheduling m now es :
  silencePeriods m <> [] -> SilenceMode m = false ->
  in_periods zone m (time_Add now (aheadOfUnschedulePeriod m)) = true -> in_periods zone m now = false ->
  silence_inv m -> Forall (fun e => e.1 = CheckSilence -> in_periods zone m e.2 = false) es ->
  OfflineScheduleDisabled (manager_run zone (checkSilence zone m now) es) = true.
Proof.
  intros Hp Hm Ha Hn Hinv HF.
  assert (Hne : (length (silencePeriods m) =? 0)%nat = false) by by destruct (silencePeriods m).
  set (m1 := checkSilence zone m now).
  assert (H1 : scheduleSilence m1 = true /\ SilenceMode m1 = false /\ silencePeriods m1 = silencePeriods m).
  { unfold m1, checkSilence. rewrite Hne, Ha, Hn, andb_true_r.
    destruct (scheduleSilence m) eqn:E; cbn [negb]; cbn [SilenceMode]; rewrite Hm; by cbn. }
  destruct H1 as (H1 & H2 & H3).
  assert (E : manager_run zone m1 es = m1).
  { induction HF as [|[e t] es He HF IH]; [done|]. cbn [manager_run fold_left].
    enough (manager_handle zone m1 (e, t) = m1) as -> by exact IH. destruct e; cbn [manager_handle].
    - unfold checkSilence. rewrite H3, Hne, H1. cbn [negb andb]. rewrite H2. unfold in_periods in *. rewrite H3.
      cbn [fst snd] in He. by rewrite He.
    - unfold DisableOfflineSchedule. by rewrite H1.
    - unfold EnableOfflineSchedule. by rewrite H1. }
  rewrite E. unfold OfflineScheduleDisabled, m1. by apply checkSilence_inv.
Qed.
End ManagerProperties.

(** ** Witnesses *)

(** A period from 22:00:00 to 22:00:05, checked from 21:59 on. *)
Definition ex_manager : offlineOnK8sManager (C := k8sClient (Q := Z)) :=
  NewOfflineOnK8sManager ex_client (60 * Second) [(79200, 79205)].

Lemma silence_disables_schedule_witness :
  OfflineScheduleDisabled (manager_run 0 (checkSilence 0 (manager_run 0 ex_manager []) (79142 * Second))
                             [(EnableCall, 79160 * Second)]) = true.
Proof.
  destruct (silence_disables_schedule 0 ex_client (60 * Second) [(79200, 79205)] [] (79142 * Second)
              [(EnableCall, 79160 * Second)]) as [_ H]; [discriminate|]. apply H.
  - vm_compute. reflexivity.
  - discriminate.
  - repeat constructor. discriminate.
Defined.

Lemma missed_period_blocks_scheduling_witness :
  OfflineScheduleDisabled (manager_run 0 (checkSilence 0 ex_manager (79140 * Second))
     [(CheckSilence, 79199 * Second); (CheckSilence, 79259 * Second); (EnableCall, 80000 * Second)]) = true.
Proof.
  apply (missed_period_blocks_scheduling 0 ex_manager (79140 * Second)).
  - discriminate.
  - reflexivity.
  - vm_compute. reflexivity.
  - vm_compute. reflexivity.
  - discriminate.
  - repeat constructor; intros; try (vm_compute; reflexivity); discriminate.
Defined.
