(* ===== verification/DiskQuota.v ===== *)
(** * Disk quotas of pods

    pkg/caelus/diskquota: which directories of a pod need a quota (volumes/) and
    the rounds that set, read and clear the quotas (diskquota.go).  The rounds
    are written against the interface [QuotaManager] of manager/manager.go; the
    project quotas are an instance.  The file system, the mounts and the
    container runtime are the parameter [VolumeEnv]. *)

From Stdlib Require Import Ascii.
From S2P Require Import Prelude GoStrings GoFloat Quantity Cgroup Qos K8sResource ProjectFile ProjectQuota.

#[local] Open Scope string_scope.
#[local] Open Scope Z_scope.
#[local] Open Scope list_scope.

(** ** Volumes *)

Definition VolumeTypeRootFs : string := "rootFs".
Definition VolumeTypeEmptyDir : string := "emptyDir".
Definition VolumeTypeHostPath : string := "hostPath".

Definition annotationKeyRootFsDiskQuotaKey : string := "mixer.kubernetes.io/rootfs-diskquota".
Definition annotationKeyEmptyDirDiskQuotaKey : string := "mixer.kubernetes.io/emptydir-diskquota".
Definition annotationKeyTotalEmptyDirDiskQuotaKey : string := "mixer.kubernetes.io/emptydir-diskquota-total".
Definition annotationKeyHostPathDiskQuotaKey : string := "mixer.kubernetes.io/hostpath-diskquota".

(** A volume of a pod: an empty directory with its medium and limit, or a path
    of the host. *)
Record Volume (Q : Type) := mkVolume {
  v_Name : string;
  v_EmptyDir : option (string * option Q);
  v_HostPath : option string;
}.
Arguments mkVolume {Q} _ _ _.
Arguments v_Name {Q} _.
Arguments v_EmptyDir {Q} _.
Arguments v_HostPath {Q} _.

(** A pod with the volumes of its specification. *)
Record VPod (Q : Type) := mkVPod {
  vp_pod : Pod Q;
  vp_Volumes : list (Volume Q);
}.
Arguments mkVPod {Q} _ _.
Arguments vp_pod {Q} _.
Arguments vp_Volumes {Q} _.

Record PathInfo := mkPathInfo {
  pi_Path : string;
  pi_Size : option DiskQuotaSize;
  (** [SharedInfo.PodName]. *)
  pi_Shared : option string;
}.

(** What the runtime says of a container: its state and its merged directory. *)
Record container_json := mkContainerJson {
  cj_Status : string;
  cj_Running : bool;
  cj_MergedDir : option string;
}.

Class VolumeEnv := {
  vol_InHostNamespace : bool;
  kubeletRootDir : string;
  (** [os.Stat]: whether the path is a directory. *)
  vol_stat : string -> result bool;
  vol_FindMount : string -> result string;
  vol_Inspect : string -> result container_json;
}.

Section Volumes.
Context {Q : Type} `{QO : QuantityOps Q} {VE : VolumeEnv}.

(** One expression of an annotation, such as quota=10240000000. *)
Definition quotaExpression (quotaSize : option DiskQuotaSize) (exp : string) : option DiskQuotaSize :=
  match Split exp "="%char with
  | [name; value] =>
      match qParse (TrimSpace value) with
      | None => quotaSize
      | Some quantity =>
          if qValue quantity <? 0 then quotaSize
          else
            let s := default (mkSize 0 0 0 0) quotaSize in
            let quotaName := TrimSpace name in
            if (quotaName =? "quota")%string then Some (mkSize (uint64 (qValue quantity)) (Inodes s) (QuotaUsed s) (InodesUsed s))
            else if (quotaName =? "inodes")%string then Some (mkSize (Quota s) (uint64 (qValue quantity)) (QuotaUsed s) (InodesUsed s))
            else Some s
      end
  | _ => quotaSize
  end.

Definition convertDiskQuotaFromAnnotations (annos : gmap string string) (key : string) : option DiskQuotaSize :=
  match annos !! key with
  | None => None
  | Some valueStr => fold_left quotaExpression (Split valueStr ","%char) None
  end.

Definition getVolumeQuotaSize (pod : Pod Q) (quotaKey : string) (offlineSize : option DiskQuotaSize) : option DiskQuotaSize :=
  let quotaSize := convertDiskQuotaFromAnnotations (Annotations pod) quotaKey in
  match quotaSize with
  | None => if IsOffline pod then offlineSize else None
  | Some _ => quotaSize
  end.

Definition nilVolumeQuotaSize (size : option DiskQuotaSize) : bool :=
  match size with
  | None => true
  | Some s => (Quota s =? 0) && (Inodes s =? 0)
  end.

Definition in_rootfs (p : string) : string := if vol_InHostNamespace then p else path_Join [RootFS; p].

(** The quota of one empty directory; [size] is its own, [totalSize] the one
    that all of the pod share. *)
Definition emptyDirVolume (pod : Pod Q) (size totalSize : option DiskQuotaSize) (v : Volume Q) : option PathInfo :=
  match v_EmptyDir v with
  | None => None
  | Some (medium, sizeLimit) =>
      if (medium =? "Memory")%string then None
      else
        let newSize := match sizeLimit with
                       | Some limit => Some (mkSize (uint64 (qValue limit)) (match size with Some s => Inodes s | None => 0 end) 0 0)
                       | None => size
                       end in
        let p := in_rootfs (path_Join [kubeletRootDir; "pods"; UID pod; "volumes"; "kubernetes.io~empty-dir"; v_Name v]) in
        if nilVolumeQuotaSize newSize then
          if nilVolumeQuotaSize totalSize then None
          else Some (mkPathInfo p totalSize (Some (Namespace pod +:+ "/" +:+ Name pod)))
        else Some (mkPathInfo p newSize None)
  end.

(** The paths by volume name, and an error; the paths are of no use with an
    error. *)
Definition emptyDir_GetVolumes (offlineSize : option DiskQuotaSize) (pod : VPod Q) : gmap string PathInfo * option error :=
  let size := getVolumeQuotaSize (vp_pod pod) annotationKeyEmptyDirDiskQuotaKey offlineSize in
  let totalSize := getVolumeQuotaSize (vp_pod pod) annotationKeyTotalEmptyDirDiskQuotaKey offlineSize in
  (fold_left (fun paths v => match emptyDirVolume (vp_pod pod) size totalSize v with
                             | Some p => <[v_Name v := p]> paths
                             | None => paths
                             end) (vp_Volumes pod) ∅, None).

Definition rootfsPaths : list string :=
  ["/bin"; "/boot"; "/dev"; "/etc"; "/home"; "/lib"; "/lib64"; "/media"; "/mnt"; "/opt"; "/proc";
   "/root"; "/run"; "/sbin"; "/srv"; "/sys"; "/tmp"; "/usr"; "/var"].

Definition checkHostPathAvailable (targetPath : string) : bool :=
  let inRootfs := match Split targetPath "/"%char with
                  | _ :: second :: _ => bool_decide (("/" +:+ second) ∈ rootfsPaths)
                  | _ => false
                  end in
  if inRootfs then false
  else match vol_FindMount targetPath with
       | Err _ => false
       | Ok mountPath => negb (mountPath =? targetPath)%string
       end.

Definition hostPath_GetVolumes (offlineSize : option DiskQuotaSize) (pod : VPod Q) : gmap string PathInfo * option error :=
  let size := getVolumeQuotaSize (vp_pod pod) annotationKeyHostPathDiskQuotaKey offlineSize in
  if nilVolumeQuotaSize size then (∅, None)
  else
    fold_left (fun '(paths, errs) v =>
        match v_HostPath v with
        | None => (paths, errs)
        | Some host =>
            let targetPath := in_rootfs host in
            match vol_stat targetPath with
            | Err e => (paths, Some e)
            | Ok false => (paths, errs)
            | Ok true =>
                if checkHostPathAvailable targetPath then (<[v_Name v := mkPathInfo targetPath size None]> paths, errs)
                else (paths, errs)
            end
        end) (vp_Volumes pod) (∅, None).

Definition getContainerIDs (pod : Pod Q) : list string :=
  List.filter (fun cid => negb (slen cid =? 0)) (map (fun c => TrimPrefix c "docker://") (ContainerIDs pod)).

Definition getContainerRootPath (cid : string) : string :=
  match vol_Inspect cid with
  | Err _ => ""
  | Ok conJson =>
      if negb (cj_Status conJson =? "running")%string || negb (cj_Running conJson) then ""
      else match cj_MergedDir conJson with
           | Some mergedPath => TrimSuffix mergedPath "/merged"
           | None => ""
           end
  end.

(** The short id [cid[0:12]]; an id has at least twelve digits. *)
Definition short_id (cid : string) : string := String.substring 0 12 cid.

Definition rootFs_GetVolumes (offlineSize : option DiskQuotaSize) (pod : VPod Q) : gmap string PathInfo * option error :=
  let size := getVolumeQuotaSize (vp_pod pod) annotationKeyRootFsDiskQuotaKey offlineSize in
  if nilVolumeQuotaSize size then (∅, None)
  else
    fold_left (fun '(paths, errs) cid =>
        let rootPath := getContainerRootPath cid in
        if slen rootPath =? 0 then (paths, Some "root path is nil")
        else (<[short_id cid := mkPathInfo (in_rootfs rootPath) size None]> paths, errs))
      (getContainerIDs (vp_pod pod)) (∅, None).

(** [VolumeQuotaManager]. *)
Record VolumeQuotaManager := mkVolumeManager {
  vm_Name : string;
  vm_GetVolumes : VPod Q -> gmap string PathInfo * option error;
}.

(** In the order of [NewDiskQuota]. *)
Definition volumeQuotaManagers (sizes : gmap string DiskQuotaSize) : list VolumeQuotaManager :=
  [mkVolumeManager VolumeTypeRootFs (rootFs_GetVolumes (sizes !! VolumeTypeRootFs));
   mkVolumeManager VolumeTypeEmptyDir (emptyDir_GetVolumes (sizes !! VolumeTypeEmptyDir));
   mkVolumeManager VolumeTypeHostPath (hostPath_GetVolumes (sizes !! VolumeTypeHostPath))].
End Volumes.

(** ** The quota manager *)

Class QuotaManager (M : Type) := {
  qm_GetQuota : string -> M -> result DiskQuotaSize * M;
  qm_SetQuota : string -> string -> option DiskQuotaSize -> option string -> M -> option error * M;
  qm_ClearQuota : string -> M -> option error * M;
  qm_GetAllQuotaPath : M -> gmap string (gset string);
}.

#[export] Instance project_QuotaManager {IR : IdRange} {QE : QuotaEnv} : QuotaManager (projectQuota * kernel) := {|
  qm_GetQuota := GetQuota;
  qm_SetQuota := SetQuota;
  qm_ClearQuota := ClearQuota;
  qm_GetAllQuotaPath := fun s => GetAllQuotaPath s.1;
|}.

(** ** State *)

Record PathInfoWrapper := mkWrapper {
  setQuotaSuccess : bool;
  w_Info : PathInfo;
}.

Record VolumeInfo := mkVolumeInfo {
  getPathsSuccess : bool;
  setQuotasSuccess : bool;
  vi_Paths : gmap string PathInfoWrapper;
}.

Record PodVolumes (Q : Type) := mkPodVolumes {
  pv_Pod : Pod Q;
  pv_AppClass : string;
  pv_Volumes : gmap string VolumeInfo;
  lastTime : time;
}.
Arguments mkPodVolumes {Q} _ _ _ _.
Arguments pv_Pod {Q} _.
Arguments pv_AppClass {Q} _.
Arguments pv_Volumes {Q} _.
Arguments lastTime {Q} _.

(** [handedPods] and the quota manager. *)
Record diskQuota (M Q : Type) := mkDiskQuota {
  handedPods : gmap string (PodVolumes Q);
  dq_manager : M;
}.
Arguments mkDiskQuota {M Q} _ _.
Arguments handedPods {M Q} _.
Arguments dq_manager {M Q} _.

Section Rounds.
Context {RO : RangeOrder} {M : Type} {QM : QuotaManager M} {Q : Type} `{QO : QuantityOps Q}.
Context (managers : list (VolumeQuotaManager (Q := Q))).

(** ** Paths *)

Definition setPathQuota (p : PathInfoWrapper) (vName : string) (m : M) : PathInfoWrapper * option error * M :=
  let '(e, m') := qm_SetQuota (pi_Path (w_Info p)) vName (pi_Size (w_Info p)) (pi_Shared (w_Info p)) m in
  match e with
  | Some err => if (err =? NotSupported)%string then (mkWrapper true (w_Info p), None, m')
                else (mkWrapper false (w_Info p), Some err, m')
  | None => (mkWrapper true (w_Info p), None, m')
  end.

Definition getPathQuotaSize (p : PathInfoWrapper) (m : M) : PathInfoWrapper * M :=
  let '(r, m') := qm_GetQuota (pi_Path (w_Info p)) m in
  let size := match r with Ok s => Some s | Err _ => None end in
  (mkWrapper (setQuotaSuccess p) (mkPathInfo (pi_Path (w_Info p)) size (pi_Shared (w_Info p))), m').

(** A range that replaces the paths it visits. *)
Fixpoint eachPath {A} (f : PathInfoWrapper -> A -> PathInfoWrapper * A) (l : list (string * PathInfoWrapper))
    (paths : gmap string PathInfoWrapper) (a : A) : gmap string PathInfoWrapper * A :=
  match l with
  | [] => (paths, a)
  | (name, p) :: l' =>
      let '(p', a') := f p a in
      eachPath f l' (<[name := p']> paths) a'
  end.

Definition updateSizes (v : VolumeInfo) (m : M) : VolumeInfo * M :=
  let '(paths, m') := eachPath getPathQuotaSize (range_map "sizes" (vi_Paths v)) (vi_Paths v) m in
  (mkVolumeInfo (getPathsSuccess v) (setQuotasSuccess v) paths, m').

Definition getPathsInfo (v : VolumeInfo) (vm : VolumeQuotaManager (Q := Q)) (pod : VPod Q) : VolumeInfo :=
  match vm_GetVolumes vm pod with
  | (_, Some _) => mkVolumeInfo false (setQuotasSuccess v) (vi_Paths v)
  | (qPaths, None) =>
      mkVolumeInfo true (setQuotasSuccess v)
        (fold_left (fun paths '(name, p) => <[name := mkWrapper false p]> paths) (range_map "paths" qPaths) (vi_Paths v))
  end.

(** ** Pods *)

(** The paths of one volume type, or the newest sizes. *)
Definition listVolume (pod : VPod Q) (volumes : gmap string VolumeInfo) (m : M) (vm : VolumeQuotaManager (Q := Q)) :
    gmap string VolumeInfo * M :=
  let vinfo := default (mkVolumeInfo false false ∅) (volumes !! vm_Name vm) in
  if setQuotasSuccess vinfo then
    let '(vinfo', m') := updateSizes vinfo m in (<[vm_Name vm := vinfo']> volumes, m')
  else if negb (getPathsSuccess vinfo) then (<[vm_Name vm := getPathsInfo vinfo vm pod]> volumes, m)
  else (<[vm_Name vm := vinfo]> volumes, m).

Definition setOne (vName : string) (p : PathInfoWrapper) (a : bool * M) : PathInfoWrapper * (bool * M) :=
  let '(ok, m) := a in
  if setQuotaSuccess p then let '(p', m') := getPathQuotaSize p m in (p', (ok, m'))
  else
    let '(p', e, m') := setPathQuota p vName m in
    (p', (match e with Some _ => false | None => ok end, m')).

Definition setVolume (volumes : gmap string VolumeInfo) (m : M) (vm : VolumeQuotaManager (Q := Q)) : gmap string VolumeInfo * M :=
  let vinfo := default (mkVolumeInfo false false ∅) (volumes !! vm_Name vm) in
  if negb (getPathsSuccess vinfo) || setQuotasSuccess vinfo then (volumes, m)
  else
    let '(paths, (ok, m')) := eachPath (setOne (vm_Name vm)) (range_map "set" (vi_Paths vinfo)) (vi_Paths vinfo) (true, m) in
    (<[vm_Name vm := mkVolumeInfo (getPathsSuccess vinfo) ok paths]> volumes, m').

Definition handlePodDiskQuota (now : time) (d : diskQuota M Q) (pod : VPod Q) : diskQuota M Q :=
  let podVolume := default (mkPodVolumes (vp_pod pod) (GetAppClass (vp_pod pod)) ∅ now) (handedPods d !! UID (vp_pod pod)) in
  let '(volumes1, m1) := fold_left (fun '(vs, m) vm => listVolume pod vs m vm) managers (pv_Volumes podVolume, dq_manager d) in
  let '(volumes2, m2) := fold_left (fun '(vs, m) vm => setVolume vs m vm) managers (volumes1, m1) in
  mkDiskQuota (<[UID (vp_pod pod) := mkPodVolumes (pv_Pod podVolume) (pv_AppClass podVolume) volumes2 now]> (handedPods d)) m2.

Definition terminated (pod : VPod Q) : bool :=
  match Phase (vp_pod pod) with PodSucceeded | PodFailed => true | _ => false end.

Definition handleDiskQuota (now : time) (podList : list (VPod Q)) (d : diskQuota M Q) : diskQuota M Q :=
  fold_left (fun d pod => if terminated pod then d else handlePodDiskQuota now d pod) podList d.

Definition removeExitedPods (lastUpdate : time) (d : diskQuota M Q) : diskQuota M Q :=
  mkDiskQuota (fold_left (fun pods '(uid, volumes) => if time_Before (lastTime volumes) lastUpdate then delete uid pods else pods)
                 (range_map "exited" (handedPods d)) (handedPods d)) (dq_manager d).

(** ** Clearing *)

Definition currentPaths (d : diskQuota M Q) : gset string :=
  fold_left (fun acc '(_, pv) =>
      fold_left (fun acc '(_, vinfo) =>
          fold_left (fun acc '(_, p) => {[pi_Path (w_Info p)]} ∪ acc) (range_map "current paths" (vi_Paths vinfo)) acc)
        (range_map "current volumes" (pv_Volumes pv)) acc)
    (range_map "current pods" (handedPods d)) ∅.

(** The paths of one type that are cleared; [exists_] is the answer of
    [os.Stat]: there, gone, or an error. *)
Definition stalePaths (exists_ : string -> option bool) (current : gset string) (vType : string) (paths : gset string) : list string :=
  List.filter (fun p => if (vType =? VolumeTypeHostPath)%string then negb (bool_decide (p ∈ current))
                        else match exists_ p with Some false => true | _ => false end) (elements paths).

Definition pathsToClear (exists_ : string -> option bool) (d : diskQuota M Q) : list string :=
  concat (map (fun '(vType, paths) => stalePaths exists_ (currentPaths d) vType paths)
            (range_map "existing" (qm_GetAllQuotaPath (dq_manager d)))).

Definition clearDiskQuota (exists_ : string -> option bool) (d : diskQuota M Q) : diskQuota M Q :=
  mkDiskQuota (handedPods d) (fold_left (fun m p => snd (qm_ClearQuota p m)) (pathsToClear exists_ d) (dq_manager d)).

(** One turn of the loop of [Run]. *)
Definition quotaRound (lastUpdate now : time) (podList : list (VPod Q)) (exists_ : string -> option bool) (d : diskQuota M Q) :
    diskQuota M Q :=
  clearDiskQuota exists_ (removeExitedPods lastUpdate (handleDiskQuota now podList d)).

Definition GetPodDiskQuota (d : diskQuota M Q) (pod : Pod Q) : result (gmap string VolumeInfo) :=
  match handedPods d !! UID pod with
  | None => Err "not found"
  | Some pv => Ok (pv_Volumes pv)
  end.

Definition GetAllPodsDiskQuota (d : diskQuota M Q) : list (PodVolumes Q) := (range_map "all" (handedPods d)).*2.
End Rounds.

(** ** Which pods are tracked *)

Section RoundProperties.
Context {RO : RangeOrder} {M : Type} {QM : QuotaManager M} {Q : Type} `{QO : QuantityOps Q}.
Context (managers : list (VolumeQuotaManager (Q := Q))).

Lemma handlePod_pods now (d : diskQuota M Q) pod :
  exists pv, handedPods (handlePodDiskQuota managers now d pod) = <[UID (vp_pod pod) := pv]> (handedPods d) /\ lastTime pv = now.
Proof.
  unfold handlePodDiskQuota. destruct (fold_left _ managers (pv_Volumes _, _)) as [v1 m1].
  destruct (fold_left _ managers (v1, m1)) as [v2 m2]. by eexists.
Qed.

Definition live_uids (podList : list (VPod Q)) : list string :=
  map (fun pod => UID (vp_pod pod)) (List.filter (fun pod => negb (terminated pod)) podList).

Lemma handleDiskQuota_pods now podList (d : diskQuota M Q) uid :
  match handedPods (handleDiskQuota managers now podList d) !! uid with
  | Some pv => (uid ∈ live_uids podList /\ lastTime pv = now) \/ (uid ∉ live_uids podList /\ handedPods d !! uid = Some pv)
  | None => uid ∉ live_uids podList /\ handedPods d !! uid = None
  end.
Proof.
  unfold handleDiskQuota, live_uids. revert d. induction podList as [|pod podList IH]; intros d; cbn [fold_left List.filter map].
  { destruct (handedPods d !! uid); [right|]; (split; [apply not_elem_of_nil|done]). }
  destruct (terminated pod); cbn [negb]; [apply IH|].
  destruct (handlePod_pods now d pod) as (pv & Hp & Ht). specialize (IH (handlePodDiskQuota managers now d pod)).
  rewrite Hp in IH. cbn [map]. destruct (handedPods (fold_left _ podList _) !! uid) as [pv'|].
  - rewrite elem_of_cons. destruct IH as [[Hin Hl]|[Hin Hl]]; [by left; auto|].
    destruct (decide (uid = UID (vp_pod pod))) as [->|Hn].
    + rewrite lookup_insert_eq in Hl. simplify_eq. left. auto.
    + rewrite lookup_insert_ne in Hl by done. right. split; [|done]. intros [?|?]; done.
  - destruct IH as [Hin Hl]. destruct (decide (uid = UID (vp_pod pod))) as [->|Hn];
      [by rewrite lookup_insert_eq in Hl|]. rewrite lookup_insert_ne in Hl by done. split; [|done].
    rewrite elem_of_cons. intros [?|?]; done.
Qed.

Lemma remove_lookup lastUpdate (d : diskQuota M Q) uid :
  handedPods (removeExitedPods lastUpdate d) !! uid =
    match handedPods d !! uid with
    | Some pv => if time_Before (lastTime pv) lastUpdate then None else Some pv
    | None => None
    end.
Proof.
  unfold removeExitedPods. cbn [handedPods].
  rewrite (fold_left_ext _ (fun acc '(k, v) => partial_alter (fun o => if time_Before (lastTime v) lastUpdate then None else o) k acc)).
  - rewrite (range_fold_local (fun _ v o => if time_Before (lastTime v) lastUpdate then None else o)).
    destruct (handedPods d !! uid) as [pv|] eqn:E; [|done]. by case_match.
  - intros acc [k v] _. case_match; [done|]. apply map_eq. intros j. destruct (decide (j = k)) as [->|].
    + by rewrite lookup_partial_alter_eq.
    + by rewrite lookup_partial_alter_ne.
Qed.

(** C13: The pods a round tracks.  If the clock has moved on since the last
    round, then after a round the tracked pods are exactly the pods of the node
    that have not terminated: new pods are in, pods that are gone or terminated
    are out, whatever the volumes, the quotas and their errors. *)
Theorem tracked_pods_exact lastUpdate now podList exists_ (d : diskQuota M Q) uid :
  lastUpdate <= now -> map_Forall (fun _ pv => lastTime pv < lastUpdate) (handedPods d) ->
  is_Some (handedPods (quotaRound managers lastUpdate now podList exists_ d) !! uid) <-> uid ∈ live_uids podList.
Proof.
  intros Hnow Hold. unfold quotaRound, clearDiskQuota. cbn [handedPods]. rewrite remove_lookup.
  pose proof (handleDiskQuota_pods now podList d uid) as Hp.
  destruct (handedPods (handleDiskQuota managers now podList d) !! uid) as [pv|].
  - unfold time_Before. destruct Hp as [[Hin Hl]|[Hin Hl]].
    + rewrite Hl. destruct (Z.ltb_spec now lastUpdate); [lia|]. by split.
    + apply Hold in Hl. destruct (Z.ltb_spec (lastTime pv) lastUpdate); [|lia]. split; [by intros []|done].
  - split; [by intros []|]. tauto.
Qed.
End RoundProperties.

(** ** Which quotas are cleared *)

Lemma elem_of_fold_union {A} (f : gset string -> A -> gset string) (R : A -> string -> Prop) l acc x :
  (forall acc a, x ∈ f acc a <-> x ∈ acc \/ R a x) -> x ∈ fold_left f l acc <-> x ∈ acc \/ exists a, a ∈ l /\ R a x.
Proof.
  intros Hf. revert acc. induction l as [|a l IH]; intros acc; cbn [fold_left]; [set_solver|].
  rewrite IH, Hf. set_solver.
Qed.

Section Clearing.
Context {RO : RangeOrder} {M : Type} {QM : QuotaManager M} {Q : Type} `{QO : QuantityOps Q}.
Context (managers : list (VolumeQuotaManager (Q := Q))).

(** Some volume of the pod has the path. *)
Definition has_path (x : string) (volumes : gmap string VolumeInfo) : Prop :=
  exists t vi name w, volumes !! t = Some vi /\ vi_Paths vi !! name = Some w /\ pi_Path (w_Info w) = x.

Lemma elem_of_currentPaths (d : diskQuota M Q) x :
  x ∈ currentPaths d <-> exists uid pv, handedPods d !! uid = Some pv /\ has_path x (pv_Volumes pv).
Proof.
  unfold currentPaths.
  rewrite (elem_of_fold_union _ (fun '(_, pv) x => has_path x (pv_Volumes pv))).
  - split; [intros [?|([uid pv] & Hin%elem_of_range & Hp)]; [set_solver|eauto]|].
    intros (uid & pv & Hin & Hp). right. exists (uid, pv). by rewrite elem_of_range.
  - intros acc [uid pv]. rewrite (elem_of_fold_union _ (fun '(_, vi) x => exists name w, vi_Paths vi !! name = Some w /\ pi_Path (w_Info w) = x)).
    + apply or_iff_compat_l. split.
      * intros ([t vi] & Hin%elem_of_range & name & w & Hw & Hx). by exists t, vi, name, w.
      * intros (t & vi & name & w & Ht & Hw & Hx). exists (t, vi). rewrite elem_of_range. eauto.
    + intros acc' [t vi]. rewrite (elem_of_fold_union _ (fun '(_, w) x => pi_Path (w_Info w) = x)).
      * apply or_iff_compat_l. split.
        { intros ([name w] & Hin%elem_of_range & Hx). eauto. }
        { intros (name & w & Hw & Hx). exists (name, w). by rewrite elem_of_range. }
      * intros acc'' [name w]. set_solver.
Qed.

(** The quotas that a round clears: of the host paths that have one,
    exactly those that no tracked pod uses; of the other paths, exactly those
    that are known not to exist any more.  An error of the file system clears
    nothing. *)
Theorem cleared_quotas_exact exists_ (d : diskQuota M Q) x :
  x ∈ pathsToClear exists_ d <->
  exists t paths, qm_GetAllQuotaPath (dq_manager d) !! t = Some paths /\ x ∈ paths /\
    if (t =? VolumeTypeHostPath)%string
    then ~ exists uid pv, handedPods d !! uid = Some pv /\ has_path x (pv_Volumes pv)
    else exists_ x = Some false.
Proof.
  pose proof (elem_of_currentPaths d x) as Hcur. unfold pathsToClear. rewrite list_elem_of_In, in_concat. split.
  - intros (l & Hl & Hx). apply in_map_iff in Hl as ([t paths] & <- & Hin).
    apply list_elem_of_In, elem_of_range in Hin. exists t, paths. split; [done|].
    unfold stalePaths in Hx. apply filter_In in Hx as [Hx Hf]. apply list_elem_of_In, elem_of_elements in Hx. split; [done|].
    destruct (t =? VolumeTypeHostPath)%string.
    + apply negb_true_iff, bool_decide_eq_false in Hf. tauto.
    + destruct (exists_ x) as [[]|]; done.
  - intros (t & paths & Ht & Hx & Hc). exists (stalePaths exists_ (currentPaths d) t paths). split.
    + apply in_map_iff. exists (t, paths). split; [done|]. by apply list_elem_of_In, elem_of_range.
    + unfold stalePaths. apply filter_In. split; [by apply list_elem_of_In, elem_of_elements|].
      destruct (t =? VolumeTypeHostPath)%string.
      * apply negb_true_iff, bool_decide_eq_false. tauto.
      * by rewrite Hc.
Qed.

(** *** Paths that no volume lists *)

Definition paths_avoid (x : string) (paths : gmap string PathInfoWrapper) : Prop :=
  map_Forall (fun _ w => pi_Path (w_Info w) <> x) paths.
Definition volumes_avoid (x : string) (volumes : gmap string VolumeInfo) : Prop :=
  map_Forall (fun _ vi => paths_avoid x (vi_Paths vi)) volumes.

Lemma eachPath_avoid {A} (f : PathInfoWrapper -> A -> PathInfoWrapper * A) x l paths a :
  (forall p a, pi_Path (w_Info (fst (f p a))) = pi_Path (w_Info p)) ->
  paths_avoid x paths -> Forall (fun np => pi_Path (w_Info np.2) <> x) l -> paths_avoid x (fst (eachPath f l paths a)).
Proof.
  intros Hf Hp Hl. revert paths a Hp. induction Hl as [|[name p] l Hn Hl IH]; intros paths a Hp; cbn [eachPath]; [done|].
  specialize (Hf p a). destruct (f p a) as [p' a']. apply IH. apply map_Forall_insert_2; [|done]. cbn in *. by rewrite Hf.
Qed.

Lemma range_avoid site x paths : paths_avoid x paths -> Forall (fun np => pi_Path (w_Info np.2) <> x) (range_map site paths).
Proof. intros Hp. apply Forall_forall. intros [name w] Hin%elem_of_range. by apply (Hp name). Qed.

Lemma lookup_avoid x volumes t : volumes_avoid x volumes -> paths_avoid x (vi_Paths (default (mkVolumeInfo false false ∅) (volumes !! t))).
Proof. intros Hv. destruct (volumes !! t) as [vi|] eqn:E; [by apply (Hv t)|apply map_Forall_empty]. Qed.

Lemma getPathQuotaSize_path p (m : M) : pi_Path (w_Info (fst (getPathQuotaSize p m))) = pi_Path (w_Info p).
Proof. unfold getPathQuotaSize. by destruct (qm_GetQuota _ _). Qed.

Lemma setOne_path vName p (a : bool * M) : pi_Path (w_Info (fst (setOne vName p a))) = pi_Path (w_Info p).
Proof.
  unfold setOne. destruct a as [ok m]. destruct (setQuotaSuccess p).
  - pose proof (getPathQuotaSize_path p m) as Hg. by destruct (getPathQuotaSize p m).
  - unfold setPathQuota. destruct (qm_SetQuota _ _ _ _ _) as [[err|] m']; [destruct (err =? NotSupported)%string|]; done.
Qed.

Definition lists (vm : VolumeQuotaManager (Q := Q)) (pod : VPod Q) (x : string) : Prop :=
  (vm_GetVolumes vm pod).2 = None /\ exists name p, (vm_GetVolumes vm pod).1 !! name = Some p /\ pi_Path p = x.

Lemma listVolume_avoid x pod volumes (m : M) vm :
  ~ lists vm pod x -> volumes_avoid x volumes -> volumes_avoid x (fst (listVolume pod volumes m vm)).
Proof.
  intros Hl Hv. pose proof (lookup_avoid x volumes (vm_Name vm) Hv) as Hd. unfold listVolume.
  destruct (setQuotasSuccess _); [|destruct (negb _)].
  - unfold updateSizes. pose proof (eachPath_avoid getPathQuotaSize x (range_map "sizes" (vi_Paths (default (mkVolumeInfo false false ∅) (volumes !! vm_Name vm))))
      _ m getPathQuotaSize_path Hd (range_avoid _ _ _ Hd)) as He.
    destruct (eachPath _ _ _ m) as [paths m']. by apply map_Forall_insert_2.
  - apply map_Forall_insert_2; [|done]. unfold getPathsInfo, lists in *.
    destruct (vm_GetVolumes vm pod) as [qPaths [err|]]; [done|]. cbn [vi_Paths fst snd] in *.
    apply (fold_left_invariant _ (paths_avoid x) (fun np => pi_Path np.2 <> x)).
    + intros paths [name p] Hp Hps. by apply map_Forall_insert_2.
    + apply Forall_forall. intros [name p] Hin%elem_of_range Hx. apply Hl. eauto.
    + done.
  - by apply map_Forall_insert_2.
Qed.

Lemma setVolume_avoid x volumes (m : M) (vm : VolumeQuotaManager (Q := Q)) :
  volumes_avoid x volumes -> volumes_avoid x (fst (setVolume volumes m vm)).
Proof.
  intros Hv. pose proof (lookup_avoid x volumes (vm_Name vm) Hv) as Hd. unfold setVolume. destruct (_ || _); [done|].
  pose proof (eachPath_avoid (setOne (vm_Name vm)) x _ _ (true, m) (setOne_path (vm_Name vm)) Hd (range_avoid "set" _ _ Hd)) as He.
  destruct (eachPath _ _ _ (true, m)) as [paths [ok m']]. by apply map_Forall_insert_2.
Qed.

(** A quota that is lost over a restart.  The agent starts with the quotas
    of the project files and without pods.  In its first round a host path that
    no volume manager lists, say because the stat of another host path of the
    same pod failed, is taken for unused, and its quota is cleared although the
    pod is running. *)
Theorem unlisted_hostpath_cleared now pod exists_ (m : M) x paths :
  terminated pod = false -> Forall (fun vm => ~ lists vm pod x) managers ->
  let d := handleDiskQuota managers now [pod] (mkDiskQuota ∅ m) in
  qm_GetAllQuotaPath (dq_manager d) !! VolumeTypeHostPath = Some paths -> x ∈ paths ->
  is_Some (handedPods d !! UID (vp_pod pod)) /\ x ∈ pathsToClear exists_ d.
Proof.
  intros Ht Hm d Hall Hx. subst d. unfold handleDiskQuota in *. cbn [fold_left] in *. rewrite Ht in *.
  unfold handlePodDiskQuota in *. cbn [handedPods dq_manager] in *. rewrite lookup_empty in *.
  cbn [from_option id pv_Volumes pv_Pod pv_AppClass] in *.
  match type of Hall with context [fold_left ?f managers (?v0, m)] =>
    assert (H1 : volumes_avoid x (fst (fold_left f managers (v0, m))));
    [apply (fold_left_invariant f (fun r => volumes_avoid x r.1) (fun vm => ~ lists vm pod x));
      [intros [vs m'] vm Hn Hv; by apply listVolume_avoid|done|apply map_Forall_empty]
    |destruct (fold_left f managers (v0, m)) as [v1 m1]]
  end.
  match type of Hall with context [fold_left ?f managers (v1, m1)] =>
    assert (H2 : volumes_avoid x (fst (fold_left f managers (v1, m1))));
    [apply (fold_left_invariant f (fun r => volumes_avoid x r.1) (fun _ => True));
      [intros [vs m'] vm _ Hv; by apply setVolume_avoid|by apply Forall_true|done]
    |destruct (fold_left f managers (v1, m1)) as [v2 m2]]
  end.
  cbn [fst handedPods dq_manager] in *. split; [by rewrite lookup_insert_eq; eexists|].
  unfold pathsToClear. rewrite list_elem_of_In, in_concat. cbn [dq_manager].
  eexists. split; [apply in_map_iff; exists (VolumeTypeHostPath, paths); split; [reflexivity|by apply list_elem_of_In, elem_of_range]|].
  unfold stalePaths. apply filter_In. split; [by apply list_elem_of_In, elem_of_elements|]. cbn [String.eqb].
  change ((VolumeTypeHostPath =? VolumeTypeHostPath)%string) with true. cbv iota.
  apply negb_true_iff, bool_decide_eq_false. rewrite elem_of_currentPaths. cbn [handedPods].
  intros (uid & pv & Hpv & t & vi & name & w & Hvi & Hw & Hp).
  apply lookup_insert_Some in Hpv as [[_ <-]|[_ Hpv]]; [|by rewrite lookup_empty in Hpv].
  cbn [pv_Volumes] in Hvi. by apply (H2 t vi Hvi name w Hw).
Qed.
End Clearing.

(** ** Empty directories of offline pods *)

Section EmptyDirs.
Context {Q : Type} `{QO : QuantityOps Q} {VE : VolumeEnv}.

Lemma fold_volumes_lookup (f : Volume Q -> option PathInfo) vs (acc : gmap string PathInfo) v :
  NoDup (map v_Name vs) -> v ∈ vs -> forall p, f v = Some p ->
  fold_left (fun paths v => match f v with Some p => <[v_Name v := p]> paths | None => paths end) vs acc !! v_Name v = Some p.
Proof.
  revert acc. induction vs as [|v0 vs IH]; intros acc Hn Hin p Hp; [by apply not_elem_of_nil in Hin|].
  apply NoDup_cons in Hn as [Hv0 Hn]. cbn [fold_left]. apply elem_of_cons in Hin as [->|Hin]; [|by apply IH].
  rewrite Hp. clear IH Hn.
  assert (Hk : forall acc' : gmap string PathInfo, acc' !! v_Name v0 = Some p ->
    fold_left (fun paths v => match f v with Some p => <[v_Name v := p]> paths | None => paths end) vs acc' !! v_Name v0 = Some p).
  { induction vs as [|v1 vs IH]; intros acc' Ha; cbn [fold_left]; [done|].
    apply not_elem_of_cons in Hv0 as [Hne Hv0]. apply IH; [done|]. destruct (f v1); [|done]. by rewrite lookup_insert_ne. }
  apply Hk. apply lookup_insert_eq.
Qed.

(** Every empty directory of an offline pod has a limit, once a default is
    configured: whatever its own annotation says (a limit of 0 included) and
    whatever the size limit of the volume, a directory that is not in memory
    gets a quota that is not zero, unless the pod has the annotation for the
    total. *)
Theorem offline_emptydirs_limited offlineSize (pod : VPod Q) v medium limit :
  IsOffline (vp_pod pod) = true ->
  Annotations (vp_pod pod) !! annotationKeyTotalEmptyDirDiskQuotaKey = None ->
  nilVolumeQuotaSize offlineSize = false ->
  NoDup (map v_Name (vp_Volumes pod)) -> v ∈ vp_Volumes pod ->
  v_EmptyDir v = Some (medium, limit) -> medium <> "Memory" ->
  exists info, (emptyDir_GetVolumes offlineSize pod).1 !! v_Name v = Some info /\ nilVolumeQuotaSize (pi_Size info) = false.
Proof.
  intros Ho Ha Hs Hn Hv He Hm. unfold emptyDir_GetVolumes. cbn [fst].
  set (size := getVolumeQuotaSize _ annotationKeyEmptyDirDiskQuotaKey _).
  assert (getVolumeQuotaSize (vp_pod pod) annotationKeyTotalEmptyDirDiskQuotaKey offlineSize = offlineSize) as ->.
  { unfold getVolumeQuotaSize, convertDiskQuotaFromAnnotations. by rewrite Ha, Ho. }
  assert (Hi : exists info, emptyDirVolume (vp_pod pod) size offlineSize v = Some info /\ nilVolumeQuotaSize (pi_Size info) = false).
  { unfold emptyDirVolume. rewrite He. destruct (String.eqb_spec medium "Memory"); [done|]. cbv zeta.
    destruct (nilVolumeQuotaSize (match limit with Some _ => _ | None => _ end)) eqn:En; [rewrite Hs|]; eauto. }
  destruct Hi as (info & Hi & Hz). exists info. split; [|done]. by apply (fold_volumes_lookup _ _ _ v).
Qed.
End EmptyDirs.

(** ** Examples *)

Definition ex_vol_env : VolumeEnv := {|
  vol_InHostNamespace := true; kubeletRootDir := "/var/lib/kubelet";
  vol_stat := fun p => if (p =? "/data/gone")%string then Err "no such file or directory" else Ok true;
  vol_FindMount := fun _ => Ok "/data"; vol_Inspect := fun _ => Err "no such container" |}.

(** A manager that remembers which host paths have a quota. *)
Definition ex_manager : QuotaManager (gset string) := {|
  qm_GetQuota := fun _ m => (Err NotSupported, m);
  qm_SetQuota := fun p _ _ _ m => (None, {[p]} ∪ m);
  qm_ClearQuota := fun p m => (None, m ∖ {[p]});
  qm_GetAllQuotaPath := fun m => {[VolumeTypeHostPath := m]};
|}.

Definition ex_vpod : VPod Z :=
  mkVPod (ex_pod "p1" 0)
    [mkVolume "work" (Some ("", None)) None; mkVolume "logs" None (Some "/data/logs"); mkVolume "old" None (Some "/data/gone")].
Definition ex_size : DiskQuotaSize := mkSize 1000 10 0 0.

#[local] Existing Instance ex_vol_env.
#[local] Existing Instance ex_manager.
#[local] Existing Instance key_order.

Definition ex_sizes : gmap string DiskQuotaSize :=
  <[VolumeTypeEmptyDir := ex_size]> {[VolumeTypeHostPath := ex_size]}.
Definition ex_managers : list (VolumeQuotaManager (Q := Z)) := volumeQuotaManagers ex_sizes.

Definition ex_tracked : gmap string (PodVolumes Z) := {["gone" := mkPodVolumes (ex_pod "gone" 0) "offline" ∅ 5]}.

Lemma tracked_pods_exact_witness :
  is_Some (handedPods (quotaRound ex_managers 10 20 [ex_vpod] (fun _ => None)
             (mkDiskQuota ex_tracked ∅)) !! "p1") /\
  ~ is_Some (handedPods (quotaRound ex_managers 10 20 [ex_vpod] (fun _ => None)
             (mkDiskQuota ex_tracked ∅)) !! "gone").
Proof.
  assert (Ho : map_Forall (fun _ pv => lastTime pv < 10) ex_tracked).
  { apply map_Forall_singleton. reflexivity. }
  split.
  - apply (tracked_pods_exact ex_managers 10 20 [ex_vpod] (fun _ => None) _ "p1"); [lia|exact Ho|].
    apply list_elem_of_here.
  - intros Hs. apply (tracked_pods_exact ex_managers 10 20 [ex_vpod] (fun _ => None) _ "gone") in Hs; [|lia|exact Ho].
    vm_compute in Hs. inversion Hs as [|? ? ? Hs']. inversion Hs'.
Defined.

Lemma offline_emptydirs_limited_witness :
  exists info, (emptyDir_GetVolumes (Some ex_size) ex_vpod).1 !! "work" = Some info /\ nilVolumeQuotaSize (pi_Size info) = false.
Proof.
  apply (offline_emptydirs_limited (Some ex_size) ex_vpod (mkVolume "work" (Some ("", None)) None) "" None).
  - reflexivity.
  - reflexivity.
  - reflexivity.
  - repeat constructor; vm_compute; intros Hn; repeat (inversion Hn as [|? ? ? Hn']; clear Hn; rename Hn' into Hn).
  - constructor.
  - reflexivity.
  - discriminate.
Defined.

Lemma unlisted_hostpath_cleared_witness :
  "/data/logs" ∈ pathsToClear (fun _ => None) (handleDiskQuota ex_managers 20 [ex_vpod] (mkDiskQuota ∅ {["/data/logs"]})).
Proof.
  refine (proj2 (unlisted_hostpath_cleared ex_managers 20 ex_vpod (fun _ => None) {["/data/logs"]} "/data/logs" _ _ _ _ _)).
  - reflexivity.
  - repeat constructor; unfold lists; intros [He (name & p & Hl & Hp)].
    + vm_compute in Hl. discriminate Hl.
    + cbn [vm_GetVolumes fst] in Hl. revert Hl.
      set (m := (emptyDir_GetVolumes _ ex_vpod).1).
      assert (Hm : map_Forall (fun _ p => pi_Path p <> "/data/logs") m) by (apply map_Forall_to_list; vm_compute; repeat constructor; discriminate).
      intros Hl. exact (Hm name p Hl Hp).
    + vm_compute in He. discriminate He.
  - reflexivity.
  - vm_compute. reflexivity.
Defined.
