(* ===== verification/Notify.v ===== *)
(** * Memory notifications

    pkg/caelus/healthcheck/cgroupnotify: the kernel signals memory pressure and
    the crossing of a usage threshold of a cgroup through an eventfd
    (cgroup_notify.go); the handlers of notify_memory.go decide when to kill
    offline jobs.  System calls are the parameter [NotifyEnv], and the clock is
    part of the events. *)

From Stdlib Require Import Ascii.
From S2P Require Import Prelude GoStrings Cgroup Ginit.

#[local] Open Scope string_scope.
#[local] Open Scope Z_scope.
#[local] Open Scope list_scope.

(** ** cgroup_notify.go *)

Class NotifyEnv := {
  (** The [n]-th system call that returns a file descriptor. *)
  sys_fd : nat -> string -> result Z;
  (** The error of the write to cgroup.event_control. *)
  sys_control : string -> option error;
}.

(** The descriptors the process has opened and closed. *)
Record fds := mkFds { fd_calls : nat; opened : list Z; closed : list Z }.

Definition F (A : Type) : Type := fds -> A * fds.
#[global] Instance F_ret : MRet F := fun A a k => (a, k).
#[global] Instance F_bind : MBind F := fun A B f m k => let '(a, k') := m k in f a k'.

Record linuxCgroupNotify := mkNotify { eventfd : Z; epfd : Z }.

Section Descriptors.
Context {NE : NotifyEnv}.

(** A negative number is not a descriptor. *)
Definition fd_open (what : string) : F (result Z) := fun k =>
  let r := sys_fd (fd_calls k) what in
  (r, mkFds (S (fd_calls k))
        (match r with Ok fd => if fd <? 0 then opened k else opened k ++ [fd] | Err _ => opened k end) (closed k)).

Definition fd_close (fd : Z) : F unit := fun k => (tt, mkFds (fd_calls k) (opened k) (closed k ++ [fd])).

(** The last part of [newCgroupNotify], with its deferred close of epfd. *)
Definition registerEvent (watchfd eventfd : Z) (notifyStr : string) : F (result linuxCgroupNotify) :=
  r ← fd_open "epoll_create1";
  match r with
  | Err e => mret (Err e)
  | Ok epfd =>
      if epfd <? 0 then mret (Err "EpollCreate1 call failed")
      else match sys_control (Itoa eventfd +:+ " " +:+ Itoa watchfd +:+ " " +:+ notifyStr) with
           | Some e => _ ← fd_close epfd; mret (Err e)
           | None => mret (Ok (mkNotify eventfd epfd))
           end
  end.

Definition withEventfd (watchfd : Z) (notifyStr : string) : F (result linuxCgroupNotify) :=
  r ← fd_open "eventfd";
  match r with
  | Err e => mret (Err e)
  | Ok eventfd =>
      if eventfd <? 0 then mret (Err "eventfd call failed")
      else
        r ← registerEvent watchfd eventfd notifyStr;
        match r with
        | Err e => _ ← fd_close eventfd; mret (Err e)
        | Ok n => mret (Ok n)
        end
  end.

Definition newCgroupNotify (path attribute notifyStr : string) : F (result linuxCgroupNotify) :=
  r ← fd_open (path +:+ "/" +:+ attribute);
  match r with
  | Err e => mret (Err e)
  | Ok watchfd =>
      r ← (r ← fd_open (path +:+ "/cgroup.event_control");
           match r with
           | Err e => mret (Err e)
           | Ok controlfd =>
               r ← withEventfd watchfd notifyStr;
               _ ← fd_close controlfd;
               mret r
           end);
      _ ← fd_close watchfd;
      mret r
  end.
End Descriptors.

(** The constants of epoll. *)
Definition EPOLLIN : Z := 1.
Definition EPOLLERR : Z := 8.
Definition EPOLLHUP : Z := 16.
Definition numFdEvents : Z := 6.

Inductive epoll_error := EINTR | EpollErr (e : error).

(** The result of [EpollWait]: the number, the error, and the events as pairs
    of a descriptor and its flags. *)
Record epoll_result := mkEpoll { ep_n : Z; ep_err : option epoll_error; ep_events : list (Z * Z) }.

Definition wait (eventfd : Z) (r : epoll_result) : bool * option error :=
  if ep_n r =? -1 then
    match ep_err r with
    | Some EINTR | None => (false, None)
    | Some (EpollErr e) => (false, Some e)
    end
  else if ep_n r =? 0 then (false, None)
  else if numFdEvents <? ep_n r then (false, Some "epoll_wait returned more events than we know what to do with")
  else
    (existsb (fun '(fd, flags) =>
       (fd =? int32 eventfd) &&
       (negb (Z.land flags EPOLLHUP =? 0) || negb (Z.land flags EPOLLERR =? 0) || negb (Z.land flags EPOLLIN =? 0)))
       (take (Z.to_nat (ep_n r)) (ep_events r)), None).

(** What the kernel answers in a pass of the loop of [start]: whether the
    notifier was stopped before, the result of epoll, the error of the read. *)
Record pass := mkPass { stopped : bool; p_epoll : epoll_result; p_read : option error }.

(** The number of events put into the channel, and whether the loop goes on. *)
Fixpoint listen (eventfd : Z) (passes : list pass) : nat * bool :=
  match passes with
  | [] => (0%nat, true)
  | p :: passes' =>
      if stopped p then (0%nat, false)
      else match wait eventfd (p_epoll p) with
           | (_, Some _) => (0%nat, false)
           | (false, None) => listen eventfd passes'
           | (true, None) =>
               match p_read p with
               | Some _ => (0%nat, false)
               | None => let '(n, alive) := listen eventfd passes' in (S n, alive)
               end
           end
  end.

(** ** Pressure *)

(** [count] and [lastTick] of the handler. *)
Record pressure := mkPressure { count : Z; lastTick : option time }.

Definition pressure_start : pressure := mkPressure 0 None.

(** An event, with the times that the handler reads from the clock. *)
Record signal := mkSignal { clock1 : time; clock2 : time; clock3 : time }.

(** The state after an event, and whether the handle function was called. *)
Definition pressureEvent (dur : duration) (minCount : Z) (s : pressure) (e : signal) : pressure * bool :=
  let validDuration := dur in
  let invalidDuration := int64 (dur + dur) in
  let '(last, n) :=
    match lastTick s with
    | None => (clock2 e, 0)
    | Some l => if time_Before (time_Add l invalidDuration) (clock1 e) then (clock2 e, 0) else (l, count s)
    end in
  let n := int64 (n + 1) in
  if time_After (time_Add last validDuration) (clock3 e) then (mkPressure n (Some last), false)
  else if n <? minCount then (mkPressure n None, false)
  else (mkPressure n None, true).

(** The loop over the events: the final state and, per event, whether the
    handle function was called. *)
Fixpoint pressureEvents (dur : duration) (minCount : Z) (s : pressure) (es : list signal) : pressure * list bool :=
  match es with
  | [] => (s, [])
  | e :: es' =>
      let '(s', called) := pressureEvent dur minCount s e in
      let '(s'', calls) := pressureEvents dur minCount s' es' in
      (s'', called :: calls)
  end.

(** ** Usage *)

Definition minDroppedCache : Z := int64 (5120 * MemUnit).

Section Usage.
Context {CE : CgroupEnv}.
(** What dropping the cache does to the files of the kernel. *)
Variable drop_cache : world -> world.

(** The wrapper of the handle function: whether it is called. *)
Definition handleFuncWrapper (cg : string) (threshold : Z) : M bool :=
  r ← GetMemoryUsage cg;
  match r with
  | Err _ => mret false
  | Ok currentUsage =>
      if currentUsage <? threshold then mret false
      else
        dropped ← MemoryForceEmpty cg;
        _ ← ((fun w => (tt, drop_cache w)) : M unit);
        match dropped with
        | (_, Some _) => mret true
        | (false, None) => mret true
        | (true, None) =>
            r ← GetMemoryUsage cg;
            mret (match r with
                  | Err _ => true
                  | Ok newestUsage =>
                      if threshold <=? newestUsage then true
                      else negb ((minDroppedCache <? int64 (currentUsage - newestUsage)) ||
                                 (newestUsage <=? currentUsage `quot` 2))
                  end)
        end
  end.

(** [handleTicker], as the time it fires at. *)
Definition usageEvent (dur : duration) (now : time) (t : option (option time)) : option (option time) :=
  Some (Some (now + dur)).

(** ** The notifiers of a configuration *)

Record MemoryPressureNotifyConfig := mkPressureConfig {
  pr_Cgroups : list string; PressureLevel : string; pr_Duration : duration; Count : Z }.
Record MemoryUsageNotifyConfig := mkUsageConfig { us_Cgroups : list string; MarginMb : Z; us_Duration : duration }.

Inductive cgroupNotifier :=
| cgroupPressureNotifier (cgroup : string) (dur : duration) (notify : linuxCgroupNotify) (count : Z)
| cgroupUsageNotifier (cgroup : string) (dur : duration) (notify : linuxCgroupNotify) (threshold : Z).

Context {NE : NotifyEnv}.

Definition memoryUsageAttribute : string := "memory.usage_in_bytes".
Definition memoryPressureAttribute : string := "memory.pressure_level".

Definition pressureNotifier (cfg : MemoryPressureNotifyConfig) (cg : string) : F (list cgroupNotifier) :=
  r ← newCgroupNotify (path_Join [env_root; MemorySubsystem; cg]) memoryPressureAttribute (PressureLevel cfg);
  mret (match r with
        | Err _ => []
        | Ok n => [cgroupPressureNotifier cg (pr_Duration cfg) n (Count cfg)]
        end).

Fixpoint collect {A B} (f : A -> F (list B)) (l : list A) : F (list B) :=
  match l with
  | [] => mret []
  | a :: l' => bs ← f a; bs' ← collect f l'; mret (bs ++ bs')
  end.

Definition generateMemoryPressureNotifier (pressureCfgs : list MemoryPressureNotifyConfig) : F (list cgroupNotifier) :=
  collect (fun cfg => collect (pressureNotifier cfg) (pr_Cgroups cfg)) pressureCfgs.

(** The threshold of a cgroup with a limit: [None] when it has no limit or it
    cannot be read. *)
Definition usageThreshold (w : world) (cfg : MemoryUsageNotifyConfig) (cg : string) : option (outcome Z) :=
  match (GetMemoryLimit cg w).1 with
  | Err _ | Ok (_, false) => None
  | Ok (limitSize, true) =>
      let threshold := int64 (limitSize - int64 (MarginMb cfg * MemUnit)) in
      Some (if threshold <=? 0 then Crash (Fatal "too large margin size") else Ret threshold)
  end.

Definition usageNotifier (w : world) (cfg : MemoryUsageNotifyConfig) (cg : string) : F (outcome (list cgroupNotifier)) :=
  match usageThreshold w cfg cg with
  | None => mret (Ret [])
  | Some (Crash c) => mret (Crash c)
  | Some (Ret threshold) =>
      r ← newCgroupNotify (path_Join [env_root; MemorySubsystem; cg]) memoryUsageAttribute (Itoa threshold);
      mret (Ret (match r with Err _ => [] | Ok n => [cgroupUsageNotifier cg (us_Duration cfg) n threshold] end))
  end.

(** The loops end at the first fatal error. *)
Fixpoint usageNotifiers (w : world) (l : list (MemoryUsageNotifyConfig * string)) : F (outcome (list cgroupNotifier)) :=
  match l with
  | [] => mret (Ret [])
  | (cfg, cg) :: l' =>
      r ← usageNotifier w cfg cg;
      match r with
      | Crash c => mret (Crash c)
      | Ret ns =>
          r' ← usageNotifiers w l';
          mret (match r' with Ret ns' => Ret (ns ++ ns') | Crash c => Crash c end)
      end
  end.

Definition generateMemoryUsageNotifier (w : world) (usageCfgs : list MemoryUsageNotifyConfig) :
    F (outcome (list cgroupNotifier)) :=
  usageNotifiers w (concat (map (fun cfg => map (pair cfg) (us_Cgroups cfg)) usageCfgs)).

Definition newMemoryNotifier (w : world) (pressures : list MemoryPressureNotifyConfig)
    (usages : list MemoryUsageNotifyConfig) : F (outcome (list cgroupNotifier)) :=
  ps ← generateMemoryPressureNotifier pressures;
  us ← generateMemoryUsageNotifier w usages;
  mret (match us with Ret us => Ret (ps ++ us) | Crash c => Crash c end).
End Usage.

(** ** Descriptors *)

(** Permutations of short explicit lists. *)
Ltac solve_perm :=
  first [done
        | apply Permutation_cons; [done|]; solve_perm
        | match goal with |- ?x :: ?l ≡ₚ ?r =>
            let rec mv pre r := lazymatch r with
              | x :: ?s => transitivity (x :: (pre ++ s)); [|apply (Permutation_middle pre s x)]
              | ?y :: ?s => let pre' := constr:(pre ++ [y]) in mv pre' s
              end in
            mv (@nil Z) r; cbn [app]; apply Permutation_cons; [done|]; solve_perm
          end].

Section Leaks.
Context {NE : NotifyEnv}.

(** A system call that succeeds returns a number that is not negative. *)
Hypothesis fd_nonneg : forall n what fd, sys_fd n what = Ok fd -> 0 <= fd.

(** Registering for notifications leaks no descriptor: what it opens it closes
    again, on every path, but for the two descriptors of a notifier it returns. *)
Theorem notifier_leaks_no_descriptor path attribute notifyStr k :
  let '(r, k') := newCgroupNotify path attribute notifyStr k in
  exists op cl, opened k' = opened k ++ op /\ closed k' = closed k ++ cl /\
    op ≡ₚ cl ++ match r with Ok n => [eventfd n; epfd n] | Err _ => [] end.
Proof.
  unfold newCgroupNotify, withEventfd, registerEvent, fd_open, fd_close, mbind, F_bind, mret, F_ret.
  assert (H0 : forall l : list Z, l = l ++ []) by (intros; by rewrite app_nil_r).
  destruct (sys_fd _ (path +:+ "/" +:+ attribute)) as [w|] eqn:Ew; [|exists [], []; eauto].
  apply fd_nonneg in Ew. cbn [opened closed fd_calls]. destruct (Z.ltb_spec w 0); [lia|].
  destruct (sys_fd _ (path +:+ "/cgroup.event_control")) as [c|] eqn:Ec; [|exists [w], [w]; eauto].
  apply fd_nonneg in Ec. cbn [opened closed fd_calls]. destruct (Z.ltb_spec c 0); [lia|].
  destruct (sys_fd _ "eventfd") as [e|] eqn:Ee.
  2: { exists [w; c], [c; w]. cbn [opened closed]. rewrite <- !app_assoc. split_and!; [done|done|constructor]. }
  apply fd_nonneg in Ee. cbn [opened closed fd_calls]. destruct (Z.ltb_spec e 0); [lia|].
  destruct (sys_fd _ "epoll_create1") as [ep|] eqn:Eep.
  2: { exists [w; c; e], [e; c; w]. cbn [opened closed]. rewrite <- !app_assoc. split_and!; [done|done|].
       cbn [app]. solve_perm. }
  apply fd_nonneg in Eep. cbn [opened closed fd_calls]. destruct (Z.ltb_spec ep 0); [lia|].
  destruct (sys_control _).
  - exists [w; c; e; ep], [ep; e; c; w]. cbn [opened closed]. rewrite <- !app_assoc. split_and!; [done|done|].
    cbn [app]. solve_perm.
  - exists [w; c; e; ep], [c; w]. cbn [opened closed eventfd epfd]. rewrite <- !app_assoc. split_and!; [done|done|].
    cbn [app]. solve_perm.
Qed.
End Leaks.

(** ** Windows of pressure events *)

Section Pressure.
Variables (dur : duration) (minCount : Z).
Hypothesis dur_small : in_int64 (dur + dur).

Implicit Types (e : signal) (es : list signal).

(** The state after the events [pre]: an open window starts at one of them, and
    the events since are counted. *)
Definition window_open (pre : list signal) (s : pressure) : Prop :=
  forall l, lastTick s = Some l ->
    exists j e, pre !! j = Some e /\ clock2 e = l /\ count s = Z.of_nat (length pre - j).

Definition window_full (pre : list signal) (e : signal) : Prop :=
  exists j e0, (pre ++ [e]) !! j = Some e0 /\ minCount <= Z.of_nat (length pre - j) + 1 /\
    clock2 e0 + dur <= clock3 e /\ (j = length pre \/ clock1 e <= clock2 e0 + 2 * dur).

Lemma pressureEvent_sound pre s e s' called :
  Z.of_nat (length pre) + 1 < 2 ^ 63 ->
  window_open pre s -> pressureEvent dur minCount s e = (s', called) ->
  window_open (pre ++ [e]) s' /\ (called = true -> window_full pre e).
Proof.
  intros Hlen Hw. unfold pressureEvent, time_Before, time_After, time_Add. rewrite (int64_id (dur + dur)) by done.
  set (p := match lastTick s with None => _ | Some _ => _ end).
  assert (Hp : exists j e0, (pre ++ [e]) !! j = Some e0 /\ clock2 e0 = p.1 /\ p.2 = Z.of_nat (length pre - j) /\
    (j <= length pre)%nat /\ (j = length pre \/ clock1 e <= p.1 + (dur + dur))).
  { assert (Hnew : exists j e0, (pre ++ [e]) !! j = Some e0 /\ clock2 e0 = clock2 e /\ 0 = Z.of_nat (length pre - j) /\
      (j <= length pre)%nat /\ (j = length pre \/ clock1 e <= clock2 e + (dur + dur))).
    { exists (length pre), e. rewrite list_lookup_middle by done. split_and!; [done|done|lia|lia|by left]. }
    unfold p. destruct (lastTick s) as [l|] eqn:El; [|done].
    destruct (Z.ltb_spec (l + (dur + dur)) (clock1 e)); [done|].
    destruct (Hw l El) as (j & e0 & Hj & He & Hc). pose proof (lookup_lt_Some _ _ _ Hj).
    exists j, e0. rewrite lookup_app_l by done. simpl. split_and!; [done|done|done|lia|by right]. }
  destruct p as [last n]. simpl in Hp. destruct Hp as (j & e0 & Hj & He & -> & Hle & Hold).
  rewrite int64_id by (unfold in_int64; simpl in *; lia).
  destruct (Z.ltb_spec (clock3 e) (last + dur)) as [Hlt|Hge].
  { intros [= <- <-]. split; [|done]. intros l [= <-]. exists j, e0. split_and!; [done|done|].
    rewrite length_app. simpl. lia. }
  destruct (Z.ltb_spec (Z.of_nat (length pre - j) + 1) minCount); intros [= <- <-]; (split; [intros l [=]|]); [done|].
  intros _. exists j, e0. split_and!; [done|lia|lia|]. destruct Hold; [by left|right; lia].
Qed.

Lemma pressureEvents_sound pre s es i :
  Z.of_nat (length pre + length es) < 2 ^ 63 -> window_open pre s ->
  (pressureEvents dur minCount s es).2 !! i = Some true ->
  exists e, es !! i = Some e /\ window_full (pre ++ take i es) e.
Proof.
  revert pre s i. induction es as [|e es IH]; intros pre s i Hlen Hw Hi; cbn [pressureEvents] in Hi; [done|].
  destruct (pressureEvent dur minCount s e) as [s' called] eqn:E. simpl in Hlen.
  destruct (pressureEvent_sound pre s e s' called ltac:(lia) Hw E) as [Hw' Hcall].
  destruct (pressureEvents dur minCount s' es) as [s'' calls] eqn:Es. simpl in Hi.
  destruct i as [|i]; simpl in Hi.
  { simplify_eq. exists e. rewrite take_0, app_nil_r. auto. }
  destruct (IH (pre ++ [e]) s' i) as (e' & He' & Hf).
  - rewrite length_app. simpl. lia.
  - done.
  - by rewrite Es.
  - exists e'. split; [done|]. rewrite <- app_assoc in Hf. done.
Qed.

(** C30: jobs are killed for memory pressure only when the pressure has lasted: the
    call at an event is preceded, within twice the duration, by an event at
    least the duration before, with at least [minCount] events from there on. *)
Theorem pressure_calls_sound es i :
  Z.of_nat (length es) < 2 ^ 63 ->
  (pressureEvents dur minCount pressure_start es).2 !! i = Some true ->
  exists j e0 e, es !! j = Some e0 /\ es !! i = Some e /\ (j <= i)%nat /\ minCount <= Z.of_nat (i - j) + 1 /\
    clock2 e0 + dur <= clock3 e /\ (j = i \/ clock1 e <= clock2 e0 + 2 * dur).
Proof.
  intros Hlen Hi. destruct (pressureEvents_sound [] pressure_start es i) as (e & He & j & e0 & Hj & Hc & Hd & Ho);
    [by simpl|by intros l [=]|done|].
  pose proof (lookup_lt_Some _ _ _ He) as Hlt. cbn [app] in *.
  rewrite length_take_le in * by lia.
  assert (Hji : (j <= i)%nat).
  { apply lookup_lt_Some in Hj. rewrite length_app, length_take_le in Hj by lia. simpl in Hj. lia. }
  exists j, e0, e. split_and!; [|done|done|done|done|done].
  destruct (decide (j = i)) as [->|Hne].
  - rewrite lookup_app_r in Hj by (rewrite length_take_le; lia). rewrite length_take_le, Nat.sub_diag in Hj by lia. by simplify_eq/=.
  - rewrite lookup_app_l in Hj by (rewrite length_take_le; lia). by rewrite lookup_take_lt in Hj by lia.
Qed.

Lemma window_counts w n es :
  0 <= n -> n + Z.of_nat (length es) < 2 ^ 63 -> 0 < dur ->
  Forall (fun e => clock1 e <= clock3 e /\ clock3 e < w + dur) es ->
  pressureEvents dur minCount (mkPressure n (Some w)) es =
  (mkPressure (n + Z.of_nat (length es)) (Some w), repeat false (length es)).
Proof.
  intros Hn Hlen Hd Hes. revert n Hn Hlen. induction Hes as [|e es [H1 H2] Hes IH]; intros n Hn Hlen.
  { cbn. by rewrite Z.add_0_r. }
  cbn [pressureEvents]. simpl length in *. unfold pressureEvent, time_Before, time_After, time_Add. cbn [lastTick count].
  rewrite (int64_id (dur + dur)) by done. rewrite (proj2 (Z.ltb_ge _ _)) by lia.
  rewrite (int64_id (n + 1)) by (unfold in_int64; simpl in *; lia). rewrite (proj2 (Z.ltb_lt _ _)) by lia.
  rewrite IH by lia. cbn [repeat]. do 2 f_equal. lia.
Qed.

(** Lasting pressure is noticed: from the first event of a window on, the first
    event that is at least the duration later closes the window if it comes
    within twice the duration, and the handle function is called then, and only
    then, if there were enough events. *)
Theorem pressure_window_closes c e0 es e :
  0 < dur -> Z.of_nat (length es) + 2 < 2 ^ 63 ->
  clock3 e0 < clock2 e0 + dur ->
  Forall (fun x => clock1 x <= clock3 x /\ clock3 x < clock2 e0 + dur) es ->
  clock2 e0 + dur <= clock3 e -> clock1 e <= clock2 e0 + 2 * dur ->
  pressureEvents dur minCount (mkPressure c None) (e0 :: es ++ [e]) =
  (mkPressure (Z.of_nat (length es) + 2) None,
   repeat false (S (length es)) ++ [minCount <=? Z.of_nat (length es) + 2]).
Proof.
  intros Hd Hlen H0 Hes H1 H2. cbn [pressureEvents]. unfold pressureEvent at 1, time_After, time_Add. cbn [lastTick].
  rewrite (int64_id (0 + 1)) by (unfold in_int64; lia). rewrite (proj2 (Z.ltb_lt _ _)) by done.
  assert (Happ : forall s l1 l2, pressureEvents dur minCount s (l1 ++ l2) =
    let '(s1, c1) := pressureEvents dur minCount s l1 in
    let '(s2, c2) := pressureEvents dur minCount s1 l2 in (s2, c1 ++ c2)).
  { intros s l1. revert s. induction l1 as [|x l1 IH]; intros s l2; cbn [pressureEvents app].
    - by destruct (pressureEvents dur minCount s l2).
    - destruct (pressureEvent dur minCount s x) as [s1 c1]. rewrite IH.
      destruct (pressureEvents dur minCount s1 l1) as [s2 c2]. by destruct (pressureEvents dur minCount s2 l2). }
  rewrite Happ, window_counts by (done || lia). cbn [pressureEvents].
  unfold pressureEvent, time_Before, time_After, time_Add. cbn [lastTick count].
  rewrite (int64_id (dur + dur)) by done. rewrite (proj2 (Z.ltb_ge _ (clock1 e))) by lia.
  rewrite (int64_id (_ + 1)) by (unfold in_int64; simpl in *; lia). rewrite (proj2 (Z.ltb_ge (clock3 e) _)) by lia.
  replace (0 + 1 + Z.of_nat (length es) + 1) with (Z.of_nat (length es) + 2) by lia.
  destruct (Z.ltb_spec (Z.of_nat (length es) + 2) minCount), (Z.leb_spec minCount (Z.of_nat (length es) + 2)); try lia; done.
Qed.
End Pressure.

(** ** Examples *)

Definition ex_notify_env : NotifyEnv := {|
  sys_fd := fun n _ => Ok (Z.of_nat n + 3);
  sys_control := fun _ => Some "permission denied";
|}.

Lemma notifier_leaks_no_descriptor_witness :
  exists op cl, [3; 4; 5; 6] = op /\ [6; 5; 4; 3] = cl /\ op ≡ₚ cl ++ [].
Proof.
  pose proof (notifier_leaks_no_descriptor (NE := ex_notify_env) ltac:(intros n w fd [= <-]; lia)
    "/sys/fs/cgroup/memory/a" "memory.pressure_level" "low" (mkFds 0 [] [])) as H.
  vm_compute in H. destruct H as (op & cl & H1 & H2 & H3). by exists op, cl.
Defined.

Definition ex_signal (t : time) : signal := mkSignal t t t.

Lemma pressure_calls_sound_witness :
  let es := map ex_signal [0; 4; 30; 35; 41] in
  exists j e0 e, es !! j = Some e0 /\ es !! 4%nat = Some e /\ (j <= 4)%nat /\ 3 <= Z.of_nat (4 - j) + 1 /\
    clock2 e0 + 10 <= clock3 e /\ (j = 4%nat \/ clock1 e <= clock2 e0 + 2 * 10).
Proof.
  intros es. apply (pressure_calls_sound 10 3); [unfold in_int64; lia|vm_compute; reflexivity|vm_compute; reflexivity].
Defined.

Lemma pressure_window_closes_witness :
  pressureEvents 10 3 (mkPressure 7 None) (ex_signal 30 :: [ex_signal 35] ++ [ex_signal 41]) =
  (mkPressure (Z.of_nat 1 + 2) None, repeat false 2 ++ [3 <=? Z.of_nat 1 + 2]).
Proof.
  apply (pressure_window_closes 10 3); [unfold in_int64; lia|lia|simpl; lia|simpl; lia| |simpl; lia|simpl; lia].
  repeat constructor; simpl; lia.
Defined.
