(* ===== verification/Predict.v ===== *)
(** * Prediction

    pkg/caelus/predict and pkg/caelus/types/predict.go: the resources that offline
    jobs may use are the capacity of the node without the predicted use of online
    jobs and a reserve.  The histograms of the vertical pod autoscaler
    ([VpaLib]), the replies of a prediction server, the statestore and the
    machine ([MachineEnv]) are parameters. *)

From Stdlib Require Import Ascii Floats.SpecFloat.
From S2P Require Import Prelude GoStrings GoFloat Quantity Detection Ginit.

#[local] Open Scope string_scope.
#[local] Open Scope Z_scope.
#[local] Open Scope list_scope.

(** ** The libraries *)

Record ContainerUsageSample := mkSample {
  MeasureStart : time;
  Usage : Z;
  Request : Z;
  sample_Resource : string;
}.

(** k8s.io/autoscaler/vertical-pod-autoscaler: aggregated states of containers
    and estimators; a [model.ResourceAmount] is an int64. *)
Class VpaLib := {
  ACS : Type;
  NewAggregateContainerState : ACS;
  acs_AddSample : ACS -> ContainerUsageSample -> ACS;
  GetControlledResources : ACS -> list string;
  Estimator : Type;
  NewPercentileEstimator : float64 -> float64 -> Estimator;
  WithMargin : float64 -> Estimator -> Estimator;
  WithMinResources : gmap string Z -> Estimator -> Estimator;
  GetResourceEstimation : Estimator -> ACS -> gmap string Z;
  ScaleResource : Z -> float64 -> Z;
  CPUAmountFromCores : float64 -> Z;
  MemoryAmountFromBytes : float64 -> Z;
  DefaultMemoryAggregationInterval : duration;
  DefaultMemoryAggregationIntervalCount : Z;
  DefaultMemoryHistogramDecayHalfLife : duration;
  DefaultCPUHistogramDecayHalfLife : duration;
}.

(** gopsutil's number of processors and the total of /proc/meminfo. *)
Class MachineEnv := {
  cpu_count : result Z;
  mem_total : Z;
}.

(** The answer of a prediction server. *)
Inductive vpa_reply (Q : Type) :=
| VpaFailed (e : error)
| VpaReplied (status : Z) (res : gmap string Q).
Arguments VpaFailed {Q} e.
Arguments VpaReplied {Q} status res.

(** ** Configuration *)

Record Resource := mkResource {
  CpuMilli : option float64;
  MemMB : option float64;
  CpuPercentStr : string;
  CpuPercent : option float64;
  MemPercentStr : string;
  MemPercent : option float64;
}.

Record LocalPredictConfig := mkLocalPredict {
  PodMinCPUMillicores : float64;
  PodMinMemoryMb : float64;
  SafetyMarginFraction : float64;
  CPUPercentile : float64;
  MemoryPeaksPercentile : float64;
  MemoryAggregationInterval : duration;
  MemoryAggregationIntervalCount : Z;
  MemoryHistogramDecayHalfLife : duration;
  CPUHistogramDecayHalfLife : duration;
  EnableTuneCPUWeight : bool;
  AnomalyDetectorMovingWindow : duration;
  IncreasingAnomalyWeightFactor : Z;
  DecreasingAnomalyWeightFactor : Z;
}.

Record PredictConfig := mkPredictConfig {
  Disable : bool;
  CheckInterval : duration;
  PredictType : string;
  PredictServerAddr : string;
  ReserveResource : Resource;
  PrintInterval : duration;
  local : LocalPredictConfig;
  PredictMetricsType : string;
}.

Definition LocalPredictorType : string := "local".
Definition VPAPredictorType : string := "vpa".
Definition AvailablePredictType (t : string) : bool := (t =? LocalPredictorType)%string || (t =? VPAPredictorType)%string.
Definition NodeResourceTypeOnlinePredict : string := "online_predict".

Definition or_default_Z (d v : Z) : Z := if v =? 0 then d else v.
Definition or_default_float (d v : float64) : float64 := if feq v fzero then d else v.

(** [strings.TrimRight(input, "%")]. *)
Definition TrimRight_percent (s : string) : string := rev_string (trim_left_byte "%" (rev_string s "")) "".

Definition parsePercentage (input : string) : result float64 :=
  if (input =? "")%string then Ok fzero
  else match ParseFloat (TrimRight_percent input) with
       | Some value => Ok (fdiv value (float64_of_Z 100))
       | None => Err "invalid syntax"
       end.

(** [math.Min] on values that are not NaN. *)
Definition math_Min (x y : float64) : float64 :=
  match x, y with
  | S754_nan, _ | _, S754_nan => S754_nan
  | S754_zero sx, S754_zero sy => S754_zero (sx || sy)
  | _, _ => if flt x y then x else y
  end.

Definition getReservedValue (total : float64) (percent value : option float64) : float64 :=
  match percent, value with
  | None, None => fzero
  | None, Some v => v
  | Some p, None => fmul total p
  | Some p, Some v => math_Min (fmul total p) v
  end.

Section Predict.
Context {Q : Type} `{QO : QuantityOps Q} {VL : VpaLib}.

(** The package variable [totalResource]: empty until the first success. *)
Definition GetTotalResource {ME : MachineEnv} (totalResource : gmap string Q) : result (gmap string Q) :=
  if bool_decide (totalResource = ∅) then
    match cpu_count with
    | Err e => Err e
    | Ok cores =>
        Ok (<["cpu" := qNewMilliQuantity (int64 (cores * 1000))]>
              (<["memory" := qNewQuantity (int64 mem_total)]> totalResource))
    end
  else Ok totalResource.

Definition getReservedResource {ME : MachineEnv} (totalResource : gmap string Q) (reserved : Resource) : result Resource :=
  match GetTotalResource totalResource with
  | Err e => Err e
  | Ok total =>
      let memTotal := float64_of_Z (Z.quot (memBytes total) MemUnit) in
      let cpuTotal := float64_of_Z (cpuMilli total) in
      Ok (mkResource (Some (getReservedValue cpuTotal (CpuPercent reserved) (CpuMilli reserved)))
            (Some (getReservedValue memTotal (MemPercent reserved) (MemMB reserved)))
            (CpuPercentStr reserved) (CpuPercent reserved) (MemPercentStr reserved) (MemPercent reserved))
  end.

Definition checkLocalPredictType (config : PredictConfig) : PredictConfig :=
  let l := local config in
  mkPredictConfig (Disable config)
    (or_default_Z (30 * Second) (CheckInterval config))
    (PredictType config) (PredictServerAddr config) (ReserveResource config)
    (or_default_Z (5 * Minute) (PrintInterval config))
    (mkLocalPredict
       (or_default_float (float64_of_Z 10) (PodMinCPUMillicores l))
       (or_default_float (float64_of_Z 10) (PodMinMemoryMb l))
       (or_default_float (flit 8 100) (SafetyMarginFraction l))
       (or_default_float (flit 8 10) (CPUPercentile l))
       (or_default_float (flit 9 10) (MemoryPeaksPercentile l))
       (or_default_Z DefaultMemoryAggregationInterval (MemoryAggregationInterval l))
       (or_default_Z DefaultMemoryAggregationIntervalCount (MemoryAggregationIntervalCount l))
       (or_default_Z DefaultMemoryHistogramDecayHalfLife (MemoryHistogramDecayHalfLife l))
       (or_default_Z DefaultCPUHistogramDecayHalfLife (CPUHistogramDecayHalfLife l))
       (EnableTuneCPUWeight l)
       (if EnableTuneCPUWeight l then or_default_Z (10 * Minute) (AnomalyDetectorMovingWindow l)
        else AnomalyDetectorMovingWindow l)
       (or_default_Z 1 (IncreasingAnomalyWeightFactor l))
       (or_default_Z 1 (DecreasingAnomalyWeightFactor l)))
    (PredictMetricsType config).

Definition set_PredictType (config : PredictConfig) (t : string) : PredictConfig :=
  mkPredictConfig (Disable config) (CheckInterval config) t (PredictServerAddr config) (ReserveResource config)
    (PrintInterval config) (local config) (PredictMetricsType config).
Definition set_Reserve (config : PredictConfig) (r : Resource) : PredictConfig :=
  mkPredictConfig (Disable config) (CheckInterval config) (PredictType config) (PredictServerAddr config) r
    (PrintInterval config) (local config) (PredictMetricsType config).
Definition set_MetricsType (config : PredictConfig) (t : string) : PredictConfig :=
  mkPredictConfig (Disable config) (CheckInterval config) (PredictType config) (PredictServerAddr config)
    (ReserveResource config) (PrintInterval config) (local config) t.

(** A percentage that is given replaces the parsed field. *)
Definition reservePercent (str : string) (percent : option float64) : outcome (option float64) :=
  if (str =? "")%string then Ret percent
  else match parsePercentage str with
       | Ok p => Ret (Some p)
       | Err _ => Crash (Fatal "invalid predict reserved resource")
       end.

Definition InitPredictConfig {ME : MachineEnv} (totalResource : gmap string Q) (config : PredictConfig) :
    outcome PredictConfig :=
  let config := if Disable config then set_PredictType config LocalPredictorType else config in
  let config := if (PredictType config =? "")%string then set_PredictType config LocalPredictorType else config in
  if negb (AvailablePredictType (PredictType config)) then Crash (Fatal "invalid predict type")
  else if (PredictType config =? VPAPredictorType)%string && (PredictServerAddr config =? "")%string then
    Crash (Fatal "predict server address must be assign when type is vpa")
  else
    let config := if (PredictType config =? LocalPredictorType)%string then checkLocalPredictType config else config in
    let r := ReserveResource config in
    cpuPercent ← reservePercent (CpuPercentStr r) (CpuPercent r);
    memPercent ← reservePercent (MemPercentStr r) (MemPercent r);
    match getReservedResource totalResource
            (mkResource (CpuMilli r) (MemMB r) (CpuPercentStr r) cpuPercent (MemPercentStr r) memPercent) with
    | Err _ => Crash (Fatal "get predict reserved resource failed")
    | Ok reserved => Ret (set_Reserve config reserved)
    end.

Fixpoint initConfigsLoop {ME : MachineEnv} (totalResource : gmap string Q) (i : nat) (configs : list PredictConfig) :
    outcome (list PredictConfig) :=
  match configs with
  | [] => Ret []
  | c :: configs' =>
      let c := match i with
               | O => set_MetricsType c NodeResourceTypeOnlinePredict
               | S _ => if (PredictMetricsType c =? "")%string
                        then set_MetricsType c ("experiment_" +:+ NodeResourceTypeOnlinePredict +:+ "_" +:+ Itoa (Z.of_nat i))
                        else c
               end in
      c' ← InitPredictConfig totalResource c;
      rest ← initConfigsLoop totalResource (S i) configs';
      Ret (c' :: rest)
  end.

Definition initPredictConfigs {ME : MachineEnv} (totalResource : gmap string Q) (configs : list PredictConfig) :
    outcome (list PredictConfig) :=
  match configs with
  | [] => Crash (Fatal "empty predict configs")
  | _ => initConfigsLoop totalResource 0 configs
  end.

(** ** logic.go *)

Definition FilterControlledResources (estimation : gmap string Z) (controlledResources : list string) : gmap string Z :=
  fold_left (fun result resource =>
    match estimation !! resource with Some v => <[resource := v]> result | None => result end) controlledResources ∅.

Record podResourceRecommender := mkRecommender { rec_config : LocalPredictConfig; targetEstimator : Estimator }.

Definition CreatePodResourceRecommender (config : LocalPredictConfig) : podResourceRecommender :=
  mkRecommender config
    (WithMargin (SafetyMarginFraction config)
       (NewPercentileEstimator (CPUPercentile config) (MemoryPeaksPercentile config))).

Definition estimateContainerResources (r : podResourceRecommender) (s : ACS) : gmap string Z :=
  FilterControlledResources (GetResourceEstimation (targetEstimator r) s) (GetControlledResources s).

Definition GetRecommendedPodResources (r : podResourceRecommender) (statMap : gmap string ACS) : gmap string (gmap string Z) :=
  if bool_decide (dom statMap = ∅) then ∅
  else
    let fraction := fdiv fone (float64_of_Z (Z.of_nat (size statMap))) in
    let minResources :=
      <["cpu" := ScaleResource (CPUAmountFromCores (fmul (PodMinCPUMillicores (rec_config r)) (flit 1 1000))) fraction]>
        {["memory" := ScaleResource (MemoryAmountFromBytes
            (fmul (fmul (PodMinMemoryMb (rec_config r)) (float64_of_Z 1024)) (float64_of_Z 1024))) fraction]} in
    let recommender := mkRecommender (rec_config r) (WithMinResources minResources (targetEstimator r)) in
    estimateContainerResources recommender <$> statMap.

(** ** predict_local.go *)

Context {MA : Type} (NewMovingAverage : float64 -> MA) (MA_Add : MA -> float64 -> MA) (MA_Value : MA -> float64).
Context {RO : RangeOrder}.

Record localPredict := mkLocal {
  lp_config : PredictConfig;
  recommender : podResourceRecommender;
  statMap : gmap string ACS;
  addSampleTimes : Z;
  initSampleTimes : Z;
  anomalyDetector : EwmaDetector (MA := MA);
}.

(** The division panics for an interval of zero. *)
Definition NewLocalPredict (config : PredictConfig) : outcome localPredict :=
  if CheckInterval config =? 0 then Crash (Panic "integer divide by zero")
  else
    let minData := Z.quot (30 * Minute) (CheckInterval config) in
    let minData := if minData <? Z.of_nat MinData then MinData else Z.to_nat minData in
    Ret (mkLocal config (CreatePodResourceRecommender (local config)) ∅ 0 3
           (NewEwmaDetector NewMovingAverage "cpu" minData)).

Definition predicted_list (cpu mem : Z) : gmap string Q :=
  <["cpu" := qNewMilliQuantity cpu]> {["memory" := qNewQuantity mem]}.

(** Waiting for the first samples changes nothing here. *)
Definition local_Predict (p : localPredict) : gmap string Q :=
  if Disable (lp_config p) then predicted_list 0 0
  else
    let '(cpu, mem) :=
      fold_left (fun '(cpu, mem) '(_, re) =>
        (int64 (cpu + default 0 (re !! "cpu")), int64 (mem + default 0 (re !! "memory"))))
        (range_map "Predict" (GetRecommendedPodResources (recommender p) (statMap p))) (0, 0) in
    predicted_list cpu mem.

(** What the statestore knows of the node: total and offline cores, and
    resident and offline memory. *)
Record node_state := mkNodeState { ns_CPU : option (float64 * float64); ns_Memory : option (float64 * float64) }.

Definition getRecentOnlineResource (st : result (option node_state)) : result (float64 * float64) :=
  match st with
  | Ok (Some (mkNodeState (Some (cpuTotal, cpuOffline)) (Some (usageRss, offlineTotal)))) =>
      Ok (fmul (math_Max (fsub cpuTotal cpuOffline) fzero) (float64_of_Z 1000),
          math_Max (fsub usageRss offlineTotal) fzero)
  | _ => Err "no node state"
  end.

(** The detector after the sample and the weight of the sample. *)
Definition sampleWeight (p : localPredict) (now : time) (milliCPU : float64) : outcome (EwmaDetector (MA := MA) * Z) :=
  if EnableTuneCPUWeight (local (lp_config p)) then
    d ← ewma_add MA_Add (anomalyDetector p) (mkTimedData now {["cpu" := milliCPU]});
    isA ← ewma_IsAnomaly MA_Value d;
    Ret (d, match isA with
            | Ok true =>
                if fgt milliCPU (ewma_Mean MA_Value d)
                then int64 (IncreasingAnomalyWeightFactor (local (lp_config p)) * 100)
                else int64 (DecreasingAnomalyWeightFactor (local (lp_config p)) * 100)
            | _ => 100
            end)
  else Ret (anomalyDetector p, 100).

Definition sample_name : string := "online-system".

Definition addSample (p : localPredict) (now : time) (st : result (option node_state)) : outcome localPredict :=
  match getRecentOnlineResource st with
  | Err _ => Ret p
  | Ok (milliCPU, mem) =>
      let times := if addSampleTimes p <? initSampleTimes p then addSampleTimes p + 1 else addSampleTimes p in
      dw ← sampleWeight p now milliCPU;
      let '(d, cpuWeight) := dw in
      let acs := default NewAggregateContainerState (statMap p !! sample_name) in
      let acs := acs_AddSample acs (mkSample now (int64_of_float64 milliCPU) cpuWeight "cpu") in
      let acs := acs_AddSample acs (mkSample now (int64_of_float64 mem) 0 "memory") in
      Ret (mkLocal (lp_config p) (recommender p) (<[sample_name := acs]> (statMap p)) times (initSampleTimes p) d)
  end.

(** ** predict_vpa.go *)

Definition vpa_Predict (reply : vpa_reply Q) : gmap string Q :=
  match reply with
  | VpaFailed _ => ∅
  | VpaReplied status res => if negb (status =? 200) then ∅ else res
  end.

(** ** predict.go *)

Inductive predictor :=
| Local (p : localPredict)
| Vpa (config : PredictConfig).

Definition newPredictor (config : PredictConfig) : outcome predictor :=
  if (PredictType config =? LocalPredictorType)%string then p ← NewLocalPredict config; Ret (Local p)
  else if (PredictType config =? VPAPredictorType)%string then Ret (Vpa config)
  else Crash (Fatal "unknown predict type").

(** [Predict] of the interface; [None] of the list is the empty one. *)
Definition Predict (p : predictor) (reply : vpa_reply Q) : gmap string Q :=
  match p with
  | Local p => local_Predict p
  | Vpa _ => vpa_Predict reply
  end.

Record predictorWrapper := mkWrapper {
  w_config : PredictConfig;
  predictors : list predictor;
  cacheRes : gmap string Q;
  cacheTs : time;
}.

Fixpoint newPredictors (configs : list PredictConfig) : outcome (list predictor) :=
  match configs with
  | [] => Ret []
  | c :: configs' => p ← newPredictor c; ps ← newPredictors configs'; Ret (p :: ps)
  end.

Definition NewPredictorOrDie (configs : list PredictConfig) : outcome predictorWrapper :=
  match configs with
  | [] => Crash (Fatal "empty predict config")
  | c :: _ => ps ← newPredictors configs; Ret (mkWrapper c ps ∅ nilTime)
  end.

(** The reserved amounts; a missing value is a nil pointer. *)
Definition reservedAmounts (w : predictorWrapper) : outcome (Z * Z) :=
  match CpuMilli (ReserveResource (w_config w)), MemMB (ReserveResource (w_config w)) with
  | Some c, Some m => Ret (int64_of_float64 c, int64 (int64_of_float64 m * MemUnit))
  | _, _ => Crash (Panic "nil pointer dereference")
  end.

Definition GetReservedResource (w : predictorWrapper) : outcome (gmap string Q) :=
  r ← reservedAmounts w;
  Ret (predicted_list r.1 r.2).

Definition subtract (total predicted reserved : Z) : Z :=
  let v := int64 (int64 (total - predicted) - reserved) in
  if v <? 0 then 0 else v.

(** What a call of [GetAllocatableForBatch] sees: the clock before and after the
    computation, the answer of the server, the capacity of the node. *)
Record call := mkCall {
  c_now : time;
  c_done : time;
  c_reply : vpa_reply Q;
  c_total : result (gmap string Q);
}.

(** The list for a call that does not use the cache; [None] without a capacity. *)
Definition computeAllocatable (w : predictorWrapper) (c : call) : outcome (option (gmap string Q)) :=
  let onlinePredict := match predictors w with p :: _ => Predict p (c_reply c) | [] => ∅ end in
  match c_total c with
  | Err _ => Ret None
  | Ok total =>
      r ← reservedAmounts w;
      let reserved := predicted_list r.1 r.2 in
      Ret (Some (predicted_list (subtract (cpuMilli total) (cpuMilli onlinePredict) (cpuMilli reserved))
                                (subtract (memBytes total) (memBytes onlinePredict) (memBytes reserved))))
  end.

Definition GetAllocatableForBatch (w : predictorWrapper) (c : call) : outcome (option (gmap string Q) * predictorWrapper) :=
  if negb (bool_decide (dom (cacheRes w) = ∅)) && (time_Sub (c_now c) (cacheTs w) <? CheckInterval (w_config w)) then
    Ret (Some (cacheRes w), w)
  else
    r ← computeAllocatable w c;
    match r with
    | None => Ret (None, w)
    | Some rl => Ret (Some rl, mkWrapper (w_config w) (predictors w) rl (c_done c))
    end.
End Predict.

(** ** Executions *)

Section Executions.
Context {Q : Type} `{QO : QuantityOps Q} {VL : VpaLib} {RO : RangeOrder}.
Context {MA : Type} (NewMovingAverage : float64 -> MA) (MA_Add : MA -> float64 -> MA) (MA_Value : MA -> float64).

(** A sample of the statestore, taken by every local predictor that is not
    disabled, or a call. *)
Inductive event :=
| ESample (now : time) (st : result (option node_state))
| ECall (c : call (Q := Q)).

Definition sample_predictor (now : time) (st : result (option node_state)) (p : predictor) : outcome predictor :=
  match p with
  | Local p => if Disable (lp_config p) then Ret (Local p) else p' ← addSample MA_Add MA_Value p now st; Ret (Local p')
  | Vpa _ => Ret p
  end.

Fixpoint sample_predictors (now : time) (st : result (option node_state)) (ps : list (predictor (MA := MA))) :
    outcome (list predictor) :=
  match ps with
  | [] => Ret []
  | p :: ps' => p' ← sample_predictor now st p; ps'' ← sample_predictors now st ps'; Ret (p' :: ps'')
  end.

Definition step (w : predictorWrapper (Q := Q) (MA := MA)) (e : event) : outcome predictorWrapper :=
  match e with
  | ESample now st => ps ← sample_predictors now st (predictors w); Ret (mkWrapper (w_config w) ps (cacheRes w) (cacheTs w))
  | ECall c => r ← GetAllocatableForBatch w c; Ret r.2
  end.

Fixpoint run (w : predictorWrapper (Q := Q) (MA := MA)) (es : list event) : outcome predictorWrapper :=
  match es with
  | [] => Ret w
  | e :: es' => w' ← step w e; run w' es'
  end.

(** *** The cache *)

Lemma step_config w e w' : step w e = Ret w' -> w_config w' = w_config w.
Proof.
  destruct e as [now st|c]; cbn [step]; unfold mbind, outcome_bind.
  - destruct (sample_predictors _ _ _); [|done]. by intros [= <-].
  - unfold GetAllocatableForBatch, mbind, outcome_bind. destruct (_ && _); [by intros [= <-]|].
    destruct (computeAllocatable w c) as [[rl|]|]; [| |done]; by intros [= <-].
Qed.

Lemma run_app w es e :
  run w (es ++ [e]) = match run w es with Ret w' => step w' e | Crash c => Crash c end.
Proof.
  revert w. induction es as [|e' es IH]; intros w; cbn [run app]; unfold mbind, outcome_bind.
  - destruct (step w e); done.
  - destruct (step w e'); [|done]. apply IH.
Qed.

(** The cache holds the result of the latest call that has computed one. *)
Lemma cache_computed w0 es w :
  cacheRes w0 = ∅ -> run w0 es = Ret w ->
  cacheRes w = ∅ \/
  exists es1 c es2 w1, es = es1 ++ ECall c :: es2 /\ run w0 es1 = Ret w1 /\
    computeAllocatable w1 c = Ret (Some (cacheRes w)) /\ cacheTs w = c_done c.
Proof.
  intros H0. revert w. induction es as [|e es IH] using rev_ind; intros w Hr.
  { cbn in Hr. simplify_eq. by left. }
  rewrite run_app in Hr. destruct (run w0 es) as [w1|] eqn:E1; [|done].
  assert (Hold : cacheRes w = cacheRes w1 -> cacheTs w = cacheTs w1 ->
    cacheRes w = ∅ \/ exists es1 c es2 w2, es ++ [e] = es1 ++ ECall c :: es2 /\ run w0 es1 = Ret w2 /\
      computeAllocatable w2 c = Ret (Some (cacheRes w)) /\ cacheTs w = c_done c).
  { intros -> ->. destruct (IH w1 eq_refl) as [?|(es1 & c & es2 & w2 & -> & H1 & H2 & H3)]; [by left|].
    right. exists es1, c, (es2 ++ [e]), w2. by rewrite <- app_assoc. }
  destruct e as [now st|c]; cbn [step] in Hr; unfold mbind, outcome_bind in Hr.
  - destruct (sample_predictors _ _ _); [|done]. simplify_eq. by apply Hold.
  - unfold GetAllocatableForBatch, mbind, outcome_bind in Hr. destruct (_ && _); [simplify_eq; by apply Hold|].
    destruct (computeAllocatable w1 c) as [[rl|]|] eqn:Ec; [| |done]; simplify_eq; [|by apply Hold].
    right. exists es, c, [], w1. done.
Qed.

(** An answer is never older than the check interval: it is computed from the
    current predictions, or it was computed by an earlier call that ended less
    than the interval before. *)
Theorem allocatable_is_recent configs w0 es w c rl w' :
  NewPredictorOrDie NewMovingAverage configs = Ret w0 -> in_int64 (CheckInterval (w_config w0)) ->
  run w0 es = Ret w -> GetAllocatableForBatch w c = Ret (Some rl, w') ->
  computeAllocatable w c = Ret (Some rl) \/
  exists es1 c1 es2 w1, es = es1 ++ ECall c1 :: es2 /\ run w0 es1 = Ret w1 /\
    computeAllocatable w1 c1 = Ret (Some rl) /\ c_now c - c_done c1 < CheckInterval (w_config w0).
Proof.
  intros Hn Hi Hr Hg.
  assert (H0 : cacheRes w0 = ∅).
  { unfold NewPredictorOrDie in Hn. destruct configs; [done|]. unfold mbind, outcome_bind in Hn.
    destruct (newPredictors _ _); [|done]. by simplify_eq. }
  assert (Hc : w_config w = w_config w0).
  { clear -Hr. revert w0 Hr. induction es as [|e es IH]; intros w0 Hr; cbn [run] in Hr; [by simplify_eq|].
    unfold mbind, outcome_bind in Hr. destruct (step w0 e) as [w1|] eqn:E; [|done].
    rewrite (IH w1 Hr). by eapply step_config. }
  unfold GetAllocatableForBatch, mbind, outcome_bind in Hg.
  destruct (negb _ && _) eqn:Eb.
  - simplify_eq. apply andb_true_iff in Eb as [E1 E2].
    apply negb_true_iff, bool_decide_eq_false in E1.
    destruct (cache_computed w0 es w' H0 Hr) as [He|(es1 & c1 & es2 & w1 & H1 & H2 & H3 & H4)].
    { destruct E1. by rewrite He, dom_empty_L. }
    right. exists es1, c1, es2, w1. split_and!; [done|done|done|].
    rewrite Hc, H4 in E2. unfold time_Sub, in_int64 in *. simpl in *. lia.
  - left. destruct (computeAllocatable w c) as [[rl'|]|]; [| |done]; by simplify_eq.
Qed.
End Executions.

(** ** Amounts *)

Section Amounts.
Context {Q : Type} `{QL : QuantityLaws Q} {VL : VpaLib} {RO : RangeOrder} {MA : Type}.

Lemma cpuMilli_predicted c m : in_int64 c -> cpuMilli (predicted_list (Q := Q) c m) = c.
Proof. intros Hc. unfold cpuMilli, rl_Cpu, predicted_list. rewrite lookup_insert_eq. by apply milli_roundtrip. Qed.

Lemma memBytes_predicted c m : in_int64 m -> memBytes (predicted_list (Q := Q) c m) = m.
Proof.
  intros Hm. unfold memBytes, rl_Memory, predicted_list. rewrite lookup_insert_ne by done.
  rewrite lookup_singleton_eq. by apply value_roundtrip.
Qed.

Definition small (z : Z) : Prop := 0 <= z <= 2 ^ 62.

Lemma subtract_small t p r : small t -> small p -> small r ->
  subtract t p r = Z.max 0 (t - p - r) /\ in_int64 (subtract t p r).
Proof.
  unfold small, subtract. intros. rewrite (int64_id (t - p)) by (unfold in_int64; simpl in *; lia).
  rewrite int64_id by (unfold in_int64; simpl in *; lia).
  destruct (Z.ltb_spec (t - p - r) 0); unfold in_int64; simpl in *; lia.
Qed.

Lemma computeAllocatable_facts (w : predictorWrapper (Q := Q) (MA := MA)) c total rc rm rl :
  c_total c = Ok total -> reservedAmounts w = Ret (rc, rm) -> small rc -> small rm ->
  small (cpuMilli total) -> small (memBytes total) ->
  computeAllocatable w c = Ret (Some rl) ->
  let online := match predictors w with p :: _ => Predict p (c_reply c) | [] => ∅ end in
  small (cpuMilli online) -> small (memBytes online) ->
  cpuMilli rl = Z.max 0 (cpuMilli total - cpuMilli online - rc) /\
  memBytes rl = Z.max 0 (memBytes total - memBytes online - rm).
Proof.
  intros Ht Hr Hrc Hrm Htc Htm Hrl online Hc Hm. unfold computeAllocatable in Hrl. rewrite Ht, Hr in Hrl.
  unfold mbind, outcome_bind in Hrl. injection Hrl as <-. cbn [fst snd].
  assert (in_int64 rc) by (unfold small, in_int64 in *; simpl in *; lia).
  assert (in_int64 rm) by (unfold small, in_int64 in *; simpl in *; lia).
  rewrite !(cpuMilli_predicted rc rm), !(memBytes_predicted rc rm) by done. fold online.
  destruct (subtract_small _ _ _ Htc Hc Hrc) as [E1 Hs1]. destruct (subtract_small _ _ _ Htm Hm Hrm) as [E2 Hs2].
  by rewrite cpuMilli_predicted, memBytes_predicted, E1, E2.
Qed.

(** C9: the resources for offline jobs are the capacity without the predicted
    online use and the reserve, and zero when these exceed it; so they are
    never negative and never more than the capacity. *)
Theorem allocatable_bounds (w : predictorWrapper (Q := Q) (MA := MA)) c total rc rm rl :
  c_total c = Ok total -> reservedAmounts w = Ret (rc, rm) -> small rc -> small rm ->
  small (cpuMilli total) -> small (memBytes total) ->
  computeAllocatable w c = Ret (Some rl) ->
  let online := match predictors w with p :: _ => Predict p (c_reply c) | [] => ∅ end in
  small (cpuMilli online) -> small (memBytes online) ->
  cpuMilli rl = Z.max 0 (cpuMilli total - cpuMilli online - rc) /\
  memBytes rl = Z.max 0 (memBytes total - memBytes online - rm) /\
  0 <= cpuMilli rl <= cpuMilli total /\ 0 <= memBytes rl <= memBytes total.
Proof.
  intros Ht Hr Hrc Hrm Htc Htm Hc online Hpc Hpm.
  destruct (computeAllocatable_facts w c total rc rm rl Ht Hr Hrc Hrm Htc Htm Hc Hpc Hpm) as [E1 E2].
  fold online in E1, E2. unfold small in *. rewrite E1, E2. lia.
Qed.

(** A prediction server that cannot be reached or fails counts as a prediction of
    zero: everything but the reserve is offered to offline jobs, whatever the
    online jobs use. *)
Theorem failed_prediction_offers_everything (w : predictorWrapper (Q := Q) (MA := MA)) c config ps total rc rm rl :
  predictors w = Vpa config :: ps ->
  (exists e, c_reply c = VpaFailed e) \/ (exists status res, c_reply c = VpaReplied status res /\ status <> 200) ->
  c_total c = Ok total -> reservedAmounts w = Ret (rc, rm) -> small rc -> small rm ->
  small (cpuMilli total) -> small (memBytes total) ->
  computeAllocatable w c = Ret (Some rl) ->
  cpuMilli rl = Z.max 0 (cpuMilli total - rc) /\ memBytes rl = Z.max 0 (memBytes total - rm).
Proof.
  intros Hp Hf Ht Hr Hrc Hrm Htc Htm Hc.
  assert (Hon : match predictors w with p :: _ => Predict p (c_reply c) | [] => ∅ end = (∅ : gmap string Q)).
  { rewrite Hp. simpl. destruct Hf as [[e ->]|(st & res & -> & Hst)]; [done|]. simpl.
    by destruct (Z.eqb_spec st 200). }
  assert (E1 : cpuMilli (∅ : gmap string Q) = 0 /\ memBytes (∅ : gmap string Q) = 0).
  { unfold cpuMilli, memBytes, rl_Cpu, rl_Memory. rewrite !lookup_empty. simpl.
    rewrite qMilliValue_spec, qValue_spec, amount_Zero by (rewrite amount_Zero; vm_compute; split; congruence). done. }
  destruct E1 as [E1 E2].
  destruct (computeAllocatable_facts w c total rc rm rl Ht Hr Hrc Hrm Htc Htm Hc) as [Hs1 Hs2];
    rewrite Hon in *; rewrite ?E1, ?E2 in *; [unfold small; lia|unfold small; lia|]. rewrite Hs1, Hs2. lia.
Qed.
End Amounts.

(** ** Well-formed configurations *)

Section WellFormed.
Context {Q : Type} `{QO : QuantityOps Q} {VL : VpaLib} {RO : RangeOrder} {ME : MachineEnv}.
Context {MA : Type} (NewMovingAverage : float64 -> MA) (MA_Add : MA -> float64 -> MA) (MA_Value : MA -> float64).

Record config_ok (c : PredictConfig) : Prop := {
  ok_type : PredictType c = LocalPredictorType \/ PredictType c = VPAPredictorType;
  ok_interval : PredictType c = LocalPredictorType -> CheckInterval c <> 0;
  ok_cpu : is_Some (CpuMilli (ReserveResource c));
  ok_mem : is_Some (MemMB (ReserveResource c));
}.

Lemma InitPredictConfig_ok tr c c' : InitPredictConfig (Q := Q) tr c = Ret c' -> config_ok c'.
Proof.
  unfold InitPredictConfig.
  set (c1 := if Disable c then _ else _). set (c2 := if (PredictType c1 =? "")%string then _ else _).
  destruct (AvailablePredictType (PredictType c2)) eqn:Ea; [|done]. simpl.
  destruct (_ && _); [done|].
  set (c3 := if (PredictType c2 =? LocalPredictorType)%string then _ else _).
  assert (Ht : PredictType c3 = PredictType c2) by (unfold c3; by case_match).
  assert (Hi : PredictType c2 = LocalPredictorType -> CheckInterval c3 <> 0).
  { intros E. unfold c3. rewrite E, String.eqb_refl. simpl. unfold or_default_Z.
    destruct (Z.eqb_spec (CheckInterval c2) 0); [vm_compute; congruence|done]. }
  unfold mbind, outcome_bind. destruct (reservePercent (CpuPercentStr _) _); [|done].
  destruct (reservePercent (MemPercentStr _) _); [|done].
  unfold getReservedResource. destruct (GetTotalResource tr) as [total|]; [|done]. intros [= <-].
  split; cbn [set_Reserve PredictType CheckInterval ReserveResource CpuMilli MemMB]; rewrite ?Ht; eauto.
  unfold AvailablePredictType in Ea. apply orb_true_iff in Ea as [E|E]; apply String.eqb_eq in E; auto.
Qed.

Lemma initConfigsLoop_ok tr i cs cs' : initConfigsLoop (Q := Q) tr i cs = Ret cs' -> Forall config_ok cs' /\ length cs' = length cs.
Proof.
  revert i cs'. induction cs as [|c cs IH]; intros i cs'; cbn [initConfigsLoop]; [by intros [= <-]|].
  unfold mbind, outcome_bind. destruct (InitPredictConfig tr _) as [c1|] eqn:E1; [|done].
  destruct (initConfigsLoop tr (S i) cs) as [rest|] eqn:E2; [|done]. intros [= <-].
  destruct (IH _ _ E2) as [H1 H2]. simpl. split; [|lia]. constructor; [by eapply InitPredictConfig_ok|done].
Qed.

Definition predictor_ok (p : predictor (MA := MA)) : Prop :=
  match p with Local p => ewma_ok (anomalyDetector p) | Vpa _ => True end.

Lemma sampleWeight_total p now v :
  ewma_ok (anomalyDetector p) ->
  exists d weight, sampleWeight MA_Add MA_Value p now v = Ret (d, weight) /\ ewma_ok d.
Proof.
  intros Hd. unfold sampleWeight. destruct (EnableTuneCPUWeight _); [|by do 2 eexists].
  destruct (ewma_add_ok MA_Add (anomalyDetector p) (mkTimedData now {["cpu" := v]}) Hd) as (d & E & Hok & _).
  unfold mbind, outcome_bind. rewrite E. destruct (ewma_IsAnomaly_total MA_Value d Hok) as [r ->].
  by do 2 eexists.
Qed.

Lemma addSample_total p now st :
  ewma_ok (anomalyDetector p) ->
  exists p', addSample MA_Add MA_Value p now st = Ret p' /\ ewma_ok (anomalyDetector p').
Proof.
  intros Hd. unfold addSample. destruct (getRecentOnlineResource st) as [[cpu mem]|]; [|eauto].
  destruct (sampleWeight_total p now cpu Hd) as (d & weight & E & Hd'). unfold mbind, outcome_bind. rewrite E. eauto.
Qed.

Definition wrapper_ok (w : predictorWrapper (Q := Q) (MA := MA)) : Prop :=
  config_ok (w_config w) /\ Forall predictor_ok (predictors w).

Lemma sample_predictors_total now st ps :
  Forall predictor_ok ps -> exists ps', sample_predictors MA_Add MA_Value now st ps = Ret ps' /\ Forall predictor_ok ps'.
Proof.
  induction 1 as [|p ps Hp Hps (ps' & E & IH)]; cbn [sample_predictors]; [eauto|].
  assert (Hs : exists p', sample_predictor MA_Add MA_Value now st p = Ret p' /\ predictor_ok p').
  { destruct p as [p|c]; cbn [sample_predictor]; [|eauto]. destruct (Disable _); [eauto|].
    destruct (addSample_total p now st Hp) as (p' & E' & Hp'). unfold mbind, outcome_bind. rewrite E'. eauto. }
  destruct Hs as (p' & E' & Hp'). unfold mbind, outcome_bind. rewrite E', E. eauto.
Qed.

Lemma step_total w e : wrapper_ok w -> exists w', step MA_Add MA_Value w e = Ret w' /\ wrapper_ok w'.
Proof.
  intros [Hc Hp]. destruct e as [now st|c]; cbn [step]; unfold mbind, outcome_bind.
  - destruct (sample_predictors_total now st (predictors w) Hp) as (ps & E & Hps). rewrite E. by eexists.
  - unfold GetAllocatableForBatch, mbind, outcome_bind. destruct (_ && _); [by eexists|].
    unfold computeAllocatable, reservedAmounts, mbind, outcome_bind.
    destruct (c_total c); [|by eexists]. destruct Hc as [H1 H2 [cm Hcm] [mm Hmm]]. rewrite Hcm, Hmm.
    eexists. split; [done|]. split; [|done]. split; cbn [w_config snd]; rewrite ?Hcm, ?Hmm; eauto.
Qed.

Lemma newPredictors_total cs :
  Forall config_ok cs -> exists ps, newPredictors NewMovingAverage cs = Ret ps /\ Forall predictor_ok ps.
Proof.
  induction 1 as [|c cs [Ht Hi _ _] Hcs (ps & E & IH)]; cbn [newPredictors]; [eauto|].
  assert (Hp : exists p, newPredictor NewMovingAverage c = Ret p /\ predictor_ok p).
  { unfold newPredictor. destruct Ht as [Ht|Ht]; rewrite Ht.
    - rewrite String.eqb_refl. unfold NewLocalPredict. destruct (Z.eqb_spec (CheckInterval c) 0); [by destruct (Hi Ht)|].
      eexists. split; [reflexivity|]. cbn [predictor_ok anomalyDetector]. unfold NewEwmaDetector. split; cbn [ew_n ew_data ew_addCount].
      + destruct (Z.ltb_spec (Z.quot (30 * Minute) (CheckInterval c)) (Z.of_nat MinData)); unfold MinData in *; lia.
      + exists []. split; [|done]. apply ring_rep_new.
        destruct (Z.ltb_spec (Z.quot (30 * Minute) (CheckInterval c)) (Z.of_nat MinData)); unfold MinData in *; lia.
    - eexists. by split. }
  destruct Hp as (p & E' & Hp). unfold mbind, outcome_bind. rewrite E', E. eauto.
Qed.

(** A configuration that passes its check is well-formed: its type is known, a
    local predictor has an interval, and the reserve is set; so the predictors are
    created, and no sequence of samples and calls makes them panic. *)
Theorem checked_config_never_panics tr configs configs' es :
  initPredictConfigs (Q := Q) tr configs = Ret configs' ->
  Forall config_ok configs' /\
  exists w w', NewPredictorOrDie (Q := Q) NewMovingAverage configs' = Ret w /\ run MA_Add MA_Value w es = Ret w'.
Proof.
  intros Hi. unfold initPredictConfigs in Hi. destruct configs as [|c cs]; [done|].
  apply initConfigsLoop_ok in Hi as [Hok Hlen]. split; [done|].
  destruct configs' as [|c' cs']; [done|].
  destruct (newPredictors_total (c' :: cs') Hok) as (ps & E & Hps).
  unfold NewPredictorOrDie, mbind, outcome_bind. rewrite E.
  set (w := mkWrapper c' ps ∅ nilTime).
  assert (Hw : wrapper_ok w) by (split; [by inversion Hok|done]).
  assert (Hrun : exists w', run MA_Add MA_Value w es = Ret w').
  { clearbody w. revert w Hw. induction es as [|e es IH]; intros w Hw; cbn [run]; [by exists w|].
    destruct (step_total w e Hw) as (w1 & E1 & Hw1). unfold mbind, outcome_bind. rewrite E1. by apply IH. }
  destruct Hrun as [w' Hrun]. by exists w, w'.
Qed.
End WellFormed.

(** ** Examples *)

Definition ex_vpa_lib : VpaLib := {|
  ACS := list ContainerUsageSample;
  NewAggregateContainerState := [];
  acs_AddSample := fun l s => s :: l;
  GetControlledResources := fun _ => ["cpu"; "memory"];
  Estimator := unit;
  NewPercentileEstimator := fun _ _ => tt;
  WithMargin := fun _ e => e;
  WithMinResources := fun _ e => e;
  GetResourceEstimation := fun _ l => list_to_map (map (fun s => (sample_Resource s, Usage s)) l);
  ScaleResource := fun a _ => a;
  CPUAmountFromCores := int64_of_float64;
  MemoryAmountFromBytes := int64_of_float64;
  DefaultMemoryAggregationInterval := 24 * Hour;
  DefaultMemoryAggregationIntervalCount := 8;
  DefaultMemoryHistogramDecayHalfLife := 24 * Hour;
  DefaultCPUHistogramDecayHalfLife := 24 * Hour;
|}.

Definition ex_machine : MachineEnv := {| cpu_count := Ok 4; mem_total := 8192 * MemUnit |}.
Definition ex_local_config : LocalPredictConfig :=
  mkLocalPredict fzero fzero fzero fzero fzero 0 0 0 0 true 0 0 0.
Definition ex_predict_config : PredictConfig :=
  mkPredictConfig false 0 "" "" (mkResource None (Some (float64_of_Z 512)) "10%" None "" None) 0 ex_local_config "".

Definition ex_checked : list PredictConfig :=
  match initPredictConfigs (Q := Z) (VL := ex_vpa_lib) (ME := ex_machine) ∅ [ex_predict_config] with
  | Ret cs => cs
  | Crash _ => []
  end.

Definition ex_average (n : float64) : float64 := fzero.
Definition ex_average_add (a v : float64) : float64 := fdiv (fadd a v) (float64_of_Z 2).

Definition ex_sample (t : time) : event (Q := Z) :=
  ESample t (Ok (Some (mkNodeState (Some (float64_of_Z 3, float64_of_Z 1)) (Some (float64_of_Z 1000000, float64_of_Z 0))))).
Definition ex_call (t : time) : call (Q := Z) :=
  mkCall t t (VpaFailed "") (GetTotalResource (ME := ex_machine) ∅).
Definition ex_history : list (event (Q := Z)) := [ex_sample 1; ECall (ex_call 2); ex_sample 3].

Lemma checked_config_never_panics_witness :
  Forall config_ok ex_checked /\
  exists w w', NewPredictorOrDie (Q := Z) (VL := ex_vpa_lib) (MA := float64) ex_average ex_checked = Ret w /\
    run (VL := ex_vpa_lib) (RO := key_order) ex_average_add (fun a => a) w ex_history = Ret w'.
Proof.
  apply (checked_config_never_panics (Q := Z) (VL := ex_vpa_lib) (RO := key_order) (ME := ex_machine)
    ex_average ex_average_add (fun a => a) ∅ [ex_predict_config]).
  vm_compute. reflexivity.
Defined.

Definition returns {A} (r : outcome A) : bool := match r with Ret _ => true | Crash _ => false end.

Definition ex_wrapper : predictorWrapper (Q := Z) (VL := ex_vpa_lib) (MA := float64) :=
  match NewPredictorOrDie (Q := Z) (VL := ex_vpa_lib) (MA := float64) ex_average ex_checked with
  | Ret w => w
  | Crash _ => mkWrapper ex_predict_config [] ∅ 0
  end.
Definition ex_after : predictorWrapper (Q := Z) (VL := ex_vpa_lib) (MA := float64) :=
  match run (VL := ex_vpa_lib) (RO := key_order) ex_average_add (fun a => a) ex_wrapper ex_history with
  | Ret w => w
  | Crash _ => ex_wrapper
  end.

Lemma allocatable_is_recent_witness :
  computeAllocatable (RO := key_order) ex_after (ex_call 4) = Ret (Some (cacheRes ex_after)) \/
  exists es1 c1 es2 w1, ex_history = es1 ++ ECall c1 :: es2 /\
    run (VL := ex_vpa_lib) (RO := key_order) ex_average_add (fun a => a) ex_wrapper es1 = Ret w1 /\
    computeAllocatable (RO := key_order) w1 c1 = Ret (Some (cacheRes ex_after)) /\
    c_now (ex_call 4) - c_done c1 < CheckInterval (w_config ex_wrapper).
Proof.
  assert (E1 : NewPredictorOrDie (Q := Z) (VL := ex_vpa_lib) ex_average ex_checked = Ret ex_wrapper).
  { assert (E : returns (NewPredictorOrDie (Q := Z) (VL := ex_vpa_lib) ex_average ex_checked) = true) by (vm_compute; reflexivity).
    unfold ex_wrapper. by destruct (NewPredictorOrDie _ _). }
  assert (E2 : in_int64 (CheckInterval (w_config ex_wrapper))) by (vm_compute; split; congruence).
  assert (E3 : run (VL := ex_vpa_lib) (RO := key_order) ex_average_add (fun a => a) ex_wrapper ex_history = Ret ex_after).
  { assert (E : returns (run (VL := ex_vpa_lib) (RO := key_order) ex_average_add (fun a => a) ex_wrapper ex_history) = true)
      by (vm_compute; reflexivity).
    unfold ex_after. by destruct (run _ _ _ _). }
  assert (E4 : GetAllocatableForBatch (RO := key_order) ex_after (ex_call 4) = Ret (Some (cacheRes ex_after), ex_after)).
  { assert (E : negb (bool_decide (dom (cacheRes ex_after) = ∅)) &&
      (time_Sub (c_now (ex_call 4)) (cacheTs ex_after) <? CheckInterval (w_config ex_after)) = true) by (vm_compute; reflexivity).
    unfold GetAllocatableForBatch. by rewrite E. }
  exact (allocatable_is_recent (VL := ex_vpa_lib) (RO := key_order) ex_average ex_average_add (fun a => a)
    ex_checked ex_wrapper ex_history ex_after (ex_call 4) (cacheRes ex_after) ex_after E1 E2 E3 E4).
Defined.

Definition ex_allocatable : gmap string Z := cacheRes ex_after.

Lemma allocatable_bounds_witness :
  let total : gmap string Z := <["cpu" := 4 * 1000 * nano_per_milli]> {["memory" := 8192 * MemUnit * nano]} in
  cpuMilli ex_allocatable = 1600 /\ 0 <= cpuMilli ex_allocatable <= cpuMilli total /\
  0 <= memBytes ex_allocatable <= memBytes total.
Proof.
  intros total. split; [vm_compute; reflexivity|].
  set (w := match run (VL := ex_vpa_lib) (RO := key_order) ex_average_add (fun a => a) ex_wrapper [ex_sample 1] with
            | Ret w => w | Crash _ => ex_wrapper end).
  apply (allocatable_bounds (VL := ex_vpa_lib) (RO := key_order) w (ex_call 2) total 400 (512 * MemUnit) ex_allocatable);
    vm_compute; (reflexivity || (split; congruence)).
Defined.

Lemma failed_prediction_offers_everything_witness :
  let total : gmap string Z := <["cpu" := 4 * 1000 * nano_per_milli]> {["memory" := 8192 * MemUnit * nano]} in
  let rl := predicted_list (Q := Z) 3600 (7680 * MemUnit) in
  cpuMilli rl = Z.max 0 (cpuMilli total - 400) /\ memBytes rl = Z.max 0 (memBytes total - 512 * MemUnit).
Proof.
  intros total rl. set (w := mkWrapper (Q := Z) (VL := ex_vpa_lib) (MA := float64) (w_config ex_wrapper) [Vpa ex_predict_config] ∅ 0).
  apply (failed_prediction_offers_everything (VL := ex_vpa_lib) (RO := key_order) w (ex_call 2) ex_predict_config [] total
    400 (512 * MemUnit) rl);
    [reflexivity|left; by eexists|vm_compute; (reflexivity || (split; congruence))..].
Defined.
