(* ===== verification/Online.v ===== *)
(** * Online jobs outside of Kubernetes

    pkg/caelus/online: the manager finds the processes of configured jobs by
    their command lines, registers the cgroups they run in, and moves processes
    without a cgroup of their own to one.  Regular expressions ([GoRegexp]), /proc and the directories
    of the cgroup file system ([ProcEnv]) are parameters; the state has the job
    specifications, the cgroup files and the calls of the statestore. *)

From Stdlib Require Import Ascii.
From S2P Require Import Prelude GoStrings Cgroup.

#[local] Open Scope string_scope.
#[local] Open Scope Z_scope.
#[local] Open Scope list_scope.

(** ** Data *)

(** The package regexp: the error of [Compile], and the successive matches
    [FindAllIndex] of an expression in a text, as pairs of byte indices. *)
Class GoRegexp := {
  Compile : string -> option error;
  FindAllIndex : string -> string -> list (Z * Z);
}.

(** What the manager reads of the processes and of the kernel in a round. *)
Class ProcEnv := {
  (** The names in /proc. *)
  proc_names : result (list string);
  (** The file /proc/pid/cmdline. *)
  proc_cmdline : Z -> result string;
  (** The cgroups of a process after [n] writes to cgroup files. *)
  proc_cgroups : nat -> Z -> result (gmap string string);
  (** runc's [GetAllSubsystems]. *)
  all_subsystems : result (list string);
  (** The files the kernel shows in a directory that [MkdirAll] creates and in
      the parents it creates. *)
  mkdir_files : string -> gmap string string;
}.

Record OnlineJobConfig := mkOnlineJob { job_Name : string; job_Command : string }.

Record cgroupSpec := mkCgroupSpec { fixed : bool; pidNum : Z }.

Record jobSpec := mkJobSpec { regexp : string; cgroups : gmap string cgroupSpec }.

Record onlineManager := mkOnlineManager {
  BatchNum : Z;
  jobSpecs : gmap string jobSpec;
  (** The state of the cgroup package. *)
  o_world : world;
  (** The calls of the statestore's [AddExtraCgroups], the last one first. *)
  extraCgroups : list (list string);
}.

Definition set_jobSpecs (o : onlineManager) (specs : gmap string jobSpec) : onlineManager :=
  mkOnlineManager (BatchNum o) specs (o_world o) (extraCgroups o).
Definition set_o_world (o : onlineManager) (w : world) : onlineManager :=
  mkOnlineManager (BatchNum o) (jobSpecs o) w (extraCgroups o).
Definition add_extra (o : onlineManager) (cgs : list string) : onlineManager :=
  mkOnlineManager (BatchNum o) (jobSpecs o) (o_world o) (cgs :: extraCgroups o).

(** A computation on the cgroup files. *)
Definition in_world {A} (m : M A) : SC onlineManager A := fun o =>
  let '(a, w) := m (o_world o) in Ret (a, set_o_world o w).

Definition defaultPidNumber : Z := -1.
Definition CgroupNonK8sOnline : string := "/onlinejobs".
Definition PerfEventSubsystem : string := "perf_event".

(** ** Operations *)

Section Online.
Context {CE : CgroupEnv} {RE : GoRegexp}.

(** A job whose expression does not compile ends the process. *)
Fixpoint newSpecs (jobs : list OnlineJobConfig) (specs : gmap string jobSpec) : outcome (gmap string jobSpec) :=
  match jobs with
  | [] => Ret specs
  | job :: jobs' =>
      match Compile (job_Command job) with
      | Some _ => Crash (Fatal "invalid regexp expression")
      | None => newSpecs jobs' (<[job_Name job := mkJobSpec (job_Command job) ∅]> specs)
      end
  end.

Definition NewOnlineManager (batchNum : Z) (jobs : list OnlineJobConfig) (w : world) : outcome onlineManager :=
  specs ← newSpecs jobs ∅;
  Ret (mkOnlineManager batchNum specs w []).

(** [sets.String.List] sorts. *)
Definition GetOnlineCgroups (o : onlineManager) : list string :=
  set_of_list (concat (map (fun '(_, p) => map fst (map_to_list (cgroups p))) (map_to_list (jobSpecs o)))).

(** ** Finding processes *)

Definition first_digit (s : string) : outcome bool :=
  match s with
  | EmptyString => Crash (Panic "index out of range")
  | String c _ => Ret (bool_decide (is_Some (char_digit c)))
  end.

Fixpoint pidsOf (procs : list string) : outcome (list Z) :=
  match procs with
  | [] => Ret []
  | pStr :: procs' =>
      d ← first_digit pStr;
      pids ← pidsOf procs';
      Ret (if (d : bool) then match ParseUint pStr with Some p => int64 p :: pids | None => pids end else pids)
  end.

Definition getMachinePidList {PE : ProcEnv} : outcome (list Z) :=
  match proc_names with
  | Err _ => Crash (Fatal "read /proc err")
  | Ok procs => pidsOf procs
  end.

(** [bytes.ReplaceAll] of the byte 0 by a space. *)
Fixpoint null_to_space (s : string) : string :=
  match s with
  | EmptyString => EmptyString
  | String c s' => String (if Ascii.eqb c Ascii.zero then " "%char else c) (null_to_space s')
  end.

Definition cmdLine {PE : ProcEnv} (p : Z) : string :=
  match proc_cmdline p with
  | Err _ => ""
  | Ok s => null_to_space s
  end.

(** The first and the last index of each line of the joined text. *)
Fixpoint line_indexs (i : Z) (lines : list string) : list (Z * Z) :=
  match lines with
  | [] => []
  | l :: lines' => let nextIndex := i + slen l in (i, nextIndex) :: line_indexs (nextIndex + 1) lines'
  end.

Definition inside (index mtch : Z * Z) : bool := (index.1 <=? mtch.1) && (mtch.2 <=? index.2).

(** The processes of a batch with a match inside their command line. *)
Fixpoint pickMatched (matcheds : list (Z * Z)) (indexs : list (Z * Z)) (pidList : list Z) : list Z :=
  match indexs, pidList with
  | index :: indexs', p :: pidList' =>
      let rest := pickMatched matcheds indexs' pidList' in
      if existsb (inside index) matcheds then p :: rest else rest
  | _, _ => []
  end.

Definition batchMatchPidList {PE : ProcEnv} (pidList : list Z) (exp : string) : list Z :=
  match pidList with
  | [] => []
  | _ =>
      let cmdLines := map cmdLine pidList in
      let indexs := line_indexs 0 cmdLines in
      let matcheds := FindAllIndex exp (Join cmdLines "+") in
      match matcheds with
      | [] => []
      | _ => pickMatched matcheds indexs pidList
      end
  end.

Fixpoint matchLoop {PE : ProcEnv} (batchNum : Z) (exp : string) (i : Z) (pidList handling matched : list Z) :
    outcome (list Z) :=
  match pidList with
  | [] => Ret (match handling with [] => matched | _ => matched ++ batchMatchPidList handling exp end)
  | p :: pidList' =>
      let handling := handling ++ [p] in
      if batchNum =? 0 then Crash (Panic "integer divide by zero")
      else if i `rem` batchNum =? 0 then
        matchLoop batchNum exp (int64 (i + 1)) pidList' [] (matched ++ batchMatchPidList handling exp)
      else matchLoop batchNum exp (int64 (i + 1)) pidList' handling matched
  end.

Definition matchJobPidList {PE : ProcEnv} (o : onlineManager) (pidList : list Z) (jobName : string) : outcome (list Z) :=
  match jobSpecs o !! jobName with
  | None => Crash (Panic "nil pointer dereference")
  | Some spec => matchLoop (BatchNum o) (regexp spec) 1 pidList [] []
  end.

(** ** Cgroups of processes *)

Definition cgroupNotFixed (cgPath : string) : bool :=
  (cgPath =? "/")%string || (cgPath =? "/user.slice")%string || Contains cgPath CgroupNonK8sOnline.

Definition EnsureCgroupPath {PE : ProcEnv} (pathInRoot : string) : M (option error) := fun w =>
  match all_subsystems with
  | Err e => (Some e, w)
  | Ok cgs =>
      (None, fold_left (fun w cg =>
        set_files w (files w ∪ mkdir_files (path_Join [env_root; cg; pathInRoot])) (writes w)) cgs w)
  end.

Definition moveOnlinePidList {PE : ProcEnv} (cgPath : string) (pids : list Z) (subSystem : list string) : M unit :=
  e ← EnsureCgroupPath cgPath;
  match e with
  | Some _ => mret tt
  | None =>
      e ← EnsureCpuSetCores cgPath;
      match e with
      | Some _ => mret tt
      | None =>
          let subSystem :=
            match subSystem with
            | [] => [PerfEventSubsystem; MemorySubsystem; CPUSubsystem; CpuSetSubsystem]
            | _ => subSystem
            end in
          _ ← MoveSpecificPids subSystem pids cgPath;
          mret tt
      end
  end.

(** The variables of [updateJobSpec] and the cgroups of the job. *)
Record update := mkUpdate {
  needMovePidList : list Z;
  targetCgName : string;
  isSystemdService : bool;
  u_cgroups : gmap string cgroupSpec;
  added : bool;
}.

(** The body of the loop over the processes of a job, after [n] writes. *)
Definition updatePid {PE : ProcEnv} (n : nat) (nonFixedCgName : string) (u : update) (pid : Z) : update :=
  match proc_cgroups n pid with
  | Err _ => u
  | Ok cgs =>
      let cgName := default "" (cgs !! MemorySubsystem) in
      let notFixed := cgroupNotFixed cgName in
      let '(cgName, u) :=
        if notFixed then
          (nonFixedCgName,
           mkUpdate (needMovePidList u ++ [pid]) (targetCgName u) (isSystemdService u) (u_cgroups u) (added u))
        else if negb (default "" (cgs !! CpuSetSubsystem) =? cgName)%string then
          (cgName, mkUpdate (needMovePidList u ++ [pid]) cgName true (u_cgroups u) (added u))
        else (cgName, u) in
      match u_cgroups u !! cgName with
      | Some _ => u
      | None =>
          mkUpdate (needMovePidList u) (targetCgName u) (isSystemdService u)
            (<[cgName := mkCgroupSpec (negb notFixed) defaultPidNumber]> (u_cgroups u)) true
      end
  end.

Definition updateJobSpec {PE : ProcEnv} (pidList : list Z) (jobName : string) (spec : jobSpec) :
    SC onlineManager bool :=
  n ← sc_get (fun o => writes (o_world o));
  let nonFixedCgName := path_Join [CgroupNonK8sOnline; jobName] in
  let u := fold_left (updatePid n nonFixedCgName) pidList (mkUpdate [] nonFixedCgName false (cgroups spec) false) in
  _ ← sc_modify (fun o => set_jobSpecs o (<[jobName := mkJobSpec (regexp spec) (u_cgroups u)]> (jobSpecs o)));
  _ ← (match needMovePidList u with
       | [] => mret tt
       | _ =>
           in_world (moveOnlinePidList (targetCgName u) (needMovePidList u)
             (if isSystemdService u then [CpuSetSubsystem; PerfEventSubsystem] else []))
       end);
  mret (added u).

(** ** Rounds *)

Context {RO : RangeOrder}.

Definition notifyContainerManager : SC onlineManager unit :=
  sc_modify (fun o =>
    add_extra o (concat (map (fun '(job, spec) =>
      map (fun '(cg, _) => if HasPrefix cg CgroupNonK8sOnline then CgroupNonK8sOnline else cg)
        (range_map ("notifyContainerManager" +:+ job) (cgroups spec)))
      (range_map "notifyContainerManager" (jobSpecs o))))).

(** [updated || updateJobSpec(...)] does not call the function once [updated]
    is true. *)
Fixpoint generateLoop {PE : ProcEnv} (allPidList : list Z) (jobs : list string) (updated : bool) : SC onlineManager bool :=
  match jobs with
  | [] => mret updated
  | jobName :: jobs' =>
      o ← sc_get id;
      match matchJobPidList o allPidList jobName, jobSpecs o !! jobName with
      | Crash c, _ => sc_crash c
      | _, None => sc_crash (Panic "nil pointer dereference")
      | Ret [], _ => generateLoop allPidList jobs' updated
      | Ret matchedPidList, Some spec =>
          updated' ← (if updated then mret true else updateJobSpec matchedPidList jobName spec);
          generateLoop allPidList jobs' updated'
      end
  end.

Definition generateOnlineCgroups {PE : ProcEnv} : SC onlineManager unit :=
  match getMachinePidList with
  | Crash c => sc_crash c
  | Ret allPidList =>
      jobs ← sc_get (fun o => (range_map "generateOnlineCgroups" (jobSpecs o)).*1);
      updated ← generateLoop allPidList jobs false;
      if (updated : bool) then notifyContainerManager else mret tt
  end.

(** The number of processes in a cgroup, when it can be read. *)
Definition pidCount (w : world) (cg : string) : option Z :=
  match env_pids (writes w) (path_Join [env_root; MemorySubsystem; cg]) with
  | Pids pids => Some (Z.of_nat (length pids))
  | PidsNotExist | PidsErr _ => None
  end.

(** A cgroup of a job after the check, and whether it has changed. *)
Definition checkCgroup (w : world) (cg : string) (cgSpec : cgroupSpec) : cgroupSpec * bool :=
  if fixed cgSpec then (cgSpec, false)
  else match pidCount w cg with
       | None => (cgSpec, false)
       | Some newNum =>
           if newNum =? pidNum cgSpec then (cgSpec, false) else (mkCgroupSpec (fixed cgSpec) newNum, true)
       end.

(** The loops visit every cgroup of every job once, and the order does not
    matter: nothing is written to the cgroup files. *)
Definition checkOnlineCgroupPath : SC onlineManager bool := fun o =>
  let check := checkCgroup (o_world o) in
  let specs := (fun spec => mkJobSpec (regexp spec) (map_imap (fun cg c => Some (check cg c).1) (cgroups spec))) <$> jobSpecs o in
  let changed := existsb (fun '(_, spec) => existsb (fun '(cg, c) => (check cg c).2) (map_to_list (cgroups spec)))
                   (map_to_list (jobSpecs o)) in
  Ret (changed, set_jobSpecs o specs).

(** The periodic check of the cgroups. *)
Definition cgroupCheck {PE : ProcEnv} : SC onlineManager unit :=
  changed ← checkOnlineCgroupPath;
  if (changed : bool) then generateOnlineCgroups else mret tt.

End Online.

(** ** Batches

    The command lines of a batch are joined, and one search finds the matches
    of them all. *)

Definition shift (i : Z) (m : Z * Z) : Z * Z := (i + m.1, i + m.2).

Section Batches.
Context {RE : GoRegexp} {PE : ProcEnv}.
Variable exp : string.

(** Indices lie in the text. *)
Hypothesis matches_within : forall s m, m ∈ FindAllIndex exp s -> 0 <= m.1 <= m.2 /\ m.2 <= slen s.

(** No match reaches across a plus sign: the matches of two texts joined by it
    are those of the texts. *)
Definition separable : Prop :=
  forall a b, FindAllIndex exp (a +:+ "+" +:+ b) = FindAllIndex exp a ++ map (shift (slen a + 1)) (FindAllIndex exp b).

Fixpoint line_matches (i : Z) (lines : list string) : list (Z * Z) :=
  match lines with
  | [] => []
  | l :: lines' => map (shift i) (FindAllIndex exp l) ++ line_matches (i + slen l + 1) lines'
  end.

Lemma shift_shift i j ms : map (shift i) (map (shift j) ms) = map (shift (i + j)) ms.
Proof. rewrite map_map. apply map_ext. intros m. unfold shift. simpl. f_equal; lia. Qed.

Lemma slen_nonneg s : 0 <= slen s.
Proof. unfold slen. lia. Qed.

Lemma FindAllIndex_Join i l lines :
  separable -> map (shift i) (FindAllIndex exp (Join (l :: lines) "+")) = line_matches i (l :: lines).
Proof.
  intros Hs. revert i l. induction lines as [|l' lines IH]; intros i l.
  { simpl. by rewrite app_nil_r. }
  change (Join (l :: l' :: lines) "+") with (l +:+ "+" +:+ Join (l' :: lines) "+").
  transitivity (map (shift i) (FindAllIndex exp l) ++ line_matches (i + slen l + 1) (l' :: lines)); [|done].
  rewrite Hs, map_app, shift_shift, <- IH. do 3 f_equal. lia.
Qed.

Lemma line_matches_from i lines m : m ∈ line_matches i lines -> i <= m.1 <= m.2.
Proof.
  revert i. induction lines as [|l lines IH]; intros i; cbn [line_matches]; [intros Hm; inversion Hm|].
  rewrite elem_of_app, list_elem_of_fmap. intros [(m' & -> & Hm)|Hm].
  - apply matches_within in Hm. simpl. lia.
  - apply IH in Hm. pose proof (slen_nonneg l). lia.
Qed.

Lemma existsb_outside index ms : (forall m, m ∈ ms -> inside index m = false) -> existsb (inside index) ms = false.
Proof.
  intros Hm. apply not_true_is_false. intros (m & Hin & E)%existsb_exists.
  rewrite Hm in E; [done|]. by apply list_elem_of_In.
Qed.

Lemma existsb_inside i l :
  existsb (inside (i, i + slen l)) (map (shift i) (FindAllIndex exp l)) = bool_decide (FindAllIndex exp l <> []).
Proof.
  pose proof (matches_within l) as Hw. destruct (FindAllIndex exp l) as [|m ms]; [done|]. simpl.
  specialize (Hw m ltac:(left)). unfold inside, shift. simpl.
  replace ((i <=? i + m.1) && (i + m.2 <=? i + slen l)) with true by lia. done.
Qed.

Lemma pickMatched_lines before i pids :
  (forall m, m ∈ before -> m.1 < i) ->
  pickMatched (before ++ line_matches i (map cmdLine pids)) (line_indexs i (map cmdLine pids)) pids =
  filter (fun p => FindAllIndex exp (cmdLine p) <> []) pids.
Proof.
  revert before i. induction pids as [|p pids IH]; intros before i Hb; [done|].
  cbn [map line_matches line_indexs pickMatched]. rewrite filter_cons, app_assoc, IH.
  - rewrite !existsb_app, existsb_inside. rewrite (existsb_outside _ before), (existsb_outside _ (line_matches _ _)).
    + simpl. rewrite orb_false_r. case_bool_decide; case_decide; done.
    + intros m Hm%line_matches_from. unfold inside. simpl. lia.
    + intros m Hm%Hb. unfold inside. simpl. lia.
  - intros m [Hm%Hb|Hm]%elem_of_app; [pose proof (slen_nonneg (cmdLine p)); lia|].
    apply list_elem_of_fmap in Hm as (m' & -> & Hm). apply matches_within in Hm. simpl. lia.
Qed.

Lemma batchMatchPidList_filter pids :
  separable -> batchMatchPidList pids exp = filter (fun p => FindAllIndex exp (cmdLine p) <> []) pids.
Proof.
  intros Hs. unfold batchMatchPidList. destruct pids as [|p pids]; [done|].
  assert (E : FindAllIndex exp (Join (map cmdLine (p :: pids)) "+") = line_matches 0 (map cmdLine (p :: pids))).
  { cbn [map]. rewrite <- (FindAllIndex_Join 0 (cmdLine p)) by done.
    rewrite (map_ext _ id); [by rewrite map_id|]. intros m. by destruct m. }
  rewrite E. rewrite <- (pickMatched_lines [] 0) by (intros m Hm; inversion Hm).
  destruct (line_matches 0 _) eqn:El; [|done].
  symmetry. clear. generalize (line_indexs 0 (map cmdLine (p :: pids))). intros l.
  generalize (p :: pids). induction l as [|x l IH]; intros [|q qs]; simpl; auto.
Qed.

Lemma matchLoop_facts batchNum i pids handling matched :
  separable -> batchNum <> 0 ->
  matchLoop batchNum exp i pids handling matched =
  Ret (matched ++ filter (fun p => FindAllIndex exp (cmdLine p) <> []) (handling ++ pids)).
Proof.
  intros Hs Hb. revert i handling matched. induction pids as [|p pids IH]; intros i handling matched; cbn [matchLoop].
  { rewrite app_nil_r. rewrite <- batchMatchPidList_filter by done. destruct handling; [|done].
    cbn. by rewrite app_nil_r. }
  destruct (Z.eqb_spec batchNum 0); [done|].
  rewrite (cons_middle p handling pids), app_assoc.
  destruct (_ =? 0); rewrite IH; [|done].
  rewrite batchMatchPidList_filter by done. cbn [app]. by rewrite (filter_app _ (handling ++ [p])), app_assoc.
Qed.

(** For an expression that does not match across command lines, a job gets
    exactly the processes whose own command line has a match, in their order,
    whatever the size of the batches. *)
Theorem batched_matching_exact o pids jobName spec :
  separable -> jobSpecs o !! jobName = Some spec -> regexp spec = exp -> BatchNum o <> 0 ->
  matchJobPidList o pids jobName = Ret (filter (fun p => FindAllIndex exp (cmdLine p) <> []) pids).
Proof.
  intros Hs Hj Hr Hb. unfold matchJobPidList. rewrite Hj, Hr. by rewrite matchLoop_facts.
Qed.

Lemma line_indexs_bound i lines index : index ∈ line_indexs i lines -> index.2 <= i + slen (Join lines "+") /\ i <= index.1.
Proof.
  revert i. induction lines as [|l lines IH]; intros i Hin; cbn [line_indexs] in Hin; [inversion Hin|].
  destruct lines as [|l' lines].
  { apply list_elem_of_singleton in Hin as ->. simpl. pose proof (slen_nonneg l). lia. }
  change (Join (l :: l' :: lines) "+") with (l +:+ "+" +:+ Join (l' :: lines) "+").
  assert (E : slen (l +:+ "+" +:+ Join (l' :: lines) "+") = slen l + 1 + slen (Join (l' :: lines) "+")).
  { unfold slen. rewrite !string_length_app. simpl. lia. }
  rewrite E. apply elem_of_cons in Hin as [->|Hin]; simpl.
  - pose proof (slen_nonneg l). pose proof (slen_nonneg (Join (l' :: lines) "+")). simpl in *. lia.
  - apply IH in Hin. pose proof (slen_nonneg l). simpl in *. lia.
Qed.

(** Of two or more lines none is the whole text. *)
Lemma line_indexs_short l l' lines index :
  index ∈ line_indexs 0 (l :: l' :: lines) -> inside index (0, slen (Join (l :: l' :: lines) "+")) = false.
Proof.
  change (Join (l :: l' :: lines) "+") with (l +:+ "+" +:+ Join (l' :: lines) "+").
  assert (E : slen (l +:+ "+" +:+ Join (l' :: lines) "+") = slen l + 1 + slen (Join (l' :: lines) "+")).
  { unfold slen. rewrite !string_length_app. simpl. lia. }
  rewrite E. change (line_indexs 0 (l :: l' :: lines)) with ((0, 0 + slen l) :: line_indexs (0 + slen l + 1) (l' :: lines)).
  unfold inside. intros [->|Hin]%elem_of_cons; simpl.
  - pose proof (slen_nonneg (Join (l' :: lines) "+")). simpl in *. lia.
  - apply line_indexs_bound in Hin. pose proof (slen_nonneg l). lia.
Qed.

Lemma pickMatched_none ms indexs pids :
  (forall index, index ∈ indexs -> existsb (inside index) ms = false) -> pickMatched ms indexs pids = [].
Proof.
  revert pids. induction indexs as [|index indexs IH]; intros [|p pids] Hi; simpl; auto.
  rewrite Hi by left. apply IH. intros. apply Hi. by right.
Qed.

Lemma matchLoop_one_batch batchNum i pids handling matched :
  0 < i -> i + Z.of_nat (length pids) <= batchNum -> batchNum < 2 ^ 63 ->
  matchLoop batchNum exp i pids handling matched = matchLoop batchNum exp i [] (handling ++ pids) matched.
Proof.
  revert i handling. induction pids as [|p pids IH]; intros i handling Hi Hb Hw; [by rewrite app_nil_r|].
  cbn [matchLoop]. simpl length in Hb. destruct (Z.eqb_spec batchNum 0); [lia|].
  destruct (Z.eqb_spec (Z.rem i batchNum) 0) as [E|E].
  { rewrite Z.rem_small in E by lia. lia. }
  rewrite int64_id by (unfold in_int64; simpl in *; lia). rewrite IH by lia.
  by rewrite (cons_middle p handling pids), app_assoc.
Qed.

(** The search depends on the size of the batches: an expression that matches a whole
    text, as ".*name.*" does, finds no process at all in a batch of two or more,
    although with batches of one it finds every process with a match. *)
Theorem whole_text_match_found_in_no_batch o pids jobName spec p1 p2 rest :
  pids = p1 :: p2 :: rest -> jobSpecs o !! jobName = Some spec -> regexp spec = exp ->
  Z.of_nat (length pids) < BatchNum o < 2 ^ 63 ->
  FindAllIndex exp (Join (map cmdLine pids) "+") = [(0, slen (Join (map cmdLine pids) "+"))] ->
  Forall (fun p => FindAllIndex exp (cmdLine p) = [(0, slen (cmdLine p))]) pids ->
  matchJobPidList o pids jobName = Ret [] /\
  matchJobPidList (mkOnlineManager 1 (jobSpecs o) (o_world o) (extraCgroups o)) pids jobName = Ret pids.
Proof.
  intros Ep Hj Hr Hb Hm Hone. unfold matchJobPidList. simpl. rewrite Hj, Hr. split.
  - rewrite matchLoop_one_batch by lia. subst pids. cbn [matchLoop app]. f_equal.
    unfold batchMatchPidList. rewrite Hm. apply pickMatched_none.
    intros index Hi. cbn [existsb map] in Hi |- *. by rewrite orb_false_r, line_indexs_short.
  - clear Hm Hb Ep. assert (E : forall i matched, matchLoop 1 exp i pids [] matched = Ret (matched ++ pids)).
    { induction Hone as [|p l Hp Hl IH]; intros i matched; cbn [matchLoop]; [by rewrite app_nil_r|].
      rewrite Z.rem_1_r. cbn [Z.eqb app]. rewrite IH. unfold batchMatchPidList. cbn [map Join]. rewrite Hp.
      cbn [line_indexs pickMatched existsb]. unfold inside. simpl.
      rewrite Z.leb_refl. simpl. by rewrite <- app_assoc. }
    by rewrite E.
Qed.
End Batches.

(** ** Rounds *)

Section Rounds.
Context {CE : CgroupEnv} {RE : GoRegexp} {RO : RangeOrder} {PE : ProcEnv}.
Implicit Types (o : onlineManager) (u : update) (pids : list Z).

(** The cgroup a process of a job is registered with after [n] writes. *)
Definition job_cgroup (n : nat) (jobName : string) (pid : Z) : option string :=
  match proc_cgroups n pid with
  | Err _ => None
  | Ok cgs =>
      let cgName := default "" (cgs !! MemorySubsystem) in
      Some (if cgroupNotFixed cgName then path_Join [CgroupNonK8sOnline; jobName] else cgName)
  end.

Definition registered (n : nat) (jobName : string) (cgs : gmap string cgroupSpec) (pid : Z) : bool :=
  match job_cgroup n jobName pid with
  | None => true
  | Some cg => bool_decide (is_Some (cgs !! cg))
  end.

Lemma updatePid_facts n jobName u pid :
  let u' := updatePid n (path_Join [CgroupNonK8sOnline; jobName]) u pid in
  (forall j, is_Some (u_cgroups u' !! j) <-> is_Some (u_cgroups u !! j) \/ job_cgroup n jobName pid = Some j) /\
  added u' = added u || negb (registered n jobName (u_cgroups u) pid).
Proof.
  unfold updatePid, registered, job_cgroup. destruct (proc_cgroups n pid) as [cgs|e]; simpl.
  2: { rewrite orb_false_r. naive_solver. }
  set (memory := default "" (cgs !! MemorySubsystem)).
  assert (Hadd : forall (c : string) (b : bool) u0, u_cgroups u0 = u_cgroups u -> added u0 = added u ->
    let u' := match u_cgroups u0 !! c with
      | Some _ => u0
      | None => mkUpdate (needMovePidList u0) (targetCgName u0) (isSystemdService u0)
                  (<[c := mkCgroupSpec b defaultPidNumber]> (u_cgroups u0)) true
      end in
    (forall j, is_Some (u_cgroups u' !! j) <-> is_Some (u_cgroups u !! j) \/ Some c = Some j) /\
    added u' = added u || negb (bool_decide (is_Some (u_cgroups u !! c)))).
  { intros c b u0 E1 E2. rewrite <- E1, <- E2. destruct (u_cgroups u0 !! c) eqn:Ec; simpl.
    - rewrite orb_false_r. split; [|done]. intros j. split; [auto|]. intros [?|[= <-]]; [done|]. rewrite Ec. eauto.
    - rewrite orb_true_r. split; [|done]. intros j. rewrite lookup_insert_is_Some.
      destruct (decide (c = j)) as [->|Hne]; [tauto|]. split; [intros [?|[_ ?]]; auto; done|].
      intros [?|[= ?]]; [auto|done]. }
  destruct (cgroupNotFixed memory).
  { by apply (Hadd _ false (mkUpdate (needMovePidList u ++ [pid]) (targetCgName u) (isSystemdService u) (u_cgroups u) (added u))). }
  destruct (default "" (cgs !! CpuSetSubsystem) =? memory)%string; simpl.
  - by apply (Hadd memory true u).
  - by apply (Hadd memory true (mkUpdate (needMovePidList u ++ [pid]) memory true (u_cgroups u) (added u))).
Qed.

Lemma updatePids_facts n jobName pids u :
  let u' := fold_left (updatePid n (path_Join [CgroupNonK8sOnline; jobName])) pids u in
  (forall j, is_Some (u_cgroups u' !! j) <->
     is_Some (u_cgroups u !! j) \/ exists pid, pid ∈ pids /\ job_cgroup n jobName pid = Some j) /\
  added u' = added u || negb (forallb (registered n jobName (u_cgroups u)) pids).
Proof.
  revert u. induction pids as [|pid pids IH]; intros u; cbn [fold_left forallb].
  { rewrite orb_false_r. split; [|done]. set_solver. }
  destruct (updatePid_facts n jobName u pid) as [H1 H2].
  set (u1 := updatePid n (path_Join [CgroupNonK8sOnline; jobName]) u pid) in *.
  destruct (IH u1) as [H3 H4]. split.
  - intros j. rewrite H3, H1. split.
    + intros [[?|?]|(q & ? & ?)]; [by left|right; exists pid; split; [left|done]|right; exists q; split; [by right|done]].
    + intros [?|(q & [->|Hq]%elem_of_cons & ?)]; [by left; left|by left; right|right; eauto].
  - rewrite H4, H2. destruct (registered n jobName (u_cgroups u) pid) eqn:Er; simpl; [|by rewrite orb_true_r].
    rewrite orb_false_r. do 2 f_equal. apply eq_iff_eq_true. rewrite !forallb_forall.
    assert (E : forall j, is_Some (u_cgroups u1 !! j) <-> is_Some (u_cgroups u !! j)).
    { intros j. rewrite H1. split; [|auto]. intros [?|Hj]; [done|].
      unfold registered in Er. rewrite Hj in Er. by apply bool_decide_eq_true in Er. }
    unfold registered. split; intros Hall q Hq; specialize (Hall q Hq);
      destruct (job_cgroup n jobName q) as [j|]; [|done| |done];
      rewrite bool_decide_eq_true in Hall |- *; by apply E.
Qed.

(** A job with a process whose cgroup is not registered. *)
Definition incomplete (allPids : list Z) o (jobName : string) : bool :=
  match jobSpecs o !! jobName, matchJobPidList o allPids jobName with
  | Some spec, Ret pids => negb (forallb (registered (writes (o_world o)) jobName (cgroups spec)) pids)
  | _, _ => false
  end.

Definition missing (allPids : list Z) o : list string :=
  filter (fun job => incomplete allPids o job = true) (elements (dom (jobSpecs o))).

(** A write to a cgroup file does not change the cgroup a process is
    registered with: moved processes stay in the cgroups of online jobs. *)
Hypothesis stable : forall n n' jobName pid, job_cgroup n jobName pid = job_cgroup n' jobName pid.

Lemma registered_stable n n' jobName cgs pid : registered n jobName cgs pid = registered n' jobName cgs pid.
Proof. unfold registered. by rewrite (stable n n'). Qed.

Lemma forallb_registered_stable n n' jobName cgs pids :
  forallb (registered n jobName cgs) pids = forallb (registered n' jobName cgs) pids.
Proof. induction pids; simpl; [done|]. rewrite (registered_stable n n'). by f_equal. Qed.

(** Only the specification of a job counts for its completeness. *)
Lemma incomplete_ext allPids o o' jobName :
  BatchNum o' = BatchNum o -> jobSpecs o' !! jobName = jobSpecs o !! jobName ->
  incomplete allPids o' jobName = incomplete allPids o jobName.
Proof.
  intros Hb Hj. unfold incomplete, matchJobPidList. rewrite Hj, Hb.
  destruct (jobSpecs o !! jobName); [|done]. destruct (matchLoop _ _ _ _ _ _); [|done].
  by rewrite (forallb_registered_stable _ (writes (o_world o))).
Qed.

Lemma updateJobSpec_facts allPids pids o jobName spec :
  jobSpecs o !! jobName = Some spec -> matchJobPidList o allPids jobName = Ret pids ->
  exists o', updateJobSpec pids jobName spec o = Ret (incomplete allPids o jobName, o') /\
    BatchNum o' = BatchNum o /\ dom (jobSpecs o') = dom (jobSpecs o) /\
    (forall j, incomplete allPids o' j = incomplete allPids o j && negb (j =? jobName)%string).
Proof.
  intros Hj Hm. unfold updateJobSpec, mbind, SC_bind, sc_get, sc_modify.
  set (nonFixed := path_Join [CgroupNonK8sOnline; jobName]).
  pose proof (updatePids_facts (writes (o_world o)) jobName pids (mkUpdate [] nonFixed false (cgroups spec) false)) as [H1 H2].
  fold nonFixed in H1, H2.
  set (u := fold_left _ pids _) in *. simpl in H1, H2.
  set (o1 := set_jobSpecs o _).
  assert (Hmove : exists w, match needMovePidList u with
       | [] => mret tt
       | _ => in_world (moveOnlinePidList (targetCgName u) (needMovePidList u)
                (if isSystemdService u then [CpuSetSubsystem; PerfEventSubsystem] else []))
       end o1 = Ret (tt, set_o_world o1 w)).
  { destruct (needMovePidList u); [by exists (o_world o1); destruct o1|]. unfold in_world.
    destruct (moveOnlinePidList _ _ _ _) as [[] w]. by exists w. }
  destruct Hmove as [w Hw]. exists (set_o_world o1 w). split_and!.
  - rewrite Hw. unfold mret, SC_ret, incomplete. rewrite Hj, Hm. by rewrite H2.
  - done.
  - simpl. rewrite dom_insert_L. apply subseteq_union_1_L, singleton_subseteq_l. by apply elem_of_dom.
  - intros j. destruct (String.eqb_spec j jobName) as [->|Hne]; simpl.
    + rewrite andb_false_r. unfold incomplete, matchJobPidList. simpl. rewrite lookup_insert_eq. simpl.
      unfold matchJobPidList in Hm. rewrite Hj in Hm. rewrite Hm. apply negb_false_iff, forallb_forall.
      intros pid Hpid. rewrite (registered_stable _ (writes (o_world o))). unfold registered.
      destruct (job_cgroup _ jobName pid) as [cg|] eqn:Ec; [|done]. apply bool_decide_eq_true, H1.
      right. exists pid. split; [by apply list_elem_of_In|done].
    + rewrite andb_true_r. apply incomplete_ext; [done|]. simpl. by rewrite lookup_insert_ne.
Qed.

Lemma matchLoop_total batchNum exp i pids handling matched :
  batchNum <> 0 -> exists l, matchLoop batchNum exp i pids handling matched = Ret l.
Proof.
  intros Hb. revert i handling matched. induction pids as [|p pids IH]; intros i handling matched; cbn [matchLoop]; [eauto|].
  destruct (Z.eqb_spec batchNum 0); [done|]. case_match; apply IH.
Qed.

Lemma generateLoop_updated allPids jobs o :
  BatchNum o <> 0 -> (forall j, j ∈ jobs -> j ∈ dom (jobSpecs o)) -> generateLoop allPids jobs true o = Ret (true, o).
Proof.
  intros Hb. induction jobs as [|job jobs IH]; intros Hd; cbn [generateLoop]; [done|].
  unfold mbind, SC_bind, sc_get. simpl.
  destruct (proj1 (elem_of_dom (jobSpecs o) job) (Hd job ltac:(left))) as [spec Hj].
  unfold matchJobPidList. rewrite Hj. destruct (matchLoop_total (BatchNum o) (regexp spec) 1 allPids [] [] Hb) as [l ->].
  destruct l; apply IH; intros; apply Hd; by right.
Qed.

Definition is_some {A} (x : option A) : bool := match x with Some _ => true | None => false end.

(** The first incomplete job is completed, and only this one. *)
Lemma generateLoop_facts allPids jobs o :
  BatchNum o <> 0 -> (forall j, j ∈ jobs -> j ∈ dom (jobSpecs o)) ->
  exists o', generateLoop allPids jobs false o = Ret (is_some (find (incomplete allPids o) jobs), o') /\
    BatchNum o' = BatchNum o /\ dom (jobSpecs o') = dom (jobSpecs o) /\
    (forall j, incomplete allPids o' j =
       incomplete allPids o j && negb (bool_decide (find (incomplete allPids o) jobs = Some j))).
Proof.
  revert o. induction jobs as [|job jobs IH]; intros o Hb Hd; cbn [generateLoop find].
  { exists o. split_and!; auto. intros j. by rewrite andb_true_r. }
  unfold mbind, SC_bind, sc_get. simpl.
  destruct (proj1 (elem_of_dom (jobSpecs o) job) (Hd job ltac:(left))) as [spec Hj].
  assert (Hm : exists l, matchJobPidList o allPids job = Ret l).
  { unfold matchJobPidList. rewrite Hj. by apply matchLoop_total. }
  destruct Hm as [l Hm]. rewrite Hm, Hj.
  assert (Hd' : forall j, j ∈ jobs -> j ∈ dom (jobSpecs o)) by (intros; apply Hd; by right).
  destruct l as [|pid l].
  { assert (incomplete allPids o job = false) as ->; [|by apply IH]. unfold incomplete. by rewrite Hj, Hm. }
  destruct (updateJobSpec_facts allPids (pid :: l) o job spec Hj Hm) as (o1 & E1 & E2 & E3 & E4). rewrite E1.
  destruct (incomplete allPids o job) eqn:Ei.
  - exists o1. split_and!; auto.
    + apply generateLoop_updated; [congruence|]. intros j ?. rewrite E3. auto.
    + intros j. rewrite E4. do 2 f_equal. apply eq_iff_eq_true. rewrite String.eqb_eq, bool_decide_eq_true. naive_solver.
  - assert (Hsame : forall j, incomplete allPids o1 j = incomplete allPids o j).
    { intros j. rewrite E4. destruct (String.eqb_spec j job) as [->|]; [by rewrite Ei|by rewrite andb_true_r]. }
    destruct (IH o1) as (o' & H1 & H2 & H3 & H4); [congruence|intros j ?; rewrite E3; auto|].
    assert (Hf : find (incomplete allPids o1) jobs = find (incomplete allPids o) jobs).
    { clear -Hsame. induction jobs as [|j jobs IH]; simpl; [done|]. by rewrite Hsame, IH. }
    rewrite Hf in H1, H4. exists o'. split_and!; [done|congruence|congruence|]. intros j. by rewrite H4, Hsame.
Qed.

Fixpoint rounds (n : nat) : SC onlineManager unit :=
  match n with
  | O => mret tt
  | S n' => _ ← generateOnlineCgroups; rounds n'
  end.

Lemma generateOnlineCgroups_facts allPids o :
  getMachinePidList = Ret allPids -> BatchNum o <> 0 ->
  exists o', generateOnlineCgroups o = Ret (tt, o') /\ BatchNum o' = BatchNum o /\
    length (missing allPids o') = pred (length (missing allPids o)).
Proof.
  intros Hp Hb. unfold generateOnlineCgroups. rewrite Hp. unfold mbind, SC_bind, sc_get.
  set (jobs := (range_map "generateOnlineCgroups" (jobSpecs o)).*1).
  assert (Hjobs : forall j, j ∈ jobs <-> j ∈ elements (dom (jobSpecs o))).
  { intros j. unfold jobs. rewrite elem_of_elements, elem_of_dom, range_map_perm, list_elem_of_fmap. split.
    - intros ([k v] & -> & Hk%elem_of_map_to_list). eauto.
    - intros [v Hv]. exists (j, v). by rewrite elem_of_map_to_list. }
  destruct (generateLoop_facts allPids jobs o Hb) as (o1 & E1 & E2 & E3 & E4).
  { intros j Hj. by apply elem_of_elements, Hjobs. }
  rewrite E1.
  assert (Hlen : length (missing allPids o1) = pred (length (missing allPids o))).
  { unfold missing. rewrite E3. destruct (find (incomplete allPids o) jobs) as [k|] eqn:Ef.
    - apply find_some in Ef as [Hin Hk]. apply length_filter_remove with k; [apply NoDup_elements| |done|].
      + by apply Hjobs, list_elem_of_In.
      + intros x. rewrite E4, andb_true_iff, negb_true_iff, bool_decide_eq_false. naive_solver.
    - assert (Hno : forall j, j ∈ elements (dom (jobSpecs o)) -> incomplete allPids o j = false).
      { intros j Hj. eapply find_none; [exact Ef|]. by apply list_elem_of_In, Hjobs. }
      revert Hno. generalize (elements (dom (jobSpecs o))). intros l Hno.
      assert (Hnil : forall o2, (forall j, j ∈ l -> incomplete allPids o2 j = false) ->
        filter (fun job => incomplete allPids o2 job = true) l = []).
      { intros o2 H2. clear -H2. induction l as [|j l IH]; [done|]. rewrite filter_cons, decide_False.
        - apply IH. intros. apply H2. by right.
        - rewrite H2; [done|left]. }
      rewrite !Hnil; [done|done|]. intros j Hj. by rewrite E4, Hno. }
  destruct (is_some _); eexists; (split_and!; [reflexivity|done|done]).
Qed.

(** C31: each round of the manager completes exactly one of the jobs that have
    processes in cgroups that are not registered, because the update of the others is
    short-circuited; so after as many rounds as there are such jobs all of them
    are complete, and not before. *)
Theorem one_job_per_round allPids o n :
  getMachinePidList = Ret allPids -> BatchNum o <> 0 ->
  exists o', rounds n o = Ret (tt, o') /\
    length (missing allPids o') = (length (missing allPids o) - n)%nat.
Proof.
  intros Hp. revert o. induction n as [|n IH]; intros o Hb; cbn [rounds].
  { exists o. split; [done|lia]. }
  destruct (generateOnlineCgroups_facts allPids o Hp Hb) as (o1 & E1 & E2 & E3).
  destruct (IH o1) as (o' & E4 & E5); [congruence|]. exists o'. unfold mbind, SC_bind. rewrite E1. split; [done|]. lia.
Qed.
End Rounds.

(** ** The check of the cgroups *)

Section Checks.
Context {CE : CgroupEnv}.

Lemma checkCgroup_settles w cg c : checkCgroup w cg (checkCgroup w cg c).1 = ((checkCgroup w cg c).1, false).
Proof.
  unfold checkCgroup. destruct (fixed c) eqn:Ef; simpl; [by rewrite Ef|].
  destruct (pidCount w cg) as [n|] eqn:En; simpl; [|by rewrite Ef].
  destruct (Z.eqb_spec n (pidNum c)) as [->|Hne]; simpl; rewrite ?Ef, Z.eqb_refl; done.
Qed.

Lemma checkCgroup_changed w cg c :
  (checkCgroup w cg c).2 = true <-> fixed c = false /\ exists n, pidCount w cg = Some n /\ n <> pidNum c.
Proof.
  unfold checkCgroup. destruct (fixed c); simpl; [naive_solver|].
  destruct (pidCount w cg) as [n|]; simpl; [|naive_solver].
  destruct (Z.eqb_spec n (pidNum c)); simpl; naive_solver.
Qed.

(** The check of the cgroups reports a change exactly when a cgroup of a job
    that the manager fills has another number of processes than recorded, and
    it records the numbers, so that a second check reports nothing. *)
Theorem cgroup_check_settles o :
  exists changed o', checkOnlineCgroupPath o = Ret (changed, o') /\ checkOnlineCgroupPath o' = Ret (false, o') /\
    (changed = true <->
     exists job spec cg c n, jobSpecs o !! job = Some spec /\ cgroups spec !! cg = Some c /\ fixed c = false /\
       pidCount (o_world o) cg = Some n /\ n <> pidNum c).
Proof.
  unfold checkOnlineCgroupPath. do 2 eexists. split_and!; [reflexivity| |].
  - simpl. f_equal. f_equal.
    + apply not_true_is_false. intros ([job spec] & Hj & Hc)%existsb_exists.
      apply existsb_exists in Hc as ([cg c] & Hg & Hc).
      apply list_elem_of_In, elem_of_map_to_list, lookup_fmap_Some in Hj as (spec0 & <- & Hj).
      apply list_elem_of_In, elem_of_map_to_list in Hg. simpl in Hg. rewrite map_lookup_imap in Hg.
      destruct (cgroups spec0 !! cg) as [c0|]; [|done]. simpl in Hg. simplify_eq.
      by rewrite checkCgroup_settles in Hc.
    + unfold set_jobSpecs. simpl. f_equal. rewrite <- map_fmap_compose. apply map_fmap_ext. intros job spec _. simpl.
      f_equal. rewrite map_imap_compose. apply map_imap_ext. intros cg. destruct (cgroups spec !! cg); simpl; [|done].
      by rewrite checkCgroup_settles.
  - rewrite existsb_exists. split.
    + intros ([job spec] & Hj & Hs). apply existsb_exists in Hs as ([cg c] & Hg & Hc).
      apply checkCgroup_changed in Hc as (Hf & n & Hn & Hne). exists job, spec, cg, c, n.
      by rewrite <- !elem_of_map_to_list, !list_elem_of_In.
    + intros (job & spec & cg & c & n & Hj & Hg & Hf & Hn & Hne). exists (job, spec).
      rewrite <- list_elem_of_In, elem_of_map_to_list. split; [done|]. apply existsb_exists. exists (cg, c).
      rewrite <- list_elem_of_In, elem_of_map_to_list. split; [done|]. apply checkCgroup_changed. eauto.
Qed.
End Checks.

(** ** Examples *)

(** The positions of a byte, the matches of an expression of one byte. *)
Fixpoint byte_matches (c : ascii) (i : Z) (s : string) : list (Z * Z) :=
  match s with
  | EmptyString => []
  | String d s' => (if Ascii.eqb d c then [(i, i + 1)] else []) ++ byte_matches c (i + 1) s'
  end.

Lemma byte_matches_shift c i s : byte_matches c i s = map (shift i) (byte_matches c 0 s).
Proof.
  assert (H : forall j, byte_matches c (i + j) s = map (shift i) (byte_matches c j s)).
  { induction s as [|d s IH]; intros j; cbn [byte_matches]; [done|]. rewrite map_app. f_equal.
    - destruct (Ascii.eqb d c); [|done]. unfold shift. simpl. do 2 f_equal. lia.
    - rewrite <- IH. f_equal. lia. }
  rewrite <- H. f_equal. lia.
Qed.

Lemma byte_matches_app c i a b :
  byte_matches c i (a +:+ b) = byte_matches c i a ++ byte_matches c (i + slen a) b.
Proof.
  revert i. induction a as [|d a IH]; intros i; simpl.
  - f_equal. unfold slen. simpl. lia.
  - rewrite IH, <- app_assoc. do 2 f_equal. f_equal. unfold slen. simpl. lia.
Qed.

Lemma byte_matches_within c i s m : m ∈ byte_matches c i s -> i <= m.1 /\ m.2 = m.1 + 1 /\ m.2 <= i + slen s.
Proof.
  revert i. induction s as [|d s IH]; intros i; cbn [byte_matches]; [intros Hm; inversion Hm|].
  assert (slen (String d s) = slen s + 1) as -> by (unfold slen; simpl; lia).
  pose proof (slen_nonneg s). rewrite elem_of_app. intros [Hm|Hm%IH]; [|lia].
  destruct (Ascii.eqb d c); [|inversion Hm]. apply list_elem_of_singleton in Hm as ->. simpl. lia.
Qed.

Definition ex_regexp : GoRegexp := {|
  Compile := fun _ => None;
  FindAllIndex := fun e s => match e with String c EmptyString => byte_matches c 0 s | _ => [] end;
|}.

Definition ex_proc : ProcEnv := {|
  proc_names := Ok ["1"; "23"; "self"; "4"];
  proc_cmdline := fun p => if p =? 4 then Err "no such process" else if p =? 23 then Ok "osd" else Ok "init";
  proc_cgroups := fun _ p => Ok {["memory" := if p =? 23 then "/user.slice" else "/system.slice/init"]};
  all_subsystems := Ok ["memory"; "cpuset"];
  mkdir_files := fun d => ∅;
|}.

Definition ex_cgroup_env : CgroupEnv := {|
  env_root := "/sys/fs/cgroup";
  env_write := fun _ _ _ => None;
  env_readback := fun _ d => d;
  env_cpuinfo := Ok [];
  env_readdir := fun _ => Ok [];
  env_walk := fun _ => Ok [];
  env_pids := fun _ _ => Pids [1];
|}.

Definition ex_online_world : world := mkWorld ∅ 0 ∅ 0 false false false.
Definition ex_online : onlineManager :=
  mkOnlineManager 2 {["osd" := mkJobSpec "o" ∅; "init" := mkJobSpec "n" ∅]} ex_online_world [].

Lemma ex_separable : separable (RE := ex_regexp) "o".
Proof.
  intros a b. cbn [FindAllIndex ex_regexp]. rewrite byte_matches_app. f_equal.
  change ("+" +:+ b) with (String "+" b). cbn [byte_matches Ascii.eqb app].
  by rewrite byte_matches_shift.
Qed.

Lemma batched_matching_exact_witness :
  matchJobPidList (RE := ex_regexp) (PE := ex_proc) ex_online [1; 23; 4] "osd" =
    Ret (filter (fun p => FindAllIndex (GoRegexp := ex_regexp) "o" (cmdLine (PE := ex_proc) p) <> []) [1; 23; 4]) /\
  matchJobPidList (RE := ex_regexp) (PE := ex_proc) ex_online [1; 23; 4] "osd" = Ret [23].
Proof.
  split; [|reflexivity].
  apply (batched_matching_exact (RE := ex_regexp) (PE := ex_proc) "o") with (spec := mkJobSpec "o" ∅);
    [|exact ex_separable|reflexivity|reflexivity|simpl; lia].
  intros s m Hm%byte_matches_within. lia.
Defined.

Definition ex_whole : GoRegexp := {| Compile := fun _ => None; FindAllIndex := fun _ s => [(0, slen s)] |}.

Lemma whole_text_match_found_in_no_batch_witness :
  let o := mkOnlineManager 10 {["osd" := mkJobSpec ".*osd.*" ∅]} ex_online_world [] in
  matchJobPidList (RE := ex_whole) (PE := ex_proc) o [23; 1] "osd" = Ret [] /\
  matchJobPidList (RE := ex_whole) (PE := ex_proc)
    (mkOnlineManager 1 (jobSpecs o) (o_world o) (extraCgroups o)) [23; 1] "osd" = Ret [23; 1].
Proof.
  intros o. apply (whole_text_match_found_in_no_batch (RE := ex_whole) (PE := ex_proc) ".*osd.*" o [23; 1] "osd"
    (mkJobSpec ".*osd.*" ∅) 23 1 []);
    [reflexivity|reflexivity|reflexivity|simpl; lia|reflexivity|by repeat constructor].
Defined.

Lemma one_job_per_round_witness :
  let rounds := rounds (CE := ex_cgroup_env) (RE := ex_regexp) (RO := key_order) (PE := ex_proc) in
  let missing := missing (RE := ex_regexp) (PE := ex_proc) [1; 23; 4] in
  length (missing ex_online) = 2%nat /\
  exists o', rounds 1%nat ex_online = Ret (tt, o') /\ length (missing o') = (length (missing ex_online) - 1)%nat.
Proof.
  split; [vm_compute; reflexivity|].
  apply (one_job_per_round (CE := ex_cgroup_env) (RE := ex_regexp) (RO := key_order) (PE := ex_proc));
    [reflexivity|vm_compute; reflexivity|simpl; lia].
Defined.
