(* ===== verification/CgroupStore.v ===== *)
(** * The store of cgroup statistics

    pkg/caelus/statestore/cgroup: what cadvisor measures of the cgroups is
    turned into statistics of containers and of online jobs.  [Cadvisor] is the
    library: what it knows of the cgroups below a path, and of the machine; the
    parts of a measurement that its [Spec] announces are present.  [TimedStore]
    is its buffer of timed values.  The pods are those of the informer, by
    namespace and name.  Errors of the store itself do not occur. *)

From Stdlib Require Import Ascii.
From S2P Require Import Prelude GoStrings GoFloat Quantity Qos K8sResource Ginit Online.

#[local] Open Scope string_scope.
#[local] Open Scope Z_scope.
#[local] Open Scope list_scope.

(** ** Data *)

Record CgroupRef := mkRef {
  ref_Name : string;
  ref_ContainerName : string;
  ref_PodName : string;
  ref_PodNamespace : string;
  ref_PodUid : string;
  ref_AppClass : string;
}.

#[export] Instance CgroupRef_eq_dec : EqDecision CgroupRef.
Proof. solve_decision. Defined.

#[export] Instance CgroupRef_countable : Countable CgroupRef.
Proof.
  refine (inj_countable' (fun r => (ref_Name r, ref_ContainerName r, ref_PodName r, ref_PodNamespace r, ref_PodUid r, ref_AppClass r))
            (fun '(a, b, c, d, e, f) => mkRef a b c d e f) _).
  by intros [].
Defined.

Record CgroupStats := mkStats {
  Ref : CgroupRef;
  CpuUsage : float64;
  NrCpuThrottled : float64;
  LoadAvg : float64;
  MemoryTotalUsage : float64;
  MemoryWorkingSetUsage : float64;
  MemoryCacheUsage : float64;
  TcpOOM : float64;
  ListenOverflows : float64;
  RxBps : float64;
  RxPps : float64;
  TxBps : float64;
  TxPps : float64;
  Timestamp : time;
}.

(** [structs.Map] of the fields that are numbers. *)
Definition stats_map (cg : CgroupStats) : gmap string float64 :=
  list_to_map [("cpu_usage", CpuUsage cg); ("nr_cpu_throttled", NrCpuThrottled cg); ("load_avg", LoadAvg cg);
    ("memory_total_usage", MemoryTotalUsage cg); ("memory_working_set_usage", MemoryWorkingSetUsage cg);
    ("memory_cache_usage", MemoryCacheUsage cg); ("tcp_oom", TcpOOM cg); ("listen_overflows", ListenOverflows cg);
    ("rx_bps", RxBps cg); ("rx_pps", RxPps cg); ("tx_bps", TxBps cg); ("tx_pps", TxPps cg)].

(** The values of the tags ref and timestamp are no numbers. *)
Definition GetValue (cg : CgroupStats) (resource : string) : outcome (result float64) :=
  match stats_map cg !! resource with
  | Some v => Ret (Ok v)
  | None =>
      if (resource =? "ref")%string || ((resource =? "timestamp")%string && negb (Timestamp cg =? nilTime))
      then Crash (Panic "interface conversion")
      else Ret (Err (resource +:+ " not found"))
  end.

(** The tags of [cgroupStatsExample], the empty statistics without a reference. *)
Definition GetCgroupStoreSupportedTags : list string :=
  ["cpu_usage"; "nr_cpu_throttled"; "load_avg"; "memory_total_usage"; "memory_working_set_usage";
   "memory_cache_usage"; "tcp_oom"; "listen_overflows"; "rx_bps"; "rx_pps"; "tx_bps"; "tx_pps"].

(** *** cadvisor *)

Record InterfaceStats := mkIface { RxBytes : Z; RxPackets : Z; TxBytes : Z; TxPackets : Z }.

Record ContainerStats := mkContainerStats {
  cs_Timestamp : time;
  cs_UsageTotal : Z;
  cs_ThrottledPeriods : Z;
  cs_Periods : Z;
  cs_LoadAverage : Z;
  cs_MemUsage : Z;
  cs_WorkingSet : Z;
  cs_Cache : Z;
  cs_TCPAbortOnMemory : Z;
  cs_ListenOverflows : Z;
  cs_Interfaces : list InterfaceStats;
}.

Record ContainerInfo := mkContainerInfo {
  Labels : gmap string string;
  HasCpu : bool;
  HasMemory : bool;
  HasNetwork : bool;
  Stats : list ContainerStats;
}.

Class Cadvisor := {
  MachineInfo : result Z;
  (** The cgroups at and, when recursive, below a path, with at most a number of
      measurements; with [fresh] they are measured now. *)
  ContainerInfoV2 : forall (cg : string) (count : nat) (recursive fresh : bool), result (gmap string ContainerInfo);
}.

Class TimedStore (T : Type) := {
  NewTimedStore : duration -> T;
  ts_Add : T -> time -> CgroupStats -> T;
  (** The latest value. *)
  ts_Get : T -> CgroupStats;
  (** At most [count] values (all when negative) from [start] to [end]. *)
  ts_InTimeRange : T -> time -> time -> Z -> list CgroupStats;
}.

Definition KubernetesPodNameLabel : string := "io.kubernetes.pod.name".
Definition KubernetesPodNamespaceLabel : string := "io.kubernetes.pod.namespace".
Definition KubernetesPodUIDLabel : string := "io.kubernetes.pod.uid".
Definition KubernetesContainerNameLabel : string := "io.kubernetes.container.name".
Definition PodInfraContainerName : string := "POD".

Definition GetContainerName (labels : gmap string string) : string := default "" (labels !! KubernetesContainerNameLabel).
Definition GetPodName (labels : gmap string string) : string := default "" (labels !! KubernetesPodNameLabel).
Definition GetPodUID (labels : gmap string string) : string := default "" (labels !! KubernetesPodUIDLabel).
Definition GetPodNamespace (labels : gmap string string) : string := default "" (labels !! KubernetesPodNamespaceLabel).

(** ** The reference of a cgroup *)

(** The text after the last slash. *)
Fixpoint after_last_slash (s : string) : string :=
  match cut_byte s "/"%char with
  | None => s
  | Some _ => match s with
              | String _ s' => after_last_slash s'
              | EmptyString => ""
              end
  end.

(** [podUid[:5]] panics for a shorter id. *)
Definition generateK8sCgroupId (podUid containerName : string) : outcome string :=
  if slen podUid <? 5 then Crash (Panic "slice bounds out of range")
  else Ret (String.substring 0 5 podUid +:+ "_" +:+ containerName).

(** The id, and the reference, which gets a container name. *)
Definition getCgroupId (ref : CgroupRef) : outcome (string * CgroupRef) :=
  if negb (slen (ref_PodUid ref) =? 0) then
    id ← generateK8sCgroupId (ref_PodUid ref) (ref_ContainerName ref);
    Ret (id, ref)
  else
    let id := after_last_slash (ref_Name ref) in
    Ret (id, mkRef (ref_Name ref) id (ref_PodName ref) (ref_PodNamespace ref) (ref_PodUid ref) (ref_AppClass ref)).

Definition checkCgroupAvailable (cgPath : string) (ref : CgroupRef) : option error :=
  if (cgPath =? CgroupOfflineSystem)%string then None
  else
    let subs := Split (Trim_byte "/" cgPath) "/" in
    let yarnPath := HasPrefix cgPath CgroupOffline &&
      ((length subs =? 5)%nat || ((length subs =? 6)%nat && bool_decide (subs !! 5%nat = Some CgroupYarn))) in
    if (4 <? length subs)%nat && negb yarnPath then Some "cgroup path too long"
    else if (ref_ContainerName ref =? PodInfraContainerName)%string then Some "cgroup path is infra container"
    else if (slen (ref_ContainerName ref) =? 39) && HasPrefix (ref_ContainerName ref) "pod" then Some "cgroup path is podxxx"
    else None.

Definition isNonK8sOnline (cgroups : list string) (cgPath : string) : bool :=
  if (cgPath =? CgroupNonK8sOnline)%string || (cgPath =? CgroupKubePods)%string then false
  else HasPrefix cgPath CgroupNonK8sOnline || bool_decide (cgPath ∈ cgroups).

Definition set_AppClass (ref : CgroupRef) (c : string) : CgroupRef :=
  mkRef (ref_Name ref) (ref_ContainerName ref) (ref_PodName ref) (ref_PodNamespace ref) (ref_PodUid ref) c.

Section References.
Context {Q : Type} (pods : gmap string (Pod Q)).

Definition assignAppClassFlag (cgroups : list string) (cgPath : string) (ref : CgroupRef) : CgroupRef :=
  set_AppClass ref
    (if (cgPath =? CgroupOfflineSystem)%string then "offline"
     else if negb (ref_PodName ref =? "")%string && negb (ref_PodNamespace ref =? "")%string then
       match pods !! (ref_PodNamespace ref +:+ "/" +:+ ref_PodName ref) with
       | Some pod => GetAppClass pod
       | None => "unknown"
       end
     else if isNonK8sOnline cgroups cgPath then "online"
     else "aggregatedcgroup").

Definition generateRef (cgroups : list string) (cgPath : string) (con : ContainerInfo) : outcome (result (CgroupRef * string)) :=
  let ref := mkRef cgPath (GetContainerName (Labels con)) (GetPodName (Labels con)) (GetPodNamespace (Labels con))
               (GetPodUID (Labels con)) "" in
  r ← getCgroupId ref;
  let '(key, ref) := r in
  match checkCgroupAvailable cgPath ref with
  | Some err => Ret (Err err)
  | None => Ret (Ok (assignAppClassFlag cgroups cgPath ref, key))
  end.
End References.

(** ** Statistics of a cgroup *)

Definition fhundred : float64 := float64_of_Z 100.

(** [time.Duration.Seconds]. *)
Definition duration_Seconds (d : duration) : float64 :=
  fadd (float64_of_Z (Z.quot d Second)) (fdiv (float64_of_Z (Z.rem d Second)) (float64_of_Z Second)).

Definition empty_stats (ref : CgroupRef) (ts : time) : CgroupStats :=
  mkStats ref fzero fzero fzero fzero fzero fzero fzero fzero fzero fzero fzero fzero ts.

Definition set_cpu (cg : CgroupStats) (usage throttled load : float64) : CgroupStats :=
  mkStats (Ref cg) usage throttled load (MemoryTotalUsage cg) (MemoryWorkingSetUsage cg) (MemoryCacheUsage cg)
    (TcpOOM cg) (ListenOverflows cg) (RxBps cg) (RxPps cg) (TxBps cg) (TxPps cg) (Timestamp cg).
Definition set_memory (cg : CgroupStats) (total ws cache : float64) : CgroupStats :=
  mkStats (Ref cg) (CpuUsage cg) (NrCpuThrottled cg) (LoadAvg cg) total ws cache
    (TcpOOM cg) (ListenOverflows cg) (RxBps cg) (RxPps cg) (TxBps cg) (TxPps cg) (Timestamp cg).
Definition set_network (cg : CgroupStats) (oom overflows rxb rxp txb txp : float64) : CgroupStats :=
  mkStats (Ref cg) (CpuUsage cg) (NrCpuThrottled cg) (LoadAvg cg) (MemoryTotalUsage cg) (MemoryWorkingSetUsage cg)
    (MemoryCacheUsage cg) oom overflows rxb rxp txb txp (Timestamp cg).

(** Cores in use, rounded to hundredths. *)
Definition cpuUsage (total interval : Z) : float64 :=
  fdiv (float64_of_Z (int64_of_float64 (fadd (fdiv (fmul (float64_of_Z total) fhundred) (float64_of_Z interval)) (flit 1 2))))
       fhundred.

Definition generateCgroupStatsCpu (machineCores : Z) (hasCpu : bool) (s0 s1 : ContainerStats) (cgSt : CgroupStats) : CgroupStats :=
  if negb hasCpu then cgSt
  else if cs_UsageTotal s0 <=? cs_UsageTotal s1 then
    let total := uint64 (cs_UsageTotal s1 - cs_UsageTotal s0) in
    let interval := time_Sub (cs_Timestamp s1) (cs_Timestamp s0) in
    let usage := cpuUsage total interval in
    if flt usage fzero then set_cpu cgSt fzero (NrCpuThrottled cgSt) (LoadAvg cgSt)
    else if negb (machineCores =? 0) && fgt usage (float64_of_Z machineCores) then
      set_cpu cgSt (float64_of_Z machineCores) (NrCpuThrottled cgSt) (LoadAvg cgSt)
    else
      let nrThrottled := uint64 (cs_ThrottledPeriods s1 - cs_ThrottledPeriods s0) in
      let nrPeriods := uint64 (cs_Periods s1 - cs_Periods s0) in
      set_cpu cgSt usage
        (if 0 <? nrPeriods then fdiv (float64_of_Z nrThrottled) (float64_of_Z nrPeriods) else NrCpuThrottled cgSt)
        (fdiv (float64_of_Z (cs_LoadAverage s1)) (float64_of_Z 1000))
  else cgSt.

Definition generateCgroupStatsMemory (hasMemory : bool) (s1 : ContainerStats) (cgSt : CgroupStats) : CgroupStats :=
  if negb hasMemory then cgSt
  else set_memory cgSt (float64_of_Z (cs_MemUsage s1)) (float64_of_Z (cs_WorkingSet s1)) (float64_of_Z (cs_Cache s1)).

(** The sum of a counter over the interfaces. *)
Definition iface_sum (f : InterfaceStats -> Z) (s : ContainerStats) : Z :=
  fold_left (fun n iface => uint64 (n + f iface)) (cs_Interfaces s) 0.

Definition rate (v1 v0 : Z) (interval : float64) : float64 := fdiv (float64_of_Z (uint64 (v1 - v0))) interval.

Definition generateCgroupStatsNetwork (hasNetwork : bool) (s0 s1 : ContainerStats) (cgSt : CgroupStats) : CgroupStats :=
  if negb hasNetwork then cgSt
  else
    let interval := duration_Seconds (time_Sub (cs_Timestamp s1) (cs_Timestamp s0)) in
    set_network cgSt
      (rate (cs_TCPAbortOnMemory s1) (cs_TCPAbortOnMemory s0) interval)
      (rate (cs_ListenOverflows s1) (cs_ListenOverflows s0) interval)
      (rate (iface_sum RxBytes s1) (iface_sum RxBytes s0) interval)
      (rate (iface_sum RxPackets s1) (iface_sum RxPackets s0) interval)
      (rate (iface_sum TxBytes s1) (iface_sum TxBytes s0) interval)
      (rate (iface_sum TxPackets s1) (iface_sum TxPackets s0) interval).

(** A further cgroup with the same id: the load is that of the latter. *)
Definition addStats (cgStat cg : CgroupStats) : CgroupStats :=
  mkStats (Ref cgStat) (fadd (CpuUsage cgStat) (CpuUsage cg)) (fadd (NrCpuThrottled cgStat) (NrCpuThrottled cg))
    (LoadAvg cgStat)
    (fadd (MemoryTotalUsage cgStat) (MemoryTotalUsage cg))
    (fadd (MemoryWorkingSetUsage cgStat) (MemoryWorkingSetUsage cg))
    (fadd (MemoryCacheUsage cgStat) (MemoryCacheUsage cg))
    (fadd (TcpOOM cgStat) (TcpOOM cg)) (fadd (ListenOverflows cgStat) (ListenOverflows cg))
    (fadd (RxBps cgStat) (RxBps cg)) (fadd (RxPps cgStat) (RxPps cg))
    (fadd (TxBps cgStat) (TxBps cg)) (fadd (TxPps cgStat) (TxPps cg)) (Timestamp cgStat).

(** ** The store *)

(** [cs_cadvisor] are the cgroups the current manager of cadvisor was made for,
    and whether it runs; [machineCores] is a package variable. *)
Record cgroupStoreManager (T : Type) := mkStore {
  cgroups : list string;
  started : bool;
  cs_cadvisor : list string * bool;
  machineCores : Z;
  cacheAge : duration;
  caches : gmap string T;
}.
Arguments mkStore {T} _ _ _ _ _ _.
Arguments cgroups {T} _.
Arguments started {T} _.
Arguments cs_cadvisor {T} _.
Arguments machineCores {T} _.
Arguments cacheAge {T} _.
Arguments caches {T} _.

Section Store.
Context {RO : RangeOrder} {CA : Cadvisor} {T : Type} {TS : TimedStore T} {Q : Type} (pods : gmap string (Pod Q)).

#[local] Abbreviation CS := (SC (cgroupStoreManager T)).

Definition set_machineCores (c : cgroupStoreManager T) (n : Z) : cgroupStoreManager T :=
  mkStore (cgroups c) (started c) (cs_cadvisor c) n (cacheAge c) (caches c).
Definition set_caches (c : cgroupStoreManager T) (m : gmap string T) : cgroupStoreManager T :=
  mkStore (cgroups c) (started c) (cs_cadvisor c) (machineCores c) (cacheAge c) m.
Definition set_cadvisor (c : cgroupStoreManager T) (m : list string * bool) : cgroupStoreManager T :=
  mkStore (cgroups c) (started c) m (machineCores c) (cacheAge c) (caches c).
Definition set_cgroups (c : cgroupStoreManager T) (l : list string) : cgroupStoreManager T :=
  mkStore l (started c) (cs_cadvisor c) (machineCores c) (cacheAge c) (caches c).

Definition of_outcome {A} (r : outcome A) : CS A := fun c => match r with Ret a => Ret (a, c) | Crash e => Crash e end.

(** The number of cores is asked for until it is known. *)
Definition knownCores (n : Z) : Z :=
  if n =? 0 then match MachineInfo with Ok cores => cores | Err _ => n end else n.

Definition cgroupStats (n : Z) (v : ContainerInfo) (s0 s1 : ContainerStats) (ref : CgroupRef) : CgroupStats :=
  generateCgroupStatsNetwork (HasNetwork v) s0 s1
    (generateCgroupStatsMemory (HasMemory v) s1
      (generateCgroupStatsCpu n (HasCpu v) s0 s1 (empty_stats ref (cs_Timestamp s1)))).

Definition generateCgroupStats (v : ContainerInfo) (s0 s1 : ContainerStats) (ref : CgroupRef) : CS CgroupStats :=
  _ ← sc_modify (fun c => set_machineCores c (knownCores (machineCores c)));
  n ← sc_get machineCores;
  mret (cgroupStats n v s0 s1 ref).

(** [cgKey]: the name and the namespace of a pod. *)
Definition wanted (cgKey : option (string * string)) (classFilter : list string) (ref : CgroupRef) : bool :=
  match cgKey with
  | Some (podName, podNamespace) => (podName =? ref_PodName ref)%string && (podNamespace =? ref_PodNamespace ref)%string
  | None => true
  end && ((length classFilter =? 0)%nat || bool_decide (ref_AppClass ref ∈ classFilter)).

(** One cgroup of the loop. *)
Definition listOne (cgKey : option (string * string)) (classFilter : list string) (k : string) (v : ContainerInfo)
    (cgs : gmap string CgroupStats) : CS (gmap string CgroupStats) :=
  match Stats v with
  | [s0; s1] =>
      if negb (HasCpu v) && negb (HasMemory v) then mret cgs
      else
        roots ← sc_get cgroups;
        r ← of_outcome (generateRef pods roots k v);
        match r with
        | Err _ => mret cgs
        | Ok (ref, key) =>
            if negb (wanted cgKey classFilter ref) then mret cgs
            else
              cgStat ← generateCgroupStats v s0 s1 ref;
              mret (<[key := match cgs !! key with Some cg => addStats cgStat cg | None => cgStat end]> cgs)
        end
  | _ => mret cgs
  end.

Fixpoint listInfos (cgKey : option (string * string)) (classFilter : list string) (infos : list (string * ContainerInfo))
    (cgs : gmap string CgroupStats) : CS (gmap string CgroupStats) :=
  match infos with
  | [] => mret cgs
  | (k, v) :: infos' => cgs' ← listOne cgKey classFilter k v cgs; listInfos cgKey classFilter infos' cgs'
  end.

(** The cgroups below a path, in the order in which they are visited; none
    when cadvisor cannot tell. *)
Definition infosOf (count : nat) (recur updateStats : bool) (cg : string) : list (string * ContainerInfo) :=
  match ContainerInfoV2 cg count recur updateStats with
  | Ok infoMap => range_map ("listCgroupStats" +:+ cg) infoMap
  | Err _ => []
  end.

Fixpoint listPaths (updateStats recur : bool) (cgPaths : list string) (cgKey : option (string * string))
    (classFilter : list string) (cgs : gmap string CgroupStats) : CS (gmap string CgroupStats) :=
  match cgPaths with
  | [] => mret cgs
  | cg :: cgPaths' =>
      cgs' ← listInfos cgKey classFilter (infosOf 2 recur updateStats cg) cgs;
      listPaths updateStats recur cgPaths' cgKey classFilter cgs'
  end.

Definition listCgroupStats (updateStats recur : bool) (cgPaths : list string) (cgKey : option (string * string))
    (classFilter : list string) : CS (gmap string CgroupStats) :=
  listPaths updateStats recur cgPaths cgKey classFilter ∅.

(** ** Queries *)

Definition ListCgroupResourceRecentState (updateStats : bool) (classFilter : list string) : CS (gmap string CgroupStats) :=
  roots ← sc_get cgroups;
  listCgroupStats updateStats true roots None classFilter.

Definition only_one (cgs : gmap string CgroupStats) : result CgroupStats :=
  match map_to_list cgs with
  | [] => Err "no cgroup stats found"
  | [(_, cg)] => Ok cg
  | _ => Err "more cgroup stats found"
  end.

Definition GetCgroupResourceRecentState (podName podNamespace : string) (updateStats : bool) : CS (result CgroupStats) :=
  roots ← sc_get cgroups;
  cgs ← listCgroupStats updateStats true roots (Some (podName, podNamespace)) [];
  mret (only_one cgs).

Definition GetCgroupResourceRecentStateByPath (cgPath : string) (updateStats : bool) : CS (result CgroupStats) :=
  cgs ← listCgroupStats updateStats false [cgPath] None [];
  mret (only_one cgs).

Definition addRef (roots : list string) (classFilter : list string) (cgs : gmap string CgroupRef) (info : string * ContainerInfo) :
    outcome (gmap string CgroupRef) :=
  r ← generateRef pods roots info.1 info.2;
  match r with
  | Err _ => Ret cgs
  | Ok (ref, _) => if negb (wanted None classFilter ref) then Ret cgs else Ret (<[info.1 := ref]> cgs)
  end.

Fixpoint addRefs (roots : list string) (classFilter : list string) (infos : list (string * ContainerInfo)) (cgs : gmap string CgroupRef) :
    outcome (gmap string CgroupRef) :=
  match infos with
  | [] => Ret cgs
  | info :: infos' => cgs' ← addRef roots classFilter cgs info; addRefs roots classFilter infos' cgs'
  end.

Definition ListAllCgroups (c : cgroupStoreManager T) (classFilter : list string) : outcome (gmap string CgroupRef) :=
  addRefs (cgroups c) classFilter (concat (map (infosOf 1 true false) (cgroups c))) ∅.

(** ** Caches *)

Definition collectCgroupStats (now : time) : CS unit :=
  roots ← sc_get cgroups;
  totalCgStats ← listCgroupStats false true roots None [];
  sc_modify (fun c =>
    let added := fold_left (fun m '(k, cgStats) =>
        <[k := ts_Add (default (NewTimedStore (cacheAge c)) (m !! k)) (Timestamp cgStats) cgStats]> m)
      (range_map "collectCgroupStats" totalCgStats) (caches c) in
    set_caches c (filter (fun kc => negb (length (ts_InTimeRange kc.2 (time_Add now (- cacheAge c)) now (-1)) =? 0)%nat = true) added)).

(** The first cache of the pod in the order of the map. *)
Definition GetCgroupResourceRangeStats (c : cgroupStoreManager T) (podName podNamespace : string) (start stop : time) (count : Z) :
    result (list CgroupStats) :=
  match List.find (fun kc => let ref := Ref (ts_Get kc.2) in
                     (ref_PodName ref =? podName)%string && (ref_PodNamespace ref =? podNamespace)%string)
          (range_map "GetCgroupResourceRangeStats" (caches c)) with
  | None => Err "cgroup resource stats not found"
  | Some (_, targetCache) => Ok (ts_InTimeRange targetCache start stop count)
  end.

Definition ListCgroupResourceRangeStats (c : cgroupStoreManager T) (start stop : time) (count : Z) (classFilter : list string) :
    gmap string (list CgroupStats) :=
  omap (fun cgCache =>
          if negb (length classFilter =? 0)%nat && negb (bool_decide (ref_AppClass (Ref (ts_Get cgCache)) ∈ classFilter)) then None
          else Some (ts_InTimeRange cgCache start stop count)) (caches c).

(** ** The monitored cgroups *)

(** The new ones among [extraCgs], in order and without repetition. *)
Fixpoint newCgroups (existing extraCgs : list string) : list string :=
  match extraCgs with
  | [] => []
  | cg :: extraCgs' =>
      if bool_decide (cg ∈ existing) then newCgroups existing extraCgs'
      else cg :: newCgroups (cg :: existing) extraCgs'
  end.

(** What stopping and starting cadvisor answer. *)
Definition restartCadvisor (stopErr startErr : option error) (c : cgroupStoreManager T) : option error * cgroupStoreManager T :=
  match stopErr with
  | Some e => (Some e, c)
  | None => (startErr, set_cadvisor c (cgroups c, match startErr with None => true | Some _ => false end))
  end.

Definition AddExtraCgroups (extraCgs : list string) (stopErr startErr : option error) (c : cgroupStoreManager T) :
    option error * cgroupStoreManager T :=
  match newCgroups (cgroups c) extraCgs with
  | [] => (None, c)
  | added =>
      let c := set_cgroups c (cgroups c ++ added) in
      if negb (started c) then (None, set_cadvisor c (cgroups c, false))
      else restartCadvisor stopErr startErr c
  end.

(** The start of [Run]; an error ends the process. *)
Definition StartStore (startErr : option error) (c : cgroupStoreManager T) : outcome (cgroupStoreManager T) :=
  match startErr with
  | Some e => Crash (Fatal e)
  | None => Ret (mkStore (cgroups c) true ((cs_cadvisor c).1, true) (machineCores c) (cacheAge c) (caches c))
  end.

(** Directories that cannot be made end the process. *)
Definition NewCgroupStoreManager (EnsureCgroupPath : string -> option error) (roots : list string) (cores : Z) : outcome (cgroupStoreManager T) :=
  match List.find (fun cg => match EnsureCgroupPath cg with Some _ => true | None => false end) roots with
  | Some _ => Crash (Fatal "ensure cgroup path failed")
  | None => Ret (mkStore roots false (roots, false) cores (10 * Minute) ∅)
  end.
End Store.

(** ** What is listed *)

Section Listing.
Context {RO : RangeOrder} {CA : Cadvisor} {T : Type} {TS : TimedStore T} {Q : Type} (pods : gmap string (Pod Q)).
Implicit Types (c : cgroupStoreManager T).

(** The pod ids are long enough to be shortened. *)
Definition uid_ok (v : ContainerInfo) : Prop := GetPodUID (Labels v) = "" \/ 5 <= slen (GetPodUID (Labels v)).

(** What a cgroup contributes: its id and its statistics. *)
Definition visit (n : Z) (roots : list string) (cgKey : option (string * string)) (classFilter : list string)
    (info : string * ContainerInfo) : option (string * CgroupStats) :=
  match Stats info.2, generateRef pods roots info.1 info.2 with
  | [s0; s1], Ret (Ok (ref, key)) =>
      if (HasCpu info.2 || HasMemory info.2) && wanted cgKey classFilter ref
      then Some (key, cgroupStats n info.2 s0 s1 ref) else None
  | _, _ => None
  end.

Definition insertStats (cgs : gmap string CgroupStats) (x : string * CgroupStats) : gmap string CgroupStats :=
  <[x.1 := match cgs !! x.1 with Some cg => addStats x.2 cg | None => x.2 end]> cgs.

Lemma knownCores_idem n : knownCores (knownCores n) = knownCores n.
Proof.
  unfold knownCores. destruct (Z.eqb_spec n 0) as [->|Hn].
  - destruct MachineInfo as [k|e]; [|done]. by destruct (k =? 0).
  - apply Z.eqb_neq in Hn. by rewrite Hn.
Qed.

Lemma generateRef_total roots k v : uid_ok v -> exists r, generateRef pods roots k v = Ret r.
Proof.
  intros Hu. unfold generateRef, getCgroupId, generateK8sCgroupId. cbn [ref_PodUid ref_Name ref_ContainerName].
  destruct (Z.eqb_spec (slen (GetPodUID (Labels v))) 0) as [E|E]; cbn [negb].
  - unfold mbind, outcome_bind. case_match; by eexists.
  - destruct (Z.ltb_spec (slen (GetPodUID (Labels v))) 5) as [Hl|Hl].
    + destruct Hu as [Hu|Hu]; [by rewrite Hu in E|lia].
    + unfold mbind, outcome_bind. case_match; by eexists.
Qed.

(** Listing changes nothing but the number of cores. *)
Definition same_store c c' : Prop :=
  c' = set_machineCores c (machineCores c') /\ knownCores (machineCores c') = knownCores (machineCores c).

Lemma same_store_refl c : same_store c c.
Proof. split; [by destruct c|done]. Qed.

Lemma same_store_trans c1 c2 c3 : same_store c1 c2 -> same_store c2 c3 -> same_store c1 c3.
Proof.
  intros [E1 K1] [E2 K2]. split; [|congruence]. rewrite E2, E1. by destruct c1.
Qed.

Lemma same_store_cgroups c c' : same_store c c' -> cgroups c' = cgroups c.
Proof. intros [E _]. rewrite E. by destruct c. Qed.

Lemma listOne_visit cgKey classFilter k v cgs c : uid_ok v ->
  exists c', listOne pods cgKey classFilter k v cgs c =
    Ret (match visit (knownCores (machineCores c)) (cgroups c) cgKey classFilter (k, v) with
         | Some x => insertStats cgs x | None => cgs end, c') /\ same_store c c'.
Proof.
  intros Hu. destruct (generateRef_total (cgroups c) k v Hu) as [r Hr]. unfold listOne, visit. cbn [fst snd].
  destruct (Stats v) as [|s0 [|s1 [|]]]; try by (eexists; split; [reflexivity|apply same_store_refl]).
  rewrite Hr. rewrite <- negb_orb. destruct (HasCpu v || HasMemory v); cbn [negb];
    [|destruct r as [[]|]; by (eexists; split; [reflexivity|apply same_store_refl])].
  unfold mbind, SC_bind, sc_get, of_outcome. rewrite Hr.
  destruct r as [[ref key]|e]; [|by (eexists; split; [reflexivity|apply same_store_refl])].
  destruct (wanted _ _ _); cbn; [|by (eexists; split; [reflexivity|apply same_store_refl])].
  eexists. split; [reflexivity|]. split; [by destruct c|]. apply knownCores_idem.
Qed.

Lemma listInfos_visit cgKey classFilter infos cgs c : Forall (fun x => uid_ok x.2) infos ->
  exists c', listInfos pods cgKey classFilter infos cgs c =
    Ret (fold_left insertStats (omap (visit (knownCores (machineCores c)) (cgroups c) cgKey classFilter) infos) cgs, c') /\
    same_store c c'.
Proof.
  revert cgs c. induction infos as [|[k v] infos IH]; intros cgs c Hu; cbn [listInfos].
  { eexists. split; [reflexivity|apply same_store_refl]. }
  apply Forall_cons in Hu as [Hv Hu].
  destruct (listOne_visit cgKey classFilter k v cgs c Hv) as (c1 & E1 & S1). unfold mbind, SC_bind. rewrite E1.
  destruct (IH (match visit (knownCores (machineCores c)) (cgroups c) cgKey classFilter (k, v) with
                | Some x => insertStats cgs x | None => cgs end) c1 Hu) as (c2 & E2 & S2).
  rewrite E2. exists c2. split; [|by eapply same_store_trans].
  rewrite (proj2 S1), (same_store_cgroups _ _ S1). cbn [omap list_omap].
  by destruct (visit _ _ _ _ (k, v)).
Qed.

Lemma listPaths_visit updateStats recur cgPaths cgKey classFilter cgs c :
  Forall (fun x => uid_ok x.2) (concat (map (infosOf 2 recur updateStats) cgPaths)) ->
  exists c', listPaths pods updateStats recur cgPaths cgKey classFilter cgs c =
    Ret (fold_left insertStats (omap (visit (knownCores (machineCores c)) (cgroups c) cgKey classFilter)
                                  (concat (map (infosOf 2 recur updateStats) cgPaths))) cgs, c') /\
    same_store c c'.
Proof.
  revert cgs c. induction cgPaths as [|cg cgPaths IH]; intros cgs c Hu; cbn [listPaths].
  { eexists. split; [reflexivity|apply same_store_refl]. }
  cbn [map concat] in Hu. apply Forall_app in Hu as [Hv Hu].
  destruct (listInfos_visit cgKey classFilter _ cgs c Hv) as (c1 & E1 & S1). unfold mbind, SC_bind. rewrite E1.
  destruct (IH (fold_left insertStats (omap (visit (knownCores (machineCores c)) (cgroups c) cgKey classFilter)
                                         (infosOf 2 recur updateStats cg)) cgs) c1 Hu) as (c2 & E2 & S2).
  rewrite E2. exists c2. split; [|by eapply same_store_trans].
  rewrite (proj2 S1), (same_store_cgroups _ _ S1). cbn [map concat].
  by rewrite omap_app, fold_left_app.
Qed.

Lemma insertStats_distinct l cgs :
  NoDup l.*1 -> (forall k, k ∈ l.*1 -> cgs !! k = None) -> fold_left insertStats l cgs = list_to_map l ∪ cgs.
Proof.
  revert cgs. induction l as [|[k st] l IH]; intros cgs Hnd Hn; cbn [fold_left list_to_map fmap list_fmap foldr].
  { by rewrite (left_id_L ∅ (∪)). }
  cbn in Hnd, Hn. apply NoDup_cons in Hnd as [Hk Hnd]. rewrite IH.
  - unfold insertStats. cbn [fst snd]. rewrite (Hn k) by set_solver.
    rewrite <- insert_union_l. rewrite insert_union_r; [done|]. by apply not_elem_of_list_to_map_1.
  - done.
  - intros k' Hk'. unfold insertStats. cbn [fst snd]. rewrite lookup_insert_ne by (intros ->; done). apply Hn. set_solver.
Qed.

(** The visited cgroups that count, with their ids. *)
Definition occurrences updateStats recur cgPaths cgKey classFilter c : list (string * CgroupStats) :=
  omap (visit (knownCores (machineCores c)) (cgroups c) cgKey classFilter)
       (concat (map (infosOf 2 recur updateStats) cgPaths)).

Lemma elem_of_infosOf count recur updateStats cg k v :
  (k, v) ∈ infosOf count recur updateStats cg <-> exists m, ContainerInfoV2 cg count recur updateStats = Ok m /\ m !! k = Some v.
Proof.
  unfold infosOf. destruct (ContainerInfoV2 _ _ _ _) as [m|e].
  - rewrite elem_of_range. split; [by eauto|]. by intros (m' & [= <-] & H).
  - split; [intros H; by apply elem_of_nil in H|by intros (m' & ? & _)].
Qed.


(** A cgroup below two of the given paths counts twice: its usage is the double
    of what cadvisor measures. *)
Theorem nested_cgroups_counted_twice updateStats cg1 cg2 k v key st c :
  ContainerInfoV2 cg1 2 true updateStats = Ok {[k := v]} ->
  ContainerInfoV2 cg2 2 true updateStats = Ok {[k := v]} ->
  uid_ok v -> visit (knownCores (machineCores c)) (cgroups c) None [] (k, v) = Some (key, st) ->
  exists c', listCgroupStats pods updateStats true [cg1; cg2] None [] c = Ret ({[key := addStats st st]}, c').
Proof.
  intros H1 H2 Hu Hv. assert (Hi : forall cg, ContainerInfoV2 cg 2 true updateStats = Ok {[k := v]} ->
    infosOf 2 true updateStats cg = [(k, v)]).
  { intros cg E. unfold infosOf. rewrite E. apply Permutation_length_1_inv. symmetry.
    rewrite range_map_perm. by rewrite map_to_list_singleton. }
  destruct (listPaths_visit updateStats true [cg1; cg2] None [] ∅ c) as (c' & E & _).
  { cbn [map concat]. rewrite (Hi _ H1), (Hi _ H2). cbn [app]. by rewrite !Forall_cons, Forall_nil. }
  exists c'. unfold listCgroupStats. rewrite E. cbn [map concat]. rewrite (Hi _ H1), (Hi _ H2). cbn [app omap list_omap].
  rewrite Hv. cbn [fold_left]. unfold insertStats. cbn [fst snd].
  rewrite lookup_empty, lookup_insert_eq. by rewrite insert_insert_eq.
Qed.
End Listing.

(** ** Bounds of the processor usage *)

(** The processor usage of a cgroup is between zero and the number of cores of
    the machine, whatever the measurements and their times. *)
Theorem cpu_usage_bounds n v s0 s1 ref :
  0 <= n ->
  flt (CpuUsage (cgroupStats n v s0 s1 ref)) fzero = false /\
  (n <> 0 -> fgt (CpuUsage (cgroupStats n v s0 s1 ref)) (float64_of_Z n) = false).
Proof.
  intros Hn. assert (E : CpuUsage (cgroupStats n v s0 s1 ref) =
    CpuUsage (generateCgroupStatsCpu n (HasCpu v) s0 s1 (empty_stats ref (cs_Timestamp s1)))).
  { unfold cgroupStats, generateCgroupStatsNetwork, generateCgroupStatsMemory. by destruct (HasNetwork v), (HasMemory v). }
  rewrite E. unfold generateCgroupStatsCpu. pose proof (float64_of_nonneg n Hn) as Hc.
  destruct (HasCpu v); [|by split]. cbn [negb]. destruct (cs_UsageTotal s0 <=? cs_UsageTotal s1); [|by split].
  destruct (flt (cpuUsage _ _) fzero) eqn:Hneg; [by split|].
  destruct (negb (n =? 0) && fgt _ _) eqn:Hbig; cbn [CpuUsage set_cpu].
  - split; [done|]. intros _. apply flt_irrefl.
  - split; [done|]. intros Hn0. apply Z.eqb_neq in Hn0. by rewrite Hn0 in Hbig.
Qed.

(** ** Which cgroups are monitored *)

Section Monitoring.
Context {T : Type}.
Implicit Types (c : cgroupStoreManager T).

(** A call with the cgroups of a job, or the start of the store. *)
Inductive store_call :=
| CallAdd (extraCgs : list string)
| CallStart.

(** The calls when cadvisor never fails. *)
Definition call_store c (e : store_call) : cgroupStoreManager T :=
  match e with
  | CallAdd extraCgs => (AddExtraCgroups extraCgs None None c).2
  | CallStart => match StartStore None c with Ret c' => c' | Crash _ => c end
  end.

Lemma newCgroups_spec existing extra :
  NoDup (newCgroups existing extra) /\
  forall cg, cg ∈ newCgroups existing extra <-> cg ∈ extra /\ cg ∉ existing.
Proof.
  revert existing. induction extra as [|x extra IH]; intros existing; cbn [newCgroups]; [split; [constructor|set_solver]|].
  destruct (bool_decide_reflect (x ∈ existing)) as [Hx|Hx].
  - destruct (IH existing) as [Hd Hin]. split; [done|]. intros cg. rewrite Hin. set_solver.
  - destruct (IH (x :: existing)) as [Hd Hin]. split.
    + constructor; [|done]. rewrite Hin. set_solver.
    + intros cg. rewrite elem_of_cons, Hin. destruct (decide (cg = x)); set_solver.
Qed.

Lemma app_newCgroups l extra : NoDup l ->
  NoDup (l ++ newCgroups l extra) /\ forall cg, cg ∈ l ++ newCgroups l extra <-> cg ∈ l \/ cg ∈ extra.
Proof.
  intros Hl. destruct (newCgroups_spec l extra) as [Hd Hin]. split.
  - apply NoDup_app. split_and!; [done| |done]. intros x Hx. rewrite Hin. tauto.
  - intros cg. rewrite elem_of_app, Hin. destruct (decide (cg ∈ l)); tauto.
Qed.

Lemma AddExtraCgroups_ok extra c : cs_cadvisor c = (cgroups c, started c) ->
  AddExtraCgroups extra None None c =
    (None, mkStore (cgroups c ++ newCgroups (cgroups c) extra) (started c)
             (cgroups c ++ newCgroups (cgroups c) extra, started c) (machineCores c) (cacheAge c) (caches c)).
Proof.
  intros Hc. unfold AddExtraCgroups. destruct (newCgroups (cgroups c) extra) as [|x l].
  - rewrite app_nil_r. destruct c; cbn in *; by subst.
  - unfold restartCadvisor, set_cadvisor, set_cgroups. cbn. by destruct (started c).
Qed.

(** Online jobs are monitored: as long as cadvisor does not fail, after any
    sequence of calls the store and the running instance of cadvisor have
    exactly the cgroups of the configuration and those added, each once, and
    cadvisor runs exactly when the store was started. *)
Theorem extra_cgroups_monitored calls c :
  NoDup (cgroups c) -> cs_cadvisor c = (cgroups c, started c) ->
  let c' := fold_left call_store calls c in
  NoDup (cgroups c') /\ cs_cadvisor c' = (cgroups c', started c') /\
  (started c' = true <-> started c = true \/ CallStart ∈ calls) /\
  forall cg, cg ∈ cgroups c' <-> cg ∈ cgroups c \/ exists extra, CallAdd extra ∈ calls /\ cg ∈ extra.
Proof.
  revert c. induction calls as [|e calls IH]; intros c Hd Hc; cbn [fold_left].
  { cbn. split_and!; [done|done|set_solver|]. intros cg. split; [by left|]. intros [?|(? & Hin & _)]; [done|set_solver]. }
  cbn zeta. destruct e as [extra|]; cbn [call_store].
  - rewrite (AddExtraCgroups_ok extra c Hc). cbn [snd]. destruct (app_newCgroups (cgroups c) extra Hd) as [Hd' Hin].
    destruct (IH (mkStore (cgroups c ++ newCgroups (cgroups c) extra) (started c)
             (cgroups c ++ newCgroups (cgroups c) extra, started c) (machineCores c) (cacheAge c) (caches c)) Hd' eq_refl)
      as (H1 & H2 & H3 & H4). cbn [cgroups started] in H3, H4.
    split_and!; [done|done| |].
    + rewrite H3. set_solver.
    + intros cg. rewrite H4, Hin. split.
      * intros [[?|?]|(ex & ? & ?)]; [by left|right; exists extra; set_solver|right; exists ex; set_solver].
      * intros [?|(ex & Hex & ?)]; [by do 2 left|]. apply elem_of_cons in Hex as [[= ->]|Hex]; [by left; right|right; by exists ex].
  - unfold StartStore. rewrite Hc. cbn [fst].
    destruct (IH (mkStore (cgroups c) true (cgroups c, true) (machineCores c) (cacheAge c) (caches c)) Hd eq_refl)
      as (H1 & H2 & H3 & H4). cbn [cgroups started] in H3, H4.
    split_and!; [done|done| |].
    + rewrite H3. split; [intros _; right; set_solver|intros _; by left].
    + intros cg. rewrite H4. split; (intros [?|(ex & ? & ?)]; [by left|right; exists ex; set_solver]).
Qed.

(** A restart of cadvisor that fails is not repeated: the new cgroups count as
    monitored, so that the same request, and every later one for them, does
    nothing and reports success, although no instance of cadvisor that runs
    knows them. *)
Theorem failed_restart_not_retried extra stopErr startErr e c c' stopErr' startErr' :
  started c = true -> cs_cadvisor c = (cgroups c, true) ->
  AddExtraCgroups extra stopErr startErr c = (Some e, c') ->
  AddExtraCgroups extra stopErr' startErr' c' = (None, c') /\ cs_cadvisor c' <> (cgroups c', true).
Proof.
  intros Hs Hc H. unfold AddExtraCgroups in H at 1. destruct (newCgroups (cgroups c) extra) as [|x l] eqn:En; [done|].
  assert (Hc' : cgroups c' = cgroups c ++ x :: l /\ (cs_cadvisor c' = (cgroups c ++ x :: l, false) \/ cs_cadvisor c' = cs_cadvisor c)).
  { unfold restartCadvisor, set_cadvisor, set_cgroups in H. cbn in H. rewrite Hs in H. cbn in H.
    destruct stopErr; [|destruct startErr; [|done]]; injection H as <- <-; cbn; auto. }
  destruct Hc' as [Eg Ec]. split.
  - unfold AddExtraCgroups. assert (Hnone : newCgroups (cgroups c') extra = []).
    { apply elem_of_nil_inv. intros cg. rewrite (proj2 (newCgroups_spec _ _)), Eg. intros [Hin Hnot].
      apply Hnot. rewrite elem_of_app, <- En, (proj2 (newCgroups_spec _ _)). destruct (decide (cg ∈ cgroups c)); tauto. }
    by rewrite Hnone.
  - rewrite Eg. destruct Ec as [->| ->]; [done|]. rewrite Hc. intros [= E]. apply (f_equal length) in E.
    rewrite length_app in E. cbn in E. lia.
Qed.
End Monitoring.

(** ** Examples *)

Definition ex_measure (t cpu : Z) : ContainerStats := mkContainerStats t cpu 0 0 500 4096 2048 1024 0 0 [].
Definition ex_info : ContainerInfo := mkContainerInfo
  (list_to_map [(KubernetesPodNameLabel, "web"); (KubernetesPodNamespaceLabel, "shop");
                (KubernetesPodUIDLabel, "0ab20a34"); (KubernetesContainerNameLabel, "main")])
  true true false [ex_measure 0 0; ex_measure (10 * Second) (25 * Second)].
Definition ex_path : string := "/kubepods/burstable/pod0ab20a34/2d1d90db".
Definition ex_cadvisor : Cadvisor := {|
  MachineInfo := Ok 8;
  ContainerInfoV2 := fun cg _ _ _ => if HasPrefix ex_path cg then Ok {[ex_path := ex_info]} else Err "unknown container";
|}.
Definition ex_pods : gmap string (Pod Z) :=
  {["shop/web" := mkPod "shop" "web" "0ab20a34" {["a" := "b"]} None None PodRunning PodQOSBurstable [] []]}.
Definition ex_store : cgroupStoreManager (list CgroupStats) :=
  mkStore ["/kubepods"; "/sys"] false (["/kubepods"; "/sys"], false) 0 (10 * Minute) ∅.
Definition ex_key : string := "0ab20_main".

(** The pod is online and uses two and a half cores. *)
Example ex_listed :
  match listCgroupStats (RO := key_order) (CA := ex_cadvisor) ex_pods false true ["/kubepods"; "/sys"] None ["online"] ex_store with
  | Ret (cgs, _) => match cgs !! ex_key with Some st => feq (CpuUsage st) (flit 5 2) && feq (LoadAvg st) (flit 1 2) | None => false end
  | Crash _ => false
  end = true.
Proof. vm_compute. reflexivity. Qed.


Lemma nested_cgroups_counted_twice_witness :
  exists c' st, listCgroupStats (RO := key_order) (CA := ex_cadvisor) ex_pods false true ["/kubepods"; "/kubepods/burstable"] None [] ex_store =
    Ret ({[ex_key := addStats st st]}, c').
Proof.
  destruct (visit ex_pods 8 ["/kubepods"; "/sys"] None [] (ex_path, ex_info)) as [[key st]|] eqn:Ev;
    [|by vm_compute in Ev].
  assert (key = ex_key) as ->.
  { assert (Hk : bool_decide (fst <$> visit ex_pods 8 ["/kubepods"; "/sys"] None [] (ex_path, ex_info) = Some ex_key) = true)
      by (vm_compute; reflexivity).
    apply bool_decide_eq_true_1 in Hk. rewrite Ev in Hk. by injection Hk. }
  destruct (nested_cgroups_counted_twice (RO := key_order) (CA := ex_cadvisor) ex_pods false "/kubepods" "/kubepods/burstable"
    ex_path ex_info ex_key st ex_store) as [c' E]; [reflexivity|reflexivity|right; vm_compute; discriminate|exact Ev|by eauto].
Defined.

Lemma cpu_usage_bounds_witness :
  flt (CpuUsage (cgroupStats 8 ex_info (ex_measure 0 0) (ex_measure 5 10000) (mkRef "" "" "" "" "" ""))) fzero = false.
Proof. apply (cpu_usage_bounds 8 ex_info (ex_measure 0 0) (ex_measure 5 10000)). lia. Defined.

Lemma extra_cgroups_monitored_witness :
  forall cg, cg ∈ cgroups (fold_left call_store [CallAdd ["/onlinejobs"; "/sys"]; CallStart; CallAdd ["/onlinejobs"]] ex_store) <->
    cg ∈ ["/kubepods"; "/sys"] \/
    exists extra, CallAdd extra ∈ [CallAdd ["/onlinejobs"; "/sys"]; CallStart; CallAdd ["/onlinejobs"]] /\ cg ∈ extra.
Proof.
  apply (extra_cgroups_monitored [CallAdd ["/onlinejobs"; "/sys"]; CallStart; CallAdd ["/onlinejobs"]] ex_store).
  - apply (bool_decide_eq_true_1 (NoDup ["/kubepods"; "/sys"])). vm_compute. reflexivity.
  - reflexivity.
Defined.

Lemma failed_restart_not_retried_witness :
  exists c', AddExtraCgroups ["/onlinejobs"] None (Some "busy") (mkStore ["/kubepods"] true (["/kubepods"], true) 8 0 (∅ : gmap string (list CgroupStats))) = (Some "busy", c') /\
    AddExtraCgroups ["/onlinejobs"] None None c' = (None, c').
Proof.
  eexists. split; [reflexivity|].
  eapply (failed_restart_not_retried ["/onlinejobs"] None (Some "busy") "busy" (mkStore ["/kubepods"] true (["/kubepods"], true) 8 0 ∅)); reflexivity.
Defined.
