(* ===== verification/Checkers.v ===== *)
(** * The checkers and their construction

    pkg/caelus/healthcheck/rulecheck (rule_check_container.go and the
    constructors and rounds of the other files) and
    pkg/caelus/healthcheck/rulecheck/correlation: the checker of containers
    feeds the statistics of online containers (CgroupStore.v) to the detectors
    of its rules and evicts the pods that correlate with their anomalies; the
    checkers of the node and of applications run the rules of RuleCheck.v.  The
    statestore is an argument, as are the pods of the informer, by namespace
    and name.  Alarms are left out. *)

From Stdlib Require Import Ascii.
From S2P Require Import Prelude GoStrings GoFloat Quantity Action Conflict Detection RuleCheck K8sResource CgroupStore.

#[local] Open Scope string_scope.
#[local] Open Scope Z_scope.
#[local] Open Scope list_scope.

(** The order in which Go visits a map whose keys are references. *)
Class RefOrder := {
  range_refs : forall {V : Type}, string -> gmap CgroupRef V -> list (CgroupRef * V);
  range_refs_perm : forall {V : Type} site (m : gmap CgroupRef V), range_refs site m ≡ₚ map_to_list m;
}.

Definition ref_key_order : RefOrder := {|
  range_refs := fun V _ m => map_to_list m;
  range_refs_perm := fun V _ m => Permutation_refl _;
|}.

(** A pod with the names and the requests of its containers. *)
Record PodObject (Q : Type) := mkPodObject {
  po_pod : Pod Q;
  po_Containers : list (string * gmap string Q);
}.
Arguments mkPodObject {Q} _ _.
Arguments po_pod {Q} _.
Arguments po_Containers {Q} _.

Definition informer_key (ns name : string) : string := ns +:+ "/" +:+ name.

(** ** Correlation *)

(** [2 ^ 30] is an exclusive or. *)
Definition memory_unit : float64 := float64_of_Z (Z.lxor 2 30).

Record suspect := mkSuspect {
  sus_ref : CgroupRef;
  sus_priority : Z;
  sus_val : float64;
  sus_runtime : duration;
}.

Section Correlation.
Context {RO : RangeOrder} {RR : RefOrder} {GS : GoSort} {Q : Type} `{QO : QuantityOps Q}.
(** [ScaledValue q s]: the value of [q] in units of [10^s], rounded up. *)
Context (ScaledValue : Q -> Z -> Z) (pods : gmap string (PodObject Q)).

Definition container_requests (ref : CgroupRef) (pod : PodObject Q) : option (gmap string Q) :=
  snd <$> List.find (fun '(name, _) => (name =? ref_ContainerName ref)%string) (po_Containers pod).

Definition getPodMemoryRequest (ref : CgroupRef) : float64 :=
  match pods !! informer_key (ref_PodNamespace ref) (ref_PodName ref) with
  | None => fzero
  | Some pod =>
      match container_requests ref pod with
      | None => fzero
      | Some reqs => fdiv (float64_of_Z (ScaledValue (rl_Memory reqs) 6)) (float64_of_Z 1024)
      end
  end.

Definition memLoadFunc (s : CgroupStats) : float64 :=
  let req := getPodMemoryRequest (Ref s) in
  if feq req fzero then fzero
  else let usage := fdiv (MemoryTotalUsage s) memory_unit in fdiv (fsub usage req) req.

Definition memFilter (maxPri : Z) (minLoad : float64) (currentPri : Z) (currentLoad : float64) (cgroupStats : CgroupStats) : bool :=
  if flt currentLoad fzero then false
  else if flt (fdiv (MemoryTotalUsage cgroupStats) memory_unit) (flit 1 2) then false
  else (currentPri <? maxPri) || ((maxPri =? currentPri) && flt minLoad currentLoad).

Definition getPodPriority (ref : CgroupRef) : Z :=
  if (ref_PodNamespace ref =? "")%string then
    if (ref_AppClass ref =? "online")%string then 2 ^ 31 - 1 else - 2 ^ 31
  else match pods !! informer_key (ref_PodNamespace ref) (ref_PodName ref) with
       | None => 0
       | Some pod => default 0 (Priority (po_pod pod))
       end.

Definition getPodRunningTime (now : time) (ref : CgroupRef) : duration :=
  if (ref_PodNamespace ref =? "")%string then 24 * Hour
  else match pods !! informer_key (ref_PodNamespace ref) (ref_PodName ref) with
       | None => 0
       | Some pod => match StartTime (po_pod pod) with None => 0 | Some t => time_Sub now t end
       end.

Definition loadFunc := CgroupStats -> float64.
Definition filterFunc := Z -> float64 -> Z -> float64 -> CgroupStats -> bool.

(** The highest priority of the victims and the least load at it. *)
Definition victimStep (load : loadFunc) (st : Z * float64) (victim : CgroupRef * CgroupStats) : Z * float64 :=
  let '(maxPri, minLoad) := st in
  let pri := getPodPriority victim.1 in
  let minLoad := if (pri =? maxPri) && flt (load victim.2) minLoad then load victim.2 else minLoad in
  if maxPri <? pri then (pri, load victim.2) else (maxPri, minLoad).

Definition suspectOf (now : time) (load : loadFunc) (cstat : CgroupStats) : suspect :=
  mkSuspect (Ref cstat) (getPodPriority (Ref cstat)) (load cstat) (getPodRunningTime now (Ref cstat)).

Definition isSuspect (load : loadFunc) (filt : filterFunc) (maxPri : Z) (minLoad : float64) (cstat : CgroupStats) : bool :=
  negb ((ref_PodNamespace (Ref cstat) =? "")%string && (ref_AppClass (Ref cstat) =? "online")%string) &&
  filt maxPri minLoad (getPodPriority (Ref cstat)) (load cstat) cstat.

Definition suspect_less (a b : suspect) : bool :=
  if sus_priority a =? sus_priority b then fgt (sus_val a) (sus_val b) else sus_priority a <? sus_priority b.

Definition isRecent (s : suspect) : bool := sus_runtime s <? 15 * Minute.

Definition recentFilter (items : list suspect) : list suspect :=
  match List.filter isRecent items with [] => items | cand => cand end.

(** [stat]: what the statestore answers. *)
Definition findSuspect (now : time) (victimStats : gmap CgroupRef CgroupStats) (load : loadFunc) (filt : filterFunc)
    (stat : result (gmap string CgroupStats)) : option CgroupRef :=
  match stat with
  | Err _ => None
  | Ok statMap =>
      let '(maxPri, minLoad) := fold_left (victimStep load) (range_refs "findSuspect" victimStats) (0, fzero) in
      let suspects := map (suspectOf now load)
        (List.filter (isSuspect load filt maxPri minLoad) (map snd (range_map "findSuspect" statMap))) in
      match suspects with
      | [] => None
      | _ => sus_ref <$> head (recentFilter (go_sort suspect_less suspects))
      end
  end.

Definition Analysis (now : time) (metric : string) (victimStats : gmap CgroupRef CgroupStats)
    (stat : result (gmap string CgroupStats)) : option CgroupRef :=
  if (metric =? "memory")%string then findSuspect now victimStats memLoadFunc memFilter stat else None.
End Correlation.

(** ** The checker of containers *)

Definition extraMetric : list string := ["cpu_request"].
Definition cgroupSupportedMetrics : list string := GetCgroupStoreSupportedTags ++ extraMetric.

(** Metrics are classified by the resource. *)
Definition metricCategory (metric : string) : string :=
  if bool_decide (metric ∈ ["mem_direct_reclaim"; "mem_direct_compact"; "memory_working_set_activate"]) then "memory"
  else if bool_decide (metric ∈ ["read_latency"; "write_latency"; "read_count"; "write_count"]) then "diskio"
  else "".

Record RuleCheckConfig := mkRuleCheckConfig {
  rcc_Name : string;
  rcc_Metrics : list string;
  rcc_CheckInterval : duration;
  rcc_HandleInterval : duration;
  rcc_RecoverInterval : duration;
  rcc_Rules : list (option DetectActionConfig);
  rcc_RecoverRules : list (option DetectActionConfig);
}.

Section Containers.
Context {RO : RangeOrder} {RR : RefOrder} {GS : GoSort} {Q : Type} `{QO : QuantityOps Q}.
Context {E : Type} (Evaluate : E -> gmap string float64 -> result (option bool)).
Context (NewEvaluableExpression : string -> result E).
Context {MA : Type} (NewMovingAverage : float64 -> MA) (MA_Add : MA -> float64 -> MA)
  (MA_Value : MA -> float64).
Context (ScaledValue : Q -> Z -> Z).

#[local] Abbreviation detector := (Detector (E := E) (MA := MA)).

(** A factory is the detector it makes. *)
Record containerHealthChecker := mkContainerChecker {
  rulesFactory : list detector;
  containerChecks : gmap CgroupRef (list detector);
  cc_checkInterval : duration;
  cc_lastCheck : time;
}.

(** Rules that cannot be parsed are logged and left out. *)
Fixpoint containerFactories (name : string) (metrics : list string) (rules : list (option DetectActionConfig))
    (factories : list detector) : outcome (list detector) :=
  match rules with
  | [] => Ret factories
  | rule :: rules' =>
      r ← parseDetectorRule (Q := Q) NewEvaluableExpression NewMovingAverage name metrics rule;
      containerFactories name metrics rules' (factories ++ match r with Ok (fs, _, _, _) => fs | Err _ => [] end)
  end.

Fixpoint containerRules (cfgs : list RuleCheckConfig) (factories : list detector) (interval : duration) :
    outcome (list detector * duration) :=
  match cfgs with
  | [] => Ret (factories, interval)
  | rCheck :: cfgs' =>
      if negb (forallb (fun metric => bool_decide (metric ∈ cgroupSupportedMetrics)) (rcc_Metrics rCheck))
      then Crash (Fatal "invalid metric")
      else
        factories ← containerFactories (rcc_Name rCheck) (rcc_Metrics rCheck) (rcc_Rules rCheck) factories;
        containerRules cfgs' factories
          (if negb (feq (duration_Seconds interval) fzero) &&
              fge (duration_Seconds (rcc_CheckInterval rCheck)) (duration_Seconds interval)
           then interval else rcc_CheckInterval rCheck)
  end.

Definition newContainerHealthChecker (now : time) (cfgs : list RuleCheckConfig) : outcome containerHealthChecker :=
  r ← containerRules cfgs [] 0;
  Ret (mkContainerChecker r.1 ∅ r.2 (time_Add now (- r.2))).

Section Check.
Context (pods : gmap string (PodObject Q)).

Definition getCpuRequest (ref : CgroupRef) : float64 :=
  if (ref_PodName ref =? "")%string || (ref_PodNamespace ref =? "")%string then float64_of_Z 100
  else match pods !! informer_key (ref_PodNamespace ref) (ref_PodName ref) with
       | None => float64_of_Z 100
       | Some pod =>
           match container_requests ref pod with
           | None => float64_of_Z 100
           | Some reqs => fdiv (float64_of_Z (ScaledValue (rl_Cpu reqs) (-3))) (float64_of_Z 1000)
           end
       end.

Definition getMetricValue (metric : string) (stat : CgroupStats) : outcome float64 :=
  if (metric =? "cpu_request")%string then Ret (getCpuRequest (Ref stat))
  else v ← GetValue stat metric; Ret (ok_or fzero v).

Fixpoint container_params (stat : CgroupStats) (metrics : list string) (params : gmap string float64) :
    outcome (gmap string float64) :=
  match metrics with
  | [] => Ret params
  | metric :: metrics' => v ← getMetricValue metric stat; container_params stat metrics' (<[metric := v]> params)
  end.

(** The victims by category and reference. *)
Definition victims := gmap string (gmap CgroupRef CgroupStats).

Definition addVictim (stat : CgroupStats) (vs : victims) (metric : string) : victims :=
  let category := metricCategory metric in
  if (category =? "")%string then vs
  else <[category := <[Ref stat := stat]> (default ∅ (vs !! category))]> vs.

(** The detectors of a container, after they saw its statistics. *)
Fixpoint checkDetectors (stat : CgroupStats) (ds : list detector) (vs : victims) : outcome (list detector * victims) :=
  match ds with
  | [] => Ret ([], vs)
  | d :: ds' =>
      params ← container_params stat (Detector_Metrics d) ∅;
      d1 ← Detector_Add Evaluate MA_Add d (mkTimedData (Timestamp stat) params);
      '(r, d2) ← Detector_IsAnomaly MA_Value d1;
      let vs := match r with Ok true => fold_left (addVictim stat) (Detector_Metrics d2) vs | _ => vs end in
      '(ds'', vs') ← checkDetectors stat ds' vs;
      Ret (d2 :: ds'', vs')
  end.

(** The loop over the online cgroups: the detectors, the victims and the
    references that exist. *)
Fixpoint victimLoop (factory : list detector) (cstats : list CgroupStats)
    (acc : gmap CgroupRef (list detector) * victims * gset CgroupRef) :
    outcome (gmap CgroupRef (list detector) * victims * gset CgroupRef) :=
  match cstats with
  | [] => Ret acc
  | stat :: cstats' =>
      let '(checks, vs, refs) := acc in
      if (ref_ContainerName (Ref stat) =? "")%string || (ref_PodNamespace (Ref stat) =? "kube-system")%string
      then victimLoop factory cstats' acc
      else
        '(ds, vs') ← checkDetectors stat (default factory (checks !! Ref stat)) vs;
        victimLoop factory cstats' (<[Ref stat := ds]> checks, vs', {[Ref stat]} ∪ refs)
  end.

(** [online]: the recent statistics of the class online. *)
Definition victimStats (c : containerHealthChecker) (online : result (gmap string CgroupStats)) :
    outcome (gmap CgroupRef (list detector) * victims * gset CgroupRef) :=
  match online with
  | Err _ => Ret (containerChecks c, ∅, ∅)
  | Ok cstats => victimLoop (rulesFactory c) (map snd (range_map "victimStats" cstats)) (containerChecks c, ∅, ∅)
  end.

(** The suspects as a set of namespaces and names. *)
Definition suspectsOf (now : time) (vs : victims) (all : result (gmap string CgroupStats)) : gmap string (string * string) :=
  fold_left (fun suspects '(category, cstat) =>
      match Analysis ScaledValue pods now category cstat all with
      | Some ref => <[informer_key (ref_PodNamespace ref) (ref_PodName ref) := (ref_PodNamespace ref, ref_PodName ref)]> suspects
      | None => suspects
      end) (range_map "Check.victims" vs) ∅.

(** [all]: the recent statistics of every class. *)
Definition container_Check (now : time) (c : containerHealthChecker) (online all : result (gmap string CgroupStats)) :
    outcome (ActionResult Q * containerHealthChecker) :=
  if feq (duration_Seconds (cc_checkInterval c)) fzero || negb (time_Before (time_Add (cc_lastCheck c) (cc_checkInterval c)) now)
  then Ret (emptyResult, c)
  else
    '(checks, vs, existRefs) ← victimStats c online;
    if (size vs =? 0)%nat then Ret (emptyResult, mkContainerChecker (rulesFactory c) checks (cc_checkInterval c) now)
    else
      let suspects := suspectsOf now vs all in
      let checks := filter (fun rc => bool_decide (rc.1 ∈ existRefs) = true) checks in
      Ret (mkActionResult ∅ (map snd (range_map "Check.suspects" suspects)) ∅ false [],
           mkContainerChecker (rulesFactory c) checks (cc_checkInterval c) now).
End Check.
End Containers.

(** ** The choice of the suspect *)

Lemma suspect_less_strict_weak : strict_weak_on (fun s => is_num (sus_val s)) suspect_less.
Proof.
  assert (Hs : forall a b, is_num (sus_val a) -> is_num (sus_val b) ->
    suspect_less a b = if sus_priority a =? sus_priority b then lex3 (fkey (sus_val b)) (fkey (sus_val a))
                       else sus_priority a <? sus_priority b).
  { intros a b Ha Hb. unfold suspect_less, fgt. fold (flt (sus_val b) (sus_val a)). by rewrite flt_fkey. }
  split.
  - intros x Hx. rewrite Hs by done. unfold lex3. destruct (fkey (sus_val x)) as [[x1 x2] x3]. repeat case_match; lia.
  - intros x y z Hx Hy Hz. rewrite !Hs by done. unfold lex3.
    destruct (fkey (sus_val x)) as [[x1 x2] x3], (fkey (sus_val y)) as [[y1 y2] y3], (fkey (sus_val z)) as [[z1 z2] z3].
    repeat case_match; lia.
  - intros x y z Hx Hy Hz. rewrite !Hs by done. unfold lex3.
    destruct (fkey (sus_val x)) as [[x1 x2] x3], (fkey (sus_val y)) as [[y1 y2] y3], (fkey (sus_val z)) as [[z1 z2] z3].
    repeat case_match; lia.
Qed.

Lemma StronglySorted_filter {A} (R : A -> A -> Prop) (f : A -> bool) l :
  StronglySorted R l -> StronglySorted R (List.filter f l).
Proof.
  induction 1 as [|x l Hl IH HF]; cbn; [constructor|]. destruct (f x); [|done]. constructor; [done|].
  rewrite Forall_forall in HF |- *. intros y Hy. apply HF. rewrite list_elem_of_In in Hy |- *. by apply filter_In in Hy as [? _].
Qed.

(** What [recentFilter] picks first of a sorted list. *)
Lemma recentFilter_head {GS : GoSort} l s : Forall (fun s => is_num (sus_val s)) l ->
  head (recentFilter (go_sort suspect_less l)) = Some s ->
  s ∈ l /\ forall s', s' ∈ l ->
    (isRecent s' = true -> isRecent s = true) /\ (isRecent s' = isRecent s -> suspect_less s' s = false).
Proof.
  intros Hn Hh. pose proof (go_sort_perm suspect_less l) as Hp.
  pose proof (go_sort_sorted_on _ suspect_less l Hn suspect_less_strict_weak) as Hsort.
  set (l' := go_sort suspect_less l) in *.
  assert (Hmin : forall m, StronglySorted (fun a b => suspect_less b a = false) m -> m ⊆ l -> head m = Some s ->
    s ∈ l /\ forall s', s' ∈ m -> suspect_less s' s = false).
  { intros m Hm Hml Hhm. destruct m as [|x m]; [done|]. injection Hhm as ->. split; [apply Hml; left|].
    intros s' Hs'. apply elem_of_cons in Hs' as [->|Hs'].
    - apply (swo_irrefl _ _ suspect_less_strict_weak). rewrite Forall_forall in Hn. apply Hn, Hml. left.
    - apply StronglySorted_inv in Hm as [_ HF]. rewrite Forall_forall in HF. by apply HF. }
  unfold recentFilter in Hh. destruct (List.filter isRecent l') as [|x m] eqn:Ef.
  - destruct (Hmin l' Hsort ltac:(intros y; by rewrite Hp) Hh) as [Hin Hless]. split; [done|].
    intros s' Hs'. rewrite <- Hp in Hs'. split; [|by intros _; apply Hless].
    intros Hr. assert (Hf : In s' (List.filter isRecent l')) by (apply filter_In; split; [by apply list_elem_of_In|done]).
    by rewrite Ef in Hf.
  - rewrite <- Ef in Hh. assert (Hsub : forall y, y ∈ List.filter isRecent l' <-> y ∈ l /\ isRecent y = true).
    { intros y. rewrite list_elem_of_In, filter_In, <- list_elem_of_In, Hp. done. }
    destruct (Hmin (List.filter isRecent l') (StronglySorted_filter _ _ _ Hsort)) as [Hin Hless]; [|done|].
    { intros y Hy. by apply Hsub in Hy as [? _]. }
    assert (Hrs : isRecent s = true).
    { assert (s ∈ List.filter isRecent l') as Hs by (rewrite Ef in *; injection Hh as ->; left). by apply Hsub in Hs as [_ ?]. }
    split; [done|]. intros s' Hs'. split; [done|]. intros Hr. apply Hless, Hsub. split; [done|congruence].
Qed.

Section Suspects.
Context {RO : RangeOrder} {RR : RefOrder} {GS : GoSort} {Q : Type} `{QO : QuantityOps Q}.
Context (ScaledValue : Q -> Z -> Z) (pods : gmap string (PodObject Q)).

(** The suspect for an anomaly is a cgroup that passes the filter for the
    victims, and the best one: one that started recently if there is any, and
    among these of the lowest priority and, at that priority, the greatest load;
    there is none only when no cgroup passes.  This holds for every order of the
    maps and every outcome of the unstable sort. *)
Theorem suspect_correct now vs load filt statMap maxPri minLoad :
  fold_left (victimStep pods load) (range_refs "findSuspect" vs) (0, fzero) = (maxPri, minLoad) ->
  (forall k st, statMap !! k = Some st -> is_num (load st)) ->
  let candidate k st := statMap !! k = Some st /\ isSuspect pods load filt maxPri minLoad st = true in
  match findSuspect pods now vs load filt (Ok statMap) with
  | None => forall k st, ~ candidate k st
  | Some ref =>
      exists k st, candidate k st /\ ref = Ref st /\
        let s := suspectOf pods now load st in
        forall k' st', candidate k' st' -> let s' := suspectOf pods now load st' in
          (isRecent s' = true -> isRecent s = true) /\ (isRecent s' = isRecent s -> suspect_less s' s = false)
  end.
Proof.
  intros Hv Hn candidate. unfold findSuspect. rewrite Hv.
  set (suspects := map (suspectOf pods now load) _).
  assert (Hin : forall s, s ∈ suspects <-> exists k st, candidate k st /\ s = suspectOf pods now load st).
  { intros s. unfold suspects, candidate. rewrite list_elem_of_In, in_map_iff. split.
    - intros (st & <- & Hst). apply filter_In in Hst as [Hst Hf]. apply in_map_iff in Hst as ([k st'] & <- & Hst).
      apply list_elem_of_In, elem_of_range in Hst. by exists k, st'.
    - intros (k & st & [Hk Hf] & ->). exists st. split; [done|]. apply filter_In. split; [|done].
      apply in_map_iff. exists (k, st). split; [done|]. by apply list_elem_of_In, elem_of_range. }
  assert (Hnum : Forall (fun s => is_num (sus_val s)) suspects).
  { apply Forall_forall. intros s Hs. apply Hin in Hs as (k & st & [Hk _] & ->). by apply (Hn k). }
  destruct suspects as [|x suspects'] eqn:Es.
  { intros k st Hc. assert (Hs : suspectOf pods now load st ∈ []) by (apply Hin; by exists k, st). by apply elem_of_nil in Hs. }
  destruct (head (recentFilter (go_sort suspect_less (x :: suspects')))) as [s|] eqn:Hh.
  - destruct (recentFilter_head _ s Hnum Hh) as [Hs Hbest]. cbn [fmap option_fmap option_map].
    apply Hin in Hs as (k & st & Hc & ->). exists k, st. split; [done|]. split; [done|].
    cbn zeta. intros k' st' Hc'. apply Hbest, Hin. by exists k', st'.
  - exfalso. pose proof (go_sort_perm suspect_less (x :: suspects')) as Hp. unfold recentFilter in Hh.
    destruct (List.filter isRecent _); [|discriminate Hh].
    destruct (go_sort suspect_less (x :: suspects')); [|discriminate Hh]. by apply Permutation_nil_cons in Hp.
Qed.
End Suspects.

(** ** What the rules of containers can do *)

Section ContainerRules.
Context {RO : RangeOrder} {RR : RefOrder} {GS : GoSort} {Q : Type} `{QO : QuantityOps Q}.
Context {E : Type} (Evaluate : E -> gmap string float64 -> result (option bool)).
Context (NewEvaluableExpression : string -> result E).
Context {MA : Type} (NewMovingAverage : float64 -> MA) (MA_Add : MA -> float64 -> MA)
  (MA_Value : MA -> float64).
Context (ScaledValue : Q -> Z -> Z).

#[local] Abbreviation detector := (Detector (E := E) (MA := MA)).
#[local] Abbreviation checker := (containerHealthChecker (E := E) (MA := MA)).

(** A round of the checker: the pods, the time and what the statestore answers. *)
Record check_input := mkCheckInput {
  in_pods : gmap string (PodObject Q);
  in_now : time;
  in_online : result (gmap string CgroupStats);
  in_all : result (gmap string CgroupStats);
}.

Fixpoint container_run (c : checker) (inputs : list check_input) : outcome (list (ActionResult Q) * checker) :=
  match inputs with
  | [] => Ret ([], c)
  | i :: inputs' =>
      '(r, c') ← container_Check Evaluate MA_Add MA_Value ScaledValue (in_pods i) (in_now i) c (in_online i) (in_all i);
      '(rs, c'') ← container_run c' inputs';
      Ret (r :: rs, c'')
  end.

(** Detectors of supported metrics, in order. *)
Definition det_ok (d : detector) : Prop :=
  Forall (fun m => m ∈ cgroupSupportedMetrics) (Detector_Metrics d) /\
  match d with DEwma e => ewma_ok e | DExpression _ => True | DUnion _ _ => False end.

Definition checker_ok (c : checker) : Prop :=
  Forall det_ok (rulesFactory c) /\ map_Forall (fun _ ds => Forall det_ok ds) (containerChecks c).

Lemma category_supported m : m ∈ cgroupSupportedMetrics -> metricCategory m = "".
Proof.
  unfold cgroupSupportedMetrics, GetCgroupStoreSupportedTags, extraMetric. cbn [app]. intros Hm.
  repeat (apply elem_of_cons in Hm as [->|Hm]; [reflexivity|]). by apply elem_of_nil in Hm.
Qed.

Lemma getMetricValue_total pods m stat : m ∈ cgroupSupportedMetrics -> exists v, getMetricValue ScaledValue pods m stat = Ret v.
Proof.
  unfold cgroupSupportedMetrics, GetCgroupStoreSupportedTags, extraMetric. cbn [app]. intros Hm.
  repeat (apply elem_of_cons in Hm as [->|Hm]; [by eexists|]). by apply elem_of_nil in Hm.
Qed.

Lemma container_params_total pods stat ms params : Forall (fun m => m ∈ cgroupSupportedMetrics) ms ->
  exists params', container_params ScaledValue pods stat ms params = Ret params'.
Proof.
  intros Hm. revert params. induction Hm as [|m ms Hm Hms IH]; intros params; cbn [container_params]; [by eexists|].
  destruct (getMetricValue_total pods m stat Hm) as [v Hv]. unfold mbind, outcome_bind. rewrite Hv. apply IH.
Qed.

Lemma expression_add_metrics (e : ExpressionDetector (E := E)) x : ex_metrics (expression_add Evaluate e x) = ex_metrics e.
Proof. unfold expression_add, expression_detect, ex_set. repeat case_match; reflexivity. Qed.

Lemma detector_step (d : detector) x : det_ok d ->
  exists d1 r d2, Detector_Add Evaluate MA_Add d x = Ret d1 /\ Detector_IsAnomaly MA_Value d1 = Ret (r, d2) /\ det_ok d2.
Proof.
  intros [Hm Hd]. destruct d as [e|e|]; [| |done]; cbn [Detector_Add Detector_IsAnomaly Detector_Metrics] in *.
  - destruct (ewma_add_ok MA_Add e x Hd) as (e' & E1 & Hok & Em). destruct (ewma_IsAnomaly_total MA_Value e' Hok) as [r E2].
    exists (DEwma e'), r, (DEwma e'). unfold mbind, outcome_bind. cbn [Detector_IsAnomaly]. rewrite E1, E2.
    split_and!; [done|done|]. unfold det_ok. cbn [Detector_Metrics]. by rewrite Em.
  - exists (DExpression (expression_add Evaluate e x)).
    destruct (expression_IsAnomaly (expression_add Evaluate e x)) as [b e'] eqn:Ei.
    exists (Ok b), (DExpression e'). split; [done|]. cbn [Detector_IsAnomaly]. rewrite Ei. split; [done|].
    split; [|done]. cbn [Detector_Metrics].
    assert (Em : ex_metrics e' = ex_metrics e).
    { rewrite <- (expression_add_metrics e x). unfold expression_IsAnomaly, ex_set in Ei. injection Ei as _ <-.
      by repeat case_match. }
    by rewrite Em.
Qed.

Lemma addVictim_supported stat ms vs : Forall (fun m => m ∈ cgroupSupportedMetrics) ms -> fold_left (addVictim stat) ms vs = vs.
Proof.
  induction 1 as [|m ms Hm Hms IH]; cbn [fold_left]; [done|].
  unfold addVictim at 2. by rewrite (category_supported m Hm).
Qed.

Lemma checkDetectors_ok pods stat ds vs : Forall det_ok ds ->
  exists ds', checkDetectors Evaluate MA_Add MA_Value ScaledValue pods stat ds vs = Ret (ds', vs) /\ Forall det_ok ds'.
Proof.
  revert vs. induction ds as [|d ds IH]; intros vs Hds; cbn [checkDetectors]; [by exists []|].
  apply Forall_cons in Hds as [Hd Hds].
  destruct (container_params_total pods stat (Detector_Metrics d) ∅ (proj1 Hd)) as [params Hp].
  destruct (detector_step d (mkTimedData (Timestamp stat) params) Hd) as (d1 & r & d2 & E1 & E2 & Hd2).
  unfold mbind, outcome_bind. rewrite Hp, E1, E2.
  assert (Ev : match r with Ok true => fold_left (addVictim stat) (Detector_Metrics d2) vs | _ => vs end = vs)
    by (destruct r as [[]|]; [by apply addVictim_supported, (proj1 Hd2)|done|done]).
  rewrite Ev. destruct (IH vs Hds) as (ds' & E3 & Hds'). rewrite E3. exists (d2 :: ds'). split; [done|by constructor].
Qed.

Lemma victimLoop_ok pods factory cstats checks vs refs :
  Forall det_ok factory -> map_Forall (fun _ ds => Forall det_ok ds) checks ->
  exists checks' refs', victimLoop Evaluate MA_Add MA_Value ScaledValue pods factory cstats (checks, vs, refs) = Ret (checks', vs, refs') /\
    map_Forall (fun _ ds => Forall det_ok ds) checks'.
Proof.
  intros Hf. revert checks refs. induction cstats as [|stat cstats IH]; intros checks refs Hc; cbn [victimLoop]; [by do 2 eexists|].
  destruct (_ || _); [by apply IH|].
  assert (Hds : Forall det_ok (default factory (checks !! Ref stat))).
  { destruct (checks !! Ref stat) as [ds|] eqn:El; [by apply (Hc _ _ El)|done]. }
  destruct (checkDetectors_ok pods stat _ vs Hds) as (ds' & E1 & Hds'). unfold mbind, outcome_bind. rewrite E1.
  apply IH. by apply map_Forall_insert_2.
Qed.

Lemma container_Check_ok pods now (c : checker) online all : checker_ok c ->
  exists c', container_Check Evaluate MA_Add MA_Value ScaledValue pods now c online all = Ret (emptyResult, c') /\ checker_ok c'.
Proof.
  intros Hc. unfold container_Check. destruct (_ || _); [by eexists|].
  assert (Hv : exists checks refs, victimStats Evaluate MA_Add MA_Value ScaledValue pods c online = Ret (checks, ∅, refs) /\
    map_Forall (fun _ ds => Forall det_ok ds) checks).
  { unfold victimStats. destruct online as [cstats|]; [|do 2 eexists; split; [reflexivity|apply Hc]].
    apply victimLoop_ok; apply Hc. }
  destruct Hv as (checks & refs & Ev & Hchecks). unfold mbind, outcome_bind. rewrite Ev.
  change (size (∅ : victims)) with 0%nat. cbn [Nat.eqb]. eexists. split; [reflexivity|]. split; [apply Hc|done].
Qed.

(** The metrics of their own that EWMA detectors name are supported. *)
Definition own_metrics_ok (rules : list (option DetectActionConfig)) : Prop :=
  forall da d, Some da ∈ rules -> d ∈ da_detects da -> dc_name d = "ewma" -> dc_metric d ∈ "" :: cgroupSupportedMetrics.

Lemma generateDetectorFactory_ok ms d det n dur :
  Forall (fun m => m ∈ cgroupSupportedMetrics) ms ->
  (dc_name d = "ewma" -> dc_metric d ∈ "" :: cgroupSupportedMetrics) ->
  generateDetectorFactory NewEvaluableExpression NewMovingAverage ms d = Ret (Ok (det, n, dur)) -> det_ok det.
Proof.
  intros Hm Ho. unfold generateDetectorFactory.
  assert (Hn : (0 < Z.to_nat (if dc_nr d <? Z.of_nat MinData then Z.of_nat MinData else dc_nr d)%Z)%nat)
    by (unfold MinData; destruct (Z.ltb_spec (dc_nr d) (Z.of_nat 11)); lia).
  destruct (String.eqb_spec (dc_name d) ""); [done|]. destruct (String.eqb_spec (dc_name d) "expression").
  { destruct (NewEvaluableExpression (dc_expression d)) as [exp|err]; intros Hx; [|discriminate Hx]. injection Hx as <- <- <-. split; [|done]. cbn. unfold NewExpressionDetector. by case_match. }
  destruct (String.eqb_spec (dc_name d) "ewma") as [Ew|]; [|done]. specialize (Ho Ew).
  destruct (String.eqb_spec (dc_metric d) "") as [Em|Em].
  - destruct ms as [|m ms]; intros Hx; [done|]. injection Hx as <- <- <-. split; [|by apply ewma_ok_new].
    cbn [Detector_Metrics NewEwmaDetector ew_metric]. apply Forall_cons in Hm as [Hm _]. by apply Forall_singleton.
  - intros Hx. injection Hx as <- <- <-. split; [|by apply ewma_ok_new].
    cbn [Detector_Metrics NewEwmaDetector ew_metric]. apply Forall_singleton.
    by apply elem_of_cons in Ho as [?|?].
Qed.

Lemma parseDetects_ok ms ds acc ds' n dur :
  Forall (fun m => m ∈ cgroupSupportedMetrics) ms ->
  (forall d, d ∈ ds -> dc_name d = "ewma" -> dc_metric d ∈ "" :: cgroupSupportedMetrics) ->
  Forall det_ok acc.1.1 ->
  parseDetects NewEvaluableExpression NewMovingAverage ms ds acc = Ret (ds', n, dur) -> Forall det_ok ds'.
Proof.
  intros Hm. revert acc. induction ds as [|d ds IH]; intros [[fs s] du] Ho Hacc H; cbn [parseDetects] in *; [by injection H as <- _ _|].
  apply outcome_bind_Ret in H as (r & Hr & H). destruct r as [[[f cs] cd]|e]; simpl in H; [|done].
  apply IH in H; [done| |].
  - intros d' Hd'. apply Ho. by right.
  - simpl. apply Forall_app. split; [done|]. apply Forall_singleton.
    eapply generateDetectorFactory_ok; [exact Hm| |exact Hr]. apply Ho. left.
Qed.

Lemma containerFactories_ok name ms rules fs fs' :
  Forall (fun m => m ∈ cgroupSupportedMetrics) ms -> own_metrics_ok rules -> Forall det_ok fs ->
  containerFactories (Q := Q) NewEvaluableExpression NewMovingAverage name ms rules fs = Ret fs' -> Forall det_ok fs'.
Proof.
  intros Hm. revert fs. induction rules as [|rule rules IH]; intros fs Ho Hf H; cbn [containerFactories] in H; [by injection H as <-|].
  apply outcome_bind_Ret in H as (r & Hr & H). apply IH in H; [done| |].
  - intros da d Hda. apply Ho. by right.
  - apply Forall_app. split; [done|]. destruct r as [[[[ds acs] n] dur]|e]; [|constructor].
    destruct rule as [da|]; [|done]. cbn [parseDetectorRule] in Hr.
    apply outcome_bind_Ret in Hr as ([[ds1 n1] dur1] & Hp & Hr). apply outcome_bind_Ret in Hr as (acs1 & _ & Hr).
    injection Hr as <- _ _ _. eapply parseDetects_ok; [exact Hm| | |exact Hp]; [|constructor].
    intros d Hd. apply (Ho da d); [left|done].
Qed.

Lemma containerRules_ok cfgs fs interval fs' interval' :
  Forall (fun cfg => own_metrics_ok (rcc_Rules cfg)) cfgs -> Forall det_ok fs ->
  containerRules (Q := Q) NewEvaluableExpression NewMovingAverage cfgs fs interval = Ret (fs', interval') -> Forall det_ok fs'.
Proof.
  intros Ho. revert fs interval. induction Ho as [|cfg cfgs Hcfg Ho IH]; intros fs interval Hf H; cbn [containerRules] in H; [by injection H as <- _|].
  destruct (forallb _ _) eqn:Hall; [|done]. cbn [negb] in H.
  apply outcome_bind_Ret in H as (fs1 & Hfs & H). eapply IH; [|exact H].
  eapply containerFactories_ok; [|exact Hcfg|exact Hf|exact Hfs].
  apply Forall_forall. intros m Hin. rewrite forallb_forall in Hall.
  specialize (Hall m ltac:(by apply list_elem_of_In)). by apply bool_decide_eq_true_1 in Hall.
Qed.

(** The rules of containers evict nobody: once the checker accepted its
    configuration, and as long as the EWMA detectors name no metric of their
    own that the store does not have, every sequence of rounds runs to its end
    and has no result, because none of the supported metrics belongs to a
    category that is analysed. *)
Theorem container_rules_never_evict now cfgs c inputs :
  newContainerHealthChecker (Q := Q) NewEvaluableExpression NewMovingAverage now cfgs = Ret c ->
  Forall (fun cfg => own_metrics_ok (rcc_Rules cfg)) cfgs ->
  exists c', container_run c inputs = Ret (replicate (length inputs) emptyResult, c').
Proof.
  intros Hnew Ho. assert (Hc : checker_ok c).
  { unfold newContainerHealthChecker in Hnew. apply outcome_bind_Ret in Hnew as ([fs interval] & Hr & Hnew). injection Hnew as <-.
    split; [|apply map_Forall_empty]. eapply containerRules_ok; [exact Ho|constructor|exact Hr]. }
  clear Hnew. revert c Hc. induction inputs as [|i inputs IH]; intros c Hc; cbn [container_run]; [by eexists|].
  destruct (container_Check_ok (in_pods i) (in_now i) c (in_online i) (in_all i) Hc) as (c1 & E1 & Hc1).
  destruct (IH c1 Hc1) as (c' & E2). exists c'. unfold mbind, outcome_bind. by rewrite E1, E2.
Qed.
End ContainerRules.

(** ** The checkers of the node and of applications *)

Section Checkers.
Context {RO : RangeOrder} {RR : RefOrder} {GS : GoSort} {Q : Type} `{QO : QuantityOps Q}.
Context {E : Type} (Evaluate : E -> gmap string float64 -> result (option bool)).
Context (NewEvaluableExpression : string -> result E).
Context {MA : Type} (NewMovingAverage : float64 -> MA) (MA_Add : MA -> float64 -> MA)
  (MA_Value : MA -> float64).
Context (ScaledValue : Q -> Z -> Z).

#[local] Abbreviation entry := (ruleCheckEntry (Q := Q) (E := E) (MA := MA)).

(** The rules of a configuration, which was last checked an interval ago. *)
Definition newEntry (now : time) (rChecker : RuleCheckConfig) : outcome entry :=
  r ← generateRules NewEvaluableExpression NewMovingAverage (rcc_Name rChecker) (rcc_Metrics rChecker)
        (rcc_Rules rChecker) (rcc_RecoverRules rChecker);
  let '(rs, rrs, samples, dur) := r in
  Ret (mkRuleCheckEntry (rcc_Name rChecker) rs rrs samples dur (rcc_CheckInterval rChecker) (rcc_HandleInterval rChecker)
         (rcc_RecoverInterval rChecker) (time_Add now (- rcc_CheckInterval rChecker)) None None None).

Record nodeHealthChecker := mkNodeChecker {
  nd_ruleCheckers : list entry;
  predictedReserved : gmap string Q;
}.

(** Metrics the node store does not have end the process. *)
Fixpoint checkNodeMetrics (supported : list string) (metrics : list string) : outcome unit :=
  match metrics with
  | [] => Ret tt
  | metric :: metrics' =>
      '(_, _, originalMetric) ← GetDeviceNameFromMetric metric;
      if bool_decide (originalMetric ∈ supported) then checkNodeMetrics supported metrics'
      else Crash (Fatal "invalid metric")
  end.

Fixpoint newNodeEntries (now : time) (supported : list string) (cfgs : list RuleCheckConfig) : outcome (list entry) :=
  match cfgs with
  | [] => Ret []
  | rChecker :: cfgs' =>
      _ ← checkNodeMetrics supported (rcc_Metrics rChecker);
      c ← newEntry now rChecker;
      cs ← newNodeEntries now supported cfgs';
      Ret (c :: cs)
  end.

(** [reserved]: the milli cores and the megabytes, which may be nil pointers. *)
Definition newNodeHealthChecker (now : time) (supported : list string) (reserved : option float64 * option float64)
    (cfgs : list RuleCheckConfig) : outcome nodeHealthChecker :=
  match reserved with
  | (Some CpuMilli, Some MemMB) =>
      cs ← newNodeEntries now supported cfgs;
      Ret (mkNodeChecker cs
             (<["cpu" := qNewMilliQuantity (int64_of_float64 CpuMilli)]>
              {["memory" := qNewQuantity (int64 (int64_of_float64 MemMB * (1024 * 1024)))]}))
  | _ => Crash (Panic "nil pointer dereference")
  end.

(** The handler of the memory rule asks the store for the latest state, which
    is an argument of the round. *)
Definition set_handlers (recent : result NodeState) (n : nodeHealthChecker) (c : entry) : entry :=
  set_rc c (map (fun r => mkRuleEntry (detects r)
                   (generateSelfDefineHandler recent (memBytes (predictedReserved n)) (actions r))) (rules c))
    (recoverRules c) (lastHandle c) (lastRecover c) (lastAbnormal c).

Definition node_round (stats : time -> Z -> result (list NodeState)) (recent : result NodeState) (now : time)
    (n : nodeHealthChecker) : outcome (ActionResult Q * nodeHealthChecker) :=
  '(r, cs) ← node_Check Evaluate NewMovingAverage MA_Add MA_Value stats now (map (set_handlers recent n) (nd_ruleCheckers n));
  Ret (r, mkNodeChecker cs (predictedReserved n)).

(** *** Applications *)

Record Metric := mkMetric { m_JobName : string; m_Values : gmap string float64; m_Ts : time }.

Record appHealthChecker := mkAppChecker {
  app_ruleCheckers : list entry;
  historySlo : list sloParam;
  latestMetricTs : time;
}.

(** A rule is called slo, or for a job and its metric. *)
Definition app_name_ok (name : string) : bool :=
  (name =? "slo")%string || (length (Split name ":") =? 2)%nat.

Fixpoint newAppEntries (now : time) (cfgs : list RuleCheckConfig) : outcome (list entry) :=
  match cfgs with
  | [] => Ret []
  | rChecker :: cfgs' =>
      c ← newEntry now rChecker;
      if negb (app_name_ok (rcc_Name rChecker)) then Crash (Fatal "unknown app rule name")
      else
        cs ← newAppEntries now cfgs';
        Ret (c :: cs)
  end.

Definition newAppHealthChecker (now : time) (cfgs : list RuleCheckConfig) : outcome appHealthChecker :=
  cs ← newAppEntries now cfgs;
  Ret (mkAppChecker cs [] nilTime).

(** Whether a metric is newer than all before, and the newest time. *)
Definition latestStep (st : bool * time) (m : string * Metric) : bool * time :=
  if time_After (m_Ts m.2) st.2 then (true, m_Ts m.2) else st.

(** The SLO and the value of a job, 0 when it has none. *)
Definition slo_value (m : string * Metric) : float64 * float64 :=
  (default fzero (m_Values m.2 !! "slo"), default fzero (m_Values m.2 !! "value")).

(** [ranges job metric start end count]: the metrics of the store. *)
Definition app_values (ranges : string -> string -> time -> time -> Z -> result (list Metric)) (now : time)
    (history : list sloParam) (name : string) : outcome (option metricsValuesFunc) :=
  if (name =? "slo")%string then Ret (Some (fun _ n d => sloMetricFunc history n d))
  else
    match Split name ":" with
    | part0 :: part1 :: _ =>
        match ranges part0 part1 (time_Add now (- (30 * Minute))) now 30 with
        | Err _ => Ret None
        | Ok cMetrics => Ret (Some (fun _ _ _ => Ret (map (fun m => mkTimedData (m_Ts m) (m_Values m)) cMetrics)))
        end
    | _ => Crash (Panic "index out of range")
    end.

Fixpoint appCheckLoop (ranges : string -> string -> time -> time -> Z -> result (list Metric)) (now : time)
    (history : list sloParam) (cs : list entry) (acResult : ActionResult Q) : outcome (ActionResult Q * list entry) :=
  match cs with
  | [] => Ret (acResult, [])
  | c :: cs' =>
      if negb (time_Before (time_Add (lastCheck c) (checkInterval c)) now) then
        '(r, cs'') ← appCheckLoop ranges now history cs' acResult; Ret (r, c :: cs'')
      else
        f ← app_values ranges now history (rc_name c);
        match f with
        | None => '(r, cs'') ← appCheckLoop ranges now history cs' acResult; Ret (r, c :: cs'')
        | Some f =>
            '(cr, c') ← checkRule Evaluate NewMovingAverage MA_Add MA_Value (set_lastCheck c now) f now;
            let merged := Merge acResult (cr_result cr) in
            let merged := if cr_anomaly cr && negb (cr_noNeedHandle cr) then set_sync merged else merged in
            '(r, cs'') ← appCheckLoop ranges now history cs' merged; Ret (r, c' :: cs'')
        end
  end.

Definition app_Check (ranges : string -> string -> time -> time -> Z -> result (list Metric))
    (cStates : result (gmap string Metric)) (now : time) (a : appHealthChecker) : outcome (ActionResult Q * appHealthChecker) :=
  match cStates with
  | Err _ => Ret (emptyResult, a)
  | Ok states =>
      let '(needCheck, latest) := fold_left latestStep (range_map "app.latest" states) (false, latestMetricTs a) in
      if negb needCheck then Ret (emptyResult, a)
      else
        let '(mx, mn) := findMaxAndMinSLOSlack (map slo_value (range_map "findMaxAndMinSLOSlack" states)) in
        let history := appendHistory (historySlo a) (mkSloParam mn mx now) in
        '(r, cs) ← appCheckLoop ranges now history (app_ruleCheckers a) emptyResult;
        Ret (r, mkAppChecker cs history latest)
  end.

(** ** The manager *)

Record RuleManager := mkRuleManager {
  rm_container : containerHealthChecker (E := E) (MA := MA);
  rm_node : nodeHealthChecker;
  rm_app : appHealthChecker;
  rm_dispatcher : dispatcher (Q := Q);
}.

Record RuleCheckConfigs := mkRuleCheckConfigs {
  ContainerRules : list RuleCheckConfig;
  NodeRules : list RuleCheckConfig;
  AppRules : list RuleCheckConfig;
}.

Definition NewRuleManager (now : time) (supported : list string) (reserved : option float64 * option float64)
    (config : RuleCheckConfigs) (resource qosManager : bool) (conflicts : gmap string (ActionResource Q)) : outcome RuleManager :=
  c ← newContainerHealthChecker (Q := Q) NewEvaluableExpression NewMovingAverage now (ContainerRules config);
  n ← newNodeHealthChecker now supported reserved (NodeRules config);
  a ← newAppHealthChecker now (AppRules config);
  Ret (mkRuleManager c n a (mkDispatcher resource qosManager ∅ conflicts)).

(** What the statestore answers in a round. *)
Record round_input := mkRoundInput {
  ri_container : check_input (Q := Q);
  ri_stats : time -> Z -> result (list NodeState);
  ri_recent : result NodeState;
  ri_ranges : string -> string -> time -> time -> Z -> result (list Metric);
  ri_states : result (gmap string Metric);
}.

(** A round of [Manager.Run]: the checkers run in parallel, on parts of the
    state of their own, and their results are merged in some order. *)
Definition rule_round (order : list (ActionResult Q) -> list (ActionResult Q)) (i : round_input) (m : RuleManager) :
    outcome (list command * RuleManager) :=
  let now := in_now (ri_container i) in
  '(r1, c) ← container_Check Evaluate MA_Add MA_Value ScaledValue (in_pods (ri_container i)) now (rm_container m)
               (in_online (ri_container i)) (in_all (ri_container i));
  '(r2, n) ← node_round (ri_stats i) (ri_recent i) now (rm_node m);
  '(r3, a) ← app_Check (ri_ranges i) (ri_states i) now (rm_app m);
  let '(cmds, d) := manager_round (rm_dispatcher m) (order [r1; r2; r3]) in
  Ret (cmds, mkRuleManager c n a d).

(** ** Applications are checked on new metrics only *)

Lemma latestStep_fold (l : list (string * Metric)) b t :
  let '(b', t') := fold_left latestStep l (b, t) in
  t <= t' /\ (b = true -> b' = true) /\ (b' = false -> t' = t) /\ Forall (fun m => m_Ts m.2 <= t') l.
Proof.
  revert b t. induction l as [|m l IH]; intros b t; cbn [fold_left]; [split_and!; [lia|done|done|constructor]|].
  unfold latestStep at 2. cbn [snd]. unfold time_After. destruct (Z.ltb_spec t (m_Ts m.2)) as [Hlt|Hge].
  - specialize (IH true (m_Ts m.2)). destruct (fold_left _ _ _) as [b' t']. destruct IH as (H1 & H2 & H3 & H4).
    split_and!; [lia|intros _; by apply H2|intros Hb; rewrite H2 in Hb by done; done|]. constructor; [lia|done].
  - specialize (IH b t). destruct (fold_left _ _ _) as [b' t']. destruct IH as (H1 & H2 & H3 & H4).
    split_and!; [done..|]. constructor; [lia|done].
Qed.

Lemma latestStep_old (l : list (string * Metric)) t :
  Forall (fun m => m_Ts m.2 <= t) l -> fold_left latestStep l (false, t) = (false, t).
Proof.
  induction 1 as [|m l Hm Hl IH]; cbn [fold_left]; [done|].
  unfold latestStep at 2. cbn [snd]. unfold time_After. by rewrite (proj2 (Z.ltb_ge t (m_Ts m.2)) Hm).
Qed.

(** A metric of an application is used once: after a check, every further check
    on states none of which is newer than the newest metric seen by then,
    such as the same states, does nothing and changes nothing, whatever else
    the store holds and whatever time it is. *)
Theorem app_checks_new_metrics_only ranges ranges' states states' now now' a r a' :
  app_Check ranges (Ok states) now a = Ret (r, a') ->
  (forall k m, states' !! k = Some m -> exists k' m', states !! k' = Some m' /\ m_Ts m <= m_Ts m') ->
  app_Check ranges' (Ok states') now' a' = Ret (emptyResult, a').
Proof.
  intros H Hs. assert (Hl : map_Forall (fun _ m => m_Ts m <= latestMetricTs a') states).
  { unfold app_Check in H. pose proof (latestStep_fold (range_map "app.latest" states) false (latestMetricTs a)) as Hf.
    destruct (fold_left latestStep _ _) as [b t]. destruct Hf as (_ & _ & Hf & Hall).
    assert (Et : latestMetricTs a' = t).
    { destruct b; cbn [negb] in H.
      - destruct (findMaxAndMinSLOSlack _) as [mx mn]. apply outcome_bind_Ret in H as ([r1 cs] & _ & H). by injection H as _ <-.
      - injection H as _ <-. by rewrite Hf. }
    intros k m Hk. rewrite Et. rewrite Forall_forall in Hall. apply (Hall (k, m)). by apply elem_of_range. }
  unfold app_Check. rewrite latestStep_old; [done|].
  apply Forall_forall. intros [k m] Hin. apply elem_of_range in Hin. destruct (Hs k m Hin) as (k' & m' & Hk' & Hle).
  specialize (Hl k' m' Hk'). cbn in *. lia.
Qed.
End Checkers.

(** ** Examples *)

Definition ex_ref (name : string) : CgroupRef := mkRef ("/kubepods/pod" +:+ name) "main" name "shop" "0ab20a34" "offline".
Definition ex_stat (name : string) (mem : Z) : CgroupStats :=
  set_memory (empty_stats (ex_ref name) 100) (float64_of_Z mem) fzero fzero.
Definition ex_stats : gmap string CgroupStats := <["x" := ex_stat "batch" 80000]> {["y" := ex_stat "train" 90000]}.
Definition ex_objects : gmap string (PodObject Z) :=
  <["shop/batch" := mkPodObject (mkPod "shop" "batch" "1" ∅ (Some 0) (Some 5) PodRunning PodQOSBurstable [] []) [("main", {["memory" := nano]})]]>
  {["shop/train" := mkPodObject (mkPod "shop" "train" "2" ∅ (Some 0) (Some 5) PodRunning PodQOSBurstable [] []) [("main", {["memory" := nano]})]]}.
Definition ex_victims : gmap CgroupRef CgroupStats :=
  {[mkRef "/onlinejobs/db" "db" "" "" "" "online" := ex_stat "db" 1000]}.
Definition ex_scaled (q s : Z) : Z := div_up q (10 ^ (9 + s)).
#[local] Abbreviation ex_load := (memLoadFunc ex_scaled ex_objects).

Lemma suspect_correct_witness :
  exists k st, ex_stats !! k = Some st /\
    isSuspect ex_objects ex_load memFilter (2 ^ 31 - 1) (ex_load (ex_stat "db" 1000)) st = true /\
    findSuspect (RO := key_order) (RR := ref_key_order) (GS := insertion_sort) ex_objects 100 ex_victims ex_load memFilter (Ok ex_stats) = Some (Ref st).
Proof.
  pose proof (suspect_correct (RO := key_order) (RR := ref_key_order) (GS := insertion_sort) ex_objects 100 ex_victims ex_load memFilter ex_stats
    (2 ^ 31 - 1) (ex_load (ex_stat "db" 1000))) as Hc. cbn zeta in Hc.
  destruct (findSuspect _ _ _ _ _ (Ok ex_stats)) as [ref|] eqn:Ef; [|by vm_compute in Ef].
  destruct Hc as (k & st & [Hk Hs] & -> & _).
  - vm_compute. reflexivity.
  - intros k st Hk. unfold ex_stats in Hk. apply lookup_insert_Some in Hk as [[_ <-]|[_ Hk]];
      [|apply lookup_singleton_Some in Hk as [_ <-]]; intros Hn; vm_compute in Hn; discriminate.
  - exists k, st. split; [exact Hk|]. split; [exact Hs|reflexivity].
Defined.

Definition ex_rule : RuleCheckConfig :=
  mkRuleCheckConfig "mem" ["memory_total_usage"] 10 10 10
    [Some (mkDetectActionConfig [mkDetectConfig "ewma" "" 0 0 20 ""] [mkActionConfig "evict" None])] [].

Lemma container_rules_never_evict_witness :
  exists c c', newContainerHealthChecker (Q := Z) (fun s => Ok s) (fun _ => fzero) 100 [ex_rule] = Ret c /\
    container_run (RO := key_order) (RR := ref_key_order) (GS := insertion_sort) (fun _ _ => Err "none") (fun _ v => v) id ex_scaled c
      [mkCheckInput ex_objects 200 (Ok ex_stats) (Ok ex_stats)] = Ret ([emptyResult], c').
Proof.
  destruct (newContainerHealthChecker (Q := Z) (fun s => Ok s) (fun _ => fzero) 100 [ex_rule]) as [c|] eqn:Ec; [|by vm_compute in Ec].
  exists c. destruct (container_rules_never_evict (RO := key_order) (RR := ref_key_order) (GS := insertion_sort) (fun _ _ => Err "none")
    (fun s : string => Ok s) (fun _ => fzero) (fun _ v => v) id ex_scaled 100 [ex_rule] c [mkCheckInput ex_objects 200 (Ok ex_stats) (Ok ex_stats)] Ec)
    as [c' E1].
  - apply Forall_singleton. intros da d Hda Hd _. apply list_elem_of_singleton in Hda. injection Hda as ->.
    apply list_elem_of_singleton in Hd. subst d. left.
  - exists c'. split; [reflexivity|exact E1].
Defined.

Definition ex_metrics_map : gmap string Metric := {["db:latency" := mkMetric "db" {["slo" := fone; "value" := fone]} 50]}.
Definition ex_app : appHealthChecker (Q := Z) (E := string) (MA := float64) := mkAppChecker [] [] nilTime.

Lemma app_checks_new_metrics_only_witness :
  exists a', app_Check (RO := key_order) (Q := Z) (fun (_ : string) _ => Err "none") (fun _ => fzero) (fun _ v => v) id
    (fun _ _ _ _ _ => Err "none") (Ok ex_metrics_map) 70
    (mkAppChecker [] [mkSloParam fzero fzero 60] 50) = Ret (emptyResult, a').
Proof.
  eexists. refine (app_checks_new_metrics_only (RO := key_order) (Q := Z) (fun (_ : string) _ => Err "none") (fun _ => fzero) (fun _ v => v) id
    (fun _ _ _ _ _ => Err "none") (fun _ _ _ _ _ => Err "none") ex_metrics_map ex_metrics_map 60 70 ex_app emptyResult _ _ _).
  - vm_compute. reflexivity.
  - intros k m Hk. by exists k, m.
Defined.
