(* ===== verification/Lighthouse.v ===== *)
(** * Lighthouse

    contrib/lighthouse/pkg/hook: a proxy in front of the container runtime.
    Requests that match a configured route are sent to hooks, whose patches
    change the request before the runtime sees it and the answer before the
    client sees it; all other requests are passed on.  [LighthouseEnv] holds
    what is outside: the hooks and the runtime, whose answers may depend on all
    earlier calls, JSON and its patches, and the router.  The calls are recorded
    in their order.  The proxy for the runtime always writes a status. *)

From Stdlib Require Import Ascii.
From S2P Require Import Prelude GoStrings.

#[local] Open Scope string_scope.
#[local] Open Scope Z_scope.
#[local] Open Scope list_scope.

(** ** Data *)

(** The types and policies are texts of the configuration. *)
Definition HookType : Type := string.
Definition PreHookType : HookType := "PreHook".
Definition PostHookType : HookType := "PostHook".

Definition FailurePolicyType : Type := string.
Definition PolicyFail : FailurePolicyType := "Fail".
Definition PolicyIgnore : FailurePolicyType := "Ignore".

Record HookStage := mkStage { st_Method : string; URLPattern : string; st_Type : HookType }.

Record HookConfigurationItem := mkHookItem {
  hk_Name : string;
  hk_Endpoint : string;
  hk_FailurePolicy : FailurePolicyType;
  Stages : list HookStage;
}.

Record HookConfiguration := mkHookConfig {
  Timeout : Z;
  ListenAddress : string;
  RemoteEndpoint : string;
  WebHooks : list HookConfigurationItem;
}.

Record hookerConnector := mkConnector { hc_name : string; endpoint : string; failurePolicy : FailurePolicyType }.

Record PatchData := mkPatch { PatchType : string; pd_PatchData : option string }.
Record PostHookData := mkPostData { pd_StatusCode : Z; pd_Body : string }.

(** What is sent out: to a hook or to the runtime. *)
Inductive call :=
| CHook (endpoint method path body : string)
| CBackend (method path body : string).

Inductive hook_reply :=
| DoFailed (e : error)
| Responded (code : Z) (body : string).

Record response := mkResponse { rs_code : Z; rs_header : gmap string (list string); rs_body : string }.
Record request := mkRequest { rq_method : string; rq_path : string; rq_body : result string }.

Class LighthouseEnv := {
  hook_answer : list call -> call -> hook_reply;
  backend_answer : list call -> call -> response;
  (** [NewRequestWithContext] on a URL. *)
  new_request : string -> option error;
  decode_patch : string -> result PatchData;
  apply_json_patch : string -> string -> result string;
  merge_patch : string -> string -> result string;
  marshal_post : PostHookData -> result string;
  unmarshal_post : string -> PostHookData -> result PostHookData;
  (** Whether the router takes a path for a pattern. *)
  path_matches : string -> string -> bool;
  debug_index : string -> response;
}.

(** ** Strings *)

Definition lower_char (c : ascii) : ascii :=
  let n := nat_of_ascii c in if (65 <=? n)%nat && (n <=? 90)%nat then ascii_of_nat (n + 32) else c.

(** [strings.ToLower] on ASCII text. *)
Fixpoint ToLower (s : string) : string :=
  match s with
  | EmptyString => ""
  | String c s' => String (lower_char c) (ToLower s')
  end.

Definition HookPath (t : HookType) (path : string) : string := ToLower ("/" +:+ t +:+ path).

Definition fixUnexpectedEscape (d : string) : string := ReplaceAll (ReplaceAll d "\u003c" "<") "\u003e" ">".

(** The text before and after the first separator; [None] without one. *)
Fixpoint cut_string (s sep : string) : option (string * string) :=
  if HasPrefix s sep then Some ("", drop_string (String.length sep) s)
  else match s with
       | EmptyString => None
       | String c s' => match cut_string s' sep with Some (a, b) => Some (String c a, b) | None => None end
       end.

(** The path of a socket has at most 108 bytes. *)
Definition GetProtoAndAddress (ep : string) : result (string * string) :=
  match cut_string ep "://" with
  | None => Err "malformed unix socket"
  | Some (proto, addr) => if 108 <? slen addr then Err "unix socket path is too long" else Ok (proto, addr)
  end.

(** An escaped backslash before the digits of a bracket is no escaped bracket: the
    value of this field is the text [\u003c], and the result is no JSON. *)
Example escaped_backslash_broken : fixUnexpectedEscape "{'env': '\\u003c'}" = "{'env': '\<'}".
Proof. reflexivity. Qed.

(** ** Hooks *)

Section Lighthouse.
Context {LE : LighthouseEnv}.

(** A computation that makes calls. *)
Definition L (A : Type) : Type := list call -> A * list call.
#[export] Instance L_ret : MRet L := fun A a t => (a, t).
#[export] Instance L_bind : MBind L := fun A B f m t => let '(a, t') := m t in f a t'.

(** The process ends for an endpoint that is not a socket. *)
Definition newHookConnector (name ep : string) (policy : FailurePolicyType) : outcome hookerConnector :=
  if negb (HasPrefix ep "unix://") then Crash (Fatal "only support unix protocol")
  else match GetProtoAndAddress ep with
       | Err e => Crash (Fatal e)
       | Ok (proto, _) => if negb (proto =? "unix")%string then Crash (Fatal "only support unix socket")
                          else Ret (mkConnector name ep policy)
       end.

Definition allowFailure (hc : hookerConnector) : bool := (failurePolicy hc =? PolicyIgnore)%string.

(** The patch is empty when nothing was decoded. *)
Definition performHook (hc : hookerConnector) (method path body : string) : L (result PatchData) :=
  match new_request ("http://" +:+ endpoint hc) with
  | Some err => mret (if allowFailure hc then Ok (mkPatch "" None) else Err err)
  | None => fun t =>
      let c := CHook (endpoint hc) method path body in
      (match hook_answer t c with
       | DoFailed err => if allowFailure hc then Ok (mkPatch "" None) else Err err
       | Responded code rbody =>
           if negb (code =? 200) && negb (code =? 201) && negb (allowFailure hc) then Err "post is not success"
           else decode_patch rbody
       end, t ++ [c])
  end.

(** The switch of [applyHook] on the type, which has no other cases. *)
Definition doHook (hc : hookerConnector) (t : HookType) (method path body : string) : L (result PatchData) :=
  if (t =? PreHookType)%string || (t =? PostHookType)%string then performHook hc method (HookPath t path) body
  else mret (Ok (mkPatch "" None)).

Definition JSONPatchType : string := "application/json-patch+json".
Definition MergePatchType : string := "application/merge-patch+json".

Definition apply_patch (body : string) (patch : PatchData) : result string :=
  match pd_PatchData patch with
  | None => Ok body
  | Some data =>
      if (PatchType patch =? JSONPatchType)%string then apply_json_patch data body
      else if (PatchType patch =? MergePatchType)%string then merge_patch body data
      else Err "unknown patch type"
  end.

(** The body after the patches of the hooks; the first error ends the loop. *)
Fixpoint applyHook (handlers : list hookerConnector) (t : HookType) (method path body : string) : L (result string) :=
  match handlers with
  | [] => mret (Ok body)
  | h :: handlers' =>
      r ← doHook h t method path body;
      match r with
      | Err e => mret (Err e)
      | Ok patch =>
          match apply_patch body patch with
          | Err e => mret (Err e)
          | Ok body' => applyHook handlers' t method path body'
          end
      end
  end.

(** ** Requests *)

Definition StatusBadRequest : Z := 400.
Definition StatusInternalServerError : Z := 500.

(** The request for the runtime, or the answer for the client. *)
Definition preHook (handlers : list hookerConnector) (r : request) : L (response + string) :=
  match rq_body r with
  | Err _ => mret (inl (mkResponse StatusBadRequest ∅ ""))
  | Ok body =>
      b ← applyHook handlers PreHookType (rq_method r) (rq_path r) body;
      mret (match b with
            | Err e => inl (mkResponse StatusInternalServerError ∅ e)
            | Ok body' => inr (fixUnexpectedEscape body')
            end)
  end.

(** The recorder has its status already, which a second one does not change. *)
Definition postHook (handlers : list hookerConnector) (r : request) (w : response) : L response :=
  let data := mkPostData (rs_code w) (rs_body w) in
  match marshal_post data with
  | Err e => mret (mkResponse (rs_code w) (rs_header w) e)
  | Ok bytes =>
      b ← applyHook handlers PostHookType (rq_method r) (rq_path r) bytes;
      mret (match b with
            | Err e => mkResponse (rs_code w) (rs_header w) e
            | Ok bytes' =>
                match unmarshal_post (fixUnexpectedEscape bytes') data with
                | Err e => mkResponse (rs_code w) (rs_header w) e
                | Ok data' => mkResponse (rs_code w) (rs_header w) (pd_Body data')
                end
            end)
  end.

Definition send_backend (method path body : string) : L response := fun t =>
  (backend_answer t (CBackend method path body), t ++ [CBackend method path body]).

(** [Header().Set] for each value of each key: the last one stays. *)
Definition copy_header (h : gmap string (list string)) : gmap string (list string) :=
  omap (fun vs => match last vs with Some v => Some [v] | None => None end) h.

Record hookHandleData := mkHookData { preHooks : list hookerConnector; postHooks : list hookerConnector }.

Definition handle (v : hookHandleData) (r : request) : L response :=
  p ← preHook (preHooks v) r;
  match p with
  | inl w => mret w
  | inr body =>
      w ← send_backend (rq_method r) (rq_path r) body;
      w' ← postHook (postHooks v) r w;
      mret (mkResponse (rs_code w') (copy_header (rs_header w')) (rs_body w'))
  end.

(** ** Configuration *)

Definition SetDefaults_HookConfiguration (obj : HookConfiguration) : HookConfiguration :=
  mkHookConfig (if Timeout obj =? 0 then 5 else Timeout obj) (ListenAddress obj)
    (if (RemoteEndpoint obj =? "")%string then "unix:///var/run/docker.sock" else RemoteEndpoint obj) (WebHooks obj).

Definition SetDefaults_HookConfigurationItem (obj : HookConfigurationItem) : HookConfigurationItem :=
  mkHookItem (hk_Name obj) (hk_Endpoint obj)
    (if (hk_FailurePolicy obj =? "")%string then PolicyFail else hk_FailurePolicy obj) (Stages obj).

Definition SetDefaults_HookStage (obj : HookStage) : HookStage :=
  mkStage (if (st_Method obj =? "")%string then "POST" else st_Method obj) (URLPattern obj) (st_Type obj).

Definition SetObjectDefaults_HookConfiguration (inc : HookConfiguration) : HookConfiguration :=
  let in1 := SetDefaults_HookConfiguration inc in
  mkHookConfig (Timeout in1) (ListenAddress in1) (RemoteEndpoint in1)
    (map (fun a => let a1 := SetDefaults_HookConfigurationItem a in
                   mkHookItem (hk_Name a1) (hk_Endpoint a1) (hk_FailurePolicy a1) (map SetDefaults_HookStage (Stages a1)))
       (WebHooks in1)).

Definition addStage (hc : hookerConnector) (hooksMap : gmap (string * string) hookHandleData) (fp : HookStage) :
    gmap (string * string) hookHandleData :=
  let key := (st_Method fp, URLPattern fp) in
  let hookData := default (mkHookData [] []) (hooksMap !! key) in
  if (st_Type fp =? PreHookType)%string then <[key := mkHookData (preHooks hookData ++ [hc]) (postHooks hookData)]> hooksMap
  else if (st_Type fp =? PostHookType)%string then <[key := mkHookData (preHooks hookData) (postHooks hookData ++ [hc])]> hooksMap
  else hooksMap.

Fixpoint hooksMapOf (items : list HookConfigurationItem) (hooksMap : gmap (string * string) hookHandleData) :
    outcome (gmap (string * string) hookHandleData) :=
  match items with
  | [] => Ret hooksMap
  | r :: items' =>
      hc ← newHookConnector (hk_Name r) (hk_Endpoint r) (hk_FailurePolicy r);
      hooksMapOf items' (fold_left (addStage hc) (Stages r) hooksMap)
  end.

(** The routes, in the order in which the map is visited. *)
Definition InitFromConfig (range_routes : gmap (string * string) hookHandleData -> list ((string * string) * hookHandleData))
    (config : HookConfiguration) : outcome (list ((string * string) * hookHandleData)) :=
  match GetProtoAndAddress (RemoteEndpoint config) with
  | Err e => Crash (Fatal e)
  | Ok _ => hooksMap ← hooksMapOf (WebHooks config) ∅; Ret (range_routes hooksMap)
  end.

(** The first route for the method and the path. *)
Definition match_route (routes : list ((string * string) * hookHandleData)) (r : request) : option hookHandleData :=
  snd <$> List.find (fun '((method, pattern), _) => (method =? rq_method r)%string && path_matches pattern (rq_path r)) routes.

(** A body that cannot be read reaches the runtime as far as it goes. *)
Definition ServeHTTP (routes : list ((string * string) * hookHandleData)) (r : request) : L response :=
  match match_route routes r with
  | Some v => handle v r
  | None =>
      if HasPrefix (rq_path r) "/debug/pprof" then mret (debug_index (rq_path r))
      else send_backend (rq_method r) (rq_path r) (ok_or "" (rq_body r))
  end.
End Lighthouse.

(** ** The configured hooks *)

Section Configured.

Definition connector_of (item : HookConfigurationItem) : hookerConnector :=
  mkConnector (hk_Name item) (hk_Endpoint item) (hk_FailurePolicy item).

Definition stage_is (t : HookType) (key : string * string) (fp : HookStage) : bool :=
  bool_decide (st_Type fp = t) && bool_decide ((st_Method fp, URLPattern fp) = key).

(** The hooks of a type for a route, one for each of their stages, in the order
    of the configuration. *)
Definition configured (t : HookType) (key : string * string) (items : list HookConfigurationItem) : list hookerConnector :=
  concat (map (fun item => map (fun _ => connector_of item) (List.filter (stage_is t key) (Stages item))) items).

(** [m] has the hooks [pre] and [post] for a route, and an entry only if there are any. *)
Definition has_hooks (m : gmap (string * string) hookHandleData) (key : string * string) (pre post : list hookerConnector) : Prop :=
  preHooks (default (mkHookData [] []) (m !! key)) = pre /\ postHooks (default (mkHookData [] []) (m !! key)) = post /\
  (is_Some (m !! key) <-> pre <> [] \/ post <> []).

Lemma addStage_has hc m fp key pre post :
  has_hooks m key pre post ->
  has_hooks (addStage hc m fp) key
    (if stage_is PreHookType key fp then pre ++ [hc] else pre)
    (if stage_is PostHookType key fp then post ++ [hc] else post).
Proof.
  intros (H1 & H2 & H3). unfold stage_is, addStage.
  destruct (String.eqb_spec (st_Type fp) PreHookType) as [Et|Et1];
    [rewrite Et, (bool_decide_eq_true_2 (PreHookType = PreHookType)), (bool_decide_eq_false_2 (PreHookType = PostHookType)) by done
    |rewrite (bool_decide_eq_false_2 (st_Type fp = PreHookType)) by done;
     destruct (String.eqb_spec (st_Type fp) PostHookType) as [Et|Et2];
       [rewrite (bool_decide_eq_true_2 (st_Type fp = PostHookType)) by done
       |by rewrite (bool_decide_eq_false_2 (st_Type fp = PostHookType)) by done]];
    (destruct (bool_decide_reflect ((st_Method fp, URLPattern fp) = key)) as [<-|Hne]; cbn [andb];
      [|unfold has_hooks; by rewrite lookup_insert_ne]);
    unfold has_hooks; rewrite lookup_insert_eq; cbn [default from_option id preHooks postHooks]; rewrite H1, H2;
    (split_and!; [done|done|]); (split; [intros _|by eauto]); [left|right]; by destruct pre, post.
Qed.

Lemma addStages_has hc stages m key pre post :
  has_hooks m key pre post ->
  has_hooks (fold_left (addStage hc) stages m) key
    (pre ++ map (fun _ => hc) (List.filter (stage_is PreHookType key) stages))
    (post ++ map (fun _ => hc) (List.filter (stage_is PostHookType key) stages)).
Proof.
  revert m pre post. induction stages as [|fp stages IH]; intros m pre post Hm; cbn [fold_left List.filter map]; [by rewrite !app_nil_r|].
  apply (addStage_has hc m fp) in Hm. apply IH in Hm.
  destruct (stage_is PreHookType key fp), (stage_is PostHookType key fp); cbn [map]; by rewrite <- ?app_assoc in Hm.
Qed.

Lemma hooksMapOf_has items m m' key pre post :
  hooksMapOf items m = Ret m' -> has_hooks m key pre post ->
  has_hooks m' key (pre ++ configured PreHookType key items) (post ++ configured PostHookType key items).
Proof.
  unfold configured. revert m pre post. induction items as [|item items IH]; intros m pre post H Hm; cbn [hooksMapOf map concat] in *.
  { injection H as <-. by rewrite !app_nil_r. }
  unfold mbind, outcome_bind in H. destruct (newHookConnector _ _ _) as [hc|] eqn:Ec; [|done].
  assert (hc = connector_of item) as ->.
  { unfold newHookConnector in Ec. repeat case_match; try done. by injection Ec as <-. }
  apply (addStages_has (connector_of item) (Stages item)) in Hm. specialize (IH _ _ _ H Hm). by rewrite <- !app_assoc in IH.
Qed.

(** A route is built for exactly the methods and patterns of the configured
    stages, and has their hooks in the order of the configuration, before and
    after the runtime, whatever the order in which the routes are visited. *)
Theorem hooks_in_config_order range_routes config routes :
  (forall m, range_routes m ≡ₚ map_to_list m) ->
  InitFromConfig range_routes config = Ret routes ->
  NoDup routes.*1 /\
  forall key v, (key, v) ∈ routes <->
    v = mkHookData (configured PreHookType key (WebHooks config)) (configured PostHookType key (WebHooks config)) /\
    (configured PreHookType key (WebHooks config) <> [] \/ configured PostHookType key (WebHooks config) <> []).
Proof.
  intros Hp H. unfold InitFromConfig in H. destruct (GetProtoAndAddress _); [|done].
  unfold mbind, outcome_bind in H. destruct (hooksMapOf _ _) as [m|] eqn:Em; [|done]. injection H as <-.
  split; [rewrite Hp; apply NoDup_fst_map_to_list|]. intros key v. rewrite Hp, elem_of_map_to_list.
  destruct (hooksMapOf_has _ ∅ m key [] [] Em) as (H1 & H2 & H3).
  { unfold has_hooks. rewrite lookup_empty. cbn. split_and!; [done|done|]. split; [by intros [? ?]|tauto]. }
  cbn [app] in *. destruct (m !! key) as [[pre post]|]; cbn in H1, H2.
  - subst. split; [intros [= <-]|by intros [-> _]]. split; [done|]. apply H3. by eexists.
  - split; [done|]. intros [_ Hne]. apply H3 in Hne as [? ?]. done.
Qed.
End Configured.

(** ** The way of a request *)

Section Requests.
Context {LE : LighthouseEnv}.

Definition is_hook (c : call) : Prop := match c with CHook _ _ _ _ => True | CBackend _ _ _ => False end.

(** The patches applied one after the other. *)
Fixpoint patched (ps : list PatchData) (body : string) : result string :=
  match ps with
  | [] => Ok body
  | p :: ps' => match apply_patch body p with Ok b => patched ps' b | Err e => Err e end
  end.

(** Hook [h] answers [p] to a body, at some time. *)
Definition answers (h : hookerConnector) (method path body : string) (p : PatchData) : Prop :=
  exists t, (performHook h method path body t).1 = Ok p.

(** Each hook is asked about the body with the patches of the hooks before. *)
Definition chain_answers (hs : list hookerConnector) (method path body : string) (ps : list PatchData) : Prop :=
  length ps = length hs /\
  forall i h p, hs !! i = Some h -> ps !! i = Some p -> exists b, patched (take i ps) body = Ok b /\ answers h method path b p.

Lemma performHook_calls h method path body t : exists cs, (performHook h method path body t).2 = t ++ cs /\ Forall is_hook cs.
Proof.
  unfold performHook. destruct (new_request _); [by exists []; rewrite app_nil_r|]. eexists. split; [done|by repeat constructor].
Qed.

Lemma applyHook_chain hs ty method path body t :
  ty = PreHookType \/ ty = PostHookType ->
  let '(r, t') := applyHook hs ty method path body t in
  exists cs, t' = t ++ cs /\ Forall is_hook cs /\
    forall b, r = Ok b -> exists ps, patched ps body = Ok b /\ chain_answers hs method (HookPath ty path) body ps.
Proof.
  intros Hty. assert (Hdo : forall h body, doHook h ty method path body = performHook h method (HookPath ty path) body).
  { intros h b. unfold doHook. by destruct Hty as [-> | ->]. }
  revert body t. induction hs as [|h hs IH]; intros body t; cbn [applyHook]; [|rewrite Hdo].
  { exists []. rewrite app_nil_r. split_and!; [done|done|]. intros b [= <-]. exists []. split; [done|]. split; [done|]. intros i h p Hh. by rewrite lookup_nil in Hh. }
  destruct (performHook_calls h method (HookPath ty path) body t) as (cs & Ec & Hcs).
  assert (Ha : forall p, (performHook h method (HookPath ty path) body t).1 = Ok p -> answers h method (HookPath ty path) body p) by (intros p Hp; by exists t).
  unfold mbind, L_bind. destruct (performHook h method (HookPath ty path) body t) as [[p|e] t1]; cbn in Ec, Ha; subst t1;
    [|exists cs; split_and!; done].
  destruct (apply_patch body p) as [b1|e] eqn:Ep; [|exists cs; split_and!; done].
  specialize (IH b1 (t ++ cs)). destruct (applyHook hs ty method path b1 (t ++ cs)) as [r t'].
  destruct IH as (cs' & -> & Hcs' & IH). exists (cs ++ cs'). rewrite app_assoc. split_and!; [done|by apply Forall_app|].
  intros b Hb. destruct (IH b Hb) as (ps & Hps & Hl & Hans). exists (p :: ps). cbn [patched]. rewrite Ep. split; [done|].
  split; [by cbn; rewrite Hl|]. intros [|i] h' p' Hh' Hp'; cbn in Hh', Hp'.
  - injection Hh' as <-. injection Hp' as <-. exists body. split; [done|]. by apply Ha.
  - destruct (Hans i h' p' Hh' Hp') as (b' & Hb' & Ha'). exists b'. cbn [take patched]. by rewrite Ep.
Qed.

Lemma postHook_status hs r w t :
  let '(w', t') := postHook hs r w t in exists cs, t' = t ++ cs /\ Forall is_hook cs /\ rs_code w' = rs_code w.
Proof.
  unfold postHook, mbind, mret, L_bind, L_ret. destruct (marshal_post _) as [bytes|]; [|by exists []; rewrite app_nil_r].
  pose proof (applyHook_chain hs PostHookType (rq_method r) (rq_path r) bytes t (or_intror eq_refl)) as H.
  destruct (applyHook hs _ _ _ _ _) as [b t']. destruct H as (cs & -> & Hcs & _).
  exists cs. split_and!; [done|done|]. destruct b; [|done]. by destruct (unmarshal_post _ _).
Qed.


(** The answer of a failing hook after the runtime keeps the status of the
    runtime, with the text of the error in place of the body. *)
Theorem failed_post_hook_keeps_status hs r w t bytes e t' :
  marshal_post (mkPostData (rs_code w) (rs_body w)) = Ok bytes ->
  applyHook hs PostHookType (rq_method r) (rq_path r) bytes t = (Err e, t') ->
  postHook hs r w t = (mkResponse (rs_code w) (rs_header w) e, t').
Proof. intros Hm H. unfold postHook, mbind, L_bind. by rewrite Hm, H. Qed.

(** The policy to ignore failures ignores only those of the connection: when a
    hook answers at all, a body that is no patch, such as the empty one of a
    refused request, fails the hook under every policy, and the request is
    rejected with 500 before the runtime sees it. *)
Theorem ignored_failure_rejects_request h hs post r body code text e t :
  rq_body r = Ok body -> new_request ("http://" +:+ endpoint h) = None ->
  hook_answer t (CHook (endpoint h) (rq_method r) (HookPath PreHookType (rq_path r)) body) = Responded code text ->
  code <> 200 -> code <> 201 -> decode_patch text = Err e ->
  exists e', handle (mkHookData (h :: hs) post) r t =
    (mkResponse 500 ∅ e', t ++ [CHook (endpoint h) (rq_method r) (HookPath PreHookType (rq_path r)) body]).
Proof.
  intros Hb Hn Ha H1 H2 Hd. unfold handle, preHook. rewrite Hb. cbn [preHooks applyHook].
  assert (Hp : exists e', performHook h (rq_method r) (HookPath PreHookType (rq_path r)) body t =
    (Err e', t ++ [CHook (endpoint h) (rq_method r) (HookPath PreHookType (rq_path r)) body])).
  { unfold performHook. rewrite Hn. cbv zeta. rewrite Ha, Hd. apply Z.eqb_neq in H1, H2. rewrite H1, H2.
    destruct (allowFailure h); cbn; by eexists. }
  destruct Hp as [e' Hp]. exists e'. change (doHook h PreHookType) with (fun m p => performHook h m (HookPath PreHookType p)).
  unfold mbind, mret, L_bind, L_ret. by rewrite Hp.
Qed.
End Requests.

(** ** Witnesses *)

(** A hook that adds a field, one that refuses, and a runtime that creates. *)
Definition demo_env : LighthouseEnv := {|
  hook_answer := fun _ c => match c with
                            | CHook "unix:///refuse" _ _ _ => Responded 500 ""
                            | _ => Responded 200 "patch"
                            end;
  backend_answer := fun _ _ => mkResponse 201 ∅ "created";
  new_request := fun _ => None;
  decode_patch := fun s => if (s =? "")%string then Err "EOF" else Ok (mkPatch MergePatchType (Some s));
  apply_json_patch := fun p b => Ok (b +:+ p);
  merge_patch := fun b p => Ok (b +:+ p);
  marshal_post := fun d => Ok (pd_Body d);
  unmarshal_post := fun s d => Ok (mkPostData (pd_StatusCode d) s);
  path_matches := String.eqb;
  debug_index := fun _ => mkResponse 200 ∅ "";
|}.

Definition demo_request : request := mkRequest "POST" "/containers/create" (Ok "{}").
Definition refusing_hook : hookerConnector := mkConnector "h" "unix:///refuse" PolicyIgnore.

Definition demo_config : HookConfiguration :=
  mkHookConfig 5 "unix:///l.sock" "unix:///r.sock"
    [mkHookItem "b" "unix:///b.sock" PolicyFail [mkStage "POST" "/containers/create" PreHookType; mkStage "POST" "/containers/create" PostHookType];
     mkHookItem "a" "unix:///a.sock" PolicyIgnore [mkStage "POST" "/containers/create" PreHookType]].

Definition demo_routes : list ((string * string) * hookHandleData) :=
  let a := mkConnector "a" "unix:///a.sock" PolicyIgnore in
  let b := mkConnector "b" "unix:///b.sock" PolicyFail in
  [(("POST", "/containers/create"), mkHookData [b; a] [b])].

Example demo_patched : (@ServeHTTP demo_env demo_routes demo_request []).1 = mkResponse 201 ∅ "createdpatch".
Proof. vm_compute. reflexivity. Qed.

Lemma hooks_in_config_order_witness :
  InitFromConfig map_to_list demo_config = Ret demo_routes /\ NoDup demo_routes.*1.
Proof.
  assert (H : InitFromConfig map_to_list demo_config = Ret demo_routes) by (vm_compute; reflexivity).
  split; [exact H|]. exact (proj1 (hooks_in_config_order map_to_list demo_config demo_routes (fun m => reflexivity _) H)).
Defined.

Lemma ignored_failure_rejects_request_witness :
  exists e, (@handle demo_env (mkHookData [refusing_hook] []) demo_request []).1 = mkResponse 500 ∅ e.
Proof.
  destruct (@ignored_failure_rejects_request demo_env refusing_hook [] [] demo_request "{}" 500 "" "EOF" []) as [e He];
    try reflexivity; try discriminate.
  exists e. rewrite He. reflexivity.
Defined.
