(* ===== verification/LighthousePlugin.v ===== *)
(** * Lighthouse plugins

    contrib/lighthouse-plugin/pkg: the server that lighthouse asks about the
    containers to create and to update.  The plugins move the containers of
    offline pods under /kubepods/offline, keep kubelet from their cpuset, and
    set limits of processes, storage options and the UTS mode from the labels of
    the sandbox; a thread removes the empty cgroups of offline pods.
    [PluginEnv] holds what is outside: docker, JSON, the merge patches and the
    router.  A panic in a handler ends its connection without an answer. *)

From Stdlib Require Import Ascii.
From S2P Require Import Prelude GoStrings GoFloat Quantity Cgroup Qos K8sResource Lighthouse.

#[local] Open Scope string_scope.
#[local] Open Scope Z_scope.
#[local] Open Scope list_scope.

(** ** Data *)

Definition PodAutoAnnotationPrefix : string := "annotation.".
Definition PodAnnotationPrefix : string := PodAutoAnnotationPrefix +:+ "mixer.kubernetes.io/".
Definition ContainerTypeLabelContainer : string := "container".
Definition PodUIDLabelKey : string := "io.kubernetes.pod.uid".
Definition annotationPidsLimit : string := PodAnnotationPrefix +:+ "pids-limit".
Definition annotationUTSMode : string := PodAnnotationPrefix +:+ "uts-mode".
Definition optionPrefix : string := PodAnnotationPrefix +:+ "storage-opt-".
Definition AnnotationKey : string := PodAnnotationPrefix +:+ "app-class".
Definition offlineKey : string := "offline".

Record FeatureGate := mkGate {
  DockerStorageOption : bool;
  DockerUTSMode : bool;
  DockerOfflineMutate : bool;
  DockerPidsLimit : bool;
}.
Definition defaultFeatureGate : FeatureGate := mkGate false false false false.

Record PodMetadata := mkMetadata {
  PodName : string;
  PodUID : string;
  SandBoxID : string;
  pm_Namespace : string;
  ContainerName : string;
  ContainerType : string;
}.

Definition GetPodMetadata (labels : gmap string string) : PodMetadata :=
  let l key := default "" (labels !! key) in
  mkMetadata (l "io.kubernetes.pod.name") (l PodUIDLabelKey) (l "io.kubernetes.sandbox.id")
    (l "io.kubernetes.pod.namespace") (l "io.kubernetes.container.name") (l "io.kubernetes.docker.type").

Record HostConfig := mkHostConfig {
  CgroupParent : string;
  StorageOpt : option (gmap string string);
  PidsLimit : option Z;
  UTSMode : string;
}.

(** The embedded configuration is nil when the request has none of its fields;
    its labels are nil when they are missing. *)
Record ContainerConfigWrapper := mkWrapper {
  cw_Config : option (option (gmap string string));
  InnerHostConfig : option HostConfig;
}.

Record UpdateConfig := mkUpdate { CpusetCpus : string; uc_rest : gmap string string }.

(** What docker says of a container. *)
Record containerJSON := mkContainerJSON { cj_Labels : option (gmap string string); Status : string }.

Record PluginServerEnv := mkPluginServerEnv { ignoredNamespaces : list string; gates : FeatureGate }.

(** The body of an answer: none, an encoded patch, or the empty object. *)
Inductive answer_body := NoBody | PatchBody (p : PatchData) | noChangeResponse.
Record answer := mkAnswer { an_code : Z; an_body : answer_body }.

Class PluginEnv := {
  plugin_order :: RangeOrder;
  server_env : PluginServerEnv;
  ContainerInspect : string -> result containerJSON;
  unmarshal_create : string -> result (option ContainerConfigWrapper);
  marshal_create : ContainerConfigWrapper -> result string;
  unmarshal_update : string -> result UpdateConfig;
  marshal_update : UpdateConfig -> result string;
  CreateMergePatch : string -> string -> result string;
  (** The mount points of the cgroups. *)
  GetCgroupMounts : result (list string);
  (** The variables of a route for a path. *)
  route_vars : string -> string -> option (gmap string string);
}.

Section Plugins.
Context {PE : PluginEnv}.

Definition enabled (feature : FeatureGate -> bool) : bool := feature (gates server_env).

Definition labels_of (c : containerJSON) : gmap string string := default ∅ (cj_Labels c).

(** The value of the visited label with a key. *)
Definition find_label (site key : string) (labels : gmap string string) : option string :=
  snd <$> List.find (fun '(k, _) => (k =? key)%string) (range_map site labels).

Definition IsOffline (labels : option (gmap string string)) : bool :=
  match labels with
  | None => false
  | Some l => match l !! AnnotationKey with Some value => (value =? AnnotationOfflineValue)%string | None => false end
  end.

(** ** Cleanup of cgroups *)

(** An entry of a walk: its path, and its name and kind unless it is gone. *)
Record walked := mkWalked { wk_path : string; wk_info : option (string * bool) }.

Definition checkCleaningCgroupAvailable (name path mountPoint : string) : bool :=
  if (slen name =? 39) && HasPrefix name "pod" && Contains path offlineKey then
    let noMnPoint := TrimPrefix path mountPoint in
    let splits := Split noMnPoint "/" in
    (3 <? Z.of_nat (length splits)) && match splits !! 2%nat with Some s => (s =? offlineKey)%string | None => false end
  else false.

Definition existedUids_of (containers : list (option (gmap string string))) : list string :=
  omap (fun c => match c with Some labels => labels !! PodUIDLabelKey | None => None end) containers.

(** The function of the walk, which asks what it is given even for an entry that is gone. *)
Fixpoint walk_mount (existedUids : list string) (mountPoint : string) (entries : list walked) : outcome (list string) :=
  match entries with
  | [] => Ret []
  | e :: entries' =>
      match wk_info e with
      | None => Crash (Panic "nil pointer dereference")
      | Some (name, isDir) =>
          rest ← walk_mount existedUids mountPoint entries';
          Ret (if isDir && checkCleaningCgroupAvailable name (wk_path e) mountPoint
                  && negb (bool_decide (TrimPrefix name "pod" ∈ existedUids))
               then wk_path e :: rest else rest)
      end
  end.

Fixpoint walk_mounts (existedUids : list string) (mounts : list (string * list walked)) : outcome (list string) :=
  match mounts with
  | [] => Ret []
  | (mountPoint, entries) :: mounts' =>
      here ← walk_mount existedUids mountPoint entries;
      rest ← walk_mounts existedUids mounts';
      Ret (here ++ rest)
  end.

(** The paths to remove, given the labels of all containers and the walks of the
    mounted cgroups. *)
Definition cleanupEmptyCgroup (containers : result (list (option (gmap string string)))) (mounts : list (string * list walked)) :
    outcome (list string) :=
  match containers with
  | Err e => Crash (Fatal e)
  | Ok cs => walk_mounts (existedUids_of cs) mounts
  end.

(** ** Containers to create *)

(** The thread for the cleanup is started once; it stays without mount points
    when they could not be read. *)
Inductive once := NotStarted | Started (allCgroups : list string) | StartFailed.

Definition startCleanup (s : once) : once * outcome unit :=
  match s with
  | NotStarted => match GetCgroupMounts with
                  | Ok mounts => (Started mounts, Ret tt)
                  | Err e => (StartFailed, Crash (Panic e))
                  end
  | _ => (s, Ret tt)
  end.

(** A handler changes the configuration, fails, or panics. *)
Definition ModifyCreateFunc : Type := once -> ContainerConfigWrapper -> PodMetadata -> once * outcome (result ContainerConfigWrapper).

Definition set_host (c : ContainerConfigWrapper) (h : HostConfig) : ContainerConfigWrapper := mkWrapper (cw_Config c) (Some h).

(** A change of the part for the host, which the request may lack. *)
Definition with_host (c : ContainerConfigWrapper) (f : HostConfig -> HostConfig) : outcome (result ContainerConfigWrapper) :=
  match InnerHostConfig c with
  | None => Crash (Panic "nil pointer dereference")
  | Some h => Ret (Ok (set_host c (f h)))
  end.

Definition newCgroupParentOf (oldCgroupParent : string) : string :=
  match Split oldCgroupParent "/" with
  | _ :: s1 :: s2 :: rest => "/" +:+ Join (s1 :: offlineKey :: s2 :: rest) "/"
  | _ => oldCgroupParent
  end.

Definition mutate_config (config : ContainerConfigWrapper) (metadata : PodMetadata) : outcome (result ContainerConfigWrapper) :=
  if negb (ContainerType metadata =? ContainerTypeLabelContainer)%string then Ret (Ok config)
  else match ContainerInspect (SandBoxID metadata) with
       | Err e => Ret (Err e)
       | Ok cj =>
           if negb (IsOffline (cj_Labels cj)) then Ret (Ok config)
           else with_host config (fun h => mkHostConfig (newCgroupParentOf (CgroupParent h)) (StorageOpt h) (PidsLimit h) (UTSMode h))
       end.

Definition mutate : ModifyCreateFunc := fun s config metadata =>
  if negb (enabled DockerOfflineMutate) then (s, Ret (Ok config))
  else let '(s', started) := startCleanup s in
       (s', _ ← started; mutate_config config metadata).

Definition pidsLimit_handle : ModifyCreateFunc := fun s config metadata =>
  (s, if negb (enabled DockerPidsLimit) then Ret (Ok config)
      else if negb (ContainerType metadata =? ContainerTypeLabelContainer)%string then Ret (Ok config)
      else match ContainerInspect (SandBoxID metadata) with
           | Err e => Ret (Err e)
           | Ok cj =>
               match find_label "pids" annotationPidsLimit (labels_of cj) with
               | None => Ret (Ok config)
               | Some v =>
                   match Atoi v with
                   | None => Ret (Ok config)
                   | Some pidsNum => with_host config (fun h => mkHostConfig (CgroupParent h) (StorageOpt h) (Some pidsNum) (UTSMode h))
                   end
               end
           end).

Definition set_option (opts : gmap string string) '((k, v) : string * string) : gmap string string :=
  if HasPrefix k optionPrefix then
    let optKey := TrimPrefix k optionPrefix in
    if 0 <? slen optKey then <[optKey := v]> opts else opts
  else opts.

Definition storageOption_handle : ModifyCreateFunc := fun s config metadata =>
  (s, if negb (enabled DockerStorageOption) then Ret (Ok config)
      else if negb (ContainerType metadata =? ContainerTypeLabelContainer)%string then Ret (Ok config)
      else match InnerHostConfig config with
           | None => Crash (Panic "nil pointer dereference")
           | Some h =>
               let opts := default ∅ (StorageOpt h) in
               match ContainerInspect (SandBoxID metadata) with
               | Err e => Ret (Err e)
               | Ok cj =>
                   Ret (Ok (set_host config
                     (mkHostConfig (CgroupParent h) (Some (fold_left set_option (range_map "storage" (labels_of cj)) opts))
                        (PidsLimit h) (UTSMode h))))
               end
           end).

Definition utsMode_handle : ModifyCreateFunc := fun s config metadata =>
  (s, if negb (enabled DockerUTSMode) then Ret (Ok config)
      else if negb (ContainerType metadata =? ContainerTypeLabelContainer)%string then Ret (Ok config)
      else match ContainerInspect (SandBoxID metadata) with
           | Err e => Ret (Err e)
           | Ok cj =>
               match find_label "uts" annotationUTSMode (labels_of cj) with
               | None => Ret (Ok config)
               | Some v => with_host config (fun h => mkHostConfig (CgroupParent h) (StorageOpt h) (PidsLimit h) v)
               end
           end).

(** The handlers in the order in which the packages are initialised; the limit
    of processes needs its cgroup. *)
Definition registered_handlers (pids_cgroup : bool) : list ModifyCreateFunc :=
  [mutate] ++ (if pids_cgroup then [pidsLimit_handle] else []) ++ [storageOption_handle; utsMode_handle].

(** The loop over the handlers; the first error or panic ends it. *)
Fixpoint run_handlers (handlers : list ModifyCreateFunc) (metadata : PodMetadata) (s : once) (config : ContainerConfigWrapper) :
    once * outcome (result ContainerConfigWrapper) :=
  match handlers with
  | [] => (s, Ret (Ok config))
  | h :: handlers' =>
      match h s config metadata with
      | (s', Ret (Ok config')) => run_handlers handlers' metadata s' config'
      | r => r
      end
  end.

Definition groupPatchData {A} (marshal : A -> result string) (config : A) (bodyBytes : string) : result string :=
  match marshal config with
  | Err e => Err ("cannit marshal, :" +:+ e)
  | Ok newBodyBytes =>
      match CreateMergePatch bodyBytes newBodyBytes with
      | Err e => Err ("can't create patch, " +:+ e)
      | Ok patch => Ok patch
      end
  end.

Definition ignored (ns : string) : bool := bool_decide (ns ∈ ignoredNamespaces server_env).

Definition retData : answer := mkAnswer 200 (PatchBody (mkPatch MergePatchType None)).
Definition status (code : Z) : answer := mkAnswer code NoBody.

Definition create_Handler (handlers : list ModifyCreateFunc) (s : once) (body : result string) : once * outcome answer :=
  match body with
  | Err _ => (s, Ret (status 502))
  | Ok bodyBytes =>
      match unmarshal_create bodyBytes with
      | Err _ => (s, Ret (status 400))
      | Ok None => (s, Crash (Panic "nil pointer dereference"))
      | Ok (Some containerConfig) =>
          match cw_Config containerConfig with
          | None => (s, Crash (Panic "nil pointer dereference"))
          | Some None => (s, Ret retData)
          | Some (Some labels) =>
              let metadata := GetPodMetadata labels in
              if ignored (pm_Namespace metadata) then (s, Ret retData)
              else match run_handlers handlers metadata s containerConfig with
                   | (s', Crash c) => (s', Crash c)
                   | (s', Ret (Err _)) => (s', Ret (status 500))
                   | (s', Ret (Ok containerConfig')) =>
                       (s', Ret (match groupPatchData marshal_create containerConfig' bodyBytes with
                                 | Err _ => status 500
                                 | Ok patchBytes => mkAnswer 200 (PatchBody (mkPatch MergePatchType (Some patchBytes)))
                                 end))
                   end
          end
      end
  end.

(** ** Containers to update *)

Definition update (updateConfig : UpdateConfig) (metadata : PodMetadata) (containerStatus : string) : result UpdateConfig :=
  if negb (enabled DockerOfflineMutate) then Ok updateConfig
  else if negb (ContainerType metadata =? ContainerTypeLabelContainer)%string then Ok updateConfig
  else match ContainerInspect (SandBoxID metadata) with
       | Err e => Err e
       | Ok cj =>
           if negb (IsOffline (cj_Labels cj)) then Ok updateConfig
           else if negb (ContainerType metadata =? ContainerTypeLabelContainer)%string then Ok updateConfig
           else if (containerStatus =? "created")%string then Ok (mkUpdate "0" (uc_rest updateConfig))
           else Ok (mkUpdate "" (uc_rest updateConfig))
       end.

(** What is known of a container, or the answer that was written. *)
Definition generateContainerData (conName : string) : answer + (PodMetadata * string) :=
  match ContainerInspect conName with
  | Err err => inl (if Contains err "No such container" then mkAnswer 200 noChangeResponse else status 500)
  | Ok cj =>
      match cj_Labels cj with
      | None => inl (mkAnswer 200 noChangeResponse)
      | Some labels =>
          let metadata := GetPodMetadata labels in
          if ignored (pm_Namespace metadata) then inl (mkAnswer 200 noChangeResponse)
          else inr (metadata, Status cj)
      end
  end.

Definition update_Handler (vars : option (gmap string string)) (body : result string) : answer :=
  match vars with
  | None => status 400
  | Some vs =>
      match body with
      | Err _ => status 502
      | Ok bodyBytes =>
          match unmarshal_update bodyBytes with
          | Err _ => status 400
          | Ok updateConfig =>
              match generateContainerData (default "" (vs !! "name")) with
              | inl a => a
              | inr (metadata, st) =>
                  match update updateConfig metadata st with
                  | Err _ => status 500
                  | Ok updateConfig' =>
                      match groupPatchData marshal_update updateConfig' bodyBytes with
                      | Err _ => status 500
                      | Ok patchBytes => mkAnswer 200 (PatchBody (mkPatch MergePatchType (Some patchBytes)))
                      end
                  end
              end
          end
      end
  end.

(** ** The server *)

Inductive plugin := CreatePlugin (path : string) | UpdatePlugin (path : string).

Definition plugin_Path (p : plugin) : string := match p with CreatePlugin path => path | UpdatePlugin path => path end.

Definition AllPlugins : gmap string plugin :=
  {["VersionedDockerPreCreate" := CreatePlugin "/prehook/{id:v[.0-9]+}/containers/create";
    "DockerPreCreate" := CreatePlugin "/prehook/containers/create";
    "DockerPreUpdate" := UpdatePlugin "/prehook/containers/{name:.*}/update"]}.

(** The routes in the order in which the plugins are visited. *)
Definition registerPlugin : list plugin := map snd (range_map "plugins" AllPlugins).

(** Nothing is written for a request without a route, which is status 200. *)
Definition plugin_ServeHTTP (handlers : list ModifyCreateFunc) (s : once) (r : request) : once * outcome answer :=
  match List.find (fun p => (rq_method r =? "POST")%string && bool_decide (is_Some (route_vars (plugin_Path p) (rq_path r)))) registerPlugin with
  | None => (s, Ret (status 200))
  | Some (CreatePlugin _) => create_Handler handlers s (rq_body r)
  | Some (UpdatePlugin path) => (s, Ret (update_Handler (route_vars path (rq_path r)) (rq_body r)))
  end.

Inductive removal := Removed | RemoveNotExist | RemoveFailed (e : error).

(** Only sockets, whose file is removed unless they are abstract. *)
Definition getProtoAndAddress (os_Remove : string -> removal) (ep : string) : result (string * string) :=
  match GetProtoAndAddress ep with
  | Err e => Err e
  | Ok (proto, addr) =>
      if negb (proto =? "unix")%string then Err "only support Unix protocol"
      else if HasPrefix addr "@" then Ok (proto, addr)
      else match os_Remove addr with RemoveFailed e => Err e | _ => Ok (proto, addr) end
  end.
End Plugins.

(** ** The handlers together *)

Section Handlers.
Context {PE : PluginEnv}.

Lemma find_label_lookup site key labels : find_label site key labels = labels !! key.
Proof.
  unfold find_label. destruct (List.find _ _) as [[k v]|] eqn:E; cbn.
  - apply List.find_some in E as [Hin Hk]. apply String.eqb_eq in Hk as ->.
    apply list_elem_of_In, elem_of_range in Hin. by rewrite Hin.
  - symmetry. apply eq_None_not_Some. intros [v Hv]. apply (elem_of_range site) in Hv.
    apply list_elem_of_In in Hv. apply (List.find_none _ _ E) in Hv. cbn in Hv. by rewrite String.eqb_refl in Hv.
Qed.

(** The storage options of the labels, over those of the request. *)
Definition storage_opts (labels opts : gmap string string) : gmap string string := fold_left set_option (map_to_list labels) opts.

Lemma HasPrefix_app p k : HasPrefix k p = true -> k = p +:+ drop_string (String.length p) k.
Proof.
  unfold HasPrefix. revert k. induction p as [|c p IH]; intros k H; [done|]. destruct k as [|d k]; [done|].
  cbn in H. destruct (ascii_dec c d) as [->|]; [|done]. change (String d k = String d (p +:+ drop_string (String.length p) k)). f_equal. by apply IH.
Qed.

Lemma TrimPrefix_inj p k1 k2 : HasPrefix k1 p = true -> HasPrefix k2 p = true -> TrimPrefix k1 p = TrimPrefix k2 p -> k1 = k2.
Proof.
  intros H1 H2. unfold TrimPrefix. rewrite H1, H2. intros H.
  apply HasPrefix_app in H1, H2. rewrite H in H1. congruence.
Qed.

Lemma set_option_comm opts x y : x.1 <> y.1 -> set_option (set_option opts x) y = set_option (set_option opts y) x.
Proof.
  destruct x as [k1 v1], y as [k2 v2]; cbn [fst]; intros Hne. unfold set_option.
  destruct (HasPrefix k1 optionPrefix) eqn:H1, (HasPrefix k2 optionPrefix) eqn:H2; try done.
  destruct (0 <? slen (TrimPrefix k1 optionPrefix)), (0 <? slen (TrimPrefix k2 optionPrefix)); try done.
  apply insert_insert_ne. intros He. symmetry in He. by apply TrimPrefix_inj in He.
Qed.

Lemma set_options_any_order site labels opts : fold_left set_option (range_map site labels) opts = storage_opts labels opts.
Proof.
  unfold storage_opts. apply fold_left_permutation_on; [apply (NoDup_fmap_1 fst), NoDup_fst_range| |apply range_map_perm].
  intros b [k1 v1] [k2 v2] H1 H2 Hne. apply set_option_comm. cbn. intros ->. apply elem_of_range in H1, H2. congruence.
Qed.

(** What a handler does to the part for the host, if its feature is on. *)
Record effect := mkEffect { ef_on : bool; ef_host : containerJSON -> HostConfig -> HostConfig }.

Definition effect_mutate : effect := mkEffect (enabled DockerOfflineMutate) (fun cj h =>
  if IsOffline (cj_Labels cj) then mkHostConfig (newCgroupParentOf (CgroupParent h)) (StorageOpt h) (PidsLimit h) (UTSMode h) else h).
Definition effect_pids : effect := mkEffect (enabled DockerPidsLimit) (fun cj h =>
  match labels_of cj !! annotationPidsLimit with
  | Some v => match Atoi v with Some n => mkHostConfig (CgroupParent h) (StorageOpt h) (Some n) (UTSMode h) | None => h end
  | None => h
  end).
Definition effect_storage : effect := mkEffect (enabled DockerStorageOption) (fun cj h =>
  mkHostConfig (CgroupParent h) (Some (storage_opts (labels_of cj) (default ∅ (StorageOpt h)))) (PidsLimit h) (UTSMode h)).
Definition effect_uts : effect := mkEffect (enabled DockerUTSMode) (fun cj h =>
  match labels_of cj !! annotationUTSMode with
  | Some v => mkHostConfig (CgroupParent h) (StorageOpt h) (PidsLimit h) v
  | None => h
  end).

Definition apply_effect (cj : containerJSON) (h : HostConfig) (e : effect) : HostConfig := if ef_on e then ef_host e cj h else h.

(** The effects together, whatever their order. *)
Definition run_effects (es : list effect) (md : PodMetadata) (c : ContainerConfigWrapper) (h : HostConfig) : result ContainerConfigWrapper :=
  if negb (ContainerType md =? ContainerTypeLabelContainer)%string || negb (existsb ef_on es) then Ok c
  else match ContainerInspect (SandBoxID md) with
       | Err e => Err e
       | Ok cj => Ok (set_host c (fold_left (apply_effect cj) es h))
       end.

(** The thread is running, or the mount points can be read. *)
Definition startable (s : once) : Prop := exists s', startCleanup s = (s', Ret tt).

Definition acts (f : ModifyCreateFunc) (e : effect) : Prop := forall s c h md,
  startable s -> InnerHostConfig c = Some h ->
  exists s', startable s' /\ f s c md = (s', Ret (run_effects [e] md c h)).

Lemma set_host_same c h : InnerHostConfig c = Some h -> set_host c h = c.
Proof. destruct c; cbn. by intros ->. Qed.

Lemma startable_started s s' : startCleanup s = (s', Ret tt) -> startable s'.
Proof. destruct s; cbn; [destruct GetCgroupMounts| |]; intros [= <-]; by eexists. Qed.

Lemma mutate_acts : acts mutate effect_mutate.
Proof.
  intros s c h md [s' Hs] Hc. unfold mutate, mutate_config, with_host, effect_mutate.
  destruct (enabled DockerOfflineMutate) eqn:Eo; cbn [negb]; [|exists s; split; [by eexists|]; unfold run_effects; cbn; by rewrite ?Eo, orb_true_r].
  rewrite Hs. exists s'. split; [by eapply startable_started|]. unfold run_effects, apply_effect. cbn. rewrite ?Eo.
  destruct (ContainerType md =? _)%string; cbn; [|done].
  destruct (ContainerInspect _) as [cj|e]; cbn; [|done].
  destruct (IsOffline _); cbn; [by rewrite Hc|by rewrite set_host_same].
Qed.

Lemma pids_acts : acts pidsLimit_handle effect_pids.
Proof.
  intros s c h md Hs Hc. exists s. split; [done|]. unfold pidsLimit_handle, with_host, run_effects, apply_effect, effect_pids. cbn.
  destruct (enabled DockerPidsLimit) eqn:Eo; cbn; [|by rewrite orb_true_r].
  destruct (ContainerType md =? _)%string; cbn; [|done]. destruct (ContainerInspect _) as [cj|e]; [|done].
  rewrite find_label_lookup. destruct (_ !! _); [|by rewrite set_host_same]. destruct (Atoi _); [by rewrite Hc|by rewrite set_host_same].
Qed.

Lemma storage_acts : acts storageOption_handle effect_storage.
Proof.
  intros s c h md Hs Hc. exists s. split; [done|]. unfold storageOption_handle, run_effects, apply_effect, effect_storage. cbn.
  destruct (enabled DockerStorageOption) eqn:Eo; cbn; [|by rewrite orb_true_r].
  destruct (ContainerType md =? _)%string; cbn; [|done]. rewrite Hc. destruct (ContainerInspect _) as [cj|e]; [|done].
  by rewrite set_options_any_order.
Qed.

Lemma uts_acts : acts utsMode_handle effect_uts.
Proof.
  intros s c h md Hs Hc. exists s. split; [done|]. unfold utsMode_handle, with_host, run_effects, apply_effect, effect_uts. cbn.
  destruct (enabled DockerUTSMode) eqn:Eo; cbn; [|by rewrite orb_true_r].
  destruct (ContainerType md =? _)%string; cbn; [|done]. destruct (ContainerInspect _) as [cj|e]; [|done].
  rewrite find_label_lookup. destruct (_ !! _); [by rewrite Hc|by rewrite set_host_same].
Qed.
Lemma no_effect cj es h : existsb ef_on es = false -> fold_left (apply_effect cj) es h = h.
Proof.
  revert h. induction es as [|e es IH]; intros h Ex; [done|]. cbn in *. apply orb_false_iff in Ex as [E1 E2].
  unfold apply_effect at 2. rewrite E1. by apply IH.
Qed.

Lemma run_handlers_effects fs es s c h md :
  Forall2 acts fs es -> startable s -> InnerHostConfig c = Some h ->
  (run_handlers fs md s c).2 = Ret (run_effects es md c h).
Proof.
  intros H. revert s c h. induction H as [|f e fs es Hf H IH]; intros s c h Hs Hc; cbn [run_handlers].
  { unfold run_effects. cbn. by rewrite orb_true_r. }
  destruct (Hf s c h md Hs Hc) as (s' & Hs' & ->). unfold run_effects in *. cbn [existsb fold_left] in *. rewrite orb_false_r in *.
  destruct (ContainerType md =? _)%string; cbn [negb orb] in *; [|by rewrite (IH s' c h Hs' Hc)].
  unfold apply_effect at 1 3. destruct (ef_on e) eqn:Ee; cbn [negb orb].
  - destruct (ContainerInspect _) as [cj|er]; [|done].
    rewrite (IH s' (set_host c (ef_host e cj h)) (ef_host e cj h) Hs' eq_refl).
    destruct (existsb ef_on es) eqn:Ex; cbn [negb]; [done|].
    by rewrite no_effect.
  - by rewrite (IH s' c h Hs' Hc).
Qed.

Inductive tag := TMutate | TPids | TStorage | TUTS.
Definition handler_of (t : tag) : ModifyCreateFunc :=
  match t with TMutate => mutate | TPids => pidsLimit_handle | TStorage => storageOption_handle | TUTS => utsMode_handle end.
Definition effect_of (t : tag) : effect :=
  match t with TMutate => effect_mutate | TPids => effect_pids | TStorage => effect_storage | TUTS => effect_uts end.

Lemma tag_acts t : acts (handler_of t) (effect_of t).
Proof. destruct t; [apply mutate_acts|apply pids_acts|apply storage_acts|apply uts_acts]. Qed.

Lemma effects_commute cj h t1 t2 :
  apply_effect cj (apply_effect cj h (effect_of t1)) (effect_of t2) = apply_effect cj (apply_effect cj h (effect_of t2)) (effect_of t1).
Proof.
  unfold apply_effect. destruct t1, t2; try done; cbn [effect_of effect_mutate effect_pids effect_storage effect_uts ef_on ef_host];
    repeat case_match; done.
Qed.

Lemma run_effects_perm ts1 ts2 md c h :
  ts1 ≡ₚ ts2 -> run_effects (map effect_of ts1) md c h = run_effects (map effect_of ts2) md c h.
Proof.
  intros Hp. unfold run_effects.
  assert (existsb ef_on (map effect_of ts1) = existsb ef_on (map effect_of ts2)) as ->.
  { induction Hp as [|x l1 l2 _ IH|x y l|l1 l2 l3 _ IH1 _ IH2]; cbn; [done|by rewrite IH| |by rewrite IH1].
    by rewrite !orb_assoc, (orb_comm (ef_on (effect_of y))). }
  repeat case_match; try done. do 2 f_equal.
  assert (Hm : forall ts, fold_left (apply_effect a) (map effect_of ts) h = fold_left (fun h t => apply_effect a h (effect_of t)) ts h).
  { intros ts. generalize h. induction ts as [|t ts IH]; intros h0; cbn; [done|]. apply IH. }
  rewrite !Hm. apply fold_left_permutation; [|done]. intros. apply effects_commute.
Qed.

(** The part for the host that the plugins make for a container of the pod of sandbox [cj]. *)
Definition created_host (pids_cgroup : bool) (cj : containerJSON) (h : HostConfig) : HostConfig :=
  mkHostConfig
    (if enabled DockerOfflineMutate && IsOffline (cj_Labels cj) then newCgroupParentOf (CgroupParent h) else CgroupParent h)
    (if enabled DockerStorageOption then Some (storage_opts (labels_of cj) (default ∅ (StorageOpt h))) else StorageOpt h)
    (if pids_cgroup && enabled DockerPidsLimit
     then match labels_of cj !! annotationPidsLimit ≫= Atoi with Some n => Some n | None => PidsLimit h end else PidsLimit h)
    (if enabled DockerUTSMode then default (UTSMode h) (labels_of cj !! annotationUTSMode) else UTSMode h).

Lemma effects_created (pids_cgroup : bool) cj h :
  fold_left (apply_effect cj) (map effect_of ([TMutate] ++ (if pids_cgroup then [TPids] else []) ++ [TStorage; TUTS])) h =
  created_host pids_cgroup cj h.
Proof.
  unfold created_host, apply_effect.
  set (pids := labels_of cj !! annotationPidsLimit). set (uts := labels_of cj !! annotationUTSMode).
  destruct pids_cgroup; cbn; fold pids uts; destruct h as [cg so pl ut];
    destruct (enabled DockerOfflineMutate), (enabled DockerStorageOption), (enabled DockerPidsLimit), (enabled DockerUTSMode);
    destruct (IsOffline _); cbn; fold pids uts; destruct pids as [v|]; cbn; try (destruct (Atoi v)); destruct uts; done.
Qed.

Lemma registered_effects (pids_cgroup : bool) fs s md c h :
  fs ≡ₚ registered_handlers pids_cgroup -> startable s -> InnerHostConfig c = Some h ->
  (run_handlers fs md s c).2 =
  Ret (run_effects (map effect_of ([TMutate] ++ (if pids_cgroup then [TPids] else []) ++ [TStorage; TUTS])) md c h).
Proof.
  intros Hp Hs Hc. set (ts := _ ++ _).
  assert (Hr : registered_handlers pids_cgroup = map handler_of ts) by (by destruct pids_cgroup).
  rewrite Hr in Hp. apply Permutation_map_inv in Hp as (ts' & -> & Hp).
  rewrite (run_handlers_effects _ (map effect_of ts') s c h md); [|apply Forall2_fmap, Forall_Forall2_diag, Forall_true, tag_acts|done|done].
  by rewrite (run_effects_perm ts ts').
Qed.

Lemma effects_result (pids_cgroup : bool) md c h cj :
  InnerHostConfig c = Some h -> ContainerType md = ContainerTypeLabelContainer -> ContainerInspect (SandBoxID md) = Ok cj ->
  run_effects (map effect_of ([TMutate] ++ (if pids_cgroup then [TPids] else []) ++ [TStorage; TUTS])) md c h =
  Ok (set_host c (created_host pids_cgroup cj h)).
Proof.
  intros Hc Hmd Hcj. unfold run_effects. rewrite Hmd, Hcj, <- effects_created.
  cbn [negb orb]. rewrite String.eqb_refl. cbn [negb orb]. destruct (existsb _ _) eqn:Ex; cbn [negb]; [done|].
  by rewrite no_effect, set_host_same.
Qed.

(** The order in which the packages register their handlers does not
    matter: every order has the same outcome, errors included, and gives a
    container of a pod the cgroup parent, storage options, limit of processes and
    UTS mode that the features and the labels of its sandbox ask for, in
    whatever order the labels are visited. *)
Theorem create_handlers_any_order pids_cgroup fs s md c h :
  fs ≡ₚ registered_handlers pids_cgroup -> startable s -> InnerHostConfig c = Some h ->
  (run_handlers fs md s c).2 = (run_handlers (registered_handlers pids_cgroup) md s c).2 /\
  (ContainerType md = ContainerTypeLabelContainer -> forall cj, ContainerInspect (SandBoxID md) = Ok cj ->
   (run_handlers fs md s c).2 = Ret (Ok (set_host c (created_host pids_cgroup cj h)))).
Proof.
  intros Hp Hs Hc. rewrite !(registered_effects pids_cgroup _ s md c h) by done. split; [done|].
  intros Hmd cj Hcj. by rewrite (effects_result pids_cgroup md c h cj).
Qed.
End Handlers.

(** ** The cleanup *)

Section Cleanup.
Context {PE : PluginEnv}.

Lemma Split_inv c s w w' ws : Split s c = w :: w' :: ws -> exists s', s = w +:+ String c s' /\ string_free c w /\ Split s' c = w' :: ws.
Proof.
  revert w. induction s as [|d s IH]; intros w H; [done|]. cbn in H. destruct (Ascii.eqb_spec d c) as [->|Hd].
  - injection H as <- H. by exists s.
  - destruct (Split s c) as [|v vs] eqn:E; [done|]. injection H as <- ->. destruct (IH v eq_refl) as (s' & -> & Hf & Hs).
    by exists s'.
Qed.

Lemma Split_slash w s : string_free "/" w -> Split (w +:+ "/" +:+ s) "/" = w :: Split s "/".
Proof. exact (Split_app_sep "/" w s). Qed.

Lemma Contains_prefix sub r : Contains (sub +:+ r) sub = true.
Proof.
  assert (H : String.prefix sub (sub +:+ r) = true).
  { induction sub as [|c sub IH]; [by destruct r|]. change (String c sub +:+ r) with (String c (sub +:+ r)). cbn. by destruct (ascii_dec c c). }
  destruct (sub +:+ r); cbn [Contains]; by rewrite H.
Qed.

Lemma Contains_app_r p s sub : Contains s sub = true -> Contains (p +:+ s) sub = true.
Proof. intros H. induction p as [|c p IH]; [done|]. change (String c p +:+ s) with (String c (p +:+ s)). cbn. by rewrite IH, orb_true_r. Qed.

(** [path] is, below its mount point, the directory [name] of a pod with a UID of
    36 bytes, whose second directory is the one of offline pods. *)
Definition offline_pod_dir (mountPoint path name uid : string) : Prop :=
  name = "pod" +:+ uid /\ slen uid = 36 /\
  exists s0 s1 rest, string_free "/" s0 /\ string_free "/" s1 /\
    TrimPrefix path mountPoint = s0 +:+ "/" +:+ s1 +:+ "/" +:+ offlineKey +:+ "/" +:+ rest.

Lemma TrimPrefix_suffix p k : exists q, k = q +:+ TrimPrefix k p.
Proof.
  unfold TrimPrefix. destruct (HasPrefix k p) eqn:E; [|by exists ""]. exists p. by apply HasPrefix_app.
Qed.

Lemma checkCleaning_correct name path mountPoint :
  checkCleaningCgroupAvailable name path mountPoint = true <-> offline_pod_dir mountPoint path name (TrimPrefix name "pod").
Proof.
  unfold checkCleaningCgroupAvailable, offline_pod_dir. split.
  - intros H. destruct (_ && _ && _) eqn:Ec; [|done]. apply andb_true_iff in Ec as [Ec _]. apply andb_true_iff in Ec as [El Ep].
    apply Z.eqb_eq in El. assert (Hn : name = "pod" +:+ TrimPrefix name "pod").
    { unfold TrimPrefix. rewrite Ep. by apply HasPrefix_app. }
    split; [done|]. split.
    { rewrite Hn in El. unfold slen in *. rewrite string_length_app in El. change (String.length "pod") with 3%nat in El. lia. }
    apply andb_true_iff in H as [Hlen H2].
    destruct (Split (TrimPrefix path mountPoint) "/") as [|s0 [|s1 [|s2 [|s3 rest]]]] eqn:Es; cbn in Hlen, H2; try done.
    apply String.eqb_eq in H2 as ->.
    apply Split_inv in Es as (t1 & -> & Hf0 & Es). apply Split_inv in Es as (t2 & -> & Hf1 & Es).
    apply Split_inv in Es as (t3 & -> & _ & _). by exists s0, s1, t3.
  - intros (Hn & Hl & s0 & s1 & rest & Hf0 & Hf1 & Ht).
    assert (Hc : Contains path offlineKey = true).
    { destruct (TrimPrefix_suffix mountPoint path) as [q ->]. rewrite Ht. do 5 apply Contains_app_r. apply Contains_prefix. }
    assert (El : (slen name =? 39) = true).
    { apply Z.eqb_eq. rewrite Hn. unfold slen in *. rewrite string_length_app. change (String.length "pod") with 3%nat. lia. }
    assert (Ep : HasPrefix name "pod" = true) by (rewrite Hn; by destruct (TrimPrefix name "pod")).
    rewrite El, Ep, Hc, Ht. cbn [andb].
    rewrite !Split_slash by (done || (vm_compute; repeat split; discriminate)).
    destruct (Split rest "/") eqn:E; [|apply andb_true_iff; split; [apply Z.ltb_lt; cbn [length]; lia|done]].
    destruct rest as [|c rest]; cbn in E; [done|]. destruct (Ascii.eqb c "/"); [done|]. by destruct (Split rest "/").
Qed.

Lemma walk_mount_exact uids mnt es paths :
  walk_mount uids mnt es = Ret paths ->
  forall path, path ∈ paths <-> exists name, mkWalked path (Some (name, true)) ∈ es /\
    checkCleaningCgroupAvailable name path mnt = true /\ TrimPrefix name "pod" ∉ uids.
Proof.
  revert paths. induction es as [|[p i] es IH]; intros paths H path; cbn in H.
  { injection H as <-. split; [by intros ?%elem_of_nil|]. intros (? & ?%elem_of_nil & _). done. }
  destruct i as [[name d]|]; [|done]. unfold mbind, outcome_bind in H.
  destruct (walk_mount uids mnt es) as [rest|]; [|done]. injection H as <-. specialize (IH rest eq_refl path).
  assert (Hsplit : (exists name', mkWalked path (Some (name', true)) ∈ mkWalked p (Some (name, d)) :: es /\
      checkCleaningCgroupAvailable name' path mnt = true /\ TrimPrefix name' "pod" ∉ uids) <->
    (path = p /\ d = true /\ checkCleaningCgroupAvailable name p mnt = true /\ TrimPrefix name "pod" ∉ uids) \/ path ∈ rest).
  { rewrite IH. setoid_rewrite elem_of_cons. split.
    - intros (n & [[= -> -> <-]|Hin] & Hr); [left|right]; naive_solver.
    - intros [(-> & -> & Hr)|(n & Hin & Hr)]; [exists name|exists n]; naive_solver. }
  rewrite Hsplit. clear Hsplit IH. cbn [wk_path].
  destruct d; cbn [andb]; [|naive_solver].
  destruct (checkCleaningCgroupAvailable name p mnt); cbn [andb]; [|naive_solver].
  destruct (bool_decide_reflect (TrimPrefix name "pod" ∈ uids)); cbn [negb]; rewrite ?elem_of_cons; naive_solver.
Qed.

Lemma existedUids_elem cs uid : uid ∈ existedUids_of cs <-> exists labels, Some labels ∈ cs /\ labels !! PodUIDLabelKey = Some uid.
Proof.
  unfold existedUids_of. rewrite list_elem_of_omap. split.
  - intros ([labels|] & Hin & H); [by exists labels|done].
  - intros (labels & Hin & H). by exists (Some labels).
Qed.

(** When the walk meets no directory that vanishes, a round of the cleanup
    removes exactly the directories of offline pods of which docker knows no
    container: a path below a mount point whose second directory is the one of
    offline pods, for a UID of 36 bytes that no container carries. *)
Theorem cleanup_removes_dead_offline_pods cs mounts paths :
  cleanupEmptyCgroup (Ok cs) mounts = Ret paths ->
  forall path, path ∈ paths <->
    exists mnt entries uid, (mnt, entries) ∈ mounts /\ mkWalked path (Some ("pod" +:+ uid, true)) ∈ entries /\
      offline_pod_dir mnt path ("pod" +:+ uid) uid /\
      ~ exists labels, Some labels ∈ cs /\ labels !! PodUIDLabelKey = Some uid.
Proof.
  unfold cleanupEmptyCgroup. intros H path.
  assert (Hpod : forall uid, TrimPrefix ("pod" +:+ uid) "pod" = uid) by (intros [|]; reflexivity).
  revert paths H. induction mounts as [|[mnt es] mounts IH]; intros paths H; cbn in H.
  { injection H as <-. split; [by intros ?%elem_of_nil|]. intros (? & ? & ? & ?%elem_of_nil & _). done. }
  unfold mbind, outcome_bind in H. destruct (walk_mount _ mnt es) as [here|] eqn:Eh; [|done].
  destruct (walk_mounts _ mounts) as [rest|]; [|done]. injection H as <-.
  rewrite elem_of_app, (IH rest eq_refl), (walk_mount_exact _ _ _ _ Eh). setoid_rewrite elem_of_cons. split.
  - intros [(name & Hin & Hc & Hn)|(m & e & uid & Hm & Hr)]; [|exists m, e, uid; tauto].
    rewrite checkCleaning_correct in Hc. rewrite existedUids_elem in Hn. pose proof Hc as (Hname & _).
    exists mnt, es, (TrimPrefix name "pod"). rewrite <- Hname. tauto.
  - intros (m & e & uid & [[= -> ->]|Hm] & Hin & Hd & Hn); [left|right; by exists m, e, uid].
    exists ("pod" +:+ uid). rewrite checkCleaning_correct, existedUids_elem, Hpod. tauto.
Qed.

(** A directory that vanishes during the walk ends the plugin server. *)
Theorem vanished_directory_panics uids mnt before path after :
  Forall (fun e => wk_info e <> None) before ->
  walk_mount uids mnt (before ++ mkWalked path None :: after) = Crash (Panic "nil pointer dereference").
Proof.
  induction 1 as [|[p [[n d]|]] before Hi _ IH]; [done| |done]. cbn [app walk_mount wk_info]. unfold mbind, outcome_bind. by rewrite IH.
Qed.
End Cleanup.

(** ** The cgroups of offline pods *)

Section OfflineCgroups.
Context {PE : PluginEnv} {Q : Type}.
Implicit Types (p : Pod Q).

Definition qos_parts p : list string :=
  match QOSClass p with PodQOSBestEffort => ["besteffort"] | PodQOSBurstable => ["burstable"] | _ => [] end.

(** The cgroup of a pod for kubelet, which it asks docker to create the containers in. *)
Definition kubelet_parent p : string := path_Join ([CgroupKubePods] ++ qos_parts p ++ ["pod" +:+ UID p]).

(** The cgroups that docker creates for containers in a parent. *)
Definition container_dirs (parent : string) (ids : list string) : list string :=
  omap (fun cid0 => let cid := TrimPrefix (TrimPrefix cid0 "docker://") "containerd://" in
                    if slen cid =? 0 then None else Some (path_Join [parent; cid])) ids.

Lemma container_dirs_concat parent ids :
  concat (map (fun cid0 => let cid := TrimPrefix (TrimPrefix cid0 "docker://") "containerd://" in
                           if slen cid =? 0 then [] else [path_Join [parent; cid]]) ids) = container_dirs parent ids.
Proof.
  unfold container_dirs. induction ids as [|i ids IH]; [done|]. cbn [map concat]. rewrite IH. cbn. by destruct (_ =? 0).
Qed.

Lemma path_clean_pod acc uid : path_clean_step acc ("pod" +:+ uid) = acc ++ ["pod" +:+ uid].
Proof. unfold path_clean_step. by destruct uid. Qed.

Lemma pod_free uid : string_free "/" uid -> string_free "/" ("pod" +:+ uid).
Proof. intros H. change (string_free "/" (String "p" (String "o" (String "d" uid)))). by repeat split. Qed.

Lemma path_Join_pod l uid : string_free "/" uid ->
  path_Join (l ++ ["pod" +:+ uid]) =
  String "/" (Join (fold_left path_clean_step (concat (map (fun x => Split x "/"%char) l)) [] ++ ["pod" +:+ uid]) "/").
Proof.
  intros Hu. unfold path_Join. rewrite map_app, concat_app, fold_left_app. cbn [map concat].
  rewrite (Split_free "/" ("pod" +:+ uid)) by (by apply pod_free). cbn [app fold_left]. by rewrite path_clean_pod.
Qed.

Lemma newCgroupParentOf_insert a l :
  string_free "/" a -> Forall (string_free "/") l -> l <> [] ->
  newCgroupParentOf (String "/" (Join (a :: l) "/")) = String "/" (Join (a :: offlineKey :: l) "/").
Proof.
  intros Ha Hl Hne. unfold newCgroupParentOf.
  assert (HS : Split (String "/" (Join (a :: l) "/")) "/" = "" :: a :: l).
  { cbn [Split Ascii.eqb]. change (Ascii.eqb "/" "/") with true. cbv iota. f_equal. apply (Split_Join "/"); [done|by constructor]. }
  rewrite HS. by destruct l.
Qed.

Lemma kubelet_parent_moved p :
  string_free "/" (UID p) -> newCgroupParentOf (kubelet_parent p) = path_Join ([CgroupOffline] ++ qos_parts p ++ ["pod" +:+ UID p]).
Proof.
  intros Hu. unfold kubelet_parent. rewrite !app_assoc, !path_Join_pod by done.
  assert (Hp : string_free "/" ("pod" +:+ UID p)) by (by apply pod_free).
  unfold qos_parts. destruct (QOSClass p);
    refine (newCgroupParentOf_insert "kubepods" _ _ _ _); try done; repeat constructor; try done; vm_compute; repeat split; discriminate.
Qed.

Lemma PodCgroupDirs_offline p :
  K8sResource.IsOffline p = true -> QOSClass p <> PodQOSNone ->
  PodCgroupDirs p = container_dirs (path_Join ([CgroupOffline] ++ qos_parts p ++ ["pod" +:+ UID p])) (ContainerIDs p).
Proof.
  intros Ho Hq. unfold PodCgroupDirs, qos_parts. rewrite Ho. cbv zeta.
  destruct (QOSClass p); [| | |done]; cbn [app]; rewrite <- container_dirs_concat, ?path_Join_nested; done.
Qed.

Lemma sandbox_offline p cj labels :
  cj_Labels cj = Some labels -> (forall k, labels !! (PodAutoAnnotationPrefix +:+ k) = Annotations p !! k) ->
  IsOffline (cj_Labels cj) = K8sResource.IsOffline p.
Proof. intros -> Hk. cbn. change AnnotationKey with (PodAutoAnnotationPrefix +:+ AnnotationOfflineKey). by rewrite Hk. Qed.

(** Caelus finds the containers of an offline pod where the plugin puts them:
    for a container that kubelet wants in its cgroup of the pod, the plugin
    replaces the parent by one under /kubepods/offline, and the directories in
    which docker creates containers there are those that caelus computes for the
    pod. *)
Theorem offline_cgroups_agree p s c h md cj labels :
  enabled DockerOfflineMutate = true -> startable s ->
  ContainerType md = ContainerTypeLabelContainer -> ContainerInspect (SandBoxID md) = Ok cj ->
  cj_Labels cj = Some labels -> (forall k, labels !! (PodAutoAnnotationPrefix +:+ k) = Annotations p !! k) ->
  K8sResource.IsOffline p = true -> QOSClass p <> PodQOSNone -> string_free "/" (UID p) ->
  InnerHostConfig c = Some h -> CgroupParent h = kubelet_parent p ->
  exists c' h', (mutate s c md).2 = Ret (Ok c') /\ InnerHostConfig c' = Some h' /\
    StorageOpt h' = StorageOpt h /\ PidsLimit h' = PidsLimit h /\ UTSMode h' = UTSMode h /\ cw_Config c' = cw_Config c /\
    PodCgroupDirs p = container_dirs (CgroupParent h') (ContainerIDs p).
Proof.
  intros He [s' Hs] Hmd Hcj Hl Hk Ho Hq Hu Hc Hp. unfold mutate, mutate_config, with_host. rewrite He, Hs, Hmd, Hcj. cbn [negb].
  rewrite String.eqb_refl. cbn [negb].
  rewrite (sandbox_offline p cj labels Hl Hk), Ho. cbn. rewrite Hc. do 2 eexists. split; [done|]. split; [done|]. cbn. split_and!; [done..|].
  by rewrite Hp, kubelet_parent_moved, PodCgroupDirs_offline.
Qed.
End OfflineCgroups.

(** ** Updates *)

Section Updates.
Context {PE : PluginEnv}.

(** Kubelet never sets the cpuset of an offline container: whatever it asks
    for, the patch that the plugin answers with is the one to a request for
    cpu 0 as long as the container is only created, and for no cpus later, with
    all other fields as kubelet wanted them. *)
Theorem update_never_sets_kubelet_cpuset vars name body a cj labels sandbox :
  enabled DockerOfflineMutate = true -> vars !! "name" = Some name ->
  ContainerInspect name = Ok cj -> cj_Labels cj = Some labels ->
  ignored (pm_Namespace (GetPodMetadata labels)) = false ->
  ContainerType (GetPodMetadata labels) = ContainerTypeLabelContainer ->
  ContainerInspect (SandBoxID (GetPodMetadata labels)) = Ok sandbox -> IsOffline (cj_Labels sandbox) = true ->
  update_Handler (Some vars) (Ok body) = a ->
  (an_code a = 400 /\ an_body a = NoBody) \/ (an_code a = 500 /\ an_body a = NoBody) \/
  exists uc patch, unmarshal_update body = Ok uc /\ a = mkAnswer 200 (PatchBody (mkPatch MergePatchType (Some patch))) /\
    groupPatchData marshal_update (mkUpdate (if (Status cj =? "created")%string then "0" else "") (uc_rest uc)) body = Ok patch.
Proof.
  intros He Hv Hi Hl Hig Hct Hsb Hoff <-. unfold update_Handler. destruct (unmarshal_update body) as [uc|] eqn:Eu; [|by left].
  rewrite Hv. cbn [default from_option id]. unfold generateContainerData. rewrite Hi, Hl. cbv zeta. rewrite Hig.
  unfold update. rewrite He, Hct, Hsb, Hoff, String.eqb_refl. cbn [negb]. right.
  destruct (Status cj =? "created")%string;
    (destruct (groupPatchData _ _ _) as [patch|] eqn:Eg; [right; by exists uc, patch|by left]).
Qed.
End Updates.

(** ** The plugins behind lighthouse *)

Section Behind.
Context {LE : LighthouseEnv} {PE : PluginEnv}.

(** A socket of lighthouse is the plugin server's, which has its cleanup running:
    the answer is encoded, and a panic closes the connection. *)
Definition plugin_behind (ep : string) (handlers : list ModifyCreateFunc) (s : once) (encode : answer_body -> string) : Prop :=
  forall t m p b, hook_answer t (CHook ep m p b) =
    match (plugin_ServeHTTP handlers s (mkRequest m p (Ok b))).2 with
    | Ret a => Responded (an_code a) (encode (an_body a))
    | Crash _ => DoFailed "EOF"
    end.

(** JSON and its merge patches give back the configuration that was encoded, once
    the brackets are no longer escaped. *)
Definition patch_roundtrip (body : string) (c : ContainerConfigWrapper) : Prop :=
  exists patch body', groupPatchData marshal_create c body = Ok patch /\ merge_patch body patch = Ok body' /\
    unmarshal_create (fixUnexpectedEscape body') = Ok (Some c).

(** C5: the runtime creates the container of an offline pod outside the cgroups of
    kubelet: when lighthouse asks the plugin server about a container that
    kubelet wants in its cgroup of the pod, the runtime gets a request whose
    parent cgroup is the one in which caelus looks for the containers of the
    pod, and no other request. *)
Theorem offline_container_created_for_caelus {Q} (p : Pod Q) hc s pids_cgroup encode r body c labels h md cj sandbox post t path :
  plugin_behind (endpoint hc) (registered_handlers pids_cgroup) s encode ->
  (forall patch, let pt := mkPatch MergePatchType (Some patch) in decode_patch (encode (PatchBody pt)) = Ok pt) ->
  new_request ("http://" +:+ endpoint hc) = None ->
  List.find (fun pl => (rq_method r =? "POST")%string && bool_decide (is_Some (route_vars (plugin_Path pl) (HookPath PreHookType (rq_path r)))))
    registerPlugin = Some (CreatePlugin path) ->
  rq_body r = Ok body -> unmarshal_create body = Ok (Some c) -> cw_Config c = Some (Some labels) -> md = GetPodMetadata labels ->
  ignored (pm_Namespace md) = false -> enabled DockerOfflineMutate = true -> startable s ->
  ContainerType md = ContainerTypeLabelContainer -> ContainerInspect (SandBoxID md) = Ok cj -> cj_Labels cj = Some sandbox ->
  (forall k, sandbox !! (PodAutoAnnotationPrefix +:+ k) = Annotations p !! k) ->
  K8sResource.IsOffline p = true -> QOSClass p <> PodQOSNone -> string_free "/" (UID p) ->
  InnerHostConfig c = Some h -> CgroupParent h = kubelet_parent p ->
  patch_roundtrip body (set_host c (created_host pids_cgroup cj h)) ->
  exists hook text c' h' cs, (handle (mkHookData [hc] post) r t).2 = t ++ [hook; CBackend (rq_method r) (rq_path r) text] ++ cs /\
    is_hook hook /\ Forall is_hook cs /\ unmarshal_create text = Ok (Some c') /\ InnerHostConfig c' = Some h' /\
    PodCgroupDirs p = container_dirs (CgroupParent h') (ContainerIDs p).
Proof.
  intros Hb Hdec Hn Hroute Hbody Hun Hcfg -> Hig He Hs Hct Hcj Hl Hk Ho Hq Hu Hc Hp (patch & body' & Hg & Hm & Hback).
  set (h' := created_host pids_cgroup cj h) in *.
  assert (Hans : hook_answer t (CHook (endpoint hc) (rq_method r) (HookPath PreHookType (rq_path r)) body) =
    Responded 200 (encode (PatchBody (mkPatch MergePatchType (Some patch))))).
  { rewrite Hb. unfold plugin_ServeHTTP. cbn [rq_method rq_path rq_body]. rewrite Hroute. unfold create_Handler.
    rewrite Hun, Hcfg. cbv zeta. rewrite Hig.
    pose proof (registered_effects pids_cgroup _ s (GetPodMetadata labels) c h (Permutation_refl _) Hs Hc) as Hr.
    rewrite (effects_result pids_cgroup _ c h cj Hc Hct Hcj) in Hr. fold h' in Hr.
    destruct (run_handlers _ _ _ _) as [s' o]. cbn in Hr. subst o. by rewrite Hg. }
  assert (Hdo : doHook hc PreHookType (rq_method r) (rq_path r) body t =
    (Ok (mkPatch MergePatchType (Some patch)), t ++ [CHook (endpoint hc) (rq_method r) (HookPath PreHookType (rq_path r)) body])).
  { change (doHook hc PreHookType) with (fun m p => performHook hc m (HookPath PreHookType p)). cbv beta. unfold performHook.
    rewrite Hn. cbv zeta. by rewrite Hans, Hdec. }
  unfold handle, preHook. rewrite Hbody. cbn [preHooks postHooks applyHook]. unfold mbind, mret, L_bind, L_ret. rewrite Hdo.
  unfold apply_patch. cbn [pd_PatchData PatchType]. change (MergePatchType =? JSONPatchType)%string with false. rewrite String.eqb_refl, Hm.
  unfold send_backend. match goal with |- context [postHook ?a ?b ?w ?t0] => pose proof (postHook_status a b w t0) as Hpost; destruct (postHook a b w t0) as [w' t'] end.
  destruct Hpost as (cs & -> & Hcs & _). do 2 eexists. exists (set_host c h'), h', cs. cbn [snd].
  split; [by rewrite <- !app_assoc|]. split; [done|]. split; [done|]. split; [done|]. split; [done|].
  unfold h', created_host. cbn [CgroupParent]. rewrite He. cbn [andb].
  by rewrite (sandbox_offline p cj sandbox), Ho, Hp, kubelet_parent_moved, PodCgroupDirs_offline by done.
Qed.
End Behind.

(** ** Witnesses *)

Definition demo_sandbox : gmap string string := {["annotation.mixer.kubernetes.io/app-class" := "greedy"]}.
Definition demo_uid : string := "f8f39b96-8198-43da-ac67-40f339d8441a".
Definition demo_labels : gmap string string :=
  {["io.kubernetes.docker.type" := "container"; "io.kubernetes.sandbox.id" := "sb"; PodUIDLabelKey := demo_uid]}.
Definition demo_host (parent : string) : HostConfig := mkHostConfig parent None None "".
Definition demo_config (parent : string) : ContainerConfigWrapper := mkWrapper (Some (Some demo_labels)) (Some (demo_host parent)).

(** A request is the text of its parent cgroup or cpuset, and a patch the text that is wanted. *)
Definition demo_plugin : PluginEnv := {|
  plugin_order := key_order;
  server_env := mkPluginServerEnv [] (mkGate false false true false);
  ContainerInspect := fun id => if (id =? "sb")%string then Ok (mkContainerJSON (Some demo_sandbox) "running")
                                else Ok (mkContainerJSON (Some demo_labels) "created");
  unmarshal_create := fun b => Ok (Some (demo_config b));
  marshal_create := fun c => Ok (match InnerHostConfig c with Some h => CgroupParent h | None => "" end);
  unmarshal_update := fun b => Ok (mkUpdate b ∅);
  marshal_update := fun u => Ok (CpusetCpus u);
  CreateMergePatch := fun _ b => Ok b;
  GetCgroupMounts := Ok ["/sys/fs/cgroup/cpu"];
  route_vars := fun pattern path => if (pattern =? path)%string then Some ∅ else None;
|}.

Definition demo_encode (b : answer_body) : string :=
  match b with PatchBody p => default "" (pd_PatchData p) | _ => "" end.

Definition demo_lighthouse : LighthouseEnv := {|
  hook_answer := fun _ c => match c with
    | CHook _ m p b => match (plugin_ServeHTTP (PE := demo_plugin) (registered_handlers (PE := demo_plugin) true) (Started []) (mkRequest m p (Ok b))).2 with
                       | Ret a => Responded (an_code a) (demo_encode (an_body a))
                       | Crash _ => DoFailed "EOF"
                       end
    | _ => DoFailed ""
    end;
  backend_answer := fun _ _ => mkResponse 201 ∅ "created";
  new_request := fun _ => None;
  decode_patch := fun s => Ok (mkPatch MergePatchType (Some s));
  apply_json_patch := fun p b => Ok b;
  merge_patch := fun b p => Ok p;
  marshal_post := fun d => Ok (pd_Body d);
  unmarshal_post := fun s d => Ok (mkPostData (pd_StatusCode d) s);
  path_matches := String.eqb;
  debug_index := fun _ => mkResponse 200 ∅ "";
|}.

Definition demo_pod : Pod Z :=
  mkPod "ns" "p" demo_uid {["mixer.kubernetes.io/app-class" := "greedy"]} None None PodPending PodQOSBestEffort ["docker://c1"] [].

Definition demo_hook : hookerConnector := mkConnector "plugins" "unix:///p.sock" PolicyIgnore.

Lemma demo_annotations k : demo_sandbox !! (PodAutoAnnotationPrefix +:+ k) = Annotations demo_pod !! k.
Proof.
  unfold demo_sandbox, demo_pod. cbn [Annotations].
  change "annotation.mixer.kubernetes.io/app-class" with (PodAutoAnnotationPrefix +:+ "mixer.kubernetes.io/app-class").
  destruct (decide (k = "mixer.kubernetes.io/app-class")) as [->|Hne]; [by rewrite !lookup_singleton_eq|].
  rewrite !lookup_singleton_ne; [done|congruence|]. intros H. apply Hne. by apply (inj (String.append PodAutoAnnotationPrefix)) in H.
Qed.

Lemma create_handlers_any_order_witness :
  exists c', (run_handlers (reverse (registered_handlers (PE := demo_plugin) true)) (GetPodMetadata demo_labels) NotStarted
    (demo_config "/kubepods/podx")).2 = Ret (Ok c') /\ CgroupParent <$> InnerHostConfig c' = Some "/kubepods/offline/podx".
Proof.
  destruct (create_handlers_any_order (PE := demo_plugin) true (reverse (registered_handlers (PE := demo_plugin) true)) NotStarted
    (GetPodMetadata demo_labels) (demo_config "/kubepods/podx") (demo_host "/kubepods/podx")) as [_ H].
  - apply reverse_Permutation.
  - by exists (Started ["/sys/fs/cgroup/cpu"]).
  - reflexivity.
  - eexists. split; [refine (H _ (mkContainerJSON (Some demo_sandbox) "running") _); vm_compute; reflexivity|vm_compute; reflexivity].
Defined.

Definition demo_walk : list walked :=
  [mkWalked "/sys/fs/cgroup/cpu/kubepods/offline" (Some ("offline", true));
   mkWalked ("/sys/fs/cgroup/cpu/kubepods/offline/besteffort/pod" +:+ demo_uid) (Some ("pod" +:+ demo_uid, true))].

Lemma cleanup_removes_dead_offline_pods_witness :
  cleanupEmptyCgroup (Ok [None]) [("/sys/fs/cgroup/cpu", demo_walk)] =
    Ret ["/sys/fs/cgroup/cpu/kubepods/offline/besteffort/pod" +:+ demo_uid] /\
  exists mnt entries uid, (mnt, entries) ∈ [("/sys/fs/cgroup/cpu", demo_walk)] /\
    offline_pod_dir mnt ("/sys/fs/cgroup/cpu/kubepods/offline/besteffort/pod" +:+ demo_uid) ("pod" +:+ uid) uid.
Proof.
  assert (H : cleanupEmptyCgroup (Ok [None]) [("/sys/fs/cgroup/cpu", demo_walk)] =
    Ret ["/sys/fs/cgroup/cpu/kubepods/offline/besteffort/pod" +:+ demo_uid]) by (vm_compute; reflexivity).
  split; [exact H|].
  destruct (proj1 (cleanup_removes_dead_offline_pods [None] _ _ H ("/sys/fs/cgroup/cpu/kubepods/offline/besteffort/pod" +:+ demo_uid)))
    as (mnt & entries & uid & H1 & _ & H2 & _); [left|]. by exists mnt, entries, uid.
Defined.

Lemma offline_cgroups_agree_witness :
  exists c' h', (mutate (PE := demo_plugin) (Started []) (demo_config (kubelet_parent demo_pod)) (GetPodMetadata demo_labels)).2 = Ret (Ok c') /\
    InnerHostConfig c' = Some h' /\ PodCgroupDirs demo_pod = container_dirs (CgroupParent h') (ContainerIDs demo_pod).
Proof.
  destruct (offline_cgroups_agree (PE := demo_plugin) demo_pod (Started []) (demo_config (kubelet_parent demo_pod)) (demo_host (kubelet_parent demo_pod))
    (GetPodMetadata demo_labels) (mkContainerJSON (Some demo_sandbox) "running") demo_sandbox) as (c' & h' & H1 & H2 & _ & _ & _ & _ & H3);
    try reflexivity; try discriminate; try apply demo_annotations.
  - by exists (Started []).
  - vm_compute. repeat split; discriminate.
  - exists c', h'. auto.
Defined.

Lemma update_never_sets_kubelet_cpuset_witness :
  update_Handler (PE := demo_plugin) (Some {["name" := "c1"]}) (Ok "0-7") = mkAnswer 200 (PatchBody (mkPatch MergePatchType (Some "0"))) /\
  exists patch, groupPatchData (PE := demo_plugin) (marshal_update (PluginEnv := demo_plugin)) (mkUpdate "0" ∅) "0-7" = Ok patch.
Proof.
  split; [vm_compute; reflexivity|].
  destruct (update_never_sets_kubelet_cpuset (PE := demo_plugin) {["name" := "c1"]} "c1" "0-7"
    (mkAnswer 200 (PatchBody (mkPatch MergePatchType (Some "0")))) (mkContainerJSON (Some demo_labels) "created")
    demo_labels (mkContainerJSON (Some demo_sandbox) "running")) as [[H _]|[[H _]|(uc & patch & Hu & _ & Hg)]]; try (vm_compute; reflexivity).
  - discriminate H.
  - discriminate H.
  - injection Hu as <-. exists patch. exact Hg.
Defined.

Lemma offline_container_created_for_caelus_witness :
  exists hook text cs, (handle (LE := demo_lighthouse) (mkHookData [demo_hook] [])
    (mkRequest "POST" "/containers/create" (Ok (kubelet_parent demo_pod))) []).2 = [hook; CBackend "POST" "/containers/create" text] ++ cs /\
    text = "/kubepods/offline/besteffort/pod" +:+ demo_uid.
Proof.
  destruct (offline_container_created_for_caelus (LE := demo_lighthouse) (PE := demo_plugin) demo_pod demo_hook (Started []) true demo_encode
    (mkRequest "POST" "/containers/create" (Ok (kubelet_parent demo_pod))) (kubelet_parent demo_pod) (demo_config (kubelet_parent demo_pod))
    demo_labels (demo_host (kubelet_parent demo_pod)) (GetPodMetadata demo_labels) (mkContainerJSON (Some demo_sandbox) "running")
    demo_sandbox [] [] "/prehook/containers/create") as (hook & text & c' & h' & cs & H & _ & _ & Hu & Hc & Hd).
  - intros t m p b. unfold hook_answer, demo_lighthouse. reflexivity.
  - intros patch. reflexivity.
  - reflexivity.
  - vm_compute. reflexivity.
  - reflexivity.
  - reflexivity.
  - reflexivity.
  - reflexivity.
  - vm_compute. reflexivity.
  - reflexivity.
  - by exists (Started []).
  - vm_compute. reflexivity.
  - vm_compute. reflexivity.
  - reflexivity.
  - apply demo_annotations.
  - vm_compute. reflexivity.
  - discriminate.
  - vm_compute. repeat split; discriminate.
  - reflexivity.
  - reflexivity.
  - eexists _, _. split; [vm_compute; reflexivity|]. split; [vm_compute; reflexivity|]. vm_compute. reflexivity.
  - exists hook, text, cs. split; [exact H|]. vm_compute in H. injection H as _ <- _. vm_compute. reflexivity.
Defined.
