(* ===== verification/Alarm.v ===== *)
(** * Alarms

    pkg/caelus/alarm: messages go through a buffered channel to a goroutine that
    collects them and sends them in batches, or after a delay.  The state has
    the channel, the collected messages, the timer and the bodies handed to the
    sending channel; an execution is a sequence of [event]s. *)

From Stdlib Require Import Ascii.
From S2P Require Import Prelude GoStrings Silence.

#[local] Open Scope string_scope.
#[local] Open Scope Z_scope.
#[local] Open Scope list_scope.

(** ** Configuration *)

Definition AlarmTypeLocal : string := "local".
Definition AlarmTypeRemote : string := "remote".
Definition AvailableAlarmType (s : string) : bool := (s =? AlarmTypeLocal)%string || (s =? AlarmTypeRemote)%string.

Record AlarmConfig := mkAlarmConfig {
  Enable : bool;
  Cluster : string;
  MessageBatch : Z;
  MessageDelay : duration;
  ChannelName : string;
  IgnoreAlarmWhenSilence : bool;
  (** The executor of [LocalAlarm] and the two webhooks of [RemoteAlarm]; the
      pointers can be nil. *)
  LocalAlarm : option string;
  RemoteAlarm : option (string * string);
}.

Definition defaultAlarmMessageBatch : Z := 10.
Definition defaultAlarmMessageDelay : duration := 1 * Minute.

Definition initAlarmConfig (config : AlarmConfig) : outcome AlarmConfig :=
  if negb (Enable config) then Ret config
  else
    let channel := if (ChannelName config =? "")%string then AlarmTypeLocal else ChannelName config in
    if negb (AvailableAlarmType channel) then Crash (Fatal "invalid alarm channel")
    else
      let batch := if MessageBatch config =? 0 then defaultAlarmMessageBatch else MessageBatch config in
      let delay := if MessageDelay config =? 0 then defaultAlarmMessageDelay else MessageDelay config in
      Ret (mkAlarmConfig (Enable config) (Cluster config) batch delay channel (IgnoreAlarmWhenSilence config)
             (LocalAlarm config) (RemoteAlarm config)).

(** ** Sending *)

Record AlarmBody := mkAlarmBody { IP : string; body_Cluster : string; AlarmMsg : list string }.

(** The implementations of the interface [sendChannel]. *)
Inductive sendChannel :=
| localAlarm (executor : string)
| remoteAlarm (remoteWebhook weWorkWebhook : string).

(** What a channel does with a body. *)
Inductive outgoing :=
| Execute (executor : string) (body : AlarmBody)
| Post (url : string) (body : AlarmBody)
| PostWeWork (url : string) (body : AlarmBody).

(** The answer of a server: a failed request, or the status and the code of the
    decoded response, if it can be decoded. *)
Inductive alarm_reply :=
| RequestFailed (e : error)
| Replied (status : Z) (code : option Z).

Definition sendMessageToRemote (remoteWebhook : string) (body : AlarmBody) (reply : alarm_reply) :
    list outgoing * option error :=
  if (remoteWebhook =? "")%string then ([], None)
  else
    ([Post remoteWebhook body],
     match reply with
     | RequestFailed e => Some e
     | Replied status code =>
         if negb (status =? 200) then Some "status no ok"
         else match code with
              | None => Some "unmarshal json err"
              | Some code => if negb (code =? 0) then Some "send alarm to remote failed" else None
              end
     end).

Definition sendMessageToWeWork (weWorkWebhook : string) (body : AlarmBody) (reply : alarm_reply) :
    list outgoing * option error :=
  if (weWorkWebhook =? "")%string then ([], None)
  else
    ([PostWeWork weWorkWebhook body],
     match reply with
     | RequestFailed e => Some e
     | Replied status _ => if negb (status =? 200) then Some "status code is bad" else None
     end).

(** The error of the local command is logged and dropped. *)
Definition sendMessage (send : sendChannel) (body : AlarmBody) (reply : alarm_reply) : list outgoing * option error :=
  match send with
  | localAlarm executor => ([Execute executor body], None)
  | remoteAlarm remoteWebhook weWorkWebhook =>
      if negb (weWorkWebhook =? "")%string then sendMessageToWeWork weWorkWebhook body reply
      else sendMessageToRemote remoteWebhook body reply
  end.

(** ** The manager *)

Record alarmMsg := mkAlarmMsg { msg : string; ts : time }.

(** [a.delayer]: nil, or a timer with the time it fires at unless it has fired. *)
Abbreviation timer := (option (option time)) (only parsing).

Record Manager := mkAlarmManager {
  cfg : AlarmConfig;
  localIP : string;
  delayer : timer;
  messages : gmap string (list time);
  msgBuffers : list alarmMsg;
  send : option sendChannel;
  (** The goroutine of [Run] is in its loop. *)
  running : bool;
  (** The bodies given to [sendMessage], each in a goroutine of its own. *)
  sent : list AlarmBody;
}.

Definition chan_capacity : nat := 100.

Definition set_buffers (a : Manager) (b : list alarmMsg) : Manager :=
  mkAlarmManager (cfg a) (localIP a) (delayer a) (messages a) b (send a) (running a) (sent a).
Definition set_delayer (a : Manager) (d : timer) : Manager :=
  mkAlarmManager (cfg a) (localIP a) d (messages a) (msgBuffers a) (send a) (running a) (sent a).
Definition set_messages (a : Manager) (m : gmap string (list time)) : Manager :=
  mkAlarmManager (cfg a) (localIP a) (delayer a) m (msgBuffers a) (send a) (running a) (sent a).
Definition set_running (a : Manager) (b : bool) : Manager :=
  mkAlarmManager (cfg a) (localIP a) (delayer a) (messages a) (msgBuffers a) (send a) b (sent a).
Definition add_sent (a : Manager) (b : AlarmBody) : Manager :=
  mkAlarmManager (cfg a) (localIP a) (delayer a) (messages a) (msgBuffers a) (send a) (running a) (sent a ++ [b]).

(** The channel of the configured name; a missing section is a nil pointer. *)
Definition newChannel (cfg : AlarmConfig) : outcome sendChannel :=
  if (ChannelName cfg =? AlarmTypeLocal)%string then
    match LocalAlarm cfg with
    | Some executor => Ret (localAlarm executor)
    | None => Crash (Panic "nil pointer dereference")
    end
  else
    match RemoteAlarm cfg with
    | Some (remoteWebhook, weWorkWebhook) => Ret (remoteAlarm remoteWebhook weWorkWebhook)
    | None => Crash (Panic "nil pointer dereference")
    end.

Definition NewManager (cfg : AlarmConfig) (nodeIP : string) : outcome Manager :=
  if Enable cfg then
    send ← newChannel cfg;
    Ret (mkAlarmManager cfg nodeIP None ∅ [] (Some send) false [])
  else Ret (mkAlarmManager cfg nodeIP None ∅ [] None false []).

Definition Run (a : Manager) : Manager := if Enable (cfg a) then set_running a true else a.

(** What the manager asks the [offlineJobGetter], if there is one: whether
    scheduling is disabled, and the number of offline jobs. *)
Definition job_state : Type := option (bool * result nat).

Definition omitted (ojg : job_state) : bool :=
  match ojg with
  | Some (true, Ok jobs) => Nat.eqb jobs 0
  | _ => false
  end.

Definition SendAlarm (a : Manager) (ojg : job_state) (now : time) (m : string) : Manager :=
  if negb (Enable (cfg a)) then a
  else if omitted ojg then a
  else if (length (msgBuffers a) <? chan_capacity)%nat then set_buffers a (msgBuffers a ++ [mkAlarmMsg m now])
  else a.

Section Collect.
Context {RO : RangeOrder} (zone : duration).

(** [Format] with the layout "15:04:05". *)
Definition format_clock (t : time) : string :=
  print_02d (Hour_of zone t) +:+ ":" +:+ print_02d (Minute_of zone t) +:+ ":" +:+ print_02d (Second_of zone t).

Definition alarm_text (m : string) (tss : list time) : string :=
  match tss with
  | [t] => m +:+ "[" +:+ format_clock t +:+ "]"
  | _ => m +:+ "[" +:+ format_clock (default 0 (head tss)) +:+ " - " +:+ format_clock (default 0 (last tss)) +:+ ", " +:+
         Itoa (Z.of_nat (length tss)) +:+ "]"
  end.

Definition getAlarmMessages (ms : gmap string (list time)) : list string :=
  map (fun '(m, tss) => alarm_text m tss) (range_map "getAlarmMessages" ms).

Definition alarm_body (a : Manager) (ms : gmap string (list time)) : AlarmBody :=
  mkAlarmBody (localIP a) (Cluster (cfg a)) (getAlarmMessages ms).

Definition msgLen (ms : gmap string (list time)) : Z :=
  fold_left (fun n '(_, tss) => n + Z.of_nat (length tss)) (range_map "msgLen" ms) 0.

(** Send what is collected. *)
Definition flush (a : Manager) : Manager := set_messages (add_sent a (alarm_body a (messages a))) ∅.

(** The body of the loop for a message of the channel. *)
Definition handleMsg (a : Manager) (now : time) (silence : bool) (m : alarmMsg) : Manager :=
  if IgnoreAlarmWhenSilence (cfg a) && silence then set_running a false
  else
    let a := set_messages a (<[msg m := default [] (messages a !! msg m) ++ [ts m]]> (messages a)) in
    if MessageBatch (cfg a) <=? msgLen (messages a) then flush a
    else set_delayer a (Some (Some (now + MessageDelay (cfg a)))).

(** The function of the timer. *)
Definition delaySend (a : Manager) : Manager :=
  if bool_decide (messages a = ∅) then a else flush a.

(** ** Executions *)

Inductive event :=
| ESend (now : time) (ojg : job_state) (m : string)
| EReceive (now : time) (silence : bool)
| EFire (now : time).

Definition event_time (e : event) : time :=
  match e with ESend now _ _ | EReceive now _ | EFire now => now end.

(** [None]: the event cannot happen. *)
Definition step (a : Manager) (e : event) : option Manager :=
  match e with
  | ESend now ojg m => Some (SendAlarm a ojg now m)
  | EReceive now silence =>
      match running a, msgBuffers a with
      | true, m :: buffers => Some (handleMsg (set_buffers a buffers) now silence m)
      | _, _ => None
      end
  | EFire now =>
      match delayer a with
      | Some (Some t) => if t <=? now then Some (delaySend (set_delayer a (Some None))) else None
      | _ => None
      end
  end.

Fixpoint steps (a : Manager) (es : list event) : option Manager :=
  match es with
  | [] => Some a
  | e :: es' => match step a e with Some a' => steps a' es' | None => None end
  end.
End Collect.

(** ** Delivery *)

(** The times of the messages with a text, in their order. *)
Definition times_of (text : string) (l : list alarmMsg) : list time :=
  ts <$> filter (fun m => msg m = text) l.

Definition collected (a : Manager) (text : string) : list time := default [] (messages a !! text).

(** Whether a message gets into the channel. *)
Definition accepts (a : Manager) (ojg : job_state) : bool :=
  Enable (cfg a) && negb (omitted ojg) && (length (msgBuffers a) <? chan_capacity)%nat.

Lemma SendAlarm_accepts a ojg now m :
  SendAlarm a ojg now m = if accepts a ojg then set_buffers a (msgBuffers a ++ [mkAlarmMsg m now]) else a.
Proof. unfold SendAlarm, accepts. by destruct (Enable (cfg a)), (omitted ojg), (length (msgBuffers a) <? chan_capacity)%nat. Qed.

Lemma times_of_app text l1 l2 : times_of text (l1 ++ l2) = times_of text l1 ++ times_of text l2.
Proof. unfold times_of. by rewrite filter_app, fmap_app. Qed.

Section Delivery.
Context {RO : RangeOrder} (zone : duration).

(** The messages that an execution puts into the channel. *)
Definition accepted_by (a : Manager) (e : event) : list alarmMsg :=
  match e with
  | ESend now ojg m => if accepts a ojg then [mkAlarmMsg m now] else []
  | _ => []
  end.

Fixpoint accepted (a : Manager) (es : list event) : list alarmMsg :=
  match es with
  | [] => []
  | e :: es' => accepted_by a e ++ match step zone a e with Some a' => accepted a' es' | None => [] end
  end.

(** What [snaps], the collected and the buffered messages of [a'] hold is what
    [a] holds and the messages [l]. *)
Definition conserved (a a' : Manager) (snaps : list (gmap string (list time))) (l : list alarmMsg) : Prop :=
  cfg a' = cfg a /\ localIP a' = localIP a /\ sent a' = sent a ++ map (alarm_body zone a) snaps /\
  (running a' = true -> running a = true /\
   forall text, concat (map (fun snap => default [] (snap !! text)) snaps) ++ collected a' text ++ times_of text (msgBuffers a') =
     collected a text ++ times_of text (msgBuffers a) ++ times_of text l).

Lemma flush_conserved a : conserved a (flush zone a) [messages a] [].
Proof.
  split_and!; try done. intros Hr. split; [done|]. intros text. unfold collected. simpl.
  by rewrite lookup_empty, !app_nil_r.
Qed.

Lemma handleMsg_conserved a b m bs now silence :
  a = set_buffers b bs -> msgBuffers b = m :: bs ->
  exists snaps, conserved b (handleMsg zone a now silence m) snaps [].
Proof.
  intros -> Hb. unfold handleMsg. destruct (_ && silence); [exists []; split_and!; try done; simpl; by rewrite app_nil_r|].
  set (a1 := set_messages _ _).
  assert (H1 : forall text, collected a1 text ++ times_of text bs = collected b text ++ times_of text (msgBuffers b)).
  { intros text. rewrite Hb. unfold collected, times_of, a1. simpl. rewrite filter_cons.
    case_decide as E; [subst text; rewrite lookup_insert_eq; simpl; by rewrite <- app_assoc|].
    by rewrite lookup_insert_ne. }
  destruct (_ <=? _).
  - exists [messages a1]. split_and!; try done. intros Hr. split; [done|]. intros text. rewrite app_nil_r, <- H1.
    unfold collected. simpl. by rewrite lookup_empty, app_nil_r.
  - exists []. split_and!; try done; [simpl; by rewrite app_nil_r|]. intros Hr. split; [done|]. intros text.
    rewrite app_nil_r, <- H1. done.
Qed.

Lemma step_conserved a e a' : step zone a e = Some a' -> exists snaps, conserved a a' snaps (accepted_by a e).
Proof.
  destruct e as [now ojg m|now silence|now]; cbn [step accepted_by]; intros E.
  - simplify_eq. rewrite SendAlarm_accepts. exists []. destruct (accepts a ojg).
    + split_and!; try done; [simpl; by rewrite app_nil_r|]. intros Hr. split; [done|]. intros text. simpl.
      by rewrite times_of_app.
    + split_and!; try done; [simpl; by rewrite app_nil_r|]. intros Hr. split; [done|]. intros text. by rewrite !app_nil_r.
  - destruct (running a); [|done]. destruct (msgBuffers a) as [|m bs] eqn:Eb; [done|]. simplify_eq.
    by eapply handleMsg_conserved.
  - destruct (delayer a) as [[t|]|]; [|done|done]. destruct (t <=? now); [|done]. simplify_eq.
    unfold delaySend. case_bool_decide.
    + exists []. split_and!; try done; [simpl; by rewrite app_nil_r|]. intros Hr. split; [done|]. intros text. by rewrite !app_nil_r.
    + exists [messages a]. split_and!; try done. intros Hr. split; [done|]. intros text. unfold collected. simpl.
      by rewrite lookup_empty, !app_nil_r.
Qed.

Lemma steps_conserved a es a' : steps zone a es = Some a' -> exists snaps, conserved a a' snaps (accepted a es).
Proof.
  revert a. induction es as [|e es IH]; intros a E; cbn [steps accepted] in *.
  { simplify_eq. exists []. split_and!; try done; [simpl; by rewrite app_nil_r|]. intros Hr. split; [done|].
    intros text. by rewrite !app_nil_r. }
  destruct (step zone a e) as [a1|] eqn:E1; [|done].
  apply step_conserved in E1 as (snaps1 & Hc1 & Hi1 & Hs1 & Hr1). apply IH in E as (snaps2 & Hc2 & Hi2 & Hs2 & Hr2).
  exists (snaps1 ++ snaps2). split_and!; [congruence|congruence| |].
  - rewrite Hs2, Hs1, map_app, app_assoc. f_equal. apply map_ext. intros s. unfold alarm_body. by rewrite Hi1, Hc1.
  - intros Hr. destruct (Hr2 Hr) as [Hr1' H2]. destruct (Hr1 Hr1') as [Hr0 H1]. split; [done|]. intros text.
    rewrite map_app, concat_app, <- app_assoc, H2, times_of_app. specialize (H1 text).
    rewrite !app_assoc in *. by rewrite H1.
Qed.

(** C10: as long as the goroutine runs no alarm is lost, repeated or reordered:
    the bodies that were sent come from collections of messages which, together with the messages
    still collected and buffered, are for every text exactly the accepted messages in their
    order. *)
Theorem alarms_delivered_in_order config ip a es a' :
  NewManager config ip = Ret a -> steps zone (Run a) es = Some a' -> running a' = true ->
  exists snaps, sent a' = map (alarm_body zone a) snaps /\
    forall text, concat (map (fun snap => default [] (snap !! text)) snaps) ++ collected a' text ++
      times_of text (msgBuffers a') = times_of text (accepted (Run a) es).
Proof.
  intros Hn E Hr. apply steps_conserved in E as (snaps & _ & _ & Hs & Hrun). destruct (Hrun Hr) as [_ H].
  assert (Ha : sent (Run a) = [] /\ messages (Run a) = ∅ /\ msgBuffers (Run a) = [] /\
    forall ms, alarm_body zone (Run a) ms = alarm_body zone a ms).
  { unfold NewManager in Hn. unfold Run. destruct (Enable config) eqn:Ee.
    - unfold mbind, outcome_bind in Hn. destruct (newChannel config); [|done]. simplify_eq/=. by rewrite Ee.
    - simplify_eq/=. by rewrite Ee. }
  destruct Ha as (E1 & E2 & E3 & E4). exists snaps. split.
  - rewrite Hs, E1. simpl. apply map_ext. done.
  - intros text. rewrite H. unfold collected. rewrite E2, E3, lookup_empty. done.
Qed.
End Delivery.

(** ** The delay *)

Section Delay.
Context {RO : RangeOrder} (zone : duration).

Lemma msgLen_from l n :
  fold_left (fun n '(_, tss) => n + Z.of_nat (length tss)) l n =
  n + fold_left (fun n '((_, tss) : string * list time) => n + Z.of_nat (length tss)) l 0.
Proof.
  revert n. induction l as [|[k tss] l IH]; intros n; cbn [fold_left]; [lia|].
  rewrite IH, (IH (0 + _)). lia.
Qed.

Lemma msgLen_list ms l :
  l ≡ₚ map_to_list ms ->
  msgLen ms = fold_left (fun n '((_, tss) : string * list time) => n + Z.of_nat (length tss)) l 0.
Proof.
  intros Hl. unfold msgLen. apply fold_left_permutation; [intros b [k x] [j y]; lia|].
  by rewrite range_map_perm, Hl.
Qed.

Lemma msgLen_empty : msgLen ∅ = 0.
Proof. rewrite (msgLen_list ∅ []); [done|]. by rewrite map_to_list_empty. Qed.

Lemma msgLen_add ms m t : msgLen (<[m := default [] (ms !! m) ++ [t]]> ms) = msgLen ms + 1.
Proof.
  rewrite (msgLen_list _ ((m, default [] (ms !! m) ++ [t]) :: map_to_list (delete m ms))).
  2: { rewrite <- insert_delete_eq.
       by rewrite map_to_list_insert by apply lookup_delete_eq. }
  cbn [fold_left]. rewrite msgLen_from, length_app. simpl.
  destruct (ms !! m) as [tss|] eqn:E; simpl.
  - rewrite (msgLen_list ms ((m, tss) :: map_to_list (delete m ms))) by by apply map_to_list_delete.
    cbn [fold_left]. rewrite (msgLen_from _ (0 + _)). lia.
  - rewrite delete_id by done. rewrite (msgLen_list ms (map_to_list ms)) by done. lia.
Qed.

(** Executions in time: a timer fires at the time it was set to, that is, time
    does not pass it.  [first] is when the oldest collected message was
    received. *)
Inductive timed (a0 : Manager) : Manager -> time -> option time -> Prop :=
| timed_start now : timed a0 a0 now None
| timed_event a now first e a' :
    timed a0 a now first ->
    now <= event_time e -> (forall d, delayer a = Some (Some d) -> event_time e <= d) ->
    step zone a e = Some a' ->
    timed a0 a' (event_time e)
      (if bool_decide (messages a' = ∅) then None else Some (default (event_time e) first)).

Definition waiting (a : Manager) (now : time) (first : option time) : Prop :=
  messages a = ∅ \/
  exists d f, delayer a = Some (Some d) /\ first = Some f /\ now <= d /\
    d <= f + msgLen (messages a) * MessageDelay (cfg a) /\ msgLen (messages a) < MessageBatch (cfg a).

Lemma waiting_step a now first e a' :
  0 <= MessageDelay (cfg a) -> (messages a = ∅ -> first = None) -> waiting a now first ->
  now <= event_time e -> (forall d, delayer a = Some (Some d) -> event_time e <= d) ->
  step zone a e = Some a' ->
  cfg a' = cfg a /\
  waiting a' (event_time e) (if bool_decide (messages a' = ∅) then None else Some (default (event_time e) first)).
Proof.
  intros Hd Hnone Hw Hnow Hfire E.
  assert (Hsame : forall a1, messages a1 = messages a -> delayer a1 = delayer a -> cfg a1 = cfg a ->
    waiting a1 (event_time e) (if bool_decide (messages a1 = ∅) then None else Some (default (event_time e) first))).
  { intros a1 E1 E2 E3. unfold waiting. rewrite E1, E2, E3. case_bool_decide; [by left|]. right.
    destruct Hw as [?|(d & f & H1 & -> & H3 & H4 & H5)]; [done|]. exists d, f. auto. }
  destruct e as [t ojg m|t silence|t]; cbn [step event_time] in *.
  - simplify_eq. rewrite SendAlarm_accepts. destruct (accepts a ojg); (split; [done|by apply Hsame]).
  - destruct (running a); [|done]. destruct (msgBuffers a) as [|m bs]; [done|]. simplify_eq. unfold handleMsg.
    destruct (_ && silence); [split; [done|by apply Hsame]|].
    cbn [set_messages set_buffers cfg messages msg]. destruct (Z.leb_spec (MessageBatch (cfg a))
      (msgLen (<[msg m := default [] (messages a !! msg m) ++ [ts m]]> (messages a)))) as [Hle|Hlt].
    { split; [done|by left]. }
    split; [done|]. right. cbn [set_delayer set_messages set_buffers cfg messages delayer] in *.
    rewrite bool_decide_eq_false_2 by apply insert_non_empty. rewrite msgLen_add in *.
    exists (t + MessageDelay (cfg a)), (default t first). split_and!; [done|done|lia| |lia].
    destruct Hw as [Hm|(d & f & H1 & -> & H3 & H4 & H5)].
    + rewrite (Hnone Hm), Hm, msgLen_empty. simpl. lia.
    + specialize (Hfire d H1). simpl. lia.
  - destruct (delayer a) as [[d|]|] eqn:Edl; [|done|done]. destruct (d <=? t); [|done]. simplify_eq. unfold delaySend.
    cbn [set_delayer messages]. case_bool_decide; (split; [done|by left]).
Qed.

(** A collected alarm waits for a bounded time: fewer messages than a batch are
    ever collected, and the timer that sends them is set to at most
    [MessageBatch - 1] delays after the oldest of them was received. *)
Theorem alarms_wait_bounded config ip a0 a now first :
  NewManager config ip = Ret a0 -> 0 <= MessageDelay config ->
  timed (Run a0) a now first -> messages a <> ∅ ->
  exists d f, delayer a = Some (Some d) /\ first = Some f /\ now <= d /\
    d <= f + (MessageBatch config - 1) * MessageDelay config /\ msgLen (messages a) < MessageBatch config.
Proof.
  intros Hn Hd Ht Hne.
  assert (Ha : cfg (Run a0) = config /\ messages (Run a0) = ∅).
  { unfold NewManager in Hn. unfold Run. destruct (Enable config) eqn:Ee.
    - unfold mbind, outcome_bind in Hn. destruct (newChannel config); [|done]. simplify_eq/=. by rewrite Ee.
    - simplify_eq/=. by rewrite Ee. }
  destruct Ha as [Hc Hm].
  assert (Hinv : cfg a = config /\ (messages a = ∅ -> first = None) /\ waiting a now first).
  { clear Hne. induction Ht as [now|a now first e a' Ht (IH1 & IH2 & IH3) H1 H2 H3]; [split_and!; [done|done|by left]|].
    destruct (waiting_step a now first e a') as [Hcfg Hw]; auto; [by rewrite IH1|].
    split_and!; [congruence| |done]. intros ->. by rewrite bool_decide_eq_true_2. }
  destruct Hinv as (Hcfg & _ & [?|(d & f & H1 & H2 & H3 & H4 & H5)]); [done|]. rewrite Hcfg in *.
  exists d, f. split_and!; [done|done|done| |done]. nia.
Qed.

(** ** Silence *)

Lemma stopped_step a e a' : running a = false -> step zone a e = Some a' ->
  running a' = false /\ (a' = a \/ (exists b, a' = set_buffers a b) \/
    (messages a' = ∅ /\ (sent a' = sent a \/ (sent a' = sent a ++ [alarm_body zone a (messages a)] /\ messages a <> ∅)))).
Proof.
  intros Hr. destruct e as [t ojg m|t silence|t]; cbn [step]; rewrite ?Hr; intros E.
  - simplify_eq. rewrite SendAlarm_accepts. destruct (accepts a ojg); split; eauto.
  - done.
  - destruct (delayer a) as [[d|]|]; [|done|done]. destruct (d <=? t); [|done]. simplify_eq. unfold delaySend.
    cbn [set_delayer messages]. case_bool_decide; (split; [done|]); right; right; simpl; auto.
Qed.

(** A message that arrives in silence mode, when alarms are to be ignored
    then, ends the goroutine: whatever happens later, also after the silence, at
    most what was already collected is sent, by the timer, and no later alarm. *)
Theorem silence_ends_alarms a now a1 es a' :
  IgnoreAlarmWhenSilence (cfg a) = true -> step zone a (EReceive now true) = Some a1 -> steps zone a1 es = Some a' ->
  sent a' = sent a \/ sent a' = sent a ++ [alarm_body zone a (messages a)].
Proof.
  intros Hi E1 E.
  assert (H1 : running a1 = false /\ sent a1 = sent a /\ messages a1 = messages a /\ cfg a1 = cfg a /\ localIP a1 = localIP a).
  { cbn [step] in E1. destruct (running a); [|done]. destruct (msgBuffers a) as [|m bs]; [done|]. simplify_eq.
    unfold handleMsg. cbn [set_buffers cfg]. by rewrite Hi. }
  destruct H1 as (Hr & Hs & Hm & Hc & Hip).
  assert (Hgen : sent a' = sent a1 \/ (sent a' = sent a1 ++ [alarm_body zone a1 (messages a1)])).
  { clear -E Hr. revert a1 Hr E. induction es as [|e es IH]; intros a1 Hr E; cbn [steps] in E; [simplify_eq; by left|].
    destruct (step zone a1 e) as [a2|] eqn:E2; [|done]. pose proof (stopped_step a1 e a2 Hr E2) as [Hr2 Hcase].
    specialize (IH a2 Hr2 E).
    destruct Hcase as [->|[(b & ->)|(Hm2 & Hs2)]]; [done|done|].
    assert (Hq : sent a' = sent a2).
    { clear IH Hs2 E2. revert a2 Hr2 E Hm2. induction es as [|e' es IH]; intros a2 Hr2 E Hm2; cbn [steps] in E; [by simplify_eq|].
      destruct (step zone a2 e') as [a3|] eqn:E3; [|done].
      destruct (stopped_step a2 e' a3 Hr2 E3) as [Hr3 [->|[(b & ->)|(Hm3 & [Hs3|[_ Hne]])]]];
        [by apply IH|exact (IH (set_buffers a2 b) Hr3 E Hm2)|rewrite (IH a3) by done; done|done]. }
    destruct Hs2 as [Hs2|[Hs2 _]]; rewrite Hq, Hs2; auto. }
  rewrite Hs in Hgen. unfold alarm_body in *. by rewrite Hm, Hc, Hip in Hgen.
Qed.
End Delay.

(** ** Examples *)

Definition ex_alarm_config : AlarmConfig := mkAlarmConfig true "c" 3 60 AlarmTypeLocal true (Some "/bin/alarm") None.
Definition ex_alarm : Manager := mkAlarmManager ex_alarm_config "10.0.0.1" None ∅ [] (Some (localAlarm "/bin/alarm")) false [].
Definition ex_events : list event :=
  [ESend 1 None "disk"; ESend 2 None "cpu"; EReceive 3 false; ESend 4 (Some (true, Ok 0%nat)) "mem"; EReceive 5 false;
   EFire 65; ESend 70 None "disk"; EReceive 71 false].

Lemma alarms_delivered_in_order_witness :
  exists a', steps (RO := key_order) 0 (Run ex_alarm) ex_events = Some a' /\
  exists snaps, sent a' = map (alarm_body (RO := key_order) 0 ex_alarm) snaps /\
    forall text, concat (map (fun snap => default [] (snap !! text)) snaps) ++ collected a' text ++
      times_of text (msgBuffers a') = times_of text (accepted (RO := key_order) 0 (Run ex_alarm) ex_events).
Proof.
  assert (E : bool_decide (is_Some (steps (RO := key_order) 0 (Run ex_alarm) ex_events)) = true) by (vm_compute; reflexivity).
  assert (Er : running <$> steps (RO := key_order) 0 (Run ex_alarm) ex_events = Some true) by (vm_compute; reflexivity).
  destruct (steps (RO := key_order) 0 (Run ex_alarm) ex_events) as [a'|] eqn:Es; [|done]. exists a'. split; [done|].
  apply (alarms_delivered_in_order (RO := key_order) 0 ex_alarm_config "10.0.0.1" ex_alarm ex_events a');
    [reflexivity|exact Es|injection Er; auto].
Defined.

Lemma alarms_wait_bounded_witness :
  exists a d f, delayer a = Some (Some d) /\ Some 3 = Some f /\ 3 <= d /\ d <= f + (3 - 1) * 60 /\
    msgLen (RO := key_order) (messages a) < 3.
Proof.
  set (a1 := SendAlarm (Run ex_alarm) None 1 "disk").
  set (a2 := handleMsg (RO := key_order) 0 (set_buffers a1 []) 3 false (mkAlarmMsg "disk" 1)).
  exists a2.
  apply (alarms_wait_bounded (RO := key_order) 0 ex_alarm_config "10.0.0.1" ex_alarm a2 3 (Some 3));
    [reflexivity|simpl; lia| |intros E; apply (f_equal (fun m => m !! "disk")) in E; vm_compute in E; done].
  apply (timed_event (RO := key_order) 0 (Run ex_alarm) a1 1 None (EReceive 3 false) a2);
    [|simpl; lia|intros d Hd; vm_compute in Hd; done|reflexivity].
  apply (timed_event (RO := key_order) 0 (Run ex_alarm) (Run ex_alarm) 0 None (ESend 1 None "disk") a1);
    [constructor|simpl; lia|intros d Hd; vm_compute in Hd; done|reflexivity].
Defined.

Lemma silence_ends_alarms_witness :
  let a := SendAlarm (Run ex_alarm) None 1 "disk" in
  let a1 := set_running (set_buffers a []) false in
  steps (RO := key_order) 0 a1 [ESend 2 None "cpu"] = Some (SendAlarm a1 None 2 "cpu") /\
  (sent (SendAlarm a1 None 2 "cpu") = sent a \/
   sent (SendAlarm a1 None 2 "cpu") = sent a ++ [alarm_body (RO := key_order) 0 a (messages a)]).
Proof.
  intros a a1. split; [reflexivity|].
  apply (silence_ends_alarms (RO := key_order) 0 a 2 a1 [ESend 2 None "cpu"]); reflexivity.
Defined.
