(* ===== verification/YarnClient.v ===== *)
(** * Offline jobs on YARN

    pkg/caelus/resource/yarn/adapter.go and pkg/caelus/resource/resource_yarn.go:
    the resources of offline jobs are adapted step by step, compared with the
    capacity of the node manager, and sent to it; the schedule of the node
    manager is closed and opened.  The client is proved against any [NMServer];
    with the operator in that place the last theorems are about both ends. *)

From Stdlib Require Import Floats.SpecFloat.
From S2P Require Import Prelude GoStrings GoFloat NMApi HadoopConf Quantity Cgroup NMOperator Qos K8sResource Ginit.
From S2P Require Import YarnDisks YarnPort Silence.

#[local] Open Scope string_scope.
#[local] Open Scope Z_scope.
#[local] Open Scope list_scope.

(** ** Configuration *)

Record OverCommit := mkOverCommit {
  oc_Enable : bool;
  OverCommitPercent : float64;
  oc_Periods : list ((Z * Z) * float64);
}.

Record RangeState := mkRange {
  rs_Min : float64;
  rs_Max : float64;
  rs_Ratio : float64;
}.

Record YarnConfig := mkYarnConfig {
  CapacityIncInterval : duration;
  (** [NMReserve.CpuMilli] and [NMReserve.MemMB]. *)
  ReserveCpuMilli : option float64;
  ReserveMemMB : option float64;
  (** [ResourceRoundOff]. *)
  RoundCPUMilli : float64;
  RoundMemMB : float64;
  (** [ResourceRange]. *)
  RangeCPUMilli : RangeState;
  RangeMemMB : RangeState;
  CpuOverCommit : OverCommit;
  Disks : YarnDisksConfig;
  ginitConfig : GInitConfig;
}.

(** ** State *)

Record yarnClient (S Q : Type) := mkYarnClient {
  y_d : dstate S Q;
  y_scheduleDisabled : bool;
  lastCapIncTimestamp : time;
  (** The stored checkpoint: the time in seconds and the state. *)
  y_checkpoint : option (Z * bool);
}.
Arguments mkYarnClient {S Q} _ _ _ _.
Arguments y_d {S Q} _.
Arguments y_scheduleDisabled {S Q} _.
Arguments lastCapIncTimestamp {S Q} _.
Arguments y_checkpoint {S Q} _.

Definition in_disks {S Q A} (m : SC (dstate S Q) A) : SC (yarnClient S Q) A :=
  sc_zoom y_d (fun y d => mkYarnClient d (y_scheduleDisabled y) (lastCapIncTimestamp y) (y_checkpoint y)) m.
Definition in_g {S Q A} (m : G S A) : SC (yarnClient S Q) A := in_disks (in_ginit m).

Definition set_y_disabled {S Q} (y : yarnClient S Q) (b : bool) : yarnClient S Q :=
  mkYarnClient (y_d y) b (lastCapIncTimestamp y) (y_checkpoint y).
Definition set_lastInc {S Q} (y : yarnClient S Q) (t : time) : yarnClient S Q :=
  mkYarnClient (y_d y) (y_scheduleDisabled y) t (y_checkpoint y).
Definition set_y_checkpoint {S Q} (y : yarnClient S Q) (c : Z * bool) : yarnClient S Q :=
  mkYarnClient (y_d y) (y_scheduleDisabled y) (lastCapIncTimestamp y) (Some c).

Section Client.
Context {S : Type} {NS : NMServer S} {RO : RangeOrder} {GS : GoSort} {DE : DiskEnv}.
Context {Q : Type} `{QO : QuantityOps Q} {YE : YarnEnv Q}.
Context (zone : duration) (unused : Z -> bool) (cfg : YarnConfig).

#[local] Abbreviation Y := (SC (yarnClient S Q)) (only parsing).
#[local] Abbreviation RL := (gmap string Q) (only parsing).

(** ** Adapters: the adapted list, and whether the minimum is reached *)

Definition replaceMin (minCap : NMCapacity) (res : RL) : bool * RL :=
  let '(r1, res1) := if Z.quot (memBytes res) MemUnit <=? MemoryMB minCap
                     then (true, set_memBytes res (int64 (MemoryMB minCap * MemUnit))) else (false, res) in
  if cpuMilli res1 <=? Millcores minCap then (true, set_cpuMilli res1 (Millcores minCap)) else (r1, res1).

Definition compareAndReplaceMinCapacity (res : RL) : Y (bool * RL) :=
  minCap ← in_g GInit.GetMinCapacity;
  mret (replaceMin minCap res).

Definition minCompareAdapter (res : RL) : Y (bool * RL) := compareAndReplaceMinCapacity res.

Definition reserveAdapter (res : RL) : Y (bool * RL) :=
  let res1 := match ReserveMemMB cfg with
              | Some m => set_memBytes res (int64 (memBytes res - int64 (int64_of_float64 m * MemUnit)))
              | None => res
              end in
  let res2 := match ReserveCpuMilli cfg with
              | Some c => set_cpuMilli res1 (int64 (cpuMilli res1 - int64_of_float64 c))
              | None => res1
              end in
  compareAndReplaceMinCapacity res2.

Fixpoint periodPercent (now : time) (percent : float64) (periods : list ((Z * Z) * float64)) : float64 :=
  match periods with
  | [] => percent
  | (range, p) :: periods' => if IsTimeInSecondsDay zone now range then p else periodPercent now percent periods'
  end.

Definition overcommitAdapter (now : time) (res : RL) : Y (bool * RL) :=
  let oc := CpuOverCommit cfg in
  if negb (oc_Enable oc) then mret (false, res)
  else
    let percent := periodPercent now (OverCommitPercent oc) (oc_Periods oc) in
    compareAndReplaceMinCapacity
      (set_cpuMilli res (int64_of_float64 (fmul (float64_of_Z (cpuMilli res)) percent))).

Definition roundOff (unit : float64) (v : Z) : Z :=
  if negb (feq unit fzero) then int64 (int64_of_float64 (fdiv (float64_of_Z v) unit) * int64_of_float64 unit) else v.

Definition roundOffAdapter (res : RL) : Y (bool * RL) :=
  let memMb := roundOff (RoundMemMB cfg) (Z.quot (memBytes res) MemUnit) in
  let cpu := roundOff (RoundCPUMilli cfg) (cpuMilli res) in
  compareAndReplaceMinCapacity (set_memBytes (set_cpuMilli res cpu) (int64 (memMb * MemUnit))).

Definition diskCpuAdapter (res : RL) : Y (bool * RL) :=
  match RatioToCore (Disks cfg) with
  | None => compareAndReplaceMinCapacity res
  | Some ratio =>
      r ← in_disks (DiskSpaceToCores ratio);
      match r with
      | Err _ => compareAndReplaceMinCapacity res
      | Ok diskCpus =>
          let res' := if 0 <? qCmp (rl_Cpu res) diskCpus then <["cpu" := diskCpus]> res else res in
          compareAndReplaceMinCapacity res'
      end
  end.

(** In the order of [newYarnClient]. *)
Definition resourceHandlers (now : time) : list (RL -> Y (bool * RL)) :=
  [minCompareAdapter; overcommitAdapter now; reserveAdapter; roundOffAdapter; diskCpuAdapter].

Fixpoint adaptLoop (handlers : list (RL -> Y (bool * RL))) (reachMin : bool) (res : RL) : Y (bool * RL) :=
  match handlers with
  | [] => mret (reachMin, res)
  | rh :: handlers' =>
      r ← rh res;
      if (fst r : bool) then mret r else adaptLoop handlers' false (snd r)
  end.

(** ** Comparing with the capacity *)

Definition clampRange (r : RangeState) (v : float64) : float64 :=
  let v1 := if negb (feq (rs_Min r) fzero) && flt v (rs_Min r) then rs_Min r else v in
  if fgt v1 (rs_Max r) then rs_Max r else v1.

Definition getRangeResource (cap : NMCapacity) : float64 * float64 :=
  let rc := RangeCPUMilli cfg in
  let rm := RangeMemMB cfg in
  if feq (fadd (rs_Ratio rc) (rs_Ratio rm)) fzero then (fzero, fzero)
  else (clampRange rc (fmul (float64_of_Z (Millcores cap)) (rs_Ratio rc)),
        clampRange rm (fmul (float64_of_Z (MemoryMB cap)) (rs_Ratio rm))).

(** Whether the capacity changes, and whether it grows, for resources that did
    not reach the minimum. *)
Definition compareRange (cap : NMCapacity) (res : RL) : bool * bool :=
  let cpu := cpuMilli res in
  let memMb := Z.quot (memBytes res) MemUnit in
  let '(rangeCPU, rangeMem) := getRangeResource cap in
  if fle (fabs (float64_of_Z (int64 (cpu - Millcores cap)))) rangeCPU &&
     fle (fabs (float64_of_Z (int64 (memMb - MemoryMB cap)))) rangeMem then (false, false)
  else if (Millcores cap <? cpu) && (MemoryMB cap <? memMb) then (true, true)
  else (true, false).

Definition beCapacity (now : time) (res : RL) (conflicting : bool) : Y ((bool * bool) * RL) :=
  r ← adaptLoop (resourceHandlers now) false res;
  let '(reachMin, res') := r in
  if conflicting then mret ((true, false), res')
  else
    c ← in_g GInit.GetCapacity;
    match c with
    | Err _ => mret ((true, true), res')
    | Ok cap =>
        if (reachMin : bool) then
          minCap ← in_g GInit.GetMinCapacity;
          if (Vcores cap =? Vcores minCap) || (Millcores cap =? Millcores minCap) || (MemoryMB cap =? MemoryMB minCap)
          then mret ((false, false), res') else mret ((true, false), res')
        else mret (compareRange cap res', res')
    end.

Definition updateCapacity (now : time) (res : RL) (conflictingResources : list string) : Y RL :=
  r ← beCapacity now res (negb (Nat.eqb (length conflictingResources) 0));
  let '((capChanged, capIncrease), res') := r in
  if negb capChanged then mret res'
  else
    disabled ← sc_get y_scheduleDisabled;
    let expectCap := mkNMCapacity (Z.quot (cpuMilli res') CPUUnit) 0 (Z.quot (memBytes res') MemUnit) in
    if (capIncrease : bool) then
      last ← sc_get lastCapIncTimestamp;
      if time_After (time_Add last (CapacityIncInterval cfg)) now then mret res'
      else
        _ ← in_g (GInit.EnsureCapacity (ginitConfig cfg) expectCap conflictingResources false disabled);
        _ ← sc_modify (fun y => set_lastInc y now);
        mret res'
    else
      _ ← in_g (GInit.EnsureCapacity (ginitConfig cfg) expectCap conflictingResources true disabled);
      mret res'.

(** ** The schedule *)

Definition storeCheckpoint (now : time) (scheduleState : bool) : Y unit :=
  sc_modify (fun y => set_y_checkpoint y (now `div` Second, scheduleState)).

Definition y_DisableOfflineSchedule (now : time) : Y (option error) :=
  disabled ← sc_get y_scheduleDisabled;
  if (disabled : bool) then mret None
  else
    e ← in_g GInit.DisableSchedule;
    match e with
    | Some err => mret (Some err)
    | None =>
        _ ← sc_modify (fun y => set_y_disabled y true);
        _ ← storeCheckpoint now true;
        mret None
    end.

Definition y_EnableOfflineSchedule (now : time) : Y (option error) :=
  disabled ← sc_get y_scheduleDisabled;
  if negb disabled then mret None
  else
    e ← in_g GInit.EnableSchedule;
    match e with
    | Some err => mret (Some err)
    | None =>
        _ ← sc_modify (fun y => set_y_disabled y false);
        _ ← storeCheckpoint now false;
        mret None
    end.

(** The process is started when it is not running; a restart is reported. *)
Definition startAndCheckNMProcess : Y bool :=
  r ← in_g GInit.GetStatus;
  match r with
  | Err _ => mret false
  | Ok true => mret false
  | Ok false =>
      e ← in_g (StartNodemanager unused (ginitConfig cfg));
      match e with
      | Some _ => mret true
      | None =>
          _ ← in_g GInit.GetStatus;
          mret true
      end
  end.

Definition y_AdaptAndUpdateOfflineResource (now : time) (offlineList : RL) (conflictingResources : list string) : Y unit :=
  _ ← updateCapacity now offlineList conflictingResources;
  restart ← startAndCheckNMProcess;
  if (restart : bool) then
    disabled ← sc_get y_scheduleDisabled;
    _ ← sc_modify (fun y => set_y_disabled y false);
    if (disabled : bool) then
      _ ← y_DisableOfflineSchedule now;
      mret tt
    else mret tt
  else mret tt.

Definition y_KillOfflineJob (conflictingResource : string) : Y unit := in_g (GInit.KillContainer conflictingResource).
Definition y_GetOfflineJobs : Y (result (list string)) := in_g GInit.GetAllocatedJobs.
Definition y_OfflineScheduleDisabled : Y bool := sc_get y_scheduleDisabled.
End Client.

(** ** The checkpoint (resource_checkpoint.go)

    What was stored decides after a restart: the schedule is closed again, and
    opened after five minutes. *)

Definition timeAvailableSeconds : Z := 300.
Definition disableScheduleDuration : duration := 5 * Minute.

(** The time at which [enableSchedule] is called, if it is; [disableSchedule]
    is called before. *)
Definition checkScheduleDisable {St : Type} (checkTime : bool) (now : time) (stored : result (Z * bool))
    (disableSchedule : SC St (option error)) : SC St (result (option time)) :=
  match stored with
  | Err e => mret (Err e)
  | Ok (seconds, disabled) =>
      if (disabled : bool) then
        if checkTime && (timeAvailableSeconds <? int64 (now `div` Second - seconds)) then mret (Ok None)
        else
          _ ← disableSchedule;
          mret (Ok (Some (time_Add now disableScheduleDuration)))
      else mret (Ok None)
  end.

(** ** Bounds of the adapted resources *)

Section Bounds.
Context {S : Type} {NS : NMServer S} {RO : RangeOrder} {GS : GoSort} {DE : DiskEnv}.
Context {Q : Type} `{QL : QuantityLaws Q} {YE : YarnEnv Q}.
Context (zone : duration) (cfg : YarnConfig).
Context (minCap : NMCapacity).
Hypothesis Hmem : 0 <= MemoryMB minCap /\ in_int64 (MemoryMB minCap * MemUnit).
Hypothesis Hcpu : in_int64 (Millcores minCap).

(** Nothing below the minimum capacity. *)
Definition at_least_min (res : gmap string Q) : Prop :=
  Millcores minCap <= cpuMilli res /\ MemoryMB minCap <= Z.quot (memBytes res) MemUnit.

Lemma replaceMin_at_least res : at_least_min (snd (replaceMin minCap res)).
Proof.
  unfold replaceMin, at_least_min.
  assert (H1 : forall r (m : gmap string Q), cpuMilli (set_memBytes m r) = cpuMilli m).
  { intros r m. unfold cpuMilli, rl_Cpu, set_memBytes. by rewrite lookup_insert_ne. }
  assert (H2 : forall r (m : gmap string Q), memBytes (set_cpuMilli m r) = memBytes m).
  { intros r m. unfold memBytes, rl_Memory, set_cpuMilli. by rewrite lookup_insert_ne. }
  assert (H3 : forall m : gmap string Q, cpuMilli (set_cpuMilli m (Millcores minCap)) = Millcores minCap).
  { intros m. unfold cpuMilli, rl_Cpu, set_cpuMilli. rewrite lookup_insert_eq. by apply milli_roundtrip. }
  assert (H4 : forall m : gmap string Q,
    Z.quot (memBytes (set_memBytes m (int64 (MemoryMB minCap * MemUnit)))) MemUnit = MemoryMB minCap).
  { intros m. unfold memBytes, rl_Memory, set_memBytes. rewrite lookup_insert_eq. cbn [from_option id].
    rewrite int64_id by apply Hmem. rewrite value_roundtrip by apply Hmem. apply Z.quot_mul. done. }
  destruct (Z.quot (memBytes res) MemUnit <=? MemoryMB minCap) eqn:Em.
  - rewrite H1. destruct (cpuMilli res <=? Millcores minCap) eqn:Ec; cbn [snd].
    + rewrite H3, H2, H4. lia.
    + rewrite H1, H4. lia.
  - destruct (cpuMilli res <=? Millcores minCap) eqn:Ec; cbn [snd].
    + rewrite H3, H2. lia.
    + lia.
Qed.

(** The minimum capacity is known. *)
Definition min_known (g : gstate S) : Prop := minCapacity g = Some minCap.
Definition y_min_known (y : yarnClient S Q) : Prop := min_known (d_g (y_d y)).

Lemma request_min r : keeps min_known (request r).
Proof. intros g Hg. unfold request. by destruct (nm_serve _ _). Qed.

Lemma sendRequest_min action method body : keeps min_known (sendRequest action method body).
Proof. unfold sendRequest. case_match; [case_match|]; auto using request_min with keeps. Qed.
#[local] Hint Resolve sendRequest_min : keeps.

Lemma in_ginit_min {A} (m : G S A) : keeps min_known m -> keeps (fun d : dstate S Q => min_known (d_g d)) (in_ginit m).
Proof. intros Hm. apply (triple_zoom _ _ _ (fun d g => min_known g)); [done|done|done]. Qed.

Lemma in_disks_min {A} (m : SC (dstate S Q) A) : keeps (fun d => min_known (d_g d)) m -> keeps y_min_known (in_disks m).
Proof. intros Hm. apply (triple_zoom _ _ _ (fun y d => min_known (d_g d))); [done|done|done]. Qed.

Lemma fill_min : keeps (fun d : dstate S Q => min_known (d_g d)) fillAvailablePartitions.
Proof.
  unfold fillAvailablePartitions. apply keeps_bind.
  - apply in_ginit_min. unfold GInit.GetDiskPartitions. auto with keeps.
  - intros [l|e]; [case_match; [by apply triple_modify|apply triple_crash]|].
    destruct (Contains _ _); [|apply triple_ret]. cbv zeta.
    destruct (GetDiskPartitionStats _) as [st|]; [|apply triple_ret].
    apply keeps_bind; [by apply triple_modify|]. intros _. destruct (_ <=? _); [|apply triple_ret].
    apply in_ginit_min. by apply triple_modify.
Qed.

Lemma DiskSpaceToCores_min ratio : keeps (fun d : dstate S Q => min_known (d_g d)) (DiskSpaceToCores ratio).
Proof.
  unfold DiskSpaceToCores, ensurePartitions. apply keeps_bind; [apply keeps_get|]. intros [q|]; [apply triple_ret|].
  apply keeps_bind.
  - apply keeps_bind; [apply keeps_get|]. intros parts. case_match; [|apply triple_ret].
    apply keeps_bind; [apply fill_min|]. intros _. apply keeps_get.
  - intros parts. case_match; [apply triple_ret|]. apply keeps_bind; [by apply triple_modify|]. intros _. apply triple_ret.
Qed.

Definition adapted (r : bool * gmap string Q) (y : yarnClient S Q) : Prop := y_min_known y /\ at_least_min (snd r).

Lemma compare_adapted res : triple y_min_known (compareAndReplaceMinCapacity res) adapted.
Proof.
  intros y Hy. unfold compareAndReplaceMinCapacity, in_g, in_disks, in_ginit, sc_zoom, GInit.GetMinCapacity.
  unfold mbind, SC_bind, mret, SC_ret, sc_get. cbn [d_g y_d]. rewrite Hy. split; [exact Hy|apply replaceMin_at_least].
Qed.

Lemma handler_adapted now rh res :
  rh ∈ resourceHandlers zone cfg now -> at_least_min res -> triple y_min_known (rh res) adapted.
Proof.
  unfold resourceHandlers. rewrite !elem_of_cons. intros [->|[->|[->|[->|[->|Hn]]]]] Hres.
  - apply compare_adapted.
  - unfold overcommitAdapter. case_match; [|apply compare_adapted]. by intros y Hy.
  - apply compare_adapted.
  - apply compare_adapted.
  - unfold diskCpuAdapter. case_match; [|apply compare_adapted].
    eapply triple_bind; [apply in_disks_min, DiskSpaceToCores_min|]. intros [q|e]; apply compare_adapted.
  - by apply not_elem_of_nil in Hn.
Qed.

Lemma adaptLoop_adapted now handlers b res :
  (forall rh, rh ∈ handlers -> rh ∈ resourceHandlers zone cfg now) -> at_least_min res ->
  triple y_min_known (adaptLoop handlers b res) adapted.
Proof.
  revert b res. induction handlers as [|rh handlers IH]; intros b res Hh Hres; cbn [adaptLoop]; [by intros y Hy|].
  eapply triple_bind; [apply (handler_adapted now); [set_solver|done]|]. intros [r res'] y [Hy Hr]. cbn [fst snd] in *.
  destruct r; [by split|]. apply IH; [set_solver|done|done].
Qed.

(** Whatever the offline resources, the overcommit, the reserve, the
    rounding (overflowing ones included) and the disks, the adapted resources
    are never below the minimum capacity of the node manager, neither in cpu nor
    in memory. *)
Theorem adapted_at_least_min now res (y y' : yarnClient S Q) r :
  minCapacity (d_g (y_d y)) = Some minCap ->
  adaptLoop (resourceHandlers zone cfg now) false res y = Ret (r, y') ->
  Millcores minCap <= cpuMilli (snd r) /\ MemoryMB minCap <= Z.quot (memBytes (snd r)) MemUnit.
Proof.
  intros Hy Hr.
  assert (Ht : triple y_min_known (adaptLoop (resourceHandlers zone cfg now) false res) adapted).
  { change (resourceHandlers zone cfg now) with (minCompareAdapter :: tail (resourceHandlers zone cfg now)).
    cbn [adaptLoop]. eapply triple_bind; [apply compare_adapted|].
    intros [b res'] y0 [Hy0 Hr0]. cbn [fst snd] in *. destruct b; [by split|].
    apply (adaptLoop_adapted now); [set_solver|done|done]. }
  specialize (Ht y Hy). rewrite Hr in Ht. apply Ht.
Qed.
End Bounds.

(** ** Updates *)

Section Updates.
Context {S : Type} {NS : NMServer S} {RO : RangeOrder} {GS : GoSort} {DE : DiskEnv}.
Context {Q : Type} `{QO : QuantityOps Q} {YE : YarnEnv Q}.
Context (zone : duration) (cfg : YarnConfig).

Definition y_updates (y : yarnClient S Q) : list (string * NMCapacity) := g_updates (d_g (y_d y)).

(** The capacity [EnsureCapacity] leaves to a goroutine. *)
Definition node_cap (disabled : bool) (expect : NMCapacity) : NMCapacity :=
  mkNMCapacity (if disabled then 0 else Vcores expect) (Millcores expect) (MemoryMB expect).

Definition updates_are (l : list (string * NMCapacity)) (g : gstate S) : Prop := g_updates g = l.

Lemma sendRequest_updates l action method body : keeps (updates_are l) (sendRequest action method body).
Proof.
  unfold sendRequest. case_match; [case_match|]; auto with keeps.
  apply keeps_bind; [|intros ?; apply triple_ret]. intros g Hg. unfold request. by destruct (nm_serve _ _).
Qed.
#[local] Hint Resolve sendRequest_updates : keeps.

Lemma killLoop_updates l cids picked : keeps (updates_are l) (GInit.killLoop cids picked).
Proof.
  revert cids. induction picked as [|c picked IH]; intros cids; cbn [GInit.killLoop]; [auto with keeps|].
  apply keeps_bind; [unfold GInit.requestKillNMContainers; auto with keeps|]. by intros _.
Qed.

Lemma killContainers_updates l expect cr : keeps (updates_are l) (GInit.killContainers expect cr).
Proof.
  unfold GInit.killContainers, GInit.getNMContainers, GInit.getNMContainersState, GInit.killContainersWithStats.
  apply keeps_bind; [auto with keeps|]. intros [cs|e]; [|auto with keeps].
  apply keeps_bind; [auto with keeps|]. intros st. apply keeps_bind; [apply killLoop_updates|]. auto with keeps.
Qed.

Lemma EnsureCapacity_updates gc expect cr dec disabled (g g' : gstate S) u :
  GInit.EnsureCapacity gc expect cr dec disabled g = Ret (u, g') ->
  g_updates g' = g_updates g ++ [(nmRequestCapacityUpdate, node_cap disabled expect)].
Proof.
  set (g1 := set_updates g (g_updates g ++ [(nmRequestCapacityUpdate, node_cap disabled expect)])).
  change (GInit.EnsureCapacity gc expect cr dec disabled g = Ret (u, g') -> g_updates g' = g_updates g1).
  pose proof (killContainers_updates (g_updates g1) (Some expect) (default "" (head cr)) g1 eq_refl) as Hk.
  unfold GInit.EnsureCapacity, GInit.UpdateNodeCapacity, mbind, SC_bind, sc_modify, mret, SC_ret. cbv beta iota zeta.
  change (set_updates g _) with g1.
  destruct (_ && _); [by intros [= _ <-]|]. destruct (_ && _); [by intros [= _ <-]|].
  destruct (_ || _); [|by intros [= _ <-]].
  destruct (GInit.killContainers _ _ g1) as [[e g2]|c]; [|done]. by intros [= _ <-].
Qed.

Lemma in_g_ret {A} (m : G S A) (y : yarnClient S Q) a y' :
  in_g m y = Ret (a, y') ->
  exists g', m (d_g (y_d y)) = Ret (a, g') /\ d_g (y_d y') = g' /\ y_scheduleDisabled y' = y_scheduleDisabled y /\
    lastCapIncTimestamp y' = lastCapIncTimestamp y.
Proof.
  unfold in_g, in_disks, in_ginit, sc_zoom. destruct (m (d_g (y_d y))) as [[a0 g']|c]; [|done].
  intros [= <- <-]. by exists g'.
Qed.


(** A minimum that is not published.  When the offline resources fall to
    the minimum in one respect, say the cpu, while the node manager has the
    minimum in another, say the memory, the client takes the capacity for the
    minimum, since it compares with or: it sends no update, however many cores
    the node manager goes on offering. *)
Theorem minimum_not_published now res (y : yarnClient S Q) minCap cap g1 :
  minCapacity (d_g (y_d y)) = Some minCap -> fst (replaceMin minCap res) = true ->
  GInit.GetCapacity (d_g (y_d y)) = Ret (Ok cap, g1) -> minCapacity g1 = Some minCap ->
  MemoryMB cap = MemoryMB minCap ->
  exists y', updateCapacity zone cfg now res [] y = Ret (snd (replaceMin minCap res), y') /\ y_updates y' = y_updates y.
Proof.
  intros Hm Hr Hc Hm1 Hmem.
  assert (Hu : g_updates g1 = y_updates y).
  { assert (Hk : keeps (updates_are (y_updates y)) GInit.GetCapacity) by (unfold GInit.GetCapacity; auto with keeps).
    specialize (Hk (d_g (y_d y)) eq_refl). by rewrite Hc in Hk. }
  destruct y as [[g dm] dis last cp]. cbn [d_g y_d] in *. unfold y_updates in *. cbn [d_g y_d] in *.
  assert (Hget : forall g0, minCapacity g0 = Some minCap -> GInit.GetMinCapacity g0 = Ret (minCap, g0)).
  { intros g0 H0. unfold GInit.GetMinCapacity, mbind, SC_bind, sc_get, mret, SC_ret. by rewrite H0. }
  destruct (replaceMin minCap res) as [b res'] eqn:Er. cbn [fst snd] in *. subst b.
  unfold updateCapacity, beCapacity, resourceHandlers. cbn [adaptLoop length Nat.eqb negb].
  unfold minCompareAdapter, compareAndReplaceMinCapacity, in_g, in_disks, in_ginit, sc_zoom, mbind, SC_bind, mret, SC_ret.
  cbn [d_g y_d]. rewrite Hget, Er by done. cbn [fst d_g y_d d_disk]. rewrite Hc. cbn [d_g y_d d_disk]. rewrite Hget by done.
  rewrite Hmem, Z.eqb_refl, !orb_true_r. cbn [negb]. eexists. split; [reflexivity|done].
Qed.
End Updates.

(** ** Both ends: the client and the operator *)

Section BothEnds.
Context {CE : ConfEnv} {OE : OpEnv} {RO : RangeOrder} {GS : GoSort}.
Context {Q : Type} `{QO : QuantityOps Q} {YE : YarnEnv Q}.
Context (user yarnBin yarnDaemonBin : string) (cadvisorEnabled : bool).

#[local] Instance operator : NMServer nmop := nmop_server user yarnBin yarnDaemonBin cadvisorEnabled.

Definition cached_is (c : NMCapacity) (o : nmop) : Prop :=
  exists c', cacheCapacity (op_hadoop o) = Some c' /\ Vcores c' = Vcores c /\ MemoryMB c' = MemoryMB c.

(** The operator remembers the capacity of an update, whether or not it could
    write it down or pass it on. *)
Lemma update_cached c (o : nmop) :
  cached_is c (snd (serve user yarnBin yarnDaemonBin cadvisorEnabled o
    (mkRequest "POST" "/v1/nm/capacity/update" (encode (BodyCapacity c))))).
Proof.
  unfold serve. change (route _ _ _ _ _) with (Some (UpdateCapacity user yarnBin (BodyCapacity (json_capacity c)))).
  cbv beta iota. enough (cached_is c (snd (UpdateCapacity user yarnBin (BodyCapacity (json_capacity c)) o)))
    by (destruct (UpdateCapacity _ _ _ _); done).
  unfold UpdateCapacity, updateNodeCapacity, setCapacity. cbn [ReadEntity]. od.
  unfold in_hadoop, hadoop_SetCapacity. unfold mbind, H_bind, hmodify. set (h1 := set_cacheCapacity _ _).
  destruct (SetMultipleConfDataToFile _ _ h1) as [e h'] eqn:Ew. apply writeConf_facts in Ew as ((Hc & _) & _).
  assert (H1 : cached_is c (set_op_hadoop o h')).
  { unfold cached_is. cbn [op_hadoop set_op_hadoop]. rewrite Hc. eexists. split; [reflexivity|done]. }
  destruct e; [done|]. cbn [op_scheduleDisabled set_op_hadoop].
  destruct (false || negb (op_scheduleDisabled o)); [|done].
  match goal with |- context [ExecuteYarnUpdateNodeResource ?a ?b ?m ?v ?o1] =>
    pose proof (update_facts a b m v o1) as Hu; destruct (ExecuteYarnUpdateNodeResource a b m v o1) as [e o2] end.
  destruct Hu as (_ & Hh & _). unfold cached_is in *. cbn [snd]. by rewrite Hh.
Qed.

(** Opening the schedule after an update that came while it was closed
    offers no cores.  The client sends such an update with 0 cores, the operator
    keeps it as the capacity of the node, and publishes that capacity when the
    schedule is opened: the resource manager is told the memory, and 0 cores,
    whatever the failures in between. *)
Theorem enable_after_disabled_update_offers_no_cores gc expect cr dec (g g1 g2 g3 g4 : gstate nmop) u :
  GInit.EnsureCapacity gc expect cr dec true g = Ret (tt, g1) ->
  g_updates g1 = g_updates g ++ [u] -> GInit.runUpdate u g2 = Ret (tt, g3) ->
  GInit.EnableSchedule g3 = Ret (None, g4) ->
  op_scheduleDisabled (g_server g4) = false /\
  node_resource (g_server g4) = Some (Itoa (MemoryMB expect), "0").
Proof.
  intros He Hu Hr Hs. apply EnsureCapacity_updates in He. rewrite He in Hu. apply app_inj_tail in Hu as [_ <-].
  assert (Hc : cached_is (node_cap true expect) (g_server g3)).
  { revert Hr. unfold GInit.runUpdate, sendRequest. cbn [fst snd].
    change (actionURL nmRequestCapacityUpdate) with (Ok "/v1/nm/capacity/update").
    change (_ || _) with true. cbv iota. unfold mbind, SC_bind, mret, SC_ret, request. unfold nm_serve, operator.
    set (rq := mkRequest _ _ _).
    assert (Hrq : forall o, cached_is (node_cap true expect) (snd (nmop_server user yarnBin yarnDaemonBin cadvisorEnabled o rq)))
      by (intros o; apply update_cached).
    pose proof (Hrq (g_server g2)) as H1. destruct (nmop_server _ _ _ _ (g_server g2) rq) as [rep1 o1].
    assert (H2 : cached_is (node_cap true expect) (snd (nmop_server user yarnBin yarnDaemonBin cadvisorEnabled o1 rq)))
      by apply Hrq.
    destruct rep1 as [e|code body]; [|destruct (negb (code =? 200))]; cbn;
      try (destruct (nmop_server _ _ _ _ o1 rq) as [rep2 o2]; cbn); intros Hr; injection Hr as <-; done. }
  destruct Hc as (c & Hc & Hv & Hm). revert Hs. unfold GInit.EnableSchedule, sendRequest.
  change (actionURL nmRequestScheduleEnable) with (Ok "/v1/nm/schedule/enable"). change (_ || _) with true. cbv iota.
  unfold mbind, SC_bind, mret, SC_ret, request. unfold nm_serve, operator, nmop_server, serve.
  change (route _ _ _ _ _) with (Some (ScheduleEnable user yarnBin)). cbv beta iota.
  pose proof (ScheduleEnable_publishes user yarnBin (g_server g3) c Hc) as Hp.
  destruct (ScheduleEnable user yarnBin (g_server g3)) as [rep o']. cbn [g_server set_server].
  destruct rep as [e|code body]; [done|]. destruct (code =? 200) eqn:Ec; [|done]. cbn [negb as_error].
  intros Hs. injection Hs as <-. apply Z.eqb_eq in Ec. subst code. destruct (Hp ltac:(by eexists)) as [H1 H2].
  cbn [g_server set_server]. split; [done|].
  change (node_resource (tick o')) with (node_resource o'). rewrite H2, Hm, Hv. done.
Qed.
End BothEnds.

(** ** A start that panics *)

Section SmallDisk.
Context {S : Type} {NS : NMServer S} {RO : RangeOrder} {DE : DiskEnv}.
Context {Q : Type} `{QO : QuantityOps Q} {YE : YarnEnv Q}.
Context (unused : Z -> bool) (gc : GInitConfig).

Definition no_properties (g : gstate S) : Prop := DiskSpaceLimited g = true /\ Properties g = None.

Lemma sendMetricsPort_keeps : keeps no_properties sendMetricsPort.
Proof.
  assert (Hs : forall a m b, keeps no_properties (sendRequest a m b)).
  { intros a m b. unfold sendRequest. case_match; [case_match|]; auto with keeps.
    apply keeps_bind; [|intros ?; apply triple_ret]. intros g Hg. unfold request. by destruct (nm_serve _ _). }
  unfold sendMetricsPort, GetNMWebappPort, GInit.GetProperty. apply keeps_bind; [apply keeps_get|].
  intros [c|]; [|auto with keeps]. apply keeps_bind; [auto with keeps|].
  intros [[p|]|e]; auto with keeps. apply triple_modify. intros g Hg. by destruct (metricsPortChan g).
Qed.

Lemma sendMetricsPort_returns g : exists g', sendMetricsPort g = Ret (tt, g').
Proof.
  unfold sendMetricsPort, GetNMWebappPort, GInit.GetProperty, sendRequest, request, sendPort, sc_get, sc_modify.
  change (actionURL nmRequestProperty) with (Ok "/v1/nm/property"). change (_ || _) with true. cbv iota.
  unfold mbind, SC_bind, mret, SC_ret. destruct (metricsPortChan g); [|by eexists].
  destruct (nm_serve _ _) as [rep s'].
  repeat case_match; by eexists.
Qed.

(** An old node manager image (whose operator does not know the disk
    partitions) on a small data partition, with a configuration without
    properties and without port detection: starting the node manager panics,
    since the disk limit is written into a nil map. *)
Theorem small_disk_start_panics g dm e g1 st :
  GInit.GetDiskPartitions g = Ret (Err e, g1) -> Contains e "404 Not Found" = true ->
  GetDiskPartitionStats (if InHostNamespace then "/data" else path_Join ["/rootfs"; "/data"]) = Ok st ->
  TotalSize st <= 50 * DiskUnit -> Properties g1 = None -> PortAutoDetect gc = false ->
  exists d', fillAvailablePartitions (Q := Q) (mkD g dm) = Ret (tt, d') /\
    StartNodemanager unused gc (d_g d') = Crash (Panic "assignment to entry in nil map").
Proof.
  intros Hg He Hst Hs Hp Ha. exists (mkD (set_limited g1) (mkDiskManager
    [mkPartition (if InHostNamespace then "/data" else path_Join ["/rootfs"; "/data"]) (TotalSize st)] (firstCheck dm) (diskSpaceCores dm))).
  split.
  - unfold fillAvailablePartitions, in_ginit, sc_zoom, sc_modify, mbind, SC_bind, mret, SC_ret. cbn [d_g]. rewrite Hg.
    cbv beta iota. rewrite He. cbv zeta. rewrite Hst. destruct (Z.leb_spec (TotalSize st) (50 * DiskUnit)); [done|lia].
  - cbn [d_g]. unfold StartNodemanager. rewrite Ha. unfold mbind, SC_bind, mret, SC_ret.
    pose proof (sendMetricsPort_keeps (set_limited g1)) as Hk.
    destruct (sendMetricsPort_returns (set_limited g1)) as [g' Eg]. rewrite Eg in Hk |- *. cbv beta iota.
    destruct Hk as [H1 H2]; [by split|]. unfold limitDisk, mbind, SC_bind, sc_get. by rewrite H1, H2.
Qed.
End SmallDisk.

(** ** Examples *)

Definition ex_range : RangeState := mkRange fzero (float64_of_Z 1000) (flit 1 10).
Definition ex_yarn : YarnConfig :=
  mkYarnConfig (10 * Minute) None (Some (float64_of_Z 512)) fzero (float64_of_Z 512) ex_range ex_range
    (mkOverCommit false fone []) ex_disks (mkGInitConfig false false true false).
Definition ex_min : NMCapacity := mkNMCapacity 0 0 1024.

Definition ex_cap_reply (url : string) : http_reply :=
  if (url =? "/v1/nm/capacity")%string then Reply 200 (BodyCapacity (mkNMCapacity 10 0 1024)) else Reply 200 NoBody.

Definition ex_yg : gstate unit := set_minCapacity ex_g ex_min.
Definition ex_y : yarnClient unit Z := mkYarnClient (mkD ex_yg (mkDiskManager [] false None)) false 0 None.
Definition ex_res (milli mb : Z) : gmap string Z := <["cpu" := milli * nano_per_milli]> {["memory" := mb * MemUnit * nano]}.

#[local] Existing Instance ex_yarn_env.
#[local] Existing Instance ex_disk_env.
#[local] Existing Instance insertion_sort.
#[local] Existing Instance key_order.

Definition ex_adapt : outcome ((bool * gmap string Z) * yarnClient unit Z) :=
  adaptLoop (resourceHandlers (NS := ex_server ex_cap_reply) 0 ex_yarn 0) false (ex_res 2500 3000) ex_y.

Lemma adapted_at_least_min_witness :
  match ex_adapt with
  | Ret (r, _) => cpuMilli r.2 = 2500 /\ memBytes r.2 = 2048 * MemUnit /\ MemoryMB ex_min <= Z.quot (memBytes r.2) MemUnit
  | Crash _ => False
  end.
Proof.
  assert (E : match ex_adapt with Ret (r, _) => cpuMilli r.2 = 2500 /\ memBytes r.2 = 2048 * MemUnit | Crash _ => False end)
    by (vm_compute; split; reflexivity).
  destruct ex_adapt as [[r y']|c] eqn:Ea; [|exact E]. destruct E as [E1 E2]. split; [exact E1|]. split; [exact E2|].
  refine (proj2 (adapted_at_least_min (NS := ex_server ex_cap_reply) 0 ex_yarn ex_min _ _ 0 (ex_res 2500 3000) ex_y y' r eq_refl Ea)).
  - unfold in_int64, ex_min, MemUnit. cbn [MemoryMB]. lia.
  - unfold in_int64, ex_min. cbn [Millcores]. lia.
Defined.

Lemma minimum_not_published_witness :
  exists y', updateCapacity (NS := ex_server ex_cap_reply) 0 ex_yarn 0 (ex_res 0 4096) [] ex_y =
    Ret (ex_res 0 4096, y') /\ y_updates y' = [].
Proof.
  refine (minimum_not_published (NS := ex_server ex_cap_reply) 0 ex_yarn 0 (ex_res 0 4096) ex_y ex_min
            (mkNMCapacity 10 10000 1024) (set_server ex_yg tt (mkRequest "GET" "/v1/nm/capacity" NoBody)) _ _ _ _ _);
    vm_compute; reflexivity.
Defined.

Definition ex_grow : outcome (gmap string Z * yarnClient unit Z) :=
  updateCapacity (NS := ex_server ex_cap_reply) 0 ex_yarn Hour (ex_res 20000 8192) [] ex_y.
Definition ex_be : outcome (((bool * bool) * gmap string Z) * yarnClient unit Z) :=
  beCapacity (NS := ex_server ex_cap_reply) 0 ex_yarn Hour (ex_res 20000 8192) (negb (Nat.eqb (length (@nil string)) 0)) ex_y.


Definition ex_old_reply (url : string) : http_reply := Reply 404 NoBody.
Definition ex_small_env : DiskEnv := {|
  d_statfs := fun _ => Ok (mkStatfs 1000 500 4096); d_mounts := Ok []; InHostNamespace := true |}.

Lemma small_disk_start_panics_witness :
  exists d' : dstate unit Z, StartNodemanager (NS := ex_server ex_old_reply) (fun _ => true) (mkGInitConfig false false true false) (d_g d') =
    Crash (Panic "assignment to entry in nil map").
Proof.
  destruct (small_disk_start_panics (NS := ex_server ex_old_reply) (DE := ex_small_env) (Q := Z) (fun _ => true) (mkGInitConfig false false true false)
              ex_g (mkDiskManager [] false None) "request action diskPartitions failed 404: 404 Not Found"
              (set_server ex_g tt (mkRequest "GET" "/v1/nm/diskpartitions" NoBody)) (mkStats (1000 * 4096) (500 * 4096) (500 * 4096)))
    as (d' & _ & Hd).
  - vm_compute. reflexivity.
  - vm_compute. reflexivity.
  - vm_compute. reflexivity.
  - vm_compute. discriminate.
  - reflexivity.
  - reflexivity.
  - exists d'. exact Hd.
Defined.

(** The schedule is disabled when the update of a round arrives. *)
Definition ex_disabled_op : nmop := mkNMop ex_hadoop true [] [] 0.
Definition ex_og : gstate nmop := mkG ex_disabled_op [] [] None None None ∅ None false.
#[local] Existing Instance ex_conf_env.
#[local] Existing Instance ex_op_env.

Definition ex_both : outcome (unit * gstate nmop) * outcome (unit * gstate nmop) * outcome (option error * gstate nmop) :=
  let srv := nmop_server "root" "yarn" "yarn-daemon.sh" false in
  let cap := mkNMCapacity 8 0 4096 in
  let r1 := GInit.EnsureCapacity (NS := srv) (mkGInitConfig false false true false) cap [] true true ex_og in
  let r2 := match r1 with
            | Ret (_, g1) => GInit.runUpdate (NS := srv) (nmRequestCapacityUpdate, mkNMCapacity 0 0 4096) g1
            | Crash c => Crash c
            end in
  let r3 := match r2 with Ret (_, g3) => GInit.EnableSchedule (NS := srv) g3 | Crash c => Crash c end in
  (r1, r2, r3).

Lemma enable_after_disabled_update_offers_no_cores_witness :
  match ex_both with
  | (_, _, Ret (_, g4)) => node_resource (g_server g4) = Some ("4096", "0")
  | _ => False
  end.
Proof.
  assert (E : match ex_both with
              | (Ret (tt, g1), Ret (tt, g3), Ret (None, g4)) =>
                  g_updates g1 = [(nmRequestCapacityUpdate, mkNMCapacity 0 0 4096)]
              | _ => False end) by (vm_compute; reflexivity).
  unfold ex_both in *. cbv zeta in *.
  destruct (GInit.EnsureCapacity _ _ _ _ _ _) as [[[] g1]|c] eqn:E1; [|destruct E].
  destruct (GInit.runUpdate _ g1) as [[[] g3]|c] eqn:E2; [|destruct E].
  destruct (GInit.EnableSchedule g3) as [[[err|] g4]|c] eqn:E3; [destruct E| |destruct E].
  exact (proj2 (enable_after_disabled_update_offers_no_cores "root" "yarn" "yarn-daemon.sh" false
                  (mkGInitConfig false false true false) (mkNMCapacity 8 0 4096) [] true ex_og g1 g1 g3 g4
                  (nmRequestCapacityUpdate, mkNMCapacity 0 0 4096) E1 E E2 E3)).
Defined.
