(* ===== verification/QosManager.v ===== *)
(** * The QoS manager

    pkg/caelus/qos/qos_k8s.go: a round takes the prediction, subtracts the
    conflicts, raises the rest to a minimum, and runs the resource managers on
    it.  The disk io manager is here too; the network io manager (NetIO.v) works on
    traffic control, outside of the state of the managers here. *)

From S2P Require Import Prelude GoStrings GoFloat Quantity Action Conflict Topology Cgroup Qos Adaptive K8sResource.

#[local] Open Scope string_scope.
#[local] Open Scope Z_scope.
#[local] Open Scope list_scope.

Definition DevicesSubsystem : string := "devices".

Section QosManager.
Context {RO : RangeOrder} {CE : CgroupEnv} {Q : Type} `{QO : QuantityOps Q}.
(** The outcome of [EnsureCgroupPath] and the memory of the offline cgroup. *)
Context (env_mkdir : option error) (usage : result float64).

Definition qosDiskIO_Manage (disks : list string) : M (option error) := SetBlkioWeight CgroupOffline disks.

(** The resource managers. *)
Inductive ResourceQosManager :=
| QosCPUBT (b : qosCpuBT)
| QosCPUSet (s : qosCpuSet)
| QosCPUQuota (q : qosCpuQuota)
| QosAdaptive (a : qosCpuAdaptive (Q := Q))
| QosMemory
| QosDiskIO (disks : list string).

Definition manager_PreInit (m : ResourceQosManager) : M (outcome (option error * ResourceQosManager)) :=
  match m with
  | QosCPUBT b => e ← qosCpuBT_PreInit env_mkdir; mret (Ret (e, QosCPUBT b))
  | QosCPUSet s => e ← qosCpuSet_PreInit env_mkdir; mret (Ret (e, QosCPUSet s))
  | QosCPUQuota q => e ← qosCpuQuota_PreInit env_mkdir; mret (Ret (e, QosCPUQuota q))
  | QosAdaptive a =>
      r ← adaptive_PreInit env_mkdir a;
      mret (match r with Crash c => Crash c | Ret (e, a') => Ret (e, QosAdaptive a') end)
  | QosMemory => mret (Ret (None, QosMemory))
  | QosDiskIO disks => mret (Ret (None, QosDiskIO disks))
  end.

Definition manager_Manage (m : ResourceQosManager) (cg : CgroupResourceConfig Q) :
    M (outcome (option error * ResourceQosManager)) :=
  match m with
  | QosCPUBT b =>
      r ← qosCpuBT_Manage b cg;
      mret (match r with Crash c => Crash c | Ret (e, b') => Ret (e, QosCPUBT b') end)
  | QosCPUSet s => '(e, s') ← qosCpuSet_Manage s cg; mret (Ret (e, QosCPUSet s'))
  | QosCPUQuota q => '(e, q') ← qosCpuQuota_Manage q cg; mret (Ret (e, QosCPUQuota q'))
  | QosAdaptive a =>
      r ← adaptive_Manage a cg;
      mret (match r with Crash c => Crash c | Ret (e, a') => Ret (e, QosAdaptive a') end)
  | QosMemory => e ← qosMemory_Manage usage cg; mret (Ret (e, QosMemory))
  | QosDiskIO disks => e ← qosDiskIO_Manage disks; mret (Ret (e, QosDiskIO disks))
  end.

(** [getResourceConfig]: the cgroups of the pods, and the ones of online jobs
    outside of Kubernetes. *)
Definition getResourceConfig (allocatable : gmap string Q) (pods : list (Pod Q)) (onlineCgroups : list string) :
    CgroupResourceConfig Q :=
  mkCgroupResourceConfig allocatable
    (concat (map PodCgroupDirs (filter (fun p => IsOffline p = true) pods)))
    (concat (map PodCgroupDirs (filter (fun p => IsOffline p <> true) pods)) ++ onlineCgroups).

Fixpoint moveOfflinePidsTogether (offlineCgs : list string) : M unit :=
  match offlineCgs with
  | [] => mret tt
  | cg :: cgs => _ ← MovePids [DevicesSubsystem] cg CgroupOffline; moveOfflinePidsTogether cgs
  end.

(** The loop over the managers; their errors are logged. *)
Fixpoint manageLoop (ms : list ResourceQosManager) (cg : CgroupResourceConfig Q) : M (outcome (list ResourceQosManager)) :=
  match ms with
  | [] => mret (Ret [])
  | m :: ms' =>
      r ← manager_Manage m cg;
      match r with
      | Crash c => mret (Crash c)
      | Ret (_, m') =>
          rs ← manageLoop ms' cg;
          mret (match rs with Crash c => Crash c | Ret ms'' => Ret (m' :: ms'') end)
      end
  end.

(** The resources of a round: the prediction without conflicts, raised to the minimum. *)
Definition offlineResources (conflict : gmap string (ActionResource Q)) (allocatable : gmap string Q) :
    gmap string (ActionResource Q) * gmap string Q :=
  let '(conflict', resources, _) := CheckAndSubConflictResource conflict allocatable in
  (conflict', checkResourceAvailable resources).

Definition UpdateResource (ms : list ResourceQosManager) (offlineOnK8s : bool) (conflict : gmap string (ActionResource Q))
    (allocatable : gmap string Q) (pods : list (Pod Q)) (onlineCgroups : list string) :
    M (outcome (gmap string (ActionResource Q) * list ResourceQosManager)) :=
  let cg := getResourceConfig allocatable pods onlineCgroups in
  let '(conflict', resources) := offlineResources conflict (Resources cg) in
  let cg' := mkCgroupResourceConfig resources (OfflineCgroups cg) (OnlineCgroups cg) in
  _ ← (if offlineOnK8s then moveOfflinePidsTogether (OfflineCgroups cg') else mret tt);
  rs ← manageLoop ms cg';
  mret (match rs with Crash c => Crash c | Ret ms' => Ret (conflict', ms') end).

(** ** System components *)

Fixpoint moveComponents (cgroups : list string) : M unit :=
  match cgroups with
  | [] => mret tt
  | cg :: cgs =>
      _ ← (if 0 <? slen cg then '(_, _) ← MovePids [MemorySubsystem; CPUSubsystem] cg CgroupOfflineSystem; mret tt else mret tt);
      moveComponents cgs
  end.

Definition SystemComponentOomScoreAdj : string := "500".

Fixpoint adjustOom (pids : list Z) : M unit :=
  match pids with
  | [] => mret tt
  | pid :: pids' => _ ← write_path (path_Join ["/proc"; Itoa pid; "oom_score_adj"]) SystemComponentOomScoreAdj; adjustOom pids'
  end.

(** [moveSystemComponents]; [components] are the cgroups of the external components. *)
Definition moveSystemComponents (components : list string) : M unit :=
  match env_mkdir with
  | Some _ => mret tt
  | None =>
      _ ← CPUOfflineSet CgroupOfflineSystem true;
      _ ← moveComponents components;
      pids ← (fun w => (env_pids (writes w) (path_Join [env_root; MemorySubsystem; CgroupOfflineSystem]), w));
      match pids with
      | Pids pids => adjustOom pids
      | _ => mret tt
      end
  end.
End QosManager.

(** ** The resources of a round *)

Section Resources.
Context {RO : RangeOrder} {Q : Type} `{QL : QuantityLaws Q}.
Implicit Types (c : gmap string (ActionResource Q)) (p : gmap string Q).

(** The least amount of a resource that offline jobs get. *)
Definition least_amount (k : string) : Z :=
  if (k =? "cpu")%string then nano else if (k =? "memory")%string then 2048 * 1024 * 1024 * nano else 0.

(** What a round has of a resource of which [o] is predicted. *)
Definition round_amount c (o : Q) (k : string) : Z :=
  let d := name_conflict c o k in
  let reduced := if d =? 0 then amount o else Z.max 0 (amount o + d) in
  if (k =? "cpu")%string || (k =? "memory")%string then Z.max reduced (least_amount k) else reduced.

Lemma offlineResources_amount c p k :
  match p !! k with
  | None => (offlineResources c p).2 !! k = None
  | Some o => exists q, (offlineResources c p).2 !! k = Some q /\ amount q = round_amount c o k
  end.
Proof.
  unfold offlineResources. pose proof (CheckAndSub_refines c p) as Href.
  destruct (CheckAndSubConflictResource c p) as [[c' p'] cr]. destruct Href as (H1 & _ & _). specialize (H1 k).
  pose proof (checkResourceAvailable_minimum p' k) as Hmin. unfold sub_spec in H1. cbn [snd].
  destruct (p !! k) as [o|].
  - destruct (p' !! k) as [q|]; [|done]. simpl in H1. injection H1 as E.
    destruct (checkResourceAvailable p' !! k) as [q'|]; [|done]. exists q'. split; [done|].
    destruct Hmin as [-> _]. unfold round_amount, least_amount. rewrite E.
    destruct (k =? "cpu")%string, (k =? "memory")%string; done.
  - destruct (p' !! k); [done|]. by destruct (checkResourceAvailable p' !! k).
Qed.

Lemma round_amount_bounds c (o : Q) k :
  0 <= amount o -> 0 <= round_amount c o k <= Z.max (amount o) (least_amount k).
Proof.
  intros Ho. pose proof (map_min0_nonpos (named_conflict o k) c) as Hn. fold (name_conflict c o k) in Hn.
  unfold round_amount, least_amount, nano. destruct (k =? "cpu")%string, (k =? "memory")%string; simpl; split_bools; lia.
Qed.
End Resources.

(** ** A round *)

Section Round.
Context {RO : RangeOrder} {CE : CgroupEnv} {Q : Type} `{QL : QuantityLaws Q}.
Hypothesis writes_ok : forall n p d, env_write n p d = None.
Hypothesis has_cpus : env_cpuinfo <> Ok [].

(** The managers other than the adaptive one. *)
Definition plain_manager (m : ResourceQosManager (Q := Q)) : Prop :=
  match m with QosAdaptive _ => False | _ => True end.

Lemma manager_Manage_total usage m (cg : CgroupResourceConfig Q) w :
  plain_manager m -> exists e m' w', manager_Manage usage m cg w = (Ret (e, m'), w').
Proof.
  intros Hm. destruct m as [b|s|q|a| |disks]; simpl; unfold mbind, M_bind, mret, M_ret.
  - destruct (policy_Manage_total has_cpus (PolicyBT b) cg w) as (e & p' & w' & E & _). simpl in E.
    unfold mbind, M_bind, mret, M_ret in E. destruct (qosCpuBT_Manage b cg w) as [[[e' b']|c] w1]; [by repeat eexists|done].
  - destruct (qosCpuSet_Manage s cg w) as [[e s'] w']. by repeat eexists.
  - destruct (qosCpuQuota_Manage q cg w) as [[e q'] w']. by repeat eexists.
  - done.
  - destruct (qosMemory_Manage usage cg w) as [e w']. by repeat eexists.
  - destruct (qosDiskIO_Manage disks w) as [e w']. by repeat eexists.
Qed.

Definition memory_limit_file : string :=
  path_Join [path_Join [env_root; MemorySubsystem; CgroupOffline]; "memory.limit_in_bytes"].

(** The limit for a requested amount of memory and the memory in use. *)
Definition limit_with_buffer (limit used : Z) : Z :=
  if used <=? minUsage then limit else Z.max limit (used + memoryBuffer).

Lemma manageLoop_memory ms (cg : CgroupResourceConfig Q) quantity used w :
  Forall plain_manager ms -> Resources cg !! "memory" = Some quantity ->
  0 <= qValue quantity < 2 ^ 62 -> 0 <= int64_of_float64 used < 2 ^ 62 ->
  exists ms' w', manageLoop (Ok used) (ms ++ [QosMemory]) cg w = (Ret ms', w') /\
    files w' !! memory_limit_file =
    Some (env_readback memory_limit_file (Itoa (limit_with_buffer (qValue quantity) (int64_of_float64 used)))).
Proof.
  intros HF Hq Hl Hu. revert w. induction HF as [|m ms Hm HF IH]; intros w; cbn [app manageLoop]; unfold mbind, M_bind, mret, M_ret.
  - cbn [manager_Manage]. unfold mbind, M_bind, mret, M_ret.
    destruct (memory_limit_facts cg quantity used w Hq Hl Hu writes_ok) as (w' & -> & Hf).
    do 2 eexists. split; [done|]. rewrite Hf. apply lookup_insert_eq.
  - destruct (manager_Manage_total (Ok used) m cg w Hm) as (e & m' & w1 & ->).
    destruct (IH w1) as (ms' & w2 & -> & Hf). do 2 eexists. by split.
Qed.

Lemma div_up_bounds a b : 0 < b -> 0 <= a -> 0 <= div_up a b /\ div_up a b <= a `div` b + 1.
Proof. intros Hb Ha. unfold div_up. split; Z.div_mod_to_equations; nia. Qed.

(** The memory of a round in bytes: the prediction without the stored conflicts, at
    least the minimum, rounded up. *)
Lemma round_memory conflict (allocatable : gmap string Q) o :
  allocatable !! "memory" = Some o -> 0 <= amount o < 2 ^ 60 * nano ->
  let limit := div_up (round_amount conflict o "memory") nano in
  exists q, (offlineResources conflict allocatable).2 !! "memory" = Some q /\ qValue q = limit /\
    2048 * 1024 * 1024 <= limit <= Z.max (2048 * 1024 * 1024) (div_up (amount o) nano) /\ 0 <= limit < 2 ^ 62.
Proof.
  intros Ho Hrange limit. pose proof (offlineResources_amount conflict allocatable "memory") as Hres. rewrite Ho in Hres.
  destruct Hres as (q & Hq & Hamount). exists q. split; [done|].
  pose proof (round_amount_bounds conflict o "memory" (proj1 Hrange)) as Hb.
  assert (Hlow : 2048 * 1024 * 1024 * nano <= round_amount conflict o "memory") by (unfold round_amount, least_amount; simpl; lia).
  change (least_amount "memory") with (2048 * 1024 * 1024 * nano) in Hb. unfold limit in *.
  set (a := round_amount conflict o "memory") in *. clearbody a.
  assert (Hlim : 2048 * 1024 * 1024 <= div_up a nano <= Z.max (2048 * 1024 * 1024) (div_up (amount o) nano)).
  { unfold div_up. change nano with 1000000000 in *. Z.div_mod_to_equations. lia. }
  assert (Hmax : div_up (amount o) nano <= 2 ^ 60) by (unfold div_up; change nano with 1000000000 in *; Z.div_mod_to_equations; lia).
  split_and!; [|simpl in *; lia..].
  rewrite qValue_spec; [by rewrite Hamount|]. rewrite Hamount. unfold in_int64. simpl in *. lia.
Qed.

(** From the prediction to the kernel: on a machine with processors whose
    kernel accepts the writes, a round of the QoS manager with the memory manager
    among its managers does not crash and sets the memory limit of offline jobs
    to the predicted memory without the stored conflicts, at least 2048 MB and
    at most the prediction (or that minimum), rounded up to bytes and raised to
    the memory in use plus the buffer. *)
Theorem UpdateResource_memory_limit ms onK8s (conflict : gmap string (ActionResource Q)) allocatable pods online o used w :
  Forall plain_manager ms -> allocatable !! "memory" = Some o -> 0 <= amount o < 2 ^ 60 * nano ->
  0 <= int64_of_float64 used < 2 ^ 62 ->
  exists conflict' ms' w' limit,
    UpdateResource (Ok used) (ms ++ [QosMemory]) onK8s conflict allocatable pods online w = (Ret (conflict', ms'), w') /\
    files w' !! memory_limit_file =
      Some (env_readback memory_limit_file (Itoa (limit_with_buffer limit (int64_of_float64 used)))) /\
    limit = div_up (round_amount conflict o "memory") nano /\
    2048 * 1024 * 1024 <= limit <= Z.max (2048 * 1024 * 1024) (div_up (amount o) nano).
Proof.
  intros HF Ho Hrange Hu. unfold UpdateResource. cbn [getResourceConfig Resources OfflineCgroups OnlineCgroups].
  destruct (round_memory conflict allocatable o Ho Hrange) as (q & Hq & Hv & Hlim & Hr).
  destruct (offlineResources conflict allocatable) as [conflict' resources]. cbn [snd] in Hq.
  set (limit := div_up (round_amount conflict o "memory") nano) in *. unfold mbind, M_bind, mret, M_ret.
  destruct ((if onK8s then moveOfflinePidsTogether _ else _) w) as [u w1].
  edestruct (manageLoop_memory ms) as (ms' & w2 & -> & Hf); [done|exact Hq|by rewrite Hv|exact Hu|].
  exists conflict', ms', w2, limit. rewrite Hv in Hf. split_and!; done || lia.
Qed.
End Round.

(** ** Witness *)

Definition ex_conflict : gmap string (ActionResource Z) :=
  {["memory" := mkActionResource "memory" true {[FormulaStep := - (1024 * 1024 * 1024 * nano)]}]}.

Lemma UpdateResource_memory_limit_witness :
  exists conflict' ms' w',
    @UpdateResource key_order ex_env Z _ (Ok (float64_of_Z 0)) ([QosCPUSet ex_cpuset] ++ [QosMemory]) true ex_conflict
      {["cpu" := 2 * nano; "memory" := 4096 * 1024 * 1024 * nano]} [ex_pod "a" 0] [] ex_siblings_world = (Ret (conflict', ms'), w') /\
    files w' !! "/sys/fs/cgroup/memory/kubepods/offline/memory.limit_in_bytes" =
      Some ("3221225472" +:+ String newline "").
Proof.
  destruct (@UpdateResource_memory_limit key_order ex_env Z _ _ (fun _ _ _ => eq_refl) ltac:(discriminate)
              [QosCPUSet ex_cpuset] true ex_conflict {["cpu" := 2 * nano; "memory" := 4096 * 1024 * 1024 * nano]}
              [ex_pod "a" 0] [] (4096 * 1024 * 1024 * nano) (float64_of_Z 0) ex_siblings_world)
    as (conflict' & ms' & w' & limit & E & Hf & Hl & _).
  - by repeat constructor.
  - reflexivity.
  - vm_compute. by split.
  - vm_compute. by split.
  - exists conflict', ms', w'. split; [exact E|]. subst limit. exact Hf.
Defined.
