(* ===== verification/Config.v ===== *)
(** * Configuration

    pkg/caelus/types/types.go and diskquota.go: the configuration of the agent is
    read from a file, missing values get their defaults, and values that cannot
    work end the process.  The fields that this code does not read are left out
    of the records.  [ConfigEnv] holds the devices and files of the node. *)

From Stdlib Require Import Ascii Floats.SpecFloat.
From S2P Require Import Prelude GoStrings GoFloat Quantity Cgroup Silence Ginit YarnDisks Predict Alarm YarnClient.

#[local] Open Scope string_scope.
#[local] Open Scope Z_scope.
#[local] Open Scope list_scope.

(** ** Data *)

Definition OnlineTypeOnK8s : string := "k8s".
Definition OnlineTypeOnLocal : string := "local".
Definition OfflineTypeOnk8s : string := "k8s".
Definition OfflineTypeYarnOnk8s : string := "yarn_on_k8s".
Definition CpuManagePolicyBT : string := "bt".
Definition CpuManagePolicySet : string := "cpuset".
Definition CpuManagePolicyQuota : string := "quota".
Definition CpuManagePolicyAdaptive : string := "adaptive".

Definition defaultYarnScheduleServerPort : string := "10010".
Definition defaultCheckPointDir : string := "/tmp/caeclus".
Definition defaultDiskCapConservativeValue : Z := 10.
Definition defaultDiskNumConservativeValue : Z := 1.
Definition defaultCheckPeriod : duration := 5 * Minute.
Definition defaultMetricsInterval : duration := 50 * Second.
Definition defaultContainerCgroups : string := "/kubepods".
Definition defaultPerfDuration : duration := 10 * Second.
Definition defaultRdtDuration : duration := 1 * Second.
Definition defaultRdtCommand : string := "/usr/bin/pqos".
Definition defaultRdtInterval : duration := 1 * Second.
Definition defaultResourceIsolateInterval : duration := 10 * Minute.
Definition defaultNodeUpdateInterval : duration := 10 * Second.
Definition defaultCPIWindowDuration : duration := 10 * Minute.
Definition defaultCPIMaxJobSpecRange : duration := 24 * Hour.
Definition defaultDiskSpaceCheckPeriod : duration := 30 * Minute.
Definition defaultOnlineCheckInterval : duration := 10 * Minute.
Definition defaultOnlineBatchNumber : Z := 10.
Definition defaultMetricsRequestInterval : duration := 1 * Minute.
Definition defaultCpuOverCommitPercent : float64 := flit 12 10.

Definition AvailableOnlineTaskType (t : string) : bool := (t =? OnlineTypeOnK8s)%string || (t =? OnlineTypeOnLocal)%string.
Definition AvailableOfflineTaskType (t : string) : bool := (t =? OfflineTypeOnk8s)%string || (t =? OfflineTypeYarnOnk8s)%string.
Definition AvailableCpuManagePolicy (p : string) : bool :=
  (p =? CpuManagePolicyBT)%string || (p =? CpuManagePolicySet)%string || (p =? CpuManagePolicyQuota)%string ||
  (p =? CpuManagePolicyAdaptive)%string.

Record TaskTypeConfig := mkTaskType { OnlineType : string; OfflineType : string }.

Record NodeResourceConfig := mkNodeResource {
  nr_Disable : bool;
  UpdateInterval : duration;
  nr_OfflineType : string;
  NMServer : string;
  ScheduleServerPort : string;
  nr_YarnConfig : YarnConfig;
  SpaceCheckPeriod : duration;
  (** The periods of [Silence], in seconds of the day. *)
  Periods : list (Z * Z);
}.

Record MetricsNodeConfig := mkMetricsNode {
  mn_CollectInterval : duration;
  mn_OfflineType : string;
  IfacesWithProperty : list string;
  Ifaces : list string;
  DiskNames : list string;
}.

Record MetricsContainerConfig := mkMetricsContainer {
  Cgroups : list string;
  mc_CollectInterval : duration;
  MaxHousekeepingInterval : duration;
}.

Record MetricsPerfConfig := mkMetricsPerf { mp_Disable : bool; mp_CollectInterval : duration; mp_CollectDuration : duration }.

Record MetricsRdtConfig := mkMetricsRdt {
  mr_Disable : bool;
  RdtCommand : string;
  mr_CollectInterval : duration;
  mr_CollectDuration : duration;
  ExecuteInterval : duration;
}.

Record PrometheusData := mkPrometheusData {
  Address : string;
  Collect : list string;
  NoCollect : list string;
  CollectMap : gset string;
  NoCollectMap : gset string;
}.

(** The items are pointers, nil for [null]. *)
Record MetricsPrometheus := mkMetricsPrometheus { pr_CollectInterval : duration; Items : list (option PrometheusData) }.

Record MetricsCollectConfig := mkMetrics {
  mt_Node : MetricsNodeConfig;
  mt_Container : MetricsContainerConfig;
  mt_Perf : MetricsPerfConfig;
  mt_Rdt : MetricsRdtConfig;
  mt_Prometheus : MetricsPrometheus;
}.

Record CpuIsolateConfig := mkCpuIsolate {
  AutoDetect : bool;
  ManagePolicy : string;
  EnableOnlineIsolate : bool;
  KubeletStatic : bool;
}.

Record ResourceIsolateConfig := mkIsolate {
  ri_Disable : bool;
  UpdatePeriod : duration;
  ri_DiskNames : list string;
  EniIface : string;
  Iface : string;
  CpuConfig : CpuIsolateConfig;
  ri_OnlineType : string;
  ri_OfflineType : string;
}.

Record CPIManagerConfig := mkCPI {
  WindowDuration : duration;
  PrometheusAddrStr : string;
  PrometheusAddr : string;
  MaxJobSpecRange : duration;
}.

Record MetricsSource := mkSource {
  ms_CheckInterval : duration;
  MetricsCommand : list string;
  CmdNeedChroot : option bool;
  MetricsURL : string;
}.

(** The names of a job and the sources of its metrics. *)
Record OnlineJob := mkJob { oj_Name : string; oj_Metrics : list (string * MetricsSource) }.

Record OnlineConfig := mkOnline {
  CgroupCheckInterval : duration;
  on_BatchNum : Z;
  Jobs : list OnlineJob;
}.

Record DiskQuotaConfig := mkDiskQuota { CheckPeriod : duration; ContainerRuntime : string }.

Record CaelusConfig := mkCaelus {
  KubeletRootDir : string;
  CheckPointDir : string;
  TaskType : TaskTypeConfig;
  NodeResource : NodeResourceConfig;
  Predicts : list PredictConfig;
  Metrics : MetricsCollectConfig;
  ResourceIsolate : ResourceIsolateConfig;
  CpiManager : CPIManagerConfig;
  AlarmOf : AlarmConfig;
  OnlineOf : OnlineConfig;
  DiskQuotaOf : DiskQuotaConfig;
}.

Inductive stat_result := StatOk | StatNotExist | StatErr (e : error).

Class ConfigEnv := {
  os_Stat : string -> stat_result;
  (** A network interface by its name: whether it is up. *)
  InterfaceByName : string -> result bool;
  cfg_ReadFile : string -> result string;
  os_Readlink : string -> string;
  url_Parse : string -> result string;
}.

Section Config.
Context {CE : CgroupEnv} {CF : ConfigEnv}.

(** [d] for a duration of zero seconds. *)
Definition or_default (d v : duration) : duration := if v =? 0 then d else v.

(** ** Devices *)

Definition existDisk (inHost : bool) (diskNames : list string) : list string :=
  let devDir := if inHost then "/dev" else path_Join [RootFS; "/dev"] in
  List.filter (fun disk => match os_Stat (path_Join [devDir; disk]) with StatOk => true | _ => false end) diskNames.

Definition existAndUps (ifaces : list string) : list string :=
  List.filter (fun iface => match InterfaceByName iface with Ok up => up | Err _ => false end) ifaces.

(** ** The parts *)

Definition initTaskType (config : TaskTypeConfig) : outcome unit :=
  if negb (AvailableOnlineTaskType (OnlineType config)) then Crash (Fatal "invalid online type")
  else if negb (AvailableOfflineTaskType (OfflineType config)) then Crash (Fatal "invalid offline type")
  else Ret tt.

Definition OfflineOnYarn (config : TaskTypeConfig) : bool := (OfflineType config =? OfflineTypeYarnOnk8s)%string.

Fixpoint checkOverCommitPeriods (periods : list ((Z * Z) * float64)) : outcome unit :=
  match periods with
  | [] => Ret tt
  | (range, percent) :: periods' =>
      if range.2 <=? range.1 then Crash (Fatal "bad overcommit period config")
      else if flt percent fone then Crash (Fatal "must specific overcommit percent(>=1.0) in specific time range")
      else checkOverCommitPeriods periods'
  end.

Definition set_overcommit (y : YarnConfig) (o : OverCommit) : YarnConfig :=
  mkYarnConfig (CapacityIncInterval y) (ReserveCpuMilli y) (ReserveMemMB y) (RoundCPUMilli y) (RoundMemMB y) (RangeCPUMilli y)
    (RangeMemMB y) o (Disks y) (ginitConfig y).
Definition set_disks (y : YarnConfig) (d : YarnDisksConfig) : YarnConfig :=
  mkYarnConfig (CapacityIncInterval y) (ReserveCpuMilli y) (ReserveMemMB y) (RoundCPUMilli y) (RoundMemMB y) (RangeCPUMilli y)
    (RangeMemMB y) (CpuOverCommit y) d (ginitConfig y).

(** The server port and the over-commitment of the processors. *)
Definition initYarn (config : NodeResourceConfig) : outcome (string * YarnConfig) :=
  let y := nr_YarnConfig config in
  if (NMServer config =? "")%string then Crash (Fatal "node resource config for yarn has no nodemanager server address")
  else
    let port := if (ScheduleServerPort config =? "")%string then defaultYarnScheduleServerPort else ScheduleServerPort config in
    let oc := CpuOverCommit y in
    if oc_Enable oc then
      let oc := mkOverCommit (oc_Enable oc) (if flt (OverCommitPercent oc) fone then defaultCpuOverCommitPercent else OverCommitPercent oc)
                  (oc_Periods oc) in
      _ ← checkOverCommitPeriods (oc_Periods oc);
      Ret (port, set_overcommit y oc)
    else Ret (port, y).

Definition initDisks (d : YarnDisksConfig) : outcome YarnDisksConfig :=
  match RatioToCore d with
  | Some 0 => Crash (Fatal "disk ratio to core could not be zero")
  | _ => Ret (mkDisksConfig (RatioToCore d) (DisableScheduler d)
               (if DiskCapConservativeValue d =? 0 then defaultDiskCapConservativeValue else DiskCapConservativeValue d)
               (if DiskNumConservativeValue d =? 0 then defaultDiskNumConservativeValue else DiskNumConservativeValue d))
  end.

(** The loop over the periods, after the one before. *)
Fixpoint checkSilencePeriods (prev : option (Z * Z)) (its : list (Z * Z)) : outcome unit :=
  match its with
  | [] => Ret tt
  | it :: its' =>
      if it.2 <=? it.1 then Crash (Fatal "bad silence period")
      else match prev with
           | Some p => if it.1 <=? p.2 then Crash (Fatal "silence periods should be merged") else checkSilencePeriods (Some it) its'
           | None => checkSilencePeriods (Some it) its'
           end
  end.

Definition initNodeResourceConfig (config : NodeResourceConfig) (taskType : TaskTypeConfig) : outcome NodeResourceConfig :=
  if nr_Disable config then Ret config
  else
    '(port, yarn) ← (if OfflineOnYarn taskType then initYarn config else Ret (ScheduleServerPort config, nr_YarnConfig config));
    disks ← initDisks (Disks yarn);
    _ ← checkSilencePeriods None (Periods config);
    Ret (mkNodeResource (nr_Disable config) (or_default defaultNodeUpdateInterval (UpdateInterval config)) (OfflineType taskType)
           (NMServer config) port (set_disks yarn disks) (or_default defaultDiskSpaceCheckPeriod (SpaceCheckPeriod config))
           (Periods config)).

(** The name of an interface without its property. *)
Definition iface_name (f : string) : string := match cut_byte f "_" with Some (name, _) => name | None => f end.

Definition initMetricsNode (inHost : bool) (c : MetricsNodeConfig) (taskType : TaskTypeConfig) : MetricsNodeConfig :=
  mkMetricsNode (or_default defaultMetricsInterval (mn_CollectInterval c)) (OfflineType taskType) (IfacesWithProperty c)
    (existAndUps (map iface_name (IfacesWithProperty c))) (existDisk inHost (DiskNames c)).

Definition initMetricsContainer (c : MetricsContainerConfig) : MetricsContainerConfig :=
  mkMetricsContainer (match Cgroups c with [] => [defaultContainerCgroups] | _ => Cgroups c end)
    (or_default defaultMetricsInterval (mc_CollectInterval c)) (or_default defaultMetricsInterval (MaxHousekeepingInterval c)).

Definition initMetricsPerf (c : MetricsPerfConfig) : MetricsPerfConfig :=
  if mp_Disable c then c
  else mkMetricsPerf (mp_Disable c) (or_default defaultMetricsInterval (mp_CollectInterval c)) (or_default defaultPerfDuration (mp_CollectDuration c)).

Definition initMetricsRdt (c : MetricsRdtConfig) : MetricsRdtConfig :=
  if mr_Disable c then c
  else mkMetricsRdt (mr_Disable c) (if (RdtCommand c =? "")%string then defaultRdtCommand else RdtCommand c)
         (or_default defaultMetricsInterval (mr_CollectInterval c)) (or_default defaultRdtDuration (mr_CollectDuration c))
         (or_default defaultRdtInterval (ExecuteInterval c)).

Fixpoint initPrometheusItems (items : list (option PrometheusData)) : outcome (list (option PrometheusData)) :=
  match items with
  | [] => Ret []
  | None :: _ => Crash (Panic "nil pointer dereference")
  | Some pro :: items' =>
      rest ← initPrometheusItems items';
      Ret (Some (mkPrometheusData (Address pro) (Collect pro) (NoCollect pro) (list_to_set (Collect pro)) (list_to_set (NoCollect pro))) :: rest)
  end.

Definition initMetricsConfig (inHost : bool) (config : MetricsCollectConfig) (taskType : TaskTypeConfig) : outcome MetricsCollectConfig :=
  items ← initPrometheusItems (Items (mt_Prometheus config));
  Ret (mkMetrics (initMetricsNode inHost (mt_Node config) taskType) (initMetricsContainer (mt_Container config))
         (initMetricsPerf (mt_Perf config)) (initMetricsRdt (mt_Rdt config))
         (mkMetricsPrometheus (or_default defaultMetricsInterval (pr_CollectInterval (mt_Prometheus config))) items)).

(** The interfaces by their property; a name without one panics. *)
Fixpoint splitIfaces (fs : list string) (eni iface : string) : outcome (string * string) :=
  match fs with
  | [] => Ret (eni, iface)
  | f :: fs' =>
      match cut_byte f "_" with
      | None => Crash (Panic "slice bounds out of range")
      | Some (name, _) => if Contains f "_eni" then splitIfaces fs' name iface else splitIfaces fs' eni name
      end
  end.

Definition getCpuManagerFile (inHost : bool) (rootDir : string) : string :=
  let rootDir := if (rootDir =? "")%string then "/data" else rootDir in
  let rootDir :=
    if inHost then rootDir
    else
      let rootDir := path_Join [RootFS; rootDir] in
      let linkDir := os_Readlink rootDir in
      if (linkDir =? "")%string then rootDir else path_Join [RootFS; linkDir] in
  path_Join [rootDir; "cpu_manager_state"].

Definition cg {A} (m : M A) : SC world A := fun w => let '(a, w') := m w in Ret (a, w').

Definition autoPolicy (config : CpuIsolateConfig) : SC world string :=
  if AutoDetect config then
    supported ← cg CPUOfflineSupported;
    mret (if supported : bool then CpuManagePolicyBT else CpuManagePolicyQuota)
  else mret (ManagePolicy config).

Definition adaptivePolicy (policy : string) : SC world string :=
  if (policy =? CpuManagePolicyAdaptive)%string then
    supported ← cg CPUOfflineSupported;
    mret (if supported : bool then policy else CpuManagePolicyQuota)
  else mret policy.

Definition initCpuManagePolicy (inHost : bool) (config : CpuIsolateConfig) (kubeletRootDir : string) : SC world CpuIsolateConfig :=
  policy0 ← autoPolicy config;
  policy ← adaptivePolicy policy0;
  if negb (AvailableCpuManagePolicy policy) then sc_crash (Fatal "invalid cpu manage policy")
  else
    let static := match cfg_ReadFile (getCpuManagerFile inHost kubeletRootDir) with
                  | Err _ => false
                  | Ok policyBytes => Contains policyBytes "static"
                  end in
    if static && (policy =? CpuManagePolicySet)%string && EnableOnlineIsolate config then
      sc_crash (Fatal "cpu manager policy is static, conflicted with cpuset policy and isolating online jobs")
    else mret (mkCpuIsolate (AutoDetect config) policy (EnableOnlineIsolate config) static).

Definition sc_of {St A} (o : outcome A) : SC St A := fun s => match o with Ret a => Ret (a, s) | Crash c => Crash c end.

(** The disks are those of the configuration, of which the file has none, and the
    existing ones of the node. *)
Definition initResourceIsolateConfig (inHost : bool) (config : ResourceIsolateConfig) (nodeConfig : MetricsNodeConfig)
    (taskType : TaskTypeConfig) (kubeletRootDir : string) : SC world ResourceIsolateConfig :=
  if ri_Disable config then mret config
  else
    '(eni, iface) ← sc_of (splitIfaces (IfacesWithProperty nodeConfig) (EniIface config) (Iface config));
    cpu ← initCpuManagePolicy inHost (CpuConfig config) kubeletRootDir;
    mret (mkIsolate (ri_Disable config) (or_default defaultResourceIsolateInterval (UpdatePeriod config))
            (existDisk inHost (ri_DiskNames config ++ DiskNames nodeConfig)) eni iface cpu (OnlineType taskType) (OfflineType taskType)).

Definition initCPIManagerConfig (config : CPIManagerConfig) : outcome CPIManagerConfig :=
  match url_Parse (PrometheusAddrStr config) with
  | Err _ => Crash (Fatal "invalid prometheus_addr")
  | Ok u => Ret (mkCPI (or_default defaultCPIWindowDuration (WindowDuration config)) (PrometheusAddrStr config) u
                   (or_default defaultCPIMaxJobSpecRange (MaxJobSpecRange config)))
  end.

Definition initSource (s : MetricsSource) : outcome MetricsSource :=
  let hasCommand := negb (bool_decide (MetricsCommand s = [])) in
  if negb (MetricsURL s =? "")%string && hasCommand then Crash (Fatal "metric request url and command must be set only one")
  else Ret (mkSource (or_default defaultMetricsRequestInterval (ms_CheckInterval s)) (MetricsCommand s)
              (match CmdNeedChroot s with None => if hasCommand then Some true else None | Some b => Some b end) (MetricsURL s)).

Fixpoint initOnlineMetrics (l : list (string * MetricsSource)) : outcome (list (string * MetricsSource)) :=
  match l with
  | [] => Ret []
  | (name, s) :: l' => s' ← initSource s; rest ← initOnlineMetrics l'; Ret ((name, s') :: rest)
  end.

Fixpoint initOnlineJobs (jobs : list OnlineJob) : outcome (list OnlineJob) :=
  match jobs with
  | [] => Ret []
  | j :: jobs' => ms ← initOnlineMetrics (oj_Metrics j); rest ← initOnlineJobs jobs'; Ret (mkJob (oj_Name j) ms :: rest)
  end.

Definition initOnlineConfig (config : OnlineConfig) : outcome OnlineConfig :=
  jobs ← initOnlineJobs (Jobs config);
  Ret (mkOnline (or_default defaultOnlineCheckInterval (CgroupCheckInterval config))
         (if on_BatchNum config =? 0 then defaultOnlineBatchNumber else on_BatchNum config) jobs).

Definition initDiskQuotaManager (config : DiskQuotaConfig) : outcome DiskQuotaConfig :=
  let runtime := if (ContainerRuntime config =? "")%string then "docker" else ContainerRuntime config in
  if negb (runtime =? "docker")%string then Crash (Fatal "invalid container runtime")
  else Ret (mkDiskQuota (or_default defaultCheckPeriod (CheckPeriod config)) runtime).

(** ** The whole *)

Section Whole.
Context {Q : Type} `{QO : QuantityOps Q} {VL : VpaLib} {ME : MachineEnv} (totalResource : gmap string Q).

Definition initJsonConfig (inHost : bool) (c : CaelusConfig) : SC world CaelusConfig :=
  let checkPoint := if (CheckPointDir c =? "")%string then defaultCheckPointDir else CheckPointDir c in
  _ ← sc_of (initTaskType (TaskType c));
  node ← sc_of (initNodeResourceConfig (NodeResource c) (TaskType c));
  metrics ← sc_of (initMetricsConfig inHost (Metrics c) (TaskType c));
  predicts ← sc_of (initPredictConfigs totalResource (Predicts c));
  isolate ← initResourceIsolateConfig inHost (ResourceIsolate c) (mt_Node metrics) (TaskType c) (KubeletRootDir c);
  alarm ← sc_of (initAlarmConfig (AlarmOf c));
  cpi ← sc_of (initCPIManagerConfig (CpiManager c));
  online ← sc_of (initOnlineConfig (OnlineOf c));
  quota ← sc_of (initDiskQuotaManager (DiskQuotaOf c));
  mret (mkCaelus (KubeletRootDir c) checkPoint (TaskType c) node predicts metrics isolate cpi alarm online quota).

(** The configuration with the namespace, which is the one of the host unless its
    root is mounted.  The encoding of the result is for the log. *)
Definition ParseJsonConfig (decode : string -> result CaelusConfig) (encode : CaelusConfig -> result string) (configFile : string) :
    SC world (result CaelusConfig * bool) :=
  let inHost := match os_Stat (path_Join [RootFS; "/proc"]) with StatNotExist => true | _ => false end in
  match cfg_ReadFile configFile with
  | Err e => mret (Err ("open config file err: " +:+ e), inHost)
  | Ok file =>
      match decode file with
      | Err e => mret (Err ("parse config file to json err: " +:+ e), inHost)
      | Ok caelus =>
          caelus' ← initJsonConfig inHost caelus;
          mret (match encode caelus' with Err e => Err ("marshal caelus config: " +:+ e) | Ok _ => Ok caelus' end, inHost)
      end
  end.
End Whole.
End Config.

(** ** Initialised configurations *)

(** Periods that are not empty, in their order, with a gap between them. *)
Definition silence_ok (its : list (Z * Z)) : Prop :=
  Forall (fun it => it.1 < it.2) its /\
  forall i it it', its !! i = Some it -> its !! S i = Some it' -> it.2 < it'.1.

Definition overcommit_ok (o : OverCommit) : Prop :=
  oc_Enable o = true ->
  flt (OverCommitPercent o) fone = false /\
  Forall (fun '(range, percent) => range.1 < range.2 /\ flt percent fone = false) (oc_Periods o).

Definition node_ok (t : TaskTypeConfig) (c : NodeResourceConfig) : Prop :=
  nr_Disable c = false ->
  UpdateInterval c <> 0 /\ SpaceCheckPeriod c <> 0 /\ silence_ok (Periods c) /\ nr_OfflineType c = OfflineType t /\
  RatioToCore (Disks (nr_YarnConfig c)) <> Some 0 /\ DiskCapConservativeValue (Disks (nr_YarnConfig c)) <> 0 /\
  DiskNumConservativeValue (Disks (nr_YarnConfig c)) <> 0 /\
  (OfflineOnYarn t = true -> NMServer c <> "" /\ ScheduleServerPort c <> "" /\ overcommit_ok (CpuOverCommit (nr_YarnConfig c))).

Definition item_ok (i : option PrometheusData) : Prop :=
  match i with
  | Some d => forall m, (m ∈ CollectMap d <-> m ∈ Collect d) /\ (m ∈ NoCollectMap d <-> m ∈ NoCollect d)
  | None => False
  end.

Definition metrics_ok (m : MetricsCollectConfig) : Prop :=
  mn_CollectInterval (mt_Node m) <> 0 /\ mc_CollectInterval (mt_Container m) <> 0 /\ MaxHousekeepingInterval (mt_Container m) <> 0 /\
  Cgroups (mt_Container m) <> [] /\
  (mp_Disable (mt_Perf m) = false -> mp_CollectInterval (mt_Perf m) <> 0 /\ mp_CollectDuration (mt_Perf m) <> 0) /\
  (mr_Disable (mt_Rdt m) = false -> RdtCommand (mt_Rdt m) <> "" /\ mr_CollectInterval (mt_Rdt m) <> 0 /\
     mr_CollectDuration (mt_Rdt m) <> 0 /\ ExecuteInterval (mt_Rdt m) <> 0) /\
  pr_CollectInterval (mt_Prometheus m) <> 0 /\ Forall item_ok (Items (mt_Prometheus m)).

#[local] Opaque flt.

Section Wf.
Context {CE : CgroupEnv} {CF : ConfigEnv}.

(** The policy is one that works on this node: the ones that need the kernel's
    support are left to machines that have it when the choice is automatic. *)
Definition cpu_ok (w : world) (c : CpuIsolateConfig) : Prop :=
  AvailableCpuManagePolicy (ManagePolicy c) = true /\
  ~ (KubeletStatic c = true /\ ManagePolicy c = CpuManagePolicySet /\ EnableOnlineIsolate c = true) /\
  (ManagePolicy c = CpuManagePolicyAdaptive -> (CPUOfflineSupported w).1 = true) /\
  (AutoDetect c = true -> ManagePolicy c = if (CPUOfflineSupported w).1 then CpuManagePolicyBT else CpuManagePolicyQuota).

Definition source_ok (s : MetricsSource) : Prop :=
  ms_CheckInterval s <> 0 /\ (MetricsURL s = "" \/ MetricsCommand s = []) /\ (MetricsCommand s <> [] -> CmdNeedChroot s <> None).

Definition online_ok (c : OnlineConfig) : Prop :=
  CgroupCheckInterval c <> 0 /\ on_BatchNum c <> 0 /\ Forall (fun j => Forall (fun m => source_ok m.2) (oj_Metrics j)) (Jobs c).

Record config_wf {Q : Type} `{QuantityOps Q} (w : world) (c : CaelusConfig) : Prop := {
  wf_types : AvailableOnlineTaskType (OnlineType (TaskType c)) = true /\ AvailableOfflineTaskType (OfflineType (TaskType c)) = true;
  wf_checkpoint : CheckPointDir c <> "";
  wf_node : node_ok (TaskType c) (NodeResource c);
  wf_metrics : metrics_ok (Metrics c);
  wf_predicts : Predicts c <> [] /\ Forall config_ok (Predicts c);
  wf_isolate : ri_Disable (ResourceIsolate c) = false -> UpdatePeriod (ResourceIsolate c) <> 0 /\ cpu_ok w (CpuConfig (ResourceIsolate c));
  wf_alarm : Alarm.Enable (AlarmOf c) = true -> AvailableAlarmType (ChannelName (AlarmOf c)) = true /\
    MessageBatch (AlarmOf c) <> 0 /\ MessageDelay (AlarmOf c) <> 0;
  wf_cpi : WindowDuration (CpiManager c) <> 0 /\ MaxJobSpecRange (CpiManager c) <> 0;
  wf_online : online_ok (OnlineOf c);
  wf_quota : CheckPeriod (DiskQuotaOf c) <> 0 /\ ContainerRuntime (DiskQuotaOf c) = "docker";
}.

Lemma or_default_nonzero d v : d <> 0 -> or_default d v <> 0.
Proof. unfold or_default. destruct (Z.eqb_spec v 0); done. Qed.

Lemma checkSilence_ok prev its :
  checkSilencePeriods prev its = Ret tt ->
  silence_ok its /\ match prev, its with Some p, it :: _ => p.2 < it.1 | _, _ => True end.
Proof.
  revert prev. induction its as [|it its IH]; intros prev H; cbn in H.
  { split; [|by destruct prev]. split; [constructor|]. intros i it it' Hi. by rewrite lookup_nil in Hi. }
  destruct (Z.leb_spec it.2 it.1) as [|Hit]; [done|].
  assert (Hprev : (match prev with Some p => p.2 < it.1 | None => True end) /\ checkSilencePeriods (Some it) its = Ret tt).
  { destruct prev as [p|]; [|done]. by destruct (Z.leb_spec it.1 p.2). }
  destruct Hprev as [Hprev H']. apply IH in H' as [[Hall Hgap] Hnext]. split; [|by destruct prev].
  split; [by constructor|]. clear H Hprev. intros [|i] a b Ha Hb; cbn in Ha, Hb; [|by eapply Hgap].
  injection Ha as <-. destruct its as [|b' its]; [done|]. by injection Hb as <-.
Qed.

Lemma checkOverCommit_ok ps :
  checkOverCommitPeriods ps = Ret tt -> Forall (fun '(range, percent) => range.1 < range.2 /\ flt percent fone = false) ps.
Proof.
  induction ps as [|[range percent] ps IH]; cbn [checkOverCommitPeriods]; intros H; [constructor|].
  destruct (Z.leb_spec range.2 range.1); [done|]. destruct (flt percent fone) eqn:E; [done|]. constructor; auto.
Qed.

Lemma default_percent_ok : flt defaultCpuOverCommitPercent fone = false.
Proof. vm_compute. reflexivity. Qed.

Lemma initYarn_ok c port y :
  initYarn c = Ret (port, y) -> NMServer c <> "" /\ port <> "" /\ overcommit_ok (CpuOverCommit y) /\ Disks y = Disks (nr_YarnConfig c).
Proof.
  unfold initYarn, mbind, outcome_bind. destruct (String.eqb_spec (NMServer c) ""); [done|].
  set (p := if (ScheduleServerPort c =? "")%string then defaultYarnScheduleServerPort else ScheduleServerPort c).
  assert (Hp : p <> "") by (unfold p; by destruct (String.eqb_spec (ScheduleServerPort c) "")).
  destruct (oc_Enable _) eqn:Eo.
  - cbn [oc_Periods]. destruct (checkOverCommitPeriods _) as [[]|] eqn:Ec; [|done]. intros [= <- <-]. split_and!; [done|done| |done].
    intros _. cbn [CpuOverCommit set_overcommit OverCommitPercent oc_Periods]. split; [|by apply checkOverCommit_ok]. destruct (flt (OverCommitPercent (CpuOverCommit (nr_YarnConfig c))) fone) eqn:E; [exact default_percent_ok|exact E].
  - intros [= <- <-]. split_and!; [done|done| |done]. intros He. congruence.
Qed.

Lemma initNode_ok c t c' : initNodeResourceConfig c t = Ret c' -> node_ok t c'.
Proof.
  unfold initNodeResourceConfig, mbind, outcome_bind, node_ok. destruct (nr_Disable c) eqn:Ed; [intros [= <-]; congruence|].
  set (yo := if OfflineOnYarn t then initYarn c else Ret (ScheduleServerPort c, nr_YarnConfig c)).
  destruct yo as [[port y]|] eqn:Ey; unfold yo in *; [|done].
  destruct (initDisks (Disks y)) as [d|] eqn:Edisks; [|done].
  destruct (checkSilencePeriods None _) as [[]|] eqn:Es; [|done]. intros [= <-] _. cbn.
  apply checkSilence_ok in Es as [Hs _].
  assert (Hd : RatioToCore d <> Some 0 /\ DiskCapConservativeValue d <> 0 /\ DiskNumConservativeValue d <> 0).
  { unfold initDisks in Edisks. destruct (RatioToCore (Disks y)) as [[| |]|] eqn:Er; try done; injection Edisks as <-; cbn;
      rewrite ?Er; (split_and!; [done|destruct (Z.eqb_spec (DiskCapConservativeValue (Disks y)) 0); done|
        destruct (Z.eqb_spec (DiskNumConservativeValue (Disks y)) 0); done]). }
  destruct Hd as (Hd1 & Hd2 & Hd3).
  split_and!; try done; try (by apply or_default_nonzero). intros Hyarn. rewrite Hyarn in Ey.
  apply initYarn_ok in Ey as (H1 & H2 & H3 & _). done.
Qed.

Lemma initItems_ok items items' : initPrometheusItems items = Ret items' -> Forall item_ok items'.
Proof.
  revert items'. induction items as [|[d|] items IH]; intros items' H; cbn in H; [injection H as <-; constructor| |done].
  unfold mbind, outcome_bind in H. destruct (initPrometheusItems items) as [rest|]; [|done]. injection H as <-.
  constructor; [|by apply IH]. intros m. cbn. by rewrite !elem_of_list_to_set.
Qed.

Lemma initMetrics_ok inHost c t c' : initMetricsConfig inHost c t = Ret c' -> metrics_ok c'.
Proof.
  unfold initMetricsConfig, mbind, outcome_bind. destruct (initPrometheusItems _) as [items|] eqn:Ei; [|done]. intros [= <-].
  apply initItems_ok in Ei. unfold metrics_ok. cbn. split_and!; try (by apply or_default_nonzero); try done.
  - by destruct (Cgroups _).
  - unfold initMetricsPerf. destruct (mp_Disable (mt_Perf c)) eqn:E; [congruence|]. intros _. cbn. by split; apply or_default_nonzero.
  - unfold initMetricsRdt. destruct (mr_Disable (mt_Rdt c)) eqn:E; [congruence|]. intros _. cbn. split_and!; try (by apply or_default_nonzero).
    by destruct (String.eqb_spec (RdtCommand (mt_Rdt c)) "").
Qed.

Lemma sc_of_Ret {St A} (o : outcome A) (s : St) a s1 : sc_of o s = Ret (a, s1) -> o = Ret a /\ s1 = s.
Proof. unfold sc_of. destruct o; [|done]. by intros [= <- <-]. Qed.

Lemma CPUOfflineSupported_same w : (CPUOfflineSupported (CPUOfflineSupported w).2).1 = (CPUOfflineSupported w).1.
Proof. unfold CPUOfflineSupported. destruct (cpuBTChecked w) eqn:E; cbn; [by rewrite E|done]. Qed.

(** Asking for the kernel's support gives the same answer every time. *)
Lemma supported_cg w b w' : cg CPUOfflineSupported w = Ret (b, w') ->
  b = (CPUOfflineSupported w').1 /\ (CPUOfflineSupported w').1 = (CPUOfflineSupported w).1.
Proof.
  unfold cg. pose proof (CPUOfflineSupported_same w) as H. destruct (CPUOfflineSupported w) as [b1 w1]. cbn in H. intros [= <- <-]. by rewrite H.
Qed.

Lemma initCpu_ok inHost c dir w c' w' : initCpuManagePolicy inHost c dir w = Ret (c', w') -> cpu_ok w' c'.
Proof.
  intros H. unfold initCpuManagePolicy in H. apply sc_bind_Ret in H as (p0 & w1 & H0 & H). apply sc_bind_Ret in H as (p & w2 & H1 & H).
  assert (Hauto : AutoDetect c = true -> p0 = if (CPUOfflineSupported w1).1 then CpuManagePolicyBT else CpuManagePolicyQuota).
  { intros Ha. unfold autoPolicy in H0. rewrite Ha in H0. apply sc_bind_Ret in H0 as (b & wb & Hb & H0).
    apply supported_cg in Hb as [-> _]. injection H0 as <- <-. done. }
  assert (Hadapt : (CPUOfflineSupported w2).1 = (CPUOfflineSupported w1).1 /\ (p = CpuManagePolicyAdaptive -> (CPUOfflineSupported w2).1 = true) /\
    (p0 <> CpuManagePolicyAdaptive -> p = p0)).
  { unfold adaptivePolicy in H1. destruct (String.eqb_spec p0 CpuManagePolicyAdaptive) as [->|Hne].
    - apply sc_bind_Ret in H1 as (b & wb & Hb & H1). apply supported_cg in Hb as [Hb Hs]. injection H1 as <- <-.
      split; [done|]. split; [|done]. destruct b; [done|discriminate].
    - injection H1 as <- <-. done. }
  destruct Hadapt as (Hsame & Hadapt & Hkeep).
  destruct (AvailableCpuManagePolicy p) eqn:Ep; [|done]. cbn [negb] in H.
  set (static := match cfg_ReadFile _ with Ok _ => _ | Err _ => _ end) in H.
  destruct (static && _ && _) eqn:Es; [done|]. injection H as <- <-. unfold cpu_ok. cbn.
  split_and!; [done| |done|].
  - intros (Hst & Hp & Hi). rewrite Hst, Hi in Es. subst p. done.
  - intros Ha. rewrite Hsame, <- (Hauto Ha). apply Hkeep. rewrite (Hauto Ha). by destruct (CPUOfflineSupported w1).1.
Qed.

Lemma initSource_ok src src' : initSource src = Ret src' -> source_ok src'.
Proof.
  unfold initSource, source_ok. destruct (bool_decide_reflect (MetricsCommand src = [])) as [Hc|Hc]; cbn [negb];
    rewrite ?andb_false_r, ?andb_true_r; [|destruct (String.eqb_spec (MetricsURL src) ""); cbn [negb]; [|done]];
    intros [= <-]; cbn; (split; [by apply or_default_nonzero|]); (split; [auto|]); intros; [done|by destruct (CmdNeedChroot src)].
Qed.

Lemma initOnline_ok c c' : initOnlineConfig c = Ret c' -> online_ok c'.
Proof.
  unfold initOnlineConfig, mbind, outcome_bind. destruct (initOnlineJobs (Jobs c)) as [jobs|] eqn:Ej; [|done]. intros [= <-].
  unfold online_ok. cbn. split_and!; [by apply or_default_nonzero|destruct (Z.eqb_spec (on_BatchNum c) 0); done|].
  revert jobs Ej. induction (Jobs c) as [|j js IH]; intros jobs Ej; cbn in Ej; [injection Ej as <-; constructor|].
  unfold mbind, outcome_bind in Ej. destruct (initOnlineMetrics (oj_Metrics j)) as [ms|] eqn:Em; [|done].
  destruct (initOnlineJobs js) as [rest|]; [|done]. injection Ej as <-. constructor; [|by apply IH]. cbn.
  revert ms Em. clear. induction (oj_Metrics j) as [|[n src] l IH]; intros ms Em; cbn in Em; [injection Em as <-; constructor|].
  unfold mbind, outcome_bind in Em. destruct (initSource src) as [src'|] eqn:E; [|done]. destruct (initOnlineMetrics l); [|done].
  injection Em as <-. constructor; [by eapply initSource_ok|by apply IH].
Qed.

Lemma initAlarm_ok c c' : initAlarmConfig c = Ret c' ->
  Alarm.Enable c' = true -> AvailableAlarmType (ChannelName c') = true /\ MessageBatch c' <> 0 /\ MessageDelay c' <> 0.
Proof.
  unfold initAlarmConfig. destruct (Alarm.Enable c) eqn:Ee; cbn [negb]; [|intros [= <-]; congruence].
  destruct (AvailableAlarmType _) eqn:Ea; cbn [negb]; [|done]. intros [= <-] _. cbn. split; [done|].
  split; [destruct (Z.eqb_spec (MessageBatch c) 0); done|destruct (Z.eqb_spec (MessageDelay c) 0); done].
Qed.

Context {Q : Type} `{QO : QuantityOps Q} {VL : VpaLib} {ME : MachineEnv} (totalResource : gmap string Q).

(** Every part of an accepted configuration was checked. *)
Lemma initJsonConfig_wf inHost c w c' w' :
  initJsonConfig totalResource inHost c w = Ret (c', w') -> config_wf (Q := Q) w' c'.
Proof.
  unfold initJsonConfig. intros H.
  apply sc_bind_Ret in H as ([] & ? & [Ht ->]%sc_of_Ret & H). apply sc_bind_Ret in H as (node & ? & [Hnode ->]%sc_of_Ret & H).
  apply sc_bind_Ret in H as (metrics & ? & [Hmetrics ->]%sc_of_Ret & H). apply sc_bind_Ret in H as (predicts & ? & [Hp ->]%sc_of_Ret & H).
  apply sc_bind_Ret in H as (isolate & w1 & Hisolate & H). apply sc_bind_Ret in H as (alarm & ? & [Halarm ->]%sc_of_Ret & H).
  apply sc_bind_Ret in H as (cpi & ? & [Hcpi ->]%sc_of_Ret & H). apply sc_bind_Ret in H as (online & ? & [Honline ->]%sc_of_Ret & H).
  apply sc_bind_Ret in H as (quota & ? & [Hquota ->]%sc_of_Ret & H). injection H as <- <-.
  split; cbn.
  - unfold initTaskType in Ht. destruct (AvailableOnlineTaskType _); [|done]. by destruct (AvailableOfflineTaskType _).
  - by destruct (String.eqb_spec (CheckPointDir c) "").
  - by eapply initNode_ok.
  - by eapply initMetrics_ok.
  - unfold initPredictConfigs in Hp. destruct (Predicts c) as [|p ps]; [done|]. apply initConfigsLoop_ok in Hp as [Hok Hlen].
    split; [by destruct predicts|done].
  - intros Hd. unfold initResourceIsolateConfig in Hisolate. destruct (ri_Disable (ResourceIsolate c)) eqn:Er; [injection Hisolate as <- <-; congruence|].
    apply sc_bind_Ret in Hisolate as ([eni iface] & ? & [_ ->]%sc_of_Ret & Hi). apply sc_bind_Ret in Hi as (cpu & w2 & Hcpu & Hi).
    injection Hi as <- <-. cbn. split; [by apply or_default_nonzero|by eapply initCpu_ok].
  - by eapply initAlarm_ok.
  - unfold initCPIManagerConfig in Hcpi. destruct (url_Parse _); [|done]. injection Hcpi as <-. by split; apply or_default_nonzero.
  - by eapply initOnline_ok.
  - unfold initDiskQuotaManager in Hquota. destruct (String.eqb_spec (if (ContainerRuntime (DiskQuotaOf c) =? "")%string then "docker" else ContainerRuntime (DiskQuotaOf c)) "docker") as [E|]; [|done].
    injection Hquota as <-. split; [by apply or_default_nonzero|exact E].
Qed.

(** C23: a configuration that is accepted is well-formed: its types, policies and
    channels are known, the policy for processors works with the kernel and
    kubelet of this node, no interval or batch is zero, the periods of silence
    are disjoint, and the predictors and sources of metrics are set. *)
Theorem initialised_config_wf inHost c w c' w' :
  initJsonConfig totalResource inHost c w = Ret (c', w') -> config_wf (Q := Q) w' c'.
Proof. apply initJsonConfig_wf. Qed.

Lemma initNode_enabled c t c' : initNodeResourceConfig c t = Ret c' -> nr_Disable c = false -> nr_Disable c' = false.
Proof.
  intros H Hd. unfold initNodeResourceConfig in H. rewrite Hd in H. apply outcome_bind_Ret in H as ([port y] & _ & H).
  apply outcome_bind_Ret in H as (d & _ & H). apply outcome_bind_Ret in H as ([] & _ & H). by injection H as <-.
Qed.

(** After its initialisation a node is silent in at most one period at a time,
    so the start and the end of a silence are unambiguous. *)
Theorem silence_periods_disjoint config t config' zone now i j it it' :
  initNodeResourceConfig config t = Ret config' -> nr_Disable config = false ->
  Periods config' !! i = Some it -> Periods config' !! j = Some it' ->
  IsTimeInSecondsDay zone now it = true -> IsTimeInSecondsDay zone now it' = true -> i = j.
Proof.
  intros H Hd Hi Hj Ht Ht'. pose proof (initNode_ok _ _ _ H) as Hok.
  pose proof (initNode_enabled _ _ _ H Hd) as Hd'.
  destruct (Hok Hd') as (_ & _ & [Hne Hgap] & _).
  assert (Hlt : forall k1 k2 a b, (k1 < k2)%nat -> Periods config' !! k1 = Some a -> Periods config' !! k2 = Some b -> a.2 < b.1).
  { intros k1 k2 a b Hlt. revert a. induction Hlt as [|k2 Hlt IH] in b |- *; intros a Ha Hb; [by eapply Hgap|].
    destruct (lookup_lt_is_Some_2 (Periods config') k2) as [m Hm]; [apply lookup_lt_Some in Hb; lia|].
    pose proof (IH m a Ha Hm). pose proof (Hgap _ _ _ Hm Hb). pose proof (Forall_lookup_1 _ _ _ _ Hne Hm) as Hm'. cbn in Hm'. lia. }
  unfold IsTimeInSecondsDay in Ht, Ht'. set (sec := uint32 _) in *. apply andb_true_iff in Ht as [H1%Z.leb_le H2%Z.leb_le].
  apply andb_true_iff in Ht' as [H3%Z.leb_le H4%Z.leb_le].
  destruct (Nat.lt_trichotomy i j) as [Hij|[Hij|Hij]]; [|done|]; [pose proof (Hlt _ _ _ _ Hij Hi Hj)|pose proof (Hlt _ _ _ _ Hij Hj Hi)]; lia.
Qed.

(** Offline jobs on YARN are never offered fewer processors by an accepted
    over-commitment: whatever the time of the day, the percentage that is applied
    is not below one. *)
Theorem overcommit_never_shrinks config t config' zone now :
  initNodeResourceConfig config t = Ret config' -> nr_Disable config = false -> OfflineOnYarn t = true ->
  let oc := CpuOverCommit (nr_YarnConfig config') in
  oc_Enable oc = true -> flt (periodPercent zone now (OverCommitPercent oc) (oc_Periods oc)) fone = false.
Proof.
  intros H Hd Hy oc He. pose proof (initNode_ok _ _ _ H) as Hok.
  pose proof (initNode_enabled _ _ _ H Hd) as Hd'.
  destruct (Hok Hd') as (_ & _ & _ & _ & _ & _ & _ & Hyarn). destruct (Hyarn Hy) as (_ & _ & Hoc). destruct (Hoc He) as [H1 H2].
  fold oc in H1, H2. revert H1 H2. generalize (OverCommitPercent oc). induction (oc_Periods oc) as [|[range p] ps IH]; intros d H1 H2; cbn [periodPercent]; [exact H1|].
  apply Forall_cons in H2 as [[_ Hp] H2]. destruct (IsTimeInSecondsDay zone now range); [exact Hp|by apply IH].
Qed.

(** An interface without a property, which the collection of metrics accepts, ends
    the process when resources are isolated. *)
Theorem plain_iface_panics inHost config node t dir f fs w :
  ri_Disable config = false -> IfacesWithProperty node = f :: fs -> cut_byte f "_" = None ->
  initResourceIsolateConfig inHost config node t dir w = Crash (Panic "slice bounds out of range").
Proof.
  intros Hd Hf Hc. unfold initResourceIsolateConfig. rewrite Hd, Hf. unfold mbind, SC_bind, sc_of. cbn [splitIfaces]. by rewrite Hc.
Qed.
End Wf.

(** ** Witnesses *)

Definition ex_config_env : ConfigEnv := {|
  os_Stat := fun p => if (p =? "/rootfs/proc")%string then StatNotExist else if (p =? "/dev/sda")%string then StatOk else StatNotExist;
  InterfaceByName := fun n => if (n =? "eth0")%string then Ok true else Err "no such interface";
  cfg_ReadFile := fun _ => Ok "{policyName: none}";
  os_Readlink := fun _ => "";
  url_Parse := fun s => Ok s;
|}.

Definition ex_types : TaskTypeConfig := mkTaskType "k8s" "yarn_on_k8s".
Definition ex_yarn_config : YarnConfig :=
  mkYarnConfig 0 None None fzero fzero ex_range ex_range (mkOverCommit true fzero [((0, 3600), flit 3 2)]) (mkDisksConfig None true 0 0)
    (mkGInitConfig false false true false).
Definition ex_node_config : NodeResourceConfig :=
  mkNodeResource false 0 "" "localhost:10000" "" ex_yarn_config 0 [(0, 3600); (7200, 10800)].
Definition ex_isolate : ResourceIsolateConfig := mkIsolate false 0 [] "" "" (mkCpuIsolate true "" true false) "" "".

Definition ex_caelus : CaelusConfig :=
  mkCaelus "" "" ex_types ex_node_config [ex_predict_config]
    (mkMetrics (mkMetricsNode 0 "" ["eth0_eni"] [] ["sda"; "sdb"]) (mkMetricsContainer [] 0 0) (mkMetricsPerf true 0 0)
       (mkMetricsRdt false "" 0 0 0) (mkMetricsPrometheus 0 [Some (mkPrometheusData "a" ["m"] [] ∅ ∅)]))
    ex_isolate (mkCPI 0 "" "" 0) (mkAlarmConfig true "" 0 0 "" false None None)
    (mkOnline 0 0 [mkJob "j" [("slo", mkSource 0 ["cmd"] None "")]]) (mkDiskQuota 0 "").

Definition ex_config_world : world := mkWorld ∅ 0 ∅ 0 false false false.

Definition ex_initialised : option (CaelusConfig * world) :=
  match initJsonConfig (CE := ex_env) (CF := ex_config_env) (Q := Z) (VL := ex_vpa_lib) (ME := ex_machine) ∅ true ex_caelus ex_config_world with
  | Ret r => Some r
  | Crash _ => None
  end.

(** The disk that does not exist is dropped, and the policy for processors is the one without support of the kernel. *)
Example ex_initialised_parts :
  (fun '(c, _) => (Ifaces (mt_Node (Metrics c)), ri_DiskNames (ResourceIsolate c), EniIface (ResourceIsolate c), ManagePolicy (CpuConfig (ResourceIsolate c)),
     MessageBatch (AlarmOf c))) <$> ex_initialised = Some (["eth0"], ["sda"], "eth0", "quota", 10).
Proof. vm_compute. reflexivity. Qed.

Lemma initialised_config_wf_witness : exists c' w', ex_initialised = Some (c', w') /\ config_wf (CE := ex_env) (Q := Z) w' c'.
Proof.
  unfold ex_initialised. destruct (initJsonConfig _ _ _ _) as [[c' w']|c] eqn:E; [|vm_compute in E; discriminate E].
  exists c', w'. split; [reflexivity|]. exact (initialised_config_wf (CE := ex_env) (CF := ex_config_env) (Q := Z) (VL := ex_vpa_lib) (ME := ex_machine) ∅ true ex_caelus ex_config_world c' w' E).
Defined.

Definition ex_node' : NodeResourceConfig :=
  match initNodeResourceConfig ex_node_config ex_types with Ret c => c | Crash _ => ex_node_config end.

Lemma silence_periods_disjoint_witness :
  Periods ex_node' !! 1%nat = Some (7200, 10800) /\ (forall it, Periods ex_node' !! 0%nat = Some it -> IsTimeInSecondsDay 0 (8000 * Second) it = true -> 0%nat = 1%nat).
Proof.
  split; [vm_compute; reflexivity|]. intros it H0 Ht.
  refine (silence_periods_disjoint ex_node_config ex_types ex_node' 0 (8000 * Second) 0 1 it (7200, 10800) _ _ H0 _ Ht _); vm_compute; reflexivity.
Defined.

Lemma overcommit_never_shrinks_witness :
  flt (periodPercent 0 0 (OverCommitPercent (CpuOverCommit (nr_YarnConfig ex_node'))) (oc_Periods (CpuOverCommit (nr_YarnConfig ex_node')))) fone = false.
Proof. refine (overcommit_never_shrinks ex_node_config ex_types ex_node' 0 0 _ _ _ _); vm_compute; reflexivity. Defined.
