(* ===== verification/HealthConfig.v ===== *)
(** * Configuration of the health checks

    pkg/caelus/types/health_check.go: the rules are read from their own file.
    Intervals get their defaults, the arguments of the detectors are decoded, the
    expressions that say [auto] are generated from the reserve of the prediction,
    and the metrics and expressions with a generic device are expanded for the
    devices of the node.  The decoding of JSON is an argument. *)

From Stdlib Require Import Ascii Floats.SpecFloat.
From S2P Require Import Prelude GoStrings GoFloat Quantity Detection RuleCheck Ginit Predict Notify Checkers Config.

#[local] Open Scope string_scope.
#[local] Open Scope Z_scope.
#[local] Open Scope list_scope.

(** ** Printing floats *)

(** [m * 2^e] in millionths, to the nearest and the even of two. *)
Definition millionths (m : positive) (e : Z) : Z :=
  if 0 <=? e then Z.shiftl (Zpos m) e * 10 ^ 6
  else
    let n := Zpos m * 10 ^ 6 in
    let d := 2 ^ (- e) in
    let q := n / d in
    let r := n mod d in
    if (d <? 2 * r) || ((2 * r =? d) && Z.odd q) then q + 1 else q.

(** [%f] of [fmt.Sprintf]. *)
Definition Sprintf_f (x : float64) : string :=
  match x with
  | S754_nan => "NaN"
  | S754_infinity false => "+Inf"
  | S754_infinity true => "-Inf"
  | S754_zero s => (if s then "-" else "") +:+ "0.000000"
  | S754_finite s m e =>
      let q := millionths m e in
      (if s then "-" else "") +:+ print_nonneg (q / 10 ^ 6) +:+ "." +:+ drop_string 1 (print_nonneg (10 ^ 6 + q mod 10 ^ 6))
  end.

Example print_float : map Sprintf_f [flit 9 10; flit 1 3; fneg (flit 5 2); float64_of_Z 1024; flit 1 10000000] =
  ["0.900000"; "0.333333"; "-2.500000"; "1024.000000"; "0.000000"].
Proof. vm_compute. reflexivity. Qed.

(** ** Data *)

Definition defaultRuleInterval : duration := 1 * Minute.
Definition defaultExpressionWarningCount : Z := 1.
Definition ExpresstionAutoDetect : string := "auto".
Definition DetectionExpression : string := "expression".
Definition DetectionEWMA : string := "ewma".
Definition ruleNameCpu : string := "cpu".
Definition ruleNameMemmory : string := "memory".
Definition ruleNameDiskIO : string := "diskio".
Definition ruleNameNetIO : string := "netio".
Definition genericDev : string := "$dev".
Definition pressureLevel (l : string) : bool := (l =? "low")%string || (l =? "medium")%string || (l =? "critical")%string.

Record ExpressionArgs := mkExpressionArgs { Expression : string; WarningCount : Z; WarningDuration : duration }.
Record EWMAArgs := mkEWMAArgs { Metric : string; Nr : Z }.

(** The rules of the file, whose lists can hold [null]. *)
Record RawDetect := mkRawDetect { rd_Name : string; ArgsStr : string }.
Record RawDetectAction := mkRawDetectAction { Detects : list (option RawDetect); Actions : list ActionConfig }.
Record RawRule := mkRawRule {
  rr_Name : string;
  rr_Metrics : list string;
  rr_CheckInterval : duration;
  rr_HandleInterval : duration;
  rr_RecoverInterval : duration;
  rr_Rules : list (option RawDetectAction);
  rr_RecoverRules : list (option RawDetectAction);
}.

Record NotifyConfig := mkNotifyConfig { Pressures : list MemoryPressureNotifyConfig; Usages : list MemoryUsageNotifyConfig }.

Record RawHealthCheck := mkRawHealth {
  rh_Disable : bool;
  RuleNodes : list string;
  rh_ContainerRules : list (option RawRule);
  rh_NodeRules : list (option RawRule);
  rh_AppRules : list (option RawRule);
  rh_CgroupNotify : option NotifyConfig;
}.

Record HealthCheckConfig := mkHealth {
  hc_Disable : bool;
  hc_RuleNodes : list string;
  hc_ContainerRules : list (option RuleCheckConfig);
  hc_NodeRules : list (option RuleCheckConfig);
  hc_AppRules : list (option RuleCheckConfig);
  hc_CgroupNotify : option NotifyConfig;
  PredictReserved : Resource;
}.

(** ** Devices *)

Definition generateMetricsWithDev (metrics devices : list string) : list string :=
  concat (map (fun m => if negb (Contains m genericDev) then [m]
                        else map (fun dev => ReplaceAll m genericDev (deviceMetricPrefix +:+ dev)) devices) metrics).

Definition generateExpressionEvaluateWithDev (expStr : string) (devices : list string) : string :=
  if negb (Contains expStr genericDev) || bool_decide (devices = []) then expStr
  else Join (map (fun dev => ReplaceAll expStr genericDev dev) devices) " || ".

Section HealthConfig.
Context {Q : Type} `{QO : QuantityOps Q} {ME : MachineEnv} (totalResource : gmap string Q).
Context (unmarshal_expression : string -> result ExpressionArgs) (unmarshal_ewma : string -> result EWMAArgs).
Context (nodeMetrics : MetricsNodeConfig) (predictReserve : Resource).

(** [Metrics[0]] of a rule that has metrics. *)
Definition first_metric (metrics : list string) : outcome string :=
  match metrics with m :: _ => Ret m | [] => Crash (Panic "index out of range") end.

Definition deref {A} (p : option A) : outcome A :=
  match p with Some a => Ret a | None => Crash (Panic "nil pointer dereference") end.

Definition auto_cpu (metrics : list string) (recoveryRule : bool) : outcome string :=
  metric ← first_metric metrics;
  cpuReserve ← deref (CpuMilli predictReserve);
  let total := ok_or totalResource (GetTotalResource totalResource) in
  let cpuTotal := float64_of_Z (cpuMilli total) in
  let cpuUsage := fdiv (fsub cpuTotal cpuReserve) cpuTotal in
  let cpuUsage := if flt cpuUsage (flit 85 100) then fadd cpuUsage (flit 5 100) else cpuUsage in
  Ret (if recoveryRule then metric +:+ " < " +:+ Sprintf_f (fsub cpuUsage (flit 5 100))
       else metric +:+ " > " +:+ Sprintf_f cpuUsage).

Definition auto_memory (metrics : list string) (recoveryRule : bool) : outcome string :=
  metric ← first_metric metrics;
  memReserve ← deref (MemMB predictReserve);
  let memAvailable := fsub (fmul memReserve (float64_of_Z MemUnit)) (float64_of_Z (1024 * MemUnit)) in
  Ret (if recoveryRule then metric +:+ " > " +:+ Sprintf_f (fadd memAvailable (float64_of_Z (1024 * MemUnit)))
       else metric +:+ " < " +:+ Sprintf_f memAvailable).

(** The metrics of the rule and the expression. *)
Definition initExpressionEvaluate (name : string) (metrics : list string) (expression : string) (recoveryRule : bool) :
    outcome (list string * string) :=
  if (name =? ruleNameCpu)%string then
    if (expression =? ExpresstionAutoDetect)%string then e ← auto_cpu metrics recoveryRule; Ret (metrics, e) else Ret (metrics, expression)
  else if (name =? ruleNameMemmory)%string then
    if (expression =? ExpresstionAutoDetect)%string then e ← auto_memory metrics recoveryRule; Ret (metrics, e) else Ret (metrics, expression)
  else if (name =? ruleNameDiskIO)%string then
    Ret (generateMetricsWithDev metrics (DiskNames nodeMetrics), generateExpressionEvaluateWithDev expression (DiskNames nodeMetrics))
  else if (name =? ruleNameNetIO)%string then
    Ret (generateMetricsWithDev metrics (Ifaces nodeMetrics), generateExpressionEvaluateWithDev expression (Ifaces nodeMetrics))
  else Ret (metrics, expression).

(** One detector of a rule, with the metrics of the rule after it. *)
Definition initDetect (name : string) (metrics : list string) (recoveryRule : bool) (d : RawDetect) : outcome (list string * DetectConfig) :=
  if (rd_Name d =? DetectionEWMA)%string then
    match unmarshal_ewma (ArgsStr d) with
    | Err _ => Crash (Fatal "invalid rule")
    | Ok args => Ret (metrics, mkDetectConfig (rd_Name d) "" 0 0 (Nr args) (Metric args))
    end
  else if (rd_Name d =? DetectionExpression)%string then
    if (length metrics =? 0)%nat then Crash (Fatal "rule should specific metric")
    else match unmarshal_expression (ArgsStr d) with
         | Err _ => Crash (Fatal "invalid rule")
         | Ok args =>
             let count := if (WarningCount args <=? 0) && (WarningDuration args =? 0) then defaultExpressionWarningCount else WarningCount args in
             '(metrics', expression) ← initExpressionEvaluate name metrics (Expression args) recoveryRule;
             Ret (metrics', mkDetectConfig (rd_Name d) expression count (WarningDuration args) 0 "")
         end
  else Ret (metrics, mkDetectConfig (rd_Name d) "" 0 0 0 "").

Fixpoint initDetects (name : string) (metrics : list string) (recoveryRule : bool) (ds : list (option RawDetect)) :
    outcome (list string * list DetectConfig) :=
  match ds with
  | [] => Ret (metrics, [])
  | d :: ds' =>
      d ← deref d;
      '(metrics1, d1) ← initDetect name metrics recoveryRule d;
      '(metrics2, ds2) ← initDetects name metrics1 recoveryRule ds';
      Ret (metrics2, d1 :: ds2)
  end.

Definition detectActionAvailable (name : string) (metrics : list string) (detectAction : option RawDetectAction) (recoveryRule : bool) :
    outcome (list string * option DetectActionConfig) :=
  da ← deref detectAction;
  '(metrics', ds) ← initDetects name metrics recoveryRule (Detects da);
  Ret (metrics', Some (mkDetectActionConfig ds (Actions da))).

Fixpoint initDetectActions (name : string) (metrics : list string) (das : list (option RawDetectAction)) (recoveryRule : bool) :
    outcome (list string * list (option DetectActionConfig)) :=
  match das with
  | [] => Ret (metrics, [])
  | da :: das' =>
      '(metrics1, da1) ← detectActionAvailable name metrics da recoveryRule;
      '(metrics2, das2) ← initDetectActions name metrics1 das' recoveryRule;
      Ret (metrics2, da1 :: das2)
  end.

Definition ruleCheckAvailable (ruleCheck : option RawRule) : outcome (option RuleCheckConfig) :=
  match ruleCheck with
  | None => Ret None
  | Some r =>
      let check := or_default defaultRuleInterval (rr_CheckInterval r) in
      '(metrics1, rs) ← initDetectActions (rr_Name r) (rr_Metrics r) (rr_Rules r) false;
      '(metrics2, rrs) ← initDetectActions (rr_Name r) metrics1 (rr_RecoverRules r) true;
      Ret (Some (mkRuleCheckConfig (rr_Name r) metrics2 check (or_default check (rr_HandleInterval r)) (or_default check (rr_RecoverInterval r)) rs rrs))
  end.

Fixpoint rulesAvailable (rs : list (option RawRule)) : outcome (list (option RuleCheckConfig)) :=
  match rs with
  | [] => Ret []
  | r :: rs' => r1 ← ruleCheckAvailable r; rest ← rulesAvailable rs'; Ret (r1 :: rest)
  end.

Fixpoint checkPressures (ps : list MemoryPressureNotifyConfig) : outcome unit :=
  match ps with
  | [] => Ret tt
  | p :: ps' =>
      if negb (length (pr_Cgroups p) =? 0)%nat && negb (pressureLevel (PressureLevel p)) then Crash (Fatal "invalid pressure level")
      else checkPressures ps'
  end.

Definition initNotifyConfig (cfg : option NotifyConfig) : outcome unit :=
  match cfg with Some c => checkPressures (Pressures c) | None => Ret tt end.

(** The function that reads the file, which is also called when the file changes. *)
Definition InitHealthCheckConfig (read : result string) (decode : string -> result RawHealthCheck) : outcome (result HealthCheckConfig) :=
  match read with
  | Err e => Ret (Err e)
  | Ok bytes =>
      match decode bytes with
      | Err e => Ret (Err e)
      | Ok config =>
          node ← rulesAvailable (rh_NodeRules config);
          container ← rulesAvailable (rh_ContainerRules config);
          app ← rulesAvailable (rh_AppRules config);
          _ ← initNotifyConfig (rh_CgroupNotify config);
          Ret (Ok (mkHealth (rh_Disable config) (RuleNodes config) container node app (rh_CgroupNotify config) predictReserve))
      end
  end.
End HealthConfig.

(** ** Generic devices *)

Lemma free_no_prefix s : string_free "$" s -> HasPrefix s genericDev = false.
Proof. destruct s as [|c s]; [done|]. intros [Hc _]. unfold HasPrefix, genericDev. cbn [String.prefix]. by destruct (ascii_dec "$" c) as [<-|]. Qed.

Lemma free_Contains s : string_free "$" s -> Contains s genericDev = false.
Proof.
  induction s as [|c s IH]; intros Hs; [done|]. pose proof (free_no_prefix _ Hs) as Hp. destruct Hs as [_ Hs].
  unfold HasPrefix in Hp. cbn [Contains]. by rewrite Hp, (IH Hs).
Qed.

Lemma replace_free fuel s new : string_free "$" s -> replace_from fuel s genericDev new = s.
Proof.
  revert s. induction fuel as [|fuel IH]; intros s Hs; [done|]. destruct s as [|c s]; [done|]. cbn [replace_from].
  rewrite (free_no_prefix _ Hs). destruct Hs as [_ Hs]. by rewrite IH.
Qed.

Lemma replace_once fuel a b new :
  string_free "$" a -> string_free "$" b -> (String.length a < fuel)%nat ->
  replace_from fuel (a +:+ genericDev +:+ b) genericDev new = a +:+ new +:+ b.
Proof.
  revert fuel. induction a as [|c a IH]; intros fuel Ha Hb Hf; (destruct fuel as [|fuel]; [simpl in Hf; lia|]).
  - change (replace_from (S fuel) (String "$" ("dev" +:+ b)) genericDev new = new +:+ b). cbn [replace_from].
    assert (Hp : HasPrefix (String "$" ("dev" +:+ b)) genericDev = true) by (by destruct b). rewrite Hp. f_equal. by apply replace_free.
  - change (replace_from (S fuel) (String c (a +:+ genericDev +:+ b)) genericDev new = String c (a +:+ new +:+ b)). cbn [replace_from].
    destruct Ha as [Hc Ha]. assert (Hp : HasPrefix (String c (a +:+ genericDev +:+ b)) genericDev = false).
    { unfold HasPrefix, genericDev. cbn [String.prefix]. by destruct (ascii_dec "$" c) as [<-|]. }
    rewrite Hp, IH; [done|done|done|]. simpl in Hf. lia.
Qed.

Lemma ReplaceAll_once a b new :
  string_free "$" a -> string_free "$" b -> ReplaceAll (a +:+ genericDev +:+ b) genericDev new = a +:+ new +:+ b.
Proof. intros Ha Hb. apply replace_once; [done|done|]. rewrite !string_length_app. change (String.length genericDev) with 4%nat. lia. Qed.

Lemma Contains_generic a b : Contains (a +:+ genericDev +:+ b) genericDev = true.
Proof.
  induction a as [|c a IH]; [by destruct b|]. change (String c a +:+ genericDev +:+ b) with (String c (a +:+ genericDev +:+ b)).
  cbn [Contains]. by rewrite IH, orb_true_r.
Qed.

(** A metric that names the generic device at most once. *)
Definition plain_metric (m : string) : Prop :=
  string_free "$" m \/ exists a b, m = a +:+ genericDev +:+ b /\ string_free "$" a /\ string_free "$" b.

Lemma expanded_free metrics devices :
  Forall plain_metric metrics -> Forall (string_free "$") devices -> Forall (string_free "$") (generateMetricsWithDev metrics devices).
Proof.
  intros Hm Hd. unfold generateMetricsWithDev. induction Hm as [|m ms Hm _ IH]; cbn [map concat]; [constructor|].
  apply Forall_app. split; [|done]. destruct Hm as [Hm|(a & b & -> & Ha & Hb)].
  - rewrite free_Contains by done. by repeat constructor.
  - rewrite Contains_generic. cbn [negb]. apply Forall_map. eapply Forall_impl; [exact Hd|]. intros dev Hdev.
    rewrite ReplaceAll_once by done. rewrite (string_free_app "$" a), (string_free_app "$" _ b). split_and!; [done| |done].
    change (string_free "$" ("dev_" +:+ dev)). rewrite string_free_app. split; [|done]. vm_compute. repeat split; discriminate.
Qed.

Lemma expand_free metrics devices : Forall (string_free "$") metrics -> generateMetricsWithDev metrics devices = metrics.
Proof.
  unfold generateMetricsWithDev. induction 1 as [|m ms Hm _ IH]; cbn [map concat]; [done|]. by rewrite free_Contains, IH.
Qed.

Lemma free_plain l : Forall (string_free "$") l -> Forall plain_metric l.
Proof. intros H. eapply Forall_impl; [exact H|]. intros m Hm. by left. Qed.

(** The metrics that are generated for the devices of a node are taken apart
    again into the device and the metric, for device names without an
    underscore. *)
Theorem device_metrics_roundtrip b devices :
  string_free "$" b -> Forall (fun dev => string_free "_" dev) devices ->
  map GetDeviceNameFromMetric (generateMetricsWithDev [genericDev +:+ "_" +:+ b] devices) =
  map (fun dev => Ret (dev, dev +:+ "_" +:+ b, b)) devices.
Proof.
  intros Hb Hd. unfold generateMetricsWithDev. cbn [map concat]. rewrite app_nil_r.
  assert (Hg : Contains (genericDev +:+ "_" +:+ b) genericDev = true) by exact (Contains_generic "" ("_" +:+ b)).
  rewrite Hg. cbn [negb]. rewrite map_map. apply map_ext_in. intros dev Hin.
  apply list_elem_of_In in Hin. rewrite Forall_forall in Hd. specialize (Hd dev Hin).
  assert (Hr : ReplaceAll (genericDev +:+ "_" +:+ b) genericDev (deviceMetricPrefix +:+ dev) = deviceMetricPrefix +:+ (dev +:+ "_" +:+ b)).
  { rewrite <- string_app_assoc. by apply (ReplaceAll_once "" ("_" +:+ b)). }
  rewrite Hr. by apply GetDeviceName_dev.
Qed.

(** ** Initialised rules *)

(** An expression is checked after a number of warnings or for some time. *)
Definition detect_ok (d : DetectConfig) : Prop :=
  dc_name d = DetectionExpression -> 0 < dc_warningCount d \/ dc_warningDuration d <> 0.

Definition action_ok (da : option DetectActionConfig) : Prop :=
  match da with Some a => Forall detect_ok (da_detects a) | None => False end.

Definition rule_ok (r : option RuleCheckConfig) : Prop :=
  match r with
  | None => True
  | Some r => rcc_CheckInterval r <> 0 /\ rcc_HandleInterval r <> 0 /\ rcc_RecoverInterval r <> 0 /\
      Forall action_ok (rcc_Rules r) /\ Forall action_ok (rcc_RecoverRules r)
  end.

Section Rules.
Context {Q : Type} `{QO : QuantityOps Q} {ME : MachineEnv} (totalResource : gmap string Q).
Context (unmarshal_expression : string -> result ExpressionArgs) (unmarshal_ewma : string -> result EWMAArgs).
Context (nodeMetrics : MetricsNodeConfig) (predictReserve : Resource).

(** The devices for which the metrics of a rule are expanded, if any. *)
Definition rule_devices (name : string) : option (list string) :=
  if (name =? ruleNameDiskIO)%string then Some (DiskNames nodeMetrics)
  else if (name =? ruleNameNetIO)%string then Some (Ifaces nodeMetrics) else None.

Definition expanded (name : string) (metrics : list string) : list string :=
  match rule_devices name with Some devs => generateMetricsWithDev metrics devs | None => metrics end.

#[local] Abbreviation initDetect' := (initDetect totalResource unmarshal_expression unmarshal_ewma nodeMetrics predictReserve).
#[local] Abbreviation initDetects' := (initDetects totalResource unmarshal_expression unmarshal_ewma nodeMetrics predictReserve).
#[local] Abbreviation initDetectActions' := (initDetectActions totalResource unmarshal_expression unmarshal_ewma nodeMetrics predictReserve).

Lemma initExpression_metrics name metrics e rec ms e' :
  initExpressionEvaluate totalResource nodeMetrics predictReserve name metrics e rec = Ret (ms, e') -> ms = expanded name metrics.
Proof.
  unfold initExpressionEvaluate, expanded, rule_devices.
  destruct (String.eqb_spec name ruleNameCpu) as [->|]; [|destruct (String.eqb_spec name ruleNameMemmory) as [->|]].
  1,2: destruct (e =? _)%string; [|by intros [= <- _]]; intros H; apply outcome_bind_Ret in H as (x & _ & H); by injection H as <- _.
  destruct (name =? ruleNameDiskIO)%string; [by intros [= <- _]|]. destruct (name =? ruleNameNetIO)%string; by intros [= <- _].
Qed.

(** A detector keeps the metrics of its rule, or expands them if it is an expression. *)
Lemma initDetect_ok name metrics rec d ms d' :
  initDetect' name metrics rec d = Ret (ms, d') ->
  detect_ok d' /\ (ms = metrics \/ ms = expanded name metrics).
Proof.
  unfold initDetect, detect_ok. destruct (String.eqb_spec (rd_Name d) DetectionEWMA) as [E|_].
  { destruct (unmarshal_ewma _); [|done]. intros [= <- <-]. cbn. rewrite E. split; [done|by left]. }
  destruct (String.eqb_spec (rd_Name d) DetectionExpression) as [E|E].
  - destruct (length metrics =? 0)%nat; [done|]. destruct (unmarshal_expression _) as [args|]; [|done].
    intros H. apply outcome_bind_Ret in H as ([ms1 e1] & He & H). injection H as <- <-. apply initExpression_metrics in He as ->.
    split; [|by right]. intros _. cbn [dc_warningCount dc_warningDuration].
    destruct (Z.leb_spec (WarningCount args) 0), (Z.eqb_spec (WarningDuration args) 0); cbn [andb]; [by left|by right|by left|by left].
  - intros [= <- <-]. cbn. split; [congruence|by left].
Qed.

(** The devices of a rule have names without a dollar. *)
Definition devices_free (name : string) : Prop := forall devs, rule_devices name = Some devs -> Forall (string_free "$") devs.

Lemma expanded_plain name metrics :
  devices_free name -> Forall plain_metric metrics ->
  Forall plain_metric (expanded name metrics) /\ expanded name (expanded name metrics) = expanded name metrics.
Proof.
  intros Hdev Hm. unfold expanded. destruct (rule_devices name) as [devs|] eqn:E; [|done].
  pose proof (expanded_free metrics devs Hm (Hdev devs E)) as Hf. split; [by apply free_plain|by apply expand_free].
Qed.

(** After some detectors the metrics are as before or expanded once. *)
Definition once_expanded (name : string) (metrics ms : list string) : Prop :=
  devices_free name -> Forall plain_metric metrics -> ms = metrics \/ ms = expanded name metrics.

Lemma once_expanded_trans name metrics ms1 ms2 :
  once_expanded name metrics ms1 -> once_expanded name ms1 ms2 -> once_expanded name metrics ms2.
Proof.
  intros H1 H2 Hdev Hm. destruct (expanded_plain name metrics Hdev Hm) as [Hp Hi].
  destruct (H1 Hdev Hm) as [->| ->]; [by apply H2|]. right. destruct (H2 Hdev Hp) as [->| ->]; [done|exact Hi].
Qed.

Lemma initDetects_ok name metrics rec ds ms ds' :
  initDetects' name metrics rec ds = Ret (ms, ds') -> Forall detect_ok ds' /\ once_expanded name metrics ms.
Proof.
  revert metrics ms ds'. induction ds as [|d ds IH]; intros metrics ms ds' H; cbn [initDetects] in H.
  { injection H as <- <-. split; [constructor|]. intros _ _. by left. }
  apply outcome_bind_Ret in H as (d0 & _ & H). apply outcome_bind_Ret in H as ([m1 d1] & H1 & H).
  apply outcome_bind_Ret in H as ([m2 d2] & H2 & H). injection H as <- <-.
  apply initDetect_ok in H1 as [Hd Hm]. apply IH in H2 as [Hds Hms]. split; [by constructor|].
  eapply once_expanded_trans; [|exact Hms]. intros _ _. exact Hm.
Qed.

Lemma initDetectActions_ok name metrics rec das ms das' :
  initDetectActions' name metrics das rec = Ret (ms, das') -> Forall action_ok das' /\ once_expanded name metrics ms.
Proof.
  revert metrics ms das'. induction das as [|da das IH]; intros metrics ms das' H; cbn [initDetectActions] in H.
  { injection H as <- <-. split; [constructor|]. intros _ _. by left. }
  apply outcome_bind_Ret in H as ([m1 a1] & H1 & H). apply outcome_bind_Ret in H as ([m2 a2] & H2 & H). injection H as <- <-.
  unfold detectActionAvailable in H1. apply outcome_bind_Ret in H1 as (a0 & _ & H1). apply outcome_bind_Ret in H1 as ([m0 ds] & H0 & H1).
  injection H1 as <- <-. apply initDetects_ok in H0 as [Hd Hm]. apply IH in H2 as [Ha Hms]. split; [by constructor|].
  by eapply once_expanded_trans.
Qed.

Lemma ruleCheckAvailable_ok r r' :
  ruleCheckAvailable totalResource unmarshal_expression unmarshal_ewma nodeMetrics predictReserve r = Ret r' ->
  rule_ok r' /\ match r, r' with Some r, Some r' => once_expanded (rr_Name r) (rr_Metrics r) (rcc_Metrics r') | None, None => True | _, _ => False end.
Proof.
  destruct r as [r|]; cbn [ruleCheckAvailable]; [|by intros [= <-]]. intros H.
  apply outcome_bind_Ret in H as ([m1 rs] & H1 & H). apply outcome_bind_Ret in H as ([m2 rrs] & H2 & H). injection H as <-. cbn.
  apply initDetectActions_ok in H1 as [Ha1 Hm1]. apply initDetectActions_ok in H2 as [Ha2 Hm2].
  split; [|by eapply once_expanded_trans]. split_and!; try done; repeat apply or_default_nonzero; done.
Qed.

(** However many detectors a rule has, its metrics are those of the file, or
    those expanded once for the devices of the node, when the file names the
    generic device at most once in each. *)
Theorem rule_metrics_expanded_once r r' :
  ruleCheckAvailable totalResource unmarshal_expression unmarshal_ewma nodeMetrics predictReserve (Some r) = Ret (Some r') ->
  Forall plain_metric (rr_Metrics r) -> Forall (string_free "$") (DiskNames nodeMetrics) -> Forall (string_free "$") (Ifaces nodeMetrics) ->
  rcc_Metrics r' = rr_Metrics r \/ rcc_Metrics r' = expanded (rr_Name r) (rr_Metrics r).
Proof.
  intros H Hm Hdisks Hifaces. apply ruleCheckAvailable_ok in H as [_ H]. apply H; [|done].
  unfold devices_free, rule_devices. intros devs. destruct (_ =? _)%string; [by intros [= <-]|]. destruct (_ =? _)%string; [by intros [= <-]|done].
Qed.

Lemma rulesAvailable_ok rs rs' :
  rulesAvailable totalResource unmarshal_expression unmarshal_ewma nodeMetrics predictReserve rs = Ret rs' -> Forall rule_ok rs'.
Proof.
  revert rs'. induction rs as [|r rs IH]; intros rs' H; cbn [rulesAvailable] in H; [injection H as <-; constructor|].
  apply outcome_bind_Ret in H as (r1 & H1 & H). apply outcome_bind_Ret in H as (rest & H2 & H). injection H as <-.
  constructor; [by eapply ruleCheckAvailable_ok|by apply IH].
Qed.

Definition pressure_ok (p : MemoryPressureNotifyConfig) : Prop := pr_Cgroups p <> [] -> pressureLevel (PressureLevel p) = true.

(** C28: the configuration of the health checks that is accepted is well-formed:
    all intervals of its rules are set, an expression needs a warning or some
    time, and the levels of pressure that are listened for exist. *)
Theorem health_config_wf read decode c :
  InitHealthCheckConfig totalResource unmarshal_expression unmarshal_ewma nodeMetrics predictReserve read decode = Ret (Ok c) ->
  Forall rule_ok (hc_NodeRules c) /\ Forall rule_ok (hc_ContainerRules c) /\ Forall rule_ok (hc_AppRules c) /\
  (forall n, hc_CgroupNotify c = Some n -> Forall pressure_ok (Pressures n)).
Proof.
  unfold InitHealthCheckConfig. destruct read as [bytes|]; [|done]. destruct (decode bytes) as [config|]; [|done]. intros H.
  apply outcome_bind_Ret in H as (node & H1 & H). apply outcome_bind_Ret in H as (container & H2 & H).
  apply outcome_bind_Ret in H as (app & H3 & H). apply outcome_bind_Ret in H as ([] & H4 & H). injection H as <-. cbn.
  split_and!; try (by eapply rulesAvailable_ok). intros n Hn. unfold initNotifyConfig in H4. rewrite Hn in H4. clear -H4.
  induction (Pressures n) as [|p ps IH]; [constructor|]. cbn [checkPressures] in H4.
  destruct (length (pr_Cgroups p) =? 0)%nat eqn:El; cbn [negb andb] in H4.
  - constructor; [|by apply IH]. intros Hne. by destruct (pr_Cgroups p).
  - destruct (pressureLevel _) eqn:Ep; [|done]. constructor; [by intros _|by apply IH].
Qed.
End Rules.

(** ** Witnesses *)

Definition ex_metrics_node : MetricsNodeConfig := mkMetricsNode 0 "" [] ["eth0"] ["sda"; "sdb"].
Definition ex_reserve : Resource := mkResource (Some (float64_of_Z 400)) (Some (float64_of_Z 2048)) "" None "" None.
Definition ex_expression (s : string) : result ExpressionArgs := Ok (mkExpressionArgs s 0 0).
Definition ex_ewma (s : string) : result EWMAArgs := Ok (mkEWMAArgs s 20).

Definition ex_disk_rule : RawRule :=
  mkRawRule "diskio" ["$dev_ioutil"] 0 0 0
    [Some (mkRawDetectAction [Some (mkRawDetect "expression" "$dev_ioutil > 90"); Some (mkRawDetect "expression" "$dev_ioutil > 95")] [])] [].
Definition ex_cpu_rule : RawRule :=
  mkRawRule "cpu" ["cpu_percent"] 0 0 0 [Some (mkRawDetectAction [Some (mkRawDetect "expression" "auto")] [])]
    [Some (mkRawDetectAction [Some (mkRawDetect "expression" "auto")] [])].
Definition ex_raw : RawHealthCheck :=
  mkRawHealth false [] [] [Some ex_disk_rule; Some ex_cpu_rule] [] (Some (mkNotifyConfig [mkPressureConfig ["/kubepods"] "low" 0 1] [])).

Definition ex_health : outcome (result HealthCheckConfig) :=
  InitHealthCheckConfig (Q := Z) (ME := ex_machine) ∅ ex_expression ex_ewma ex_metrics_node ex_reserve (Ok "file") (fun _ => Ok ex_raw).

Definition rule_texts (r : option RuleCheckConfig) : list string :=
  match r with
  | Some r => concat (map (fun da => match da with Some a => map dc_expression (da_detects a) | None => [] end) (rcc_Rules r ++ rcc_RecoverRules r))
  | None => []
  end.

Example ex_expressions :
  match ex_health with Ret (Ok c) => map rule_texts (hc_NodeRules c) | _ => [] end =
  [["sda_ioutil > 90 || sdb_ioutil > 90"; "sda_ioutil > 95 || sdb_ioutil > 95"]; ["cpu_percent > 0.900000"; "cpu_percent < 0.850000"]].
Proof. vm_compute. reflexivity. Qed.

Lemma device_metrics_roundtrip_witness :
  map GetDeviceNameFromMetric (generateMetricsWithDev ["$dev_ioutil"] ["sda"; "sdb"]) =
  [Ret ("sda", "sda_ioutil", "ioutil"); Ret ("sdb", "sdb_ioutil", "ioutil")].
Proof. refine (device_metrics_roundtrip "ioutil" ["sda"; "sdb"] _ _); [|repeat constructor]; vm_compute; repeat split; discriminate. Defined.

Lemma rule_metrics_expanded_once_witness :
  exists r', ruleCheckAvailable (Q := Z) (ME := ex_machine) ∅ ex_expression ex_ewma ex_metrics_node ex_reserve (Some ex_disk_rule) = Ret (Some r') /\
    (rcc_Metrics r' = ["$dev_ioutil"] \/ rcc_Metrics r' = ["dev_sda_ioutil"; "dev_sdb_ioutil"]).
Proof.
  eexists. split; [vm_compute; reflexivity|].
  refine (rule_metrics_expanded_once (Q := Z) (ME := ex_machine) ∅ ex_expression ex_ewma ex_metrics_node ex_reserve ex_disk_rule _ _ _ _ _);
    [vm_compute; reflexivity| |repeat constructor; discriminate|repeat constructor; discriminate].
  constructor; [|constructor]. right. exists "", "_ioutil". split; [reflexivity|]. vm_compute. repeat split; discriminate.
Defined.

Lemma health_config_wf_witness :
  exists c, ex_health = Ret (Ok c) /\ Forall rule_ok (hc_NodeRules c).
Proof.
  unfold ex_health. destruct (InitHealthCheckConfig _ _ _ _ _ _ _) as [[c|e]|c] eqn:E; [|vm_compute in E; discriminate E|vm_compute in E; discriminate E].
  exists c. split; [reflexivity|]. exact (proj1 (health_config_wf (Q := Z) (ME := ex_machine) ∅ ex_expression ex_ewma ex_metrics_node ex_reserve _ _ c E)).
Defined.
