(* ===== verification/NodeStore.v ===== *)
(** * The store of node statistics

    pkg/caelus/statestore/common/node: counters of the kernel are turned into
    rates between two readings, kept in a buffer, and read by name.  What the
    libraries report in one round is a [sample]; [structs_Map] is the reflection
    of fatih/structs on the exported fields of a struct with their tags;
    [StateStore] is the buffer of timed values. *)

From Stdlib Require Import Ascii Floats.SpecFloat.
From S2P Require Import Prelude GoStrings GoFloat Quantity Cgroup Qos K8sResource Config RuleCheck Checkers.

#[local] Open Scope string_scope.
#[local] Open Scope Z_scope.
#[local] Open Scope list_scope.

(** ** type.go *)

(** The values of fields. *)
Inductive any : Type :=
| AFloat (f : float64)
| AFloats (l : list float64)
| AInt (z : Z)
| AUint64 (z : Z)
| AString (s : string).

Class Structs := {
  structs_Map : list (string * any) -> gmap string any;
  structs_Map_spec : forall l, NoDup l.*1 -> structs_Map l = list_to_map l;
}.

(** *** Processors *)

Record TimesStat := mkTimes {
  User : float64; System : float64; Idle : float64; Nice : float64; Iowait : float64;
  Irq : float64; Softirq : float64; Steal : float64;
}.

Record NodeCpu := mkNodeCpu {
  nc_state : list TimesStat;
  nc_timestamp : time;
  offlineUsage : Z;
  CpuTotal : float64;
  CpuPerCore : list float64;
  CpuAvg : float64;
  CpuStealTotal : float64;
  CpuStealPerCore : list float64;
  CpuOfflineTotal : float64;
}.

Record NodeLoad := mkNodeLoad { Load1Min : float64; Load5Min : float64; Load15Min : float64 }.

Record NodeMemory := mkNodeMemory {
  mem_Total : float64; UsageTotal : float64; UsageCache : float64; UsageRss : float64; mem_Available : float64;
  OfflineTotal : float64;
}.

(** *** Disks *)

Record DiskCounters := mkDiskCounters { ReadCount : Z; WriteCount : Z; ReadBytes : Z; WriteBytes : Z; IoTime : Z }.

Record DiskIOState := mkDiskIOState {
  DiskReadKiBps : float64; DiskWriteKiBps : float64; DiskReadIOps : float64; DiskWriteIOps : float64; Util : float64;
}.

Record NodeDiskIO := mkNodeDiskIO { nd_state : gmap string DiskCounters; IOState : gmap string DiskIOState; nd_timestamp : time }.

(** *** Networks *)

Record NetCounters := mkNetCounters {
  net_Name : string; BytesSent : Z; BytesRecv : Z; PacketsSent : Z; PacketsRecv : Z;
  Errin : Z; Errout : Z; Dropin : Z; Dropout : Z; Fifoin : Z; Fifoout : Z;
}.

Record IfaceStat := mkIfaceStat {
  if_Iface : string; if_Speed : Z; NetRecvkbps : float64; NetSentkbps : float64; NetRecvPckps : float64; NetSentPckps : float64;
  NetDropIn : float64; NetDropOut : float64; NetFifoIn : float64; NetFifoOut : float64; NetErrin : float64; NetErrout : float64;
}.

Record NodeNetwork := mkNodeNetwork { rawState : gmap string NetCounters; IfaceStats : gmap string IfaceStat; nn_timestamp : time }.

Record NodeProcess := mkNodeProcess { NrUninterruptible : Z }.

(** Nil parts are [None]. *)
Record NodeResourceState := mkNodeResourceState {
  nrs_Timestamp : time;
  nrs_CPU : option NodeCpu;
  nrs_Load : option NodeLoad;
  nrs_Memory : option NodeMemory;
  nrs_DiskIO : option NodeDiskIO;
  nrs_NetIO : option NodeNetwork;
  nrs_Process : option NodeProcess;
}.

(** The exported fields with their tags. *)
Definition cpu_fields (c : NodeCpu) : list (string * any) :=
  [("cpu_total", AFloat (CpuTotal c)); ("cpu_per_core", AFloats (CpuPerCore c)); ("cpu_avg", AFloat (CpuAvg c));
   ("cpu_steal_total", AFloat (CpuStealTotal c)); ("cpu_steal_per_core", AFloats (CpuStealPerCore c));
   ("cpu_offline_total", AFloat (CpuOfflineTotal c))].
Definition load_fields (l : NodeLoad) : list (string * any) :=
  [("load_1min", AFloat (Load1Min l)); ("load_5min", AFloat (Load5Min l)); ("load_15min", AFloat (Load15Min l))].
Definition memory_fields (m : NodeMemory) : list (string * any) :=
  [("memory_total", AFloat (mem_Total m)); ("memory_usage_total", AFloat (UsageTotal m)); ("memory_usage_cache", AFloat (UsageCache m));
   ("memory_usage_rss", AFloat (UsageRss m)); ("memory_available", AFloat (mem_Available m)); ("memory_offline_total", AFloat (OfflineTotal m))].
Definition disk_fields (d : DiskIOState) : list (string * any) :=
  [("diskio_read_kibps", AFloat (DiskReadKiBps d)); ("diskio_write_kibps", AFloat (DiskWriteKiBps d)); ("diskio_read_iops", AFloat (DiskReadIOps d));
   ("diskio_write_iops", AFloat (DiskWriteIOps d)); ("diskio_util", AFloat (Util d))].
Definition iface_fields (i : IfaceStat) : list (string * any) :=
  [("iface", AString (if_Iface i)); ("netio_speed", AInt (if_Speed i)); ("netio_recv_kbps", AFloat (NetRecvkbps i));
   ("netio_sent_kbps", AFloat (NetSentkbps i)); ("netio_recv_pckps", AFloat (NetRecvPckps i)); ("netio_sent_pckps", AFloat (NetSentPckps i));
   ("netio_drop_in", AFloat (NetDropIn i)); ("netio_drop_out", AFloat (NetDropOut i)); ("netio_fifo_in", AFloat (NetFifoIn i));
   ("netio_fifo_out", AFloat (NetFifoOut i)); ("netio_err_in", AFloat (NetErrin i)); ("netio_err_out", AFloat (NetErrout i))].
Definition process_fields (p : NodeProcess) : list (string * any) := [("process_nr_uninterruptible", AUint64 (NrUninterruptible p))].

(** The type assertion [value.(float64)], and [value.([]float64)[index]]. *)
Definition as_float (a : any) : outcome float64 :=
  match a with AFloat f => Ret f | _ => Crash (Panic "interface conversion") end.
Definition as_float_at (a : any) (index : Z) : outcome float64 :=
  match a with
  | AFloats l => match l !! Z.to_nat index with Some f => Ret f | None => Crash (Panic "index out of range") end
  | _ => Crash (Panic "interface conversion")
  end.

Section Values.
Context {RO : RangeOrder} {SL : Structs}.

Definition GetTags_of (fields : list (string * any)) : list string := (range_map "GetTags" (structs_Map fields)).*1.

Definition not_found (resource : string) : error := resource +:+ " not found".

(** The value of a field, for the structs that have no device of their own. *)
Definition GetValue_of (fields : list (string * any)) (resource : string) : outcome (result float64) :=
  match structs_Map fields !! resource with
  | None => Ret (Err (not_found resource))
  | Some value => f ← as_float value; Ret (Ok f)
  end.

Definition load_GetValue (l : NodeLoad) (resource : string) : outcome (result float64) := GetValue_of (load_fields l) resource.
Definition memory_GetValue (m : NodeMemory) (resource : string) : outcome (result float64) := GetValue_of (memory_fields m) resource.
Definition diskstate_GetValue (d : DiskIOState) (resource : string) : outcome (result float64) := GetValue_of (disk_fields d) resource.
Definition iface_GetValue (i : IfaceStat) (resource : string) : outcome (result float64) := GetValue_of (iface_fields i) resource.
Definition process_GetValue (p : NodeProcess) (resource : string) : outcome (result float64) := GetValue_of (process_fields p) resource.

Definition cpu_GetTags (c : NodeCpu) : list string := GetTags_of (cpu_fields c).
Definition load_GetTags (l : NodeLoad) : list string := GetTags_of (load_fields l).
Definition memory_GetTags (m : NodeMemory) : list string := GetTags_of (memory_fields m).
Definition diskstate_GetTags (d : DiskIOState) : list string := GetTags_of (disk_fields d).
Definition iface_GetTags (i : IfaceStat) : list string := GetTags_of (iface_fields i).
Definition process_GetTags (p : NodeProcess) : list string := GetTags_of (process_fields p).

Definition cpu_GetValue (c : NodeCpu) (resource device : string) : outcome (result float64) :=
  match structs_Map (cpu_fields c) !! resource with
  | None => Ret (Err (not_found resource))
  | Some value =>
      if slen device =? 0 then f ← as_float value; Ret (Ok f)
      else match Atoi device with
           | None => Ret (Err ("invalid cpu number(" +:+ device +:+ ")"))
           | Some index =>
               if (index <? 0) || (Z.of_nat (length (CpuPerCore c)) <=? index) then Ret (Err ("invalid cpu number: " +:+ device))
               else f ← as_float_at value index; Ret (Ok f)
           end
  end.

Definition diskio_GetValue (nd : NodeDiskIO) (resource device : string) : outcome (result float64) :=
  match IOState nd !! device with
  | None => Ret (Err ("device " +:+ device +:+ " not found"))
  | Some state => diskstate_GetValue state resource
  end.

Definition netio_GetValue (nn : NodeNetwork) (resource device : string) : outcome (result float64) :=
  match IfaceStats nn !! device with
  | None => Ret (Err ("device not found: " +:+ device))
  | Some stat => iface_GetValue stat resource
  end.

(** The text before the first underscore. *)
Definition metric_prefix (resource : string) : option string := fst <$> cut_byte resource "_"%char.

Definition GetValue (nrs : NodeResourceState) (resource device : string) : outcome (result float64) :=
  match metric_prefix resource with
  | None => Ret (Err (not_found resource))
  | Some prefix =>
      let nil_data := Ret (Err "struct has nil data") in
      if (prefix =? "cpu")%string then match nrs_CPU nrs with Some c => cpu_GetValue c resource device | None => nil_data end
      else if (prefix =? "load")%string then match nrs_Load nrs with Some l => load_GetValue l resource | None => nil_data end
      else if (prefix =? "memory")%string then match nrs_Memory nrs with Some m => memory_GetValue m resource | None => nil_data end
      else if (prefix =? "diskio")%string then match nrs_DiskIO nrs with Some d => diskio_GetValue d resource device | None => nil_data end
      else if (prefix =? "netio")%string then match nrs_NetIO nrs with Some n => netio_GetValue n resource device | None => nil_data end
      else if (prefix =? "process")%string then match nrs_Process nrs with Some p => process_GetValue p resource | None => nil_data end
      else Ret (Err (not_found resource))
  end.

Definition opt_tags {A} (tags : A -> list string) (a : option A) : list string :=
  match a with Some x => tags x | None => [] end.

(** The tags of the first entry of a map. *)
Definition head_tags {A} (tags : A -> list string) (m : gmap string A) : list string :=
  match range_map "GetTags.devices" m with (_, v) :: _ => tags v | [] => [] end.

Definition GetTags (nrs : NodeResourceState) : list string :=
  opt_tags cpu_GetTags (nrs_CPU nrs) ++ opt_tags load_GetTags (nrs_Load nrs) ++ opt_tags memory_GetTags (nrs_Memory nrs) ++
  match nrs_DiskIO nrs with Some d => head_tags diskstate_GetTags (IOState d) | None => [] end ++
  match nrs_NetIO nrs with Some n => head_tags iface_GetTags (IfaceStats n) | None => [] end ++
  opt_tags process_GetTags (nrs_Process nrs).

Definition zero_cpu : NodeCpu := mkNodeCpu [] nilTime 0 fzero [] fzero fzero [] fzero.

Definition nodeStatExample : NodeResourceState :=
  mkNodeResourceState nilTime (Some zero_cpu) (Some (mkNodeLoad fzero fzero fzero))
    (Some (mkNodeMemory fzero fzero fzero fzero fzero fzero))
    (Some (mkNodeDiskIO ∅ {["example" := mkDiskIOState fzero fzero fzero fzero fzero]} nilTime))
    (Some (mkNodeNetwork ∅ {["example" := mkIfaceStat "" 0 fzero fzero fzero fzero fzero fzero fzero fzero fzero fzero]} nilTime))
    (Some (mkNodeProcess 0)).

Definition GetNodeStoreSupportedTags : list string := GetTags nodeStatExample.
End Values.

(** ** util/machine/speed.go *)

(** The file of the speed of an interface and NET_SPEED of the environment; the
    speeds that are known. *)
Definition getSpeed (read : string -> result string) (ifName : string) : result Z :=
  match read (path_Join ["/sys/class/net/"; ifName; "/speed"]) with
  | Err e => Err e
  | Ok speedStr =>
      match Atoi (ReplaceAll speedStr (String (ascii_of_nat 10) "") "") with
      | Some v => Ok v
      | None => Err "invalid syntax"
      end
  end.

Definition GetIfaceSpeed (read : string -> result string) (NET_SPEED : string) (ifName : string) (devSpeedMap : gmap string Z) :
    outcome (Z * gmap string Z) :=
  match devSpeedMap !! ifName with
  | Some v => Ret (v, devSpeedMap)
  | None =>
      let speed := ok_or 0 (getSpeed read ifName) in
      let speed := if (speed <=? 0) || (100 * 1000 <? speed) then default 0 (Atoi NET_SPEED) else speed in
      if speed <=? 0 then Crash (Fatal ("bad speed of " +:+ ifName)) else Ret (speed, <[ifName := speed]> devSpeedMap)
  end.

(** ** node.go *)

(** What the libraries report in one round, and the times the clock gives. *)
Record sample {Q : Type} := mkSample {
  s_now : time;
  s_times : result (list TimesStat);
  s_offlineCpu : result Z;
  s_cpuTime : time;
  s_load : result (float64 * float64 * float64);
  s_meminfo : result (gmap string Z);
  s_offlineMem : result Z;
  s_ensureOffline : option error;
  s_pods : list (Pod Q);
  s_netlink : option error;
  s_cpuLoad : string -> result Z;
  s_disks : result (gmap string DiskCounters);
  s_diskTime : time;
  s_nets : result (list NetCounters);
  s_netTime : time;
  s_speedFile : string -> result string;
  s_netSpeed : string;
}.
Arguments sample Q : clear implicits.
Arguments mkSample {Q} _ _ _ _ _ _ _ _ _ _ _ _ _ _ _ _ _.

(** The package variables, [last] being [lastNodeResourceState], and the manager's buffer. *)
Record nodeStore (T : Type) := mkNodeStore {
  lastCPU : option NodeCpu;
  lastDiskIO : option NodeDiskIO;
  lastNetIO : option NodeNetwork;
  offlinePodUid : string;
  offlineConPath : string;
  cpuNum : float64;
  hasNetlink : bool;
  speeds : gmap string Z;
  nodeCache : option T;
}.
Arguments mkNodeStore {T} _ _ _ _ _ _ _ _ _.
Arguments lastCPU {T} _.
Arguments lastDiskIO {T} _.
Arguments lastNetIO {T} _.
Arguments offlinePodUid {T} _.
Arguments offlineConPath {T} _.
Arguments cpuNum {T} _.
Arguments hasNetlink {T} _.
Arguments speeds {T} _.
Arguments nodeCache {T} _.

Class StateStore (T : Type) := {
  NewTimedStore : duration -> T;
  ts_Add : T -> time -> NodeResourceState -> T;
  (** The latest value. *)
  ts_Get : T -> NodeResourceState;
  ts_InTimeRange : T -> time -> time -> Z -> list NodeResourceState;
}.

(** *** Rates *)

(** All and the busy part. *)
Definition getAllAndBusy (t : TimesStat) : float64 * float64 :=
  let busy := fadd (fadd (fadd (fadd (fadd (User t) (System t)) (Nice t)) (Iowait t)) (Irq t)) (Softirq t) in
  (fadd busy (Idle t), busy).

Definition nano_float : float64 := float64_of_Z Second.

(** Rounded to hundredths. *)
Definition hundredths (x : float64) : float64 :=
  fdiv (float64_of_Z (int64_of_float64 (fadd (fmul (float64_of_Z 100) x) (flit 5 10)))) (float64_of_Z 100).

(** The usage and the steal of one processor, when it was busy. *)
Definition coreUsage (nanoSeconds : Z) (p : TimesStat * TimesStat) : option (float64 * float64) :=
  let '(t1, t2) := p in
  let t1Busy := (getAllAndBusy t1).2 in
  let t2Busy := (getAllAndBusy t2).2 in
  if fle t2Busy t1Busy then None
  else
    let usageNanoCores := fdiv (fmul (fsub t2Busy t1Busy) nano_float) (float64_of_Z nanoSeconds) in
    let stealNanoCores := fdiv (fmul (fsub (Steal t2) (Steal t1)) nano_float) (float64_of_Z nanoSeconds) in
    Some (hundredths usageNanoCores, hundredths stealNanoCores).

Record cpuUsage := mkCpuUsage { total : float64; perCore : list float64; totalSteal : float64; perCoreSteal : list float64; totalOffline : float64 }.

(** One turn of the loop. *)
Definition cpuStep (nanoSeconds : Z) (u : cpuUsage) (p : TimesStat * TimesStat) : cpuUsage :=
  match coreUsage nanoSeconds p with
  | None => u
  | Some (usage, steal) =>
      mkCpuUsage (fadd (total u) usage) (perCore u ++ [usage]) (fadd (totalSteal u) steal) (perCoreSteal u ++ [steal]) (totalOffline u)
  end.

Definition noUsage : cpuUsage := mkCpuUsage fzero [] fzero [] fzero.

Definition calculateCpuUsage (t1 t2 : NodeCpu) : cpuUsage :=
  if negb (length (nc_state t1) =? length (nc_state t2))%nat then noUsage
  else
    let nanoSeconds := int64 (UnixNano (nc_timestamp t2) - UnixNano (nc_timestamp t1)) in
    let u := fold_left (cpuStep nanoSeconds) (zip (nc_state t1) (nc_state t2)) noUsage in
    mkCpuUsage (total u) (perCore u) (totalSteal u) (perCoreSteal u)
      (fdiv (float64_of_Z (uint64 (offlineUsage t2 - offlineUsage t1))) (float64_of_Z nanoSeconds)).

(** The growth of a counter. *)
Definition growth (n2 n1 : Z) : float64 := float64_of_Z (uint64 (n2 - n1)).

Definition no_counters : DiskCounters := mkDiskCounters 0 0 0 0 0.

Definition diskRates (duration : float64) (s1 s2 : DiskCounters) : DiskIOState :=
  let kib n := fdiv (fdiv n (float64_of_Z 1024)) duration in
  mkDiskIOState (kib (growth (ReadBytes s2) (ReadBytes s1))) (kib (growth (WriteBytes s2) (WriteBytes s1)))
    (fdiv (growth (ReadCount s2) (ReadCount s1)) duration) (fdiv (growth (WriteCount s2) (WriteCount s1)) duration)
    (fmul (fdiv (fdiv (growth (IoTime s2) (IoTime s1)) (float64_of_Z 1000)) duration) (float64_of_Z 100)).

Definition seconds_between (t1 t2 : time) : float64 := float64_of_Z (int64 (Unix t2 - Unix t1)).

Definition calculateDiskIO (t1 t2 : NodeDiskIO) : gmap string DiskIOState :=
  let duration := seconds_between (nd_timestamp t1) (nd_timestamp t2) in
  map_imap (fun disk s1 => Some (diskRates duration s1 (default no_counters (nd_state t2 !! disk)))) (nd_state t1).

Definition ifaceRates (iface : string) (speed : Z) (duration : float64) (s1 s2 : NetCounters) : IfaceStat :=
  let kbps n := fdiv (fdiv (fmul n (float64_of_Z 8)) (float64_of_Z 1000)) duration in
  mkIfaceStat iface speed (kbps (growth (BytesRecv s2) (BytesRecv s1))) (kbps (growth (BytesSent s2) (BytesSent s1)))
    (fdiv (growth (PacketsRecv s2) (PacketsRecv s1)) duration) (fdiv (growth (PacketsSent s2) (PacketsSent s1)) duration)
    (fdiv (growth (Dropin s2) (Dropin s1)) duration) (fdiv (growth (Dropout s2) (Dropout s1)) duration)
    (fdiv (growth (Fifoin s2) (Fifoin s1)) duration) (fdiv (growth (Fifoout s2) (Fifoout s1)) duration)
    (fdiv (growth (Errin s2) (Errin s1)) duration) (fdiv (growth (Errout s2) (Errout s1)) duration).

Section Collection.
Context {RO : RangeOrder} {GS : GoSort} {T : Type} {SS : StateStore T} {Q : Type} `{QO : QuantityOps Q}.
(** The configuration, the age of the buffer and the root of the cgroups. *)
Context (config : MetricsNodeConfig) (cacheAge : duration) (root : string).

#[local] Abbreviation store := (nodeStore T).

Definition NewNodeStoreManager : store := mkNodeStore None None None "" "" fzero false ∅ None.

Definition set_cpu (s : store) (c : option NodeCpu) (n : float64) : store :=
  mkNodeStore c (lastDiskIO s) (lastNetIO s) (offlinePodUid s) (offlineConPath s) n (hasNetlink s) (speeds s) (nodeCache s).
Definition set_disk (s : store) (d : option NodeDiskIO) : store :=
  mkNodeStore (lastCPU s) d (lastNetIO s) (offlinePodUid s) (offlineConPath s) (cpuNum s) (hasNetlink s) (speeds s) (nodeCache s).
Definition set_net (s : store) (n : option NodeNetwork) (sp : gmap string Z) : store :=
  mkNodeStore (lastCPU s) (lastDiskIO s) n (offlinePodUid s) (offlineConPath s) (cpuNum s) (hasNetlink s) sp (nodeCache s).
Definition set_offline (s : store) (uid path : string) : store :=
  mkNodeStore (lastCPU s) (lastDiskIO s) (lastNetIO s) uid path (cpuNum s) (hasNetlink s) (speeds s) (nodeCache s).
Definition set_netlink (s : store) : store :=
  mkNodeStore (lastCPU s) (lastDiskIO s) (lastNetIO s) (offlinePodUid s) (offlineConPath s) (cpuNum s) true (speeds s) (nodeCache s).
Definition set_cache (s : store) (t : T) : store :=
  mkNodeStore (lastCPU s) (lastDiskIO s) (lastNetIO s) (offlinePodUid s) (offlineConPath s) (cpuNum s) (hasNetlink s) (speeds s) (Some t).

Definition collectCPU (i : sample Q) (s : store) : option NodeCpu * store :=
  match s_times i, s_offlineCpu i with
  | Err _, _ | Ok [], _ | _, Err _ => (None, s)
  | Ok usages, Ok usage =>
      let nowCpuState := mkNodeCpu usages (s_cpuTime i) usage fzero [] fzero fzero [] fzero in
      match lastCPU s with
      | None => (None, set_cpu s (Some nowCpuState) (cpuNum s))
      | Some last =>
          let u := calculateCpuUsage last nowCpuState in
          let n := if feq (cpuNum s) fzero then float64_of_Z (Z.of_nat (length usages)) else cpuNum s in
          (Some (mkNodeCpu [] nilTime 0 (total u) (perCore u) (fdiv (total u) n) (totalSteal u) (perCoreSteal u) (totalOffline u)),
           set_cpu s (Some nowCpuState) n)
      end
  end.

Definition collectLoad (i : sample Q) : option NodeLoad :=
  match s_load i with Ok (l1, l5, l15) => Some (mkNodeLoad l1 l5 l15) | Err _ => None end.

Definition collectMemory (i : sample Q) : option NodeMemory :=
  match s_meminfo i with
  | Err _ => None
  | Ok mem =>
      match s_offlineMem i with
      | Err _ => None
      | Ok offlineMem =>
          let v k := default 0 (mem !! k) in
          let f z := float64_of_Z (uint64 z) in
          Some (mkNodeMemory (f (v "MemTotal")) (f (v "MemTotal" - v "MemFree")) (f (v "Buffers" + v "Cached" - v "Shmem"))
                  (f (v "MemTotal" - v "MemFree" - v "Buffers" - v "Cached" + v "Shmem"))
                  (f (v "MemFree" + v "Buffers" + v "Cached" - v "Shmem")) (float64_of_Z offlineMem))
      end
  end.

Definition collectDiskIO (i : sample Q) (s : store) : option NodeDiskIO * store :=
  if (length (DiskNames config) =? 0)%nat then (None, s)
  else match s_disks i with
       | Err _ => (None, s)
       | Ok ios =>
           let nowDiskIOState := mkNodeDiskIO ios ∅ (s_diskTime i) in
           match lastDiskIO s with
           | None => (None, set_disk s (Some nowDiskIOState))
           | Some last => (Some (mkNodeDiskIO ∅ (calculateDiskIO last nowDiskIOState) nilTime), set_disk s (Some nowDiskIOState))
           end
       end.

(** The loop of [calculateNetIO] over the interfaces of the later reading. *)
Fixpoint netLoop (i : sample Q) (duration : float64) (t1 : gmap string NetCounters) (l : list (string * NetCounters))
    (stats : gmap string IfaceStat) (sp : gmap string Z) : outcome (gmap string IfaceStat * gmap string Z) :=
  match l with
  | [] => Ret (stats, sp)
  | (iface, s2) :: l' =>
      match t1 !! iface with
      | None => netLoop i duration t1 l' stats sp
      | Some s1 =>
          '(speed, sp') ← GetIfaceSpeed (s_speedFile i) (s_netSpeed i) iface sp;
          netLoop i duration t1 l' (<[iface := ifaceRates iface speed duration s1 s2]> stats) sp'
      end
  end.

Definition calculateNetIO (i : sample Q) (t1 t2 : NodeNetwork) (sp : gmap string Z) : outcome (NodeNetwork * gmap string Z) :=
  let duration := seconds_between (nn_timestamp t1) (nn_timestamp t2) in
  '(stats, sp') ← netLoop i duration (rawState t1) (range_map "calculateNetIO" (rawState t2)) ∅ sp;
  Ret (mkNodeNetwork (rawState t2) stats (nn_timestamp t2), sp').

Definition collectNetIO (i : sample Q) (s : store) : outcome (option NodeNetwork * store) :=
  if (length (Ifaces config) =? 0)%nat then Ret (None, s)
  else match s_nets i with
       | Err _ => Ret (None, s)
       | Ok nets =>
           let netIOStat : gmap string NetCounters :=
             fold_left (fun m n => if bool_decide (net_Name n ∈ Ifaces config) then <[net_Name n := n]> m else m) nets ∅ in
           if (size netIOStat =? 0)%nat then Ret (None, s)
           else
             let nowNetState := mkNodeNetwork netIOStat ∅ (s_netTime i) in
             match lastNetIO s with
             | None => Ret (None, set_net s (Some nowNetState) (speeds s))
             | Some last =>
                 '(now, sp) ← calculateNetIO i last nowNetState (speeds s);
                 Ret (Some now, set_net s (Some now) sp)
             end
       end.

(** The loop over the pods: the first offline pod decides. *)
Definition getOfflinePodCgroupPath (i : sample Q) (s : store) : option error * store :=
  match List.find IsOffline (s_pods i) with
  | None => (Some "no offline pod found", s)
  | Some pod =>
      if (UID pod =? offlinePodUid s)%string && negb (slen (offlineConPath s) =? 0) then (None, s)
      else match PodCgroupDirs pod with
           | [dir] => (None, set_offline s (UID pod) dir)
           | _ => (Some "container path should just 1", s)
           end
  end.

Definition getOfflineDevicesCgroupPath (i : sample Q) (s : store) : result string * store :=
  if (mn_OfflineType config =? OfflineTypeOnk8s)%string then
    match s_ensureOffline i with
    | Some e => (Err e, s)
    | None => (Ok (path_Join [root; "devices"; CgroupOffline]), s)
    end
  else if (mn_OfflineType config =? OfflineTypeYarnOnk8s)%string then
    let '(e, s) := getOfflinePodCgroupPath i s in
    match e with
    | Some e => (Err e, s)
    | None => (Ok (path_Join [root; "devices"; offlineConPath s]), s)
    end
  else (Err "no offline cgroup found", s).

Definition collectProcess (i : sample Q) (s : store) : option NodeProcess * store :=
  let '(path, s) := getOfflineDevicesCgroupPath i s in
  match path with
  | Err _ => (None, s)
  | Ok path =>
      let failed := if hasNetlink s then None else s_netlink i in
      match failed with
      | Some _ => (None, s)
      | None =>
          let s := set_netlink s in
          match s_cpuLoad i path with
          | Err e => (None, if Contains e "no such file or directory" then set_offline s "" "" else s)
          | Ok n => (Some (mkNodeProcess n), s)
          end
      end
  end.

Definition addResourceStats (now : time) (data : NodeResourceState) (s : store) : store :=
  set_cache s (ts_Add (default (NewTimedStore cacheAge) (nodeCache s)) now data).

Definition collectNodeResource (i : sample Q) (s : store) : outcome store :=
  let '(cpu, s) := collectCPU i s in
  let '(proc, s) := collectProcess i s in
  let '(disk, s) := if negb (length (DiskNames config) =? 0)%nat then collectDiskIO i s else (None, s) in
  '(net, s) ← (if negb (length (Ifaces config) =? 0)%nat then collectNetIO i s else Ret (None, s));
  let nodeSt := mkNodeResourceState (s_now i) cpu (collectLoad i) (collectMemory i) disk net proc in
  Ret (match cpu with Some _ => addResourceStats (s_now i) nodeSt s | None => s end).

Fixpoint Run (l : list (sample Q)) (s : store) : outcome store :=
  match l with
  | [] => Ret s
  | i :: l' => s' ← collectNodeResource i s; Run l' s'
  end.

(** *** Queries *)

Definition GetNodeResourceRangeStats (s : store) (start fin : time) (count : Z) : result (list NodeResourceState) :=
  match nodeCache s with
  | None => Err "resource not found: Node"
  | Some cache => Ok (ts_InTimeRange cache start fin count)
  end.

Definition GetNodeResourceRecentState (s : store) : result NodeResourceState :=
  match nodeCache s with
  | None => Err "resource not found: Node"
  | Some cache => Ok (ts_Get cache)
  end.
End Collection.

(** ** Reading values *)

Section Reading.
Context {RO : RangeOrder} {SL : Structs}.

Lemma structs_lookup fields r v : NoDup fields.*1 -> structs_Map fields !! r = Some v <-> (r, v) ∈ fields.
Proof. intros Hnd. rewrite structs_Map_spec by done. symmetry. by apply elem_of_list_to_map. Qed.

Lemma GetValue_of_crash fields r : NoDup fields.*1 ->
  (exists c, GetValue_of fields r = Crash c) <-> exists v, (r, v) ∈ fields /\ exists c, as_float v = Crash c.
Proof.
  intros Hnd. unfold GetValue_of. setoid_rewrite <- (structs_lookup fields r _ Hnd). destruct (structs_Map fields !! r) as [v|].
  - split.
    + intros [c H]. exists v. split; [done|]. destruct (as_float v) as [f|c'] eqn:E; [done|]. by exists c'.
    + intros (v' & [= <-] & c & E). exists c. by rewrite E.
  - split; [by intros [c H]|by intros (v & ? & _)].
Qed.

Definition cpu_scalars : list string := ["cpu_total"; "cpu_avg"; "cpu_steal_total"; "cpu_offline_total"].
Definition cpu_lists : list string := ["cpu_per_core"; "cpu_steal_per_core"].

(** A device that names a processor. *)
Definition core_number (c : NodeCpu) (device : string) : Prop :=
  exists i, Atoi device = Some i /\ 0 <= i < Z.of_nat (length (CpuPerCore c)).

(** The two lists have the same processors. *)
Definition aligned (nrs : NodeResourceState) : Prop :=
  forall c, nrs_CPU nrs = Some c -> length (CpuPerCore c) = length (CpuStealPerCore c).

(** The metrics that cannot be read. *)
Inductive unreadable (nrs : NodeResourceState) : string -> string -> Prop :=
| core_of_scalar c r d : nrs_CPU nrs = Some c -> r ∈ cpu_scalars -> core_number c d -> unreadable nrs r d
| list_as_number c r : nrs_CPU nrs = Some c -> r ∈ cpu_lists -> unreadable nrs r ""
| speed_as_float n d : nrs_NetIO nrs = Some n -> is_Some (IfaceStats n !! d) -> unreadable nrs "netio_speed" d
| tasks_as_float p d : nrs_Process nrs = Some p -> unreadable nrs "process_nr_uninterruptible" d.

Lemma cpu_fields_NoDup c : NoDup (cpu_fields c).*1.
Proof. apply (bool_decide_unpack _). vm_compute. exact I. Qed.

Lemma cpu_fields_elim c r v : (r, v) ∈ cpu_fields c ->
  (r ∈ cpu_scalars /\ exists f, v = AFloat f) \/ (r ∈ cpu_lists /\ exists l, v = AFloats l /\ (l = CpuPerCore c \/ l = CpuStealPerCore c)).
Proof. unfold cpu_fields. rewrite !elem_of_cons. intros H. repeat destruct H as [[= -> ->]|H]; [..|inversion H]; set_solver. Qed.

#[local] Ltac find_in := unfold cpu_fields; rewrite !elem_of_cons; repeat first [left; reflexivity|right].

Lemma cpu_scalars_fields c r : r ∈ cpu_scalars -> exists f, (r, AFloat f) ∈ cpu_fields c.
Proof. unfold cpu_scalars. rewrite !elem_of_cons. intros H. repeat destruct H as [->|H]; [..|inversion H]; eexists; find_in. Qed.

Lemma cpu_lists_fields c r : r ∈ cpu_lists -> exists l, (r, AFloats l) ∈ cpu_fields c.
Proof. unfold cpu_lists. rewrite !elem_of_cons. intros H. repeat destruct H as [->|H]; [..|inversion H]; eexists; find_in. Qed.

Lemma core_number_nonempty c d : core_number c d -> (slen d =? 0) = false.
Proof. intros (i & Hi & _). destruct d; [done|]. apply Z.eqb_neq. unfold slen. simpl. lia. Qed.

Lemma cpu_GetValue_crash c r d : length (CpuPerCore c) = length (CpuStealPerCore c) ->
  (exists e, cpu_GetValue c r d = Crash e) <-> (r ∈ cpu_scalars /\ core_number c d) \/ (r ∈ cpu_lists /\ d = "").
Proof.
  intros Hlen. unfold cpu_GetValue. split.
  - intros [e H]. destruct (structs_Map (cpu_fields c) !! r) as [v|] eqn:Ev; [|done].
    apply (structs_lookup _ _ _ (cpu_fields_NoDup c)), cpu_fields_elim in Ev as [[Hr (f & ->)]|(Hr & l & -> & Hl)].
    + left. split; [done|]. destruct (slen d =? 0); [done|]. destruct (Atoi d) as [i|] eqn:Ei; [|done].
      destruct ((i <? 0) || _) eqn:Eb; [done|]. exists i. split; [done|]. lia.
    + right. split; [done|]. destruct (Z.eqb_spec (slen d) 0) as [Ed|]; [by destruct d|]. destruct (Atoi d) as [i|] eqn:Ei; [|done].
      destruct ((i <? 0) || _) eqn:Eb; [done|]. cbn [as_float_at] in H.
      assert (Hi : is_Some (l !! Z.to_nat i)) by (apply lookup_lt_is_Some; destruct Hl as [->| ->]; lia).
      destruct Hi as [f Hf]. by rewrite Hf in H.
  - intros [[Hr Hd]|[Hr ->]].
    + destruct (cpu_scalars_fields c r Hr) as [f Hf]. apply (structs_lookup _ _ _ (cpu_fields_NoDup c)) in Hf. rewrite Hf.
      rewrite (core_number_nonempty c d Hd). destruct Hd as (i & -> & Hi).
      rewrite (proj2 (Z.ltb_ge i 0)), (proj2 (Z.leb_gt _ i)) by lia. by eexists.
    + destruct (cpu_lists_fields c r Hr) as [l Hl]. apply (structs_lookup _ _ _ (cpu_fields_NoDup c)) in Hl. rewrite Hl. by eexists.
Qed.

Definition is_float (v : any) : bool := match v with AFloat _ => true | _ => false end.

Lemma floats_never_crash fields r e :
  NoDup fields.*1 /\ forallb (fun x => is_float x.2) fields = true -> GetValue_of fields r = Crash e -> False.
Proof.
  intros [Hnd Hf] H. destruct (proj1 (GetValue_of_crash fields r Hnd) (ex_intro _ e H)) as (v & Hv & c & Hc).
  rewrite forallb_forall in Hf. apply list_elem_of_In in Hv. specialize (Hf _ Hv). by destruct v.
Qed.

#[local] Ltac distinct := apply (bool_decide_unpack _); vm_compute; exact I.

Lemma load_floats l : NoDup (load_fields l).*1 /\ forallb (fun x => is_float x.2) (load_fields l) = true.
Proof. split; [distinct|done]. Qed.
Lemma memory_floats m : NoDup (memory_fields m).*1 /\ forallb (fun x => is_float x.2) (memory_fields m) = true.
Proof. split; [distinct|done]. Qed.
Lemma disk_floats s : NoDup (disk_fields s).*1 /\ forallb (fun x => is_float x.2) (disk_fields s) = true.
Proof. split; [distinct|done]. Qed.
Lemma iface_fields_NoDup s : NoDup (iface_fields s).*1.
Proof. distinct. Qed.

Lemma iface_fields_elim s r v : (r, v) ∈ iface_fields s ->
  (r = "iface" /\ v = AString (if_Iface s)) \/ r = "netio_speed" \/ exists f, v = AFloat f.
Proof. unfold iface_fields. rewrite !elem_of_cons. intros H. repeat destruct H as [[= -> ->]|H]; [..|inversion H]; eauto. Qed.

Lemma cpu_prefix r : r ∈ cpu_scalars \/ r ∈ cpu_lists -> metric_prefix r = Some "cpu".
Proof. unfold cpu_scalars, cpu_lists. rewrite !elem_of_cons. intros [H|H]; repeat destruct H as [->|H]; try done; inversion H. Qed.

Lemma unreadable_crashes nrs r d : aligned nrs -> unreadable nrs r d -> exists c, GetValue nrs r d = Crash c.
Proof.
  intros Ha H. unfold GetValue. destruct H as [c r d Hc Hr Hd|c r Hc Hr|n d Hn [s Hs]|q d Hq].
  - rewrite (cpu_prefix r) by (by left). rewrite Hc. apply cpu_GetValue_crash; [by apply Ha|]. by left.
  - rewrite (cpu_prefix r) by (by right). rewrite Hc. apply cpu_GetValue_crash; [by apply Ha|]. by right.
  - cbn. rewrite Hn. unfold netio_GetValue. rewrite Hs. apply GetValue_of_crash; [apply iface_fields_NoDup|].
    exists (AInt (if_Speed s)). split; [|by eexists]. unfold iface_fields. rewrite !elem_of_cons. by right; left.
  - cbn. rewrite Hq. apply GetValue_of_crash; [apply NoDup_singleton|]. exists (AUint64 (NrUninterruptible q)). split; [by left|by eexists].
Qed.

(** Reading a value panics for exactly four kinds of metrics: a number of all processors asked for one processor,
    the list of processors asked for no processor, the speed of a known interface and the number of blocked tasks,
    which are no floats.  Every other reading returns a value or an error. *)
Theorem GetValue_panics_exactly nrs r d : aligned nrs -> (exists c, GetValue nrs r d = Crash c) <-> unreadable nrs r d.
Proof.
  intros Ha. split; [|by apply unreadable_crashes].
  intros [e H]. unfold GetValue in H. destruct (metric_prefix r) as [p|] eqn:Ep; [|done].
  repeat match type of H with context [(p =? ?s)%string] => destruct (p =? s)%string end; [..|done].
  - destruct (nrs_CPU nrs) as [c|] eqn:Ec; [|done].
    destruct (proj1 (cpu_GetValue_crash c r d (Ha c Ec)) (ex_intro _ e H)) as [[Hr Hd]|[Hr ->]]; [by eapply core_of_scalar|by eapply list_as_number].
  - destruct (nrs_Load nrs) as [l|]; [|done]. by destruct (floats_never_crash _ _ _ (load_floats l) H).
  - destruct (nrs_Memory nrs) as [m|]; [|done]. by destruct (floats_never_crash _ _ _ (memory_floats m) H).
  - destruct (nrs_DiskIO nrs) as [n|]; [|done]. unfold diskio_GetValue in H.
    destruct (IOState n !! d) as [s|]; [|done]. by destruct (floats_never_crash _ _ _ (disk_floats s) H).
  - destruct (nrs_NetIO nrs) as [n|] eqn:En; [|done]. unfold netio_GetValue in H. destruct (IfaceStats n !! d) as [s|] eqn:Es; [|done].
    destruct (proj1 (GetValue_of_crash _ r (iface_fields_NoDup s)) (ex_intro _ e H)) as (v & Hv & c & Hc).
    destruct (iface_fields_elim s r v Hv) as [[-> _]|[->|[f ->]]]; [done|by eapply speed_as_float|done].
  - destruct (nrs_Process nrs) as [q|] eqn:Eq; [|done].
    destruct (proj1 (GetValue_of_crash (process_fields q) r ltac:(apply NoDup_singleton)) (ex_intro _ e H)) as (v & Hv & _).
    apply list_elem_of_singleton in Hv as [= -> ->]. by eapply tasks_as_float.
Qed.
Lemma elem_of_GetTags_of fields r : NoDup fields.*1 -> r ∈ GetTags_of fields <-> r ∈ fields.*1.
Proof.
  intros Hnd. unfold GetTags_of. rewrite !list_elem_of_fmap. split.
  - intros ([k v] & -> & H). rewrite range_map_perm, elem_of_map_to_list in H. exists (k, v). split; [done|].
    by apply (structs_lookup fields k v Hnd).
  - intros ([k v] & -> & H). exists (k, v). split; [done|]. rewrite range_map_perm. apply elem_of_map_to_list. by apply structs_lookup.
Qed.

Lemma head_tags_single {A} (tags : A -> list string) k v : head_tags tags {[k := v]} = tags v.
Proof.
  unfold head_tags. assert (Hp : range_map "GetTags.devices" ({[k := v]} : gmap string A) = [(k, v)]).
  { apply Permutation_singleton_r. by rewrite range_map_perm, map_to_list_singleton. }
  by rewrite Hp.
Qed.

(** All tags of the structs. *)
Definition all_tags : list string :=
  ["cpu_total"; "cpu_per_core"; "cpu_avg"; "cpu_steal_total"; "cpu_steal_per_core"; "cpu_offline_total"; "load_1min"; "load_5min"; "load_15min";
   "memory_total"; "memory_usage_total"; "memory_usage_cache"; "memory_usage_rss"; "memory_available"; "memory_offline_total";
   "diskio_read_kibps"; "diskio_write_kibps"; "diskio_read_iops"; "diskio_write_iops"; "diskio_util"; "iface"; "netio_speed";
   "netio_recv_kbps"; "netio_sent_kbps"; "netio_recv_pckps"; "netio_sent_pckps"; "netio_drop_in"; "netio_drop_out"; "netio_fifo_in";
   "netio_fifo_out"; "netio_err_in"; "netio_err_out"; "process_nr_uninterruptible"].

Lemma supported_tags r : r ∈ GetNodeStoreSupportedTags <-> r ∈ all_tags.
Proof.
  unfold GetNodeStoreSupportedTags, GetTags, nodeStatExample. cbn [nrs_CPU nrs_Load nrs_Memory nrs_DiskIO nrs_NetIO nrs_Process opt_tags IOState IfaceStats].
  rewrite !head_tags_single. unfold cpu_GetTags, load_GetTags, memory_GetTags, diskstate_GetTags, iface_GetTags, process_GetTags.
  rewrite !elem_of_app, !elem_of_GetTags_of by (distinct || apply NoDup_singleton).
  rewrite <- !elem_of_app. done.
Qed.

(** What the rules see of a state. *)
Definition rule_state (nrs : NodeResourceState) (m : NodeMemory) : NodeState :=
  mkNodeState (nrs_Timestamp nrs) (GetValue nrs) (mem_Available m).

Lemma accepted_reading_panics nrs m metric dev dm om :
  GetDeviceNameFromMetric metric = Ret (dev, dm, om) -> om ∈ all_tags -> aligned nrs -> unreadable nrs om dev ->
  checkNodeMetrics GetNodeStoreSupportedTags [metric] = Ret tt /\ exists c, metric_params (rule_state nrs m) [metric] ∅ = Crash c.
Proof.
  intros E Hom Ha Hu. cbn [checkNodeMetrics metric_params]. rewrite E. unfold mbind, outcome_bind. split.
  - by rewrite bool_decide_eq_true_2 by (by apply supported_tags).
  - destruct (unreadable_crashes nrs om dev Ha Hu) as [c Hc]. cbn [ns_GetValue rule_state]. rewrite Hc. by exists c.
Qed.

(** A rule on the number of blocked tasks is accepted, since the metric is among the supported tags, but the first
    state with such a number crashes the agent when the rule reads it; so does one on the speed of an interface of the node. *)
Theorem accepted_rule_panics nrs m : aligned nrs ->
  (forall p, nrs_Process nrs = Some p ->
     checkNodeMetrics GetNodeStoreSupportedTags ["process_nr_uninterruptible"] = Ret tt /\
     exists c, metric_params (rule_state nrs m) ["process_nr_uninterruptible"] ∅ = Crash c) /\
  (forall n dev, nrs_NetIO nrs = Some n -> is_Some (IfaceStats n !! dev) -> string_free "_"%char dev ->
     checkNodeMetrics GetNodeStoreSupportedTags [deviceMetricPrefix +:+ (dev +:+ "_" +:+ "netio_speed")] = Ret tt /\
     exists c, metric_params (rule_state nrs m) [deviceMetricPrefix +:+ (dev +:+ "_" +:+ "netio_speed")] ∅ = Crash c).
Proof.
  intros Ha. split.
  - intros p Hp. eapply accepted_reading_panics; [reflexivity|by apply (bool_decide_unpack _)|done|by eapply tasks_as_float].
  - intros n dev Hn Hd Hf. eapply accepted_reading_panics; [by apply GetDeviceName_dev|by apply (bool_decide_unpack _)|done|by eapply speed_as_float].
Qed.
End Reading.

(** ** Rates from the history of readings *)

(** The later of two optional readings. *)
Definition latest {A} (new old : option A) : option A := match new with Some _ => new | None => old end.

Lemma last_omap_snoc {A B} (f : A -> option B) l x : last (omap f (l ++ [x])) = latest (f x) (last (omap f l)).
Proof. rewrite omap_app. cbn. destruct (f x); [by rewrite last_snoc|by rewrite app_nil_r]. Qed.

Section History.
Context {RO : RangeOrder} {GS : GoSort} {T : Type} {SS : StateStore T} {Q : Type} `{QO : QuantityOps Q}.
Context (config : MetricsNodeConfig) (cacheAge : duration) (root : string).

#[local] Abbreviation collect := (collectNodeResource (Q := Q) config cacheAge root).
#[local] Abbreviation run := (Run (Q := Q) config cacheAge root).

(** What a round reads, when it can be read. *)
Definition cpu_reading (i : sample Q) : option NodeCpu :=
  match s_times i, s_offlineCpu i with
  | Ok (u :: us), Ok usage => Some (mkNodeCpu (u :: us) (s_cpuTime i) usage fzero [] fzero fzero [] fzero)
  | _, _ => None
  end.

Definition disk_reading (i : sample Q) : option NodeDiskIO :=
  if (length (DiskNames config) =? 0)%nat then None
  else match s_disks i with Ok ios => Some (mkNodeDiskIO ios ∅ (s_diskTime i)) | Err _ => None end.

Definition configured_nets (nets : list NetCounters) : gmap string NetCounters :=
  fold_left (fun m n => if bool_decide (net_Name n ∈ Ifaces config) then <[net_Name n := n]> m else m) nets ∅.

Definition net_reading (i : sample Q) : option NodeNetwork :=
  if (length (Ifaces config) =? 0)%nat then None
  else match s_nets i with
       | Ok nets => if (size (configured_nets nets) =? 0)%nat then None else Some (mkNodeNetwork (configured_nets nets) ∅ (s_netTime i))
       | Err _ => None
       end.

(** The counters of a reading, without what was calculated from them. *)
Definition raw (n : NodeNetwork) : NodeNetwork := mkNodeNetwork (rawState n) ∅ (nn_timestamp n).

Definition cpuRates (c1 c2 : NodeCpu) (c : NodeCpu) : Prop :=
  let u := calculateCpuUsage c1 c2 in
  CpuTotal c = total u /\ CpuPerCore c = perCore u /\ CpuStealTotal c = totalSteal u /\ CpuStealPerCore c = perCoreSteal u /\
  CpuOfflineTotal c = totalOffline u.

Definition netRates (n1 n2 n : NodeNetwork) : Prop :=
  forall iface, match rawState n1 !! iface, rawState n2 !! iface with
                | Some s1, Some s2 => exists speed, IfaceStats n !! iface =
                    Some (ifaceRates iface speed (seconds_between (nn_timestamp n1) (nn_timestamp n2)) s1 s2)
                | _, _ => IfaceStats n !! iface = None
                end.

(** [R] relates a value to two readings: there is a value exactly when there are both. *)
Definition between {A B} (R : A -> A -> B -> Prop) (old new : option A) (v : option B) : Prop :=
  match old, new with
  | Some a1, Some a2 => exists b, v = Some b /\ R a1 a2 b
  | _, _ => v = None
  end.

Lemma collectCPU_spec (i : sample Q) (s : nodeStore T) :
  let '(c, s') := collectCPU i s in
  lastCPU s' = latest (cpu_reading i) (lastCPU s) /\ between cpuRates (lastCPU s) (cpu_reading i) c /\
  lastDiskIO s' = lastDiskIO s /\ lastNetIO s' = lastNetIO s /\ nodeCache s' = nodeCache s.
Proof.
  unfold collectCPU, cpu_reading, between.
  destruct (s_times i) as [[|u us]|]; [by destruct (lastCPU s)| |by destruct (lastCPU s)].
  destruct (s_offlineCpu i); [|by destruct (lastCPU s)].
  destruct (lastCPU s) as [last|]; cbn; split_and!; try done. by eexists.
Qed.

Lemma collectDiskIO_spec (i : sample Q) (s : nodeStore T) :
  let '(d, s') := collectDiskIO config i s in
  lastDiskIO s' = latest (disk_reading i) (lastDiskIO s) /\
  between (fun d1 d2 d => IOState d = calculateDiskIO d1 d2) (lastDiskIO s) (disk_reading i) d /\
  lastCPU s' = lastCPU s /\ lastNetIO s' = lastNetIO s /\ nodeCache s' = nodeCache s.
Proof.
  unfold collectDiskIO, disk_reading, between. destruct (length (DiskNames config) =? 0)%nat; [by destruct (lastDiskIO s)|].
  destruct (s_disks i); [|by destruct (lastDiskIO s)]. destruct (lastDiskIO s); cbn; split_and!; try done. by eexists.
Qed.

Lemma netLoop_spec i d t1 l stats sp stats' sp' :
  netLoop (Q := Q) i d t1 l stats sp = Ret (stats', sp') -> NoDup l.*1 ->
  forall iface, match t1 !! iface, (list_to_map l : gmap string NetCounters) !! iface with
                | Some s1, Some s2 => exists speed, stats' !! iface = Some (ifaceRates iface speed d s1 s2)
                | _, _ => stats' !! iface = stats !! iface
                end.
Proof.
  revert stats sp. induction l as [|[k s2] l IH]; intros stats sp H Hnd iface; cbn [netLoop] in H.
  { simplify_eq. rewrite list_to_map_nil, lookup_empty. by destruct (t1 !! iface). }
  rewrite fmap_cons in Hnd. apply NoDup_cons in Hnd as [Hk Hnd]. cbn [list_to_map foldr uncurry fst snd] in *.
  destruct (t1 !! k) as [s1|] eqn:Ek.
  - apply outcome_bind_Ret in H as ([speed sp1] & _ & H). specialize (IH _ _ H Hnd iface).
    change (list_to_map ((k, s2) :: l)) with (<[k := s2]> (list_to_map l : gmap string NetCounters)).
    destruct (decide (iface = k)) as [->|Hne].
    + rewrite Ek, lookup_insert_eq. rewrite Ek, (not_elem_of_list_to_map_1 l k Hk), lookup_insert_eq in IH. by exists speed.
    + rewrite lookup_insert_ne by done. rewrite lookup_insert_ne in IH by done. exact IH.
  - specialize (IH _ _ H Hnd iface).
    change (list_to_map ((k, s2) :: l)) with (<[k := s2]> (list_to_map l : gmap string NetCounters)).
    destruct (decide (iface = k)) as [->|Hne]; [by rewrite Ek in *|by rewrite lookup_insert_ne].
Qed.

Lemma collectNetIO_spec (i : sample Q) (s : nodeStore T) n s' : collectNetIO config i s = Ret (n, s') ->
  raw <$> lastNetIO s' = latest (net_reading i) (raw <$> lastNetIO s) /\ between netRates (raw <$> lastNetIO s) (net_reading i) n /\
  lastCPU s' = lastCPU s /\ lastDiskIO s' = lastDiskIO s /\ nodeCache s' = nodeCache s.
Proof.
  unfold collectNetIO, net_reading, between. destruct (length (Ifaces config) =? 0)%nat; [intros [= <- <-]; by destruct (lastNetIO s)|].
  destruct (s_nets i) as [nets|]; [|intros [= <- <-]; by destruct (lastNetIO s)]. fold (configured_nets nets).
  destruct (size (configured_nets nets) =? 0)%nat; [intros [= <- <-]; by destruct (lastNetIO s)|].
  destruct (lastNetIO s) as [last|]; [|by intros [= <- <-]]. intros H.
  apply outcome_bind_Ret in H as ([now sp] & H & H2). injection H2 as <- <-. unfold calculateNetIO in H.
  apply outcome_bind_Ret in H as ([stats sp'] & H & H2). injection H2 as <- <-. cbn. split_and!; try done. eexists. split; [done|].
  intros iface. pose proof (netLoop_spec _ _ _ _ _ _ _ _ H (NoDup_fst_range _ _) iface) as Hl.
  rewrite list_to_map_range, lookup_empty in Hl. exact Hl.
Qed.
Lemma Run_app l1 l2 (s s' : nodeStore T) :
  run (l1 ++ l2) s = Ret s' -> exists s1, run l1 s = Ret s1 /\ run l2 s1 = Ret s'.
Proof.
  revert s. induction l1 as [|i l1 IH]; intros s H; cbn [app Run] in *; [by exists s|].
  apply outcome_bind_Ret in H as (s1 & H1 & H). apply IH in H as (s2 & H2 & H). exists s2. split; [|done]. by rewrite H1.
Qed.

Lemma collectProcess_spec (i : sample Q) (s : nodeStore T) :
  let '(p, s') := collectProcess config root i s in
  lastCPU s' = lastCPU s /\ lastDiskIO s' = lastDiskIO s /\ lastNetIO s' = lastNetIO s /\ nodeCache s' = nodeCache s.
Proof.
  unfold collectProcess, getOfflineDevicesCgroupPath, getOfflinePodCgroupPath.
  repeat case_match; simplify_eq/=; done.
Qed.

(** One round: the new baselines, and the state that is added to the buffer, if any. *)
Record round_spec (i : sample Q) (s s' : nodeStore T) : Prop := {
  round_cpu : lastCPU s' = latest (cpu_reading i) (lastCPU s);
  round_disk : lastDiskIO s' = latest (disk_reading i) (lastDiskIO s);
  round_net : raw <$> lastNetIO s' = latest (net_reading i) (raw <$> lastNetIO s);
  round_state : exists st, nrs_Timestamp st = s_now i /\
    between cpuRates (lastCPU s) (cpu_reading i) (nrs_CPU st) /\
    between (fun d1 d2 d => IOState d = calculateDiskIO d1 d2) (lastDiskIO s) (disk_reading i) (nrs_DiskIO st) /\
    between netRates (raw <$> lastNetIO s) (net_reading i) (nrs_NetIO st) /\
    nodeCache s' = match nrs_CPU st with
                   | Some _ => Some (ts_Add (default (NewTimedStore cacheAge) (nodeCache s)) (s_now i) st)
                   | None => nodeCache s
                   end;
}.

Lemma collect_round i s s' : collect i s = Ret s' -> round_spec i s s'.
Proof.
  unfold collectNodeResource. intros H. pose proof (collectCPU_spec i s) as Hc. destruct (collectCPU i s) as [cpu s1].
  pose proof (collectProcess_spec i s1) as Hp. destruct (collectProcess config root i s1) as [proc s2].
  pose proof (collectDiskIO_spec i s2) as Hd.
  assert (E : (if negb (length (DiskNames config) =? 0)%nat then collectDiskIO config i s2 else (None, s2)) = collectDiskIO config i s2)
    by (unfold collectDiskIO; by destruct (length (DiskNames config) =? 0)%nat).
  rewrite E in H. clear E. destruct (collectDiskIO config i s2) as [disk s3].
  apply outcome_bind_Ret in H as ([net s4] & Hn & H).
  assert (Hn' : collectNetIO config i s3 = Ret (net, s4)) by (unfold collectNetIO in *; by destruct (length (Ifaces config) =? 0)%nat).
  apply collectNetIO_spec in Hn' as (Hn1 & Hn2 & Hn3 & Hn4 & Hn5). clear Hn.
  destruct Hc as (Hc1 & Hc2 & Hc3 & Hc4 & Hc5), Hp as (Hp1 & Hp2 & Hp3 & Hp4), Hd as (Hd1 & Hd2 & Hd3 & Hd4 & Hd5).
  rewrite Hd4, Hp3, Hc4 in Hn1, Hn2. rewrite Hp2, Hc3 in Hd1, Hd2. injection H as <-.
  assert (Hcache : nodeCache s4 = nodeCache s) by congruence.
  split; [destruct cpu; simpl; congruence|destruct cpu; simpl; congruence|destruct cpu; exact Hn1|].
  eexists (mkNodeResourceState (s_now i) cpu (collectLoad i) (collectMemory i) disk net proc). cbn [nrs_Timestamp nrs_CPU nrs_DiskIO nrs_NetIO].
  split_and!; try done. destruct cpu; [|done]. cbn. by rewrite Hcache.
Qed.

(** The baselines are the latest readings of the history. *)
Lemma run_baselines l : forall s, run l NewNodeStoreManager = Ret s ->
  lastCPU s = last (omap cpu_reading l) /\ lastDiskIO s = last (omap disk_reading l) /\ raw <$> lastNetIO s = last (omap net_reading l).
Proof.
  induction l as [|i l IH] using rev_ind; intros s H; [by injection H as <-|].
  apply Run_app in H as (s1 & H1 & H). destruct (IH s1 H1) as (I1 & I2 & I3).
  cbn [Run] in H. apply outcome_bind_Ret in H as (s2 & H & [= <-]). apply collect_round in H as [R1 R2 R3 _].
  rewrite !last_omap_snoc, R1, R2, R3, I1, I2, I3. done.
Qed.

(** C7: after any history of rounds, a round adds a state to the buffer exactly when it can read the processors
    and some round before could.  Its rates are those between this reading and the latest
    earlier one that succeeded, for processors, disks and networks each: failed readings in
    between do not spoil a rate. *)
Theorem rates_between_readings l i s s' :
  run l NewNodeStoreManager = Ret s -> collect i s = Ret s' ->
  exists st, nrs_Timestamp st = s_now i /\
    between cpuRates (last (omap cpu_reading l)) (cpu_reading i) (nrs_CPU st) /\
    between (fun d1 d2 d => IOState d = calculateDiskIO d1 d2) (last (omap disk_reading l)) (disk_reading i) (nrs_DiskIO st) /\
    between netRates (last (omap net_reading l)) (net_reading i) (nrs_NetIO st) /\
    nodeCache s' = match nrs_CPU st with
                   | Some _ => Some (ts_Add (default (NewTimedStore cacheAge) (nodeCache s)) (s_now i) st)
                   | None => nodeCache s
                   end.
Proof.
  intros Hr Hc. apply run_baselines in Hr as (<- & <- & <-). by apply collect_round in Hc as [_ _ _ H].
Qed.
(** The speed of an interface can be found. *)
Definition speed_found (i : sample Q) (iface : string) : Prop :=
  (exists v, getSpeed (s_speedFile i) iface = Ok v /\ 0 < v <= 100000) \/ (exists v, Atoi (s_netSpeed i) = Some v /\ 0 < v).

Lemma GetIfaceSpeed_found (i : sample Q) iface sp : speed_found i iface ->
  exists r, GetIfaceSpeed (s_speedFile i) (s_netSpeed i) iface sp = Ret r.
Proof.
  intros Hf. unfold GetIfaceSpeed. destruct (sp !! iface); [by eexists|].
  set (v := ok_or 0 (getSpeed (s_speedFile i) iface)). destruct Hf as [(w & E & Hw)|(w & E & Hw)].
  - assert (Hv : v = w) by (unfold v; by rewrite E). clearbody v. subst v. cbv zeta. change (100 * 1000) with 100000.
    destruct (Z.leb_spec w 0); [lia|]. destruct (Z.ltb_spec 100000 w); [lia|]. cbn [orb].
    destruct (Z.leb_spec w 0); [lia|]. by eexists.
  - rewrite E. cbn [default from_option id]. cbv zeta. destruct ((v <=? 0) || (100 * 1000 <? v)) eqn:Ev.
    + destruct (Z.leb_spec w 0); [lia|]. by eexists.
    + destruct (Z.leb_spec v 0); [lia|]. by eexists.
Qed.

Lemma netLoop_total (i : sample Q) d t1 l : (forall iface, iface ∈ l.*1 -> speed_found i iface) ->
  forall stats sp, exists r, netLoop i d t1 l stats sp = Ret r.
Proof.
  induction l as [|[iface s2] l IH]; intros Hf stats sp; cbn [netLoop]; [by eexists|].
  assert (Hl : forall iface, iface ∈ l.*1 -> speed_found i iface) by (intros; apply Hf; by right).
  destruct (t1 !! iface); [|by apply IH]. destruct (GetIfaceSpeed_found i iface sp) as [[v sp'] E]; [apply Hf; by left|].
  rewrite E. by apply IH.
Qed.

Lemma configured_nets_in nets iface n : configured_nets nets !! iface = Some n -> iface ∈ Ifaces config.
Proof.
  unfold configured_nets. revert iface n. induction nets as [|x nets IH] using rev_ind; intros iface n; [done|].
  rewrite fold_left_app. cbn [fold_left]. destruct (bool_decide_reflect (net_Name x ∈ Ifaces config)); [|apply IH].
  rewrite lookup_insert_Some. intros [[<- _]|[_ H]]; [done|by eapply IH].
Qed.

(** Collecting never ends the process when the speed of every configured interface can be found, in its file or
    in the environment: no sequence of readings, failed or not, panics. *)
Theorem collection_never_panics l : (forall i iface, i ∈ l -> iface ∈ Ifaces config -> speed_found i iface) ->
  forall s : nodeStore T, exists s', run l s = Ret s'.
Proof.
  induction l as [|i l IH]; intros Hf s; cbn [Run]; [by exists s|].
  assert (Hc : exists s1, collect i s = Ret s1).
  { unfold collectNodeResource. destruct (collectCPU i s) as [cpu s1]. destruct (collectProcess config root i s1) as [proc s2].
    destruct (if negb _ then _ else _) as [disk s3] at 1.
    assert (Hn : exists r, (if negb (length (Ifaces config) =? 0)%nat then collectNetIO config i s3 else Ret (None, s3)) = Ret r).
    { destruct (negb _); [|by eexists]. unfold collectNetIO. destruct (length (Ifaces config) =? 0)%nat; [by eexists|].
      destruct (s_nets i) as [nets|]; [|by eexists]. fold (configured_nets nets). destruct (size (configured_nets nets) =? 0)%nat; [by eexists|].
      destruct (lastNetIO s3) as [last|]; [|by eexists]. unfold calculateNetIO. cbn [rawState nn_timestamp].
      destruct (netLoop_total i (seconds_between (nn_timestamp last) (s_netTime i)) (rawState last) (range_map "calculateNetIO" (configured_nets nets))) with (stats := ∅ : gmap string IfaceStat) (sp := speeds s3) as [[st sp] E].
      - intros iface ([k n] & -> & Hk)%list_elem_of_fmap. apply elem_of_range in Hk. apply Hf; [by left|by eapply configured_nets_in].
      - rewrite E. by eexists. }
    destruct Hn as [[net s4] ->]. by eexists. }
  destruct Hc as [s1 ->]. apply IH. intros i' iface Hi. apply Hf. by right.
Qed.
End History.

(** ** Numbers of processors *)

Lemma cpuStep_fold nano l u :
  let r := fold_left (cpuStep nano) l u in
  perCore r = perCore u ++ (omap (coreUsage nano) l).*1 /\ perCoreSteal r = perCoreSteal u ++ (omap (coreUsage nano) l).*2.
Proof.
  revert u. induction l as [|p l IH]; intros u; cbn; [by rewrite !app_nil_r|]. destruct (IH (cpuStep nano u p)) as [-> ->].
  unfold cpuStep. destruct (coreUsage nano p) as [[a b]|]; cbn; [|done]. by rewrite <- !app_assoc.
Qed.

(** The processors that were busy between two readings, in their order, with the numbers lost. *)
Lemma calculateCpuUsage_cores c1 c2 : length (nc_state c1) = length (nc_state c2) ->
  let cores := omap (coreUsage (int64 (UnixNano (nc_timestamp c2) - UnixNano (nc_timestamp c1)))) (zip (nc_state c1) (nc_state c2)) in
  perCore (calculateCpuUsage c1 c2) = cores.*1 /\ perCoreSteal (calculateCpuUsage c1 c2) = cores.*2.
Proof.
  intros Hl. unfold calculateCpuUsage. rewrite Hl, Nat.eqb_refl. cbn [negb perCore perCoreSteal].
  apply (cpuStep_fold _ (zip (nc_state c1) (nc_state c2)) noUsage).
Qed.

Lemma cpuRates_aligned c1 c2 c : cpuRates c1 c2 c -> length (CpuPerCore c) = length (CpuStealPerCore c).
Proof.
  intros (_ & -> & _ & -> & _). destruct (decide (length (nc_state c1) = length (nc_state c2))) as [Hl|Hl].
  - destruct (calculateCpuUsage_cores c1 c2 Hl) as [-> ->]. by rewrite !length_fmap.
  - unfold calculateCpuUsage. by rewrite (proj2 (Nat.eqb_neq _ _) Hl).
Qed.

Lemma length_omap_lt {A B} (f : A -> option B) l x : x ∈ l -> f x = None -> (length (omap f l) < length l)%nat.
Proof.
  assert (Hle : forall l, (length (omap f l) <= length l)%nat) by (intros l'; induction l' as [|y l' IH]; cbn; [lia|destruct (f y); cbn; lia]).
  intros Hx Hf. induction l as [|y l IH]; [inversion Hx|]. apply elem_of_cons in Hx as [<-|Hx].
  - cbn. rewrite Hf. specialize (Hle l). lia.
  - specialize (IH Hx). cbn. destruct (f y); cbn; lia.
Qed.

Lemma core_value {SL : Structs} c z : in_int64 z -> 0 <= z ->
  cpu_GetValue c "cpu_per_core" (Itoa z) =
  if Z.of_nat (length (CpuPerCore c)) <=? z then Ret (Err ("invalid cpu number: " +:+ Itoa z))
  else match CpuPerCore c !! Z.to_nat z with Some f => Ret (Ok f) | None => Crash (Panic "index out of range") end.
Proof.
  intros Hz H0. unfold cpu_GetValue. assert (Hf : structs_Map (cpu_fields c) !! "cpu_per_core" = Some (AFloats (CpuPerCore c))).
  { apply structs_lookup; [apply cpu_fields_NoDup|]. by right; left. }
  rewrite Hf, Atoi_Itoa by done. rewrite (proj2 (Z.ltb_ge z 0) H0). cbn [orb].
  assert (Hs : (slen (Itoa z) =? 0) = false).
  { apply Z.eqb_neq. intros E. assert (E' : Itoa z = "") by (destruct (Itoa z); [done|unfold slen in E; simpl in E; lia]).
    pose proof (Atoi_Itoa z Hz) as Ha. by rewrite E' in Ha. }
  rewrite Hs. destruct (_ <=? z); [done|]. cbn [as_float_at]. by destruct (CpuPerCore c !! Z.to_nat z).
Qed.

(** The list of processors has the busy ones only, so that numbers are not those of the kernel: when one of [n]
    processors was idle between two readings, the value of the last processor cannot be read, whatever its usage, and the value
    at a number is that of the processor which is that far among the busy ones. *)
Theorem idle_core_shifts_numbers {SL : Structs} c1 c2 c idle :
  let n := length (nc_state c2) in
  let nano := int64 (UnixNano (nc_timestamp c2) - UnixNano (nc_timestamp c1)) in
  length (nc_state c1) = n -> Z.of_nat n < 2 ^ 63 -> cpuRates c1 c2 c ->
  idle ∈ zip (nc_state c1) (nc_state c2) -> coreUsage nano idle = None ->
  (exists e, cpu_GetValue c "cpu_per_core" (Itoa (Z.of_nat n - 1)) = Ret (Err e)) /\
  forall i usage steal, omap (coreUsage nano) (zip (nc_state c1) (nc_state c2)) !! i = Some (usage, steal) ->
    cpu_GetValue c "cpu_per_core" (Itoa (Z.of_nat i)) = Ret (Ok usage).
Proof.
  intros n nano Hl Hn (_ & Hc & _) Hidle Hnone. destruct (calculateCpuUsage_cores c1 c2 Hl) as [Hcores _]. fold nano in Hcores.
  assert (Hlen : (length (CpuPerCore c) < n)%nat).
  { rewrite Hc, Hcores, length_fmap. pose proof (length_omap_lt _ _ _ Hidle Hnone) as H. rewrite length_zip_with in H. unfold n in *. lia. }
  split.
  - rewrite core_value by (unfold in_int64; simpl in *; lia). rewrite (proj2 (Z.leb_le _ (Z.of_nat n - 1))) by lia. by eexists.
  - intros i usage steal Hi. assert (Hlt : CpuPerCore c !! i = Some usage) by (by rewrite Hc, Hcores, list_lookup_fmap, Hi).
    pose proof (lookup_lt_Some _ _ _ Hlt). rewrite core_value by (unfold in_int64; simpl in *; lia).
    rewrite (proj2 (Z.leb_gt _ (Z.of_nat i))) by lia. by rewrite Nat2Z.id, Hlt.
Qed.

(** ** Witnesses *)

#[local] Existing Instance key_order.
#[local] Existing Instance insertion_sort.
#[local] Instance ex_structs : Structs := {| structs_Map := list_to_map; structs_Map_spec := fun _ _ => eq_refl |}.
#[local] Instance ex_buffer : StateStore (list NodeResourceState) := {|
  NewTimedStore := fun _ => [];
  ts_Add := fun l _ s => s :: l;
  ts_Get := fun l => hd nodeStatExample l;
  ts_InTimeRange := fun l start fin _ => filter (fun s => start <= nrs_Timestamp s <= fin) (reverse l);
|}.

Definition ex_node_config : MetricsNodeConfig := mkMetricsNode Minute OfflineTypeOnk8s [] ["eth0"] ["sda"].
Definition ex_times (busy : Z) : TimesStat := mkTimes (float64_of_Z busy) fzero fzero fzero fzero fzero fzero fzero.

(** A reading at a number of seconds, with the processors busy so long. *)
Definition ex_sample (secs : Z) (cpus : list Z) (counter : Z) : sample Z :=
  let t := unix_epoch + secs * Second in
  mkSample t (Ok (map ex_times cpus)) (Ok (secs * Second)) t (Ok (fone, fone, fone)) (Ok {["MemTotal" := 100]}) (Ok 10) None [] None
    (fun _ => Ok 3) (Ok {["sda" := mkDiskCounters counter counter counter counter counter]}) t
    (Ok [mkNetCounters "eth0" counter counter counter counter counter counter counter counter counter counter]) t
    (fun _ => Err "no such file") "1000".

(** The first reading, one that fails, and another. *)
Definition ex_failed : sample Z := mkSample (unix_epoch + 20 * Second) (Err "proc") (Ok 0) 0 (Err "load") (Err "mem") (Ok 0) None [] None
  (fun _ => Err "no such file or directory") (Err "disk") 0 (Err "net") 0 (fun _ => Err "no such file") "".

Definition ex_run : outcome (nodeStore (list NodeResourceState)) :=
  Run ex_node_config (10 * Minute) "/sys/fs/cgroup" [ex_sample 10 [5; 5] 100; ex_failed] NewNodeStoreManager.

Lemma rates_between_readings_witness :
  exists s s' st, ex_run = Ret s /\ collectNodeResource ex_node_config (10 * Minute) "/sys/fs/cgroup" (ex_sample 30 [15; 5] 2148) s = Ret s' /\
    nodeCache s' = Some [st] /\ (d ← nrs_DiskIO st; DiskReadIOps <$> IOState d !! "sda") = Some (flit 2048 20).
Proof.
  destruct ex_run as [s|] eqn:E; [|by vm_compute in E].
  destruct (collectNodeResource ex_node_config (10 * Minute) "/sys/fs/cgroup" (ex_sample 30 [15; 5] 2148) s) as [s'|c] eqn:E'.
  - destruct (rates_between_readings ex_node_config (10 * Minute) "/sys/fs/cgroup" [ex_sample 10 [5; 5] 100; ex_failed] (ex_sample 30 [15; 5] 2148) s s' E E')
      as (st & _ & Hcpu & Hdisk & _ & Hcache).
    exists s, s', st. split; [exact eq_refl|]. split; [exact E'|]. split.
    + rewrite Hcache. destruct Hcpu as (c & -> & _). assert (Hn : nodeCache s = None) by (vm_compute in E; injection E as <-; reflexivity).
      by rewrite Hn.
    + destruct Hdisk as (d & -> & Hd). cbn [mbind option_bind]. rewrite Hd. vm_compute. reflexivity.
  - exfalso. vm_compute in E. injection E as <-. vm_compute in E'. discriminate E'.
Defined.

Lemma collection_never_panics_witness :
  exists s', Run ex_node_config (10 * Minute) "/sys/fs/cgroup" [ex_sample 10 [5; 5] 100; ex_sample 20 [6; 5] 200]
    (NewNodeStoreManager (T := list NodeResourceState)) = Ret s'.
Proof.
  apply (collection_never_panics ex_node_config (10 * Minute) "/sys/fs/cgroup"). intros i iface Hi _. right. exists 1000. split; [|lia].
  apply elem_of_cons in Hi as [->|Hi]; [vm_compute; reflexivity|]. apply list_elem_of_singleton in Hi as ->. vm_compute. reflexivity.
Defined.

Definition ex_state (cores : list float64) : NodeResourceState :=
  mkNodeResourceState unix_epoch (Some (mkNodeCpu [] nilTime 0 fone cores fone fzero cores fzero)) None None None
    (Some (mkNodeNetwork ∅ {["eth0" := mkIfaceStat "eth0" 1000 fzero fzero fzero fzero fzero fzero fzero fzero fzero fzero]} nilTime))
    (Some (mkNodeProcess 3)).

Lemma ex_state_aligned cores : aligned (ex_state cores).
Proof. by intros c [= <-]. Qed.

Lemma GetValue_panics_exactly_witness : exists c, GetValue (ex_state [fone]) "cpu_total" "0" = Crash c.
Proof.
  apply (GetValue_panics_exactly (ex_state [fone]) "cpu_total" "0" (ex_state_aligned _)). eapply core_of_scalar; [reflexivity|by left|].
  exists 0. split; [vm_compute; reflexivity|simpl; lia].
Defined.

Lemma accepted_rule_panics_witness :
  exists c, metric_params (rule_state (ex_state [fone]) (mkNodeMemory fone fone fone fone fone fone)) ["dev_eth0_netio_speed"] ∅ = Crash c.
Proof.
  destruct (accepted_rule_panics (ex_state [fone]) (mkNodeMemory fone fone fone fone fone fone) (ex_state_aligned _)) as [_ H].
  apply (H _ "eth0" eq_refl); [by eexists; vm_compute|by vm_compute].
Defined.

Definition ex_cpu_base (secs : Z) (cpus : list Z) : NodeCpu :=
  mkNodeCpu (map ex_times cpus) (unix_epoch + secs * Second) 0 fzero [] fzero fzero [] fzero.

(** Of two processors the first is idle, the second uses half of its time. *)
Lemma idle_core_shifts_numbers_witness :
  let u := calculateCpuUsage (ex_cpu_base 10 [5; 5]) (ex_cpu_base 20 [5; 10]) in
  let c := mkNodeCpu [] nilTime 0 (total u) (perCore u) fzero (totalSteal u) (perCoreSteal u) (totalOffline u) in
  (exists e, cpu_GetValue c "cpu_per_core" "1" = Ret (Err e)) /\ cpu_GetValue c "cpu_per_core" "0" = Ret (Ok (flit 5 10)).
Proof.
  intros u c. destruct (idle_core_shifts_numbers (ex_cpu_base 10 [5; 5]) (ex_cpu_base 20 [5; 10]) c (ex_times 5, ex_times 5)) as [H1 H2].
  - reflexivity.
  - simpl. lia.
  - repeat split.
  - left.
  - vm_compute. reflexivity.
  - split; [exact H1|]. apply (H2 0%nat (flit 5 10) fzero). vm_compute. reflexivity.
Defined.
