(* ===== verification/NetIO.v ===== *)
(** * Network io isolation

    pkg/caelus/qos/manager/netio and manage_netio.go: the outgoing traffic of
    offline pods goes to a class of its own, through a set of addresses or
    through the class id of their cgroups.  [NetKernel] is the traffic control
    of the kernel: netlink, the ipset library and the tc command on a state [K];
    the files of cgroups are those of Cgroup.v. *)

From Stdlib Require Import Ascii.
From S2P Require Import Prelude GoStrings GoFloat Quantity Cgroup Qos K8sResource NodeStore.

#[local] Open Scope string_scope.
#[local] Open Scope Z_scope.
#[local] Open Scope list_scope.

(** ** netio.go *)

(** [netlink.MakeHandle]: the major and the minor number, 16 bits each. *)
Definition MakeHandle (major minor : Z) : Z := Z.lor (Z.shiftl major 16) minor.

Definition rootMinor : Z := 1.
Definition onlineMinor : Z := 2.
Definition offlineMinor : Z := 3.
Definition onlinePrio : Z := 1.
Definition offlinePrio : Z := 3.
Definition ipFilterPrio : Z := 10.
Definition cgroupFilterPrio : Z := 20.
Definition offline_classid : string := "0x10003".
Definition Mbit : Z := 1000 * 1000.
Definition offlineIpset : string := "caelus-offline".

Definition rootClass : Z := MakeHandle rootMinor rootMinor.
Definition onlineClass : Z := MakeHandle rootMinor onlineMinor.
Definition offlineClass : Z := MakeHandle rootMinor offlineMinor.
(** [netlink.HANDLE_ROOT]. *)
Definition HANDLE_ROOT : Z := 2 ^ 32 - 1.

Record Qdisc := mkQdisc { q_Type : string; q_LinkIndex : Z; q_Handle : Z; q_Parent : Z; Defcls : Z }.

Record HtbAttrs := mkHtbAttrs { ha_LinkIndex : Z; ha_Parent : Z; ha_Handle : Z; ha_Rate : Z; ha_Ceil : Z; ha_Prio : Z }.

Record HtbClass := mkHtbClass {
  LinkIndex : Z; Parent : Z; Handle : Z; Rate : Z; Ceil : Z; Prio : Z; Buffer : Z; Cbuffer : Z;
}.

(** A class of another type is [None]. *)
Abbreviation NetClass := (option HtbClass).

Class NetKernel (K : Type) := {
  LinkByName : string -> K -> result Z;
  QdiscList : Z -> K -> result (list Qdisc);
  QdiscDel : Qdisc -> K -> option error * K;
  QdiscAdd : Qdisc -> K -> option error * K;
  ClassList : Z -> K -> result (list NetClass);
  ClassChange : HtbClass -> K -> option error * K;
  ClassAdd : HtbClass -> K -> option error * K;
  (** [NewHtbClass] computes the buffers and the rates in bytes. *)
  NewHtbClass : HtbAttrs -> HtbClass;
  (** A tc command with its combined output. *)
  tc_command : list string -> K -> (string * option error) * K;
  ipset_Create : string -> K -> option error * K;
  ipset_exists : error -> bool;
  ipset_List : string -> K -> result (list (list string));
  ipset_Add : string -> string -> K -> option error * K;
  ipset_Del : string -> string -> K -> option error * K;
}.

Record EgressShaper := mkShaper { ifName : string; speed : Z; sh_offlineIpset : string }.

(** The speed of the interface may end the process. *)
Definition NewEgressShaper (read : string -> result string) (NET_SPEED : string) (ipset_New : option error) (ifName : string)
    (devSpeedMap : gmap string Z) : outcome (result EgressShaper * gmap string Z) :=
  match ipset_New with
  | Some e => Ret (Err e, devSpeedMap)
  | None =>
      '(v, sp) ← GetIfaceSpeed read NET_SPEED ifName devSpeedMap;
      Ret (Ok (mkShaper ifName (uint64 v) (offlineIpset +:+ "-" +:+ ifName)), sp)
  end.

(** A pod with the rest of what is read of it. *)
Record NetPod (Q : Type) := mkNetPod { np_pod : Pod Q; HostNetwork : bool; PodIP : string }.
Arguments mkNetPod {Q} _ _ _.
Arguments np_pod {Q} _.
Arguments HostNetwork {Q} _.
Arguments PodIP {Q} _.

Section NetIO.
Context {RO : RangeOrder} {K : Type} {NK : NetKernel K} {CE : CgroupEnv}.

(** Operations on the kernel and the files. *)
Definition NM (A : Type) : Type := K * world -> A * (K * world).

#[export] Instance NM_ret : MRet NM := fun A a w => (a, w).
#[export] Instance NM_bind : MBind NM := fun A B f m w => let '(a, w') := m w in f a w'.

Definition on_kernel {A} (f : K -> A * K) : NM A := fun '(k, w) => let '(a, k') := f k in (a, (k', w)).
Definition from_kernel {A} (f : K -> A) : NM A := fun '(k, w) => (f k, (k, w)).
Definition on_files {A} (m : M A) : NM A := fun '(k, w) => let '(a, w') := m w in (a, (k, w')).

Definition newClass (index parent minor rate ceil prio : Z) : HtbClass := NewHtbClass (mkHtbAttrs index parent minor rate ceil prio).

Definition same_place (expect c : HtbClass) : bool := (Handle c =? Handle expect) && (Parent c =? Parent expect).
Definition same_shape (expect existing : HtbClass) : bool :=
  (Rate expect =? Rate existing) && (Ceil expect =? Ceil existing) && (Prio expect =? Prio existing) &&
  (Buffer expect =? Buffer existing) && (Cbuffer expect =? Cbuffer existing).

Definition ensureClass (nic : Z) (expect : HtbClass) : NM (option error) :=
  classes ← from_kernel (ClassList nic);
  match classes with
  | Err e => mret (Some e)
  | Ok classes =>
      match List.find (same_place expect) (omap id classes) with
      | Some existing => if same_shape expect existing then mret None else on_kernel (ClassChange expect)
      | None => on_kernel (ClassAdd expect)
      end
  end.

(** The classes a shaper wants. *)
Definition wantedClasses (s : EgressShaper) (linkIndex : Z) : list HtbClass :=
  let maxCeil := uint64 (Mbit * speed s) in
  [newClass linkIndex HANDLE_ROOT rootClass maxCeil maxCeil 0;
   newClass linkIndex rootClass onlineClass maxCeil maxCeil onlinePrio;
   newClass linkIndex rootClass offlineClass Mbit maxCeil offlinePrio].

Fixpoint ensureAll (nic : Z) (l : list HtbClass) : NM (option error) :=
  match l with
  | [] => mret None
  | c :: l' => e ← ensureClass nic c; match e with Some e => mret (Some e) | None => ensureAll nic l' end
  end.

Definition ensureClasses (s : EgressShaper) (nic : Z) : NM (option error) := ensureAll nic (wantedClasses s nic).

Definition wantedQdisc (linkIndex : Z) : Qdisc := mkQdisc "htb" linkIndex (MakeHandle rootMinor 0) HANDLE_ROOT onlineMinor.

Definition addQdisc (s : EgressShaper) (nic : Z) : NM (option error) :=
  e ← on_kernel (QdiscAdd (wantedQdisc nic));
  match e with Some e => mret (Some e) | None => ensureClasses s nic end.

Definition ReconcileInterface (s : EgressShaper) : NM (option error) :=
  link ← from_kernel (LinkByName (ifName s));
  match link with
  | Err e => mret (Some e)
  | Ok nic =>
      qdiscs ← from_kernel (QdiscList nic);
      match qdiscs with
      | Err e => mret (Some e)
      | Ok [q] =>
          if (q_Type q =? "htb")%string then
            if (Defcls q =? Defcls (wantedQdisc nic)) && (q_Handle q =? q_Handle (wantedQdisc nic)) then ensureClasses s nic
            else
              e ← on_kernel (QdiscDel (wantedQdisc nic));
              match e with Some e => mret (Some e) | None => addQdisc s nic end
          else addQdisc s nic
      | Ok _ => addQdisc s nic
      end
  end.

(** *** Filters *)

(** The lines of an output that are not blank, without spaces around them. *)
Definition output_lines (data : string) : list string :=
  filter (fun line => line <> "") (map TrimSpace (Split data newline)).

Definition dev_filter (verb : string) (s : EgressShaper) : list string := ["filter"; verb; "dev"; ifName s].

Definition ensureFilter (s : EgressShaper) (found : string -> bool) (add : list string) : NM (option error) :=
  r ← on_kernel (tc_command (dev_filter "show" s));
  match r with
  | (_, Some e) => mret (Some e)
  | (data, None) =>
      if existsb found (output_lines data) then mret None
      else r ← on_kernel (tc_command (dev_filter "add" s ++ add)); mret r.2
  end.

Definition ensureCgroupFilter (s : EgressShaper) : NM (option error) :=
  ensureFilter s (fun line => Contains line "handle 0x3" && (length (Split line " ") =? 10)%nat)
    ["protocol"; "ip"; "prio"; Itoa cgroupFilterPrio; "parent"; Itoa rootMinor +:+ ":"; "handle"; Itoa offlineMinor +:+ ":"; "cgroup"].

Definition ipsetMatch (s : EgressShaper) : string := "ipset(" +:+ sh_offlineIpset s +:+ " src)".

Definition ensureIpSetFilter (s : EgressShaper) : NM (option error) :=
  ensureFilter s (fun line => HasPrefix line (ipsetMatch s))
    ["parent"; Itoa rootMinor +:+ ":"; "protocol"; "ip"; "prio"; Itoa ipFilterPrio; "basic"; "match"; ipsetMatch s;
     "flowid"; Itoa rootMinor +:+ ":" +:+ Itoa offlineMinor].

(** The loop keeps the error of the latest write only. *)
Fixpoint classidLoop (paths : list string) (err : option error) : NM (option error) :=
  match paths with
  | [] => mret err
  | p :: paths' =>
      err ← on_files (WriteFile offline_classid (path_Join [env_root; "net_cls"; p]) "net_cls.classid");
      classidLoop paths' err
  end.

Definition EnsureEgressOfCgroup (s : EgressShaper) (pathInSubSystems : list string) : NM (option error) :=
  err ← ensureCgroupFilter s;
  match err with
  | Some e => mret (Some ("ensure cgroup filter: " +:+ e))
  | None => classidLoop pathInSubSystems None
  end.

(** *** Addresses *)

Fixpoint addLoop (name : string) (existIPs : gset string) (ipStrs : list string) : NM unit :=
  match ipStrs with
  | [] => mret tt
  | current :: ipStrs' =>
      _ ← (if bool_decide (current ∈ existIPs) then mret None else on_kernel (ipset_Add name current));
      addLoop name existIPs ipStrs'
  end.

Fixpoint delLoop (name : string) (currentIPs : gset string) (existIPs : list string) : NM unit :=
  match existIPs with
  | [] => mret tt
  | existIP :: existIPs' =>
      _ ← (if bool_decide (existIP ∈ currentIPs) then mret None else on_kernel (ipset_Del name existIP));
      delLoop name currentIPs existIPs'
  end.

(** [UnsortedList] ranges over the map of the set. *)
Definition UnsortedList (l : gset string) : list string := (range_map "UnsortedList" (gset_to_gmap tt l)).*1.

Definition EnsureEgressOfIPs (s : EgressShaper) (ipStrs : list string) : NM (option error) :=
  let name := sh_offlineIpset s in
  e ← on_kernel (ipset_Create name);
  match (match e with Some e => if ipset_exists e then None else Some e | None => None end) with
  | Some e => mret (Some e)
  | None =>
      lists ← from_kernel (ipset_List name);
      match lists with
      | Err e => mret (Some e)
      | Ok [] => mret (Some "ipset lists empty")
      | Ok (entries :: _) =>
          let existIPs : gset string := list_to_set entries in
          _ ← addLoop name existIPs ipStrs;
          _ ← delLoop name (list_to_set ipStrs) (UnsortedList existIPs);
          e ← ensureIpSetFilter s;
          mret (match e with Some e => Some ("ensure ipset filter: " +:+ e) | None => None end)
      end
  end.

(** ** manage_netio.go *)

Record qosNetIO := mkNetIO { net_tc : option EgressShaper; net_enitc : option EgressShaper }.

Section Manage.
Context {Q : Type}.
(** The resource of floating addresses, of the environment variable ENI_IP_RESOURCE. *)
Context (eniIPResource : string).

Definition eniPod (pod : NetPod Q) : bool :=
  existsb (fun reqResource => bool_decide (is_Some (reqResource !! eniIPResource))) (Requests (np_pod pod)).

Record traffic := mkTraffic { eniIPs : list string; globalRouteIPs : list string; hostNetworkCgroupPaths : list string }.

(** One turn of the loop over the pods. *)
Definition classify (t : traffic) (pod : NetPod Q) : traffic :=
  if (Namespace (np_pod pod) =? "kube-system")%string || negb (IsOffline (np_pod pod)) then t
  else if HostNetwork pod then mkTraffic (eniIPs t) (globalRouteIPs t) (hostNetworkCgroupPaths t ++ PodCgroupDirs (np_pod pod))
  else if (PodIP pod =? "")%string then t
  else if eniPod pod then mkTraffic (eniIPs t ++ [PodIP pod]) (globalRouteIPs t) (hostNetworkCgroupPaths t)
  else mkTraffic (eniIPs t) (globalRouteIPs t ++ [PodIP pod]) (hostNetworkCgroupPaths t).

Definition classifyAll (pods : list (NetPod Q)) : traffic := fold_left classify pods (mkTraffic [] [] []).

(** The two shapers; errors are logged only. *)
Definition manageShaper (tc : option EgressShaper) (t : traffic) : NM (option error) :=
  match tc with
  | Some tc => _ ← EnsureEgressOfCgroup tc (hostNetworkCgroupPaths t); EnsureEgressOfIPs tc (globalRouteIPs t)
  | None => mret None
  end.
Definition manageEniShaper (enitc : option EgressShaper) (t : traffic) : NM (option error) :=
  match enitc with Some enitc => EnsureEgressOfIPs enitc (eniIPs t) | None => mret None end.

Definition qosNetIO_Manage (n : qosNetIO) (PodList : list (NetPod Q)) : NM (option error) :=
  let t := classifyAll PodList in
  _ ← manageShaper (net_tc n) t;
  _ ← manageEniShaper (net_enitc n) t;
  mret None.
End Manage.
End NetIO.

(** ** Documented behaviour of the kernel *)

(** The addresses of a set ([members]; none before it is created) and the classes of
    a device by their handles ([table]). *)
Class NetKernelLaws (K : Type) {NK : NetKernel K} := {
  members : string -> K -> gset string;
  create_members : forall n n' k, members n' (ipset_Create n k).2 = members n' k;
  list_members : forall n k es ls, ipset_List n k = Ok (es :: ls) -> list_to_set es = members n k;
  add_members : forall n n' ip k, members n' (ipset_Add n ip k).2 =
    if decide ((ipset_Add n ip k).1 = None /\ n = n') then {[ip]} ∪ members n' k else members n' k;
  del_members : forall n n' ip k, members n' (ipset_Del n ip k).2 =
    if decide ((ipset_Del n ip k).1 = None /\ n = n') then members n' k ∖ {[ip]} else members n' k;
  tc_members : forall n args k, members n (tc_command args k).2 = members n k;
  table : Z -> K -> gmap Z HtbClass;
  table_handle : forall nic k h c, table nic k !! h = Some c -> Handle c = h;
  class_list : forall nic k l, ClassList nic k = Ok l -> forall c, c ∈ omap id l <-> table nic k !! Handle c = Some c;
  class_add : forall c k, (ClassAdd c k).1 = None -> table (LinkIndex c) (ClassAdd c k).2 = <[Handle c := c]> (table (LinkIndex c) k);
  class_change : forall c k, (ClassChange c k).1 = None -> table (LinkIndex c) (ClassChange c k).2 = <[Handle c := c]> (table (LinkIndex c) k);
  new_class : forall a, LinkIndex (NewHtbClass a) = ha_LinkIndex a /\ Handle (NewHtbClass a) = ha_Handle a /\ Parent (NewHtbClass a) = ha_Parent a;
  qdisc_add : forall q k, (QdiscAdd q k).1 = None -> QdiscList (q_LinkIndex q) (QdiscAdd q k).2 = Ok [q];
  class_keeps : forall c k nic name,
    QdiscList nic (ClassAdd c k).2 = QdiscList nic k /\ QdiscList nic (ClassChange c k).2 = QdiscList nic k /\
    LinkByName name (ClassAdd c k).2 = LinkByName name k /\ LinkByName name (ClassChange c k).2 = LinkByName name k;
  qdisc_keeps : forall q k name, LinkByName name (QdiscAdd q k).2 = LinkByName name k /\ LinkByName name (QdiscDel q k).2 = LinkByName name k;
}.

Section Addresses.
Context {RO : RangeOrder} {K : Type} {NK : NetKernel K} {NL : NetKernelLaws K} {CE : CgroupEnv}.

(** No change of a set fails. *)
Definition sets_work : Prop := forall n ip k, (ipset_Add n ip k).1 = None /\ (ipset_Del n ip k).1 = None.

Lemma addLoop_members n ex ips k w k' w' r :
  addLoop n ex ips (k, w) = (r, (k', w')) ->
  w' = w /\ (forall n', n' <> n -> members n' k' = members n' k) /\
  (forall ip, ip ∈ members n k -> ip ∈ members n k') /\
  (forall ip, ip ∈ members n k' -> ip ∈ members n k \/ ip ∈ ips) /\
  (sets_work -> forall ip, ip ∈ ips -> ip ∈ ex \/ ip ∈ members n k').
Proof.
  revert k. induction ips as [|x ips IH]; intros k H; cbn [addLoop] in H.
  { injection H as _ <- <-. split_and!; try done; [by left|]. intros _ ip Hip. inversion Hip. }
  unfold mbind, NM_bind in H. destruct (bool_decide_reflect (x ∈ ex)) as [Hx|Hx].
  - destruct (IH k H) as (-> & H1 & H2 & H3 & H4). split_and!; try done; [intros ip Hip; destruct (H3 ip Hip); [by left|right; by right]|].
    intros Hw ip Hip. apply elem_of_cons in Hip as [->|Hip]; [by left|by apply H4].
  - unfold on_kernel in H. pose proof (add_members n) as Hadd. specialize (fun n' => Hadd n' x k).
    destruct (ipset_Add n x k) as [e k1] eqn:Ek. cbn [fst snd] in Hadd. destruct (IH k1 H) as (-> & H1 & H2 & H3 & H4). split_and!; try done.
    + intros n' Hn. rewrite H1, Hadd, decide_False by naive_solver. done.
    + intros ip Hip. apply H2. rewrite Hadd. case_decide; set_solver.
    + intros ip Hip. destruct (H3 ip Hip) as [Hk|]; [|right; by right]. rewrite Hadd in Hk. case_decide; set_solver.
    + intros Hw ip Hip. apply elem_of_cons in Hip as [->|Hip]; [|by apply H4]. right. apply H2.
      destruct (Hw n x k) as [He _]. rewrite Ek in He. cbn in He. rewrite Hadd, decide_True by done. set_solver.
Qed.

Lemma delLoop_members n cur l k w k' w' r :
  delLoop n cur l (k, w) = (r, (k', w')) ->
  w' = w /\ (forall n', n' <> n -> members n' k' = members n' k) /\
  (forall ip, ip ∈ members n k' -> ip ∈ members n k) /\
  (forall ip, ip ∈ members n k -> ip ∈ cur -> ip ∈ members n k') /\
  (sets_work -> forall ip, ip ∈ l -> ip ∉ cur -> ip ∉ members n k').
Proof.
  revert k. induction l as [|x l IH]; intros k H; cbn [delLoop] in H.
  { injection H as _ <- <-. split_and!; try done. intros _ ip Hip. inversion Hip. }
  unfold mbind, NM_bind in H. destruct (bool_decide_reflect (x ∈ cur)) as [Hx|Hx].
  - destruct (IH k H) as (-> & H1 & H2 & H3 & H4). split_and!; try done.
    intros Hw ip Hip Hc. apply elem_of_cons in Hip as [->|Hip]; [done|by apply H4].
  - unfold on_kernel in H. pose proof (del_members n) as Hdel. specialize (fun n' => Hdel n' x k).
    destruct (ipset_Del n x k) as [e k1] eqn:Ek. cbn [fst snd] in Hdel. destruct (IH k1 H) as (-> & H1 & H2 & H3 & H4). split_and!; try done.
    + intros n' Hn. rewrite H1, Hdel, decide_False by naive_solver. done.
    + intros ip Hip. specialize (H2 ip Hip). rewrite Hdel in H2. case_decide; set_solver.
    + intros ip Hip Hc. apply H3; [|done]. rewrite Hdel. case_decide; [|done]. apply elem_of_difference. split; [done|]. set_solver.
    + intros Hw ip Hip Hc. apply elem_of_cons in Hip as [->|Hip]; [|by apply H4]. intros Hin. apply H2 in Hin.
      destruct (Hw n x k) as [_ He]. rewrite Ek in He. cbn in He. rewrite Hdel, decide_True in Hin by done. set_solver.
Qed.

Lemma ensureFilter_members s found add k w r k' w' n :
  ensureFilter s found add (k, w) = (r, (k', w')) -> w' = w /\ members n k' = members n k.
Proof.
  unfold ensureFilter, mbind, NM_bind, on_kernel. intros H. pose proof (tc_members n (dev_filter "show" s) k) as H1.
  destruct (tc_command (dev_filter "show" s) k) as [[data [e|]] k1]; [by injection H as _ <- <-|].
  destruct (existsb found (output_lines data)); [by injection H as _ <- <-|].
  pose proof (tc_members n (dev_filter "add" s ++ add) k1) as H2. destruct (tc_command _ k1) as [r2 k2]. injection H as _ <- <-.
  split; [done|]. cbn in *. congruence.
Qed.

(** The set of a shaper can be created and read. *)
Definition set_readable (n : string) (k : K) : Prop :=
  (forall e, (ipset_Create n k).1 = Some e -> ipset_exists e = true) /\ exists es ls, ipset_List n (ipset_Create n k).2 = Ok (es :: ls).

Lemma EnsureEgressOfIPs_members s ips k w r k' w' :
  EnsureEgressOfIPs s ips (k, w) = (r, (k', w')) ->
  w' = w /\ (forall n', n' <> sh_offlineIpset s -> members n' k' = members n' k) /\
  (forall ip, ip ∈ members (sh_offlineIpset s) k' -> ip ∈ members (sh_offlineIpset s) k \/ ip ∈ ips) /\
  (forall ip, ip ∈ members (sh_offlineIpset s) k -> ip ∈ ips -> ip ∈ members (sh_offlineIpset s) k') /\
  (sets_work -> set_readable (sh_offlineIpset s) k -> members (sh_offlineIpset s) k' = list_to_set ips).
Proof.
  unfold EnsureEgressOfIPs, set_readable. set (n := sh_offlineIpset s). unfold mbind, NM_bind. unfold on_kernel at 1, from_kernel at 1.
  intros H. pose proof (create_members n) as Hc. specialize (fun n' => Hc n' k). destruct (ipset_Create n k) as [e k1]. cbn [fst snd] in *.
  destruct (match e with Some e => if ipset_exists e then None else Some e | None => None end) as [e'|] eqn:Ee.
  { injection H as _ <- <-. split; [done|]; split; [intros n' _; apply Hc|]; split; [intros ip; rewrite Hc; by left|]; split; [intros ip; by rewrite Hc|].
    intros _ [He _]. destruct e as [e|]; [|done]. specialize (He e eq_refl). by rewrite He in Ee. }
  destruct (ipset_List n k1) as [[|es ls]|e0] eqn:El.
  1, 3: injection H as _ <- <-; split; [done|]; split; [intros n' _; apply Hc|]; split; [intros ip; rewrite Hc; by left|]; split; [intros ip; by rewrite Hc|];
    intros _ (_ & es & ls & Hl); discriminate Hl.
  apply list_members in El. rewrite Hc in El.
  destruct (addLoop n (list_to_set es) ips (k1, w)) as [ra [k2 w2]] eqn:Ea. apply addLoop_members in Ea as (-> & A1 & A2 & A3 & A4).
  destruct (delLoop n (list_to_set ips) (UnsortedList (list_to_set es)) (k2, w)) as [rd [k3 w3]] eqn:Ed.
  apply delLoop_members in Ed as (-> & D1 & D2 & D3 & D4). unfold ensureIpSetFilter in H.
  destruct (ensureFilter s _ _ (k3, w)) as [rf [k4 w4]] eqn:Ef. injection H as _ -> ->.
  pose proof (fun n' => ensureFilter_members _ _ _ _ _ _ _ _ n' Ef) as HF. destruct (HF n) as [-> Hn]. split; [done|]. split; [|split; [|split]].
  - intros n' Hne. destruct (HF n') as [_ ->]. by rewrite D1, A1, Hc.
  - intros ip Hip. rewrite Hn in Hip. apply D2, A3 in Hip. by rewrite Hc in Hip.
  - intros ip Hip Hi. rewrite Hn. apply D3; [|by apply elem_of_list_to_set]. apply A2. by rewrite Hc.
  - intros Hw _. rewrite Hn. apply set_eq. intros ip. rewrite elem_of_list_to_set. split.
    + intros Hip. destruct (decide (ip ∈ ips)); [done|]. exfalso. pose proof (D2 ip Hip) as H2. apply A3 in H2 as [H2|]; [|done]. rewrite Hc in H2.
      apply (D4 Hw ip); [|by rewrite elem_of_list_to_set|done]. unfold UnsortedList. rewrite list_elem_of_fmap. exists (ip, tt). split; [done|].
      rewrite range_map_perm, elem_of_map_to_list, lookup_gset_to_gmap_Some. by rewrite El.
    + intros Hip. apply D3; [|by apply elem_of_list_to_set]. destruct (A4 Hw ip Hip) as [Hex|]; [|done]. apply A2. by rewrite Hc, <- El.
Qed.
End Addresses.

(** ** The traffic of pods *)

Section Traffic.
Context {RO : RangeOrder} {K : Type} {NK : NetKernel K} {NL : NetKernelLaws K} {CE : CgroupEnv} {Q : Type} (eniIPResource : string).
Implicit Types (pod : NetPod Q) (pods : list (NetPod Q)).

(** Pods whose traffic is limited, and of these the ones with an address of their own. *)
Definition limited pod : bool := negb (Namespace (np_pod pod) =? "kube-system")%string && IsOffline (np_pod pod).
Definition addressed pod : bool := limited pod && negb (HostNetwork pod) && negb (PodIP pod =? "")%string.

Lemma classifyAll_spec pods :
  let t := classifyAll eniIPResource pods in
  globalRouteIPs t = map PodIP (filter (fun pod => addressed pod && negb (eniPod eniIPResource pod) = true) pods) /\
  eniIPs t = map PodIP (filter (fun pod => addressed pod && eniPod eniIPResource pod = true) pods) /\
  hostNetworkCgroupPaths t = concat (map (fun pod => PodCgroupDirs (np_pod pod)) (filter (fun pod => limited pod && HostNetwork pod = true) pods)).
Proof.
  induction pods as [|pod pods (I1 & I2 & I3)] using rev_ind; [done|].
  unfold classifyAll in *. rewrite fold_left_app. cbn [fold_left].
  set (t := fold_left (classify eniIPResource) pods (mkTraffic [] [] [])) in *. clearbody t.
  rewrite !filter_app, !map_app, concat_app, <- I1, <- I2, <- I3. clear I1 I2 I3. unfold classify, addressed, limited. rewrite !filter_cons, !filter_nil.
  destruct (Namespace (np_pod pod) =? "kube-system")%string, (IsOffline (np_pod pod)), (HostNetwork pod), (PodIP pod =? "")%string,
    (eniPod eniIPResource pod); cbn [negb andb orb globalRouteIPs eniIPs hostNetworkCgroupPaths];
    repeat (rewrite decide_True by done) || rewrite decide_False by done; cbn; rewrite ?app_nil_r; done.
Qed.

(** C11: after a round in which the changes of the sets succeed, the set of each interface has exactly the addresses of the
    offline pods that use it: pods with floating addresses for the one, other pods with a network of their own for the other; never
    an address of an online pod or of the system, whatever was in the sets before. *)
Theorem managed_ips_exact n tc enitc pods k w r k' w' :
  net_tc n = Some tc -> net_enitc n = Some enitc -> sh_offlineIpset tc <> sh_offlineIpset enitc ->
  sets_work (K := K) -> (forall k, set_readable (sh_offlineIpset tc) k) -> (forall k, set_readable (sh_offlineIpset enitc) k) ->
  qosNetIO_Manage eniIPResource n pods (k, w) = (r, (k', w')) ->
  (forall ip, ip ∈ members (sh_offlineIpset tc) k' <->
     exists pod, pod ∈ pods /\ addressed pod = true /\ eniPod eniIPResource pod = false /\ PodIP pod = ip) /\
  (forall ip, ip ∈ members (sh_offlineIpset enitc) k' <->
     exists pod, pod ∈ pods /\ addressed pod = true /\ eniPod eniIPResource pod = true /\ PodIP pod = ip).
Proof.
  intros Htc Hen Hne Hw R1 R2 H. unfold qosNetIO_Manage, manageShaper, manageEniShaper in H. rewrite Htc, Hen in H. unfold mbind, NM_bind in H.
  destruct (EnsureEgressOfCgroup tc _ (k, w)) as [r0 [k0 w0]]. 
  destruct (EnsureEgressOfIPs tc _ (k0, w0)) as [r1 [k1 w1]] eqn:E1. destruct (EnsureEgressOfIPs enitc _ (k1, w1)) as [r2 [k2 w2]] eqn:E2.
  injection H as _ -> ->. apply EnsureEgressOfIPs_members in E1 as (_ & _ & _ & _ & E1), E2 as (_ & F2 & _ & _ & E2).
  destruct (classifyAll_spec pods) as (C1 & C2 & _). cbv zeta in C1, C2. rewrite C1 in E1. rewrite C2 in E2. split; intros ip.
  - rewrite F2, E1 by done. rewrite elem_of_list_to_set, list_elem_of_fmap. setoid_rewrite list_elem_of_filter.
    split.
    + intros (pod & -> & [H1 H2%negb_true_iff]%andb_true_iff & H3). by exists pod.
    + intros (pod & H1 & H2 & H3 & <-). exists pod. by rewrite H2, H3.
  - rewrite E2 by done. rewrite elem_of_list_to_set, list_elem_of_fmap. setoid_rewrite list_elem_of_filter.
    split.
    + intros (pod & -> & [H1 H2]%andb_true_iff & H3). by exists pod.
    + intros (pod & H1 & H2 & H3 & <-). exists pod. by rewrite H2, H3.
Qed.
End Traffic.

(** ** Classes *)

Section Classes.
Context {RO : RangeOrder} {K : Type} {NK : NetKernel K} {NL : NetKernelLaws K} {CE : CgroupEnv}.

(** A class with the wanted parent and shape has its handle. *)
Definition in_place (nic : Z) (k : K) (c : HtbClass) : Prop :=
  exists c', table nic k !! Handle c = Some c' /\ Parent c' = Parent c /\ same_shape c c' = true.

Lemma same_shape_refl c : same_shape c c = true.
Proof. unfold same_shape. by rewrite !Z.eqb_refl. Qed.

Lemma find_class nic k l c : ClassList nic k = Ok l ->
  match List.find (same_place c) (omap id l) with
  | Some c' => table nic k !! Handle c = Some c' /\ Parent c' = Parent c
  | None => forall c', table nic k !! Handle c = Some c' -> Parent c' <> Parent c
  end.
Proof.
  intros Hl. pose proof (class_list nic k l Hl) as Ht. destruct (List.find (same_place c) (omap id l)) as [c'|] eqn:E.
  - apply List.find_some in E as [Hin Hp]. apply list_elem_of_In, Ht in Hin. unfold same_place in Hp.
    apply andb_true_iff in Hp as [H1%Z.eqb_eq H2%Z.eqb_eq]. by rewrite <- H1.
  - intros c' Hc' Hp. pose proof (table_handle _ _ _ _ Hc') as Hh. pose proof (proj2 (Ht c')) as Hin.
    rewrite Hh in Hin. specialize (Hin Hc'). apply list_elem_of_In in Hin. apply (List.find_none _ _ E) in Hin. unfold same_place in Hin. lia.
Qed.

Lemma ensureClass_spec nic c k w k' w' : LinkIndex c = nic ->
  ensureClass nic c (k, w) = (None, (k', w')) ->
  w' = w /\ in_place nic k' c /\ (forall h, h <> Handle c -> table nic k' !! h = table nic k !! h) /\
  (forall n name, QdiscList n k' = QdiscList n k /\ LinkByName name k' = LinkByName name k).
Proof.
  intros Hn. unfold ensureClass, mbind, NM_bind, from_kernel. destruct (ClassList nic k) as [l|e] eqn:El; [|done].
  pose proof (find_class nic k l c El) as Hf. destruct (List.find (same_place c) (omap id l)) as [c'|].
  - destruct Hf as [Ht Hp]. destruct (same_shape c c') eqn:Es.
    + intros [= <- <-]. split; [done|]. split; [by exists c'|]. done.
    + unfold on_kernel. pose proof (class_change c k) as Hc. pose proof (class_keeps c k) as Hk. rewrite Hn in Hc. destruct (ClassChange c k) as [e k1].
      intros [= -> <- <-]. specialize (Hc eq_refl). cbn in Hc, Hk. split; [done|]. split; [|split].
      * exists c. rewrite Hc, lookup_insert_eq. split; [done|]. split; [done|apply same_shape_refl].
      * intros h Hh. by rewrite Hc, lookup_insert_ne.
      * intros n name. destruct (Hk n name) as (_ & H1 & _ & H2). done.
  - unfold on_kernel. pose proof (class_add c k) as Hc. pose proof (class_keeps c k) as Hk. rewrite Hn in Hc. destruct (ClassAdd c k) as [e k1].
    intros [= -> <- <-]. specialize (Hc eq_refl). cbn in Hc, Hk. split; [done|]. split; [|split].
    + exists c. rewrite Hc, lookup_insert_eq. split; [done|]. split; [done|apply same_shape_refl].
    + intros h Hh. by rewrite Hc, lookup_insert_ne.
    + intros n name. destruct (Hk n name) as (H1 & _ & H2 & _). done.
Qed.

(** A class that is in place is left alone. *)
Lemma ensureClass_stable nic c k w l : ClassList nic k = Ok l -> in_place nic k c -> ensureClass nic c (k, w) = (None, (k, w)).
Proof.
  intros Hl (c' & Ht & Hp & Hs). unfold ensureClass, mbind, NM_bind, from_kernel. rewrite Hl.
  pose proof (find_class nic k l c Hl) as Hf. destruct (List.find (same_place c) (omap id l)) as [c2|].
  - destruct Hf as [Ht2 _]. rewrite Ht in Ht2. injection Ht2 as <-. by rewrite Hs.
  - by destruct (Hf c' Ht).
Qed.

Lemma ensureAll_spec nic l k w k' w' : Forall (fun c => LinkIndex c = nic) l -> NoDup (map Handle l) ->
  ensureAll nic l (k, w) = (None, (k', w')) ->
  w' = w /\ Forall (in_place nic k') l /\ (forall h, h ∉ map Handle l -> table nic k' !! h = table nic k !! h) /\
  (forall n name, QdiscList n k' = QdiscList n k /\ LinkByName name k' = LinkByName name k).
Proof.
  revert k. induction l as [|c l IH]; intros k Hl Hnd H; [by injection H as <- <-|]. cbn [ensureAll] in H. unfold mbind at 1, NM_bind in H.
  apply Forall_cons in Hl as [Hc Hl]. cbn [map] in Hnd. apply NoDup_cons in Hnd as [Hh Hnd].
  destruct (ensureClass nic c (k, w)) as [[e|] [k1 w1]] eqn:E; [done|]. apply ensureClass_spec in E as (-> & P1 & T1 & Q1); [|done].
  destruct (IH k1 Hl Hnd H) as (-> & P2 & T2 & Q2). split; [done|]. split; [|split].
  - apply Forall_cons. split; [|done]. destruct P1 as (c' & Ht & Hp & Hs). exists c'. by rewrite T2.
  - intros h Hh'. cbn [map] in Hh'. apply not_elem_of_cons in Hh' as [H1 H2]. by rewrite T2, T1.
  - intros n name. destruct (Q2 n name) as [-> ->]. apply Q1.
Qed.

Lemma ensureAll_stable nic l k w cl : ClassList nic k = Ok cl -> Forall (in_place nic k) l -> ensureAll nic l (k, w) = (None, (k, w)).
Proof.
  intros Hl. induction 1 as [|c l Hc _ IH]; [done|]. cbn [ensureAll]. unfold mbind at 1, NM_bind. by rewrite (ensureClass_stable nic c k w cl).
Qed.

Lemma wantedClasses_handles s nic :
  Forall (fun c => LinkIndex c = nic) (wantedClasses s nic) /\ map Handle (wantedClasses s nic) = [rootClass; onlineClass; offlineClass].
Proof.
  unfold wantedClasses, newClass. split.
  - repeat constructor; apply new_class.
  - cbn [map]. rewrite !(proj1 (proj2 (new_class _))). done.
Qed.

Lemma addQdisc_spec s nic k w k' w' : addQdisc s nic (k, w) = (None, (k', w')) ->
  w' = w /\ Forall (in_place nic k') (wantedClasses s nic) /\ QdiscList nic k' = Ok [wantedQdisc nic] /\
  forall name, LinkByName name k' = LinkByName name k.
Proof.
  unfold addQdisc. unfold mbind at 1, NM_bind, on_kernel. pose proof (qdisc_add (wantedQdisc nic) k) as Ha. pose proof (qdisc_keeps (wantedQdisc nic) k) as Hk.
  destruct (QdiscAdd (wantedQdisc nic) k) as [[e|] k1]; [done|]. specialize (Ha eq_refl). cbn in Ha, Hk. intros H.
  destruct (wantedClasses_handles s nic) as [Hl Hh]. apply ensureAll_spec in H as (-> & P & _ & Hq); [|done|].
  - split; [done|]. split; [done|]. destruct (Hq nic (ifName s)) as [Hq1 _]. split; [by rewrite Hq1|].
    intros name. destruct (Hq nic name) as [_ Hq2]. rewrite Hq2. apply Hk.
  - rewrite Hh. apply (bool_decide_unpack _). vm_compute. exact I.
Qed.

Lemma ReconcileInterface_spec s k w k' w' : ReconcileInterface s (k, w) = (None, (k', w')) ->
  exists nic q, LinkByName (ifName s) k' = Ok nic /\ w' = w /\ Forall (in_place nic k') (wantedClasses s nic) /\
    QdiscList nic k' = Ok [q] /\ q_Type q = "htb" /\ Defcls q = onlineMinor /\ q_Handle q = MakeHandle rootMinor 0.
Proof.
  unfold ReconcileInterface, from_kernel. unfold mbind at 1 2, NM_bind at 1 2. destruct (LinkByName (ifName s) k) as [nic|e] eqn:En; [|done].
  intros H. exists nic.
  assert (Hadd : addQdisc s nic (k, w) = (None, (k', w')) -> exists q, LinkByName (ifName s) k' = Ok nic /\ w' = w /\
    Forall (in_place nic k') (wantedClasses s nic) /\ QdiscList nic k' = Ok [q] /\ q_Type q = "htb" /\ Defcls q = onlineMinor /\ q_Handle q = MakeHandle rootMinor 0).
  { intros Ha. apply addQdisc_spec in Ha as (-> & P & Hq & Hn). exists (wantedQdisc nic). by rewrite Hn. }
  destruct (QdiscList nic k) as [[|q [|q2 qs]]|e] eqn:Eq; [by apply Hadd| |by apply Hadd|done].
  destruct (String.eqb_spec (q_Type q) "htb") as [Ht|]; [|by apply Hadd].
  destruct ((Defcls q =? _) && _) eqn:Ed.
  - apply andb_true_iff in Ed as [D1%Z.eqb_eq D2%Z.eqb_eq]. destruct (wantedClasses_handles s nic) as [Hl Hh].
    apply ensureAll_spec in H as (-> & P & _ & Hq); [|done|].
    + exists q. destruct (Hq nic (ifName s)) as [-> ->]. done.
    + rewrite Hh. apply (bool_decide_unpack _). vm_compute. exact I.
  - unfold mbind at 1, NM_bind, on_kernel in H. pose proof (qdisc_keeps (wantedQdisc nic) k (ifName s)) as [_ Hk].
    destruct (QdiscDel (wantedQdisc nic) k) as [[e|] k1]; [done|]. cbn in Hk.
    apply addQdisc_spec in H as (-> & P & Hq & Hn). exists (wantedQdisc nic). by rewrite Hn, Hk.
Qed.

End Classes.

(** ** Class ids *)

Section ClassIds.
Context {RO : RangeOrder} {K : Type} {NK : NetKernel K} {NL : NetKernelLaws K} {CE : CgroupEnv} {Q : Type} (eniIPResource : string).

Definition classid_path (dir : string) : string := path_Join [path_Join [env_root; "net_cls"; dir]; "net_cls.classid"].

Lemma classidLoop_files dirs err (k : K) w r k' w' : classidLoop dirs err (k, w) = (r, (k', w')) ->
  (forall p, p ∉ map classid_path dirs -> files w' !! p = files w !! p) /\
  ((forall n p d, env_write n p d = None) -> forall dir, dir ∈ dirs ->
     files w' !! classid_path dir = Some (env_readback (classid_path dir) offline_classid)).
Proof.
  revert err w. induction dirs as [|d dirs IH]; intros err w H; cbn [classidLoop] in H.
  { injection H as _ _ <-. split; [done|]. intros _ dir Hd. inversion Hd. }
  unfold mbind, NM_bind, on_files, WriteFile, write_path in H. fold (classid_path d) in H. destruct (env_write (writes w) (classid_path d) offline_classid) as [e|] eqn:Ew.
  - apply IH in H as [H1 H2]. cbn in H1. split; [intros p Hp; cbn [map] in Hp; apply not_elem_of_cons in Hp as [_ Hp]; by apply H1|].
    intros Hok. by rewrite Hok in Ew.
  - apply IH in H as [H1 H2]. cbn in H1. split.
    + intros p Hp. cbn [map] in Hp. apply not_elem_of_cons in Hp as [Hne Hp]. rewrite H1 by done. by rewrite lookup_insert_ne.
    + intros Hok dir Hd. destruct (decide (dir ∈ dirs)) as [Hin|Hin]; [by apply H2|]. apply elem_of_cons in Hd as [->|]; [|done].
      destruct (decide (classid_path d ∈ map classid_path dirs)) as [Hp|Hp].
      * apply list_elem_of_fmap in Hp as (d2 & E & Hd2). rewrite E. by apply H2.
      * rewrite H1 by done. by rewrite lookup_insert_eq.
Qed.

(** The cgroups of the offline pods on the network of the host. *)
Definition host_dir (pods : list (NetPod Q)) (dir : string) : Prop :=
  exists pod, pod ∈ pods /\ limited pod = true /\ HostNetwork pod = true /\ dir ∈ PodCgroupDirs (np_pod pod).

Lemma elem_of_host_paths pods dir : dir ∈ hostNetworkCgroupPaths (classifyAll eniIPResource pods) <-> host_dir pods dir.
Proof.
  destruct (classifyAll_spec eniIPResource pods) as (_ & _ & ->). rewrite list_elem_of_In, in_concat. split.
  - intros (l & Hl & Hd). apply list_elem_of_In, list_elem_of_fmap in Hl as (pod & -> & Hp). apply list_elem_of_filter in Hp as [[H1 H2]%andb_true_iff Hp].
    exists pod. split; [done|]. split; [done|]. split; [done|]. by apply list_elem_of_In.
  - intros (pod & Hp & H1 & H2 & Hd). exists (PodCgroupDirs (np_pod pod)). rewrite <- !list_elem_of_In. split; [|done].
    apply list_elem_of_fmap. exists pod. split; [done|]. apply list_elem_of_filter. by rewrite H1, H2.
Qed.

(** A round writes no file but the class ids of the cgroups of offline pods on the network of the host; with a
    shaper, when the filter is there and the writes succeed, each of these cgroups has the id of the offline class. *)
Theorem managed_class_ids n pods (k : K) w r k' w' :
  qosNetIO_Manage eniIPResource n pods (k, w) = (r, (k', w')) ->
  (forall p, files w' !! p <> files w !! p -> exists dir, p = classid_path dir /\ host_dir pods dir) /\
  (forall tc, net_tc n = Some tc -> (ensureCgroupFilter (K := K) tc (k, w)).1 = None -> (forall n p d, env_write n p d = None) ->
     forall dir, host_dir pods dir -> files w' !! classid_path dir = Some (env_readback (classid_path dir) offline_classid)).
Proof.
  unfold qosNetIO_Manage. set (t := classifyAll eniIPResource pods). unfold mbind at 1, NM_bind. intros H.
  assert (Hips : forall s ips k w r k' w', EnsureEgressOfIPs s ips (k, w) = (r, (k', w')) -> w' = w).
  { intros s ips k1 w1 r1 k2 w2 E. by apply EnsureEgressOfIPs_members in E as (-> & _). }
  destruct (manageShaper (net_tc n) t (k, w)) as [r1 [k1 w1]] eqn:E1. unfold mbind, NM_bind in H.
  destruct (manageEniShaper (net_enitc n) t (k1, w1)) as [r2 [k2 w2]] eqn:E2. injection H as _ <- <-.
  assert (w2 = w1) as -> by (unfold manageEniShaper in E2; destruct (net_enitc n); [by eapply Hips|by injection E2]). clear E2.
  unfold manageShaper in E1. destruct (net_tc n) as [tc|]; [|injection E1 as _ _ <-; split; [by intros p Hp|intros tc [=]]].
  unfold mbind, NM_bind in E1. destruct (EnsureEgressOfCgroup tc (hostNetworkCgroupPaths t) (k, w)) as [r0 [k0 w0]] eqn:E0. apply Hips in E1 as ->.
  unfold EnsureEgressOfCgroup, mbind, NM_bind in E0. destruct (ensureCgroupFilter tc (k, w)) as [e [kf wf]] eqn:Ef.
  pose proof (ensureFilter_members _ _ _ _ _ _ _ _ "" Ef) as [-> _]. destruct e as [e|].
  - injection E0 as _ _ <-. split; [by intros p Hp|]. intros tc' [= <-] Hn. by rewrite Ef in Hn.
  - apply classidLoop_files in E0 as [H1 H2]. split.
    + intros p Hp. destruct (decide (p ∈ map classid_path (hostNetworkCgroupPaths t))) as [Hin|Hin]; [|by rewrite H1 in Hp].
      apply list_elem_of_fmap in Hin as (dir & -> & Hd). exists dir. split; [done|]. by apply elem_of_host_paths.
    + intros _ _ _ Hok dir Hd. apply H2; [done|]. by apply elem_of_host_paths.
Qed.
End ClassIds.

(** ** Witnesses *)

(** A kernel with sets, classes and queueing disciplines in maps. *)
Record ex_kernel := mkExKernel {
  x_sets : gmap string (gset string);
  x_classes : gmap Z (gmap Z HtbClass);
  x_qdiscs : gmap Z (list Qdisc);
}.

Definition ex_table (nic : Z) (k : ex_kernel) : gmap Z HtbClass :=
  filter (fun '(h, c) => Handle c = h) (default ∅ (x_classes k !! nic)).
Definition ex_members (n : string) (k : ex_kernel) : gset string := default ∅ (x_sets k !! n).
Definition ex_set_members (n : string) (m : gset string) (k : ex_kernel) : ex_kernel :=
  mkExKernel (<[n := m]> (x_sets k)) (x_classes k) (x_qdiscs k).
Definition ex_add_class (c : HtbClass) (k : ex_kernel) : ex_kernel :=
  mkExKernel (x_sets k) (<[LinkIndex c := <[Handle c := c]> (default ∅ (x_classes k !! LinkIndex c))]> (x_classes k)) (x_qdiscs k).
Definition ex_set_qdiscs (nic : Z) (l : list Qdisc) (k : ex_kernel) : ex_kernel :=
  mkExKernel (x_sets k) (x_classes k) (<[nic := l]> (x_qdiscs k)).

#[local] Instance ex_net : NetKernel ex_kernel := {|
  LinkByName := fun _ _ => Ok 2;
  QdiscList := fun nic k => Ok (default [] (x_qdiscs k !! nic));
  QdiscDel := fun q k => (None, ex_set_qdiscs (q_LinkIndex q) [] k);
  QdiscAdd := fun q k => (None, ex_set_qdiscs (q_LinkIndex q) [q] k);
  ClassList := fun nic k => Ok (map (fun x => Some x.2) (map_to_list (ex_table nic k)));
  ClassChange := fun c k => (None, ex_add_class c k);
  ClassAdd := fun c k => (None, ex_add_class c k);
  NewHtbClass := fun a => mkHtbClass (ha_LinkIndex a) (ha_Parent a) (ha_Handle a) (ha_Rate a / 8) (ha_Ceil a / 8) (ha_Prio a) 0 0;
  tc_command := fun _ k => (("", None), k);
  ipset_Create := fun n k => (None, k);
  ipset_exists := fun _ => true;
  ipset_List := fun n k => Ok [elements (ex_members n k)];
  ipset_Add := fun n ip k => (None, ex_set_members n ({[ip]} ∪ ex_members n k) k);
  ipset_Del := fun n ip k => (None, ex_set_members n (ex_members n k ∖ {[ip]}) k);
|}.

Lemma ex_members_set n n' m k : ex_members n' (ex_set_members n m k) = if decide (n = n') then m else ex_members n' k.
Proof. unfold ex_members, ex_set_members. cbn [x_sets]. case_decide as E; [subst; by rewrite lookup_insert_eq|by rewrite lookup_insert_ne]. Qed.

Lemma ex_table_add c k : ex_table (LinkIndex c) (ex_add_class c k) = <[Handle c := c]> (ex_table (LinkIndex c) k).
Proof. unfold ex_table, ex_add_class. cbn [x_classes]. rewrite lookup_insert_eq. cbn [default from_option id]. by rewrite map_filter_insert_True. Qed.

Lemma ex_table_handle nic k h c : ex_table nic k !! h = Some c -> Handle c = h.
Proof. intros H. by apply map_lookup_filter_Some in H as [_ H]. Qed.

#[local] Instance ex_net_laws : NetKernelLaws ex_kernel.
Proof.
  refine {| members := ex_members; table := ex_table |}; intros; cbn [ipset_Create ipset_List ipset_Add ipset_Del tc_command ClassList ClassAdd ClassChange
    NewHtbClass QdiscAdd QdiscDel QdiscList LinkByName ex_net fst snd] in *; try done.
  - injection H as <- _. by rewrite list_to_set_elements_L.
  - rewrite ex_members_set. case_decide as E; [subst; by rewrite decide_True|rewrite decide_False by (by intros [_ ?]); done].
  - rewrite ex_members_set. case_decide as E; [subst; by rewrite decide_True|rewrite decide_False by (by intros [_ ?]); done].
  - by eapply ex_table_handle.
  - injection H as <-. rewrite list_elem_of_omap. setoid_rewrite list_elem_of_fmap. split.
    + intros (x & ([h c'] & -> & Hc) & [= ->]). apply elem_of_map_to_list in Hc. by rewrite (ex_table_handle _ _ _ _ Hc).
    + intros Hc. exists (Some c). split; [|done]. exists (Handle c, c). split; [done|]. by apply elem_of_map_to_list.
  - apply ex_table_add.
  - apply ex_table_add.
  - unfold ex_set_qdiscs. cbn [x_qdiscs]. by rewrite lookup_insert_eq.
Defined.

#[local] Existing Instance key_order.
#[local] Instance ex_cgroups : CgroupEnv := {|
  env_root := "/sys/fs/cgroup"; env_write := fun _ _ _ => None; env_readback := fun _ d => d; env_cpuinfo := Err "none";
  env_readdir := fun _ => Err "none"; env_walk := fun _ => Err "none"; env_pids := fun _ _ => PidsErr "none";
|}.

Definition ex_shaper (name : string) : EgressShaper := mkShaper name 1500 (offlineIpset +:+ "-" +:+ name).
Definition ex_kernel0 : ex_kernel := mkExKernel {["caelus-offline-eth1" := {["10.0.0.9"]}]} ∅ ∅.
Definition ex_files : world := mkWorld ∅ 0 ∅ 0 false false false.

Definition ex_net_pod (ns uid : string) (greedy host : bool) (ip : string) : NetPod Z :=
  mkNetPod (mkPod ns uid uid (if greedy then {[AnnotationOfflineKey := AnnotationOfflineValue]} else ∅) None None PodRunning PodQOSBestEffort
    ["docker://c" +:+ uid] []) host ip.

Definition ex_net_pods : list (NetPod Z) :=
  [ex_net_pod "default" "a" true false "10.0.0.1"; ex_net_pod "default" "b" false false "10.0.0.2"; ex_net_pod "default" "h" true true "192.168.0.1"].

Definition ex_isolation : qosNetIO := mkNetIO (Some (ex_shaper "eth1")) (Some (ex_shaper "eth0")).


Lemma managed_ips_exact_witness :
  exists k' w', qosNetIO_Manage "eni" ex_isolation ex_net_pods (ex_kernel0, ex_files) = (None, (k', w')) /\
    "10.0.0.1" ∈ members "caelus-offline-eth1" k' /\ "10.0.0.9" ∉ members "caelus-offline-eth1" k'.
Proof.
  destruct (qosNetIO_Manage "eni" ex_isolation ex_net_pods (ex_kernel0, ex_files)) as [r [k' w']] eqn:E. exists k', w'.
  assert (Hr : r = None) by (vm_compute in E; by injection E as <- _ _). subst r. split; [done|].
  assert (Hs : forall name k, set_readable (sh_offlineIpset (ex_shaper name)) k).
  { intros name k. split; [intros e He; exact eq_refl|]. by eexists _, _. }
  destruct (managed_ips_exact "eni" ex_isolation (ex_shaper "eth1") (ex_shaper "eth0") ex_net_pods ex_kernel0 ex_files None k' w'
    eq_refl eq_refl ltac:(by vm_compute) (fun _ _ _ => conj eq_refl eq_refl) (Hs "eth1") (Hs "eth0") E) as [H _].
  split.
  - apply H. exists (ex_net_pod "default" "a" true false "10.0.0.1"). split; [left|]. vm_compute. auto.
  - intros Hin. apply H in Hin as (pod & Hp & _ & _ & Hi). unfold ex_net_pods in Hp.
    repeat (apply elem_of_cons in Hp as [->|Hp]; [discriminate Hi|]). inversion Hp.
Defined.

Lemma managed_class_ids_witness :
  exists k' w' dir, qosNetIO_Manage "eni" ex_isolation ex_net_pods (ex_kernel0, ex_files) = (None, (k', w')) /\
    files w' !! classid_path dir = Some "0x10003".
Proof.
  destruct (qosNetIO_Manage "eni" ex_isolation ex_net_pods (ex_kernel0, ex_files)) as [r [k' w']] eqn:E.
  exists k', w', (hd "" (PodCgroupDirs (np_pod (ex_net_pod "default" "h" true true "192.168.0.1")))).
  assert (Hr : r = None) by (vm_compute in E; by injection E as <- _ _). subst r. split; [done|].
  destruct (managed_class_ids "eni" ex_isolation ex_net_pods ex_kernel0 ex_files None k' w' E) as [_ H].
  apply (H (ex_shaper "eth1") eq_refl); [vm_compute; reflexivity|done|].
  exists (ex_net_pod "default" "h" true true "192.168.0.1"). split; [by right; right; left|]. split; [reflexivity|]. split; [reflexivity|]. vm_compute. by left.
Defined.
