(* ===== verification/OuterMetrics.v ===== *)
(** * Metrics of applications and of Prometheus

    pkg/caelus/statestore/common/customize and prometheus: metrics of online
    jobs, from commands, servers and a metrics server, and families of
    Prometheus metrics are kept by name in buffers of timed values ([Timed], a
    library).  Programs and servers are arguments; a JSON object is the map of
    its fields. *)

From Stdlib Require Import Ascii.
From S2P Require Import Prelude GoStrings GoFloat Quantity Config Action RuleCheck Checkers.

#[local] Open Scope string_scope.
#[local] Open Scope Z_scope.
#[local] Open Scope list_scope.

(** The buffer of timed values of cadvisor: [td_Get] is the latest value. *)
Class Timed (V T : Type) := {
  td_New : duration -> T;
  td_Add : T -> time -> V -> T;
  td_Get : T -> V;
  td_InTimeRange : T -> time -> time -> Z -> list V;
}.

(** Keyed buffers, as both stores have them. *)
Section Caches.
Context {V T : Type} {TD : Timed V T} (maxAge : duration).

#[local] Abbreviation caches := (gmap string T).

Definition addTo (c : caches) (key : string) (now : time) (v : V) : caches :=
  <[key := td_Add (default (td_New maxAge) (c !! key)) now v]> c.

Definition recentOf (c : caches) (key : string) : result V :=
  match c !! key with None => Err ("resource not found: " +:+ key) | Some cache => Ok (td_Get cache) end.

Definition rangeOf (c : caches) (key : string) (start fin : time) (count : Z) : result (list V) :=
  match c !! key with None => Err ("resource not found: " +:+ key) | Some cache => Ok (td_InTimeRange cache start fin count) end.

(** The values of several keys, one after the other. *)
Definition addAll (now : time) (l : list (string * V)) (c : caches) : caches := fold_left (fun c x => addTo c x.1 now x.2) l c.

Context (Hget : forall t now v, td_Get (td_Add t now v) = v).

Lemma addTo_recent c k now v key : recentOf (addTo c k now v) key = if decide (k = key) then Ok v else recentOf c key.
Proof.
  unfold addTo, recentOf. case_decide as E; [subst; by rewrite lookup_insert_eq, Hget|by rewrite lookup_insert_ne].
Qed.

Lemma addAll_recent now l c key :
  recentOf (addAll now l c) key =
  match last (filter (fun x => x.1 = key) l) with Some x => Ok x.2 | None => recentOf c key end.
Proof.
  unfold addAll. induction l as [|[k v] l IH] using rev_ind; [done|].
  rewrite fold_left_app, filter_app. cbn [fold_left fst snd]. rewrite addTo_recent, IH, filter_cons, filter_nil. cbn [fst].
  destruct (decide (k = key)); [by rewrite last_snoc|by rewrite app_nil_r].
Qed.
End Caches.

(** ** customize/types.go *)

Inductive jvalue := JString (s : string) | JNumber (f : float64) | JOther.

Record MetricResponseList := mkResponse { r_JobName : string; r_MetricName : string; r_Values : gmap string float64 }.

Record MetricsResponseData := mkResponseData { Code : Z; Msg : string; Data : list MetricResponseList }.

Record podMetric := mkPodMetric { pm_PodName : string; pm_Namespace : string; pm_MetricName : string; Slo : float64; Value : float64 }.

(** The fields of the object: the values overwrite the names. *)
Definition MarshalJSON (m : MetricResponseList) : gmap string jvalue :=
  (JNumber <$> r_Values m) ∪ {["job_name" := JString (r_JobName m); "metric_name" := JString (r_MetricName m)]}.

Definition named (tmp : gmap string jvalue) (field old : string) : string :=
  match tmp !! field with Some (JString s) => s | _ => old end.

(** One turn of the loop over the fields: a string that is the name of a field becomes its value. *)
Definition unmarshalStep (m : MetricResponseList) (kv : string * jvalue) : MetricResponseList :=
  match kv.2 with
  | JString vv =>
      mkResponse (if (vv =? "job_name")%string then vv else r_JobName m) (if (vv =? "metric_name")%string then vv else r_MetricName m) (r_Values m)
  | JNumber vv => mkResponse (r_JobName m) (r_MetricName m) (<[kv.1 := vv]> (r_Values m))
  | JOther => m
  end.

Section OuterMetrics.
Context {RO : RangeOrder}.

Definition UnmarshalJSON (m : MetricResponseList) (tmp : gmap string jvalue) : MetricResponseList :=
  fold_left unmarshalStep (range_map "UnmarshalJSON" tmp)
    (mkResponse (named tmp "job_name" (r_JobName m)) (named tmp "metric_name" (r_MetricName m)) (r_Values m)).

Definition emptyResponse : MetricResponseList := mkResponse "" "" ∅.

(** ** customize/app.go *)

Context {T : Type} {TD : Timed Metric T} (maxAge : duration).

Definition defaultMetricName : string := "latency".

Definition generateStoreKey (jobName metricName : string) : string :=
  let metricName := if (metricName =? "")%string then defaultMetricName else metricName in
  jobName +:+ "-" +:+ metricName.

Definition generatePodStoreKey (namespace podName metricName : string) : string :=
  generateStoreKey (namespace +:+ "/" +:+ podName) metricName.

Definition AddMetricsData (c : gmap string T) (key : string) (now : time) (metric : Metric) : gmap string T := addTo maxAge c key now metric.

(** The output of a program, the answer of a server with its status, and the decoding of a body: the code, the message and the
    objects of the data. *)
Context (exec_Output : string -> list string -> result string) (http_Get : string -> result (Z * string))
  (json_data : string -> result (Z * string * list (gmap string jvalue))) (json_pods : string -> result (list podMetric)).

Definition decodeData (body : string) : option MetricsResponseData :=
  match json_data body with
  | Err _ => None
  | Ok (code, msg, l) => Some (mkResponseData code msg (map (UnmarshalJSON emptyResponse) l))
  end.

Definition getMetricsFromCommand (metricsCmd : list string) (needChroot : bool) : outcome (option MetricsResponseData) :=
  out ← (if needChroot then Ret (exec_Output "chroot" (RootFS :: metricsCmd))
         else match metricsCmd with [] => Crash (Panic "index out of range") | cmd :: args => Ret (exec_Output cmd args) end);
  Ret (match out with Err _ => None | Ok body => decodeData body end).

Definition StatusOK : Z := 200.

Definition getMetricsFromURL (metricsURL : string) : option MetricsResponseData :=
  match http_Get metricsURL with
  | Err _ => None
  | Ok (status, body) => if negb (status =? StatusOK) then None else decodeData body
  end.

(** What one datum stores, for the metric of a job. *)
Definition datum (job metric : string) (now : time) (data : MetricResponseList) : string * Metric :=
  let jobName := if (r_JobName data =? "")%string then job else r_JobName data in
  let metricName := if (r_MetricName data =? "")%string then metric else r_MetricName data in
  let key := generateStoreKey jobName metricName in
  (key, mkMetric key (r_Values data) now).

(** The function that is called at every interval of a source. *)
Definition collectMetric (job metric : string) (source : MetricsSource) (now : time) (c : gmap string T) : outcome (gmap string T) :=
  datas ← (if negb (length (MetricsCommand source) =? 0)%nat then
             match CmdNeedChroot source with
             | None => Crash (Panic "nil pointer dereference")
             | Some needChroot => getMetricsFromCommand (MetricsCommand source) needChroot
             end
           else Ret (if negb (slen (MetricsURL source) =? 0) then getMetricsFromURL (MetricsURL source) else None));
  Ret (match datas with
       | None => c
       | Some d => if negb (Code d =? 0) then c else addAll maxAge now (map (datum job metric now) (Data d)) c
       end).

(** The function for the metrics server: its metrics have no time. *)
Definition pod_datum (r : podMetric) : string * Metric :=
  let key := generatePodStoreKey (pm_Namespace r) (pm_PodName r) (pm_MetricName r) in
  (key, mkMetric key {["value" := Value r; "slo" := Slo r]} nilTime).

Definition collectServer (MetricServerAddr : string) (now : time) (c : gmap string T) : gmap string T :=
  match http_Get MetricServerAddr with
  | Err _ => c
  | Ok (status, body) =>
      if negb (status =? StatusOK) then c
      else match json_pods body with Err _ => c | Ok l => addAll maxAge now (map pod_datum l) c end
  end.

Definition delMetricsData (now : time) (c : gmap string T) : gmap string T :=
  filter (fun kc => negb (length (td_InTimeRange kc.2 (time_Add now (- (10 * Minute))) now (-1)) =? 0)%nat = true) c.

Definition GetCustomizeResourceRecentState (c : gmap string T) (jobName metricName : string) : result Metric :=
  recentOf c (generateStoreKey jobName metricName).
Definition GetCustomizeResourceRangeStats (c : gmap string T) (jobName metricName : string) (start fin : time) (count : Z) : result (list Metric) :=
  rangeOf c (generateStoreKey jobName metricName) start fin count.
Definition ListCustomizeResourceRecentState (c : gmap string T) : gmap string Metric := td_Get <$> c.
Definition ListCustomizeResourceRangeStats (c : gmap string T) (start fin : time) (count : Z) : gmap string (list Metric) :=
  omap (fun cache => match td_InTimeRange cache start fin count with [] => None | l => Some l end) c.
End OuterMetrics.

(** ** prometheus/prometheus.go *)

Inductive MetricType := COUNTER | GAUGE | SUMMARY | UNTYPED | HISTOGRAM.

(** A metric: the values of its labels, its counter and its gauge (nil ones have the value zero). *)
Record PromMetric := mkPromMetric { Label : list string; Counter : option float64; Gauge : option float64 }.
Record MetricFamily := mkFamily { mf_Type : MetricType; mf_Metric : list PromMetric }.

Section PromStore.
Context {RO : RangeOrder} {T : Type} {TD : Timed float64 T} (maxAge : duration).
(** The families a server reports. *)
Context (prom_Get : string -> result (gmap string MetricFamily)).

Definition filterPromMetrics (metricFamilies : gmap string MetricFamily) (collect noCollect : gset string) : gmap string MetricFamily :=
  if (size collect =? 0)%nat && (size noCollect =? 0)%nat then metricFamilies
  else
    fold_left (fun m '(k, _) =>
        if negb (size collect =? 0)%nat && negb (bool_decide (k ∈ collect)) then delete k m
        else if negb (size noCollect =? 0)%nat && bool_decide (k ∈ noCollect) then delete k m
        else m) (range_map "filterPromMetrics" metricFamilies) metricFamilies.

Definition fetchPromMetrics (prom : PrometheusData) : result (gmap string MetricFamily) :=
  if slen (Address prom) =? 0 then Err "request address is nil"
  else match prom_Get (Address prom) with
       | Err e => Err e
       | Ok families => Ok (filterPromMetrics families (CollectMap prom) (NoCollectMap prom))
       end.

(** Later items overwrite families of the same name. *)
Fixpoint fetchLoop (items : list (option PrometheusData)) (acc : gmap string MetricFamily) : outcome (gmap string MetricFamily) :=
  match items with
  | [] => Ret acc
  | None :: _ => Crash (Panic "nil pointer dereference")
  | Some promData :: items' =>
      fetchLoop items' (match fetchPromMetrics promData with Err _ => acc | Ok mf => mf ∪ acc end)
  end.

Definition fetchAllPromDirectMetrics (p : MetricsPrometheus) : outcome (gmap string MetricFamily) := fetchLoop (Items p) ∅.

Definition GetPromDirectMetrics (DisableShow : bool) (p : MetricsPrometheus) : outcome (gmap string MetricFamily) :=
  if DisableShow then Ret ∅ else fetchAllPromDirectMetrics p.

Definition getMetricValue (mType : MetricType) (metric : PromMetric) : float64 :=
  match mType with COUNTER => default fzero (Counter metric) | GAUGE => default fzero (Gauge metric) | _ => fzero end.

Definition metric_key (mName : string) (metric : PromMetric) : string :=
  fold_left (fun key label => key +:+ "_" +:+ label) (Label metric) mName.

Definition addPromStats (c : gmap string T) (now : time) (name : string) (value : float64) : gmap string T := addTo maxAge c name now value.

(** The loop over the families. *)
Fixpoint familyLoop (now : time) (l : list (string * MetricFamily)) (c : gmap string T) : outcome (gmap string T) :=
  match l with
  | [] => Ret c
  | (mName, metrics) :: l' =>
      match mf_Type metrics with
      | (COUNTER | GAUGE) as mType =>
          match mf_Metric metrics with
          | [] => Crash (Panic "index out of range")
          | ms => familyLoop now l' (fold_left (fun c metric => addPromStats c now (metric_key mName metric) (getMetricValue mType metric)) ms c)
          end
      | _ => familyLoop now l' c
      end
  end.

(** The function [Run] calls at every interval. *)
Definition prom_collect (p : MetricsPrometheus) (now : time) (c : gmap string T) : outcome (gmap string T) :=
  metricsFamilies ← fetchAllPromDirectMetrics p;
  familyLoop now (range_map "collect" metricsFamilies) c.

Definition GetPromRangeMetrics (c : gmap string T) (key : string) (start fin : time) (count : Z) : result (list float64) := rangeOf c key start fin count.
Definition GetPromRecentMetrics (c : gmap string T) (key : string) : result float64 := recentOf c key.
End PromStore.

(** ** Names of metrics *)

Lemma generateStoreKey_inj j1 m1 j2 m2 :
  string_free "-" j1 -> string_free "-" j2 -> generateStoreKey j1 m1 = generateStoreKey j2 m2 ->
  j1 = j2 /\ (if (m1 =? "")%string then defaultMetricName else m1) = (if (m2 =? "")%string then defaultMetricName else m2).
Proof.
  unfold generateStoreKey. set (a := if (m1 =? "")%string then _ else _). set (b := if (m2 =? "")%string then _ else _). intros H1 H2 E.
  pose proof (cut_byte_cons_free j1 "-" a H1) as C1. pose proof (cut_byte_cons_free j2 "-" b H2) as C2.
  change ("-" +:+ a) with (String "-" a) in E. change ("-" +:+ b) with (String "-" b) in E. rewrite E, C2 in C1. by injection C1 as -> ->.
Qed.

(** ** Encoding *)

Section Encoding.
Context {RO : RangeOrder}.

Definition number (v : jvalue) : option float64 := match v with JNumber f => Some f | _ => None end.

Lemma unmarshal_fold l m :
  (forall k s, (k, JString s) ∈ l -> (s = "job_name" -> r_JobName m = s) /\ (s = "metric_name" -> r_MetricName m = s)) -> NoDup l.*1 ->
  fold_left unmarshalStep l m =
  mkResponse (r_JobName m) (r_MetricName m) (omap number (list_to_map l : gmap string jvalue) ∪ r_Values m).
Proof.
  revert m. induction l as [|[k v] l IH]; intros m Hs Hnd; cbn [fold_left].
  { rewrite list_to_map_nil, omap_empty, (left_id_L ∅ (∪)). by destruct m. }
  rewrite fmap_cons in Hnd. apply NoDup_cons in Hnd as [Hk Hnd]. cbn [fst] in Hk.
  assert (Hl : (list_to_map l : gmap string jvalue) !! k = None) by (by apply not_elem_of_list_to_map_1).
  change (list_to_map ((k, v) :: l)) with (<[k := v]> (list_to_map l : gmap string jvalue)).
  assert (Hsame : r_JobName (unmarshalStep m (k, v)) = r_JobName m /\ r_MetricName (unmarshalStep m (k, v)) = r_MetricName m).
  { destruct v as [s|f|]; try done. destruct (Hs k s) as [H1 H2]; [by left|]. unfold unmarshalStep. cbn.
    destruct (String.eqb_spec s "job_name"), (String.eqb_spec s "metric_name"); naive_solver. }
  destruct Hsame as [E1 E2]. rewrite IH; [|intros k' s Hin; rewrite E1, E2; apply (Hs k'); by right|done].
  rewrite E1, E2. f_equal. apply map_eq. intros x. rewrite !lookup_union, !lookup_omap.
  destruct (decide (x = k)) as [->|Hne]; [rewrite Hl, lookup_insert_eq|rewrite lookup_insert_ne by done];
    destruct v as [s|f|]; cbn; rewrite ?lookup_insert_eq, ?lookup_insert_ne by done; try done; by destruct (r_Values m !! k).
Qed.

(** Decoding an encoded datum gives it back, when none of its values has the name of a field and neither name
    is that of the other's field. *)
Theorem response_roundtrip m :
  r_Values m !! "job_name" = None -> r_Values m !! "metric_name" = None ->
  r_JobName m <> "metric_name" -> r_MetricName m <> "job_name" ->
  UnmarshalJSON emptyResponse (MarshalJSON m) = m.
Proof.
  intros Hj Hm Hn1 Hn2. unfold UnmarshalJSON. cbn [emptyResponse r_JobName r_MetricName r_Values].
  assert (Lj : MarshalJSON m !! "job_name" = Some (JString (r_JobName m))).
  { unfold MarshalJSON. rewrite lookup_union_r by (by rewrite lookup_fmap, Hj). reflexivity. }
  assert (Lm : MarshalJSON m !! "metric_name" = Some (JString (r_MetricName m))).
  { unfold MarshalJSON. rewrite lookup_union_r by (by rewrite lookup_fmap, Hm). reflexivity. }
  unfold named. rewrite Lj, Lm. rewrite unmarshal_fold; [|cbn [r_JobName r_MetricName]|apply NoDup_fst_range].
  - rewrite list_to_map_range. cbn [r_JobName r_MetricName r_Values]. rewrite (right_id_L ∅ (∪)). destruct m as [j n vs]. f_equal. cbn in *.
    apply map_eq. intros k. rewrite lookup_omap. unfold MarshalJSON. cbn [r_JobName r_MetricName r_Values]. rewrite lookup_union, lookup_fmap.
    destruct (vs !! k) as [f|] eqn:E; cbn; [by destruct (({["job_name" := _; "metric_name" := _]} : gmap string jvalue) !! k)|].
    destruct (decide (k = "job_name")) as [->|H1]; [done|]. destruct (decide (k = "metric_name")) as [->|H2]; [done|].
    by rewrite lookup_insert_ne, lookup_singleton_ne.
  - intros k s Hin. apply elem_of_range in Hin. unfold MarshalJSON in Hin. rewrite lookup_union, lookup_fmap in Hin.
    destruct (r_Values m !! k) as [f|]; cbn in Hin; [by destruct (({["job_name" := _; "metric_name" := _]} : gmap string jvalue) !! k)|].
    rewrite (left_id_L None _) in Hin. apply lookup_insert_Some in Hin as [[<- [= <-]]|[_ Hin]]; [naive_solver|].
    apply lookup_singleton_Some in Hin as [<- [= <-]]. naive_solver.
Qed.
End Encoding.

(** ** Collected metrics *)

Section Collected.
Context {RO : RangeOrder} {T : Type} {TD : Timed Metric T} (maxAge : duration).
Context (Hget : forall t now (v : Metric), td_Get (td_Add t now v) = v).
Context (exec_Output : string -> list string -> result string) (http_Get : string -> result (Z * string))
  (json_data : string -> result (Z * string * list (gmap string jvalue))) (json_pods : string -> result (list podMetric)).

#[local] Abbreviation collect := (collectMetric maxAge exec_Output http_Get json_data).

(** The names of a datum after the defaults. *)
Definition names_of (job metric : string) (d : MetricResponseList) : string * string :=
  (if (r_JobName d =? "")%string then job else r_JobName d,
   let m := if (r_MetricName d =? "")%string then metric else r_MetricName d in if (m =? "")%string then defaultMetricName else m).

(** What a body of the server says, when it is accepted. *)
Definition accepted (url body : string) (l : list (gmap string jvalue)) : Prop :=
  exists msg, http_Get url = Ok (StatusOK, body) /\ json_data body = Ok (0, msg, l).

(** After an accepted answer of a server the latest metric of a job is the last datum for it in the answer, with the time of the
    collection, and the metric from before when there is none, provided no name of a job has a dash; so the metrics of different jobs are
    not mixed up. *)
Theorem collected_metric_recent job metric source now c url body l j m :
  MetricsCommand source = [] -> MetricsURL source = url -> url <> "" -> accepted url body l ->
  let data := map (UnmarshalJSON emptyResponse) l in
  Forall (fun d => string_free "-" (names_of job metric d).1) data -> string_free "-" j -> m <> "" ->
  exists c', collect job metric source now c = Ret c' /\
    GetCustomizeResourceRecentState c' j m =
    match last (filter (fun d => names_of job metric d = (j, m)) data) with
    | Some d => Ok (mkMetric (generateStoreKey j m) (r_Values d) now)
    | None => GetCustomizeResourceRecentState c j m
    end.
Proof.
  intros Hc Hu Hne (msg & Hg & Hd) data Hf Hj Hm.
  assert (Hs : (slen url =? 0) = false) by (apply Z.eqb_neq; destruct url; [done|unfold slen; simpl; lia]).
  unfold collectMetric. rewrite Hc, Hu. cbn [length negb Nat.eqb]. rewrite Hs. cbn [negb].
  unfold getMetricsFromURL, decodeData. rewrite Hg, Hd. unfold mbind, outcome_bind. rewrite Z.eqb_refl. cbn [negb Code Data].
  rewrite Z.eqb_refl. cbn [negb]. eexists. split; [done|]. fold data.
  unfold GetCustomizeResourceRecentState. rewrite addAll_recent by done.
  assert (Hkey : forall d, d ∈ data -> (datum job metric now d).1 = generateStoreKey j m <-> names_of job metric d = (j, m)).
  { intros d Hin. rewrite Forall_forall in Hf. specialize (Hf d Hin). unfold datum, names_of in *. cbn [fst] in *. split.
    - intros E. apply generateStoreKey_inj in E as [-> E]; [|done..]. f_equal. rewrite E. destruct (String.eqb_spec m ""); done.
    - intros [= E1 E2]. rewrite E1. unfold generateStoreKey. rewrite E2. destruct (String.eqb_spec m ""); done. }
  assert (Hfl : filter (fun x => x.1 = generateStoreKey j m) (map (datum job metric now) data) =
                map (datum job metric now) (filter (fun d => names_of job metric d = (j, m)) data)).
  { clear -Hkey. induction data as [|d data IH]; [done|]. cbn [map]. rewrite !filter_cons, IH by (intros; apply Hkey; by right).
    pose proof (Hkey d ltac:(left)) as Hd. repeat case_decide; tauto || done. }
  rewrite Hfl. change (map (datum job metric now)) with (fmap (M := list) (datum job metric now)). rewrite fmap_last.
  destruct (last (filter _ data)) as [d|] eqn:El; [|done].
  assert (Hin : d ∈ filter (fun d => names_of job metric d = (j, m)) data).
  { apply last_Some in El as [l' ->]. apply elem_of_app. right. by left. }
  apply list_elem_of_filter in Hin as [En Hin].
  assert (Ed : (datum job metric now d).2 = mkMetric (datum job metric now d).1 (r_Values d) now) by done.
  rewrite (proj2 (Hkey d Hin) En) in Ed. cbn [fmap option_fmap option_map]. by rewrite Ed.
Qed.

(** *** Metrics of the metrics server *)

Definition untimed (c : gmap string T) : Prop := forall k, match c !! k with Some cache => m_Ts (td_Get cache) = nilTime | None => True end.

Lemma collectServer_untimed addr now c : untimed c -> untimed (collectServer maxAge http_Get json_pods addr now c).
Proof.
  intros Hc. unfold collectServer. destruct (http_Get addr) as [[status body]|]; [|done]. destruct (negb _); [done|].
  destruct (json_pods body) as [l|]; [|done]. unfold addAll.
  apply (fold_left_invariant _ untimed (fun x : string * Metric => m_Ts x.2 = nilTime)); [|by apply Forall_fmap, Forall_forall|done].
  intros b [k v] Hv Hb k'. unfold addTo. cbn [fst snd] in *. destruct (decide (k = k')) as [->|Hne].
  - by rewrite lookup_insert_eq, Hget.
  - rewrite lookup_insert_ne by done. apply Hb.
Qed.

End Collected.

(** Metrics that come from the metrics server are never checked: they are stored without a time, so the checker of applications, which waits for
    metrics newer than the newest it has seen, does nothing after any number of collections, whatever the values are. *)
Theorem server_metrics_never_checked {RO : RangeOrder} {T : Type} {TD : Timed Metric T} {Q : Type} `{QO : QuantityOps Q} {E MA : Type}
    Evaluate (NewMovingAverage : float64 -> MA) MA_Add MA_Value maxAge http_Get json_pods addr (times : list time) ranges now
    (a : appHealthChecker (Q := Q) (E := E) (MA := MA)) :
  (forall t now (v : Metric), td_Get (td_Add t now v) = v) -> nilTime <= latestMetricTs a ->
  let c := fold_left (fun c t => collectServer maxAge http_Get json_pods addr t c) times (∅ : gmap string T) in
  app_Check Evaluate NewMovingAverage MA_Add MA_Value ranges (Ok (ListCustomizeResourceRecentState c)) now a = Ret (emptyResult, a).
Proof.
  intros Hget Ha c. assert (Hc : untimed c).
  { unfold c. apply (fold_left_invariant _ untimed (fun _ => True)); [|by apply Forall_true|intros k; by rewrite lookup_empty].
    intros b t _ Hb. by apply collectServer_untimed. }
  unfold app_Check. rewrite latestStep_old; [done|]. apply Forall_forall. intros [k m] Hin. apply elem_of_range in Hin. cbn [snd].
  unfold ListCustomizeResourceRecentState in Hin. rewrite lookup_fmap in Hin. specialize (Hc k). destruct (c !! k); [|done].
  cbn in Hin. injection Hin as <-. by rewrite Hc.
Qed.

(** ** Prometheus *)

Section Prom.
Context {RO : RangeOrder} {T : Type} {TD : Timed float64 T} (maxAge : duration) (prom_Get : string -> result (gmap string MetricFamily)).
Context (Hget : forall t now (v : float64), td_Get (td_Add t now v) = v).

Lemma fold_delete_if {A} (P : string -> bool) (step : gmap string A -> string * A -> gmap string A) l m k :
  (forall m x, x ∈ l -> step m x = if P x.1 then delete x.1 m else m) ->
  fold_left step l m !! k = if bool_decide (k ∈ l.*1) && P k then None else m !! k.
Proof.
  intros Hs. revert m. induction l as [|[x a] l IH]; intros m; cbn [fold_left]; [by rewrite bool_decide_eq_false_2 by (intros H; inversion H)|].
  rewrite IH by (intros; apply Hs; by right). rewrite (Hs m (x, a)) by left. cbn [fst]. rewrite fmap_cons. cbn [fst].
  destruct (decide (k = x)) as [->|Hne].
  - rewrite (bool_decide_eq_true_2 (x ∈ x :: _)) by left. cbn [andb]. destruct (P x); [|by rewrite andb_false_r].
    rewrite lookup_delete_eq. by case_match.
  - assert (E : bool_decide (k ∈ x :: l.*1) = bool_decide (k ∈ l.*1)) by (apply bool_decide_ext; set_solver). rewrite E.
    destruct (P x); [by rewrite lookup_delete_ne|done].
Qed.

(** Whether an item wants a family. *)
Definition wanted (collect noCollect : gset string) (k : string) : Prop := (collect = ∅ \/ k ∈ collect) /\ k ∉ noCollect.

#[local] Instance wanted_dec c n k : Decision (wanted c n k).
Proof. unfold wanted. apply _. Defined.

(** An item keeps exactly the families it asks for (all when it names none) without those it excludes. *)
Theorem filterPromMetrics_exact families collect noCollect :
  filterPromMetrics families collect noCollect = filter (fun '(k, _) => wanted collect noCollect k) families.
Proof.
  unfold filterPromMetrics. apply map_eq. intros k. rewrite map_lookup_filter.
  destruct ((size collect =? 0)%nat && (size noCollect =? 0)%nat) eqn:E.
  - apply andb_true_iff in E as [E1%Nat.eqb_eq E2%Nat.eqb_eq]. apply size_empty_inv, leibniz_equiv in E1, E2. subst.
    destruct (families !! k); cbn; [|done]. rewrite option_guard_True by (split; [by left|set_solver]). done.
  - rewrite (fold_delete_if (fun k => bool_decide (~ wanted collect noCollect k))).
    + destruct (families !! k) as [f|] eqn:Ef; cbn.
      * assert (Hin : k ∈ (range_map "filterPromMetrics" families).*1) by (apply list_elem_of_fmap; exists (k, f); split; [done|by apply elem_of_range]).
        rewrite (bool_decide_eq_true_2 (k ∈ _)) by done. destruct (decide (wanted collect noCollect k)).
        -- rewrite bool_decide_eq_false_2 by tauto. by rewrite option_guard_True.
        -- rewrite bool_decide_eq_true_2 by done. by rewrite option_guard_False.
      * by case_match.
    + intros m [x f] _. unfold wanted. cbn [fst].
      assert (Hc : (size collect =? 0)%nat = bool_decide (collect = ∅)) by (apply Bool.eq_iff_eq_true; rewrite Nat.eqb_eq, bool_decide_eq_true, size_empty_iff, leibniz_equiv_iff; done).
      assert (Hn : (size noCollect =? 0)%nat = bool_decide (noCollect = ∅)) by (apply Bool.eq_iff_eq_true; rewrite Nat.eqb_eq, bool_decide_eq_true, size_empty_iff, leibniz_equiv_iff; done).
      rewrite Hc, Hn. repeat case_bool_decide; cbn; subst; try done; exfalso; set_solver.
Qed.

(** The samples of the families, with their keys. *)
Definition samples (families : gmap string MetricFamily) : string -> float64 -> Prop := fun key v =>
  exists mName f metric, families !! mName = Some f /\ (mf_Type f = COUNTER \/ mf_Type f = GAUGE) /\ metric ∈ mf_Metric f /\
    metric_key mName metric = key /\ getMetricValue (mf_Type f) metric = v.

(** All samples, in the order in which they are stored. *)
Definition family_samples (x : string * MetricFamily) : list (string * float64) :=
  match mf_Type x.2 with
  | COUNTER | GAUGE => map (fun metric => (metric_key x.1 metric, getMetricValue (mf_Type x.2) metric)) (mf_Metric x.2)
  | _ => []
  end.

Lemma familyLoop_addAll now l c :
  Forall (fun x => mf_Metric x.2 <> []) l -> familyLoop maxAge now l c = Ret (addAll maxAge now (concat (map family_samples l)) c).
Proof.
  intros Hl. revert c. induction Hl as [|[k f] l Hf Hl IH]; intros c; [done|]. cbn [familyLoop map concat].
  unfold family_samples at 1. cbn [fst snd] in *.
  assert (Happ : forall l1 l2 c, addAll maxAge now (l1 ++ l2) c = addAll maxAge now l2 (addAll maxAge now l1 c)) by (intros; apply fold_left_app).
  assert (Hms : forall t ms c, fold_left (fun c metric => addPromStats maxAge c now (metric_key k metric) (getMetricValue t metric)) ms c =
    addAll maxAge now (map (fun metric => (metric_key k metric, getMetricValue t metric)) ms) c).
  { intros t ms. induction ms as [|metric ms IHm]; intros c'; [done|]. cbn [fold_left map]. by rewrite IHm. }
  destruct (mf_Type f); try apply IH; destruct (mf_Metric f) as [|metric ms]; try done; by rewrite Hms, IH, Happ.
Qed.

Lemma elem_of_family_samples families l key v : (forall x, x ∈ l <-> families !! x.1 = Some x.2) ->
  (key, v) ∈ concat (map family_samples l) <-> samples families key v.
Proof.
  intros Hl. rewrite list_elem_of_In, in_concat. unfold samples. split.
  - intros (y & Hy & Hin). apply in_map_iff in Hy as ([k f] & <- & Hx). apply list_elem_of_In, Hl in Hx. cbn [fst snd] in Hx. unfold family_samples in Hin.
    cbn [fst snd] in Hin. destruct (mf_Type f) eqn:Et; try done; apply in_map_iff in Hin as (metric & [= <- <-] & Hm); apply list_elem_of_In in Hm;
      exists k, f, metric; rewrite Et; auto 8.
  - intros (k & f & metric & Hk & Ht & Hm & <- & <-). exists (family_samples (k, f)). split.
    + apply in_map_iff. exists (k, f). split; [done|]. by apply list_elem_of_In, Hl.
    + apply list_elem_of_In in Hm. unfold family_samples. cbn [fst snd]. destruct Ht as [E|E]; rewrite E; by apply (in_map (fun metric => (metric_key k metric, getMetricValue _ metric))).
Qed.

(** C22: a collection of families none of which is empty stores, under every key that one value has, this value, in whatever order the families are
    visited; keys without a value keep what they had. *)
Theorem prom_recent_exact p now c families key :
  fetchAllPromDirectMetrics prom_Get p = Ret families ->
  (forall k f, families !! k = Some f -> mf_Metric f <> []) ->
  exists c', prom_collect maxAge prom_Get p now c = Ret c' /\
    (forall v, samples families key v -> (forall v', samples families key v' -> v' = v) -> GetPromRecentMetrics c' key = Ok v) /\
    ((forall v, ~ samples families key v) -> GetPromRecentMetrics c' key = GetPromRecentMetrics c key).
Proof.
  intros Hf Hne. unfold prom_collect. rewrite Hf. unfold mbind, outcome_bind. set (l := range_map "collect" families).
  assert (Hl : forall x, x ∈ l <-> families !! x.1 = Some x.2) by (intros [k f]; apply elem_of_range).
  rewrite familyLoop_addAll by (apply Forall_forall; intros [k f] Hin; apply Hl in Hin; by eapply Hne). eexists. split; [done|].
  unfold GetPromRecentMetrics. rewrite addAll_recent by done. pose proof (elem_of_family_samples families l key) as Hs.
  destruct (last (filter (fun x : string * float64 => x.1 = key) (concat (map family_samples l)))) as [[k' v']|] eqn:El.
  - apply last_Some in El as [l' El]. assert (Hin : (k', v') ∈ filter (fun x : string * float64 => x.1 = key) (concat (map family_samples l))) by (rewrite El; apply elem_of_app; right; by left).
    apply list_elem_of_filter in Hin as [Ek Hin]. cbn in Ek. subst k'. apply (Hs v' Hl) in Hin. split.
    + intros v _ Hu. by rewrite (Hu v' Hin).
    + intros Hno. by destruct (Hno v').
  - split; [|done]. intros v Hv _. apply (Hs v Hl) in Hv. apply last_None in El.
    assert (Hin : (key, v) ∈ filter (fun x : string * float64 => x.1 = key) (concat (map family_samples l))) by (by apply list_elem_of_filter).
    rewrite El in Hin. inversion Hin.
Qed.
End Prom.

(** A family without metrics, which the parser does not produce, would crash the agent. *)
Lemma empty_family_panics {RO : RangeOrder} {T : Type} {TD : Timed float64 T} maxAge now (c : gmap string T) :
  familyLoop maxAge now [("up", mkFamily GAUGE [])] c = Crash (Panic "index out of range").
Proof. done. Qed.

(** ** Witnesses *)

#[local] Existing Instance key_order.
#[local] Instance ex_timed_metric : Timed Metric (list Metric) :=
  {| td_New := fun _ => []; td_Add := fun l _ v => v :: l; td_Get := fun l => hd (mkMetric "" ∅ nilTime) l; td_InTimeRange := fun l _ _ _ => l |}.
#[local] Instance ex_timed_float : Timed float64 (list float64) :=
  {| td_New := fun _ => []; td_Add := fun l _ v => v :: l; td_Get := fun l => hd fzero l; td_InTimeRange := fun l _ _ _ => l |}.

Lemma ex_get_metric (t : list Metric) now (v : Metric) : td_Get (td_Add t now v) = v.
Proof. reflexivity. Defined.
Lemma ex_get_float (t : list float64) now (v : float64) : td_Get (td_Add t now v) = v.
Proof. reflexivity. Defined.

Lemma response_roundtrip_witness :
  UnmarshalJSON emptyResponse (MarshalJSON (mkResponse "db" "latency" {["value" := fone]})) = mkResponse "db" "latency" {["value" := fone]}.
Proof. by apply response_roundtrip; vm_compute. Defined.

(** A job with the name of the other field is decoded as another metric. *)
Example misread_name : r_MetricName (UnmarshalJSON emptyResponse (MarshalJSON (mkResponse "metric_name" "qps" ∅))) = "metric_name".
Proof. vm_compute. reflexivity. Qed.

Definition ex_http (url : string) : result (Z * string) := if (url =? "http://db")%string then Ok (200, "body") else Err "refused".
Definition ex_object : gmap string jvalue := {["metric_name" := JString "qps"; "value" := JNumber fone]}.
Definition ex_json (body : string) : result (Z * string * list (gmap string jvalue)) :=
  if (body =? "body")%string then Ok (0, "", [ex_object]) else Err "syntax".

Lemma collected_metric_recent_witness :
  exists c', collectMetric (T := list Metric) Minute (fun _ _ => Err "none") ex_http ex_json "db" "latency" (mkSource Minute [] (Some false) "http://db") 50 ∅ = Ret c' /\
    GetCustomizeResourceRecentState c' "db" "qps" = Ok (mkMetric "db-qps" {["value" := fone]} 50).
Proof.
  destruct (collected_metric_recent (T := list Metric) Minute ex_get_metric (fun _ _ => Err "none") ex_http ex_json "db" "latency"
    (mkSource Minute [] (Some false) "http://db") 50 ∅ "http://db" "body" [ex_object] "db" "qps" eq_refl eq_refl) as (c' & Hc & Hr); [done| | |by vm_compute|done|].
  - exists "". by split.
  - apply Forall_singleton. by vm_compute.
  - exists c'. split; [exact Hc|]. etransitivity; [exact Hr|]. vm_compute. reflexivity.
Defined.

Definition ex_pods_json (body : string) : result (list podMetric) := Ok [mkPodMetric "web-0" "default" "latency" fone (float64_of_Z 9)].

Lemma server_metrics_never_checked_witness :
  app_Check (Q := Z) (fun (_ : string) _ => Err "none") (fun _ => fzero) (fun _ v => v) id (fun _ _ _ _ _ => Err "none")
    (Ok (ListCustomizeResourceRecentState (fold_left (fun c t => collectServer Minute ex_http ex_pods_json "http://db" t c) [10; 20] (∅ : gmap string (list Metric)))))
    30 (mkAppChecker [] [] nilTime) = Ret (emptyResult, mkAppChecker [] [] nilTime).
Proof.
  apply (server_metrics_never_checked (Q := Z) (fun (_ : string) _ => Err "none") (fun _ => fzero) (fun _ v => v) id Minute ex_http ex_pods_json "http://db" [10; 20]
    (fun _ _ _ _ _ => Err "none") 30 (mkAppChecker [] [] nilTime)); [reflexivity|vm_compute; discriminate].
Defined.

Definition ex_families : gmap string MetricFamily :=
  {["ops" := mkFamily COUNTER [mkPromMetric ["create"] (Some fone) None; mkPromMetric ["info"] (Some (float64_of_Z 6)) None]]}.
Definition ex_prometheus : MetricsPrometheus := mkMetricsPrometheus Minute [Some (mkPrometheusData "http://kubelet" [] ["up"] ∅ {["up"]})].

Lemma prom_recent_exact_witness :
  exists c', prom_collect (T := list float64) Minute (fun _ => Ok ex_families) ex_prometheus 10 ∅ = Ret c' /\
    GetPromRecentMetrics c' "ops_info" = Ok (float64_of_Z 6).
Proof.
  destruct (prom_recent_exact (T := list float64) Minute (fun _ => Ok ex_families) ex_get_float ex_prometheus 10 ∅ ex_families "ops_info") as (c' & Hc & Hv & _).
  - vm_compute. reflexivity.
  - intros k f Hf. unfold ex_families in Hf. apply lookup_singleton_Some in Hf as [<- <-]. discriminate.
  - exists c'. split; [exact Hc|]. apply Hv.
    + exists "ops", (mkFamily COUNTER [mkPromMetric ["create"] (Some fone) None; mkPromMetric ["info"] (Some (float64_of_Z 6)) None]), (mkPromMetric ["info"] (Some (float64_of_Z 6)) None).
      split; [reflexivity|]. split; [by left|]. split; [by right; left|]. by split.
    + intros v' (k & f & metric & Hf & _ & Hm & Hk & <-). unfold ex_families in Hf. apply lookup_singleton_Some in Hf as [<- <-]. cbn [mf_Metric] in Hm.
      apply elem_of_cons in Hm as [->|Hm]; [discriminate Hk|]. apply list_elem_of_singleton in Hm as ->. reflexivity.
Defined.
