(* ===== verification/Cpi.v ===== *)
(** * Cycles per instruction

    pkg/caelus/cpi: the cycles per instruction and the processor usage of the
    containers are collected in time series; tasks above the threshold of their
    job are outliers, and the tasks whose usage correlates with theirs are
    reported.  The queries to Prometheus and the parsing of durations are
    parameters, and so is the order in which maps are visited. *)

From Stdlib Require Import Ascii Floats.SpecFloat.
From S2P Require Import Prelude GoStrings GoFloat Config HealthConfig.

#[local] Open Scope string_scope.
#[local] Open Scope Z_scope.
#[local] Open Scope list_scope.

(** ** Searching *)

(** [sort.Search]: a binary search between [i] and [j]. *)
Fixpoint search_loop (fuel : nat) (f : nat -> bool) (i j : nat) : nat :=
  match fuel with
  | O => i
  | S fuel' =>
      if (i <? j)%nat then
        let h := ((i + j) / 2)%nat in
        if negb (f h) then search_loop fuel' f (S h) j else search_loop fuel' f i h
      else i
  end.

(** Every step makes the interval smaller. *)
Definition sort_Search (n : nat) (f : nat -> bool) : nat := search_loop (S n) f 0 n.

(** ** time_series.go *)

Record timeSeries := mkSeries { timeline : list Z; data : gmap Z float64 }.

Record TaskMeta := mkTask { JobName : string; TaskName : string }.

#[global] Instance TaskMeta_eq_dec : EqDecision TaskMeta.
Proof. solve_decision. Defined.
#[global] Instance TaskMeta_countable : Countable TaskMeta.
Proof. apply (inj_countable' (fun t => (JobName t, TaskName t)) (fun p => mkTask p.1 p.2)). by intros []. Defined.

(** The orders in which Go visits maps with times and with tasks as keys. *)

Class CpiOrder := {
  range_times : forall {V : Type}, string -> gmap Z V -> list (Z * V);
  range_times_perm : forall {V : Type} site (m : gmap Z V), range_times site m ≡ₚ map_to_list m;
  range_tasks : forall {V : Type}, string -> gmap TaskMeta V -> list (TaskMeta * V);
  range_tasks_perm : forall {V : Type} site (m : gmap TaskMeta V), range_tasks site m ≡ₚ map_to_list m;
}.

Definition newTimeSeries : timeSeries := mkSeries [] ∅.

Definition add (t : timeSeries) (value : float64) (timestamp : time) : timeSeries :=
  mkSeries (merge_sort Z.le (timeline t ++ [UnixNano timestamp])) (<[UnixNano timestamp := value]> (data t)).

Definition getByUnixNano (t : timeSeries) (nano : Z) : option float64 := data t !! nano.

(** The first position with a time that is not before. *)
Definition position (l : list Z) (nano : Z) : nat :=
  sort_Search (length l) (fun i => match l !! i with Some x => nano <=? x | None => true end).

(** [None] is nil. *)
Definition rangeSearch (t : timeSeries) (start fin : time) : outcome (option timeSeries) :=
  if time_Before fin start then Ret None
  else
    let startIndex := position (timeline t) (UnixNano start) in
    if (startIndex =? length (timeline t))%nat then Ret None
    else
      let endIndex := position (timeline t) (UnixNano fin) in
      let endIndex := match timeline t !! endIndex with Some x => if x =? UnixNano fin then S endIndex else endIndex | None => endIndex end in
      if (endIndex <? startIndex)%nat then Crash (Panic "slice bounds out of range")
      else
        let timeRange := take (endIndex - startIndex) (drop startIndex (timeline t)) in
        Ret (Some (fold_left (fun ret ts => match data t !! ts with Some v => add ret v (time_Unix ts) | None => ret end) timeRange newTimeSeries)).

Definition normalize {CO : CpiOrder} (t : timeSeries) : timeSeries :=
  let sum := fold_left (fun sum '(_, v) => fadd sum v) (range_times "sum" (data t)) fzero in
  fold_left (fun ret '(tl, v) => add ret (fdiv v sum) (time_Unix tl)) (range_times "normalize" (data t)) newTimeSeries.

Definition expire (t : timeSeries) (before : time) : timeSeries :=
  let i := position (timeline t) (UnixNano before) in
  mkSeries (drop i (timeline t)) (fold_left (fun d e => delete e d) (take i (timeline t)) (data t)).

(** ** manager.go *)

Record JobSpec := mkJobSpec { js_JobName : string; CPIMean : float64; CPIStdDev : float64; ExpiredAt : time }.

Definition outlierThreshold (s : JobSpec) : float64 := fadd (CPIMean s) (fmul (float64_of_Z 2) (CPIStdDev s)).

Record CPIManager := mkCPIManager {
  window : duration;
  jobSpecQueryRange : duration;
  cpiCache : gmap TaskMeta timeSeries;
  cpuCache : gmap TaskMeta timeSeries;
  jobSpecCache : gmap string JobSpec;
}.

Definition set_specs (m : CPIManager) (s : gmap string JobSpec) : CPIManager :=
  mkCPIManager (window m) (jobSpecQueryRange m) (cpiCache m) (cpuCache m) s.
Definition set_caches (m : CPIManager) (cpi cpu : gmap TaskMeta timeSeries) : CPIManager :=
  mkCPIManager (window m) (jobSpecQueryRange m) cpi cpu (jobSpecCache m).

Definition InitManager (cfg : CPIManagerConfig) : CPIManager :=
  mkCPIManager (WindowDuration cfg) (MaxJobSpecRange cfg) ∅ ∅ ∅.

(** A stream of samples, in milliseconds, with its labels. *)
Record SampleStream := mkStream { st_Metric : gmap string string; st_Values : list (Z * float64) }.
Record sampleWithTTL := mkSampleTTL { sw_metric : gmap string string; sw_sample : Z * float64; sw_expiredAt : time }.

Definition model_Time (ms : Z) : time := time_Unix (ms * 1000000).

Class PrometheusEnv := {
  prom_query : string -> result (list SampleStream);
  ParseDuration : string -> result duration;
}.

(** The part of [Duration.String] up to the first letter: the hours, or the
    minutes, or the digits before the first unit or after the point. *)
Fixpoint zero_trim (fuel : nat) (s : string) : string :=
  match fuel with
  | O => s
  | S fuel' => match s with String "0" s' => zero_trim fuel' s' | _ => s end
  end.

(** The [digits] last digits of [n], without the zeros at their end. *)
Definition fraction (n : Z) (digits : nat) : string :=
  let s := drop_string 1 (print_nonneg (10 ^ Z.of_nat digits + n)) in
  rev_string (zero_trim digits (rev_string s "")) "".

Definition with_fraction (whole frac : Z) (digits : nat) : string :=
  print_nonneg whole +:+ (if frac =? 0 then "" else "." +:+ fraction frac digits).

Definition duration_String (d : duration) : string :=
  let u := Z.abs d in
  let sign := if d <? 0 then "-" else "" in
  if u =? 0 then "0s"
  else if u <? 1000 then sign +:+ print_nonneg u +:+ "ns"
  else if u <? 1000000 then sign +:+ with_fraction (u / 1000) (u mod 1000) 3 +:+ "µs"
  else if u <? Second then sign +:+ with_fraction (u / 1000000) (u mod 1000000) 6 +:+ "ms"
  else
    let secs := with_fraction (u / Second mod 60) (u mod Second) 9 +:+ "s" in
    let minutes := u / Minute mod 60 in
    let hours := u / Hour in
    sign +:+ (if 0 <? hours then print_nonneg hours +:+ "h" else "") +:+
    (if (0 <? hours) || (0 <? minutes) then print_nonneg minutes +:+ "m" else "") +:+ secs.

Definition is_digit (c : ascii) : bool := let n := nat_of_ascii c in (48 <=? n)%nat && (n <=? 57)%nat.
Definition is_letter (c : ascii) : bool :=
  let n := nat_of_ascii c in ((65 <=? n)%nat && (n <=? 90)%nat) || ((97 <=? n)%nat && (n <=? 122)%nat).

(** The leftmost match of the digits before a letter: [acc] has the digits since
    the last other character. *)
Fixpoint find_unit (s acc : string) : string :=
  match s with
  | EmptyString => ""
  | String c s' =>
      if is_letter c then acc +:+ String c "" else if is_digit c then find_unit s' (acc +:+ String c "") else find_unit s' ""
  end.

Definition truncDuration (dur : duration) : string := find_unit (duration_String dur) "".

(** [%q] of a text without quotes, backslashes and control characters. *)
Definition quote_char : ascii := ascii_of_nat 34.
Definition quote (s : string) : string := String quote_char (s +:+ String quote_char "").

Example truncated : map truncDuration [10 * Hour; 90 * Minute; 3 * Second `div` 2; Second `div` 2] = ["10h"; "1h"; "5s"; "500m"].
Proof. vm_compute. reflexivity. Qed.

Section Manager.
Context {CO : CpiOrder} {PR : PrometheusEnv}.

Definition spec_query (name : string) (job : string) (range : duration) : string :=
  name +:+ "{job_name=" +:+ quote job +:+ "}[" +:+ truncDuration range +:+ "]".

Fixpoint latestLoop (m : list SampleStream) (best : option sampleWithTTL) : outcome (result (option sampleWithTTL)) :=
  match m with
  | [] => Ret (Ok best)
  | s :: m' =>
      match ParseDuration (default "" (st_Metric s !! "ttl")) with
      | Err e => Ret (Err e)
      | Ok ttl =>
          match last (st_Values s) with
          | None => Crash (Panic "index out of range")
          | Some latestSample =>
              let createdAt := model_Time latestSample.1 in
              latestLoop m'
                (if match best with None => true | Some b => time_After createdAt (model_Time (sw_sample b).1) end
                 then Some (mkSampleTTL (st_Metric s) latestSample (time_Add createdAt ttl)) else best)
          end
      end
  end.

Definition getLatestSample (m : list SampleStream) : outcome (result (option sampleWithTTL)) := latestLoop m None.

(** The printed values are read back as they were. *)
Definition makeJobSpec (meanMatrix stddevMatrix : list SampleStream) : outcome (result (option JobSpec)) :=
  mean ← getLatestSample meanMatrix;
  match mean with
  | Err e => Ret (Err e)
  | Ok None => Ret (Ok None)
  | Ok (Some meanSample) =>
      stddev ← getLatestSample stddevMatrix;
      Ret (match stddev with
           | Err e => Err e
           | Ok None => Ok None
           | Ok (Some stddevSample) =>
               if negb ((sw_sample meanSample).1 =? (sw_sample stddevSample).1) then Ok None
               else Ok (Some (mkJobSpec (default "" (sw_metric meanSample !! "job_name")) (sw_sample meanSample).2
                                (sw_sample stddevSample).2 (sw_expiredAt meanSample)))
           end)
  end.

(** A new specification of the job of a task, when there is none or it has expired. *)
Definition updateSpec (m : CPIManager) (now : time) (task : TaskMeta) : outcome CPIManager :=
  let wanted := match jobSpecCache m !! JobName task with None => true | Some spec => time_Before (ExpiredAt spec) now end in
  if negb wanted then Ret m
  else match prom_query (spec_query "cpi_spec_mean" (JobName task) (jobSpecQueryRange m)) with
       | Err _ | Ok [] => Ret m
       | Ok meanMatrix =>
           match prom_query (spec_query "cpi_spec_stddev" (JobName task) (jobSpecQueryRange m)) with
           | Err _ | Ok [] => Ret m
           | Ok stddevMatrix =>
               spec ← makeJobSpec meanMatrix stddevMatrix;
               Ret (match spec with
                    | Ok (Some jobSpec) => set_specs m (<[JobName task := jobSpec]> (jobSpecCache m))
                    | _ => m
                    end)
           end
       end.

Fixpoint updateSpecs (m : CPIManager) (now : time) (tasks : list TaskMeta) : outcome CPIManager :=
  match tasks with
  | [] => Ret m
  | t :: tasks' => m' ← updateSpec m now t; updateSpecs m' now tasks'
  end.

(** A sample above the threshold while the task uses at least a quarter of a core. *)
Fixpoint countAbnormal (cpu : option timeSeries) (threshold : float64) (samples : list (Z * float64)) : outcome nat :=
  match samples with
  | [] => Ret O
  | (t, cpi) :: samples' =>
      cpuSeries ← deref cpu;
      rest ← countAbnormal cpu threshold samples';
      Ret (match getByUnixNano cpuSeries t with
           | None => rest
           | Some cpuUsage => if flt cpuUsage (flit 25 100) then rest else if fge cpi threshold then S rest else rest
           end)
  end.

Fixpoint findOutlierLoop (cpuCache : gmap TaskMeta timeSeries) (jobSpecCache : gmap string JobSpec) (now : time)
    (tasks : list (TaskMeta * timeSeries)) : outcome (list TaskMeta) :=
  match tasks with
  | [] => Ret []
  | (meta, ts) :: tasks' =>
      match jobSpecCache !! JobName meta with
      | None => findOutlierLoop cpuCache jobSpecCache now tasks'
      | Some jobSpec =>
          r ← rangeSearch ts (time_Add now (- (5 * Minute))) now;
          cpiValues ← deref r;
          abnormalCnt ← countAbnormal (cpuCache !! meta) (outlierThreshold jobSpec) (range_times "cpi" (data cpiValues));
          rest ← findOutlierLoop cpuCache jobSpecCache now tasks';
          Ret (if (3 <=? abnormalCnt)%nat then meta :: rest else rest)
      end
  end.

Definition findOutlier (cpi cpu : gmap TaskMeta timeSeries) (specs : gmap string JobSpec) (now : time) : outcome (list TaskMeta) :=
  findOutlierLoop cpu specs now (range_tasks "outlier" cpi).

Definition correlate (victimCPI suspectCPU : timeSeries) (threshold : float64) : float64 :=
  fold_left (fun correlation t =>
    let u := default fzero (getByUnixNano suspectCPU t) in
    let c := default fzero (getByUnixNano victimCPI t) in
    if fgt c threshold then fadd correlation (fmul u (fsub fone (fdiv threshold c)))
    else fadd correlation (fmul u (fsub (fdiv c threshold) fone))) (timeline victimCPI) fzero.

Definition no_spec : JobSpec := mkJobSpec "" fzero fzero nilTime.

Fixpoint suspectLoop (victimCPI : option timeSeries) (threshold : float64) (windowStart now : time) (suspects : list (TaskMeta * timeSeries)) :
    outcome (list (TaskMeta * float64)) :=
  match suspects with
  | [] => Ret []
  | (suspect, values) :: suspects' =>
      r ← rangeSearch values windowStart now;
      cpu ← deref r;
      victim ← deref victimCPI;
      rest ← suspectLoop victimCPI threshold windowStart now suspects';
      Ret ((suspect, correlate victim (normalize cpu) threshold) :: rest)
  end.

Fixpoint outlierLoop (m : CPIManager) (now : time) (outliers : list TaskMeta) (antagonists : gmap TaskMeta (list (TaskMeta * float64))) :
    outcome (gmap TaskMeta (list (TaskMeta * float64))) :=
  match outliers with
  | [] => Ret antagonists
  | o :: outliers' =>
      let threshold := outlierThreshold (default no_spec (jobSpecCache m !! JobName o)) in
      let windowStart := time_Add now (- window m) in
      series ← deref (cpiCache m !! o);
      victimCPI ← rangeSearch series windowStart now;
      found ← suspectLoop victimCPI threshold windowStart now (range_tasks "suspects" (cpuCache m));
      outlierLoop m now outliers' (match found with [] => antagonists | _ => <[o := default [] (antagonists !! o) ++ found]> antagonists end)
  end.

Definition task_String (t : TaskMeta) : string := "{job: " +:+ JobName t +:+ ", task: " +:+ TaskName t +:+ "}".

Definition antagonist_message (victim : TaskMeta) (a : TaskMeta * float64) : string :=
  "victim " +:+ task_String victim +:+ ", antagonist " +:+ task_String a.1 +:+ ", correlation: " +:+ Sprintf_f a.2.

(** The manager and the alarms, for the times at which the clock is read. *)
Definition identifyAntagonists (m : CPIManager) (now_specs now_outliers now : time) : outcome (CPIManager * list string) :=
  m ← updateSpecs m now_specs (map fst (range_tasks "specs" (cpiCache m)));
  outliers ← findOutlier (cpiCache m) (cpuCache m) (jobSpecCache m) now_outliers;
  match outliers with
  | [] => Ret (m, [])
  | _ =>
      antagonists ← outlierLoop m now outliers ∅;
      Ret (m, concat (map (fun '(victim, anta) => map (antagonist_message victim) anta) (range_tasks "antagonists" antagonists)))
  end.

(** The series after the deadline, without those that are empty then. *)
Definition expireCache (cache : gmap TaskMeta timeSeries) (deadline : time) : gmap TaskMeta timeSeries :=
  omap (fun s => let s' := expire s deadline in if (size (data s') =? 0)%nat then None else Some s') cache.

Definition deleteExpiredCache (m : CPIManager) (now : time) : CPIManager :=
  let deadline := time_Add now (- 2 * window m) in
  let cpi := expireCache (cpiCache m) deadline in
  let cpu := expireCache (cpuCache m) deadline in
  let jobSet : gset string := set_map JobName (dom cpi) in
  set_specs (set_caches m cpi cpu) (filter (fun '(jobName, _) => jobName ∈ jobSet) (jobSpecCache m)).

Fixpoint last_dash (s : string) : option (string * string) :=
  match s with
  | EmptyString => None
  | String c s' =>
      match last_dash s' with
      | Some (a, b) => Some (String c a, b)
      | None => if Ascii.eqb c "-" then Some ("", s') else None
      end
  end.

Definition getJobName (podName containerName : string) : string :=
  if (podName =? "")%string then containerName
  else match last_dash podName with Some (job, _) => job | None => containerName end.

Definition getTaskName (podName containerName : string) : string := if (podName =? "")%string then containerName else podName.

(** A record of the perf store: the pod, the container, and the values. *)
Record PerfRecord := mkPerf { pf_Pod : string; pf_Container : string; CPI : float64; CPUUsage : float64; pf_Timestamp : time }.

Definition addRecord (m : CPIManager) (cp : PerfRecord) : CPIManager :=
  let t := mkTask (getJobName (pf_Pod cp) (pf_Container cp)) (getTaskName (pf_Pod cp) (pf_Container cp)) in
  set_caches m
    (<[t := add (default newTimeSeries (cpiCache m !! t)) (CPI cp) (pf_Timestamp cp)]> (cpiCache m))
    (<[t := add (default newTimeSeries (cpuCache m !! t)) (CPUUsage cp) (pf_Timestamp cp)]> (cpuCache m)).

Definition addRecords (m : CPIManager) (stats : result (list PerfRecord)) : CPIManager :=
  match stats with Err _ => m | Ok l => fold_left addRecord l m end.
End Manager.

(** ** Searching and series *)

Lemma search_loop_spec f fuel i j :
  (forall a b, (a <= b)%nat -> f a = true -> f b = true) ->
  (i <= j)%nat -> (j - i < fuel)%nat -> (forall k, (k < i)%nat -> f k = false) -> (forall k, (j <= k)%nat -> f k = true) ->
  forall k, f k = true <-> (search_loop fuel f i j <= k)%nat.
Proof.
  intros Hmono. revert i j. induction fuel as [|fuel IH]; intros i j Hij Hf Hlo Hhi k; [lia|]. cbn [search_loop].
  destruct (Nat.ltb_spec i j) as [Hlt|].
  - pose proof (Nat.div_mod_eq (i + j) 2) as Hdiv. pose proof (Nat.mod_upper_bound (i + j) 2).
    destruct (f ((i + j) / 2)%nat) eqn:Ef; cbn [negb]; apply IH; try lia; try done.
    + intros k' Hk'. by apply (Hmono ((i + j) / 2)%nat).
    + intros k' Hk'. destruct (f k') eqn:Ek; [|done].
      by rewrite (Hmono k' ((i + j) / 2)%nat ltac:(lia) Ek) in Ef.
  - split; [|intros ?; apply Hhi; lia]. intros Hk. destruct (decide (i <= k)%nat); [done|]. by rewrite Hlo in Hk by lia.
Qed.

Definition series_sorted (l : list Z) : Prop := StronglySorted Z.le l.

Lemma sorted_lookup l (i j : nat) x y : series_sorted l -> (i <= j)%nat -> l !! i = Some x -> l !! j = Some y -> x <= y.
Proof.
  intros Hs. revert i j. induction Hs as [|a l Hs IH Ha]; intros i j Hij Hi Hj; [done|].
  destruct i as [|i], j as [|j]; simplify_eq/=; try lia; [|apply (IH i j); [lia|done..]].
  rewrite Forall_forall in Ha. apply Ha. by eapply list_elem_of_lookup_2.
Qed.

Lemma position_spec l nano : series_sorted l ->
  forall k, (match l !! k with Some x => nano <=? x | None => true end) = true <-> (position l nano <= k)%nat.
Proof.
  intros Hs. apply search_loop_spec; [|lia|lia|intros; lia|].
  - intros a b Hab. destruct (l !! b) as [y|] eqn:Eb; [|done].
    destruct (lookup_lt_is_Some_2 l a) as [x Ea]; [apply lookup_lt_Some in Eb; lia|]. rewrite Ea.
    pose proof (sorted_lookup l a b x y Hs Hab Ea Eb). lia.
  - intros k Hk. by rewrite lookup_ge_None_2.
Qed.

Lemma position_le l nano : series_sorted l -> (position l nano <= length l)%nat.
Proof. intros Hs. apply (position_spec l nano Hs). by rewrite lookup_ge_None_2. Qed.

(** The elements before and after a position. *)
Lemma elem_of_drop_position l nano x : series_sorted l -> x ∈ drop (position l nano) l <-> x ∈ l /\ nano <= x.
Proof.
  intros Hs. rewrite !list_elem_of_lookup. setoid_rewrite lookup_drop. split.
  - intros [k Hk]. split; [by eexists|]. pose proof (proj2 (position_spec l nano Hs (position l nano + k)) ltac:(lia)) as H.
    rewrite Hk in H. lia.
  - intros [[k Hk] Hx]. pose proof (proj1 (position_spec l nano Hs k)) as H. rewrite Hk in H.
    exists (k - position l nano)%nat. replace (position l nano + (k - position l nano))%nat with k; [done|]. specialize (H ltac:(lia)). lia.
Qed.

Lemma elem_of_take_position l nano x : series_sorted l -> x ∈ take (position l nano) l <-> x ∈ l /\ x < nano.
Proof.
  intros Hs. rewrite elem_of_take. split.
  - intros (k & Hk & Hlt). split; [by eapply list_elem_of_lookup_2|].
    pose proof (proj1 (position_spec l nano Hs k)) as H. rewrite Hk in H. destruct (Z.leb_spec nano x); [specialize (H eq_refl); lia|done].
  - intros [Hx Hlt]. apply list_elem_of_lookup in Hx as [k Hk]. exists k. split; [done|].
    pose proof (proj2 (position_spec l nano Hs k)) as H. rewrite Hk in H. destruct (decide (position l nano <= k)%nat) as [Hle|]; [|lia].
    specialize (H Hle). lia.
Qed.

(** The times are sorted, 64 bits wide, and those of the values. *)
Record wf_series (s : timeSeries) : Prop := {
  wf_sorted : series_sorted (timeline s);
  wf_elements : forall k, k ∈ timeline s <-> is_Some (data s !! k);
  wf_times : forall k, k ∈ timeline s -> in_int64 k;
}.

Lemma newTimeSeries_wf : wf_series newTimeSeries.
Proof.
  split; simpl; [constructor| |set_solver].
  intros k. rewrite lookup_empty. split; [intros H; inversion H|intros [? ?]; done].
Qed.

Lemma add_wf s v t : wf_series s -> wf_series (add s v t).
Proof.
  intros [Hs He Ht]. split; unfold add; cbn [timeline data].
  - apply Sorted_StronglySorted; [intros x y z; apply Z.le_trans|]. apply Sorted_merge_sort. intros x y. unfold flip. lia.
  - intros k. rewrite merge_sort_Permutation, elem_of_app, list_elem_of_singleton, He, lookup_insert_is_Some.
    destruct (decide (UnixNano t = k)); naive_solver.
  - intros k. rewrite merge_sort_Permutation, elem_of_app, list_elem_of_singleton. intros [Hk| ->]; [by apply Ht|].
    apply int64_range.
Qed.


Lemma position_mono l a b : series_sorted l -> a <= b -> (position l a <= position l b)%nat.
Proof.
  intros Hs Hab. apply (position_spec l a Hs). pose proof (proj2 (position_spec l b Hs (position l b)) ltac:(lia)) as H.
  destruct (l !! position l b); [lia|done].
Qed.

(** The slice of [rangeSearch]. *)
Lemma elem_of_timeRange l a b x : series_sorted l -> a <= b ->
  let e := match l !! position l b with Some y => if y =? b then S (position l b) else position l b | None => position l b end in
  x ∈ take (e - position l a) (drop (position l a) l) <-> x ∈ l /\ a <= x <= b.
Proof.
  intros Hs Hab e. pose proof (position_mono l a b Hs Hab) as Hpq. rewrite elem_of_take. setoid_rewrite lookup_drop.
  pose proof (position_spec l a Hs) as Ha. pose proof (position_spec l b Hs) as Hb. split.
  - intros (i & Hi & Hlt). split; [by eapply list_elem_of_lookup_2|].
    pose proof (proj2 (Ha (position l a + i)%nat) ltac:(lia)) as Hax. rewrite Hi in Hax.
    destruct (decide (position l a + i < position l b)%nat).
    + pose proof (proj1 (Hb (position l a + i)%nat)) as Hbx. rewrite Hi in Hbx.
      destruct (Z.leb_spec b x); [specialize (Hbx eq_refl); lia|lia].
    + subst e. destruct (l !! position l b) as [y|] eqn:Ey; [|lia]. destruct (Z.eqb_spec y b); [|lia].
      replace (position l a + i)%nat with (position l b) in Hi by lia. rewrite Ey in Hi. simplify_eq. lia.
  - intros [Hx Hr]. apply list_elem_of_lookup in Hx as [k Hk].
    assert (Hpk : (position l a <= k)%nat) by (apply Ha; rewrite Hk; lia).
    destruct (decide (x = b)) as [->|Hne].
    + assert (Hqk : (position l b <= k)%nat) by (apply Hb; rewrite Hk; lia).
      destruct (lookup_lt_is_Some_2 l (position l b)) as [y Ey]; [apply lookup_lt_Some in Hk; lia|].
      pose proof (sorted_lookup l _ _ y b Hs Hqk Ey Hk). pose proof (proj2 (Hb (position l b)) ltac:(lia)) as Hy. rewrite Ey in Hy.
      exists (position l b - position l a)%nat. subst e. rewrite Ey. destruct (Z.eqb_spec y b); [subst|lia].
      split; [|lia]. by replace (position l a + _)%nat with (position l b) by lia.
    + exists (k - position l a)%nat. replace (position l a + (k - position l a))%nat with k by lia. split; [done|].
      assert ((k < position l b)%nat); [|subst e; destruct (l !! position l b); [destruct (z =? b)|]; lia].
      destruct (decide (position l b <= k)%nat) as [Hle|]; [|lia]. apply Hb in Hle. rewrite Hk in Hle. lia.
Qed.

Definition copy_step (d : gmap Z float64) (ret : timeSeries) (ts : Z) : timeSeries :=
  match d !! ts with Some v => add ret v (time_Unix ts) | None => ret end.

Lemma copy_spec d l ret : Forall in_int64 l -> wf_series ret ->
  wf_series (fold_left (copy_step d) l ret) /\
  forall k, data (fold_left (copy_step d) l ret) !! k = (if decide (k ∈ l) then match d !! k with Some v => Some v | None => data ret !! k end else data ret !! k).
Proof.
  intros Hl. revert ret. induction Hl as [|ts l Hts Hl IH]; intros ret Hr; cbn [fold_left].
  { split; [done|]. intros k. by rewrite decide_False by (intros H; inversion H). }
  assert (Hw : wf_series (copy_step d ret ts)) by (unfold copy_step; destruct (d !! ts); [by apply add_wf|done]).
  destruct (IH _ Hw) as [H1 H2]. split; [done|]. intros k. rewrite H2.
  assert (Hk : data (copy_step d ret ts) !! k = if decide (k = ts) then match d !! k with Some v => Some v | None => data ret !! k end else data ret !! k).
  { unfold copy_step. destruct (decide (k = ts)) as [->|Hne]; destruct (d !! ts) eqn:Ed; try done; cbn [add data];
      rewrite UnixNano_Unix by done; [by rewrite lookup_insert_eq|by rewrite lookup_insert_ne]. }
  rewrite Hk. destruct (decide (k ∈ l)), (decide (k = ts)), (decide (k ∈ ts :: l)); try set_solver; destruct (d !! k); done.
Qed.

Lemma fold_delete (l : list Z) (d : gmap Z float64) k :
  fold_left (fun d e => delete e d) l d !! k = if decide (k ∈ l) then None else d !! k.
Proof.
  revert d. induction l as [|x l IH]; intros d; cbn [fold_left]; [by rewrite decide_False by (intros H; inversion H)|].
  rewrite IH. destruct (decide (k = x)) as [->|Hne].
  - rewrite lookup_delete_eq. destruct (decide (x ∈ l)), (decide (x ∈ x :: l)); try done; set_solver.
  - rewrite lookup_delete_ne by done. destruct (decide (k ∈ l)), (decide (k ∈ x :: l)); try done; set_solver.
Qed.

Lemma StronglySorted_drop (l : list Z) n : series_sorted l -> series_sorted (drop n l).
Proof. intros Hs. revert n. induction Hs; intros [|n]; simpl; try constructor; auto. Qed.

(** A search of a well-formed series with a start that is not after the end never panics.  It gives nil when
    every sample is before the start, also when there is none at all; otherwise the result
    is a well-formed series with exactly the samples from the start to the end, both included. *)
Lemma rangeSearch_spec t start fin : wf_series t -> start <= fin -> UnixNano start <= UnixNano fin ->
  (rangeSearch t start fin = Ret None /\ forall k, is_Some (data t !! k) -> k < UnixNano start) \/
  (exists r, rangeSearch t start fin = Ret (Some r) /\ (exists k, is_Some (data t !! k) /\ UnixNano start <= k) /\ wf_series r /\
     data r = filter (fun '(k, _) => UnixNano start <= k <= UnixNano fin) (data t)).
Proof.
  intros Ht Hle Hn. destruct Ht as [Hs He Hin]. unfold rangeSearch. unfold time_Before. rewrite (proj2 (Z.ltb_ge fin start) Hle).
  pose proof (fun x => elem_of_drop_position (timeline t) (UnixNano start) x Hs) as Hd.
  destruct (Nat.eqb_spec (position (timeline t) (UnixNano start)) (length (timeline t))) as [E|E].
  { left. split; [done|]. intros k Hk. apply He in Hk. rewrite E, drop_all in Hd.
    destruct (decide (UnixNano start <= k)); [|lia]. assert (Hk' : k ∈ (@nil Z)) by (by apply Hd). inversion Hk'. }
  right. pose proof (position_mono _ _ _ Hs Hn) as Hpq.
  pose proof (fun x => elem_of_timeRange (timeline t) (UnixNano start) (UnixNano fin) x Hs Hn) as Hr. cbv zeta in Hr.
  set (e := match timeline t !! position (timeline t) (UnixNano fin) with Some y => _ | None => _ end) in *.
  assert (Hge : (position (timeline t) (UnixNano start) <= e)%nat)
    by (subst e; destruct (timeline t !! position (timeline t) (UnixNano fin)); [destruct (z =? UnixNano fin)|]; lia).
  clearbody e. pose proof (position_le (timeline t) (UnixNano start) Hs) as Hpl. rewrite (proj2 (Nat.ltb_ge _ _) Hge).
  set (L := take _ _) in *. fold (copy_step (data t)).
  destruct (copy_spec (data t) L newTimeSeries) as [Hw Hk]; [|apply newTimeSeries_wf|].
  { apply Forall_forall. intros x Hx. apply Hr in Hx as [Hx _]. by apply Hin. }
  eexists. split; [done|]. split; [|split; [exact Hw|]].
  - destruct (lookup_lt_is_Some_2 (timeline t) (position (timeline t) (UnixNano start)) ltac:(lia)) as [x Hx].
    exists x. split; [apply He; by eapply list_elem_of_lookup_2|]. apply Hd. apply list_elem_of_lookup. exists 0%nat. by rewrite lookup_drop, Nat.add_0_r.
  - apply map_eq. intros k. rewrite Hk. cbn [data newTimeSeries]. rewrite lookup_empty. apply option_eq. intros v.
    rewrite map_lookup_filter_Some. specialize (Hr k). specialize (He k). destruct (decide (k ∈ L)) as [HkL|HkL].
    + destruct (data t !! k); naive_solver.
    + split; [done|]. intros [Hv HR]. destruct HkL. apply Hr. split; [|done]. apply He. by eexists.
Qed.

(** [expire] keeps exactly the samples at or after the deadline, and the series stays well-formed. *)
Lemma expire_spec t before : wf_series t ->
  wf_series (expire t before) /\ data (expire t before) = filter (fun '(k, _) => UnixNano before <= k) (data t).
Proof.
  intros [Hs He Hin].
  assert (Hd : data (expire t before) = filter (fun '(k, _) => UnixNano before <= k) (data t)).
  { apply map_eq. intros k. unfold expire. cbn [data]. rewrite fold_delete. apply option_eq. intros v.
    rewrite map_lookup_filter_Some. specialize (He k).
    case_decide as Hk; rewrite elem_of_take_position in Hk by done; [naive_solver lia|]. split; [|naive_solver]. intros Hv. split; [done|].
    destruct (decide (UnixNano before <= k)); [done|]. destruct Hk. split; [by apply He; eexists|lia]. }
  split; [|done]. pose proof (fun x => elem_of_drop_position (timeline t) (UnixNano before) x Hs) as Hx. split.
  - unfold expire. cbn [timeline]. by apply StronglySorted_drop.
  - intros k. rewrite Hd. unfold expire. cbn [timeline]. rewrite Hx, He. unfold is_Some. setoid_rewrite map_lookup_filter_Some. naive_solver.
  - intros k Hk. apply Hin. by apply Hx.
Qed.

(** ** The manager *)

Lemma size_filter_list (P : Z * float64 -> Prop) `{!forall x, Decision (P x)} (d : gmap Z float64) :
  size (filter P d) = length (filter P (map_to_list d)).
Proof.
  rewrite map_filter_alt, <- length_map_to_list. apply Permutation_length, map_to_list_to_map.
  apply NoDup_fmap_fst; [|apply NoDup_filter, NoDup_map_to_list].
  intros x y1 y2 [_ H1]%list_elem_of_filter [_ H2]%list_elem_of_filter. apply elem_of_map_to_list in H1, H2. congruence.
Qed.

(** A sample that counts: the task used a quarter of a core or more, above the threshold. *)
Definition abnormal (cpu : timeSeries) (threshold : float64) (x : Z * float64) : bool :=
  match data cpu !! x.1 with Some u => negb (flt u (flit 25 100)) && fge x.2 threshold | None => false end.

Lemma countAbnormal_exact cpu threshold l :
  countAbnormal (Some cpu) threshold l = Ret (length (filter (fun x => abnormal cpu threshold x = true) l)).
Proof.
  induction l as [|[t c] l IH]; [done|]. cbn [countAbnormal]. unfold mbind, outcome_bind, deref. rewrite IH, filter_cons.
  assert (E : abnormal cpu threshold (t, c) = match data cpu !! t with Some u => negb (flt u (flit 25 100)) && fge c threshold | None => false end) by done.
  rewrite E. unfold getByUnixNano. f_equal. destruct (data cpu !! t) as [u|]; [|by rewrite decide_False]. destruct (flt u (flit 25 100)); [by rewrite decide_False|].
  cbn [negb andb]. destruct (fge c threshold); [by rewrite decide_True|by rewrite decide_False].
Qed.

(** What the two caches of the manager keep: series of the same tasks with the same times. *)
Definition pair_ok (cpi cpu : option timeSeries) : Prop :=
  match cpi, cpu with
  | Some a, Some b => wf_series a /\ wf_series b /\ timeline a = timeline b
  | None, None => True
  | _, _ => False
  end.

Definition caches_ok (cpi cpu : gmap TaskMeta timeSeries) : Prop := forall t, pair_ok (cpi !! t) (cpu !! t).

Definition manager_ok (m : CPIManager) : Prop := caches_ok (cpiCache m) (cpuCache m).

Lemma pair_wf a b : pair_ok (Some a) b -> wf_series a.
Proof. destruct b; [by intros (? & _)|done]. Qed.

Lemma pair_add a b u v t :
  pair_ok a b -> pair_ok (Some (add (default newTimeSeries a) u t)) (Some (add (default newTimeSeries b) v t)).
Proof.
  pose proof newTimeSeries_wf as Hw.
  destruct a as [a|], b as [b|]; cbn; intros H; try done; [destruct H as (Ha & Hb & Hab); rewrite Hab|]; eauto using add_wf.
Qed.

Lemma addRecord_ok m cp : manager_ok m -> manager_ok (addRecord m cp).
Proof.
  intros Hm t. unfold addRecord. cbn [cpiCache cpuCache set_caches].
  set (t' := mkTask _ _). destruct (decide (t' = t)) as [->|Hne]; [|rewrite !lookup_insert_ne by done; apply Hm].
  rewrite !lookup_insert_eq. apply pair_add, Hm.
Qed.

Lemma wf_empty s : wf_series s -> size (data s) = O <-> forall k, k ∉ timeline s.
Proof.
  intros [_ He _]. rewrite map_size_empty_iff. split.
  - intros E k Hk. apply He in Hk as [v Hv]. by rewrite E, lookup_empty in Hv.
  - intros H. apply map_empty. intros k. destruct (data s !! k) eqn:E; [|done]. destruct (H k). apply He. by eexists.
Qed.

Lemma expireCache_ok cpi cpu d : caches_ok cpi cpu -> caches_ok (expireCache cpi d) (expireCache cpu d).
Proof.
  intros Hc t. unfold expireCache. rewrite !lookup_omap. specialize (Hc t). revert Hc.
  generalize (cpi !! t) (cpu !! t). intros [a|] [b|] Hc; try done. destruct Hc as (Ha & Hb & Hab). cbn [mbind option_bind].
  assert (Htl : timeline (expire a d) = timeline (expire b d)) by (unfold expire; cbn [timeline]; by rewrite Hab).
  destruct (expire_spec a d Ha) as [Ha' _], (expire_spec b d Hb) as [Hb' _].
  pose proof (wf_empty _ Ha') as Hea. pose proof (wf_empty _ Hb') as Heb. rewrite Htl in Hea.
  destruct (Nat.eqb_spec (size (data (expire a d))) 0) as [E|E], (Nat.eqb_spec (size (data (expire b d))) 0) as [E'|E']; cbn; try tauto.
Qed.

Lemma updateSpecs_caches {PR : PrometheusEnv} m now l m' :
  updateSpecs m now l = Ret m' -> cpiCache m' = cpiCache m /\ cpuCache m' = cpuCache m.
Proof.
  revert m. induction l as [|t l IH]; intros m H; cbn [updateSpecs] in H; [by simplify_eq|].
  apply outcome_bind_Ret in H as (m1 & H1 & H). apply IH in H as [-> ->]. unfold updateSpec in H1.
  repeat case_match; simplify_eq; try done;
    apply outcome_bind_Ret in H1 as (spec & _ & H1); repeat case_match; by simplify_eq.
Qed.

(** C16: every history of the manager keeps its two caches aligned: the cycles and the usage have the same tasks,
    and every task's two series are well-formed and have the same times.  So a sample of one always finds its partner. *)
Theorem manager_steps_ok {CO : CpiOrder} {PR : PrometheusEnv} m :
  manager_ok m ->
  (forall stats, manager_ok (addRecords m stats)) /\ (forall now, manager_ok (deleteExpiredCache m now)) /\
  (forall t1 t2 now m' alarms, identifyAntagonists m t1 t2 now = Ret (m', alarms) -> manager_ok m').
Proof.
  intros Hm. split_and!.
  - intros [l|e]; [|done]. unfold addRecords. apply fold_left_invariant with (Q := fun _ => True); [|by apply Forall_true|done].
    intros m' cp _. apply addRecord_ok.
  - intros now. unfold manager_ok, deleteExpiredCache. cbn [cpiCache cpuCache set_specs set_caches]. by apply expireCache_ok.
  - intros t1 t2 now m' alarms H. apply outcome_bind_Ret in H as (m1 & Hu & H). apply updateSpecs_caches in Hu as [Hc1 Hc2].
    apply outcome_bind_Ret in H as (out & _ & H). unfold manager_ok.
    destruct out; [|apply outcome_bind_Ret in H as (ant & _ & H)]; simplify_eq; by rewrite Hc1, Hc2.
Qed.

(** The times around [now] are those that 64 bits can hold, the years 1678 to 2262. *)
Definition in_range (now : time) : Prop := in_int64 (now - unix_epoch) /\ in_int64 (now - 5 * Minute - unix_epoch).

Abbreviation recent now k := (UnixNano (now - 5 * Minute) <= k <= UnixNano now).

(** Three samples of the last five minutes count. *)
Definition outlier (cpi cpu : gmap TaskMeta timeSeries) (specs : gmap string JobSpec) (now : time) (t : TaskMeta) : bool :=
  match cpi !! t, cpu !! t, specs !! JobName t with
  | Some a, Some b, Some spec =>
      (3 <=? size (filter (fun x => recent now x.1 /\ abnormal b (outlierThreshold spec) x = true) (data a)))%nat
  | _, _, _ => false
  end.

Definition fresh (s : timeSeries) (now : time) : Prop := exists k, is_Some (data s !! k) /\ UnixNano (now - 5 * Minute) <= k.

Section Outliers.
Context {CO : CpiOrder} (cpi cpu : gmap TaskMeta timeSeries) (specs : gmap string JobSpec) (now : time).
Hypothesis (Hc : caches_ok cpi cpu) (Hnow : in_range now).

Lemma pair_of t a : cpi !! t = Some a -> exists b, cpu !! t = Some b /\ wf_series a.
Proof. intros Ha. specialize (Hc t). rewrite Ha in Hc. destruct (cpu !! t) as [b|] eqn:Eb; [|done]. exists b. by destruct Hc as (? & _). Qed.

Lemma recent_search a : wf_series a ->
  (rangeSearch a (time_Add now (- (5 * Minute))) now = Ret None /\ ~ fresh a now) \/
  (exists r, rangeSearch a (time_Add now (- (5 * Minute))) now = Ret (Some r) /\ fresh a now /\
     data r = filter (fun '(k, _) => UnixNano (now - 5 * Minute) <= k <= UnixNano now) (data a)).
Proof.
  intros Ha. unfold time_Add. destruct Hnow as [H1 H2]. replace (now + - (5 * Minute)) with (now - 5 * Minute) by lia.
  assert (Hle : now - 5 * Minute <= now) by (unfold Minute, Second; lia).
  assert (Hn : UnixNano (now - 5 * Minute) <= UnixNano now) by (unfold UnixNano; rewrite !int64_id by done; lia).
  destruct (rangeSearch_spec a _ _ Ha Hle Hn) as [[E Hold]|(r & E & Hf & _ & Hd)]; [left|right; eauto].
  split; [done|]. intros (k & Hk & Hge). specialize (Hold k Hk). lia.
Qed.

Lemma count_recent (r a : timeSeries) (P : Z * float64 -> bool) :
  data r = filter (fun '(k, _) => recent now k) (data a) ->
  length (filter (fun x => P x = true) (range_times "cpi" (data r))) = size (filter (fun x => recent now x.1 /\ P x = true) (data a)).
Proof.
  intros Hd. rewrite (Permutation_length (filter_Permutation _ _ _ (range_times_perm "cpi" (data r)))), <- size_filter_list, Hd, map_filter_filter.
  f_equal. apply map_filter_ext. intros k v _. cbn. tauto.
Qed.

Lemma findOutlierLoop_exact l :
  (forall t s, (t, s) ∈ l -> cpi !! t = Some s /\ (is_Some (specs !! JobName t) -> fresh s now)) ->
  findOutlierLoop cpu specs now l = Ret (map fst (filter (fun x => outlier cpi cpu specs now x.1 = true) l)).
Proof.
  induction l as [|[t s] l IH]; intros H; [done|]. cbn [findOutlierLoop]. rewrite filter_cons.
  rewrite IH by (intros; apply H; by right). destruct (H t s) as [Hs Hfr]; [by left|]. cbn [fst].
  destruct (pair_of t s Hs) as (b & Hb & Hw). unfold outlier. rewrite Hb, Hs.
  destruct (specs !! JobName t) as [spec|]; [|by rewrite decide_False].
  destruct (recent_search s Hw) as [[_ Hn]|(r & E & _ & Hd)]; [destruct Hn; by apply Hfr|].
  rewrite E. unfold mbind, outcome_bind, deref. rewrite countAbnormal_exact, (count_recent r s) by done.
  by case_match; case_decide.
Qed.
Lemma elem_of_tasks site t s : (t, s) ∈ range_tasks site cpi <-> cpi !! t = Some s.
Proof. rewrite range_tasks_perm. apply elem_of_map_to_list. Qed.

(** C32: when every task with a specification has a sample that is not older than five minutes, the search for outliers
    returns, and the outliers are exactly the tasks for which at least three samples of the last five minutes are at or
    above the threshold of their job while the task uses a quarter of a core or more. *)
Theorem findOutlier_exact :
  (forall t s, cpi !! t = Some s -> is_Some (specs !! JobName t) -> fresh s now) ->
  exists l, findOutlier cpi cpu specs now = Ret l /\ NoDup l /\ forall t, t ∈ l <-> outlier cpi cpu specs now t = true.
Proof.
  intros Hf. eexists. split; [|split].
  - apply findOutlierLoop_exact. intros t s Hin. apply elem_of_tasks in Hin. eauto.
  - apply NoDup_fmap_fst; [|apply NoDup_filter; rewrite range_tasks_perm; apply NoDup_map_to_list].
    intros t s1 s2 [_ H1]%list_elem_of_filter [_ H2]%list_elem_of_filter. apply elem_of_tasks in H1, H2. congruence.
  - intros t. rewrite list_elem_of_fmap. split.
    + intros ([t' s] & -> & [Ho _]%list_elem_of_filter). done.
    + intros Ho. unfold outlier in Ho. destruct (cpi !! t) as [s|] eqn:E; [|done]. exists (t, s). split; [done|].
      apply list_elem_of_filter. split; [unfold outlier; cbn [fst]; by rewrite E|by apply elem_of_tasks].
Qed.

Lemma findOutlierLoop_fresh l out t s :
  findOutlierLoop cpu specs now l = Ret out -> (forall t s, (t, s) ∈ l -> cpi !! t = Some s) ->
  (t, s) ∈ l -> is_Some (specs !! JobName t) -> fresh s now.
Proof.
  revert out. induction l as [|[t' s'] l IH]; intros out H Hl Hin [spec Hspec]; [inversion Hin|]. cbn [findOutlierLoop] in H.
  assert (Hl' : forall t s, (t, s) ∈ l -> cpi !! t = Some s) by (intros; apply Hl; by right).
  apply elem_of_cons in Hin as [[= -> ->]|Hin].
  - rewrite Hspec in H. destruct (pair_of t' s' (Hl _ _ (list_elem_of_here _ _))) as (b & _ & Hw).
    destruct (recent_search s' Hw) as [[E _]|(r & _ & Hfr & _)]; [|done]. by rewrite E in H.
  - destruct (specs !! JobName t') as [spec'|]; [|eapply IH; eauto].
    do 3 (apply outcome_bind_Ret in H as (? & _ & H)). apply outcome_bind_Ret in H as (rest & H & _). eapply IH; eauto.
Qed.

(** One task with a specification whose samples are all older than five minutes (its container has just
    stopped, for instance, since series live for twice the window) crashes the agent: the search returns nil, which is dereferenced. *)
Theorem stale_task_panics t s :
  cpi !! t = Some s -> is_Some (specs !! JobName t) -> ~ fresh s now -> exists c, findOutlier cpi cpu specs now = Crash c.
Proof.
  intros Ht Hspec Hs. destruct (findOutlier cpi cpu specs now) as [out|c] eqn:E; [|by exists c]. destruct Hs.
  apply (findOutlierLoop_fresh _ out t s E); [intros t' s'; apply elem_of_tasks|by apply elem_of_tasks|done].
Qed.
End Outliers.

(** After the deletion of what has expired, every series that is left has samples, all of the last two windows,
    no sample of that time is lost, and exactly the specifications of jobs with a task that is left are kept. *)
Theorem deleteExpired_exact m now : manager_ok m ->
  let m' := deleteExpiredCache m now in
  let deadline := UnixNano (now - 2 * window m) in
  (forall t k, (s ← cpiCache m' !! t; data s !! k) = (s ← cpiCache m !! t; v ← data s !! k; if deadline <=? k then Some v else None)) /\
  (forall t s, cpiCache m' !! t = Some s -> data s <> ∅) /\
  (forall job, is_Some (jobSpecCache m' !! job) <-> is_Some (jobSpecCache m !! job) /\ exists t, JobName t = job /\ is_Some (cpiCache m' !! t)).
Proof.
  intros Hm. cbv zeta. unfold deleteExpiredCache. cbn [cpiCache jobSpecCache set_specs set_caches].
  replace (time_Add now (- 2 * window m)) with (now - 2 * window m) by (unfold time_Add; lia). split_and!.
  - intros t k. unfold expireCache. rewrite lookup_omap. specialize (Hm t).
    destruct (cpiCache m !! t) as [s|]; [|done]. apply pair_wf in Hm.
    destruct (expire_spec s (now - 2 * window m) Hm) as [_ Hd]. cbn [mbind option_bind].
    assert (Hk : data (expire s (now - 2 * window m)) !! k = (v ← data s !! k; if UnixNano (now - 2 * window m) <=? k then Some v else None)).
    { rewrite Hd, map_lookup_filter. destruct (data s !! k); cbn; [|done]. destruct (Z.leb_spec (UnixNano (now - 2 * window m)) k); case_guard; try done; lia. }
    rewrite <- Hk. destruct (Nat.eqb_spec (size (data (expire s (now - 2 * window m)))) 0) as [E|E]; [|done].
    apply map_size_empty_inv in E. by rewrite E, lookup_empty.
  - intros t s. unfold expireCache. rewrite lookup_omap. destruct (cpiCache m !! t) as [s0|]; [cbn [mbind option_bind]|done].
    destruct (Nat.eqb_spec (size (data (expire s0 (now - 2 * window m)))) 0) as [E|E]; intros Hs; [by inversion Hs|].
    intros E'. simplify_eq. by rewrite E', map_size_empty in E.
  - intros job. unfold is_Some at 1. setoid_rewrite map_lookup_filter_Some. setoid_rewrite elem_of_map. setoid_rewrite elem_of_dom. unfold is_Some.
    split; [intros (v & Hv & t & -> & Ht); split; eauto|intros ([v Hv] & t & <- & Ht); eauto 6].
Qed.

(** ** Witnesses *)

#[local] Instance ex_order : CpiOrder := {|
  range_times := fun V _ m => map_to_list m; range_times_perm := fun V _ m => Permutation_refl _;
  range_tasks := fun V _ m => map_to_list m; range_tasks_perm := fun V _ m => Permutation_refl _;
|}.
#[local] Instance ex_prometheus : PrometheusEnv := {| prom_query := fun _ => Err "down"; ParseDuration := fun _ => Err "duration" |}.

Definition ex_now : time := unix_epoch + 1000 * Hour.
Definition ex_task : TaskMeta := mkTask "web" "web-1".
Definition ex_series (v : Z) (ages : list duration) : timeSeries :=
  fold_left (fun s age => add s (float64_of_Z v) (ex_now - age)) ages newTimeSeries.
Definition ex_cache (v : Z) (ages : list duration) : gmap TaskMeta timeSeries := {[ex_task := ex_series v ages]}.
Definition ex_specs : gmap string JobSpec := {["web" := mkJobSpec "web" (float64_of_Z 2) (float64_of_Z 1) ex_now]}.

Lemma ex_caches_ok u v ages : caches_ok (ex_cache u ages) (ex_cache v ages).
Proof.
  intros t. unfold ex_cache. destruct (decide (ex_task = t)) as [->|Hne]; [|by rewrite !lookup_singleton_ne].
  rewrite !lookup_singleton_eq. unfold ex_series.
  assert (Hp : forall a b, pair_ok (Some a) (Some b) -> pair_ok
    (Some (fold_left (fun s age => add s (float64_of_Z u) (ex_now - age)) ages a)) (Some (fold_left (fun s age => add s (float64_of_Z v) (ex_now - age)) ages b))).
  { induction ages as [|age ages IH]; intros a b Hab; [done|]. cbn [fold_left]. apply IH.
    apply (pair_add (Some a) (Some b) (float64_of_Z u) (float64_of_Z v) (ex_now - age) Hab). }
  apply Hp. pose proof newTimeSeries_wf. by cbn.
Qed.

Lemma ex_in_range : in_range ex_now.
Proof. by split; vm_compute. Qed.

Lemma findOutlier_exact_witness :
  exists l, findOutlier (ex_cache 5 [0; Minute; 2 * Minute]) (ex_cache 1 [0; Minute; 2 * Minute]) ex_specs ex_now = Ret l /\ ex_task ∈ l.
Proof.
  destruct (findOutlier_exact (ex_cache 5 [0; Minute; 2 * Minute]) (ex_cache 1 [0; Minute; 2 * Minute]) ex_specs ex_now
    (ex_caches_ok _ _ _) ex_in_range) as (l & E & _ & Hl).
  - intros t s Hs _. unfold ex_cache in Hs. apply lookup_singleton_Some in Hs as [<- <-]. exists (UnixNano ex_now). split; [by eexists; vm_compute|by vm_compute].
  - exists l. split; [exact E|]. apply Hl. vm_compute. reflexivity.
Defined.

Lemma stale_task_panics_witness :
  exists c, findOutlier (ex_cache 5 [6 * Minute]) (ex_cache 1 [6 * Minute]) ex_specs ex_now = Crash c.
Proof.
  apply (stale_task_panics _ _ _ _ (ex_caches_ok _ _ _) ex_in_range ex_task (ex_series 5 [6 * Minute])).
  - apply lookup_singleton_eq.
  - by eexists; vm_compute.
  - intros (k & Hk & Hlt). apply (elem_of_dom (data (ex_series 5 [6 * Minute]))) in Hk.
    assert (E : dom (data (ex_series 5 [6 * Minute])) = {[UnixNano (ex_now - 6 * Minute)]}) by (vm_compute; reflexivity).
    rewrite E in Hk. apply elem_of_singleton in Hk. subst k. revert Hlt. vm_compute. intros H. by apply H.
Defined.

Definition ex_manager : CPIManager := mkCPIManager (10 * Minute) Hour (ex_cache 5 [0; 30 * Minute]) (ex_cache 1 [0; 30 * Minute]) ex_specs.

Lemma manager_steps_ok_witness :
  manager_ok (addRecords ex_manager (Ok [mkPerf "web-1" "app" fone fone (ex_now + Minute); mkPerf "" "db" fone fone (ex_now + Minute)])) /\
  manager_ok (deleteExpiredCache ex_manager ex_now).
Proof.
  destruct (manager_steps_ok ex_manager (ex_caches_ok _ _ _)) as (H1 & H2 & _). split; [apply H1|apply H2].
Defined.

Lemma deleteExpired_exact_witness :
  is_Some (jobSpecCache (deleteExpiredCache ex_manager ex_now) !! "web") /\
  (s ← cpiCache (deleteExpiredCache ex_manager ex_now) !! ex_task; data s !! UnixNano (ex_now - 30 * Minute)) = None.
Proof.
  destruct (deleteExpired_exact ex_manager ex_now (ex_caches_ok _ _ _)) as (H1 & _ & H3). split.
  - apply H3. split; [by eexists; vm_compute|]. exists ex_task. split; [done|]. by eexists; vm_compute.
  - rewrite H1. vm_compute. reflexivity.
Defined.
