(* ===== verification/YarnMetrics.v ===== *)
(** * Metrics of the YARN node manager

    pkg/caelus/resource/yarn/metrics.go with its types of utils.go, and the gauges
    of pkg/caelus/metrics/common_metrics.go that it sets: the rounds that ask the
    web server of the node manager, publish what is allocated, and send an alarm
    when many containers fail.  The web server belongs to YARN: its answers and the
    clock are part of the events ([round_env]). *)

From S2P Require Import Prelude GoStrings GoFloat NMApi Quantity K8sResource Ginit.

#[local] Open Scope string_scope.
#[local] Open Scope Z_scope.
#[local] Open Scope list_scope.

Definition metricsSuffix : string := "/jmx?qry=Hadoop:service=NodeManager,name=NodeManagerMetrics".
Definition statusSuffix : string := "/ws/v1/node/info".
Definition containersSuffix : string := "/ws/v1/node/containers".
Definition warningPeriod : duration := 10 * Minute.
Definition MemGbUnit : Z := 1024 * 1024 * 1024.

(** ** Data (utils.go) *)

Record NMMetrics := mkNMMetrics {
  TagHostName : string;
  ContainersLaunched : Z;
  ContainersCompleted : Z;
  ContainersFailed : Z;
  ContainersKilled : Z;
  ContainersIniting : Z;
  ContainersRunning : Z;
  AllocatedVCores : Z;
  AvailableVCores : Z;
  AllocatedGB : Z;
  AvailableGB : Z;
}.

(** [JmxResp] is the list of its beans. *)
Definition JmxResp : Type := list NMMetrics.

Record NMNodeInfo := mkNMNodeInfo { NodeHealthy : bool; NodeHealthyFloat : float64 }.

(** [NMNodeStatus] is its pointer, nil when the answer has no such field. *)
Definition NMNodeStatus : Type := option NMNodeInfo.

(** ** Requests *)

(** What [EndStruct] returns: errors of the transport or the decoder, or the
    status and the struct. *)
Inductive web_answer (A : Type) :=
| WebErrs (errs : string)
| WebResp (StatusCode : Z) (body : A).
Arguments WebErrs {A} errs.
Arguments WebResp {A} StatusCode body.

Definition requestUrl {A} (url : option string) (urlSuffix : string) (Get : string -> web_answer A) : result A :=
  match url with
  | None => Err "nodemanager url not found"
  | Some c =>
      match Get (c +:+ urlSuffix) with
      | WebErrs errs => Err errs
      | WebResp code body => if code =? 200 then Ok body else Err ("response status not ok: " +:+ Itoa code)
      end
  end.

(** One round: the answers to the three requests, the time of the check for
    failed containers, and the time after its alarm. *)
Record round_env := mkRound {
  get_metrics : string -> web_answer JmxResp;
  get_status : string -> web_answer NMNodeStatus;
  get_containers : string -> web_answer (list NMContainer);
  re_now : time;
  re_after : time;
}.

(** ** The state *)

Record YarnMetrics := mkYarnMetrics {
  nodeName : string;
  url : option string;
  metrics : option NMMetrics;
  nodeStatus : option NMNodeInfo;
  lastFailed : Z;
  lastKilled : Z;
  lastCompleted : Z;
  lastWarning : time;
  failedCount : Z;
  (** The gauge of node resources, by resource and type. *)
  gauges : gmap (string * string) float64;
  (** The calls of [SendAlarm]. *)
  alarms : list (time * string);
}.

Definition set_url (y : YarnMetrics) (u : string) : YarnMetrics :=
  mkYarnMetrics (nodeName y) (Some u) (metrics y) (nodeStatus y) (lastFailed y) (lastKilled y) (lastCompleted y)
    (lastWarning y) (failedCount y) (gauges y) (alarms y).
Definition set_answers (y : YarnMetrics) (m : option NMMetrics) (n : option NMNodeInfo) : YarnMetrics :=
  mkYarnMetrics (nodeName y) (url y) m n (lastFailed y) (lastKilled y) (lastCompleted y)
    (lastWarning y) (failedCount y) (gauges y) (alarms y).
Definition set_gauges (y : YarnMetrics) (g : gmap (string * string) float64) : YarnMetrics :=
  mkYarnMetrics (nodeName y) (url y) (metrics y) (nodeStatus y) (lastFailed y) (lastKilled y) (lastCompleted y)
    (lastWarning y) (failedCount y) g (alarms y).
Definition set_counts (y : YarnMetrics) (count : Z) (warned : time) (l : list (time * string)) (m : NMMetrics) : YarnMetrics :=
  mkYarnMetrics (nodeName y) (url y) (metrics y) (nodeStatus y) (ContainersFailed m) (ContainersKilled m) (ContainersCompleted m)
    warned count (gauges y) l.

Definition resetMetricUrl (y : YarnMetrics) (metricsPort : Z) : YarnMetrics :=
  let u := "http://" +:+ nodeName y +:+ ":" +:+ Itoa metricsPort in
  match url y with
  | Some c => if (c =? u)%string then y else set_url y u
  | None => set_url y u
  end.

Definition NewYarnMetrics (nodeIP : string) (now : time) (metricsPort : option Z) : YarnMetrics :=
  let m := mkYarnMetrics nodeIP None None None 0 0 0 (time_Add now (- warningPeriod)) 0 ∅ [] in
  match metricsPort with Some port => resetMetricUrl m port | None => m end.

(** ** The three requests *)

Definition getMetrics (y : YarnMetrics) (e : round_env) : option NMMetrics :=
  match requestUrl (url y) metricsSuffix (get_metrics e) with
  | Err _ => None
  | Ok beans => head beans
  end.

(** A request that fails means that the node is lost; an answer without the
    field leaves a nil pointer. *)
Definition getNodeStatus (y : YarnMetrics) (e : round_env) : outcome NMNodeInfo :=
  let nodeInfo := match requestUrl (url y) statusSuffix (get_status e) with
                  | Err _ => Some (mkNMNodeInfo false fzero)
                  | Ok status => status
                  end in
  match nodeInfo with
  | None => Crash (Panic "nil pointer dereference")
  | Some i => Ret (mkNMNodeInfo (NodeHealthy i) (if NodeHealthy i then float64_of_Z 1 else float64_of_Z 0))
  end.

Definition getContainerState (y : YarnMetrics) (e : round_env) : list NMContainer :=
  match requestUrl (url y) containersSuffix (get_containers e) with
  | Err _ => []
  | Ok l => l
  end.

(** ** Gauges (common_metrics.go) *)

Definition NodeResourceTypeOfflineCapacity : string := "offline_capacity".
Definition NodeResourceTypeOfflineAllocated : string := "offline_allocated".

Section Rounds.
Context {Q : Type} `{QO : QuantityOps Q}.

Definition cpu_gauge (milli : Z) : float64 := fdiv (float64_of_Z milli) (float64_of_Z CPUUnit).
Definition mem_gauge (bytes : Z) : float64 :=
  fdiv (float64_of_Z (int64_of_float64 (fmul (fdiv (float64_of_Z (Z.quot bytes MemUnit)) (float64_of_Z 1024)) (float64_of_Z 1000))))
    (float64_of_Z 1000).

Definition NodeResourceMetricsReset (g : gmap (string * string) float64) (res : gmap string Q) (resType : string) :
    gmap (string * string) float64 :=
  <[("memory", resType) := mem_gauge (memBytes res)]> (<[("cpu", resType) := cpu_gauge (cpuMilli res)]> g).

(** ** A round *)

Definition active (con : NMContainer) : bool := runningStats (con_State con) || initingStats (con_State con).

Definition addAllocated '((cpu, mem) : Z * Z) (con : NMContainer) : Z * Z :=
  if active con then (int64 (cpu + int64_of_float64 (TotalVCoresNeeded con)), int64 (mem + TotalMemoryNeededMB con))
  else (cpu, mem).

Definition node_resources (cpuMilli memBytes : Z) : gmap string Q :=
  set_memBytes (set_cpuMilli ∅ (int64 cpuMilli)) (int64 memBytes).

Definition uploadNodeMetrics (y : YarnMetrics) (e : round_env) : YarnMetrics :=
  let '(cpu, mem) := fold_left addAllocated (getContainerState y e) (0, 0) in
  let alloc := node_resources (cpu * CPUUnit) (mem * MemUnit) in
  let g := NodeResourceMetricsReset (gauges y) alloc NodeResourceTypeOfflineAllocated in
  match metrics y with
  | None => set_gauges y g
  | Some m =>
      let cpu := int64 (AvailableVCores m + AllocatedVCores m) in
      let mem := int64 (AvailableGB m + AllocatedGB m) in
      let cap := node_resources (cpu * CPUUnit) (mem * MemGbUnit) in
      set_gauges y (NodeResourceMetricsReset g cap NodeResourceTypeOfflineCapacity)
  end.

(** What failed, was killed and completed since the last metrics; all of it
    when the node manager seems to have restarted. *)
Definition increments (lastFailed lastKilled lastCompleted : Z) (m : NMMetrics) : Z * Z * Z :=
  let failed := int64 (ContainersFailed m - lastFailed) in
  let killed := int64 (ContainersKilled m - lastKilled) in
  let completed := int64 (ContainersCompleted m - lastCompleted) in
  if (killed <? 0) || (completed <? 0) then (ContainersFailed m, ContainersKilled m, ContainersCompleted m)
  else (failed, killed, completed).

Definition tooManyFailed '((failed, killed, completed) : Z * Z * Z) : bool :=
  (1 <? failed) && (killed <? failed) && (completed <? failed).

Definition failed_msg '((failed, killed, completed) : Z * Z * Z) : string :=
  "too many offline job failed(failed:" +:+ Itoa failed +:+ ", killed:" +:+ Itoa killed +:+ ", completed:" +:+ Itoa completed +:+ ")".

Definition checkAbnormalFailed (y : YarnMetrics) (e : round_env) : YarnMetrics :=
  match metrics y with
  | None => y
  | Some m =>
      let incr := increments (lastFailed y) (lastKilled y) (lastCompleted y) m in
      if tooManyFailed incr then
        let count := int64 (failedCount y + 1) in
        if (3 <=? count) && time_Before (time_Add (lastWarning y) warningPeriod) (re_now e)
        then set_counts y count (re_after e) (alarms y ++ [(re_now e, failed_msg incr)]) m
        else set_counts y count (lastWarning y) (alarms y) m
      else set_counts y 0 (lastWarning y) (alarms y) m
  end.

(** The function that [Run] calls every 30 seconds. *)
Definition round (y : YarnMetrics) (e : round_env) : outcome YarnMetrics :=
  let m := getMetrics y e in
  status ← getNodeStatus y e;
  Ret (checkAbnormalFailed (uploadNodeMetrics (set_answers y m (Some status)) e) e).

(** The goroutines of [Run]: rounds, and ports from the channel. *)
Inductive event := Round (e : round_env) | Port (port : Z).

Definition step (y : YarnMetrics) (ev : event) : outcome YarnMetrics :=
  match ev with
  | Round e => round y e
  | Port port => Ret (resetMetricUrl y port)
  end.

Fixpoint run (l : list event) (y : YarnMetrics) : outcome YarnMetrics :=
  match l with
  | [] => Ret y
  | ev :: l' => y' ← step y ev; run l' y'
  end.
End Rounds.

(** What [Collect] puts into the channel: the description, the value and the labels. *)
Definition Collect (y : YarnMetrics) : list (string * float64 * list string) :=
  let container m count label := ("caelus_yarn_nm_container", float64_of_Z (count m), [nodeName y; label]) in
  match metrics y with
  | None => []
  | Some m =>
      [container m ContainersLaunched "launched"; container m ContainersCompleted "completed";
       container m ContainersFailed "failed"; container m ContainersKilled "killed";
       container m ContainersRunning "running"; container m ContainersIniting "initing"]
  end ++
  match nodeStatus y with
  | None => []
  | Some i => [("caelus_yarn_nm_healthy", NodeHealthyFloat i, [nodeName y])]
  end.

(** ** Alarms for failed containers

    The specification looks at the metrics that the rounds obtained, in their
    order: [streak] is the number of the last of them that report too many
    failures, each compared with the one before, the first with zeroes. *)

Definition no_metrics : NMMetrics := mkNMMetrics "" 0 0 0 0 0 0 0 0 0 0.

Definition since (prev m : NMMetrics) : Z * Z * Z :=
  increments (ContainersFailed prev) (ContainersKilled prev) (ContainersCompleted prev) m.

Fixpoint streak_rev (l : list NMMetrics) : nat :=
  match l with
  | [] => 0
  | m :: l' => if tooManyFailed (since (default no_metrics (head l')) m) then S (streak_rev l') else 0
  end.

Definition streak (l : list NMMetrics) : nat := streak_rev (reverse l).

(** The metrics that the rounds of a history obtained, from the port they used. *)
Fixpoint obtained (l : list event) (y : YarnMetrics) : list NMMetrics :=
  match l with
  | [] => []
  | Port port :: l' => obtained l' (resetMetricUrl y port)
  | Round e :: l' => match getMetrics y e with Some m => [m] | None => [] end ++ obtained l' y
  end.

Section RoundLemmas.
Context {Q : Type} `{QO : QuantityOps Q}.

Lemma getMetrics_url y y' e : url y = url y' -> getMetrics y e = getMetrics y' e.
Proof. unfold getMetrics. by intros ->. Qed.

Lemma resetMetricUrl_url y port : url (resetMetricUrl y port) = Some ("http://" +:+ nodeName y +:+ ":" +:+ Itoa port).
Proof. unfold resetMetricUrl. destruct (url y) as [c|] eqn:E; [|done]. by destruct (String.eqb_spec c ("http://" +:+ nodeName y +:+ ":" +:+ Itoa port)) as [->|]. Qed.

(** A port changes nothing but the address. *)
Lemma resetMetricUrl_keeps y port : exists u, resetMetricUrl y port =
  mkYarnMetrics (nodeName y) u (metrics y) (nodeStatus y) (lastFailed y) (lastKilled y) (lastCompleted y)
    (lastWarning y) (failedCount y) (gauges y) (alarms y).
Proof.
  unfold resetMetricUrl. destruct (url y) as [c|] eqn:E; [|by eexists]. destruct (_ =? _)%string; [|by eexists].
  exists (Some c). rewrite <- E. by destruct y.
Qed.

Lemma obtained_url l y y' : url y = url y' -> nodeName y = nodeName y' -> obtained l y = obtained l y'.
Proof.
  revert y y'. induction l as [|[e|port] l IH]; intros y y' Hu Hn; cbn [obtained]; [done| |].
  - by rewrite (getMetrics_url y y' e Hu), (IH y y').
  - apply IH; [by rewrite !resetMetricUrl_url, Hn|].
    destruct (resetMetricUrl_keeps y port) as [u ->], (resetMetricUrl_keeps y' port) as [u' ->]. exact Hn.
Qed.

(** What is true of the counters after the metrics [h]. *)
Record counted (h : list NMMetrics) (y : YarnMetrics) : Prop := {
  counted_streak : failedCount y = Z.of_nat (streak h);
  counted_failed : lastFailed y = ContainersFailed (default no_metrics (last h));
  counted_killed : lastKilled y = ContainersKilled (default no_metrics (last h));
  counted_completed : lastCompleted y = ContainersCompleted (default no_metrics (last h));
}.

Lemma streak_snoc h m :
  streak (h ++ [m]) = if tooManyFailed (since (default no_metrics (last h)) m) then S (streak h) else 0%nat.
Proof.
  unfold streak. rewrite reverse_app. cbn [reverse rev_append app]. cbn [streak_rev].
  by rewrite head_reverse.
Qed.

Lemma streak_length h : (streak h <= length h)%nat.
Proof.
  unfold streak. rewrite <- length_reverse. induction (reverse h) as [|m l IH]; cbn [streak_rev length]; [lia|].
  destruct (tooManyFailed _); lia.
Qed.

(** The alarm of a round that obtained [m]. *)
Definition alarm_of (h : list NMMetrics) (warned now : time) (m : NMMetrics) : list (time * string) :=
  if (3 <=? streak (h ++ [m]))%nat && time_Before (time_Add warned warningPeriod) now
  then [(now, failed_msg (since (default no_metrics (last h)) m))] else [].

(** What a round does to the part of the state that decides about alarms. *)
Lemma checkAbnormalFailed_counted h y e :
  counted h y -> Z.of_nat (length h) + 1 < 2 ^ 63 ->
  let y' := checkAbnormalFailed y e in
  match metrics y with
  | None => y' = y
  | Some m => counted (h ++ [m]) y' /\ alarms y' = alarms y ++ alarm_of h (lastWarning y) (re_now e) m /\
      (lastWarning y' = if (3 <=? streak (h ++ [m]))%nat && time_Before (time_Add (lastWarning y) warningPeriod) (re_now e)
                        then re_after e else lastWarning y) /\
      url y' = url y /\ nodeName y' = nodeName y /\ gauges y' = gauges y
  end.
Proof.
  intros [Hs Hf Hk Hc] Hlen. cbv zeta. unfold checkAbnormalFailed. destruct (metrics y) as [m|]; [|done].
  assert (Hi : increments (lastFailed y) (lastKilled y) (lastCompleted y) m = since (default no_metrics (last h)) m)
    by (unfold since; by rewrite Hf, Hk, Hc).
  rewrite Hi. unfold alarm_of. pose proof (streak_snoc h m) as Hsn. pose proof (streak_length h) as Hl. rewrite Hsn.
  assert (Hcount : forall y' n, n = Z.of_nat (streak (h ++ [m])) -> failedCount y' = n -> lastFailed y' = ContainersFailed m ->
    lastKilled y' = ContainersKilled m -> lastCompleted y' = ContainersCompleted m -> counted (h ++ [m]) y').
  { intros y' n -> H1 H2 H3 H4. split; rewrite ?last_snoc; done. }
  destruct (tooManyFailed _).
  - rewrite Hs. rewrite int64_id by (unfold in_int64; lia).
    replace (3 <=? Z.of_nat (streak h) + 1) with (3 <=? S (streak h))%nat by (apply eq_bool_prop_intro; rewrite !Is_true_true, Z.leb_le, Nat.leb_le; lia).
    destruct (_ && _); cbn; (split; [apply (Hcount _ (Z.of_nat (streak h) + 1)); [rewrite Hsn; lia|done..]|]); rewrite ?app_nil_r; done.
  - cbn. split; [by apply (Hcount _ 0); [rewrite Hsn|..]|]. by rewrite app_nil_r.
Qed.

Lemma uploadNodeMetrics_keeps y e : exists g, uploadNodeMetrics (Q := Q) y e = set_gauges y g.
Proof. unfold uploadNodeMetrics. destruct (fold_left _ _ _) as [cpu mem]. destruct (metrics y); by eexists. Qed.

Lemma checkAbnormalFailed_gauges y e : gauges (checkAbnormalFailed y e) = gauges y.
Proof. unfold checkAbnormalFailed. destruct (metrics y); [|done]. cbv zeta. destruct (tooManyFailed _); [destruct (_ && _)|]; done. Qed.

(** A round keeps the counters right. *)
Lemma round_counted h y e y' :
  counted h y -> Z.of_nat (length h) + 1 < 2 ^ 63 -> round (Q := Q) y e = Ret y' ->
  match getMetrics y e with
  | None => counted h y' /\ alarms y' = alarms y /\ lastWarning y' = lastWarning y
  | Some m => counted (h ++ [m]) y' /\ alarms y' = alarms y ++ alarm_of h (lastWarning y) (re_now e) m /\
      lastWarning y' = if (3 <=? streak (h ++ [m]))%nat && time_Before (time_Add (lastWarning y) warningPeriod) (re_now e)
                       then re_after e else lastWarning y
  end /\ url y' = url y /\ nodeName y' = nodeName y.
Proof.
  intros Hc Hlen Hr. unfold round in Hr. cbv zeta in Hr. apply outcome_bind_Ret in Hr as (st & _ & [= <-]).
  destruct (uploadNodeMetrics_keeps (set_answers y (getMetrics y e) (Some st)) e) as [g ->].
  assert (Hc' : counted h (set_gauges (set_answers y (getMetrics y e) (Some st)) g)) by (by destruct Hc).
  pose proof (checkAbnormalFailed_counted h _ e Hc' Hlen) as H. cbv zeta in H. cbn [metrics set_gauges set_answers] in H.
  destruct (getMetrics y e) as [m|]; [|by rewrite H].
  destruct H as (H1 & H2 & H3 & H4 & H5 & _). by split.
Qed.

Lemma run_counted l h y y' :
  counted h y -> Z.of_nat (length h + length l) < 2 ^ 63 -> run (Q := Q) l y = Ret y' -> counted (h ++ obtained l y) y'.
Proof.
  revert h y. induction l as [|ev l IH]; intros h y Hc Hlen Hr; cbn [run obtained length] in *; [by injection Hr as <-; rewrite app_nil_r|].
  apply outcome_bind_Ret in Hr as (y1 & Hs & Hr). destruct ev as [e|port]; cbn [step] in Hs.
  - apply (round_counted h) in Hs as (Hm & Hu & Hn); [|done|lia]. rewrite (obtained_url l y y1) by done.
    destruct (getMetrics y e) as [m|].
    + destruct Hm as [Hm _]. rewrite app_assoc. apply IH; [done| |done]. rewrite length_app. cbn. lia.
    + destruct Hm as [Hm _]. cbn [app]. apply IH; [done|lia|done].
  - injection Hs as <-. apply IH; [|lia|done]. destruct (resetMetricUrl_keeps y port) as [u ->]. by destruct Hc.
Qed.

Lemma obtained_length l y : (length (obtained l y) <= length l)%nat.
Proof.
  revert y. induction l as [|[e|port] l IH]; intros y; cbn [obtained length]; [lia| |specialize (IH (resetMetricUrl y port)); lia].
  rewrite length_app. specialize (IH y). destruct (getMetrics y e); cbn; lia.
Qed.

Lemma New_counted ip now port : counted [] (NewYarnMetrics ip now port).
Proof. unfold NewYarnMetrics. destruct port as [port|]; [destruct (resetMetricUrl_keeps (mkYarnMetrics ip None None None 0 0 0 (time_Add now (- warningPeriod)) 0 ∅ []) port) as [u ->]|]; done. Qed.
End RoundLemmas.

Section RoundTheorems.
Context {Q : Type} `{QL : QuantityLaws Q}.

Lemma round_alarms y e y' :
  round (Q := Q) y e = Ret y' ->
  (alarms y' = alarms y /\ lastWarning y' = lastWarning y) \/
  exists m, alarms y' = alarms y ++ [(re_now e, m)] /\ lastWarning y' = re_after e /\ lastWarning y + warningPeriod < re_now e.
Proof.
  unfold round. cbv zeta. intros Hr. apply outcome_bind_Ret in Hr as (st & _ & [= <-]).
  destruct (uploadNodeMetrics_keeps (set_answers y (getMetrics y e) (Some st)) e) as [g ->].
  unfold checkAbnormalFailed. cbn [metrics set_gauges set_answers]. destruct (getMetrics y e) as [m|]; [|by left].
  cbv zeta. destruct (tooManyFailed _); [|by left]. destruct (_ && _) eqn:E; [|by left]. right.
  apply andb_true_iff in E as [_ E]. unfold time_Before, time_Add in E. cbn in E. eexists. split; [done|]. split; [done|]. cbn. lia.
Qed.

Lemma run_spaced l y y' :
  run (Q := Q) l y = Ret y' -> (forall e, Round e ∈ l -> re_now e <= re_after e) ->
  StronglySorted (fun a b => a.1 + warningPeriod < b.1) (alarms y) -> Forall (fun a => a.1 <= lastWarning y) (alarms y) ->
  StronglySorted (fun a b => a.1 + warningPeriod < b.1) (alarms y') /\ Forall (fun a => a.1 <= lastWarning y') (alarms y').
Proof.
  revert y. induction l as [|ev l IH]; intros y Hr Hc Hs Hf; cbn [run] in Hr; [by injection Hr as <-|].
  apply outcome_bind_Ret in Hr as (y1 & He & Hr). apply (IH y1 Hr); clear IH Hr.
  - intros e Hin. apply Hc. by right.
  - destruct ev as [e|port]; cbn [step] in He.
    + apply round_alarms in He as [[-> _]|(m & -> & _ & Hlt)]; [done|]. apply StronglySorted_app. split_and!; [|done|repeat constructor].
      intros a b Ha Hb. apply list_elem_of_singleton in Hb as ->. rewrite Forall_forall in Hf. specialize (Hf a Ha). cbn. lia.
    + injection He as <-. by destruct (resetMetricUrl_keeps y port) as [u ->].
  - destruct ev as [e|port]; cbn [step] in He.
    + apply round_alarms in He as [[-> ->]|(m & -> & -> & Hlt)]; [done|]. specialize (Hc e ltac:(by left)).
      apply Forall_app. split; [|by repeat constructor]. eapply Forall_impl; [exact Hf|]. cbn. unfold warningPeriod, Minute, Second in Hlt. lia.
    + injection He as <-. by destruct (resetMetricUrl_keeps y port) as [u ->].
Qed.

(** An alarm for failed containers is sent exactly when three metrics in a
    row, of those that the rounds obtained, report too many failures and the last
    such alarm is more than ten minutes ago: rounds that obtain no metrics neither
    count nor interrupt, and a changed port interrupts nothing. *)
Theorem failure_alarms_exact ip start port l e y y' :
  Z.of_nat (length l) + 1 < 2 ^ 63 -> run (Q := Q) l (NewYarnMetrics ip start port) = Ret y -> round (Q := Q) y e = Ret y' ->
  let h := obtained l (NewYarnMetrics ip start port) in
  alarms y' = alarms y ++ match getMetrics y e with Some m => alarm_of h (lastWarning y) (re_now e) m | None => [] end.
Proof.
  intros Hl Hr He h. apply (run_counted (Q := Q) l []) in Hr; [|apply New_counted|cbn; lia]. cbn [app] in Hr. fold h in Hr.
  apply (round_counted (Q := Q) h) in He as [He _]; [|done|].
  - destruct (getMetrics y e); [by destruct He as (_ & -> & _)|]. destruct He as (_ & -> & _). by rewrite app_nil_r.
  - pose proof (obtained_length l (NewYarnMetrics ip start port)). unfold h. lia.
Qed.

(** Any two alarms for failed containers are more than ten minutes apart. *)
Theorem failure_alarms_spaced ip start port l y :
  run (Q := Q) l (NewYarnMetrics ip start port) = Ret y -> (forall e, Round e ∈ l -> re_now e <= re_after e) ->
  StronglySorted (fun a b => a.1 + warningPeriod < b.1) (alarms y).
Proof.
  intros Hr Hc. assert (Hn : alarms (NewYarnMetrics ip start port) = []).
  { unfold NewYarnMetrics. destruct port as [port|]; [|done].
    by destruct (resetMetricUrl_keeps (mkYarnMetrics ip None None None 0 0 0 (time_Add start (- warningPeriod)) 0 ∅ []) port) as [u ->]. }
  by apply (run_spaced _ _ _ Hr Hc); rewrite Hn; constructor.
Qed.

(** A round crashes exactly when the node manager answers the request for
    its status with success but without the node's info. *)
Theorem round_panics_exactly y e c :
  round (Q := Q) y e = Crash c <->
  c = Panic "nil pointer dereference" /\ exists u, url y = Some u /\ get_status e (u +:+ statusSuffix) = WebResp 200 None.
Proof.
  unfold round, getNodeStatus, requestUrl, mbind, outcome_bind. destruct (url y) as [u|]; [|split; [done|by intros (_ & u & [=] & _)]].
  destruct (get_status e _) as [errs|code status] eqn:E; [split; [done|intros (_ & u' & [= <-] & Hg); by rewrite E in Hg]|].
  destruct (Z.eqb_spec code 200) as [->|Hc].
  - destruct status as [i|].
    + split; [done|]. intros (_ & u' & [= <-] & Hg). by rewrite E in Hg.
    + split; [intros [= <-]; split; [done|by exists u]|]. by intros [-> _].
  - split; [done|]. intros (_ & u' & [= <-] & Hg). rewrite E in Hg. by injection Hg as ->.
Qed.

Definition sum (f : NMContainer -> Z) (l : list NMContainer) : Z := foldr (fun c n => f c + n) 0 l.

Lemma fold_addAllocated l cpu mem :
  fold_left addAllocated l (int64 cpu, int64 mem) =
  (int64 (cpu + sum (fun c => int64_of_float64 (TotalVCoresNeeded c)) (List.filter active l)),
   int64 (mem + sum TotalMemoryNeededMB (List.filter active l))).
Proof.
  revert cpu mem. induction l as [|c l IH]; intros cpu mem; cbn [fold_left List.filter]; [by rewrite !Z.add_0_r|].
  unfold addAllocated at 2. destruct (active c); [|by rewrite IH]. rewrite !int64_add_l, IH. cbn [sum foldr]. by rewrite !Z.add_assoc.
Qed.

Lemma node_resources_read cpuMilli memBytes :
  Quantity.cpuMilli (node_resources (Q := Q) cpuMilli memBytes) = int64 cpuMilli /\
  Quantity.memBytes (node_resources (Q := Q) cpuMilli memBytes) = int64 memBytes.
Proof.
  unfold node_resources, Quantity.cpuMilli, Quantity.memBytes, set_memBytes, set_cpuMilli, rl_Cpu, rl_Memory.
  rewrite lookup_insert_ne, !lookup_insert_eq by done. cbn [default from_option id].
  by rewrite milli_roundtrip, value_roundtrip by apply int64_range.
Qed.

Lemma Reset_lookup g (res : gmap string Q) t :
  NodeResourceMetricsReset g res t !! ("cpu", t) = Some (cpu_gauge (cpuMilli res)) /\
  NodeResourceMetricsReset g res t !! ("memory", t) = Some (mem_gauge (memBytes res)) /\
  forall r t', t' <> t -> NodeResourceMetricsReset g res t !! (r, t') = g !! (r, t').
Proof.
  unfold NodeResourceMetricsReset. split_and!; [by rewrite lookup_insert_ne, lookup_insert_eq by done|by rewrite lookup_insert_eq|].
  intros r t' Hne. by rewrite !lookup_insert_ne by congruence.
Qed.

(** A round publishes as allocated the sums over the running and starting
    containers, with every container's cores rounded down, and nothing when they cannot be listed; and as
    capacity what the node manager reports, which stays when it reports nothing. *)
Theorem round_publishes y e y' :
  round (Q := Q) y e = Ret y' ->
  let cons := List.filter active (getContainerState y e) in
  let cpu := sum (fun c => int64_of_float64 (TotalVCoresNeeded c)) cons in
  let mem := sum TotalMemoryNeededMB cons in
  in_int64 (cpu * CPUUnit) -> in_int64 (mem * MemUnit) ->
  gauges y' !! ("cpu", NodeResourceTypeOfflineAllocated) = Some (cpu_gauge (cpu * CPUUnit)) /\
  gauges y' !! ("memory", NodeResourceTypeOfflineAllocated) = Some (mem_gauge (mem * MemUnit)) /\
  match getMetrics y e with
  | None => forall r, gauges y' !! (r, NodeResourceTypeOfflineCapacity) = gauges y !! (r, NodeResourceTypeOfflineCapacity)
  | Some m => in_int64 ((AvailableVCores m + AllocatedVCores m) * CPUUnit) -> in_int64 ((AvailableGB m + AllocatedGB m) * MemGbUnit) ->
      gauges y' !! ("cpu", NodeResourceTypeOfflineCapacity) = Some (cpu_gauge ((AvailableVCores m + AllocatedVCores m) * CPUUnit)) /\
      gauges y' !! ("memory", NodeResourceTypeOfflineCapacity) = Some (mem_gauge ((AvailableGB m + AllocatedGB m) * MemGbUnit))
  end.
Proof.
  unfold round. cbv zeta. intros Hr Hcpu Hmem. apply outcome_bind_Ret in Hr as (st & _ & [= <-]).
  set (y1 := set_answers y (getMetrics y e) (Some st)). rewrite checkAbnormalFailed_gauges.
  unfold uploadNodeMetrics. change (getContainerState y1 e) with (getContainerState y e).
  pose proof (fold_addAllocated (getContainerState y e) 0 0) as Hf. change (int64 0) with 0 in Hf. rewrite Hf. clear Hf. rewrite !Z.add_0_l.
  set (cpu := sum (fun c => int64_of_float64 (TotalVCoresNeeded c)) _) in *. set (mem := sum TotalMemoryNeededMB _) in *.
  rewrite (int64_id cpu), (int64_id mem) by (unfold in_int64, CPUUnit, MemUnit in *; lia).
  change (metrics y1) with (getMetrics y e). change (gauges y1) with (gauges y).
  destruct (node_resources_read (cpu * CPUUnit) (mem * MemUnit)) as [R1 R2]. rewrite int64_id in R1, R2 by done.
  destruct (Reset_lookup (gauges y) (node_resources (Q := Q) (cpu * CPUUnit) (mem * MemUnit)) NodeResourceTypeOfflineAllocated) as (L1 & L2 & L3).
  rewrite R1 in L1. rewrite R2 in L2. destruct (getMetrics y e) as [m|]; cbn [gauges set_gauges]; [|split_and!; [done..|intros r; by apply L3]].
  match goal with |- context [NodeResourceMetricsReset ?g ?c NodeResourceTypeOfflineCapacity] => destruct (Reset_lookup g c NodeResourceTypeOfflineCapacity) as (C1 & C2 & C3) end.
  split_and!; [by rewrite C3|by rewrite C3|]. intros Hc Hm. rewrite C1, C2.
  match goal with |- context [node_resources ?a ?b] => destruct (node_resources_read a b) as [-> ->] end.
  rewrite (int64_id (AvailableVCores m + AllocatedVCores m)), (int64_id (AvailableGB m + AllocatedGB m))
    by (unfold in_int64, CPUUnit, MemGbUnit in *; lia). by rewrite !int64_id by done.
Qed.
End RoundTheorems.

(** ** Witnesses *)

Definition ex_bean (failed completed : Z) : NMMetrics := mkNMMetrics "node" 9 completed failed 0 1 2 6 4 12 20.
Definition ex_con (state : string) (cores : float32) (mem : Z) : NMContainer :=
  mkNMContainer "c" state mem cores fzero fzero false "app" 0 0.
Definition ex_cons : list NMContainer :=
  [ex_con "RUNNING" (f32div (float32_of_Z 3) (float32_of_Z 2)) 2048; ex_con "DONE" (float32_of_Z 8) 8192; ex_con "NEW" (float32_of_Z 2) 1024].

(** A round at a minute of which all requests are answered. *)
Definition ex_round (minute failed completed : Z) : round_env :=
  mkRound (fun _ => WebResp 200 [ex_bean failed completed]) (fun _ => WebResp 200 (Some (mkNMNodeInfo true fzero)))
    (fun _ => WebResp 200 ex_cons) (minute * Minute) (minute * Minute + 1).

(** A node manager that does not answer. *)
Definition ex_silent (minute : Z) : round_env :=
  mkRound (fun _ => WebErrs "refused") (fun _ => WebErrs "refused") (fun _ => WebErrs "refused") (minute * Minute) (minute * Minute + 1).

Definition ex_history : list event :=
  [Port 10001; Round (ex_round 1 2 0); Round (ex_silent 2); Round (ex_round 3 6 1)].

Definition ex_state : YarnMetrics :=
  match run (Q := Z) ex_history (NewYarnMetrics "10.0.0.1" 0 None) with Ret y => y | Crash _ => NewYarnMetrics "" 0 None end.

Definition ex_next (y : YarnMetrics) (e : round_env) : YarnMetrics :=
  match round (Q := Z) y e with Ret y' => y' | Crash _ => y end.

Lemma failure_alarms_exact_witness :
  alarms ex_state = [] /\
  alarms (ex_next ex_state (ex_round 4 10 1)) = [(4 * Minute, "too many offline job failed(failed:4, killed:0, completed:0)")] /\
  alarms (ex_next ex_state (ex_round 4 7 1)) = [].
Proof.
  assert (Hr : run (Q := Z) ex_history (NewYarnMetrics "10.0.0.1" 0 None) = Ret ex_state) by (vm_compute; reflexivity).
  assert (Hn : forall f, round (Q := Z) ex_state (ex_round 4 f 1) = Ret (ex_next ex_state (ex_round 4 f 1))) by (intros f; reflexivity).
  assert (Hl : Z.of_nat (length ex_history) + 1 < 2 ^ 63) by (cbn; lia).
  split; [vm_compute; reflexivity|]. split.
  - rewrite (failure_alarms_exact "10.0.0.1" 0 None ex_history (ex_round 4 10 1) ex_state _ Hl Hr (Hn 10)). vm_compute. reflexivity.
  - rewrite (failure_alarms_exact "10.0.0.1" 0 None ex_history (ex_round 4 7 1) ex_state _ Hl Hr (Hn 7)). vm_compute. reflexivity.
Defined.

Definition ex_failing : list event :=
  Port 10001 :: map (fun i => Round (ex_round i (10 * i) 0)) [1; 2; 3; 4; 5; 12; 14; 16].

Lemma failure_alarms_spaced_witness :
  match run (Q := Z) ex_failing (NewYarnMetrics "10.0.0.1" 0 None) with
  | Ret y => map fst (alarms y) = [3 * Minute; 14 * Minute] /\ StronglySorted (fun a b => a.1 + warningPeriod < b.1) (alarms y)
  | Crash _ => False
  end.
Proof.
  destruct (run (Q := Z) ex_failing (NewYarnMetrics "10.0.0.1" 0 None)) as [y|] eqn:E; [|vm_compute in E; discriminate E].
  split; [vm_compute in E; injection E as <-; reflexivity|].
  apply (failure_alarms_spaced _ _ _ _ _ E). intros e He. unfold ex_failing in He.
  repeat (apply elem_of_cons in He as [He|He]; [try discriminate He; injection He as ->; cbn; lia|]). inversion He.
Defined.

Lemma round_publishes_witness :
  let y := ex_next (NewYarnMetrics "10.0.0.1" 0 (Some 10001)) (ex_round 1 0 0) in
  gauges y !! ("cpu", NodeResourceTypeOfflineAllocated) = Some (float64_of_Z 3) /\
  gauges y !! ("memory", NodeResourceTypeOfflineAllocated) = Some (float64_of_Z 3) /\
  gauges y !! ("cpu", NodeResourceTypeOfflineCapacity) = Some (float64_of_Z 10).
Proof.
  intros y.
  destruct (round_publishes (Q := Z) (NewYarnMetrics "10.0.0.1" 0 (Some 10001)) (ex_round 1 0 0) y) as (H1 & H2 & H3);
    [reflexivity|vm_compute; split; discriminate + reflexivity..|].
  rewrite H1, H2. cbn [getMetrics] in H3. split; [vm_compute; reflexivity|]. split; [vm_compute; reflexivity|].
  destruct H3 as [-> _]; [vm_compute; split; discriminate + reflexivity..|]. vm_compute. reflexivity.
Defined.

(** The web server of another process on the port answers with an object of its own. *)
Example foreign_answer_panics :
  round (Q := Z) (NewYarnMetrics "10.0.0.1" 0 (Some 10001))
    (mkRound (fun _ => WebErrs "refused") (fun _ => WebResp 200 None) (fun _ => WebErrs "refused") 0 0) = Crash (Panic "nil pointer dereference").
Proof. reflexivity. Qed.
