(* ===== verification/Mountpoint.v ===== *)
(** * Mount points

    pkg/caelus/util/mountpoint: the table of mounts (/proc/self/mountinfo), the
    main mount of each file system, and the mount of a path.  The disk quotas use
    it to find the device of a directory.  The kernel's files and device numbers
    are the parameter [MountEnv].  The loops that walk up a path have fuel:
    [None] stands for a loop that runs longer. *)

From Stdlib Require Import Ascii.
From S2P Require Import Prelude GoStrings Cgroup.

#[local] Open Scope string_scope.
#[local] Open Scope Z_scope.
#[local] Open Scope list_scope.

Class MountEnv := {
  (** [util.InHostNamespace]. *)
  m_InHostNamespace : bool;
  (** The path exists and is a directory. *)
  m_isDir : string -> bool;
  m_Readlink : string -> result string;
  (** The device of [Lstat], which does not follow a symbolic link. *)
  m_Lstat : string -> result Z;
  (** golang.org/x/sys/unix. *)
  unix_Mkdev : Z -> Z -> Z;
  unix_Major : Z -> Z;
  unix_Minor : Z -> Z;
}.

Record Mount := mkMount {
  Path : string;
  FilesystemType : string;
  Device : string;
  DeviceNumber : Z;
  Subtree : string;
  ReadOnly : bool;
  Options : string;
}.

#[export] Instance Mount_eq_dec : EqDecision Mount.
Proof. solve_decision. Defined.

(** ** The path functions of the standard library *)

Definition filepath_clean_step (rooted : bool) (acc : list string) (part : string) : list string :=
  if (part =? "")%string || (part =? ".")%string then acc
  else if (part =? "..")%string then
    if rooted then removelast acc
    else match last acc with
         | None => [".."]
         | Some q => if (q =? "..")%string then acc ++ [".."] else removelast acc
         end
  else acc ++ [part].

(** [filepath.Clean]. *)
Definition filepath_Clean (p : string) : string :=
  if (p =? "")%string then "."
  else
    let rooted := HasPrefix p "/" in
    let ps := fold_left (filepath_clean_step rooted) (Split p "/") [] in
    if rooted then String "/" (Join ps "/") else match ps with [] => "." | _ => Join ps "/" end.

(** The path up to its last slash, with it. *)
Fixpoint upto_slash (p : string) : string :=
  match p with
  | EmptyString => ""
  | String c p' => if Ascii.eqb c "/" || Contains p' "/" then String c (upto_slash p') else ""
  end.

Definition filepath_Dir (p : string) : string := filepath_Clean (upto_slash p).

(** [filepath.Base]: the last of the parts that are not empty. *)
Definition filepath_Base (p : string) : string :=
  if (p =? "")%string then "."
  else match last (filter (fun q => q <> "") (Split p "/")) with Some q => q | None => "/" end.

(** ** Parsing a line *)

Definition octal_digit (c : ascii) : option Z :=
  match char_digit c with Some d => if d <? 8 then Some d else None | None => None end.

(** [strconv.ParseInt] of three bytes with base 8 and 8 bits. *)
Definition ParseInt_octal (a b c : ascii) : option Z :=
  match octal_digit b, octal_digit c with
  | Some y, Some z =>
      if Ascii.eqb a "+" then Some (8 * y + z)
      else if Ascii.eqb a "-" then Some (- (8 * y + z))
      else match octal_digit a with
           | Some x => let v := 64 * x + 8 * y + z in if v <? 128 then Some v else None
           | None => None
           end
  | _, _ => None
  end.

(** [uint8(parsed)] as a byte. *)
Definition byte_of (z : Z) : ascii := ascii_of_nat (Z.to_nat (z `mod` 256)).

Fixpoint unescapeString (str : string) : string :=
  match str with
  | String b ((String x (String y (String z rest))) as str') =>
      match (if Ascii.eqb b "\" then ParseInt_octal x y z else None) with
      | Some parsed => String (byte_of parsed) (unescapeString rest)
      | None => String b (unescapeString str')
      end
  | String b str' => String b (unescapeString str')
  | EmptyString => ""
  end.

(** The digits at the front, and what follows. *)
Fixpoint scan_digits (acc : Z) (s : string) : Z * string :=
  match s with
  | String c s' => match char_digit c with Some d => scan_digits (10 * acc + d) s' | None => (acc, s) end
  | EmptyString => (acc, "")
  end.

(** The verb [%d] of [Sscanf] for an [uint32]. *)
Definition scan_uint32 (s : string) : option (Z * string) :=
  match trim_left s with
  | String c s' =>
      match char_digit c with
      | Some d => let '(v, rest) := scan_digits d s' in if v <? 2 ^ 32 then Some (v, rest) else None
      | None => None
      end
  | EmptyString => None
  end.

Section Mounts.
Context {ME : MountEnv}.

Definition newDeviceNumberFromString (str : string) : result Z :=
  match scan_uint32 str with
  | Some (major, String ":" rest) =>
      match scan_uint32 rest with
      | Some (minor, _) => Ok (unix_Mkdev major minor)
      | None => Err "invalid device number string"
      end
  | _ => Err "invalid device number string"
  end.

(** [DeviceNumber.String]. *)
Definition device_string (num : Z) : string := Itoa (unix_Major num) +:+ ":" +:+ Itoa (unix_Minor num).

Definition getDeviceName (num : Z) : string :=
  match m_Readlink ("/sys/dev/block/" +:+ device_string num) with
  | Ok target => path_Join [(if m_InHostNamespace then "/dev" else path_Join [RootFS; "/dev"]); filepath_Base target]
  | Err _ => ""
  end.

(** The position of the separator after the optional fields. *)
Fixpoint dash_position (n : nat) (fields : list string) : option nat :=
  match fields with
  | [] => None
  | f :: fields' => if (f =? "-")%string then Some n else dash_position (S n) fields'
  end.

Definition field (fields : list string) (n : nat) : string := nth n fields "".

Definition parseMountInfoLine (line : string) : option Mount :=
  let fields := Split line " " in
  if (length fields <? 10)%nat then None
  else
    match dash_position 6 (drop 6 fields) with
    | None => None
    | Some n =>
        if (length fields <=? n + 3)%nat then None
        else
          match newDeviceNumberFromString (field fields 2) with
          | Err _ => None
          | Ok num =>
              Some (mkMount (unescapeString (field fields 4)) (unescapeString (field fields (n + 1))) (getDeviceName num) num
                      (unescapeString (field fields 3)) (existsb (fun opt => (opt =? "ro")%string) (Split (field fields 5) ","))
                      (field fields (length fields - 1)))
          end
    end.
End Mounts.

(** ** The main mount of a file system *)

(** The loop that looks for the parent of a mount: the nearest path above that
    is mounted too. *)
Fixpoint findParent (fuel : nat) (mounted : gset string) (path : string) : option (option string) :=
  match fuel with
  | O => None
  | S f =>
      if (path =? "/")%string then Some None
      else let path' := filepath_Dir path in
           if bool_decide (path' ∈ mounted) then Some (Some path') else findParent f mounted path'
  end.

(** The loop that looks for a mounted subtree above. *)
Fixpoint containedLoop (fuel : nat) (allSubtrees : gset string) (t : string) : option bool :=
  match fuel with
  | O => None
  | S f =>
      if (t =? "/")%string then Some false
      else let t' := filepath_Dir t in
           if bool_decide (t' ∈ allSubtrees) then Some true else containedLoop f allSubtrees t'
  end.

Section Main.
Context {ME : MountEnv} {RO : RangeOrder} (fuel : nat).

(** The parents of the nodes, in the order in which they are found; a node
    without one is a root. *)
Fixpoint parentLoop (mounted : gset string) (paths : list string) : option (list (string * option string)) :=
  match paths with
  | [] => Some []
  | p :: paths' =>
      parent ← findParent fuel mounted p;
      rest ← parentLoop mounted paths';
      Some ((p, parent) :: rest)
  end.

Definition childrenOf (parents : list (string * option string)) (path : string) : list string :=
  omap (fun '(p, parent) => if bool_decide (parent = Some path) then Some p else None) parents.

Fixpoint uncontainedLoop (allSubtrees : gset string) (subtrees : list string) : option (gset string) :=
  match subtrees with
  | [] => Some ∅
  | s :: subtrees' =>
      match containedLoop fuel allSubtrees s with
      | None => None
      | Some contained => rest ← uncontainedLoop allSubtrees subtrees'; Some (if contained then rest else {[s]} ∪ rest)
      end
  end.

(** The depth of the recursion is bounded by the fuel [n]. *)
Fixpoint addUncontainedSubtreesRecursive (n : nat) (mounts : gmap string Mount) (parents : list (string * option string))
    (allUncontained dst : gset string) (path : string) : option (gset string) :=
  match n with
  | O => None
  | S n' =>
      let dst' := match mounts !! path with
                  | Some m => if bool_decide (Subtree m ∈ allUncontained) then {[Subtree m]} ∪ dst else dst
                  | None => dst
                  end in
      fold_left (fun (acc : option (gset string)) child => d ← acc; addUncontainedSubtreesRecursive n' mounts parents allUncontained d child)
        (childrenOf parents path) (Some dst')
  end.

(** The loop over the nodes; [main] is [mainMount]. *)
Fixpoint mainLoop (mounts : gmap string Mount) (parents : list (string * option string)) (allUncontained : gset string)
    (nodes : list (string * Mount)) (main : option Mount) : option (option Mount) :=
  match nodes with
  | [] => Some main
  | (path, mnt) :: nodes' =>
      let continue := mainLoop mounts parents allUncontained nodes' in
      if bool_decide ((path, None) ∈ parents) then
        match addUncontainedSubtreesRecursive fuel mounts parents allUncontained ∅ path with
        | None => None
        | Some found =>
        if negb (size found =? size allUncontained)%nat then continue main
        else
          match main with
          | Some m =>
              if negb (Subtree m =? Subtree mnt)%string then
                if m_InHostNamespace then Some None
                else continue (if HasPrefix (Path mnt) RootFS then Some mnt else main)
              else continue (if ReadOnly m then Some mnt else main)
          | None => continue (Some mnt)
          end
        end
      else continue main
  end.

(** [None] when a loop does not end within the fuel. *)
Definition findMainMount (filesystemMounts : list Mount) : option (option Mount) :=
  let mountsByPath : gmap string Mount := fold_left (fun m mnt => <[Path mnt := mnt]> m) filesystemMounts ∅ in
  let allSubtrees : gset string := list_to_set (map Subtree filesystemMounts) in
  parents ← parentLoop (dom mountsByPath) (range_map "parents" mountsByPath).*1;
  allUncontained ← uncontainedLoop allSubtrees (range_map "subtrees" (gset_to_gmap tt allSubtrees)).*1;
  mainLoop mountsByPath parents allUncontained (range_map "main" mountsByPath) None.

(** ** The table of mounts *)

(** The mounts by path: a later line overrides the earlier ones. *)
Definition addLine (m : gmap string Mount) (line : string) : gmap string Mount :=
  match parseMountInfoLine line with
  | None => m
  | Some mnt => if m_isDir (Path mnt) then <[Path mnt := mnt]> m else m
  end.

(** The mounts of every device, in the order in which they are visited. *)
Definition groupByDevice (l : list Mount) : gmap Z (list Mount) :=
  fold_left (fun m mnt => <[DeviceNumber mnt := default [] (m !! DeviceNumber mnt) ++ [mnt]]> m) l ∅.

(** The loop over the devices. *)
Fixpoint deviceLoop (l : list (Z * list Mount)) (mountsByDevice : gmap Z (option Mount)) : option (gmap Z (option Mount)) :=
  match l with
  | [] => Some mountsByDevice
  | (num, ms) :: l' => main ← findMainMount ms; deviceLoop l' (<[num := main]> mountsByDevice)
  end.

Definition readMountInfo (lines : list string) : option (gmap Z (option Mount)) :=
  let mountsByPath := fold_left addLine lines ∅ in
  let allMountsByDevice := groupByDevice (map snd (range_map "byPath" mountsByPath)) in
  deviceLoop (map_to_list allMountsByDevice) ∅.

(** The variables of the package: the table once it is initialised. *)
Definition mounts_state : Type := option (gmap Z (option Mount)).

(** [proc] is what the file holds now, or the error of opening it; it is read
    only once. *)
Definition loadMountInfo (proc : result (list string)) (s : mounts_state) : option (result (gmap Z (option Mount)) * mounts_state) :=
  match s with
  | Some table => Some (Ok table, s)
  | None =>
      match proc with
      | Err e => Some (Err e, s)
      | Ok lines => table ← readMountInfo lines; Some (Ok table, Some table)
      end
  end.

Definition FindMount (proc : result (list string)) (path : string) (s : mounts_state) : option (result Mount * mounts_state) :=
  match loadMountInfo proc s with
  | None => None
  | Some (Err e, s') => Some (Err e, s')
  | Some (Ok table, s') =>
      Some (match m_Lstat path with
            | Err e => Err e
            | Ok num =>
                match table !! num with
                | None => Err "couldn't find mountpoint"
                | Some None => Err ("nil mount point for device " +:+ device_string num)
                | Some (Some mnt) => Ok mnt
                end
            end, s')
  end.
End Main.

(** ** Paths *)

(** The clean absolute path with the given parts. *)
Definition abs (ps : list string) : string := String "/" (Join ps "/").

Lemma Contains_free c s : string_free c s -> Contains s (String c "") = false.
Proof.
  induction s as [|d s IH]; cbn [Contains string_free]; [done|]. intros [Hd Hs]. rewrite IH by done.
  cbn [String.prefix]. destruct (Ascii.ascii_dec c d) as [->|]; [done|]. done.
Qed.

Lemma Contains_mid c a b : Contains (a +:+ String c b) (String c "") = true.
Proof.
  induction a as [|d a IH].
  - change ("" +:+ String c b) with (String c b). cbn [Contains String.prefix]. destruct (Ascii.ascii_dec c c); [|done]. by destruct b.
  - change (String d a +:+ String c b) with (String d (a +:+ String c b)). cbn [Contains]. rewrite IH. apply orb_true_r.
Qed.

Lemma upto_slash_free p : string_free "/" p -> upto_slash p = "".
Proof.
  destruct p as [|c p]; [done|]. intros [Hc Hp]. cbn [upto_slash]. rewrite (Contains_free "/" p Hp).
  by destruct (Ascii.eqb_spec c "/").
Qed.

Lemma upto_slash_app a q : string_free "/" q -> upto_slash (a +:+ String "/" q) = a +:+ "/".
Proof.
  intros Hq. induction a as [|d a IH].
  - change ("" +:+ String "/" q) with (String "/" q). cbn [upto_slash]. by rewrite upto_slash_free.
  - change (String d a +:+ String "/" q) with (String d (a +:+ String "/" q)). cbn [upto_slash]. by rewrite Contains_mid, orb_true_r, IH.
Qed.

Lemma Join_snoc l x c : l <> [] -> Join (l ++ [x]) (String c "") = Join l (String c "") +:+ String c x.
Proof.
  induction l as [|y l IH]; [done|]. intros _. destruct l as [|z l]; [done|]. specialize (IH ltac:(done)).
  cbn [app Join] in *. rewrite IH. by rewrite !string_app_assoc.
Qed.

Lemma Split_not_nil s c : Split s c <> [].
Proof. destruct s as [|d s]; cbn [Split]; [done|]. destruct (Ascii.eqb d c); [done|]. by destruct (Split s c). Qed.

Lemma Split_end s c : Split (s +:+ String c "") c = Split s c ++ [""].
Proof.
  induction s as [|d s IH]; [change ("" +:+ String c "") with (String c ""); cbn [Split]; by rewrite Ascii.eqb_refl|].
  change (String d s +:+ String c "") with (String d (s +:+ String c "")). cbn [Split].
  destruct (Ascii.eqb d c); [by rewrite IH|]. rewrite IH. pose proof (Split_not_nil s c) as Hn. by destruct (Split s c).
Qed.

Lemma abs_snoc qs q : abs (qs ++ [q]) = (match qs with [] => "" | _ => abs qs end) +:+ String "/" q.
Proof. destruct qs as [|x qs]; [done|]. unfold abs. rewrite (Join_snoc (x :: qs)) by done. done. Qed.

Lemma Split_abs ps : Forall clean_part ps -> Split (abs ps) "/" = "" :: match ps with [] => [""] | _ => ps end.
Proof.
  intros Hp. unfold abs. cbn [Split]. rewrite Ascii.eqb_refl. f_equal. destruct ps as [|p ps]; [done|].
  apply Split_Join; [done|]. eapply Forall_impl; [exact Hp|]. by intros x (_ & _ & _ & H).
Qed.

Lemma abs_inj ps qs : Forall clean_part ps -> Forall clean_part qs -> abs ps = abs qs -> ps = qs.
Proof.
  intros Hp Hq E. pose proof (Split_abs ps Hp) as H1. rewrite E, (Split_abs qs Hq) in H1. injection H1 as H1.
  assert (Hne : ~ Forall clean_part [""]) by (rewrite Forall_singleton; by intros [? _]).
  destruct ps, qs; try done; congruence.
Qed.

Lemma filepath_Clean_slash s :
  filepath_Clean (String "/" s) = abs (fold_left path_clean_step (Split (String "/" s) "/") []).
Proof. unfold filepath_Clean, HasPrefix, abs. cbn [String.eqb]. replace (String.prefix "/" (String "/" s)) with true by (by destruct s). done. Qed.

(** The parent of a clean path. *)
Lemma filepath_Dir_abs qs q : Forall clean_part (qs ++ [q]) -> filepath_Dir (abs (qs ++ [q])) = abs qs.
Proof.
  intros [Hqs Hq]%Forall_app. inversion Hq as [|? ? (_ & _ & _ & Hf) _]; subst. unfold filepath_Dir. rewrite abs_snoc, upto_slash_app by done.
  destruct qs as [|x qs]; [done|]. change (abs (x :: qs) +:+ "/") with (String "/" (Join (x :: qs) "/" +:+ "/")). rewrite filepath_Clean_slash. f_equal.
  change (String "/" (Join (x :: qs) "/" +:+ "/")) with (abs (x :: qs) +:+ "/"). rewrite Split_end, Split_abs by done.
  rewrite fold_left_app. change (fold_left path_clean_step ("" :: x :: qs) []) with (fold_left path_clean_step (x :: qs) []).
  by rewrite (path_clean_id (x :: qs)) by done.
Qed.

Lemma abs_root ps : Forall clean_part ps -> abs ps = "/" -> ps = [].
Proof. intros Hp E. by apply (abs_inj ps []). Qed.

(** A directory above a path. *)
Definition above (a p : string) : Prop := exists ps k, Forall clean_part ps /\ p = abs ps /\ (k < length ps)%nat /\ a = abs (take k ps).
Definition under (a p : string) : Prop := a = p \/ above a p.
Definition clean_path (fuel : nat) (p : string) : Prop := exists ps, Forall clean_part ps /\ p = abs ps /\ (length ps < fuel)%nat.

Lemma above_trans a b c : above a b -> above b c -> above a c.
Proof.
  intros (ps & k & Hp & -> & Hk & ->) (qs & j & Hq & -> & Hj & E).
  apply abs_inj in E as ->; [|done|by apply Forall_take]. rewrite length_take in Hk.
  exists qs, k. split_and!; [done..|lia|]. f_equal. rewrite take_take. f_equal. lia.
Qed.

Lemma above_linear a b c : above a c -> above b c -> above a b \/ a = b \/ above b a.
Proof.
  intros (ps & k & Hp & -> & Hk & ->) (qs & j & Hq & E & Hj & ->). apply abs_inj in E as <-; [|done..].
  destruct (Nat.lt_trichotomy k j) as [H|[->|H]]; [left|by right; left|right; right].
  - exists (take j ps), k. split_and!; [by apply Forall_take|done|rewrite length_take; lia|]. f_equal. rewrite take_take. f_equal. lia.
  - exists (take k ps), j. split_and!; [by apply Forall_take|done|rewrite length_take; lia|]. f_equal. rewrite take_take. f_equal. lia.
Qed.

(** ** The loops end *)

Lemma clean_rev_ind (P : list string -> Prop) :
  P [] -> (forall q qs, Forall clean_part (qs ++ [q]) -> P qs -> P (qs ++ [q])) -> forall ps, Forall clean_part ps -> P ps.
Proof.
  intros H0 Hs ps. induction ps as [|q qs IH] using rev_ind; [done|]. intros H. apply Hs; [done|]. apply IH. by apply Forall_app in H as [H _].
Qed.

Lemma abs_snoc_root qs q : Forall clean_part (qs ++ [q]) -> (abs (qs ++ [q]) =? "/")%string = false.
Proof. intros H. destruct (String.eqb_spec (abs (qs ++ [q])) "/") as [E|]; [|done]. apply abs_root in E; [|done]. by destruct qs. Qed.

(** The search finds the nearest path above that is mounted. *)
Lemma findParent_abs mounted ps fuel :
  Forall clean_part ps -> (length ps < fuel)%nat ->
  exists r, findParent fuel mounted (abs ps) = Some r /\
  match r with
  | None => forall k, (k < length ps)%nat -> abs (take k ps) ∉ mounted
  | Some p => exists k, (k < length ps)%nat /\ p = abs (take k ps) /\ p ∈ mounted /\
      forall j, (k < j < length ps)%nat -> abs (take j ps) ∉ mounted
  end.
Proof.
  intros Hp. revert fuel. pattern ps. apply clean_rev_ind; [| |done]; clear ps Hp.
  - intros [|f] Hf; [cbn in Hf; lia|]. exists None. split; [done|]. cbn. lia.
  - intros q qs Hq IH [|f] Hf; [lia|]. rewrite length_app in *. cbn [length] in *. cbn [findParent].
    rewrite abs_snoc_root, filepath_Dir_abs by done. case_bool_decide as Hm.
    + eexists. split; [done|]. exists (length qs). rewrite take_app_length. split_and!; [lia|done..|]. intros j Hj. lia.
    + destruct (IH f ltac:(lia)) as (r & -> & Hr). exists r. split; [done|]. destruct r as [p|].
      * destruct Hr as (k & Hk & -> & Hin & Hj). exists k. rewrite take_app_le by lia. split_and!; [lia|done..|].
        intros j [H1 H2]. destruct (decide (j = length qs)) as [->|]; [by rewrite take_app_length|]. rewrite take_app_le by lia. apply Hj. lia.
      * intros k Hk. destruct (decide (k = length qs)) as [->|]; [by rewrite take_app_length|]. rewrite take_app_le by lia. apply Hr. lia.
Qed.

Lemma findParent_clean mounted p fuel :
  clean_path fuel p ->
  exists r, findParent fuel mounted p = Some r /\
  match r with
  | None => forall a, above a p -> a ∉ mounted
  | Some a => above a p /\ a ∈ mounted /\ forall b, above b p -> b ∈ mounted -> under b a
  end.
Proof.
  intros (ps & Hp & -> & Hf). destruct (findParent_abs mounted ps fuel Hp Hf) as (r & E & Hr). exists r. split; [done|].
  destruct r as [a|].
  - destruct Hr as (k & Hk & -> & Hin & Hj). split; [by exists ps, k|]. split; [done|].
    intros b (qs & j & Hq & E' & Hjl & ->) Hb. apply abs_inj in E' as <-; [|done..].
    destruct (Nat.lt_trichotomy j k) as [H|[->|H]]; [|by left|by destruct (Hj j)].
    right. exists (take k ps), j. split_and!; [by apply Forall_take|done|rewrite length_take; lia|]. f_equal. rewrite take_take. f_equal. lia.
  - intros a (qs & j & Hq & E' & Hjl & ->). apply abs_inj in E' as <-; [|done..]. by apply Hr.
Qed.

(** The search for a containing subtree is the same loop. *)
Lemma containedLoop_findParent fuel subs t :
  containedLoop fuel subs t = option_map (fun r => bool_decide (is_Some r)) (findParent fuel subs t).
Proof.
  revert t. induction fuel as [|f IH]; intros t; [done|]. cbn [containedLoop findParent].
  destruct (t =? "/")%string; [done|]. by case_bool_decide.
Qed.

(** The search for a containing subtree never ends on a subtree that is not
    a path, such as that of a namespace, when no relative one is mounted: no fuel is enough. *)
Theorem relative_subtree_loops fuel subs t :
  string_free "/" t -> "." ∉ subs -> containedLoop fuel subs t = None.
Proof.
  revert t. induction fuel as [|f IH]; intros t Ht Hs; [done|]. cbn [containedLoop].
  destruct (String.eqb_spec t "/") as [->|]; [by destruct Ht|]. unfold filepath_Dir. rewrite upto_slash_free by done.
  change (filepath_Clean "") with ".". rewrite bool_decide_false by done. by apply IH.
Qed.

Section MainLemmas.
Context {ME : MountEnv} {RO : RangeOrder} (fuel : nat).

(** The declarative view: the mounted subtrees that no other contains, the
    mounts below no other, and those whose tree has all such subtrees. *)
Definition uncontained (subs : gset string) (s : string) : Prop := s ∈ subs /\ forall a, above a s -> a ∉ subs.
Definition root (mounts : gmap string Mount) (p : string) : Prop := forall a, above a p -> mounts !! a = None.
Definition subtrees (mounts : gmap string Mount) : gset string := list_to_set (map (fun x : string * Mount => Subtree x.2) (map_to_list mounts)).
Definition in_tree (mounts : gmap string Mount) (p s : string) : Prop := exists q m, mounts !! q = Some m /\ under p q /\ Subtree m = s.
Definition candidate (mounts : gmap string Mount) (m : Mount) : Prop :=
  exists p, mounts !! p = Some m /\ root mounts p /\ forall s, uncontained (subtrees mounts) s -> in_tree mounts p s.

Definition clean_mounts (mounts : gmap string Mount) : Prop :=
  forall p m, mounts !! p = Some m -> clean_path fuel p /\ clean_path fuel (Subtree m).

Lemma elem_of_subtrees mounts s : s ∈ subtrees mounts <-> exists q m, mounts !! q = Some m /\ Subtree m = s.
Proof.
  unfold subtrees. rewrite elem_of_list_to_set, list_elem_of_fmap. split.
  - intros ([q m] & -> & H). apply elem_of_map_to_list in H. by exists q, m.
  - intros (q & m & H & <-). exists (q, m). split; [done|]. by apply elem_of_map_to_list.
Qed.

Lemma uncontainedLoop_spec subs l :
  (forall s, s ∈ l -> clean_path fuel s) ->
  exists unc, uncontainedLoop fuel subs l = Some unc /\ forall s, s ∈ unc <-> s ∈ l /\ forall a, above a s -> a ∉ subs.
Proof.
  induction l as [|s l IH]; intros Hl; cbn [uncontainedLoop]; [exists ∅; split; [done|]; set_solver|].
  destruct (findParent_clean subs s fuel ltac:(apply Hl; by left)) as (r & E & Hr).
  rewrite containedLoop_findParent, E. cbn [option_map]. destruct IH as (unc & -> & Hu); [intros; apply Hl; by right|].
  cbn. eexists. split; [done|]. intros s'. destruct r as [a|].
  - rewrite bool_decide_true by done. rewrite Hu, elem_of_cons. split; [tauto|]. intros [[->|H] Ha]; [|tauto].
    destruct Hr as (H1 & H2 & _). by destruct (Ha a).
  - rewrite bool_decide_false by (by intros [? ?]). rewrite elem_of_union, elem_of_singleton, Hu, elem_of_cons. split; [|tauto].
    intros [->|H]; [split; [by left|done]|tauto].
Qed.

Lemma parentLoop_spec mounted l :
  (forall p, p ∈ l -> clean_path fuel p) ->
  exists parents, parentLoop fuel mounted l = Some parents /\
    forall p r, (p, r) ∈ parents <-> p ∈ l /\ findParent fuel mounted p = Some r.
Proof.
  induction l as [|p l IH]; intros Hl; cbn [parentLoop].
  { exists []. split; [done|]. intros p r. split; [intros H; inversion H|intros [H _]; inversion H]. }
  destruct (findParent_clean mounted p fuel ltac:(apply Hl; by left)) as (r & E & _). rewrite E.
  destruct IH as (rest & -> & Hr); [intros; apply Hl; by right|]. cbn. eexists. split; [done|]. intros p' r'.
  rewrite !elem_of_cons, Hr. split.
  - intros [[= -> ->]|[H1 H2]]; [split; [by left|done]|split; [by right|done]].
  - intros [[->|H1] H2]; [left; congruence|by right].
Qed.

(** *** The trees of mounts *)

Context (mounts : gmap string Mount) (parents : list (string * option string)).
Context (Hclean : clean_mounts mounts).
Context (Hparents : forall p r, (p, r) ∈ parents <-> p ∈ dom mounts /\ findParent fuel (dom mounts) p = Some r).

Lemma parent_above c p : (c, Some p) ∈ parents -> above p c /\ is_Some (mounts !! c).
Proof.
  intros [Hc E]%Hparents. apply elem_of_dom in Hc as [m Hm]. destruct (Hclean c m Hm) as [Hp _].
  apply (findParent_clean (dom mounts)) in Hp as (r & E' & Hr). rewrite E in E'. injection E' as <-. by destruct Hr.
Qed.

Lemma root_parents p m : mounts !! p = Some m -> (p, None) ∈ parents <-> root mounts p.
Proof.
  intros Hm. rewrite Hparents. destruct (Hclean p m Hm) as [Hp _]. apply (findParent_clean (dom mounts)) in Hp as (r & E & Hr). rewrite E.
  unfold root. split.
  - intros [_ [= ->]] a Ha. apply not_elem_of_dom. by apply Hr.
  - intros Ha. split; [by apply elem_of_dom_2 in Hm|]. destruct r as [a|]; [|done]. destruct Hr as (H1 & H2 & _). apply elem_of_dom in H2 as [? H2].
    by rewrite Ha in H2.
Qed.

Lemma under_trans a b c : under a b -> above b c -> under a c.
Proof. intros [->|H] Hb; right; [done|by eapply above_trans]. Qed.

Lemma under_children p q m : mounts !! p <> None -> mounts !! q = Some m ->
  under p q <-> p = q \/ exists c, (c, Some p) ∈ parents /\ under c q.
Proof.
  intros Hp Hq. split.
  - destruct (Hclean q m Hq) as [(qs & Hqs & -> & _) _]. revert m Hq. remember (length qs) as n eqn:En. revert qs Hqs En.
    induction (lt_wf n) as [n _ IH]. intros qs Hqs -> m Hq [->|Hab]; [by left|]. right.
    destruct (Hclean _ m Hq) as [Hc _]. destruct (findParent_clean (dom mounts) _ fuel Hc) as (r & E & Hr).
    destruct r as [a|].
    + destruct Hr as (Ha & Hin & Hnear). destruct (Hnear p Hab) as [->|Hpa]; [by apply elem_of_dom; destruct (mounts !! p)| |].
      * exists (abs qs). split; [|by left]. apply Hparents. split; [by apply elem_of_dom_2 in Hq|done].
      * assert (Hab' := Ha). destruct Ha as (qs' & k & Hqs' & E' & Hk & ->). apply abs_inj in E' as <-; [|done..].
        apply elem_of_dom in Hin as [ma Hma].
        assert (Hlt : (length (take k qs) < length qs)%nat) by (rewrite length_take; lia).
        destruct (IH _ Hlt (take k qs) ltac:(by apply Forall_take) eq_refl ma Hma) as [->|(c & Hpc & Hcu)]; [by right| |].
        -- exists (abs qs). split; [|by left]. apply Hparents. split; [by apply elem_of_dom_2 in Hq|done].
        -- exists c. split; [done|]. by eapply under_trans.
    + exfalso. apply (Hr p Hab). apply elem_of_dom. by destruct (mounts !! p).
  - intros [->|(c & [Hc _]%parent_above & Hu)]; [by left|]. right. destruct Hu as [->|Hu]; [done|]. by eapply above_trans.
Qed.

(** *** Collecting the subtrees of a tree *)

Context (unc : gset string).

Lemma elem_of_childrenOf c p : c ∈ childrenOf parents p <-> (c, Some p) ∈ parents.
Proof.
  unfold childrenOf. rewrite list_elem_of_omap. split.
  - intros ([q r] & Hin & H). case_bool_decide; [|done]. by simplify_eq.
  - intros H. exists (c, Some p). split; [done|]. by rewrite bool_decide_true.
Qed.

Lemma fold_collect (f : gset string -> string -> option (gset string)) (P : string -> string -> Prop) l d :
  (forall c d, c ∈ l -> exists d', f d c = Some d' /\ forall s, s ∈ d' <-> s ∈ d \/ P c s) ->
  exists d', fold_left (fun (acc : option (gset string)) c => d ← acc; f d c) l (Some d) = Some d' /\
    forall s, s ∈ d' <-> s ∈ d \/ exists c, c ∈ l /\ P c s.
Proof.
  revert d. induction l as [|c l IH]; intros d Hf; cbn [fold_left].
  { exists d. split; [done|]. intros s. split; [by left|]. intros [?|(c & H & _)]; [done|inversion H]. }
  destruct (Hf c d ltac:(by left)) as (d1 & E & H1). change (Some d ≫= (fun d => f d c)) with (f d c). rewrite E.
  destruct (IH d1) as (d2 & E2 & H2); [intros; apply Hf; by right|]. exists d2. split; [done|]. intros s. rewrite H2, H1.
  setoid_rewrite elem_of_cons. split.
  - intros [[?|?]|(c' & ? & ?)]; [by left|right; exists c; split; [by left|done]|right; exists c'; split; [by right|done]].
  - intros [?|(c' & [->|?] & ?)]; [by left; left|by left; right|right; by exists c'].
Qed.

Lemma addUncontained_spec n ps dst :
  Forall clean_part ps -> is_Some (mounts !! abs ps) -> (fuel <= length ps + n)%nat ->
  exists dst', addUncontainedSubtreesRecursive n mounts parents unc dst (abs ps) = Some dst' /\
    forall s, s ∈ dst' <-> s ∈ dst \/ (s ∈ unc /\ in_tree mounts (abs ps) s).
Proof.
  revert ps dst. induction n as [|n IH]; intros ps dst Hps [m Hm] Hn.
  { destruct (Hclean _ _ Hm) as [(qs & Hqs & E & Hl) _]. apply abs_inj in E as <-; [lia|done..]. }
  cbn [addUncontainedSubtreesRecursive]. rewrite Hm.
  set (dst1 := if bool_decide (Subtree m ∈ unc) then _ else _).
  assert (H1 : forall s, s ∈ dst1 <-> s ∈ dst \/ (s ∈ unc /\ s = Subtree m)).
  { intros s. unfold dst1. case_bool_decide; [rewrite elem_of_union, elem_of_singleton|]; naive_solver. }
  destruct (fold_collect (fun d c => addUncontainedSubtreesRecursive n mounts parents unc d c) (fun c s => s ∈ unc /\ in_tree mounts c s)
    (childrenOf parents (abs ps)) dst1) as (d' & E & Hd').
  - intros c d [Hab [mc Hmc]]%elem_of_childrenOf%parent_above. destruct (Hclean _ _ Hmc) as [(qs & Hqs & -> & _) _].
    apply (IH qs d Hqs); [done|]. destruct Hab as (qs' & k & Hqs' & E & Hk & E2). apply abs_inj in E as <-; [|done..].
    apply abs_inj in E2 as ->; [|done|by apply Forall_take]. rewrite length_take in Hn. lia.
  - exists d'. split; [exact E|]. intros s. rewrite Hd', H1. unfold in_tree. setoid_rewrite elem_of_childrenOf. split.
    + intros [[?|[? ->]]|(c & Hc & Hs & q & mq & Hq & Hu & <-)]; [by left|right; split; [done|by exists (abs ps), m; split_and!; [|left|]]|].
      right. split; [done|]. exists q, mq. split_and!; [done| |done]. eapply under_children; [by rewrite Hm|done|]. right. by exists c.
    + intros [?|(Hs & q & mq & Hq & Hu & <-)]; [by left; left|]. apply (under_children (abs ps) q mq ltac:(by rewrite Hm) Hq) in Hu as [<-|(c & Hc & Hu)].
      * left. right. split; [done|]. rewrite Hm in Hq. by injection Hq as ->.
      * right. exists c. split; [done|]. split; [done|]. by exists q, mq.
Qed.

(** The node is a root, and its tree has all uncontained subtrees. *)
Definition eligible (p : string) : Prop := root mounts p /\ forall s, s ∈ unc -> in_tree mounts p s.

Lemma collected_all p m :
  mounts !! p = Some m ->
  exists found, addUncontainedSubtreesRecursive fuel mounts parents unc ∅ p = Some found /\
    (size found = size unc <-> forall s, s ∈ unc -> in_tree mounts p s).
Proof.
  intros Hm. destruct (Hclean _ _ Hm) as [(ps & Hps & -> & _) _].
  destruct (addUncontained_spec fuel ps ∅ Hps ltac:(by eexists) ltac:(lia)) as (found & E & Hf). exists found. split; [done|].
  assert (Hsub : found ⊆ unc) by (intros s Hs; apply Hf in Hs as [Hs|[Hs _]]; [by apply not_elem_of_empty in Hs|done]). split.
  - intros Hsz s Hs. destruct (decide (s ∈ found)) as [Hin|Hn]; [apply Hf in Hin as [Hin|[_ Hin]]; [by apply not_elem_of_empty in Hin|done]|].
    assert (found ⊂ unc) as Hlt%subset_size by (split; [done|]; intros H; by apply Hn, H). lia.
  - intros Hall. f_equal. apply set_eq. intros s. split; [apply Hsub|]. intros Hs. apply Hf. right. by split; [|apply Hall].
Qed.
End MainLemmas.

(** The choice among the eligible mounts, in the order in which they are visited. *)
Fixpoint selectMain {ME : MountEnv} (l : list Mount) (main : option Mount) : option Mount :=
  match l with
  | [] => main
  | mnt :: l' =>
      match main with
      | Some m =>
          if negb (Subtree m =? Subtree mnt)%string then
            if m_InHostNamespace then None else selectMain l' (if HasPrefix (Path mnt) RootFS then Some mnt else main)
          else selectMain l' (if ReadOnly m then Some mnt else main)
      | None => selectMain l' (Some mnt)
      end
  end.

Section Select.
Context {ME : MountEnv}.

(** On the host, two subtrees are too many, and a writable mount comes first. *)
Lemma selectMain_host l m0 :
  m_InHostNamespace = true ->
  match selectMain l (Some m0) with
  | None => exists m, m ∈ l /\ Subtree m <> Subtree m0
  | Some m => m ∈ m0 :: l /\ (forall m', m' ∈ l -> Subtree m' = Subtree m0) /\ (ReadOnly m = true -> forall m', m' ∈ m0 :: l -> ReadOnly m' = true)
  end.
Proof.
  intros Hh. revert m0. induction l as [|m l IH]; intros m0; cbn [selectMain].
  { split_and!; [by left|intros m' H; inversion H|]. intros Hr m' Hm'. by apply list_elem_of_singleton in Hm' as ->. }
  rewrite Hh. destruct (String.eqb_spec (Subtree m0) (Subtree m)) as [Es|Es]; cbn [negb]; [|by exists m; split; [left|]].
  destruct (ReadOnly m0) eqn:Er.
  - specialize (IH m). destruct (selectMain l (Some m)) as [r|].
    + destruct IH as (H1 & H2 & H3). split_and!; [by right| |].
      * intros m' [->|Hm']%elem_of_cons; [done|]. rewrite Es. by apply H2.
      * intros Hr m' [->|Hm']%elem_of_cons; [done|]. by apply H3.
    + destruct IH as (m' & H1 & H2). exists m'. split; [by right|]. by rewrite Es.
  - specialize (IH m0). destruct (selectMain l (Some m0)) as [r|].
    + destruct IH as (H1 & H2 & H3). assert (Hrw : ReadOnly r = true -> False) by (intros Hr; specialize (H3 Hr m0 ltac:(by left)); congruence).
      split_and!; [|intros m' [->|Hm']%elem_of_cons; [done|by apply H2]|by intros Hr%Hrw].
      apply elem_of_cons in H1 as [->|H1]; [by left|by right; right].
    + destruct IH as (m' & H1 & H2). exists m'. split; [by right|done].
Qed.

(** In a container one of the eligible mounts is always chosen. *)
Lemma selectMain_container l main :
  m_InHostNamespace = false ->
  match selectMain l main with None => l = [] /\ main = None | Some m => m ∈ l \/ main = Some m end.
Proof.
  intros Hc. revert main. induction l as [|m l IH]; intros main; cbn [selectMain]; [destruct main; [by right|done]|].
  rewrite Hc. destruct main as [m0|]; [destruct (negb _); [destruct (HasPrefix _ _)|destruct (ReadOnly m0)]|].
  all: match goal with |- context [selectMain ?l0 ?x] => specialize (IH x); destruct (selectMain l0 x) as [r|] end.
  all: first [destruct IH as [IH|IH]|destruct IH as [_ IH]]; simplify_eq; try (by left; right); try (by left; left); try (by right); done.
Qed.
End Select.

(** ** The main mount, over the mounts of a file system

    A candidate is a mount below no other mount of its file system, in
    whose tree every subtree is mounted that no other subtree contains. *)

Definition main_candidate (fs : Mount -> Prop) (m : Mount) : Prop :=
  fs m /\ (forall m', fs m' -> ~ above (Path m') (Path m)) /\
  forall m1, fs m1 -> (forall m2, fs m2 -> ~ above (Subtree m2) (Subtree m1)) ->
    exists m', fs m' /\ under (Path m) (Path m') /\ Subtree m' = Subtree m1.

(** What the main mount of a file system is. *)
Definition main_mount {ME : MountEnv} (fs : Mount -> Prop) (r : option Mount) : Prop :=
  if m_InHostNamespace then
    match r with
    | None => (forall m, ~ main_candidate fs m) \/
        exists m1 m2, main_candidate fs m1 /\ main_candidate fs m2 /\ Subtree m1 <> Subtree m2
    | Some m => main_candidate fs m /\ (forall m', main_candidate fs m' -> Subtree m' = Subtree m) /\
        (ReadOnly m = true -> forall m', main_candidate fs m' -> ReadOnly m' = true)
    end
  else match r with
       | None => forall m, ~ main_candidate fs m
       | Some m => main_candidate fs m
       end.

Lemma main_candidate_ext fs fs' m : (forall m, fs m <-> fs' m) -> main_candidate fs m <-> main_candidate fs' m.
Proof. intros H. unfold main_candidate. by setoid_rewrite H. Qed.

Lemma main_mount_ext {ME : MountEnv} fs fs' r : (forall m, fs m <-> fs' m) -> main_mount fs r -> main_mount fs' r.
Proof.
  intros H. assert (Hc : forall m, main_candidate fs m <-> main_candidate fs' m) by (intros m; by apply main_candidate_ext).
  unfold main_mount. destruct m_InHostNamespace, r; by setoid_rewrite Hc.
Qed.

Section MainMount.
Context {ME : MountEnv} {RO : RangeOrder} (fuel : nat).

Lemma mainLoop_select mounts parents unc l main :
  clean_mounts fuel mounts ->
  (forall p r, (p, r) ∈ parents <-> p ∈ dom mounts /\ findParent fuel (dom mounts) p = Some r) ->
  (forall p m, (p, m) ∈ l -> mounts !! p = Some m) ->
  exists es, mainLoop fuel mounts parents unc l main = Some (selectMain es main) /\
    forall m, m ∈ es <-> exists p, (p, m) ∈ l /\ eligible mounts unc p.
Proof.
  intros Hc Hp. revert main. induction l as [|[p m] l IH]; intros main Hl.
  { exists []. split; [done|]. intros m. split; [intros H; inversion H|intros (p & H & _); inversion H]. }
  assert (Hm : mounts !! p = Some m) by (apply Hl; by left).
  assert (Hl' : forall p m, (p, m) ∈ l -> mounts !! p = Some m) by (intros; apply Hl; by right).
  pose proof (root_parents fuel mounts parents Hc Hp p m Hm) as Hroot.
  destruct (collected_all fuel mounts parents Hc Hp unc p m Hm) as (found & E & Hf). cbn [mainLoop].
  assert (Hskip : ~ eligible mounts unc p -> forall main, exists es, mainLoop fuel mounts parents unc l main = Some (selectMain es main) /\
    forall m', m' ∈ es <-> exists p', (p', m') ∈ (p, m) :: l /\ eligible mounts unc p').
  { intros Hne main'. destruct (IH main' Hl') as (es & E' & He). exists es. split; [done|]. intros m'. rewrite He. setoid_rewrite elem_of_cons.
    split; [intros (p' & ? & ?); exists p'; split; [by right|done]|]. intros (p' & [[= -> ->]|?] & ?); [done|by exists p']. }
  case_bool_decide as Hr; [|apply Hskip; intros [H _]; by apply Hr, Hroot].
  rewrite E. destruct (Nat.eqb_spec (size found) (size unc)) as [Hs|Hs]; cbn [negb]; [|apply Hskip; intros [_ H]; by apply Hs, Hf].
  assert (He : eligible mounts unc p) by (split; [by apply Hroot|by apply Hf]).
  assert (Hcons : forall main', exists es, mainLoop fuel mounts parents unc l main' = Some (selectMain es main') /\
    forall m', m' ∈ m :: es <-> exists p', (p', m') ∈ (p, m) :: l /\ eligible mounts unc p').
  { intros main'. destruct (IH main' Hl') as (es & E' & He'). exists es. split; [done|]. intros m'. setoid_rewrite elem_of_cons. rewrite He'.
    split; [intros [->|(p' & ? & ?)]; [exists p; split; [by left|done]|exists p'; split; [by right|done]]|].
    intros (p' & [[= -> ->]|?] & ?); [by left|right; by exists p']. }
  set (k := match main with Some m0 => if negb (Subtree m0 =? Subtree m)%string then if HasPrefix (Path m) RootFS then Some m else main
    else if ReadOnly m0 then Some m else main | None => Some m end).
  destruct (Hcons k) as (es & E' & He'). exists (m :: es). split; [|done]. cbn [selectMain]. unfold k in E'.
  destruct main as [m0|]; [|done]. destruct (negb _); [|done]. by destruct m_InHostNamespace.
Qed.

Lemma byPath_lookup l :
  NoDup (map Path l) ->
  forall p m, fold_left (fun m mnt => <[Path mnt := mnt]> m) l (∅ : gmap string Mount) !! p = Some m <-> m ∈ l /\ Path m = p.
Proof.
  induction l as [|x l IH] using rev_ind; intros Hnd p m.
  { cbn. rewrite lookup_empty. split; [done|]. intros [H _]. inversion H. }
  rewrite map_app in Hnd. apply NoDup_app in Hnd as (Hnd & Hx & _). rewrite fold_left_app. cbn [fold_left].
  rewrite lookup_insert_Some, IH, elem_of_app, list_elem_of_singleton by done. split.
  - intros [[<- ->]|(H1 & H2 & H3)]; [split; [by right|done]|split; [by left|done]].
  - intros [[H| ->] <-]; [|by left]. right. split; [|done]. intros E. apply (Hx (Path m)).
    + apply list_elem_of_fmap. by exists m.
    + rewrite <- E. by left.
Qed.

(** The eligible nodes are the candidates. *)
Lemma eligible_candidate (l : list Mount) (mounts : gmap string Mount) (subs unc : gset string) :
  (forall p m, mounts !! p = Some m <-> m ∈ l /\ Path m = p) ->
  (forall s, s ∈ subs <-> exists m, m ∈ l /\ Subtree m = s) ->
  (forall s, s ∈ unc <-> s ∈ subs /\ forall a, above a s -> a ∉ subs) ->
  forall m, m ∈ l /\ eligible mounts unc (Path m) <-> main_candidate (fun m => m ∈ l) m.
Proof.
  intros Hby Hsub Hu m. unfold main_candidate, eligible, root, in_tree. split.
  - intros (Hm & Hr & Ht). split; [done|]. split.
    + intros m' Hm' Ha. apply Hr in Ha. assert (mounts !! Path m' = Some m') by (by apply Hby). congruence.
    + intros m1 Hm1 Hun. destruct (Ht (Subtree m1)) as (q & m' & [Hm' <-]%Hby & H1 & H2); [|by exists m'].
      apply Hu. split; [apply Hsub; by exists m1|]. intros a Ha (m2 & Hm2 & <-)%Hsub. by apply (Hun m2).
  - intros (Hm & Hr & Ht). split; [done|]. split.
    + intros a Ha. destruct (mounts !! a) as [m'|] eqn:E; [|done]. apply Hby in E as [Hm' <-]. by destruct (Hr m').
    + intros s [Hs Hun]%Hu. apply Hsub in Hs as (m1 & Hm1 & <-). destruct (Ht m1 Hm1) as (m' & Hm' & H1 & H2).
      * intros m2 Hm2 Ha. apply (Hun _ Ha), Hsub. by exists m2.
      * exists (Path m'), m'. split; [by apply Hby|done].
Qed.

Lemma findMainMount_spec l :
  NoDup (map Path l) -> Forall (fun m => clean_path fuel (Path m) /\ clean_path fuel (Subtree m)) l ->
  exists r, findMainMount fuel l = Some r /\ main_mount (fun m => m ∈ l) r.
Proof.
  intros Hnd Hcl. rewrite Forall_forall in Hcl. unfold findMainMount. pose proof (byPath_lookup l Hnd) as Hby.
  set (mounts := fold_left _ l ∅) in *. set (subs := list_to_set (map Subtree l) : gset string).
  assert (Hc : clean_mounts fuel mounts) by (intros p m [Hm <-]%Hby; by apply Hcl).
  assert (Hsub : forall s, s ∈ subs <-> exists m, m ∈ l /\ Subtree m = s).
  { intros s. unfold subs. rewrite elem_of_list_to_set, list_elem_of_fmap. naive_solver. }
  destruct (parentLoop_spec fuel (dom mounts) (range_map "parents" mounts).*1) as (parents & -> & Hp).
  { intros p ([p' m] & -> & Hin%elem_of_range)%list_elem_of_fmap. by apply (Hc p' m). }
  assert (Hp' : forall p r, (p, r) ∈ parents <-> p ∈ dom mounts /\ findParent fuel (dom mounts) p = Some r).
  { intros p r. rewrite Hp, list_elem_of_fmap, elem_of_dom. split; intros [H1 H2]; split; try done.
    - destruct H1 as ([p' m] & -> & Hin%elem_of_range). by exists m.
    - destruct H1 as [m Hm]. exists (p, m). split; [done|]. by apply elem_of_range. }
  destruct (uncontainedLoop_spec fuel subs (range_map "subtrees" (gset_to_gmap tt subs)).*1) as (unc & Eu & Hu).
  { intros s Hs%elem_of_range_set. apply Hsub in Hs as (m & Hm & <-). by apply Hcl. }
  unfold mbind, option_bind. rewrite Eu.
  destruct (mainLoop_select mounts parents unc (range_map "main" mounts) None Hc Hp') as (es & -> & He).
  { intros p m Hin. by apply elem_of_range in Hin. }
  eexists. split; [done|]. assert (Hes : forall m, m ∈ es <-> main_candidate (fun m => m ∈ l) m).
  { intros m. rewrite He. rewrite <- (eligible_candidate l mounts subs unc Hby Hsub).
    - split.
      + intros (p & [Hm <-]%elem_of_range%Hby & E). by split.
      + intros [Hm E]. exists (Path m). split; [|done]. apply elem_of_range, Hby. by split.
    - intros s. by rewrite Hu, elem_of_range_set. }
  unfold main_mount. destruct m_InHostNamespace eqn:Eh.
  - destruct es as [|m0 es]; [left; intros m Hm%Hes; inversion Hm|]. cbn [selectMain].
    pose proof (selectMain_host es m0 Eh) as Hs. destruct (selectMain es (Some m0)) as [m|].
    + destruct Hs as (H1 & H2 & H3). split; [by apply Hes|]. split.
      * assert (Hsame : forall m', m' ∈ m0 :: es -> Subtree m' = Subtree m0) by (intros m' [->|Hm']%elem_of_cons; [done|by apply H2]).
        intros m' Hm'%Hes. by rewrite (Hsame m' Hm'), (Hsame m H1).
      * intros Hr m' Hm'%Hes. by apply H3.
    + right. destruct Hs as (m & H1 & H2). exists m, m0. split_and!; [apply Hes; by right|apply Hes; by left|done].
  - pose proof (selectMain_container es None Eh) as Hs. destruct (selectMain es None) as [m|].
    + destruct Hs as [Hs|]; [by apply Hes|done].
    + destruct Hs as [-> _]. intros m Hm%Hes. inversion Hm.
Qed.

(** C39: with enough fuel the search for the main mount ends, and its result is
    right in whatever order the maps are visited: on the host it is the mount
    below no other whose tree has everything that is mounted of the file
    system, a writable one if there is one, and there is none when no such mount exists or their
    subtrees differ; in a container it is such a mount, if there is one. *)
Theorem main_mount_correct l :
  NoDup (map Path l) -> Forall (fun m => clean_path fuel (Path m) /\ clean_path fuel (Subtree m)) l ->
  exists r, findMainMount fuel l = Some r /\ main_mount (fun m => m ∈ l) r.
Proof.
  apply findMainMount_spec.
Qed.
End MainMount.

(** ** The mount of a path *)

Section Table.
Context {ME : MountEnv} {RO : RangeOrder} (fuel : nat).

(** The mounts the lines leave: the last one for every path, if it is a directory. *)
Definition mounted (lines : list string) : gmap string Mount := fold_left addLine lines ∅.

(** The mounts of a device. *)
Definition on_device (lines : list string) (num : Z) (m : Mount) : Prop :=
  mounted lines !! Path m = Some m /\ DeviceNumber m = num.

Lemma mounted_path lines p m : mounted lines !! p = Some m -> Path m = p.
Proof.
  unfold mounted. revert p m. apply (fold_left_invariant addLine (fun b : gmap string Mount => forall p m, b !! p = Some m -> Path m = p) (fun _ => True)); [|by apply Forall_true|by intros p m; rewrite lookup_empty].
  intros b line _ Hb p m. unfold addLine. destruct (parseMountInfoLine line) as [mnt|]; [|apply Hb]. destruct (m_isDir _); [|apply Hb].
  rewrite lookup_insert_Some. intros [[<- <-]|[_ H]]; [done|by apply Hb].
Qed.

Lemma groupByDevice_lookup l num :
  groupByDevice l !! num = match filter (fun m => DeviceNumber m = num) l with [] => None | ms => Some ms end.
Proof.
  unfold groupByDevice. induction l as [|m l IH] using rev_ind; [done|].
  rewrite fold_left_app, filter_app, filter_cons, filter_nil. cbn [fold_left]. destruct (decide (DeviceNumber m = num)) as [<-|Hne].
  - rewrite lookup_insert_eq, IH. by destruct (filter _ l).
  - rewrite lookup_insert_ne, IH, app_nil_r by done. done.
Qed.

Lemma deviceLoop_lookup l acc :
  NoDup l.*1 -> (forall num ms, (num, ms) ∈ l -> exists r, findMainMount fuel ms = Some r) ->
  exists table, deviceLoop fuel l acc = Some table /\
    forall num, table !! num = match list_to_map (M := gmap Z (list Mount)) l !! num with Some ms => findMainMount fuel ms | None => acc !! num end.
Proof.
  revert acc. induction l as [|[num ms] l IH]; intros acc Hnd Hl; cbn [deviceLoop].
  { exists acc. split; [done|]. intros num. cbn [list_to_map foldr]. by rewrite lookup_empty. }
  apply NoDup_cons in Hnd as [Hx Hnd]. destruct (Hl num ms ltac:(by left)) as [r Hr]. rewrite Hr. cbn [mbind option_bind].
  destruct (IH (<[num := r]> acc) Hnd) as (table & E & Ht); [intros; eapply Hl; by right|]. exists table. split; [done|].
  intros k. rewrite Ht. cbn [list_to_map foldr uncurry]. destruct (decide (num = k)) as [->|Hne].
  - rewrite lookup_insert_eq. cbn [fst snd]. rewrite (proj1 (not_elem_of_list_to_map l k) Hx). by rewrite lookup_insert_eq.
  - by rewrite !lookup_insert_ne.
Qed.

Definition clean_table (lines : list string) : Prop :=
  forall p m, mounted lines !! p = Some m -> clean_path fuel (Path m) /\ clean_path fuel (Subtree m).

(** The table has the main mount of every device that is mounted. *)
Lemma readMountInfo_spec lines :
  clean_table lines ->
  exists table, readMountInfo fuel lines = Some table /\
    forall num, match table !! num with
                | Some r => main_mount (on_device lines num) r
                | None => forall m, ~ on_device lines num m
                end.
Proof.
  intros Hc. unfold readMountInfo. cbv zeta. fold (mounted lines). set (all := map snd (range_map "byPath" (mounted lines))).
  assert (Hall : forall m, m ∈ all <-> mounted lines !! Path m = Some m).
  { intros m. unfold all. rewrite list_elem_of_fmap. split.
    - intros ([p m'] & -> & Hin%elem_of_range). cbn. by rewrite (mounted_path _ _ _ Hin).
    - intros Hm. exists (Path m, m). split; [done|]. by apply elem_of_range. }
  assert (Hnd : NoDup (map Path all)).
  { unfold all. replace (map Path (map snd (range_map "byPath" (mounted lines)))) with (range_map "byPath" (mounted lines)).*1; [apply NoDup_fst_range|].
    rewrite map_map. apply map_ext_in. intros [p m] Hin%list_elem_of_In%elem_of_range. cbn. by rewrite (mounted_path _ _ _ Hin). }
  assert (Hms : forall num, exists r, findMainMount fuel (filter (fun m => DeviceNumber m = num) all) = Some r /\ main_mount (on_device lines num) r).
  { intros num. destruct (findMainMount_spec fuel (filter (fun m => DeviceNumber m = num) all)) as (r & E & Hr).
    - eapply sublist_NoDup; [exact Hnd|]. apply fmap_sublist, sublist_filter.
    - apply Forall_forall. intros m [_ Hm%Hall]%list_elem_of_filter. by apply (Hc (Path m)).
    - exists r. split; [done|]. eapply main_mount_ext; [|exact Hr]. intros m. rewrite list_elem_of_filter, Hall. unfold on_device. tauto. }
  destruct (deviceLoop_lookup (map_to_list (groupByDevice all)) ∅) as (table & E & Ht).
  { apply NoDup_fst_map_to_list. }
  { intros num ms Hin%elem_of_map_to_list. rewrite groupByDevice_lookup in Hin. destruct (Hms num) as (r & Hr & _).
    destruct (filter _ all) as [|m ms'] eqn:Ef; [done|]. injection Hin as <-. rewrite <- Ef. exists r. by rewrite Ef. }
  exists table. split; [done|]. intros num. rewrite Ht, list_to_map_to_list, groupByDevice_lookup.
  destruct (Hms num) as (r & Hr & Hmain). destruct (filter _ all) as [|m ms] eqn:Ef; [|by rewrite Hr].
  rewrite lookup_empty. intros m [Hm%Hall Hd]. assert (Hin : m ∈ filter (fun m => DeviceNumber m = num) all) by (by apply list_elem_of_filter). rewrite Ef in Hin. inversion Hin.
Qed.

(** The first call of [FindMount] ends with the main mount of the device of
    the path, over the mounts that the table leaves, and fails when there is no such mount; the later calls answer
    in the same way from this table, whatever is mounted by then. *)
Theorem found_mount_is_main lines path proc path' :
  clean_table lines ->
  exists r s, FindMount fuel (Ok lines) path None = Some (r, s) /\
    (exists r', FindMount fuel proc path' s = Some (r', s) /\
      forall m, r' = Ok m -> exists num, m_Lstat path' = Ok num /\ main_mount (on_device lines num) (Some m)) /\
    match m_Lstat path with
    | Err e => r = Err e
    | Ok num => match r with
                | Ok m => main_mount (on_device lines num) (Some m)
                | Err _ => main_mount (on_device lines num) None
                end
    end.
Proof.
  intros Hc. destruct (readMountInfo_spec lines Hc) as (table & E & Ht). unfold FindMount, loadMountInfo. rewrite E. cbn [mbind option_bind].
  do 2 eexists. split; [done|]. split.
  - eexists. split; [done|]. intros m Hm. destruct (m_Lstat path') as [num|]; [|done]. exists num. split; [done|]. specialize (Ht num).
    destruct (table !! num) as [[m'|]|]; [|done..]. by injection Hm as ->.
  - destruct (m_Lstat path) as [num|]; [|done]. specialize (Ht num). destruct (table !! num) as [[m|]|]; [done..|].
    assert (Hno : forall m, ~ main_candidate (on_device lines num) m) by (intros m [H _]; by apply (Ht m)).
    unfold main_mount. destruct m_InHostNamespace; [by left|done].
Qed.
End Table.

(** ** Parsing what the kernel prints

    The kernel escapes blanks and the backslash in a path as three octal digits. *)

Definition escaped (c : ascii) : option string :=
  if Ascii.eqb c " " then Some "\040"
  else if Ascii.eqb c "009" then Some "\011"
  else if Ascii.eqb c "010" then Some "\012"
  else if Ascii.eqb c "\" then Some "\134"
  else None.

Fixpoint mangle (s : string) : string :=
  match s with
  | EmptyString => ""
  | String c s' => match escaped c with Some e => e +:+ mangle s' | None => String c (mangle s') end
  end.

Lemma unescape_plain c s : c <> "\"%char -> unescapeString (String c s) = String c (unescapeString s).
Proof.
  intros Hc. destruct s as [|x [|y [|z s]]]; try done. cbn [unescapeString].
  by rewrite (proj2 (Ascii.eqb_neq c "\") Hc).
Qed.

Lemma unescape_mangle s : unescapeString (mangle s) = s.
Proof.
  induction s as [|c s IH]; [done|]. cbn [mangle]. unfold escaped.
  destruct (Ascii.eqb_spec c " ") as [->|_]; [change (String " " (unescapeString (mangle s)) = String " " s); by rewrite IH|].
  destruct (Ascii.eqb_spec c "009") as [->|_]; [change (String "009" (unescapeString (mangle s)) = String "009" s); by rewrite IH|].
  destruct (Ascii.eqb_spec c "010") as [->|_]; [change (String "010" (unescapeString (mangle s)) = String "010" s); by rewrite IH|].
  destruct (Ascii.eqb_spec c "\") as [->|Hc]; [change (String "\" (unescapeString (mangle s)) = String "\" s); by rewrite IH|].
  by rewrite unescape_plain, IH.
Qed.

Lemma mangle_free s : string_free " " (mangle s).
Proof.
  induction s as [|c s IH]; [done|]. cbn [mangle]. unfold escaped.
  destruct (Ascii.eqb_spec c " ") as [->|Hc]; [by repeat split|].
  destruct (Ascii.eqb_spec c "009"), (Ascii.eqb_spec c "010"), (Ascii.eqb_spec c "\"); by repeat split.
Qed.

(** Reading digits up to something else. *)
Lemma scan_digits_app acc s rest v :
  parse_digits acc s = Some v -> match rest with String c _ => char_digit c = None | EmptyString => True end ->
  scan_digits acc (s +:+ rest) = (v, rest).
Proof.
  revert acc. induction s as [|c s IH]; intros acc.
  - intros [= <-] Hr. change ("" +:+ rest) with rest. destruct rest as [|c rest]; cbn [scan_digits]; [done|]. by rewrite Hr.
  - cbn [parse_digits]. destruct (char_digit c) as [d|] eqn:E; [|done]. intros H Hr.
    change (String c s +:+ rest) with (String c (s +:+ rest)). cbn [scan_digits]. rewrite E. by apply IH.
Qed.

Lemma scan_uint32_Itoa n rest :
  in_uint32 n -> match rest with String c _ => char_digit c = None | EmptyString => True end ->
  scan_uint32 (Itoa n +:+ rest) = Some (n, rest).
Proof.
  intros [H0 H32] Hr. destruct (Itoa_cons n H0) as (d & s & Hd & E).
  assert (Hp : parse_nonempty (Itoa n) = Some n) by (unfold Itoa; destruct (Z.ltb_spec n 0); [lia|by apply parse_nonempty_print]).
  rewrite E in *. cbn [parse_nonempty parse_digits] in Hp. rewrite char_digit_char in Hp by done.
  change (String (digit_char d) s +:+ rest) with (String (digit_char d) (s +:+ rest)). unfold scan_uint32. cbn [trim_left].
  assert (Hsp : is_space (digit_char d) = false).
  { assert (Hcases : d = 0 \/ d = 1 \/ d = 2 \/ d = 3 \/ d = 4 \/ d = 5 \/ d = 6 \/ d = 7 \/ d = 8 \/ d = 9) by lia.
    repeat (destruct Hcases as [->|Hcases]; [done|]). by subst. }
  rewrite Hsp, char_digit_char by done. change (10 * 0 + d) with d in Hp.
  rewrite (scan_digits_app _ _ _ _ Hp Hr). by destruct (Z.ltb_spec n (2 ^ 32)); [|lia].
Qed.

(** A line of the table: the fields of proc(5). *)
Record mount_line := mkLine {
  ml_id : string;
  ml_parent : string;
  ml_major : Z;
  ml_minor : Z;
  ml_root : string;
  ml_point : string;
  ml_options : list string;
  ml_optional : list string;
  ml_fstype : string;
  ml_source : string;
  ml_super : string;
}.

Definition line_fields (l : mount_line) : list string :=
  [ml_id l; ml_parent l; Itoa (ml_major l) +:+ String ":" (Itoa (ml_minor l)); mangle (ml_root l); mangle (ml_point l); Join (ml_options l) ","] ++
  ml_optional l ++ ["-"; mangle (ml_fstype l); ml_source l; ml_super l].

Definition print_line (l : mount_line) : string := Join (line_fields l) " ".

Definition line_ok (l : mount_line) : Prop :=
  in_uint32 (ml_major l) /\ in_uint32 (ml_minor l) /\ ml_options l <> [] /\
  Forall (fun o => string_free "," o /\ string_free " " o) (ml_options l) /\
  Forall (fun f => f <> "-" /\ string_free " " f) (ml_optional l) /\
  Forall (string_free " ") [ml_id l; ml_parent l; ml_source l; ml_super l].

Lemma line_fields_free l : line_ok l -> Forall (string_free " ") (line_fields l).
Proof.
  intros (H1 & H2 & H3 & H4 & H5 & H6). rewrite !Forall_cons in H6. destruct H6 as (Hi & Hp & Hs & Hu & _). unfold line_fields.
  apply Forall_app. split.
  - rewrite !Forall_cons. split_and!; try done; try apply mangle_free.
    + apply string_free_app. split; [|split; [done|]]; (apply Itoa_nonneg_free; [by apply H1 || by apply H2|done]).
    + apply Join_free; [done|]. eapply Forall_impl; [exact H4|]. by intros o [_ Ho].
  - apply Forall_app. split; [eapply Forall_impl; [exact H5|]; by intros f [_ Hf]|].
    rewrite !Forall_cons. split_and!; try done; try apply mangle_free; constructor.
Qed.

Lemma dash_position_app n opt rest :
  Forall (fun f => f <> "-" /\ string_free " " f) opt -> dash_position n (opt ++ "-" :: rest) = Some (n + length opt)%nat.
Proof.
  intros Ho. revert n. induction Ho as [|f opt [Hf _] _ IH]; intros n; cbn [app dash_position length].
  - f_equal. cbn. lia.
  - rewrite (proj2 (String.eqb_neq f "-") Hf), IH. f_equal. lia.
Qed.

Section ParseRoundtrip.
Context {ME : MountEnv}.

(** Parsing a line as the kernel prints it, with any number of optional
    fields and blanks and backslashes in its paths, gives its device, paths, type, last
    field, and whether it is read-only. *)
Theorem mountinfo_roundtrip l :
  line_ok l ->
  let num := unix_Mkdev (ml_major l) (ml_minor l) in
  parseMountInfoLine (print_line l) =
    Some (mkMount (ml_point l) (ml_fstype l) (getDeviceName num) num (ml_root l) (bool_decide ("ro" ∈ ml_options l)) (ml_super l)).
Proof.
  intros Hok num. pose proof (line_fields_free l Hok) as Hfree. destruct Hok as (H1 & H2 & H3 & H4 & H5 & _).
  unfold parseMountInfoLine, print_line. cbv zeta. rewrite Split_Join; [|done|done].
  assert (Hlen : length (line_fields l) = (10 + length (ml_optional l))%nat) by (unfold line_fields; rewrite !length_app; cbn; lia).
  rewrite Hlen. destruct (Nat.ltb_spec (10 + length (ml_optional l)) 10); [lia|].
  change (drop 6 (line_fields l)) with (ml_optional l ++ "-" :: [mangle (ml_fstype l); ml_source l; ml_super l]).
  rewrite dash_position_app by done. destruct (Nat.leb_spec (10 + length (ml_optional l)) (6 + length (ml_optional l) + 3)); [lia|].
  change (field (line_fields l) 2) with (Itoa (ml_major l) +:+ String ":" (Itoa (ml_minor l))).
  unfold newDeviceNumberFromString. rewrite scan_uint32_Itoa by done.
  pose proof (scan_uint32_Itoa (ml_minor l) "" H2 I) as Hminor. rewrite string_app_nil_r in Hminor. rewrite Hminor.
  change (field (line_fields l) 4) with (mangle (ml_point l)). change (field (line_fields l) 3) with (mangle (ml_root l)).
  change (field (line_fields l) 5) with (Join (ml_options l) ",").
  rewrite Split_Join by (done || (eapply Forall_impl; [exact H4|]; by intros o [Ho _])).
  assert (Hfs : field (line_fields l) (6 + length (ml_optional l) + 1) = mangle (ml_fstype l)).
  { unfold field, line_fields. rewrite app_nth2 by (cbn; lia). rewrite app_nth2 by (cbn; lia).
    replace (_ - _ - _)%nat with 1%nat by (cbn; lia). done. }
  assert (Hsu : field (line_fields l) (10 + length (ml_optional l) - 1) = ml_super l).
  { unfold field, line_fields. rewrite app_nth2 by (cbn; lia). rewrite app_nth2 by (cbn; lia).
    replace (_ - _ - _)%nat with 3%nat by (cbn; lia). done. }
  rewrite Hfs, Hsu, !unescape_mangle. do 2 f_equal. apply eq_bool_prop_intro. rewrite bool_decide_spec, Is_true_true, existsb_exists.
  setoid_rewrite String.eqb_eq. rewrite list_elem_of_In. naive_solver.
Qed.
End ParseRoundtrip.

(** ** Witnesses *)

Definition ex_mounts_env (inHost : bool) : MountEnv := {|
  m_InHostNamespace := inHost; m_isDir := fun _ => true; m_Readlink := fun _ => Ok "../../devices/virtual/sdb1";
  m_Lstat := fun p => if HasPrefix p "/data" then Ok 2065 else Err "no such file";
  unix_Mkdev := fun major minor => 256 * major + minor; unix_Major := fun d => d `div` 256; unix_Minor := fun d => d `mod` 256 |}.

(** A disk mounted at two places, the second of which only has a directory of it and is read-only. *)
Definition ex_line : mount_line :=
  mkLine "36" "35" 8 17 "/" "/data disk" ["rw"; "noatime"] ["shared:1"; "master:2"] "xfs" "/dev/sdb1" "rw,prjquota".
Definition ex_bind : mount_line :=
  mkLine "40" "35" 8 17 "/pods/a" "/var/lib/a" ["ro"; "noatime"] [] "xfs" "/dev/sdb1" "rw,prjquota".

Definition ex_lines : list string := [print_line ex_line; print_line ex_bind].

Definition ex_mount : Mount := mkMount "/data disk" "xfs" "/dev/sdb1" 2065 "/" false "rw,prjquota".
Definition ex_bind_mount : Mount := mkMount "/var/lib/a" "xfs" "/dev/sdb1" 2065 "/pods/a" true "rw,prjquota".

Lemma mountinfo_roundtrip_witness :
  print_line ex_line = "36 35 8:17 / /data\040disk rw,noatime shared:1 master:2 - xfs /dev/sdb1 rw,prjquota" /\
  parseMountInfoLine (ME := ex_mounts_env true) (print_line ex_line) = Some ex_mount.
Proof.
  split; [reflexivity|]. rewrite (mountinfo_roundtrip (ME := ex_mounts_env true) ex_line); [vm_compute; reflexivity|].
  unfold line_ok, in_uint32, ex_line. cbn. repeat split; try discriminate; try lia; repeat constructor; done.
Defined.

Lemma ex_clean fuel : (4 <= fuel)%nat -> forall p, p ∈ ["/data disk"; "/var/lib/a"; "/"; "/pods/a"] -> clean_path fuel p.
Proof.
  intros Hf p Hp. repeat (apply elem_of_cons in Hp as [->|Hp]); [..|inversion Hp].
  1: exists ["data disk"]. 2: exists ["var"; "lib"; "a"]. 3: exists []. 4: exists ["pods"; "a"].
  all: split; [repeat constructor; done|split; [reflexivity|cbn; lia]].
Qed.

Lemma main_mount_correct_witness :
  findMainMount (ME := ex_mounts_env true) (RO := key_order) 9 [ex_bind_mount; ex_mount] = Some (Some ex_mount) /\
  main_mount (ME := ex_mounts_env true) (fun m => m ∈ [ex_bind_mount; ex_mount]) (Some ex_mount) /\
  main_mount (ME := ex_mounts_env true) (fun m => m ∈ [ex_bind_mount]) (Some ex_bind_mount).
Proof.
  assert (Hcl : forall l, l ⊆ [ex_bind_mount; ex_mount] -> Forall (fun m => clean_path 9 (Path m) /\ clean_path 9 (Subtree m)) l).
  { intros l Hl. apply Forall_forall. intros m Hm%Hl. repeat (apply elem_of_cons in Hm as [->|Hm]); [..|inversion Hm];
      split; apply (ex_clean 9 ltac:(lia)); repeat (by left) || right; try (by left); right; by left. }
  split; [vm_compute; reflexivity|]. split.
  - destruct (main_mount_correct (ME := ex_mounts_env true) (RO := key_order) 9 [ex_bind_mount; ex_mount]) as (r & E & Hr);
      [vm_compute; repeat constructor; set_solver|by apply Hcl|]. assert (Hx : Some r = Some (Some ex_mount)) by (rewrite <- E; vm_compute; reflexivity).
    injection Hx as ->. exact Hr.
  - destruct (main_mount_correct (ME := ex_mounts_env true) (RO := reverse_order) 9 [ex_bind_mount]) as (r & E & Hr);
      [vm_compute; repeat constructor; set_solver|apply Hcl; set_solver|]. assert (Hx : Some r = Some (Some ex_bind_mount)) by (rewrite <- E; vm_compute; reflexivity).
    injection Hx as ->. exact Hr.
Defined.

Lemma found_mount_is_main_witness :
  exists s, FindMount (ME := ex_mounts_env true) (RO := key_order) 9 (Ok ex_lines) "/data disk/x" None = Some (Ok ex_mount, s) /\
  main_mount (ME := ex_mounts_env true) (on_device (ME := ex_mounts_env true) ex_lines 2065) (Some ex_mount).
Proof.
  destruct (found_mount_is_main (ME := ex_mounts_env true) (RO := key_order) 9 ex_lines "/data disk/x" (Err "gone") "/data") as (r & s & E & _ & Hr).
  - intros p m Hm. assert (Hm' : (p, m) ∈ map_to_list (mounted (ME := ex_mounts_env true) ex_lines)) by (by apply elem_of_map_to_list).
    vm_compute in Hm'. repeat (apply elem_of_cons in Hm' as [[= -> ->]|Hm']); [..|inversion Hm'].
    all: split; apply (ex_clean 9 ltac:(lia)); cbn; set_solver.
  - exists s. assert (Hx : Some r = Some (Ok ex_mount)).
    { pose proof (f_equal (option_map fst) E) as Hx. change (option_map fst (Some (r, s))) with (Some r) in Hx. rewrite <- Hx. vm_compute. reflexivity. }
    injection Hx as ->. split; [exact E|]. exact Hr.
Defined.

(** With a subtree that is not a path the search does not end. *)
Lemma relative_subtree_loops_witness : forall fuel, containedLoop fuel {["mnt:[4026531840]"]} "mnt:[4026531840]" = None.
Proof. intros fuel. apply relative_subtree_loops; [by repeat split|set_solver]. Defined.

(** When two writable mounts show the whole file system, the order in which the map is visited decides. *)
Definition ex_second : Mount := mkMount "/mnt" "xfs" "/dev/sdb1" 2065 "/" false "rw,prjquota".

Example main_mount_order_dependent :
  findMainMount (ME := ex_mounts_env true) (RO := key_order) 9 [ex_mount; ex_second] <>
  findMainMount (ME := ex_mounts_env true) (RO := reverse_order) 9 [ex_mount; ex_second].
Proof. vm_compute. discriminate. Qed.
