(* ===== verification/NodeManager.v ===== *)
(** * The life of the node resource manager

    pkg/caelus/resource/resource.go with resource_checkpoint.go: the main loop with its channel of
    events, the calls of other modules, restarts of the process, and the timer that a restored
    checkpoint starts.  The checks and the rounds are those of Silence.v; the
    client is proved against the interface [NodeClient], which the Kubernetes
    client implements. *)

From S2P Require Import Prelude GoStrings GoFloat Quantity Action Conflict K8sResource Silence YarnClient.

#[local] Open Scope string_scope.
#[local] Open Scope Z_scope.
#[local] Open Scope list_scope.

(** What the manager expects of its client: the schedule with its checkpoint, and a round in an
    environment [E], which does not touch the schedule. *)
Class NodeClient (E C : Type) := {
  nc_schedule :: ScheduleClient C;
  (** The round, in silence or not, with the resources in conflict. *)
  c_sync : E -> bool -> list string -> C -> C;
  (** The checkpoint file: what a restore reads. *)
  c_stored : C -> result (Z * bool);
  (** The client of a new process beside this file. *)
  c_restart : C -> C;
  (** The checkpoint is ignored when it is old. *)
  c_checkTime : bool;
  sync_schedule : forall e silence l c, scheduleDisabled (c_sync e silence l c) = scheduleDisabled c;
  restart_enabled : forall c, scheduleDisabled (c_restart c) = false;
  restart_stored : forall c, c_stored (c_restart c) = c_stored c;
}.

Definition event_capacity : nat := 32.

Section Life.
Context {E C : Type} {NC : NodeClient E C} (zone : duration).

Record node_manager := mkNodeManager {
  manager : offlineOnK8sManager (C := C);
  eventChan : list (list string);
  (** The timers of [time.AfterFunc] that have not fired. *)
  timers : list time;
}.

Definition set_client (m : offlineOnK8sManager (C := C)) (c : C) : offlineOnK8sManager :=
  mkManager c (scheduleSilence m) (aheadOfUnschedulePeriod m) (silencePeriods m) (SilenceMode m).
Definition set_manager (s : node_manager) (m : offlineOnK8sManager) : node_manager := mkNodeManager m (eventChan s) (timers s).
Definition set_eventChan (s : node_manager) (l : list (list string)) : node_manager := mkNodeManager (manager s) l (timers s).

Definition manager_sync (e : E) (m : offlineOnK8sManager (C := C)) (conflictingResources : list string) : offlineOnK8sManager :=
  set_client m (c_sync e (SilenceMode m) conflictingResources (client m)).

(** A full channel drops the event. *)
Definition SyncNodeResource (s : node_manager) (conflictRes : list string) : option error * node_manager :=
  if (length (eventChan s) <? event_capacity)%nat then (None, set_eventChan s (eventChan s ++ [conflictRes]))
  else (Some "node update channel is full", s).

(** [CheckPoint] of the client, on the state of a new process. *)
Definition CheckPoint (now : time) (s : node_manager) : node_manager :=
  match checkScheduleDisable (c_checkTime (E := E) (C := C)) now (c_stored (client (manager s)))
          (fun c => Ret (None, disableSchedule now c)) (client (manager s)) with
  | Ret (Ok (Some t), c) => mkNodeManager (set_client (manager s) c) (eventChan s) (timers s ++ [t])
  | Ret (_, c) => set_manager s (set_client (manager s) c)
  | Crash _ => s
  end.

Inductive life_event :=
| Tick (now : time) (e : E)
| Receive (e : E)
| Send (conflictRes : list string)
| DisableCalled (now : time)
| EnableCalled (now : time)
| TimerFires (now : time)
| Restart (now : time).

(** One event; [None] when it cannot happen now. *)
Definition life_step (s : node_manager) (ev : life_event) : option node_manager :=
  match ev with
  | Tick now e => Some (set_manager s (manager_sync e (checkSilence zone (manager s) now) []))
  | Receive e =>
      match eventChan s with
      | [] => None
      | conflictRes :: l => Some (set_eventChan (set_manager s (manager_sync e (manager s) conflictRes)) l)
      end
  | Send conflictRes => Some (SyncNodeResource s conflictRes).2
  | DisableCalled now => Some (set_manager s (DisableOfflineSchedule (manager s) now))
  | EnableCalled now => Some (set_manager s (EnableOfflineSchedule (manager s) now))
  | TimerFires now =>
      match timers s with
      | [] => None
      | t :: l => if now <? t then None
                  else Some (mkNodeManager (set_client (manager s) (enableSchedule now (client (manager s)))) (eventChan s) l)
      end
  | Restart now =>
      let m := manager s in
      Some (CheckPoint now (mkNodeManager (NewOfflineOnK8sManager (c_restart (client m)) (aheadOfUnschedulePeriod m) (silencePeriods m)) [] []))
  end.

Fixpoint life (s : node_manager) (evs : list life_event) : option node_manager :=
  match evs with
  | [] => Some s
  | ev :: evs' => match life_step s ev with Some s' => life s' evs' | None => None end
  end.

(** ** The channel of events *)

(** The events that [SyncNodeResource] accepts, and those whose round is done. *)
Definition accepted_by (s : node_manager) (ev : life_event) : list (list string) :=
  match ev with
  | Send r => match (SyncNodeResource s r).1 with None => [r] | Some _ => [] end
  | _ => []
  end.
Definition synced_by (s : node_manager) (ev : life_event) : list (list string) :=
  match ev with Receive _ => take 1 (eventChan s) | _ => [] end.

Fixpoint along (f : node_manager -> life_event -> list (list string)) (s : node_manager) (evs : list life_event) : list (list string) :=
  match evs with
  | [] => []
  | ev :: evs' => f s ev ++ match life_step s ev with Some s' => along f s' evs' | None => [] end
  end.

Definition no_restart (ev : life_event) : Prop := match ev with Restart _ => False | _ => True end.

Lemma step_events s ev s' :
  no_restart ev -> life_step s ev = Some s' -> (length (eventChan s) <= event_capacity)%nat ->
  eventChan s ++ accepted_by s ev = synced_by s ev ++ eventChan s' /\ (length (eventChan s') <= event_capacity)%nat.
Proof.
  intros Hr Hs Hl. destruct ev as [now e|e|r|now|now|now|now]; cbn [life_step accepted_by synced_by] in *; rewrite ?app_nil_r.
  - by injection Hs as <-.
  - destruct (eventChan s) as [|r l] eqn:El; [done|]. injection Hs as <-. cbn in *. split; [by rewrite take_0|lia].
  - injection Hs as <-. unfold SyncNodeResource. destruct (Nat.ltb_spec (length (eventChan s)) event_capacity); cbn; rewrite ?app_nil_r; [|done].
    split; [done|]. rewrite length_app. cbn. lia.
  - by injection Hs as <-.
  - by injection Hs as <-.
  - destruct (timers s) as [|t l]; [done|]. destruct (now <? t); [done|]. by injection Hs as <-.
  - done.
Qed.

(** Events are never lost or reordered: over any history without a restart
    the accepted events are those whose round is done, in their order, and those that wait, of
    which there are at most 32; an event is refused exactly when 32 wait. *)
Theorem events_synced_in_order s evs s' :
  Forall no_restart evs -> life s evs = Some s' -> (length (eventChan s) <= event_capacity)%nat ->
  eventChan s ++ along accepted_by s evs = along synced_by s evs ++ eventChan s' /\
  (length (eventChan s') <= event_capacity)%nat /\
  (forall r, is_Some (SyncNodeResource s' r).1 <-> length (eventChan s') = event_capacity).
Proof.
  intros Hr Hl Hc. assert (H : eventChan s ++ along accepted_by s evs = along synced_by s evs ++ eventChan s' /\ (length (eventChan s') <= event_capacity)%nat).
  { revert s Hl Hc. induction Hr as [|ev evs Hev Hr IH]; intros s Hl Hc; cbn [life along] in *; [injection Hl as <-; by rewrite app_nil_r|].
    destruct (life_step s ev) as [s1|] eqn:E1; [|done]. destruct (step_events s ev s1 Hev E1 Hc) as [H1 H2].
    destruct (IH s1 Hl H2) as [H3 H4]. split; [|done]. by rewrite app_assoc, H1, <- app_assoc, H3, app_assoc. }
  destruct H as [H1 H2]. split_and!; [done..|]. intros r. unfold SyncNodeResource.
  destruct (Nat.ltb_spec (length (eventChan s')) event_capacity); cbn; split; try lia; [by intros [? ?]|by intros _; eexists].
Qed.

(** ** Restarts *)

(** After a restart the schedule is closed exactly when the checkpoint says
    so and is not too old, with one timer that opens it five minutes
    later; otherwise it is open, and there is no timer. *)
Theorem restart_restores_schedule s now s' :
  life_step s (Restart now) = Some s' ->
  let closed := match c_stored (E := E) (client (manager s)) with
                | Ok (ts, disabled) => disabled && negb (c_checkTime (E := E) (C := C) && (timeAvailableSeconds <? int64 (now `div` Second - ts)))
                | Err _ => false
                end in
  OfflineScheduleDisabled (manager s') = closed /\
  timers s' = (if closed then [time_Add now disableScheduleDuration] else []) /\ eventChan s' = [] /\
  SilenceMode (manager s') = false /\ scheduleSilence (manager s') = false /\ silencePeriods (manager s') = silencePeriods (manager s).
Proof.
  intros [= <-]. unfold CheckPoint. cbn [manager NewOfflineOnK8sManager client]. rewrite (restart_stored (E := E)). unfold checkScheduleDisable.
  destruct (c_stored (client (manager s))) as [[ts []]|e]; cbn [andb].
  - destruct (_ && _); cbn; unfold OfflineScheduleDisabled; cbn; split_and!; try done; [apply (restart_enabled (E := E))|apply disable_disables].
  - cbn. unfold OfflineScheduleDisabled. cbn. split_and!; try done. apply (restart_enabled (E := E)).
  - cbn. unfold OfflineScheduleDisabled. cbn. split_and!; try done. apply (restart_enabled (E := E)).
Qed.

(** In silence: checks in a period, rounds, and the calls of other modules. *)
Definition quiet (m : offlineOnK8sManager (C := C)) (ev : life_event) : Prop :=
  match ev with
  | Tick now _ => in_periods zone m now = true
  | TimerFires _ | Restart _ => False
  | _ => True
  end.

Record silent (periods : list (Z * Z)) (d : bool) (s : node_manager) : Prop := {
  silent_schedule : scheduleSilence (manager s) = true;
  silent_resources : SilenceMode (manager s) = true;
  silent_periods : silencePeriods (manager s) = periods;
  silent_disabled : OfflineScheduleDisabled (manager s) = d;
}.

Lemma in_periods_eq (m m' : offlineOnK8sManager (C := C)) t : silencePeriods m = silencePeriods m' -> in_periods (C := C) zone m t = in_periods zone m' t.
Proof. unfold in_periods. by intros ->. Qed.

Lemma in_periods_nonempty (m : offlineOnK8sManager (C := C)) t : in_periods (C := C) zone m t = true -> (length (silencePeriods m) =? 0)%nat = false.
Proof. unfold in_periods. by destruct (silencePeriods m). Qed.

Lemma quiet_silent periods d s ev s' m0 :
  silencePeriods m0 = periods -> silent periods d s -> quiet m0 ev -> life_step s ev = Some s' -> silent periods d s'.
Proof.
  intros Hm [H1 H2 H3 H4] Hq Hs. destruct ev as [now e|e|r|now|now|now|now]; cbn [life_step quiet] in *; try done.
  - rewrite (in_periods_eq m0 (manager s)) in Hq by congruence.
    assert (Hck : checkSilence zone (manager s) now = manager s).
    { unfold checkSilence. rewrite (in_periods_nonempty _ _ Hq), H1. cbn [negb andb]. by rewrite H2, Hq. }
    rewrite Hck in Hs. injection Hs as <-. split; cbn; try done. unfold OfflineScheduleDisabled in *. cbn. by rewrite sync_schedule.
  - destruct (eventChan s) as [|r l]; [done|]. injection Hs as <-. split; cbn; try done. unfold OfflineScheduleDisabled in *. cbn. by rewrite sync_schedule.
  - injection Hs as <-. unfold SyncNodeResource. destruct (_ <? _)%nat; by split.
  - injection Hs as <-. unfold DisableOfflineSchedule. rewrite H1. by split.
  - injection Hs as <-. unfold EnableOfflineSchedule. rewrite H1. by split.
Qed.

Lemma quiet_life periods d s evs s' m0 :
  silencePeriods m0 = periods -> silent periods d s -> Forall (quiet m0) evs -> life s evs = Some s' -> silent periods d s'.
Proof.
  intros Hm Hs Hq. revert s Hs. induction Hq as [|ev evs Hev Hq IH]; intros s Hs Hl; cbn [life] in Hl; [by injection Hl as <-|].
  destruct (life_step s ev) as [s1|] eqn:E1; [|done]. eapply IH; [|exact Hl]. by eapply quiet_silent.
Qed.

Lemma life_app s l l' s' : life s (l ++ l') = Some s' <-> exists s1, life s l = Some s1 /\ life s1 l' = Some s'.
Proof.
  revert s. induction l as [|ev l IH]; intros s; cbn [life app]; [split; [by exists s|by intros (? & [= ->] & ?)]|].
  destruct (life_step s ev); [apply IH|]. split; [done|by intros (? & ? & _)].
Qed.

(** The first check in a period after a restart. *)
Lemma first_check_silent s now s1 t e s2 :
  life_step s (Restart now) = Some s1 -> in_periods zone (manager s) t = true ->
  in_periods zone (manager s) (time_Add t (aheadOfUnschedulePeriod (manager s1))) = true -> life_step s1 (Tick t e) = Some s2 ->
  silent (silencePeriods (manager s)) true s2.
Proof.
  intros Hr Ht Ha [= <-]. apply restart_restores_schedule in Hr as (_ & _ & _ & H1 & H2 & H3).
  rewrite (in_periods_eq _ (manager s1)) in Ht, Ha by done. unfold manager_sync, checkSilence. rewrite (in_periods_nonempty _ _ Ht), H2, Ha.
  cbn [negb andb SilenceMode]. rewrite H1, Ht. cbn [Bool.eqb]. split; cbn; try done.
  unfold OfflineScheduleDisabled. cbn. rewrite sync_schedule. apply disable_disables.
Qed.

(** A restart in a silent period opens the schedule in the middle of it: the
    timer of a restored checkpoint opens it, and then, as the manager holds it to be silent, nothing closes it again
    before the period ends, neither the checks nor the other modules. *)
Theorem restored_timer_opens_silence s now t e evs1 fire evs2 s' :
  in_periods zone (manager s) t = true -> in_periods zone (manager s) (time_Add t (aheadOfUnschedulePeriod (manager s))) = true ->
  Forall (quiet (manager s)) evs1 -> Forall (quiet (manager s)) evs2 ->
  life s ((Restart now :: Tick t e :: evs1) ++ TimerFires fire :: evs2) = Some s' ->
  (exists s1, life s (Restart now :: Tick t e :: evs1) = Some s1 /\ OfflineScheduleDisabled (manager s1) = true) /\
  SilenceMode (manager s') = true /\ OfflineScheduleDisabled (manager s') = false.
Proof.
  intros Ht Ha Hq1 Hq2 Hl. apply life_app in Hl as (s3 & Hl1 & Hl2).
  assert (Hs3 : silent (silencePeriods (manager s)) true s3).
  { cbn [life] in Hl1. destruct (life_step s (Restart now)) as [s1|] eqn:E1; [|done]. destruct (life_step s1 (Tick t e)) as [s2|] eqn:E2; [|done].
    eapply quiet_life; [reflexivity| |exact Hq1|exact Hl1]. apply (first_check_silent s now s1 t e s2 E1 Ht); [|exact E2].
    replace (aheadOfUnschedulePeriod (manager s1)) with (aheadOfUnschedulePeriod (manager s)); [done|].
    injection E1 as <-. unfold CheckPoint. destruct (checkScheduleDisable _ _ _ _ _) as [[[[]|] ?]|]; done. }
  split; [exists s3; split; [done|apply Hs3]|].
  cbn [life life_step] in Hl2. destruct (timers s3) as [|tm l]; [done|]. destruct (fire <? tm); [done|].
  assert (Hs' : silent (silencePeriods (manager s)) false s').
  { eapply quiet_life; [reflexivity| |exact Hq2|exact Hl2]. destruct Hs3 as [H1 H2 H3 _]. split; cbn; try done.
    unfold OfflineScheduleDisabled. cbn. apply enable_enables. }
  by destruct Hs'.
Qed.
End Life.

(** ** The Kubernetes client *)

(** The environment of a round: the prediction, the node and the pods of the
    informers, and the writes that the API server refuses. *)
Record k8s_env (Q : Type) := mkK8sEnv {
  e_predicted : option (gmap string Q);
  e_informer : result (option (Node (Q := Q)));
  e_store : list (Pod Q);
  e_fails : nat -> bool;
}.
Arguments mkK8sEnv {Q} _ _ _ _.
Arguments e_predicted {Q} _.
Arguments e_informer {Q} _.
Arguments e_store {Q} _.
Arguments e_fails {Q} _.

Section K8s.
Context {RO : RangeOrder} {GS : GoSort} {Q : Type} `{QO : QuantityOps Q}.
Context (IsExtendedResourceName : string -> bool) (cgStat : string -> result (float64 * float64)).

(** The conflict manager and the client. *)
Abbreviation k8s_state := (gmap string (ActionResource Q) * k8sClient (Q := Q))%type (only parsing).

Definition k8s_sync (e : k8s_env Q) (silence : bool) (conflicting : list string) (s : k8s_state) : k8s_state :=
  let '(conf', k', _) := sync IsExtendedResourceName cgStat (mkManager s.2 false 0 [] silence) s.1 (e_predicted e) conflicting
                           (e_informer e) (e_store e) (e_fails e) in
  (conf', k').

Definition k8s_stored (s : k8s_state) : result (Z * bool) :=
  match k_checkpoint s.2 with Some x => Ok x | None => Err "checkpoint is not found" end.

Definition k8s_restart (s : k8s_state) : k8s_state :=
  (∅, mkK8sClient (k_config s.2) (k_node s.2) None None false (k_checkpoint s.2)).

#[export] Instance k8s_pair_schedule : ScheduleClient k8s_state.
Proof.
  refine {| disableSchedule := fun now s => (s.1, disableSchedule now s.2);
            enableSchedule := fun now s => (s.1, enableSchedule now s.2); scheduleDisabled := fun s => scheduleDisabled s.2 |};
    intros now s; [apply disable_disables|apply enable_enables].
Defined.

Lemma adapt_schedule (k : k8sClient (Q := Q)) informer store l conflicting fails :
  let '(_, k', _) := AdaptAndUpdateOfflineResource IsExtendedResourceName cgStat k informer store l conflicting fails in
  extResScheduleDisabled k' = extResScheduleDisabled k.
Proof.
  unfold AdaptAndUpdateOfflineResource. destruct informer as [[node|]|e]; [|done..]. cbv zeta. destruct (choosePodToKill _ _ _ _ _ _) as [chosen info].
  unfold syncOfflineResource. cbv zeta. destruct (match k_lastNode _ with Some _ => _ | None => _ end); done.
Qed.

Lemma k8s_sync_schedule e silence l s : extResScheduleDisabled (k8s_sync e silence l s).2 = extResScheduleDisabled s.2.
Proof.
  unfold k8s_sync, sync. destruct (e_predicted e) as [res|]; [|done]. destruct (CheckAndSubConflictResource s.1 res) as [[conf' res'] lst].
  cbn [SilenceMode client]. destruct (silenceResources silence res' l) as [res2 conflicting].
  pose proof (adapt_schedule s.2 (e_informer e) (e_store e) res2 conflicting (e_fails e)) as H.
  destruct (AdaptAndUpdateOfflineResource _ _ _ _ _ _ _ _) as [[err k'] calls]. exact H.
Qed.

(** The Kubernetes client keeps its promise; its checkpoint grows old. *)
#[export] Instance k8s_NodeClient : NodeClient (k8s_env Q) k8s_state.
Proof.
  refine {| c_sync := k8s_sync; c_stored := k8s_stored; c_restart := k8s_restart; c_checkTime := true |}.
  - intros e silence l s. apply k8s_sync_schedule.
  - done.
  - done.
Defined.
End K8s.

(** ** Witnesses *)

Section Examples.

#[local] Instance ex_client : NodeClient (k8s_env Z) (gmap string (ActionResource Z) * k8sClient (Q := Z)) :=
  k8s_NodeClient (RO := key_order) (GS := insertion_sort) (fun _ => false) (fun _ => Err "no state").

(** A node that is silent from one to five o'clock. *)
Definition ex_manager : node_manager (C := gmap string (ActionResource Z) * k8sClient (Q := Z)) :=
  mkNodeManager (NewOfflineOnK8sManager (∅, newK8sClient (mkNodeResourceConfig false false) "node") (10 * Minute) [(3600, 18000)]) [] [].

Definition ex_env : k8s_env Z := mkK8sEnv None (Ok None) [] (fun _ => false).
Definition at_minute (m : Z) : time := m * Minute.

(** The check before the period closes the schedule, and the check in it finds the period. *)
Definition ex_silent_state : node_manager :=
  default ex_manager (life (E := k8s_env Z) 0 ex_manager [Tick (at_minute 55) ex_env; Tick (at_minute 61) ex_env]).

(** Thirty-three events before a round: the last one is refused. *)
Definition ex_burst : list (life_event (E := k8s_env Z)) := repeat (Send ["cpu"]) 33 ++ [Receive ex_env; Send ["memory"]].

Lemma events_synced_in_order_witness :
  exists s', life (E := k8s_env Z) 0 ex_manager ex_burst = Some s' /\ length (eventChan s') = 32%nat /\
    along (E := k8s_env Z) 0 (accepted_by (E := k8s_env Z)) ex_manager ex_burst = repeat ["cpu"] 32 ++ [["memory"]] /\
    is_Some (SyncNodeResource s' ["cpu"]).1.
Proof.
  destruct (life (E := k8s_env Z) 0 ex_manager ex_burst) as [s'|] eqn:El; [|vm_compute in El; discriminate El].
  assert (Hlen : option_map (fun s => length (eventChan s)) (life (E := k8s_env Z) 0 ex_manager ex_burst) = Some 32%nat) by (vm_compute; reflexivity).
  rewrite El in Hlen. injection Hlen as Hlen.
  destruct (events_synced_in_order (E := k8s_env Z) 0 ex_manager ex_burst s') as (H1 & H2 & H3); [repeat constructor|exact El|cbn; lia|].
  exists s'. split_and!; [done|done|vm_compute; reflexivity|]. by apply H3.
Defined.

Lemma restart_restores_schedule_witness :
  exists s', life_step (E := k8s_env Z) 0 ex_silent_state (Restart (at_minute 60)) = Some s' /\
    OfflineScheduleDisabled (manager s') = true /\ timers s' = [at_minute 65] /\
  exists s2, life_step (E := k8s_env Z) 0 ex_silent_state (Restart (at_minute 61)) = Some s2 /\ OfflineScheduleDisabled (manager s2) = false.
Proof.
  eexists. split; [reflexivity|].
  destruct (restart_restores_schedule (E := k8s_env Z) 0 ex_silent_state (at_minute 60) _ eq_refl) as (H1 & H2 & _).
  split; [etrans; [exact H1|vm_compute; reflexivity]|]. split; [etrans; [exact H2|vm_compute; reflexivity]|].
  eexists. split; [reflexivity|]. destruct (restart_restores_schedule (E := k8s_env Z) 0 ex_silent_state (at_minute 61) _ eq_refl) as (H3 & _).
  etrans; [exact H3|vm_compute; reflexivity].
Defined.

Definition ex_night : list (life_event (E := k8s_env Z)) :=
  (Restart (at_minute 60) :: Tick (at_minute 62) ex_env :: [EnableCalled (at_minute 63)]) ++
  TimerFires (at_minute 65) :: [Tick (at_minute 70) ex_env; DisableCalled (at_minute 71); Tick (at_minute 120) ex_env].

Lemma restored_timer_opens_silence_witness :
  exists s', life (E := k8s_env Z) 0 ex_silent_state ex_night = Some s' /\
    SilenceMode (manager s') = true /\ OfflineScheduleDisabled (manager s') = false.
Proof.
  destruct (life (E := k8s_env Z) 0 ex_silent_state ex_night) as [s'|] eqn:El; [|vm_compute in El; discriminate El].
  exists s'. split; [done|].
  destruct (restored_timer_opens_silence (E := k8s_env Z) 0 ex_silent_state (at_minute 60) (at_minute 62) ex_env [EnableCalled (at_minute 63)] (at_minute 65)
    [Tick (at_minute 70) ex_env; DisableCalled (at_minute 71); Tick (at_minute 120) ex_env] s') as (_ & H1 & H2).
  - vm_compute. reflexivity.
  - vm_compute. reflexivity.
  - repeat constructor.
  - repeat constructor.
  - exact El.
  - by split.
Defined.
End Examples.
