(* ===== verification/HealthManager.v ===== *)
(** * The health check manager

    pkg/caelus/healthcheck/health_check.go with [Run] and [Stop] of
    rulecheck/rule_check.go: the manager runs the checks of a configuration, watches
    its file and replaces the checks when the file changes.  A round of the checks
    is the one of Checkers.v; here it is one event, between the check of the stop
    channel and its dispatch.  The hash is the parameter [md5], and what a file read
    returns is part of the events, since the file is read twice. *)

From S2P Require Import Prelude GoStrings GoFloat Quantity Action RuleCheck Checkers Config HealthConfig.

#[local] Open Scope string_scope.
#[local] Open Scope Z_scope.
#[local] Open Scope list_scope.

Section Manager.
Context (md5 : string -> string) (NodeIP : string).
(** [InitHealthCheckConfig] on what the file read returns. *)
Context (configFunc : result string -> outcome (result HealthCheckConfig)).

(** Where the goroutine of a rule checker is: before it looks at the stop
    channel, in a round, or at its end. *)
Inductive phase := AtLoop | InRound | Exited.

(** The rule checker and the notifier of one configuration, and whether they
    were stopped. *)
Record checker := mkChecker {
  generation : nat;
  stopped : bool;
  ck_phase : phase;
}.

Record health := mkHealthManager {
  h_config : HealthCheckConfig;
  configHash : string;
  (** All that were started; the last one is [h.ruleChecker]. *)
  h_checkers : list checker;
  (** The goroutine of [configWatcher] runs. *)
  watching : bool;
  (** The generations whose results were dispatched. *)
  dispatched : list nat;
}.

Definition hashFile (read : result string) : result string := content ← read; Ok (md5 content).

(** The configuration is read first, the hash second. *)
Definition NewHealthManager (read1 read2 : result string) : outcome health :=
  config ← configFunc read1;
  match config with
  | Err e => Crash (Fatal ("failed init health check config: " +:+ e))
  | Ok c =>
      match hashFile read2 with
      | Err e => Crash (Fatal e)
      | Ok hash => Ret (mkHealthManager c hash [] false [])
      end
  end.

Definition health_Run (h : health) : health :=
  if hc_Disable (h_config h) then h
  else mkHealthManager (h_config h) (configHash h) (h_checkers h ++ [mkChecker (length (h_checkers h)) false AtLoop]) true (dispatched h).

(** The hash is read first, the configuration second. *)
Definition checkNeedReload (h : health) (read1 read2 : result string) : outcome (option (string * HealthCheckConfig)) :=
  match hashFile read1 with
  | Err _ => Ret None
  | Ok hash =>
      if (hash =? configHash h)%string then Ret None
      else
        config ← configFunc read2;
        match config with
        | Err e => Crash (Fatal ("failed init health check config: " +:+ e))
        | Ok c =>
            if negb (length (hc_RuleNodes c) =? 0)%nat && negb (existsb (fun no => (no =? NodeIP)%string) (hc_RuleNodes c)) then Ret None
            else Ret (Some (hash, c))
        end
  end.

(** [Stop] closes the channel of the checker that runs now. *)
Definition Stop (l : list checker) : list checker :=
  match last l with
  | None => l
  | Some c => removelast l ++ [mkChecker (generation c) true (ck_phase c)]
  end.

Definition reload (h : health) (read1 read2 : result string) : outcome health :=
  need ← checkNeedReload h read1 read2;
  Ret (match need with
       | None => h
       | Some (hash, c) =>
           let l := Stop (h_checkers h) in
           mkHealthManager c hash (l ++ [mkChecker (length l) false AtLoop]) (watching h) (dispatched h)
       end).

(** A step of the loop of [Run] of a checker: it looks at its stop channel and
    starts a round, or dispatches the result of the round. *)
Definition checker_step (c : checker) : checker * list nat :=
  match ck_phase c with
  | AtLoop => (mkChecker (generation c) (stopped c) (if stopped c then Exited else InRound), [])
  | InRound => (mkChecker (generation c) (stopped c) AtLoop, [generation c])
  | Exited => (c, [])
  end.

Inductive health_event :=
| FileChanged (read1 read2 : result string)
| CheckerStep (i : nat).

(** A file event is seen only by the watcher. *)
Definition health_step (h : health) (ev : health_event) : outcome health :=
  match ev with
  | FileChanged read1 read2 => if watching h then reload h read1 read2 else Ret h
  | CheckerStep i =>
      match h_checkers h !! i with
      | None => Ret h
      | Some c => let '(c', d) := checker_step c in
                  Ret (mkHealthManager (h_config h) (configHash h) (<[i := c']> (h_checkers h)) (watching h) (dispatched h ++ d))
      end
  end.

Fixpoint health_run (h : health) (evs : list health_event) : outcome health :=
  match evs with
  | [] => Ret h
  | ev :: evs' => h' ← health_step h ev; health_run h' evs'
  end.

(** ** Reloading *)

(** The configuration has rules for this node. *)
Definition for_node (c : HealthCheckConfig) : Prop := hc_RuleNodes c = [] \/ NodeIP ∈ hc_RuleNodes c.

(** What a change of the file does: a file that cannot be read or whose
    hash is the old one changes nothing, one that is not accepted ends the
    process, and one that is accepted replaces the checks when it is for this
    node, and changes nothing, not even the hash, when it is not. *)
Theorem reload_exact h read1 read2 :
  match hashFile read1 with
  | Err _ => reload h read1 read2 = Ret h
  | Ok hash =>
      if decide (hash = configHash h) then reload h read1 read2 = Ret h
      else match configFunc read2 with
           | Crash c => reload h read1 read2 = Crash c
           | Ret (Err e) => reload h read1 read2 = Crash (Fatal ("failed init health check config: " +:+ e))
           | Ret (Ok c) =>
               (~ for_node c -> reload h read1 read2 = Ret h) /\
               (for_node c -> exists h', reload h read1 read2 = Ret h' /\ h_config h' = c /\ configHash h' = hash /\
                  h_checkers h' = Stop (h_checkers h) ++ [mkChecker (length (Stop (h_checkers h))) false AtLoop])
           end
  end.
Proof.
  unfold reload, checkNeedReload, mbind, outcome_bind. destruct (hashFile read1) as [hash|]; [|done].
  destruct (String.eqb_spec hash (configHash h)) as [->|Hne]; [by rewrite decide_True by done|]. rewrite decide_False by done.
  destruct (configFunc read2) as [[c|e]|cr]; [|done..].
  assert (Hfor : negb (length (hc_RuleNodes c) =? 0)%nat && negb (existsb (fun no => (no =? NodeIP)%string) (hc_RuleNodes c)) = true <-> ~ for_node c).
  { unfold for_node. rewrite andb_true_iff, !negb_true_iff, Nat.eqb_neq, <- not_true_iff_false, existsb_exists, list_elem_of_In.
    setoid_rewrite String.eqb_eq. destruct (hc_RuleNodes c); cbn; naive_solver. }
  destruct (negb _ && negb _).
  - split; [done|]. intros Hn. by destruct (proj1 Hfor eq_refl).
  - split; [|intros _; by eexists]. intros Hn. by apply Hfor in Hn.
Qed.

(** ** The checkers *)

(** The generations are numbered, and all but the last one were stopped. *)
Definition one_current (h : health) : Prop :=
  h_checkers h <> [] /\ map generation (h_checkers h) = seq 0 (length (h_checkers h)) /\
  map stopped (h_checkers h) = repeat true (pred (length (h_checkers h))) ++ [false].

Lemma checker_step_keeps c : generation (checker_step c).1 = generation c /\ stopped (checker_step c).1 = stopped c.
Proof. unfold checker_step. by destruct (ck_phase c). Qed.

Lemma Stop_snoc old c : Stop (old ++ [c]) = old ++ [mkChecker (generation c) true (ck_phase c)].
Proof. unfold Stop. by rewrite last_snoc, removelast_last. Qed.

Lemma update_current (l : list checker) i c :
  l !! i = Some c ->
  map generation (<[i := (checker_step c).1]> l) = map generation l /\ map stopped (<[i := (checker_step c).1]> l) = map stopped l.
Proof.
  intros Hi. destruct (checker_step_keeps c) as [Hg Hs]. split.
  - change (map generation (<[i := (checker_step c).1]> l)) with (generation <$> <[i := (checker_step c).1]> l). rewrite list_fmap_insert, Hg.
    apply list_insert_id. rewrite list_lookup_fmap, Hi. done.
  - change (map stopped (<[i := (checker_step c).1]> l)) with (stopped <$> <[i := (checker_step c).1]> l). rewrite list_fmap_insert, Hs.
    apply list_insert_id. rewrite list_lookup_fmap, Hi. done.
Qed.

Lemma Stop_current l :
  l <> [] -> map stopped l = repeat true (pred (length l)) ++ [false] ->
  map generation (Stop l) = map generation l /\ map stopped (Stop l) = repeat true (length l) /\ length (Stop l) = length l.
Proof.
  intros Hne Hs. destruct (exists_last Hne) as (old & c & ->). rewrite Stop_snoc, !map_app, !length_app in *. cbn [map length] in *.
  replace (pred (length old + 1)) with (length old) in Hs by lia. apply app_inj_tail in Hs as [-> _].
  split_and!; [done| |done]. by rewrite repeat_app.
Qed.

Lemma step_current h ev h' : one_current h -> health_step h ev = Ret h' -> one_current h'.
Proof.
  intros (Hne & Hg & Hs) H. destruct ev as [read1 read2|i]; cbn [health_step] in H.
  - destruct (watching h); [|by injection H as <-]. unfold reload in H. apply outcome_bind_Ret in H as ([[hash c]|] & _ & [= <-]); [|done].
    destruct (Stop_current (h_checkers h) Hne Hs) as (H1 & H2 & H3). unfold one_current. cbn [h_checkers].
    rewrite !map_app, length_app, H1, H2, H3, Hg. cbn [map length generation stopped]. split; [by destruct (Stop _)|].
    split; [by rewrite seq_app|]. replace (pred (length (h_checkers h) + 1)) with (length (h_checkers h)) by lia. done.
  - destruct (h_checkers h !! i) as [c|] eqn:Ei; [|by injection H as <-]. destruct (checker_step c) as [c' d] eqn:Ec. injection H as <-.
    destruct (update_current _ _ _ Ei) as [H1 H2]. rewrite Ec in H1, H2. cbn [fst] in H1, H2. unfold one_current. cbn [h_checkers].
    rewrite H1, H2, length_insert. split; [|done]. intros E. apply (f_equal length) in E. rewrite length_insert in E. by destruct (h_checkers h).
Qed.

(** Once the manager runs, exactly one generation of checks is not
    stopped after any history of file changes and steps of the checkers: that of the last
    configuration that was loaded. *)
Theorem one_current_generation h evs h' :
  watching h = false -> h_checkers h = [] -> hc_Disable (h_config h) = false -> health_run (health_Run h) evs = Ret h' ->
  one_current h' /\ exists old c, h_checkers h' = old ++ [c] /\ Forall (fun c => stopped c = true) old /\ stopped c = false.
Proof.
  intros Hw Hc Hd Hr. assert (H0 : one_current (health_Run h)) by (unfold health_Run; rewrite Hd; unfold one_current; cbn; by rewrite Hc).
  assert (H : one_current h').
  { clear Hw Hc Hd. revert Hr H0. generalize (health_Run h). induction evs as [|ev evs IH]; intros s Hr H0; cbn in Hr; [by injection Hr as <-|].
    apply outcome_bind_Ret in Hr as (s1 & E & Hr). apply (IH s1 Hr). by eapply step_current. }
  split; [done|]. destruct H as (Hne & _ & Hs). destruct (exists_last Hne) as (old & c & E). exists old, c. split; [done|].
  rewrite E, map_app, length_app in Hs. cbn [map length] in Hs. replace (pred (length old + 1)) with (length old) in Hs by lia.
  apply app_inj_tail in Hs as [Ho Hs]. split; [|done]. apply Forall_forall. intros x Hx. apply list_elem_of_lookup in Hx as [k Hk].
  assert (Hl : map stopped old !! k = Some (stopped x)) by (change (map stopped old) with (stopped <$> old); rewrite list_lookup_fmap, Hk; done).
  rewrite Ho in Hl. apply list_elem_of_lookup_2, list_elem_of_In, repeat_spec in Hl. done.
Qed.

(** What a stopped checker can still dispatch. *)
Definition pending (c : checker) : nat := match ck_phase c with InRound => 1 | _ => 0 end.

Lemma step_pending h ev h' g c :
  one_current h -> h_checkers h !! g = Some c -> stopped c = true -> health_step h ev = Ret h' ->
  exists c' d, h_checkers h' !! g = Some c' /\ stopped c' = true /\ dispatched h' = dispatched h ++ d /\
    (count_occ Nat.eq_dec d g + pending c' <= pending c)%nat.
Proof.
  intros (Hne & Hg & Hs) Hc Hst H. destruct ev as [read1 read2|i]; cbn [health_step] in H.
  - destruct (watching h); [|injection H as <-; exists c, []; by rewrite app_nil_r]. unfold reload in H. apply outcome_bind_Ret in H as ([[hash cfg]|] & _ & [= <-]).
    2: { exists c, []. by rewrite app_nil_r. }
    cbn [h_checkers dispatched]. destruct (exists_last Hne) as (old & last & E). rewrite E in *. rewrite Stop_snoc.
    assert (Hlt : (g < length old)%nat).
    { destruct (decide (g < length old)%nat) as [|Hge]; [done|]. exfalso. apply lookup_lt_Some in Hc as Hlt. rewrite length_app in Hlt. cbn in Hlt.
      replace g with (length old) in Hc by lia. rewrite lookup_app_r, Nat.sub_diag in Hc by lia. injection Hc as ->.
      rewrite map_app, length_app in Hs. cbn [map length] in Hs. replace (pred (length old + 1)) with (length old) in Hs by lia.
      apply app_inj_tail in Hs as [_ Hs]. congruence. }
    rewrite lookup_app_l in Hc by done. exists c, []. rewrite app_nil_r. split_and!; [|done|done|cbn; lia].
    by rewrite !lookup_app_l by (rewrite ?length_app; lia).
  - destruct (h_checkers h !! i) as [ci|] eqn:Ei; [|injection H as <-; exists c, []; rewrite app_nil_r; by split_and!].
    destruct (checker_step ci) as [ci' d] eqn:Ec. injection H as <-. cbn [h_checkers dispatched].
    assert (Hgi : generation ci = i).
    { assert (Hl : map generation (h_checkers h) !! i = Some (generation ci)) by (change (map generation (h_checkers h)) with (generation <$> h_checkers h); rewrite list_lookup_fmap, Ei; done).
      rewrite Hg in Hl. by apply lookup_seq in Hl as [-> _]. }
    destruct (decide (i = g)) as [->|Hig].
    + rewrite Ei in Hc. injection Hc as ->. exists ci', d. rewrite list_lookup_insert_eq by (by apply lookup_lt_Some in Ei).
      unfold checker_step in Ec. unfold pending. destruct (ck_phase c) eqn:Ep; injection Ec as <- <-; rewrite ?Hst, ?Hgi, ?Ep; cbn [ck_phase stopped count_occ]; split_and!; try done.
      all: try destruct (Nat.eq_dec g g); cbn; lia.
    + exists c, d. rewrite list_lookup_insert_ne by done. split_and!; [done..|].
      assert (Hd : count_occ Nat.eq_dec d g = 0%nat); [|lia]. unfold checker_step in Ec. destruct (ck_phase ci); injection Ec as _ <-; [done| |done].
      cbn. rewrite Hgi. by destruct (Nat.eq_dec i g).
Qed.

(** The checks of a replaced configuration dispatch at most once more, when
    a round of theirs was under way; that round is not waited for, so its result can come after results of the new checks. *)
Theorem replaced_checks_dispatch_once h evs h' g c :
  one_current h -> h_checkers h !! g = Some c -> stopped c = true -> health_run h evs = Ret h' ->
  exists d, dispatched h' = dispatched h ++ d /\ (count_occ Nat.eq_dec d g <= match ck_phase c with InRound => 1 | _ => 0 end)%nat.
Proof.
  intros Hcur Hc Hst Hr. assert (H : exists c' d, h_checkers h' !! g = Some c' /\ dispatched h' = dispatched h ++ d /\ (count_occ Nat.eq_dec d g + pending c' <= pending c)%nat).
  { revert h c Hcur Hc Hst Hr. induction evs as [|ev evs IH]; intros h c Hcur Hc Hst Hr; cbn in Hr.
    { injection Hr as <-. exists c, []. rewrite app_nil_r. by split_and!. }
    apply outcome_bind_Ret in Hr as (h1 & E & Hr). destruct (step_pending h ev h1 g c Hcur Hc Hst E) as (c1 & d1 & H1 & H2 & H3 & H4).
    apply step_current in E; [|done]. destruct (IH h1 c1 E H1 H2 Hr) as (c2 & d2 & H5 & H6 & H7). exists c2, (d1 ++ d2).
    rewrite H6, H3, app_assoc, count_occ_app. split_and!; [done..|lia]. }
  destruct H as (c' & d & _ & H1 & H2). exists d. split; [done|]. unfold pending in H2 at 2. lia.
Qed.

(** A file that changes between the two reads at the start is missed: the checks of
    the older contents run for as long as the file stays as it is, in spite of every event of the watcher. *)
Theorem change_at_start_is_missed h old new evs h' :
  NewHealthManager (Ok old) (Ok new) = Ret h ->
  Forall (fun ev => match ev with FileChanged r1 _ => r1 = Ok new | CheckerStep _ => True end) evs ->
  health_run (health_Run h) evs = Ret h' -> configFunc (Ok old) = Ret (Ok (h_config h')).
Proof.
  intros Hn Hf Hr. unfold NewHealthManager in Hn. apply outcome_bind_Ret in Hn as ([c|e] & Hcfg & Hn); [|done]. injection Hn as <-.
  assert (H : forall s s', h_config s = c -> configHash s = md5 new -> health_run s evs = Ret s' -> h_config s' = c).
  { clear Hr. induction Hf as [|ev evs Hev Hf IH]; intros s s' Hc Hh Hs; cbn in Hs; [by injection Hs as <-|].
    apply outcome_bind_Ret in Hs as (s1 & E & Hs). apply (IH s1 s'); [| |done]; destruct ev as [r1 r2|i]; cbn [health_step] in E.
    1, 3: destruct (watching s); [|by injection E as <-]; unfold reload, checkNeedReload in E; rewrite Hev in E; cbn in E; rewrite Hh, String.eqb_refl in E;
      by injection E as <-.
    all: destruct (h_checkers s !! i); [|by injection E as <-]; destruct (checker_step _); by injection E as <-. }
  rewrite Hcfg. do 2 f_equal. symmetry. eapply H; [| |exact Hr]; unfold health_Run; cbn [h_config]; by destruct (hc_Disable c).
Qed.
End Manager.

(** ** Witnesses *)

Definition ex_health_config (disable : bool) (nodes : list string) : HealthCheckConfig := mkHealth disable nodes [] [] [] None ex_reserve.

(** The contents of the file name the configuration. *)
Definition ex_config_func (read : result string) : outcome (result HealthCheckConfig) :=
  Ret (content ← read;
       if (content =? "all")%string then Ok (ex_health_config false [])
       else if (content =? "off")%string then Ok (ex_health_config true [])
       else if (content =? "other")%string then Ok (ex_health_config false ["10.0.0.9"])
       else Err "invalid").

Abbreviation ex_md5 := (fun content : string => "md5 of " +:+ content) (only parsing).

Definition ex_manager : health := mkHealthManager (ex_health_config false []) "md5 of all" [] false [].

(** A round is under way when the file changes to a configuration that
    disables the checks; both checks then dispatch. *)
Definition ex_events : list health_event :=
  [CheckerStep 0; FileChanged (Ok "off") (Ok "off"); CheckerStep 1; CheckerStep 1; CheckerStep 0; CheckerStep 0; CheckerStep 0; CheckerStep 1].

Definition ex_history (evs : list health_event) : outcome health := health_run ex_md5 "10.0.0.1" ex_config_func (health_Run ex_manager) evs.

(** The configuration that disables the checks does not. *)
Example disabled_by_reload_runs :
  match ex_history ex_events with
  | Ret h => hc_Disable (h_config h) = true /\ dispatched h = [1; 0]%nat /\ map ck_phase (h_checkers h) = [Exited; InRound]
  | Crash _ => False
  end.
Proof. vm_compute. repeat split. Qed.

(** A configuration for other nodes replaces nothing, and one that is not accepted ends the process. *)
Example other_contents :
  ex_history [FileChanged (Ok "other") (Ok "other"); FileChanged (Err "moved") (Ok "all")] = Ret (health_Run ex_manager) /\
  ex_history [FileChanged (Ok "typo") (Ok "typo")] = Crash (Fatal "failed init health check config: invalid").
Proof. vm_compute. by split. Qed.

Lemma one_current_generation_witness :
  match ex_history ex_events with Ret h => one_current h /\ length (h_checkers h) = 2%nat | Crash _ => False end.
Proof.
  destruct (ex_history ex_events) as [h|c] eqn:E; [|vm_compute in E; discriminate E].
  split; [|vm_compute in E; injection E as <-; reflexivity].
  apply (one_current_generation ex_md5 "10.0.0.1" ex_config_func ex_manager ex_events h eq_refl eq_refl eq_refl E).
Defined.

Lemma replaced_checks_dispatch_once_witness :
  match ex_history (take 2 ex_events), ex_history ex_events with
  | Ret h, Ret h' => exists d, dispatched h' = dispatched h ++ d /\ (count_occ Nat.eq_dec d 0 <= 1)%nat /\ dispatched h' = [1; 0]%nat
  | _, _ => False
  end.
Proof.
  destruct (ex_history (take 2 ex_events)) as [h|c] eqn:E; [|vm_compute in E; discriminate E].
  destruct (ex_history ex_events) as [h'|c'] eqn:E'; [|vm_compute in E'; discriminate E'].
  assert (Hr : health_run ex_md5 "10.0.0.1" ex_config_func h (drop 2 ex_events) = Ret h').
  { vm_compute in E. injection E as <-. rewrite <- E'. vm_compute. reflexivity. }
  destruct (replaced_checks_dispatch_once ex_md5 "10.0.0.1" ex_config_func h (drop 2 ex_events) h' 0 (mkChecker 0 true InRound)) as (d & H1 & H2).
  - vm_compute in E. injection E as <-. split; [discriminate|split; reflexivity].
  - vm_compute in E. injection E as <-. reflexivity.
  - reflexivity.
  - exact Hr.
  - exists d. split; [exact H1|]. split; [exact H2|]. vm_compute in E'. injection E' as <-. reflexivity.
Defined.

Lemma change_at_start_is_missed_witness :
  exists h h', NewHealthManager ex_md5 ex_config_func (Ok "all") (Ok "off") = Ret h /\
    health_run ex_md5 "10.0.0.1" ex_config_func (health_Run h) [FileChanged (Ok "off") (Ok "off"); CheckerStep 0] = Ret h' /\
    Ret (Ok (ex_health_config false [])) = Ret (A := result HealthCheckConfig) (Ok (h_config h')).
Proof.
  eexists _, _. split; [reflexivity|]. split; [vm_compute; reflexivity|].
  refine (change_at_start_is_missed ex_md5 "10.0.0.1" ex_config_func (mkHealthManager (ex_health_config false []) "md5 of off" [] false [])
    "all" "off" [FileChanged (Ok "off") (Ok "off"); CheckerStep 0] _ _ _ _).
  - reflexivity.
  - repeat constructor.
  - vm_compute. reflexivity.
Defined.
