(* ===== verification/Pmu.v ===== *)
(** * Performance counters

    pkg/caelus/statestore/common/perf/pmu/pmu.go: the C function [get_cpi] counts
    the events of a cgroup on its CPUs with [perf_event_open], and [GetPMUValue]
    makes a record of the counts.  The kernel answers are a class ([Kernel]); a
    run also yields the system calls that succeeded, so that the handles it
    leaves open are known.  Words of C are [Z] with their wrap-around, and a
    write outside of an array is a crash. *)

From Stdlib Require Import Ascii.
From S2P Require Import Prelude GoStrings GoFloat.

#[local] Open Scope string_scope.
#[local] Open Scope Z_scope.
#[local] Open Scope list_scope.

(** ** Texts in C *)

(** The tokens of [strtok]. *)
Definition strtok (s : string) (sep : ascii) : list string := filter (fun t => t <> "") (Split s sep).

(** The longest prefix of digits in a base. *)
Fixpoint scan_base (digit : ascii -> option Z) (base acc : Z) (s : string) : Z :=
  match s with
  | EmptyString => acc
  | String c s' => match digit c with Some d => scan_base digit base (base * acc + d) s' | None => acc end
  end.

Definition scan_sign (s : string) : bool * string :=
  match s with String "-" s' => (true, s') | String "+" s' => (false, s') | _ => (false, s) end.

(** glibc: [strtol], which is saturated, and a conversion to [int]. *)
Definition atoi (s : string) : Z :=
  let '(neg, s) := scan_sign (trim_left s) in
  let n := scan_base char_digit 10 0 s in
  int32 (Z.max (- 2 ^ 63) (Z.min (2 ^ 63 - 1) (if neg then - n else n))).

Definition hex_digit (c : ascii) : option Z :=
  match char_digit c with
  | Some d => Some d
  | None =>
      let n := nat_of_ascii c in
      if (97 <=? n)%nat && (n <=? 102)%nat then Some (Z.of_nat n - 87)
      else if (65 <=? n)%nat && (n <=? 70)%nat then Some (Z.of_nat n - 55) else None
  end.

(** [sscanf(s, "%x", &x)]; [None] leaves [x] as it is. *)
Definition scan_hex (s : string) : option Z :=
  let '(neg, s) := scan_sign (trim_left s) in
  let s := match s with String "0" (String "x" s') => s' | String "0" (String "X" s') => s' | _ => s end in
  match s with
  | EmptyString => None
  | String c _ =>
      match hex_digit c with
      | None => None
      | Some _ => let n := Z.min (2 ^ 64 - 1) (scan_base hex_digit 16 0 s) in Some (int32 (if neg then - n else n))
      end
  end.

(** ** The kernel *)

Record perf_event_attr := mkAttr {
  pea_type : Z;
  pea_config : Z;
  pea_disabled : bool;
  pea_exclude_kernel : bool;
}.

Definition PERF_TYPE_HARDWARE : Z := 0.
Definition PERF_COUNT_HW_CPU_CYCLES : Z := 0.
Definition PERF_COUNT_HW_INSTRUCTIONS : Z := 1.
Definition PERF_COUNT_HW_CACHE_REFERENCES : Z := 2.
Definition PERF_COUNT_HW_CACHE_MISSES : Z := 3.

Class Kernel := {
  (** [os.Stat] of the directory of intel_cqm, and the files below it. *)
  k_stat : string -> bool;
  k_file : string -> result string;
  (** Whether the directory of a cgroup can be opened. *)
  k_open : string -> bool;
  (** Whether a counter of a cgroup can be opened on a CPU, in the group of a
      leader or on its own. *)
  k_perf_open : string -> perf_event_attr -> Z -> bool -> bool;
  (** The counts that [read] returns for the group of a cgroup and the CPU at an index. *)
  k_read : string -> nat -> option (list Z);
  (** What the buffer on the stack holds before. *)
  k_stack : list Z;
}.

(** ** The state of the package *)

Record pmu := mkPmu {
  intelCQMChecked : bool;
  intelCQMSupported : bool;
  llc_type : Z;
  llc_config : Z;
  llc_scale : Z;
}.

Definition pmu_init : pmu := mkPmu false false 0 0 0.

Definition intelCQMPath : string := "/sys/bus/event_source/devices/intel_cqm".

Section Pmu.
Context {K : Kernel}.

(** The process dies of a null pointer when there is no second token. *)
Definition set_llc_config (p : pmu) : outcome (Z * pmu) :=
  match k_file (intelCQMPath +:+ "/type") with
  | Err _ => Ret (-1, p)
  | Ok tmp =>
      let p := mkPmu (intelCQMChecked p) (intelCQMSupported p) (atoi tmp) (llc_config p) (llc_scale p) in
      match k_file (intelCQMPath +:+ "/events/llc_occupancy.scale") with
      | Err _ => Ret (-1, p)
      | Ok tmp =>
          let p := mkPmu (intelCQMChecked p) (intelCQMSupported p) (llc_type p) (llc_config p) (atoi tmp) in
          match k_file (intelCQMPath +:+ "/events/llc_occupancy") with
          | Err _ => Ret (-1, p)
          | Ok tmp =>
              match strtok tmp "," with
              | [] => Ret (0, p)
              | token1 :: _ =>
                  match strtok token1 "=" with
                  | _ :: token2 :: _ =>
                      Ret (0, mkPmu (intelCQMChecked p) (intelCQMSupported p) (llc_type p) (default (llc_config p) (scan_hex token2)) (llc_scale p))
                  | _ => Crash (Panic "segmentation fault")
                  end
              end
          end
      end
  end.

Definition checkIntelCqmSupported (p : pmu) : outcome (bool * pmu) :=
  if intelCQMChecked p then Ret (intelCQMSupported p, p)
  else if negb (k_stat intelCQMPath) then Ret (false, mkPmu true false (llc_type p) (llc_config p) (llc_scale p))
  else
    r ← set_llc_config p;
    let '(ret, p) := r in
    let supported := negb (ret =? -1) in
    Ret (supported, mkPmu true supported (llc_type p) (llc_config p) (llc_scale p)).

(** ** get_cpi *)

Record collectdatas := mkCollect {
  instructions : Z;
  cycles : Z;
  cpi : float64;
  cachemisses : Z;
  cachereferences : Z;
  llcoccupancy : Z;
}.

Definition no_data : collectdatas := mkCollect 0 0 fzero 0 0 0.

(** The directory of the cgroup, and [fds[i][j]]. *)
Inductive handle := HCgroup | HEvent (i j : nat).

#[global] Instance handle_eq_dec : EqDecision handle.
Proof. solve_decision. Defined.

Inductive syscall :=
| SOpenDir
| SPerfOpen (i j : nat)
| SReset (i : nat)
| SEnable (i : nat)
| SSleep (seconds : Z)
| SDisable (i : nat)
| SRead (i : nat)
| SClose (h : handle).

#[global] Instance syscall_eq_dec : EqDecision syscall.
Proof. solve_decision. Defined.

Record cpi_run := mkRun {
  ret : Z;
  output : collectdatas;
  calls : list syscall;
}.

Definition CPU_LIMITS : nat := 256.

(** The CPUs of a list such as [2,3,5]; other tokens are left out. *)
Definition parse_cpus (cpu_str : string) : list Z :=
  map atoi (filter (fun token => is_Some (parse_nonempty token)) (strtok cpu_str ",")).

(** The counters of a CPU, in the order they are opened; the first leads. *)
Definition counters (p : pmu) (collect_llc : bool) : list perf_event_attr :=
  [mkAttr PERF_TYPE_HARDWARE PERF_COUNT_HW_CPU_CYCLES true true;
   mkAttr PERF_TYPE_HARDWARE PERF_COUNT_HW_INSTRUCTIONS false true;
   mkAttr PERF_TYPE_HARDWARE PERF_COUNT_HW_CACHE_REFERENCES false true;
   mkAttr PERF_TYPE_HARDWARE PERF_COUNT_HW_CACHE_MISSES false true] ++
  (if collect_llc then [mkAttr (llc_type p) (llc_config p) true false] else []).

(** The counters [attrs] of the CPU at index [i], from the [j]-th on. *)
Fixpoint open_counters (path : string) (i : nat) (cpu : Z) (j : nat) (attrs : list perf_event_attr) (tr : list syscall) : bool * list syscall :=
  match attrs with
  | [] => (true, tr)
  | a :: attrs' =>
      if k_perf_open path a cpu (negb (j =? 0)%nat) then open_counters path i cpu (S j) attrs' (tr ++ [SPerfOpen i j])
      else (false, tr)
  end.

Fixpoint open_cpus (path : string) (attrs : list perf_event_attr) (i : nat) (cpus : list Z) (tr : list syscall) : bool * list syscall :=
  match cpus with
  | [] => (true, tr)
  | cpu :: cpus' =>
      if cpu =? -1 then (false, tr)
      else
        let '(ok, tr) := open_counters path i cpu 0 attrs tr in
        if ok then open_cpus path attrs (S i) cpus' tr else (false, tr)
  end.

(** One CPU is added to the output. *)
Definition add_counts (p : pmu) (collect_llc : bool) (values : list Z) (out : collectdatas) (llc_count : Z) : collectdatas * Z :=
  let v := fun k => nth k values 0 in
  let llc := if collect_llc && (0 <? v 4%nat) then (if 0 <? llc_scale p then uint64 (v 4%nat * llc_scale p) else v 4%nat) else 0 in
  (mkCollect (uint64 (instructions out + v 1%nat)) (uint64 (cycles out + v 0%nat)) (cpi out)
     (uint64 (cachemisses out + v 3%nat)) (uint64 (cachereferences out + v 2%nat)) (uint64 (llcoccupancy out + llc)),
   if collect_llc && (0 <? v 4%nat) then llc_count + 1 else llc_count).

Definition close_counters (collect_llc : bool) (i : nat) : list syscall :=
  map (fun j => SClose (HEvent i j)) (if collect_llc then [0; 1; 2; 3; 4]%nat else [0; 1; 2; 3]%nat).

(** The buffer keeps what a shorter read does not overwrite. *)
Fixpoint read_cpus (path : string) (p : pmu) (collect_llc : bool) (idx : list nat) (buf : list Z) (out : collectdatas) (llc_count : Z) (tr : list syscall) :
    bool * (collectdatas * Z * list syscall) :=
  match idx with
  | [] => (true, (out, llc_count, tr))
  | i :: idx' =>
      match k_read path i with
      | None => (false, (out, llc_count, tr))
      | Some values =>
          let buf := values ++ drop (length values) buf in
          let '(out, llc_count) := add_counts p collect_llc buf out llc_count in
          read_cpus path p collect_llc idx' buf out llc_count (tr ++ SRead i :: close_counters collect_llc i)
      end
  end.

(** The averages at the end. *)
Definition finish (out : collectdatas) (llc_count : Z) : collectdatas :=
  let llc := if negb (llc_count =? 0) then llcoccupancy out `div` llc_count else llcoccupancy out in
  let c := if negb (instructions out =? 0) then fdiv (float64_of_Z (cycles out)) (float64_of_Z (instructions out)) else cpi out in
  mkCollect (instructions out) (cycles out) c (cachemisses out) (cachereferences out) llc.

(** The indices of the CPUs are those of [cpu_arr]; its 256th place holds the end mark. *)
Definition get_cpi (p : pmu) (interval : Z) (cgroup_path cpu_str : string) (output0 : collectdatas) (collect_llc : bool) : outcome cpi_run :=
  let cpus := parse_cpus cpu_str in
  let idx := seq 0 (length cpus) in
  if (CPU_LIMITS <=? length cpus)%nat then Crash (Panic "write outside of cpu_arr")
  else if negb (k_open cgroup_path) then Ret (mkRun (-1) output0 [])
  else
    let '(ok, tr) := open_cpus cgroup_path (counters p collect_llc) 0 cpus [SOpenDir] in
    if negb ok then Ret (mkRun (-1) no_data tr)
    else
      let tr := tr ++ concat (map (fun i => [SReset i; SEnable i]) idx) ++ [SSleep interval] ++ map SDisable idx in
      let '(ok, (out, llc_count, tr)) := read_cpus cgroup_path p collect_llc idx k_stack no_data 0 tr in
      if negb ok then Ret (mkRun (-1) out tr)
      else Ret (mkRun 0 (finish out llc_count) (tr ++ [SClose HCgroup])).

(** ** GetPMUValue *)

Record PerfData := mkPerfData {
  pd_Instructions : float64;
  pd_Cycles : float64;
  pd_CPI : float64;
  pd_CPUUsage : float64;
  pd_CacheMisses : float64;
  pd_CacheReference : float64;
  pd_LLCOccupancy : float64;
  pd_Timestamp : time;
}.

(** The value that [get_cpi] returns is not looked at. *)
Definition GetPMUValue (p : pmu) (now : time) (period : Z) (cgroupPath cpusets : string) :
    outcome (result PerfData * pmu * list syscall) :=
  r ← checkIntelCqmSupported p;
  let '(_, p) := r in
  run ← get_cpi p (int32 period) cgroupPath cpusets no_data (intelCQMSupported p);
  let pc := output run in
  Ret (Ok {| pd_Timestamp := now;
             pd_Instructions := float64_of_Z (instructions pc);
             pd_Cycles := float64_of_Z (cycles pc);
             pd_LLCOccupancy := fdiv (float64_of_Z (int64 (llcoccupancy pc `div` 1024))) (float64_of_Z 1024);
             pd_CacheReference := float64_of_Z (cachereferences pc);
             pd_CacheMisses := float64_of_Z (cachemisses pc);
             pd_CPI := fdiv (float64_of_Z (int64_of_float64 (fadd (fmul (cpi pc) (float64_of_Z 1000)) (flit 1 2)))) (float64_of_Z 1000);
             pd_CPUUsage := fzero |}, p, calls run).

(** ** What is opened, read and closed *)

(** Everything that [get_cpi] opens can be opened. *)
Definition all_open (path : string) (attrs : list perf_event_attr) (cpus : list Z) : Prop :=
  Forall (fun cpu => cpu <> -1 /\ forall j a, attrs !! j = Some a -> k_perf_open path a cpu (negb (j =? 0)%nat) = true) cpus.

Definition opens (n i : nat) : list syscall := map (SPerfOpen i) (seq 0 n).

Definition reads (collect_llc : bool) (i : nat) : list syscall := SRead i :: close_counters collect_llc i.

(** The calls of a whole run: all are opened, then enabled, then there is the
    wait, then all are disabled, then read. *)
Definition all_calls (n : nat) (collect_llc : bool) (interval : Z) (idx : list nat) : list syscall :=
  (([SOpenDir] ++ concat (map (opens n) idx)) ++ concat (map (fun i => [SReset i; SEnable i]) idx) ++ [SSleep interval] ++ map SDisable idx) ++
  concat (map (reads collect_llc) idx) ++ [SClose HCgroup].

Lemma open_counters_shape path i cpu j attrs tr :
  exists b n, open_counters path i cpu j attrs tr = (b, tr ++ map (SPerfOpen i) (seq j n)) /\ (b = true -> n = length attrs).
Proof.
  revert j tr. induction attrs as [|a attrs IH]; intros j tr; cbn [open_counters].
  - exists true, O. by rewrite app_nil_r.
  - destruct (k_perf_open _ _ _ _).
    + destruct (IH (S j) (tr ++ [SPerfOpen i j])) as (b & n & -> & Hn). exists b, (S n). rewrite <- app_assoc. split; [done|].
      intros Hb. cbn. by rewrite Hn.
    + exists false, O. by rewrite app_nil_r.
Qed.

Lemma open_counters_ok path i cpu j attrs tr :
  (forall k a, attrs !! k = Some a -> k_perf_open path a cpu (negb (j + k =? 0)%nat) = true) ->
  open_counters path i cpu j attrs tr = (true, tr ++ map (SPerfOpen i) (seq j (length attrs))).
Proof.
  revert j tr. induction attrs as [|a attrs IH]; intros j tr H; cbn [open_counters]; [by rewrite app_nil_r|].
  pose proof (H O a eq_refl) as H0. rewrite Nat.add_0_r in H0. rewrite H0, IH, <- app_assoc; [done|].
  intros k x Hk. replace (S j + k)%nat with (j + S k)%nat by lia. by apply H.
Qed.

Lemma open_cpus_shape path attrs i cpus tr :
  exists b added, open_cpus path attrs i cpus tr = (b, tr ++ added) /\ Forall (fun c => exists i j, c = SPerfOpen i j) added /\
    (b = true -> added = concat (map (opens (length attrs)) (seq i (length cpus)))).
Proof.
  assert (Hop : forall i l, Forall (fun c => exists i j, c = SPerfOpen i j) (map (SPerfOpen i) l)).
  { intros k l. apply Forall_forall. intros c Hc. apply list_elem_of_In, in_map_iff in Hc as (j & <- & _). by eexists _, _. }
  revert i tr. induction cpus as [|cpu cpus IH]; intros i tr; cbn [open_cpus].
  { exists true, []. by rewrite app_nil_r. }
  destruct (cpu =? -1); [exists false, []; by rewrite app_nil_r|].
  destruct (open_counters_shape path i cpu 0 attrs tr) as (b & n & -> & Hn). destruct b.
  - destruct (IH (S i) (tr ++ map (SPerfOpen i) (seq 0 n))) as (b & added & -> & Ha & Hb). rewrite (Hn eq_refl), <- app_assoc.
    eexists b, _. split; [done|]. split; [by apply Forall_app|]. intros ->. by rewrite Hb.
  - eexists false, _. by split.
Qed.

Lemma open_cpus_ok path attrs i cpus tr :
  all_open path attrs cpus -> open_cpus path attrs i cpus tr = (true, tr ++ concat (map (opens (length attrs)) (seq i (length cpus)))).
Proof.
  intros H. revert i tr. induction H as [|cpu cpus [Hne Hcpu] _ IH]; intros i tr; cbn [open_cpus]; [by rewrite app_nil_r|].
  rewrite (proj2 (Z.eqb_neq _ _) Hne), open_counters_ok by done. by rewrite IH, <- app_assoc.
Qed.

Lemma read_cpus_shape path p c idx buf out cnt tr :
  exists b out' cnt' k, read_cpus path p c idx buf out cnt tr = (b, (out', cnt', tr ++ concat (map (reads c) (take k idx)))) /\
    (b = true -> take k idx = idx).
Proof.
  revert buf out cnt tr. induction idx as [|i idx IH]; intros buf out cnt tr; cbn [read_cpus].
  { exists true, out, cnt, O. by rewrite app_nil_r. }
  destruct (k_read path i) as [values|]; [|exists false, out, cnt, O; by rewrite app_nil_r].
  destruct (add_counts _ _ _ _ _) as [out1 cnt1]. destruct (IH (values ++ drop (length values) buf) out1 cnt1 (tr ++ reads c i)) as (b & out' & cnt' & k & E & Hb).
  change (SRead i :: close_counters c i) with (reads c i). rewrite E, <- app_assoc. exists b, out', cnt', (S k). split; [done|].
  intros ->. cbn [take]. by rewrite Hb.
Qed.

(** The quotient is only taken at the end. *)
Lemma read_cpus_keeps path p c idx buf out cnt tr :
  let '(_, (out', _, tr')) := read_cpus path p c idx buf out cnt tr in
  cpi out' = cpi out /\ ((forall i, SRead i ∉ tr') -> out' = out).
Proof.
  revert buf out cnt tr. induction idx as [|i idx IH]; intros buf out cnt tr; cbn [read_cpus]; [done|].
  destruct (k_read path i) as [values|]; [|done]. destruct (add_counts _ _ _ _ _) as [out1 cnt1] eqn:Ea.
  pose proof (read_cpus_shape path p c idx (values ++ drop (length values) buf) out1 cnt1 (tr ++ SRead i :: close_counters c i)) as (b & o & n & k & E & _).
  specialize (IH (values ++ drop (length values) buf) out1 cnt1 (tr ++ SRead i :: close_counters c i)). rewrite E in *. destruct IH as [-> _].
  split; [by injection Ea as <- _|]. intros Hn. destruct (Hn i). rewrite !elem_of_app. left. right. left.
Qed.

(** ** The counts *)

(** The sum of a column of counts, and the occupancy of the CPUs that have one. *)
Definition total (k : nat) (vals : list (list Z)) : Z := uint64 (foldr Z.add 0 (map (fun v => nth k v 0) vals)).

Definition occupancies (p : pmu) (vals : list (list Z)) : list Z :=
  map (fun x => if 0 <? llc_scale p then uint64 (x * llc_scale p) else x) (filter (fun x => 0 < x) (map (fun v => nth 4 v 0) vals)).

Definition average (l : list Z) : Z :=
  if (length l =? 0)%nat then 0 else uint64 (foldr Z.add 0 l) `div` Z.of_nat (length l).

Definition counted (p : pmu) (collect_llc : bool) (vals : list (list Z)) : collectdatas := {|
  instructions := total 1 vals;
  cycles := total 0 vals;
  cpi := if total 1 vals =? 0 then fzero else fdiv (float64_of_Z (total 0 vals)) (float64_of_Z (total 1 vals));
  cachemisses := total 3 vals;
  cachereferences := total 2 vals;
  llcoccupancy := if collect_llc then average (occupancies p vals) else 0;
|}.

Definition width (collect_llc : bool) : nat := if collect_llc then 5 else 4.

Lemma add_counts_app p c v rest out cnt : (width c <= length v)%nat -> add_counts p c (v ++ rest) out cnt = add_counts p c v out cnt.
Proof.
  intros H. unfold add_counts. destruct c; cbn [width andb] in *; repeat rewrite (app_nth1 v rest) by lia; done.
Qed.

Lemma read_cpus_ok path p c idx buf out cnt tr vals :
  map (k_read path) idx = map Some vals -> Forall (fun v => (width c <= length v)%nat) vals ->
  read_cpus path p c idx buf out cnt tr =
    (true, (fold_left (fun oc v => add_counts p c v oc.1 oc.2) vals (out, cnt), tr ++ concat (map (reads c) idx))).
Proof.
  revert buf out cnt tr vals. induction idx as [|i idx IH]; intros buf out cnt tr [|v vals] E Hw; try done; cbn [read_cpus].
  { by rewrite app_nil_r. }
  cbn [map] in E. injection E as -> E. apply Forall_cons in Hw as [Hv Hw]. rewrite add_counts_app by done.
  destruct (add_counts p c v out cnt) as [out1 cnt1] eqn:Ea. rewrite (IH _ _ _ _ vals) by done. cbn [fold_left fst snd map concat]. by rewrite Ea, <- app_assoc.
Qed.

Lemma uint64_add_l a b : uint64 (uint64 a + b) = uint64 (a + b).
Proof. unfold uint64, wrap_unsigned. by rewrite Z.add_mod_idemp_l. Qed.

Lemma sum_snoc l x : foldr Z.add 0 (l ++ [x]) = foldr Z.add 0 l + x.
Proof. rewrite foldr_app. cbn [foldr]. rewrite Z.add_0_r. induction l as [|y l IH]; cbn [foldr]; [done|]. rewrite IH. lia. Qed.

Lemma total_snoc k vals v : total k (vals ++ [v]) = uint64 (total k vals + nth k v 0).
Proof. unfold total. rewrite map_app. cbn [map]. by rewrite sum_snoc, uint64_add_l. Qed.

Lemma fold_counts p c vals :
  fold_left (fun oc v => add_counts p c v oc.1 oc.2) vals (no_data, 0) =
  (mkCollect (total 1 vals) (total 0 vals) fzero (total 3 vals) (total 2 vals)
     (if c then uint64 (foldr Z.add 0 (occupancies p vals)) else 0), if c then Z.of_nat (length (occupancies p vals)) else 0).
Proof.
  induction vals as [|v vals IH] using rev_ind; [by destruct c|].
  rewrite fold_left_app, IH. cbn [fold_left fst snd]. unfold add_counts. cbn [instructions cycles cpi cachemisses cachereferences llcoccupancy].
  rewrite <- !total_snoc. unfold occupancies. rewrite !map_app, filter_app. cbn [map]. destruct c; cbn [andb]; [|done].
  destruct (Z.ltb_spec 0 (nth 4 v 0)).
  - rewrite filter_cons_True by done. rewrite filter_nil, map_app. cbn [map]. rewrite sum_snoc, uint64_add_l, length_app. cbn [length]. do 2 f_equal. lia.
  - rewrite filter_cons_False by lia. rewrite filter_nil, app_nil_r. by rewrite uint64_add_l, Z.add_0_r.
Qed.

Lemma finish_counts p c vals :
  finish (fold_left (fun oc v => add_counts p c v oc.1 oc.2) vals (no_data, 0)).1
         (fold_left (fun oc v => add_counts p c v oc.1 oc.2) vals (no_data, 0)).2 = counted p c vals.
Proof.
  rewrite fold_counts. unfold finish, counted, average. cbn [fst snd instructions cycles cpi cachemisses cachereferences llcoccupancy].
  f_equal; [by destruct (total 1 vals =? 0)|]. destruct c; [|done].
  destruct (length (occupancies p vals)) eqn:El; [|done]. by destruct (occupancies p vals).
Qed.

(** When everything can be opened and read, the run counts the events of
    all CPUs over the same interval, adds them up, and closes all that it opened; the occupancy of the cache is
    the average over the CPUs that report one. *)
Theorem get_cpi_counts p interval path cpu_str out0 c vals :
  (length (parse_cpus cpu_str) < CPU_LIMITS)%nat -> k_open path = true -> all_open path (counters p c) (parse_cpus cpu_str) ->
  map (k_read path) (seq 0 (length (parse_cpus cpu_str))) = map Some vals -> Forall (fun v => (width c <= length v)%nat) vals ->
  get_cpi p interval path cpu_str out0 c =
    Ret (mkRun 0 (counted p c vals) (all_calls (width c) c interval (seq 0 (length (parse_cpus cpu_str))))).
Proof.
  intros Hl Hk Ho Hr Hw. unfold get_cpi. rewrite (proj2 (Nat.leb_gt _ _) Hl), Hk. cbn [negb].
  rewrite open_cpus_ok by done. cbn [negb]. erewrite read_cpus_ok by done.
  pose proof (finish_counts p c vals) as Hf. destruct (fold_left _ _ _) as [out cnt]. cbn [fst snd] in Hf. cbn [negb]. rewrite Hf.
  unfold all_calls. rewrite <- (app_assoc (_ ++ _)). by destruct c.
Qed.

(** ** Handles *)

Definition opened (tr : list syscall) : list handle :=
  omap (fun c => match c with SOpenDir => Some HCgroup | SPerfOpen i j => Some (HEvent i j) | _ => None end) tr.

(** What was opened and not closed; a handle is opened once. *)
Definition leaked (tr : list syscall) : list handle := filter (fun h => SClose h ∉ tr) (opened tr).

Lemma elem_of_opened h tr : h ∈ opened tr <-> match h with HCgroup => SOpenDir ∈ tr | HEvent i j => SPerfOpen i j ∈ tr end.
Proof.
  unfold opened. rewrite list_elem_of_omap. split.
  - intros (c & Hc & E). destruct c; try done; injection E as <-; done.
  - intros H. destruct h; by eexists.
Qed.

Lemma all_calls_closed c interval idx : leaked (all_calls (width c) c interval idx) = [].
Proof.
  unfold leaked. apply elem_of_nil_inv. intros h Hh. apply list_elem_of_filter in Hh as [Hn Hh]. apply Hn. clear Hn.
  apply elem_of_opened in Hh. unfold all_calls in *. destruct h as [|i j].
  - rewrite !elem_of_app. right. right. by apply list_elem_of_singleton.
  - rewrite !elem_of_app in *. right. left. rewrite !list_elem_of_In, !in_concat in *.
    assert (Hin : In i idx /\ (j < width c)%nat).
    { destruct Hh as [[[Hh|Hh]|[(l & Hl & Hh)|[Hh|Hh]]]|[(l & Hl & Hh)|Hh]].
      - by destruct Hh.
      - destruct Hh as (l & Hl & Hh). apply in_map_iff in Hl as (k & <- & Hk). apply in_map_iff in Hh as (m & [= -> ->] & Hm).
        apply in_seq in Hm. split; [done|lia].
      - apply in_map_iff in Hl as (k & <- & Hk). by destruct Hh as [?|[?|[]]].
      - by destruct Hh.
      - by apply in_map_iff in Hh as (k & ? & _).
      - apply in_map_iff in Hl as (k & <- & Hk). destruct Hh as [?|Hh]; [done|]. by apply in_map_iff in Hh as (m & ? & _).
      - by destruct Hh. }
    destruct Hin as [Hi Hj]. exists (reads c i). split; [by apply in_map|]. right. unfold close_counters. apply (in_map (fun j => SClose (HEvent i j))).
    destruct c; cbn [width] in Hj; repeat (destruct j as [|j]; [cbn; tauto|]); lia.
Qed.

Lemma opening_calls_open added idx l interval :
  Forall (fun c => exists i j, c = SPerfOpen i j) added ->
  forall h, SClose h ∉ ([SOpenDir] ++ added) ++ concat (map (fun i => [SReset i; SEnable i]) idx) ++ [SSleep interval] ++ map SDisable l.
Proof.
  intros Ha h. rewrite !elem_of_app, !list_elem_of_In, in_concat. intros [[[?|[]]|Hh]|[(x & Hx & Hh)|[[?|[]]|Hh]]]; try done.
  - rewrite Forall_forall in Ha. apply list_elem_of_In in Hh. by destruct (Ha _ Hh) as (i & j & ?).
  - apply in_map_iff in Hx as (i & <- & _). by destruct Hh as [?|[?|[]]].
  - by apply in_map_iff in Hh as (i & ? & _).
Qed.

Lemma unclosed_leaks tr : (forall h, SClose h ∉ tr) -> leaked tr = opened tr.
Proof.
  intros H. unfold leaked. induction (opened tr) as [|h l IH]; [done|]. rewrite filter_cons_True by apply H. by rewrite IH.
Qed.

Lemma reads_keep_cgroup c l : SClose HCgroup ∉ concat (map (reads c) l).
Proof.
  rewrite list_elem_of_In, in_concat. intros (x & Hx & Hh). apply in_map_iff in Hx as (i & <- & _).
  destruct Hh as [?|Hh]; [done|]. by apply in_map_iff in Hh as (j & ? & _).
Qed.

(** A run that succeeds leaves nothing open; one that fails after it opened
    the directory of the cgroup leaves that open, and every counter that it opened when it fails before the first read. *)
Theorem failed_collection_leaks p interval path cpu_str out0 c r :
  get_cpi p interval path cpu_str out0 c = Ret r ->
  (ret r = 0 -> leaked (calls r) = []) /\
  (ret r <> 0 -> k_open path = true ->
     HCgroup ∈ leaked (calls r) /\ ((forall i, SRead i ∉ calls r) -> leaked (calls r) = opened (calls r))).
Proof.
  unfold get_cpi. destruct (_ <=? _)%nat; [done|]. destruct (k_open path); cbn [negb]; [|by intros [= <-]].
  destruct (open_cpus_shape path (counters p c) 0 (parse_cpus cpu_str) [SOpenDir]) as (b & added & -> & Ha & Hb). destruct b; cbn [negb].
  2: { intros [= <-]. split; [done|]. intros _ _. cbn [calls].
       pose proof (opening_calls_open added [] [] 0 Ha) as Hno. cbn in Hno.
       assert (E : leaked (SOpenDir :: added) = opened (SOpenDir :: added)).
       { apply unclosed_leaks. intros h Hh. apply (Hno h). right. apply elem_of_app. left. by apply elem_of_cons in Hh as [?|]. }
       split; [|done]. change ([SOpenDir] ++ added) with (SOpenDir :: added). rewrite E. left. }
  match goal with |- context [read_cpus path p c ?idx k_stack no_data 0 ?tr] =>
    destruct (read_cpus_shape path p c idx k_stack no_data 0 tr) as (b & out' & cnt' & k & -> & Hk);
    pose proof (opening_calls_open added idx idx interval Ha) as Hno; set (tr0 := tr) in * end.
  destruct b; cbn [negb]; intros [= <-]; cbn [ret calls]; fold tr0.
  - split; [|done]. intros _. unfold tr0. rewrite Hk, Hb by done. rewrite <- (app_assoc (_ ++ _)).
    replace (length (counters p c)) with (width c) by (by destruct c). apply all_calls_closed.
  - split; [done|]. intros _ _. split.
    + apply list_elem_of_filter. split.
      * change (SClose HCgroup ∉ tr0 ++ concat (map (reads c) (take k (seq 0 (length (parse_cpus cpu_str)))))).
        intros [Hh|Hh]%elem_of_app; [by apply (Hno HCgroup)|by apply (reads_keep_cgroup c) in Hh].
      * apply elem_of_opened. left.
    + intros Hr. destruct (take k _) as [|i l]; [change (concat (map (reads c) [])) with (@nil syscall); rewrite app_nil_r; by apply unclosed_leaks|].
      exfalso. apply (Hr i). change (SRead i ∈ tr0 ++ concat (map (reads c) (i :: l))). apply elem_of_app. right. left.
Qed.

(** A collection that fails is not reported: [GetPMUValue] answers a record
    without an error, in which the cycles per instruction are 0, and so are all counts when the failure is before
    the reads. *)
Theorem GetPMUValue_hides_failure p p' supported now period path cpusets r :
  checkIntelCqmSupported p = Ret (supported, p') ->
  get_cpi p' (int32 period) path cpusets no_data (intelCQMSupported p') = Ret r -> ret r <> 0 ->
  exists d, GetPMUValue p now period path cpusets = Ret (Ok d, p', calls r) /\ pd_CPI d = fzero /\ pd_Timestamp d = now /\
    ((forall i, SRead i ∉ calls r) -> pd_Instructions d = fzero /\ pd_Cycles d = fzero /\ pd_CacheMisses d = fzero).
Proof.
  intros Hp Hr Hne. unfold GetPMUValue. rewrite Hp. cbn. rewrite Hr. cbn. eexists. split; [done|].
  cbn [pd_CPI pd_Timestamp pd_Instructions pd_Cycles pd_CacheMisses].
  assert (H : cpi (output r) = fzero /\ ((forall i, SRead i ∉ calls r) -> output r = no_data)).
  { clear Hp. unfold get_cpi in Hr. destruct (_ <=? _)%nat; [done|]. destruct (k_open path); cbn [negb] in Hr; [|by injection Hr as <-].
    destruct (open_cpus _ _ _ _ _) as [b tr]. destruct b; cbn [negb] in Hr; [|by injection Hr as <-].
    match type of Hr with context [read_cpus ?path ?p ?c ?idx ?buf ?out ?cnt ?tr] => pose proof (read_cpus_keeps path p c idx buf out cnt tr) as Hk end.
    destruct (read_cpus _ _ _ _ _ _ _ _) as [b [[out cnt] tr']]. destruct b; cbn [negb] in Hr; injection Hr as <-; [done|]. exact Hk. }
  destruct H as [-> H]. split; [vm_compute; reflexivity|]. split; [done|]. intros Hn. by rewrite (H Hn).
Qed.
End Pmu.

(** ** Collections at the same time

    The store collects all cgroups at once, and [strtok] keeps its place in a
    variable that the threads share.  A step of a parser is one call of it. *)

Fixpoint skip_sep (s : string) (sep : ascii) : string :=
  match s with String c s' => if Ascii.eqb c sep then skip_sep s' sep else s | EmptyString => s end.

(** The next token of a text and the place that is kept. *)
Definition strtok_call (s : string) (sep : ascii) : option string * string :=
  match skip_sep s sep with
  | EmptyString => (None, "")
  | s => match cut_byte s sep with Some (token, rest) => (Some token, rest) | None => (Some s, "") end
  end.

Inductive parser :=
| PStart (cpu_str : string)
| PLoop (cpu_arr : list Z)
| PDone (cpu_arr : list Z).

Definition parser_next (cpu_arr : list Z) (s : string) : parser * string :=
  match strtok_call s "," with
  | (None, saved) => (PDone cpu_arr, saved)
  | (Some token, saved) => (PLoop (cpu_arr ++ (match parse_nonempty token with Some _ => [atoi token] | None => [] end)), saved)
  end.

Definition parser_step (t : parser) (saved : string) : parser * string :=
  match t with
  | PStart s => parser_next [] s
  | PLoop cpu_arr => parser_next cpu_arr saved
  | PDone _ => (t, saved)
  end.

(** The parsers take steps in the order of a schedule. *)
Fixpoint parse_run (sched : list nat) (ts : list parser) (saved : string) : list parser * string :=
  match sched with
  | [] => (ts, saved)
  | i :: sched' =>
      match ts !! i with
      | None => parse_run sched' ts saved
      | Some t => let '(t', saved') := parser_step t saved in parse_run sched' (<[i := t']> ts) saved'
      end
  end.

Lemma Split_cut s sep :
  Split s sep = match cut_byte s sep with Some (a, b) => a :: Split b sep | None => [s] end.
Proof.
  induction s as [|c s IH]; cbn [Split cut_byte]; [done|]. destruct (Ascii.eqb c sep); [done|]. rewrite IH.
  by destruct (cut_byte s sep) as [[a b]|].
Qed.

Lemma strtok_skip s sep : strtok (skip_sep s sep) sep = strtok s sep.
Proof.
  induction s as [|c s IH]; cbn [skip_sep]; [done|]. destruct (Ascii.eqb c sep) eqn:E; [|done]. rewrite IH.
  unfold strtok. cbn [Split]. rewrite E. by rewrite filter_cons_False by auto.
Qed.

Lemma skip_sep_head s sep c s' : skip_sep s sep = String c s' -> Ascii.eqb c sep = false.
Proof. induction s as [|d s IH]; cbn [skip_sep]; [done|]. destruct (Ascii.eqb d sep) eqn:E; [done|]. by intros [= <- <-]. Qed.

(** The calls of [strtok] yield its tokens one after the other. *)
Lemma strtok_tokens s sep :
  strtok s sep = match strtok_call s sep with (None, _) => [] | (Some token, rest) => token :: strtok rest sep end.
Proof.
  rewrite <- strtok_skip. unfold strtok_call. destruct (skip_sep s sep) as [|c s'] eqn:E; [done|]. apply skip_sep_head in E.
  unfold strtok at 1. rewrite Split_cut. cbn [cut_byte]. rewrite E.
  destruct (cut_byte s' sep) as [[a b]|]; [by rewrite filter_cons_True|]. by rewrite filter_cons_True.
Qed.

Lemma parser_alone tokens s acc :
  strtok s "," = tokens ->
  parse_run (repeat 0%nat (S (length tokens))) [PLoop acc] s =
    ([PDone (acc ++ map atoi (filter (fun token => is_Some (parse_nonempty token)) tokens))], "").
Proof.
  revert s acc. induction tokens as [|token tokens IH]; intros s acc E; rewrite strtok_tokens in E.
  - cbn. unfold parser_next. unfold strtok_call in *. destruct (skip_sep s ","); [by rewrite app_nil_r|]. by destruct (cut_byte _ _) as [[??]|].
  - destruct (strtok_call s ",") as [[t|] rest] eqn:Ec; [|done]. injection E as -> E.
    set (acc' := acc ++ (match parse_nonempty token with Some _ => [atoi token] | None => [] end)).
    assert (Hs : parse_run (repeat 0%nat (S (length (token :: tokens)))) [PLoop acc] s = parse_run (repeat 0%nat (S (length tokens))) [PLoop acc'] rest)
      by (cbn [length repeat parse_run lookup list_lookup parser_step]; unfold parser_next; by rewrite Ec).
    rewrite Hs, IH by done. unfold acc'. rewrite filter_cons. destruct (parse_nonempty token) eqn:Ep.
    + rewrite decide_True by done. by rewrite <- app_assoc.
    + rewrite decide_False by (by apply is_Some_None). by rewrite app_nil_r.
Qed.

(** The loop over [strtok] of one collection alone ends after as many calls
    as there are tokens and one more, with the CPUs of its list, whatever place was kept before. *)
Theorem parser_alone_correct s saved :
  parse_run (repeat 0%nat (S (length (strtok s ",")))) [PStart s] saved = ([PDone (parse_cpus s)], "").
Proof.
  transitivity (parse_run (repeat 0%nat (S (length (strtok s ",")))) [PLoop []] s); [done|]. by apply (parser_alone (strtok s ",")).
Qed.

(** Two lists parsed at the same time: the first cgroup is counted on a CPU of
    the second one, and the second one on one CPU only. *)
Example parsers_interfere :
  parse_run [0; 1; 0; 1; 0]%nat [PStart "0,1"; PStart "2,3"] "" = ([PDone [0; 3]; PDone [2]], "") /\
  parse_run [0; 0; 0; 1; 1; 1]%nat [PStart "0,1"; PStart "2,3"] "" = ([PDone [0; 1]; PDone [2; 3]], "").
Proof. vm_compute. by split. Qed.

(** ** Witnesses *)

(** Two CPUs; the counters of CPU 7 cannot be opened. *)
Definition ex_kernel : Kernel := {|
  k_stat := fun _ => true;
  k_file := fun path => if HasPrefix path (intelCQMPath +:+ "/type") then Ok "9
"
                        else if HasPrefix path (intelCQMPath +:+ "/events/llc_occupancy.scale") then Ok "4096
"
                        else Ok "event=0x01
";
  k_open := fun _ => true;
  k_perf_open := fun _ _ cpu _ => negb (cpu =? 7);
  k_read := fun _ i => Some (match i with O => [300; 100; 20; 5; 2] | _ => [500; 300; 30; 6; 0] end);
  k_stack := [];
|}.

Definition ex_pmu : pmu := mkPmu true true 9 1 4096.

Example ex_supported : @checkIntelCqmSupported ex_kernel pmu_init = Ret (true, ex_pmu).
Proof. vm_compute. reflexivity. Qed.

Lemma get_cpi_counts_witness :
  @get_cpi ex_kernel ex_pmu 5 "/sys/fs/cgroup/perf_event/kubepods/pod1" "0,2" no_data true =
    Ret (mkRun 0 (mkCollect 400 800 (float64_of_Z 2) 11 50 8192) (all_calls 5 true 5 [0; 1]%nat)).
Proof.
  refine (@get_cpi_counts ex_kernel ex_pmu 5 "/sys/fs/cgroup/perf_event/kubepods/pod1" "0,2" no_data true [[300; 100; 20; 5; 2]; [500; 300; 30; 6; 0]] _ _ _ _ _).
  - vm_compute. lia.
  - reflexivity.
  - repeat constructor; try done; intros j a _; done.
  - reflexivity.
  - repeat constructor.
Defined.

(** The third counter list cannot be opened: five handles per CPU and the
    directory stay open. *)
Lemma failed_collection_leaks_witness :
  match @get_cpi ex_kernel ex_pmu 5 "/sys/fs/cgroup/perf_event/kubepods/pod1" "0,2,7" no_data true with
  | Ret r => ret r = -1 /\ HCgroup ∈ leaked (calls r) /\ length (leaked (calls r)) = 11%nat
  | Crash _ => False
  end.
Proof.
  destruct (@get_cpi ex_kernel ex_pmu 5 "/sys/fs/cgroup/perf_event/kubepods/pod1" "0,2,7" no_data true) as [r|] eqn:E; [|vm_compute in E; discriminate E].
  assert (Hr : ret r = -1) by (vm_compute in E; injection E as <-; reflexivity).
  split; [exact Hr|]. split.
  - apply (proj2 (@failed_collection_leaks ex_kernel ex_pmu 5 "/sys/fs/cgroup/perf_event/kubepods/pod1" "0,2,7" no_data true r E)); [rewrite Hr; discriminate|reflexivity].
  - vm_compute in E. injection E as <-. vm_compute. reflexivity.
Defined.

Lemma GetPMUValue_hides_failure_witness :
  exists d, fst (fst (match @GetPMUValue ex_kernel pmu_init 1000 5 "/sys/fs/cgroup/perf_event/kubepods/pod1" "7" with Ret x => x | Crash _ => (Err "", pmu_init, []) end)) = Ok d /\
    pd_CPI d = fzero /\ pd_Cycles d = fzero /\ pd_Timestamp d = 1000.
Proof.
  destruct (@GetPMUValue_hides_failure ex_kernel pmu_init ex_pmu true 1000 5 "/sys/fs/cgroup/perf_event/kubepods/pod1" "7" (mkRun (-1) no_data [SOpenDir]))
    as (d & E & H1 & H2 & H3).
  - vm_compute. reflexivity.
  - vm_compute. reflexivity.
  - discriminate.
  - exists d. rewrite E. split; [reflexivity|]. split; [exact H1|]. split; [|exact H2]. apply H3. intros i Hi. apply list_elem_of_singleton in Hi. discriminate Hi.
Defined.

(** 256 CPUs are one too many for the array. *)
Example too_many_cpus :
  @get_cpi ex_kernel ex_pmu 5 "/cg" (Join (map Itoa (map Z.of_nat (seq 0 256))) ",") no_data true = Crash (Panic "write outside of cpu_arr").
Proof. vm_compute. reflexivity. Qed.
