(* ===== verification/PerfStore.v ===== *)
(** * Stores of performance counters and of RDT

    pkg/caelus/statestore/common: perf/perf.go and rdt/rdt.go keep the counters
    of online cgroups in buffers of timed values, rdt/rdt/rdt.go reads them from
    the output of a command, and state_common.go starts the stores.  The buffers,
    the command and what libcontainer reads are parameters; the counters are
    those of Pmu.v, and the sets of CPUs those of Cgroup.v. *)

From Stdlib Require Import Ascii.
From S2P Require Import Prelude GoStrings GoFloat Config ProjectFile Cgroup CgroupStore Pmu.

#[local] Open Scope string_scope.
#[local] Open Scope Z_scope.
#[local] Open Scope list_scope.

(** The buffer of cadvisor; [Get(0)] panics when there is no value. *)
Class Buffer (V T : Type) := {
  b_New : duration -> T;
  b_Add : T -> time -> V -> T;
  b_Get : T -> option V;
  b_InTimeRange : T -> time -> time -> Z -> list V;
}.

(** ** The caches, which both stores have *)

Section Store.
Context {RO : RangeOrder} {V T : Type} {B : Buffer V T} (maxAge : duration) (kind : string).

#[local] Abbreviation caches := (gmap string T).

(** The two steps of adding a value: only the first holds the lock. *)
Definition insertCache (c : caches) (key : string) : caches := <[key := default (b_New maxAge) (c !! key)]> c.
Definition addStats (c : caches) (key : string) (now : time) (v : V) : caches := alter (fun t => b_Add t now v) key c.

Definition addContainer (c : caches) (key : string) (now : time) (v : V) : caches := addStats (insertCache c key) key now v.

(** What the two calls of [time.Now] return for a cache. *)
Definition delContainers (clock : string -> time * time) (c : caches) : caches :=
  filter (fun kt => b_InTimeRange kt.2 (time_Add (clock kt.1).1 (- (10 * Minute))) (clock kt.1).2 (-1) <> []) c.

Definition not_found (key : string) : error := kind +:+ " resource key " +:+ key +:+ " not found".

Definition GetRangeStats (c : caches) (key : string) (start fin : time) (count : Z) : result (list V) :=
  match c !! key with None => Err (not_found key) | Some cache => Ok (b_InTimeRange cache start fin count) end.

Definition GetRecentState (c : caches) (key : string) : outcome (result V) :=
  match c !! key with
  | None => Ret (Err (not_found key))
  | Some cache => match b_Get cache with None => Crash (Panic "index out of range") | Some v => Ret (Ok v) end
  end.

Definition ListRangeStats (c : caches) (start fin : time) (count : Z) : gmap string (list V) :=
  (fun cache => b_InTimeRange cache start fin count) <$> c.

Fixpoint recentLoop (l : list (string * T)) : outcome (list V) :=
  match l with
  | [] => Ret []
  | (_, cache) :: l' =>
      match b_Get cache with
      | None => Crash (Panic "index out of range")
      | Some value => rest ← recentLoop l'; Ret (value :: rest)
      end
  end.

Definition ListRecentStats (c : caches) : outcome (list V) := recentLoop (range_map "recent" c).

(** *** Reading *)

(** A range of a buffer is made of its values. *)
Context (Hrange : forall t s f n, b_InTimeRange t s f n <> [] -> b_Get t <> None).

(** Every buffer has a value. *)
Definition no_empty_cache (c : caches) : Prop := forall k t, c !! k = Some t -> b_Get t <> None.

Lemma delContainers_lookup clock c k t :
  delContainers clock c !! k = Some t <-> c !! k = Some t /\ b_InTimeRange t (time_Add (clock k).1 (- (10 * Minute))) (clock k).2 (-1) <> [].
Proof. unfold delContainers. by rewrite map_lookup_filter_Some. Qed.

Lemma delContainers_no_empty clock c : no_empty_cache (delContainers clock c).
Proof. intros k t [_ H]%delContainers_lookup. by apply Hrange in H. Qed.

Lemma addContainer_lookup c key now v k :
  addContainer c key now v !! k = if decide (k = key) then Some (b_Add (default (b_New maxAge) (c !! key)) now v) else c !! k.
Proof.
  unfold addContainer, addStats, insertCache. case_decide as E; [subst; by rewrite lookup_alter_eq, lookup_insert_eq|].
  by rewrite lookup_alter_ne, lookup_insert_ne.
Qed.

Lemma recentLoop_Ret l : (forall kt, kt ∈ l -> b_Get kt.2 <> None) -> exists vs, recentLoop l = Ret vs /\ map Some vs = map (fun kt => b_Get kt.2) l.
Proof.
  induction l as [|[k t] l IH]; intros H; cbn [recentLoop]; [by exists []|]. pose proof (H (k, t) ltac:(left)) as Ht. cbn [snd] in Ht.
  destruct (b_Get t) as [v|] eqn:E; [|done]. destruct IH as (vs & Hvs & Em); [intros; apply H; by right|].
  exists (v :: vs). cbn. rewrite Hvs, E. by rewrite Em.
Qed.

Lemma recentLoop_Crash l kt : kt ∈ l -> b_Get kt.2 = None -> exists c, recentLoop l = Crash c.
Proof.
  intros Hin Hg. induction Hin as [[k t] l|kt [k' t'] l Hin IH]; cbn [recentLoop snd] in *; [rewrite Hg; by eexists|].
  destruct (b_Get t') as [v|]; [|by eexists]. destruct (IH Hg) as [c ->]. by exists c.
Qed.
(** *** Collecting

    The loop over the cgroups: [one] measures a cgroup, and passes on a state. *)

Context {R St : Type} (one : string -> R -> St -> outcome (option (time * V) * St)).

Fixpoint collectLoop (l : list (string * R)) (st : St) (c : caches) : outcome (St * caches) :=
  match l with
  | [] => Ret (st, c)
  | (k, v) :: l' =>
      r ← one k v st;
      collectLoop l' r.2 (match r.1 with Some (now, m) => addContainer c k now m | None => c end)
  end.

(** What a cgroup adds. *)
Definition collected (st : St) (cgs : gmap string R) (k : string) : option (time * V) :=
  ref ← cgs !! k; match one k ref st with Ret r => r.1 | Crash _ => None end.

(** A buffer after a collection: with the new value, if there is one, and as
    long as it has a value of the last ten minutes. *)
Definition after_collection (clock : string -> time * time) (new : option (time * V)) (old : option T) (k : string) : option T :=
  t ← match new with Some (now, m) => Some (b_Add (default (b_New maxAge) old) now m) | None => old end;
  if decide (b_InTimeRange t (time_Add (clock k).1 (- (10 * Minute))) (clock k).2 (-1) <> []) then Some t else None.

Lemma collectLoop_lookup st l c st' c' :
  (forall k v r, one k v st = Ret r -> r.2 = st) -> NoDup l.*1 -> collectLoop l st c = Ret (st', c') ->
  st' = st /\ forall k, c' !! k = match collected st (list_to_map l) k with
                                 | Some (now, m) => Some (b_Add (default (b_New maxAge) (c !! k)) now m)
                                 | None => c !! k
                                 end.
Proof.
  intros Hst. revert c. induction l as [|[k0 ref] l IH]; intros c Hnd H; cbn [collectLoop] in H.
  { injection H as <- <-. split; [done|]. intros k. unfold collected. cbn. by rewrite lookup_empty. }
  cbn [fmap list_fmap fst] in Hnd. apply NoDup_cons in Hnd as [Hk0 Hnd]. apply outcome_bind_Ret in H as ([new st1] & E & H).
  pose proof (Hst _ _ _ E) as Hst1. cbn in Hst1, H. subst st1. destruct (IH _ Hnd H) as [-> H']. split; [done|]. intros k. rewrite H'.
  unfold collected. cbn [list_to_map fold_right fst snd]. destruct (decide (k = k0)) as [->|Hne].
  - rewrite lookup_insert_eq, not_elem_of_list_to_map_1 by done. cbn. rewrite E. cbn. destruct new as [[now m]|]; [|done].
    rewrite addContainer_lookup. by rewrite decide_True by done.
  - rewrite lookup_insert_ne by done.
    assert (Ek : (match new with Some (now, m) => addContainer c k0 now m | None => c end) !! k = c !! k).
    { destruct new as [[now m]|]; [|done]. rewrite addContainer_lookup. by rewrite decide_False by done. }
    by rewrite Ek.
Qed.

Lemma collection_exact site clock cgs st c st' c' k :
  (forall k v r, one k v st = Ret r -> r.2 = st) -> collectLoop (range_map site cgs) st c = Ret (st', c') ->
  st' = st /\ delContainers clock c' !! k = after_collection clock (collected st cgs k) (c !! k) k.
Proof.
  intros Hst E. destruct (collectLoop_lookup _ _ _ _ _ Hst (NoDup_fst_range site cgs) E) as [-> H]. split; [done|].
  rewrite list_to_map_range in H. unfold after_collection. apply option_eq. intros t. rewrite delContainers_lookup, H.
  destruct (collected st cgs k) as [[now m]|]; [|destruct (c !! k) as [t0|]]; cbn; [..|by split; [intros [? _]|]].
  all: case_decide as Hd; (split; [intros [[= <-] Hr]|intros Hr]); [done|by injection Hr as <-|by rewrite Hd in Hr|done].
Qed.
End Store.

Arguments addStats {V T B}.

(** Between collections the recent values can be listed: after the old
    buffers are removed, in the state that every collection leaves, each buffer has a recent value, and the list has one value of each. *)
Theorem collected_caches_list {RO : RangeOrder} {V T : Type} {B : Buffer V T} (clock : string -> time * time) (c : gmap string T)
    (Hrange : forall t s f n, b_InTimeRange t s f n <> [] -> b_Get t <> None) :
  exists vs, ListRecentStats (delContainers clock c) = Ret vs /\ length vs = size (delContainers clock c) /\
    forall v, v ∈ vs -> exists k t, c !! k = Some t /\ b_Get t = Some v.
Proof.
  unfold ListRecentStats. destruct (recentLoop_Ret (range_map "recent" (delContainers clock c))) as (vs & E & Em).
  { intros [k t] Hk%elem_of_range. by apply (delContainers_no_empty Hrange clock c k t). }
  exists vs. split; [done|]. split.
  - rewrite <- (length_map Some vs), Em, length_map, range_map_perm. by rewrite length_map_to_list.
  - intros v Hv. apply list_elem_of_In, (in_map Some) in Hv. rewrite Em in Hv.
    apply in_map_iff in Hv as ([k t] & Hg & Hin). apply list_elem_of_In, elem_of_range, delContainers_lookup in Hin as [Hk _].
    by exists k, t.
Qed.

(** A reader that comes between the two steps of adding the first value of a
    cgroup finds an empty buffer: asking for its recent value, or listing those of all cgroups, panics. *)
Theorem reader_of_new_cache_panics {RO : RangeOrder} {V T : Type} {B : Buffer V T} (maxAge : duration) (kind : string) (c : gmap string T) (key : string)
    (Hnew : b_Get (b_New maxAge) = None) :
  c !! key = None ->
  GetRecentState kind (insertCache maxAge c key) key = Crash (Panic "index out of range") /\
  exists p, ListRecentStats (insertCache maxAge c key) = Crash p.
Proof.
  intros Hk. assert (E : insertCache maxAge c key !! key = Some (b_New maxAge)) by (unfold insertCache; by rewrite lookup_insert_eq, Hk).
  split; [unfold GetRecentState; by rewrite E, Hnew|]. apply (recentLoop_Crash _ (key, b_New maxAge)); [by apply elem_of_range|done].
Qed.

(** ** perf/perf.go *)

Record PerfMetrics := mkPerfMetrics { pm_Spec : CgroupRef; pm_Value : PerfData }.

(** What libcontainer and the clock answer while a cgroup is collected. *)
Record readings := mkReadings {
  rd_pids : result (list Z);
  rd_start : result Z;
  rd_end : result Z;
  (** The time when the counters are read, and nanoseconds since the start. *)
  rd_now : time;
  rd_elapsed : Z;
}.

(** The comment says that the cgroups are father and son. *)
Definition checkSubCgroup (parent child : string) : bool := HasPrefix child parent.

Section Perf.
Context {RO : RangeOrder} {CE : CgroupEnv} {K : Kernel} {T : Type} {B : Buffer PerfMetrics T} (maxAge : duration).
Context (config : MetricsPerfConfig) (IgnoredCgroups : list string) (files : world) (answers : string -> readings).

Definition set_CPUUsage (d : PerfData) (usage : float64) : PerfData :=
  mkPerfData (pd_Instructions d) (pd_Cycles d) (pd_CPI d) usage (pd_CacheMisses d) (pd_CacheReference d) (pd_LLCOccupancy d) (pd_Timestamp d).

Definition GetPerfEventCgroupPath (pathInCgroup : string) : string := path_Join [env_root; "perf_event"; pathInCgroup].

(** The goroutine of a cgroup, until it adds its metric. *)
Definition collect_cgroup (p : pmu) (cg : string) (ref : CgroupRef) : outcome (option PerfMetrics * pmu) :=
  let a := answers cg in
  match rd_pids a, fst (GetCpuSet cg true files), rd_start a with
  | Ok (_ :: _), Ok ((_ :: _) as cpus), Ok cpuStartTotal =>
      r ← GetPMUValue p (rd_now a) (int64_of_float64 (duration_Seconds (mp_CollectDuration config))) (GetPerfEventCgroupPath cg) (Join cpus ",");
      let '(pmuData, p, _) := r in
      Ret (match pmuData, rd_end a with
           | Ok d, Ok cpuEndTotal =>
               Some (mkPerfMetrics ref (set_CPUUsage d (fdiv (float64_of_Z (uint64 (cpuEndTotal - cpuStartTotal))) (float64_of_Z (rd_elapsed a)))))
           | _, _ => None
           end, p)
  | _, _, _ => Ret (None, p)
  end.

Definition perf_ignored (cg : string) : bool := existsb (fun i => checkSubCgroup i cg) IgnoredCgroups.

Definition perf_one (k : string) (v : CgroupRef) (p : pmu) : outcome (option (time * PerfMetrics) * pmu) :=
  if perf_ignored k then Ret (None, p)
  else r ← collect_cgroup p k v; Ret (option_map (fun m => (pd_Timestamp (pm_Value m), m)) r.1, r.2).

(** The goroutines end in the order of the range. *)
Definition perf_collect (clock : string -> time * time) (allCgroups : result (gmap string CgroupRef)) (p : pmu) (c : gmap string T) :
    outcome (pmu * gmap string T) :=
  match allCgroups with
  | Err _ => Ret (p, c)
  | Ok cgs => r ← collectLoop maxAge perf_one (range_map "perf" cgs) p c; Ret (r.1, delContainers clock r.2)
  end.

(** *** A collection *)

Lemma collect_cgroup_checked p cg ref r :
  intelCQMChecked p = true -> collect_cgroup p cg ref = Ret r -> r.2 = p.
Proof.
  intros Hp. unfold collect_cgroup. destruct (rd_pids _) as [[|]|]; [by intros [= <-]| |by intros [= <-]].
  destruct (fst _) as [[|]|]; [by intros [= <-]| |by intros [= <-]]. destruct (rd_start _); [|by intros [= <-]].
  unfold GetPMUValue, checkIntelCqmSupported. rewrite Hp. cbn. destruct (get_cpi _ _ _ _ _ _); [|done]. by intros [= <-].
Qed.

(** A collection adds the metric of every cgroup that is not ignored and
    has one, keeps the buffers of the others, and then keeps only the buffers with a value of the last ten minutes; the order in which
    the cgroups are collected does not matter. *)
Theorem perf_collect_exact clock cgs p c p' c' k :
  intelCQMChecked p = true -> perf_collect clock (Ok cgs) p c = Ret (p', c') ->
  p' = p /\ c' !! k = after_collection maxAge clock (collected perf_one p cgs k) (c !! k) k.
Proof.
  intros Hp H. unfold perf_collect in H. apply outcome_bind_Ret in H as ([p1 c1] & E & [= <- <-]).
  apply (collection_exact maxAge perf_one "perf" clock cgs p c p1 c1 k); [|done].
  intros j v r Hr. unfold perf_one in Hr. destruct (perf_ignored j); [by injection Hr as <-|].
  apply outcome_bind_Ret in Hr as (x & Hx & [= <-]). by apply (collect_cgroup_checked _ _ _ _ Hp Hx).
Qed.
End Perf.

(** ** rdt/rdt/rdt.go: the command *)

Record RdtFeature := mkRdtFeature {
  MonitorLLC : bool;
  MonitorMBM : bool;
  MonitorIPC : bool;
  MonitorCacheMiss : bool;
  AllocateCAT : bool;
}.

Record RdtData := mkRdtData {
  rdt_Cores : string;
  rdt_IPC : float64;
  rdt_Missees : float64;
  rdt_LLC : float64;
  rdt_MBL : float64;
  rdt_MBR : float64;
  rdt_Timestamp : time;
}.

(** [os.Stat] answers the permissions of the file. *)
Definition InitRdtCommand (stat : result Z) : option error :=
  match stat with
  | Err e => Some e
  | Ok mode => if Z.land mode (Z.shiftl 1 6) =? 0 then Some "rdt command file not executable" else None
  end.

Section RdtCommand.
(** What the command prints for its arguments, with its error, and the values
    of quantities such as [12k]. *)
Context (runRdtCommand : list string -> string * option error) (parseQuantity : string -> option Z).

Definition SupportRdtFunction : RdtFeature :=
  let supported := mkRdtFeature true false false false false in
  let '(out, err) := runRdtCommand ["-d"] in
  match err with
  | Some _ => supported
  | None => mkRdtFeature (MonitorLLC supported || Contains out "LLC Occupancy") (Contains out "Total Memory Bandwidth")
              (Contains out "Instructions/Clock") (Contains out "") (Contains out "")
  end.

(** The lines of the last table; the state is whether one has started, and its lines. *)
Definition table_step (st : bool * list string) (lineStr : string) : bool * list string :=
  if Contains lineStr "CORE" then (true, []) else (st.1, if st.1 then st.2 ++ [lineStr] else st.2).

Definition table_lines (out : string) : list string := (fold_left table_step (scan_lines out) (false, [])).2.

(** A word is a number or a quantity. *)
Definition parse_value (v : string) : outcome float64 :=
  match ParseFloat v with
  | Some vv => Ret vv
  | None => match parseQuantity v with Some q => Ret (float64_of_Z q) | None => Crash (Panic ("cannot parse '" +:+ v +:+ "'")) end
  end.

Fixpoint parse_values (l : list string) : outcome (list float64) :=
  match l with
  | [] => Ret []
  | v :: l' => x ← parse_value v; rest ← parse_values l'; Ret (x :: rest)
  end.

(** The words of a line; the first one is the cores. *)
Definition parse_item (now : time) (item : string) : outcome RdtData :=
  let words := filter (fun v => v <> "") (Split item " ") in
  value ← parse_values (tail words);
  match value with
  | v0 :: v1 :: rest =>
      Ret {| rdt_Cores := default "" (head words); rdt_IPC := v0; rdt_Missees := v1;
             rdt_LLC := default fzero (rest !! 0%nat);
             rdt_MBL := if (4 <? length value)%nat then default fzero (rest !! 1%nat) else fzero;
             rdt_MBR := if (4 <? length value)%nat then default fzero (rest !! 2%nat) else fzero;
             rdt_Timestamp := now |}
  | _ => Crash (Panic "index out of range")
  end.

Fixpoint parse_items (now : time) (l : list string) : outcome (list RdtData) :=
  match l with
  | [] => Ret []
  | item :: l' => d ← parse_item now item; rest ← parse_items now l'; Ret (d :: rest)
  end.

(** The arguments: the interval is in units of 100 milliseconds. *)
Definition monitor_args (monitors : list string) (monInterval monTime : duration) : list string :=
  ["-m"; Join monitors ";"; "-i"; Itoa (int64 (int64_of_float64 (duration_Seconds monInterval) * 10));
   "-t"; Itoa (int64_of_float64 (duration_Seconds monTime)); "--static-mode"].

Definition StaticMonitor (now : time) (monitors : list string) (monInterval monTime : duration) : outcome (result (list RdtData)) :=
  if (length monitors =? 0)%nat then Ret (Err "no monitors found")
  else
    match runRdtCommand (monitor_args monitors monInterval monTime) with
    | (_, Some e) => Ret (Err e)
    | (out, None) => rets ← parse_items now (table_lines out); Ret (Ok rets)
    end.

(** *** The table *)

Lemma Contains_empty s : Contains s "" = true.
Proof. by destruct s. Qed.

(** Whatever the command prints or answers, the occupancy of the cache
    counts as supported; so do the counting of misses and the allocation when the command succeeds. *)
Theorem llc_always_supported :
  MonitorLLC SupportRdtFunction = true /\
  ((runRdtCommand ["-d"]).2 = None -> MonitorCacheMiss SupportRdtFunction = true /\ AllocateCAT SupportRdtFunction = true).
Proof.
  unfold SupportRdtFunction. destruct (runRdtCommand ["-d"]) as [out [e|]]; cbn; [done|]. by rewrite Contains_empty.
Qed.

Lemma table_started l st : fst st = true -> Forall (fun x => Contains x "CORE" = false) l -> fold_left table_step l st = (true, st.2 ++ l).
Proof.
  intros Hs H. revert st Hs. induction H as [|x l Hx Hl IH]; intros [s acc] Hs; cbn in Hs; subst; cbn [fold_left]; [by rewrite app_nil_r|].
  unfold table_step at 2. rewrite Hx. cbn [fst snd]. rewrite IH by done. cbn [snd]. by rewrite <- app_assoc.
Qed.

Lemma table_lines_last out before core after :
  scan_lines out = before ++ core :: after -> Contains core "CORE" = true -> Forall (fun x => Contains x "CORE" = false) after -> table_lines out = after.
Proof.
  intros E Hc Ha. unfold table_lines. rewrite E, fold_left_app. cbn [fold_left]. unfold table_step at 2. rewrite Hc.
  by rewrite table_started.
Qed.

Lemma parse_items_Forall2 now l ds : parse_items now l = Ret ds <-> Forall2 (fun item d => parse_item now item = Ret d) l ds.
Proof.
  revert ds. induction l as [|item l IH]; intros ds; cbn [parse_items].
  - split; [by intros [= <-]|]. intros H. by inversion H.
  - split.
    + intros H. apply outcome_bind_Ret in H as (d & Hd & H). apply outcome_bind_Ret in H as (rest & Hr & [= <-]). constructor; [done|]. by apply IH.
    + intros H. inversion H as [|? d ? rest Hd Hr]; subst. rewrite Hd. cbn. apply IH in Hr. by rewrite Hr.
Qed.

(** The monitor reads the lines after the last heading, one record for
    each, in order, and nothing of what is printed before it. *)
Theorem StaticMonitor_reads_last_table now monitors monInterval monTime out before core after ds :
  monitors <> [] -> runRdtCommand (monitor_args monitors monInterval monTime) = (out, None) ->
  scan_lines out = before ++ core :: after -> Contains core "CORE" = true -> Forall (fun x => Contains x "CORE" = false) after ->
  Forall2 (fun item d => parse_item now item = Ret d) after ds ->
  StaticMonitor now monitors monInterval monTime = Ret (Ok ds).
Proof.
  intros Hm Hr E Hc Ha Hd. unfold StaticMonitor. destruct monitors; [done|]. cbn [length Nat.eqb]. rewrite Hr.
  rewrite (table_lines_last out before core after) by done. apply parse_items_Forall2 in Hd. by rewrite Hd.
Qed.

(** A line after the heading with fewer than three words, an empty one for
    example, ends the agent. *)
Theorem short_line_panics now monitors monInterval monTime out before core l1 item l2 :
  monitors <> [] -> runRdtCommand (monitor_args monitors monInterval monTime) = (out, None) ->
  scan_lines out = before ++ core :: l1 ++ item :: l2 -> Contains core "CORE" = true ->
  Forall (fun x => Contains x "CORE" = false) (l1 ++ item :: l2) ->
  (length (filter (fun v => v <> "") (Split item " ")) < 3)%nat ->
  exists p, StaticMonitor now monitors monInterval monTime = Crash p.
Proof.
  intros Hm Hr E Hc Ha Hi. unfold StaticMonitor. destruct monitors; [done|]. cbn [length Nat.eqb]. rewrite Hr.
  rewrite (table_lines_last out before core _ E Hc Ha).
  destruct (parse_items now (l1 ++ item :: l2)) as [ds|p] eqn:Ep; [|by exists p]. exfalso.
  apply parse_items_Forall2, Forall2_app_inv_l in Ep as (ds1 & ds2 & _ & Ep & _). inversion Ep as [|? d ? ? Hd]; subst. clear Ep.
  unfold parse_item in Hd. set (words := filter _ _) in *. apply outcome_bind_Ret in Hd as (value & Hv & Hd).
  assert (Hl : length value = length (tail words)).
  { clear Hd Hi. revert value Hv. induction (tail words) as [|v l IH]; intros value Hv; cbn [parse_values] in Hv; [by injection Hv as <-|].
    apply outcome_bind_Ret in Hv as (x & _ & Hv). apply outcome_bind_Ret in Hv as (rest & Hrest & [= <-]). cbn. by rewrite (IH rest). }
  destruct value as [|v0 [|v1 rest]]; [done..|]. cbn [length] in Hl. destruct words; cbn [length tail] in *; lia.
Qed.
End RdtCommand.

(** ** rdt/rdt.go *)

Record RdtMetrics := mkRdtMetrics { rm_Spec : CgroupRef; rm_Value : RdtData }.

Section Rdt.
Context {RO : RangeOrder} {CE : CgroupEnv} {T : Type} {B : Buffer RdtMetrics T} (maxAge : duration).
Context (config : MetricsRdtConfig) (runRdtCommand : list string -> string * option error) (parseQuantity : string -> option Z).
Context (files : world) (answers : string -> readings).

(** The body of the loop of [collect]. *)
Definition rdt_cgroup (k : string) (v : CgroupRef) : outcome (option RdtMetrics) :=
  if Contains k "burstable" then Ret None
  else
    match rd_pids (answers k), fst (GetCpuSet k false files) with
    | Ok (_ :: _), Ok (cpus :: _) =>
        rets ← StaticMonitor runRdtCommand parseQuantity (rd_now (answers k)) ["all:[" +:+ cpus +:+ "]"] (ExecuteInterval config) (mr_CollectDuration config);
        Ret (match rets with Ok (r :: _) => Some (mkRdtMetrics v r) | _ => None end)
    | _, _ => Ret None
    end.

Definition rdt_one (k : string) (v : CgroupRef) (st : unit) : outcome (option (time * RdtMetrics) * unit) :=
  m ← rdt_cgroup k v; Ret (option_map (fun m => (rdt_Timestamp (rm_Value m), m)) m, tt).

Definition rdt_collect (clock : string -> time * time) (allCgroups : result (gmap string CgroupRef)) (c : gmap string T) : outcome (gmap string T) :=
  match allCgroups with
  | Err _ => Ret c
  | Ok cgs => r ← collectLoop maxAge rdt_one (range_map "rdt" cgs) tt c; Ret (delContainers clock r.2)
  end.

(** The checks before the loop of [Run] starts. *)
Definition rdt_Run (stat : result Z) : outcome unit :=
  match InitRdtCommand stat with
  | Some e => Crash (Fatal ("rdt command init failed: " +:+ e))
  | None => if MonitorLLC (SupportRdtFunction runRdtCommand) then Ret tt else Crash (Fatal "rdt llc not supported")
  end.

(** A collection of RDT metrics adds one record, the first of the table, for
    every cgroup that is not burstable, has processes and CPUs, and whose command succeeds, and leaves the other
    buffers as they are until they are too old. *)
Theorem rdt_collect_exact clock cgs c c' k :
  rdt_collect clock (Ok cgs) c = Ret c' ->
  c' !! k = after_collection maxAge clock (collected rdt_one tt cgs k) (c !! k) k.
Proof.
  intros H. unfold rdt_collect in H. apply outcome_bind_Ret in H as ([[] c1] & E & [= <-]).
  apply (collection_exact maxAge rdt_one "rdt" clock cgs tt c tt c1 k); [|done]. intros j v r _. by destruct r as [? []].
Qed.
End Rdt.

(** ** Ignored cgroups *)

(** Father and son, as the comment has it. *)
Definition sub_cgroup (parent child : string) : Prop := child = parent \/ exists rest, child = parent +:+ "/" +:+ rest.

Lemma prefix_app p rest : HasPrefix (p +:+ rest) p = true.
Proof.
  unfold HasPrefix. induction p as [|c p IH]; [by destruct rest|]. change (String c p +:+ rest) with (String c (p +:+ rest)). cbn.
  destruct (ascii_dec c c); [exact IH|done].
Qed.

Lemma sub_cgroup_ignored parent child : sub_cgroup parent child -> checkSubCgroup parent child = true.
Proof.
  unfold checkSubCgroup. intros [->|[rest ->]]; [|apply prefix_app]. pose proof (prefix_app parent "") as H. by rewrite string_app_nil_r in H.
Qed.

(** A cgroup whose name only starts alike is ignored as well. *)
Example sibling_ignored :
  checkSubCgroup "/kubepods/besteffort" "/kubepods/besteffort-online" = true /\ ~ sub_cgroup "/kubepods/besteffort" "/kubepods/besteffort-online".
Proof. split; [reflexivity|]. intros [H|[rest H]]; [discriminate H|]. injection H. discriminate. Qed.

(** ** state_common.go *)

Inductive common_store := NodeSt | PerfSt | RdtSt | PromSt | CustomizeSt.

(** The stores that [Run] starts, in this order. *)
Definition runFuncs (config : MetricsCollectConfig) : list common_store :=
  [NodeSt] ++ (if mp_Disable (mt_Perf config) then [] else [PerfSt]) ++ (if mr_Disable (mt_Rdt config) then [] else [RdtSt]) ++
  [PromSt; CustomizeSt].

(** The lock that keeps the collections of perf and RDT apart: the cgroups are
    listed before it is taken, and it is held until the old buffers are removed. *)
Inductive place := Outside | Waiting | Collecting.

Record cpu_lock := mkLock { locked : bool; perf_at : place; rdt_at : place }.

Inductive lock_step : cpu_lock -> cpu_lock -> Prop :=
| perf_lists l r : lock_step (mkLock l Outside r) (mkLock l Waiting r)
| perf_locks r : lock_step (mkLock false Waiting r) (mkLock true Collecting r)
| perf_unlocks r : lock_step (mkLock true Collecting r) (mkLock false Outside r)
| rdt_lists l p : lock_step (mkLock l p Outside) (mkLock l p Waiting)
| rdt_locks p : lock_step (mkLock false p Waiting) (mkLock true p Collecting)
| rdt_unlocks p : lock_step (mkLock true p Collecting) (mkLock false p Outside).

Definition lock_ok (s : cpu_lock) : Prop :=
  match perf_at s, rdt_at s with
  | Collecting, Collecting => False
  | Collecting, _ | _, Collecting => locked s = true
  | _, _ => locked s = false
  end.

(** Performance counters and RDT are never collected at the same time, and
    a store that waits can go on as soon as the other one is done. *)
Theorem collections_exclude s :
  rtc lock_step (mkLock false Outside Outside) s ->
  ~ (perf_at s = Collecting /\ rdt_at s = Collecting) /\
  (perf_at s = Waiting -> rdt_at s <> Collecting -> lock_step s (mkLock true Collecting (rdt_at s))) /\
  (rdt_at s = Waiting -> perf_at s <> Collecting -> lock_step s (mkLock true (perf_at s) Collecting)).
Proof.
  intros H. assert (Hok : lock_ok s).
  { remember (mkLock false Outside Outside) as s0 eqn:E0. assert (H0 : lock_ok s0) by by subst. clear E0.
    induction H as [s|a b s Hab _ IH]; [done|]. apply IH. clear IH. rename H0 into Ha. destruct Hab as [[] []|[]|[]|[] []|[]|[]]; done. }
  destruct s as [l [] []], l; cbn in *; repeat split; try done; try (by intros [? ?]); intros; constructor || done.
Qed.

(** ** Witnesses *)

(** A buffer is the list of its values, newest first. *)
Definition list_buffer (V : Type) : Buffer V (list (time * V)) := {|
  b_New := fun _ => [];
  b_Add := fun t now v => (now, v) :: t;
  b_Get := fun t => option_map snd (head t);
  b_InTimeRange := fun t start fin _ => map snd (filter (fun x => start <= x.1 <= fin) t);
|}.

Lemma list_buffer_range V (t : list (time * V)) s f n : @b_InTimeRange _ _ (list_buffer V) t s f n <> [] -> @b_Get _ _ (list_buffer V) t <> None.
Proof. by destruct t. Qed.

Definition ex_clock : string -> time * time := fun _ => (20 * Minute, 20 * Minute).

Lemma collected_caches_list_witness :
  exists vs, @ListRecentStats key_order nat _ (list_buffer nat)
      (@delContainers _ _ (list_buffer nat) ex_clock {["old" := [(Minute, 1%nat)]; "new" := [(15 * Minute, 2%nat)]]}) = Ret vs /\ vs = [2%nat].
Proof.
  destruct (@collected_caches_list key_order nat _ (list_buffer nat) ex_clock {["old" := [(Minute, 1%nat)]; "new" := [(15 * Minute, 2%nat)]]} (list_buffer_range nat))
    as (vs & E & Hl & Hv).
  exists vs. split; [exact E|]. vm_compute in E. injection E as <-. reflexivity.
Defined.

Lemma reader_of_new_cache_panics_witness :
  @GetRecentState nat _ (list_buffer nat) "perf" (@insertCache _ _ (list_buffer nat) Minute ∅ "/kubepods/pod1") "/kubepods/pod1" =
    Crash (Panic "index out of range").
Proof.
  apply (@reader_of_new_cache_panics key_order nat _ (list_buffer nat) Minute "perf" ∅ "/kubepods/pod1" eq_refl). reflexivity.
Defined.

Definition ex_cpuset (shown : string) : world :=
  mkWorld {["/sys/fs/cgroup/cpuset/kubepods/pod1/cpuset.cpus" := shown +:+ String newline ""]} 0 ∅ 0 false false false.

Definition ex_ref : CgroupRef := mkRef "pod1" "c" "pod1" "default" "u1" "online".
Definition ex_answers : string -> readings := fun _ => mkReadings (Ok [101; 102]) (Ok 1000) (Ok 3000) (19 * Minute) 1000.
Definition ex_metrics (k : string) (c : gmap string (list (time * PerfMetrics))) : list (float64 * float64) :=
  map (fun x => (pd_CPI (pm_Value x.2), pd_CPUUsage (pm_Value x.2))) (default [] (c !! k)).

Lemma perf_collect_exact_witness :
  match @perf_collect key_order ex_env ex_kernel _ (list_buffer PerfMetrics) Minute (mkMetricsPerf false Minute (10 * Second)) ["/kubepods/besteffort"]
      (ex_cpuset "0,2") ex_answers ex_clock (Ok {["/kubepods/pod1" := ex_ref; "/kubepods/besteffort/pod2" := ex_ref]}) ex_pmu ∅ with
  | Ret (p, c) => p = ex_pmu /\ ex_metrics "/kubepods/pod1" c = [(float64_of_Z 2, float64_of_Z 2)] /\ c !! "/kubepods/besteffort/pod2" = None
  | Crash _ => False
  end.
Proof.
  destruct (@perf_collect _ _ _ _ _ _ _ _ _ _ _ _ _ _) as [[p c]|] eqn:E; [|vm_compute in E; discriminate E].
  pose proof (@perf_collect_exact key_order ex_env ex_kernel _ (list_buffer PerfMetrics) Minute (mkMetricsPerf false Minute (10 * Second)) ["/kubepods/besteffort"]
      (ex_cpuset "0,2") ex_answers ex_clock {["/kubepods/pod1" := ex_ref; "/kubepods/besteffort/pod2" := ex_ref]} ex_pmu ∅ p c) as H.
  split; [exact (proj1 (H "" eq_refl E))|]. split.
  - unfold ex_metrics. rewrite (proj2 (H "/kubepods/pod1" eq_refl E)). vm_compute. reflexivity.
  - rewrite (proj2 (H "/kubepods/besteffort/pod2" eq_refl E)). vm_compute. reflexivity.
Defined.

Definition ex_table (rows : string) : string := "TIME 2021-01-01
    CORE         IPC      MISSES     LLC[KB]
  0-3        9.00         1k     1.0
TIME 2021-01-01
    CORE         IPC      MISSES     LLC[KB]   MBL[MB/s]   MBR[MB/s]
" +:+ rows.

Definition ex_quantity (v : string) : option Z := if (v =? "12k")%string then Some 12000 else None.

Lemma StaticMonitor_reads_last_table_witness :
  StaticMonitor (fun _ => (ex_table "  0-3        2         12k     36    47.5      3
", None)) ex_quantity 7 ["all:[0-3]"] Second (2 * Second) =
    Ret (Ok [mkRdtData "0-3" (float64_of_Z 2) (float64_of_Z 12000) (float64_of_Z 36) (flit 475 10) (float64_of_Z 3) 7]).
Proof.
  eapply (StaticMonitor_reads_last_table (fun _ => (ex_table "  0-3        2         12k     36    47.5      3
", None)) ex_quantity 7 ["all:[0-3]"] Second (2 * Second) _
    ["TIME 2021-01-01"; "    CORE         IPC      MISSES     LLC[KB]"; "  0-3        9.00         1k     1.0"; "TIME 2021-01-01"]
    "    CORE         IPC      MISSES     LLC[KB]   MBL[MB/s]   MBR[MB/s]" ["  0-3        2         12k     36    47.5      3"]).
  - discriminate.
  - reflexivity.
  - vm_compute. reflexivity.
  - reflexivity.
  - repeat constructor.
  - constructor; [vm_compute; reflexivity|constructor].
Defined.

(** The command prints a last line that is not part of the table. *)
Lemma short_line_panics_witness :
  exists p, StaticMonitor (fun _ => (ex_table "  0-3        2         12k     36
Terminating
", None)) ex_quantity 7 ["all:[0-3]"] Second (2 * Second) = Crash p.
Proof.
  eapply (short_line_panics (fun _ => (ex_table "  0-3        2         12k     36
Terminating
", None)) ex_quantity 7 ["all:[0-3]"] Second (2 * Second) _
    ["TIME 2021-01-01"; "    CORE         IPC      MISSES     LLC[KB]"; "  0-3        9.00         1k     1.0"; "TIME 2021-01-01"]
    "    CORE         IPC      MISSES     LLC[KB]   MBL[MB/s]   MBR[MB/s]" ["  0-3        2         12k     36"] "Terminating" []).
  - discriminate.
  - reflexivity.
  - vm_compute. reflexivity.
  - reflexivity.
  - repeat constructor.
  - vm_compute. lia.
Defined.

Lemma rdt_collect_exact_witness :
  match @rdt_collect key_order ex_env _ (list_buffer RdtMetrics) Minute (mkMetricsRdt false "" Minute Second Second)
      (fun _ => (ex_table "  0-3        2         12k     36
", None)) ex_quantity (ex_cpuset "0-3") ex_answers ex_clock (Ok {["/kubepods/pod1" := ex_ref; "/kubepods/burstable/pod2" := ex_ref]}) ∅ with
  | Ret c => map (fun x => rdt_IPC (rm_Value x.2)) (default [] (c !! "/kubepods/pod1")) = [float64_of_Z 2] /\ c !! "/kubepods/burstable/pod2" = None
  | Crash _ => False
  end.
Proof.
  destruct (@rdt_collect _ _ _ _ _ _ _ _ _ _ _ _ _) as [c|] eqn:E; [|vm_compute in E; discriminate E].
  split.
  - rewrite (@rdt_collect_exact key_order ex_env _ (list_buffer RdtMetrics) Minute _ _ _ _ _ _ _ _ c "/kubepods/pod1" E). vm_compute. reflexivity.
  - rewrite (@rdt_collect_exact key_order ex_env _ (list_buffer RdtMetrics) Minute _ _ _ _ _ _ _ _ c "/kubepods/burstable/pod2" E). vm_compute. reflexivity.
Defined.

Lemma collections_exclude_witness : lock_step (mkLock false Waiting Waiting) (mkLock true Collecting Waiting).
Proof.
  apply (collections_exclude (mkLock false Waiting Waiting)); [|reflexivity|discriminate].
  eapply rtc_l; [apply perf_lists|]. eapply rtc_l; [apply rdt_lists|]. apply rtc_refl.
Defined.
