(* ===== verification/MetricsExport.v ===== *)
(** * The metrics that the agent exports

    pkg/caelus/metrics: prometheus_config.go turns the states of the stores into
    values with labels, prometheus_metrics.go collects them into metrics, and
    common_metrics.go keeps the counters and gauges of the agent's own decisions.
    The constructors of the Prometheus library are parameters; the stores are a
    record of answers ([StateStore]). *)

From Stdlib Require Import Ascii.
From S2P Require Import Prelude GoStrings GoFloat Quantity K8sResource Silence.
From S2P Require Import ProjectQuota DiskQuota Ginit YarnDisks YarnMetrics Cpi NodeStore CgroupStore Pmu PerfStore.

#[local] Open Scope string_scope.
#[local] Open Scope Z_scope.
#[local] Open Scope list_scope.

(** ** prometheus_config.go *)

Record metricValue := mkMetricValue { mv_value : float64; mv_labels : list string; mv_timestamp : time }.

#[local] Abbreviation metricValues := (list metricValue).

(** What the metrics ask of the stores. *)
Record StateStore := mkStateStore {
  GetNodeResourceRecentState : result NodeResourceState;
  (** Without aggregated cgroups, of some classes (all when there are none). *)
  ListCgroupResourceRecentState : list string -> result (list CgroupStats);
  ListPerfResourceRecentStats : outcome (result (list PerfMetrics));
  ListRDTResourceRecentStats : outcome (result (list RdtMetrics));
  (** The cores and the bytes of memory of the machine. *)
  ss_MachineInfo : result (Z * Z);
}.

(** A metric of the node has one or both of the functions. *)
Record NodeResourceMetric := mkNodeMetric {
  nm_Name : string;
  nm_Description : string;
  nm_extraLabels : list string;
  nm_ValueFn : option (NodeResourceState -> metricValues);
  nm_ValueFn2 : option (StateStore -> metricValues);
}.

(** The metrics of containers, perf, RDT and disk quotas have the same fields. *)
Record ResourceMetric (S : Type) := mkResourceMetric {
  rm_Name : string;
  rm_Description : string;
  rm_extraLabels : list string;
  rm_ValueFn : S -> metricValues;
}.
Arguments mkResourceMetric {S} _ _ _ _.
Arguments rm_Name {S} _.
Arguments rm_Description {S} _.
Arguments rm_extraLabels {S} _.
Arguments rm_ValueFn {S} _.

Record Desc := mkDesc { d_Name : string; d_Help : string; d_labels : list string }.

Definition node_desc (n : NodeResourceMetric) : Desc := mkDesc (nm_Name n) (nm_Description n) (["node"] ++ nm_extraLabels n).
Definition container_desc (c : ResourceMetric CgroupStats) : Desc :=
  mkDesc (rm_Name c) (rm_Description c) (["container"; "pod"; "namespace"; "node"; "appclass"] ++ rm_extraLabels c).
Definition perf_desc (p : ResourceMetric PerfMetrics) : Desc := mkDesc (rm_Name p) (rm_Description p) (["container"; "pod"; "namespace"] ++ rm_extraLabels p).
Definition rdt_desc (r : ResourceMetric RdtMetrics) : Desc := mkDesc (rm_Name r) (rm_Description r) (["container"; "pod"; "namespace"] ++ rm_extraLabels r).
Definition quota_desc {Q} (d : ResourceMetric (PodVolumes Q)) : Desc :=
  mkDesc (rm_Name d) (rm_Description d) (["pod"; "namespace"; "node"; "appclass"] ++ rm_extraLabels d).

(** Bytes to Gi, with three digits. *)
Definition bytesToGi (mBytes : float64) : float64 :=
  let mi := int64_of_float64 (fadd (fdiv (fdiv mBytes (float64_of_Z 1024)) (float64_of_Z 1024)) (flit 1 2)) in
  fdiv (float64_of_Z (int64_of_float64 (fmul (fdiv (float64_of_Z mi) (float64_of_Z 1024)) (float64_of_Z 1000)))) (float64_of_Z 1000).

Definition randThree (f : float64) : float64 := fdiv (math_Round (fmul f (float64_of_Z 1000))) (float64_of_Z 1000).

(** *** The node *)

(** One value for each core, from an index on. *)
Fixpoint core_values (ts : time) (i : nat) (l : list float64) : metricValues :=
  match l with
  | [] => []
  | v :: l' => mkMetricValue v ["cpu" +:+ print_02d (Z.of_nat i)] ts :: core_values ts (S i) l'
  end.

Definition nodeCpuUsage (nodeSt : NodeResourceState) : metricValues :=
  match nrs_CPU nodeSt with
  | None => []
  | Some res =>
      let ts := nrs_Timestamp nodeSt in
      [mkMetricValue (CpuTotal res) ["total"] ts] ++ core_values ts 0 (CpuPerCore res) ++ [mkMetricValue (CpuOfflineTotal res) ["offline"] ts]
  end.

Definition nodeCpuSteal (nodeSt : NodeResourceState) : metricValues :=
  match nrs_CPU nodeSt with
  | None => []
  | Some res =>
      let ts := nrs_Timestamp nodeSt in
      [mkMetricValue (CpuStealTotal res) ["total"] ts] ++ core_values ts 0 (CpuStealPerCore res)
  end.

Definition nodeLoadUsage (nodeSt : NodeResourceState) : metricValues :=
  match nrs_Load nodeSt with
  | None => []
  | Some res =>
      let ts := nrs_Timestamp nodeSt in
      [mkMetricValue (Load1Min res) ["1min"] ts; mkMetricValue (Load5Min res) ["5min"] ts; mkMetricValue (Load15Min res) ["15min"] ts]
  end.

Definition nodeMemoryUsage (nodeSt : NodeResourceState) : metricValues :=
  match nrs_Memory nodeSt with
  | None => []
  | Some res =>
      let ts := nrs_Timestamp nodeSt in
      [mkMetricValue (bytesToGi (UsageTotal res)) ["total"] ts; mkMetricValue (bytesToGi (UsageRss res)) ["rss"] ts;
       mkMetricValue (bytesToGi (UsageCache res)) ["cache"] ts; mkMetricValue (bytesToGi (OfflineTotal res)) ["offline"] ts]
  end.

Section Values.
Context {RO : RangeOrder}.

Definition disk_values (ts : time) (d : string) (v : DiskIOState) : metricValues :=
  [mkMetricValue (DiskWriteKiBps v) [d; "writeKiBps"] ts; mkMetricValue (DiskReadKiBps v) [d; "readKiBps"] ts;
   mkMetricValue (DiskWriteIOps v) [d; "writeIOps"] ts; mkMetricValue (DiskReadIOps v) [d; "readIOps"] ts; mkMetricValue (Util v) [d; "util"] ts].

Definition nodeDiskIOUsage (nodeSt : NodeResourceState) : metricValues :=
  match nrs_DiskIO nodeSt with
  | None => []
  | Some res => concat (map (fun dv => disk_values (nrs_Timestamp nodeSt) dv.1 dv.2) (range_map "nodeDiskIOUsage" (IOState res)))
  end.

Definition iface_values (ts : time) (iface : string) (stat : IfaceStat) : metricValues :=
  [mkMetricValue (NetRecvkbps stat) [iface; "recvkbps"] ts; mkMetricValue (NetSentkbps stat) [iface; "sentkbps"] ts;
   mkMetricValue (NetRecvPckps stat) [iface; "recvPckps"] ts; mkMetricValue (NetSentPckps stat) [iface; "sentPckps"] ts;
   mkMetricValue (NetDropOut stat) [iface; "dropOut"] ts; mkMetricValue (NetDropIn stat) [iface; "dropIn"] ts;
   mkMetricValue (NetFifoIn stat) [iface; "fifoIn"] ts; mkMetricValue (NetFifoOut stat) [iface; "fifoOut"] ts;
   mkMetricValue (NetErrin stat) [iface; "errin"] ts; mkMetricValue (NetErrout stat) [iface; "errout"] ts].

Definition nodeNetworkUsage (nodeSt : NodeResourceState) : metricValues :=
  match nrs_NetIO nodeSt with
  | None => []
  | Some res => concat (map (fun iv => iface_values (nrs_Timestamp nodeSt) iv.1 iv.2) (range_map "nodeNetworkUsage" (IfaceStats res)))
  end.

Definition nodeProcessMetrics (nodeSt : NodeResourceState) : metricValues :=
  match nrs_Process nodeSt with
  | None => []
  | Some res => [mkMetricValue (float64_of_Z (NrUninterruptible res)) ["nrUninterruptible"] (nrs_Timestamp nodeSt)]
  end.

(** *** Online and offline jobs *)

Record class_usage := mkClassUsage {
  offlineCpu : float64; onlineCpu : float64;
  offlineMemTotal : float64; offlineMemRSS : float64; onlineMemTotal : float64; onlineMemRSS : float64;
  usage_timestamp : time;
}.

Definition no_usage : class_usage := mkClassUsage fzero fzero fzero fzero fzero fzero nilTime.

(** The body of the loop over the cgroups. *)
Definition usage_step (u : class_usage) (stat : CgroupStats) : class_usage :=
  let class := ref_AppClass (Ref stat) in
  if (class =? "online")%string || (class =? "system")%string then
    mkClassUsage (offlineCpu u) (fadd (onlineCpu u) (CpuUsage stat)) (offlineMemTotal u) (offlineMemRSS u)
      (fadd (onlineMemTotal u) (MemoryTotalUsage stat)) (fadd (onlineMemRSS u) (MemoryWorkingSetUsage stat)) (Timestamp stat)
  else if (class =? "offline")%string then
    mkClassUsage (fadd (offlineCpu u) (CpuUsage stat)) (onlineCpu u) (fadd (offlineMemTotal u) (MemoryTotalUsage stat))
      (fadd (offlineMemRSS u) (MemoryWorkingSetUsage stat)) (onlineMemTotal u) (onlineMemRSS u) (Timestamp stat)
  else
    mkClassUsage (offlineCpu u) (onlineCpu u) (offlineMemTotal u) (offlineMemRSS u) (onlineMemTotal u) (onlineMemRSS u) (Timestamp stat).

Definition percentUsageMetrics (machine : result (Z * Z)) (u : class_usage) : metricValues :=
  match machine with
  | Err _ => []
  | Ok (NumCores, MemoryCapacity) =>
      let cpus := float64_of_Z NumCores in
      let mem := float64_of_Z MemoryCapacity in
      let ts := usage_timestamp u in
      [mkMetricValue (randThree (fdiv (onlineCpu u) cpus)) ["cpu"; "online"; "true"] ts;
       mkMetricValue (randThree (fdiv (offlineCpu u) cpus)) ["cpu"; "offline"; "true"] ts;
       mkMetricValue (randThree (fdiv (onlineMemTotal u) mem)) ["mem"; "online"; "true"] ts;
       mkMetricValue (randThree (fdiv (onlineMemRSS u) mem)) ["mem_rss"; "online"; "true"] ts;
       mkMetricValue (randThree (fdiv (offlineMemTotal u) mem)) ["mem"; "offline"; "true"] ts;
       mkMetricValue (randThree (fdiv (offlineMemRSS u) mem)) ["mem_rss"; "offline"; "true"] ts]
  end.

Definition nodeAppclassUsage (stStore : StateStore) : metricValues :=
  match ListCgroupResourceRecentState stStore ["online"; "system"; "offline"] with
  | Err _ | Ok [] => []
  | Ok cgroupStats =>
      let u := fold_left usage_step cgroupStats no_usage in
      let ts := usage_timestamp u in
      [mkMetricValue (onlineCpu u) ["cpu"; "online"; "false"] ts;
       mkMetricValue (offlineCpu u) ["cpu"; "offline"; "false"] ts;
       mkMetricValue (bytesToGi (onlineMemTotal u)) ["mem"; "online"; "false"] ts;
       mkMetricValue (bytesToGi (onlineMemRSS u)) ["mem_rss"; "online"; "false"] ts;
       mkMetricValue (bytesToGi (offlineMemTotal u)) ["mem"; "offline"; "false"] ts;
       mkMetricValue (bytesToGi (offlineMemRSS u)) ["mem_rss"; "offline"; "false"] ts] ++
      percentUsageMetrics (ss_MachineInfo stStore) u
  end.

(** *** Containers *)

Definition containerCpuUsage (s : CgroupStats) : metricValues := [mkMetricValue (CpuUsage s) [] (Timestamp s)].

Definition containerMemoryUsage (s : CgroupStats) : metricValues :=
  [mkMetricValue (bytesToGi (MemoryTotalUsage s)) ["total"] (Timestamp s); mkMetricValue (bytesToGi (MemoryWorkingSetUsage s)) ["rss"] (Timestamp s);
   mkMetricValue (bytesToGi (MemoryCacheUsage s)) ["cache"] (Timestamp s)].

Definition containerTcpErrors (s : CgroupStats) : metricValues :=
  [mkMetricValue (TcpOOM s) ["TCPAbortOnMemory"] (Timestamp s); mkMetricValue (ListenOverflows s) ["ListenOverflows"] (Timestamp s)].

(** *** Counters and RDT *)

Definition perf_getJobName (podName containerName : string) : string :=
  let jobName := containerName in
  if negb (podName =? "")%string then match last_dash podName with Some (before, _) => before | None => jobName end else jobName.

Definition perfData (m : PerfMetrics) : metricValues :=
  let jobName := perf_getJobName (ref_PodName (pm_Spec m)) (ref_ContainerName (pm_Spec m)) in
  let ts := pd_Timestamp (pm_Value m) in
  [mkMetricValue (pd_Cycles (pm_Value m)) ["cycles"; jobName] ts; mkMetricValue (pd_Instructions (pm_Value m)) ["instructions"; jobName] ts;
   mkMetricValue (pd_CPI (pm_Value m)) ["cpi"; jobName] ts; mkMetricValue (pd_CPUUsage (pm_Value m)) ["cpu_usage"; jobName] ts;
   mkMetricValue (pd_CacheMisses (pm_Value m)) ["cache-misses"; jobName] ts;
   mkMetricValue (pd_CacheReference (pm_Value m)) ["cache-reference"; jobName] ts;
   mkMetricValue (pd_LLCOccupancy (pm_Value m)) ["llc-occupancy"; jobName] ts].

Definition rdtData (m : RdtMetrics) : metricValues :=
  let v := rm_Value m in
  let ts := rdt_Timestamp v in
  [mkMetricValue (rdt_IPC v) [rdt_Cores v; "ipc"] ts; mkMetricValue (rdt_Missees v) [rdt_Cores v; "cache-misses"] ts;
   mkMetricValue (rdt_LLC v) [rdt_Cores v; "llc"] ts; mkMetricValue (rdt_MBL v) [rdt_Cores v; "mbl"] ts; mkMetricValue (rdt_MBR v) [rdt_Cores v; "mbr"] ts].

(** *** Disk quotas *)

Context {Q : Type}.
(** What [time.Now] returns for a volume, a path and a kind of value. *)
Context (now : string -> string -> string -> time).

Definition path_mode (path : PathInfo) : string := match pi_Shared path with Some _ => "shared" | None => "exclusive" end.

Definition path_request (vType name : string) (path : PathInfoWrapper) : metricValues :=
  match pi_Size (w_Info path) with
  | None => []
  | Some size =>
      let mode := path_mode (w_Info path) in
      (if negb (Quota size =? 0) then [mkMetricValue (bytesToGi (float64_of_Z (Quota size))) [vType; name; "quota"; mode] (now vType name "quota")] else []) ++
      (if negb (Inodes size =? 0) then [mkMetricValue (float64_of_Z (Inodes size)) [vType; name; "inodes"; mode] (now vType name "inodes")] else [])
  end.

Definition path_used (vType name : string) (path : PathInfoWrapper) : metricValues :=
  match pi_Size (w_Info path) with
  | None => []
  | Some size =>
      let mode := path_mode (w_Info path) in
      [mkMetricValue (bytesToGi (float64_of_Z (QuotaUsed size))) [vType; name; "quota"; mode] (now vType name "quota");
       mkMetricValue (float64_of_Z (InodesUsed size)) [vType; name; "inodes"; mode] (now vType name "inodes")]
  end.

(** The two loops over the volumes and their paths. *)
Definition each_path (f : string -> string -> PathInfoWrapper -> metricValues) (podVolumes : PodVolumes Q) : metricValues :=
  concat (map (fun tv => concat (map (fun np => f tv.1 np.1 np.2) (range_map "paths" (vi_Paths tv.2)))) (range_map "volumes" (pv_Volumes podVolumes))).

Definition diskQuotaRequest (podVolumes : PodVolumes Q) : metricValues := each_path path_request podVolumes.
Definition diskQuotaUsed (podVolumes : PodVolumes Q) : metricValues := each_path path_used podVolumes.

(** *** The lists of metrics *)

Definition nodeLevelMetrics : list NodeResourceMetric :=
  [mkNodeMetric "caelus_node_cpu_usage" "cpu core consumed by the node per second" ["cpu"] (Some nodeCpuUsage) None;
   mkNodeMetric "caelus_node_cpu_load" "cpu load avg" ["duration"] (Some nodeLoadUsage) None;
   mkNodeMetric "caelus_node_cpu_steal" "cpu core steal" ["cpu"] (Some nodeCpuSteal) None;
   mkNodeMetric "caelus_node_memory_usage" "node memory usage" ["kind"] (Some nodeMemoryUsage) None;
   mkNodeMetric "caelus_node_disk_io_usage" "disk io consumed by the node per second" ["disk"; "flag"] (Some nodeDiskIOUsage) None;
   mkNodeMetric "caelus_node_network_usage" "network consumed by the node per second" ["iface"; "flag"] (Some nodeNetworkUsage) None;
   mkNodeMetric "caelus_node_process" "node process status" ["process"] (Some nodeProcessMetrics) None;
   mkNodeMetric "caelus_node_appclass_usage" "node appclass usage" ["resource"; "appclass"; "percent"] None (Some nodeAppclassUsage)].

Definition containerLevelMetrics : list (ResourceMetric CgroupStats) :=
  [mkResourceMetric "caelus_container_cpu_usage" "container cpu core usage" [] containerCpuUsage;
   mkResourceMetric "caelus_container_memory_usage" "container memory usage" ["kind"] containerMemoryUsage;
   mkResourceMetric "caelus_container_tcp_errors" "container tcp errors" ["kind"] containerTcpErrors].

Definition perfLevelMetrics : list (ResourceMetric PerfMetrics) :=
  [mkResourceMetric "caelus_container_perf_data" "perf data for container" ["event"; "job_name"] perfData].

Definition rdtLevelMetrics : list (ResourceMetric RdtMetrics) :=
  [mkResourceMetric "caelus_container_rdt_data" "rdt data for container" ["cores"; "event"] rdtData].

Definition diskQuotaLevelMetrics : list (ResourceMetric (PodVolumes Q)) :=
  [mkResourceMetric "caelus_pod_volume_request" "volume size request for pod" ["volume"; "name"; "type"; "mode"] diskQuotaRequest;
   mkResourceMetric "caelus_pod_volume_used" "volume size used for pod" ["volume"; "name"; "type"; "mode"] diskQuotaUsed].

Record ResourceMetrics := mkResourceMetrics {
  NodeMetrics : list NodeResourceMetric;
  ContainerMetrics : list (ResourceMetric CgroupStats);
  PerfMetrics_ : list (ResourceMetric PerfMetrics);
  RdtMetrics_ : list (ResourceMetric RdtMetrics);
  DiskQuotaMetrics : list (ResourceMetric (PodVolumes Q));
}.

Definition ResourceMetricsConfig : ResourceMetrics :=
  mkResourceMetrics nodeLevelMetrics containerLevelMetrics perfLevelMetrics rdtLevelMetrics diskQuotaLevelMetrics.
End Values.

(** ** prometheus_metrics.go *)

Section Collect.
Context {RO : RangeOrder} {Q : Type} {PM : Type}.
(** [prometheus.MustNewConstMetric] of a gauge, and [NewMetricWithTimestamp]. *)
Context (MustNewConstMetric : Desc -> float64 -> list string -> outcome PM) (NewMetricWithTimestamp : time -> PM -> PM).

(** The metrics sent to the channel for a list of values. *)
Fixpoint send_values (d : Desc) (base : list string) (values : metricValues) : outcome (list PM) :=
  match values with
  | [] => Ret []
  | value :: values' =>
      m ← MustNewConstMetric d (mv_value value) (base ++ mv_labels value);
      rest ← send_values d base values';
      Ret (NewMetricWithTimestamp (mv_timestamp value) m :: rest)
  end.

(** A loop whose body sends metrics. *)
Fixpoint send_each {A} (body : A -> outcome (list PM)) (l : list A) : outcome (list PM) :=
  match l with
  | [] => Ret []
  | a :: l' => ms ← body a; rest ← send_each body l'; Ret (ms ++ rest)
  end.

Definition node_values (metric : NodeResourceMetric) (nodeSt : NodeResourceState) (stStore : StateStore) : metricValues :=
  match nm_ValueFn metric with Some f => f nodeSt | None => [] end ++ match nm_ValueFn2 metric with Some f => f stStore | None => [] end.

Definition collectNodeMetrics (nodeName : string) (metrics : list NodeResourceMetric) (stStore : StateStore) : outcome (list PM) :=
  match GetNodeResourceRecentState stStore with
  | Err _ => Ret []
  | Ok nodeStats => send_each (fun metric => send_values (node_desc metric) [nodeName] (node_values metric nodeStats stStore)) metrics
  end.

Definition container_labels (nodeName : string) (cs : CgroupStats) : list string :=
  [ref_ContainerName (Ref cs); ref_PodName (Ref cs); ref_PodNamespace (Ref cs); nodeName; ref_AppClass (Ref cs)].

Definition collectContainerMetrics (nodeName : string) (metrics : list (ResourceMetric CgroupStats)) (stStore : StateStore) : outcome (list PM) :=
  match ListCgroupResourceRecentState stStore [] with
  | Err _ => Ret []
  | Ok containerStats =>
      send_each (fun cs => send_each (fun metric => send_values (container_desc metric) (container_labels nodeName cs) (rm_ValueFn metric cs)) metrics) containerStats
  end.

Definition spec_labels (ref : CgroupRef) : list string := [ref_ContainerName ref; ref_PodName ref; ref_PodNamespace ref].

Definition collectPerfMetrics (metrics : list (ResourceMetric PerfMetrics)) (stStore : StateStore) : outcome (list PM) :=
  stats ← ListPerfResourceRecentStats stStore;
  match stats with
  | Err _ => Ret []
  | Ok l => send_each (fun cp => send_each (fun metric => send_values (perf_desc metric) (spec_labels (pm_Spec cp)) (rm_ValueFn metric cp)) metrics) l
  end.

Definition collectRdtMetrics (metrics : list (ResourceMetric RdtMetrics)) (stStore : StateStore) : outcome (list PM) :=
  stats ← ListRDTResourceRecentStats stStore;
  match stats with
  | Err _ => Ret []
  | Ok l => send_each (fun cp => send_each (fun metric => send_values (rdt_desc metric) (spec_labels (rm_Spec cp)) (rm_ValueFn metric cp)) metrics) l
  end.

Definition pod_labels (nodeName : string) (p : PodVolumes Q) : list string := [Name (pv_Pod p); Namespace (pv_Pod p); nodeName; pv_AppClass p].

Definition collectDiskQuotaMetrics (nodeName : string) (metrics : list (ResourceMetric (PodVolumes Q))) (podQuotas : result (list (PodVolumes Q))) :
    outcome (list PM) :=
  match podQuotas with
  | Err _ => Ret []
  | Ok l => send_each (fun p => send_each (fun metric => send_values (quota_desc metric) (pod_labels nodeName p) (rm_ValueFn metric p)) metrics) l
  end.

(** The gauge of errors as a metric. *)
Context (scrape_error : float64 -> PM).

(** The store and the disk quotas are there when their modules run. *)
Definition Collect (nodeName : string) (metrics : ResourceMetrics) (store : option StateStore) (quotas : option (result (list (PodVolumes Q)))) : outcome (list PM) :=
  let errors := fzero in
  ofStore ← match store with
            | None => Ret []
            | Some st =>
                n ← collectNodeMetrics nodeName (NodeMetrics metrics) st;
                c ← collectContainerMetrics nodeName (ContainerMetrics metrics) st;
                p ← collectPerfMetrics (PerfMetrics_ metrics) st;
                r ← collectRdtMetrics (RdtMetrics_ metrics) st;
                Ret (n ++ c ++ p ++ r)
            end;
  ofQuotas ← match quotas with None => Ret [] | Some q => collectDiskQuotaMetrics nodeName (DiskQuotaMetrics metrics) q end;
  Ret (ofStore ++ ofQuotas ++ [scrape_error errors]).

(** The channel of [Describe] after the gauge of errors. *)
Definition Describe (metrics : ResourceMetrics (Q := Q)) : list Desc :=
  map node_desc (NodeMetrics metrics) ++ map container_desc (ContainerMetrics metrics) ++ map perf_desc (PerfMetrics_ metrics) ++
  map rdt_desc (RdtMetrics_ metrics) ++ map quota_desc (DiskQuotaMetrics metrics).
End Collect.

(** ** Labels *)

(** Every value has one label value for each label. *)
Definition labelled (n : nat) (values : metricValues) : Prop := Forall (fun v => length (mv_labels v) = n) values.

Lemma labelled_app n a b : labelled n (a ++ b) <-> labelled n a /\ labelled n b.
Proof. apply Forall_app. Qed.

Lemma labelled_concat {A} n (f : A -> metricValues) l : (forall a, labelled n (f a)) -> labelled n (concat (map f l)).
Proof. intros H. induction l as [|a l IH]; [constructor|]. cbn. apply labelled_app. by split. Qed.

Lemma core_values_labelled ts i l : labelled 1 (core_values ts i l).
Proof. revert i. induction l as [|v l IH]; intros i; constructor; [done|apply IH]. Qed.

Create HintDb labels.
#[export] Hint Resolve labelled_concat core_values_labelled : labels.
#[export] Hint Rewrite labelled_app : labels.

#[local] Ltac labels :=
  repeat (apply labelled_app; split); first [by repeat constructor | eauto with labels].

Section Labels.
Context {RO : RangeOrder} {Q : Type} (now : string -> string -> string -> time).

Lemma node_metrics_labelled metric nodeSt st :
  metric ∈ nodeLevelMetrics -> labelled (length (nm_extraLabels metric)) (node_values metric nodeSt st).
Proof.
  intros H. unfold nodeLevelMetrics in H. repeat (apply elem_of_cons in H as [->|H]); [..|by apply not_elem_of_nil in H];
    unfold node_values; cbn [nm_ValueFn nm_ValueFn2 nm_extraLabels length app]; rewrite ?app_nil_r.
  - unfold nodeCpuUsage. destruct (nrs_CPU nodeSt); labels.
  - unfold nodeLoadUsage. destruct (nrs_Load nodeSt); labels.
  - unfold nodeCpuSteal. destruct (nrs_CPU nodeSt); labels.
  - unfold nodeMemoryUsage. destruct (nrs_Memory nodeSt); labels.
  - unfold nodeDiskIOUsage. destruct (nrs_DiskIO nodeSt); [|labels]. apply labelled_concat. intros. labels.
  - unfold nodeNetworkUsage. destruct (nrs_NetIO nodeSt); [|labels]. apply labelled_concat. intros. labels.
  - unfold nodeProcessMetrics. destruct (nrs_Process nodeSt); labels.
  - unfold nodeAppclassUsage. destruct (ListCgroupResourceRecentState st _) as [[|]|]; [labels| |labels].
    apply labelled_app. split; [labels|]. unfold percentUsageMetrics. destruct (ss_MachineInfo st) as [[]|]; labels.
Qed.

Lemma each_path_labelled n f (p : PodVolumes Q) : (forall t name w, labelled n (f t name w)) -> labelled n (each_path f p).
Proof. intros H. unfold each_path. apply labelled_concat. intros. apply labelled_concat. intros. apply H. Qed.

Lemma quota_metrics_labelled metric (p : PodVolumes Q) :
  metric ∈ diskQuotaLevelMetrics now -> labelled (length (rm_extraLabels metric)) (rm_ValueFn metric p).
Proof.
  intros H. unfold diskQuotaLevelMetrics in H. repeat (apply elem_of_cons in H as [->|H]); [..|by apply not_elem_of_nil in H];
    apply each_path_labelled; intros t name w.
  - unfold path_request. destruct (pi_Size (w_Info w)); [|labels]. destruct (negb (Quota _ =? 0)), (negb (Inodes _ =? 0)); labels.
  - unfold path_used. destruct (pi_Size (w_Info w)); labels.
Qed.

Lemma container_metrics_labelled metric s : metric ∈ containerLevelMetrics -> labelled (length (rm_extraLabels metric)) (rm_ValueFn metric s).
Proof. intros H. unfold containerLevelMetrics in H. repeat (apply elem_of_cons in H as [->|H]); [labels..|by apply not_elem_of_nil in H]. Qed.

Lemma perf_metrics_labelled metric m : metric ∈ perfLevelMetrics -> labelled (length (rm_extraLabels metric)) (rm_ValueFn metric m).
Proof. intros H. apply list_elem_of_singleton in H as ->. labels. Qed.

Lemma rdt_metrics_labelled metric m : metric ∈ rdtLevelMetrics -> labelled (length (rm_extraLabels metric)) (rm_ValueFn metric m).
Proof. intros H. apply list_elem_of_singleton in H as ->. labels. Qed.

(** Every value of every metric has as many label values as the metric
    declares labels, whatever the states hold. *)
Theorem metrics_labelled :
  (forall metric nodeSt st, metric ∈ NodeMetrics (ResourceMetricsConfig (Q := Q) now) -> labelled (length (nm_extraLabels metric)) (node_values metric nodeSt st)) /\
  (forall metric s, metric ∈ ContainerMetrics (ResourceMetricsConfig (Q := Q) now) -> labelled (length (rm_extraLabels metric)) (rm_ValueFn metric s)) /\
  (forall metric m, metric ∈ PerfMetrics_ (ResourceMetricsConfig (Q := Q) now) -> labelled (length (rm_extraLabels metric)) (rm_ValueFn metric m)) /\
  (forall metric m, metric ∈ RdtMetrics_ (ResourceMetricsConfig (Q := Q) now) -> labelled (length (rm_extraLabels metric)) (rm_ValueFn metric m)) /\
  (forall metric p, metric ∈ DiskQuotaMetrics (ResourceMetricsConfig (Q := Q) now) -> labelled (length (rm_extraLabels metric)) (rm_ValueFn metric p)).
Proof.
  split_and!; [exact node_metrics_labelled|exact container_metrics_labelled|exact perf_metrics_labelled|exact rdt_metrics_labelled|exact quota_metrics_labelled].
Qed.
End Labels.

(** ** A collection *)

Section Collection.
Context {RO : RangeOrder} {Q PM : Type} (now : string -> string -> string -> time).
Context (MustNewConstMetric : Desc -> float64 -> list string -> outcome PM) (NewMetricWithTimestamp : time -> PM -> PM) (scrape_error : float64 -> PM).
(** A metric is made when the description has a label for each value. *)
Context (Hconst : forall d v values, length values = length (d_labels d) -> exists m, MustNewConstMetric d v values = Ret m).

#[local] Abbreviation send := (send_values MustNewConstMetric NewMetricWithTimestamp).

Lemma send_values_Ret d base values :
  labelled (length (d_labels d) - length base) values -> (length base <= length (d_labels d))%nat -> exists ms, send d base values = Ret ms /\ length ms = length values.
Proof.
  intros H Hb. induction H as [|v values Hv _ IH]; cbn [send_values]; [by exists []|].
  destruct (Hconst d (mv_value v) (base ++ mv_labels v)) as [m ->]; [rewrite length_app; lia|].
  destruct IH as (ms & -> & Hl). cbn. eexists. split; [done|]. cbn. by rewrite Hl.
Qed.

Lemma send_each_Ret {A} (body : A -> outcome (list PM)) l : (forall a, a ∈ l -> exists ms, body a = Ret ms) -> exists ms, send_each body l = Ret ms.
Proof.
  induction l as [|a l IH]; intros H; cbn [send_each]; [by exists []|]. destruct (H a) as [ms ->]; [left|].
  destruct IH as [rest Hr]; [intros; apply H; by right|]. cbn. rewrite Hr. by eexists.
Qed.

Lemma send_metrics_Ret {A} (metrics : list (ResourceMetric A)) (desc : ResourceMetric A -> Desc) (base : A -> list string) (n : nat) l :
  (forall metric a, metric ∈ metrics -> labelled (length (rm_extraLabels metric)) (rm_ValueFn metric a)) ->
  (forall metric, length (d_labels (desc metric)) = (n + length (rm_extraLabels metric))%nat) -> (forall a, length (base a) = n) ->
  exists ms, send_each (fun a => send_each (fun metric => send (desc metric) (base a) (rm_ValueFn metric a)) metrics) l = Ret ms.
Proof.
  intros Hl Hd Hb. apply send_each_Ret. intros a _. apply send_each_Ret. intros metric Hm.
  destruct (send_values_Ret (desc metric) (base a) (rm_ValueFn metric a)) as (ms & -> & _); [|rewrite Hd, Hb; lia|by eexists].
  rewrite Hd, Hb. replace (n + length (rm_extraLabels metric) - n)%nat with (length (rm_extraLabels metric)) by lia. by apply Hl.
Qed.

(** A collection never panics for a number of labels, whatever the stores
    answer: when the lists of counters can be had, it sends its metrics, the last one the gauge of errors; which is 0
    also when a store answers with an error. *)
Theorem Collect_returns nodeName store quotas :
  (forall st, store = Some st -> exists p r, ListPerfResourceRecentStats st = Ret p /\ ListRDTResourceRecentStats st = Ret r) ->
  exists ms, Collect MustNewConstMetric NewMetricWithTimestamp scrape_error nodeName (ResourceMetricsConfig (Q := Q) now) store quotas =
    Ret (ms ++ [scrape_error fzero]).
Proof.
  intros Hs. unfold Collect.
  assert (Hq : exists ms, match quotas with
                          | None => Ret []
                          | Some q => collectDiskQuotaMetrics MustNewConstMetric NewMetricWithTimestamp nodeName (diskQuotaLevelMetrics (Q := Q) now) q
                          end = Ret ms).
  { destruct quotas as [[l|e]|]; [|by eexists..]. apply (send_metrics_Ret _ _ _ 4); [apply quota_metrics_labelled|done|done]. }
  destruct Hq as [mq Hq]. destruct store as [st|].
  2: { cbn. cbn in Hq. rewrite Hq. by exists mq. }
  destruct (Hs st eq_refl) as (p & r & Hp & Hr).
  assert (Hn : exists ms, collectNodeMetrics MustNewConstMetric NewMetricWithTimestamp nodeName nodeLevelMetrics st = Ret ms).
  { unfold collectNodeMetrics. destruct (GetNodeResourceRecentState st) as [nodeStats|e]; [|by eexists]. apply send_each_Ret. intros metric Hm.
    destruct (send_values_Ret (node_desc metric) [nodeName] (node_values metric nodeStats st)) as (ms & -> & _); [|cbn; lia|by eexists].
    unfold node_desc. cbn [d_labels length app]. replace (S (length (nm_extraLabels metric)) - 1)%nat with (length (nm_extraLabels metric)) by lia.
    by apply node_metrics_labelled. }
  assert (Hc : exists ms, collectContainerMetrics MustNewConstMetric NewMetricWithTimestamp nodeName containerLevelMetrics st = Ret ms).
  { unfold collectContainerMetrics. destruct (ListCgroupResourceRecentState st []) as [l|e]; [|by eexists].
    apply (send_metrics_Ret _ _ _ 5); [apply container_metrics_labelled|done|done]. }
  assert (Hpm : exists ms, collectPerfMetrics MustNewConstMetric NewMetricWithTimestamp perfLevelMetrics st = Ret ms).
  { unfold collectPerfMetrics. rewrite Hp. destruct p as [l|e]; [|by eexists]. apply (send_metrics_Ret _ _ _ 3); [apply perf_metrics_labelled|done|done]. }
  assert (Hrm : exists ms, collectRdtMetrics MustNewConstMetric NewMetricWithTimestamp rdtLevelMetrics st = Ret ms).
  { unfold collectRdtMetrics. rewrite Hr. destruct r as [l|e]; [|by eexists]. apply (send_metrics_Ret _ _ _ 3); [apply rdt_metrics_labelled|done|done]. }
  destruct Hn as [mn Hn], Hc as [mc Hc], Hpm as [mp Hpm], Hrm as [mr Hrm].
  cbn [ResourceMetricsConfig NodeMetrics ContainerMetrics PerfMetrics_ RdtMetrics_ DiskQuotaMetrics].
  unfold mbind, outcome_bind. rewrite Hn, Hc, Hpm, Hrm, Hq. eexists. by rewrite app_assoc.
Qed.
End Collection.

(** ** The values of a metric differ in a label *)

Definition distinct (values : metricValues) : Prop := NoDup (map mv_labels values).

Lemma distinct_concat {A} (key : list string -> option string) (f : string -> A -> metricValues) (l : list (string * A)) :
  NoDup l.*1 -> (forall k a, distinct (f k a)) -> (forall k a v, v ∈ f k a -> key (mv_labels v) = Some k) ->
  distinct (concat (map (fun ka => f ka.1 ka.2) l)).
Proof.
  intros Hnd Hf Hk. unfold distinct. induction l as [|[k a] l IH]; [constructor|]. cbn [fmap list_fmap fst] in Hnd. apply NoDup_cons in Hnd as [Hn Hnd].
  cbn [map concat fst snd]. rewrite map_app. apply NoDup_app. split; [apply Hf|]. split; [|by apply IH].
  intros ls H1 H2. apply list_elem_of_In, in_map_iff in H1 as (v1 & <- & H1). apply list_elem_of_In in H1. apply Hk in H1.
  apply list_elem_of_In, in_map_iff in H2 as (v2 & E & H2). apply in_concat in H2 as (vs & Hvs & H2).
  apply in_map_iff in Hvs as ([k2 a2] & <- & Hin). apply list_elem_of_In in H2. apply Hk in H2. rewrite E, H1 in H2. injection H2 as ->.
  apply Hn. apply list_elem_of_In. change (l.*1) with (map fst l). apply (in_map fst) in Hin. exact Hin.
Qed.

Lemma print_02d_inj i j : 0 <= i -> 0 <= j -> print_02d i = print_02d j -> i = j.
Proof. intros Hi Hj E. pose proof (parse_print_02d i Hi) as H. rewrite E, parse_print_02d in H by done. by injection H. Qed.

Lemma core_values_label ts i l v : v ∈ core_values ts i l -> exists k, (i <= k)%nat /\ mv_labels v = ["cpu" +:+ print_02d (Z.of_nat k)].
Proof.
  revert i. induction l as [|x l IH]; intros i H; cbn [core_values] in H; [by apply not_elem_of_nil in H|].
  apply elem_of_cons in H as [->|H]; [by exists i|]. destruct (IH _ H) as (k & Hk & E). exists k. split; [lia|done].
Qed.

Lemma core_values_distinct ts i l : distinct (core_values ts i l).
Proof.
  revert i. induction l as [|x l IH]; intros i; [constructor|]. unfold distinct. cbn [core_values map mv_labels]. apply NoDup_cons. split; [|apply IH].
  intros H. apply list_elem_of_In, in_map_iff in H as (v & E & H). apply list_elem_of_In, core_values_label in H as (k & Hk & E').
  rewrite E' in E. apply (f_equal (fun ls => match ls with [String _ (String _ (String _ s))] => s | _ => "" end)) in E.
  cbn in E. apply print_02d_inj in E; lia.
Qed.

Section Distinct.
Context {RO : RangeOrder}.

#[local] Ltac distinct := unfold distinct; cbn [map mv_labels]; repeat (apply NoDup_cons; split; [set_solver|]); apply NoDup_nil_2.

Lemma nodeCpuUsage_distinct st : distinct (nodeCpuUsage st).
Proof.
  unfold nodeCpuUsage. destruct (nrs_CPU st) as [res|]; [|constructor]. unfold distinct. rewrite !map_app. apply NoDup_app. split; [distinct|].
  assert (Hc : forall ls, ls ∈ map mv_labels (core_values (nrs_Timestamp st) 0 (CpuPerCore res)) -> exists s, ls = [String "c" s]).
  { intros ls H. apply list_elem_of_In, in_map_iff in H as (v & <- & H). apply list_elem_of_In, core_values_label in H as (k & _ & ->). by eexists. }
  split.
  - intros ls H1 H2. apply list_elem_of_singleton in H1 as ->. apply elem_of_app in H2 as [H2|H2]; [by apply Hc in H2 as [s ?]|].
    by apply list_elem_of_singleton in H2.
  - apply NoDup_app. split; [apply core_values_distinct|]. split; [|distinct]. intros ls H1 H2. apply list_elem_of_singleton in H2 as ->.
    by apply Hc in H1 as [s ?].
Qed.

Lemma nodeCpuSteal_distinct st : distinct (nodeCpuSteal st).
Proof.
  unfold nodeCpuSteal. destruct (nrs_CPU st) as [res|]; [|constructor]. unfold distinct. rewrite !map_app. apply NoDup_app. split; [distinct|].
  split; [|apply core_values_distinct]. intros ls H1 H2. apply list_elem_of_singleton in H1 as ->.
  apply list_elem_of_In, in_map_iff in H2 as (v & E & H). apply list_elem_of_In, core_values_label in H as (k & _ & E'). by rewrite E' in E.
Qed.

(** In the values of a metric of the node no two have the same labels, so
    that the registry does not refuse the collection for a duplicate. *)
Theorem node_values_distinct metric nodeSt st : metric ∈ nodeLevelMetrics -> distinct (node_values metric nodeSt st).
Proof.
  intros H. unfold nodeLevelMetrics in H. repeat (apply elem_of_cons in H as [->|H]); [..|by apply not_elem_of_nil in H];
    unfold node_values; cbn [nm_ValueFn nm_ValueFn2 nm_extraLabels length app]; rewrite ?app_nil_r.
  - apply nodeCpuUsage_distinct.
  - unfold nodeLoadUsage. destruct (nrs_Load nodeSt); distinct.
  - apply nodeCpuSteal_distinct.
  - unfold nodeMemoryUsage. destruct (nrs_Memory nodeSt); distinct.
  - unfold nodeDiskIOUsage. destruct (nrs_DiskIO nodeSt) as [res|]; [|distinct].
    apply (distinct_concat head (disk_values (nrs_Timestamp nodeSt))); [apply NoDup_fst_range|intros; distinct|].
    intros k a v Hv. unfold disk_values in Hv. repeat (apply elem_of_cons in Hv as [->|Hv]); [done..|by apply not_elem_of_nil in Hv].
  - unfold nodeNetworkUsage. destruct (nrs_NetIO nodeSt) as [res|]; [|distinct].
    apply (distinct_concat head (iface_values (nrs_Timestamp nodeSt))); [apply NoDup_fst_range|intros; distinct|].
    intros k a v Hv. unfold iface_values in Hv. repeat (apply elem_of_cons in Hv as [->|Hv]); [done..|by apply not_elem_of_nil in Hv].
  - unfold nodeProcessMetrics. destruct (nrs_Process nodeSt); distinct.
  - unfold nodeAppclassUsage. destruct (ListCgroupResourceRecentState st _) as [[|]|]; [distinct| |distinct].
    unfold percentUsageMetrics. destruct (ss_MachineInfo st) as [[]|]; cbn [app]; distinct.
Qed.

Context {Q : Type} (now : string -> string -> string -> time).

Lemma each_path_distinct f (p : PodVolumes Q) :
  (forall t n w, distinct (f t n w)) -> (forall t n w v, v ∈ f t n w -> head (mv_labels v) = Some t /\ mv_labels v !! 1%nat = Some n) ->
  distinct (each_path f p).
Proof.
  intros Hd Hl. unfold each_path.
  apply (distinct_concat head (fun t (w : VolumeInfo) => concat (map (fun np => f t np.1 np.2) (range_map "paths" (vi_Paths w))))); [apply NoDup_fst_range| |].
  - intros t w. apply (distinct_concat (fun ls => ls !! 1%nat) (f t)); [apply NoDup_fst_range|apply Hd|]. intros n a v Hv. by apply Hl in Hv as [_ ?].
  - intros t w v Hv. apply list_elem_of_In, in_concat in Hv as (vs & Hvs & Hv). apply in_map_iff in Hvs as (np & <- & _).
    apply list_elem_of_In in Hv. by apply Hl in Hv as [? _].
Qed.

(** The values of a metric of disk quotas differ in the volume, the path or
    the kind as well. *)
Theorem quota_values_distinct metric (p : PodVolumes Q) : metric ∈ diskQuotaLevelMetrics now -> distinct (rm_ValueFn metric p).
Proof.
  intros H. unfold diskQuotaLevelMetrics in H. repeat (apply elem_of_cons in H as [->|H]); [..|by apply not_elem_of_nil in H];
    apply each_path_distinct; intros t n w.
  - unfold path_request. destruct (pi_Size (w_Info w)) as [size|]; [|distinct]. destruct (negb (Quota size =? 0)), (negb (Inodes size =? 0)); distinct.
  - intros v Hv. unfold path_request in Hv. destruct (pi_Size (w_Info w)) as [size|]; [|by apply not_elem_of_nil in Hv].
    destruct (negb (Quota size =? 0)), (negb (Inodes size =? 0)); repeat (apply elem_of_cons in Hv as [->|Hv]); try done; by apply not_elem_of_nil in Hv.
  - unfold path_used. destruct (pi_Size (w_Info w)); distinct.
  - intros v Hv. unfold path_used in Hv. destruct (pi_Size (w_Info w)) as [size|]; repeat (apply elem_of_cons in Hv as [->|Hv]); try done;
      by apply not_elem_of_nil in Hv.
Qed.
End Distinct.

(** *** Sums by class *)

Definition class_sum (classes : list string) (f : CgroupStats -> float64) (l : list CgroupStats) : float64 :=
  fold_left (fun acc s => fadd acc (f s)) (filter (fun s => ref_AppClass (Ref s) ∈ classes) l) fzero.

Lemma class_sum_snoc classes f l s :
  class_sum classes f (l ++ [s]) = if decide (ref_AppClass (Ref s) ∈ classes) then fadd (class_sum classes f l) (f s) else class_sum classes f l.
Proof.
  unfold class_sum. rewrite filter_app, fold_left_app, filter_cons, filter_nil. by destruct (decide _).
Qed.

(** The one loop over the cgroups computes six sums: the usage of online and
    system cgroups together, and that of offline ones, each in the order of the list; the time is that of the last cgroup. *)
Theorem appclass_usage_sums l :
  fold_left usage_step l no_usage =
  mkClassUsage (class_sum ["offline"] CpuUsage l) (class_sum ["online"; "system"] CpuUsage l)
    (class_sum ["offline"] MemoryTotalUsage l) (class_sum ["offline"] MemoryWorkingSetUsage l)
    (class_sum ["online"; "system"] MemoryTotalUsage l) (class_sum ["online"; "system"] MemoryWorkingSetUsage l)
    (default nilTime (last (map Timestamp l))).
Proof.
  induction l as [|s l IH] using rev_ind; [done|]. rewrite fold_left_app, IH. cbn [fold_left]. rewrite !class_sum_snoc, map_app. cbn [map]. rewrite last_snoc.
  unfold usage_step. set (c := ref_AppClass (Ref s)).
  assert (Hon : c ∈ ["online"; "system"] <-> (c =? "online")%string || (c =? "system")%string = true)
    by (rewrite orb_true_iff, !String.eqb_eq; set_solver).
  assert (Hoff : c ∈ ["offline"] <-> (c =? "offline")%string = true) by (rewrite String.eqb_eq; set_solver).
  destruct ((c =? "online")%string || (c =? "system")%string) eqn:E1.
  - rewrite !(decide_True (P := c ∈ ["online"; "system"])) by by apply Hon.
    assert (Hn : c ∉ ["offline"]).
    { rewrite Hoff. intros Hc%String.eqb_eq. rewrite Hc in E1. done. }
    by rewrite !(decide_False (P := c ∈ ["offline"])) by done.
  - assert (Hn : c ∉ ["online"; "system"]) by (rewrite Hon; done).
    rewrite !(decide_False (P := c ∈ ["online"; "system"])) by done.
    destruct (c =? "offline")%string eqn:E2.
    + by rewrite !(decide_True (P := c ∈ ["offline"])) by by apply Hoff.
    + assert (Hn2 : c ∉ ["offline"]) by (rewrite Hoff; done). by rewrite !(decide_False (P := c ∈ ["offline"])) by done.
Qed.

(** The job in the labels of the counters is the job that the correlation
    analysis keeps its samples under. *)
Theorem perf_job_is_cpi_job podName containerName : perf_getJobName podName containerName = getJobName podName containerName.
Proof. unfold perf_getJobName, getJobName. by destruct (podName =? "")%string. Qed.

(** ** common_metrics.go: counters and gauges *)

Inductive vec_kind := CounterVec | GaugeVec.

(** A vector: its labels, and the value of each tuple of label values. *)
Record vec := mkVec { v_kind : vec_kind; v_FQName : string; v_labels : list string; v_cells : gmap (list string) float64 }.

#[local] Abbreviation registry := (gmap string vec).

Definition metricNameInterferenceCounter : string := "interferenceCounter".
Definition metricNameKillCounter : string := "killCounter".
Definition metricNameNodeResource : string := "nodeResource".
Definition metricNameNodeScheduleDisabled : string := "scheduleDisabled".
Definition metricsNameSLONotMetCounter : string := "sloNotMetCounter".
Definition metricsNameOnlineJob : string := "onlineJob".
Definition metricsDiskSpace : string := "diskSpace".
Definition metricsNameDiskSpaceLimited : string := "diskSpaceLimited".
Definition metricsAlarmCounter : string := "alarmCounter".

Definition total_vecs : list (string * vec) :=
  [(metricNameInterferenceCounter, mkVec CounterVec "caelus_interference_counter" ["node"; "type"] ∅);
   (metricNameKillCounter, mkVec CounterVec "caelus_kill_counter" ["node"; "type"] ∅);
   (metricNameNodeResource, mkVec GaugeVec "caelus_node_resource" ["node"; "resource"; "type"] ∅);
   (metricNameNodeScheduleDisabled, mkVec GaugeVec "caelus_node_schedule_disabled" ["node"] ∅);
   (metricsNameSLONotMetCounter, mkVec CounterVec "caelus_slo_not_met_counter" ["node"; "app"] ∅);
   (metricsNameOnlineJob, mkVec GaugeVec "caelus_online_job" ["node"; "jobname"; "metrics"] ∅);
   (metricsDiskSpace, mkVec GaugeVec "caelus_disk_space_gb" ["node"; "type"; "mountpoint"] ∅);
   (metricsNameDiskSpaceLimited, mkVec GaugeVec "caelus_node_disk_space_limited" ["node"] ∅);
   (metricsAlarmCounter, mkVec CounterVec "caelus_alarm_counter" ["node"] ∅)].

Definition totalMetrics : registry := list_to_map total_vecs.

Definition vec_kind_eqb (a b : vec_kind) : bool := match a, b with CounterVec, CounterVec | GaugeVec, GaugeVec => true | _, _ => false end.

(** The type assertion, [WithLabelValues] and the change of the cell. *)
Definition with_values (kind : vec_kind) (key : string) (values : list string) (f : float64 -> float64) (t : registry) : outcome registry :=
  match t !! key with
  | None => Crash (Panic "interface conversion: interface is nil")
  | Some v =>
      if negb (vec_kind_eqb kind (v_kind v)) then Crash (Panic "interface conversion")
      else if negb (length values =? length (v_labels v))%nat then Crash (Panic "inconsistent label cardinality")
      else Ret (<[key := mkVec (v_kind v) (v_FQName v) (v_labels v) (<[values := f (default fzero (v_cells v !! values))]> (v_cells v))]> t)
  end.

(** [With]: the values in the order of the labels. *)
Definition with_labels (kind : vec_kind) (key : string) (labels : list (string * string)) (f : float64 -> float64) (t : registry) : outcome registry :=
  match t !! key with
  | None => Crash (Panic "interface conversion: interface is nil")
  | Some v =>
      if negb (length labels =? length (v_labels v))%nat then Crash (Panic "inconsistent label cardinality")
      else
        match mapM (fun l => list_to_map (M := gmap string string) labels !! l) (v_labels v) with
        | None => Crash (Panic "label name not found")
        | Some values => with_values kind key values f t
        end
  end.

Definition Inc (x : float64) : float64 := fadd x fone.
Definition Set_ (v : float64) : float64 -> float64 := fun _ => v.

Section Registry.
Context {RO : RangeOrder} (NodeIP : string) {Q : Type} `{QO : QuantityOps Q}.

Definition InterferenceCounterInc (metricsKind : string) : registry -> outcome registry :=
  with_values CounterVec metricNameInterferenceCounter [NodeIP; metricsKind] Inc.

Definition KillCounterInc (offlineType : string) : registry -> outcome registry := with_values CounterVec metricNameKillCounter [NodeIP; offlineType] Inc.

Definition node_resource (resource resType : string) (v : float64) : registry -> outcome registry :=
  with_labels GaugeVec metricNameNodeResource [("node", NodeIP); ("resource", resource); ("type", resType)] (Set_ v).

Definition NodeResourceMetricsReset_vec (res : gmap string Q) (resType : string) (t : registry) : outcome registry :=
  t ← node_resource "cpu" resType (cpu_gauge (cpuMilli res)) t; node_resource "memory" resType (mem_gauge (memBytes res)) t.

Definition NodeScheduleDisabled (disabled : float64) : registry -> outcome registry :=
  with_labels GaugeVec metricNameNodeScheduleDisabled [("node", NodeIP)] (Set_ disabled).

Definition SLONotMetCounterInc (appName : string) : registry -> outcome registry := with_values CounterVec metricsNameSLONotMetCounter [NodeIP; appName] Inc.

(** A loop that changes the vectors. *)
Fixpoint each_metric {A} (body : A -> registry -> outcome registry) (l : list A) (t : registry) : outcome registry :=
  match l with
  | [] => Ret t
  | a :: l' => t ← body a t; each_metric body l' t
  end.

Definition OnlineJobsMetrics (jobName : string) (metrics : gmap string float64) : registry -> outcome registry :=
  each_metric (fun kv => with_values GaugeVec metricsNameOnlineJob [NodeIP; jobName; kv.1] (Set_ kv.2)) (range_map "OnlineJobsMetrics" metrics).

Definition DiskSpaceMetrics (diskStats : gmap string DiskPartitionStats) : registry -> outcome registry :=
  each_metric (fun ms t =>
    t ← with_values GaugeVec metricsDiskSpace [NodeIP; "total"; ms.1] (Set_ (float64_of_Z (Z.quot (TotalSize ms.2) DiskUnit))) t;
    with_values GaugeVec metricsDiskSpace [NodeIP; "free"; ms.1] (Set_ (float64_of_Z (Z.quot (FreeSize ms.2) DiskUnit))) t)
    (range_map "DiskSpaceMetrics" diskStats).

Definition DiskSpaceLimited (spaceLimited : float64) : registry -> outcome registry :=
  with_labels GaugeVec metricsNameDiskSpaceLimited [("node", NodeIP)] (Set_ spaceLimited).

Definition AlarmCounterInc : registry -> outcome registry := with_values CounterVec metricsAlarmCounter [NodeIP] Inc.

(** The operations that the other packages call. *)
Inductive metric_op :=
| OpInterference (metricsKind : string)
| OpKill (offlineType : string)
| OpNodeResource (res : gmap string Q) (resType : string)
| OpScheduleDisabled (disabled : float64)
| OpSLONotMet (appName : string)
| OpOnlineJobs (jobName : string) (metrics : gmap string float64)
| OpDiskSpace (diskStats : gmap string DiskPartitionStats)
| OpDiskSpaceLimited (spaceLimited : float64)
| OpAlarm.

Definition metric_step (op : metric_op) : registry -> outcome registry :=
  match op with
  | OpInterference k => InterferenceCounterInc k
  | OpKill k => KillCounterInc k
  | OpNodeResource res ty => NodeResourceMetricsReset_vec res ty
  | OpScheduleDisabled d => NodeScheduleDisabled d
  | OpSLONotMet a => SLONotMetCounterInc a
  | OpOnlineJobs j m => OnlineJobsMetrics j m
  | OpDiskSpace s => DiskSpaceMetrics s
  | OpDiskSpaceLimited d => DiskSpaceLimited d
  | OpAlarm => AlarmCounterInc
  end.

(** The vectors of the package with some values. *)
Definition same_vec (v w : vec) : Prop := v_kind v = v_kind w /\ v_FQName v = v_FQName w /\ v_labels v = v_labels w.

Definition registry_ok (t : registry) : Prop :=
  forall key v0, totalMetrics !! key = Some v0 -> exists v, t !! key = Some v /\ same_vec v0 v /\ map_Forall (fun ls _ => length ls = length (v_labels v)) (v_cells v).

Lemma with_values_ok t kind key values f v0 :
  registry_ok t -> totalMetrics !! key = Some v0 -> v_kind v0 = kind -> length values = length (v_labels v0) ->
  exists t', with_values kind key values f t = Ret t' /\ registry_ok t'.
Proof.
  intros Hok H0 Hk Hl. destruct (Hok key v0 H0) as (v & Hv & (E1 & E2 & E3) & Hc). unfold with_values. rewrite Hv, <- E1, Hk, <- E3, Hl, Nat.eqb_refl.
  replace (vec_kind_eqb kind kind) with true by (by destruct kind). cbn [negb]. eexists. split; [done|]. intros k w Hw.
  destruct (decide (k = key)) as [->|Hne]; [|rewrite lookup_insert_ne by done; by apply Hok].
  rewrite H0 in Hw. injection Hw as <-. rewrite lookup_insert_eq. eexists. split; [done|]. cbn. split; [done|].
  apply map_Forall_insert_2; [lia|]. eapply map_Forall_impl; [exact Hc|]. intros ls w0 Hls. cbn in Hls |- *. congruence.
Qed.

Lemma with_labels_ok t kind key labels f v0 :
  registry_ok t -> totalMetrics !! key = Some v0 -> v_kind v0 = kind -> labels.*1 = v_labels v0 -> NoDup (v_labels v0) ->
  exists t', with_labels kind key labels f t = Ret t' /\ registry_ok t'.
Proof.
  intros Hok H0 Hk Hl Hnd. destruct (Hok key v0 H0) as (v & Hv & (E1 & E2 & E3) & Hc). unfold with_labels. rewrite Hv, <- E3, <- Hl.
  rewrite length_fmap, Nat.eqb_refl. cbn [negb].
  assert (Hm : mapM (fun l => list_to_map (M := gmap string string) labels !! l) labels.*1 = Some labels.*2).
  { apply mapM_Some. rewrite <- Hl in Hnd. apply Forall2_fmap, Forall_Forall2_diag, Forall_forall. intros [l x] Hin.
    by apply elem_of_list_to_map_1. }
  rewrite Hm. apply (with_values_ok t kind key labels.*2 f v0); [done..|]. by rewrite <- Hl, !length_fmap.
Qed.

Lemma each_metric_ok {A} (body : A -> registry -> outcome registry) l t :
  (forall a t, registry_ok t -> exists t', body a t = Ret t' /\ registry_ok t') -> registry_ok t -> exists t', each_metric body l t = Ret t' /\ registry_ok t'.
Proof.
  intros Hb. revert t. induction l as [|a l IH]; intros t Ht; cbn [each_metric]; [by exists t|].
  destruct (Hb a t Ht) as (t1 & -> & H1). cbn. by apply IH.
Qed.

#[local] Ltac cell := (eapply with_values_ok; [done|reflexivity|reflexivity|reflexivity]) || (eapply with_labels_ok; [done|reflexivity|reflexivity|reflexivity|]; cbn; repeat (apply NoDup_cons; split; [set_solver|]); apply NoDup_nil_2).

Lemma node_resource_ok resource resType v t : registry_ok t -> exists t', node_resource resource resType v t = Ret t' /\ registry_ok t'.
Proof. intros H. cell. Qed.

Lemma metric_step_ok op t : registry_ok t -> exists t', metric_step op t = Ret t' /\ registry_ok t'.
Proof.
  intros H. destruct op; cbn [metric_step]; try cell.
  - unfold NodeResourceMetricsReset_vec. destruct (node_resource_ok "cpu" resType (cpu_gauge (cpuMilli res)) t H) as (t1 & -> & H1). cbn.
    by apply node_resource_ok.
  - apply each_metric_ok; [|done]. intros [k v] t1 H1. cell.
  - apply each_metric_ok; [|done]. intros [k v] t1 H1. cbn [fst snd].
    assert (H2 : exists t2, with_values GaugeVec metricsDiskSpace [NodeIP; "total"; k] (Set_ (float64_of_Z (Z.quot (TotalSize v) DiskUnit))) t1 = Ret t2 /\ registry_ok t2) by cell.
    destruct H2 as (t2 & E & H2). unfold mbind, outcome_bind. rewrite E. cell.
Qed.

Lemma registry_init : registry_ok totalMetrics.
Proof.
  intros key v0 H. exists v0. split; [done|]. split; [done|].
  apply elem_of_list_to_map_2 in H. unfold total_vecs in H. repeat (apply elem_of_cons in H as [[= -> ->]|H]); [cbn; apply map_Forall_empty..|].
  by apply not_elem_of_nil in H.
Qed.

(** A sequence of calls. *)
Fixpoint metric_run (ops : list metric_op) (t : registry) : outcome registry :=
  match ops with
  | [] => Ret t
  | op :: ops' => t ← metric_step op t; metric_run ops' t
  end.

(** No sequence of calls panics: every call finds its vector with the type
    and the labels it expects, and leaves the vectors so. *)
Theorem metric_calls_return ops : exists t, metric_run ops totalMetrics = Ret t /\ registry_ok t.
Proof.
  pose proof registry_init as H. revert H. generalize totalMetrics. induction ops as [|op ops IH]; intros t H; cbn [metric_run]; [by exists t|].
  destruct (metric_step_ok op t H) as (t1 & E & H1). unfold mbind, outcome_bind. rewrite E. by apply IH.
Qed.

(** *** Counters *)

Definition cell (t : registry) (key : string) (values : list string) : float64 := default fzero (v ← t !! key; v_cells v !! values).

Lemma with_values_cell t kind key values f t' k vs :
  with_values kind key values f t = Ret t' ->
  cell t' k vs = if decide (k = key /\ vs = values) then f (cell t key values) else cell t k vs.
Proof.
  unfold with_values. destruct (t !! key) as [v|] eqn:Ev; [|done]. destruct (negb _); [done|]. destruct (negb _); [done|]. intros [= <-].
  unfold cell. destruct (decide (k = key)) as [->|Hk].
  - rewrite lookup_insert_eq, Ev. cbn. destruct (decide (vs = values)) as [->|Hvs].
    + rewrite lookup_insert_eq. cbn. by rewrite decide_True by done.
    + rewrite lookup_insert_ne by done. rewrite decide_False by (by intros [_ ?]). done.
  - rewrite lookup_insert_ne by done. by rewrite decide_False by (by intros [? _]).
Qed.

Lemma with_values_other t kind key values f t' k vs : with_values kind key values f t = Ret t' -> k <> key -> cell t' k vs = cell t k vs.
Proof. intros H Hk. rewrite (with_values_cell _ _ _ _ _ _ _ _ H). by rewrite decide_False by (by intros [? _]). Qed.

Lemma with_labels_other t kind key labels f t' k vs : with_labels kind key labels f t = Ret t' -> k <> key -> cell t' k vs = cell t k vs.
Proof.
  unfold with_labels. destruct (t !! key); [|done]. destruct (negb _); [done|]. destruct (mapM _ _) as [values|]; [|done].
  intros H. by apply (with_values_other _ _ _ _ _ _ _ _ H).
Qed.

Lemma each_metric_other {A} (body : A -> registry -> outcome registry) l t t' k vs :
  (forall a t t', body a t = Ret t' -> cell t' k vs = cell t k vs) -> each_metric body l t = Ret t' -> cell t' k vs = cell t k vs.
Proof.
  intros Hb. revert t. induction l as [|a l IH]; intros t H; cbn [each_metric] in H; [by injection H as <-|].
  apply outcome_bind_Ret in H as (t1 & E & H). rewrite (IH _ H). by eapply Hb.
Qed.

Lemma metric_step_kill op t t' vs :
  metric_step op t = Ret t' -> (forall ty, op <> OpKill ty) -> cell t' metricNameKillCounter vs = cell t metricNameKillCounter vs.
Proof.
  intros H Hop. destruct op as [k|ty|res ty|d|a|j m|ds|d|]; cbn [metric_step] in H.
  2: by destruct (Hop ty).
  1, 3, 4, 7, 8: first [by eapply with_values_other | by eapply with_labels_other].
  - apply outcome_bind_Ret in H as (t1 & E & H). transitivity (cell t1 metricNameKillCounter vs); [exact (with_labels_other _ _ _ _ _ _ metricNameKillCounter vs H ltac:(done))|].
    exact (with_labels_other _ _ _ _ _ _ metricNameKillCounter vs E ltac:(done)).
  - eapply each_metric_other; [|exact H]. intros a t1 t2 E. exact (with_values_other _ _ _ _ _ _ metricNameKillCounter vs E ltac:(done)).
  - eapply each_metric_other; [|exact H]. intros a t1 t2 E. apply outcome_bind_Ret in E as (t3 & E1 & E2).
    transitivity (cell t3 metricNameKillCounter vs); [exact (with_values_other _ _ _ _ _ _ metricNameKillCounter vs E2 ltac:(done))|].
    exact (with_values_other _ _ _ _ _ _ metricNameKillCounter vs E1 ltac:(done)).
Qed.

Fixpoint kills (offlineType : string) (ops : list metric_op) : nat :=
  match ops with
  | [] => 0
  | OpKill ty :: ops' => if decide (ty = offlineType) then S (kills offlineType ops') else kills offlineType ops'
  | _ :: ops' => kills offlineType ops'
  end.

(** The counter of killed jobs of a type has been raised once for each call
    for this type, whatever other metrics were changed in between. *)
Theorem kill_counter_counts ops t offlineType :
  metric_run ops totalMetrics = Ret t -> cell t metricNameKillCounter [NodeIP; offlineType] = Nat.iter (kills offlineType ops) Inc fzero.
Proof.
  assert (H : forall t0 n, cell t0 metricNameKillCounter [NodeIP; offlineType] = Nat.iter n Inc fzero -> metric_run ops t0 = Ret t ->
                cell t metricNameKillCounter [NodeIP; offlineType] = Nat.iter (kills offlineType ops + n) Inc fzero).
  { induction ops as [|op ops IH]; intros t0 n H0 H; cbn [metric_run] in H; [by injection H as <-|].
    apply outcome_bind_Ret in H as (t1 & E & H).
    assert (Hkeep : (forall ty, op <> OpKill ty) -> cell t1 metricNameKillCounter [NodeIP; offlineType] = Nat.iter n Inc fzero).
    { intros Hop. by rewrite (metric_step_kill _ _ _ _ E Hop). }
    destruct op as [k|ty|res ty|d|a|j m|ds|d|]; cbn [kills]; try (by apply (IH t1 n); [apply Hkeep|]).
    cbn [metric_step] in E. pose proof (with_values_cell _ _ _ _ _ _ metricNameKillCounter [NodeIP; offlineType] E) as Hc.
    destruct (decide (ty = offlineType)) as [->|Hne].
    - rewrite decide_True in Hc by done. rewrite (IH t1 (S n)); [by rewrite <- plus_n_Sm| |done]. by rewrite Hc, H0.
    - rewrite decide_False in Hc by (intros [_ [= ->]]; done). apply (IH t1 n); [by rewrite Hc|done]. }
  intros Hr. rewrite (H totalMetrics 0%nat); [by rewrite Nat.add_0_r|done|done].
Qed.
End Registry.

(** The vectors and the collected metrics have different names, so that
    registering them does not panic. *)
Theorem metric_names_distinct {RO : RangeOrder} {Q : Type} (now : string -> string -> string -> time) :
  NoDup (map (fun kv => v_FQName kv.2) total_vecs ++ map d_Name (Describe (ResourceMetricsConfig (Q := Q) now))).
Proof. cbn. repeat (apply NoDup_cons; split; [set_solver|]). apply NoDup_nil_2. Qed.

(** ** Witnesses *)

Definition ex_now : string -> string -> string -> time := fun _ _ _ => 100.

(** The metric that the parameters make. *)
Definition ex_const (d : Desc) (v : float64) (values : list string) : outcome (string * list string * float64) :=
  if (length values =? length (d_labels d))%nat then Ret (d_Name d, values, v) else Crash (Panic "inconsistent label cardinality").

Definition ex_stats (class : string) (cpu : Z) : CgroupStats :=
  mkStats (mkRef "c" "c" ("pod-" +:+ class) "default" "u" class) (float64_of_Z cpu) fzero fzero (float64_of_Z (2 ^ 30)) fzero fzero fzero fzero fzero fzero fzero fzero 7.

Definition ex_state : StateStore := {|
  GetNodeResourceRecentState := Ok (mkNodeResourceState 7 (Some (mkNodeCpu [] 7 0 (float64_of_Z 3) [fone; float64_of_Z 2] fone fzero [fzero; fzero] fone)) None None None None None);
  ListCgroupResourceRecentState := fun _ => Ok [ex_stats "online" 1; ex_stats "system" 2; ex_stats "offline" 4];
  ListPerfResourceRecentStats := Ret (Ok [mkPerfMetrics (mkRef "c" "c" "job-1" "default" "u" "online") (mkPerfData fone fone fone fone fone fone fone 8)]);
  ListRDTResourceRecentStats := Ret (Err "no rdt");
  ss_MachineInfo := Ok (8, 2 ^ 33);
|}.

Definition ex_pod_quotas : PodVolumes Z :=
  mkPodVolumes (mkPod "default" "pod-a" "u" ∅ None None PodRunning PodQOSBurstable [] []) "online"
     {["emptyDir" := mkVolumeInfo true true {["data" := mkWrapper true (mkPathInfo "/data" (Some (mkSize (2 ^ 30) 0 (2 ^ 29) 5)) None)]}]} 7.

Definition ex_quotas : list (PodVolumes Z) := [ex_pod_quotas].

Lemma Collect_returns_witness :
  exists ms, @Collect Z _ ex_const (fun _ m => m) (fun v => ("scrape_error", [], v)) "node1" (@ResourceMetricsConfig key_order Z ex_now) (Some ex_state) (Some (Ok ex_quotas)) =
    Ret (ms ++ [("scrape_error", [], fzero)]) /\ length ms = 47%nat.
Proof.
  destruct (@Collect_returns key_order Z _ ex_now ex_const (fun _ m => m) (fun v => ("scrape_error", [], v))) with (nodeName := "node1") (store := Some ex_state)
    (quotas := Some (Ok ex_quotas)) as [ms E].
  - intros d v values Hl. unfold ex_const. rewrite Hl, Nat.eqb_refl. eexists. reflexivity.
  - intros st Hst. injection Hst as <-. eexists _, _. split; reflexivity.
  - exists ms. split; [exact E|]. vm_compute in E. injection E as E. apply (f_equal length) in E. rewrite length_app in E. cbn [length] in E. lia.
Defined.

Example ex_labels :
  map mv_labels (@nodeCpuUsage (default (mkNodeResourceState 0 None None None None None None) (match GetNodeResourceRecentState ex_state with Ok s => Some s | _ => None end))) =
  [["total"]; ["cpu00"]; ["cpu01"]; ["offline"]].
Proof. vm_compute. reflexivity. Qed.

Lemma node_values_distinct_witness :
  NoDup [["cpu"; "online"; "false"]; ["cpu"; "offline"; "false"]; ["mem"; "online"; "false"]; ["mem_rss"; "online"; "false"]; ["mem"; "offline"; "false"];
         ["mem_rss"; "offline"; "false"]; ["cpu"; "online"; "true"]; ["cpu"; "offline"; "true"]; ["mem"; "online"; "true"]; ["mem_rss"; "online"; "true"];
         ["mem"; "offline"; "true"]; ["mem_rss"; "offline"; "true"]].
Proof.
  apply (@node_values_distinct key_order (mkNodeMetric "caelus_node_appclass_usage" "node appclass usage" ["resource"; "appclass"; "percent"] None (Some nodeAppclassUsage))
    (mkNodeResourceState 0 None None None None None None) ex_state).
  do 7 right. left.
Defined.

Lemma quota_values_distinct_witness : NoDup [["emptyDir"; "data"; "quota"; "exclusive"]; ["emptyDir"; "data"; "inodes"; "exclusive"]].
Proof.
  pose proof (@quota_values_distinct key_order Z ex_now (List.nth 1 (@diskQuotaLevelMetrics key_order Z ex_now) (mkResourceMetric "" "" [] (fun _ => []))) ex_pod_quotas) as H.
  unfold distinct in H. replace (map mv_labels _) with [["emptyDir"; "data"; "quota"; "exclusive"]; ["emptyDir"; "data"; "inodes"; "exclusive"]] in H by (vm_compute; reflexivity).
  apply H. right. left.
Defined.

Example ex_usage :
  let u := fold_left usage_step [ex_stats "online" 1; ex_stats "system" 2; ex_stats "offline" 4; ex_stats "unknown" 8] no_usage in
  (onlineCpu u, offlineCpu u, bytesToGi (onlineMemTotal u)) = (float64_of_Z 3, float64_of_Z 4, float64_of_Z 2).
Proof. vm_compute. reflexivity. Qed.

(** The unit of the gauges of disks is smaller than a Gi. *)
Example disk_gauge_of_gi : Z.quot (255 * 2 ^ 30) DiskUnit = 256.
Proof. reflexivity. Qed.

Definition ex_ops : list (metric_op (Q := Z)) :=
  [OpKill "k8s"; OpKill "yarn"; OpAlarm; OpOnlineJobs "job" {["latency" := fone]}; OpDiskSpace {["/data" := YarnDisks.mkStats (2 ^ 40) 0 (2 ^ 39)]}; OpKill "k8s"].

Lemma kill_counter_counts_witness :
  match @metric_run key_order "10.0.0.1" Z ZQuantityOps ex_ops totalMetrics with
  | Ret t => cell t metricNameKillCounter ["10.0.0.1"; "k8s"] = float64_of_Z 2
  | Crash _ => False
  end.
Proof.
  destruct (@metric_run key_order "10.0.0.1" Z ZQuantityOps ex_ops totalMetrics) as [t|] eqn:E; [|vm_compute in E; discriminate E].
  rewrite (@kill_counter_counts key_order "10.0.0.1" Z ZQuantityOps ex_ops t "k8s" E). vm_compute. reflexivity.
Defined.
