(* ===== verification/OuterExport.v ===== *)
(** * Metrics from outside, exported again

    pkg/caelus/metrics/outer: utils.go makes a metric of a decoded one,
    textfile/textfile.go exports the metrics of the files of a directory, and
    serverrequest/serverrequest.go those of the servers of OuterMetrics.v under a
    new name.  The parser of files and the constructors of metrics belong to the
    Prometheus library ([Prom]). *)

From Stdlib Require Import Ascii.
From S2P Require Import Prelude GoStrings GoFloat Cgroup.

#[local] Open Scope string_scope.
#[local] Open Scope Z_scope.
#[local] Open Scope list_scope.

(** ** Decoded metrics *)

Inductive dto_type := T_COUNTER | T_GAUGE | T_SUMMARY | T_UNTYPED | T_HISTOGRAM | T_GAUGE_HISTOGRAM.

(** Counts and sum, with the quantiles or the buckets. *)
Record distribution := mkDistribution { SampleCount : Z; SampleSum : float64; parts : list (float64 * float64) }.

(** Fields of other types are nil. *)
Record dto_metric := mkDtoMetric {
  LabelPairs : list (string * string);
  dto_Counter : option float64;
  dto_Gauge : option float64;
  dto_Untyped : option float64;
  dto_Summary : option distribution;
  dto_Histogram : option distribution;
  TimestampMs : option Z;
}.

Record dto_family := mkDtoFamily {
  f_Name : option string;
  f_Help : option string;
  f_Type : option dto_type;
  f_Metric : list dto_metric;
}.

(** [GetType] of a family without a type. *)
Definition GetType (f : dto_family) : dto_type := default T_COUNTER (f_Type f).
Definition GetHelp (f : dto_family) : string := default "" (f_Help f).

Inductive ValueType := CounterValue | GaugeValue | UntypedValue.

(** What the library makes, for a name, a help text and label names; it panics
    when the labels do not fit. *)
Class Prom (PM : Type) := {
  MustConst : string -> string -> list string -> ValueType -> float64 -> list string -> outcome PM;
  MustSummary : string -> string -> list string -> Z -> float64 -> list (float64 * float64) -> list string -> outcome PM;
  MustHistogram : string -> string -> list string -> Z -> float64 -> list (float64 * float64) -> list string -> outcome PM;
}.

(** A metric is made when the label names differ and there is a value for each. *)
Class PromLaws (PM : Type) `{Prom PM} := {
  MustConst_ok : forall name help names t v values, NoDup names -> length values = length names -> exists m, MustConst name help names t v values = Ret m;
  MustSummary_ok : forall name help names c s ps values, NoDup names -> length values = length names -> exists m, MustSummary name help names c s ps values = Ret m;
  MustHistogram_ok : forall name help names c s ps values, NoDup names -> length values = length names -> exists m, MustHistogram name help names c s ps values = Ret m;
}.

Definition deref {A} (o : option A) : outcome A := match o with Some a => Ret a | None => Crash (Panic "nil pointer dereference") end.

(** A map of floats that is filled in order. *)
Fixpoint float_set (k v : float64) (l : list (float64 * float64)) : list (float64 * float64) :=
  match l with
  | [] => [(k, v)]
  | (k', v') :: l' => if feq k k' then (k', v) :: l' else (k', v') :: float_set k v l'
  end.

Definition float_map (l : list (float64 * float64)) : list (float64 * float64) := fold_left (fun m kv => float_set kv.1 kv.2 m) l [].

Section Outer.
Context {RO : RangeOrder} {PM : Type} {PL : Prom PM}.

(** ** utils.go *)

Definition HandleMetricType (metricFamily : dto_family) (metric : dto_metric) (values names : list string) : outcome PM :=
  let const := fun valType val => name ← deref (f_Name metricFamily); MustConst name (GetHelp metricFamily) names valType val values in
  match GetType metricFamily with
  | T_COUNTER => const CounterValue (default fzero (dto_Counter metric))
  | T_GAUGE => const GaugeValue (default fzero (dto_Gauge metric))
  | T_UNTYPED => const UntypedValue (default fzero (dto_Untyped metric))
  | T_SUMMARY =>
      s ← deref (dto_Summary metric);
      name ← deref (f_Name metricFamily);
      MustSummary name (GetHelp metricFamily) names (SampleCount s) (SampleSum s) (float_map (parts s)) values
  | T_HISTOGRAM =>
      h ← deref (dto_Histogram metric);
      name ← deref (f_Name metricFamily);
      MustHistogram name (GetHelp metricFamily) names (SampleCount h) (SampleSum h) (float_map (parts h)) values
  | T_GAUGE_HISTOGRAM => Crash (Panic "unknown metric type")
  end.

(** A loop that sends metrics to the channel. *)
Fixpoint send_all {A} (body : A -> outcome (list PM)) (l : list A) : outcome (list PM) :=
  match l with
  | [] => Ret []
  | a :: l' => ms ← body a; rest ← send_all body l'; Ret (ms ++ rest)
  end.

Definition send_one (m : outcome PM) : outcome (list PM) := x ← m; Ret [x].

(** ** textfile.go *)

Definition allLabelNames (metricFamily : dto_family) : gset string :=
  fold_left (fun s metric => fold_left (fun s label => {[label.1]} ∪ s) (LabelPairs metric) s) (f_Metric metricFamily) ∅.

(** The loop over the names of all labels: the missing ones are added, with
    an empty value. *)
Definition add_missing (all : list string) (names values : list string) : list string * list string :=
  fold_left (fun nv k => if existsb (fun name => (k =? name)%string) nv.1 then nv else (nv.1 ++ [k], nv.2 ++ [""])) all (names, values).

(** The range over the set of names. *)
Definition range_set (site : string) (s : gset string) : list string := (range_map site (gset_to_gmap tt s)).*1.

Definition metric_labels (metricFamily : dto_family) (metric : dto_metric) : list string * list string :=
  add_missing (range_set "allLabelNames" (allLabelNames metricFamily)) (map fst (LabelPairs metric)) (map snd (LabelPairs metric)).

Definition convertMetricFamily (metricFamily : dto_family) : outcome (list PM) :=
  send_all (fun metric => let '(names, values) := metric_labels metricFamily metric in
                          send_one (HandleMetricType metricFamily metric values names)) (f_Metric metricFamily).

Definition hasTimestamps (parsedFamilies : gmap string dto_family) : bool :=
  existsb (fun mf => existsb (fun m => match TimestampMs m with Some _ => true | None => false end) (f_Metric mf.2)) (range_map "hasTimestamps" parsedFamilies).

(** The directory: its entries, the families of a file that can be opened and
    parsed, and the times of modification after a file is read. *)
Record text_dir := mkTextDir {
  td_path : string;
  td_entries : result (list string);
  td_parse : string -> result (gmap string dto_family);
  td_stat : string -> result time;
}.

Definition set_help (path : string) (mf : dto_family) : dto_family :=
  match f_Help mf with None => mkDtoFamily (f_Name mf) (Some ("Metric read from " +:+ path)) (f_Type mf) (f_Metric mf) | Some _ => mf end.

(** The metrics that are sent, and the result. *)
Definition processFile (d : text_dir) (name : string) : outcome (list PM * result time) :=
  let path := path_Join [td_path d; name] in
  match td_parse d path with
  | Err e => Ret ([], Err e)
  | Ok families =>
      if hasTimestamps families then Ret ([], Err ("textfile " +:+ path +:+ " contains unsupported client-side timestamps, skipping entire file"))
      else
        ms ← send_all (fun kf => convertMetricFamily kf.2) (range_map "convert" (set_help path <$> families));
        Ret (ms, td_stat d path)
  end.

Definition HasSuffix (s suffix : string) : bool := HasPrefix (rev_string s "") (rev_string suffix "").

Record update_state := mkUpdate { sent : list PM; u_mtimes : gmap string time; errored : bool }.

(** The body of the loop over the files. *)
Definition update_file (d : text_dir) (u : update_state) (name : string) : outcome update_state :=
  if negb (HasSuffix name ".prom") then Ret u
  else
    r ← processFile d name;
    Ret (match r.2 with
         | Err _ => mkUpdate (sent u ++ r.1) (u_mtimes u) true
         | Ok mtime => mkUpdate (sent u ++ r.1) (<[name := mtime]> (u_mtimes u)) (errored u)
         end).

Fixpoint update_files (d : text_dir) (u : update_state) (files : list string) : outcome update_state :=
  match files with
  | [] => Ret u
  | f :: files' => u' ← update_file d u f; update_files d u' files'
  end.

Definition mtime_name : string := "caelus_node_textfile_mtime_seconds".
Definition mtime_help : string := "Unixtime mtime of textfiles successfully read.".

Definition exportMTimes (mtimes : gmap string time) : outcome (list PM) :=
  send_all (fun filename =>
      send_one (MustConst mtime_name mtime_help ["file"] GaugeValue
                  (float64_of_Z (Z.quot (UnixNano (default nilTime (mtimes !! filename))) (1000 * 1000 * 1000))) [filename]))
    (set_of_list (map fst (range_map "filenames" mtimes))).

Definition scrape_error (errored : bool) : outcome PM :=
  MustConst "caelus_node_textfile_scrape_error" "1 if there was an error opening or reading a file, 0 otherwise" [] GaugeValue
    (if errored then fone else fzero) [].

Definition Update (d : text_dir) : outcome (list PM) :=
  let failed := match td_entries d with Err _ => negb (td_path d =? "")%string | Ok _ => false end in
  u ← update_files d (mkUpdate [] ∅ failed) (match td_entries d with Ok files => files | Err _ => [] end);
  ms ← exportMTimes (u_mtimes u);
  e ← scrape_error (errored u);
  Ret (sent u ++ ms ++ [e]).

(** ** serverrequest.go *)

Definition metricPrefix : string := "caelus_".

Definition rename (mf : dto_family) : dto_family :=
  mkDtoFamily (option_map (fun name => metricPrefix +:+ name) (f_Name mf)) (f_Help mf) (f_Type mf) (f_Metric mf).

Definition handleMetrics (metricFamilies : gmap string dto_family) : outcome (list PM) :=
  send_all (fun kf => let mf := rename kf.2 in
                      send_all (fun metric => send_one (HandleMetricType mf metric (map snd (LabelPairs metric)) (map fst (LabelPairs metric)))) (f_Metric mf))
    (range_map "handleMetrics" metricFamilies).

Definition request_Collect (GetPromDirectMetrics : result (gmap string dto_family)) : outcome (list PM) :=
  match GetPromDirectMetrics with Err _ => Ret [] | Ok metricFamilies => handleMetrics metricFamilies end.

(** ** Labels *)

Lemma elem_of_allLabelNames f k : k ∈ allLabelNames f <-> exists metric, metric ∈ f_Metric f /\ k ∈ map fst (LabelPairs metric).
Proof.
  unfold allLabelNames.
  assert (H1 : forall ps (s : gset string), k ∈ fold_left (fun (s : gset string) (label : string * string) => {[label.1]} ∪ s) ps s <-> k ∈ s \/ k ∈ map fst (ps : list (string * string))).
  { induction ps as [|p ps IH]; intros s; cbn [fold_left map]; [rewrite elem_of_nil; tauto|]. rewrite IH, elem_of_union, elem_of_singleton, elem_of_cons. tauto. }
  assert (H2 : forall ms (s : gset string), k ∈ fold_left (fun (s : gset string) metric => fold_left (fun (s : gset string) (label : string * string) => {[label.1]} ∪ s) (LabelPairs metric) s) ms s <->
                 k ∈ s \/ exists metric, metric ∈ ms /\ k ∈ map fst (LabelPairs metric)).
  { induction ms as [|m ms IH]; intros s; cbn [fold_left].
    - split; [by left|]. intros [?|(x & Hx & _)]; [done|]. by apply not_elem_of_nil in Hx.
    - rewrite IH, H1. setoid_rewrite elem_of_cons. naive_solver. }
  rewrite H2, elem_of_empty. naive_solver.
Qed.

Lemma add_missing_spec all names values :
  length values = length names ->
  let nv := add_missing all names values in
  (exists more, nv.1 = names ++ more /\ nv.2 = values ++ repeat "" (length more)) /\
  (forall k, k ∈ nv.1 <-> k ∈ names \/ k ∈ all) /\ (NoDup names -> NoDup nv.1).
Proof.
  unfold add_missing. revert names values. induction all as [|k all IH]; intros names values Hl; cbn [fold_left].
  { cbn. split; [by exists []; rewrite !app_nil_r|]. split; [|done]. intros j. rewrite elem_of_nil. tauto. }
  cbn [fst snd]. destruct (existsb (fun name => (k =? name)%string) names) eqn:E.
  - destruct (IH names values Hl) as (H1 & H2 & H3). split; [done|]. split; [|done]. intros j. rewrite H2, elem_of_cons.
    apply existsb_exists in E as (x & Hx & ->%String.eqb_eq). apply list_elem_of_In in Hx. naive_solver.
  - destruct (IH (names ++ [k]) (values ++ [""])) as ((more & H1 & H1') & H2 & H3); [rewrite !length_app; cbn; lia|].
    split; [exists (k :: more); rewrite H1, H1', <- !app_assoc; done|]. split.
    + intros j. rewrite H2, elem_of_app, list_elem_of_singleton, elem_of_cons. tauto.
    + intros Hnd. apply H3. apply NoDup_app. split; [done|]. split; [|apply NoDup_singleton]. intros j Hj ->%list_elem_of_singleton.
      rewrite <- not_true_iff_false, existsb_exists in E. apply E. exists k. split; [by apply list_elem_of_In|apply String.eqb_refl].
Qed.

Lemma metric_labels_spec f metric :
  metric ∈ f_Metric f ->
  let nv := metric_labels f metric in
  length nv.2 = length nv.1 /\ (forall k, k ∈ nv.1 <-> k ∈ allLabelNames f) /\ (NoDup (map fst (LabelPairs metric)) -> NoDup nv.1) /\
  take (length (LabelPairs metric)) (zip nv.1 nv.2) = LabelPairs metric /\ Forall (fun x => x.2 = "") (drop (length (LabelPairs metric)) (zip nv.1 nv.2)).
Proof.
  intros Hm. unfold metric_labels.
  destruct (add_missing_spec (range_set "allLabelNames" (allLabelNames f)) (map fst (LabelPairs metric)) (map snd (LabelPairs metric)))
    as ((more & E1 & E2) & H2 & H3); [by rewrite !length_map|]. cbn zeta in *. rewrite E1, E2 in *.
  split; [by rewrite !length_app, !length_map, repeat_length|]. split.
  { intros k. unfold range_set in H2. rewrite H2, elem_of_range_set, elem_of_allLabelNames. split; [|tauto]. intros [?|?]; [by exists metric|done]. }
  split; [done|]. rewrite zip_with_app by by rewrite !length_map.
  assert (Ez : zip (map fst (LabelPairs metric)) (map snd (LabelPairs metric)) = LabelPairs metric).
  { clear. induction (LabelPairs metric) as [|[a b] l IH]; [done|]. cbn. by rewrite IH. }
  rewrite Ez. rewrite take_app_length, drop_app_length. split; [done|]. clear. induction more as [|x more IH]; [constructor|]. cbn. by constructor.
Qed.

(** Within a family every metric is exported with the same label names:
    its own labels come first with their values, and those that only other metrics have follow with empty values; names
    do not repeat, and there is a value for each. *)
Theorem convert_same_labels f m1 m2 :
  m1 ∈ f_Metric f -> m2 ∈ f_Metric f -> NoDup (map fst (LabelPairs m1)) -> NoDup (map fst (LabelPairs m2)) ->
  (metric_labels f m1).1 ≡ₚ (metric_labels f m2).1 /\ length (metric_labels f m1).2 = length (metric_labels f m1).1 /\
  exists more, zip (metric_labels f m1).1 (metric_labels f m1).2 = LabelPairs m1 ++ more /\ Forall (fun x => x.2 = "") more.
Proof.
  intros H1 H2 N1 N2. destruct (metric_labels_spec f m1 H1) as (L1 & E1 & D1 & T1 & F1), (metric_labels_spec f m2 H2) as (L2 & E2 & D2 & _).
  split; [|split; [done|]].
  - apply NoDup_Permutation; [by apply D1|by apply D2|]. intros k. by rewrite E1, E2.
  - exists (drop (length (LabelPairs m1)) (zip (metric_labels f m1).1 (metric_labels f m1).2)). split; [|done].
    etransitivity; [symmetry; apply (take_drop (length (LabelPairs m1)))|]. f_equal. exact T1.
Qed.

(** ** A collection *)

Context {PLL : PromLaws PM}.

(** A family as the parser returns it. *)
Definition metric_complete (f : dto_family) (m : dto_metric) : Prop :=
  NoDup (map fst (LabelPairs m)) /\
  match GetType f with T_SUMMARY => dto_Summary m <> None | T_HISTOGRAM => dto_Histogram m <> None | T_GAUGE_HISTOGRAM => False | _ => True end.

Definition family_complete (f : dto_family) : Prop := f_Name f <> None /\ Forall (metric_complete f) (f_Metric f).

Lemma HandleMetricType_Ret f m values names :
  f_Name f <> None -> metric_complete f m -> NoDup names -> length values = length names -> exists x, HandleMetricType f m values names = Ret x.
Proof.
  intros Hn [_ Hp] Hnd Hl. unfold HandleMetricType. destruct (f_Name f) as [name|]; [|done].
  destruct (GetType f); cbn; [by apply MustConst_ok|by apply MustConst_ok| |by apply MustConst_ok| |done].
  - destruct (dto_Summary m); [|done]. by apply MustSummary_ok.
  - destruct (dto_Histogram m); [|done]. by apply MustHistogram_ok.
Qed.

Lemma send_all_Ret {A} (body : A -> outcome (list PM)) (n : A -> nat) l :
  (forall a, a ∈ l -> exists ms, body a = Ret ms /\ length ms = n a) ->
  exists ms, send_all body l = Ret ms /\ length ms = foldr Nat.add 0%nat (map n l).
Proof.
  induction l as [|a l IH]; intros H; cbn [send_all]; [by exists []|]. destruct (H a) as (ms & -> & Hl); [left|].
  destruct IH as (rest & Hr & Hl'); [intros; apply H; by right|]. cbn. rewrite Hr. eexists. split; [done|]. by rewrite length_app, Hl, Hl'.
Qed.

Lemma send_one_Ret m : (exists x, m = Ret x) -> exists ms, send_one m = Ret ms /\ length ms = 1%nat.
Proof. intros [x ->]. by exists [x]. Qed.

Lemma convertMetricFamily_Ret f : family_complete f -> exists ms, convertMetricFamily f = Ret ms.
Proof.
  intros [Hn Hf]. unfold convertMetricFamily. destruct (send_all_Ret (fun metric => let '(names, values) := metric_labels f metric in
    send_one (HandleMetricType f metric values names)) (fun _ => 1%nat) (f_Metric f)) as (ms & -> & _); [|by exists ms].
  intros m Hm. rewrite Forall_forall in Hf. pose proof (Hf m Hm) as Hc. destruct (metric_labels_spec f m Hm) as (L & _ & D & _).
  destruct (metric_labels f m) as [names values]. apply send_one_Ret. apply HandleMetricType_Ret; [done..| |done]. apply D. apply Hc.
Qed.

Lemma set_help_complete path f : family_complete f -> family_complete (set_help path f).
Proof. unfold set_help. by destruct (f_Help f). Qed.

(** Every file that parses has complete families. *)
Definition dir_complete (d : text_dir) : Prop := forall path families, td_parse d path = Ok families -> map_Forall (fun _ => family_complete) families.

(** The time of modification of a file that is exported without an error. *)
Definition file_time (d : text_dir) (name : string) : option time :=
  let path := path_Join [td_path d; name] in
  match td_parse d path with
  | Err _ => None
  | Ok families => if hasTimestamps families then None else match td_stat d path with Ok t => Some t | Err _ => None end
  end.

Lemma processFile_Ret d name :
  dir_complete d -> exists ms r, processFile d name = Ret (ms, r) /\ file_time d name = match r with Ok t => Some t | Err _ => None end.
Proof.
  intros Hd. unfold processFile, file_time. destruct (td_parse d _) as [families|e] eqn:Ep; [|by eexists _, _].
  destruct (hasTimestamps families); [by eexists _, _|].
  destruct (send_all_Ret (fun kf : string * dto_family => convertMetricFamily kf.2) (fun kf => match convertMetricFamily kf.2 with Ret ms => length ms | _ => 0%nat end)
    (range_map "convert" (set_help (path_Join [td_path d; name]) <$> families))) as (ms & E & _).
  { intros [k f] H%elem_of_range. apply lookup_fmap_Some in H as (f0 & <- & Hf0). cbn [snd].
    destruct (convertMetricFamily_Ret (set_help (path_Join [td_path d; name]) f0)) as [ms ->]; [|by exists ms].
    apply set_help_complete. by apply (Hd _ _ Ep k). }
  unfold mbind, outcome_bind. rewrite E. by eexists _, _.
Qed.

(** The files that count. *)
Definition prom_files (files : list string) : list string := filter (fun name => HasSuffix name ".prom" = true) files.

Lemma update_files_Ret d files u :
  dir_complete d -> exists u', update_files d u files = Ret u' /\
    errored u' = errored u || existsb (fun name => match file_time d name with None => true | Some _ => false end) (prom_files files) /\
    forall name, u_mtimes u' !! name = if bool_decide (name ∈ prom_files files) then from_option Some (u_mtimes u !! name) (file_time d name) else u_mtimes u !! name.
Proof.
  intros Hd. revert u. induction files as [|f files IH]; intros u; cbn [update_files].
  { exists u. split; [done|]. cbn. by rewrite orb_false_r. }
  unfold update_file. destruct (HasSuffix f ".prom") eqn:Ef; cbn [negb].
  2: { destruct (IH u) as (u' & E & H1 & H2). exists u'. unfold mbind, outcome_bind. rewrite E. unfold prom_files in *. rewrite filter_cons_False by (by rewrite Ef). done. }
  destruct (processFile_Ret d f Hd) as (ms & r & E & Ht). unfold mbind, outcome_bind. rewrite E. cbn [fst snd]. unfold prom_files in *. rewrite filter_cons_True by done.
  destruct r as [t|e].
  - destruct (IH (mkUpdate (sent u ++ ms) (<[f := t]> (u_mtimes u)) (errored u))) as (u' & E' & H1 & H2). exists u'. unfold mbind, outcome_bind in E'. rewrite E'. split; [done|].
    cbn [errored u_mtimes existsb] in *. rewrite Ht. split; [by rewrite H1|]. intros name. rewrite H2. destruct (decide (name = f)) as [->|Hne].
    + rewrite lookup_insert_eq, Ht. cbn. rewrite (bool_decide_true (f ∈ f :: _)) by left. by case_bool_decide.
    + rewrite lookup_insert_ne by done. do 2 case_bool_decide; set_solver.
  - destruct (IH (mkUpdate (sent u ++ ms) (u_mtimes u) true)) as (u' & E' & H1 & H2). exists u'. unfold mbind, outcome_bind in E'. rewrite E'. split; [done|].
    cbn [errored u_mtimes existsb] in *. rewrite Ht. split; [by rewrite H1, orb_true_r|]. intros name. rewrite H2. destruct (decide (name = f)) as [->|Hne].
    + rewrite Ht. cbn. by do 2 case_bool_decide.
    + do 2 case_bool_decide; set_solver.
Qed.

Lemma exportMTimes_Ret mtimes : exists ms, exportMTimes mtimes = Ret ms /\ length ms = length (set_of_list (map fst (range_map "filenames" mtimes))).
Proof.
  unfold exportMTimes.
  match goal with |- exists ms, send_all ?b ?l = Ret ms /\ _ => destruct (send_all_Ret b (fun _ => 1%nat) l) as (ms & E & Hl) end.
  - intros name _. apply send_one_Ret. apply MustConst_ok; [apply NoDup_singleton|done].
  - exists ms. split; [done|]. rewrite Hl. generalize (set_of_list (map fst (range_map "filenames" mtimes))). intros l. induction l as [|x l IH]; [done|]. cbn. by rewrite IH.
Qed.

(** An update of the directory always ends: it exports the time of
    modification of exactly the .prom files that are read without an error, and its last metric says whether the directory
    or one of these files failed. *)
Theorem Update_reports d :
  dir_complete d ->
  let files := prom_files (match td_entries d with Ok files => files | Err _ => [] end) in
  let failed := match td_entries d with Err _ => negb (td_path d =? "")%string | Ok _ => false end ||
                existsb (fun name => match file_time d name with None => true | Some _ => false end) files in
  exists before mtimes ms e, Update d = Ret (before ++ ms ++ [e]) /\ exportMTimes mtimes = Ret ms /\ scrape_error failed = Ret e /\
    forall name t, mtimes !! name = Some t <-> name ∈ files /\ file_time d name = Some t.
Proof.
  intros Hd. cbn zeta. unfold Update. set (files := match td_entries d with Ok files => files | Err _ => [] end).
  set (failed := match td_entries d with Err _ => negb (td_path d =? "")%string | Ok _ => false end).
  destruct (update_files_Ret d files (mkUpdate [] ∅ failed) Hd) as (u & E & He & Hm). cbn [errored u_mtimes] in He, Hm.
  destruct (exportMTimes_Ret (u_mtimes u)) as (ms & Ems & _).
  assert (Hs : forall b, exists e, scrape_error b = Ret e) by (intros b; unfold scrape_error; apply MustConst_ok; [apply NoDup_nil_2|done]).
  destruct (Hs (errored u)) as [e Ee]. exists (sent u), (u_mtimes u), ms, e. unfold mbind, outcome_bind. rewrite E, Ems, Ee, <- He.
  split_and!; [done..|]. intros name t. rewrite Hm, lookup_empty. case_bool_decide as Hin; [|by split; [|intros [? _]]].
  destruct (file_time d name); cbn; naive_solver.
Qed.

(** A file with a timestamp of its own in any metric is left out as a
    whole, and counts as failed. *)
Theorem timestamps_skip_file d name families k f m ts :
  td_parse d (path_Join [td_path d; name]) = Ok families -> families !! k = Some f -> m ∈ f_Metric f -> TimestampMs m = Some ts ->
  exists e, processFile d name = Ret ([], Err e).
Proof.
  intros Hp Hk Hm Ht. unfold processFile. rewrite Hp. assert (H : hasTimestamps families = true); [|rewrite H; by eexists].
  unfold hasTimestamps. apply existsb_exists. exists (k, f). split; [by apply list_elem_of_In, elem_of_range|].
  apply existsb_exists. exists m. split; [by apply list_elem_of_In|]. by rewrite Ht.
Qed.

(** The metrics of the servers are exported one for one, each family under
    its name with the prefix, so that two families keep different names. *)
Theorem server_metrics_renamed families :
  map_Forall (fun _ => family_complete) families ->
  (exists ms, handleMetrics families = Ret ms /\ length ms = foldr Nat.add 0%nat (map (fun kf => length (f_Metric kf.2)) (range_map "handleMetrics" families))) /\
  forall f g, f_Name (rename f) = f_Name (rename g) -> f_Name f = f_Name g.
Proof.
  intros Hc. split.
  - unfold handleMetrics. apply (send_all_Ret _ (fun kf => length (f_Metric kf.2))). intros [k f] H%elem_of_range. cbn [snd].
    destruct (Hc k f H) as [Hn Hf].
    match goal with |- exists ms, send_all ?b ?l = Ret ms /\ _ => destruct (send_all_Ret b (fun _ => 1%nat) l) as (ms & E & Hl) end.
    + intros m Hm. cbn [rename f_Metric] in Hm. rewrite Forall_forall in Hf. apply send_one_Ret.
      apply HandleMetricType_Ret; [cbn; by destruct (f_Name f)|exact (Hf m Hm)|apply (Hf m Hm)|by rewrite !length_map].
    + exists ms. split; [done|]. rewrite Hl. cbn [rename f_Metric]. clear. induction (f_Metric f) as [|x l IH]; [done|]. cbn. by rewrite IH.
  - intros f g. unfold rename. cbn. destruct (f_Name f) as [a|], (f_Name g) as [b|]; try done. cbn. intros H. f_equal. assert (E : metricPrefix +:+ a = metricPrefix +:+ b) by congruence.
    clear H. cbv [metricPrefix String.append] in E. congruence.
Qed.
End Outer.

(** ** Witnesses *)

(** The library: a metric is its name, labels and value. *)
Definition ex_check (names values : list string) : bool := bool_decide (NoDup names) && (length values =? length names)%nat.

#[local] Instance ex_prom : Prom (string * list (string * string) * float64) := {|
  MustConst := fun name _ names _ v values => if ex_check names values then Ret (name, zip names values, v) else Crash (Panic "labels");
  MustSummary := fun name _ names _ s _ values => if ex_check names values then Ret (name, zip names values, s) else Crash (Panic "labels");
  MustHistogram := fun name _ names _ s _ values => if ex_check names values then Ret (name, zip names values, s) else Crash (Panic "labels");
|}.

Lemma ex_check_true names values : NoDup names -> length values = length names -> ex_check names values = true.
Proof. intros H1 H2. unfold ex_check. by rewrite bool_decide_true, H2, Nat.eqb_refl. Qed.

#[local] Instance ex_prom_laws : PromLaws (string * list (string * string) * float64).
Proof. split; intros; cbn; rewrite ex_check_true by done; by eexists. Qed.

Definition ex_metric (labels : list (string * string)) (v : Z) (ts : option Z) : dto_metric :=
  mkDtoMetric labels None (Some (float64_of_Z v)) None None None ts.

Definition ex_family (ts : option Z) : dto_family :=
  mkDtoFamily (Some "jobs") None (Some T_GAUGE) [ex_metric [("host", "a"); ("disk", "sda")] 1 None; ex_metric [("zone", "z")] 2 ts].

(** Two files with metrics, one with a timestamp, and one that is no such file. *)
Definition ex_dir : text_dir := {|
  td_path := "/keys";
  td_entries := Ok ["a.prom"; "b.prom"; "readme"];
  td_parse := fun path => Ok {["jobs" := ex_family (if HasSuffix path "b.prom" then Some 5 else None)]};
  td_stat := fun _ => Ok (unix_epoch + 1700 * Second);
|}.

Lemma ex_family_complete ts : family_complete (ex_family ts).
Proof.
  split; [done|]. repeat constructor; cbn; set_solver.
Qed.

Lemma ex_dir_complete : dir_complete ex_dir.
Proof. intros path families [= <-] k f [_ <-]%lookup_singleton_Some. apply ex_family_complete. Qed.

Example ex_update :
  @Update key_order _ ex_prom ex_dir =
    Ret [("jobs", [("host", "a"); ("disk", "sda"); ("zone", "")], float64_of_Z 1); ("jobs", [("zone", "z"); ("disk", ""); ("host", "")], float64_of_Z 2);
         ("caelus_node_textfile_mtime_seconds", [("file", "a.prom")], float64_of_Z 1700); ("caelus_node_textfile_scrape_error", [], fone)].
Proof. vm_compute. reflexivity. Qed.

Lemma convert_same_labels_witness :
  ["zone"; "disk"; "host"] ≡ₚ ["host"; "disk"; "zone"].
Proof.
  assert (H1 : ex_metric [("zone", "z")] 2 None ∈ f_Metric (ex_family None)) by (right; left).
  assert (H2 : ex_metric [("host", "a"); ("disk", "sda")] 1 None ∈ f_Metric (ex_family None)) by left.
  assert (N1 : NoDup (map fst (LabelPairs (ex_metric [("zone", "z")] 2 None)))) by apply NoDup_singleton.
  assert (N2 : NoDup (map fst (LabelPairs (ex_metric [("host", "a"); ("disk", "sda")] 1 None)))) by (cbn; repeat (apply NoDup_cons; split; [set_solver|]); apply NoDup_nil_2).
  pose proof (proj1 (@convert_same_labels key_order (ex_family None) _ _ H1 H2 N1 N2)) as Hp. vm_compute in Hp. exact Hp.
Defined.

Lemma Update_reports_witness :
  exists before (mtimes : gmap string time) ms e, @Update key_order _ ex_prom ex_dir = Ret (before ++ ms ++ [e]) /\
    e = ("caelus_node_textfile_scrape_error", [], fone) /\ mtimes !! "a.prom" = Some (unix_epoch + 1700 * Second) /\ mtimes !! "b.prom" = None.
Proof.
  destruct (@Update_reports key_order _ ex_prom ex_prom_laws ex_dir ex_dir_complete) as (before & mtimes & ms & e & E & _ & He & Hm).
  exists before, mtimes, ms, e. split; [exact E|]. split; [vm_compute in He; injection He as <-; reflexivity|]. split.
  - apply Hm. split; [apply list_elem_of_In; left; reflexivity|vm_compute; reflexivity].
  - destruct (mtimes !! "b.prom") as [t|] eqn:Et; [|reflexivity]. apply Hm in Et as [_ Et]. vm_compute in Et. discriminate Et.
Defined.

Lemma timestamps_skip_file_witness : exists e, @processFile key_order _ ex_prom ex_dir "b.prom" = Ret ([], Err e).
Proof.
  apply (@timestamps_skip_file key_order _ ex_prom ex_dir "b.prom" {["jobs" := ex_family (Some 5)]} "jobs" (ex_family (Some 5)) (ex_metric [("zone", "z")] 2 (Some 5)) 5).
  - vm_compute. reflexivity.
  - reflexivity.
  - right. left.
  - reflexivity.
Defined.

Lemma server_metrics_renamed_witness : exists ms, @handleMetrics key_order _ ex_prom {["jobs" := ex_family None]} = Ret ms /\ length ms = 2%nat.
Proof.
  destruct (@server_metrics_renamed key_order _ ex_prom ex_prom_laws {["jobs" := ex_family None]}) as [(ms & E & Hl) _].
  - intros k f [_ <-]%lookup_singleton_Some. apply ex_family_complete.
  - exists ms. split; [exact E|]. rewrite Hl. vm_compute. reflexivity.
Defined.
