(* ===== verification/Checkpoint.v ===== *)
(** * Checkpoints

    pkg/caelus/checkpoint: documents of the agent are saved in a directory under a
    key, as JSON with a checksum, and restored after a restart.  The checkpoint
    manager and the checksum of the kubelet are the class [CheckpointLib], with
    the documented behaviour as laws; the directory is a state of the library. *)

From Stdlib Require Import Ascii.
From S2P Require Import Prelude GoStrings YarnClient.

#[local] Open Scope string_scope.
#[local] Open Scope Z_scope.
#[local] Open Scope list_scope.

Record checkpointData (T : Type) := mkCheckpoint { Data : T; Checksum : Z }.
Arguments mkCheckpoint {T} _ _.
Arguments Data {T} _.
Arguments Checksum {T} _.

(** The documents of a type: their encoding and their checksum. *)
Class Document (T : Type) := {
  json_Marshal : checkpointData T -> result string;
  (** The decoder writes into the document that it is given. *)
  json_Unmarshal : string -> checkpointData T -> option error * checkpointData T;
  checksum_New : checkpointData T -> Z;
  unmarshal_marshal : forall r b r0, json_Marshal r = Ok b -> json_Unmarshal b r0 = (None, r);
}.

Class CheckpointLib (FS : Type) := {
  (** [Verify] compares the checksum with the one of the document, given by [New]. *)
  checksum_Verify : Z -> Z -> option error;
  verify_same : forall ck new, checksum_Verify ck new = None <-> ck = new;
  (** Creates the directory. *)
  NewCheckpointManager : string -> FS -> option error * FS;
  (** Writes a marshalled document under a key of a directory. *)
  CreateCheckpoint : string -> string -> result string -> FS -> option error * FS;
  (** What is stored under a key. *)
  ReadCheckpoint : string -> string -> FS -> result string;
  (** Reads what is stored and calls the methods of the document, to decode and to
      verify it. *)
  GetCheckpoint : forall {X : Type}, (string -> X -> option error * X) -> (X -> option error * X) -> string -> string -> X -> FS -> option error * X;
  get_checkpoint : forall {X : Type} (unmarshal : string -> X -> option error * X) verify dir key x fs,
    GetCheckpoint unmarshal verify dir key x fs =
    match ReadCheckpoint dir key fs with
    | Err e => (Some e, x)
    | Ok blob => match unmarshal blob x with (Some e, x') => (Some e, x') | (None, x') => verify x' end
    end;
  create_read : forall dir key m fs fs', CreateCheckpoint dir key m fs = (None, fs') ->
    exists b, m = Ok b /\ ReadCheckpoint dir key fs' = Ok b;
  create_other : forall dir key key' m fs, key' <> key ->
    ReadCheckpoint dir key' (CreateCheckpoint dir key m fs).2 = ReadCheckpoint dir key' fs;
}.

Section Checkpoint.
Context {FS : Type} {CL : CheckpointLib FS}.

(** The package variable [cpm]: a nil manager, or one for a directory. *)
Definition InitCheckpointManager (checkpointDir : string) (fs : FS) : (option error * option string) * FS :=
  let '(err, fs') := NewCheckpointManager checkpointDir fs in
  ((err, match err with None => Some checkpointDir | Some _ => None end), fs').

Section OfType.
Context {T : Type} {DT : Document T}.

(** The checksum is zero while it is computed. *)
Definition MarshalCheckpoint (r : checkpointData T) : result string * checkpointData T :=
  let r := mkCheckpoint (Data r) 0 in
  let r := mkCheckpoint (Data r) (checksum_New r) in
  (json_Marshal r, r).

Definition UnmarshalCheckpoint (blob : string) (r : checkpointData T) : option error * checkpointData T := json_Unmarshal blob r.

Definition VerifyChecksum (r : checkpointData T) : option error * checkpointData T :=
  let ck := Checksum r in
  let r := mkCheckpoint (Data r) 0 in
  let err := checksum_Verify ck (checksum_New r) in
  (err, mkCheckpoint (Data r) ck).

Definition Save (cpm : option string) (key : string) (obj : T) (fs : FS) : outcome (option error * FS) :=
  let data := mkCheckpoint obj 0 in
  match cpm with
  | None => Crash (Panic "nil pointer dereference")
  | Some dir => Ret (CreateCheckpoint dir key (MarshalCheckpoint data).1 fs)
  end.

(** With the receiver after it. *)
Definition Restore (cpm : option string) (key : string) (receiver : T) (fs : FS) : outcome (option error * T) :=
  let data := mkCheckpoint receiver 0 in
  match cpm with
  | None => Crash (Panic "nil pointer dereference")
  | Some dir => let '(err, data') := GetCheckpoint UnmarshalCheckpoint VerifyChecksum dir key data fs in Ret (err, Data data')
  end.
End OfType.
End Checkpoint.

(** ** The state of scheduling *)

Definition nodeResourceKey : string := "node_resource".
Definition portsKey : string := "nm_ports".

Section Schedule.
Context {FS : Type} {CL : CheckpointLib FS} {DN : Document (Z * bool)}.

(** [NodeResourceCheckPoint] is the time in seconds and the state. *)
Definition storeCheckpoint (cpm : option string) (scheduleState : bool) (now : time) (fs : FS) : outcome (option error * FS) :=
  Save cpm nodeResourceKey (now `div` Second, scheduleState) fs.

(** What [checkScheduleDisable] restores into an empty document. *)
Definition stored_schedule (cpm : option string) (fs : FS) : outcome (result (Z * bool)) :=
  '(err, c) ← Restore cpm nodeResourceKey (0, false) fs;
  Ret (match err with Some e => Err e | None => Ok c end).

(** [checkScheduleDisable] with its checkpoint. *)
Definition checkSchedule {St : Type} (cpm : option string) (fs : FS) (checkTime : bool) (now : time)
    (disableSchedule : SC St (option error)) : SC St (result (option time)) := fun s =>
  stored ← stored_schedule cpm fs;
  checkScheduleDisable checkTime now stored disableSchedule s.
End Schedule.

(** ** Properties *)

Section Properties.
Context {FS : Type} {CL : CheckpointLib FS}.

Section OfType.
Context {T : Type} {DT : Document T}.

Lemma Save_read dir key (obj : T) fs fs' :
  Save (Some dir) key obj fs = Ret (None, fs') ->
  exists b, json_Marshal (mkCheckpoint obj (checksum_New (mkCheckpoint obj 0))) = Ok b /\ ReadCheckpoint dir key fs' = Ok b.
Proof. intros [= H]. by apply create_read in H. Qed.

Lemma Save_other dir key key' (obj : T) fs e fs' :
  key' <> key -> Save (Some dir) key obj fs = Ret (e, fs') -> ReadCheckpoint dir key' fs' = ReadCheckpoint dir key' fs.
Proof.
  unfold Save. intros Hne H. rewrite <- (create_other dir key key' (MarshalCheckpoint (mkCheckpoint obj 0)).1 fs Hne).
  assert (E : CreateCheckpoint dir key (MarshalCheckpoint (mkCheckpoint obj 0)).1 fs = (e, fs')) by congruence. by rewrite E.
Qed.

Lemma VerifyChecksum_own (obj : T) :
  VerifyChecksum (mkCheckpoint obj (checksum_New (mkCheckpoint obj 0))) = (None, mkCheckpoint obj (checksum_New (mkCheckpoint obj 0))).
Proof. unfold VerifyChecksum. cbn [Checksum Data]. f_equal. by apply verify_same. Qed.

(** A document under its key, after more documents under other keys. *)
Lemma Restore_stored dir key (obj receiver : T) fs :
  (exists b, json_Marshal (mkCheckpoint obj (checksum_New (mkCheckpoint obj 0))) = Ok b /\ ReadCheckpoint dir key fs = Ok b) ->
  Restore (Some dir) key receiver fs = Ret (None, obj).
Proof.
  intros (b & Hb & Hr). unfold Restore. rewrite get_checkpoint, Hr. unfold UnmarshalCheckpoint. rewrite (unmarshal_marshal _ _ _ Hb).
  by rewrite VerifyChecksum_own.
Qed.

End OfType.

(** A document that was saved is restored as it was, whatever the receiver
    holds and whatever was saved under another key since: the checksum is that of
    the document with a checksum of zero, on both sides. *)
Theorem saved_document_restores {T T' : Type} {DT : Document T} {DT' : Document T'} dir key key' (obj receiver : T) (obj' : T') fs fs' e fs'' :
  Save (Some dir) key obj fs = Ret (None, fs') ->
  key <> key' -> Save (Some dir) key' obj' fs' = Ret (e, fs'') ->
  Restore (Some dir) key receiver fs' = Ret (None, obj) /\ Restore (Some dir) key receiver fs'' = Ret (None, obj).
Proof.
  intros H Hne H'. apply Save_read in H as (b & Hb & Hr). split; apply Restore_stored; exists b; split; try done.
  erewrite Save_other; [exact Hr|exact Hne|exact H'].
Qed.

(** A document whose checksum does not fit is refused, but the receiver has
    its data already: the error is all that tells a damaged document apart. *)
Theorem damaged_document_refused {T : Type} {DT : Document T} dir key (receiver : T) fs blob d ck :
  ReadCheckpoint dir key fs = Ok blob -> json_Unmarshal blob (mkCheckpoint receiver 0) = (None, mkCheckpoint d ck) ->
  exists e, Restore (Some dir) key receiver fs = Ret (e, d) /\ (e = None <-> ck = checksum_New (mkCheckpoint d 0)).
Proof.
  intros Hr Hu. unfold Restore. rewrite get_checkpoint, Hr. unfold UnmarshalCheckpoint. rewrite Hu. unfold VerifyChecksum. cbn [Data Checksum].
  eexists. split; [done|]. apply verify_same.
Qed.

(** The directory decides whether documents can be saved at all: when it
    cannot be made at the start, no manager is set, and the first use panics. *)
Theorem no_directory_no_documents {T : Type} {DT : Document T} dir key (obj receiver : T) fs err cpm fs' fs2 :
  InitCheckpointManager dir fs = ((err, cpm), fs') ->
  (err = None <-> is_Some cpm) /\
  (err <> None -> Save cpm key obj fs2 = Crash (Panic "nil pointer dereference") /\
                  Restore cpm key receiver fs2 = Crash (Panic "nil pointer dereference")).
Proof.
  unfold InitCheckpointManager. destruct (NewCheckpointManager dir fs) as [[e|] fs1]; intros [= <- <- <-].
  - split; [|done]. split; [done|]. by intros [? ?].
  - split; [|done]. split; [by eexists|done].
Qed.

Section Schedule.
Context {DN : Document (Z * bool)} {T : Type} {DT : Document T}.

(** A state of scheduling survives a restart of the agent: when it was saved
    as disabled it is disabled again, and the time is set at which it is enabled,
    unless the time counts and more than five minutes have passed; when it was
    saved as enabled nothing happens.  Saving the ports does not change this. *)
Theorem schedule_survives_restart {St} dir state t1 t2 fs fs1 (ports : T) e fs2 checkTime (disable : SC St (option error)) s s' r :
  storeCheckpoint (Some dir) state t1 fs = Ret (None, fs1) ->
  Save (Some dir) portsKey ports fs1 = Ret (e, fs2) ->
  disable s = Ret (r, s') -> 0 <= t1 -> t1 <= t2 < 2 ^ 62 ->
  checkSchedule (Some dir) fs2 checkTime t2 disable s =
  Ret (if state && negb (checkTime && (300 <? t2 `div` Second - t1 `div` Second))
       then (Ok (Some (time_Add t2 (5 * Minute))), s') else (Ok None, s)).
Proof.
  intros H1 H2 Hd Ht1 Ht2. apply Save_read in H1 as (b & Hb & Hr).
  assert (E : Restore (Some dir) nodeResourceKey (0, false) fs2 = Ret (None, (t1 `div` Second, state))).
  { apply Restore_stored. exists b. split; [done|]. rewrite (Save_other dir portsKey nodeResourceKey ports fs1 e fs2); [exact Hr|by vm_compute|exact H2]. }
  unfold checkSchedule, stored_schedule, mbind, outcome_bind. rewrite E. unfold checkScheduleDisable.
  replace (int64 (t2 `div` Second - t1 `div` Second)) with (t2 `div` Second - t1 `div` Second).
  2: { symmetry. apply int64_id. unfold in_int64. change Second with 1000000000. Z.div_mod_to_equations. simpl in *. lia. }
  change timeAvailableSeconds with 300. destruct state; [|reflexivity]. cbn [andb]. destruct (checkTime && _); cbn [negb]; [reflexivity|].
  unfold mbind, SC_bind. rewrite Hd. reflexivity.
Qed.
End Schedule.
End Properties.

(** ** Witness *)

(** Documents of a time and a state, as three words, and files in memory; the
    directory "/" cannot be made. *)
Definition ex_marshal (r : checkpointData (Z * bool)) : result string :=
  if bool_decide (in_int64 (Data r).1 /\ in_int64 (Checksum r))
  then Ok (Join [if (Data r).2 then "1" else "0"; Itoa (Data r).1; Itoa (Checksum r)] " ") else Err "out of range".

Definition ex_unmarshal (b : string) (r0 : checkpointData (Z * bool)) : option error * checkpointData (Z * bool) :=
  match Split b " "%char with
  | [d; t; ck] =>
      match Atoi t, Atoi ck with
      | Some t, Some ck => (None, mkCheckpoint (t, (d =? "1")%string) ck)
      | _, _ => (Some "invalid character", r0)
      end
  | _ => (Some "invalid character", r0)
  end.

Definition ex_checksum (r : checkpointData (Z * bool)) : Z := ((Data r).1 * 2 + Z.b2z (Data r).2 + 7 * Checksum r) `mod` 65521.

Lemma ex_roundtrip r b r0 : ex_marshal r = Ok b -> ex_unmarshal b r0 = (None, r).
Proof.
  unfold ex_marshal, ex_unmarshal. case_bool_decide as H; [|done]. destruct H as [H1 H2]. intros E.
  set (l := [if (Data r).2 then "1" else "0"; Itoa (Data r).1; Itoa (Checksum r)]) in E.
  assert (Hb : b = Join l (String " " "")) by congruence. rewrite Hb, Split_Join; unfold l; [|done|].
  - rewrite !Atoi_Itoa by done. destruct r as [[t []] ck]; reflexivity.
  - assert (Hf : forall z, string_free " " (Itoa z)) by (intros z; apply Itoa_free; [done|by apply digit_char_not]).
    repeat constructor; [by destruct (Data r).2|apply Hf..].
Qed.

#[export] Instance ex_document : Document (Z * bool) := {| checksum_New := ex_checksum; unmarshal_marshal := ex_roundtrip |}.

Abbreviation ex_files := (gmap (string * string) string).

Definition ex_create (dir key : string) (m : result string) (fs : ex_files) : option error * ex_files :=
  match m with Ok b => (None, <[(dir, key) := b]> fs) | Err e => (Some e, fs) end.
Definition ex_read (dir key : string) (fs : ex_files) : result string :=
  match fs !! (dir, key) with Some b => Ok b | None => Err "checkpoint is not found" end.
Definition ex_verify (ck new : Z) : option error := if decide (ck = new) then None else Some "checkpoint is corrupted".

Lemma ex_create_read dir key m fs fs' : ex_create dir key m fs = (None, fs') -> exists b, m = Ok b /\ ex_read dir key fs' = Ok b.
Proof.
  unfold ex_create. destruct m as [b|e]; [|done]. intros H. injection H as <-. exists b. split; [done|].
  unfold ex_read. by rewrite lookup_insert_eq.
Qed.
Lemma ex_create_other dir key key' m fs : key' <> key -> ex_read dir key' (ex_create dir key m fs).2 = ex_read dir key' fs.
Proof. intros Hne. unfold ex_create. destruct m; [|done]. unfold ex_read. cbn [snd]. rewrite lookup_insert_ne; [done|congruence]. Qed.
Lemma ex_verify_same ck new : ex_verify ck new = None <-> ck = new.
Proof. unfold ex_verify. by case_decide. Qed.

Definition ex_get {X : Type} (unmarshal : string -> X -> option error * X) (verify : X -> option error * X) (dir key : string) (x : X) (fs : ex_files) :
    option error * X :=
  match ex_read dir key fs with
  | Err e => (Some e, x)
  | Ok blob => match unmarshal blob x with (Some e, x') => (Some e, x') | (None, x') => verify x' end
  end.

#[export] Instance ex_checkpoints : CheckpointLib ex_files := {|
  checksum_Verify := ex_verify;
  verify_same := ex_verify_same;
  NewCheckpointManager := fun dir fs => (if (dir =? "/")%string then Some "permission denied" else None, fs);
  CreateCheckpoint := ex_create;
  ReadCheckpoint := ex_read;
  GetCheckpoint := @ex_get;
  get_checkpoint := fun _ _ _ _ _ _ _ => eq_refl;
  create_read := ex_create_read;
  create_other := ex_create_other;
|}.

Definition ex_dir : string := "/tmp/caeclus".
Definition ex_saved (v : Z * bool) : ex_files := match Save (Some ex_dir) nodeResourceKey v ∅ with Ret (_, fs) => fs | Crash _ => ∅ end.
Definition ex_ports (fs : ex_files) : ex_files := match Save (Some ex_dir) portsKey (8080, true) fs with Ret (_, fs) => fs | Crash _ => ∅ end.

Lemma saved_document_restores_witness :
  Restore (Some ex_dir) nodeResourceKey (0, false) (ex_saved (1000, true)) = Ret (None, (1000, true)) /\
  Restore (Some ex_dir) nodeResourceKey (0, false) (ex_ports (ex_saved (1000, true))) = Ret (None, (1000, true)).
Proof.
  apply (saved_document_restores ex_dir nodeResourceKey portsKey (1000, true) (0, false) (8080, true) ∅ _ None);
    [vm_compute; reflexivity|discriminate|vm_compute; reflexivity].
Defined.

(** One digit of the time was changed. *)
Definition ex_damaged : ex_files := {[(ex_dir, nodeResourceKey) := "1 1001 2001"]}.

Lemma damaged_document_refused_witness : exists e,
  Restore (Some ex_dir) nodeResourceKey (0, false) ex_damaged = Ret (e, (1001, true)) /\ e <> None.
Proof.
  destruct (damaged_document_refused ex_dir nodeResourceKey (0, false) ex_damaged "1 1001 2001" (1001, true) 2001) as (e & He & Hc);
    [vm_compute; reflexivity..|].
  exists e. split; [exact He|]. intros E. apply Hc in E. by vm_compute in E.
Defined.

Lemma no_directory_no_documents_witness :
  Save (CL := ex_checkpoints) None nodeResourceKey (1000, true) ∅ = Crash (Panic "nil pointer dereference").
Proof.
  destruct (no_directory_no_documents "/" nodeResourceKey (1000, true) (0, false) (∅ : ex_files) (Some "permission denied") None ∅ ∅) as [_ H];
    [vm_compute; reflexivity|by apply H].
Defined.

(** A minute later, and ten. *)
Lemma schedule_survives_restart_witness :
  let disable : SC bool (option error) := fun _ => Ret (None, true) in
  checkSchedule (Some ex_dir) (ex_ports (ex_saved (1000, true))) true (1060 * Second) disable false = Ret (Ok (Some (1360 * Second)), true) /\
  checkSchedule (Some ex_dir) (ex_ports (ex_saved (1000, true))) true (1600 * Second) disable false = Ret (Ok None, false).
Proof.
  intros disable. set (fs := ex_ports (ex_saved (1000, true))).
  assert (H : forall t2, 1000 * Second <= t2 < 2 ^ 62 -> checkSchedule (Some ex_dir) fs true t2 disable false =
    Ret (if true && negb (true && (300 <? t2 `div` Second - (1000 * Second) `div` Second))
         then (Ok (Some (time_Add t2 (5 * Minute))), true) else (Ok None, false))).
  { intros t2 Ht2. apply (schedule_survives_restart ex_dir true (1000 * Second) t2 ∅ (ex_saved (1000, true)) (8080, true) None fs true disable false true None);
      [vm_compute; reflexivity|vm_compute; reflexivity|reflexivity|vm_compute; congruence|exact Ht2]. }
  split; rewrite H by (vm_compute; split; congruence); vm_compute; reflexivity.
Defined.
