(* ===== verification/QosLife.v ===== *)
(** * The life of the QoS manager

    pkg/caelus/qos/qos_k8s.go: [NewQosK8sManager] makes the resource managers of
    a configuration, [Run] initialises them and starts the loop, whose rounds
    (QosManager.v, with the network manager of NetIO.v at the end) are due at the
    start, at a tick and for every event of the channel.  The contest of the
    adaptive policy (Adaptive.v) runs besides; its lock and the one of the round
    make the steps of both atomic. *)

From S2P Require Import Prelude GoStrings GoFloat Quantity Action Conflict Topology Cgroup Qos Adaptive K8sResource NetIO QosManager Config.

#[local] Open Scope string_scope.
#[local] Open Scope Z_scope.
#[local] Open Scope list_scope.

Definition QosCPU : string := "cpu".
Definition QosCPUBT_name : string := "cpuBT".
Definition QosCPUSet_name : string := "cpuSet".
Definition QosCPUQuota_name : string := "cpuQuota".
Definition QosAdaptive_name : string := "cpuAdaptive".
Definition QosMemory_name : string := "memory".
Definition QosDiskIO_name : string := "diskio".
Definition QosNetIO_name : string := "netio".

Definition qos_event_capacity : nat := 32.

Section QosLife.
Context {RO : RangeOrder} {CE : CgroupEnv} {Q : Type} `{QO : QuantityOps Q} {K : Type} {NK : NetKernel K}.
(** The outcome of [EnsureCgroupPath], and the resource of floating addresses. *)
Context (env_mkdir : option error) (eniIPResource : string).

Abbreviation QosResource := (ResourceQosManager (Q := Q)).

Definition manager_Name (m : QosResource) : string :=
  match m with
  | QosCPUBT _ => QosCPUBT_name
  | QosCPUSet _ => QosCPUSet_name
  | QosCPUQuota _ => QosCPUQuota_name
  | QosAdaptive _ => QosAdaptive_name
  | QosMemory => QosMemory_name
  | QosDiskIO _ => QosDiskIO_name
  end.

(** ** Construction *)

(** What the constructors read of the configuration besides the records of
    Config.v, and of the node. *)
Record qos_options := mkQosOptions {
  ResourceDisable : gmap string bool;
  ReservedCpus : string;
  OfflineShare : option Z;
  net_read : string -> result string;
  net_speed : string;
  ipset_New : option error;
}.

(** A manager can be nil; the one of the network is kept apart. *)
Inductive qos_handler :=
| Managed (m : option QosResource)
| NetManaged (n : qosNetIO).

Definition handler_Name (h : qos_handler) : option string :=
  match h with Managed m => manager_Name <$> m | NetManaged _ => Some QosNetIO_name end.

Section New.
Context (config : ResourceIsolateConfig) (o : qos_options).

Definition newCpuManager : outcome (option QosResource) :=
  let c := CpuConfig config in
  if (ManagePolicy c =? CpuManagePolicyBT)%string then Ret (Some (QosCPUBT (mkCpuBT None (KubeletStatic c))))
  else if (ManagePolicy c =? CpuManagePolicySet)%string then
    s ← NewQosCpuSet (ReservedCpus o) (EnableOnlineIsolate c);
    Ret (Some (QosCPUSet s))
  else if (ManagePolicy c =? CpuManagePolicyQuota)%string then
    Ret (Some (QosCPUQuota (mkCpuQuota None [] (OfflineShare o) (KubeletStatic c))))
  else if (ManagePolicy c =? CpuManagePolicyAdaptive)%string then
    Ret (Some (QosAdaptive (NewQosCpuAdaptive (KubeletStatic c) (ReservedCpus o) (EnableOnlineIsolate c))))
  else Ret None.

(** The shaper of an interface, if there is one; the speeds are shared. *)
Definition newShaper (what ifName : string) : SC (gmap string Z) (option EgressShaper) := fun speeds =>
  if (ifName =? "")%string then Ret (None, speeds)
  else
    '(r, speeds') ← NewEgressShaper (net_read o) (net_speed o) (ipset_New o) ifName speeds;
    match r with
    | Err e => Crash (Fatal (what +:+ e))
    | Ok tc => Ret (Some tc, speeds')
    end.

Definition NewQosNetIO (iface eniIface : string) : SC (gmap string Z) qosNetIO :=
  tc ← newShaper "new egress shaper: " iface;
  enitc ← newShaper "new eni egress shaper: " eniIface;
  mret (mkNetIO tc enitc).

Definition newHandler (r : string) : SC (gmap string Z) (option qos_handler) :=
  if (r =? QosCPU)%string then m ← sc_of newCpuManager; mret (Some (Managed m))
  else if (r =? QosMemory_name)%string then mret (Some (Managed (Some QosMemory)))
  else if (r =? QosDiskIO_name)%string then mret (Some (Managed (Some (QosDiskIO (ri_DiskNames config)))))
  else if (r =? QosNetIO_name)%string then n ← NewQosNetIO (Iface config) (EniIface config); mret (Some (NetManaged n))
  else mret None.

(** A disabled resource has no manager. *)
Definition resource_enabled (r : string) : bool := negb (default false (ResourceDisable o !! r)).

Fixpoint newHandlers (rs : list string) : SC (gmap string Z) (list qos_handler) :=
  match rs with
  | [] => mret []
  | r :: rs' =>
      if resource_enabled r then
        h ← newHandler r;
        hs ← newHandlers rs';
        mret (match h with Some h => h :: hs | None => hs end)
      else newHandlers rs'
  end.

Definition qos_resources : list string := [QosCPU; QosMemory_name; QosDiskIO_name; QosNetIO_name].

Definition NewQosK8sManager : SC (gmap string Z) (list qos_handler) := newHandlers qos_resources.
End New.

(** ** Running *)

Record qos_manager := mkQosManager {
  resourceManagers : list QosResource;
  netManager : option qosNetIO;
  (** The conflicts, which other modules change too. *)
  q_conflict : gmap string (ActionResource Q);
  (** The conflicting resources of the events that wait. *)
  q_eventChan : list (list string);
  (** The first round is done, and the contest of the adaptive policy goes on. *)
  looping : bool;
  contesting : bool;
}.

Definition qos_state : Type := qos_manager * (K * world).

Definition set_chan (q : qos_manager) (l : list (list string)) : qos_manager :=
  mkQosManager (resourceManagers q) (netManager q) (q_conflict q) l (looping q) (contesting q).

(** The loop of [PreInit]; an error ends the process. *)
Fixpoint preInitAll (hs : list qos_handler) : M (outcome (list QosResource * option qosNetIO)) :=
  match hs with
  | [] => mret (Ret ([], None))
  | Managed None :: _ => mret (Crash (Panic "nil pointer dereference"))
  | Managed (Some m) :: hs' =>
      r ← manager_PreInit env_mkdir m;
      match r with
      | Crash c => mret (Crash c)
      | Ret (Some e, m') => mret (Crash (Fatal ("Qos module pre init resource(" +:+ manager_Name m' +:+ ") failed: " +:+ e)))
      | Ret (None, m') =>
          rest ← preInitAll hs';
          mret (match rest with Crash c => Crash c | Ret (ms, n) => Ret (m' :: ms, n) end)
      end
  | NetManaged n :: hs' =>
      rest ← preInitAll hs';
      mret (match rest with Crash c => Crash c | Ret (ms, _) => Ret (ms, Some n) end)
  end.

Definition qos_Run (hs : list qos_handler) (conflict : gmap string (ActionResource Q)) (kw : K * world) : outcome qos_state :=
  let '(r, w') := preInitAll hs kw.2 in
  match r with
  | Crash c => Crash c
  | Ret (ms, n) => Ret (mkQosManager ms n conflict [] false true, (kw.1, w'))
  end.

(** What a round reads: the prediction, the pods, the cgroups of online jobs, and
    the memory in use of the offline cgroup. *)
Record round := mkRound {
  r_allocatable : gmap string Q;
  r_pods : list (NetPod Q);
  r_online : list string;
  r_usage : result float64;
}.

(** The types of jobs, and the cgroups of the external components. *)
Context (offlineType onlineType : string) (components : list string).

(** [UpdateResource]; the manager of the network is the last one. *)
Definition qos_round (e : round) (s : qos_state) : outcome qos_state :=
  let '(q, (k, w)) := s in
  match UpdateResource (r_usage e) (resourceManagers q) (offlineType =? OfflineTypeOnk8s)%string (q_conflict q) (r_allocatable e)
          (map np_pod (r_pods e)) (r_online e) w with
  | (Crash c, _) => Crash c
  | (Ret (conflict', ms'), w') =>
      let kw' := match netManager q with Some n => (qosNetIO_Manage eniIPResource n (r_pods e) (k, w')).2 | None => (k, w') end in
      Ret (mkQosManager ms' (netManager q) conflict' (q_eventChan q) true (contesting q), kw')
  end.

(** A tick of the timer of the adaptive manager, if there is one. *)
Fixpoint contest_tick (metrics : result (list (list (gmap string float64)))) (Intn : Z -> Z) (ms : list QosResource) :
    M (outcome (list QosResource * bool)) :=
  match ms with
  | [] => mret (Ret ([], false))
  | QosAdaptive a :: ms' =>
      r ← adaptive_tick env_mkdir metrics Intn a;
      mret (match r with
            | Crash c => Crash c
            | Ret (a', n) => Ret (QosAdaptive a' :: ms', match n with Wait _ => true | Return => false end)
            end)
  | m :: ms' =>
      r ← contest_tick metrics Intn ms';
      mret (match r with Crash c => Crash c | Ret (ms'', b) => Ret (m :: ms'', b) end)
  end.

(** A full channel drops the event. *)
Definition UpdateEvent (conflictRes : list string) (q : qos_manager) : option error * qos_manager :=
  if (length (q_eventChan q) <? qos_event_capacity)%nat then (None, set_chan q (q_eventChan q ++ [conflictRes]))
  else (Some "qos manager channel is full", q).

Inductive qos_event :=
| First (e : round)
| Tick (e : round)
| Receive (e : round)
| Event (conflictRes : list string)
(** The rule checks change the conflicts. *)
| Conflicts (l : gmap string (ActionResource Q))
| Contest (metrics : result (list (list (gmap string float64)))) (Intn : Z -> Z)
(** The timer of the system components, which runs for local online jobs only. *)
| Move.

(** One event; [None] when it cannot happen now. *)
Definition qos_step (s : qos_state) (ev : qos_event) : outcome (option qos_state) :=
  let '(q, kw) := s in
  match ev with
  | First e => if looping q then Ret None else s' ← qos_round e s; Ret (Some s')
  | Tick e => if looping q then s' ← qos_round e s; Ret (Some s') else Ret None
  | Receive e =>
      if looping q then
        match q_eventChan q with
        | [] => Ret None
        | _ :: l => s' ← qos_round e (set_chan q l, kw); Ret (Some s')
        end
      else Ret None
  | Event r => Ret (Some ((UpdateEvent r q).2, kw))
  | Conflicts l =>
      Ret (Some (mkQosManager (resourceManagers q) (netManager q) (UpdateConflictList (q_conflict q) l).1 (q_eventChan q) (looping q) (contesting q), kw))
  | Contest metrics Intn =>
      if contesting q then
        match contest_tick metrics Intn (resourceManagers q) kw.2 with
        | (Crash c, _) => Crash c
        | (Ret (ms, b), w') => Ret (Some (mkQosManager ms (netManager q) (q_conflict q) (q_eventChan q) (looping q) b, (kw.1, w')))
        end
      else Ret None
  | Move =>
      if (onlineType =? OnlineTypeOnLocal)%string && (0 <? length components)%nat
      then Ret (Some (q, (kw.1, (moveSystemComponents env_mkdir components kw.2).2)))
      else Ret None
  end.

Fixpoint qos_life (s : qos_state) (evs : list qos_event) : outcome (option qos_state) :=
  match evs with
  | [] => Ret (Some s)
  | ev :: evs' =>
      r ← qos_step s ev;
      match r with Some s' => qos_life s' evs' | None => Ret None end
  end.
End QosLife.

(** ** Properties *)

Section Lives.
Context {RO : RangeOrder} {CE : CgroupEnv} {Q : Type} `{QL : QuantityLaws Q} {K : Type} {NK : NetKernel K}.
Context (env_mkdir : option error) (eniIPResource offlineType onlineType : string) (components : list string).
Hypothesis has_cpus : env_cpuinfo <> Ok [].

Abbreviation QosResource := (ResourceQosManager (Q := Q)).

(** An adaptive manager can make its policies and has one in charge. *)
Definition manager_ok (m : QosResource) : Prop :=
  match m with QosAdaptive a => exists p0 p1, contest_ok p0 p1 a /\ manages_try a | _ => True end.

Lemma manager_Manage_ok usage m (cg : CgroupResourceConfig Q) w :
  manager_ok m -> exists e m' w', manager_Manage usage m cg w = (Ret (e, m'), w') /\ manager_ok m' /\ manager_Name m' = manager_Name m.
Proof.
  intros Hm. destruct m as [b|s|q|a| |disks]; simpl; unfold mbind, M_bind, mret, M_ret.
  - destruct (policy_Manage_total has_cpus (PolicyBT b) cg w) as (e & p' & w' & E & _). simpl in E.
    unfold mbind, M_bind, mret, M_ret in E. destruct (qosCpuBT_Manage b cg w) as [[[e' b']|c] w1]; [by repeat eexists|done].
  - destruct (qosCpuSet_Manage s cg w) as [[e s'] w']. by repeat eexists.
  - destruct (qosCpuQuota_Manage q cg w) as [[e q'] w']. by repeat eexists.
  - destruct Hm as (p0 & p1 & Hok & Hman).
    destruct (adaptive_Manage_total p0 p1 has_cpus a cg w Hok Hman) as (e & a' & w' & -> & _ & Hok' & Hman').
    do 3 eexists. split_and!; [done| |done]. by exists p0, p1.
  - destruct (qosMemory_Manage usage cg w) as [e w']. by repeat eexists.
  - destruct (qosDiskIO_Manage disks w) as [e w']. by repeat eexists.
Qed.

Lemma manageLoop_ok usage ms (cg : CgroupResourceConfig Q) w :
  Forall manager_ok ms ->
  exists ms' w', manageLoop usage ms cg w = (Ret ms', w') /\ Forall manager_ok ms' /\ map manager_Name ms' = map manager_Name ms.
Proof.
  intros HF. revert w. induction HF as [|m ms Hm HF IH]; intros w; cbn [manageLoop]; unfold mbind, M_bind, mret, M_ret; [by repeat eexists|].
  destruct (manager_Manage_ok usage m cg w Hm) as (e & m' & w1 & -> & Hm' & Hn).
  destruct (IH w1) as (ms' & w2 & -> & HF' & Hns). do 2 eexists. split_and!; [done|by constructor|cbn; congruence].
Qed.

Lemma qos_round_ok e (s : qos_state (Q := Q) (K := K)) :
  Forall manager_ok (resourceManagers s.1) ->
  exists s', qos_round eniIPResource offlineType e s = Ret s' /\ Forall manager_ok (resourceManagers s'.1) /\
    map manager_Name (resourceManagers s'.1) = map manager_Name (resourceManagers s.1) /\ netManager s'.1 = netManager s.1.
Proof.
  destruct s as [q [k w]]. cbn [fst]. intros HF. unfold qos_round, UpdateResource.
  cbn [getResourceConfig Resources OfflineCgroups OnlineCgroups].
  destruct (offlineResources (q_conflict q) (r_allocatable e)) as [conflict' resources]. unfold mbind, M_bind, mret, M_ret.
  destruct ((if (offlineType =? OfflineTypeOnk8s)%string then moveOfflinePidsTogether _ else _) w) as [u w1].
  destruct (manageLoop_ok (r_usage e) (resourceManagers q)
    (mkCgroupResourceConfig resources (concat (map PodCgroupDirs (filter (fun p => IsOffline p = true) (map np_pod (r_pods e)))))
       (concat (map PodCgroupDirs (filter (fun p => IsOffline p <> true) (map np_pod (r_pods e)))) ++ r_online e)) w1 HF)
    as (ms' & w2 & E & HF' & Hn).
  rewrite E. eexists. split; [done|]. by destruct (netManager q).
Qed.

Lemma contest_tick_ok metrics Intn ms w :
  Forall manager_ok ms ->
  exists ms' b w', contest_tick env_mkdir metrics Intn ms w = (Ret (ms', b), w') /\ Forall manager_ok ms' /\
    map manager_Name ms' = map manager_Name ms.
Proof.
  intros HF. revert w. induction HF as [|m ms Hm HF IH]; intros w; cbn [contest_tick]; unfold mret, M_ret; [by repeat eexists|].
  assert (Hother : exists ms' b w', (r ← contest_tick env_mkdir metrics Intn ms;
      mret (match r with Crash c => Crash c | Ret (ms'', b) => Ret (m :: ms'', b) end)) w = (Ret (ms', b), w') /\ Forall manager_ok ms' /\
      map manager_Name ms' = map manager_Name (m :: ms)).
  { unfold mbind, M_bind, mret, M_ret. destruct (IH w) as (ms' & b & w' & -> & HF' & Hn). do 3 eexists.
    split_and!; [done|by constructor|cbn; congruence]. }
  destruct m as [b|s|q|a| |disks]; try exact Hother. clear Hother. unfold mbind, M_bind, mret, M_ret.
  destruct Hm as (p0 & p1 & Hok & Hman).
  assert (Ha : exists a' n w', adaptive_tick env_mkdir metrics Intn a w = (Ret (a', n), w') /\ manager_ok (QosAdaptive a')).
  { destruct metrics as [[|vv [|vv' l]]|e].
    - do 3 eexists. split; [done|by exists p0, p1].
    - destruct (adaptive_tick_measured env_mkdir (fun _ => metricSum vv) p0 p1 has_cpus vv Intn a w Hok eq_refl) as (a' & n & w' & E & _ & Hok' & Hman').
      exists a', n, w'. split; [done|by exists p0, p1].
    - do 3 eexists. split; [done|by exists p0, p1].
    - do 3 eexists. split; [done|by exists p0, p1]. }
  destruct Ha as (a' & n & w' & E & Ha'). rewrite E. do 3 eexists. split_and!; [done|by constructor|done].
Qed.

Abbreviation qstep := (qos_step env_mkdir eniIPResource offlineType onlineType components).
Abbreviation qlife := (qos_life env_mkdir eniIPResource offlineType onlineType components).

(** The managers of a state are the ones of another one, with other contents. *)
Definition same_managers (s s' : qos_state (Q := Q) (K := K)) : Prop :=
  Forall manager_ok (resourceManagers s'.1) /\ map manager_Name (resourceManagers s'.1) = map manager_Name (resourceManagers s.1) /\
  netManager s'.1 = netManager s.1.

Lemma qos_step_ok s ev :
  Forall manager_ok (resourceManagers s.1) -> exists r, qstep s ev = Ret r /\ forall s', r = Some s' -> same_managers s s'.
Proof.
  intros HF.
  assert (Hround : forall e s1, resourceManagers s1.1 = resourceManagers s.1 -> netManager s1.1 = netManager s.1 ->
    exists r, (s' ← qos_round eniIPResource offlineType e s1; Ret (Some s')) = Ret r /\ forall s', r = Some s' -> same_managers s s').
  { intros e s1 Hms Hnet. destruct (qos_round_ok e s1) as (s' & E & HF' & Hn & Hnet'); [by rewrite Hms|].
    unfold mbind, outcome_bind. rewrite E. eexists. split; [done|]. intros s'' [= <-]. split_and!; congruence. }
  destruct s as [q kw]. cbn [fst] in *. unfold same_managers. destruct ev as [e|e|e|r|l|metrics Intn|]; cbn [qos_step fst].
  - destruct (looping q); [by eexists|by apply Hround].
  - destruct (looping q); [by apply Hround|by eexists].
  - destruct (looping q); [|by eexists]. destruct (q_eventChan q); [by eexists|by apply Hround].
  - eexists. split; [done|]. intros s' [= <-]. unfold UpdateEvent. by destruct (_ <? _)%nat.
  - eexists. split; [done|]. by intros s' [= <-].
  - destruct (contesting q); [|by eexists].
    destruct (contest_tick_ok metrics Intn (resourceManagers q) kw.2 HF) as (ms' & b & w' & -> & HF' & Hn).
    eexists. split; [done|]. by intros s' [= <-].
  - destruct (_ && _); [|by eexists]. eexists. split; [done|]. by intros s' [= <-].
Qed.

Lemma qos_life_ok s evs :
  Forall manager_ok (resourceManagers s.1) -> exists r, qlife s evs = Ret r /\ forall s', r = Some s' -> same_managers s s'.
Proof.
  revert s. induction evs as [|ev evs IH]; intros s HF; cbn [qos_life]; [eexists; split; [done|]; by intros s' [= <-]|].
  destruct (qos_step_ok s ev HF) as (r & E & Hr). unfold mbind, outcome_bind. rewrite E. destruct r as [s1|]; [|by eexists].
  destruct (Hr s1 eq_refl) as (HF1 & Hn1 & Hnet1). destruct (IH s1 HF1) as (r & E' & Hr'). exists r. split; [done|].
  intros s' Hs'. destruct (Hr' s' Hs') as (? & ? & ?). split_and!; congruence.
Qed.

(** ** The start *)

Definition policy_name (p : string) : string :=
  if (p =? CpuManagePolicyBT)%string then QosCPUBT_name
  else if (p =? CpuManagePolicySet)%string then QosCPUSet_name
  else if (p =? CpuManagePolicyQuota)%string then QosCPUQuota_name else QosAdaptive_name.

(** The managers of a configuration: the one of its policy and one for each other
    resource, without the disabled resources. *)
Definition wanted_names (config : ResourceIsolateConfig) (o : qos_options) : list string :=
  map (fun r => if (r =? QosCPU)%string then policy_name (ManagePolicy (CpuConfig config)) else r)
    (List.filter (resource_enabled o) [QosCPU; QosMemory_name; QosDiskIO_name]).

Definition managed_names (hs : list (qos_handler (Q := Q))) : list string :=
  omap (fun h => match h with Managed m => manager_Name <$> m | NetManaged _ => None end) hs.

(** A handler before it is initialised: not nil, and its policies can be made. *)
Definition handler_ok (h : qos_handler (Q := Q)) : Prop :=
  match h with
  | Managed None => False
  | Managed (Some (QosAdaptive a)) => exists p0 p1, contest_ok p0 p1 a
  | _ => True
  end.

Lemma preInitAll_ok (hs : list (qos_handler (Q := Q))) w :
  Forall handler_ok hs ->
  (exists ms n w', preInitAll env_mkdir hs w = (Ret (ms, n), w') /\ Forall manager_ok ms /\ map manager_Name ms = managed_names hs) \/
  (exists e w', preInitAll env_mkdir hs w = (Crash (Fatal e), w')).
Proof.
  intros HF. revert w. induction HF as [|h hs Hh HF IH]; intros w; cbn [preInitAll]; unfold mret, M_ret; [left; by repeat eexists|].
  assert (Hrest : forall m' w1, manager_ok m' ->
    (exists ms n w', (rest ← preInitAll env_mkdir hs; mret (match rest with Crash c => Crash c | Ret (ms, n) => Ret (m' :: ms, n) end)) w1 =
       (Ret (ms, n), w') /\ Forall manager_ok ms /\ map manager_Name ms = manager_Name m' :: managed_names hs) \/
    (exists e w', (rest ← preInitAll env_mkdir hs; mret (match rest with Crash c => Crash c | Ret (ms, n) => Ret (m' :: ms, n) end)) w1 =
       (Crash (Fatal e), w'))).
  { intros m' w1 Hm'. unfold mbind, M_bind, mret, M_ret. destruct (IH w1) as [(ms & n & w' & -> & HF' & Hn)|(e & w' & ->)]; [left|right; by repeat eexists].
    do 3 eexists. split_and!; [done|by constructor|cbn; congruence]. }
  destruct h as [[m|]|n]; [|done|].
  2: { unfold mbind, M_bind, mret, M_ret. destruct (IH w) as [(ms & n' & w' & -> & HF' & Hn)|(e & w' & ->)]; [left|right]; by repeat eexists. }
  assert (Hpre : exists e m' w1, manager_PreInit env_mkdir m w = (Ret (e, m'), w1) /\ manager_ok m' /\ manager_Name m' = manager_Name m).
  { destruct m as [b|s|q|a| |disks]; cbn [manager_PreInit]; unfold mbind, M_bind, mret, M_ret.
    - destruct (qosCpuBT_PreInit env_mkdir w) as [e w1]. by repeat eexists.
    - destruct (qosCpuSet_PreInit env_mkdir w) as [e w1]. by repeat eexists.
    - destruct (qosCpuQuota_PreInit env_mkdir w) as [e w1]. by repeat eexists.
    - destruct Hh as (p0 & p1 & Hok). pose proof Hok as (Hf & Hl & Ht & Hw).
      unfold adaptive_PreInit, call_factory, mbind, M_bind, mret, M_ret. rewrite Hf. cbn [lookup list_lookup].
      destruct (policy_PreInit env_mkdir p0 w) as [e w1]. do 3 eexists. split_and!; [done| |done].
      exists p0, p1. split; [split_and!; cbn; [done|done|lia|done]|]. exists p0, p0. by split_and!.
    - by repeat eexists.
    - by repeat eexists. }
  destruct Hpre as (e & m' & w1 & E & Hm' & Hn). unfold mbind, M_bind, mret, M_ret in Hrest |- *. rewrite E.
  destruct e as [e|]; [right; by repeat eexists|]. cbn [managed_names omap list_omap]. destruct (Hrest m' w1 Hm') as [Hr|Hr]; [left|by right].
  destruct Hr as (ms & n & w' & E' & HF' & Hn'). exists ms, n, w'. split_and!; [exact E'|done|]. cbn. by rewrite Hn', Hn.
Qed.

Lemma newHandlers_ok config (o : qos_options) rs sp hs sp' s0 :
  AvailableCpuManagePolicy (ManagePolicy (CpuConfig config)) = true ->
  NewQosCpuSet (ReservedCpus o) (EnableOnlineIsolate (CpuConfig config)) = Ret s0 ->
  Forall (fun r => r ∈ [QosCPU; QosMemory_name; QosDiskIO_name; QosNetIO_name]) rs ->
  newHandlers config o rs sp = Ret (hs, sp') ->
  Forall handler_ok hs /\
  managed_names hs = map (fun r => if (r =? QosCPU)%string then policy_name (ManagePolicy (CpuConfig config)) else r)
                       (List.filter (fun r => resource_enabled o r && negb (r =? QosNetIO_name)%string) rs).
Proof.
  intros Hp Hs HF. revert sp hs sp'. induction HF as [|r rs Hr HF IH]; intros sp hs sp' Hh0; cbn [newHandlers] in Hh0; [by injection Hh0 as <- <-|].
  cbn [List.filter]. destruct (resource_enabled o r); [|by eapply IH].
  apply sc_bind_Ret in Hh0 as (h & sp1 & Hh & Hh0). apply sc_bind_Ret in Hh0 as (hs' & sp2 & Hhs & Hh0). destruct (IH _ _ _ Hhs) as [Hok Hn].
  assert (Hone : exists h', h = Some h' /\ handler_ok h' /\
    managed_names [h'] = if (r =? QosNetIO_name)%string then []
                         else [if (r =? QosCPU)%string then policy_name (ManagePolicy (CpuConfig config)) else r]).
  { repeat (apply elem_of_cons in Hr as [->|Hr]); [| | | |by apply not_elem_of_nil in Hr]; unfold newHandler in Hh; cbn -[newCpuManager NewQosNetIO policy_name] in Hh.
    - apply sc_bind_Ret in Hh as (m & sp3 & Hm & Hh). apply sc_of_Ret in Hm as [Hm ->]. injection Hh as <- <-.
      eexists. split; [done|]. unfold newCpuManager in Hm. unfold AvailableCpuManagePolicy in Hp. unfold policy_name.
      destruct (ManagePolicy (CpuConfig config) =? CpuManagePolicyBT)%string; [by injection Hm as <-|].
      destruct (ManagePolicy (CpuConfig config) =? CpuManagePolicySet)%string.
      { unfold mbind, outcome_bind in Hm. rewrite Hs in Hm. by injection Hm as <-. }
      destruct (ManagePolicy (CpuConfig config) =? CpuManagePolicyQuota)%string; [by injection Hm as <-|].
      destruct (ManagePolicy (CpuConfig config) =? CpuManagePolicyAdaptive)%string; [|done]. injection Hm as <-. split; [|done].
      cbn [handler_ok]. unfold NewQosCpuAdaptive. rewrite Hs. do 2 eexists. split_and!; cbn; [done|done|lia|lia].
    - injection Hh as <- <-. by eexists.
    - injection Hh as <- <-. by eexists.
    - apply sc_bind_Ret in Hh as (n & sp3 & _ & Hh). injection Hh as <- <-. by eexists. }
  destruct Hone as (h' & -> & Hh' & Hn'). injection Hh0 as <- <-. split; [by constructor|].
  change (managed_names (h' :: hs')) with (managed_names ([h'] ++ hs')). unfold managed_names in *. rewrite omap_app, Hn', Hn.
  by destruct (r =? QosNetIO_name)%string.
Qed.

Lemma managers_wanted config (o : qos_options) sp hs sp' s0 :
  AvailableCpuManagePolicy (ManagePolicy (CpuConfig config)) = true ->
  NewQosCpuSet (ReservedCpus o) (EnableOnlineIsolate (CpuConfig config)) = Ret s0 ->
  NewQosK8sManager config o sp = Ret (hs, sp') ->
  Forall handler_ok hs /\ managed_names hs = wanted_names config o.
Proof.
  intros Hp Hs Hh0. destruct (newHandlers_ok config o qos_resources sp hs sp' s0 Hp Hs) as [Hok Hn]; [|done|].
  - unfold qos_resources. repeat constructor; set_solver.
  - split; [done|]. rewrite Hn. unfold wanted_names, qos_resources. cbn [List.filter].
    by destruct (resource_enabled o QosCPU), (resource_enabled o QosMemory_name), (resource_enabled o QosDiskIO_name), (resource_enabled o QosNetIO_name).
Qed.

(** A manager with a known policy and a readable list of reserved cpus starts
    or ends the process with a message, without a nil manager; and once it
    started, no sequence of rounds, events, changes of the conflicts and trials
    of policies makes it panic or end, and it keeps one manager for each enabled
    resource, the one for processors being that of the policy. *)
Theorem started_manager_never_dies config (o : qos_options) sp hs sp' s0 conflict (kw : K * world) :
  AvailableCpuManagePolicy (ManagePolicy (CpuConfig config)) = true ->
  NewQosCpuSet (ReservedCpus o) (EnableOnlineIsolate (CpuConfig config)) = Ret s0 ->
  NewQosK8sManager config o sp = Ret (hs, sp') ->
  (exists e, qos_Run env_mkdir hs conflict kw = Crash (Fatal e)) \/
  exists s, qos_Run env_mkdir hs conflict kw = Ret s /\
    forall evs, exists r, qlife s evs = Ret r /\
      forall s', r = Some s' -> map manager_Name (resourceManagers s'.1) = wanted_names config o.
Proof.
  intros Hp Hs Hnew. destruct (managers_wanted config o sp hs sp' s0 Hp Hs Hnew) as [Hok Hn]. unfold qos_Run.
  destruct (preInitAll_ok hs kw.2 Hok) as [(ms & n & w' & -> & HF & Hms)|(e & w' & ->)]; [right|left; by eexists].
  eexists. split; [done|]. intros evs. destruct (qos_life_ok (mkQosManager ms n conflict [] false true, (kw.1, w')) evs HF) as (r & E & Hr).
  exists r. split; [done|]. intros s' Hs'. destruct (Hr s' Hs') as (_ & Hn' & _). cbn in Hn'. congruence.
Qed.

(** A policy that is not one of the four, with the processors enabled, makes a
    nil manager, on which the start panics: nothing but the check of the
    configuration keeps this from happening. *)
Theorem unknown_policy_panics config (o : qos_options) sp hs sp' conflict (kw : K * world) :
  AvailableCpuManagePolicy (ManagePolicy (CpuConfig config)) = false -> resource_enabled o QosCPU = true ->
  NewQosK8sManager (Q := Q) config o sp = Ret (hs, sp') ->
  qos_Run env_mkdir hs conflict kw = Crash (Panic "nil pointer dereference").
Proof.
  intros Hp Hc Hh0. unfold NewQosK8sManager, qos_resources in Hh0. cbn [newHandlers] in Hh0. rewrite Hc in Hh0.
  apply sc_bind_Ret in Hh0 as (h & sp1 & Hh & Hh0). apply sc_bind_Ret in Hh0 as (hs' & sp2 & _ & Hh0).
  unfold newHandler in Hh. cbn -[newCpuManager] in Hh. apply sc_bind_Ret in Hh as (m & sp3 & Hm & Hh). apply sc_of_Ret in Hm as [Hm ->].
  injection Hh as <- <-. unfold newCpuManager in Hm. unfold AvailableCpuManagePolicy in Hp.
  destruct (ManagePolicy (CpuConfig config) =? CpuManagePolicyBT)%string; [done|].
  destruct (ManagePolicy (CpuConfig config) =? CpuManagePolicySet)%string; [done|].
  destruct (ManagePolicy (CpuConfig config) =? CpuManagePolicyQuota)%string; [done|].
  destruct (ManagePolicy (CpuConfig config) =? CpuManagePolicyAdaptive)%string; [done|]. injection Hm as <-. by injection Hh0 as <- <-.
Qed.
End Lives.

(** ** The memory of offline jobs *)

(** A computation that leaves a file as it is. *)
Section Leaves.
Context {CE : CgroupEnv} (f : string).

Definition leaves {A} (m : M A) : Prop := forall w, files (m w).2 !! f = files w !! f.

Lemma leaves_ret {A} (a : A) : leaves (mret a).
Proof. done. Qed.
Lemma leaves_bind {A B} (m : M A) (k : A -> M B) : leaves m -> (forall a, leaves (k a)) -> leaves (m ≫= k).
Proof. intros Hm Hk w. unfold mbind, M_bind. specialize (Hm w). destruct (m w) as [a w1]. cbn in Hm. by rewrite Hk. Qed.
Lemma leaves_ReadFile p : leaves (ReadFile p).
Proof. done. Qed.
Lemma leaves_write p d : p <> f -> leaves (write_path p d).
Proof. intros Hne w. unfold write_path. destruct (env_write _ _ _); cbn; [done|]. by rewrite lookup_insert_ne. Qed.

Lemma leaves_lines dir file ls : path_Join [dir; file] <> f -> leaves (unthrottleLines dir file ls).
Proof.
  intros Hne. induction ls as [|line ls IH]; cbn [unthrottleLines]; [apply leaves_ret|].
  destruct (Split line _) as [|dev [|x [|]]]; try exact IH.
  apply leaves_bind; [by apply leaves_write|]. intros [e|]; [apply leaves_ret|exact IH].
Qed.

Lemma leaves_files dir fs : Forall (fun file => path_Join [dir; file] <> f) fs -> leaves (unthrottleFiles dir fs).
Proof.
  induction 1 as [|file fs Hne HF IH]; cbn [unthrottleFiles]; [apply leaves_ret|].
  apply leaves_bind; [apply leaves_ReadFile|]. intros [s|e]; [|apply leaves_ret].
  apply leaves_bind; [by apply leaves_lines|]. intros [e|]; [apply leaves_ret|exact IH].
Qed.

Lemma leaves_weights dir names : path_Join [dir; weightDevice] <> f -> leaves (weightLoop dir names).
Proof.
  intros Hne. induction names as [|name names IH]; cbn [weightLoop]; [apply leaves_ret|].
  apply leaves_bind.
  { apply leaves_bind; [apply leaves_ReadFile|]. intros [s|e]; apply leaves_ret. }
  intros [n|e]; [|exact IH]. apply leaves_bind; [by apply leaves_write|]. by intros _.
Qed.

Lemma leaves_SetBlkioWeight sub disks :
  Forall (fun file => path_Join [path_Join [env_root; "blkio"; sub]; file] <> f) [ReadThrottleFile; WriteThrottleFile; weightDevice] ->
  leaves (SetBlkioWeight sub disks).
Proof.
  intros HF. inversion HF as [|? ? H1 HF1]; subst. inversion HF1 as [|? ? H2 HF2]; subst. inversion HF2 as [|? ? H3 _]; subst.
  unfold SetBlkioWeight. apply leaves_bind; [by apply leaves_files; repeat constructor|].
  intros [e|]; [apply leaves_ret|]. apply leaves_bind; [by apply leaves_weights|]. intros _. apply leaves_ret.
Qed.
End Leaves.

Section Memory.
Context {RO : RangeOrder} {CE : CgroupEnv} {Q : Type} `{QL : QuantityLaws Q} {K : Type} {NK : NetKernel K}.
Context (env_mkdir : option error) (eniIPResource offlineType onlineType : string) (components : list string).
Hypothesis has_cpus : env_cpuinfo <> Ok [].
Hypothesis writes_ok : forall n p d, env_write n p d = None.
Hypothesis root : env_root = "/sys/fs/cgroup".

Lemma disk_leaves_memory disks : leaves memory_limit_file (SetBlkioWeight CgroupOffline disks).
Proof.
  apply leaves_SetBlkioWeight. unfold memory_limit_file. rewrite root. repeat constructor; by vm_compute.
Qed.

(** The memory manager among others, before those for disks. *)
Lemma manageLoop_memory_limit pre disks (cg : CgroupResourceConfig Q) quantity used w :
  Forall manager_ok pre -> Resources cg !! "memory" = Some quantity ->
  0 <= qValue quantity < 2 ^ 62 -> 0 <= int64_of_float64 used < 2 ^ 62 ->
  exists ms' w', manageLoop (Ok used) (pre ++ QosMemory :: map QosDiskIO disks) cg w = (Ret ms', w') /\
    files w' !! memory_limit_file =
    Some (env_readback memory_limit_file (Itoa (limit_with_buffer (qValue quantity) (int64_of_float64 used)))).
Proof.
  intros HF Hq Hl Hu. revert w. induction HF as [|m ms Hm HF IH]; intros w; cbn [app manageLoop]; unfold mbind, M_bind, mret, M_ret.
  - cbn [manager_Manage]. unfold mbind, M_bind, mret, M_ret.
    destruct (memory_limit_facts cg quantity used w Hq Hl Hu writes_ok) as (w' & -> & Hf).
    assert (Hd : exists ms' w2, manageLoop (Ok used) (map QosDiskIO disks) cg w' = (Ret ms', w2) /\
      files w2 !! memory_limit_file = files w' !! memory_limit_file).
    { clear Hf. revert w'. induction disks as [|d disks IHd]; intros w'; cbn [map manageLoop]; unfold mret, M_ret; [by repeat eexists|].
      cbn [manager_Manage]. unfold mbind, M_bind, mret, M_ret, qosDiskIO_Manage. pose proof (disk_leaves_memory d w') as Hl1.
      destruct (SetBlkioWeight CgroupOffline d w') as [e w1]. cbn in Hl1. destruct (IHd w1) as (ms' & w2 & -> & Hf). do 2 eexists.
      split; [done|]. congruence. }
    destruct Hd as (ms' & w2 & -> & Hf2). do 2 eexists. split; [done|]. rewrite Hf2, Hf. apply lookup_insert_eq.
  - destruct (manager_Manage_ok has_cpus (Ok used) m cg w Hm) as (e & m' & w1 & -> & _).
    destruct (IH w1) as (ms' & w2 & -> & Hf). do 2 eexists. by split.
Qed.

(** The managers by their names. *)
Lemma managers_by_name (ms : list (ResourceQosManager (Q := Q))) config (o : qos_options) :
  map manager_Name ms = wanted_names config o -> resource_enabled o QosMemory_name = true ->
  exists pre disks, ms = pre ++ QosMemory :: map QosDiskIO disks.
Proof.
  unfold wanted_names. cbn [List.filter]. intros Hn Hm. rewrite Hm in Hn.
  assert (Hsplit : exists l, map manager_Name ms = l ++ QosMemory_name :: (if resource_enabled o QosDiskIO_name then [QosDiskIO_name] else [])).
  { rewrite Hn. destruct (resource_enabled o QosCPU), (resource_enabled o QosDiskIO_name); cbn -[policy_name];
      first [by exists [policy_name (ManagePolicy (CpuConfig config))]|by exists []]. }
  destruct Hsplit as [l Hl]. apply fmap_app_inv in Hl as (pre & ms1 & -> & Hms1 & ->).
  symmetry in Hms1. apply fmap_cons_inv in Hms1 as (m & ms2 & Hm1 & Hms2 & ->). exists pre.
  assert (m = QosMemory) as -> by (by destruct m).
  destruct (resource_enabled o QosDiskIO_name).
  - symmetry in Hms2. apply fmap_cons_inv in Hms2 as (m2 & ms3 & Hm2 & Hms3 & ->). symmetry in Hms3. apply fmap_nil_inv in Hms3 as ->.
    destruct m2; try done. by exists [disks].
  - symmetry in Hms2. apply fmap_nil_inv in Hms2 as ->. by exists [].
Qed.

(** C24: from the configuration to the kernel: for the manager that the agent
    makes, with memory enabled and no manager of the network, whatever happened
    since its start, the next round sets the memory limit of offline jobs to the
    prediction of that round without the conflicts known at that time, at least
    2048 MB and at most the prediction, raised to the memory in use plus the
    buffer; the managers for processors and disks do not disturb this. *)
Theorem memory_limit_follows_prediction config (o : qos_options) sp hs sp' s0 conflict (kw : K * world) s evs q kw' e amt used :
  AvailableCpuManagePolicy (ManagePolicy (CpuConfig config)) = true ->
  NewQosCpuSet (ReservedCpus o) (EnableOnlineIsolate (CpuConfig config)) = Ret s0 ->
  resource_enabled o QosMemory_name = true ->
  NewQosK8sManager config o sp = Ret (hs, sp') -> qos_Run env_mkdir hs conflict kw = Ret s ->
  qos_life env_mkdir eniIPResource offlineType onlineType components s evs = Ret (Some (q, kw')) -> netManager q = None ->
  r_allocatable e !! "memory" = Some amt -> 0 <= amount amt < 2 ^ 60 * nano ->
  r_usage e = Ok used -> 0 <= int64_of_float64 used < 2 ^ 62 ->
  let limit := div_up (round_amount (q_conflict q) amt "memory") nano in
  exists s', qos_round eniIPResource offlineType e (q, kw') = Ret s' /\
    files s'.2.2 !! memory_limit_file = Some (env_readback memory_limit_file (Itoa (limit_with_buffer limit (int64_of_float64 used)))) /\
    2048 * 1024 * 1024 <= limit <= Z.max (2048 * 1024 * 1024) (div_up (amount amt) nano).
Proof.
  intros Hp Hs Hm Hnew Hrun Hlife Hnet Ha Hrange Hus Hused limit.
  destruct (managers_wanted config o sp hs sp' s0 Hp Hs Hnew) as [Hok Hn].
  assert (Hq : Forall manager_ok (resourceManagers q) /\ map manager_Name (resourceManagers q) = wanted_names config o).
  { unfold qos_Run in Hrun.
    destruct (preInitAll_ok env_mkdir hs kw.2 Hok) as [(ms & n & w1 & E & HF & Hms)|(x & w1 & E)]; rewrite E in Hrun; [|done].
    injection Hrun as <-.
    destruct (qos_life_ok env_mkdir eniIPResource offlineType onlineType components has_cpus (mkQosManager ms n conflict [] false true, (kw.1, w1)) evs HF)
      as (r & E' & Hr). rewrite Hlife in E'. injection E' as <-. destruct (Hr _ eq_refl) as (HF' & Hn' & _). cbn in Hn', HF'. split; [done|congruence]. }
  destruct Hq as [HF Hnames]. destruct (managers_by_name _ config o Hnames Hm) as (pre & disks & Hms). rewrite Hms in HF.
  apply Forall_app in HF as [HF _]. destruct kw' as [k w]. unfold qos_round, UpdateResource. rewrite Hms, Hnet, Hus.
  cbn [getResourceConfig Resources OfflineCgroups OnlineCgroups].
  destruct (round_memory (q_conflict q) (r_allocatable e) amt Ha Hrange) as (qt & Hqt & Hv & Hlim & Hr).
  destruct (offlineResources (q_conflict q) (r_allocatable e)) as [conflict' resources]. cbn [snd] in Hqt. fold limit in Hv, Hlim, Hr.
  unfold mbind, M_bind, mret, M_ret.
  destruct ((if (offlineType =? OfflineTypeOnk8s)%string then moveOfflinePidsTogether _ else _) w) as [u w1].
  edestruct (manageLoop_memory_limit pre disks) as (ms' & w2 & -> & Hf); [exact HF|exact Hqt|by rewrite Hv|exact Hused|].
  rewrite Hv in Hf. by eexists.
Qed.
End Memory.

(** ** Witness *)

#[local] Existing Instance key_order.
#[local] Existing Instance ex_env.
#[local] Existing Instance ex_net.

Definition ex_isolate_config (policy : string) : ResourceIsolateConfig :=
  mkIsolate false (10 * Minute) ["sda"] "" "eth1" (mkCpuIsolate false policy true false) "k8s" "k8s".
Definition ex_options : qos_options :=
  mkQosOptions {[QosNetIO_name := true]} "0" None (fun _ => Err "no such file") "" None.

Definition ex_node : world :=
  set_files ex_siblings_world (<["/sys/fs/cgroup/cpuset/kubepods/offline/cpuset.cpus" := "0-3" +:+ String newline ""]> (files ex_siblings_world)) 0.

Definition ex_handlers (policy : string) : list (qos_handler (Q := Z)) :=
  match NewQosK8sManager (ex_isolate_config policy) ex_options ∅ with Ret (hs, _) => hs | Crash _ => [] end.
Definition ex_cpus : qosCpuSet := match NewQosCpuSet "0" true with Ret s => s | Crash _ => mkCpuSet None [] [] true ∅ end.

Definition ex_start (policy : string) : qos_state (Q := Z) (K := ex_kernel) :=
  match qos_Run None (ex_handlers policy) ∅ (ex_kernel0, ex_node) with
  | Ret s => s
  | Crash _ => (mkQosManager [] None ∅ [] false false, (ex_kernel0, ex_node))
  end.

Definition ex_round : round (Q := Z) :=
  mkRound {["cpu" := 2 * nano; "memory" := 4096 * 1024 * 1024 * nano]} [mkNetPod (ex_pod "a" 0) false "10.0.0.1"] [] (Ok (float64_of_Z 0)).

(** A round, an event, a conflict of 1 GB, and the round of the event. *)
Definition ex_life : list (qos_event (Q := Z)) := [First ex_round; Event ["memory"]; Conflicts ex_conflict; Receive ex_round].

Definition ex_after (policy : string) : outcome (option (qos_state (Q := Z) (K := ex_kernel))) :=
  qos_life None "eni" "k8s" "k8s" [] (ex_start policy) ex_life.

Lemma started_manager_never_dies_witness :
  exists s', ex_after CpuManagePolicyAdaptive = Ret (Some s') /\
    map manager_Name (resourceManagers s'.1) = ["cpuAdaptive"; "memory"; "diskio"].
Proof.
  pose proof (started_manager_never_dies (CE := ex_env) (Q := Z) None "eni" "k8s" "k8s" [] ltac:(discriminate) (ex_isolate_config CpuManagePolicyAdaptive)
    ex_options ∅ (ex_handlers CpuManagePolicyAdaptive) ∅ ex_cpus ∅ (ex_kernel0, ex_node)) as H.
  destruct H as [[e He]|(s & Hs & H)]; [reflexivity|vm_compute; reflexivity|vm_compute; reflexivity| |].
  - exfalso. assert (Hr : match qos_Run None (ex_handlers CpuManagePolicyAdaptive) ∅ (ex_kernel0, ex_node) with Ret _ => true | Crash _ => false end = true)
      by (vm_compute; reflexivity).
    by rewrite He in Hr.
  - destruct (H ex_life) as (r & E & Hn). assert (E' : ex_after CpuManagePolicyAdaptive = Ret r) by (unfold ex_after, ex_start; by rewrite Hs).
    destruct r as [s'|].
    + exists s'. split; [exact E'|]. rewrite (Hn s' eq_refl). reflexivity.
    + exfalso. assert (Hr : match ex_after CpuManagePolicyAdaptive with Ret (Some _) => true | _ => false end = true) by (vm_compute; reflexivity).
      by rewrite E' in Hr.
Defined.

Lemma unknown_policy_panics_witness :
  qos_Run None (ex_handlers "shares") ∅ (ex_kernel0, ex_node) = Crash (Panic "nil pointer dereference").
Proof.
  apply (unknown_policy_panics (Q := Z) None (ex_isolate_config "shares") ex_options ∅ _ ∅); [reflexivity|reflexivity|vm_compute; reflexivity].
Defined.

(** 4 GB are predicted; 1 GB conflicts. *)
Lemma memory_limit_follows_prediction_witness :
  exists q kw s', ex_after CpuManagePolicySet = Ret (Some (q, kw)) /\ qos_round "eni" "k8s" ex_round (q, kw) = Ret s' /\
    files s'.2.2 !! "/sys/fs/cgroup/memory/kubepods/offline/memory.limit_in_bytes" = Some ("3221225472" +:+ String newline "").
Proof.
  destruct (ex_after CpuManagePolicySet) as [[[q kw]|]|c] eqn:E.
  2,3: exfalso; assert (Hr : match ex_after CpuManagePolicySet with Ret (Some _) => true | _ => false end = true) by (vm_compute; reflexivity);
    by rewrite E in Hr.
  exists q, kw.
  assert (Hq : match ex_after CpuManagePolicySet with Ret (Some s) => (netManager s.1, round_amount (q_conflict s.1) (4096 * 1024 * 1024 * nano) "memory") | _ => (None, 0) end
    = (None, 3072 * 1024 * 1024 * nano)) by (vm_compute; reflexivity).
  rewrite E in Hq. cbn [fst] in Hq. injection Hq as Hnet Hamt.
  destruct (memory_limit_follows_prediction (CE := ex_env) (Q := Z) None "eni" "k8s" "k8s" [] ltac:(discriminate) (fun _ _ _ => eq_refl) eq_refl
    (ex_isolate_config CpuManagePolicySet) ex_options ∅ (ex_handlers CpuManagePolicySet) ∅ ex_cpus ∅ (ex_kernel0, ex_node)
    (ex_start CpuManagePolicySet) ex_life q kw ex_round (4096 * 1024 * 1024 * nano) (float64_of_Z 0)) as (s' & Hs' & Hf & _);
    [reflexivity|vm_compute; reflexivity|reflexivity|vm_compute; reflexivity|vm_compute; reflexivity|exact E|exact Hnet|reflexivity
    |vm_compute; by split|reflexivity|vm_compute; by split|].
  exists s'. split_and!; [done|exact Hs'|]. rewrite Hamt in Hf. exact Hf.
Defined.
