(* ===== verification/NotifyLife.v ===== *)
(** * The life of memory notifiers

    pkg/caelus/healthcheck/cgroupnotify: the goroutine of a notifier waits on its
    epoll descriptor, reads its event descriptor and passes the event to the
    handler of its own; [stop] closes both descriptors from another goroutine.
    Descriptors are numbers, which the kernel gives out again once they are closed:
    the model keeps the kernel's table from numbers to objects, and the goroutines
    run in any interleaving.  notify.go makes the notifiers of a configuration; its
    handle function asks the resource manager to kill jobs. *)

From S2P Require Import Prelude GoStrings Cgroup Notify HealthConfig.

#[local] Open Scope string_scope.
#[local] Open Scope Z_scope.
#[local] Open Scope list_scope.

(** ** Descriptors *)

(** A number that is free; the kernel takes the lowest. *)
Class FdTable := {
  fd_pick : gset Z -> Z;
  fd_pick_free : forall used, fd_pick used ∉ used;
}.

(** An eventfd or an epoll instance, with the number of the notifier that made it. *)
Inductive object := EventFd (n : nat) | EpollFd (n : nat).

#[export] Instance object_eq_dec : EqDecision object.
Proof. solve_decision. Defined.

(** Where the goroutine of [start] is: before [EpollCtl], at the top of the loop,
    before [EpollWait], in it on an epoll instance, before [Read], before it
    sends what it read (the eventfd that was signalled), or at its end. *)
Inductive listen_phase := Fresh | AtTop | Checked | Waiting (epoll : nat) | Woken | Sending (eventfd : nat) | Gone.

Record listener := mkListener {
  l_eventfd : Z;
  l_epfd : Z;
  (** The channel [stopCh] is closed. *)
  l_stopped : bool;
  l_phase : listen_phase;
  (** The eventfds whose signals the handler received. *)
  l_received : list nat;
}.

Record notifiers := mkNotifiers {
  table : gmap Z object;
  (** The eventfds that are signalled. *)
  signalled : gset nat;
  (** What the epoll instances watch: eventfds with the number they were added under. *)
  watched : gmap nat (list (nat * Z));
  listeners : list listener;
}.

Definition no_notifiers : notifiers := mkNotifiers ∅ ∅ ∅ [].

Section Life.
Context {FT : FdTable}.

Definition set_phase (p : listen_phase) (l : listener) : listener := mkListener (l_eventfd l) (l_epfd l) (l_stopped l) p (l_received l).
Definition set_listener (i : nat) (l : listener) (s : notifiers) : notifiers := mkNotifiers (table s) (signalled s) (watched s) (<[i := l]> (listeners s)).

(** [newCgroupNotify] opens the watched file, the control file, the eventfd and the
    epoll instance, and closes the first two. *)
Definition create (s : notifiers) : notifiers :=
  let used := dom (table s) in
  let watchfd := fd_pick used in
  let used := {[watchfd]} ∪ used in
  let controlfd := fd_pick used in
  let used := {[controlfd]} ∪ used in
  let eventfd := fd_pick used in
  let used := {[eventfd]} ∪ used in
  let epfd := fd_pick used in
  let n := length (listeners s) in
  mkNotifiers (<[epfd := EpollFd n]> (<[eventfd := EventFd n]> (table s))) (signalled s) (watched s)
    (listeners s ++ [mkListener eventfd epfd false Fresh []]).

(** Closing an eventfd also ends its registration with the cgroup. *)
Definition stop (i : nat) (l : listener) (s : notifiers) : notifiers :=
  if l_stopped l then s
  else mkNotifiers (delete (l_epfd l) (delete (l_eventfd l) (table s))) (signalled s) (watched s)
         (<[i := mkListener (l_eventfd l) (l_epfd l) true (l_phase l) (l_received l)]> (listeners s)).

Definition is_open (o : object) (s : notifiers) : bool := existsb (fun x => bool_decide (x.2 = o)) (map_to_list (table s)).

(** The watched eventfd that is signalled, if there is one: the number it was
    added under.  A closed eventfd is not watched any more. *)
Definition ready (epoll : nat) (s : notifiers) : option Z :=
  snd <$> List.find (fun '(v, _) => is_open (EventFd v) s && bool_decide (v ∈ signalled s)) (default [] (watched s !! epoll)).

Inductive notify_event :=
| Create
(** The kernel signals the eventfd of a notifier. *)
| Signal (n : nat)
| StopCalled (i : nat)
(** A step of a goroutine; the flag is for [EpollWait] to time out. *)
| Step (i : nat) (timeout : bool).

(** A step of the goroutine; [None] while it is blocked or after its end. *)
Definition listener_step (i : nat) (timeout : bool) (l : listener) (s : notifiers) : option notifiers :=
  let to p := set_listener i (set_phase p l) s in
  match l_phase l with
  | Fresh =>
      match table s !! l_epfd l, table s !! l_eventfd l with
      | Some (EpollFd e), Some (EventFd v) =>
          let s' := to AtTop in
          Some (mkNotifiers (table s') (signalled s') (<[e := default [] (watched s !! e) ++ [(v, l_eventfd l)]]> (watched s')) (listeners s'))
      | _, _ => Some (to Gone)
      end
  | AtTop => Some (to (if l_stopped l then Gone else Checked))
  | Checked =>
      match table s !! l_epfd l with
      | Some (EpollFd e) => Some (to (Waiting e))
      | _ => Some (to Gone)
      end
  | Waiting e =>
      if timeout then Some (to AtTop)
      else match ready e s with
           | Some n => Some (to (if n =? l_eventfd l then Woken else AtTop))
           | None => None
           end
  | Woken =>
      match table s !! l_eventfd l with
      | Some (EventFd v) =>
          if bool_decide (v ∈ signalled s) then
            let s' := to (Sending v) in
            Some (mkNotifiers (table s') (signalled s' ∖ {[v]}) (watched s') (listeners s'))
          else None
      | _ => Some (to Gone)
      end
  | Sending v => Some (set_listener i (mkListener (l_eventfd l) (l_epfd l) (l_stopped l) AtTop (l_received l ++ [v])) s)
  | Gone => None
  end.

Definition notify_step (s : notifiers) (ev : notify_event) : option notifiers :=
  match ev with
  | Create => Some (create s)
  | Signal n =>
      if is_open (EventFd n) s then Some (mkNotifiers (table s) ({[n]} ∪ signalled s) (watched s) (listeners s)) else None
  | StopCalled i => l ← listeners s !! i; Some (stop i l s)
  | Step i timeout => l ← listeners s !! i; listener_step i timeout l s
  end.

Fixpoint notify_run (s : notifiers) (evs : list notify_event) : option notifiers :=
  match evs with
  | [] => Some s
  | ev :: evs' => match notify_step s ev with Some s' => notify_run s' evs' | None => None end
  end.
End Life.

(** ** The notifiers of a configuration *)

Section Manager.
(** The resource manager and its [KillOfflineJob]. *)
Context {R : Type} (KillOfflineJob : string -> R -> R).

(** The notifiers of a configuration share their handle function; [None] is a nil
    resource manager. *)
Definition handle (nodeResource : option R) : outcome (option R) :=
  match nodeResource with
  | None => Crash (Panic "nil pointer dereference")
  | Some r => Ret (Some (KillOfflineJob "memory" r))
  end.

(** The calls of [outerHandleFunc], given for each event whether it is called. *)
Fixpoint handle_calls (nodeResource : option R) (calls : list bool) : outcome (option R) :=
  match calls with
  | [] => Ret nodeResource
  | called :: calls' => r ← (if (called : bool) then handle nodeResource else Ret nodeResource); handle_calls r calls'
  end.

(** The handler of a pressure notifier of [NewNotifyManager]. *)
Definition pressure_handler (nodeResource : option R) (dur : duration) (minCount : Z) (es : list signal) : outcome (option R) :=
  handle_calls nodeResource (pressureEvents dur minCount pressure_start es).2.
End Manager.

Section NewManager.
Context {NE : NotifyEnv} {CE : CgroupEnv}.

(** [NewNotifyManager]: no notifier without a configuration. *)
Definition NewNotifyManager (w : world) (cfg : option NotifyConfig) : F (outcome (list cgroupNotifier)) :=
  match cfg with
  | None => mret (Ret [])
  | Some c => newMemoryNotifier w (Pressures c) (Usages c)
  end.
End NewManager.

(** ** Properties *)

Section Properties.
Context {FT : FdTable}.

(** The numbers of a notifier that was not stopped are its own. *)
Definition own (s : notifiers) : Prop :=
  forall i l, listeners s !! i = Some l -> l_stopped l = false ->
    table s !! l_eventfd l = Some (EventFd i) /\ table s !! l_epfd l = Some (EpollFd i) /\
    (forall v, l_phase l = Sending v -> v = i) /\ Forall (eq i) (l_received l).

Lemma create_own s : own s -> own (create s).
Proof.
  intros H i l. unfold create. cbn zeta. cbn [listeners table].
  set (w := fd_pick (dom (table s))). set (c := fd_pick ({[w]} ∪ dom (table s))).
  set (e := fd_pick ({[c]} ∪ ({[w]} ∪ dom (table s)))). set (p := fd_pick ({[e]} ∪ ({[c]} ∪ ({[w]} ∪ dom (table s))))).
  assert (He : e ∉ dom (table s)).
  { intros Hin. apply (fd_pick_free ({[c]} ∪ ({[w]} ∪ dom (table s)))). fold e. set_solver. }
  assert (Hp : p ∉ dom (table s) /\ p <> e).
  { split; intros Hin; apply (fd_pick_free ({[e]} ∪ ({[c]} ∪ ({[w]} ∪ dom (table s))))); fold p; set_solver. }
  destruct Hp as [Hp Hpe]. intros Hl Hs. apply lookup_app_Some in Hl as [Hl|[Hge Hl]].
  - destruct (H i l Hl Hs) as (H1 & H2 & H3 & H4).
    assert (Hne : l_eventfd l <> e /\ l_eventfd l <> p /\ l_epfd l <> e /\ l_epfd l <> p).
    { split_and!; intros Heq; [apply He|apply Hp|apply He|apply Hp]; rewrite <- Heq; by eapply elem_of_dom_2. }
    destruct Hne as (? & ? & ? & ?). by rewrite !lookup_insert_ne.
  - apply list_lookup_singleton_Some in Hl as [Hi <-]. assert (i = length (listeners s)) as -> by lia. cbn [l_eventfd l_epfd l_phase l_received].
    rewrite lookup_insert_eq, lookup_insert_ne, lookup_insert_eq by done. split_and!; [done|done|done|constructor].
Qed.

Lemma stop_own i l s : own s -> listeners s !! i = Some l -> own (stop i l s).
Proof.
  intros H Hl. unfold stop. destruct (l_stopped l) eqn:Hs; [done|]. destruct (H i l Hl Hs) as (H1 & H2 & _).
  intros j l' Hl' Hs'. cbn [listeners table] in *. destruct (decide (i = j)) as [->|Hne].
  { rewrite list_lookup_insert_eq in Hl' by (by eapply lookup_lt_Some). injection Hl' as <-. done. }
  rewrite list_lookup_insert_ne in Hl' by done. destruct (H j l' Hl' Hs') as (H3 & H4 & H5 & H6).
  rewrite !lookup_delete_ne by congruence. done.
Qed.

(** A step that changes only the phase and the received events of a notifier. *)
Lemma set_own i l p got s s' :
  own s -> listeners s !! i = Some l -> table s' = table s ->
  listeners s' = <[i := mkListener (l_eventfd l) (l_epfd l) (l_stopped l) p got]> (listeners s) ->
  (l_stopped l = false -> (forall v, p = Sending v -> v = i) /\ Forall (eq i) got) ->
  own s'.
Proof.
  intros H Hl Ht Hls Hp j l' Hl' Hs'. rewrite Hls in Hl'. rewrite Ht. destruct (decide (i = j)) as [->|Hne].
  - rewrite list_lookup_insert_eq in Hl' by (by eapply lookup_lt_Some). injection Hl' as <-. cbn in *.
    destruct (H j l Hl Hs') as (? & ? & _). destruct (Hp Hs'). done.
  - rewrite list_lookup_insert_ne in Hl' by done. by apply H.
Qed.

Lemma listener_step_own i timeout l s s' :
  own s -> listeners s !! i = Some l -> listener_step i timeout l s = Some s' -> own s'.
Proof.
  intros H Hl Hstep. pose proof (H i l Hl) as Hown. unfold listener_step in Hstep.
  assert (Hgot : l_stopped l = false -> Forall (eq i) (l_received l)) by (intros Hs; apply Hown, Hs).
  assert (Hto : forall p s1, table s1 = table s -> listeners s1 = <[i := set_phase p l]> (listeners s) ->
    (l_stopped l = false -> forall v, p = Sending v -> v = i) -> own s1).
  { intros p s1 Ht Hls Hp. eapply (set_own i l p (l_received l) s s1); eauto. }
  destruct (l_phase l) as [| | |e| |v|] eqn:Ep.
  - destruct (table s !! l_epfd l) as [[?|e]|]; [| |]; try (injection Hstep as <-; by eapply Hto).
    destruct (table s !! l_eventfd l) as [[v|?]|]; injection Hstep as <-; by eapply Hto.
  - injection Hstep as <-. eapply Hto; [done..|]. by destruct (l_stopped l).
  - destruct (table s !! l_epfd l) as [[?|e]|]; injection Hstep as <-; by eapply Hto.
  - destruct timeout; [injection Hstep as <-; by eapply Hto|]. destruct (ready e s) as [n|]; [|done]. injection Hstep as <-.
    eapply Hto; [done..|]. by destruct (n =? l_eventfd l).
  - destruct (table s !! l_eventfd l) as [[v|?]|] eqn:Et; [|injection Hstep as <-; by eapply Hto|injection Hstep as <-; by eapply Hto].
    case_bool_decide; [|done]. injection Hstep as <-. eapply Hto; [done..|]. intros Hs w [= <-]. destruct (Hown Hs) as (E & _). congruence.
  - injection Hstep as <-. eapply (set_own i l AtTop (l_received l ++ [v])); [exact H|exact Hl|done|done|].
    intros Hs. split; [done|]. destruct (Hown Hs) as (_ & _ & Hv & Hr). apply Forall_app. split; [done|]. constructor; [|constructor].
    symmetry. by apply Hv.
  - done.
Qed.

Lemma notify_step_own s ev s' : own s -> notify_step s ev = Some s' -> own s'.
Proof.
  intros H. destruct ev as [|n|i|i timeout]; cbn [notify_step].
  - intros [= <-]. by apply create_own.
  - destruct (is_open _ s); [|done]. intros [= <-]. exact H.
  - intros (l & Hl & [= <-])%bind_Some. by apply stop_own.
  - intros (l & Hl & Hs)%bind_Some. by eapply listener_step_own.
Qed.

(** C33: in every interleaving of notifiers that are made, signalled, stopped (any
    number of times) and run, the handler of a notifier that was not stopped has
    received signals of its own cgroup only, and its descriptors are open and its
    own: stopping a notifier closes its numbers once, so that a second stop does
    not close those of another one. *)
Theorem running_notifier_hears_its_own evs s i l :
  notify_run no_notifiers evs = Some s -> listeners s !! i = Some l -> l_stopped l = false ->
  Forall (eq i) (l_received l) /\ table s !! l_eventfd l = Some (EventFd i) /\ table s !! l_epfd l = Some (EpollFd i).
Proof.
  assert (Hrun : forall s0, own s0 -> notify_run s0 evs = Some s -> own s).
  { induction evs as [|ev evs IH]; intros s0 H0; cbn [notify_run]; [by intros [= <-]|].
    destruct (notify_step s0 ev) as [s1|] eqn:E; [|done]. apply IH. by eapply notify_step_own. }
  intros Hr Hl Hs. destruct (Hrun no_notifiers) with i l as (H1 & H2 & _ & H3); [|done..].
  intros j l' Hl'. by destruct j.
Qed.
End Properties.

(** The lowest number that is free. *)
Definition lowest_free (used : gset Z) : Z :=
  default 0 (head (List.filter (fun z => bool_decide (z ∉ used)) (seqZ 0 (Z.of_nat (size used) + 1)))).

Lemma lowest_free_free used : lowest_free used ∉ used.
Proof.
  unfold lowest_free. destruct (List.filter _ _) as [|z zs] eqn:E.
  - exfalso. assert (Hsub : list_to_set (C := gset Z) (seqZ 0 (Z.of_nat (size used) + 1)) ⊆ used).
    { intros z Hz. apply elem_of_list_to_set in Hz. destruct (decide (z ∈ used)) as [|Hn]; [done|].
      assert (Hin : List.In z (List.filter (fun z => bool_decide (z ∉ used)) (seqZ 0 (Z.of_nat (size used) + 1)))).
      { apply List.filter_In. split; [by apply list_elem_of_In|by apply bool_decide_eq_true]. }
      by rewrite E in Hin. }
    apply subseteq_size in Hsub. rewrite size_list_to_set in Hsub by apply NoDup_seqZ. rewrite length_seqZ in Hsub. lia.
  - cbn. assert (Hin : List.In z (z :: zs)) by (by left). rewrite <- E in Hin. apply List.filter_In in Hin as [_ Hin].
    by apply bool_decide_eq_true in Hin.
Qed.

#[export] Instance lowest_fds : FdTable := {| fd_pick := lowest_free; fd_pick_free := lowest_free_free |}.

(** A notifier is stopped for a new configuration between its look at the stop
    channel and its wait, and the new notifier gets its numbers. *)
Definition reload_run : list notify_event :=
  [Create; Step 0 false; Step 0 false; StopCalled 0; Create; Step 1 false; Signal 1;
   Step 0 false; Step 0 false; Step 0 false; Step 0 false].

(** A stopped notifier can take the signal of the one that replaced it: the
    numbers of its descriptors are used again while its goroutine is on the way to
    its wait, so the event goes to the handler of the old configuration, and the
    new one does not hear of it. *)
Theorem stopped_notifier_steals_signal : exists s l0 l1,
  notify_run no_notifiers reload_run = Some s /\ listeners s = [l0; l1] /\
  l_stopped l0 = true /\ l_received l0 = [1%nat] /\
  l_stopped l1 = false /\ l_received l1 = [] /\ signalled s = ∅.
Proof.
  assert (E : match notify_run no_notifiers reload_run with
              | Some s => Some (map (fun l => (l_stopped l, l_received l)) (listeners s), signalled s)
              | None => None
              end = Some ([(true, [1%nat]); (false, [])], ∅)) by (vm_compute; reflexivity).
  destruct (notify_run no_notifiers reload_run) as [s|]; [|done]. injection E as Hl Hs.
  destruct (listeners s) as [|l0 [|l1 [|]]] eqn:El; try done. cbn in Hl. injection Hl as H1 H2 H3 H4. by exists s, l0, l1.
Qed.

Lemma running_notifier_hears_its_own_witness : exists s l1,
  notify_run no_notifiers (reload_run ++ [StopCalled 0; Signal 1]) = Some s /\ listeners s !! 1%nat = Some l1 /\
  Forall (eq 1%nat) (l_received l1) /\ table s !! l_eventfd l1 = Some (EventFd 1) /\ table s !! l_epfd l1 = Some (EpollFd 1).
Proof.
  assert (E : match notify_run no_notifiers (reload_run ++ [StopCalled 0; Signal 1]) with
              | Some s => match listeners s !! 1%nat with Some l => Some (l_stopped l) | None => None end
              | None => None
              end = Some false) by (vm_compute; reflexivity).
  destruct (notify_run no_notifiers (reload_run ++ [StopCalled 0; Signal 1])) as [s|] eqn:Es; [|discriminate E].
  destruct (listeners s !! 1%nat) as [l1|] eqn:El; [|discriminate E]. injection E as E. exists s, l1. split_and!; [done|done|..];
    apply (running_notifier_hears_its_own _ s 1 l1 Es El E).
Defined.

(** ** The handle function *)

Section Kill.
Context {R : Type} (KillOfflineJob : string -> R -> R).

Lemma handle_calls_nil calls :
  handle_calls KillOfflineJob None calls = if existsb id calls then Crash (Panic "nil pointer dereference") else Ret None.
Proof. induction calls as [|[] calls IH]; [done|done|]. exact IH. Qed.

Lemma handle_calls_some (r : R) calls :
  handle_calls KillOfflineJob (Some r) calls = Ret (Some (Nat.iter (length (List.filter id calls)) (KillOfflineJob "memory") r)).
Proof.
  revert r. induction calls as [|[] calls IH]; intros r; [done|..]; cbn [handle_calls]; unfold mbind, outcome_bind; cbn [handle List.filter id length].
  - rewrite IH. f_equal. f_equal. by rewrite Nat.iter_succ_r.
  - apply IH.
Qed.

(** Every window of pressure that fills kills one offline job for memory: as
    many as the handler of the events calls.  Without a resource manager, which
    the agent has none of when the node resource is disabled, the first of them
    panics. *)
Theorem pressure_kills (r : R) dur minCount es :
  let calls := (pressureEvents dur minCount pressure_start es).2 in
  pressure_handler KillOfflineJob (Some r) dur minCount es =
    Ret (Some (Nat.iter (length (List.filter id calls)) (KillOfflineJob "memory") r)) /\
  pressure_handler KillOfflineJob None dur minCount es =
    if existsb id calls then Crash (Panic "nil pointer dereference") else Ret None.
Proof. intros calls. split; [apply handle_calls_some|apply handle_calls_nil]. Qed.
End Kill.
