(* ===== verification/Server.v ===== *)
(** * The start of the agent

    cmd/caelus/app/server.go and api.go, cmd/caelus/context/context.go: the
    configuration is read, the modules it enables are made from the constructors of
    the other files, each with the ones that it uses, and run one after the other;
    the first one starts the informers.  The client and the informers of Kubernetes
    are the class [KubeLib]; a module that another one refers to is given by its
    name, and a nil interface by [None]. *)

From Stdlib Require Import Floats.SpecFloat.
From S2P Require Import Prelude GoStrings GoFloat Quantity Action Cgroup Qos Adaptive K8sResource NetIO QosManager Config Predict Alarm Online RuleCheck Checkers HealthConfig HealthManager QosLife Checkpoint Notify NotifyLife.

#[local] Open Scope string_scope.
#[local] Open Scope Z_scope.
#[local] Open Scope list_scope.

(** ** The clients of Kubernetes *)

Inductive fieldTerm :=
| OneTermEqualSelector (k v : string)
| OneTermNotEqualSelector (k v : string).

Definition nodeNameField : string := "metadata.name".
Definition specNodeNameField : string := "spec.nodeName".
Definition statusPhaseFiled : string := "status.phase".

Inductive informer := Pods | Nodes.
#[export] Instance informer_eq_dec : EqDecision informer.
Proof. solve_decision. Defined.

(** Clients [C] and factories of informers [F]: an informer is started with the
    others of its factory that were requested before. *)
Class KubeLib (C F : Type) := {
  RestConfig : Type;
  BuildConfigFromFlags : string -> string -> result RestConfig;
  NewForConfigOrDie : RestConfig -> outcome C;
  NewSimpleClientset : C;
  NewSharedInformerFactory : C -> list fieldTerm -> F;
  Informer : informer -> F -> F;
  factory_Start : F -> F;
  requested : F -> informer -> bool;
  synced : F -> informer -> bool;
  new_requested : forall c sel i, requested (NewSharedInformerFactory c sel) i = false;
  informer_requested : forall i j f, requested (Informer i f) j = bool_decide (i = j) || requested f j;
  start_synced : forall f i, synced (factory_Start f) i = requested f i;
}.

Section Context.
Context {C F : Type} {KL : KubeLib C F}.

Record CaelusContext := mkContext {
  Master : string;
  Kubeconfig : string;
  ctx_NodeName : string;
  kubeClient : option C;
  nodeFactory : option F;
  podFactory : option F;
}.

Definition set_client (c : C) (x : CaelusContext) : CaelusContext :=
  mkContext (Master x) (Kubeconfig x) (ctx_NodeName x) (Some c) (nodeFactory x) (podFactory x).
Definition set_nodes (f : option F) (x : CaelusContext) : CaelusContext :=
  mkContext (Master x) (Kubeconfig x) (ctx_NodeName x) (kubeClient x) f (podFactory x).
Definition set_pods (f : option F) (x : CaelusContext) : CaelusContext :=
  mkContext (Master x) (Kubeconfig x) (ctx_NodeName x) (kubeClient x) (nodeFactory x) f.

(** Without a configuration of the cluster the client is a fake one. *)
Definition GetKubeClient : SC CaelusContext C := fun x =>
  match kubeClient x with
  | Some c => Ret (c, x)
  | None =>
      match BuildConfigFromFlags (Master x) (Kubeconfig x) with
      | Err _ => Ret (NewSimpleClientset, set_client NewSimpleClientset x)
      | Ok config => c ← NewForConfigOrDie config; Ret (c, set_client c x)
      end
  end.

Definition GetPodFactory : SC CaelusContext F := fun x =>
  match podFactory x with
  | Some f => Ret (f, x)
  | None =>
      '(c, x') ← GetKubeClient x;
      let f := NewSharedInformerFactory c [OneTermEqualSelector specNodeNameField (ctx_NodeName x'); OneTermNotEqualSelector statusPhaseFiled "Succeeded";
                                           OneTermNotEqualSelector statusPhaseFiled "Failed"] in
      Ret (f, set_pods (Some f) x')
  end.

Definition GetNodeFactory : SC CaelusContext F := fun x =>
  match nodeFactory x with
  | Some f => Ret (f, x)
  | None =>
      '(c, x') ← GetKubeClient x;
      let f := NewSharedInformerFactory c [OneTermEqualSelector nodeNameField (ctx_NodeName x')] in
      Ret (f, set_nodes (Some f) x')
  end.

(** [ctx.GetPodFactory()...Pods().Informer()], and the one of nodes: the factory is
    shared, so it holds the request. *)
Definition podInformer : SC CaelusContext unit := f ← GetPodFactory; sc_modify (set_pods (Some (Informer Pods f))).
Definition nodeInformer : SC CaelusContext unit := f ← GetNodeFactory; sc_modify (set_nodes (Some (Informer Nodes f))).

(** [Run] of the context. *)
Definition context_Run (x : CaelusContext) : CaelusContext :=
  set_nodes (factory_Start <$> nodeFactory x) (set_pods (factory_Start <$> podFactory x) x).

(** Whether an informer runs with its cache filled. *)
Definition informer_runs (x : CaelusContext) (i : informer) : bool :=
  match (match i with Pods => podFactory x | Nodes => nodeFactory x end) with Some f => synced f i | None => false end.
End Context.
Arguments CaelusContext : clear implicits.

(** ** Modules *)

(** The values of [generateResourceManagerData]: a pointer to one of two types. *)
Inductive offlineData := OfflineK8sData | OfflineYarnData.
Inductive clientKind := OnK8s | OnYarn.

(** [NewOfflineOnK8sManager] with the type assertions of [newK8sClient] and
    [newYarnClient]. *)
Definition NewOfflineOnK8sManager (config : NodeResourceConfig) (data : offlineData) : outcome clientKind :=
  if (nr_OfflineType config =? OfflineTypeOnk8s)%string then
    match data with OfflineK8sData => Ret OnK8s | OfflineYarnData => Crash (Panic "interface conversion") end
  else if (nr_OfflineType config =? OfflineTypeYarnOnk8s)%string then
    match data with OfflineYarnData => Ret OnYarn | OfflineK8sData => Crash (Panic "interface conversion") end
  else Crash (Fatal "not supported").

Definition StatsMetricStore : string := "store".
Definition StatsMetricDiskQuota : string := "diskquota".

Section Server.
Context {C F : Type} {KL : KubeLib C F} {FS : Type} {CL : CheckpointLib FS}.
Context {RO : RangeOrder} {CE : CgroupEnv} {Q : Type} `{QO : QuantityOps Q} {VL : VpaLib} {ME : MachineEnv} {RE : GoRegexp}.
Context {MA : Type} (NewMovingAverage : float64 -> MA).
Context (env_mkdir : option error) (md5 : string -> string).
(** [InitHealthCheckConfigFunc] with its decoders, and the two reads of the file. *)
Context (healthConfigFunc : MetricsNodeConfig -> Resource -> result string -> outcome (result HealthCheckConfig)).
Context (health_read1 health_read2 : result string).

(** The modules with what they are made of, and the names of those they are given. *)
Inductive module :=
| ModuleContext
| ModuleStateStore
| ModulePredictor (p : predictorWrapper (Q := Q) (MA := MA)) (stStore : string)
| ModuleResource (client : clientKind) (predictor stStore : string)
| ModuleAlarm (a : Alarm.Manager) (ojg : option string)
| ModuleOnline (o : onlineManager) (stStore : string)
| ModuleQos (hs : list (qos_handler (Q := Q))) (stStore predictor : string) (onlineInterface : option string)
| ModuleDiskQuota
| ModuleHealth (h : health) (stStore : string) (resource qosManager : option string).

Definition Name (m : module) : string :=
  match m with
  | ModuleContext => "ModuleContext"
  | ModuleStateStore => "ModuleStateStore"
  | ModulePredictor _ _ => "ModulePredictor"
  | ModuleResource _ _ _ => "ModuleResourceOnK8s"
  | ModuleAlarm _ _ => "ModuleAlarm"
  | ModuleOnline _ _ => "ModuleOnline"
  | ModuleQos _ _ _ _ => "ModuleQosK8s"
  | ModuleDiskQuota => "ModuleDiskQuota"
  | ModuleHealth _ _ _ _ => "ModuleHealthCheck"
  end.

(** The modules that a module calls. *)
Definition uses (m : module) : list string :=
  let opt (o : option string) := match o with Some x => [x] | None => [] end in
  match m with
  | ModuleContext | ModuleStateStore | ModuleDiskQuota => []
  | ModulePredictor _ st => [st]
  | ModuleResource _ p st => [p; st]
  | ModuleAlarm _ ojg => opt ojg
  | ModuleOnline _ st => [st]
  | ModuleQos _ st p o => st :: p :: opt o
  | ModuleHealth _ st r q => st :: opt r ++ opt q
  end.

(** The informers whose stores a module reads. *)
Definition reads (m : module) : list informer :=
  match m with
  | ModuleStateStore | ModuleQos _ _ _ _ | ModuleDiskQuota | ModuleHealth _ _ _ _ => [Pods]
  | ModuleResource OnK8s _ _ => [Pods; Nodes]
  | ModuleResource OnYarn _ _ => [Pods]
  | _ => []
  end.

(** What else the start reads of the configuration and of the node: which parts are
    enabled, the commands of online jobs, and whether a client of prometheus can
    be made for an address. *)
Record launch := mkLaunch {
  online_Enable : bool;
  cpi_Enable : bool;
  quota_Enabled : bool;
  l_qos : qos_options;
  l_jobs : list OnlineJobConfig;
  NewPrometheusClient : string -> option error;
  NodeIP : string;
}.

Record server := mkServer {
  s_ctx : CaelusContext C F;
  devSpeedMap : gmap string Z;
  s_world : world;
  (** The stores of the exported metrics, by their names. *)
  statsMetric : gmap string string;
  (** The collectors of the prometheus registry. *)
  registry : list string;
  s_cpm : option string;
  s_fs : FS;
}.

Definition set_ctx (x : CaelusContext C F) (s : server) : server :=
  mkServer x (devSpeedMap s) (s_world s) (statsMetric s) (registry s) (s_cpm s) (s_fs s).
Definition set_speeds (m : gmap string Z) (s : server) : server :=
  mkServer (s_ctx s) m (s_world s) (statsMetric s) (registry s) (s_cpm s) (s_fs s).
Definition set_world (w : world) (s : server) : server :=
  mkServer (s_ctx s) (devSpeedMap s) w (statsMetric s) (registry s) (s_cpm s) (s_fs s).
Definition loadStatsMetric (name stat : string) (s : server) : server :=
  mkServer (s_ctx s) (devSpeedMap s) (s_world s) (<[name := stat]> (statsMetric s)) (registry s) (s_cpm s) (s_fs s).
Definition MustRegister (collector : string) (s : server) : server :=
  mkServer (s_ctx s) (devSpeedMap s) (s_world s) (statsMetric s) (registry s ++ [collector]) (s_cpm s) (s_fs s).

Definition in_ctx {A} (m : SC (CaelusContext C F) A) : SC server A := sc_zoom s_ctx (fun s x => set_ctx x s) m.
Definition in_speeds {A} (m : SC (gmap string Z) A) : SC server A := sc_zoom devSpeedMap (fun s x => set_speeds x s) m.

(** The error of [InitCheckpointManager] is dropped. *)
Definition initCheckpoints (dir : string) (s : server) : server :=
  let '((_, cpm), fs) := InitCheckpointManager dir (s_fs s) in
  mkServer (s_ctx s) (devSpeedMap s) (s_world s) (statsMetric s) (registry s) cpm fs.

Definition generateResourceManagerData (c : CaelusConfig) : SC server offlineData :=
  _ ← in_ctx nodeInformer;
  _ ← in_ctx GetKubeClient;
  mret (if OfflineOnYarn (TaskType c) then OfflineYarnData else OfflineK8sData).

Definition initModules (c : CaelusConfig) (l : launch) : SC server (list module) :=
  _ ← in_ctx podInformer;
  _ ← sc_modify (initCheckpoints (CheckPointDir c));
  let stStore := Name ModuleStateStore in
  _ ← sc_modify (loadStatsMetric StatsMetricStore stStore);
  p ← sc_of (NewPredictorOrDie NewMovingAverage (Predicts c));
  let predictor := ModulePredictor p stStore in
  resourceManager ← (if negb (nr_Disable (NodeResource c)) then
      resourceData ← generateResourceManagerData c;
      client ← sc_of (NewOfflineOnK8sManager (NodeResource c) resourceData);
      let m := ModuleResource client (Name predictor) stStore in
      _ ← sc_modify (MustRegister (Name m));
      mret (Some m)
    else mret None);
  a ← sc_of (Alarm.NewManager (AlarmOf c) (NodeIP l));
  let alarmManager := ModuleAlarm a (Name <$> resourceManager) in
  onlineManager ← (if online_Enable l then
      w ← sc_get s_world;
      o ← sc_of (NewOnlineManager (on_BatchNum (OnlineOf c)) (l_jobs l) w);
      mret (Some (ModuleOnline o stStore))
    else mret None);
  qosManager ← (if negb (ri_Disable (ResourceIsolate c)) then
      hs ← in_speeds (NewQosK8sManager (ResourceIsolate c) (l_qos l));
      mret (Some (ModuleQos hs stStore (Name predictor) (Name <$> onlineManager)))
    else mret None);
  _ ← sc_of (if cpi_Enable l then
      match NewPrometheusClient l (PrometheusAddr (CpiManager c)) with
      | Some e => Crash (Fatal ("init cpi manager failed: init prometheus client failed: " +:+ e))
      | None => Ret tt
      end
    else Ret tt);
  diskquotaManager ← (if quota_Enabled l then
      _ ← sc_modify (loadStatsMetric StatsMetricDiskQuota (Name ModuleDiskQuota));
      mret (Some ModuleDiskQuota)
    else mret None);
  reserve ← sc_of (match Predicts c with p :: _ => Ret (ReserveResource p) | [] => Crash (Panic "index out of range") end);
  h ← sc_of (NewHealthManager md5 (healthConfigFunc (mt_Node (Metrics c)) reserve) health_read1 health_read2);
  let healthCheckManager := ModuleHealth h stStore (Name <$> resourceManager) (Name <$> qosManager) in
  let opt (o : option module) := match o with Some m => [m] | None => [] end in
  mret ([ModuleStateStore; predictor] ++ opt resourceManager ++ [alarmManager] ++ opt onlineManager ++ opt qosManager ++
        opt diskquotaManager ++ [healthCheckManager]).

(** ** Running *)

(** The start of a module: the context starts the informers, the QoS manager
    initialises its managers; the others start goroutines. *)
Definition run_module (m : module) : SC server unit :=
  match m with
  | ModuleContext => sc_modify (fun s => set_ctx (context_Run (s_ctx s)) s)
  | ModuleQos hs _ _ _ => fun s =>
      let '(r, w') := preInitAll env_mkdir hs (s_world s) in
      match r with
      | Crash c => Crash c
      | Ret _ => Ret (tt, set_world w' s)
      end
  | _ => mret tt
  end.

(** The modules in the order of their start, with the informers as each start
    finds them. *)
Fixpoint startModules (ms : list module) : SC server (list (module * CaelusContext C F)) :=
  match ms with
  | [] => mret []
  | m :: ms' =>
      x ← sc_get s_ctx;
      _ ← run_module m;
      rest ← startModules ms';
      mret ((m, x) :: rest)
  end.

(** The assertion on the stored state store, the registrations, and the listener. *)
Definition RegisterServer (listen : option error) : SC server (option error) :=
  _ ← sc_modify (MustRegister "total metrics");
  _ ← sc_modify (MustRegister "textfile");
  st ← sc_get (fun s => statsMetric s !! StatsMetricStore);
  _ ← sc_of (match st with
             | Some n => if (n =? Name ModuleStateStore)%string then Ret tt else Crash (Panic "interface conversion")
             | None => Crash (Panic "interface conversion")
             end);
  _ ← sc_modify (MustRegister "server request");
  _ ← sc_modify (MustRegister "prometheus collector");
  mret (match listen with Some e => Some ("listen err: " +:+ e) | None => None end).

(** The options and what the start reads: the name of the host, the configuration
    and the rest of it, and whether the address can be listened on. *)
Record options := mkOptions {
  HostnameOverride : string;
  os_Hostname : result string;
  MatchIP : string -> bool;
  o_Master : string;
  o_Kubeconfig : string;
  InsecureAddress : string;
  parse : SC world (result CaelusConfig);
  o_launch : string -> launch;
  o_listen : option error;
}.

Definition Run (o : options) : SC server (option error * list (module * CaelusContext C F)) :=
  match (if (slen (HostnameOverride o) =? 0) then os_Hostname o else Ok (HostnameOverride o)) with
  | Err e => mret (Some e, [])
  | Ok nodeName =>
      let nodeIP := if MatchIP o nodeName then nodeName else InsecureAddress o in
      r ← sc_zoom s_world (fun s w => set_world w s) (parse o);
      match r with
      | Err e => mret (Some e, [])
      | Ok caelus =>
          _ ← sc_modify (fun s => mkServer (mkContext (o_Master o) (o_Kubeconfig o) nodeName None None None) (devSpeedMap s) (s_world s) ∅ []
                                    (s_cpm s) (s_fs s));
          ms ← initModules caelus (o_launch o nodeIP);
          log ← startModules (ModuleContext :: ms);
          e ← RegisterServer (o_listen o);
          mret (e, log)
      end
  end.

(** ** Properties *)

(** The modules of a configuration. *)
Definition wanted_modules (c : CaelusConfig) (l : launch) : list string :=
  ["ModuleStateStore"; "ModulePredictor"] ++
  (if nr_Disable (NodeResource c) then [] else ["ModuleResourceOnK8s"]) ++ ["ModuleAlarm"] ++
  (if online_Enable l then ["ModuleOnline"] else []) ++
  (if ri_Disable (ResourceIsolate c) then [] else ["ModuleQosK8s"]) ++
  (if quota_Enabled l then ["ModuleDiskQuota"] else []) ++ ["ModuleHealthCheck"].

(** The configurations of the modules that the check of the configuration does not
    look at: what their constructors need on this node. *)
Record can_start (c : CaelusConfig) (l : launch) (s : server) : Prop := {
  cs_client : exists r, GetKubeClient (s_ctx s) = Ret r;
  cs_alarm : Alarm.Enable (AlarmOf c) = true -> exists send, newChannel (AlarmOf c) = Ret send;
  cs_online : online_Enable l = true -> exists o, NewOnlineManager (on_BatchNum (OnlineOf c)) (l_jobs l) (s_world s) = Ret o;
  cs_qos : ri_Disable (ResourceIsolate c) = false -> exists r, NewQosK8sManager (Q := Q) (ResourceIsolate c) (l_qos l) (devSpeedMap s) = Ret r;
  cs_cpi : cpi_Enable l = true -> NewPrometheusClient l (PrometheusAddr (CpiManager c)) = None;
  cs_health : forall p ps, Predicts c = p :: ps ->
    exists h, NewHealthManager md5 (healthConfigFunc (mt_Node (Metrics c)) (ReserveResource p)) health_read1 health_read2 = Ret h;
}.

(** The modules from what was made for each part. *)
Definition modules_of (p : predictorWrapper (Q := Q) (MA := MA)) (r : option clientKind) (a : Alarm.Manager) (o : option onlineManager)
    (q : option (list (qos_handler (Q := Q)))) (quota : bool) (h : health) : list module :=
  let st := "ModuleStateStore" in
  let res := match r with Some _ => Some "ModuleResourceOnK8s" | None => None end in
  [ModuleStateStore; ModulePredictor p st] ++
  match r with Some k => [ModuleResource k "ModulePredictor" st] | None => [] end ++ [ModuleAlarm a res] ++
  match o with Some om => [ModuleOnline om st] | None => [] end ++
  match q with Some hs => [ModuleQos hs st "ModulePredictor" (match o with Some _ => Some "ModuleOnline" | None => None end)] | None => [] end ++
  (if quota then [ModuleDiskQuota] else []) ++
  [ModuleHealth h st res (match q with Some _ => Some "ModuleQosK8s" | None => None end)].

(** A context that made no factory yet. *)
Definition no_factories (x : CaelusContext C F) : Prop := podFactory x = None /\ nodeFactory x = None.

(** The informers of pods, and of nodes where they are needed, are requested on
    factories that were not started. *)
Definition requests (nodes : bool) (x : CaelusContext C F) : Prop :=
  (exists f, podFactory x = Some f /\ requested f Pods = true) /\
  (if nodes then exists f, nodeFactory x = Some f /\ requested f Nodes = true else nodeFactory x = None).

Lemma sc_zoom_Ret {St St' A} (get : St -> St') (put : St -> St' -> St) (m : SC St' A) s a s' :
  sc_zoom get put m s = Ret (a, s') -> exists x, m (get s) = Ret (a, x) /\ s' = put s x.
Proof. unfold sc_zoom. destruct (m (get s)) as [[a' x]|]; [|done]. intros [= <- <-]. by exists x. Qed.

Lemma GetKubeClient_keeps (x : CaelusContext C F) c x' :
  GetKubeClient x = Ret (c, x') -> podFactory x' = podFactory x /\ nodeFactory x' = nodeFactory x /\ kubeClient x' = Some c.
Proof.
  unfold GetKubeClient. destruct (kubeClient x) as [c0|] eqn:E; [by intros [= <- <-]|].
  destruct (BuildConfigFromFlags _ _) as [cfg|e]; [|by intros [= <- <-]].
  unfold mbind, outcome_bind. destruct (NewForConfigOrDie cfg); [|done]. by intros [= <- <-].
Qed.

Lemma podInformer_Ret (x x' : CaelusContext C F) :
  no_factories x -> podInformer x = Ret (tt, x') ->
  (exists r, GetKubeClient x = Ret r) /\ requests false x' /\ is_Some (kubeClient x').
Proof.
  intros [Hp Hn] H1. unfold podInformer, GetPodFactory in H1. apply sc_bind_Ret in H1 as (f & x1 & H1 & H2). rewrite Hp in H1.
  unfold mbind, outcome_bind in H1. destruct (GetKubeClient x) as [[cl x2]|] eqn:E; [|done].
  destruct (GetKubeClient_keeps _ _ _ E) as (E1 & E2 & E3). injection H1 as <- <-. injection H2 as <-.
  split; [by eexists|]. unfold requests. cbn. split; [split; [|congruence]|by eexists].
  eexists. split; [done|]. rewrite informer_requested. by rewrite bool_decide_true.
Qed.

Lemma nodeInformer_Ret (x x' : CaelusContext C F) :
  requests false x -> nodeInformer x = Ret (tt, x') -> requests true x'.
Proof.
  intros [(f0 & Hp & Hr) Hn] H1. unfold nodeInformer, GetNodeFactory in H1. apply sc_bind_Ret in H1 as (f & x1 & H1 & H2). rewrite Hn in H1.
  unfold mbind, outcome_bind in H1. destruct (GetKubeClient x) as [[cl x2]|] eqn:E; [|done].
  destruct (GetKubeClient_keeps _ _ _ E) as (E1 & E2 & E3). injection H1 as <- <-. injection H2 as <-.
  unfold requests. cbn. split; [exists f0; by rewrite E1|].
  eexists. split; [done|]. rewrite informer_requested. by rewrite bool_decide_true.
Qed.

(** A state of [initModules] after the informer of pods. *)
Definition phase_of (s0 : server) (c : CaelusConfig) (nodes : bool) (s : server) : Prop :=
  s_world s = s_world s0 /\ requests nodes (s_ctx s) /\ statsMetric s !! StatsMetricStore = Some "ModuleStateStore" /\
  s_cpm s = (InitCheckpointManager (CheckPointDir c) (s_fs s0)).1.2.

(** What was made when the start returns, and the state after it. *)
Lemma initModules_inv (c : CaelusConfig) (l : launch) s ms s' :
  no_factories (s_ctx s) -> initModules c l s = Ret (ms, s') ->
  exists p r a o q h pc ps,
    ms = modules_of p r a o q (quota_Enabled l) h /\
    NewPredictorOrDie NewMovingAverage (Predicts c) = Ret p /\
    r = (if nr_Disable (NodeResource c) then None else Some (if OfflineOnYarn (TaskType c) then OnYarn else OnK8s)) /\
    Alarm.NewManager (AlarmOf c) (NodeIP l) = Ret a /\
    (if online_Enable l then exists om, o = Some om /\ NewOnlineManager (on_BatchNum (OnlineOf c)) (l_jobs l) (s_world s) = Ret om else o = None) /\
    (if ri_Disable (ResourceIsolate c) then q = None
     else exists hs sp, q = Some hs /\ NewQosK8sManager (ResourceIsolate c) (l_qos l) (devSpeedMap s) = Ret (hs, sp)) /\
    (cpi_Enable l = true -> NewPrometheusClient l (PrometheusAddr (CpiManager c)) = None) /\
    Predicts c = pc :: ps /\
    NewHealthManager md5 (healthConfigFunc (mt_Node (Metrics c)) (ReserveResource pc)) health_read1 health_read2 = Ret h /\
    (exists cl, GetKubeClient (s_ctx s) = Ret cl) /\
    phase_of s c (negb (nr_Disable (NodeResource c))) s'.
Proof.
  intros Hfresh H1. unfold initModules in H1.
  apply sc_bind_Ret in H1 as ([] & s1 & Hpod & H1). apply sc_zoom_Ret in Hpod as (x1 & Hpod & ->).
  apply (podInformer_Ret _ _ Hfresh) in Hpod as (Hcl & Hreq & Hk).
  apply sc_bind_Ret in H1 as ([] & s2 & Hcp & H1). injection Hcp as <-.
  apply sc_bind_Ret in H1 as ([] & s3 & Hst & H1). injection Hst as <-.
  set (s3 := loadStatsMetric _ _ _) in H1.
  assert (H3 : phase_of s c false s3 /\ devSpeedMap s3 = devSpeedMap s).
  { unfold s3, initCheckpoints. cbn [s_fs set_ctx]. destruct (InitCheckpointManager (CheckPointDir c) (s_fs s)) as [[err cpm] fs] eqn:E.
    unfold phase_of. rewrite E. cbn. split; [|done]. do 2 (split; [done|]); split; [apply lookup_insert_eq|done]. }
  clearbody s3. apply sc_bind_Ret in H1 as (p & s4 & Hp & H1). apply sc_of_Ret in Hp as [Hp ->].
  apply sc_bind_Ret in H1 as (rm & s5 & Hrm & H1).
  assert (H5 : rm = (if nr_Disable (NodeResource c) then None
                     else Some (ModuleResource (if OfflineOnYarn (TaskType c) then OnYarn else OnK8s) "ModulePredictor" "ModuleStateStore")) /\
    phase_of s c (negb (nr_Disable (NodeResource c))) s5 /\ devSpeedMap s5 = devSpeedMap s).
  { destruct (nr_Disable (NodeResource c)); cbn [negb] in *; [by injection Hrm as <- <-|].
    apply sc_bind_Ret in Hrm as (d & s6 & Hd & Hrm). unfold generateResourceManagerData in Hd.
    apply sc_bind_Ret in Hd as ([] & s7 & Hn & Hd). apply sc_zoom_Ret in Hn as (x7 & Hn & ->).
    destruct H3 as [(Hw & Hr3 & Hst3 & Hc3) Hsp]. pose proof (nodeInformer_Ret _ _ Hr3 Hn) as Hr7.
    apply sc_bind_Ret in Hd as (cl & s8 & Hc & Hd). apply sc_zoom_Ret in Hc as (x8 & Hc & ->). injection Hd as <- <-.
    destruct (GetKubeClient_keeps _ _ _ Hc) as (E1 & E2 & _). cbn [s_ctx set_ctx] in E1, E2.
    apply sc_bind_Ret in Hrm as (k & s9 & Hk' & Hrm). apply sc_of_Ret in Hk' as [Hk' ->].
    apply sc_bind_Ret in Hrm as ([] & s10 & Hreg & Hrm). injection Hreg as <-. injection Hrm as <- <-.
    assert (k = if OfflineOnYarn (TaskType c) then OnYarn else OnK8s) as ->.
    { revert Hk'. unfold NewOfflineOnK8sManager. destruct (_ =? OfflineTypeOnk8s)%string; [destruct (OfflineOnYarn _); [done|by intros [= <-]]|].
      destruct (_ =? OfflineTypeYarnOnk8s)%string; [destruct (OfflineOnYarn _); [by intros [= <-]|done]|done]. }
    split; [done|]. split; [|exact Hsp]. unfold phase_of. cbn. unfold requests in *. by rewrite E1, E2. }
  destruct H5 as (-> & H5 & Hsp).
  apply sc_bind_Ret in H1 as (a & s6 & Ha & H1). apply sc_of_Ret in Ha as [Ha ->].
  apply sc_bind_Ret in H1 as (om & s6 & Hom & H1).
  assert (Ho : exists o, om = match o with Some x => Some (ModuleOnline x "ModuleStateStore") | None => None end /\ s6 = s5 /\
    if online_Enable l then exists x, o = Some x /\ NewOnlineManager (on_BatchNum (OnlineOf c)) (l_jobs l) (s_world s) = Ret x else o = None).
  { destruct (online_Enable l); [|injection Hom as <- <-; by exists None].
    apply sc_bind_Ret in Hom as (w & s7 & Hw & Hom). injection Hw as <- <-.
    apply sc_bind_Ret in Hom as (x & s7 & Hx & Hom). apply sc_of_Ret in Hx as [Hx ->]. injection Hom as <- <-.
    exists (Some x). split_and!; [done|done|]. exists x. split; [done|]. by rewrite <- (proj1 H5). }
  destruct Ho as (o & -> & -> & Ho).
  apply sc_bind_Ret in H1 as (qm & s7 & Hqm & H1).
  assert (Hq : exists q, qm = match q with
        | Some hs => Some (ModuleQos hs "ModuleStateStore" "ModulePredictor" (match o with Some _ => Some "ModuleOnline" | None => None end))
        | None => None end /\ phase_of s c (negb (nr_Disable (NodeResource c))) s7 /\
    if ri_Disable (ResourceIsolate c) then q = None
    else exists hs sp, q = Some hs /\ NewQosK8sManager (ResourceIsolate c) (l_qos l) (devSpeedMap s) = Ret (hs, sp)).
  { destruct (ri_Disable (ResourceIsolate c)); cbn [negb] in Hqm; [injection Hqm as <- <-; by exists None|].
    apply sc_bind_Ret in Hqm as (hs & s8 & Hhs & Hqm). apply sc_zoom_Ret in Hhs as (sp & Hhs & ->). injection Hqm as <- <-.
    exists (Some hs). split_and!; [by destruct o|exact H5|]. exists hs, sp. split; [done|]. by rewrite <- Hsp. }
  destruct Hq as (q & -> & H7 & Hq).
  apply sc_bind_Ret in H1 as ([] & s8 & Hcpi & H1). apply sc_of_Ret in Hcpi as [Hcpi ->].
  apply sc_bind_Ret in H1 as (dm & s8 & Hdm & H1).
  assert (Hd : dm = (if quota_Enabled l then Some ModuleDiskQuota else None) /\ phase_of s c (negb (nr_Disable (NodeResource c))) s8).
  { destruct (quota_Enabled l); [|by injection Hdm as <- <-].
    apply sc_bind_Ret in Hdm as ([] & s9 & Hst & Hdm). injection Hst as <-. injection Hdm as <- <-. split; [done|].
    destruct H7 as (? & ? & Hst7 & ?). do 2 (split; [done|]). split; [|done]. cbn. by rewrite lookup_insert_ne. }
  destruct Hd as [-> H8].
  apply sc_bind_Ret in H1 as (reserve & s9 & Hres & H1). apply sc_of_Ret in Hres as [Hres ->].
  apply sc_bind_Ret in H1 as (h & s9 & Hh & H1). apply sc_of_Ret in Hh as [Hh ->]. injection H1 as <- <-.
  destruct (Predicts c) as [|pc ps] eqn:Epc; [done|]. injection Hres as <-.
  exists p, (if nr_Disable (NodeResource c) then None else Some (if OfflineOnYarn (TaskType c) then OnYarn else OnK8s)), a, o, q, h, pc, ps.
  split; [unfold modules_of; by destruct (nr_Disable (NodeResource c)), o, q, (quota_Enabled l)|].
  assert (Hc : cpi_Enable l = true -> NewPrometheusClient l (PrometheusAddr (CpiManager c)) = None).
  { intros Hc. rewrite Hc in Hcpi. by destruct (NewPrometheusClient l _). }
  do 9 (split; [done|]). exact H8.
Qed.

Definition succeeds {St A} (m : SC St A) (s : St) : Prop := exists a s', m s = Ret (a, s').

Lemma succeeds_bind {St A B} (m : SC St A) (k : A -> SC St B) s a s1 :
  m s = Ret (a, s1) -> succeeds (k a) s1 -> succeeds (m ≫= k) s.
Proof. intros E (b & s2 & E2). exists b, s2. unfold mbind, SC_bind. by rewrite E. Qed.

Lemma sc_zoom_eq {St St' A} (get : St -> St') (put : St -> St' -> St) (m : SC St' A) s a x :
  m (get s) = Ret (a, x) -> sc_zoom get put m s = Ret (a, put s x).
Proof. intros E. unfold sc_zoom. by rewrite E. Qed.

Lemma podInformer_total (x : CaelusContext C F) r :
  no_factories x -> GetKubeClient x = Ret r -> exists x', podInformer x = Ret (tt, x') /\ is_Some (kubeClient x') /\ nodeFactory x' = None.
Proof.
  intros [Hp Hn] E. destruct r as [cl x1]. destruct (GetKubeClient_keeps _ _ _ E) as (E1 & E2 & E3).
  unfold podInformer, GetPodFactory, mbind, SC_bind, outcome_bind. rewrite Hp, E. cbn. eexists. split; [done|]. cbn. split; [by eexists|congruence].
Qed.

Lemma nodeInformer_total (x : CaelusContext C F) :
  is_Some (kubeClient x) -> nodeFactory x = None -> exists x', nodeInformer x = Ret (tt, x') /\ is_Some (kubeClient x').
Proof.
  intros [cl Hk] Hn. unfold nodeInformer, GetNodeFactory, GetKubeClient, mbind, SC_bind, outcome_bind. rewrite Hn, Hk. cbn.
  eexists. split; [done|]. cbn. by eexists.
Qed.

Lemma node_client c t :
  node_ok t c -> nr_Disable c = false -> AvailableOfflineTaskType (OfflineType t) = true ->
  NewOfflineOnK8sManager c (if OfflineOnYarn t then OfflineYarnData else OfflineK8sData) = Ret (if OfflineOnYarn t then OnYarn else OnK8s).
Proof.
  intros Hok Hd Ht. destruct (Hok Hd) as (_ & _ & _ & Hty & _). unfold NewOfflineOnK8sManager, OfflineOnYarn in *. rewrite Hty.
  unfold AvailableOfflineTaskType in Ht. destruct (String.eqb_spec (OfflineType t) OfflineTypeOnk8s) as [->|]; [done|].
  by destruct (OfflineType t =? OfflineTypeYarnOnk8s)%string.
Qed.

Lemma NewPredictorOrDie_total cs : cs <> [] -> Forall config_ok cs -> exists p, NewPredictorOrDie (Q := Q) NewMovingAverage cs = Ret p.
Proof.
  intros Hne HF. destruct cs as [|c0 cs]; [done|]. destruct (newPredictors_total NewMovingAverage (c0 :: cs) HF) as (ps & E & _).
  eexists. unfold NewPredictorOrDie, mbind, outcome_bind. by rewrite E.
Qed.

Lemma alarm_total (a : AlarmConfig) ip :
  (exists m, Alarm.NewManager a ip = Ret m) <-> (Alarm.Enable a = true -> exists send, newChannel a = Ret send).
Proof.
  unfold Alarm.NewManager, mbind, outcome_bind. destruct (Alarm.Enable a); [|by split; [done|eexists]].
  destruct (newChannel a) as [send|]; [by split; eexists|]. split; [by intros [? ?]|]. intros H1. by destruct (H1 eq_refl).
Qed.

Lemma start_total (c : CaelusConfig) (l : launch) s w :
  config_wf (Q := Q) w c -> no_factories (s_ctx s) -> can_start c l s -> succeeds (initModules c l) s.
Proof.
  intros Hwf Hfresh [[r Hcl] Hal Hon Hqos Hcpi Hhealth]. destruct (wf_predicts _ _ Hwf) as [Hne Hpred].
  destruct (podInformer_total _ r Hfresh Hcl) as (x1 & E1 & Hk1 & Hn1). unfold initModules.
  eapply succeeds_bind; [by apply sc_zoom_eq|]. eapply succeeds_bind; [done|]. eapply succeeds_bind; [done|].
  set (s3 := loadStatsMetric _ _ _).
  assert (H3 : is_Some (kubeClient (s_ctx s3)) /\ nodeFactory (s_ctx s3) = None /\ devSpeedMap s3 = devSpeedMap s /\ s_world s3 = s_world s).
  { unfold s3, initCheckpoints. cbn [s_fs set_ctx]. by destruct (InitCheckpointManager (CheckPointDir c) (s_fs s)) as [[err cpm] fs]. }
  clearbody s3. destruct H3 as (Hk3 & Hn3 & Hsp3 & Hw3).
  destruct (NewPredictorOrDie_total _ Hne Hpred) as [p Hp]. eapply succeeds_bind; [unfold sc_of; by rewrite Hp|].
  assert (Hres : exists rm s5, (if negb (nr_Disable (NodeResource c)) then
      resourceData ← generateResourceManagerData c;
      client ← sc_of (NewOfflineOnK8sManager (NodeResource c) resourceData);
      let m := ModuleResource client (Name (ModulePredictor p (Name ModuleStateStore))) (Name ModuleStateStore) in
      _ ← sc_modify (MustRegister (Name m));
      mret (Some m)
    else mret None) s3 = Ret (rm, s5) /\ devSpeedMap s5 = devSpeedMap s /\ s_world s5 = s_world s).
  { destruct (nr_Disable (NodeResource c)) eqn:Ed; cbn [negb]; [by do 2 eexists|].
    destruct (nodeInformer_total _ Hk3 Hn3) as (x4 & E4 & [cl Hk4]).
    unfold generateResourceManagerData, mbind, SC_bind, in_ctx, sc_zoom. rewrite E4. cbn [s_ctx set_ctx].
    unfold GetKubeClient. rewrite Hk4. cbn. unfold sc_of.
    rewrite (node_client (NodeResource c) (TaskType c) (wf_node _ _ Hwf) Ed (proj2 (wf_types _ _ Hwf))). cbn. by do 2 eexists. }
  destruct Hres as (rm & s5 & E5 & Hsp5 & Hw5). eapply succeeds_bind; [exact E5|].
  destruct (proj2 (alarm_total (AlarmOf c) (NodeIP l)) Hal) as [a Ha]. eapply succeeds_bind; [unfold sc_of; by rewrite Ha|].
  assert (Hom : exists om, (if online_Enable l then
      w ← sc_get s_world;
      o ← sc_of (NewOnlineManager (on_BatchNum (OnlineOf c)) (l_jobs l) w);
      mret (Some (ModuleOnline o (Name ModuleStateStore)))
    else mret None) s5 = Ret (om, s5)).
  { destruct (online_Enable l); [|by eexists]. destruct (Hon eq_refl) as [o Ho]. unfold mbind, SC_bind, sc_get, sc_of. rewrite Hw5, Ho. by eexists. }
  destruct Hom as (om & Eom). eapply succeeds_bind; [exact Eom|].
  assert (Hqm : exists qm s6, (if negb (ri_Disable (ResourceIsolate c)) then
      hs ← in_speeds (NewQosK8sManager (ResourceIsolate c) (l_qos l));
      mret (Some (ModuleQos hs (Name ModuleStateStore) (Name (ModulePredictor p (Name ModuleStateStore))) (Name <$> om)))
    else mret None) s5 = Ret (qm, s6)).
  { destruct (ri_Disable (ResourceIsolate c)); cbn [negb]; [by do 2 eexists|]. destruct (Hqos eq_refl) as [[hs sp] Hhs].
    unfold mbind, SC_bind, in_speeds, sc_zoom. rewrite Hsp5, Hhs. by do 2 eexists. }
  destruct Hqm as (qm & s6 & E6). eapply succeeds_bind; [exact E6|].
  eapply succeeds_bind. { unfold sc_of. destruct (cpi_Enable l); [|done]. by rewrite Hcpi. }
  assert (Hdm : exists dm s7, (if quota_Enabled l then
      _ ← sc_modify (loadStatsMetric StatsMetricDiskQuota (Name ModuleDiskQuota));
      mret (Some ModuleDiskQuota)
    else mret None) s6 = Ret (dm, s7)) by (destruct (quota_Enabled l); by do 2 eexists).
  destruct Hdm as (dm & s7 & E7). eapply succeeds_bind; [exact E7|].
  destruct (Predicts c) as [|pc ps] eqn:Epc; [done|]. eapply succeeds_bind; [done|].
  destruct (Hhealth pc ps eq_refl) as [h Hh]. eapply succeeds_bind; [unfold sc_of; by rewrite Hh|]. by do 2 eexists.
Qed.


(** The modules are started in an order in which every module comes after all
    modules that it calls, and the context, which starts the informers, before
    all. *)
Theorem modules_start_after_their_uses (c : CaelusConfig) (l : launch) s ms s' i m u :
  no_factories (s_ctx s) -> initModules c l s = Ret (ms, s') ->
  (ModuleContext :: ms) !! i = Some m -> u ∈ uses m ->
  exists j m', (j < i)%nat /\ (ModuleContext :: ms) !! j = Some m' /\ Name m' = u.
Proof.
  intros Hfresh E. destruct (initModules_inv _ _ _ _ _ Hfresh E) as (p & r & a & o & q & h & pc & ps & -> & _). clear E.
  intros Hi Hu.
  assert (Hall : Forall (fun k => forall m, (ModuleContext :: modules_of p r a o q (quota_Enabled l) h) !! k = Some m ->
    Forall (fun u => exists j, (j < k)%nat /\ (Name <$> (ModuleContext :: modules_of p r a o q (quota_Enabled l) h) !! j) = Some u) (uses m))
    (seq 0 9)).
  { unfold modules_of. destruct r as [k|], o as [om|], q as [hs|], (quota_Enabled l); cbn;
      repeat (apply Forall_cons; split); try (by apply Forall_nil); intros m0 Hm0; cbn in Hm0; try done; injection Hm0 as <-; cbn;
      repeat (apply Forall_cons; split); try (by apply Forall_nil);
      first [by exists 1%nat; split; [lia|]|by exists 2%nat; split; [lia|]|by exists 3%nat; split; [lia|]|by exists 4%nat; split; [lia|]
            |by exists 5%nat; split; [lia|]|by exists 6%nat; split; [lia|]|by exists 7%nat; split; [lia|]]. }
  assert (Hlen : (i < 9)%nat).
  { apply lookup_lt_Some in Hi. revert Hi. unfold modules_of. destruct r, o, q, (quota_Enabled l); cbn; lia. }
  rewrite Forall_forall in Hall. specialize (Hall i ltac:(apply elem_of_seq; lia) m Hi). rewrite Forall_forall in Hall.
  destruct (Hall u Hu) as (j & Hj & Hn). exists j.
  destruct ((ModuleContext :: modules_of p r a o q (quota_Enabled l) h) !! j) as [m'|]; [|done]. injection Hn as Hn. by exists m'.
Qed.

(** The modules are started one after the other; after the context no start changes
    the informers. *)
Lemma startModules_log ms s log s' :
  Forall (fun m => m <> ModuleContext) ms -> startModules ms s = Ret (log, s') -> Forall (fun y => y.1 ∈ ms /\ y.2 = s_ctx s) log.
Proof.
  revert s log s'. induction ms as [|m ms IH]; intros s log s' HF E; cbn [startModules] in E; [by injection E as <- <-|].
  apply Forall_cons in HF as [Hm HF]. apply sc_bind_Ret in E as (x & s1 & Hx & E). injection Hx as <- <-.
  apply sc_bind_Ret in E as ([] & s3 & Hrun & E). apply sc_bind_Ret in E as (rest & s4 & Hrest & E). injection E as <- <-.
  assert (Hctx : s_ctx s3 = s_ctx s).
  { destruct m; cbn [run_module] in Hrun; try (by injection Hrun as <-). destruct (preInitAll _ _ _) as [[?|?] w']; [|done]. by injection Hrun as <-. }
  constructor; [split; [by left|done]|]. apply (IH _ _ _ HF) in Hrest. eapply Forall_impl; [exact Hrest|].
  intros y [Hy1 Hy2]. split; [by right|]. by rewrite Hy2.
Qed.

(** When a module starts, the informers whose stores it reads run and have
    filled their caches: all requests were made while the modules were made, and
    the context started them first. *)
Theorem informers_run_before_modules (c : CaelusConfig) (l : launch) s ms s' log s'' m x i :
  no_factories (s_ctx s) -> initModules c l s = Ret (ms, s') ->
  startModules (ModuleContext :: ms) s' = Ret (log, s'') ->
  (m, x) ∈ tail log -> i ∈ reads m -> informer_runs x i = true.
Proof.
  intros Hfresh E Hstart Hin Hi. destruct (initModules_inv _ _ _ _ _ Hfresh E) as (p & r & a & o & q & h & pc & ps & -> & _ & Hr & _ & _ & _ & _ & _ & _ & _ & Hph).
  destruct Hph as (_ & [(f & Hf & Hreq) Hnodes] & _). cbn [startModules] in Hstart. apply sc_bind_Ret in Hstart as (x0 & s1 & Hx0 & Hstart). injection Hx0 as <- <-.
  apply sc_bind_Ret in Hstart as ([] & s1 & Hrun & Hstart). injection Hrun as <-.
  apply sc_bind_Ret in Hstart as (rest & s2 & Hrest & Hstart). injection Hstart as <- <-. cbn [tail] in Hin.
  apply startModules_log in Hrest; [|by unfold modules_of; destruct r, o, q, (quota_Enabled l); repeat constructor].
  rewrite Forall_forall in Hrest. destruct (Hrest _ Hin) as [Hm Hx]. cbn [fst snd] in Hm, Hx. subst x.
  cbn [s_ctx set_ctx]. unfold informer_runs, context_Run.
  destruct i; cbn; [rewrite Hf; cbn; by rewrite start_synced|].
  assert (Hres : is_Some r).
  { destruct r; [by eexists|]. exfalso.
    assert (HF : Forall (fun m => bool_decide (Nodes ∈ reads m) = false) (modules_of p None a o q (quota_Enabled l) h))
      by (unfold modules_of; destruct o, q, (quota_Enabled l); repeat constructor).
    rewrite Forall_forall in HF. specialize (HF m Hm). by apply bool_decide_eq_false in HF. }
  rewrite Hr in Hres. destruct (nr_Disable (NodeResource c)); [by destruct Hres|]. destruct Hnodes as (g & Hg & Hgr). rewrite Hg. cbn.
  by rewrite start_synced.
Qed.

(** With the node resource disabled there is no resource manager, which the
    dispatcher and the alarms allow for; the notifiers of memory do not, and the
    first window of pressure that fills ends the agent. *)
Theorem pressure_without_resource_panics (c : CaelusConfig) (l : launch) s ms s' h st r q {R : Type} (Kill : string -> R -> R) (impl : R) dur minCount es :
  no_factories (s_ctx s) -> initModules c l s = Ret (ms, s') -> ModuleHealth h st r q ∈ ms ->
  existsb id (pressureEvents dur minCount pressure_start es).2 = true ->
  (pressure_handler Kill ((fun _ => impl) <$> r) dur minCount es = Crash (Panic "nil pointer dereference") <->
   nr_Disable (NodeResource c) = true).
Proof.
  intros Hfresh E Hin Hcalled. destruct (initModules_inv _ _ _ _ _ Hfresh E) as (p & k & a & o & qs & h' & pc & ps & -> & _ & Hk & _).
  assert (Hr : r = match k with Some _ => Some "ModuleResourceOnK8s" | None => None end).
  { revert Hin. unfold modules_of. destruct k, o, qs, (quota_Enabled l); cbn; rewrite ?elem_of_cons, elem_of_nil; intros Hm; destruct_or! Hm; by inversion Hm. }
  unfold pressure_handler. rewrite Hr, Hk. destruct (nr_Disable (NodeResource c)); cbn [fmap option_fmap option_map].
  - rewrite handle_calls_nil, Hcalled. done.
  - rewrite handle_calls_some. done.
Qed.

(** Nothing at the start depends on the directory of the checkpoints: when it
    cannot be made, the same modules are started, and the first change of the
    schedule, which saves its state, panics. *)
Theorem missing_directory_unnoticed (c : CaelusConfig) (l : launch) s ms s' e {T : Type} {DT : Document T} key (obj : T) fs :
  no_factories (s_ctx s) -> initModules c l s = Ret (ms, s') ->
  (NewCheckpointManager (CheckPointDir c) (s_fs s)).1 = Some e ->
  Save (s_cpm s') key obj fs = Crash (Panic "nil pointer dereference").
Proof.
  intros Hfresh E He. destruct (initModules_inv _ _ _ _ _ Hfresh E) as (p & k & a & o & qs & h' & pc & ps & _ & _ & _ & _ & _ & _ & _ & _ & _ & _ & Hph).
  destruct Hph as (_ & _ & _ & Hc). rewrite Hc. unfold InitCheckpointManager.
  destruct (NewCheckpointManager (CheckPointDir c) (s_fs s)) as [err fs']. cbn in He. by subst err.
Qed.

Lemma startModules_stats ms s log s' : startModules ms s = Ret (log, s') -> statsMetric s' = statsMetric s.
Proof.
  revert s log s'. induction ms as [|m ms IH]; intros s log s' E; cbn [startModules] in E; [by injection E as <- <-|].
  apply sc_bind_Ret in E as (x & s1 & Hx & E). injection Hx as <- <-.
  apply sc_bind_Ret in E as ([] & s3 & Hrun & E). apply sc_bind_Ret in E as (rest' & s4 & Hrest & E). injection E as <- <-.
  rewrite (IH _ _ _ Hrest).
  destruct m; cbn [run_module] in Hrun; try (by injection Hrun as <-). destruct (preInitAll _ _ _) as [[?|?] w']; [|done]. by injection Hrun as <-.
Qed.

(** An agent whose modules are made and started serves its metrics or reports
    why it cannot listen: the store that the metrics of servers assert is there,
    in whichever parts are enabled. *)
Theorem started_agent_serves (o : options) s nodeName c w1 ms s2 log s3 :
  (if (slen (HostnameOverride o) =? 0) then os_Hostname o else Ok (HostnameOverride o)) = Ok nodeName ->
  parse o (s_world s) = Ret (Ok c, w1) ->
  initModules c (o_launch o (if MatchIP o nodeName then nodeName else InsecureAddress o))
    (mkServer (mkContext (o_Master o) (o_Kubeconfig o) nodeName None None None) (devSpeedMap s) w1 ∅ [] (s_cpm s) (s_fs s)) = Ret (ms, s2) ->
  startModules (ModuleContext :: ms) s2 = Ret (log, s3) ->
  exists s4, Run o s = Ret ((match o_listen o with Some e => Some ("listen err: " +:+ e) | None => None end, log), s4) /\
    map fst log = ModuleContext :: ms /\ registry s4 = registry s3 ++ ["total metrics"; "textfile"; "server request"; "prometheus collector"].
Proof.
  intros Hname Hparse Hinit Hstart. pose proof Hinit as Hinv. apply initModules_inv in Hinv; [|done].
  destruct Hinv as (p & k & a & om & qs & h' & pc & ps & _ & _ & _ & _ & _ & _ & _ & _ & _ & _ & (_ & _ & Hst & _)).
  unfold Run. rewrite Hname. unfold mbind at 1, SC_bind at 1, sc_zoom at 1. rewrite Hparse.
  unfold mbind at 1, SC_bind at 1, sc_modify at 1. cbn [s_ctx devSpeedMap s_world statsMetric registry s_cpm s_fs set_world].
  unfold mbind at 1, SC_bind at 1. rewrite Hinit. unfold mbind at 1, SC_bind at 1. rewrite Hstart.
  unfold RegisterServer, mbind, SC_bind, sc_modify, sc_get, sc_of. cbn -[Name].
  rewrite (startModules_stats _ _ _ _ Hstart), Hst. cbn. eexists. split; [done|]. split; [|cbn [registry set_ctx MustRegister]]. 2: by rewrite <- !List.app_assoc.
  clear -Hstart. revert s2 log s3 Hstart. generalize (ModuleContext :: ms). intros l0. induction l0 as [|m l0 IH]; intros s2 log s3 E; cbn [startModules] in E.
  { by injection E as <- <-. }
  apply sc_bind_Ret in E as (x & s1 & _ & E). apply sc_bind_Ret in E as ([] & s5 & _ & E). apply sc_bind_Ret in E as (rest' & s4 & Hrest & E).
  injection E as <- <-. cbn. f_equal. by eapply IH.
Qed.
End Server.

(** ** Witness *)

(** A client (whether it is the one of the cluster), and factories as the informers
    that were requested and that run, of pods and of nodes. *)
#[local] Instance ex_kube : KubeLib bool ((bool * bool) * (bool * bool)).
Proof.
  refine {|
    RestConfig := unit;
    BuildConfigFromFlags := fun _ kubeconfig => if (kubeconfig =? "")%string then Err "invalid configuration" else Ok tt;
    NewForConfigOrDie := fun _ => Ret true;
    NewSimpleClientset := false;
    NewSharedInformerFactory := fun _ _ => ((false, false), (false, false));
    Informer := fun i f => match i with Pods => ((true, f.1.2), f.2) | Nodes => ((f.1.1, true), f.2) end;
    factory_Start := fun f => (f.1, f.1);
    requested := fun f i => match i with Pods => f.1.1 | Nodes => f.1.2 end;
    synced := fun f i => match i with Pods => f.2.1 | Nodes => f.2.2 end |}.
  - by intros _ _ [|].
  - by intros [|] [|] [[[|] [|]] ?].
  - done.
Defined.

#[local] Existing Instance key_order.
#[local] Existing Instance ex_env.
#[local] Existing Instance ex_vpa_lib.
#[local] Existing Instance ex_checkpoints.

(** The configuration of the example of Config.v, with an executor for the alarms. *)
Definition ex_raw_config : CaelusConfig :=
  let a := AlarmOf ex_caelus in
  mkCaelus (KubeletRootDir ex_caelus) (CheckPointDir ex_caelus) (TaskType ex_caelus) (NodeResource ex_caelus) (Predicts ex_caelus) (Metrics ex_caelus)
    (ResourceIsolate ex_caelus) (CpiManager ex_caelus)
    (mkAlarmConfig (Alarm.Enable a) (Cluster a) (MessageBatch a) (MessageDelay a) (ChannelName a) (IgnoreAlarmWhenSilence a) (Some "/bin/alarm") None)
    (OnlineOf ex_caelus) (DiskQuotaOf ex_caelus).

Definition ex_parsed : outcome (CaelusConfig * world) :=
  initJsonConfig (CF := ex_config_env) (Q := Z) (ME := ex_machine) ∅ true ex_raw_config ex_config_world.
Definition ex_config : CaelusConfig := match ex_parsed with Ret (c, _) => c | Crash _ => ex_raw_config end.

(** The same with the node resource disabled. *)
Definition ex_disabled : CaelusConfig :=
  let n := NodeResource ex_config in
  mkCaelus (KubeletRootDir ex_config) (CheckPointDir ex_config) (TaskType ex_config)
    (mkNodeResource true (UpdateInterval n) (nr_OfflineType n) (NMServer n) (ScheduleServerPort n) (nr_YarnConfig n) (SpaceCheckPeriod n) (Periods n))
    (Predicts ex_config) (Metrics ex_config) (ResourceIsolate ex_config) (CpiManager ex_config) (AlarmOf ex_config) (OnlineOf ex_config)
    (DiskQuotaOf ex_config).
Definition ex_launch (ip : string) : launch := mkLaunch true true true ex_options [mkOnlineJob "j" "cmd"] (fun _ => None) ip.
Definition ex_context : CaelusContext bool ((bool * bool) * (bool * bool)) := mkContext "" "/etc/kubeconfig" "node" None None None.
Definition ex_server : server (C := bool) (F := (bool * bool) * (bool * bool)) (FS := gmap (string * string) string) :=
  mkServer ex_context ∅ ex_node ∅ [] None ∅.

#[local] Existing Instance ex_machine.
#[local] Existing Instance ex_whole.

Definition ex_health_func (node : MetricsNodeConfig) (reserve : Resource) : result string -> outcome (result HealthCheckConfig) := ex_config_func.
Definition ex_init (c : CaelusConfig) : SC (server (C := bool) (F := (bool * bool) * (bool * bool)) (FS := gmap (string * string) string)) (list (module (Q := Z))) :=
  initModules (KL := ex_kube) ex_average (fun x => x) ex_health_func (Ok "all") (Ok "all") c (ex_launch "10.0.0.1").

Definition ex_names : list string :=
  ["ModuleStateStore"; "ModulePredictor"; "ModuleResourceOnK8s"; "ModuleAlarm"; "ModuleOnline"; "ModuleQosK8s"; "ModuleDiskQuota"; "ModuleHealthCheck"].

Lemma ex_init_names : exists ms s', ex_init ex_config ex_server = Ret (ms, s') /\ map Name ms = ex_names.
Proof.
  assert (E : match ex_init ex_config ex_server with Ret (ms, _) => map Name ms | Crash _ => [] end = ex_names) by (vm_compute; reflexivity).
  destruct (ex_init ex_config ex_server) as [[ms s']|]; [|discriminate E]. by exists ms, s'.
Qed.


Lemma modules_start_after_their_uses_witness : exists ms s' m j m',
  ex_init ex_config ex_server = Ret (ms, s') /\ (ModuleContext :: ms) !! 8%nat = Some m /\ Name m = "ModuleHealthCheck" /\
  (j < 8)%nat /\ (ModuleContext :: ms) !! j = Some m' /\ Name m' = "ModuleQosK8s".
Proof.
  assert (H : match ex_init ex_config ex_server with
              | Ret (ms, _) => match (ModuleContext :: ms) !! 8%nat with Some m => (Name m, bool_decide ("ModuleQosK8s" ∈ uses m)) | None => ("", false) end
              | Crash _ => ("", false)
              end = ("ModuleHealthCheck", true)) by (vm_compute; reflexivity).
  destruct (ex_init ex_config ex_server) as [[ms s']|] eqn:E; [|discriminate H].
  destruct ((ModuleContext :: ms) !! 8%nat) as [m|] eqn:Em; [|discriminate H]. injection H as Hn Hu. apply bool_decide_eq_true in Hu.
  destruct (modules_start_after_their_uses (KL := ex_kube) ex_average (fun x => x) ex_health_func (Ok "all") (Ok "all") ex_config (ex_launch "10.0.0.1")
    ex_server ms s' 8 m "ModuleQosK8s") as (j & m' & Hj & Hm' & Hn'); [split; reflexivity|exact E|exact Em|exact Hu|].
  by exists ms, s', m, j, m'.
Defined.

(** The resource manager of YARN reads the pods. *)
Lemma informers_run_before_modules_witness : exists ms s' log s'' m x,
  ex_init ex_config ex_server = Ret (ms, s') /\ startModules (KL := ex_kube) None (ModuleContext :: ms) s' = Ret (log, s'') /\
  (m, x) ∈ tail log /\ Name m = "ModuleResourceOnK8s" /\ informer_runs x Pods = true.
Proof.
  assert (H : match ex_init ex_config ex_server with
              | Ret (ms, s') =>
                  match startModules (KL := ex_kube) None (ModuleContext :: ms) s' with
                  | Ret (log, _) => match tail log !! 2%nat with Some y => (Name y.1, bool_decide (Pods ∈ reads y.1)) | None => ("", false) end
                  | Crash _ => ("", false)
                  end
              | Crash _ => ("", false)
              end = ("ModuleResourceOnK8s", true)) by (vm_compute; reflexivity).
  destruct (ex_init ex_config ex_server) as [[ms s']|] eqn:E; [|discriminate H].
  destruct (startModules (KL := ex_kube) None (ModuleContext :: ms) s') as [[log s'']|] eqn:El; [|discriminate H].
  destruct (tail log !! 2%nat) as [[m x]|] eqn:Em; [|discriminate H]. cbn [fst] in H. injection H as Hn Hr. apply bool_decide_eq_true in Hr.
  apply list_elem_of_lookup_2 in Em. exists ms, s', log, s'', m, x. split_and!; [done|done|exact Em|exact Hn|].
  exact (informers_run_before_modules (KL := ex_kube) ex_average None (fun x => x) ex_health_func (Ok "all") (Ok "all") ex_config (ex_launch "10.0.0.1")
    ex_server ms s' log s'' m x Pods (conj eq_refl eq_refl) E El Em Hr).
Defined.

(** Three signals within the window of pressure. *)
Lemma pressure_without_resource_panics_witness : exists ms s' h st r q,
  ex_init ex_disabled ex_server = Ret (ms, s') /\ ModuleHealth h st r q ∈ ms /\
  pressure_handler (fun r n => S n) ((fun _ => 0%nat) <$> r) 10 3 (map ex_signal [0; 4; 12]) = Crash (Panic "nil pointer dereference").
Proof.
  assert (H : match ex_init ex_disabled ex_server with
              | Ret (ms, _) => match last ms with Some (ModuleHealth h st r q) => true | _ => false end
              | Crash _ => false
              end = true) by (vm_compute; reflexivity).
  destruct (ex_init ex_disabled ex_server) as [[ms s']|] eqn:E; [|discriminate H].
  destruct (last ms) as [m|] eqn:El; [|discriminate H]. destruct m as [ | | | | | | | |h st r q]; try discriminate H.
  apply last_Some_elem_of in El. exists ms, s', h, st, r, q. split_and!; [done|exact El|].
  apply (pressure_without_resource_panics (KL := ex_kube) ex_average (fun x => x) ex_health_func (Ok "all") (Ok "all") ex_disabled (ex_launch "10.0.0.1")
    ex_server ms s' h st r q (fun r n => S n) 0%nat 10 3 (map ex_signal [0; 4; 12]) (conj eq_refl eq_refl) E El); vm_compute; reflexivity.
Defined.

(** The checkpoints in a directory that cannot be made. *)
Definition ex_no_directory : CaelusConfig :=
  mkCaelus (KubeletRootDir ex_config) "/" (TaskType ex_config) (NodeResource ex_config) (Predicts ex_config) (Metrics ex_config)
    (ResourceIsolate ex_config) (CpiManager ex_config) (AlarmOf ex_config) (OnlineOf ex_config) (DiskQuotaOf ex_config).

Lemma missing_directory_unnoticed_witness : exists ms s',
  ex_init ex_no_directory ex_server = Ret (ms, s') /\ map Name ms = ex_names /\
  Save (s_cpm s') nodeResourceKey (1000, true) (∅ : ex_files) = Crash (Panic "nil pointer dereference").
Proof.
  assert (H : match ex_init ex_no_directory ex_server with Ret (ms, _) => map Name ms | Crash _ => [] end = ex_names) by (vm_compute; reflexivity).
  destruct (ex_init ex_no_directory ex_server) as [[ms s']|] eqn:E; [|discriminate H]. exists ms, s'. split_and!; [done|exact H|].
  exact (missing_directory_unnoticed (KL := ex_kube) ex_average (fun x => x) ex_health_func (Ok "all") (Ok "all") ex_no_directory (ex_launch "10.0.0.1")
    ex_server ms s' "permission denied" nodeResourceKey (1000, true) ∅ (conj eq_refl eq_refl) E eq_refl).
Defined.

(** The port is in use. *)
Definition ex_run_options : options :=
  mkOptions "" (Ok "node") (fun _ => false) "" "/etc/kubeconfig" "127.0.0.1" (fun w => Ret (Ok ex_config, w)) ex_launch (Some "address already in use").

Lemma started_agent_serves_witness : exists log s4,
  Run (Q := Z) (KL := ex_kube) ex_average None (fun x => x) ex_health_func (Ok "all") (Ok "all") ex_run_options ex_server =
    Ret ((Some "listen err: address already in use", log), s4) /\
  map (Name (Q := Z)) (map fst log) = "ModuleContext" :: ex_names.
Proof.
  set (s1 := mkServer (mkContext "" "/etc/kubeconfig" "node" None None None) ∅ ex_node ∅ [] None ∅ : server (C := bool) (F := (bool * bool) * (bool * bool)) (FS := ex_files)).
  set (init := initModules (Q := Z) (KL := ex_kube) ex_average (fun x => x) ex_health_func (Ok "all") (Ok "all") ex_config (ex_launch "127.0.0.1") s1).
  assert (H : match init with
              | Ret (ms, s') => match startModules (KL := ex_kube) None (ModuleContext :: ms) s' with Ret _ => map Name ms | Crash _ => [] end
              | Crash _ => []
              end = ex_names) by (vm_compute; reflexivity).
  destruct init as [[ms s2]|] eqn:E; [|discriminate H].
  destruct (startModules (KL := ex_kube) None (ModuleContext :: ms) s2) as [[log s3]|] eqn:El; [|discriminate H].
  destruct (started_agent_serves (KL := ex_kube) ex_average None (fun x => x) ex_health_func (Ok "all") (Ok "all") ex_run_options ex_server "node" ex_config
    ex_node ms s2 log s3 eq_refl eq_refl E El) as (s4 & Hrun & Hlog & _).
  exists log, s4. split; [exact Hrun|]. rewrite Hlog. cbn [map]. by rewrite H.
Defined.
