(* ===== verification/ReverseProxy.v ===== *)
(** * The reverse proxy of lighthouse

    contrib/lighthouse/pkg/httputil/proxy.go, which lighthouse uses to pass
    requests on to the container runtime, and newReverseProxy of
    contrib/lighthouse/pkg/hook/proxy.go.  It is a version of the proxy of Go's
    library, changed to keep the streams of docker open when one side ends.
    Headers are maps from keys to slices, where [None] is the nil slice; the client
    side is a [writer], whose events are recorded in their order.  [ProxyEnv] holds
    the transport, the connections and the order in which timers run.  Logs and
    the cancellation of the request when the client goes away (which the transport
    sees) are left out. *)

From Stdlib Require Import Ascii.
From S2P Require Import Prelude GoStrings Lighthouse.

#[local] Open Scope string_scope.
#[local] Open Scope Z_scope.
#[local] Open Scope list_scope.

(** ** http.Header *)

Definition Header : Type := gmap string (option (list string)).

Definition slice {A} (s : option (list A)) : list A := default [] s.

(** [h[k]] without making [k] canonical. *)
Definition header_values (h : Header) (k : string) : list string := slice (mjoin (h !! k)).

Definition upper_char (c : ascii) : ascii :=
  let n := nat_of_ascii c in if (97 <=? n)%nat && (n <=? 122)%nat then ascii_of_nat (n - 32) else c.

(** The bytes of a token of RFC 7230. *)
Definition validHeaderFieldByte (c : ascii) : bool :=
  let n := nat_of_ascii c in
  ((48 <=? n) && (n <=? 57) || (65 <=? n) && (n <=? 90) || (94 <=? n) && (n <=? 122))%nat
  || bool_decide (n ∈ [33; 35; 36; 37; 38; 39; 42; 43; 45; 46; 124; 126]%nat).

Fixpoint canonical_from (upper : bool) (s : string) : string :=
  match s with
  | EmptyString => ""
  | String c s' => String (if upper then upper_char c else lower_char c) (canonical_from (Ascii.eqb c "-") s')
  end.

Fixpoint all_bytes (f : ascii -> bool) (s : string) : bool :=
  match s with EmptyString => true | String c s' => f c && all_bytes f s' end.

(** [textproto.CanonicalMIMEHeaderKey]. *)
Definition CanonicalMIMEHeaderKey (s : string) : string :=
  if all_bytes validHeaderFieldByte s then canonical_from true s else s.

Definition header_Add (h : Header) (k v : string) : Header :=
  let key := CanonicalMIMEHeaderKey k in <[key := Some (header_values h key ++ [v])]> h.
Definition header_Set (h : Header) (k v : string) : Header := <[CanonicalMIMEHeaderKey k := Some [v]]> h.
Definition header_Get (h : Header) (k : string) : string := hd "" (header_values h (CanonicalMIMEHeaderKey k)).
Definition header_Del (h : Header) (k : string) : Header := delete (CanonicalMIMEHeaderKey k) h.

Example canonical_keys :
  map CanonicalMIMEHeaderKey ["x-forwarded-FOR"; "Te"; "a b-c"; ""; "Trailer:etag"] = ["X-Forwarded-For"; "Te"; "a b-c"; ""; "Trailer:etag"].
Proof. vm_compute. reflexivity. Qed.

(** [textproto.TrimString]. *)
Definition is_ascii_space (c : ascii) : bool := bool_decide (nat_of_ascii c ∈ [32; 9; 10; 13]%nat).

Fixpoint trim_left_ascii (s : string) : string :=
  match s with
  | String c s' => if is_ascii_space c then trim_left_ascii s' else s
  | EmptyString => ""
  end.

Definition TrimString (s : string) : string := rev_string (trim_left_ascii (rev_string (trim_left_ascii s) "")) "".

(** [net.SplitHostPort]: the host. *)
Fixpoint IndexByte (s : string) (c : ascii) : option nat :=
  match s with
  | EmptyString => None
  | String d s' => if Ascii.eqb d c then Some 0%nat else S <$> IndexByte s' c
  end.

Fixpoint LastIndexByte (s : string) (c : ascii) : option nat :=
  match s with
  | EmptyString => None
  | String d s' => match LastIndexByte s' c with
                   | Some i => Some (S i)
                   | None => if Ascii.eqb d c then Some 0%nat else None
                   end
  end.

Definition has_byte (s : string) (c : ascii) : bool := bool_decide (is_Some (IndexByte s c)).

Definition SplitHostPort (hostport : string) : result string :=
  match LastIndexByte hostport ":" with
  | None => Err "missing port in address"
  | Some i =>
      if HasPrefix hostport "[" then
        match IndexByte hostport "]" with
        | None => Err "missing ']' in address"
        | Some e =>
            if (S e =? String.length hostport)%nat then Err "missing port in address"
            else if (S e =? i)%nat then
              if has_byte (drop_string 1 hostport) "[" then Err "unexpected '[' in address"
              else if has_byte (drop_string (S e) hostport) "]" then Err "unexpected ']' in address"
              else Ok (String.substring 1 (e - 1) hostport)
            else if HasPrefix (drop_string (S e) hostport) ":" then Err "too many colons in address"
            else Err "missing port in address"
        end
      else
        let host := String.substring 0 i hostport in
        if has_byte host ":" then Err "too many colons in address"
        else if has_byte hostport "[" then Err "unexpected '[' in address"
        else if has_byte hostport "]" then Err "unexpected ']' in address"
        else Ok host
  end.

Example split_examples :
  map SplitHostPort ["10.0.0.1:80"; "[::1]:80"; "@"; "::1:80"; "[::1]x:80"] =
    [Ok "10.0.0.1"; Ok "::1"; Err "missing port in address"; Err "too many colons in address"; Err "missing port in address"].
Proof. vm_compute. reflexivity. Qed.

(** ** Requests and responses *)

Record outgoing := mkOutgoing {
  og_Method : string;
  og_Scheme : string;
  og_Host : string;
  og_Path : string;
  (** [None] is the nil map. *)
  og_Header : option Header;
  og_Body : option string;
  og_ContentLength : Z;
  og_Close : bool;
  og_RemoteAddr : string;
}.

Inductive read_error := EOF | Canceled | ReadFailed (e : error).

(** The reads of a body up to its first error; after them, [EOF]. *)
Definition body : Type := list (string * option read_error).

Record reply := mkReply {
  rp_StatusCode : Z;
  rp_Header : Header;
  (** The announced trailers, and those after the body is closed. *)
  rp_Trailer : Header;
  rp_FinalTrailer : Header;
  rp_Body : body;
  (** The body is a connection that can be written. *)
  rp_Conn : bool;
}.

Definition set_rp_Header (h : Header) (r : reply) : reply :=
  mkReply (rp_StatusCode r) h (rp_Trailer r) (rp_FinalTrailer r) (rp_Body r) (rp_Conn r).

(** What happens on the connection of the client. *)
Inductive wevent :=
| WroteHeader (code : Z) (h : Header)
| Wrote (data : string) (n : Z)
| Flushed
| Switched (code : Z) (h : Header).

Record writer := mkWriter {
  w_Header : Header;
  w_events : list wevent;
  is_Flusher : bool;
  is_Hijacker : bool;
}.

Definition log_event (e : wevent) (w : writer) : writer := mkWriter (w_Header w) (w_events w ++ [e]) (is_Flusher w) (is_Hijacker w).
Definition set_w_Header (h : Header) (w : writer) : writer := mkWriter h (w_events w) (is_Flusher w) (is_Hijacker w).
Definition WriteHeader (code : Z) (w : writer) : writer := log_event (WroteHeader code (w_Header w)) w.

(** What a timer can do in another goroutine: expire, or run its function. *)
Inductive tick := Expire | RunFlush.

Class ProxyEnv := {
  RoundTrip : outgoing -> result reply;
  (** httpguts: one of the values has the token, in any case. *)
  HeaderValuesContainsToken : list string -> string -> bool;
  (** How much of a write is taken, after the events so far. *)
  write_answer : list wevent -> string -> Z * option error;
  (** What the timer does before the next step of the handler takes the mutex. *)
  ticks : list wevent -> list tick;
  (** Taking over the connection, writing the response and flushing it. *)
  Hijack : option error;
  response_Write : option error;
  response_Flush : option error;
  (** The handler runs under a server, which recovers its panics. *)
  under_server : bool;
}.

Record ReverseProxy := mkProxy {
  Director : outgoing -> outgoing;
  FlushInterval : duration;
  (** The response as the hook leaves it, with its error. *)
  ModifyResponse : option (reply -> reply * option error);
  ErrorHandler : option (writer -> outgoing -> error -> writer);
}.

(** ** Headers on their way *)

Section Proxy.
Context {RO : RangeOrder} {PE : ProxyEnv}.

Definition copyHeader (dst src : Header) : Header :=
  fold_left (fun d '(k, vv) => fold_left (fun d v => header_Add d k v) (slice vv) d) (range_map "copyHeader" src) dst.

Definition hopHeaders : list string :=
  ["Connection"; "Proxy-Connection"; "Keep-Alive"; "Proxy-Authenticate"; "Proxy-Authorization"; "Te"; "Trailer";
   "Transfer-Encoding"; "Upgrade"].

Definition upgradeType (h : Header) : string :=
  if negb (HeaderValuesContainsToken (header_values h "Connection") "Upgrade") then ""
  else ToLower (header_Get h "Upgrade").

Definition removeConnectionHeaders (h : Header) : Header :=
  fold_left (fun h f =>
    fold_left (fun h sf => let sf := TrimString sf in if (sf =? "")%string then h else header_Del h sf) (Split f ",") h)
    (header_values h "Connection") h.

(** The loop over [hopHeaders] for a request. *)
Definition remove_hop (h : Header) (k : string) : Header :=
  let hv := header_Get h k in
  if (hv =? "")%string then h
  else if (k =? "Te")%string && (hv =? "trailers")%string then h
  else header_Del h k.

(** [X-Forwarded-For] of a header that may already have it. *)
Definition forwarded_for (h : Header) (remoteAddr : string) : Header :=
  match SplitHostPort remoteAddr with
  | Err _ => h
  | Ok clientIP =>
      let prior := h !! "X-Forwarded-For" in
      let omit := bool_decide (prior = Some None) in
      let prior := slice (mjoin prior) in
      let clientIP := if (0 <? length prior)%nat then Join prior ", " +:+ ", " +:+ clientIP else clientIP in
      if omit then h else header_Set h "X-Forwarded-For" clientIP
  end.

Definition set_out (h : Header) (b : option string) (close : bool) (r : outgoing) : outgoing :=
  mkOutgoing (og_Method r) (og_Scheme r) (og_Host r) (og_Path r) (Some h) b (og_ContentLength r) close (og_RemoteAddr r).

(** A clone of the request with an allocated header. *)
Definition clone_request (req : outgoing) : outgoing :=
  set_out (default ∅ (og_Header req)) (if og_ContentLength req =? 0 then None else og_Body req) (og_Close req) req.

Definition generateOutRequest (p : ReverseProxy) (req : outgoing) : outgoing :=
  let outreq := Director p (clone_request req) in
  let h := default ∅ (og_Header outreq) in
  let reqUpType := upgradeType h in
  let h := removeConnectionHeaders h in
  let h := fold_left remove_hop hopHeaders h in
  let h := if negb (reqUpType =? "")%string then header_Set (header_Set h "Connection" "Upgrade") "Upgrade" reqUpType else h in
  let h := forwarded_for h (og_RemoteAddr req) in
  set_out h (og_Body outreq) false outreq.

(** ** The writer of a streamed body *)

Record maxLatencyWriter := mkLatency {
  latency : duration;
  (** [None] without a timer; whether it is armed. *)
  m_t : option bool;
  flushPending : bool;
  (** Runs of [delayedFlush] that an expired timer started and that wait for the mutex. *)
  started : nat;
}.

Record dest := mkDest { d_w : writer; d_m : option maxLatencyWriter }.

Definition raw_Write (data : string) (w : writer) : (Z * option error) * writer :=
  let '(n, err) := write_answer (w_events w) data in ((n, err), log_event (Wrote data n) w).

Definition delayedFlush (m : maxLatencyWriter) (w : writer) : maxLatencyWriter * writer :=
  if negb (flushPending m) then (m, w)
  else (mkLatency (latency m) (m_t m) false (started m), log_event Flushed w).

Definition do_tick (m : maxLatencyWriter) (w : writer) (t : tick) : maxLatencyWriter * writer :=
  match t with
  | Expire => match m_t m with
              | Some true => (mkLatency (latency m) (Some false) (flushPending m) (S (started m)), w)
              | _ => (m, w)
              end
  | RunFlush => match started m with
                | O => (m, w)
                | S n => delayedFlush (mkLatency (latency m) (m_t m) (flushPending m) n) w
                end
  end.

Definition run_ticks (m : maxLatencyWriter) (w : writer) (ts : list tick) : maxLatencyWriter * writer :=
  fold_left (fun '(m, w) t => do_tick m w t) ts (m, w).

Definition latency_Write (data : string) (m : maxLatencyWriter) (w : writer) :
    (Z * option error) * (maxLatencyWriter * writer) :=
  let '(r, w) := raw_Write data w in
  if latency m <? 0 then (r, (m, log_event Flushed w))
  else if flushPending m then (r, (m, w))
  else (r, (mkLatency (latency m) (Some true) true (started m), w)).

Definition latency_stop (m : maxLatencyWriter) : maxLatencyWriter :=
  mkLatency (latency m) (match m_t m with Some _ => Some false | None => None end) false (started m).

(** [dst.Write], before which the timer may have run. *)
Definition dest_Write (data : string) (d : dest) : (Z * option error) * dest :=
  match d_m d with
  | None => let '(r, w) := raw_Write data (d_w d) in (r, mkDest w None)
  | Some m =>
      let '(m, w) := run_ticks m (d_w d) (ticks (w_events (d_w d))) in
      let '(r, (m, w)) := latency_Write data m w in (r, mkDest w (Some m))
  end.

Definition ErrShortWrite : error := "short write".
Definition read_error_text (e : read_error) : error :=
  match e with EOF => "EOF" | Canceled => "context canceled" | ReadFailed e => e end.

(** The number of bytes written and the error. *)
Fixpoint copyBuffer (src : body) (d : dest) (written : Z) : (Z * option error) * dest :=
  match src with
  | [] => ((written, None), d)
  | (data, rerr) :: src' =>
      let after written d :=
        match rerr with
        | None => copyBuffer src' d written
        | Some EOF => ((written, None), d)
        | Some e => ((written, Some (read_error_text e)), d)
        end in
      if 0 <? slen data then
        let '((nw, werr), d) := dest_Write data d in
        let written := if 0 <? nw then int64 (written + nw) else written in
        match werr with
        | Some e => ((written, Some e), d)
        | None => if negb (slen data =? nw) then ((written, Some ErrShortWrite), d) else after written d
        end
      else after written d
  end.

(** The deferred [stop] comes after the last step of the timer. *)
Definition copyResponse (w : writer) (src : body) (flushInterval : duration) : option error * writer :=
  let d := if negb (flushInterval =? 0) && is_Flusher w then mkDest w (Some (mkLatency flushInterval (Some true) true 0))
           else mkDest w None in
  let '((_, err), d) := copyBuffer src d 0 in
  match d_m d with
  | None => (err, d_w d)
  | Some m => (err, (run_ticks m (d_w d) (ticks (w_events (d_w d)))).2)
  end.

Definition flushInterval (p : ReverseProxy) (res : reply) : duration :=
  if (header_Get (rp_Header res) "Content-Type" =? "text/event-stream")%string then -1 else FlushInterval p.

(** ** A request *)

Definition StatusBadGateway : Z := 502.
Definition StatusSwitchingProtocols : Z := 101.

Definition defaultErrorHandler (rw : writer) (_ : outgoing) (_ : error) : writer := WriteHeader StatusBadGateway rw.
Definition getErrorHandler (p : ReverseProxy) : writer -> outgoing -> error -> writer := default defaultErrorHandler (ErrorHandler p).

(** The response when the request goes on, the answered client when it does not. *)
Definition modifyResponse (p : ReverseProxy) (rw : writer) (res : reply) (req : outgoing) : reply + writer :=
  match ModifyResponse p with
  | None => inl res
  | Some f => match f res with
              | (res, Some err) => inr (getErrorHandler p rw req err)
              | (res, None) => inl res
              end
  end.

(** Until both directions are copied, which [copy_step] below does; the result
    tells whether the protocol was switched. *)
Definition handleUpgradeResponse (p : ReverseProxy) (rw : writer) (req : outgoing) (res : reply) : bool * writer :=
  let fail e := (false, getErrorHandler p rw req e) in
  if negb (upgradeType (default ∅ (og_Header req)) =? upgradeType (rp_Header res))%string then fail "backend tried to switch protocol"
  else
    let res := set_rp_Header (copyHeader (rp_Header res) (w_Header rw)) res in
    if negb (is_Hijacker rw) then fail "can't switch protocols using non-Hijacker ResponseWriter type"
    else if negb (rp_Conn res) then fail "internal error: 101 switching protocols response with non-writable body"
    else match Hijack with
    | Some err => fail ("Hijack failed on protocol switch: " +:+ err)
    | None =>
        match response_Write with
        | Some err => fail ("response write: " +:+ err)
        | None =>
            match response_Flush with
            | Some err => fail ("response flush: " +:+ err)
            | None => (true, log_event (Switched (rp_StatusCode res) (rp_Header res)) rw)
            end
        end
    end.

(** How the handler ends: by returning, with the connections of a switched
    protocol, or with the panic [http.ErrAbortHandler]. *)
Inductive served := Done (w : writer) | Streaming (w : writer) | Aborted (w : writer).

Definition served_writer (s : served) : writer := match s with Done w | Streaming w | Aborted w => w end.

Definition TrailerPrefix : string := "Trailer:".

Definition add_prefixed (h : Header) (trailer : Header) : Header :=
  fold_left (fun h '(k, vv) => fold_left (fun h v => header_Add h (TrailerPrefix +:+ k) v) (slice vv) h)
    (range_map "trailer" trailer) h.

(** After the body: what the trailers became. *)
Definition send_trailers (res : reply) (announced : nat) (w : writer) : writer :=
  let trailer := rp_FinalTrailer res in
  let w := if (0 <? size trailer)%nat && is_Flusher w then log_event Flushed w else w in
  if (size trailer =? announced)%nat then set_w_Header (copyHeader (w_Header w) trailer) w
  else set_w_Header (add_prefixed (w_Header w) trailer) w.

Definition send_response (p : ReverseProxy) (rw : writer) (res : reply) : served :=
  let h := copyHeader (w_Header rw) (rp_Header res) in
  let announcedTrailers := size (rp_Trailer res) in
  let h := if (0 <? announcedTrailers)%nat then header_Add h "Trailer" (Join (range_map "trailerKeys" (rp_Trailer res)).*1 ", ") else h in
  let rw := WriteHeader (rp_StatusCode res) (set_w_Header h rw) in
  let '(err, rw) := copyResponse rw (rp_Body res) (flushInterval p res) in
  match err with
  | Some _ => if under_server then Aborted rw else Done rw
  | None => Done (send_trailers res announcedTrailers rw)
  end.

Definition ServeHTTP (p : ReverseProxy) (rw : writer) (req : outgoing) : served :=
  let outreq := generateOutRequest p req in
  match RoundTrip outreq with
  | Err err => Done (getErrorHandler p rw outreq err)
  | Ok res =>
      if rp_StatusCode res =? StatusSwitchingProtocols then
        match modifyResponse p rw res outreq with
        | inr rw => Done rw
        | inl res => let '(switched, rw) := handleUpgradeResponse p rw outreq res in if switched then Streaming rw else Done rw
        end
      else
        let res := set_rp_Header (fold_left header_Del hopHeaders (removeConnectionHeaders (rp_Header res))) res in
        match modifyResponse p rw res outreq with
        | inr rw => Done rw
        | inl res => send_response p rw res
        end
  end.
End Proxy.

(** ** The proxy of lighthouse *)

Definition lighthouse_Director (addr : string) (req : outgoing) : outgoing :=
  let h := default ∅ (og_Header req) in
  let h := match h !! "User-Agent" with Some _ => h | None => header_Set h "User-Agent" "" end in
  mkOutgoing (og_Method req) "http" addr (og_Path req) (Some h) (og_Body req) (og_ContentLength req) (og_Close req) (og_RemoteAddr req).

Definition newReverseProxy (remoteEndpoint : string) : outcome ReverseProxy :=
  match GetProtoAndAddress remoteEndpoint with
  | Err e => Crash (Fatal ("can't parse remote endpoint: " +:+ e))
  | Ok (_, addr) => Ret (mkProxy (lighthouse_Director addr) 0 None None)
  end.

(** [httptest.NewRecorder], into which the answers of routes with hooks go. *)
Definition NewRecorder : writer := mkWriter ∅ [] true false.

(** ** Both directions of a switched connection *)

(** Where the [select] of the handler is. *)
Inductive waiting := InSelect | ForStdout | Returned.

Record copier := mkCopier {
  (** What the runtime and the client still send before they close their side. *)
  from_backend : list string;
  from_user : list string;
  to_user : list string;
  to_backend : list string;
  (** [copyFromBackend] and [copyToBackend] returned, and whether a connection failed. *)
  stdout_done : bool;
  stdout_failed : bool;
  stdin_copied : bool;
  stdin_failed : bool;
  (** The writing side of the runtime's connection is closed; [stdinDone] is. *)
  write_closed : bool;
  stdinDone : bool;
  handler : waiting;
}.

Definition start_copy (backend user : list string) : copier :=
  mkCopier backend user [] [] false false false false false false InSelect.

(** The steps of the two goroutines and of the handler.  [cw]: the connection of
    the runtime is a [CloseWriter]. *)
Inductive copy_step (cw : bool) : copier -> copier -> Prop :=
| Stdout d fb fu tu tb sf sc si wc sd h :
    copy_step cw (mkCopier (d :: fb) fu tu tb false sf sc si wc sd h) (mkCopier fb fu (tu ++ [d]) tb false sf sc si wc sd h)
| StdoutEnds fu tu tb sf sc si wc sd h :
    copy_step cw (mkCopier [] fu tu tb false sf sc si wc sd h) (mkCopier [] fu tu tb true sf sc si wc sd h)
| StdoutFails fb fu tu tb sf sc si wc sd h :
    copy_step cw (mkCopier fb fu tu tb false sf sc si wc sd h) (mkCopier fb fu tu tb true true sc si wc sd h)
| Stdin d fb fu tu tb so sf si wc sd h :
    copy_step cw (mkCopier fb (d :: fu) tu tb so sf false si wc sd h) (mkCopier fb fu tu (tb ++ [d]) so sf false si wc sd h)
| StdinEnds fb tu tb so sf si wc sd h :
    copy_step cw (mkCopier fb [] tu tb so sf false si wc sd h) (mkCopier fb [] tu tb so sf true si wc sd h)
| StdinFails fb fu tu tb so sf si wc sd h :
    copy_step cw (mkCopier fb fu tu tb so sf false si wc sd h) (mkCopier fb fu tu tb so sf true true wc sd h)
| StdinCloses fb fu tu tb so sf si wc h :
    copy_step cw (mkCopier fb fu tu tb so sf true si wc false h) (mkCopier fb fu tu tb so sf true si (wc || cw) true h)
| SelectStdout fb fu tu tb sf sc si wc sd :
    copy_step cw (mkCopier fb fu tu tb true sf sc si wc sd InSelect) (mkCopier fb fu tu tb true sf sc si wc sd Returned)
| SelectStdin fb fu tu tb so sf sc si wc :
    copy_step cw (mkCopier fb fu tu tb so sf sc si wc true InSelect) (mkCopier fb fu tu tb so sf sc si wc true ForStdout)
| WaitStdout fb fu tu tb sf sc si wc sd :
    copy_step cw (mkCopier fb fu tu tb true sf sc si wc sd ForStdout) (mkCopier fb fu tu tb true sf sc si wc sd Returned).

Section Copying.
Variable cw : bool.
Variables backend user : list string.

(** What holds of every state that the copying can reach. *)
Record copy_inv (c : copier) : Prop := {
  inv_out : to_user c ++ from_backend c = backend;
  inv_in : to_backend c ++ from_user c = user;
  inv_stdout : stdout_done c = true -> stdout_failed c = true \/ from_backend c = [];
  inv_stdin : stdin_copied c = true -> stdin_failed c = true \/ from_user c = [];
  inv_closed : stdinDone c = true -> stdin_copied c = true;
  inv_write : write_closed c = cw && stdinDone c;
  inv_returned : handler c = Returned -> stdout_done c = true;
}.

Lemma copy_inv_step c c' : copy_step cw c c' -> copy_inv c -> copy_inv c'.
Proof.
  intros H [I1 I2 I3 I4 I5 I6 I7]; destruct H; cbn in *; constructor; cbn; auto; try done;
    try (by rewrite <- app_assoc); try (intros; by exfalso; discriminate I7); try (intros Hh; by specialize (I7 Hh)).
  rewrite I6. by destruct cw.
Qed.

Lemma copy_inv_reachable c : rtc (copy_step cw) (start_copy backend user) c -> copy_inv c.
Proof.
  assert (H0 : copy_inv (start_copy backend user)) by (constructor; cbn; try done; by rewrite andb_false_r).
  intros H. revert H0. induction H; eauto using copy_inv_step.
Qed.

(** The work that is left: every step does some of it. *)
Definition work_left (c : copier) : nat :=
  (length (from_backend c) + length (from_user c) + Nat.b2n (negb (stdout_done c)) + Nat.b2n (negb (stdin_copied c)) +
   Nat.b2n (negb (stdinDone c)) + match handler c with InSelect => 2 | ForStdout => 1 | Returned => 0 end)%nat.

Lemma copy_step_works c c' : copy_step cw c c' -> (work_left c' < work_left c)%nat.
Proof. intros H; destruct H; unfold work_left; cbn; lia. Qed.

Lemma copy_stuck c : copy_inv c -> ~ (exists c', copy_step cw c c') -> handler c = Returned.
Proof.
  intros [_ _ _ _ Hc _ _] Hn. destruct c as [fb fu tu tb so sf sc si wc sd h]. cbn in *.
  destruct h; [| |done]; exfalso; apply Hn; (destruct so; [|eexists; apply StdoutFails]);
    eexists; [apply SelectStdout|apply WaitStdout].
Qed.

(** C40: however the goroutines run, the handler of a switched connection returns, and
    only after the runtime ended its output: the client has received all of it
    unless a connection failed, also when the client closed its own side first.
    The writing side of the runtime's connection is closed only after the
    input of the client was passed on.  ([Acc]: no run goes on forever, once
    both sides have a last byte.) *)
Theorem output_survives_stdin_close c :
  rtc (copy_step cw) (start_copy backend user) c ->
  (handler c = Returned -> stdout_failed c = false -> to_user c = backend) /\
  (write_closed c = true -> stdin_failed c = false -> to_backend c = user) /\
  (exists rest, to_user c ++ rest = backend) /\
  Acc (flip (copy_step cw)) c /\ (~ (exists c', copy_step cw c c') -> handler c = Returned).
Proof.
  intros H. pose proof (copy_inv_reachable c H) as I. split_and!.
  - intros Hr Hf. destruct I as [I1 _ I3 _ _ _ I7]. destruct (I3 (I7 Hr)) as [Ht|Ht]; [congruence|].
    by rewrite Ht, app_nil_r in I1.
  - intros Hw Hf. destruct I as [_ I2 _ I4 I5 I6 _]. rewrite I6 in Hw. apply andb_true_iff in Hw as [_ Hw].
    destruct (I4 (I5 Hw)) as [Ht|Ht]; [congruence|]. by rewrite Ht, app_nil_r in I2.
  - exists (from_backend c). apply (inv_out _ I).
  - clear H I. induction (well_founded_ltof _ work_left c) as [c _ IH]. constructor. intros c1 Hc. by apply IH, copy_step_works.
  - apply copy_stuck, I.
Qed.
End Copying.

(** ** Which headers the runtime and the client see *)

Section Headers.
Context {RO : RangeOrder} {PE : ProxyEnv}.
Implicit Types (h : Header) (k : string).

(** What the [Connection] headers name. *)
Definition connection_tokens h : list string :=
  List.filter (fun s => negb (s =? "")%string) (map TrimString (concat (map (fun f => Split f ",") (header_values h "Connection")))).
Definition connection_named h : list string := map CanonicalMIMEHeaderKey (connection_tokens h).

Lemma lookup_Dels l h k : fold_left header_Del l h !! k = if bool_decide (k ∈ map CanonicalMIMEHeaderKey l) then None else h !! k.
Proof.
  revert h. induction l as [|x l IH]; intros h; cbn [fold_left map]; [done|]. rewrite IH. unfold header_Del.
  destruct (bool_decide_reflect (k ∈ map CanonicalMIMEHeaderKey l)) as [Hin|Hn].
  - by rewrite bool_decide_eq_true_2 by (by right).
  - destruct (decide (k = CanonicalMIMEHeaderKey x)) as [->|Hne].
    + rewrite bool_decide_eq_true_2 by left. apply lookup_delete_eq.
    + rewrite bool_decide_eq_false_2 by (by apply not_elem_of_cons). by apply lookup_delete_ne.
Qed.

Lemma removeConnectionHeaders_tokens h : removeConnectionHeaders h = fold_left header_Del (connection_tokens h) h.
Proof.
  unfold removeConnectionHeaders, connection_tokens. generalize (header_values h "Connection") as fs. intros fs. revert h.
  induction fs as [|f fs IH]; intros h; cbn [fold_left map concat]; [done|].
  rewrite map_app, List.filter_app, fold_left_app, IH. f_equal.
  generalize (Split f ",") as sfs. intros sfs. revert h.
  induction sfs as [|sf sfs IHs]; intros h; cbn [fold_left map List.filter]; [done|]. rewrite IHs. by destruct (TrimString sf =? "")%string.
Qed.

Lemma lookup_removeConnectionHeaders h k :
  removeConnectionHeaders h !! k = if bool_decide (k ∈ connection_named h) then None else h !! k.
Proof. rewrite removeConnectionHeaders_tokens. apply lookup_Dels. Qed.

(** The value decides whether a hop-by-hop header of a request is removed. *)
Definition hop_removed h k : bool :=
  let hv := hd "" (header_values h k) in negb (hv =? "")%string && negb ((k =? "Te")%string && (hv =? "trailers")%string).

Lemma lookup_remove_hops l h k :
  NoDup l -> Forall (fun x => CanonicalMIMEHeaderKey x = x) l ->
  fold_left remove_hop l h !! k = if bool_decide (k ∈ l) && hop_removed h k then None else h !! k.
Proof.
  revert h. induction l as [|x l IH]; intros h Hnd Hc; cbn [fold_left]; [done|].
  apply NoDup_cons in Hnd as [Hx Hnd]. apply Forall_cons in Hc as [Hcx Hc]. rewrite IH by done.
  assert (Hr : forall j, remove_hop h x !! j = if bool_decide (j = x) && hop_removed h x then None else h !! j).
  { intros j. unfold remove_hop, header_Get, header_Del, hop_removed. rewrite Hcx.
    destruct (bool_decide_reflect (j = x)) as [->|Hne]; cbn [andb].
    - destruct (_ =? "")%string; [done|]. destruct ((x =? "Te")%string && _); [done|]. apply lookup_delete_eq.
    - destruct (_ =? "")%string; [done|]. destruct ((x =? "Te")%string && _); [done|]. by apply lookup_delete_ne. }
  destruct (decide (k = x)) as [->|Hne].
  - rewrite (bool_decide_eq_false_2 (x ∈ l)), (bool_decide_eq_true_2 (x ∈ x :: l)), Hr, bool_decide_eq_true_2 by (done || left). done.
  - rewrite Hr, (bool_decide_eq_false_2 (k = x)) by done. cbn [andb].
    assert (Hh : hop_removed (remove_hop h x) k = hop_removed h k)
      by (unfold hop_removed, header_values; by rewrite Hr, (bool_decide_eq_false_2 (k = x))).
    rewrite Hh. replace (bool_decide (k ∈ x :: l)) with (bool_decide (k ∈ l)); [done|].
    apply bool_decide_ext. rewrite elem_of_cons. tauto.
Qed.

Lemma lookup_put h key v k : <[key := v]> h !! k = if bool_decide (k = key) then Some v else h !! k.
Proof.
  destruct (bool_decide_reflect (k = key)) as [->|Hne];
    [apply (lookup_insert_eq (M := gmap string))|by apply (lookup_insert_ne (M := gmap string))].
Qed.

Lemma lookup_Set h key k v :
  CanonicalMIMEHeaderKey key = key -> header_Set h key v !! k = if bool_decide (k = key) then Some (Some [v]) else h !! k.
Proof. intros Hc. unfold header_Set. rewrite Hc. apply lookup_put. Qed.

(** The header of a request without what is for the connection only. *)
Definition stripped h k : option (option (list string)) :=
  if bool_decide (k ∈ connection_named h) || bool_decide (k ∈ hopHeaders) && hop_removed h k then None else h !! k.

Lemma lookup_stripped h k : fold_left remove_hop hopHeaders (removeConnectionHeaders h) !! k = stripped h k.
Proof.
  rewrite lookup_remove_hops; [|apply (bool_decide_unpack _); vm_compute; exact I|by repeat constructor].
  unfold hop_removed, header_values, stripped. rewrite lookup_removeConnectionHeaders.
  destruct (bool_decide (k ∈ connection_named h)); cbn [orb]; [by destruct (_ && _)|done].
Qed.

(** The address of the client after the ones that are there. *)
Definition forwarded (prior : option (option (list string))) (remoteAddr : string) : option (option (list string)) :=
  match SplitHostPort remoteAddr, prior with
  | Err _, _ | Ok _, Some None => prior
  | Ok ip, _ => Some (Some [Join (slice (mjoin prior) ++ [ip]) ", "])
  end.

Lemma Join_added l x sep : l <> [] -> Join l sep +:+ sep +:+ x = Join (l ++ [x]) sep.
Proof.
  intros Hl. induction l as [|y l IH]; [done|]. destruct l as [|z l]; [done|].
  cbn [app Join] in *. rewrite !string_app_assoc. do 2 f_equal. by apply IH.
Qed.

Lemma lookup_forwarded_for h addr k :
  forwarded_for h addr !! k = if bool_decide (k = "X-Forwarded-For") then forwarded (h !! k) addr else h !! k.
Proof.
  unfold forwarded_for, forwarded. destruct (SplitHostPort addr) as [ip|e]; [|by case_bool_decide]. cbv zeta.
  destruct (bool_decide_reflect (k = "X-Forwarded-For")) as [->|Hne].
  - destruct (h !! "X-Forwarded-For") as [[vs|]|] eqn:Eh; cbn [mjoin option_join slice default from_option id].
    + rewrite bool_decide_eq_false_2, lookup_Set, bool_decide_eq_true_2 by done. destruct vs as [|v vs]; [done|].
      cbn [length]. change (0 <? S (length vs))%nat with true. cbv iota. by rewrite Join_added.
    + by rewrite bool_decide_eq_true_2.
    + by rewrite bool_decide_eq_false_2, lookup_Set, bool_decide_eq_true_2.
  - destruct (bool_decide (_ = Some None)); [done|]. by rewrite lookup_Set, bool_decide_eq_false_2.
Qed.

(** The outgoing header: the stripped one, a wanted upgrade, and the address of the client. *)
Definition outgoing_value h (remoteAddr k : string) : option (option (list string)) :=
  let up := upgradeType h in
  if bool_decide (k = "X-Forwarded-For") then forwarded (stripped h k) remoteAddr
  else if negb (up =? "")%string && bool_decide (k = "Upgrade") then Some (Some [up])
  else if negb (up =? "")%string && bool_decide (k = "Connection") then Some (Some ["Upgrade"])
  else stripped h k.

Lemma lookup_outgoing p req h' k :
  og_Header (generateOutRequest p req) = Some h' ->
  h' !! k = outgoing_value (default ∅ (og_Header (Director p (clone_request req)))) (og_RemoteAddr req) k.
Proof.
  unfold generateOutRequest, set_out, outgoing_value. cbn [og_Header]. set (h := default ∅ _). set (up := upgradeType h).
  intros Hh. apply (inj Some) in Hh as <-. rewrite lookup_forwarded_for.
  destruct (up =? "")%string; cbn [negb andb]; [by rewrite lookup_stripped; repeat case_bool_decide|].
  rewrite !lookup_Set, lookup_stripped by done.
  by destruct (bool_decide_reflect (k = "X-Forwarded-For")) as [->|H1].
Qed.

(** C27: the header that the runtime sees: what the client and the director set,
    without the headers that [Connection] names and without the hop-by-hop headers
    (those with an empty first value and [Te: trailers] apart); a wanted
    upgrade is asked for again, and the address of the client is
    added to those of the proxies before.  Nothing else is lost or changed. *)
Theorem backend_headers_exact p req :
  let h := default ∅ (og_Header (Director p (clone_request req))) in
  exists h', og_Header (generateOutRequest p req) = Some h' /\
    forall k, h' !! k =
      if bool_decide (k = "X-Forwarded-For") then forwarded (stripped h k) (og_RemoteAddr req)
      else if negb (upgradeType h =? "")%string && bool_decide (k = "Upgrade") then Some (Some [upgradeType h])
      else if negb (upgradeType h =? "")%string && bool_decide (k = "Connection") then Some (Some ["Upgrade"])
      else stripped h k.
Proof. intros h. eexists. split; [reflexivity|]. intros k. by apply lookup_outgoing. Qed.

(** A hop-by-hop header whose first value is empty reaches the runtime with all its
    values, [Connection] included. *)
Theorem empty_hop_header_forwarded p req k vs :
  let h := default ∅ (og_Header (Director p (clone_request req))) in
  k ∈ hopHeaders -> upgradeType h = "" -> k ∉ connection_named h -> h !! k = Some (Some ("" :: vs)) ->
  exists h', og_Header (generateOutRequest p req) = Some h' /\ h' !! k = Some (Some ("" :: vs)).
Proof.
  intros h Hk Hu Hn Hv. destruct (og_Header (generateOutRequest p req)) as [h'|] eqn:Hh; [|discriminate Hh]. exists h'. split; [done|].
  assert (Hx : "X-Forwarded-For" ∉ hopHeaders) by (apply (bool_decide_unpack _); vm_compute; exact I).
  rewrite (lookup_outgoing p req h' k Hh). fold h. unfold outgoing_value. rewrite Hu, bool_decide_eq_false_2 by (by intros ->).
  cbn [negb andb String.eqb]. unfold stripped, hop_removed, header_values. rewrite Hv. cbn. rewrite andb_false_r.
  by rewrite bool_decide_eq_false_2.
Qed.
End Headers.

(** ** What the client receives *)

Section Responses.
Context {RO : RangeOrder} {PE : ProxyEnv}.

(** All keys are as [Add] makes them, which those of net/http are. *)
Definition canonical (h : Header) : Prop := forall k, is_Some (h !! k) -> CanonicalMIMEHeaderKey k = k.

Lemma values_Add h k v j :
  CanonicalMIMEHeaderKey k = k -> header_values (header_Add h k v) j = header_values h j ++ (if bool_decide (j = k) then [v] else []).
Proof.
  intros Hc. unfold header_Add, header_values. rewrite Hc, lookup_put.
  destruct (bool_decide_reflect (j = k)) as [->|Hne]; [done|]. by rewrite app_nil_r.
Qed.

Lemma values_Adds vs h k j :
  CanonicalMIMEHeaderKey k = k ->
  header_values (fold_left (fun d v => header_Add d k v) vs h) j = header_values h j ++ (if bool_decide (j = k) then vs else []).
Proof.
  intros Hc. revert h. induction vs as [|v vs IH]; intros h; cbn [fold_left]; [by case_bool_decide; rewrite app_nil_r|].
  rewrite IH, values_Add by done. case_bool_decide; by rewrite <- app_assoc.
Qed.

(** Copied headers come after those that are there. *)
Lemma values_copyHeader dst src j :
  canonical src -> header_values (copyHeader dst src) j = header_values dst j ++ header_values src j.
Proof.
  intros Hc. unfold copyHeader.
  assert (Hl : forall l d, NoDup l.*1 -> (forall k v, (k, v) ∈ l -> CanonicalMIMEHeaderKey k = k) ->
    header_values (fold_left (fun d '(k, vv) => fold_left (fun d v => header_Add d k v) (slice vv) d) l d) j =
    header_values d j ++ header_values (list_to_map l) j).
  { intros l. induction l as [|[k vv] l IH]; intros d Hnd Hk; cbn [fold_left].
    - change (header_values (list_to_map []) j) with (@nil string). by rewrite app_nil_r.
    - cbn in Hnd. apply NoDup_cons in Hnd as [Hkl Hnd]. rewrite IH by (done || (intros ? ? ?; eapply Hk; by right)).
      rewrite values_Adds by (eapply Hk; left). rewrite <- app_assoc. f_equal. unfold header_values. cbn [list_to_map foldr]. rewrite (lookup_put (list_to_map l) k vv j).
      destruct (bool_decide_reflect (j = k)) as [->|Hne]; [|done].
      assert (Hn : (list_to_map l : Header) !! k = None) by (by apply not_elem_of_list_to_map_1).
      rewrite Hn. apply app_nil_r. }
  rewrite Hl; [|apply NoDup_fst_range|].
  - f_equal. unfold header_values. do 2 f_equal. apply (f_equal (fun m : Header => m !! j)), list_to_map_range.
  - intros k v Hin%elem_of_range. apply Hc. by eexists.
Qed.

(** [w'] is [w] after writes of [ds], and any flushes. *)
Definition appends (ds : list string) (w w' : writer) : Prop :=
  exists es, w_events w' = w_events w ++ es /\
    Forall (fun e => match e with Wrote _ _ | Flushed => True | _ => False end) es /\
    omap (fun e => match e with Wrote d _ => Some d | _ => None end) es = ds /\
    w_Header w' = w_Header w /\ is_Flusher w' = is_Flusher w /\ is_Hijacker w' = is_Hijacker w.

Lemma appends_refl w : appends [] w w.
Proof. exists []. by rewrite app_nil_r. Qed.

Lemma appends_trans ds1 ds2 w1 w2 w3 : appends ds1 w1 w2 -> appends ds2 w2 w3 -> appends (ds1 ++ ds2) w1 w3.
Proof.
  intros (es1 & E1 & F1 & <- & H1 & J1 & K1) (es2 & E2 & F2 & <- & H2 & J2 & K2). exists (es1 ++ es2).
  split_and!; [by rewrite E2, E1, app_assoc|by apply Forall_app|apply omap_app|congruence..].
Qed.

Lemma appends_flush w : appends [] w (log_event Flushed w).
Proof. exists [Flushed]. by repeat constructor. Qed.

Lemma appends_write data w r w' : raw_Write data w = (r, w') -> appends [data] w w' /\ r = write_answer (w_events w) data.
Proof.
  unfold raw_Write. destruct (write_answer _ _) as [n err]. intros [= <- <-]. split; [|done].
  exists [Wrote data n]. by repeat constructor.
Qed.

Lemma do_tick_appends m w t : appends [] w (do_tick m w t).2.
Proof.
  destruct t; cbn; [by destruct (m_t m) as [[]|]; apply appends_refl|]. destruct (started m); [apply appends_refl|].
  unfold delayedFlush. cbn. destruct (flushPending m); [apply appends_flush|apply appends_refl].
Qed.

Lemma run_ticks_appends ts m w : appends [] w (run_ticks m w ts).2.
Proof.
  unfold run_ticks. revert m w. induction ts as [|t ts IH]; intros m w; cbn [fold_left]; [apply appends_refl|].
  pose proof (do_tick_appends m w t) as H. destruct (do_tick m w t) as [m1 w1]. apply (appends_trans [] [] w w1); [done|apply IH].
Qed.

Lemma dest_Write_appends data d r d' :
  dest_Write data d = (r, d') -> appends [data] (d_w d) (d_w d') /\ exists es, r = write_answer es data.
Proof.
  unfold dest_Write. destruct (d_m d) as [m|].
  - pose proof (run_ticks_appends (ticks (w_events (d_w d))) m (d_w d)) as Ht. destruct (run_ticks _ _ _) as [m1 w1]. cbn in Ht.
    unfold latency_Write. destruct (raw_Write data w1) as [r1 w2] eqn:Ew. apply appends_write in Ew as [Ha ->].
    assert (Hw : appends [data] (d_w d) w2) by (apply (appends_trans [] [data] _ w1); done).
    destruct (latency m1 <? 0); [|destruct (flushPending m1)]; intros [= <- <-]; cbn; (split; [|by eexists]); try done.
    rewrite <- (app_nil_r [data]). eapply appends_trans; [done|apply appends_flush].
  - destruct (raw_Write data (d_w d)) as [r1 w2] eqn:Ew. apply appends_write in Ew as [Ha ->]. intros [= <- <-]. split; [done|by eexists].
Qed.

(** The writes of a body, and its error. *)
Fixpoint body_chunks (src : body) : list string :=
  match src with
  | [] => []
  | (data, rerr) :: src' =>
      (if 0 <? slen data then [data] else []) ++ match rerr with None => body_chunks src' | Some _ => [] end
  end.

Fixpoint body_error (src : body) : option error :=
  match src with
  | [] => None
  | (_, None) :: src' => body_error src'
  | (_, Some EOF) :: _ => None
  | (_, Some e) :: _ => Some (read_error_text e)
  end.

(** The connection of the client takes everything. *)
Definition writes_taken : Prop := forall es data, write_answer es data = (slen data, None).

Lemma copyBuffer_appends src d n r d' :
  copyBuffer src d n = (r, d') ->
  exists ds, appends ds (d_w d) (d_w d') /\ ds `prefix_of` body_chunks src /\
    (writes_taken -> ds = body_chunks src /\ r.2 = body_error src).
Proof.
  revert d n. induction src as [|[data rerr] src IH]; intros d n; cbn [copyBuffer body_chunks body_error].
  { intros [= <- <-]. exists []. split_and!; [apply appends_refl|done|done]. }
  set (k := fun (written : Z) (d0 : dest) => match rerr with
                                             | None => copyBuffer src d0 written
                                             | Some EOF => ((written, None), d0)
                                             | Some e => ((written, Some (read_error_text e)), d0)
                                             end).
  assert (Hk : forall d0 n0, k n0 d0 = (r, d') -> exists ds, appends ds (d_w d0) (d_w d') /\
    ds `prefix_of` match rerr with None => body_chunks src | Some _ => [] end /\
    (writes_taken -> ds = match rerr with None => body_chunks src | Some _ => [] end /\ r.2 = body_error ((data, rerr) :: src))).
  { intros d0 n0 H. unfold k in H. destruct rerr as [e|]; [|by apply IH in H].
    exists []. destruct e; injection H as <- <-; (split_and!; [apply appends_refl|done|done]). }
  destruct (0 <? slen data).
  - destruct (dest_Write data d) as [[nw werr] d1] eqn:Ed. apply dest_Write_appends in Ed as [Ha [es Hes]].
    assert (Hstop : (werr <> None \/ (slen data =? nw) = false) -> forall n0 e, ((n0, Some e), d1) = (r, d') ->
      exists ds, appends ds (d_w d) (d_w d') /\ ds `prefix_of` [data] ++ match rerr with None => body_chunks src | Some _ => [] end /\
      (writes_taken -> ds = [data] ++ match rerr with None => body_chunks src | Some _ => [] end /\ r.2 = body_error ((data, rerr) :: src))).
    { intros Hbad n0 e [= <- <-]. exists [data]. split_and!; [done|by eexists|]. intros Hw. exfalso. rewrite Hw in Hes. injection Hes as -> ->.
      destruct Hbad as [Hb|Hb]; [done|]. by rewrite Z.eqb_refl in Hb. }
    destruct werr as [e|]; [apply Hstop; by left|]. destruct (slen data =? nw) eqn:En; cbn [negb]; [|apply Hstop; by right].
    intros H. destruct (Hk _ _ H) as (ds & Hds & Hp & Hw). exists (data :: ds).
    split_and!; [by apply (appends_trans [data] ds _ (d_w d1))|by apply prefix_cons|].
    intros Ht. destruct (Hw Ht) as [-> ->]. done.
  - intros H. exact (Hk _ _ H).
Qed.

Lemma copyResponse_appends w src fi err w' :
  copyResponse w src fi = (err, w') ->
  exists ds, appends ds w w' /\ ds `prefix_of` body_chunks src /\ (writes_taken -> ds = body_chunks src /\ err = body_error src).
Proof.
  unfold copyResponse. set (d := if _ && _ then _ else _). assert (Hd : d_w d = w) by (subst d; by destruct (_ && _)). clearbody d. subst w.
  destruct (copyBuffer src d 0) as [[n e] d'] eqn:Ec. apply copyBuffer_appends in Ec as (ds & Ha & Hp & Hw).
  destruct (d_m d') as [m|]; intros [= <- <-]; exists ds; (split; [|done]); [|done].
  rewrite <- (app_nil_r ds). eapply appends_trans; [done|apply run_ticks_appends].
Qed.

Definition statuses (es : list wevent) : list Z := omap (fun e => match e with WroteHeader c _ => Some c | _ => None end) es.

Lemma statuses_app es1 es2 : statuses (es1 ++ es2) = statuses es1 ++ statuses es2.
Proof. apply omap_app. Qed.

Lemma statuses_WriteHeader c w : statuses (w_events (WriteHeader c w)) = statuses (w_events w) ++ [c].
Proof. apply statuses_app. Qed.

Lemma appends_statuses ds w w' : appends ds w w' -> statuses (w_events w') = statuses (w_events w).
Proof.
  intros (es & -> & Hf & _). rewrite statuses_app. replace (statuses es) with (@nil Z); [by rewrite app_nil_r|].
  unfold statuses. induction Hf as [|e es He _ IH]; cbn; [done|]. by destruct e.
Qed.

Lemma send_trailers_events res n w : exists es, w_events (send_trailers res n w) = w_events w ++ es /\ statuses es = [].
Proof.
  unfold send_trailers. set (w1 := if _ && _ then _ else w).
  assert (H : exists es, w_events w1 = w_events w ++ es /\ statuses es = []).
  { subst w1. destruct (_ && _); [by exists [Flushed]|by exists []; rewrite app_nil_r]. }
  by destruct (_ =? _)%nat.
Qed.

(** The answered client has one status; a switched connection has none. *)
Definition answered_once (s : served) : Prop :=
  match s with
  | Streaming w => statuses (w_events w) = [] /\ exists c h, last (w_events w) = Some (Switched c h)
  | Done w | Aborted w => length (statuses (w_events w)) = 1%nat
  end.

Section OneStatus.
Variables (p : ReverseProxy) (rw : writer).
Hypothesis default_handler : ErrorHandler p = None.
Hypothesis fresh : statuses (w_events rw) = [].

Lemma status_failed req e : answered_once (Done (getErrorHandler p rw req e)).
Proof. unfold getErrorHandler, answered_once. rewrite default_handler. cbn [default from_option]. unfold defaultErrorHandler. by rewrite statuses_WriteHeader, fresh. Qed.

Lemma status_upgrade req res :
  answered_once (let '(switched, w) := handleUpgradeResponse p rw req res in if switched then Streaming w else Done w).
Proof.
  unfold handleUpgradeResponse. cbv zeta.
  destruct (negb _); [apply status_failed|]. destruct (negb (is_Hijacker rw)); [apply status_failed|].
  destruct (negb (rp_Conn _)); [apply status_failed|]. destruct Hijack; [apply status_failed|].
  destruct response_Write; [apply status_failed|]. destruct response_Flush; [apply status_failed|].
  cbn [answered_once log_event w_events]. rewrite statuses_app, fresh, last_snoc. split; [done|]. by do 2 eexists.
Qed.

Lemma status_response res : answered_once (send_response p rw res).
Proof.
  unfold send_response. cbv zeta. set (h := if (0 <? size _)%nat then _ else _).
  set (w0 := WriteHeader (rp_StatusCode res) (set_w_Header h rw)).
  assert (H0 : length (statuses (w_events w0)) = 1%nat) by (subst w0; rewrite statuses_WriteHeader; cbn [set_w_Header w_events]; by rewrite fresh).
  destruct (copyResponse _ _ _) as [err w1] eqn:Ec. apply copyResponse_appends in Ec as (ds & Ha & _).
  apply appends_statuses in Ha. rewrite <- Ha in H0. destruct err; [by destruct under_server|]. cbn [answered_once].
  destruct (send_trailers_events res (size (rp_Trailer res)) w1) as (es & -> & He).
  by rewrite statuses_app, He, app_nil_r.
Qed.

(** Every request gets exactly one status, also when the runtime cannot be reached,
    when it refuses the protocol, and when its answer breaks off; only a
    connection that is switched gets none, but the response to the switch. *)
Theorem one_status req : answered_once (ServeHTTP p rw req).
Proof.
  unfold ServeHTTP. destruct (RoundTrip _) as [res|e]; [|apply status_failed]. unfold modifyResponse.
  destruct (rp_StatusCode res =? StatusSwitchingProtocols); (destruct (ModifyResponse p) as [f|];
    [destruct (f _) as [res' [e|]]; [apply status_failed|]|]); first [apply status_upgrade|apply status_response].
Qed.
End OneStatus.

(** The header of a response without what is for the connection only. *)
Definition response_values (res : reply) (k : string) : list string :=
  if bool_decide (k ∈ connection_named (rp_Header res) \/ k ∈ hopHeaders) then [] else header_values (rp_Header res) k.

Lemma lookup_response_header h k :
  fold_left header_Del hopHeaders (removeConnectionHeaders h) !! k =
    if bool_decide (k ∈ connection_named h \/ k ∈ hopHeaders) then None else h !! k.
Proof.
  rewrite lookup_Dels, lookup_removeConnectionHeaders.
  change (map CanonicalMIMEHeaderKey hopHeaders) with hopHeaders.
  destruct (decide (k ∈ connection_named h)) as [H1|H1], (decide (k ∈ hopHeaders)) as [H2|H2];
    repeat first [rewrite bool_decide_eq_true_2 by tauto|rewrite bool_decide_eq_false_2 by tauto]; done.
Qed.

Lemma values_response_header res rw k :
  canonical (rp_Header res) ->
  header_values (copyHeader (w_Header rw) (fold_left header_Del hopHeaders (removeConnectionHeaders (rp_Header res)))) k =
  header_values (w_Header rw) k ++ response_values res k.
Proof.
  intros Hc. rewrite values_copyHeader.
  - f_equal. unfold header_values, response_values. rewrite lookup_response_header. by case_bool_decide.
  - intros j Hj. apply Hc. rewrite lookup_response_header in Hj. case_bool_decide; [by destruct Hj|done].
Qed.

(** A response that is sent in full. *)
Lemma send_response_events p rw res :
  writes_taken ->
  exists h es w,
    w_events w = w_events rw ++ WroteHeader (rp_StatusCode res) h :: es /\
    omap (fun e => match e with Wrote d _ => Some d | _ => None end) es = body_chunks (rp_Body res) /\
    h = (let h := copyHeader (w_Header rw) (rp_Header res) in
         if (0 <? size (rp_Trailer res))%nat then header_Add h "Trailer" (Join (range_map "trailerKeys" (rp_Trailer res)).*1 ", ") else h) /\
    send_response p rw res = match body_error (rp_Body res) with
                             | None => Done w
                             | Some _ => if under_server then Aborted w else Done w
                             end.
Proof.
  intros Hw. unfold send_response. cbv zeta. set (h := if (0 <? size _)%nat then _ else _). exists h.
  destruct (copyResponse _ _ _) as [err w1] eqn:Ec. apply copyResponse_appends in Ec as (ds & (es & He & Hf & Hds & _) & _ & Ht).
  destruct (Ht Hw) as [-> ->]. cbn [WriteHeader log_event set_w_Header w_events w_Header] in He. rewrite <- app_assoc in He. cbn [app] in He.
  destruct (body_error (rp_Body res)).
  - exists es, w1. by destruct under_server.
  - unfold send_trailers. cbv zeta. set (w2 := if (0 <? size _)%nat && _ then _ else w1).
    assert (H2 : exists fl, w_events w2 = w_events w1 ++ fl /\ omap (fun e => match e with Wrote d _ => Some d | _ => None end) fl = []).
    { subst w2. destruct (_ && _); [by exists [Flushed]|by exists []; rewrite app_nil_r]. }
    destruct H2 as (fl & H2 & Hfl). exists (es ++ fl). eexists.
    split_and!; [|by rewrite omap_app, Hds, Hfl, app_nil_r|done|reflexivity].
    rewrite app_comm_cons, app_assoc, <- He, <- H2. by destruct (_ =? _)%nat.
Qed.

(** What the client gets for an answer of the runtime, when it takes what is
    written: the status, the header without the headers of the connection
    (behind those that were set before, with the names of the trailers), and the
    body in its order.  A body that breaks off ends in a panic, by which
    the client's connection is cut. *)
Theorem client_response_exact p rw req res :
  ModifyResponse p = None -> writes_taken -> canonical (rp_Header res) ->
  RoundTrip (generateOutRequest p req) = Ok res -> rp_StatusCode res <> 101 ->
  exists h es w,
    w_events w = w_events rw ++ WroteHeader (rp_StatusCode res) h :: es /\
    omap (fun e => match e with Wrote d _ => Some d | _ => None end) es = body_chunks (rp_Body res) /\
    (forall k, header_values h k = header_values (w_Header rw) k ++ response_values res k ++
       (if bool_decide (k = "Trailer") && (0 <? size (rp_Trailer res))%nat
        then [Join (range_map "trailerKeys" (rp_Trailer res)).*1 ", "] else [])) /\
    ServeHTTP p rw req = match body_error (rp_Body res) with
                         | None => Done w
                         | Some _ => if under_server then Aborted w else Done w
                         end.
Proof.
  intros Hm Hw Hc Hr Hs. unfold ServeHTTP. rewrite Hr. apply Z.eqb_neq in Hs. change StatusSwitchingProtocols with 101. rewrite Hs.
  unfold modifyResponse. rewrite Hm.
  destruct (send_response_events p rw (set_rp_Header (fold_left header_Del hopHeaders (removeConnectionHeaders (rp_Header res))) res) Hw)
    as (h & es & w & H1 & H2 & H3 & H4). exists h, es, w. split_and!; [done|done| |done]. cbn [set_rp_Header rp_Header rp_Trailer] in H3.
  intros k. rewrite H3. cbv zeta. pose proof (values_response_header res rw k Hc) as Hv.
  destruct (0 <? size (rp_Trailer res))%nat; [rewrite values_Add by done|]; rewrite Hv, ?andb_true_r, ?andb_false_r, <- ?app_assoc; [done|].
  by rewrite app_nil_r.
Qed.

(** ** Streams *)

(** A waiting flush is announced by the timer: it is armed, or its run has started. *)
Definition timer_ok (m : maxLatencyWriter) (w : writer) : Prop :=
  (Nat.b2n (default false (m_t m)) + started m = Nat.b2n (flushPending m))%nat /\
  (last (w_events w) = Some Flushed \/ flushPending m = true).

(** The steps of the writer and of its timer. *)
Inductive stream_step := DoWrite (data : string) | DoTick (t : tick).

Definition do_stream (s : maxLatencyWriter * writer) (st : stream_step) : maxLatencyWriter * writer :=
  match st with
  | DoWrite data => (latency_Write data s.1 s.2).2
  | DoTick t => do_tick s.1 s.2 t
  end.

Lemma timer_ok_tick m w t : timer_ok m w -> timer_ok (do_tick m w t).1 (do_tick m w t).2.
Proof.
  intros [H1 H2]. destruct m as [l t' fp n]. unfold timer_ok in *. destruct t; cbn in *.
  - destruct t' as [[]|]; cbn in *; (split; [lia|done]).
  - destruct n as [|n]; [done|]. unfold delayedFlush. cbn. destruct fp; cbn in *.
    + rewrite last_snoc. split; [lia|by left].
    + lia.
Qed.

Lemma timer_ok_write m w data : timer_ok m w -> timer_ok (latency_Write data m w).2.1 (latency_Write data m w).2.2.
Proof.
  intros [H1 H2]. destruct m as [l t' fp n]. unfold latency_Write. destruct (raw_Write data w) as [r w1]. unfold timer_ok in *. cbn in *.
  destruct (l <? 0); cbn; [rewrite last_snoc; by split; [|left]|]. destruct fp; cbn in *; [by split; [|right]|].
  split; [|by right]. assert (n = 0)%nat as -> by lia. done.
Qed.

(** Nothing that a streamed response writes stays behind: whatever the order in which
    writes and the timer run, the expiry of the timer and the run of its function
    flush all that was written, the header at the start included.  Once the
    handler has stopped the writer, no late run touches the client's connection. *)
Theorem stream_flushed_in_time interval w steps :
  let '(m, w') := fold_left do_stream steps (mkLatency interval (Some true) true 0, w) in
  last (w_events (run_ticks m w' [Expire; RunFlush]).2) = Some Flushed /\
  forall ts, (run_ticks (latency_stop m) w' ts).2 = w'.
Proof.
  assert (H : forall s, timer_ok s.1 s.2 -> let s' := fold_left do_stream steps s in timer_ok s'.1 s'.2).
  { induction steps as [|st steps IH]; intros s Hs; cbn [fold_left]; [done|]. apply IH.
    destruct st; [by apply timer_ok_write|by apply timer_ok_tick]. }
  specialize (H (mkLatency interval (Some true) true 0, w)). cbv zeta in H. cbn [fst snd] in H.
  specialize (H (conj eq_refl (or_intror eq_refl))). destruct (fold_left _ _ _) as [[l t fp n] w']. cbn [fst snd] in H.
  destruct H as [H1 H2]. cbn in H1, H2. split.
  - unfold run_ticks. cbn. destruct t as [[]|], fp, n as [|[|n]]; cbn in *; try lia; try (by rewrite last_snoc); by destruct H2.
  - intros ts. unfold latency_stop. cbn. set (t' := match t with Some _ => _ | None => _ end).
    assert (Ht : t' <> Some true) by (subst t'; by destruct t). clearbody t'. clear H1 H2. unfold run_ticks. revert n.
    induction ts as [|k ts IH]; intros n; cbn [fold_left]; [done|]. destruct k; cbn; [by destruct t' as [[]|]; [|apply IH..]|].
    destruct n; [apply IH|]. unfold delayedFlush. cbn. apply IH.
Qed.

(** Without an interval, as lighthouse configures its proxy, nothing flushes a body
    that is not an event stream. *)
Theorem plain_stream_not_flushed w src :
  exists es, w_events (copyResponse w src 0).2 = w_events w ++ es /\ Forall (fun e => e <> Flushed) es.
Proof.
  unfold copyResponse. cbn [Z.eqb negb andb].
  assert (H : forall w n, let '(_, d) := copyBuffer src (mkDest w None) n in
    d_m d = None /\ exists es, w_events (d_w d) = w_events w ++ es /\ Forall (fun e => e <> Flushed) es).
  { clear w. induction src as [|[data rerr] src IH]; intros w n; cbn [copyBuffer]; [by split; [|exists []; rewrite app_nil_r]|].
    assert (Hk : forall w n, let '(_, d) := match rerr with
                                           | None => copyBuffer src (mkDest w None) n
                                           | Some EOF => ((n, None), mkDest w None)
                                           | Some e => ((n, Some (read_error_text e)), mkDest w None)
                                           end in
      d_m d = None /\ exists es, w_events (d_w d) = w_events w ++ es /\ Forall (fun e => e <> Flushed) es).
    { intros w1 n1. destruct rerr as [[]|]; try (by split; [|exists []; rewrite app_nil_r]). apply IH. }
    destruct (0 <? slen data); [|apply Hk]. unfold dest_Write, raw_Write. cbn [d_m d_w]. destruct (write_answer _ _) as [nw [e|]].
    { split; [done|]. exists [Wrote data nw]. by repeat constructor. }
    destruct (negb _); [split; [done|]; exists [Wrote data nw]; by repeat constructor|].
    specialize (Hk (log_event (Wrote data nw) w) (if 0 <? nw then int64 (n + nw) else n)).
    destruct (match rerr with None => _ | Some _ => _ end) as [r d]. destruct Hk as (Hd & es & He & Hf). split; [done|].
    exists (Wrote data nw :: es). rewrite He. cbn. rewrite <- app_assoc. split; [done|]. by constructor. }
  specialize (H w 0). destruct (copyBuffer _ _ _) as [[n err] d]. destruct H as (-> & es & He & Hf). by exists es.
Qed.

(** On a route with hooks the answer goes into a recorder, which cannot be taken
    over: a request to switch the protocol that the runtime accepts is answered
    with 502. *)
Theorem hooked_switch_refused p req res :
  ErrorHandler p = None -> ModifyResponse p = None ->
  RoundTrip (generateOutRequest p req) = Ok res -> rp_StatusCode res = 101 ->
  ServeHTTP p NewRecorder req = Done (WriteHeader 502 NewRecorder).
Proof.
  intros He Hm Hr Hs. unfold ServeHTTP. rewrite Hr, Hs. cbn [Z.eqb StatusSwitchingProtocols]. change (101 =? 101) with true. cbv iota.
  unfold modifyResponse, handleUpgradeResponse, getErrorHandler. rewrite Hm, He. cbv zeta. by destruct (negb _).
Qed.
End Responses.

(** ** Witnesses *)

(** A runtime with a plain answer, one that switches, and one whose body breaks off. *)
Definition demo_reply (path : string) : reply :=
  if (path =? "/attach")%string then
    mkReply 101 {["Connection" := Some ["Upgrade"]; "Upgrade" := Some ["tcp"]]} ∅ ∅ [] true
  else if (path =? "/broken")%string then mkReply 200 ∅ ∅ ∅ [("par", None); ("t", Some (ReadFailed "reset"))] false
  else mkReply 200 {["Connection" := Some ["X-Hop"]; "X-Hop" := Some ["1"]; "Content-Type" := Some ["text/plain"]; "Keep-Alive" := Some ["5"]]}
         {["Etag" := None]} {["Etag" := Some ["e"]]} [("hel", None); ("lo", Some EOF)] false.

Definition demo_proxy_env : ProxyEnv := {|
  RoundTrip := fun r => if (og_Path r =? "/down")%string then Err "connection refused" else Ok (demo_reply (og_Path r));
  HeaderValuesContainsToken := fun vs t => bool_decide (t ∈ vs);
  write_answer := fun _ data => (slen data, None);
  ticks := fun _ => [Expire; RunFlush];
  Hijack := None;
  response_Write := None;
  response_Flush := None;
  under_server := true;
|}.

Definition demo_proxy : ReverseProxy := mkProxy (lighthouse_Director "/var/run/docker.sock") 0 None None.

Definition demo_out (path : string) (h : Header) : outgoing := mkOutgoing "GET" "" "" path (Some h) None 0 false "@".

Definition server_writer : writer := mkWriter ∅ [] true true.

Example configured_proxy : newReverseProxy "unix:///var/run/docker.sock" = Ret demo_proxy.
Proof. reflexivity. Qed.

Definition wants_tcp : Header := {["Connection" := Some ["Upgrade"]; "Upgrade" := Some ["TCP"]]}.

Definition answered_events (path : string) (rw : writer) : list Z * list string :=
  let w := served_writer (@ServeHTTP key_order demo_proxy_env demo_proxy rw (demo_out path wants_tcp)) in
  (statuses (w_events w), omap (fun e => match e with Wrote d _ => Some d | _ => None end) (w_events w)).

Example demo_answers :
  map (fun p => answered_events p server_writer) ["/plain"; "/down"; "/attach"; "/broken"] =
    [([200], ["hel"; "lo"]); ([502], []); ([], []); ([200], ["par"; "t"])] /\
  answered_events "/attach" NewRecorder = ([502], []).
Proof. vm_compute. done. Qed.

Lemma output_survives_stdin_close_witness :
  exists c, rtc (copy_step true) (start_copy ["a"] []) c /\ handler c = Returned /\ to_user c = ["a"].
Proof.
  set (c := mkCopier [] [] ["a"] [] true false true false true true Returned).
  assert (H : rtc (copy_step true) (start_copy ["a"] []) c).
  { unfold start_copy. eapply rtc_l; [apply StdinEnds|]. eapply rtc_l; [apply StdinCloses|]. eapply rtc_l; [apply SelectStdin|].
    eapply rtc_l; [apply Stdout|]. eapply rtc_l; [apply StdoutEnds|]. eapply rtc_l; [apply WaitStdout|]. apply rtc_refl. }
  exists c. split; [exact H|]. split; [reflexivity|].
  exact (proj1 (output_survives_stdin_close true ["a"] [] c H) eq_refl eq_refl).
Defined.

Definition smuggled : Header := {["Connection" := Some [""; "X-Secret"]; "X-Secret" := Some ["s"]]}.

(** The first value is empty and the second names a header: the first is kept
    although the second takes effect. *)
Lemma empty_hop_header_forwarded_witness :
  exists h', og_Header (@generateOutRequest demo_proxy_env demo_proxy (demo_out "/" smuggled)) = Some h' /\
    h' !! "Connection" = Some (Some [""; "X-Secret"]).
Proof.
  apply (@empty_hop_header_forwarded demo_proxy_env demo_proxy (demo_out "/" smuggled) "Connection" ["X-Secret"]);
    [apply (bool_decide_unpack _); vm_compute; exact I|reflexivity| |reflexivity].
  apply (bool_decide_unpack _). vm_compute. exact I.
Defined.

Lemma one_status_witness : @answered_once (@ServeHTTP key_order demo_proxy_env demo_proxy server_writer (demo_out "/down" ∅)).
Proof. apply (@one_status key_order demo_proxy_env); reflexivity. Defined.

Lemma client_response_exact_witness :
  exists w, @ServeHTTP key_order demo_proxy_env demo_proxy server_writer (demo_out "/plain" ∅) = Done w.
Proof.
  destruct (@client_response_exact key_order demo_proxy_env demo_proxy server_writer (demo_out "/plain" ∅) (demo_reply "/plain"))
    as (h & es & w & _ & _ & _ & H).
  - reflexivity.
  - intros es data. reflexivity.
  - intros k Hk. apply elem_of_dom in Hk. revert k Hk.
    apply (bool_decide_unpack (set_Forall (fun k => CanonicalMIMEHeaderKey k = k) (dom (rp_Header (demo_reply "/plain"))))).
    vm_compute. exact I.
  - reflexivity.
  - discriminate.
  - exists w. exact H.
Defined.

Lemma hooked_switch_refused_witness :
  @ServeHTTP key_order demo_proxy_env demo_proxy NewRecorder (demo_out "/attach" wants_tcp) = Done (WriteHeader 502 NewRecorder).
Proof.
  apply (@hooked_switch_refused key_order demo_proxy_env demo_proxy (demo_out "/attach" wants_tcp) (demo_reply "/attach")); reflexivity.
Defined.
