(* ===== verification/CgroupFiles.v ===== *)
(** * More of the cgroup files

    pkg/caelus/util/cgroup: the lookup of the mount point, on which all paths of
    Cgroup.v are based, the statistics that runc reads, and the attributes that
    Cgroup.v leaves out.  [CgroupLib] holds runc and the file system. *)

From Stdlib Require Import Ascii.
From S2P Require Import Prelude GoStrings Topology Cgroup Mountpoint Lighthouse.

#[local] Open Scope string_scope.
#[local] Open Scope Z_scope.
#[local] Open Scope list_scope.

(** ** The mount point *)

(** [strings.Fields] on ASCII text. *)
Fixpoint split_space (s : string) : list string :=
  match s with
  | EmptyString => [""]
  | String c s' =>
      if is_space c then "" :: split_space s'
      else match split_space s' with
           | w :: ws => String c w :: ws
           | [] => [String c ""]
           end
  end.

Definition Fields (s : string) : list string := List.filter (fun w => negb (w =? "")%string) (split_space s).

(** The text behind the first [" - "]; without one [strings.Index] is -1 and the
    slice starts at 2, which panics for a shorter text. *)
Definition post_separator (text : string) : outcome string :=
  match cut_string text " - " with
  | Some (_, post) => Ret post
  | None => if slen text <? 2 then Crash (Panic "slice bounds out of range") else Ret (drop_string 2 text)
  end.

Fixpoint findLoop (lines : list string) (scan_err : option error) : outcome (result string) :=
  match lines with
  | [] => Ret (Err (default "not found" scan_err))
  | text :: lines' =>
      post ← post_separator text;
      match Fields post with
      | [] => Ret (Err "Found no fields post '-'")
      | fsType :: more =>
          if (fsType =? "cgroup")%string then
            if (length more <? 2)%nat then Ret (Err "Error found less than 3 fields post '-'")
            else match Split text " " !! 4%nat with
                 | Some mountpoint => Ret (Ok (filepath_Dir mountpoint))
                 | None => Crash (Panic "index out of range")
                 end
          else findLoop lines' scan_err
      end
  end.

Class CgroupLib := {
  (** The lines of /proc/self/mountinfo up to an error of the scanner. *)
  mountinfo : result (list string * option error);
  os_Stat : string -> option error;
  (** The statistics of runc for a directory: of memory, and the cpu time. *)
  memory_stats : string -> result (gmap string Z);
  cpuacct_usage : string -> result Z;
}.

Section Files.
Context {RO : RangeOrder} {CE : CgroupEnv} {CL : CgroupLib}.

Definition findCgroupMountpointDir : outcome (result string) :=
  match mountinfo with
  | Err e => Ret (Err e)
  | Ok (lines, scan_err) => findLoop lines scan_err
  end.

(** The root and what is cached. *)
Definition GetRoot (cached : option string) : outcome (string * option string) :=
  match cached with
  | Some root => Ret (root, cached)
  | None =>
      r ← findCgroupMountpointDir;
      match r with
      | Err _ => Crash (Fatal "failed to find cgroup mount point dir")
      | Ok root =>
          match os_Stat root with
          | Some _ => Crash (Fatal "cgroup mount point not exists")
          | None => Ret (root, Some root)
          end
      end
  end.

(** ** Statistics *)

Definition GetCPUTotalUsage (pathInCgroup : string) : result Z :=
  match cpuacct_usage (path_Join [env_root; CPUSubsystem; pathInCgroup]) with
  | Err e => Err ("get cpuacct cgroup stats failed: " +:+ e)
  | Ok v => Ok v
  end.

(** The usage without the inactive part of the cache, a uint64 that is read as an int. *)
Definition without_inactive (usage : Z) (stats : gmap string Z) : Z :=
  match stats !! "total_inactive_file" with
  | Some v => if usage <? int64 v then 0 else int64 (usage - int64 v)
  | None => usage
  end.

Definition GetMemoryWorkingSet (pathInCgroup : string) : M (result Z) :=
  match memory_stats (path_Join [env_root; MemorySubsystem; pathInCgroup]) with
  | Err e => mret (Err ("get cpuacct cgroup stats failed: " +:+ e))
  | Ok stats =>
      usage ← GetMemoryUsage pathInCgroup;
      mret (match usage with Err e => Err e | Ok usage => Ok (without_inactive usage stats) end)
  end.

Definition GetMemoryMoveImmigrate (pathInRoot : string) : M (result string) :=
  readMemoryFile (path_Join [env_root; MemorySubsystem; pathInRoot; "memory.move_charge_at_immigrate"]).

Definition GetMemoryCgroupPath (pathInCgroup : string) : string := path_Join [env_root; MemorySubsystem; pathInCgroup].

(** ** Offline cpus *)

Definition bt_usage_file (cgroupPath : string) : string := path_Join [env_root; "cpu,cpuacct"; cgroupPath; "cpuacct.bt_usage"].

Definition CPUOfflineUsage (cgroupPath : string) : M (result Z) :=
  usageBytes ← ReadFile (bt_usage_file cgroupPath);
  mret (match usageBytes with
        | Err e => Err e
        | Ok s => match Atoi s with Some usage => Ok (uint64 usage) | None => Err "invalid syntax" end
        end).

(** The error of the write is logged and dropped. *)
Definition CPUOfflineSetShares (pathInSubSystem value : string) : M (option error) :=
  _ ← WriteFile value (path_Join [env_root; "cpu,cpuacct"; pathInSubSystem]) "cpu.bt_shares"; mret None.

(** ** Limits of block devices *)

(** The text of a limit in KiB per second. *)
Definition limit_text (disk : string) (kiBps : Z) : string := disk +:+ " " +:+ print_nonneg (uint64 (Z.shiftl kiBps 10)).

(** A failed write is logged. *)
Fixpoint limitSet (file cgroupPath : string) (limits : list (string * Z)) : M unit :=
  match limits with
  | [] => mret tt
  | (disk, kiBps) :: limits' => _ ← WriteFile (limit_text disk kiBps) cgroupPath file; limitSet file cgroupPath limits'
  end.

Definition writeLimitSet (cgroupPath : string) (limits : gmap string Z) : M unit :=
  limitSet WriteThrottleFile cgroupPath (range_map "writeLimitSet" limits).
Definition readLimitSet (cgroupPath : string) (limits : gmap string Z) : M unit :=
  limitSet ReadThrottleFile cgroupPath (range_map "readLimitSet" limits).

(** The rates by device number, and the numbers of the disks. *)
Fixpoint numberRates (known : bool) (rates : list (string * Z)) (new : gmap string Z) (sdx : gmap string string) :
    M (gmap string Z * gmap string string) :=
  match rates with
  | [] => mret (new, sdx)
  | (disk, rate) :: rates' =>
      match (if known then sdx !! disk else None) with
      | Some number => numberRates known rates' (<[number := rate]> new) sdx
      | None =>
          deviceNumber ← getBlockDeviceNumbers disk;
          match deviceNumber with
          | Err _ => numberRates known rates' new sdx
          | Ok number => numberRates known rates' (<[number := rate]> new) (if known then sdx else <[disk := number]> sdx)
          end
      end
  end.

Definition BlkioLimitSet (pathInSubSystem : string) (writeKiBps readKiBps : gmap string Z) : M unit :=
  ws ← numberRates false (range_map "writeKiBps" writeKiBps) ∅ ∅;
  rs ← numberRates true (range_map "readKiBps" readKiBps) ∅ ws.2;
  let cgroupPath := path_Join [env_root; "blkio"; pathInSubSystem] in
  _ ← writeLimitSet cgroupPath ws.1;
  readLimitSet cgroupPath rs.1.
End Files.

(** ** The mount table of the kernel *)

(** A word of a line: no byte of it is a space. *)
Definition word (w : string) : Prop := w <> "" /\ no_space w = true.

(** A line as the kernel writes it: words, none of them a single dash (mount points
    start with a slash and optional fields have a colon), the separator, and at
    least a type, a source and options. *)
Record kernel_line := mkLine { k_fields : list string; k_post : list string }.

Definition line_ok (l : kernel_line) : Prop :=
  Forall word (k_fields l) /\ Forall word (k_post l) /\ "-" ∉ k_fields l /\ (5 <= length (k_fields l))%nat /\ (3 <= length (k_post l))%nat.

Definition line_text (l : kernel_line) : string := Join (k_fields l) " " +:+ " - " +:+ Join (k_post l) " ".

Lemma no_space_free w : no_space w = true -> string_free " " w.
Proof.
  induction w as [|c w IH]; cbn; [done|]. intros [Hc Hw]%andb_true_iff. split; [|by apply IH]. intros ->. done.
Qed.

Lemma append_cons c w s : String c w +:+ s = String c (w +:+ s).
Proof. reflexivity. Qed.

Lemma string_prefix_cons c p d s : String.prefix (String c p) (String d s) = if ascii_dec c d then String.prefix p s else false.
Proof. reflexivity. Qed.

(** The first separator is the one between the fields: a word before a space. *)
Lemma cut_word w s : string_free " " w ->
  cut_string (w +:+ s) " - " = match cut_string s " - " with Some (a, b) => Some (w +:+ a, b) | None => None end.
Proof.
  induction w as [|c w IH]; intros Hw; [change ("" +:+ s) with s; by destruct (cut_string s _) as [[]|]|].
  destruct Hw as [Hc Hw]. rewrite append_cons. cbn [cut_string]. unfold HasPrefix. rewrite string_prefix_cons.
  destruct (ascii_dec " " c) as [<-|]; [done|]. rewrite IH by done. by destruct (cut_string s _) as [[]|].
Qed.

Lemma prefix_dash w s : string_free " " w -> w <> "-" -> String.prefix "- " (w +:+ String " " s) = false.
Proof.
  intros Hw Hne. destruct w as [|c [|d w]]; [reflexivity| |]; rewrite !append_cons, string_prefix_cons;
    (destruct (ascii_dec "-" c) as [<-|]; [|done]); [by destruct Hne|].
  rewrite string_prefix_cons. destruct (ascii_dec " " d) as [<-|]; [|done]. by destruct Hw as (_ & Hd & _).
Qed.

Lemma cut_fields fs post : Forall word fs -> "-" ∉ fs -> fs <> [] ->
  cut_string (Join fs " " +:+ " - " +:+ post) " - " = Some (Join fs " ", post).
Proof.
  intros Hf Hd Hne. induction Hf as [|w fs [Hw0 Hw] Hf IH]; [done|]. apply not_elem_of_cons in Hd as [_ Hd].
  apply no_space_free in Hw. destruct fs as [|w' fs].
  - cbn [Join]. rewrite cut_word by done.
    assert (Hs : cut_string (" - " +:+ post) " - " = Some ("", post)) by (by destruct post). rewrite Hs. by rewrite string_app_nil_r.
  - change (Join (w :: w' :: fs) " ") with (w +:+ " " +:+ Join (w' :: fs) " ").
    rewrite !string_app_assoc, cut_word by done. change (" " +:+ ?s) with (String " " s). cbn [cut_string].
    assert (Hp : HasPrefix (String " " (Join (w' :: fs) " " +:+ " - " +:+ post)) " - " = false).
    { inversion Hf as [|? ? [Hw0' Hw'] _]; subst. apply no_space_free in Hw'. apply not_elem_of_cons in Hd as [Hd _].
      unfold HasPrefix. change (String.prefix "- " (Join (w' :: fs) " " +:+ " - " +:+ post) = false).
      destruct fs as [|w2 fs]; [apply (prefix_dash w' (String "-" (String " " post))); congruence|].
      change (Join (w' :: w2 :: fs) " ") with (w' +:+ " " +:+ Join (w2 :: fs) " "). rewrite !string_app_assoc.
      apply (prefix_dash w' (Join (w2 :: fs) " " +:+ " - " +:+ post)); congruence. }
    rewrite Hp, IH by done. done.
Qed.

Lemma Fields_words ps : Forall word ps -> Fields (Join ps " ") = ps.
Proof.
  unfold Fields. assert (Hsp : forall w s, no_space w = true -> split_space (w +:+ String " " s) = w :: split_space s).
  { intros w s. induction w as [|c w IH]; intros Hw; [done|]. rewrite append_cons. cbn [split_space no_space] in *. apply andb_true_iff in Hw as [Hc Hw].
    apply negb_true_iff in Hc. by rewrite Hc, IH. }
  assert (H1 : forall w, no_space w = true -> split_space w = [w]).
  { intros w. induction w as [|c w IH]; intros Hw; cbn; [done|]. cbn in Hw. apply andb_true_iff in Hw as [Hc Hw].
    apply negb_true_iff in Hc. by rewrite Hc, IH. }
  intros Hf. induction Hf as [|w ps [Hw0 Hw] Hf IH]; [done|]. destruct ps as [|w' ps].
  - cbn [Join]. rewrite H1 by done. cbn. destruct (String.eqb_spec w ""); done.
  - change (Join (w :: w' :: ps) " ") with (w +:+ String " " (Join (w' :: ps) " ")). rewrite Hsp by done.
    cbn [List.filter]. destruct (String.eqb_spec w ""); [done|]. cbn [negb]. by rewrite IH.
Qed.

Lemma Split_fields fs s : Forall word fs -> fs <> [] -> Split (Join fs " " +:+ String " " s) " " = fs ++ Split s " ".
Proof.
  intros Hf Hne. induction Hf as [|w fs [_ Hw] Hf IH]; [done|]. apply no_space_free in Hw. destruct fs as [|w' fs].
  - cbn [Join app]. by rewrite Split_app_sep.
  - change (Join (w :: w' :: fs) " ") with (w +:+ " " +:+ Join (w' :: fs) " ").
    rewrite !string_app_assoc. change (" " +:+ (Join (w' :: fs) " " +:+ String " " s)) with (String " " (Join (w' :: fs) " " +:+ String " " s)).
    rewrite Split_app_sep by done. rewrite IH by done. done.
Qed.

(** What the lookup should find: the directory above the mount point (the fifth
    field) of the first mount of type cgroup. *)
Fixpoint first_cgroup (ls : list kernel_line) : option string :=
  match ls with
  | [] => None
  | l :: ls' => if bool_decide (k_post l !! 0%nat = Some "cgroup") then k_fields l !! 4%nat else first_cgroup ls'
  end.

Lemma findLoop_lines ls scan_err : Forall line_ok ls ->
  findLoop (map line_text ls) scan_err = Ret (match first_cgroup ls with
                                              | Some m => Ok (filepath_Dir m)
                                              | None => Err (default "not found" scan_err)
                                              end).
Proof.
  intros H. induction H as [|[fs ps] ls (Hf & Hp & Hd & H5 & H3) _ IH]; [done|]. cbn in Hf, Hp, Hd, H5, H3.
  assert (Hne : fs <> []) by (by intros ->; cbn in H5; lia).
  cbn [map findLoop first_cgroup k_post k_fields]. unfold post_separator, line_text. cbn [k_post k_fields].
  rewrite cut_fields by done. unfold mbind, outcome_bind. rewrite Fields_words by done.
  destruct ps as [|ty more]; [cbn in H3; lia|]. cbn [lookup list_lookup length] in *.
  rewrite (bool_decide_ext _ (ty = "cgroup")) by (split; [by intros [= ->]|by intros ->]).
  destruct (String.eqb_spec ty "cgroup") as [->|Hty]; [|by rewrite bool_decide_eq_false_2].
  rewrite bool_decide_eq_true_2 by done. assert (Hm : (length more <? 2)%nat = false) by (apply Nat.ltb_ge; lia). rewrite Hm.
  change (" - " +:+ Join ("cgroup" :: more) " ") with (String " " ("- " +:+ Join ("cgroup" :: more) " ")).
  rewrite Split_fields by done. rewrite lookup_app_l by lia.
  destruct (fs !! 4%nat) eqn:E4; [done|]. apply lookup_ge_None in E4. lia.
Qed.

(** For every mount table that the kernel writes the root is found without a panic:
    the directory above the first mount of type cgroup, which
    must exist; the agent ends when there is none, and a root that was found once
    is not looked up again. *)
Theorem root_above_first_cgroup {CL : CgroupLib} ls :
  mountinfo = Ok (map line_text ls, None) -> Forall line_ok ls ->
  GetRoot None = match first_cgroup ls with
                 | None => Crash (Fatal "failed to find cgroup mount point dir")
                 | Some m => match os_Stat (filepath_Dir m) with
                             | Some _ => Crash (Fatal "cgroup mount point not exists")
                             | None => Ret (filepath_Dir m, Some (filepath_Dir m))
                             end
                 end /\
  forall r c, GetRoot None = Ret (r, c) -> GetRoot c = Ret (r, c).
Proof.
  intros Hm Hl. assert (H : GetRoot None = match first_cgroup ls with
    | None => Crash (Fatal "failed to find cgroup mount point dir")
    | Some m => match os_Stat (filepath_Dir m) with
                | Some _ => Crash (Fatal "cgroup mount point not exists")
                | None => Ret (filepath_Dir m, Some (filepath_Dir m))
                end
    end).
  { unfold GetRoot, findCgroupMountpointDir. rewrite Hm, findLoop_lines by done. by destruct (first_cgroup ls). }
  split; [done|]. intros r c. rewrite H. repeat case_match; try done. by intros [= <- <-].
Qed.

(** ** Values *)

Section Values.
Context {RO : RangeOrder} {CE : CgroupEnv} {CL : CgroupLib}.

(** The working set is the usage without the inactive cache, and never negative,
    also when the kernel counts more inactive than used memory; it reads
    the files without changing them. *)
Theorem working_set_bounds pathInCgroup w stats usage inactive :
  memory_stats (path_Join [env_root; MemorySubsystem; pathInCgroup]) = Ok stats ->
  GetMemoryUsage pathInCgroup w = (Ok usage, w) -> 0 <= usage < 2 ^ 63 ->
  stats !! "total_inactive_file" = Some inactive -> 0 <= inactive < 2 ^ 63 ->
  exists v, GetMemoryWorkingSet pathInCgroup w = (Ok v, w) /\ v = Z.max 0 (usage - inactive) /\ 0 <= v <= usage.
Proof.
  intros Hm Hu Hr Hs Hi. exists (Z.max 0 (usage - inactive)). split; [|split; [done|lia]].
  unfold GetMemoryWorkingSet. rewrite Hm. unfold mbind, mret, M_bind, M_ret. rewrite Hu. unfold without_inactive. rewrite Hs.
  rewrite (int64_id inactive) by (unfold in_int64; lia). destruct (Z.ltb_spec usage inactive); do 2 f_equal; [lia|].
  rewrite int64_id by (unfold in_int64; lia). lia.
Qed.

Lemma parse_digits_newline s acc : parse_digits acc (s +:+ String newline "") = None.
Proof.
  revert acc. induction s as [|c s IH]; intros acc; [reflexivity|].
  change (String c s +:+ String newline "") with (String c (s +:+ String newline "")). cbn [parse_digits].
  destruct (char_digit c); [apply IH|done].
Qed.

Lemma Atoi_newline s : Atoi (s +:+ String newline "") = None.
Proof.
  assert (Hp : forall t, parse_nonempty (t +:+ String newline "") = None).
  { intros t. pose proof (parse_digits_newline t 0) as H. unfold parse_nonempty. by destruct (t +:+ String newline ""). }
  destruct s as [|c s]; [reflexivity|].
  change (String c s +:+ String newline "") with (String c (s +:+ String newline "")). unfold Atoi.
  pose proof (Hp (String c s)) as H. change (String c s +:+ String newline "") with (String c (s +:+ String newline "")) in H.
  destruct c as [[] [] [] [] [] [] [] []]; rewrite ?Hp, ?H; reflexivity.
Qed.

(** The kernel ends what it shows with a newline, and it is not removed before the number is parsed:
    the cpu usage of offline jobs is an error whatever it is. *)
Theorem offline_usage_never_read cgroupPath text w :
  files w !! bt_usage_file cgroupPath = Some (text +:+ String newline "") ->
  exists e, CPUOfflineUsage cgroupPath w = (Err e, w).
Proof.
  intros H. unfold CPUOfflineUsage, mbind, mret, M_bind, M_ret, ReadFile. rewrite H, Atoi_newline. by eexists.
Qed.

(** A rate in KiB is written in bytes. *)
Lemma limit_text_exact disk kiBps : 0 <= kiBps < 2 ^ 54 -> limit_text disk kiBps = disk +:+ " " +:+ print_nonneg (kiBps * 1024).
Proof.
  intros H. unfold limit_text. do 3 f_equal. rewrite Z.shiftl_mul_pow2 by lia. change (2 ^ 10) with 1024. apply uint64_id.
  unfold in_uint64. lia.
Qed.

(** A limit of 2^54 KiB wraps around to 0, which the kernel takes for no limit. *)
Example limit_text_wraps : limit_text "8:0" (2 ^ 54) = "8:0 0".
Proof. reflexivity. Qed.

Lemma limitSet_files file dir limits w :
  (forall n p d, env_write n p d = None) -> (forall p d, env_readback p d = d) ->
  files (limitSet file dir limits w).2 =
    fold_left (fun fs '(disk, k) => <[path_Join [dir; file] := limit_text disk k]> fs) limits (files w).
Proof.
  intros Hw Hr. revert w. induction limits as [|[disk k] limits IH]; intros w; cbn [limitSet fold_left]; [done|].
  unfold mbind, M_bind, WriteFile, write_path. rewrite Hw, Hr. by rewrite IH.
Qed.
End Values.

(** ** Witnesses *)

(** The table of a host with cgroup v1 hierarchies below /sys/fs/cgroup. *)
Definition demo_lines : list kernel_line := [
  mkLine ["25"; "30"; "0:23"; "/"; "/sys"; "rw,nosuid"; "shared:7"] ["sysfs"; "sysfs"; "rw"];
  mkLine ["34"; "33"; "0:29"; "/"; "/sys/fs/cgroup/systemd"; "rw,nosuid"; "shared:9"] ["cgroup"; "cgroup"; "rw,xattr,name=systemd"];
  mkLine ["36"; "33"; "0:31"; "/"; "/mnt/cgroup/cpu"; "rw"] ["cgroup"; "cgroup"; "rw,cpu"]].

Definition demo_lib : CgroupLib := {|
  mountinfo := Ok (map line_text demo_lines, None);
  os_Stat := fun _ => None;
  memory_stats := fun _ => Ok {["total_inactive_file" := 4096]};
  cpuacct_usage := fun _ => Ok 0;
|}.

Lemma demo_lines_ok : Forall line_ok demo_lines.
Proof.
  unfold demo_lines, line_ok, word. repeat constructor; cbn; try done; try lia; apply (bool_decide_unpack _); vm_compute; exact I.
Qed.

Lemma root_above_first_cgroup_witness : @GetRoot demo_lib None = Ret ("/sys/fs/cgroup", Some "/sys/fs/cgroup").
Proof.
  rewrite (proj1 (@root_above_first_cgroup demo_lib demo_lines eq_refl demo_lines_ok)). vm_compute. reflexivity.
Defined.

(** A table whose line lacks the separator is not one of the kernel: the text behind
    its second byte is taken, and a shorter line panics. *)
Example no_separator_panics : findLoop ["-"] None = Crash (Panic "slice bounds out of range").
Proof. reflexivity. Qed.

Definition demo_cgroup_env : CgroupEnv := {|
  env_root := "/sys/fs/cgroup"; env_write := fun _ _ _ => None; env_readback := fun _ d => d; env_cpuinfo := Ok [];
  env_readdir := fun _ => Ok []; env_walk := fun _ => Ok []; env_pids := fun _ _ => Pids []; |}.

Definition demo_world : world :=
  mkWorld {["/sys/fs/cgroup/memory/kubepods/offline/memory.usage_in_bytes" := "10000" +:+ String newline "";
            "/sys/fs/cgroup/cpu,cpuacct/kubepods/offline/cpuacct.bt_usage" := "77" +:+ String newline ""]} 0 ∅ 0 false false false.

Lemma working_set_bounds_witness :
  exists v, @GetMemoryWorkingSet demo_cgroup_env demo_lib "/kubepods/offline" demo_world = (Ok v, demo_world) /\ v = 5904.
Proof.
  destruct (@working_set_bounds demo_cgroup_env demo_lib "/kubepods/offline" demo_world {["total_inactive_file" := 4096]} 10000 4096)
    as (v & Hv & -> & _); try (vm_compute; reflexivity); try lia.
  eexists. split; [exact Hv|reflexivity].
Defined.

Lemma offline_usage_never_read_witness :
  exists e, @CPUOfflineUsage demo_cgroup_env "/kubepods/offline" demo_world = (Err e, demo_world).
Proof. apply (@offline_usage_never_read demo_cgroup_env "/kubepods/offline" "77"). vm_compute. reflexivity. Defined.
