(* ===== verification/ProjectIO.v ===== *)
(** * Writing the files of project quotas

    pkg/caelus/diskquota/manager/projectquota/projectfile.go: the check of the two
    files at the start, and the replacement of a file by a temporary one that is
    written next to it and renamed.  The texts are those of ProjectFile.v.  The
    state keeps the contents of the files after every system call, in its
    order: these are what a process that starts after a crash can find. *)

From Stdlib Require Import Ascii.
From S2P Require Import Prelude GoStrings Cgroup ProjectFile Mountpoint.

#[local] Open Scope string_scope.
#[local] Open Scope Z_scope.
#[local] Open Scope list_scope.

Definition tmpPrefix : string := ".".

Class TempFs := {
  InHostNs : bool;
  (** [os.Lstat]: an error, or whether the file is a regular one. *)
  Lstat : string -> option bool;
  (** The random part of a name that is not in use. *)
  temp_random : string -> gmap string string -> string;
  temp_fresh : forall dir fs, fs !! (dir +:+ "/" +:+ tmpPrefix +:+ temp_random dir fs) = None;
  (** Whether the [n]-th system call fails, and what a failed write leaves. *)
  sys_fails : nat -> option error;
  written_part : string -> string;
}.

Record tfs := mkTfs {
  t_files : gmap string string;
  t_calls : nat;
  (** The files after each call. *)
  t_trail : list (gmap string string);
}.

Definition T (A : Type) : Type := tfs -> A * tfs.
#[export] Instance T_ret : MRet T := fun A a s => (a, s).
#[export] Instance T_bind : MBind T := fun A B f m s => let '(a, s') := m s in f a s'.

Section Writing.
Context {TF : TempFs} {IR : IdRange}.

Definition projectsPath : string := if InHostNs then "/etc/projects" else path_Join [RootFS; "/etc/projects"].
Definition projidPath : string := if InHostNs then "/etc/projid" else path_Join [RootFS; "/etc/projid"].

(** A file is fine when it is missing or regular. *)
Definition plain_file (p : string) : bool := default true (Lstat p).

Definition projFilesAreOK : option error :=
  if plain_file projectsPath then
    if plain_file projidPath then None else Some (projidPath +:+ " exists but is not a plain file, cannot continue")
  else Some (projectsPath +:+ " exists but is not a plain file, cannot continue").

Definition NewProjectFile : outcome unit :=
  match projFilesAreOK with
  | Some err => Crash (Fatal ("project files are not ok: " +:+ err))
  | None => Ret tt
  end.

(** A system call: what it does to the files when it works and when it fails. *)
Definition syscall (works fails : gmap string string -> gmap string string) : T (option error) := fun s =>
  let e := sys_fails (t_calls s) in
  let fs := match e with None => works (t_files s) | Some _ => fails (t_files s) end in
  (e, mkTfs fs (S (t_calls s)) (t_trail s ++ [fs])).

Definition get_files : T (gmap string string) := fun s => (t_files s, s).

(** The deferred function for an error; its own errors are logged. *)
Definition cleanup (shouldClose : bool) (tmpPath : string) : T unit :=
  _ ← (if shouldClose then syscall id id else mret None);
  _ ← syscall (delete tmpPath) id;
  mret tt.

Definition tmpPathOf (pathFile : string) (fs : gmap string string) : string :=
  let dir := filepath_Dir pathFile in dir +:+ "/" +:+ tmpPrefix +:+ temp_random dir fs.

Definition writeByTempFile (pathFile data : string) : T (option error) :=
  fs ← get_files;
  let tmpPath := tmpPathOf pathFile fs in
  let fail shouldClose err := (_ ← cleanup shouldClose tmpPath; mret (Some err)) in
  e ← syscall (insert tmpPath "") id;
  match e with Some err => mret (Some err) | None =>
  e ← syscall (insert tmpPath data) (insert tmpPath (written_part data));
  match e with Some err => fail true err | None =>
  e ← syscall id id;
  match e with Some err => fail true err | None =>
  e ← syscall id id;
  match e with Some err => fail false err | None =>
  e ← syscall (fun fs => <[pathFile := default "" (fs !! tmpPath)]> (delete tmpPath fs)) id;
  match e with Some err => fail false err | None => mret None
  end end end end end.

(** Both files, as the manager writes them; errors are logged. *)
Definition UpdateFiles (idPaths : gmap Z (list string)) (idNames : gmap Z string) : T unit :=
  _ ← writeByTempFile projectsPath (UpdateProjects InHostNs idPaths);
  _ ← writeByTempFile projidPath (UpdateProjIds idNames);
  mret tt.

(** What a starting process reads; missing files are made. *)
Definition dump (fs : gmap string string) : gmap Z (list string) * gmap Z string :=
  DumpProjectIds InHostNs (default "" (fs !! projectsPath)) (default "" (fs !! projidPath)).

(** ** Crashes *)

(** While [p] is written its contents are the old or the new ones, and no other file
    than the temporary one changes. *)
Definition old_or_new (p data t : string) (before fs : gmap string string) : Prop :=
  (fs !! p = before !! p \/ fs !! p = Some data) /\ forall q, q <> p -> q <> t -> fs !! q = before !! q.

Lemma old_or_new_same p data t before : old_or_new p data t before before.
Proof. split; [by left|done]. Qed.

Section Atomic.
Variables (p data t : string) (before : gmap string string) (trail : list (gmap string string)).
Hypothesis other : t <> p.
Hypothesis fresh : before !! t = None.

(** Before the renaming only the temporary file differs: it is missing or has some text. *)
Definition shape (x : option string) : gmap string string := match x with None => before | Some d => <[t := d]> before end.

(** The state that has gone through old or new contents only. *)
Definition atomic_so_far (fs : gmap string string) (s : tfs) : Prop :=
  t_files s = fs /\ exists new, t_trail s = trail ++ new /\ Forall (old_or_new p data t before) new.

Lemma shape_ok x : old_or_new p data t before (shape x).
Proof.
  destruct x as [d|]; [|apply old_or_new_same]. split; [left; by apply lookup_insert_ne|]. intros q Hq Hqt. by apply lookup_insert_ne.
Qed.

Lemma renamed_ok : old_or_new p data t before (<[p := data]> before).
Proof. split; [right; apply lookup_insert_eq|]. intros q Hq Hqt. by apply lookup_insert_ne. Qed.

Lemma atomic_call works fails fs s :
  atomic_so_far fs s -> old_or_new p data t before (works fs) -> old_or_new p data t before (fails fs) ->
  let '(e, s') := syscall works fails s in atomic_so_far (match e with None => works fs | Some _ => fails fs end) s'.
Proof.
  intros [<- (new & Hn & Hf)] Hw Hx. unfold syscall. destruct (sys_fails (t_calls s)); (split; [done|]);
    (eexists; cbn; rewrite Hn, <- app_assoc; split; [done|]); (apply Forall_app; split; [done|by apply Forall_singleton]).
Qed.

(** A call that leaves the files. *)
Lemma atomic_idle x s : atomic_so_far (shape x) s -> let '(e, s') := syscall id id s in atomic_so_far (shape x) s'.
Proof.
  intros H. pose proof (atomic_call id id (shape x) s H (shape_ok x) (shape_ok x)) as Hc. by destruct (syscall id id s) as [[] ?].
Qed.

Lemma delete_shape x : delete t (shape x) = before.
Proof. destruct x; cbn; [by apply delete_insert_id|by apply delete_id]. Qed.

Lemma atomic_cleanup b x s : atomic_so_far (shape x) s -> exists y, atomic_so_far (shape y) (cleanup b t s).2.
Proof.
  intros H. unfold cleanup, mbind, mret, T_bind, T_ret.
  assert (H1 : exists e s1, (if b then syscall id id else fun s => (None, s)) s = (e, s1) /\ atomic_so_far (shape x) s1).
  { destruct b; [|by do 2 eexists]. pose proof (atomic_idle x s H) as Hi. destruct (syscall id id s) as [e s1]. by do 2 eexists. }
  destruct H1 as (e & s1 & -> & H1).
  pose proof (atomic_call (delete t) id (shape x) s1 H1) as Hc. rewrite delete_shape in Hc.
  specialize (Hc (old_or_new_same _ _ _ _) (shape_ok x)). destruct (syscall (delete t) id s1) as [[e2|] s2]; [by exists x|by exists None].
Qed.
End Atomic.

(** The file is replaced, or an error is returned and it is what it was; at every
    moment its contents are the old or the new ones in full. *)
Lemma writeByTempFile_atomic p data s :
  tmpPathOf p (t_files s) <> p ->
  let '(r, s') := writeByTempFile p data s in
  (exists new, t_trail s' = t_trail s ++ new /\ Forall (old_or_new p data (tmpPathOf p (t_files s)) (t_files s)) new) /\
  match r with
  | None => t_files s' = <[p := data]> (t_files s)
  | Some _ => exists x, t_files s' = shape (tmpPathOf p (t_files s)) (t_files s) x
  end.
Proof.
  set (t := tmpPathOf p (t_files s)). intros Ht. assert (Hfresh : t_files s !! t = None) by apply temp_fresh.
  set (A := atomic_so_far p data t (t_files s) (t_trail s)). set (S := shape t (t_files s)).
  assert (Hs : A (S None) s) by (split; [done|]; exists []; by rewrite app_nil_r).
  assert (Hok : forall x, old_or_new p data t (t_files s) (S x)) by (intros x; by apply shape_ok).
  assert (Hstop : forall x e s1, A (S x) s1 -> let '(r, s') := (Some e : option error, s1) in
    (exists new, t_trail s' = t_trail s ++ new /\ Forall (old_or_new p data t (t_files s)) new) /\
    match r with None => t_files s' = <[p := data]> (t_files s) | Some _ => exists x, t_files s' = S x end).
  { intros x e s1 [Hx Hn]. split; [done|by exists x]. }
  assert (Hfail : forall b x e s1, A (S x) s1 -> let '(r, s') := let '(_, s') := cleanup b t s1 in (Some e : option error, s') in
    (exists new, t_trail s' = t_trail s ++ new /\ Forall (old_or_new p data t (t_files s)) new) /\
    match r with None => t_files s' = <[p := data]> (t_files s) | Some _ => exists x, t_files s' = S x end).
  { intros b x e s1 Hx. destruct (atomic_cleanup p data t (t_files s) (t_trail s) Ht Hfresh b x s1 Hx) as [y Hy].
    destruct (cleanup b t s1) as [[] s2]. by apply (Hstop y e). }
  unfold writeByTempFile, get_files, mbind, mret, T_bind, T_ret. fold t. cbv zeta.
  pose proof (atomic_call p data t (t_files s) (t_trail s) (insert t "") id (S None) s Hs (Hok (Some "")) (Hok None)) as H1.
  destruct (syscall (insert t "") id s) as [[e|] s1]; [by apply (Hstop None)|].
  assert (Hput : forall d, <[t := d]> (S (Some "")) = S (Some d)) by (intros d; apply insert_insert_eq).
  pose proof (atomic_call p data t (t_files s) (t_trail s) (insert t data) (insert t (written_part data)) (S (Some "")) s1 H1) as H2.
  rewrite !Hput in H2. specialize (H2 (Hok _) (Hok _)).
  destruct (syscall (insert t data) _ s1) as [[e|] s2]; [by apply (Hfail true (Some (written_part data)))|].
  pose proof (atomic_idle p data t (t_files s) (t_trail s) Ht (Some data) s2 H2) as H3.
  destruct (syscall id id s2) as [[e|] s3]; [by apply (Hfail true (Some data))|].
  pose proof (atomic_idle p data t (t_files s) (t_trail s) Ht (Some data) s3 H3) as H4.
  destruct (syscall id id s3) as [[e|] s4]; [by apply (Hfail false (Some data))|].
  set (ren := fun fs : gmap string string => <[p := default "" (fs !! t)]> (delete t fs)).
  assert (Hren : ren (S (Some data)) = <[p := data]> (t_files s)).
  { unfold ren, S. rewrite delete_shape by done. cbn. by rewrite lookup_insert_eq. }
  pose proof (atomic_call p data t (t_files s) (t_trail s) ren id (S (Some data)) s4 H4) as H5. rewrite Hren in H5.
  specialize (H5 (renamed_ok p data t (t_files s)) (Hok _)).
  destruct (syscall ren id s4) as [[e|] s5]; [by apply (Hfail false (Some data))|]. by destruct H5.
Qed.

(** The temporary file is none of the two. *)
Lemma temp_is_other p fs : p = projectsPath \/ p = projidPath -> tmpPathOf p fs <> projectsPath /\ tmpPathOf p fs <> projidPath.
Proof.
  intros Hp. unfold tmpPathOf, projectsPath, projidPath in *. generalize (temp_random (filepath_Dir p) fs) as r. intros r.
  destruct InHostNs, Hp as [-> | ->]; split; intros H; vm_compute in H; discriminate.
Qed.

Lemma paths_differ : projectsPath <> projidPath.
Proof. unfold projectsPath, projidPath. destruct InHostNs; vm_compute; discriminate. Qed.

Lemma writeByTempFile_works p data s : (forall n, sys_fails n = None) -> (writeByTempFile p data s).1 = None.
Proof.
  intros H. unfold writeByTempFile, get_files, syscall, mbind, mret, T_bind, T_ret. cbv zeta. cbn [t_calls t_files].
  do 5 (rewrite H; cbn [t_calls t_files]). done.
Qed.

(** The contents of one of the files after a write that may fail. *)
Lemma write_changes_one p other data s :
  (p = projectsPath /\ other = projidPath \/ p = projidPath /\ other = projectsPath) ->
  let '(r, s') := writeByTempFile p data s in
  (exists new, t_trail s' = t_trail s ++ new /\
     Forall (fun fs => (fs !! p = t_files s !! p \/ fs !! p = Some data) /\ fs !! other = t_files s !! other) new) /\
  (t_files s' !! p = t_files s !! p \/ t_files s' !! p = Some data) /\ t_files s' !! other = t_files s !! other /\
  ((forall n, sys_fails n = None) -> t_files s' !! p = Some data).
Proof.
  intros Hp. assert (Ht : tmpPathOf p (t_files s) <> p /\ tmpPathOf p (t_files s) <> other).
  { destruct Hp as [[-> ->] | [-> ->]]; [destruct (temp_is_other projectsPath (t_files s))|destruct (temp_is_other projidPath (t_files s))]; tauto. }
  assert (Hne : other <> p) by (pose proof paths_differ; destruct Hp as [[-> ->] | [-> ->]]; congruence).
  pose proof (writeByTempFile_atomic p data s (proj1 Ht)) as H. pose proof (writeByTempFile_works p data s) as Hw.
  destruct (writeByTempFile p data s) as [r s']. destruct H as ((new & Hn & Hf) & Hr). cbn in Hw. destruct Ht as [Ht1 Ht2]. split_and!.
  - exists new. split; [done|]. eapply Forall_impl; [exact Hf|]. intros fs [H1 H2]. split; [done|by apply H2].
  - destruct r; [|right; rewrite Hr; apply lookup_insert_eq]. destruct Hr as [x ->]. left. destruct x; [|done]. by apply lookup_insert_ne.
  - destruct r; [|rewrite Hr; by apply lookup_insert_ne]. destruct Hr as [x ->]. destruct x; [|done]. by apply lookup_insert_ne.
  - intros Hall. rewrite Hw in Hr by done. rewrite Hr. apply lookup_insert_eq.
Qed.

(** C34: whenever the process dies while the ids are written, and whatever calls fail, the
    next one reads each of the two files as it was before or as it was
    to be, never a part or a mixture; without failures it reads the new ids. *)
Theorem crash_keeps_ids_readable m0 n0 m1 n1 s :
  (forall m, m = m0 \/ m = m1 ->
     map_Forall (fun id paths => recordable_id id /\ Forall (recordable_path InHostNs) paths /\ paths <> []) m) ->
  (forall n, n = n0 \/ n = n1 -> map_Forall (fun id name => recordable_id id /\ ProjectFile.field name) n) ->
  t_files s !! projectsPath = Some (UpdateProjects InHostNs m0) -> t_files s !! projidPath = Some (UpdateProjIds n0) ->
  let s' := (UpdateFiles m1 n1 s).2 in
  exists new, t_trail s' = t_trail s ++ new /\
    Forall (fun fs => ((dump fs).1 = m0 \/ (dump fs).1 = m1) /\ ((dump fs).2 = n0 \/ (dump fs).2 = n1)) new /\
    ((forall k, sys_fails k = None) -> dump (t_files s') = (m1, n1)).
Proof.
  intros Hm Hn H1 H2.
  assert (Dm : forall m fs, m = m0 \/ m = m1 -> fs !! projectsPath = Some (UpdateProjects InHostNs m) -> (dump fs).1 = m).
  { intros m fs Hin Hfs. unfold dump. rewrite Hfs. exact (projects_file_facts InHostNs m (Hm m Hin)). }
  assert (Dn : forall n fs, n = n0 \/ n = n1 -> fs !! projidPath = Some (UpdateProjIds n) -> (dump fs).2 = n).
  { intros n fs Hin Hfs. unfold dump. rewrite Hfs. exact (projid_file_facts InHostNs n (Hn n Hin)). }
  unfold UpdateFiles, mbind, mret, T_bind, T_ret.
  pose proof (write_changes_one projectsPath projidPath (UpdateProjects InHostNs m1) s (or_introl (conj eq_refl eq_refl))) as W1.
  destruct (writeByTempFile projectsPath _ s) as [r1 s1]. destruct W1 as ((new1 & E1 & F1) & A1 & B1 & C1).
  pose proof (write_changes_one projidPath projectsPath (UpdateProjIds n1) s1 (or_intror (conj eq_refl eq_refl))) as W2.
  destruct (writeByTempFile projidPath _ s1) as [r2 s2]. destruct W2 as ((new2 & E2 & F2) & A2 & B2 & C2).
  rewrite H1 in *. rewrite B1, H2 in *. exists (new1 ++ new2). cbn [snd]. split_and!; [by rewrite E2, E1, app_assoc| |].
  - apply Forall_app. split; [eapply Forall_impl; [exact F1|]|eapply Forall_impl; [exact F2|]]; intros fs [Ha Hb].
    + split; [destruct Ha as [Ha|Ha]; eauto|left; eauto].
    + split; [rewrite <- Hb in A1; destruct A1 as [A1|A1]; eauto|destruct Ha as [Ha|Ha]; eauto].
  - intros Hall. rewrite (surjective_pairing (dump _)). f_equal; [apply Dm; [by right|]|apply Dn; [by right|]].
    + rewrite B2. by apply C1.
    + by apply C2.
Qed.

(** The agent starts only when both files are missing or regular ones. *)
Theorem starts_iff_plain_files : NewProjectFile = Ret tt <-> plain_file projectsPath = true /\ plain_file projidPath = true.
Proof. unfold NewProjectFile, projFilesAreOK. destruct (plain_file projectsPath), (plain_file projidPath); naive_solver. Qed.
End Writing.

(** ** Witnesses *)

(** A name longer than any of the files is not one of them. *)
Definition longest (fs : gmap string string) : nat := map_fold (fun k _ n => Nat.max (String.length k) n) 0%nat fs.

Fixpoint long_name (n : nat) : string := match n with O => "" | S n' => String "x"%char (long_name n') end.

Lemma longest_ge fs k : is_Some (fs !! k) -> (String.length k <= longest fs)%nat.
Proof.
  unfold longest. induction fs as [|k' v fs Hk Hf IH] using map_first_key_ind.
  - intros [? Hl]. by rewrite lookup_empty in Hl.
  - intros [? Hl]. rewrite map_fold_insert_first_key by done. apply lookup_insert_Some in Hl as [[<- _]|[_ Hl]]; [lia|].
    specialize (IH (mk_is_Some _ _ Hl)). lia.
Qed.

Definition demo_temp_fs : TempFs.
Proof.
  refine {| InHostNs := true; Lstat := fun _ => Some true; temp_random := fun _ fs => long_name (longest fs);
            sys_fails := fun n => if (n =? 6)%nat then Some "disk full" else None; written_part := fun _ => "" |}.
  intros dir fs. apply eq_None_not_Some. intros H%longest_ge. revert H. rewrite !string_length_app. cbn.
  assert (Hl : forall n, String.length (long_name n) = n) by (induction n; cbn; congruence). rewrite Hl. lia.
Defined.

Definition demo_old : gmap Z (list string) * gmap Z string := ({[1048577 := ["/data/old"]]}, {[1048577 := "emptyDir-old"]}).
Definition demo_new : gmap Z (list string) * gmap Z string := ({[1048578 := ["/data/new"]]}, {[1048578 := "emptyDir-new"]}).
Definition demo_start : tfs :=
  mkTfs {["/etc/projects" := @UpdateProjects id_order true demo_old.1; "/etc/projid" := @UpdateProjIds id_order demo_old.2]} 0 [].

(** The second file is written to a full disk: its temporary file goes away, and
    the names stay the old ones. *)
Example demo_disk_full :
  let s' := (@UpdateFiles demo_temp_fs id_order demo_new.1 demo_new.2 demo_start).2 in
  @dump demo_temp_fs (t_files s') = (demo_new.1, demo_old.2) /\ size (t_files s') = 2%nat /\ t_calls s' = 9%nat.
Proof. vm_compute. done. Qed.

Lemma crash_keeps_ids_readable_witness :
  exists new, t_trail (@UpdateFiles demo_temp_fs id_order demo_new.1 demo_new.2 demo_start).2 = new /\
    Forall (fun fs => (@dump demo_temp_fs fs).1 = demo_old.1 \/ (@dump demo_temp_fs fs).1 = demo_new.1) new.
Proof.
  destruct (@crash_keeps_ids_readable demo_temp_fs id_order demo_old.1 demo_old.2 demo_new.1 demo_new.2 demo_start) as (new & H1 & H2 & _).
  - intros m [-> | ->] id paths Hl; cbn [demo_old demo_new fst] in Hl; apply lookup_singleton_Some in Hl as [<- <-];
      (split_and!; [by split|repeat constructor; by vm_compute|discriminate]).
  - intros n [-> | ->] id name Hl; cbn [demo_old demo_new snd] in Hl; apply lookup_singleton_Some in Hl as [<- <-]; (split; [by split|repeat constructor; by vm_compute]).
  - vm_compute. reflexivity.
  - vm_compute. reflexivity.
  - exists new. split; [exact H1|]. eapply Forall_impl; [exact H2|]. intros fs [H _]. exact H.
Defined.
