(* ===== verification/NMStart.v ===== *)
(** * The start of the operator

    pkg/nm-operator/util/util.go, InitCgroup, and
    pkg/nm-operator/nmoperator/nm_operator.go, NewNMOperator: what the environment
    of the process makes of the Hadoop files and of the cgroups before the server
    takes its first request (NMOperator.v).  [StartEnv] holds the environment
    variables and what the system calls and commands answer; the directories
    of the cgroup file system are a state. *)

From S2P Require Import Prelude GoStrings Cgroup NMApi HadoopConf NMOperator Mountpoint.

#[local] Open Scope string_scope.
#[local] Open Scope Z_scope.
#[local] Open Scope list_scope.

Definition defaultUser : string := "root".
Definition defaultMinDiskGb : Z := 100.
Definition EnvPidFile : string := "PID_FILE".
Definition EnvCgroupPath : string := "CGROUP_PATH".
Definition EnvHadoopYarnHomd : string := "HADOOP_YARN_HOME".
Definition EnvDiskMinCap : string := "DISK_MIN_CAP".
Definition EnvUser : string := "USER".
Definition EnvGroup : string := "GROUP".

Definition LinuxContainerExecutor : string := "org.apache.hadoop.yarn.server.nodemanager.LinuxContainerExecutor".
Definition mountPathKey : string := "yarn.nodemanager.linux-container-executor.cgroups.mount-path".
Definition hierarchyKey : string := "yarn.nodemanager.linux-container-executor.cgroups.hierarchy".

(** The modes of package os: the permissions 0750, and the bit of a directory. *)
Definition mode_0750 : Z := 488.
Definition ModeDir : Z := 2 ^ 31.

Class StartEnv := {
  Getenv : string -> string;
  (** An error of [os.Stat] that is not a missing file, of [os.Mkdir], [os.Chmod]
      and of the command chown, for a path after [n] calls. *)
  stat_fails : nat -> string -> option error;
  mkdir_fails : nat -> string -> option error;
  chmod_fails : nat -> string -> option error;
  chown_fails : nat -> string -> option error;
  cadvisor_Start : option error;
}.

Record start := mkStart {
  s_hadoop : hadoop;
  (** The directories with their modes. *)
  s_dirs : gmap string Z;
  s_calls : nat;
  (** Which directories were given to which user and group. *)
  s_chowned : list (string * string * string);
}.

Definition S (A : Type) : Type := SC start A.

Definition set_dirs (f : gmap string Z -> gmap string Z) (s : start) : start := mkStart (s_hadoop s) (f (s_dirs s)) (s_calls s) (s_chowned s).
Definition next_call (s : start) : start := mkStart (s_hadoop s) (s_dirs s) (Datatypes.S (s_calls s)) (s_chowned s).
Definition add_chowned (c : string * string * string) (s : start) : start :=
  mkStart (s_hadoop s) (s_dirs s) (s_calls s) (s_chowned s ++ [c]).

Section Start.
Context {CE : ConfEnv} {RO : RangeOrder} {OE : OpEnv} {SE : StartEnv}.

Definition on_files {A} (m : H A) : S A := fun s =>
  let '(a, h) := m (s_hadoop s) in Ret (a, mkStart h (s_dirs s) (s_calls s) (s_chowned s)).

(** A call: its error, or its effect. *)
Definition os_call (fails : nat -> string -> option error) (path : string) (f : start -> start) : S (option error) := fun s =>
  match fails (s_calls s) path with
  | Some e => Ret (Some e, next_call s)
  | None => Ret (None, f (next_call s))
  end.

(** [path.Join]: the parts that are not empty, cleaned. *)
Definition Join_path (parts : list string) : string :=
  match List.filter (fun p => negb (p =? "")%string) parts with [] => "" | ps => filepath_Clean (Join ps "/") end.

(** A directory exists with the permissions 0750. *)
Definition ensure_dir (hadoopPath : string) : S (option error) := fun s =>
  match s_dirs s !! hadoopPath with
  | None => os_call mkdir_fails hadoopPath (set_dirs (insert hadoopPath (ModeDir + mode_0750))) s
  | Some mode =>
      match stat_fails (s_calls s) hadoopPath with
      | Some err => Ret (Some err, next_call s)
      | None =>
          if negb (mode =? mode_0750) then os_call chmod_fails hadoopPath (set_dirs (insert hadoopPath (ModeDir + mode_0750))) (next_call s)
          else Ret (None, next_call s)
      end
  end.

Fixpoint subsysLoop (user group cgroupPath hierarchy : string) (subsys : list string) : S (option error) :=
  match subsys with
  | [] => mret None
  | sub :: subsys' =>
      let hadoopPath := Join_path [cgroupPath; sub; hierarchy] in
      e ← ensure_dir hadoopPath;
      match e with
      | Some err => mret (Some err)
      | None =>
          c ← os_call chown_fails hadoopPath (add_chowned (hadoopPath, user, group));
          match c with
          | Some err => sc_crash (Fatal ("chown cgroup path err: " +:+ err))
          | None => subsysLoop user group cgroupPath hierarchy subsys'
          end
      end
  end.

Definition subsystems : list string := ["cpu"; "memory"; "net_cls"].

(** The mount path, which the environment can change; the error of the write. *)
Definition cgroup_mount_path (envCgroupPath : string) : S (result string) :=
  cgroupPath ← on_files (GetConfDataFromFile YarnSiteFile mountPathKey);
  let env := Getenv envCgroupPath in
  if negb (env =? "")%string && negb (env =? cgroupPath)%string then
    e ← on_files (SetMultipleConfDataToFile YarnSiteFile {[mountPathKey := env]});
    mret (match e with Some err => Err err | None => Ok env end)
  else mret (Ok cgroupPath).

Definition InitCgroup (user group envCgroupPath : string) : S (option error) :=
  if negb (Getenv "CONTAINER_EXECUTOR" =? LinuxContainerExecutor)%string then mret None
  else
    p ← cgroup_mount_path envCgroupPath;
    match p with
    | Err err => mret (Some err)
    | Ok cgroupPath =>
        hierarchy ← on_files (GetConfDataFromFile YarnSiteFile hierarchyKey);
        subsysLoop user group cgroupPath hierarchy subsystems
    end.

Record NMOperator := mkOperator {
  no_user : string;
  no_group : string;
  no_cadvisor : bool;
  no_yarnBin : string;
  no_yarnDaemonBin : string;
  no_scheduleDisabled : bool;
}.

Definition env_or (key d : string) : string := let v := Getenv key in if (v =? "")%string then d else v.

(** The least size of the disk in gigabytes. *)
Definition diskMinCapGb : Z := default defaultMinDiskGb (Atoi (Getenv EnvDiskMinCap)).

Definition NewNMOperator (enableCadvisor : bool) : S NMOperator :=
  let user := env_or EnvUser defaultUser in
  let group := env_or EnvGroup defaultUser in
  e ← InitCgroup user group EnvCgroupPath;
  match e with
  | Some err => sc_crash (Fatal ("init cgroup err: " +:+ err))
  | None =>
      match (if enableCadvisor then cadvisor_Start else None) with
      | Some err => sc_crash (Fatal ("cadvisor start err: " +:+ err))
      | None =>
          localDirs ← on_files GetYarnLocalDirs;
          j ← match localDirs with
              | [dir] => on_files (JudgePartitionCapForDataPath 0 diskMinCapGb dir)
              | _ => mret None
              end;
          match j with
          | Some err => sc_crash (Fatal ("judge dataPath partition capacity err: " +:+ err))
          | None =>
              let yarnHome := Getenv EnvHadoopYarnHomd in
              mret (mkOperator user group enableCadvisor (yarnHome +:+ "/bin/yarn") (yarnHome +:+ "/sbin/yarn-daemon.sh") false)
          end
      end
  end.

(** ** What a started operator has *)

(** The directory exists with the permissions 0750. *)
Definition has_dir (path : string) (s : start) : Prop :=
  s_dirs s !! path = Some mode_0750 \/ s_dirs s !! path = Some (ModeDir + mode_0750).

Lemma has_dir_set path q s : has_dir q s -> has_dir q (set_dirs (insert path (ModeDir + mode_0750)) s).
Proof.
  unfold has_dir. cbn. destruct (decide (q = path)) as [->|Hne]; [rewrite lookup_insert_eq; by right|by rewrite lookup_insert_ne].
Qed.

Lemma os_call_spec fails path f (P Q : start -> Prop) :
  (forall s, P s -> Q (f (next_call s))) -> triple P (os_call fails path f) (fun e s => e = None -> Q s).
Proof. intros H s Hs. unfold os_call. destruct (fails _ _); [done|]. intros _. by apply H. Qed.

(** The directories of [done] stay, and [path] joins them. *)
Lemma ensure_dir_spec path done ch :
  triple (fun s => s_chowned s = ch /\ Forall (fun q => has_dir q s) done) (ensure_dir path)
    (fun e s => e = None -> s_chowned s = ch /\ Forall (fun q => has_dir q s) (done ++ [path])).
Proof.
  intros s [Hc Hd].
  assert (Hset : forall s1, s_chowned s1 = ch /\ Forall (fun q => has_dir q s1) done ->
    let s2 := set_dirs (insert path (ModeDir + mode_0750)) (next_call s1) in
    s_chowned s2 = ch /\ Forall (fun q => has_dir q s2) (done ++ [path])).
  { intros s1 [Hc1 Hd1]. split; [done|]. apply Forall_app. split.
    - eapply Forall_impl; [exact Hd1|]. intros q Hq. by apply has_dir_set.
    - apply Forall_singleton. right. apply lookup_insert_eq. }
  unfold ensure_dir. destruct (s_dirs s !! path) as [mode|] eqn:Em.
  - destruct (stat_fails _ _); [done|]. destruct (Z.eqb_spec mode mode_0750) as [->|_]; cbn [negb].
    + intros _. split; [done|]. apply Forall_app. split; [done|]. apply Forall_singleton. by left.
    + apply (os_call_spec _ _ _ (fun s1 => s_chowned s1 = ch /\ Forall (fun q => has_dir q s1) done) _ Hset). by split.
  - by apply (os_call_spec _ _ _ (fun s1 => s_chowned s1 = ch /\ Forall (fun q => has_dir q s1) done) _ Hset).
Qed.

Definition subsys_path (cgroupPath hierarchy sub : string) : string := Join_path [cgroupPath; sub; hierarchy].

Lemma subsysLoop_spec user group cg hi subs done ch :
  triple (fun s => s_chowned s = ch /\ Forall (fun q => has_dir q s) done) (subsysLoop user group cg hi subs)
    (fun e s => e = None -> s_chowned s = ch ++ map (fun sub => (subsys_path cg hi sub, user, group)) subs /\
       Forall (fun q => has_dir q s) (done ++ map (subsys_path cg hi) subs)).
Proof.
  revert done ch. induction subs as [|sub subs IH]; intros done ch; cbn [subsysLoop map].
  { rewrite !app_nil_r. intros s Hs _. exact Hs. }
  eapply triple_bind; [apply ensure_dir_spec|]. intros [e|]; [by intros s _|].
  eapply triple_bind.
  { eapply triple_conseq with (P' := fun s => s_chowned s = ch /\ Forall (fun q => has_dir q s) (done ++ [subsys_path cg hi sub]));
      [intros s Hs; by apply Hs|intros a s Hs; exact Hs|].
    apply (os_call_spec _ _ _ _ (fun s => s_chowned s = ch ++ [(subsys_path cg hi sub, user, group)] /\
      Forall (fun q => has_dir q s) (done ++ [subsys_path cg hi sub]))).
    intros s [Hc Hd]. cbn. by rewrite Hc. }
  intros [e|]; [apply triple_crash|]. specialize (IH (done ++ [subsys_path cg hi sub]) (ch ++ [(subsys_path cg hi sub, user, group)])).
  rewrite <- !app_assoc in IH. cbn [app] in IH.
  eapply triple_conseq; [|intros a s Hs; exact Hs|exact IH]. intros s Hs. by apply Hs.
Qed.

Lemma on_files_keeps {A} (m : H A) s a s' : on_files m s = Ret (a, s') -> s_dirs s' = s_dirs s /\ s_chowned s' = s_chowned s.
Proof. unfold on_files. destruct (m _). by intros [= <- <-]. Qed.

(** The mount path: the one of the environment when there is one, or that of the file. *)
Lemma cgroup_mount_path_value env s p s' :
  cgroup_mount_path env s = Ret (Ok p, s') ->
  p = (if (Getenv env =? "")%string then fst (GetConfDataFromFile YarnSiteFile mountPathKey (s_hadoop s)) else Getenv env) /\
  s_dirs s' = s_dirs s /\ s_chowned s' = s_chowned s.
Proof.
  unfold cgroup_mount_path, mbind, mret, SC_bind, SC_ret, on_files. destruct (GetConfDataFromFile _ _ _) as [v h].
  cbn [fst s_hadoop s_dirs s_chowned].
  destruct (String.eqb_spec (Getenv env) ""); cbn [negb andb]; [by intros [= <- <-]|].
  destruct (String.eqb_spec (Getenv env) v) as [->|]; cbn [negb]; [by intros [= <- <-]|].
  destruct (SetMultipleConfDataToFile _ _ _) as [[e|] h2]; [done|]. by intros [= <- <-].
Qed.

Lemma InitCgroup_spec user group s s' :
  Getenv "CONTAINER_EXECUTOR" = LinuxContainerExecutor ->
  InitCgroup user group EnvCgroupPath s = Ret (None, s') ->
  exists cg hi, cg = (if (Getenv EnvCgroupPath =? "")%string then fst (GetConfDataFromFile YarnSiteFile mountPathKey (s_hadoop s))
                      else Getenv EnvCgroupPath) /\
    Forall (fun sub => has_dir (subsys_path cg hi sub) s') subsystems /\
    s_chowned s' = s_chowned s ++ map (fun sub => (subsys_path cg hi sub, user, group)) subsystems.
Proof.
  intros He. unfold InitCgroup. rewrite He, String.eqb_refl. cbn [negb]. intros H.
  apply sc_bind_Ret in H as (p & s1 & Hp & H). destruct p as [cg|]; [|done].
  apply cgroup_mount_path_value in Hp as (Hcg & Hd & Hc).
  apply sc_bind_Ret in H as (hi & s2 & Hh & H). apply on_files_keeps in Hh as [Hd2 Hc2].
  pose proof (subsysLoop_spec user group cg hi subsystems [] (s_chowned s) s2) as Hl. rewrite H in Hl.
  specialize (Hl (conj (eq_trans Hc2 Hc) (Forall_nil_2 _)) eq_refl) as [H1 H2].
  exists cg, hi. split; [done|]. split; [|done]. by rewrite app_nil_l, Forall_map in H2.
Qed.

(** An operator that has started with the Linux executor has the cgroup of every
    subsystem below the mount path of its environment, or below that of
    the Hadoop files without one: each exists with the
    permissions 0750, and was given to the user who runs the commands. *)
Theorem started_operator_owns_cgroups enableCadvisor s op s' :
  Getenv "CONTAINER_EXECUTOR" = LinuxContainerExecutor ->
  NewNMOperator enableCadvisor s = Ret (op, s') ->
  exists cg hi, cg = (if (Getenv EnvCgroupPath =? "")%string then fst (GetConfDataFromFile YarnSiteFile mountPathKey (s_hadoop s))
                      else Getenv EnvCgroupPath) /\
    Forall (fun sub => has_dir (subsys_path cg hi sub) s') subsystems /\
    s_chowned s' = s_chowned s ++ map (fun sub => (subsys_path cg hi sub, no_user op, no_group op)) subsystems /\
    no_scheduleDisabled op = false.
Proof.
  intros He H. unfold NewNMOperator in H. apply sc_bind_Ret in H as (e & s1 & Hi & H). destruct e; [done|].
  apply InitCgroup_spec in Hi as (cg & hi & Hcg & Hd & Hc); [|done]. exists cg, hi. split; [done|].
  destruct (if enableCadvisor then _ else _); [done|].
  apply sc_bind_Ret in H as (dirs & s2 & Hd2 & H). apply on_files_keeps in Hd2 as [Hd2 Hc2].
  apply sc_bind_Ret in H as (j & s3 & Hj & H).
  assert (Hk : s_dirs s3 = s_dirs s2 /\ s_chowned s3 = s_chowned s2).
  { destruct dirs as [|d [|]]; [by injection Hj as <- <-|by apply on_files_keeps in Hj|by injection Hj as <- <-]. }
  destruct Hk as [Hd3 Hc3]. destruct j; [done|]. injection H as <- <-. cbn [no_user no_group no_scheduleDisabled].
  split; [|split; [by rewrite Hc3, Hc2|done]]. eapply Forall_impl; [exact Hd|]. intros sub Hs. unfold has_dir in *. by rewrite Hd3, Hd2.
Qed.

(** With another executor the start leaves the files and the cgroups. *)
Theorem other_executor_untouched user group s :
  Getenv "CONTAINER_EXECUTOR" <> LinuxContainerExecutor -> InitCgroup user group EnvCgroupPath s = Ret (None, s).
Proof. intros H. unfold InitCgroup. by apply String.eqb_neq in H as ->. Qed.

(** The mode that [os.Stat] reports for a directory has the bit of directories, which
    0750 has not: a directory with the right permissions is changed again. *)
Theorem ready_directory_changed_again path s :
  s_dirs s !! path = Some (ModeDir + mode_0750) -> stat_fails (s_calls s) path = None ->
  ensure_dir path s = os_call chmod_fails path (set_dirs (insert path (ModeDir + mode_0750))) (next_call s).
Proof. intros H1 H2. unfold ensure_dir. rewrite H1, H2. reflexivity. Qed.

(** A mount path of the environment is written only over a property that the file
    has: without it the operator makes the cgroups below the path of
    the environment, and the node manager keeps reading no path at all. *)
Theorem mount_path_needs_property env s p s' c :
  Getenv env <> "" -> read_data (s_hadoop s) YarnSiteFile = Some c -> has_key c mountPathKey = false ->
  cgroup_mount_path env s = Ret (Ok p, s') ->
  p = Getenv env /\ exists c', read_data (s_hadoop s') YarnSiteFile = Some c' /\ Conf_Get c' mountPathKey = "".
Proof.
  intros Hne Hr Hk H. pose proof (cgroup_mount_path_value _ _ _ _ H) as [Hp _].
  apply String.eqb_neq in Hne as Hne'. rewrite Hne' in Hp. split; [done|].
  unfold cgroup_mount_path, mbind, mret, SC_bind, SC_ret, on_files in H. unfold GetConfDataFromFile in H.
  destruct (LoadConf_facts YarnSiteFile (s_hadoop s)) as [Hs Hc]. unfold mbind, mret, H_bind, H_ret in H.
  destruct (LoadConfDataFromFile YarnSiteFile (s_hadoop s)) as [r h1]. cbn [fst snd] in *. subst h1.
  assert (Hv : (match r with Ok c0 => Conf_Get c0 mountPathKey | Err _ => "" end) = "").
  { destruct r as [c0|]; [|done]. destruct (proj1 (Hc c0) eq_refl) as [_ Hr']. rewrite Hr in Hr'. injection Hr' as <-.
    by apply Conf_Get_no_key. }
  rewrite Hv in H. rewrite Hne' in H. cbn [negb andb] in H. cbn [s_hadoop s_dirs s_calls s_chowned] in H.
  destruct (SetMultipleConfDataToFile _ _ _) as [[e|] h2] eqn:Ew; [done|]. injection H as _ <-. cbn [s_hadoop].
  unfold SetMultipleConfDataToFile in Ew. apply read_data_write in Ew as (c1 & Hc1 & Hc2); [|by apply insert_non_empty].
  change (read_data (set_h_calls (s_hadoop s) _) YarnSiteFile) with (read_data (s_hadoop s) YarnSiteFile) in Hc1.
  rewrite Hr in Hc1. injection Hc1 as <-. eexists. split; [done|]. rewrite applyProperties_Get. unfold updated_value.
  rewrite lookup_singleton_eq, Hk. cbn. by apply Conf_Get_no_key.
Qed.
End Start.

(** ** Witnesses *)

Definition demo_site (mount : list PropertyData) : hadoop :=
  mkHadoop {["/etc/hadoop/yarn-site.xml" := mkXml (Some (mount ++ ex_site)) (mkFileInfo 420 0 0)]} 0 ∅ None "" "" "".

Definition demo_property : list PropertyData := [mkProperty mountPathKey "/sys/fs/cgroup" ""; mkProperty hierarchyKey "/hadoop-yarn" ""].

Definition demo_start_env : StartEnv := {|
  Getenv := fun k => if (k =? "CONTAINER_EXECUTOR")%string then LinuxContainerExecutor
                     else if (k =? EnvCgroupPath)%string then "/cgroup" else if (k =? EnvUser)%string then "yarn" else "";
  stat_fails := fun _ _ => None; mkdir_fails := fun _ _ => None; chmod_fails := fun _ _ => None; chown_fails := fun _ _ => None;
  cadvisor_Start := None;
|}.

(** The directory of cpu exists, the others do not. *)
Definition demo_boot (mount : list PropertyData) : start := mkStart (demo_site mount) {["/cgroup/cpu/hadoop-yarn" := ModeDir + 493]} 0 [].

#[local] Existing Instance ex_conf_env.
#[local] Existing Instance ex_op_env.
#[local] Existing Instance key_order.
#[local] Existing Instance demo_start_env.

Lemma started_operator_owns_cgroups_witness :
  exists op s', NewNMOperator false (demo_boot demo_property) = Ret (op, s') /\ has_dir "/cgroup/memory/hadoop-yarn" s' /\
    map (fun c => c.1.1) (s_chowned s') = ["/cgroup/cpu/hadoop-yarn"; "/cgroup/memory/hadoop-yarn"; "/cgroup/net_cls/hadoop-yarn"].
Proof.
  destruct (NewNMOperator false (demo_boot demo_property)) as [[op s']|c] eqn:E; [|vm_compute in E; discriminate E].
  exists op, s'. split; [reflexivity|].
  assert (Hx : Getenv "CONTAINER_EXECUTOR" = LinuxContainerExecutor) by reflexivity.
  destruct (started_operator_owns_cgroups false (demo_boot demo_property) op s' Hx E) as (cg & hi & Hcg & Hd & _ & _).
  vm_compute in E. injection E as <- <-. split; [right; reflexivity|reflexivity].
Defined.

Lemma other_executor_untouched_witness :
  @InitCgroup ex_conf_env key_order
    {| Getenv := fun _ => ""; stat_fails := fun _ _ => None; mkdir_fails := fun _ _ => None; chmod_fails := fun _ _ => None;
       chown_fails := fun _ _ => None; cadvisor_Start := None |} "root" "root" EnvCgroupPath (demo_boot []) = Ret (None, demo_boot []).
Proof. apply other_executor_untouched. discriminate. Defined.

Lemma ready_directory_changed_again_witness :
  ensure_dir "/d" (mkStart (demo_site []) {["/d" := ModeDir + mode_0750]} 0 []) =
    os_call chmod_fails "/d" (set_dirs (insert "/d" (ModeDir + mode_0750))) (next_call (mkStart (demo_site []) {["/d" := ModeDir + mode_0750]} 0 [])).
Proof. apply ready_directory_changed_again; reflexivity. Defined.

Lemma mount_path_needs_property_witness :
  exists s' c', cgroup_mount_path EnvCgroupPath (demo_boot []) = Ret (Ok "/cgroup", s') /\
    read_data (s_hadoop s') YarnSiteFile = Some c' /\ Conf_Get c' mountPathKey = "".
Proof.
  destruct (cgroup_mount_path EnvCgroupPath (demo_boot [])) as [[p s']|c] eqn:E; [|vm_compute in E; discriminate E].
  destruct p as [p|e]; [|vm_compute in E; discriminate E].
  destruct (mount_path_needs_property EnvCgroupPath (demo_boot []) p s' ex_site) as [-> (c' & H1 & H2)];
    [discriminate|reflexivity|reflexivity|exact E|].
  exists s', c'. split; [reflexivity|]. split; [exact H1|exact H2].
Defined.
